(* ===== verification/_CoqProject ===== *)
-Q . S2P
Prelude.v
SdbRow.v
SdbPager.v
SdbNode.v
SdbBtree.v
SdbPersist.v
SdbLeaf.v
SdbCommand.v
SdbTable.v
SdbSession.v
SdbFaults.v
SdbSpec.v
H264Bits.v
H264Nalu.v
H264Parset.v
H264Syntax.v
H264Header.v
H264Slice.v
H264Decode.v
H264Stream.v
H264Faults.v
H264Spec.v
NetList.v
NetState.v
NetSum.v
NetRoute.v
NetArp.v
NetDev.v
NetIp.v
NetPkb.v
NetArpSpec.v
NetCold.v
NetIpSpec.v
NetSpec.v
NetLaws.v
WtList.v
WtPause.v
WtThread.v
MyPrintf.v
MyLine.v
MyEdit.v
MyShell.v
MyParse.v
MySpec.v
MyFaults.v
UfatDev.v
UfatCache.v
UfatView.v
UfatFat.v
UfatTable.v
UfatChain.v
UfatBlock.v
UfatBpb.v
UfatName.v
UfatLong.v
UfatMkfs.v
UfatFile.v
UfatDir.v
UfatRead.v
UfatWrite.v
UfatWalk.v
UfatInsert.v
UfatMake.v
UfatMount.v
UfatTruncate.v
UfatLayout.v
UfatSpec.v
UfatDelete.v
UfatDirSpec.v
UfatFormat.v
UfatMkdir.v
Vfat.v
VfatSpec.v
VfatShell.v
EchoSock.v
EchoSelect.v
EchoSpec.v
EchoServer.v
EchoSeq.v
Echo.v
