(* ===== verification/Prelude.v ===== *)
(** Verification of the C programs of the my-exercise repository.

    The repository is a collection of C programs that do not call each other.  Six of them have
    a core of their own, and are modelled here from their sources under [src/]:

    - simpledb, a small database over one file (files [Sdb*]);
    - h264, an analyser of H.264 streams (files [H264*]);
    - tcpip, an Ethernet, ARP and IP stack in user space (files [Net*]);
    - workthread, threads that can be paused and resumed (files [Wt*]);
    - mysh, a shell with a line editor and a formatter (files [My*]), a FAT file system under it
      (files [Ufat*]) and the commands that join both (files [Vfat*]);
    - the echo servers of socket_server (files [Echo*]).

    This file is the prelude of all of them: programs as functions from a state to an
    [outcome], their weakest preconditions [wp], totality, machine integers, arrays that are
    indexed by C integers, and parts of byte strings with their little-endian numbers.

    * How code is modelled

    A C function that works on a state [S] is a [prog S A].  It returns ([Ret]), leaves through
    exit ([Exit]), runs into undefined behaviour ([Undef]: an access outside of its object, a
    signed overflow, a shift that is too long, a pointer that was never set) or has used up the
    fuel of a loop ([NoFuel]).  Functions of uFAT that return a negative error are a [result],
    with [inl] of that error.  Integers are [Z] and are wrapped where the code has a width
    ([u8], [u16], [u32], [u64], [i32]); pages, blocks, packets and strings are lists of bytes;
    structures are records; heap objects that alias are in finite maps from their addresses.
    What is not in the repository is a parameter: the results of malloc and of system calls, the
    bytes that arrive, the block device under uFAT (class [BlockDevice], with what a device
    promises in [DeviceSpec]; the device of mysh is an instance).

    * simpledb

    [SdbRow] is row.c, [SdbPager] pager.c, [SdbNode] node.c, [SdbBtree] node_btree.c and
    table.c, [SdbCommand] inputs.c, statement.c, meta.c and main.c.  [SdbPersist] specifies the
    pager as an array of pages that survives closing and opening, [SdbLeaf] a leaf as a list of
    entries.  [SdbTable] shows that statements on a table in its root leaf refine operations on a
    sorted list, [SdbSession] that a whole session prints what that list says, also after a
    restart, and [SdbSpec] collects these contracts with instances.  [SdbFaults] is about
    internal nodes: their binary search is right, and the layout of their cells is not.

    * h264

    [H264Bits] is the bit reader bs.h, [H264Nalu] nalu.c, [H264Parset] parset.c, [H264Header]
    header.c and slice.c, [H264Decode] stream.c and decode.c.  [H264Syntax] and [H264Slice] are the
    syntax tables of the standard as encoders; parsers are shown to be their inverses, and
    [H264Stream] does so for a file with start codes and emulation prevention, through main.
    [H264Faults] shows where buffers are left on streams that the standard allows.

    * tcpip

    [NetState] has the structures, the packet buffers and the store of links, [NetList] the
    lists of utils.h, [NetSum] the checksum, [NetRoute] route.c, [NetArp] arp.c and
    arp_cache.c, [NetDev] netdev.c with the loopback and tap drivers, [NetIp] ip.c.  [NetPkb]
    has the invariants every operation keeps and the accounting of buffers, [NetArpSpec],
    [NetCold] and [NetIpSpec] the behaviour of the parts, [NetSpec] and [NetLaws] that of the
    stack from the frames that arrive to those that leave.

    * workthread

    [WtList] is list.h.  [WtThread] and [WtPause] are workThread.c and bsem.h as transition
    systems whose steps are single statements of several threads, with invariants over every
    interleaving, a pause that holds and a resume that wakes.

    * mysh

    [MyPrintf] is printf.c, [MyLine] the line editor of shell.c, [MyShell] the rest of shell.c
    and the commands of shell_cmd_tbl.c.  [MyEdit] shows that the editor keeps a line with a
    cursor and a terminal row in step, [MyParse] that the words of a line are found, [MySpec]
    that the shell is an abstract shell, [MyFaults] where it is not.

    uFAT: [UfatDev] has the structures, the device and results, [UfatCache] the cache of ufat.c,
    [UfatFat] its allocation table, [UfatBpb] the opening of a volume, [UfatBlock] block.c,
    [UfatMkfs] ufat_mkfs.c, [UfatFile] ufat_file.c, [UfatName] and [UfatDir] ufat_ent.c and
    ufat_dir.c.  The theory is in layers.  [holds u V] ([UfatCache]) says that a state is sound
    and shows the blocks [V]; [UfatView] shows that the cache can not be seen otherwise.  On [V],
    [UfatTable] reads the table as a function from clusters to entries, [UfatChain] has chains of
    clusters, freeing and allocation, [UfatRead], [UfatWrite] and [UfatTruncate] files as
    sequences of bytes, [UfatWalk] directories as sequences of raw entries and as lists of
    entries with names, [UfatLong] the encodings of entries and names, [UfatInsert] and
    [UfatMake] new entries, [UfatDelete] the removal of entries, [UfatMkdir] directories that are
    made.  [UfatLayout] and [UfatFormat] show that a formatted device is opened as an empty
    volume.  [UfatMount], [UfatSpec] and [UfatDirSpec] collect what the library promises, with a
    small volume on which each theorem is used.

    [Vfat] is vfat.c, on the shell, the file system and the current directory.  [VfatSpec] has
    what its commands promise, and [VfatShell] the program as a whole: it lifts the theorems of
    the shell to the state with the file system, and shows that a line with a file command runs
    the function of that command.

    * echo servers

    [EchoSock] has the calls of the system as the programs use them (class [Kernel], with what
    they rely on in [KernelSpec]), the history of a process, and utils.c; [EchoSelect] is
    select-server.c, [EchoSeq] sequential-server.c.  [EchoSpec] says what a peer is to be
    answered and what a history has to satisfy, [EchoServer] shows that every round of the
    server over select keeps it, and [Echo] collects what both servers promise, with a system
    that answers from a script.

    * What the theorems show

    Refinements: sessions of simpledb, streams of the analyser, the shell and the whole program,
    files, the cache over the device, the search in a directory, the replies of the echo servers,
    which also agree with each other.  Round trips: rows, pages over a restart, parameter sets,
    slice headers, emulation prevention, entries of the table, files that are made, found and
    deleted.  Functional behaviour: selects, answers to ARP requests, routes, listings, new and
    deleted entries, new directories, new volumes, formats.  Termination: freeing a chain
    whatever the table holds, serving a connection.  Invariants and safety over all runs: workers
    and their semaphores, other files while one is written, attributes of entries, calls of uFAT
    in any order with any failure of the device.  Errors and bounds: refused names, arguments and
    packets, and the inputs that leave a buffer.  Where the code does not do what it means to, a
    theorem states what it does instead.

    * Fuel

    Most loops recurse on a count or a list of the code.  The others have fuel, computed from the
    state where it can be: a binary search over 32 bits has 33 rounds, a path in the tree of
    pages 101, a select a round for every cell of 100 pages; a chain of clusters is freed in at
    most a round for every cluster, a file is read and written in a round for every byte, a
    directory whose chain does not meet itself is read in a round for every entry there is on the
    volume ([dir_fuel]); a line is edited in the rounds that [read_fuel] counts, and a stream is
    parsed in a round for every byte.  Theorems about these functions have [Ret] as the outcome,
    so that they include that the fuel is enough.  The main loops of simpledb and of mysh take
    the number of lines as fuel, which their theorems compare with the lines of the session.  The
    loop over select never ends: it is run for any number of rounds; a connection of the
    sequential server takes a round for every byte that is to come.  The allocation of raw
    entries and the choice of a short name have the fuel of a directory too, which is enough
    while the directory does not grow.

    * Not modelled

    Of tcpip: ICMP, whose calls are commented out, the threads and signals of main, the ioctl
    calls of the tap device, and debug output.  Of workthread: the demonstration in main.c and
    bsem_post_all, which nothing calls.  Of h264: opening and reading the file, and traces. Of
    mysh: ufat_strerror, which nothing calls, and the settings of the terminal. Of the echo
    servers: signals such as SIGPIPE, and what is printed on standard output. Other code of the
    repository: fat32 is a third-party file system, which its demo calls; the other socket
    servers run a copy of the sequential one in threads, are built on libuv or relay bytes;
    kdriver is a stub for the Linux kernel; newMenu, qt, console-test, python and helloweb are
    not C.  Theorems are missing for directories that grow while an entry is made, for moving
    entries, for paths of several names, and for formatting devices whose blocks are not of 512
    bytes; these functions are modelled. *)

From stdpp Require Export base numbers list option gmap.
From Stdlib Require Export ZArith Lia.
From Stdlib Require String Ascii.

#[global] Open Scope Z_scope.

(** * Programs

    A C function that reads and writes some state [S] is a [prog S A].  It
    returns, or leaves through [exit], or runs into undefined behaviour (an
    access outside its object, an undefined shift), or the fuel given to one of
    its loops is used up. *)

Inductive outcome (S A : Type) : Type :=
| Ret (a : A) (s : S)
| Exit (code : Z) (s : S)
| Undef
| NoFuel.
Arguments Ret {S A} a s.
Arguments Exit {S A} code s.
Arguments Undef {S A}.
Arguments NoFuel {S A}.

Definition prog (S A : Type) : Type := S -> outcome S A.

#[global] Instance prog_ret {S} : MRet (prog S) := fun A a s => Ret a s.
#[global] Instance prog_bind {S} : MBind (prog S) := fun A B k m s =>
  match m s with
  | Ret a s' => k a s'
  | Exit c s' => Exit c s'
  | Undef => Undef
  | NoFuel => NoFuel
  end.

Definition gets {S A} (f : S -> A) : prog S A := fun s => Ret (f s) s.
Definition modify {S} (f : S -> S) : prog S unit := fun s => Ret tt (f s).
Definition exit_with {S A} (code : Z) : prog S A := fun s => Exit code s.
Definition undef {S A} : prog S A := fun _ => Undef.
Definition nofuel {S A} : prog S A := fun _ => NoFuel.

(** Undefined behaviour unless the condition holds. *)
Definition require {S} (b : bool) : prog S unit := if b then mret tt else undef.

(** The value of an access, undefined behaviour when it is out of range. *)
Definition of_option {S A} (o : option A) : prog S A :=
  match o with Some a => mret a | None => undef end.

(** Runs a program on a part of a larger state. *)
Definition zoom {S T A} (get : S -> T) (set : T -> S -> S) (m : prog T A) : prog S A :=
  fun s => match m (get s) with
           | Ret a t => Ret a (set t s)
           | Exit c t => Exit c (set t s)
           | Undef => Undef
           | NoFuel => NoFuel
           end.

Section Programs.
Context {S : Type}.

Lemma bind_Ret {A B} (m : prog S A) (k : A -> prog S B) s a s' :
  m s = Ret a s' -> (m ≫= k) s = k a s'.
Proof. intros H. unfold mbind, prog_bind. by rewrite H. Qed.

Lemma bind_Undef {A B} (m : prog S A) (k : A -> prog S B) s :
  m s = Undef -> (m ≫= k) s = Undef.
Proof. intros H. unfold mbind, prog_bind. by rewrite H. Qed.

Lemma bind_Exit {A B} (m : prog S A) (k : A -> prog S B) s c s' :
  m s = Exit c s' -> (m ≫= k) s = Exit c s'.
Proof. intros H. unfold mbind, prog_bind. by rewrite H. Qed.

Lemma bind_inv {A B} (m : prog S A) (k : A -> prog S B) s b s' :
  (m ≫= k) s = Ret b s' -> exists a t, m s = Ret a t /\ k a t = Ret b s'.
Proof. unfold mbind, prog_bind. destruct (m s); try discriminate. eauto. Qed.

Lemma bind_gets {A B} (f : S -> A) (k : A -> prog S B) s : (gets f ≫= k) s = k (f s) s.
Proof. done. Qed.

Lemma bind_modify {B} (f : S -> S) (k : unit -> prog S B) s : (modify f ≫= k) s = k tt (f s).
Proof. done. Qed.

Lemma bind_mret {A B} (a : A) (k : A -> prog S B) s : (mret a ≫= k) s = k a s.
Proof. done. Qed.

Lemma bind_Some {A B} (a : A) (k : A -> prog S B) s : (of_option (Some a) ≫= k) s = k a s.
Proof. done. Qed.

Lemma bind_require {B} (b : bool) (k : unit -> prog S B) s :
  b = true -> (require b ≫= k) s = k tt s.
Proof. by intros ->. Qed.

Lemma bind_assoc {A B C} (m : prog S A) (f : A -> prog S B) (g : B -> prog S C) s :
  ((m ≫= f) ≫= g) s = (m ≫= (fun a => f a ≫= g)) s.
Proof. unfold mbind, prog_bind. by destruct (m s). Qed.

Lemma bind_cong {A B} (m : prog S A) (k k' : A -> prog S B) s :
  (forall a t, k a t = k' a t) -> (m ≫= k) s = (m ≫= k') s.
Proof. intros H. unfold mbind, prog_bind. by destruct (m s). Qed.

(** From a state of [I], [m] has enough fuel, and is in a state of [I] again when it returns. *)
Definition Total (I : S -> Prop) {A} (m : prog S A) : Prop :=
  forall s, I s -> match m s with Ret _ s' => I s' | NoFuel => False | _ => True end.

Lemma total_bind I {A B} (m : prog S A) (k : A -> prog S B) :
  Total I m -> (forall a, Total I (k a)) -> Total I (m ≫= k).
Proof.
  intros Hm Hk s Hs. specialize (Hm s Hs). unfold mbind, prog_bind. destruct (m s) as [a s'| | |]; [by apply Hk|done..].
Qed.

Lemma total_ret I {A} (a : A) : Total I (mret a : prog S A).
Proof. by intros s Hs. Qed.

Lemma total_undef I {A} : Total I (undef : prog S A).
Proof. by intros s Hs. Qed.

Lemma total_gets I {A} (f : S -> A) : Total I (gets f).
Proof. by intros s Hs. Qed.

Lemma total_modify (I : S -> Prop) (f : S -> S) : (forall s, I s -> I (f s)) -> Total I (modify f).
Proof. intros H s Hs. by apply H. Qed.

Lemma total_option I {A} (o : option A) : Total I (of_option o : prog S A).
Proof. destruct o; [apply total_ret|apply total_undef]. Qed.

Lemma total_require I (b : bool) : Total I (require b : prog S unit).
Proof. destruct b; [apply total_ret|apply total_undef]. Qed.
End Programs.

Create HintDb total.
#[export] Hint Resolve total_bind total_ret total_undef total_gets total_option total_require : total.

(** [m] returns from [s], with a result and a state that satisfy [Q]. *)
Definition wp {S A} (m : prog S A) (s : S) (Q : A -> S -> Prop) : Prop :=
  match m s with Ret a t => Q a t | _ => False end.

Section Returns.
Context {S : Type}.

Lemma wp_bind {A B} (m : prog S A) (k : A -> prog S B) s Q :
  wp (m ≫= k) s Q <-> wp m s (fun a t => wp (k a) t Q).
Proof. unfold wp, mbind, prog_bind. by destruct (m s). Qed.

Lemma wp_mono {A} (m : prog S A) s (Q R : A -> S -> Prop) :
  wp m s Q -> (forall a t, Q a t -> R a t) -> wp m s R.
Proof. unfold wp. destruct (m s); eauto. Qed.

(** A step of a sequence, by what is known of its first program. *)
Lemma wp_step {A B} (m : prog S A) (k : A -> prog S B) s Q R :
  wp m s Q -> (forall a t, Q a t -> wp (k a) t R) -> wp (m ≫= k) s R.
Proof. intros H K. apply wp_bind. by eapply wp_mono. Qed.

Lemma wp_ret {A} (a : A) s (Q : A -> S -> Prop) : Q a s -> wp (mret a) s Q.
Proof. done. Qed.

Lemma wp_gets {A} (f : S -> A) s (Q : A -> S -> Prop) : Q (f s) s -> wp (gets f) s Q.
Proof. done. Qed.

Lemma wp_modify (f : S -> S) s (Q : unit -> S -> Prop) : Q tt (f s) -> wp (modify f) s Q.
Proof. done. Qed.

Lemma wp_option {A} (o : option A) a s (Q : A -> S -> Prop) : o = Some a -> Q a s -> wp (of_option o) s Q.
Proof. by intros ->. Qed.

Lemma wp_require (b : bool) s (Q : unit -> S -> Prop) : b = true -> Q tt s -> wp (require b) s Q.
Proof. by intros ->. Qed.

Lemma wp_run {A} (m : prog S A) s (Q : A -> S -> Prop) : wp m s Q -> exists a t, m s = Ret a t /\ Q a t.
Proof. unfold wp. destruct (m s); try done. eauto. Qed.
End Returns.

(** [step H] runs the first statement of the program in the goal with [H]. *)
Ltac step H := rewrite (bind_Ret _ _ _ _ _ H).

(** Runs the statements at the head of the program that only look at or update the state. *)
Ltac pure_steps :=
  repeat first [rewrite bind_assoc | rewrite bind_gets | rewrite bind_modify | rewrite bind_mret | rewrite bind_Some].

(** * Machine integers *)

Definition u8 (x : Z) : Z := x mod 2 ^ 8.
Definition u16 (x : Z) : Z := x mod 2 ^ 16.
Definition u32 (x : Z) : Z := x mod 2 ^ 32.
Definition i32 (x : Z) : Z := (x + 2 ^ 31) mod 2 ^ 32 - 2 ^ 31.

Definition is_byte (x : Z) : Prop := 0 <= x < 256.
Definition byteb (x : Z) : bool := (0 <=? x) && (x <? 256).

#[global] Instance is_byte_dec x : Decision (is_byte x).
Proof. unfold is_byte. apply _. Defined.

Lemma u32_id x : 0 <= x < 2 ^ 32 -> u32 x = x.
Proof. apply Z.mod_small. Qed.

Lemma u8_id x : is_byte x -> u8 x = x.
Proof. apply Z.mod_small. Qed.

Lemma u32_bound x : 0 <= u32 x < 2 ^ 32.
Proof. by apply Z.mod_pos_bound. Qed.

Lemma i32_id x : - 2 ^ 31 <= x < 2 ^ 31 -> i32 x = x.
Proof. intros H. unfold i32. rewrite Z.mod_small; lia. Qed.

Lemma i32_u32 x : i32 (u32 x) = i32 x.
Proof. unfold i32, u32. by rewrite Zplus_mod_idemp_l. Qed.

(** * Arrays indexed by C integers *)

Definition zget {A} (l : list A) (i : Z) : option A :=
  if 0 <=? i then l !! Z.to_nat i else None.

Definition zset {A} (l : list A) (i : Z) (x : A) : option (list A) :=
  if (0 <=? i) && (i <? Z.of_nat (length l)) then Some (<[Z.to_nat i := x]> l) else None.

Lemma zget_Some {A} (l : list A) (i : Z) x :
  zget l i = Some x <-> 0 <= i /\ l !! Z.to_nat i = Some x.
Proof.
  unfold zget. destruct (Z.leb_spec 0 i); split; try tauto; [discriminate|lia].
Qed.

Lemma zget_nat {A} (l : list A) (n : nat) : zget l (Z.of_nat n) = l !! n.
Proof. unfold zget. rewrite (proj2 (Z.leb_le _ _)) by lia. by rewrite Nat2Z.id. Qed.

Lemma zset_nat {A} (l : list A) (n : nat) x :
  (n < length l)%nat -> zset l (Z.of_nat n) x = Some (<[n := x]> l).
Proof.
  intros H. unfold zset. rewrite (proj2 (Z.leb_le _ _)), (proj2 (Z.ltb_lt _ _)) by lia.
  simpl. by rewrite Nat2Z.id.
Qed.

(** * Regions of a byte array

    [sub o n l] is the [n] bytes at offset [o]; [put o new l] overwrites the
    bytes from [o] on with [new]. *)

Definition sub {A} (o n : nat) (l : list A) : list A := take n (drop o l).
Definition put {A} (o : nat) (new l : list A) : list A :=
  take o l ++ new ++ drop (o + length new) l.

Section Regions.
Context {A : Type}.
Implicit Types (l new : list A) (o n i : nat).

Lemma length_put o new l :
  (o + length new <= length l)%nat -> length (put o new l) = length l.
Proof. intros H. unfold put. rewrite !length_app, length_take, length_drop. lia. Qed.

Lemma length_sub o n l : (o + n <= length l)%nat -> length (sub o n l) = n.
Proof. intros H. unfold sub. rewrite length_take, length_drop. lia. Qed.

Lemma lookup_sub o n l i : (i < n)%nat -> sub o n l !! i = l !! (o + i)%nat.
Proof. intros H. unfold sub. by rewrite lookup_take_lt, lookup_drop. Qed.

Lemma lookup_put o new l i :
  (o + length new <= length l)%nat ->
  put o new l !! i =
    if decide (o <= i < o + length new)%nat then new !! (i - o)%nat else l !! i.
Proof.
  intros H. unfold put. case_decide as D.
  - rewrite lookup_app_r by (rewrite length_take; lia). rewrite length_take, Nat.min_l by lia.
    rewrite lookup_app_l by lia. done.
  - destruct (Nat.lt_ge_cases i o).
    + rewrite lookup_app_l by (rewrite length_take; lia). by rewrite lookup_take_lt.
    + rewrite lookup_app_r by (rewrite length_take; lia). rewrite length_take, Nat.min_l by lia.
      rewrite lookup_app_r by lia. rewrite lookup_drop. f_equal. lia.
Qed.

Lemma sub_put_same o n new l :
  n = length new -> (o + n <= length l)%nat -> sub o n (put o new l) = new.
Proof.
  intros -> H. apply list_eq. intros i. destruct (Nat.lt_ge_cases i (length new)).
  - rewrite lookup_sub, lookup_put by lia. case_decide; [f_equal; lia|lia].
  - rewrite !lookup_ge_None_2; [done|lia|]. rewrite length_sub; [lia|].
    rewrite length_put; lia.
Qed.

Lemma sub_put_other o n o' new l :
  (o + n <= o' \/ o' + length new <= o)%nat -> (o' + length new <= length l)%nat ->
  sub o n (put o' new l) = sub o n l.
Proof.
  intros D H. apply list_eq. intros i. destruct (Nat.lt_ge_cases i n).
  - rewrite !lookup_sub, lookup_put by lia. case_decide; [lia|done].
  - rewrite !lookup_ge_None_2; [done|..];
    unfold sub; rewrite length_take, length_drop, ?length_put; lia.
Qed.

Lemma put_sub_id o n l : (o + n <= length l)%nat -> put o (sub o n l) l = l.
Proof.
  intros H. apply list_eq. intros i. rewrite lookup_put by (rewrite length_sub; lia).
  rewrite length_sub by lia. case_decide; [|done].
  rewrite lookup_sub by lia. f_equal. lia.
Qed.

Lemma sub_sub o n o' n' l :
  (o + n <= n')%nat -> sub o n (sub o' n' l) = sub (o' + o) n l.
Proof.
  intros H. unfold sub. rewrite skipn_firstn_comm, take_take, drop_drop. f_equal; lia.
Qed.

Lemma sub_put_inside o n o' new l :
  (o <= o')%nat -> (o' + length new <= o + n)%nat -> (o + n <= length l)%nat ->
  sub o n (put o' new l) = put (o' - o) new (sub o n l).
Proof.
  intros H1 H2 H3. apply list_eq. intros i. destruct (Nat.lt_ge_cases i n).
  - rewrite lookup_sub, !lookup_put by (rewrite ?length_sub; lia).
    rewrite lookup_sub by lia. repeat case_decide; try lia; f_equal; lia.
  - rewrite !lookup_ge_None_2; [done|..].
    + rewrite length_put; rewrite length_sub; lia.
    + rewrite length_sub; [lia|]. rewrite length_put; lia.
Qed.

Lemma sub_app_mid o n l1 l2 l3 :
  o = length l1 -> n = length l2 -> sub o n (l1 ++ l2 ++ l3) = l2.
Proof. intros -> ->. unfold sub. by rewrite drop_app_length, take_app_length. Qed.

Lemma sub_app_end o n l1 l2 :
  o = length l1 -> n = length l2 -> sub o n (l1 ++ l2) = l2.
Proof. intros -> ->. unfold sub. by rewrite drop_app_length, take_ge. Qed.

Lemma Forall_put (P : A -> Prop) o new l :
  Forall P new -> Forall P l -> Forall P (put o new l).
Proof.
  intros H1 H2. unfold put. rewrite !Forall_app.
  split_and!; [by apply Forall_take|done|by apply Forall_drop].
Qed.

Lemma Forall_sub (P : A -> Prop) o n l : Forall P l -> Forall P (sub o n l).
Proof. intros H. by apply Forall_take, Forall_drop. Qed.

Lemma sub_plus o n m l : sub o (n + m) l = sub o n l ++ sub (o + n) m l.
Proof.
  unfold sub. rewrite <- (take_drop n (take (n + m) (drop o l))).
  rewrite take_take, Nat.min_l by lia. f_equal.
  rewrite skipn_firstn_comm, drop_drop. f_equal. lia.
Qed.

Lemma put_app o a b l :
  (o + length a + length b <= length l)%nat -> put (o + length a) b (put o a l) = put o (a ++ b) l.
Proof.
  intros H. apply list_eq. intros i.
  rewrite !lookup_put by (rewrite ?length_put, ?length_app; lia). rewrite length_app.
  repeat case_decide; try lia; try done.
  - rewrite lookup_app_r by lia. f_equal. lia.
  - by rewrite lookup_app_l by lia.
Qed.

Lemma put_put_same o new new' l :
  length new = length new' -> (o + length new <= length l)%nat ->
  put o new' (put o new l) = put o new' l.
Proof.
  intros E H. apply list_eq. intros i.
  rewrite !lookup_put by (rewrite ?length_put; lia). repeat case_decide; try done; lia.
Qed.
End Regions.

(** * Little-endian integers *)

Fixpoint le_decode (bs : list Z) : Z :=
  match bs with [] => 0 | b :: t => b + 256 * le_decode t end.

Fixpoint le_encode (n : nat) (v : Z) : list Z :=
  match n with O => [] | S n => v mod 256 :: le_encode n (v / 256) end.

Lemma length_le_encode n v : length (le_encode n v) = n.
Proof. revert v. induction n; simpl; auto. Qed.

Lemma le_encode_bytes n v : Forall is_byte (le_encode n v).
Proof.
  revert v. induction n; simpl; constructor; auto. unfold is_byte.
  pose proof (Z.mod_pos_bound v 256). lia.
Qed.

Lemma le_decode_encode n v : le_decode (le_encode n v) = v mod 256 ^ Z.of_nat n.
Proof.
  revert v. induction n; intros v; simpl le_decode; simpl le_encode.
  - by rewrite Z.mod_1_r.
  - simpl. rewrite IHn, Nat2Z.inj_succ, Z.pow_succ_r by lia.
    rewrite Z.rem_mul_r; [done|lia|lia].
Qed.

Lemma le_decode_bound bs :
  Forall is_byte bs -> 0 <= le_decode bs < 256 ^ Z.of_nat (length bs).
Proof.
  induction 1 as [|b t Hb _ IH]; [simpl; lia|]. simpl le_decode. simpl length.
  rewrite Nat2Z.inj_succ, Z.pow_succ_r by lia. unfold is_byte in Hb. lia.
Qed.

Lemma le_encode_decode bs :
  Forall is_byte bs -> le_encode (length bs) (le_decode bs) = bs.
Proof.
  induction 1 as [|b t Hb _ IH]; [done|]. simpl. unfold is_byte in Hb. f_equal.
  - rewrite Z.mul_comm, Z.mod_add by lia. apply Z.mod_small. lia.
  - rewrite Z.mul_comm, Z.div_add by lia. rewrite Z.div_small by lia. done.
Qed.

Lemma le_decode_encode_32 v : le_decode (le_encode 4 v) = u32 v.
Proof. apply le_decode_encode. Qed.

#[global] Arguments le_encode : simpl never.
#[global] Arguments sub : simpl never.
#[global] Arguments put : simpl never.

(** Rewriting with the facts about regions; the side conditions are arithmetic. *)
Create HintDb regions.
Create Rewrite HintDb regions_len.
#[export] Hint Rewrite @length_put @length_sub @length_le_encode @length_take
  @length_drop @length_app @length_replicate using (simpl; lia) : regions_len.
#[export] Hint Resolve Forall_put Forall_sub le_encode_bytes : regions.

(** * C strings: the bytes up to the first NUL *)

Fixpoint cstr (l : list Z) : list Z :=
  match l with
  | [] => []
  | c :: t => if c =? 0 then [] else c :: cstr t
  end.

Definition no_nul (l : list Z) : Prop := Forall (fun c => c <> 0) l.

Lemma cstr_app_nul s t : no_nul s -> cstr (s ++ 0 :: t) = s.
Proof.
  induction 1 as [|c s Hc _ IH]; [done|]. simpl.
  destruct (Z.eqb_spec c 0); [done|]. by rewrite IH.
Qed.

Lemma cstr_no_nul l : no_nul (cstr l).
Proof.
  induction l as [|c l IH]; simpl; [constructor|].
  destruct (Z.eqb_spec c 0); constructor; auto.
Qed.

Lemma cstr_id s : no_nul s -> cstr s = s.
Proof.
  induction 1 as [|c s Hc _ IH]; [done|]. simpl.
  destruct (Z.eqb_spec c 0); [done|]. by rewrite IH.
Qed.

(** The bytes of an ASCII literal. *)
Fixpoint chars (s : String.string) : list Z :=
  match s with
  | String.EmptyString => []
  | String.String c t => Z.of_N (Ascii.N_of_ascii c) :: chars t
  end.
