(* ===== verification/SdbRow.v ===== *)
(** simpledb rows: [src/simpledb/row.h] and [src/simpledb/row.c].

    The C structure [Row] is 72 bytes: the id, two character arrays and two
    bytes of padding.  The copies of [row_write_to_buffer] and
    [row_read_from_buffer] are expressed on these bytes, because they run one
    byte past each array. *)

From S2P Require Import Prelude.
#[local] Open Scope Z_scope.

Definition COLUMN_USERNAME_SIZE : nat := 32.
Definition COLUMN_EMAIL_SIZE : nat := 32.
Definition ID_SIZE : nat := 4.
Definition USERNAME_SIZE : nat := COLUMN_USERNAME_SIZE + 1.
Definition EMAIL_SIZE : nat := COLUMN_EMAIL_SIZE + 1.
Definition ID_OFFSET : nat := 0.
Definition USERNAME_OFFSET : nat := ID_OFFSET + ID_SIZE.
Definition EMAIL_OFFSET : nat := USERNAME_OFFSET + USERNAME_SIZE.
Definition ROW_SIZE : nat := ID_SIZE + USERNAME_SIZE + EMAIL_SIZE.

Record Row := mkRow {
  id : Z;
  username : list Z;
  email : list Z;
  row_padding : list Z   (* the two bytes that align the structure to 4 *)
}.

Inductive Row_Init_Result :=
| ROW_INIT_SUCCESS
| ROW_NEGATIVE_ID
| ROW_STRING_NULL
| ROW_STRING_TOO_LONG.

(** The memory of a [Row], and the [Row] held by 72 bytes of memory. *)
Definition SIZEOF_ROW : nat := 72.

Definition row_bytes (r : Row) : list Z :=
  le_encode ID_SIZE (id r) ++ username r ++ email r ++ row_padding r.

Definition row_of_bytes (m : list Z) : Row :=
  mkRow (le_decode (sub ID_OFFSET ID_SIZE m)) (sub USERNAME_OFFSET USERNAME_SIZE m)
        (sub EMAIL_OFFSET EMAIL_SIZE m) (sub ROW_SIZE 2 m).

(** ** [atoi] of the C library: blanks, a sign, digits; [strtol] saturates and
    the result is converted to [int]. *)
Definition isspace (c : Z) : bool := (c =? 32) || ((9 <=? c) && (c <=? 13)).
Definition isdigit (c : Z) : bool := (48 <=? c) && (c <=? 57).

Fixpoint skip_space (s : list Z) : list Z :=
  match s with
  | c :: t => if isspace c then skip_space t else s
  | [] => []
  end.

Fixpoint atoi_digits (s : list Z) (acc : Z) : Z :=
  match s with
  | c :: t => if isdigit c then atoi_digits t (acc * 10 + (c - 48)) else acc
  | [] => acc
  end.

Definition strtol (s : list Z) : Z :=
  let v := match skip_space s with
           | c :: t => if c =? 45 then - atoi_digits t 0
                       else if c =? 43 then atoi_digits t 0
                       else atoi_digits (c :: t) 0
           | [] => 0
           end in
  Z.max (- 2 ^ 63) (Z.min v (2 ^ 63 - 1)).

Definition atoi (s : list Z) : Z := i32 (strtol s).

(** [strcpy dst s]: the string and its NUL overwrite the start of [dst]. *)
Definition strcpy (dst s : list Z) : list Z := put 0 (s ++ [0]) dst.

(** [row_init id username email row]; a [NULL] argument is [None], a string is
    given by its bytes without the NUL. *)
Definition row_init (id_str username_str email_str : option (list Z)) (row : Row)
  : Row_Init_Result * Row :=
  match id_str, username_str, email_str with
  | Some id_str, Some username_str, Some email_str =>
      let id_int := atoi id_str in
      if id_int <? 0 then (ROW_NEGATIVE_ID, row)
      else if (COLUMN_USERNAME_SIZE <? length username_str)%nat then (ROW_STRING_TOO_LONG, row)
      else if (COLUMN_EMAIL_SIZE <? length email_str)%nat then (ROW_STRING_TOO_LONG, row)
      else (ROW_INIT_SUCCESS,
            mkRow (u32 id_int) (strcpy (username row) username_str)
                  (strcpy (email row) email_str) (row_padding row))
  | _, _, _ => (ROW_STRING_NULL, row)
  end.

Definition row_get_key (row : Row) : Z := id row.

(** [row_write_to_buffer srcRow (buf + dest)]: three copies, the last two of one
    byte more than the array; [None] when they leave the buffer. *)
Definition row_write_to_buffer (srcRow : Row) (dest : nat) (buf : list Z) : option (list Z) :=
  if (dest + EMAIL_OFFSET + (EMAIL_SIZE + 1) <=? length buf)%nat then
    let buf := put (dest + ID_OFFSET) (sub ID_OFFSET ID_SIZE (row_bytes srcRow)) buf in
    let buf := put (dest + USERNAME_OFFSET)
                 (sub USERNAME_OFFSET (USERNAME_SIZE + 1) (row_bytes srcRow)) buf in
    let buf := put (dest + EMAIL_OFFSET)
                 (sub EMAIL_OFFSET (EMAIL_SIZE + 1) (row_bytes srcRow)) buf in
    Some buf
  else None.

(** [row_read_from_buffer (buf + src) destRow]: the structure after the copies. *)
Definition row_read_from_buffer (src : nat) (buf : list Z) (destRow : Row) : option Row :=
  if (src + EMAIL_OFFSET + (EMAIL_SIZE + 1) <=? length buf)%nat then
    let m := row_bytes destRow in
    let m := put ID_OFFSET (sub (src + ID_OFFSET) ID_SIZE buf) m in
    let m := put USERNAME_OFFSET (sub (src + USERNAME_OFFSET) (USERNAME_SIZE + 1) buf) m in
    let m := put EMAIL_OFFSET (sub (src + EMAIL_OFFSET) (EMAIL_SIZE + 1) buf) m in
    Some (row_of_bytes m)
  else None.

(** ** Well-formed rows *)
Record row_wf (r : Row) : Prop := {
  wf_id : 0 <= id r < 2 ^ 32;
  wf_username : length (username r) = USERNAME_SIZE /\ Forall is_byte (username r);
  wf_email : length (email r) = EMAIL_SIZE /\ Forall is_byte (email r);
  wf_padding : length (row_padding r) = 2%nat /\ Forall is_byte (row_padding r)
}.

(** The 70 bytes that make up the value of a cell, and the byte after them that
    [row_write_to_buffer] writes as well. *)
Definition row_cell (r : Row) : list Z := le_encode ID_SIZE (id r) ++ username r ++ email r.
Definition row_spill (r : Row) : Z := default 0 (row_padding r !! 0%nat).

Lemma row_bytes_cell r : row_bytes r = row_cell r ++ row_padding r.
Proof. unfold row_bytes, row_cell. by rewrite <- !app_assoc. Qed.

Lemma length_row_cell r : row_wf r -> length (row_cell r) = ROW_SIZE.
Proof.
  intros [_ [Hu _] [He _] _]. unfold row_cell. by rewrite !length_app, length_le_encode, Hu, He.
Qed.

Lemma row_cell_bytes r : row_wf r -> Forall is_byte (row_cell r).
Proof.
  intros [_ [_ Hu] [_ He] _]. unfold row_cell. rewrite !Forall_app. auto with regions.
Qed.

Lemma row_padding_split r :
  row_wf r -> exists p1, row_padding r = [row_spill r; p1] /\ is_byte (row_spill r) /\ is_byte p1.
Proof.
  intros [_ _ _ [Hp Hb]]. unfold row_spill.
  destruct (row_padding r) as [|p0 [|p1 [|]]]; try discriminate. exists p1. simpl.
  inversion Hb as [|? ? ? Hb']. inversion Hb'. auto.
Qed.

Lemma length_row_bytes r : row_wf r -> length (row_bytes r) = SIZEOF_ROW.
Proof.
  intros H. rewrite row_bytes_cell, length_app, length_row_cell by done.
  destruct H as [_ _ _ [Hp _]]. by rewrite Hp.
Qed.

Lemma row_of_row_bytes r : row_wf r -> row_of_bytes (row_bytes r) = r.
Proof.
  intros [Hid [Hu _] [He _] [Hp _]]. destruct r as [i u e p]. simpl in *.
  unfold row_of_bytes, row_bytes; cbn [id username email row_padding]. f_equal.
  - pose proof (sub_app_mid ID_OFFSET ID_SIZE [] (le_encode ID_SIZE i) (u ++ e ++ p)) as E.
    cbn [app] in E. rewrite E by (try rewrite length_le_encode; done).
    change ID_SIZE with 4%nat. rewrite le_decode_encode_32. by apply u32_id.
  - apply sub_app_mid; [by rewrite length_le_encode|done].
  - rewrite app_assoc. apply sub_app_mid; [by rewrite length_app, length_le_encode, Hu|done].
  - rewrite !app_assoc. apply sub_app_end; [by rewrite !length_app, length_le_encode, Hu, He|done].
Qed.

Lemma row_bytes_split r :
  row_wf r -> exists p1, row_bytes r = (row_cell r ++ [row_spill r]) ++ [p1].
Proof.
  intros H. destruct (row_padding_split r H) as (p1 & E & _). exists p1.
  by rewrite row_bytes_cell, E, <- app_assoc.
Qed.

(** Unfolds the offsets of the layout to numbers. *)
Ltac row_layout :=
  cbv [ID_OFFSET USERNAME_OFFSET EMAIL_OFFSET ID_SIZE USERNAME_SIZE EMAIL_SIZE
    COLUMN_USERNAME_SIZE COLUMN_EMAIL_SIZE ROW_SIZE SIZEOF_ROW] in *; simpl Nat.add in *.

(** One copy of 71 bytes: each copy overwrites the byte spilled by the one
    before it, and the last one spills the first byte of the padding. *)
Lemma row_write_to_buffer_spec r dest buf :
  row_wf r -> (dest + ROW_SIZE + 1 <= length buf)%nat ->
  row_write_to_buffer r dest buf = Some (put dest (row_cell r ++ [row_spill r]) buf).
Proof.
  intros Hr Hlen. unfold row_write_to_buffer.
  destruct (row_bytes_split r Hr) as [p1 HS]. pose proof (length_row_bytes r Hr) as L.
  assert (LC : length (row_cell r ++ [row_spill r]) = 71%nat)
    by (rewrite length_app, length_row_cell by done; done).
  rewrite HS. rewrite HS, length_app, LC in L. clear HS.
  revert LC. generalize (row_cell r ++ [row_spill r]). intros c Hc. row_layout.
  rewrite (proj2 (Nat.leb_le _ _)) by lia. f_equal. apply list_eq. intros i.
  assert (length (c ++ [p1]) = 72%nat) by (rewrite length_app, Hc; done).
  rewrite !lookup_put; repeat (rewrite ?length_put, ?length_sub; try lia).
  repeat case_decide; try lia; rewrite ?lookup_sub by lia; try done;
    rewrite lookup_app_l by lia; f_equal; lia.
Qed.

(** The read is one copy of 71 bytes as well. *)
Lemma row_read_from_buffer_spec d src buf :
  row_wf d -> (src + ROW_SIZE + 1 <= length buf)%nat ->
  row_read_from_buffer src buf d =
    Some (row_of_bytes (put 0 (sub src (ROW_SIZE + 1) buf) (row_bytes d))).
Proof.
  intros Hd Hlen. unfold row_read_from_buffer. pose proof (length_row_bytes d Hd) as L.
  generalize dependent (row_bytes d). intros m L. row_layout.
  rewrite (proj2 (Nat.leb_le _ _)) by lia. f_equal. f_equal. apply list_eq. intros i.
  rewrite !lookup_put; repeat (rewrite ?length_put, ?length_sub; try lia).
  repeat case_decide; try lia; rewrite ?lookup_sub by lia; try done; f_equal; lia.
Qed.

Lemma row_read_back r d dest buf :
  row_wf r -> row_wf d -> (dest + ROW_SIZE + 1 <= length buf)%nat ->
  sub dest (ROW_SIZE + 1) buf = row_cell r ++ [row_spill r] ->
  row_read_from_buffer dest buf d =
    Some (mkRow (id r) (username r) (email r) [row_spill r; default 0 (row_padding d !! 1%nat)]).
Proof.
  intros Hr Hd Hlen E. rewrite row_read_from_buffer_spec, E by done. apply (f_equal Some).
  destruct (row_padding_split r Hr) as (p & Ep & Hp & _).
  destruct (row_padding_split d Hd) as (q & Eq & _ & Hq).
  rewrite Eq. change (default 0 ([row_spill d; q] !! 1%nat)) with q. set (r' := mkRow _ _ _ _).
  assert (row_wf r') as Hr' by (destruct Hr; split; simpl; auto).
  rewrite <- (row_of_row_bytes r' Hr'), !row_bytes_cell, Eq. apply (f_equal row_of_bytes).
  assert (length (row_cell r ++ [row_spill r]) = 71%nat) as LC
    by (rewrite length_app, length_row_cell by done; done).
  assert (length (row_cell d ++ [row_spill d]) = 71%nat) as LD
    by (rewrite length_app, length_row_cell by done; done).
  unfold put. rewrite take_0.
  rewrite LC. cbn [app Nat.add].
  rewrite (app_assoc _ [row_spill d] [q] : row_cell d ++ [row_spill d; q] = _).
  rewrite drop_app_length' by done. by rewrite <- app_assoc.
Qed.

(** What [row_write_to_buffer] stores, [row_read_from_buffer] reads back; the
    second byte of the padding keeps the value it had in the destination. *)
Theorem row_roundtrip r d dest buf :
  row_wf r -> row_wf d -> (dest + ROW_SIZE + 1 <= length buf)%nat ->
  exists buf', row_write_to_buffer r dest buf = Some buf' /\
    row_read_from_buffer dest buf' d =
      Some (mkRow (id r) (username r) (email r) [row_spill r; default 0 (row_padding d !! 1%nat)]).
Proof.
  intros Hr Hd Hlen.
  assert (length (row_cell r ++ [row_spill r]) = (ROW_SIZE + 1)%nat) as LC
    by (rewrite length_app, length_row_cell by done; done).
  eexists. split; [by apply row_write_to_buffer_spec|].
  apply row_read_back; [done|done| |].
  - rewrite length_put; lia.
  - apply sub_put_same; lia.
Qed.

(** ** [row_init] *)

Lemma strcpy_spec dst s :
  (length s < length dst)%nat -> no_nul s ->
  length (strcpy dst s) = length dst /\ cstr (strcpy dst s) = s.
Proof.
  intros Hl Hs. unfold strcpy. split.
  - apply length_put. rewrite length_app. simpl. lia.
  - unfold put. rewrite take_0. simpl. rewrite <- app_assoc. by apply cstr_app_nul.
Qed.

Lemma strcpy_bytes dst s :
  Forall is_byte dst -> Forall is_byte s -> Forall is_byte (strcpy dst s).
Proof.
  intros Hd Hs. apply Forall_put; [|done]. apply Forall_app. split; [done|].
  by repeat constructor.
Qed.

(** [row_init] succeeds exactly on three strings, a non-negative id and names of
    at most 32 bytes; the row then holds the id and the two C strings and is
    well formed.  In every other case the row is unchanged. *)
Theorem row_init_spec i u e row :
  row_wf row -> no_nul u -> no_nul e -> Forall is_byte u -> Forall is_byte e ->
  let '(res, row') := row_init (Some i) (Some u) (Some e) row in
  if bool_decide (0 <= atoi i /\ (length u <= 32)%nat /\ (length e <= 32)%nat)
  then res = ROW_INIT_SUCCESS /\ row_wf row' /\ id row' = atoi i /\
       cstr (username row') = u /\ cstr (email row') = e
  else res = (if bool_decide (atoi i < 0) then ROW_NEGATIVE_ID else ROW_STRING_TOO_LONG)
       /\ row' = row.
Proof.
  intros [Hid [Lu Fu] [Le Fe] Hp] Nu Ne Bu Be. unfold row_init.
  change COLUMN_USERNAME_SIZE with 32%nat. change COLUMN_EMAIL_SIZE with 32%nat.
  assert (atoi i < 2 ^ 31) by (unfold atoi, i32; pose proof (Z.mod_pos_bound (strtol i + 2 ^ 31) (2 ^ 32)); lia).
  destruct (Z.ltb_spec (atoi i) 0);
    [rewrite bool_decide_false by lia; by rewrite bool_decide_true by lia|].
  destruct (Nat.ltb_spec 32 (length u));
    [rewrite bool_decide_false by lia; by rewrite bool_decide_false by lia|].
  destruct (Nat.ltb_spec 32 (length e));
    [rewrite bool_decide_false by lia; by rewrite bool_decide_false by lia|].
  rewrite bool_decide_true by lia. cbn [id username email].
  change USERNAME_SIZE with 33%nat in Lu. change EMAIL_SIZE with 33%nat in Le.
  destruct (strcpy_spec (username row) u) as [L1 C1]; [lia|done|].
  destruct (strcpy_spec (email row) e) as [L2 C2]; [lia|done|].
  split_and!; try done; [|apply u32_id; lia].
  split; cbn [id username email row_padding]; rewrite ?L1, ?L2, ?Lu, ?Le;
    auto using strcpy_bytes, u32_bound.
Qed.

(** A missing word of the statement is reported before anything else. *)
Theorem row_init_null i u e row :
  i = None \/ u = None \/ e = None -> row_init i u e row = (ROW_STRING_NULL, row).
Proof. intros [-> | [-> | ->]]; [done|by destruct i|by destruct i, u]. Qed.

(** ** Decimal printing, the [%d] of [row_print], and [atoi] *)

Fixpoint dec_digits (fuel : nat) (n : Z) (acc : list Z) : list Z :=
  match fuel with
  | O => acc
  | S f => if n <? 10 then (48 + n) :: acc
           else dec_digits f (n / 10) ((48 + n mod 10) :: acc)
  end.

Definition printf_d (n : Z) : list Z := dec_digits 10 n [].

Lemma isdigit_48 d : 0 <= d < 10 -> isdigit (48 + d) = true.
Proof. intros H. unfold isdigit. apply andb_true_intro. split; apply Z.leb_le; lia. Qed.

Lemma atoi_digits_dec f n tail :
  (0 < f)%nat -> 0 <= n < 10 ^ Z.of_nat f ->
  atoi_digits (dec_digits f n tail) 0 = atoi_digits tail n.
Proof.
  revert n tail. induction f as [|f IH]; intros n tail Hf Hn; [lia|]. simpl.
  destruct (Z.ltb_spec n 10).
  - simpl. rewrite isdigit_48 by lia. f_equal. lia.
  - rewrite Nat2Z.inj_succ, Z.pow_succ_r in Hn by lia.
    destruct f as [|f]; [simpl in Hn; lia|].
    rewrite IH; [|lia|split; [apply Z.div_pos; lia|apply Z.div_lt_upper_bound; lia]].
    simpl. rewrite isdigit_48 by (apply Z.mod_pos_bound; lia). f_equal.
    pose proof (Z.div_mod n 10). lia.
Qed.

Lemma dec_digits_head f n tail :
  (0 < f)%nat -> 0 <= n < 10 ^ Z.of_nat f ->
  exists c t, dec_digits f n tail = c :: t /\ isdigit c = true.
Proof.
  revert n tail. induction f as [|f IH]; intros n tail Hf Hn; [lia|]. simpl.
  destruct (Z.ltb_spec n 10); [eauto using isdigit_48 with lia|].
  rewrite Nat2Z.inj_succ, Z.pow_succ_r in Hn by lia.
  destruct f as [|f]; [simpl in Hn; lia|].
  apply IH; [lia|]. split; [apply Z.div_pos; lia|apply Z.div_lt_upper_bound; lia].
Qed.

(** Reading back the id that [row_print] prints gives the id. *)
Theorem atoi_printf_d n : 0 <= n < 2 ^ 31 -> atoi (printf_d n) = n.
Proof.
  intros Hn. assert (0 <= n < 10 ^ Z.of_nat 10) as Hn' by (change (10 ^ Z.of_nat 10) with 10000000000; lia).
  unfold atoi, strtol, printf_d.
  destruct (dec_digits_head 10 n []) as (c & t & E & Hc); [lia|done|].
  pose proof (atoi_digits_dec 10 n [] ltac:(lia) Hn') as D. rewrite E in *.
  unfold isdigit in Hc. apply andb_true_iff in Hc as [Hc1%Z.leb_le Hc2%Z.leb_le].
  simpl skip_space. unfold isspace.
  destruct (Z.eqb_spec c 32); [lia|]. destruct (Z.leb_spec c 13); [lia|].
  rewrite andb_false_r. cbn [orb].
  destruct (Z.eqb_spec c 45); [lia|]. destruct (Z.eqb_spec c 43); [lia|]. rewrite D.
  change (atoi_digits [] n) with n.
  rewrite Z.min_l, Z.max_r by lia. apply i32_id. lia.
Qed.
