(* ===== verification/SdbPager.v ===== *)
(** The state of a simpledb process and its page cache:
    [src/simpledb/config.h], [pager.h] and [pager.c].

    A page is a list of 4096 bytes.  A C pointer to a page (the [void* node] of
    the node functions) is the number of the page, since the cache never moves a
    page: [page_read] and [page_write] are the accesses through it, undefined
    when the page was never fetched or the access leaves it. *)

From stdpp Require Export strings.
From S2P Require Import Prelude SdbRow.
#[local] Open Scope Z_scope.

Definition PAGE_SIZE : Z := 4096.
Definition TABLE_MAX_PAGES : Z := 100.

(** What the process prints: a format of [printf] and its arguments. *)
Inductive arg := AInt (z : Z) | AStr (s : list Z).
Inductive event := Printf (fmt : string) (args : list arg).

(** What the source does not determine: whether each call of the operating
    system succeeds, the bytes of the block that [malloc] returns for a page and
    the uninitialised [Row] on the stack of [execute_select]. *)
Record Env := mkEnv {
  open_ok : bool; malloc_ok : bool; seek_ok : bool; read_ok : bool;
  write_ok : bool; close_ok : bool;
  heap_page : Z -> list Z;
  stack_row : Row
}.

Record Pager := mkPager {
  file_length : Z;
  num_pages : Z;
  pages : list (option (list Z))
}.

(** The whole process: the file behind the descriptor with its position, the
    pager, the root of the table, the rest of the standard input as lines, the
    output (latest first) and the stack slot of the statement of [main]. *)
Record Db := mkDb {
  env : Env;
  disk : list Z;
  fpos : Z;
  pager : Pager;
  root_page_num : Z;
  stdin : list (list Z);
  out : list event;
  row_insert : Row
}.

Definition set_disk (d : list Z) (f : Z) (s : Db) : Db :=
  mkDb (env s) d f (pager s) (root_page_num s) (stdin s) (out s) (row_insert s).
Definition set_pager (p : Pager) (s : Db) : Db :=
  mkDb (env s) (disk s) (fpos s) p (root_page_num s) (stdin s) (out s) (row_insert s).
Definition set_root (r : Z) (s : Db) : Db :=
  mkDb (env s) (disk s) (fpos s) (pager s) r (stdin s) (out s) (row_insert s).
Definition set_stdin (i : list (list Z)) (s : Db) : Db :=
  mkDb (env s) (disk s) (fpos s) (pager s) (root_page_num s) i (out s) (row_insert s).
Definition set_out (o : list event) (s : Db) : Db :=
  mkDb (env s) (disk s) (fpos s) (pager s) (root_page_num s) (stdin s) o (row_insert s).
Definition set_row_insert (r : Row) (s : Db) : Db :=
  mkDb (env s) (disk s) (fpos s) (pager s) (root_page_num s) (stdin s) (out s) r.
Definition set_pages (l : list (option (list Z))) (s : Db) : Db :=
  set_pager (mkPager (file_length (pager s)) (num_pages (pager s)) l) s.
Definition set_num_pages (n : Z) (s : Db) : Db :=
  set_pager (mkPager (file_length (pager s)) n (pages (pager s))) s.

Definition printf (fmt : string) (args : list arg) : prog Db unit :=
  modify (fun s => set_out (Printf fmt args :: out s) s).

Definition EXIT_FAILURE : Z := 1.
Definition EXIT_SUCCESS : Z := 0.

(** [printf(..); exit(EXIT_FAILURE);] *)
Definition fail_with {A} (fmt : string) (args : list arg) : prog Db A :=
  printf fmt args;; exit_with EXIT_FAILURE.

(** ** The file: POSIX [lseek], [read] and [write] *)

Definition lseek_set (off : Z) : prog Db Z := fun s =>
  if seek_ok (env s) then Ret off (set_disk (disk s) off s) else Ret (-1) s.

Definition read_bytes (n : Z) (s : Db) : list Z :=
  take (Z.to_nat n) (drop (Z.to_nat (fpos s)) (disk s)).

(** [read(fd, page, n)]: the number of bytes read (-1 on an error) and the bytes. *)
Definition file_read (n : Z) : prog Db (Z * list Z) := fun s =>
  if read_ok (env s) then
    let bs := read_bytes n s in
    Ret (Z.of_nat (length bs), bs) (set_disk (disk s) (fpos s + Z.of_nat (length bs)) s)
  else Ret (-1, []) s.

(** A write after the end of the file fills the gap with zeros. *)
Definition write_at (off : nat) (bs d : list Z) : list Z :=
  put off bs (d ++ replicate (off + length bs - length d) 0).

Definition file_write (bs : list Z) : prog Db Z := fun s =>
  if write_ok (env s) then
    Ret (Z.of_nat (length bs))
        (set_disk (write_at (Z.to_nat (fpos s)) bs (disk s)) (fpos s + Z.of_nat (length bs)) s)
  else Ret (-1) s.

(** ** [pager.c] *)

Definition pager_open (filename : list Z) : prog Db unit :=
  e ← gets env;
  if negb (open_ok e) then fail_with "Error: Unable to open file %s" [AStr filename] else
  flen ← gets (fun s => Z.of_nat (length (disk s)));
  if negb (malloc_ok e) then fail_with "Error: Unable to malloc pager." [] else
  modify (set_pager (mkPager (u32 flen) (u32 (flen / PAGE_SIZE)) (replicate 100 None)));;
  if negb (flen mod PAGE_SIZE =? 0) then
    fail_with "Error: Db file is not a whole number of pages. Corrupt file." []
  else mret tt.

Definition page_lookup (page_num : Z) : prog Db (option (list Z)) :=
  l ← gets (fun s => pages (pager s));
  of_option (zget l page_num).

Definition page_store (page_num : Z) (p : option (list Z)) : prog Db unit :=
  l ← gets (fun s => pages (pager s));
  l' ← of_option (zset l page_num p);
  modify (set_pages l').

Definition pager_flush (page_num : Z) : prog Db unit :=
  p ← page_lookup page_num;
  match p with
  | None => fail_with "Error: Tried to flush null page" []
  | Some page =>
      offset ← lseek_set (u32 (page_num * PAGE_SIZE));
      if offset =? -1 then fail_with "Error: error seeking: %d" [] else
      bytes_written ← file_write page;
      if bytes_written =? -1 then fail_with "Error: error writing: %d" [] else
      mret tt
  end.

(** The page is returned as its number, see above. *)
Definition pager_get_page (page_num : Z) : prog Db Z :=
  if TABLE_MAX_PAGES <=? page_num then
    fail_with "Error: Tried to fetch page number out of bounds. %d > %d"
      [AInt page_num; AInt TABLE_MAX_PAGES]
  else
  p ← page_lookup page_num;
  match p with
  | Some _ => mret page_num
  | None =>
      page ← gets (fun s => heap_page (env s) page_num);
      flen ← gets (fun s => file_length (pager s));
      np ← (if negb (flen mod PAGE_SIZE =? 0)
            then printf "Error: Corrupt file." [];; mret (u32 (flen / PAGE_SIZE + 1))
            else mret (flen / PAGE_SIZE));
      page ← (if page_num <=? np then
                lseek_set (u32 (page_num * PAGE_SIZE));;
                '(bytes_read, bs) ← file_read PAGE_SIZE;
                if bytes_read =? -1 then fail_with "Error: error reading file: %d" []
                else mret (put 0 bs page)
              else mret page);
      page_store page_num (Some page);;
      n ← gets (fun s => num_pages (pager s));
      (if n <=? page_num then modify (set_num_pages (page_num + 1)) else mret tt);;
      mret page_num
  end.

Definition pager_get_unused_page_num : prog Db Z := gets (fun s => num_pages (pager s)).

(** ** Accesses through a page pointer *)

Definition page_read (node off : Z) (n : nat) : prog Db (list Z) :=
  p ← page_lookup node;
  pg ← of_option p;
  require ((0 <=? off) && (off + Z.of_nat n <=? Z.of_nat (length pg)));;
  mret (sub (Z.to_nat off) n pg).

Definition page_write (node off : Z) (bs : list Z) : prog Db unit :=
  p ← page_lookup node;
  pg ← of_option p;
  require ((0 <=? off) && (off + Z.of_nat (length bs) <=? Z.of_nat (length pg)));;
  page_store node (Some (put (Z.to_nat off) bs pg)).

(** A pointer into a page, and loads and stores of the widths the code uses. *)
Definition ptr : Type := Z * Z.
Definition load32 (p : ptr) : prog Db Z := bs ← page_read p.1 p.2 4; mret (le_decode bs).
Definition store32 (p : ptr) (v : Z) : prog Db unit := page_write p.1 p.2 (le_encode 4 v).
Definition load8 (p : ptr) : prog Db Z := bs ← page_read p.1 p.2 1; mret (le_decode bs).
Definition store8 (p : ptr) (v : Z) : prog Db unit := page_write p.1 p.2 (le_encode 1 v).
Definition memcpy (dst src : ptr) (n : nat) : prog Db unit :=
  bs ← page_read src.1 src.2 n; page_write dst.1 dst.2 bs.

(** ** Facts about the cached pages *)

Definition page_ok (p : list Z) : Prop := length p = 4096%nat /\ Forall is_byte p.

(** Page [n] is in the cache and holds [p]. *)
Definition has_page (s : Db) (n : Z) (p : list Z) : Prop :=
  0 <= n < TABLE_MAX_PAGES /\ pages (pager s) !! Z.to_nat n = Some (Some p) /\ page_ok p.

Definition put_page (n : Z) (p : list Z) (s : Db) : Db :=
  set_pages (<[Z.to_nat n := Some p]> (pages (pager s))) s.

Lemma set_pages_id s : set_pages (pages (pager s)) s = s.
Proof. by destruct s as [? ? ? [] ? ? ? ?]. Qed.

Lemma put_page_id s n p : has_page s n p -> put_page n p s = s.
Proof. intros (_ & H & _). unfold put_page. rewrite list_insert_id by done. apply set_pages_id. Qed.

Lemma put_page_twice s n p q : put_page n q (put_page n p s) = put_page n q s.
Proof. unfold put_page; simpl. by rewrite list_insert_insert_eq. Qed.

Lemma put_page_comm s n m p q :
  0 <= n -> 0 <= m -> n <> m -> put_page n p (put_page m q s) = put_page m q (put_page n p s).
Proof.
  intros. unfold put_page; simpl. rewrite list_insert_insert_ne by lia. done.
Qed.

Lemma has_put_page s n p q : has_page s n p -> page_ok q -> has_page (put_page n q s) n q.
Proof.
  intros (H1 & H2 & _) Hq. split_and!; [lia|lia| |done]. simpl.
  apply list_lookup_insert_eq. by eapply lookup_lt_Some.
Qed.

Lemma has_put_page_ne s n m p q :
  has_page s n p -> 0 <= m -> n <> m -> has_page (put_page m q s) n p.
Proof.
  intros (H1 & H2 & H3) ? ?. split_and!; [lia|lia| |done]. simpl.
  by rewrite list_lookup_insert_ne by lia.
Qed.

Lemma page_ok_put p off bs :
  page_ok p -> (off + length bs <= 4096)%nat -> Forall is_byte bs -> page_ok (put off bs p).
Proof. intros [L F] ? ?. split; [rewrite length_put; lia|auto with regions]. Qed.

Lemma page_lookup_has s n p : has_page s n p -> page_lookup n s = Ret (Some p) s.
Proof.
  intros (H1 & H2 & _). unfold page_lookup, gets, mbind, prog_bind.
  unfold zget. rewrite (proj2 (Z.leb_le 0 n)) by lia. by rewrite H2.
Qed.

Lemma page_store_has s n p q : has_page s n p -> page_store n (Some q) s = Ret tt (put_page n q s).
Proof.
  intros (H1 & H2 & _). unfold page_store, gets, mbind, prog_bind, zset.
  rewrite (proj2 (Z.leb_le 0 n)) by lia.
  pose proof (lookup_lt_Some _ _ _ H2). by rewrite (proj2 (Z.ltb_lt n _)) by lia.
Qed.

Lemma pager_get_page_has s n p : has_page s n p -> pager_get_page n s = Ret n s.
Proof.
  intros H. unfold pager_get_page. pose proof H as [Hn _].
  rewrite (proj2 (Z.leb_gt TABLE_MAX_PAGES n)) by lia.
  by step (page_lookup_has _ _ _ H).
Qed.

Lemma page_read_has s n p off k :
  has_page s n p -> 0 <= off -> off + Z.of_nat k <= 4096 ->
  page_read n off k s = Ret (sub (Z.to_nat off) k p) s.
Proof.
  intros H ? ?. unfold page_read. step (page_lookup_has _ _ _ H). pose proof H as (_ & _ & L & _).
  unfold of_option. step (eq_refl : (mret p : prog Db _) s = Ret p s).
  unfold require. rewrite L. change (Z.of_nat 4096) with 4096.
  by rewrite (proj2 (Z.leb_le 0 off)), (proj2 (Z.leb_le (off + _) _)) by lia.
Qed.

Lemma page_write_has s n p off bs :
  has_page s n p -> 0 <= off -> off + Z.of_nat (length bs) <= 4096 ->
  page_write n off bs s = Ret tt (put_page n (put (Z.to_nat off) bs p) s).
Proof.
  intros H ? ?. unfold page_write. step (page_lookup_has _ _ _ H). pose proof H as (_ & _ & L & _).
  unfold of_option. step (eq_refl : (mret p : prog Db _) s = Ret p s).
  unfold require. rewrite L. change (Z.of_nat 4096) with 4096.
  rewrite (proj2 (Z.leb_le 0 off)), (proj2 (Z.leb_le (off + _) _)) by lia. simpl.
  unfold mbind, prog_bind, mret, prog_ret. by apply page_store_has with p.
Qed.

Lemma load32_has s n p off :
  has_page s n p -> 0 <= off -> off + 4 <= 4096 ->
  load32 (n, off) s = Ret (le_decode (sub (Z.to_nat off) 4 p)) s.
Proof. intros H ? ?. unfold load32. by step (page_read_has s n p off 4 H ltac:(lia) ltac:(simpl; lia)). Qed.

Lemma load8_has s n p off :
  has_page s n p -> 0 <= off < 4096 ->
  load8 (n, off) s = Ret (le_decode (sub (Z.to_nat off) 1 p)) s.
Proof. intros H ?. unfold load8. by step (page_read_has s n p off 1 H ltac:(lia) ltac:(simpl; lia)). Qed.

Lemma store32_has s n p off v :
  has_page s n p -> 0 <= off -> off + 4 <= 4096 ->
  store32 (n, off) v s = Ret tt (put_page n (put (Z.to_nat off) (le_encode 4 v) p) s).
Proof. intros H ? ?. apply page_write_has; [done|lia|]. rewrite length_le_encode. simpl. lia. Qed.

Lemma store8_has s n p off v :
  has_page s n p -> 0 <= off < 4096 ->
  store8 (n, off) v s = Ret tt (put_page n (put (Z.to_nat off) (le_encode 1 v) p) s).
Proof. intros H ?. apply page_write_has; [done|lia|]. rewrite length_le_encode. simpl. lia. Qed.

Lemma memcpy_has s n p m q doff soff k :
  has_page s n p -> has_page s m q ->
  0 <= doff -> doff + Z.of_nat k <= 4096 -> 0 <= soff -> soff + Z.of_nat k <= 4096 ->
  memcpy (n, doff) (m, soff) k s =
    Ret tt (put_page n (put (Z.to_nat doff) (sub (Z.to_nat soff) k q) p) s).
Proof.
  intros Hp Hq ? ? ? ?. unfold memcpy. pose proof Hq as (_ & _ & L & _). simpl fst; simpl snd.
  step (page_read_has s m q soff k Hq ltac:(lia) ltac:(lia)).
  apply page_write_has; [done|lia|]. rewrite length_sub by (rewrite L; lia). lia.
Qed.

Create HintDb pages.
#[export] Hint Resolve has_put_page has_put_page_ne page_ok_put : pages.
