(* ===== verification/SdbNode.v ===== *)
(** Layout of the nodes and their accessors: [src/simpledb/node.h] and
    [node.c].  The accessors return pointers into the page, as the C ones do. *)

From S2P Require Import Prelude SdbRow SdbPager.
#[local] Open Scope Z_scope.

Inductive NodeType := NODE_INTERNAL | NODE_LEAF.

Definition NodeType_to_Z (t : NodeType) : Z :=
  match t with NODE_INTERNAL => 0 | NODE_LEAF => 1 end.

(** ** Layout *)
Definition NODE_TYPE_OFFSET : Z := 0.
Definition NODE_TYPE_SIZE : Z := 1.
Definition IS_ROOT_OFFSET : Z := NODE_TYPE_OFFSET + NODE_TYPE_SIZE.
Definition IS_ROOT_SIZE : Z := 1.
Definition PARENT_POINTER_OFFSET : Z := IS_ROOT_OFFSET + IS_ROOT_SIZE.
Definition PARENT_POINTER_SIZE : Z := 4.
Definition COMMON_NODE_HEADER_SIZE : Z := NODE_TYPE_SIZE + IS_ROOT_SIZE + PARENT_POINTER_SIZE.

Definition LEAF_NODE_NUM_CELLS_OFFSET : Z := COMMON_NODE_HEADER_SIZE.
Definition LEAF_NODE_NUM_CELLS_SIZE : Z := 4.
Definition LEAF_NODE_NEXT_LEAF_OFFSET : Z := LEAF_NODE_NUM_CELLS_OFFSET + LEAF_NODE_NUM_CELLS_SIZE.
Definition LEAF_NODE_NEXT_LEAF_SIZE : Z := 4.
Definition LEAF_NODE_HEADER_SIZE : Z :=
  COMMON_NODE_HEADER_SIZE + LEAF_NODE_NUM_CELLS_SIZE + LEAF_NODE_NEXT_LEAF_SIZE.

Definition LEAF_NODE_KEY_OFFSET : Z := 0.
Definition LEAF_NODE_KEY_SIZE : Z := 4.
Definition LEAF_NODE_VALUE_OFFSET : Z := LEAF_NODE_KEY_OFFSET + LEAF_NODE_KEY_SIZE.
Definition LEAF_NODE_VALUE_SIZE : Z := Z.of_nat ROW_SIZE.
Definition LEAF_NODE_CELL_SIZE : Z := LEAF_NODE_KEY_SIZE + LEAF_NODE_VALUE_SIZE.
Definition LEAF_NODE_SPACE_FOR_CELLS : Z := PAGE_SIZE - LEAF_NODE_HEADER_SIZE.
Definition LEAF_NODE_MAX_CELLS : Z := LEAF_NODE_SPACE_FOR_CELLS / LEAF_NODE_CELL_SIZE.
Definition LEAF_NODE_RIGHT_SPLIT_COUNT : Z := (LEAF_NODE_MAX_CELLS + 1) / 2.
Definition LEAF_NODE_LEFT_SPLIT_COUNT : Z := LEAF_NODE_MAX_CELLS + 1 - LEAF_NODE_RIGHT_SPLIT_COUNT.

Definition INTERNAL_NODE_NUM_KEYS_OFFSET : Z := COMMON_NODE_HEADER_SIZE.
Definition INTERNAL_NODE_NUM_KEYS_SIZE : Z := 4.
Definition INTERNAL_NODE_RIGHT_CHILD_OFFSET : Z :=
  INTERNAL_NODE_NUM_KEYS_OFFSET + INTERNAL_NODE_NUM_KEYS_SIZE.
Definition INTERNAL_NODE_RIGHT_CHILD_SIZE : Z := 4.
Definition INTERNAL_NODE_HEADER_SIZE : Z :=
  COMMON_NODE_HEADER_SIZE + INTERNAL_NODE_NUM_KEYS_SIZE + INTERNAL_NODE_RIGHT_CHILD_SIZE.
Definition INTERNAL_NODE_CHILD_SIZE : Z := 4.
Definition INTERNAL_NODE_KEY_SIZE : Z := 4.
Definition INTERNAL_NODE_CELL_SIZE : Z := INTERNAL_NODE_CHILD_SIZE + INTERNAL_NODE_KEY_SIZE.
Definition INTERNAL_NODE_MAX_CELLS : Z := 3.

(** ** Pointers into a node *)
Definition node_parent (node : Z) : ptr := (node, PARENT_POINTER_OFFSET).

Definition leaf_node_num_cells (node : Z) : ptr := (node, LEAF_NODE_NUM_CELLS_OFFSET).
Definition leaf_node_cell (node cell_num : Z) : ptr :=
  (node, LEAF_NODE_HEADER_SIZE + cell_num * LEAF_NODE_CELL_SIZE).
Definition leaf_node_key (node cell_num : Z) : ptr := leaf_node_cell node cell_num.
Definition leaf_node_value (node cell_num : Z) : ptr :=
  (node, (leaf_node_cell node cell_num).2 + LEAF_NODE_KEY_SIZE).
Definition leaf_node_next_leaf (node : Z) : ptr := (node, LEAF_NODE_NEXT_LEAF_OFFSET).

Definition internal_node_num_keys (node : Z) : ptr := (node, INTERNAL_NODE_NUM_KEYS_OFFSET).
Definition internal_node_right_child (node : Z) : ptr := (node, INTERNAL_NODE_RIGHT_CHILD_OFFSET).
Definition internal_node_cell (node cell_num : Z) : ptr :=
  (node, INTERNAL_NODE_HEADER_SIZE + cell_num * INTERNAL_NODE_CELL_SIZE).

(** [p + n] for a [uint32_t*] moves by [n] elements of 4 bytes. *)
Definition ptr32_add (p : ptr) (n : Z) : ptr := (p.1, p.2 + 4 * n).

Definition internal_node_key (node key_num : Z) : ptr :=
  ptr32_add (internal_node_cell node key_num) INTERNAL_NODE_CHILD_SIZE.

Definition internal_node_child (node child_num : Z) : prog Db ptr :=
  num_keys ← load32 (internal_node_num_keys node);
  if num_keys <? child_num then
    fail_with "Error: Tried to access child_num %d > num_keys %d" [AInt child_num; AInt num_keys]
  else if child_num =? num_keys then mret (internal_node_right_child node)
  else mret (internal_node_cell node child_num).

(** ** Common accessors; a type byte that is no enumerator is kept as a number *)
Definition get_node_type (node : Z) : prog Db Z := load8 (node, NODE_TYPE_OFFSET).
Definition set_node_type (node : Z) (type : NodeType) : prog Db unit :=
  store8 (node, NODE_TYPE_OFFSET) (NodeType_to_Z type).
Definition is_node_root (node : Z) : prog Db bool :=
  v ← load8 (node, IS_ROOT_OFFSET); mret (negb (v =? 0)).
Definition set_node_root (node : Z) (is_root : bool) : prog Db unit :=
  store8 (node, IS_ROOT_OFFSET) (if is_root then 1 else 0).

Definition get_node_max_key (node : Z) : prog Db Z :=
  t ← get_node_type node;
  if t =? NodeType_to_Z NODE_INTERNAL then
    n ← load32 (internal_node_num_keys node);
    load32 (internal_node_key node (u32 (n - 1)))
  else if t =? NodeType_to_Z NODE_LEAF then
    n ← load32 (leaf_node_num_cells node);
    load32 (leaf_node_key node (u32 (n - 1)))
  else mret 0.

Definition initialize_leaf_node (node : Z) : prog Db unit :=
  set_node_type node NODE_LEAF;;
  set_node_root node false;;
  store32 (leaf_node_num_cells node) 0;;
  store32 (leaf_node_next_leaf node) 0.

Definition initialize_internal_node (node : Z) : prog Db unit :=
  set_node_type node NODE_INTERNAL;;
  set_node_root node false;;
  store32 (internal_node_num_keys node) 0.
