(* ===== verification/SdbBtree.v ===== *)
(** The B-tree of simpledb and the cursors over it: [src/simpledb/node_btree.h],
    [node_btree.c], [table.h] and [table.c]. *)

From S2P Require Import Prelude SdbRow SdbPager SdbNode.
#[local] Open Scope Z_scope.

(** [cursor->table] is the table of the process; [leaf_node_find] leaves
    [end_of_table] uninitialised, which is [None]. *)
Record Cursor := mkCursor {
  page_num : Z;
  cell_num : Z;
  end_of_table : option bool
}.

(** [row_write_to_buffer(value, leaf_node_value(..))]: the row is written into
    the page at the pointer. *)
Definition store_row (value : Row) (p : ptr) : prog Db unit :=
  l ← page_lookup p.1;
  pg ← of_option l;
  require (0 <=? p.2);;
  pg' ← of_option (row_write_to_buffer value (Z.to_nat p.2) pg);
  page_store p.1 (Some pg').

(** ** Searches *)

(** The binary search of [leaf_node_find]: the interval is at most 2^32 wide and
    every round at least halves it, so 33 rounds are enough. *)
Definition SEARCH_FUEL : nat := 33.

Fixpoint leaf_search (fuel : nat) (node key min_index one_past_max_index : Z) : prog Db Z :=
  match fuel with
  | O => nofuel
  | S f =>
      if one_past_max_index =? min_index then mret min_index else
      let index := u32 (min_index + one_past_max_index) / 2 in
      key_at_index ← load32 (leaf_node_key node index);
      if key =? key_at_index then mret index
      else if key <? key_at_index then leaf_search f node key min_index index
      else leaf_search f node key (u32 (index + 1)) one_past_max_index
  end.

Definition leaf_node_find (page_num key : Z) : prog Db Cursor :=
  node ← pager_get_page page_num;
  num_cells ← load32 (leaf_node_num_cells node);
  cell_num ← leaf_search SEARCH_FUEL node key 0 num_cells;
  mret (mkCursor page_num cell_num None).

Fixpoint child_search (fuel : nat) (node key min_index max_index : Z) : prog Db Z :=
  match fuel with
  | O => nofuel
  | S f =>
      if min_index =? max_index then mret min_index else
      let index := u32 (min_index + max_index) / 2 in
      key_to_right ← load32 (internal_node_key node index);
      if key <=? key_to_right then child_search f node key min_index index
      else child_search f node key (u32 (index + 1)) max_index
  end.

Definition internal_node_find_child (node key : Z) : prog Db Z :=
  num_keys ← load32 (internal_node_num_keys node);
  child_search SEARCH_FUEL node key 0 num_keys.

(** The descent; the fuel bounds the depth.  A child that is neither a leaf nor
    an internal node gives the [NULL] cursor. *)
Fixpoint internal_node_find (fuel : nat) (page_num key : Z) : prog Db (option Cursor) :=
  match fuel with
  | O => nofuel
  | S f =>
      node ← pager_get_page page_num;
      child_index ← internal_node_find_child node key;
      p ← internal_node_child node child_index;
      child_num ← load32 p;
      child ← pager_get_page child_num;
      t ← get_node_type child;
      if t =? NodeType_to_Z NODE_LEAF then c ← leaf_node_find child_num key; mret (Some c)
      else if t =? NodeType_to_Z NODE_INTERNAL then internal_node_find f child_num key
      else mret None
  end.

(** No path without a cycle is longer than the number of pages. *)
Definition TREE_FUEL : nat := 101.

Definition table_find (key : Z) : prog Db (option Cursor) :=
  root_page_num ← gets root_page_num;
  root_node ← pager_get_page root_page_num;
  t ← get_node_type root_node;
  if t =? NodeType_to_Z NODE_LEAF then c ← leaf_node_find root_page_num key; mret (Some c)
  else internal_node_find TREE_FUEL root_page_num key.

(** ** Updates *)

Definition create_new_root (right_child_page_num : Z) : prog Db unit :=
  root_page_num ← gets root_page_num;
  root ← pager_get_page root_page_num;
  right_child ← pager_get_page right_child_page_num;
  left_child_page_num ← pager_get_unused_page_num;
  left_child ← pager_get_page left_child_page_num;
  memcpy (left_child, 0) (root, 0) (Z.to_nat PAGE_SIZE);;
  set_node_root left_child false;;
  initialize_internal_node root;;
  set_node_root root true;;
  store32 (internal_node_num_keys root) 1;;
  p ← internal_node_child root 0;
  store32 p left_child_page_num;;
  left_child_max_key ← get_node_max_key left_child;
  store32 (internal_node_key root 0) left_child_max_key;;
  p ← internal_node_child root 1;
  store32 p right_child_page_num;;
  store32 (node_parent left_child) root_page_num;;
  store32 (node_parent right_child) root_page_num.

Definition update_internal_node_key (node old_key new_key : Z) : prog Db unit :=
  old_child_index ← internal_node_find_child node old_key;
  store32 (internal_node_key node old_child_index) new_key.

(** [for (i = i0; i > index; i--)] of [internal_node_insert]: [n] rounds left. *)
Fixpoint shift_children (n : nat) (parent index : Z) : prog Db unit :=
  match n with
  | O => mret tt
  | S n' =>
      let i := index + Z.of_nat n in
      memcpy (internal_node_cell parent i) (internal_node_cell parent (i - 1))
             (Z.to_nat INTERNAL_NODE_CELL_SIZE);;
      shift_children n' parent index
  end.

Definition internal_node_insert (parent_page_num child_page_num : Z) : prog Db unit :=
  parent ← pager_get_page parent_page_num;
  child ← pager_get_page child_page_num;
  child_max_key ← get_node_max_key child;
  index ← internal_node_find_child parent child_max_key;
  original_num_keys ← load32 (internal_node_num_keys parent);
  store32 (internal_node_num_keys parent) (original_num_keys + 1);;
  if INTERNAL_NODE_MAX_CELLS <=? original_num_keys then
    fail_with "Need to implement splitting internal node" []
  else
  right_child_page_num ← load32 (internal_node_right_child parent);
  right_child ← pager_get_page right_child_page_num;
  right_max ← get_node_max_key right_child;
  if right_max <? child_max_key then
    p ← internal_node_child parent original_num_keys;
    store32 p right_child_page_num;;
    m ← get_node_max_key right_child;
    store32 (internal_node_key parent original_num_keys) m;;
    store32 (internal_node_right_child parent) child_page_num
  else
    shift_children (Z.to_nat (original_num_keys - index)) parent index;;
    p ← internal_node_child parent index;
    store32 p child_page_num;;
    store32 (internal_node_key parent index) child_max_key.

(** One round of the loop of [leaf_node_split_and_insert]. *)
Definition split_step (old_node new_node cell_num key : Z) (value : Row) (i : Z) : prog Db unit :=
  let destination_node := if LEAF_NODE_LEFT_SPLIT_COUNT <=? i then new_node else old_node in
  let index_within_node := i mod LEAF_NODE_LEFT_SPLIT_COUNT in
  let destination := leaf_node_cell destination_node index_within_node in
  if i =? cell_num then
    store32 (leaf_node_key destination_node index_within_node) key;;
    store_row value (leaf_node_value destination_node index_within_node)
  else if cell_num <? i then
    memcpy destination (leaf_node_cell old_node (i - 1)) (Z.to_nat LEAF_NODE_CELL_SIZE)
  else
    memcpy destination (leaf_node_cell old_node i) (Z.to_nat LEAF_NODE_CELL_SIZE).

(** [for (i = LEAF_NODE_MAX_CELLS; i >= 0; i--)]: the rounds for [n-1 .. 0]. *)
Fixpoint split_loop (n : nat) (old_node new_node cell_num key : Z) (value : Row) : prog Db unit :=
  match n with
  | O => mret tt
  | S n' =>
      split_step old_node new_node cell_num key value (Z.of_nat n');;
      split_loop n' old_node new_node cell_num key value
  end.

Definition leaf_node_split_and_insert (cursor : Cursor) (key : Z) (value : Row) : prog Db unit :=
  old_node ← pager_get_page (page_num cursor);
  old_max ← get_node_max_key old_node;
  new_page_num ← pager_get_unused_page_num;
  new_node ← pager_get_page new_page_num;
  initialize_leaf_node new_node;;
  parent ← load32 (node_parent old_node);
  store32 (node_parent new_node) parent;;
  next ← load32 (leaf_node_next_leaf old_node);
  store32 (leaf_node_next_leaf new_node) next;;
  store32 (leaf_node_next_leaf old_node) new_page_num;;
  split_loop (Z.to_nat (LEAF_NODE_MAX_CELLS + 1)) old_node new_node (cell_num cursor) key value;;
  store32 (leaf_node_num_cells old_node) LEAF_NODE_LEFT_SPLIT_COUNT;;
  store32 (leaf_node_num_cells new_node) LEAF_NODE_RIGHT_SPLIT_COUNT;;
  is_root ← is_node_root old_node;
  if is_root : bool then create_new_root new_page_num
  else
    parent_page_num ← load32 (node_parent old_node);
    new_max ← get_node_max_key old_node;
    parent ← pager_get_page parent_page_num;
    update_internal_node_key parent old_max new_max;;
    internal_node_insert parent_page_num new_page_num.

(** [for (i = num_cells; i > cell_num; i--)] of [leaf_node_insert]. *)
Fixpoint shift_cells (n : nat) (node cell_num : Z) : prog Db unit :=
  match n with
  | O => mret tt
  | S n' =>
      let i := cell_num + Z.of_nat n in
      memcpy (leaf_node_cell node i) (leaf_node_cell node (i - 1)) (Z.to_nat LEAF_NODE_CELL_SIZE);;
      shift_cells n' node cell_num
  end.

Definition leaf_node_insert (cursor : Cursor) (key : Z) (value : Row) : prog Db unit :=
  node ← pager_get_page (page_num cursor);
  num_cells ← load32 (leaf_node_num_cells node);
  if LEAF_NODE_MAX_CELLS <=? num_cells then leaf_node_split_and_insert cursor key value
  else
    (if cell_num cursor <? num_cells
     then shift_cells (Z.to_nat (num_cells - cell_num cursor)) node (cell_num cursor)
     else mret tt);;
    n ← load32 (leaf_node_num_cells node);
    store32 (leaf_node_num_cells node) (n + 1);;
    store32 (leaf_node_key node (cell_num cursor)) key;;
    store_row value (leaf_node_value node (cell_num cursor)).

(** ** Cursors and the life of a table *)

Definition table_start : prog Db Cursor :=
  c ← table_find 0;
  cursor ← of_option c;
  node ← pager_get_page (page_num cursor);
  num_cells ← load32 (leaf_node_num_cells node);
  mret (mkCursor (page_num cursor) (cell_num cursor) (Some (num_cells =? 0))).

Definition cursor_value (cursor : Cursor) : prog Db ptr :=
  page ← pager_get_page (page_num cursor);
  mret (leaf_node_value page (cell_num cursor)).

Definition cursor_advance (cursor : Cursor) : prog Db Cursor :=
  node ← pager_get_page (page_num cursor);
  let cell_num := u32 (cell_num cursor + 1) in
  num_cells ← load32 (leaf_node_num_cells node);
  if num_cells <=? cell_num then
    next_page_num ← load32 (leaf_node_next_leaf node);
    if next_page_num =? 0 then mret (mkCursor (page_num cursor) cell_num (Some true))
    else mret (mkCursor next_page_num 0 (end_of_table cursor))
  else mret (mkCursor (page_num cursor) cell_num (end_of_table cursor)).

Definition db_open (filename : list Z) : prog Db unit :=
  pager_open filename;;
  modify (set_root 0);;
  n ← gets (fun s => num_pages (pager s));
  if n =? 0 then
    root_node ← pager_get_page 0;
    initialize_leaf_node root_node;;
    set_node_root root_node true
  else mret tt.

(** The flush loop of [db_close], for pages [i .. i+n-1]. *)
Fixpoint flush_pages (n : nat) (i : Z) : prog Db unit :=
  match n with
  | O => mret tt
  | S n' =>
      p ← page_lookup i;
      (match p with
       | None => mret tt
       | Some _ => pager_flush i;; page_store i None
       end);;
      flush_pages n' (i + 1)
  end.

Definition db_close : prog Db unit :=
  n ← gets (fun s => num_pages (pager s));
  flush_pages (Z.to_nat n) 0;;
  e ← gets env;
  if negb (close_ok e) then fail_with "Error closing db file." []
  else modify (set_pages (replicate 100 None)).
