(* ===== verification/SdbPersist.v ===== *)
(** The contract of the pager: an array of pages that survives [db_close] and
    [db_open].  [view s j] is page [j] as the rest of simpledb sees it, in the
    cache or still in the file. *)

From S2P Require Import Prelude SdbRow SdbPager SdbNode SdbBtree.
#[local] Open Scope Z_scope.

Definition env_ok (e : Env) : Prop :=
  open_ok e = true /\ malloc_ok e = true /\ seek_ok e = true /\ read_ok e = true /\
  write_ok e = true /\ close_ok e = true /\ forall n, page_ok (heap_page e n).

Definition file_page (d : list Z) (j : nat) : list Z := sub (4096 * j) 4096 d.

Definition view (s : Db) (j : nat) : list Z :=
  match pages (pager s) !! j with
  | Some (Some p) => p
  | _ => file_page (disk s) j
  end.

(** [n] pages, the first [m] of them in the file; those not in the file are in
    the cache. *)
Record pager_inv (s : Db) (m n : nat) : Prop := {
  pi_env : env_ok (env s);
  pi_disk : length (disk s) = (4096 * m)%nat /\ Forall is_byte (disk s);
  pi_le : (m <= n <= 100)%nat;
  pi_flen : file_length (pager s) = 4096 * Z.of_nat m;
  pi_num : num_pages (pager s) = Z.of_nat n;
  pi_len : length (pages (pager s)) = 100%nat;
  pi_ok : forall j p, pages (pager s) !! j = Some (Some p) -> page_ok p /\ (j < n)%nat;
  pi_new : forall j, (m <= j < n)%nat -> exists p, pages (pager s) !! j = Some (Some p)
}.

Lemma file_page_put d off bs j k :
  length bs = 4096%nat -> off = (4096 * k)%nat -> (4096 * j + 4096 <= length d)%nat ->
  (off <= length d)%nat ->
  file_page (write_at off bs d) j = if decide (j = k) then bs else file_page d j.
Proof.
  intros Hb -> Hj Hk. unfold write_at, file_page.
  set (d' := d ++ replicate _ 0).
  assert (length d' = Nat.max (length d) (4096 * k + 4096)) as L
    by (unfold d'; rewrite length_app, length_replicate; lia).
  case_decide as E.
  - subst j. apply sub_put_same; lia.
  - rewrite sub_put_other by lia. unfold d', sub. rewrite drop_app_le by lia.
    rewrite take_app_le; [done|]. rewrite length_drop. lia.
Qed.

Lemma file_page_write_new d bs k :
  length bs = 4096%nat -> (4096 * k <= length d)%nat ->
  file_page (write_at (4096 * k) bs d) k = bs.
Proof.
  intros Hb Hk. unfold write_at, file_page. apply sub_put_same; [lia|].
  rewrite length_app, length_replicate. lia.
Qed.

Lemma length_write_at d bs k :
  length bs = 4096%nat -> (4096 * k <= length d)%nat ->
  length (write_at (4096 * k) bs d) = Nat.max (length d) (4096 * S k).
Proof.
  intros Hb Hk. unfold write_at. rewrite length_put, length_app, length_replicate; [lia|].
  rewrite length_app, length_replicate. lia.
Qed.

Lemma write_at_bytes off bs d :
  Forall is_byte bs -> Forall is_byte d -> Forall is_byte (write_at off bs d).
Proof.
  intros ? ?. unfold write_at. apply Forall_put; [done|]. apply Forall_app. split; [done|].
  by apply Forall_replicate.
Qed.

(** ** Flushing *)

(** [pager_flush] of a cached page writes it at its place in the file. *)
Lemma pager_flush_correct s (k : nat) p :
  env_ok (env s) -> (k < 100)%nat -> pages (pager s) !! k = Some (Some p) ->
  pager_flush (Z.of_nat k) s =
    Ret tt (set_disk (write_at (4096 * k) p (disk s)) (4096 * Z.of_nat k + Z.of_nat (length p)) s).
Proof.
  intros (_ & _ & Hsk & _ & Hw & _) Hk E. unfold pager_flush.
  assert (page_lookup (Z.of_nat k) s = Ret (Some p) s) as E1.
  { unfold page_lookup, gets, mbind, prog_bind. by rewrite zget_nat, E. }
  step E1. change PAGE_SIZE with 4096. rewrite u32_id by lia.
  set (o := Z.of_nat k * 4096).
  assert (lseek_set o s = Ret o (set_disk (disk s) o s)) as E2
    by (unfold lseek_set; by rewrite Hsk).
  step E2. destruct (Z.eqb_spec o (-1)); [lia|].
  assert (file_write p (set_disk (disk s) o s) =
    Ret (Z.of_nat (length p)) (set_disk (write_at (Z.to_nat o) p (disk s)) (o + Z.of_nat (length p)) s)) as E3
    by (unfold file_write; simpl; by rewrite Hw).
  step E3. destruct (Z.eqb_spec (Z.of_nat (length p)) (-1)); [lia|].
  unfold mret, prog_ret. replace (Z.to_nat o) with (4096 * k)%nat by (unfold o; lia).
  by replace o with (4096 * Z.of_nat k) by (unfold o; lia).
Qed.

(** Everything but the file, its position and the pager. *)
Record same_frame (s s' : Db) : Prop := {
  sf_env : env s' = env s;
  sf_root : root_page_num s' = root_page_num s;
  sf_stdin : stdin s' = stdin s;
  sf_out : out s' = out s;
  sf_row : row_insert s' = row_insert s
}.

Lemma same_frame_refl s : same_frame s s.
Proof. by split. Qed.

Lemma same_frame_trans s1 s2 s3 : same_frame s1 s2 -> same_frame s2 s3 -> same_frame s1 s3.
Proof. intros [] []. split; congruence. Qed.

Lemma page_drop_correct s (k : nat) :
  length (pages (pager s)) = 100%nat -> (k < 100)%nat ->
  page_store (Z.of_nat k) None s = Ret tt (set_pages (<[k := None]> (pages (pager s))) s).
Proof.
  intros L Hk. unfold page_store, gets, mbind, prog_bind. by rewrite zset_nat by lia.
Qed.

(** The flush loop: the cached pages among [i .. i+n-1] reach the file, the file
    keeps its other pages, and the cache is empty there. *)
Lemma flush_pages_correct n s i d :
  env_ok (env s) -> length (pages (pager s)) = 100%nat -> (i + n <= 100)%nat -> (i <= d)%nat ->
  length (disk s) = (4096 * d)%nat -> Forall is_byte (disk s) ->
  (forall j p, pages (pager s) !! j = Some (Some p) -> page_ok p) ->
  (forall j, (d <= j < i + n)%nat -> exists p, pages (pager s) !! j = Some (Some p)) ->
  exists s', flush_pages n (Z.of_nat i) s = Ret tt s' /\ same_frame s s' /\
    length (disk s') = (4096 * Nat.max d (i + n))%nat /\ Forall is_byte (disk s') /\
    (forall j, (j < Nat.max d (i + n))%nat ->
       file_page (disk s') j = if decide (i <= j < i + n)%nat then view s j else file_page (disk s) j).
Proof.
  revert s i d. induction n as [|n IH]; intros s i d He Lp Hin Hid Ld Fd Hok Hc.
  { exists s. split_and!; try done; [rewrite Ld; f_equal; lia|].
    intros j Hj. by rewrite decide_False by lia. }
  cbn [flush_pages]. replace (Z.of_nat i + 1) with (Z.of_nat (S i)) by lia.
  destruct (lookup_lt_is_Some_2 (pages (pager s)) i ltac:(lia)) as [o Eo].
  assert (page_lookup (Z.of_nat i) s = Ret o s) as E1.
  { unfold page_lookup, gets, mbind, prog_bind. by rewrite zget_nat, Eo. }
  step E1. destruct o as [p|].
  - destruct (Hok _ _ Eo) as [L F].
    rewrite bind_assoc. step (pager_flush_correct s i p He ltac:(lia) Eo).
    set (s1 := set_disk _ _ s).
    step (page_drop_correct s1 i Lp ltac:(lia)). set (s2 := set_pages _ s1).
    assert (disk s2 = write_at (4096 * i) p (disk s)) as Ed by done.
    assert (length (disk s2) = (4096 * Nat.max d (S i))%nat) as L2
      by (rewrite Ed, length_write_at by lia; lia).
    destruct (IH s2 (S i) (Nat.max d (S i))) as (s' & E & Hf & Hl & Hb & Hp); try done; try lia.
    + simpl. by rewrite length_insert.
    + by apply write_at_bytes.
    + intros j q Ej. simpl in Ej. destruct (decide (i = j)) as [->|Hne].
      * rewrite list_lookup_insert_eq in Ej by lia. done.
      * rewrite list_lookup_insert_ne in Ej by done. by eapply Hok.
    + intros j Hj. simpl. rewrite list_lookup_insert_ne by lia. apply Hc. lia.
    + exists s'. rewrite E. split_and!; [done| |rewrite Hl; f_equal; lia|done|].
      { eapply same_frame_trans; [|exact Hf]. by split. }
      intros j Hj. rewrite Hp by lia. destruct (decide (j = i)) as [->|Hne].
      * rewrite decide_False, decide_True by lia. unfold view. rewrite Eo, Ed.
        apply file_page_write_new; lia.
      * assert (file_page (disk s2) j = file_page (disk s) j \/ (d <= j)%nat) as Hfp.
        { destruct (Nat.lt_ge_cases j d); [left|by right]. rewrite Ed.
          rewrite (file_page_put _ _ _ _ i) by lia. by rewrite decide_False. }
        assert (view s2 j = view s j \/ (d <= j)%nat /\ j <> i) as Hv.
        { unfold view. simpl pages. rewrite list_lookup_insert_ne by done.
          destruct (pages (pager s) !! j) as [[q|]|]; [by left|destruct Hfp; auto..]. }
        repeat case_decide; try lia.
        -- destruct Hv as [|[? _]]; [done|]. destruct (Hc j ltac:(lia)) as [q Eq].
           unfold view. simpl pages. by rewrite list_lookup_insert_ne, Eq by done.
        -- destruct Hfp as [|]; [done|lia].
  - assert (i < d)%nat as Hid'.
    { destruct (Nat.lt_ge_cases i d); [done|]. destruct (Hc i ltac:(lia)) as [q Eq]. congruence. }
    step (eq_refl : (mret tt : prog Db unit) s = Ret tt s).
    destruct (IH s (S i) d) as (s' & E & Hf & Hl & Hb & Hp); try done; try lia.
    + intros j Hj. apply Hc. lia.
    + exists s'. rewrite E. split_and!; [reflexivity|exact Hf|rewrite Hl; f_equal; lia|exact Hb|].
      intros j Hj. rewrite Hp by lia. destruct (decide (j = i)) as [->|Hne].
      * rewrite decide_False, decide_True by lia. unfold view. by rewrite Eo.
      * repeat case_decide; try lia; done.
Qed.

(** ** Closing, and opening again *)

(** [db_close] writes the array of pages to the file: [n] pages, each with the
    bytes it had in the cache or already had in the file. *)
Theorem db_close_saves s m n :
  pager_inv s m n ->
  exists s', db_close s = Ret tt s' /\ same_frame s s' /\
    length (disk s') = (4096 * n)%nat /\ Forall is_byte (disk s') /\
    forall j, (j < n)%nat -> file_page (disk s') j = view s j.
Proof.
  intros [He [Ld Fd] Hmn _ Hn Lp Hok Hnew]. unfold db_close.
  step (eq_refl : gets (fun s => num_pages (pager s)) s = Ret (num_pages (pager s)) s).
  rewrite Hn, Nat2Z.id.
  destruct (flush_pages_correct n s 0 m He Lp ltac:(lia) ltac:(lia) Ld Fd)
    as (s1 & E & Hf & Hl & Hb & Hv); [by intros j p Hj; destruct (Hok j p Hj)|exact Hnew|].
  step E. step (eq_refl : gets env s1 = Ret (env s1) s1).
  destruct He as (_ & _ & _ & _ & _ & Hc & _). destruct Hf. rewrite sf_env0, Hc. cbn [negb].
  eexists. split; [reflexivity|]. split_and!; [by split| |exact Hb|].
  - cbn [disk set_pages set_pager]. rewrite Hl. f_equal. lia.
  - intros j Hj. cbn [disk set_pages set_pager]. rewrite Hv by lia. by rewrite decide_True by lia.
Qed.

(** [pager_open] of a file of whole pages starts from its pages. *)
Theorem pager_open_inv s f n :
  env_ok (env s) -> length (disk s) = (4096 * n)%nat -> Forall is_byte (disk s) -> (n <= 100)%nat ->
  exists s', pager_open f s = Ret tt s' /\ same_frame s s' /\ pager_inv s' n n /\
    forall j, view s' j = file_page (disk s) j.
Proof.
  intros He Ld Fd Hn. unfold pager_open.
  step (eq_refl : gets env s = Ret (env s) s).
  pose proof He as (Ho & Hm & _). rewrite Ho. cbn [negb].
  set (fl := fun s => Z.of_nat (length (disk s))).
  step (eq_refl : gets fl s = Ret (fl s) s). rewrite Hm. cbn [negb].
  assert (fl s = 4096 * Z.of_nat n) as -> by (unfold fl; rewrite Ld; lia).
  change PAGE_SIZE with 4096.
  rewrite (Z.mul_comm 4096), Z.div_mul, Z.mod_mul by lia.
  rewrite !u32_id by lia.
  eexists. split; [reflexivity|]. split_and!; [by split| |].
  - split; cbn [env disk pager file_length num_pages pages set_pager].
    + exact He.
    + split; [exact Ld|exact Fd].
    + lia.
    + cbv beta; lia.
    + reflexivity.
    + apply length_replicate.
    + intros j p Hj. by apply lookup_replicate in Hj as [? _].
    + intros j Hj. lia.
  - intros j. unfold view. cbn [disk pager pages set_pager].
    destruct (replicate 100 None !! j) as [[q|]|] eqn:E; try reflexivity.
    by apply lookup_replicate in E as [? _].
Qed.

(** ** The cache is transparent *)

Lemma put_all bs (l : list Z) : length bs = length l -> put 0 bs l = bs.
Proof.
  intros H. unfold put. rewrite take_0, drop_ge by lia. by rewrite app_nil_l, app_nil_r.
Qed.

(** A page that is not cached is read from the file if the file has it, and is a
    fresh block otherwise. *)
Lemma pager_get_page_miss s m n (k : nat) :
  pager_inv s m n -> (k <= n)%nat -> (k < 100)%nat -> pages (pager s) !! k = Some None ->
  exists p f, page_ok p /\ ((k < m)%nat -> p = file_page (disk s) k) /\
    pager_get_page (Z.of_nat k) s =
      Ret (Z.of_nat k)
        (set_num_pages (Z.of_nat (Nat.max n (S k)))
          (set_pages (<[k := Some p]> (pages (pager s))) (set_disk (disk s) f s))).
Proof.
  intros [He [Ld Fd] Hmn Hfl Hn Lp Hok Hnew] Hk Hk100 Ek. unfold pager_get_page.
  rewrite (proj2 (Z.leb_gt TABLE_MAX_PAGES _)) by (change TABLE_MAX_PAGES with 100; lia).
  assert (page_lookup (Z.of_nat k) s = Ret None s) as E1.
  { unfold page_lookup, gets, mbind, prog_bind. by rewrite zget_nat, Ek. }
  step E1. set (g1 := fun s => heap_page (env s) (Z.of_nat k)).
  step (eq_refl : gets g1 s = Ret (g1 s) s).
  set (g2 := fun s => file_length (pager s)). step (eq_refl : gets g2 s = Ret (g2 s) s).
  assert (g2 s = Z.of_nat m * 4096) as -> by (unfold g2; lia).
  change PAGE_SIZE with 4096. rewrite Z.mod_mul, Z.div_mul by lia. cbn [Z.eqb negb].
  step (eq_refl : (mret (Z.of_nat m) : prog Db Z) s = Ret (Z.of_nat m) s).
  pose proof He as (_ & _ & Hsk & Hrd & _ & _ & Hheap). destruct (Hheap (Z.of_nat k)) as [Lh Fh].
  rewrite u32_id by lia. set (bs := sub (4096 * k) 4096 (disk s)).
  assert (length bs = if decide (k < m)%nat then 4096%nat else 0%nat) as Lb.
  { unfold bs, sub. rewrite length_take, length_drop. case_decide; lia. }
  assert (exists p f, page_ok p /\ ((k < m)%nat -> p = file_page (disk s) k) /\
    (if Z.of_nat k <=? Z.of_nat m then
       lseek_set (Z.of_nat k * 4096);;
       '(bytes_read, bs) ← file_read 4096;
       if bytes_read =? -1 then fail_with "Error: error reading file: %d" []
       else mret (put 0 bs (g1 s))
     else mret (g1 s)) s = Ret p (set_disk (disk s) f s)) as (p & f & Hp & Hpm & E2).
  { destruct (Z.leb_spec (Z.of_nat k) (Z.of_nat m)).
    - exists (put 0 bs (g1 s)), (Z.of_nat k * 4096 + Z.of_nat (length bs)). split_and!.
      + apply page_ok_put; [by split|case_decide; lia|]. by apply Forall_sub.
      + intros Hm. rewrite decide_True in Lb by done. change (put 0 bs (g1 s) = bs). apply put_all. by rewrite Lb, <- Lh.
      + unfold lseek_set, file_read, read_bytes, mbind, prog_bind. rewrite Hsk. simpl env.
        rewrite Hrd. cbn [disk fpos set_disk]. replace (Z.to_nat (Z.of_nat k * 4096)) with (4096 * k)%nat by lia.
        change (Z.to_nat 4096) with 4096%nat. fold (sub (4096 * k) 4096 (disk s)). fold bs.
        by destruct (Z.eqb_spec (Z.of_nat (length bs)) (-1)); [lia|].
    - exists (g1 s), (fpos s). split_and!; [by split|lia|by destruct s]. }
  step E2. exists p, f. split_and!; [done|done|]. set (s1 := set_disk _ f s).
  assert (page_store (Z.of_nat k) (Some p) s1 = Ret tt (set_pages (<[k := Some p]> (pages (pager s))) s1)) as E3.
  { unfold page_store, gets, mbind, prog_bind. cbn [pager pages s1 set_disk].
    by rewrite zset_nat by lia. }
  step E3. set (s2 := set_pages _ s1). set (g3 := fun s => num_pages (pager s)).
  step (eq_refl : gets g3 s2 = Ret (g3 s2) s2). change (g3 s2) with (num_pages (pager s)). rewrite Hn.
  destruct (Z.leb_spec (Z.of_nat n) (Z.of_nat k)).
  - step (eq_refl : modify (set_num_pages (Z.of_nat k + 1)) s2 = Ret tt _).
    unfold mret, prog_ret. f_equal. f_equal. lia.
  - step (eq_refl : (mret tt : prog Db unit) s2 = Ret tt s2). unfold mret, prog_ret. f_equal.
    replace (Nat.max n (S k)) with n by lia. rewrite <- Hn. by destruct s as [? ? ? [] ? ? ? ?].
Qed.

(** Asking for a page within the table or just after it succeeds, whatever is in
    the cache, and no page of the table looks different afterwards. *)
Theorem pager_get_page_view s m n (k : nat) :
  pager_inv s m n -> (k <= n)%nat -> (k < 100)%nat ->
  exists s', pager_get_page (Z.of_nat k) s = Ret (Z.of_nat k) s' /\ same_frame s s' /\
    pager_inv s' m (Nat.max n (S k)) /\ disk s' = disk s /\
    has_page s' (Z.of_nat k) (view s' k) /\ forall j, (j < n)%nat -> view s' j = view s j.
Proof.
  intros I Hk Hk100. pose proof I as [He Hd Hmn Hfl Hn Lp Hok Hnew].
  assert (is_Some (pages (pager s) !! k)) as [[p|] Ek] by (apply lookup_lt_is_Some; lia).
  - destruct (Hok _ _ Ek) as [Hp Hkn].
    assert (has_page s (Z.of_nat k) p) as Hh.
    { split_and!; [lia|change TABLE_MAX_PAGES with 100; lia| |done]. by rewrite Nat2Z.id. }
    exists s. split_and!; [by eapply pager_get_page_has|apply same_frame_refl| |done| |done].
    + replace (Nat.max n (S k)) with n by lia. done.
    + unfold view. by rewrite Ek.
  - destruct (pager_get_page_miss s m n k I Hk Hk100 Ek) as (p & f & Hp & Hpm & E).
    assert (forall j, j <> k -> <[k:=Some p]> (pages (pager s)) !! j = pages (pager s) !! j) as Hne
      by (intros; by apply list_lookup_insert_ne).
    assert (<[k:=Some p]> (pages (pager s)) !! k = Some (Some p)) as Heq
      by (apply list_lookup_insert_eq; lia).
    eexists. split; [exact E|]. split_and!; [by split| |done| |].
    + split; cbn [env disk pager file_length num_pages pages set_pager set_disk set_num_pages set_pages];
        [done|done|lia|done|lia|by rewrite length_insert| |].
      * intros j q Hj. destruct (decide (j = k)) as [->|Hjk]; [rewrite Heq in Hj; by simplify_eq; split; [|lia]|].
        rewrite Hne in Hj by done. destruct (Hok _ _ Hj). split; [done|lia].
      * intros j Hj. destruct (decide (j = k)) as [->|Hjk]; [by exists p|].
        rewrite Hne by done. apply Hnew. lia.
    + split_and!; [lia|change TABLE_MAX_PAGES with 100; lia| |].
      * rewrite Nat2Z.id. unfold view. cbn [pager pages set_pager set_num_pages set_pages]. by rewrite Heq.
      * unfold view. cbn [pager pages set_pager set_num_pages set_pages]. by rewrite Heq.
    + intros j Hj. unfold view. cbn [pager disk pages set_pager set_num_pages set_pages].
      destruct (decide (j = k)) as [->|Hjk]; [|by rewrite Hne].
      rewrite Heq, Ek. apply Hpm. destruct (Nat.lt_ge_cases k m); [done|].
      destruct (Hnew k ltac:(lia)). congruence.
Qed.
