(* ===== verification/SdbLeaf.v ===== *)
(** Leaf nodes as sequences of entries: what the accesses of
    [src/simpledb/node_btree.c] to one leaf do, cell by cell. *)

From S2P Require Import Prelude SdbRow SdbPager SdbNode SdbBtree.
#[local] Open Scope Z_scope.

(** ** The cells of a page *)

Definition cell_off (i : nat) : nat := 14 + 74 * i.
#[global] Arguments cell_off : simpl never.
Definition cell_at (p : list Z) (i : nat) : list Z := sub (cell_off i) 74 p.
Definition key_at (p : list Z) (i : nat) : Z := le_decode (sub (cell_off i) 4 p).
Definition leaf_num (p : list Z) : Z := le_decode (sub 6 4 p).
Definition leaf_next (p : list Z) : Z := le_decode (sub 10 4 p).

(** Pointers of the accessors, as offsets in the page. *)
Lemma leaf_node_cell_off n (i : nat) :
  leaf_node_cell n (Z.of_nat i) = (n, Z.of_nat (cell_off i)).
Proof.
  unfold leaf_node_cell, cell_off. f_equal.
  change LEAF_NODE_HEADER_SIZE with 14. change LEAF_NODE_CELL_SIZE with 74. lia.
Qed.

Lemma leaf_node_value_off n (i : nat) :
  leaf_node_value n (Z.of_nat i) = (n, Z.of_nat (cell_off i + 4)).
Proof.
  unfold leaf_node_value. rewrite leaf_node_cell_off. cbn [snd]. f_equal.
  change LEAF_NODE_KEY_SIZE with 4. lia.
Qed.

Lemma cell_at_put_other p i off bs :
  (off + length bs <= cell_off i \/ cell_off i + 74 <= off)%nat ->
  (off + length bs <= length p)%nat -> cell_at (put off bs p) i = cell_at p i.
Proof. intros H ?. apply sub_put_other; lia. Qed.

Lemma cell_at_put_cell p i j bs :
  length bs = 74%nat -> (cell_off i + 74 <= length p)%nat ->
  cell_at (put (cell_off i) bs p) j = if decide (i = j) then bs else cell_at p j.
Proof.
  intros Hb Hl. case_decide as E.
  - subst j. apply sub_put_same; lia.
  - apply cell_at_put_other; [|lia]. unfold cell_off. lia.
Qed.

Lemma key_at_cell p i : le_decode (take 4 (cell_at p i)) = key_at p i.
Proof.
  unfold key_at, cell_at. f_equal. pose proof (sub_sub 0 4 (cell_off i) 74 p ltac:(lia)) as E.
  rewrite Nat.add_0_r in E. exact E.
Qed.

Lemma length_cell_at p i : page_ok p -> (i <= 54)%nat -> length (cell_at p i) = 74%nat.
Proof. intros [L _] ?. apply length_sub. unfold cell_off. lia. Qed.

(** ** Binary search *)

(** The reference: how many keys at the front are smaller than [key]. *)
Fixpoint lower_bound (key : Z) (ks : list Z) : nat :=
  match ks with
  | k :: t => if k <? key then S (lower_bound key t) else 0
  | [] => 0
  end.

Definition keys_of (p : list Z) : list Z := map (key_at p) (seq 0 (Z.to_nat (leaf_num p))).

Definition sorted_keys (ks : list Z) : Prop :=
  forall i j a b, (i < j)%nat -> ks !! i = Some a -> ks !! j = Some b -> a < b.

Lemma lower_bound_unique key ks r :
  (r <= length ks)%nat ->
  (forall i k, (i < r)%nat -> ks !! i = Some k -> k < key) ->
  (forall k, ks !! r = Some k -> key <= k) ->
  lower_bound key ks = r.
Proof.
  revert r. induction ks as [|k ks IH]; intros r Hr H1 H2; simpl in *; [lia|].
  destruct r as [|r].
  - specialize (H2 k eq_refl). by destruct (Z.ltb_spec k key); [lia|].
  - pose proof (H1 0%nat k ltac:(lia) eq_refl). destruct (Z.ltb_spec k key); [|lia].
    f_equal. apply IH; [lia| |exact H2]. intros i k' Hi E. apply (H1 (S i)); [lia|exact E].
Qed.

Lemma lookup_keys_of p i :
  (i < Z.to_nat (leaf_num p))%nat -> keys_of p !! i = Some (key_at p i).
Proof.
  intros H. unfold keys_of. rewrite list_lookup_fmap, lookup_seq_lt by done. done.
Qed.

Lemma length_keys_of p : length (keys_of p) = Z.to_nat (leaf_num p).
Proof. unfold keys_of. by rewrite length_map, length_seq. Qed.

Lemma leaf_search_correct fuel s n p key lo hi :
  has_page s n p -> 0 <= leaf_num p <= 55 -> sorted_keys (keys_of p) ->
  0 <= lo <= hi -> hi <= leaf_num p -> hi - lo < 2 ^ (Z.of_nat fuel - 1) ->
  (forall i, (Z.of_nat i < lo) -> key_at p i < key) ->
  (forall i, (hi <= Z.of_nat i < leaf_num p) -> key < key_at p i) ->
  leaf_search fuel n key lo hi s = Ret (Z.of_nat (lower_bound key (keys_of p))) s.
Proof.
  intros Hp Hn Hs. revert lo hi. induction fuel as [|f IH]; intros lo hi Hlo Hhi Hf Hl Hr.
  { simpl in Hf. lia. }
  assert (Hlk : forall i, Z.of_nat i < leaf_num p -> keys_of p !! i = Some (key_at p i))
    by (intros; apply lookup_keys_of; lia).
  simpl. destruct (Z.eqb_spec hi lo) as [->|Hne].
  - unfold mret, prog_ret. f_equal.
    rewrite (lower_bound_unique key _ (Z.to_nat lo)); [lia|rewrite length_keys_of; lia| |].
    + intros i k Hi E. rewrite Hlk in E by lia. injection E as <-. apply Hl. lia.
    + intros k E. assert (Z.of_nat (Z.to_nat lo) < leaf_num p).
      { apply lookup_lt_Some in E. rewrite length_keys_of in E. lia. }
      rewrite Hlk in E by done. injection E as <-. apply Z.lt_le_incl, Hr. lia.
  - assert (f <> 0%nat) by (intros ->; change (2 ^ (Z.of_nat 1 - 1)) with 1 in Hf; lia).
    assert (2 ^ (Z.of_nat (S f) - 1) = 2 * 2 ^ (Z.of_nat f - 1)) as E2.
    { rewrite <- Z.pow_succ_r by lia. f_equal. lia. }
    rewrite (u32_id (lo + hi)) by lia.
    pose proof (Z.div_mod (lo + hi) 2). pose proof (Z.mod_pos_bound (lo + hi) 2).
    set (mid := (lo + hi) / 2) in *.
    assert (mid = Z.of_nat (Z.to_nat mid)) as Em by lia.
    unfold leaf_node_key. rewrite Em at 1. rewrite leaf_node_cell_off.
    assert (cell_off (Z.to_nat mid) + 74 <= 4096)%nat by (unfold cell_off; lia).
    step (load32_has s n p _ Hp (Nat2Z.is_nonneg (cell_off (Z.to_nat mid))) ltac:(lia)).
    rewrite Nat2Z.id. change (le_decode _) with (key_at p (Z.to_nat mid)).
    assert (Hmid : forall i, Z.of_nat i < mid -> key_at p i < key_at p (Z.to_nat mid)).
    { intros i Hi. apply (Hs i (Z.to_nat mid)); [lia|apply Hlk; lia|apply Hlk; lia]. }
    assert (Hmid' : forall i, mid < Z.of_nat i < leaf_num p -> key_at p (Z.to_nat mid) < key_at p i).
    { intros i Hi. apply (Hs (Z.to_nat mid) i); [lia|apply Hlk; lia|apply Hlk; lia]. }
    destruct (Z.eqb_spec key (key_at p (Z.to_nat mid))) as [->|Hk].
    + unfold mret, prog_ret. f_equal.
      rewrite (lower_bound_unique _ _ (Z.to_nat mid)); [lia|rewrite length_keys_of; lia| |].
      * intros i k Hi E. rewrite Hlk in E by lia. injection E as <-. apply Hmid. lia.
      * intros k E. rewrite Hlk in E by lia. by injection E as <-.
    + destruct (Z.ltb_spec key (key_at p (Z.to_nat mid))).
      * apply IH; [lia|lia|lia|exact Hl|]. intros i Hi.
        destruct (Z.eq_dec (Z.of_nat i) mid) as [Ei|]; [|specialize (Hmid' i); lia].
        by replace i with (Z.to_nat mid) by lia.
      * rewrite u32_id by lia. apply IH; [lia|lia|lia| |exact Hr]. intros i Hi.
        destruct (Z.eq_dec (Z.of_nat i) mid) as [Ei|]; [|specialize (Hmid i); lia].
        replace i with (Z.to_nat mid) by lia. lia.
Qed.

Lemma load_num_cells s n p :
  has_page s n p -> load32 (leaf_node_num_cells n) s = Ret (leaf_num p) s.
Proof. intros H. by apply (load32_has s n p 6 H). Qed.

(** On a leaf with sorted keys [leaf_node_find] returns the place of the key: the
    number of smaller keys, which is the index of the key if it is present. *)
Theorem leaf_node_find_correct s n p key :
  has_page s n p -> 0 <= leaf_num p <= 55 -> sorted_keys (keys_of p) ->
  leaf_node_find n key s =
    Ret (mkCursor n (Z.of_nat (lower_bound key (keys_of p))) None) s.
Proof.
  intros Hp Hn Hs. unfold leaf_node_find.
  step (pager_get_page_has _ _ _ Hp). step (load_num_cells _ _ _ Hp).
  erewrite bind_Ret; [reflexivity|]. change SEARCH_FUEL with 33%nat.
  apply leaf_search_correct; try done; try lia; intros; lia.
Qed.

(** ** Leaves that hold a list of entries *)

Abbreviation entry := (Z * Row)%type.

Definition enc_cell (e : entry) : list Z := le_encode 4 e.1 ++ row_cell e.2.

Definition entry_wf (e : entry) : Prop := 0 <= e.1 < 2 ^ 32 /\ row_wf e.2.

Record leaf_rep (p : list Z) (es : list entry) : Prop := {
  rep_page : page_ok p;
  rep_num : leaf_num p = Z.of_nat (length es);
  rep_max : (length es <= 55)%nat;
  rep_wf : Forall entry_wf es;
  rep_cell : forall i e, es !! i = Some e -> cell_at p i = enc_cell e
}.

Lemma length_enc_cell e : entry_wf e -> length (enc_cell e) = 74%nat.
Proof.
  intros [_ H]. unfold enc_cell. by rewrite length_app, length_le_encode, length_row_cell.
Qed.

Lemma rep_key p es i e : leaf_rep p es -> es !! i = Some e -> key_at p i = e.1.
Proof.
  intros H E. rewrite <- key_at_cell, (rep_cell _ _ H _ _ E). unfold enc_cell.
  rewrite take_app_length' by (by rewrite length_le_encode).
  rewrite le_decode_encode_32. apply u32_id.
  pose proof (rep_wf _ _ H) as W. rewrite Forall_lookup in W. by destruct (W _ _ E).
Qed.

Lemma rep_keys p es : leaf_rep p es -> keys_of p = map fst es.
Proof.
  intros H. apply list_eq. intros i. rewrite list_lookup_fmap. pose proof (rep_num _ _ H) as N.
  destruct (es !! i) as [e|] eqn:E; simpl.
  - pose proof (lookup_lt_Some _ _ _ E). rewrite lookup_keys_of by lia.
    f_equal. by eapply rep_key.
  - apply lookup_ge_None_1 in E. apply lookup_ge_None_2. rewrite length_keys_of. lia.
Qed.

(** The list after an insertion at [i], and the damage the 71st byte of
    [row_write_to_buffer] does: it becomes the low byte of the key of the cell
    that follows the one written. *)
Definition insert_at {A} (i : nat) (x : A) (l : list A) : list A := take i l ++ x :: drop i l.

Definition clobber (b : Z) (e : entry) : entry := (e.1 - e.1 mod 256 + b, e.2).

Definition leaf_inserted (i : nat) (key : Z) (r : Row) (es : list entry) : list entry :=
  alter (clobber (row_spill r)) (S i) (insert_at i (key, r) es).

Lemma length_insert_at {A} i (x : A) l : (i <= length l)%nat -> length (insert_at i x l) = S (length l).
Proof. intros H. unfold insert_at. rewrite length_app, length_take. simpl. rewrite length_drop. lia. Qed.

Lemma lookup_insert_at {A} i (x : A) l j :
  (i <= length l)%nat ->
  insert_at i x l !! j =
    if decide (j < i)%nat then l !! j else if decide (j = i) then Some x else l !! (j - 1)%nat.
Proof.
  intros H. unfold insert_at. repeat case_decide.
  - rewrite lookup_app_l by (rewrite length_take; lia). by apply lookup_take_lt.
  - subst. rewrite lookup_app_r by (rewrite length_take; lia). rewrite length_take.
    by replace (i - i `min` length l)%nat with 0%nat by lia.
  - rewrite lookup_app_r by (rewrite length_take; lia). rewrite length_take, Nat.min_l by lia.
    replace (j - i)%nat with (S (j - i - 1)) by lia. simpl. rewrite lookup_drop. f_equal. lia.
Qed.

Lemma clobber_bytes b k :
  is_byte b -> 0 <= k < 2 ^ 32 ->
  b :: drop 1 (le_encode 4 k) = le_encode 4 (k - k mod 256 + b).
Proof.
  intros Hb Hk. unfold is_byte in Hb. unfold le_encode at 1. simpl drop.
  assert (k - k mod 256 + b = b + (k / 256) * 256) as -> by (pose proof (Z.div_mod k 256); lia).
  unfold le_encode. rewrite Z.mod_add by lia. rewrite (Z.mod_small b) by lia.
  rewrite Z.div_add by lia. rewrite (Z.div_small b) by lia. done.
Qed.

Lemma clobber_cell b e :
  is_byte b -> entry_wf e -> b :: drop 1 (enc_cell e) = enc_cell (clobber b e).
Proof.
  intros Hb [Hk _]. unfold enc_cell. simpl fst; simpl snd.
  rewrite <- clobber_bytes by done.
  rewrite (drop_app_le (le_encode 4 e.1)) by (rewrite length_le_encode; lia). done.
Qed.

Lemma clobber_wf b e : is_byte b -> entry_wf e -> entry_wf (clobber b e).
Proof.
  intros Hb [Hk Hr]. split; [|done]. simpl. unfold is_byte in Hb.
  pose proof (Z.mod_pos_bound e.1 256). pose proof (Z.div_mod e.1 256).
  assert (e.1 / 256 < 2 ^ 24) by (apply Z.div_lt_upper_bound; lia).
  assert (0 <= e.1 / 256) by (apply Z.div_pos; lia). lia.
Qed.

(** The shifting loop moves the cells [ci .. ci+m-1] up by one and leaves the
    header alone. *)
Lemma shift_cells_correct m s n p (ci : nat) :
  has_page s n p -> (ci + m <= 54)%nat ->
  exists p', shift_cells m n (Z.of_nat ci) s = Ret tt (put_page n p' s) /\ page_ok p' /\
    sub 0 14 p' = sub 0 14 p /\
    forall j, (j <= 54)%nat ->
      cell_at p' j = if decide (ci < j <= ci + m)%nat then cell_at p (j - 1) else cell_at p j.
Proof.
  revert s p. induction m as [|m IH]; intros s p Hp Hm.
  { exists p. simpl. unfold mret, prog_ret. rewrite (put_page_id s n p Hp).
    pose proof Hp as (_ & _ & ?). split_and!; try done. intros j Hj. case_decide; [lia|done]. }
  simpl. replace (Z.of_nat ci + Z.of_nat (S m)) with (Z.of_nat (ci + S m)) by lia.
  replace (Z.of_nat (ci + S m) - 1) with (Z.of_nat (ci + m)) by lia.
  rewrite !leaf_node_cell_off. change (Z.to_nat LEAF_NODE_CELL_SIZE) with 74%nat.
  pose proof Hp as (_ & _ & Hok). pose proof Hok as [L _].
  assert (cell_off (ci + S m) + 74 <= 4096)%nat by (unfold cell_off; lia).
  assert (cell_off (ci + m) + 74 <= 4096)%nat by (unfold cell_off; lia).
  step (memcpy_has s n p n p (Z.of_nat (cell_off (ci + S m))) (Z.of_nat (cell_off (ci + m))) 74 Hp Hp
          ltac:(lia) ltac:(lia) ltac:(lia) ltac:(lia)).
  rewrite !Nat2Z.id. change (sub (cell_off (ci + m)) 74 p) with (cell_at p (ci + m)).
  assert (length (cell_at p (ci + m)) = 74%nat) as Lc by (apply length_cell_at; [done|lia]).
  set (p1 := put _ _ p).
  assert (page_ok p1) as Hok1.
  { apply page_ok_put; [done|lia|]. apply Forall_sub. by destruct Hok. }
  destruct (IH (put_page n p1 s) p1) as (p' & E & Hok' & Hh & Hc);
    [by eapply has_put_page|lia|].
  exists p'. rewrite E, put_page_twice. split_and!; [done|done| |].
  - rewrite Hh. apply sub_put_other; [left; unfold cell_off; lia|lia].
  - intros j Hj. rewrite Hc by done. unfold p1.
    rewrite !cell_at_put_cell by (try done; lia).
    repeat case_decide; try lia; try done; f_equal; lia.
Qed.

(** Writing a key and then a row into cell [ci] is one write of 75 bytes. *)
Definition stored_cell (ci : nat) (key : Z) (r : Row) (p : list Z) : list Z :=
  put (cell_off ci) (enc_cell (key, r) ++ [row_spill r]) p.

Lemma stored_cell_ok ci key r p :
  page_ok p -> (ci <= 54)%nat -> row_wf r -> page_ok (stored_cell ci key r p).
Proof.
  intros Hok Hci Hr. apply page_ok_put; [done| |].
  - unfold enc_cell. rewrite !length_app, length_le_encode, length_row_cell by done.
    unfold cell_off. simpl length. change ROW_SIZE with 70%nat. lia.
  - destruct (row_padding_split r Hr) as (? & _ & ? & _).
    unfold enc_cell. rewrite !Forall_app. auto using le_encode_bytes, row_cell_bytes.
Qed.

Lemma store_cell_correct s n p (ci : nat) key r :
  has_page s n p -> (ci <= 54)%nat -> row_wf r ->
  (store32 (leaf_node_key n (Z.of_nat ci)) key;; store_row r (leaf_node_value n (Z.of_nat ci))) s =
    Ret tt (put_page n (stored_cell ci key r p) s).
Proof.
  intros Hp Hci Hr. pose proof Hp as (_ & _ & Hok). pose proof Hok as [L F].
  assert (cell_off ci + 74 <= 4084)%nat as Ho by (unfold cell_off; lia).
  unfold leaf_node_key. rewrite leaf_node_cell_off, leaf_node_value_off.
  step (store32_has s n p (Z.of_nat (cell_off ci)) key Hp ltac:(lia) ltac:(lia)).
  rewrite Nat2Z.id. set (p1 := put (cell_off ci) (le_encode 4 key) p).
  assert (page_ok p1) as Hok1.
  { apply page_ok_put; [done|rewrite length_le_encode; lia|apply le_encode_bytes]. }
  assert (has_page (put_page n p1 s) n p1) as Hp1 by (by eapply has_put_page).
  unfold store_row. simpl fst; simpl snd. step (page_lookup_has _ _ _ Hp1).
  step (eq_refl : (mret p1 : prog Db _) (put_page n p1 s) = Ret p1 (put_page n p1 s)).
  rewrite (proj2 (Z.leb_le 0 _)) by lia.
  rewrite (bind_Ret _ _ _ _ _ (eq_refl : (require true : prog Db _) _ = Ret tt _)).
  rewrite Nat2Z.id, row_write_to_buffer_spec;
    [|done|change ROW_SIZE with 70%nat; destruct Hok1; lia].
  rewrite (bind_Ret _ _ _ _ _ (eq_refl : (of_option (Some _) : prog Db _) _ = Ret _ _)).
  rewrite (page_store_has _ _ _ _ Hp1), put_page_twice. f_equal. f_equal.
  unfold stored_cell, p1, enc_cell. rewrite <- app_assoc. simpl fst; simpl snd.
  rewrite <- (put_app _ (le_encode 4 key)); [by rewrite length_le_encode|].
  rewrite length_app, length_le_encode, length_row_cell by done.
  change ROW_SIZE with 70%nat. simpl length. lia.
Qed.

Lemma cell_at_stored p ci j key r :
  page_ok p -> (ci <= 54)%nat -> (j <= 54)%nat -> row_wf r -> 0 <= key < 2 ^ 32 ->
  cell_at (stored_cell ci key r p) j =
    if decide (j = ci) then enc_cell (key, r)
    else if decide (j = S ci) then row_spill r :: drop 1 (cell_at p j) else cell_at p j.
Proof.
  intros [L F] Hci Hj Hr Hk.
  pose proof (length_enc_cell (key, r) ltac:(by split)) as Le.
  assert (cell_off ci + 74 <= 4084)%nat by (unfold cell_off; lia).
  unfold stored_cell. rewrite <- put_app by (rewrite Le, L; simpl; lia). rewrite Le.
  assert (length (put (cell_off ci) (enc_cell (key, r)) p) = 4096%nat) as L'
    by (rewrite length_put; lia).
  repeat case_decide; subst.
  - rewrite cell_at_put_other by (simpl length; lia). rewrite cell_at_put_cell by lia.
    by rewrite decide_True.
  - unfold cell_at at 1. rewrite sub_put_inside; simpl length; [|unfold cell_off in *; lia..].
    replace (cell_off ci + 74 - cell_off (S ci))%nat with 0%nat by (unfold cell_off; lia).
    change (sub (cell_off (S ci)) 74 ?q) with (cell_at q (S ci)).
    rewrite cell_at_put_cell, decide_False by lia. done.
  - rewrite cell_at_put_other by (simpl length; unfold cell_off in *; lia).
    rewrite cell_at_put_cell by lia. by rewrite decide_False.
Qed.

Lemma sub_stored p ci key r o k :
  page_ok p -> (ci <= 54)%nat -> row_wf r -> (o + k <= 14)%nat ->
  sub o k (stored_cell ci key r p) = sub o k p.
Proof.
  intros [L F] Hci Hr Ho. unfold stored_cell, enc_cell.
  apply sub_put_other; rewrite ?length_app, ?length_le_encode, ?length_row_cell by done;
    unfold cell_off; change ROW_SIZE with 70%nat; simpl length; lia.
Qed.

(** The fields of the header depend on the first 14 bytes only. *)
Lemma header_sub (p q : list Z) o k :
  sub 0 14 p = sub 0 14 q -> (o + k <= 14)%nat -> sub o k p = sub o k q.
Proof.
  intros E H. pose proof (sub_sub o k 0 14 p H) as Ep. pose proof (sub_sub o k 0 14 q H) as Eq.
  simpl Nat.add in *. by rewrite <- Ep, <- Eq, E.
Qed.

Lemma lookup_leaf_inserted i key r es j :
  (i <= length es)%nat ->
  leaf_inserted i key r es !! j =
    if decide (j < i)%nat then es !! j
    else if decide (j = i) then Some (key, r)
    else if decide (j = S i) then clobber (row_spill r) <$> es !! i
    else es !! (j - 1)%nat.
Proof.
  intros H. unfold leaf_inserted. destruct (decide (j = S i)) as [->|Hj].
  - rewrite list_lookup_alter_eq, lookup_insert_at by done.
    rewrite !decide_False by lia. by replace (S i - 1)%nat with i by lia.
  - rewrite list_lookup_alter_ne by done. rewrite lookup_insert_at by done.
    repeat case_decide; try lia; done.
Qed.

Lemma length_leaf_inserted i key r es :
  (i <= length es)%nat -> length (leaf_inserted i key r es) = S (length es).
Proof. intros H. unfold leaf_inserted. by rewrite length_alter, length_insert_at. Qed.

Lemma leaf_inserted_wf i key r es :
  (i <= length es)%nat -> row_wf r -> 0 <= key < 2 ^ 32 -> Forall entry_wf es ->
  Forall entry_wf (leaf_inserted i key r es).
Proof.
  intros H Hr Hk W. rewrite Forall_lookup in *. intros j e.
  rewrite lookup_leaf_inserted by done. destruct (row_padding_split r Hr) as (_ & _ & Hb & _).
  repeat case_decide; [apply W|by intros [= <-]| |apply W].
  intros E. apply fmap_Some in E as (e' & E & ->). eapply clobber_wf; eauto.
Qed.

(** The cells after shifting and storing are those of the list after the
    insertion. *)
Lemma leaf_inserted_cells p p1 ci key r es i e :
  leaf_rep p es -> (length es < 55)%nat -> (ci <= length es)%nat -> row_wf r -> 0 <= key < 2 ^ 32 ->
  page_ok p1 ->
  (forall j, (j <= 54)%nat ->
    cell_at p1 j = if decide (ci < j <= length es)%nat then cell_at p (j - 1) else cell_at p j) ->
  leaf_inserted ci key r es !! i = Some e ->
  cell_at (stored_cell ci key r p1) i = enc_cell e.
Proof.
  intros Hrep Hlen Hci Hr Hk Hok1 Hc Hi.
  assert (i <= length es)%nat as Hi'.
  { apply lookup_lt_Some in Hi. rewrite length_leaf_inserted in Hi by done. lia. }
  destruct (row_padding_split r Hr) as (_ & _ & Hb & _). pose proof (rep_wf _ _ Hrep) as W.
  rewrite Forall_lookup in W. rewrite cell_at_stored by (try done; lia).
  rewrite lookup_leaf_inserted in Hi by done. rewrite Hc by lia.
  repeat (case_decide; try lia);
    first [by injection Hi as <- | by apply (rep_cell _ _ Hrep) | idtac].
  apply fmap_Some in Hi as (e' & E & ->). replace (i - 1)%nat with ci by lia.
  rewrite (rep_cell _ _ Hrep _ _ E). eapply clobber_cell; eauto.
Qed.

(** Inserting into a leaf with room: the entry appears at the place of the
    cursor, those after it move up by one, and the low byte of the key that
    follows becomes the first byte of the row's padding. *)
Theorem leaf_node_insert_correct s n p es (ci : nat) key r eot :
  has_page s n p -> leaf_rep p es -> (length es < 55)%nat -> (ci <= length es)%nat ->
  row_wf r -> 0 <= key < 2 ^ 32 ->
  exists p', leaf_node_insert (mkCursor n (Z.of_nat ci) eot) key r s = Ret tt (put_page n p' s) /\
    leaf_rep p' (leaf_inserted ci key r es) /\
    leaf_next p' = leaf_next p /\ sub 0 6 p' = sub 0 6 p.
Proof.
  intros Hp Hrep Hlen Hci Hr Hk. pose proof (rep_num _ _ Hrep) as N.
  unfold leaf_node_insert; cbn [page_num cell_num].
  step (pager_get_page_has _ _ _ Hp). step (load_num_cells _ _ _ Hp).
  rewrite (proj2 (Z.leb_gt LEAF_NODE_MAX_CELLS _)) by (change LEAF_NODE_MAX_CELLS with 55; lia).
  destruct (shift_cells_correct (length es - ci) s n p ci Hp ltac:(lia))
    as (p1 & E1 & Hok1 & Hh & Hc).
  assert ((if Z.of_nat ci <? leaf_num p
           then shift_cells (Z.to_nat (leaf_num p - Z.of_nat ci)) n (Z.of_nat ci)
           else mret tt) s = Ret tt (put_page n p1 s)) as Es.
  { destruct (Z.ltb_spec (Z.of_nat ci) (leaf_num p)).
    - by replace (Z.to_nat (leaf_num p - Z.of_nat ci)) with (length es - ci)%nat by lia.
    - by replace (length es - ci)%nat with 0%nat in E1 by lia. }
  step Es. assert (has_page (put_page n p1 s) n p1) as Hp1 by (by eapply has_put_page).
  step (load_num_cells _ _ _ Hp1).
  assert (leaf_num p1 = leaf_num p) as ->
    by (unfold leaf_num; by rewrite (header_sub p1 p 6 4) by (done || lia)).
  set (p2 := put 6 (le_encode 4 (leaf_num p + 1)) p1).
  step (store32_has _ n p1 6 (leaf_num p + 1) Hp1 ltac:(lia) ltac:(lia) :
    store32 (leaf_node_num_cells n) (leaf_num p + 1) _ = Ret tt (put_page n p2 _)).
  assert (page_ok p2) as Hok2.
  { apply page_ok_put; [done|rewrite length_le_encode; lia|apply le_encode_bytes]. }
  rewrite (store_cell_correct _ n p2 ci key r) by first [done|lia|by eapply has_put_page].
  rewrite !put_page_twice. eexists. split; [done|].
  destruct Hok1 as [L1 F1].
  assert (forall o k, (o + k <= 6 \/ 10 <= o /\ o + k <= 14)%nat ->
    sub o k (stored_cell ci key r p2) = sub o k p) as Hsub.
  { intros o k Ho. rewrite sub_stored by (try done; lia). unfold p2.
    rewrite sub_put_other by (rewrite length_le_encode; lia). apply header_sub; [done|lia]. }
  split_and!; [|unfold leaf_next; by rewrite Hsub by lia|by rewrite Hsub by lia].
  split.
  - apply stored_cell_ok; [done|lia|done].
  - rewrite length_leaf_inserted by lia. unfold leaf_num at 1. rewrite sub_stored by (try done; lia).
    unfold p2. rewrite sub_put_same by (rewrite ?length_le_encode; lia).
    rewrite le_decode_encode_32, u32_id; lia.
  - rewrite length_leaf_inserted; lia.
  - apply leaf_inserted_wf; first [done|lia|by destruct Hrep].
  - intros i e Hi. eapply leaf_inserted_cells; eauto; try lia.
    intros j Hj. unfold p2. rewrite cell_at_put_other by (rewrite length_le_encode; unfold cell_off; lia).
    rewrite Hc by done. repeat case_decide; try lia; done.
Qed.

(** ** A fresh leaf *)

(** The page after [initialize_leaf_node]. *)
Definition leaf_header (p : list Z) : list Z :=
  put 10 (le_encode 4 0) (put 6 (le_encode 4 0) (put 1 (le_encode 1 0) (put 0 (le_encode 1 1) p))).

Lemma page_ok_put_le p o w v :
  page_ok p -> (o + w <= 4096)%nat -> page_ok (put o (le_encode w v) p).
Proof.
  intros. apply page_ok_put; [done|by rewrite length_le_encode|apply le_encode_bytes].
Qed.

#[export] Hint Resolve page_ok_put_le : pages.

Lemma leaf_header_ok p : page_ok p -> page_ok (leaf_header p).
Proof. intros H. unfold leaf_header. repeat apply page_ok_put_le; try exact H; lia. Qed.

Lemma initialize_leaf_node_correct s n p :
  has_page s n p -> initialize_leaf_node n s = Ret tt (put_page n (leaf_header p) s).
Proof.
  intros H. pose proof H as (_ & _ & Hok). unfold initialize_leaf_node, leaf_header.
  step (store8_has s n p 0 1 H ltac:(lia) : set_node_type n NODE_LEAF s = _).
  pose proof (has_put_page _ _ _ _ H (page_ok_put_le p 0 1 1 Hok ltac:(lia))) as H1.
  pose proof H1 as (_ & _ & O1).
  step (store8_has _ n _ 1 0 H1 ltac:(lia) : set_node_root n false _ = _).
  pose proof (has_put_page _ _ _ _ H1 (page_ok_put_le _ 1 1 0 O1 ltac:(lia))) as H2.
  pose proof H2 as (_ & _ & O2).
  step (store32_has _ n _ 6 0 H2 ltac:(lia) ltac:(lia) : store32 (leaf_node_num_cells n) 0 _ = _).
  pose proof (has_put_page _ _ _ _ H2 (page_ok_put_le _ 6 4 0 O2 ltac:(lia))) as H3.
  etransitivity; [exact (store32_has _ n _ 10 0 H3 ltac:(lia) ltac:(lia))|].
  by rewrite !put_page_twice.
Qed.

Lemma leaf_header_fields p :
  page_ok p ->
  sub 0 1 (leaf_header p) = [1] /\ leaf_num (leaf_header p) = 0 /\ leaf_next (leaf_header p) = 0.
Proof.
  intros Hok. unfold leaf_num, leaf_next, leaf_header.
  set (p1 := put 0 _ p). assert (page_ok p1) as O1 by (apply page_ok_put_le; [done|lia]).
  set (p2 := put 1 _ p1). assert (page_ok p2) as O2 by (apply page_ok_put_le; [done|lia]).
  set (p3 := put 6 _ p2). assert (page_ok p3) as O3 by (apply page_ok_put_le; [done|lia]).
  assert (forall q, page_ok q -> length q = 4096%nat) as L by (by intros ? []).
  apply L in Hok, O1, O2, O3. split_and!.
  - unfold p3, p2. rewrite !sub_put_other by (rewrite length_le_encode; fold p2 p3; lia).
    unfold p1. by rewrite sub_put_same by (rewrite ?length_le_encode; lia).
  - rewrite sub_put_other by (rewrite length_le_encode; lia).
    unfold p3. by rewrite sub_put_same by (rewrite ?length_le_encode; lia).
  - by rewrite sub_put_same by (rewrite ?length_le_encode; lia).
Qed.
