(* ===== verification/SdbCommand.v ===== *)
(** Input, statements, meta commands and the main loop of simpledb:
    [src/simpledb/inputs.c], [statement.c], [meta.c], [main.c] with their
    headers.  Newlines at the end of a format are dropped. *)

From S2P Require Import Prelude SdbRow SdbPager SdbNode SdbBtree.
#[local] Open Scope Z_scope.

Inductive MetaCommandResult := META_COMMAND_SUCCESS | META_COMMAND_UNRECOGNIZED.
Inductive PrepareResult :=
| PREPARE_SUCCESS | PREPARE_SYNTAX_ERROR | PREPARE_STRING_TOO_LONG
| PREPARE_NEGATIVE_ID | PREPARE_UNRECOGNIZED.
Inductive StatementType := STATEMENT_INSERT | STATEMENT_SELECT.
Inductive ExecuteResult := EXECUTE_SUCCESS | EXECUTE_DUPLICATE_KEY | EXECUTE_TABLE_FULL.

(** ** [inputs.c]: one line without its last byte, as the C string in the buffer *)
Definition read_input : prog Db (list Z) :=
  lines ← gets stdin;
  match lines with
  | [] => fail_with "Error: error reading input." []
  | line :: rest =>
      modify (set_stdin rest);;
      mret (cstr (take (length line - 1) line))
  end.

(** ** [strtok(.., " ")]: the next token and what follows its delimiter *)
Fixpoint skip_delim (s : list Z) : list Z :=
  match s with
  | c :: t => if c =? 32 then skip_delim t else s
  | [] => []
  end.

Fixpoint span_token (s : list Z) : list Z * list Z :=
  match s with
  | [] => ([], [])
  | c :: t => if c =? 32 then ([], t) else let '(tok, rest) := span_token t in (c :: tok, rest)
  end.

Definition strtok (s : list Z) : option (list Z) * list Z :=
  match skip_delim s with
  | [] => (None, [])
  | t => let '(tok, rest) := span_token t in (Some tok, rest)
  end.

(** The first call cuts the buffer at the end of its token. *)
Definition strtok_buffer (s : list Z) : list Z :=
  let t := skip_delim s in
  take (length s - length t) s ++ (span_token t).1.

Definition list_eqb (a b : list Z) : bool := bool_decide (a = b).

(** ** [statement.c] *)

(** Returns the result and the buffer that [strtok] has cut. *)
Definition prepare_insert (buffer : list Z) : prog Db (PrepareResult * list Z) :=
  let '(keyword, save) := strtok buffer in
  let '(id_string, save) := strtok save in
  let '(username, save) := strtok save in
  let '(email, save) := strtok save in
  row ← gets row_insert;
  let '(res, row) := row_init id_string username email row in
  modify (set_row_insert row);;
  mret (match res with
        | ROW_INIT_SUCCESS => PREPARE_SUCCESS
        | ROW_NEGATIVE_ID => PREPARE_NEGATIVE_ID
        | ROW_STRING_NULL => PREPARE_SYNTAX_ERROR
        | ROW_STRING_TOO_LONG => PREPARE_STRING_TOO_LONG
        end, strtok_buffer buffer).

Definition prepare_statement (buffer : list Z) : prog Db (PrepareResult * StatementType * list Z) :=
  if list_eqb (take 6 buffer) (chars "insert") then
    '(res, buffer) ← prepare_insert buffer;
    mret (res, STATEMENT_INSERT, buffer)
  else if list_eqb buffer (chars "select") then mret (PREPARE_SUCCESS, STATEMENT_SELECT, buffer)
  else mret (PREPARE_UNRECOGNIZED, STATEMENT_INSERT, buffer).

Definition execute_insert : prog Db ExecuteResult :=
  row_to_insert ← gets row_insert;
  let key_to_insert := row_get_key row_to_insert in
  c ← table_find key_to_insert;
  cur ← of_option c;
  node ← pager_get_page (page_num cur);
  num_cells ← load32 (leaf_node_num_cells node);
  duplicate ← (if cell_num cur <? num_cells then
                 key_at_index ← load32 (leaf_node_key node (cell_num cur));
                 mret (key_at_index =? key_to_insert)
               else mret false);
  if duplicate : bool then mret EXECUTE_DUPLICATE_KEY
  else
    leaf_node_insert cur key_to_insert row_to_insert;;
    mret EXECUTE_SUCCESS.

(** The C string in an array, undefined behaviour when it has no NUL. *)
Definition string_arg (a : list Z) : prog Db arg :=
  require (existsb (Z.eqb 0) a);; mret (AStr (cstr a)).

Definition row_print (row : Row) : prog Db unit :=
  u ← string_arg (username row);
  e ← string_arg (email row);
  printf "(%d, %s, %s)" [AInt (i32 (id row)); u; e].

(** [row_read_from_buffer(ptr, &row)] *)
Definition load_row (p : ptr) (row : Row) : prog Db Row :=
  l ← page_lookup p.1;
  pg ← of_option l;
  require (0 <=? p.2);;
  of_option (row_read_from_buffer (Z.to_nat p.2) pg row).

Fixpoint select_loop (fuel : nat) (cur : Cursor) (row : Row) : prog Db unit :=
  match fuel with
  | O => nofuel
  | S f =>
      at_end ← of_option (end_of_table cur);
      if at_end : bool then mret tt else
      p ← cursor_value cur;
      row ← load_row p row;
      row_print row;;
      cur ← cursor_advance cur;
      select_loop f cur row
  end.

(** A table holds at most 100 pages of 55 cells. *)
Definition SELECT_FUEL : nat := 100 * 56.

Definition execute_select : prog Db ExecuteResult :=
  row ← gets (fun s => stack_row (env s));
  cur ← table_start;
  select_loop SELECT_FUEL cur row;;
  mret EXECUTE_SUCCESS.

Definition execute_statement (type : StatementType) : prog Db ExecuteResult :=
  match type with
  | STATEMENT_INSERT => execute_insert
  | STATEMENT_SELECT => execute_select
  end.

(** ** [meta.c] *)

Definition is_meta_command (buffer : list Z) : bool :=
  match buffer with c :: _ => c =? 46 | [] => false end.

Definition print_constants : prog Db unit :=
  printf "ROW_SIZE: %lu" [AInt (Z.of_nat ROW_SIZE)];;
  printf "COMMON_NODE_HEADER_SIZE: %lu" [AInt COMMON_NODE_HEADER_SIZE];;
  printf "LEAF_NODE_HEADER_SIZE: %lu" [AInt LEAF_NODE_HEADER_SIZE];;
  printf "LEAF_NODE_CELL_SIZE: %lu" [AInt LEAF_NODE_CELL_SIZE];;
  printf "LEAF_NODE_SPACE_FOR_CELLS: %lu" [AInt LEAF_NODE_SPACE_FOR_CELLS];;
  printf "LEAF_NODE_MAX_CELLS: %lu" [AInt LEAF_NODE_MAX_CELLS];;
  r ← gets root_page_num;
  printf "root_page_num: %u" [AInt r].

Fixpoint indent (level : nat) : prog Db unit :=
  match level with
  | O => mret tt
  | S l => printf "  " [];; indent l
  end.

(** The loop over the keys of a leaf, for keys [i .. i+n-1]. *)
Fixpoint print_leaf_keys (n : nat) (node i : Z) (level : nat) : prog Db unit :=
  match n with
  | O => mret tt
  | S n' =>
      indent (level + 1);;
      k ← load32 (leaf_node_key node i);
      printf "- %d" [AInt (i32 k)];;
      print_leaf_keys n' node (i + 1) level
  end.

(** The loop over the children of an internal node but the last; [go] is the
    recursive call. *)
Fixpoint print_children (go : Z -> nat -> prog Db unit) (n : nat) (node i : Z) (level : nat)
  : prog Db unit :=
  match n with
  | O => mret tt
  | S n' =>
      p ← internal_node_child node i;
      child ← load32 p;
      go child (level + 1)%nat;;
      indent level;;
      k ← load32 (internal_node_key node i);
      printf "- key %d" [AInt (i32 k)];;
      print_children go n' node (i + 1) level
  end.

Fixpoint print_tree (fuel : nat) (page_num : Z) (indentation_level : nat) : prog Db unit :=
  match fuel with
  | O => nofuel
  | S f =>
      node ← pager_get_page page_num;
      t ← get_node_type node;
      if t =? NodeType_to_Z NODE_LEAF then
        num_keys ← load32 (leaf_node_num_cells node);
        indent indentation_level;;
        printf "- leaf (size %d)" [AInt (i32 num_keys)];;
        print_leaf_keys (Z.to_nat num_keys) node 0 indentation_level
      else if t =? NodeType_to_Z NODE_INTERNAL then
        num_keys ← load32 (internal_node_num_keys node);
        indent indentation_level;;
        printf "- internal (size %d)" [AInt (i32 num_keys)];;
        print_children (print_tree f) (Z.to_nat num_keys) node 0 indentation_level;;
        child ← load32 (internal_node_right_child node);
        print_tree f child (indentation_level + 1)
      else mret tt
  end.

Definition do_meta_command (buffer : list Z) : prog Db MetaCommandResult :=
  if list_eqb buffer (chars ".exit") then
    db_close;;
    printf "Bye." [];;
    exit_with EXIT_SUCCESS
  else if list_eqb buffer (chars ".constants") then
    printf "Constants:" [];;
    print_constants;;
    mret META_COMMAND_SUCCESS
  else if list_eqb buffer (chars ".btree") then
    printf "Tree:" [];;
    print_tree TREE_FUEL 0 0;;
    mret META_COMMAND_SUCCESS
  else mret META_COMMAND_UNRECOGNIZED.

(** ** [main.c] *)

Definition print_prompt : prog Db unit := printf "db> " [].

(** A double quote in a format. *)
Definition quoted (s : string) : string :=
  String (Ascii.ascii_of_nat 34) (String.append s (String (Ascii.ascii_of_nat 34) EmptyString)).

(** One round of the loop of [main]. *)
Definition main_round : prog Db unit :=
  print_prompt;;
  buffer ← read_input;
  if is_meta_command buffer then
    r ← do_meta_command buffer;
    match r with
    | META_COMMAND_SUCCESS => mret tt
    | META_COMMAND_UNRECOGNIZED =>
        printf (String.append "Error: Unrecognized meta command " (quoted "%s")) [AStr buffer]
    end
  else
    '(res, type, buffer) ← prepare_statement buffer;
    match res with
    | PREPARE_STRING_TOO_LONG => printf "Error: String is too long." []
    | PREPARE_NEGATIVE_ID => printf "Error: Id should not be negative." []
    | PREPARE_SYNTAX_ERROR =>
        printf (String.append "Error: Syntax error in statement " (quoted "%s")) [AStr buffer]
    | PREPARE_UNRECOGNIZED =>
        printf (String.append "Error: Unrecognized statement " (quoted "%s")) [AStr buffer]
    | PREPARE_SUCCESS =>
        x ← execute_statement type;
        match x with
        | EXECUTE_SUCCESS => printf "Executed." []
        | EXECUTE_DUPLICATE_KEY => printf "Error: Duplicate key." []
        | EXECUTE_TABLE_FULL => printf "Error: Table full." []
        end
    end.

(** [while(true)]: every round consumes a line and the end of the input exits,
    so one round more than there are lines is enough. *)
Fixpoint main_loop (fuel : nat) : prog Db unit :=
  match fuel with
  | O => nofuel
  | S f => main_round;; main_loop f
  end.

Definition main (argv : list (list Z)) : prog Db unit :=
  match argv with
  | _ :: db_file_name :: _ =>
      printf "Welcome to simple db." [];;
      db_open db_file_name;;
      lines ← gets stdin;
      main_loop (S (length lines))
  | _ => fail_with "Error: Must supply a database filename." []
  end.
