(* ===== verification/SdbTable.v ===== *)
(** What the statements of simpledb do to a table that fits in its root leaf:
    the contract of [execute_insert] and [execute_select] against the list of
    its entries. *)

From S2P Require Import Prelude SdbRow SdbPager SdbNode SdbBtree SdbLeaf SdbCommand.
#[local] Open Scope Z_scope.

Record leaf_table (s : Db) (es : list entry) : Prop := {
  lt_root : root_page_num s = 0;
  lt_page : exists p, has_page s 0 p /\ leaf_rep p es /\
    sub 0 1 p = [NodeType_to_Z NODE_LEAF] /\ leaf_next p = 0;
  lt_sorted : sorted_keys (map fst es)
}.

Lemma leaf_rep_num p es : leaf_rep p es -> 0 <= leaf_num p <= 55.
Proof. intros [_ N M _ _]. lia. Qed.

Lemma table_find_leaf s es key :
  leaf_table s es ->
  table_find key s = Ret (Some (mkCursor 0 (Z.of_nat (lower_bound key (map fst es))) None)) s.
Proof.
  intros [Hr (p & Hp & Hrep & Ht & _) Hs]. unfold table_find.
  step (eq_refl : gets root_page_num s = Ret (root_page_num s) s). rewrite Hr.
  step (pager_get_page_has _ _ _ Hp).
  step (load8_has s 0 p 0 Hp ltac:(lia) : get_node_type 0 s = _).
  change (Z.to_nat 0) with 0%nat. rewrite Ht.
  change (le_decode [NodeType_to_Z NODE_LEAF] =? NodeType_to_Z NODE_LEAF) with true. cbv iota.
  rewrite <- (rep_keys _ _ Hrep) in Hs |- *.
  by step (leaf_node_find_correct s 0 p key Hp (leaf_rep_num _ _ Hrep) Hs).
Qed.

Lemma lower_bound_le key ks : (lower_bound key ks <= length ks)%nat.
Proof. induction ks; simpl; [lia|]. destruct (_ <? _); lia. Qed.

(** The list of keys after an insertion at the place of the search. *)
Lemma lookup_lower_bound key ks i k :
  ks !! i = Some k -> (i < lower_bound key ks)%nat -> k < key.
Proof.
  revert i. induction ks as [|a ks IH]; intros i E Hi; [done|]. simpl in Hi.
  destruct (Z.ltb_spec a key); [|lia]. destruct i; [by injection E as <-|].
  apply (IH i); [done|lia].
Qed.

(** [execute_insert] of the row in the statement, on every branch: a key that is
    present leaves everything as it was and gives [EXECUTE_DUPLICATE_KEY]; a new
    one is inserted at its place, with the damage of [leaf_inserted]. *)
Theorem execute_insert_leaf s es :
  leaf_table s es -> (length es < 55)%nat -> row_wf (row_insert s) ->
  let key := id (row_insert s) in
  let pos := lower_bound key (map fst es) in
  if bool_decide (map fst es !! pos = Some key)
  then execute_insert s = Ret EXECUTE_DUPLICATE_KEY s
  else exists p', execute_insert s = Ret EXECUTE_SUCCESS (put_page 0 p' s) /\
         leaf_rep p' (leaf_inserted pos key (row_insert s) es) /\
         sub 0 1 p' = [NodeType_to_Z NODE_LEAF] /\ leaf_next p' = 0.
Proof.
  intros Ht Hlen Hr key pos. pose proof Ht as [_ (p & Hp & Hrep & Hty & Hnx) _].
  assert (pos <= length es)%nat as Hpos.
  { unfold pos. pose proof (lower_bound_le key (map fst es)). by rewrite length_map in *. }
  unfold execute_insert.
  step (eq_refl : gets row_insert s = Ret (row_insert s) s). unfold row_get_key. fold key.
  step (table_find_leaf s es key Ht). fold pos.
  step (eq_refl : of_option (Some (mkCursor 0 (Z.of_nat pos) None)) s = Ret _ s).
  cbn [page_num cell_num]. step (pager_get_page_has _ _ _ Hp). step (load_num_cells _ _ _ Hp).
  pose proof (rep_num _ _ Hrep) as N.
  assert ((if Z.of_nat pos <? leaf_num p then
             key_at_index ← load32 (leaf_node_key 0 (Z.of_nat pos));
             mret (key_at_index =? key)
           else mret false) s = Ret (bool_decide (map fst es !! pos = Some key)) s) as Ed.
  { destruct (Z.ltb_spec (Z.of_nat pos) (leaf_num p)).
    - unfold leaf_node_key. rewrite leaf_node_cell_off.
      assert (cell_off pos + 74 <= 4096)%nat by (unfold cell_off; lia).
      step (load32_has s 0 p (Z.of_nat (cell_off pos)) Hp ltac:(lia) ltac:(lia)).
      rewrite Nat2Z.id. change (le_decode _) with (key_at p pos).
      unfold mret, prog_ret. f_equal.
      rewrite <- (rep_keys _ _ Hrep), lookup_keys_of by lia.
      destruct (Z.eqb_spec (key_at p pos) key) as [->|]; [by rewrite bool_decide_true|].
      rewrite bool_decide_false by congruence. done.
    - rewrite bool_decide_false; [done|]. rewrite lookup_ge_None_2; [done|].
      rewrite length_map. lia. }
  step Ed. case_bool_decide; [done|].
  destruct (leaf_node_insert_correct s 0 p es pos key (row_insert s) None) as
    (p' & E & Hrep' & Hnx' & Hh); try done; try lia; [by destruct Hr|].
  exists p'. step E. split_and!; [done|done| |by rewrite Hnx'].
  pose proof (sub_sub 0 1 0 6 p' ltac:(lia)) as E1. pose proof (sub_sub 0 1 0 6 p ltac:(lia)) as E2.
  simpl Nat.add in *. by rewrite <- E1, Hh, E2.
Qed.

Lemma leaf_inserted_end key r es :
  leaf_inserted (length es) key r es = es ++ [(key, r)].
Proof.
  apply list_eq. intros j. rewrite lookup_leaf_inserted by lia.
  rewrite (lookup_ge_None_2 es (length es)) by lia. simpl.
  repeat case_decide; subst.
  - by rewrite lookup_app_l.
  - rewrite lookup_app_r by lia. by rewrite Nat.sub_diag.
  - rewrite lookup_ge_None_2; [done|]. rewrite length_app. simpl. lia.
  - rewrite !lookup_ge_None_2; [done|rewrite length_app; simpl; lia|lia].
Qed.

Lemma lower_bound_all key ks : Forall (fun k => k < key) ks -> lower_bound key ks = length ks.
Proof.
  induction 1 as [|k ks Hk _ IH]; [done|]. simpl. destruct (Z.ltb_spec k key); [|lia].
  by rewrite IH.
Qed.

Lemma sorted_keys_snoc ks k :
  sorted_keys ks -> Forall (fun a => a < k) ks -> sorted_keys (ks ++ [k]).
Proof.
  intros Hs Hk i j a b Hij Ha Hb. rewrite Forall_lookup in Hk.
  apply lookup_app_Some in Ha as [Ha|[? Ha]], Hb as [Hb|[? Hb]].
  - by eapply Hs.
  - apply list_lookup_singleton_Some in Hb as [? <-]. by eapply Hk.
  - apply lookup_lt_Some in Hb. lia.
  - apply list_lookup_singleton_Some in Ha as [? <-], Hb as [? <-]. lia.
Qed.

(** Inserting a key above all others appends exactly the row. *)
Lemma execute_insert_append s es :
  leaf_table s es -> (length es < 55)%nat -> row_wf (row_insert s) ->
  Forall (fun k => k < id (row_insert s)) (map fst es) ->
  exists p', execute_insert s = Ret EXECUTE_SUCCESS (put_page 0 p' s) /\
    leaf_table (put_page 0 p' s) (es ++ [(id (row_insert s), row_insert s)]).
Proof.
  intros Ht Hlen Hr Hk. pose proof (execute_insert_leaf s es Ht Hlen Hr) as H. simpl in H.
  rewrite (lower_bound_all _ _ Hk), length_map in H.
  rewrite bool_decide_false in H by (by rewrite lookup_ge_None_2 by (rewrite length_map; lia)).
  destruct H as (p' & E & Hrep & Hty & Hnx). exists p'. split; [done|].
  rewrite leaf_inserted_end in Hrep. destruct Ht as [Hroot (p & Hp & _) Hs]. split; [done| |].
  - exists p'. split_and!; try done. eapply has_put_page; [done|]. by destruct Hrep.
  - rewrite map_app. by apply sorted_keys_snoc.
Qed.

(** ** Selecting *)

Definition row_event (r : Row) : event :=
  Printf "(%d, %s, %s)" [AInt (i32 (id r)); AStr (cstr (username r)); AStr (cstr (email r))].

(** Both names have a NUL within their array, as [row_init] leaves them. *)
Definition printable (r : Row) : Prop :=
  existsb (Z.eqb 0) (username r) = true /\ existsb (Z.eqb 0) (email r) = true.

Lemma row_read_back_any r d dest buf x :
  row_wf r -> row_wf d -> is_byte x -> (dest + ROW_SIZE + 1 <= length buf)%nat ->
  sub dest (ROW_SIZE + 1) buf = row_cell r ++ [x] ->
  exists r', row_read_from_buffer dest buf d = Some r' /\ row_wf r' /\
    id r' = id r /\ username r' = username r /\ email r' = email r.
Proof.
  intros Hr Hd Hx Hl E. set (r2 := mkRow (id r) (username r) (email r) [x; 0]).
  assert (row_wf r2) as Hr2.
  { destruct Hr. split; try done. simpl. split; [done|]. apply Forall_cons_2; [done|]. by apply Forall_cons_2. }
  destruct (row_padding_split d Hd) as (q & Eq & _ & Hq).
  eexists. split; [apply (row_read_back r2 d dest buf Hr2 Hd Hl E)|].
  split_and!; [|done..]. destruct Hr. split; try done. rewrite Eq.
  cbn [row_padding]. split; [done|]. apply Forall_cons_2; [done|]. by apply Forall_cons_2.
Qed.

Lemma load_row_cell s n p es i e d :
  has_page s n p -> leaf_rep p es -> es !! i = Some e -> row_wf d ->
  exists r', load_row (leaf_node_value n (Z.of_nat i)) d s = Ret r' s /\ row_wf r' /\
    id r' = id e.2 /\ username r' = username e.2 /\ email r' = email e.2.
Proof.
  intros Hp Hrep Hi Hd. pose proof Hrep as [[L F] N M W C].
  pose proof (lookup_lt_Some _ _ _ Hi). rewrite Forall_lookup in W. destruct (W _ _ Hi) as [_ Hr].
  assert (cell_off i + 75 <= 4096)%nat by (unfold cell_off; lia).
  assert (exists x, sub (cell_off i + 4) (ROW_SIZE + 1) p = row_cell e.2 ++ [x] /\ is_byte x)
    as (x & Ex & Hx).
  { rewrite sub_plus. change ROW_SIZE with 70%nat.
    pose proof (sub_sub 4 70 (cell_off i) 74 p ltac:(lia)) as E.
    change (sub (cell_off i) 74 p) with (cell_at p i) in E. rewrite (C _ _ Hi) in E.
    rewrite <- E. unfold enc_cell.
    rewrite sub_app_end by (rewrite ?length_le_encode, ?length_row_cell; done).
    pose proof (length_sub (cell_off i + 4 + 70) 1 p ltac:(lia)) as Ls.
    pose proof (Forall_sub _ (cell_off i + 4 + 70) 1 _ F) as Fs.
    destruct (sub _ 1 p) as [|x [|]]; try discriminate. exists x. split; [done|by inversion Fs]. }
  destruct (row_read_back_any e.2 d (cell_off i + 4) p x) as (r' & E & ?); try done.
  { change ROW_SIZE with 70%nat. lia. }
  exists r'. split; [|done]. unfold load_row. rewrite leaf_node_value_off. cbn [fst snd].
  step (page_lookup_has _ _ _ Hp).
  step (eq_refl : (of_option (Some p) : prog Db _) s = Ret p s).
  rewrite (proj2 (Z.leb_le 0 _)) by lia.
  step (eq_refl : (require true : prog Db _) s = Ret tt s).
  by rewrite Nat2Z.id, E.
Qed.

Lemma row_print_event r s :
  printable r -> row_print r s = Ret tt (set_out (row_event r :: out s) s).
Proof.
  intros [Hu He]. unfold row_print, string_arg. rewrite Hu, He. done.
Qed.

Lemma has_page_set_out s n p o : has_page s n p -> has_page (set_out o s) n p.
Proof. intros H. exact H. Qed.

Lemma select_loop_leaf fuel s p es i d :
  has_page s 0 p -> leaf_rep p es -> leaf_next p = 0 -> Forall (fun e => printable e.2) es ->
  row_wf d -> (i < length es)%nat -> (length es - i < fuel)%nat ->
  select_loop fuel (mkCursor 0 (Z.of_nat i) (Some false)) d s =
    Ret tt (set_out (rev (map (fun e => row_event e.2) (drop i es)) ++ out s) s).
Proof.
  revert s i d. induction fuel as [|f IH]; intros s i d Hp Hrep Hnx Hpr Hd Hi Hf; [lia|].
  destruct (lookup_lt_is_Some_2 es i Hi) as [e He].
  destruct (load_row_cell s 0 p es i e d Hp Hrep He Hd) as (r' & El & Hr' & Eid & Eu & Ee).
  assert (printable e.2) as Hpe by (rewrite Forall_lookup in Hpr; eauto).
  cbn [select_loop]. step (eq_refl : of_option (Some false) s = Ret false s). cbv iota.
  unfold cursor_value; cbn [page_num cell_num].
  rewrite bind_assoc. step (pager_get_page_has _ _ _ Hp).
  step (eq_refl : (mret (leaf_node_value 0 (Z.of_nat i)) : prog Db _) s = Ret _ s).
  step El.
  assert (row_print r' s = Ret tt (set_out (row_event e.2 :: out s) s)) as Ep.
  { rewrite row_print_event; [|unfold printable; by rewrite Eu, Ee].
    unfold row_event. by rewrite Eid, Eu, Ee. }
  step Ep. set (s1 := set_out _ s). assert (has_page s1 0 p) as Hp1 by exact Hp.
  pose proof (rep_num _ _ Hrep) as N. pose proof (rep_max _ _ Hrep) as M.
  rewrite (drop_S _ _ _ He). cbn [map rev]. rewrite <- app_assoc. cbn [app].
  unfold cursor_advance; cbn [page_num cell_num end_of_table].
  rewrite bind_assoc. step (pager_get_page_has _ _ _ Hp1).
  rewrite u32_id by lia. rewrite bind_assoc. step (load_num_cells _ _ _ Hp1).
  destruct (Z.leb_spec (leaf_num p) (Z.of_nat i + 1)).
  - rewrite bind_assoc.
    step (load32_has s1 0 p 10 Hp1 ltac:(lia) ltac:(lia) : load32 (leaf_node_next_leaf 0) s1 = _).
    change (le_decode _) with (leaf_next p). rewrite Hnx.
    destruct f as [|f]; [lia|]. rewrite drop_ge by lia. reflexivity.
  - step (eq_refl : (mret (mkCursor 0 (Z.of_nat i + 1) (Some false)) : prog Db _) s1 = Ret _ s1).
    replace (Z.of_nat i + 1) with (Z.of_nat (S i)) by lia.
    rewrite IH; try done; lia.
Qed.

(** [select] prints every row of the table once, in the order of the keys, and
    changes nothing else. *)
Theorem execute_select_leaf s es :
  leaf_table s es -> Forall (fun e => printable e.2) es -> row_wf (stack_row (env s)) ->
  execute_select s =
    Ret EXECUTE_SUCCESS (set_out (rev (map (fun e => row_event e.2) es) ++ out s) s).
Proof.
  intros Ht Hpr Hd. pose proof Ht as [_ (p & Hp & Hrep & _ & Hnx) Hs]. unfold execute_select.
  step (eq_refl : gets (fun s => stack_row (env s)) s = Ret (stack_row (env s)) s).
  pose proof (rep_wf _ _ Hrep) as W. pose proof (rep_num _ _ Hrep) as N.
  pose proof (rep_max _ _ Hrep) as M.
  assert (lower_bound 0 (map fst es) = 0%nat) as E0.
  { destruct es as [|e es']; [done|]. simpl. inversion W as [|? ? [? _]].
    destruct (Z.ltb_spec e.1 0); [lia|done]. }
  assert (table_start s = Ret (mkCursor 0 0 (Some (leaf_num p =? 0))) s) as E1.
  { unfold table_start. step (table_find_leaf s es 0 Ht). rewrite E0.
    step (eq_refl : of_option (Some (mkCursor 0 (Z.of_nat 0) None)) s = Ret _ s).
    cbn [page_num cell_num]. step (pager_get_page_has _ _ _ Hp).
    by step (load_num_cells _ _ _ Hp). }
  step E1. destruct (Z.eqb_spec (leaf_num p) 0) as [E|E].
  - destruct es; [|cbn [length] in N; lia].
    destruct SELECT_FUEL as [|f] eqn:EF; [by unfold SELECT_FUEL in EF|].
    cbn [map rev app]. by destruct s.
  - assert (length es < SELECT_FUEL)%nat by (unfold SELECT_FUEL; lia).
    step (select_loop_leaf SELECT_FUEL s p es 0 _ Hp Hrep Hnx Hpr Hd ltac:(lia) ltac:(lia)).
    done.
Qed.
