(* ===== verification/SdbSession.v ===== *)
(** A whole session of simpledb, from the lines typed to the lines printed and
    over a restart: [src/simpledb/main.c] on a table that fits in its root. *)

From S2P Require Import Prelude SdbRow SdbPager SdbNode SdbBtree SdbPersist SdbLeaf SdbCommand SdbTable.
#[local] Open Scope Z_scope.

(** ** Tokens *)

(** A word of the command line: not empty, no blank and no NUL in it. *)
Definition word (t : list Z) : Prop :=
  t <> [] /\ Forall (fun c => is_byte c /\ c <> 32 /\ c <> 0) t.

Lemma skip_delim_word t rest : word t -> skip_delim (t ++ rest) = t ++ rest.
Proof.
  intros [Hne Hf]. destruct t as [|c t]; [done|]. inversion Hf as [|? ? (_ & H & _)]. simpl.
  by destruct (Z.eqb_spec c 32).
Qed.

Lemma span_token_word t rest :
  Forall (fun c => is_byte c /\ c <> 32 /\ c <> 0) t ->
  span_token (t ++ 32 :: rest) = (t, rest) /\ span_token t = (t, []).
Proof.
  induction 1 as [|c t (_ & H & _) _ [IH1 IH2]]; [done|]. simpl.
  rewrite IH1, IH2. by destruct (Z.eqb_spec c 32).
Qed.

Lemma strtok_word t rest : word t -> strtok (t ++ 32 :: rest) = (Some t, rest).
Proof.
  intros H. unfold strtok. rewrite skip_delim_word by done. destruct H as [Hne Hf].
  destruct (span_token_word t rest Hf) as [E _]. by destruct t; [|cbn [app] in *; rewrite E].
Qed.

Lemma strtok_last t : word t -> strtok t = (Some t, []).
Proof.
  intros H. unfold strtok. pose proof (skip_delim_word t [] H) as E. rewrite app_nil_r in E.
  rewrite E. destruct H as [Hne Hf]. destruct (span_token_word t [] Hf) as [_ Et]. by destruct t; [|rewrite Et].
Qed.

Lemma word_no_nul t : word t -> no_nul t.
Proof. intros [_ H]. unfold no_nul. eapply Forall_impl; [exact H|]. by intros ? (_ & _ & ?). Qed.

Lemma word_bytes t : word t -> Forall is_byte t.
Proof. intros [_ H]. eapply Forall_impl; [exact H|]. by intros ? (? & _). Qed.

Lemma dec_digits_word f n acc :
  0 <= n -> Forall (fun c => is_byte c /\ c <> 32 /\ c <> 0) acc ->
  Forall (fun c => is_byte c /\ c <> 32 /\ c <> 0) (dec_digits f n acc).
Proof.
  assert (forall d, 0 <= d < 10 -> is_byte (48 + d) /\ 48 + d <> 32 /\ 48 + d <> 0) as Hd
    by (unfold is_byte; lia).
  revert n acc. induction f as [|f IH]; intros n acc Hn Hacc; [done|]. simpl.
  destruct (Z.ltb_spec n 10); [constructor; [apply Hd; lia|done]|].
  apply IH; [apply Z.div_pos; lia|]. constructor; [apply Hd|done].
  apply Z.mod_pos_bound. lia.
Qed.

Lemma printf_d_word n : 0 <= n < 2 ^ 31 -> word (printf_d n).
Proof.
  intros Hn. split.
  - destruct (dec_digits_head 10 n []) as (c & t & E & _); [lia|simpl; lia|].
    unfold printf_d. rewrite E. discriminate.
  - apply dec_digits_word; [lia|constructor].
Qed.

(** ** One line of input *)

Record input := mkInput { in_id : Z; in_user : list Z; in_email : list Z }.

Definition good_input (i : input) : Prop :=
  0 <= in_id i < 2 ^ 31 /\ word (in_user i) /\ word (in_email i) /\
  (length (in_user i) <= 32)%nat /\ (length (in_email i) <= 32)%nat.

(** [insert <id> <username> <email>] without its newline. *)
Definition insert_stmt (i : input) : list Z :=
  chars "insert" ++ 32 :: printf_d (in_id i) ++ 32 :: in_user i ++ 32 :: in_email i.

(** The row of a statement: what is after the NUL of its strings is free. *)
Definition row_of_input (i : input) (r : Row) : Prop :=
  row_wf r /\ printable r /\ id r = in_id i /\
  cstr (username r) = in_user i /\ cstr (email r) = in_email i.

Definition input_event (i : input) : event :=
  Printf "(%d, %s, %s)" [AInt (in_id i); AStr (in_user i); AStr (in_email i)].

Lemma row_event_of_input i r : good_input i -> row_of_input i r -> row_event r = input_event i.
Proof.
  intros [H _] (_ & _ & Ei & Eu & Ee). unfold row_event, input_event.
  rewrite Ei, Eu, Ee. by rewrite i32_id by lia.
Qed.

Lemma existsb_strcpy dst s : existsb (Z.eqb 0) (strcpy dst s) = true.
Proof.
  unfold strcpy, put. rewrite take_0. cbn [app]. rewrite <- app_assoc, existsb_app. cbn [app existsb].
  by rewrite orb_true_r.
Qed.

(** The row that [row_init] leaves when it succeeds. *)
Lemma row_init_row i u e row :
  0 <= atoi i -> (length u <= 32)%nat -> (length e <= 32)%nat ->
  row_init (Some i) (Some u) (Some e) row =
    (ROW_INIT_SUCCESS,
     mkRow (u32 (atoi i)) (strcpy (username row) u) (strcpy (email row) e) (row_padding row)).
Proof.
  intros Hi Hu He. unfold row_init. destruct (Z.ltb_spec (atoi i) 0); [lia|].
  rewrite (proj2 (Nat.ltb_ge COLUMN_USERNAME_SIZE (length u)) Hu).
  by rewrite (proj2 (Nat.ltb_ge COLUMN_EMAIL_SIZE (length e)) He).
Qed.

(** Parsing a well-formed insert: the statement is accepted and its row holds the
    three words. *)
Lemma prepare_insert_line s i :
  good_input i -> row_wf (row_insert s) ->
  exists r buf, prepare_statement (insert_stmt i) s =
      Ret (PREPARE_SUCCESS, STATEMENT_INSERT, buf) (set_row_insert r s) /\ row_of_input i r.
Proof.
  intros (Hn & Hu & He & Lu & Le) Hr. pose proof (printf_d_word _ Hn) as Hd.
  pose proof (atoi_printf_d _ Hn) as Ha.
  assert (word (chars "insert")) as Hw by 
    (change (chars "insert") with [105;110;115;101;114;116]; split; [done|]; repeat apply Forall_cons_2; try apply Forall_nil_2; unfold is_byte; lia).
  unfold prepare_statement. change (take 6 (insert_stmt i)) with (chars "insert").
  unfold list_eqb at 1. rewrite bool_decide_true by done. cbv iota.
  unfold prepare_insert, insert_stmt at 1. rewrite (strtok_word _ _ Hw), (strtok_word _ _ Hd),
    (strtok_word _ _ Hu), (strtok_last _ He).
  rewrite !bind_assoc. step (eq_refl : gets row_insert s = Ret (row_insert s) s).
  rewrite row_init_row by (rewrite ?Ha; lia). rewrite Ha, u32_id by lia.
  destruct Hr as [Hi [Hul Huf] [Hel Hef] Hp].
  destruct (strcpy_spec (username (row_insert s)) (in_user i)) as [L1 C1];
    [rewrite Hul; unfold USERNAME_SIZE, COLUMN_USERNAME_SIZE; lia|by apply word_no_nul|].
  destruct (strcpy_spec (email (row_insert s)) (in_email i)) as [L2 C2];
    [rewrite Hel; unfold EMAIL_SIZE, COLUMN_EMAIL_SIZE; lia|by apply word_no_nul|].
  eexists _, _. split; [reflexivity|]. split_and!; [|split; apply existsb_strcpy|done..].
  split; cbn [id username email row_padding]; [lia| | |done].
  - split; [congruence|]. apply strcpy_bytes; [done|by apply word_bytes].
  - split; [congruence|]. apply strcpy_bytes; [done|by apply word_bytes].
Qed.

(** ** Rounds of the main loop *)

Definition newline (l : list Z) : list Z := l ++ [10].

Lemma read_input_line s l rest :
  no_nul l -> stdin s = newline l :: rest -> read_input s = Ret l (set_stdin rest s).
Proof.
  intros Hl E. unfold read_input. step (eq_refl : gets stdin s = Ret (stdin s) s). rewrite E.
  unfold newline. rewrite length_app. cbn [length]. rewrite Nat.add_sub, take_app_length.
  by rewrite cstr_id.
Qed.

Lemma insert_stmt_no_nul i : good_input i -> no_nul (insert_stmt i).
Proof.
  intros (Hn & Hu & He & _). pose proof (printf_d_word _ Hn) as Hd. unfold insert_stmt.
  apply word_no_nul in Hu, He, Hd. unfold no_nul in *.
  apply Forall_app. split; [by repeat constructor|].
  apply Forall_cons_2; [lia|]. apply Forall_app. split; [done|].
  apply Forall_cons_2; [lia|]. apply Forall_app. split; [done|]. by apply Forall_cons_2; [lia|].
Qed.

Definition prompt : event := Printf "db> " [].
Definition executed : event := Printf "Executed." [].
Definition bye : event := Printf "Bye." [].
Definition welcome : event := Printf "Welcome to simple db." [].

(** A process between two rounds, whose table holds the entries [es]. *)
Record session (s : Db) (m : nat) (es : list entry) : Prop := {
  se_table : leaf_table s es;
  se_row : row_wf (row_insert s);
  se_stack : row_wf (stack_row (env s));
  se_print : Forall (fun e => printable e.2) es;
  se_pager : pager_inv s m 1
}.

(** Only the pager, the file and the environment matter. *)
Lemma session_frame s s' m es :
  session s m es -> env s' = env s -> disk s' = disk s -> pager s' = pager s ->
  root_page_num s' = root_page_num s -> row_wf (row_insert s') -> session s' m es.
Proof.
  intros [[Hr (p & Hp & H) Hs] _ Hst Hpr [? ? ? ? ? ? ? ?]] Ee Ed Ep Er Hrow.
  split; [|done|congruence|done|].
  - split; [congruence| |done]. exists p. split; [|done]. unfold has_page. by rewrite Ep.
  - by split; rewrite ?Ee, ?Ed, ?Ep.
Qed.

Lemma pager_inv_put_page s m n k p q :
  pager_inv s m n -> has_page s k q -> page_ok p -> pager_inv (put_page k p s) m n.
Proof.
  intros [? ? ? ? ? Lp Hok Hnew] (Hk & Eq & _) Hp.
  assert (Z.to_nat k < n)%nat as Hkn by (by destruct (Hok _ _ Eq)).
  split; cbn [env disk pager file_length num_pages pages put_page set_pages set_pager]; try done.
  - by rewrite length_insert.
  - intros j x Hj. destruct (decide (j = Z.to_nat k)) as [->|].
    + rewrite list_lookup_insert_eq in Hj by lia. by simplify_eq.
    + rewrite list_lookup_insert_ne in Hj by done. by apply Hok.
  - intros j Hj. destruct (decide (j = Z.to_nat k)) as [->|].
    + rewrite list_lookup_insert_eq by lia. by eexists.
    + rewrite list_lookup_insert_ne by done. by apply Hnew.
Qed.

(** A round that reads an insert with a key above all others. *)
Lemma round_insert s m es i rest :
  session s m es -> good_input i -> (length es < 55)%nat ->
  Forall (fun k => k < in_id i) (map fst es) -> stdin s = newline (insert_stmt i) :: rest ->
  exists r s', main_round s = Ret tt s' /\ session s' m (es ++ [(in_id i, r)]) /\
    row_of_input i r /\ stdin s' = rest /\ out s' = executed :: prompt :: out s.
Proof.
  intros Hse Hi Hl Hk E. pose proof Hse as [_ Hrow Hst Hpr _]. unfold main_round.
  set (s1 := set_out (prompt :: out s) s).
  step (eq_refl : print_prompt s = Ret tt s1).
  step (read_input_line s1 (insert_stmt i) rest (insert_stmt_no_nul i Hi) E).
  set (s2 := set_stdin rest s1).
  change (is_meta_command (insert_stmt i)) with false. cbv iota.
  destruct (prepare_insert_line s2 i Hi Hrow) as (r & buf & Ep & Hr & Hprn & Hid & Hue).
  step Ep. cbv iota. set (s3 := set_row_insert r s2).
  assert (session s3 m es) as [Ht3 Hr3 _ _ Hp3] by (by apply (session_frame s)).
  destruct (execute_insert_append s3 es Ht3 Hl Hr3) as (p' & Ex & Ht').
  { change (row_insert s3) with r. by rewrite Hid. }
  unfold execute_statement. step Ex.
  change (row_insert s3) with r in Ht'. rewrite Hid in Ht'.
  eexists r, _. split; [reflexivity|]. split_and!; [|exact (conj Hr (conj Hprn (conj Hid Hue)))|done|done].
  apply (session_frame (put_page 0 p' s3)); try done. split; try done.
  - apply Forall_app. split; [done|]. by constructor.
  - destruct Ht3 as [_ (q & Hq & _) _]. eapply pager_inv_put_page; [done|done|].
    destruct Ht' as [_ (q' & (_ & Eq' & Hok') & _) _].
    destruct Hq as (_ & Eq & _). apply lookup_lt_Some in Eq.
    unfold put_page in Eq'. cbn [pager pages set_pages set_pager] in Eq'.
    rewrite list_lookup_insert_eq in Eq' by done. by simplify_eq.
Qed.

(** The same when the root may still be in the file only. *)
Record stored (s : Db) (m : nat) (es : list entry) : Prop := {
  so_root : root_page_num s = 0;
  so_page : leaf_rep (view s 0) es /\ sub 0 1 (view s 0) = [NodeType_to_Z NODE_LEAF] /\
    leaf_next (view s 0) = 0;
  so_sorted : sorted_keys (map fst es);
  so_row : row_wf (row_insert s);
  so_stack : row_wf (stack_row (env s));
  so_print : Forall (fun e => printable e.2) es;
  so_pager : pager_inv s m 1
}.

Lemma session_stored s m es : session s m es -> stored s m es.
Proof.
  intros [[Hr (p & (_ & Hp & _) & H) Hs] ? ? ? ?]. change (Z.to_nat 0) with 0%nat in Hp.
  split; try done. unfold view. by rewrite Hp.
Qed.

Lemma stored_fetch s m es :
  stored s m es ->
  exists s', pager_get_page 0 s = Ret 0 s' /\ same_frame s s' /\ session s' m es.
Proof.
  intros [Hr H Hs Hrow Hst Hpr Hp].
  destruct (pager_get_page_view s m 1 0 Hp ltac:(lia) ltac:(lia)) as (s' & E & Hf & Hp' & _ & Hh & Hv).
  rewrite Hv in Hh by lia. exists s'. split_and!; [done|done|]. destruct Hf. split; try done.
  - split; [congruence| |done]. by exists (view s 0).
  - congruence.
  - congruence.
Qed.

(** [select] fetches the root before it looks at anything else. *)
Lemma execute_select_fetch s s' :
  root_page_num s = 0 -> same_frame s s' -> pager_get_page 0 s = Ret 0 s' ->
  pager_get_page 0 s' = Ret 0 s' -> execute_select s = execute_select s'.
Proof.
  intros Hr [Fe Fr _ _ _] E E'. unfold execute_select, table_start.
  assert (table_find 0 s = table_find 0 s') as Et.
  { unfold table_find. step (eq_refl : gets root_page_num s = Ret (root_page_num s) s).
    step (eq_refl : gets root_page_num s' = Ret (root_page_num s') s').
    rewrite Fr, Hr. step E. by step E'. }
  set (g := fun s => stack_row (env s)). step (eq_refl : gets g s = Ret (g s) s).
  step (eq_refl : gets g s' = Ret (g s') s'). unfold g. rewrite Fe.
  unfold mbind, prog_bind in *. by rewrite Et.
Qed.

(** A round that reads [select]. *)
Lemma round_select s m es rest :
  stored s m es -> stdin s = newline (chars "select") :: rest ->
  exists s', main_round s = Ret tt s' /\ session s' m es /\ stdin s' = rest /\
    out s' = executed :: rev (map (fun e => row_event e.2) es) ++ prompt :: out s.
Proof.
  intros Hso E. unfold main_round. set (s1 := set_out (prompt :: out s) s).
  step (eq_refl : print_prompt s = Ret tt s1).
  assert (no_nul (chars "select")) as Hn by (by repeat constructor).
  step (read_input_line s1 _ rest Hn E). set (s2 := set_stdin rest s1).
  assert (stored s2 m es) as Hso2.
  { destruct Hso as [? ? ? ? ? ? []]. by split. }
  destruct (stored_fetch s2 m es Hso2) as (s3 & E3 & Hf & Hs3).
  pose proof Hs3 as [Ht Hr Hst Hpr Hp].
  change (is_meta_command (chars "select")) with false. cbv iota.
  step (eq_refl : prepare_statement (chars "select") s2 =
    Ret (PREPARE_SUCCESS, STATEMENT_SELECT, chars "select") s2). cbv iota.
  assert (execute_select s2 = execute_select s3) as Ex.
  { apply execute_select_fetch; [apply Hso2|done|done|].
    destruct Ht as [_ (p & Hh & _) _]. by eapply pager_get_page_has. }
  unfold execute_statement. rewrite (execute_select_leaf s3 es Ht Hpr Hst) in Ex. step Ex.
  eexists. split; [reflexivity|]. destruct Hf as [_ _ Fi Fo _].
  split_and!; [by apply (session_frame s3)|exact Fi|]. cbn [out printf modify set_out]. by rewrite Fo.
Qed.

(** The rounds of a list of inserts with ascending keys. *)
Fixpoint ascending (lo : Z) (l : list input) : Prop :=
  match l with
  | [] => True
  | i :: t => lo < in_id i /\ ascending (in_id i) t
  end.

Definition rows_of (l : list input) (es : list entry) : Prop :=
  Forall2 (fun i e => row_of_input i e.2) l es.

Lemma main_loop_inserts l f s m es lo rest :
  session s m es -> Forall good_input l -> ascending lo l ->
  Forall (fun k => k <= lo) (map fst es) -> (length es + length l <= 55)%nat ->
  stdin s = map (fun i => newline (insert_stmt i)) l ++ rest ->
  exists es' s', main_loop (length l + f) s = main_loop f s' /\ session s' m (es ++ es') /\
    rows_of l es' /\ stdin s' = rest /\
    out s' = concat (replicate (length l) [executed; prompt]) ++ out s.
Proof.
  revert s es lo. induction l as [|i l IH]; intros s es lo Hse Hg Ha Hlo Hlen E.
  { exists [], s. rewrite app_nil_r. by split_and!; [|done|constructor| |]. }
  inversion Hg as [|? ? Hi Hg']. destruct Ha as [Hlt Ha]. cbn [length] in Hlen.
  destruct (round_insert s m es i (map (fun i => newline (insert_stmt i)) l ++ rest)
    Hse Hi ltac:(lia)) as (r & s1 & E1 & Hse1 & Hr & Hin & Ho); [|done|].
  { eapply Forall_impl; [exact Hlo|]. intros k Hk. cbv beta in *. lia. }
  destruct (IH s1 (es ++ [(in_id i, r)]) (in_id i) Hse1 Hg' Ha) as (es' & s2 & E2 & Hse2 & Hrs & Hin2 & Ho2);
    [|rewrite length_app; cbn [length]; lia|done|].
  { rewrite map_app. apply Forall_app. split; [|by repeat constructor].
    eapply Forall_impl; [exact Hlo|]. intros k Hk. cbv beta in *. lia. }
  exists ((in_id i, r) :: es'), s2. cbn [length Nat.add main_loop]. step E1. rewrite E2.
  rewrite <- app_assoc in Hse2. split_and!; [done|done|by constructor|done|].
  rewrite Ho2, Ho. change [executed; prompt] with ([executed; prompt] ++ []).
  cbn [length]. rewrite replicate_S_end, concat_app. cbn [concat]. by rewrite <- app_assoc.
Qed.

(** The [.exit] round. *)
Lemma round_exit s m es rest :
  session s m es -> stdin s = newline (chars ".exit") :: rest ->
  exists s', main_round s = Exit EXIT_SUCCESS s' /\ out s' = bye :: prompt :: out s /\
    length (disk s') = 4096%nat /\ Forall is_byte (disk s') /\
    forall p, has_page s 0 p -> disk s' = p.
Proof.
  intros Hse E. unfold main_round. set (s1 := set_out (prompt :: out s) s).
  step (eq_refl : print_prompt s = Ret tt s1).
  assert (no_nul (chars ".exit")) as Hn by (by repeat constructor).
  step (read_input_line s1 _ rest Hn E). set (s2 := set_stdin rest s1).
  assert (session s2 m es) as [_ _ _ _ Hp] by (apply (session_frame s); try done; apply Hse).
  change (is_meta_command (chars ".exit")) with true. cbv iota.
  change (do_meta_command (chars ".exit")) with
    (db_close;; printf "Bye." [];; exit_with EXIT_SUCCESS : prog Db MetaCommandResult).
  destruct (db_close_saves s2 m 1 Hp) as (s3 & Ec & Hf & Ld & Fd & Hv).
  rewrite bind_assoc. step Ec. eexists. split; [reflexivity|].
  destruct Hf as [_ _ _ Ho _]. split_and!; [by cbn [out set_out]; rewrite Ho|done|done|].
  intros p (_ & Ep & Lp & _). specialize (Hv 0%nat ltac:(lia)).
  unfold file_page, view in Hv. change (pages (pager s2)) with (pages (pager s)) in Hv.
  change (Z.to_nat 0) with 0%nat in Ep. rewrite Ep in Hv. cbn [disk set_out].
  rewrite <- Hv. unfold sub. rewrite Nat.mul_0_r, drop_0, take_ge by lia. done.
Qed.

(** ** Opening *)

(** A process that has not opened its file yet. *)
Record starting (s : Db) (lines : list (list Z)) : Prop := {
  sg_env : env_ok (env s);
  sg_row : row_wf (row_insert s);
  sg_stack : row_wf (stack_row (env s));
  sg_stdin : stdin s = lines
}.

Lemma pager_inv_root s m n r : pager_inv s m n -> pager_inv (set_root r s) m n.
Proof. intros [? ? ? ? ? ? ? ?]. by split. Qed.

(** Opening an empty file makes a table without entries. *)
Lemma db_open_new s lines f :
  starting s lines -> disk s = [] ->
  exists s', db_open f s = Ret tt s' /\ session s' 0 [] /\ stdin s' = lines /\ out s' = out s.
Proof.
  intros [He Hrow Hst Hin] Hd. unfold db_open.
  destruct (pager_open_inv s f 0) as (s1 & E1 & [Fe _ Fi Fo Fr] & I1 & _); rewrite ?Hd; [done..|lia|].
  step E1. set (s2 := set_root 0 s1). step (eq_refl : modify (set_root 0) s1 = Ret tt s2).
  assert (pager_inv s2 0 0) as I2 by (by apply pager_inv_root).
  set (g := fun s => num_pages (pager s)). step (eq_refl : gets g s2 = Ret (g s2) s2).
  assert (g s2 = 0) as -> by apply (pi_num _ _ _ I2). cbn [Z.eqb].
  destruct (pager_get_page_view s2 0 0 0 I2) as (s3 & E3 & [He3 Hr3 Hi3 Ho3 Hw3] & I3 & _ & Hp & _); [lia|lia|].
  change (Z.of_nat 0) with 0 in *. step E3. set (p := view s3 0) in *.
  pose proof Hp as (_ & _ & Hok). step (initialize_leaf_node_correct s3 0 p Hp).
  pose proof (leaf_header_ok p Hok) as Hok1. pose proof (has_put_page _ _ _ _ Hp Hok1) as Hp1.
  set (s4 := put_page 0 _ s3) in *. set (p' := put 1 (le_encode 1 1) (leaf_header p)).
  assert (set_node_root 0 true s4 = Ret tt (put_page 0 p' s4)) as E4
    by exact (store8_has s4 0 _ 1 1 Hp1 ltac:(lia)).
  exists (put_page 0 p' s4). assert (page_ok p') as Hok2 by (apply page_ok_put_le; [done|lia]).
  split; [exact E4|]. split_and!; 
    [|by transitivity (stdin s3); [|rewrite Hi3, <- Hin, <- Fi]
     |by transitivity (out s3); [|rewrite Ho3, <- Fo]].
  destruct (leaf_header_fields p Hok) as (Ht & Hn & Hx). pose proof Hok1 as [L1 _].
  assert (forall o n, (o + n <= 1 \/ 2 <= o)%nat -> sub o n p' = sub o n (leaf_header p)) as Hs.
  { intros o n H. apply sub_put_other; rewrite length_le_encode, ?L1; lia. }
  unfold leaf_num, leaf_next in Hn, Hx. split.
  - split; [exact Hr3| |by intros ? ? ? ? ? H]. exists p'. split; [by eapply has_put_page|].
    split_and!; [|by rewrite Hs by lia|by unfold leaf_next; rewrite Hs by lia].
    split; [done|unfold leaf_num; rewrite Hs by lia; exact Hn|simpl; lia|constructor|done].
  - change (row_wf (row_insert s3)). rewrite Hw3. change (row_wf (row_insert s1)). by rewrite Fr.
  - change (row_wf (stack_row (env s3))). rewrite He3. change (row_wf (stack_row (env s1))). by rewrite Fe.
  - constructor.
  - eapply pager_inv_put_page; [|exact Hp1|done]. by eapply pager_inv_put_page.
Qed.

(** Opening a file that holds one leaf. *)
Lemma db_open_saved s lines f p es :
  starting s lines -> disk s = p -> page_ok p -> leaf_rep p es -> sorted_keys (map fst es) ->
  sub 0 1 p = [NodeType_to_Z NODE_LEAF] -> leaf_next p = 0 -> Forall (fun e => printable e.2) es ->
  exists s', db_open f s = Ret tt s' /\ stored s' 1 es /\ stdin s' = lines /\ out s' = out s.
Proof.
  intros [He Hrow Hst Hin] Hd [L F] Hrep Hs Ht Hx Hpr. unfold db_open.
  destruct (pager_open_inv s f 1) as (s1 & E1 & [Fe _ Fi Fo Fr] & I1 & Hv); rewrite ?Hd; [done..|lia|].
  step E1. set (s2 := set_root 0 s1). step (eq_refl : modify (set_root 0) s1 = Ret tt s2).
  assert (pager_inv s2 1 1) as I2 by (by apply pager_inv_root).
  set (g := fun s => num_pages (pager s)). step (eq_refl : gets g s2 = Ret (g s2) s2).
  assert (g s2 = 1) as -> by apply (pi_num _ _ _ I2). cbn [Z.eqb].
  assert (view s2 0 = p) as Hp.
  { change (view s2 0) with (view s1 0). rewrite Hv, Hd. unfold file_page, sub.
    rewrite Nat.mul_0_r, drop_0, take_ge by lia. done. }
  exists s2. split_and!; [reflexivity| |by rewrite <- Hin, <- Fi|by rewrite <- Fo].
  split; rewrite ?Hp; try done.
  - change (row_wf (row_insert s1)). by rewrite Fr.
  - change (row_wf (stack_row (env s1))). by rewrite Fe.
Qed.

(** ** Two runs of the program *)

Definition insert_line (i : input) : list Z := newline (insert_stmt i).
Definition select_line : list Z := newline (chars "select").
Definition exit_line : list Z := newline (chars ".exit").

(** What [main] prints, in order. *)
Definition printed (s : Db) : list event := rev (out s).

Lemma starting_out s lines o : starting s lines -> starting (set_out o s) lines.
Proof. by intros []. Qed.

Lemma main_open p s lines f s1 :
  db_open f (set_out (welcome :: out s) s) = Ret tt s1 -> stdin s1 = lines ->
  main [p; f] s = main_loop (S (length lines)) s1.
Proof.
  intros E Hin. unfold main. step (eq_refl : printf "Welcome to simple db." [] s = Ret tt (set_out (welcome :: out s) s)).
  step E. step (eq_refl : gets stdin s1 = Ret (stdin s1) s1). by rewrite Hin.
Qed.

Lemma rows_of_events l es :
  Forall good_input l -> rows_of l es -> map (fun e => row_event e.2) es = map input_event l.
Proof.
  intros Hg H. induction H as [|i e l es Hie _ IH]; [done|]. inversion Hg; subst. simpl.
  rewrite IH by done. by rewrite (row_event_of_input i).
Qed.

Lemma rows_of_printable l es : rows_of l es -> Forall (fun e => printable e.2) es.
Proof. induction 1 as [|i e l es (_ & H & _) _ IH]; by constructor. Qed.

Lemma rev_rounds n : rev (concat (replicate n [executed; prompt])) = concat (replicate n [prompt; executed]).
Proof.
  induction n as [|n IH]; [done|]. rewrite replicate_S_end, concat_app, rev_app_distr, IH. done.
Qed.

(** The rounds [select] and [.exit] that end both runs. *)
Lemma select_exit fuel s m l es :
  stored s m es -> Forall good_input l -> rows_of l es -> stdin s = [select_line; exit_line] ->
  exists s', main_loop (2 + fuel) s = Exit EXIT_SUCCESS s' /\
    out s' = [bye; prompt; executed] ++ rev (map input_event l) ++ prompt :: out s /\
    page_ok (disk s') /\ leaf_rep (disk s') es /\
    sub 0 1 (disk s') = [NodeType_to_Z NODE_LEAF] /\ leaf_next (disk s') = 0 /\
    sorted_keys (map fst es).
Proof.
  intros Hso Hg Hr E. cbn [Nat.add main_loop].
  destruct (round_select s m es _ Hso E) as (s1 & E1 & Hs1 & Hi1 & Ho1). step E1.
  destruct (round_exit s1 m es _ Hs1 Hi1) as (s2 & E2 & Ho2 & L2 & F2 & Hd).
  destruct Hs1 as [[_ (p & Hp & Hrep & Ht & Hx) Hs] _ _ _ _]. pose proof (Hd p Hp) as Ed.
  exists s2. split; [unfold mbind, prog_bind; by rewrite E2|].
  rewrite Ho2, Ho1, (rows_of_events l) by done. rewrite Ed. split_and!; try done.
  by destruct Hp as (_ & _ & ?).
Qed.

(** C1: A session that creates the file, and a second one that reads it: at most 55
    inserts with ascending keys are all accepted, [select] prints every row with
    the values typed, in the order of the keys, [.exit] ends the process with
    success, and a new process on the saved file prints the same rows. *)
Theorem two_sessions prg f s t l :
  starting s (map insert_line l ++ [select_line; exit_line]) -> disk s = [] -> out s = [] ->
  starting t [select_line; exit_line] -> out t = [] ->
  Forall good_input l -> ascending (-1) l -> (length l <= 55)%nat ->
  exists s', main [prg; f] s = Exit EXIT_SUCCESS s' /\
    printed s' = welcome :: concat (replicate (length l) [prompt; executed]) ++
                 prompt :: map input_event l ++ [executed; prompt; bye] /\
    (disk t = disk s' ->
     exists t', main [prg; f] t = Exit EXIT_SUCCESS t' /\
       printed t' = welcome :: prompt :: map input_event l ++ [executed; prompt; bye]).
Proof.
  intros Hs Hd Hos Ht Hot Hg Ha Hl.
  destruct (db_open_new _ _ f (starting_out s _ (welcome :: out s) Hs) Hd) as (s1 & E1 & Hs1 & Hi1 & Ho1).
  rewrite (main_open prg s _ f s1 E1 Hi1). rewrite length_app, length_map.
  replace (S (length l + length [select_line; exit_line])) with (length l + (2 + 1))%nat by (simpl; lia).
  destruct (main_loop_inserts l (2 + 1) s1 0 [] (-1) [select_line; exit_line] Hs1 Hg Ha) as (es & s2 & -> & Hs2 & Hr & Hi2 & Ho2);
    [constructor|simpl; lia|exact Hi1|]. cbn [app] in Hs2.
  destruct (select_exit 1 s2 0 l es (session_stored _ _ _ Hs2) Hg Hr Hi2)
    as (s' & -> & Ho & Hok & Hrep & Hty & Hx & Hso).
  exists s'. split; [done|]. split.
  - unfold printed. rewrite Ho, Ho2, Ho1, Hos. cbn [out set_out].
    rewrite rev_app_distr. rewrite rev_app_distr. cbn [rev]. rewrite rev_app_distr, rev_involutive, rev_rounds.
    by rewrite <- !app_assoc.
  - intros Ed. destruct (db_open_saved _ _ f _ es (starting_out t _ (welcome :: out t) Ht) Ed Hok Hrep Hso Hty Hx
      (rows_of_printable l es Hr)) as (t1 & F1 & Ht1 & Hj1 & Hp1).
    rewrite (main_open prg t _ f t1 F1 Hj1).
    destruct (select_exit 1 t1 1 l es Ht1 Hg Hr Hj1) as (t' & E' & Hot' & _).
    exists t'. split; [exact E'|]. unfold printed. rewrite Hot', Hp1, Hot. cbn [out set_out].
    rewrite !rev_app_distr. cbn [rev]. rewrite rev_involutive. by rewrite <- !app_assoc.
Qed.
