(* ===== verification/SdbFaults.v ===== *)
(** Internal nodes of simpledb: what the search among the children computes, how
    the cells of [src/simpledb/node.c] overlap, and what a session with a third
    split makes of that. *)

From S2P Require Import Prelude SdbRow SdbPager SdbNode SdbBtree SdbCommand.
#[local] Open Scope Z_scope.

(** ** The search for a child *)

(** Key [i] of an internal page, as [internal_node_key] addresses it. *)
Definition inode_num (p : list Z) : Z := le_decode (sub 6 4 p).
Definition inode_key (p : list Z) (i : nat) : Z := le_decode (sub (14 + 8 * i + 16) 4 p).
Definition inode_keys (p : list Z) : list Z := map (inode_key p) (seq 0 (Z.to_nat (inode_num p))).

(** The first key that is not smaller, or the right child. *)
Fixpoint first_ge (key : Z) (ks : list Z) : nat :=
  match ks with
  | [] => 0
  | k :: t => if key <=? k then 0 else S (first_ge key t)
  end.

Lemma first_ge_unique key ks r :
  (r <= length ks)%nat ->
  (forall i k, (i < r)%nat -> ks !! i = Some k -> k < key) ->
  (forall k, ks !! r = Some k -> key <= k) -> first_ge key ks = r.
Proof.
  revert r. induction ks as [|k ks IH]; intros r Hr Hl Hg; simpl in *; [lia|].
  destruct r as [|r].
  - specialize (Hg k eq_refl). by rewrite (proj2 (Z.leb_le key k)) by lia.
  - pose proof (Hl 0%nat k ltac:(lia) eq_refl). rewrite (proj2 (Z.leb_gt key k)) by lia.
    f_equal. apply IH; [lia| |done]. intros i a Hi Ha. apply (Hl (S i) a); [lia|done].
Qed.

Definition ascending_keys (ks : list Z) : Prop :=
  forall i j a b, (i <= j)%nat -> ks !! i = Some a -> ks !! j = Some b -> a <= b.

Lemma internal_node_key_off n (i : nat) : internal_node_key n (Z.of_nat i) = (n, Z.of_nat (14 + 8 * i + 16)).
Proof.
  unfold internal_node_key, internal_node_cell, ptr32_add. cbn [fst snd]. f_equal.
  change INTERNAL_NODE_HEADER_SIZE with 14. change INTERNAL_NODE_CELL_SIZE with 8.
  change INTERNAL_NODE_CHILD_SIZE with 4. lia.
Qed.

Lemma lookup_inode_keys p i :
  (i < Z.to_nat (inode_num p))%nat -> inode_keys p !! i = Some (inode_key p i).
Proof. intros H. unfold inode_keys. by rewrite list_lookup_fmap, lookup_seq_lt. Qed.

Lemma child_search_correct fuel s n p key lo hi :
  has_page s n p -> 0 <= inode_num p <= 500 -> ascending_keys (inode_keys p) ->
  0 <= lo <= hi -> hi <= inode_num p -> hi - lo < 2 ^ (Z.of_nat fuel - 1) ->
  (forall i, Z.of_nat i < lo -> inode_key p i < key) ->
  (hi < inode_num p -> key <= inode_key p (Z.to_nat hi)) ->
  child_search fuel n key lo hi s = Ret (Z.of_nat (first_ge key (inode_keys p))) s.
Proof.
  intros Hp Hn Hs. revert lo hi. induction fuel as [|f IH]; intros lo hi Hlo Hhi Hf Hl Hr.
  { change (2 ^ (Z.of_nat 0 - 1)) with 0 in Hf. lia. }
  assert (length (inode_keys p) = Z.to_nat (inode_num p)) as Lk
    by (unfold inode_keys; by rewrite length_map, length_seq).
  cbn [child_search]. destruct (Z.eqb_spec lo hi) as [<-|Hne].
  - unfold mret, prog_ret. f_equal. rewrite (first_ge_unique _ _ (Z.to_nat lo)); [lia|lia| |].
    + intros i k Hi E. rewrite lookup_inode_keys in E by lia. injection E as <-. apply Hl. lia.
    + intros k E. assert (Z.to_nat lo < Z.to_nat (inode_num p))%nat
        by (apply lookup_lt_Some in E; lia).
      rewrite lookup_inode_keys in E by done. injection E as <-. apply Hr. lia.
  - assert (f <> 0%nat) by (intros ->; change (2 ^ (Z.of_nat 1 - 1)) with 1 in Hf; lia).
    replace (Z.of_nat (S f) - 1) with (Z.succ (Z.of_nat f - 1)) in Hf by lia.
    rewrite Z.pow_succ_r in Hf by lia.
    rewrite (u32_id (lo + hi)) by lia. set (mid := (lo + hi) / 2).
    assert (lo <= mid < hi) as Hm by (unfold mid; split; [apply Z.div_le_lower_bound|apply Z.div_lt_upper_bound]; lia).
    assert (hi - mid <= 2 ^ (Z.of_nat f - 1) /\ mid - lo < 2 ^ (Z.of_nat f - 1)) as Hmf.
    { unfold mid. pose proof (Z.div_mod (lo + hi) 2). pose proof (Z.mod_pos_bound (lo + hi) 2). lia. }
    rewrite <- (Z2Nat.id mid) at 1 by lia. rewrite internal_node_key_off.
    step (load32_has s n p (Z.of_nat (14 + 8 * Z.to_nat mid + 16)) Hp ltac:(lia) ltac:(lia)).
    rewrite Nat2Z.id. change (le_decode _) with (inode_key p (Z.to_nat mid)).
    destruct (Z.leb_spec key (inode_key p (Z.to_nat mid))).
    + apply IH; try lia; done.
    + rewrite u32_id by lia. apply IH; try lia; try done. intros i Hi.
      enough (inode_key p i <= inode_key p (Z.to_nat mid)) by lia.
      apply (Hs i (Z.to_nat mid)); [lia|apply lookup_inode_keys; lia..].
Qed.

(** C28: On an internal node whose keys ascend, [internal_node_find_child] returns the
    index of the first key that is not smaller than the key. *)
Lemma internal_node_find_child_correct s n p key :
  has_page s n p -> 0 <= inode_num p <= 500 -> ascending_keys (inode_keys p) ->
  internal_node_find_child n key s = Ret (Z.of_nat (first_ge key (inode_keys p))) s.
Proof.
  intros Hp Hn Hs. unfold internal_node_find_child.
  step (load32_has s n p 6 Hp ltac:(lia) ltac:(lia) : load32 (internal_node_num_keys n) s = _).
  change (le_decode _) with (inode_num p).
  apply child_search_correct; try done; try lia.
  change (2 ^ (Z.of_nat SEARCH_FUEL - 1)) with (2 ^ 32). lia.
Qed.

(** ** The cells overlap *)

(** The pointer arithmetic of [internal_node_key] is in words, not bytes: key [i]
    is where the child of cell [i + 2] is. *)
Theorem internal_key_is_child n i : internal_node_key n i = internal_node_cell n (i + 2).
Proof.
  unfold internal_node_key, internal_node_cell, ptr32_add. cbn [fst snd]. f_equal.
  change INTERNAL_NODE_HEADER_SIZE with 14. change INTERNAL_NODE_CELL_SIZE with 8.
  change INTERNAL_NODE_CHILD_SIZE with 4. lia.
Qed.

(** ** A session that stores a key twice *)

Definition init_row : Row := mkRow 0 (replicate 33 0) (replicate 33 0) [0; 0].

Definition good_env : Env :=
  mkEnv true true true true true true (fun _ => replicate 4096 0) init_row.

Definition process (lines : list (list Z)) : Db :=
  mkDb good_env [] 0 (mkPager 0 0 []) 0 lines [] init_row.

(** [insert n u m] with its newline. *)
Definition insert_n (n : nat) : list Z :=
  chars "insert " ++ printf_d (Z.of_nat n) ++ chars " u m" ++ [10].

(** The last two events before the prompt on which the input ended. *)
Definition last_answer (o : outcome Db unit) : option event :=
  match o with
  | Exit 1 s => nth_error (out s) 2
  | _ => None
  end.

(** With 30 rows in two leaves the second insert of a key is refused. *)
Theorem duplicate_refused :
  last_answer (main [[]; []] (process (map insert_n (seq 0 30 ++ [10%nat])))) =
  Some (Printf "Error: Duplicate key." []).
Proof. vm_compute. reflexivity. Qed.


(** The 142nd row needs a fifth leaf: [internal_node_insert] stops the process
    after it has counted the key it does not store. *)
Theorem fourth_split_exits :
  match main [[]; []] (process (map insert_n (seq 0 141))) with
  | Exit 1 s => head (out s) = Some (Printf "Need to implement splitting internal node" [])
  | _ => False
  end.
Proof. vm_compute. reflexivity. Qed.
