(* ===== verification/SdbSpec.v ===== *)
(** What simpledb promises: the contracts of its parts, each with an instance.
    The table is specified as the list of its entries, the pager as an array of
    pages, the main loop as the lines it reads and prints. *)

From S2P Require Import Prelude SdbRow SdbPager SdbNode SdbBtree SdbPersist SdbLeaf SdbCommand SdbTable SdbSession SdbFaults.
#[local] Open Scope Z_scope.

(** ** The table against the list of its entries *)

(** [insert] of the specification: a key that is there is refused. *)
Definition spec_insert (r : Row) (es : list entry) : ExecuteResult * list entry :=
  let pos := lower_bound (id r) (map fst es) in
  if bool_decide (map fst es !! pos = Some (id r)) then (EXECUTE_DUPLICATE_KEY, es)
  else (EXECUTE_SUCCESS, insert_at pos (id r, r) es).

(** The byte of the row's padding that is stored with it is the low byte of the
    key it lands on, or lands behind the last cell. *)
Definition harmless (r : Row) (es : list entry) : Prop :=
  forall k, map fst es !! lower_bound (id r) (map fst es) = Some k -> k <> id r -> k mod 256 = row_spill r.

Lemma leaf_inserted_harmless r es :
  harmless r es ->
  let pos := lower_bound (id r) (map fst es) in
  map fst es !! pos <> Some (id r) -> leaf_inserted pos (id r) r es = insert_at pos (id r, r) es.
Proof.
  intros H pos Hne. pose proof (lower_bound_le (id r) (map fst es)) as Hpos. rewrite length_map in Hpos.
  apply list_eq. intros j. rewrite lookup_leaf_inserted, lookup_insert_at by done.
  repeat case_decide; try done. subst j. replace (S pos - 1)%nat with pos by lia.
  destruct (es !! pos) as [[k x]|] eqn:E; [|done]. cbn. unfold clobber. cbn [fst snd].
  specialize (H k). rewrite list_lookup_fmap in H, Hne. fold pos in H. rewrite E in H, Hne.
  rewrite <- H; [|done|by intros ->]. do 2 f_equal. lia.
Qed.

Lemma lower_bound_above key ks i k :
  sorted_keys ks -> ks !! i = Some k -> (lower_bound key ks <= i)%nat -> key <= k.
Proof.
  revert i. induction ks as [|a ks IH]; intros i Hs E Hi; [done|]. cbn [lower_bound] in Hi.
  assert (sorted_keys ks) as Hs' by (intros i' j' x y ? ? ?; apply (Hs (S i') (S j')); [lia|done|done]).
  destruct (Z.ltb_spec a key).
  - destruct i as [|i]; [lia|]. apply (IH i); [done|done|lia].
  - destruct i as [|i]; [by injection E as <-|]. pose proof (Hs 0%nat (S i) a k ltac:(lia) eq_refl E). lia.
Qed.

Lemma sorted_insert_at (es : list entry) key r :
  let pos := lower_bound key (map fst es) in
  sorted_keys (map fst es) -> map fst es !! pos <> Some key ->
  sorted_keys (map fst (insert_at pos (key, r) es)).
Proof.
  intros pos Hs Hne i j a b Hij Ha Hb.
  pose proof (lower_bound_le key (map fst es)) as Hpos. rewrite length_map in Hpos. fold pos in Hpos.
  assert (forall n x, map fst (insert_at pos (key, r) es) !! n = Some x ->
    if decide (n < pos)%nat then map fst es !! n = Some x /\ x < key
    else if decide (n = pos) then x = key else map fst es !! (n - 1)%nat = Some x /\ key < x) as H.
  { intros n x E. rewrite list_lookup_fmap, lookup_insert_at in E by done. repeat case_decide.
    - rewrite list_lookup_fmap. split; [done|]. apply (lookup_lower_bound key (map fst es) n); [by rewrite list_lookup_fmap|done].
    - by injection E.
    - rewrite list_lookup_fmap. split; [done|]. rewrite <- list_lookup_fmap in E.
      pose proof (lower_bound_above key _ _ _ Hs E ltac:(lia)).
      destruct (decide (x = key)) as [->|]; [|lia]. destruct (decide ((n - 1)%nat = pos)) as [En|Hn]; [by rewrite En in E|].
      assert (is_Some (map fst es !! pos)) as [y Ey].
      { apply lookup_lt_is_Some. apply lookup_lt_Some in E. rewrite length_map in E |- *. lia. }
      pose proof (lower_bound_above key _ _ _ Hs Ey ltac:(lia)).
      pose proof (Hs pos (n - 1)%nat y key ltac:(lia) Ey E). lia. }
  apply H in Ha, Hb. repeat case_decide; destruct_and?; subst; try lia.
  - eapply (Hs i j); eauto.
  - eapply (Hs (i - 1)%nat (j - 1)%nat); eauto. lia.
Qed.



(** The binary search of [leaf_node_find]: the cursor it returns has every smaller
    key before it and no smaller key behind it. *)
Theorem find_splits s n p key :
  has_page s n p -> 0 <= leaf_num p <= 55 -> sorted_keys (keys_of p) ->
  exists c, leaf_node_find n key s = Ret c s /\ page_num c = n /\ 0 <= cell_num c <= leaf_num p /\
    forall i k, keys_of p !! i = Some k ->
      (Z.of_nat i < cell_num c -> k < key) /\ (cell_num c <= Z.of_nat i -> key <= k).
Proof.
  intros Hp Hn Hs. eexists. split; [by apply leaf_node_find_correct|]. cbn [page_num cell_num].
  pose proof (lower_bound_le key (keys_of p)) as Hl. rewrite length_keys_of in Hl.
  split_and!; [done|lia|lia|]. intros i k E. split; intros Hi.
  - eapply lookup_lower_bound; [exact E|lia].
  - eapply lower_bound_above; [done|exact E|lia].
Qed.

(** Inserting below another key writes the first byte of the row's padding over
    the low byte of that key: the entry stays, under another key. *)
Theorem insert_clobbers s es e :
  leaf_table s es -> (length es < 55)%nat -> row_wf (row_insert s) ->
  let r := row_insert s in
  let pos := lower_bound (id r) (map fst es) in
  es !! pos = Some e -> e.1 <> id r ->
  exists p' es', execute_insert s = Ret EXECUTE_SUCCESS (put_page 0 p' s) /\ leaf_rep p' es' /\
    es' !! pos = Some (id r, r) /\ es' !! S pos = Some (e.1 - e.1 mod 256 + row_spill r, e.2).
Proof.
  intros Ht Hl Hr r pos He Hne. pose proof (execute_insert_leaf s es Ht Hl Hr) as H. cbv zeta in H.
  fold r in H. fold pos in H.
  rewrite bool_decide_false in H by (rewrite list_lookup_fmap, He; cbn; by intros [= ?]).
  destruct H as (p' & E & Hrep & _). exists p', (leaf_inserted pos (id r) r es).
  apply lookup_lt_Some in He as Hlt. rewrite !lookup_leaf_inserted by lia.
  split_and!; [done|done| |].
  - by rewrite decide_False, decide_True by lia.
  - rewrite decide_False, decide_False, decide_True by lia. by rewrite He.
Qed.

(** ** The pager as an array of pages *)

(** Fetching pages one after the other. *)
Fixpoint fetch_all (l : list nat) : prog Db unit :=
  match l with [] => mret tt | k :: l => pager_get_page (Z.of_nat k);; fetch_all l end.

(** However the pages of the table are fetched, all calls succeed, and the
    contents of the table stay what they were. *)
Theorem pager_transparent l : forall s m n,
  pager_inv s m n -> Forall (fun k => (k < n)%nat) l ->
  exists s', fetch_all l s = Ret tt s' /\ pager_inv s' m n /\ disk s' = disk s /\
    forall j, (j < n)%nat -> view s' j = view s j.
Proof.
  induction l as [|k l IH]; intros s m n I Hf; [by exists s|]. inversion Hf as [|? ? Hk Hl].
  pose proof (pi_le _ _ _ I). cbn [fetch_all].
  destruct (pager_get_page_view s m n k I ltac:(lia) ltac:(lia)) as (s1 & E & _ & I1 & Ed & _ & Hv).
  replace (Nat.max n (S k)) with n in I1 by lia.
  destruct (IH s1 m n I1 Hl) as (s2 & E2 & I2 & Ed2 & Hv2). step E.
  exists s2. split_and!; [done|done|congruence|]. intros j Hj. by rewrite Hv2, Hv.
Qed.

(** C27: A table that is closed and opened again, by another process, has the pages it
    had: the new ones, the changed ones and those that were never fetched. *)
Theorem close_open s m n t f :
  pager_inv s m n -> env_ok (env t) ->
  exists s', db_close s = Ret tt s' /\
    (disk t = disk s' ->
     exists t', pager_open f t = Ret tt t' /\ pager_inv t' n n /\
       forall j, (j < n)%nat -> view t' j = view s j).
Proof.
  intros I He. pose proof (pi_le _ _ _ I).
  destruct (db_close_saves s m n I) as (s' & E & _ & Ld & Fd & Hv). exists s'. split; [done|].
  intros Et. destruct (pager_open_inv t f n He) as (t' & Eo & _ & I' & Hw); rewrite ?Et; [done..|lia|].
  exists t'. split_and!; [done|done|]. intros j Hj. by rewrite Hw, Et, Hv.
Qed.

(** ** The command line *)

(** [prepare_statement] of a well-formed insert line succeeds, and the row holds
    the number and the two words that were typed. *)
Theorem insert_line_parsed s i :
  good_input i -> row_wf (row_insert s) ->
  exists r buf, prepare_statement (insert_stmt i) s =
      Ret (PREPARE_SUCCESS, STATEMENT_INSERT, buf) (set_row_insert r s) /\
    row_wf r /\ id r = in_id i /\ cstr (username r) = in_user i /\ cstr (email r) = in_email i.
Proof.
  intros Hi Hr. destruct (prepare_insert_line s i Hi Hr) as (r & buf & E & Hw & _ & H).
  by exists r, buf.
Qed.

(** ** Instances *)

Lemma bytes_dec l : forallb (fun x => (0 <=? x) && (x <? 256)) l = true -> Forall is_byte l.
Proof.
  intros H. apply Forall_forall. intros x Hx. rewrite forallb_forall in H.
  specialize (H x ltac:(by apply list_elem_of_In)). unfold is_byte. lia.
Qed.

Ltac bytes := apply bytes_dec; vm_compute; reflexivity.

(** A row with one-letter names. *)
Definition sample_row (n : Z) : Row := mkRow n (117 :: replicate 32 0) (109 :: replicate 32 0) [0; 0].

Definition sample_entries : list entry := [(3, sample_row 3); (7, sample_row 7)].

Definition sample_page : list Z :=
  put (cell_off 1) (enc_cell (7, sample_row 7)) (put (cell_off 0) (enc_cell (3, sample_row 3))
    (put 6 [2; 0; 0; 0] (leaf_header (replicate 4096 0)))).

(** A process whose table holds the keys 3 and 7 and whose statement holds the
    row of the key [n]. *)
Definition sample (n : Z) : Db :=
  mkDb good_env [] 0 (mkPager 0 1 (Some sample_page :: replicate 99 None)) 0 [] [] (sample_row n).

Lemma sample_page_ok : page_ok sample_page.
Proof. split; [vm_compute; reflexivity|bytes]. Qed.

Lemma sample_row_wf n : 0 <= n < 2 ^ 32 -> row_wf (sample_row n).
Proof. intros Hn. split; [done|split; [reflexivity|bytes]..]. Qed.

Lemma init_row_wf : row_wf init_row.
Proof. split; [cbn; lia|split; [reflexivity|bytes]..]. Qed.

Lemma sample_rep : leaf_rep sample_page sample_entries.
Proof.
  split; [exact sample_page_ok|vm_compute; reflexivity|cbn; lia| |].
  - repeat constructor; cbn; try lia; bytes.
  - intros i e E. destruct i as [|[|i]]; [..|done]; injection E as <-; vm_compute; reflexivity.
Qed.

Lemma sample_sorted : sorted_keys [3; 7].
Proof.
  intros i j a b Hij Ha Hb. destruct i as [|[|i]], j as [|[|j]]; try lia; try done.
  by simplify_eq/=.
Qed.

Lemma sample_has n : has_page (sample n) 0 sample_page.
Proof. split_and!; [lia|reflexivity|reflexivity|exact sample_page_ok]. Qed.

Lemma sample_table n : leaf_table (sample n) sample_entries.
Proof.
  split; [reflexivity| |exact sample_sorted]. exists sample_page.
  split_and!; [apply sample_has|exact sample_rep|vm_compute; reflexivity..].
Qed.

Lemma good_env_ok : env_ok good_env.
Proof. split_and!; try reflexivity. intros n. split; [reflexivity|bytes]. Qed.

Lemma sample_pager n : pager_inv (sample n) 0 1.
Proof.
  split; [exact good_env_ok|by split; [|constructor]|lia|reflexivity..| |].
  - intros [|j] p E; cbn [sample pager pages lookup list_lookup] in E.
    + injection E as <-. split; [exact sample_page_ok|lia].
    + by apply lookup_replicate in E as [? _].
  - intros j Hj. assert (j = 0%nat) as -> by lia. by eexists.
Qed.



Lemma sample_keys : keys_of sample_page = [3; 7].
Proof. vm_compute. reflexivity. Qed.

Lemma find_splits_witness :
  exists c, leaf_node_find 0 5 (sample 0) = Ret c (sample 0) /\ cell_num c = 1.
Proof.
  destruct (find_splits (sample 0) 0 sample_page 5 (sample_has 0)) as (c & E & _ & _ & Hc);
    [vm_compute; intuition discriminate|rewrite sample_keys; exact sample_sorted|].
  exists c. split; [exact E|]. rewrite sample_keys in Hc.
  destruct (Hc 0%nat 3 eq_refl), (Hc 1%nat 7 eq_refl). lia.
Defined.

(** The row of key 5 leaves a 0 as the low byte of the key 7. *)
Lemma insert_clobbers_witness :
  exists p' es', execute_insert (sample 5) = Ret EXECUTE_SUCCESS (put_page 0 p' (sample 5)) /\
    leaf_rep p' es' /\ es' !! 1%nat = Some (5, sample_row 5) /\ es' !! 2%nat = Some (0, sample_row 7).
Proof.
  apply (insert_clobbers (sample 5) sample_entries (7, sample_row 7) (sample_table 5));
    [cbn; lia|by apply sample_row_wf|reflexivity|discriminate].
Defined.

Lemma pager_transparent_witness :
  exists s', fetch_all [0; 0]%nat (sample 0) = Ret tt s' /\ view s' 0 = sample_page.
Proof.
  destruct (pager_transparent [0; 0]%nat (sample 0) 0 1 (sample_pager 0)) as (s' & E & _ & _ & H);
    [by repeat constructor|]. exists s'. split; [exact E|]. rewrite H by lia. reflexivity.
Defined.

Lemma close_open_witness :
  exists s', db_close (sample 0) = Ret tt s' /\
    exists t', pager_open [] s' = Ret tt t' /\ view t' 0 = sample_page.
Proof.
  destruct (db_close_saves (sample 0) 0 1 (sample_pager 0)) as (s1 & E1 & Hf & _).
  destruct (close_open (sample 0) 0 1 s1 [] (sample_pager 0)) as (s' & E & H).
  { rewrite (sf_env _ _ Hf). exact good_env_ok. }
  rewrite E1 in E. injection E as <-. exists s1. split; [exact E1|].
  destruct (H eq_refl) as (t' & Et & _ & Hv). exists t'. split; [exact Et|]. rewrite Hv by lia. reflexivity.
Defined.

(** [insert 5 u m] *)
Definition sample_input : input := mkInput 5 [117] [109].

Lemma sample_input_good : good_input sample_input.
Proof.
  split_and!; cbn; try lia; split; try done; repeat constructor; try lia; by intros [=].
Qed.

Lemma insert_line_parsed_witness :
  exists r buf, prepare_statement (chars "insert 5 u m") (sample 0) =
    Ret (PREPARE_SUCCESS, STATEMENT_INSERT, buf) (set_row_insert r (sample 0)) /\ id r = 5.
Proof.
  destruct (insert_line_parsed (sample 0) sample_input sample_input_good) as (r & buf & E & _ & H & _);
    [by apply (sample_row_wf 0)|]. by exists r, buf.
Defined.

Lemma row_init_spec_witness :
  row_init (Some [45; 49]) (Some [117]) (Some [109]) (sample_row 3) = (ROW_NEGATIVE_ID, sample_row 3).
Proof.
  assert (row_wf (sample_row 3)) as Hr by (by apply sample_row_wf).
  pose proof (row_init_spec [45; 49] [117] [109] (sample_row 3) Hr) as H.
  destruct (row_init _ _ _ _) as [res row'] eqn:E.
  rewrite bool_decide_false in H by (vm_compute; intuition discriminate).
  rewrite bool_decide_true in H by (vm_compute; reflexivity).
  assert (forall x, 0 < x < 256 -> no_nul [x] /\ Forall is_byte [x]) as Hx
    by (intros x ?; split; repeat constructor; unfold is_byte; lia).
  destruct (Hx 117), (Hx 109); [lia..|]. by destruct H as [-> ->].
Defined.

Lemma row_roundtrip_witness :
  exists buf', row_write_to_buffer (sample_row 3) 4 (replicate 80 0) = Some buf' /\
    row_read_from_buffer 4 buf' (sample_row 8) = Some (sample_row 3).
Proof.
  apply (row_roundtrip (sample_row 3) (sample_row 8) 4 (replicate 80 0));
    [by apply sample_row_wf..|apply Nat.leb_le; vm_compute; reflexivity].
Defined.

(** The session types two rows, looks at them and leaves. *)
Lemma two_sessions_witness :
  let l := [mkInput 5 [117] [109]; mkInput 9 [118] [110]] in
  let answer := [Printf "(%d, %s, %s)" [AInt 5; AStr [117]; AStr [109]];
                 Printf "(%d, %s, %s)" [AInt 9; AStr [118]; AStr [110]]; executed; prompt; bye] in
  exists s', main [[]; []] (process (map insert_line l ++ [select_line; exit_line])) = Exit EXIT_SUCCESS s' /\
    printed s' = [welcome; prompt; executed; prompt; executed; prompt] ++ answer.
Proof.
  intros l answer. set (s := process _). set (t := process [select_line; exit_line]).
  assert (forall k, starting (process k) k) as Hs
    by (intros k; split; [exact good_env_ok|exact init_row_wf ..|reflexivity]).
  destruct (two_sessions [] [] s t l (Hs _) eq_refl eq_refl (Hs _) eq_refl) as (s' & E & Hp & _).
  - repeat constructor; cbn; try lia; try done; by intros [=].
  - cbn. lia.
  - cbn. lia.
  - exists s'. split; [exact E|]. rewrite Hp. reflexivity.
Defined.

(** The root with two keys that three leaves have. *)
Definition sample_inode : list Z :=
  put 38 (le_encode 4 20) (put 30 (le_encode 4 10) (put 6 [2; 0; 0; 0] (replicate 4096 0))).

Definition sample_tree : Db :=
  mkDb good_env [] 0 (mkPager 0 1 (Some sample_inode :: replicate 99 None)) 0 [] [] init_row.

Lemma internal_node_find_child_correct_witness :
  internal_node_find_child 0 15 sample_tree = Ret 1 sample_tree.
Proof.
  assert (inode_keys sample_inode = [10; 20]) as Ek by (vm_compute; reflexivity).
  rewrite (internal_node_find_child_correct sample_tree 0 sample_inode 15); [by rewrite Ek| | |].
  - split_and!; [lia|reflexivity|reflexivity|split; [reflexivity|bytes]].
  - vm_compute. intuition discriminate.
  - rewrite Ek. intros i j a b Hij Ha Hb. destruct i as [|[|i]], j as [|[|j]]; try done; simplify_eq/=; lia.
Defined.
