(* ===== verification/H264Bits.v ===== *)
(** The bit reader of the H.264 analyser, [src/h264/H264Analysis/bs.h], and
    [more_rbsp_data] of [nalu.c].

    A handle keeps its three pointers as offsets into one block of bytes.  What
    it still has to deliver is a list of bits, [pending]; [reads m l a] says that
    the reader [m] consumes exactly the bits [l] and returns [a]. *)

From S2P Require Import Prelude.
#[local] Open Scope Z_scope.

(** [mem] is the block of memory that [start] points to. *)
Record bs_t := mkBs {
  mem : list Z;
  p : Z;
  bs_end : Z;
  bits_left : Z
}.

Definition bs_init (buf : list Z) (size : Z) : bs_t := mkBs buf 0 size 8.

Definition bs_eof (b : bs_t) : bool := bs_end b <=? p b.

Definition bs_clone (src : bs_t) : bs_t :=
  mkBs (drop (Z.to_nat (p src)) (mem src)) 0 (bs_end src - p src) (bits_left src).

(** [*(b->p)] *)
Definition deref : prog bs_t Z := fun b => of_option (zget (mem b) (p b)) b.

Definition set_bits_left (n : Z) (b : bs_t) : bs_t := mkBs (mem b) (p b) (bs_end b) n.
Definition next_byte (b : bs_t) : bs_t := mkBs (mem b) (p b + 1) (bs_end b) 8.

Definition bs_peek_u1 : prog bs_t Z :=
  eof ← gets bs_eof;
  if eof : bool then mret 0 else
  x ← deref;
  n ← gets bits_left;
  mret (Z.land (Z.shiftr x (n - 1)) 1).

Definition bs_read_u1 : prog bs_t Z :=
  n ← gets bits_left;
  modify (set_bits_left (n - 1));;
  eof ← gets bs_eof;
  r ← (if eof : bool then mret 0 else
       x ← deref;
       mret (Z.land (Z.shiftr x (n - 1)) 1));
  (if n - 1 =? 0 then modify next_byte else mret tt);;
  mret r.

(** The loop of [bs_read_u] with [k = n - i] rounds left; a shift by 32 or more
    is undefined. *)
Fixpoint read_u_loop (k : nat) (r : Z) : prog bs_t Z :=
  match k with
  | O => mret r
  | S k' =>
      x ← bs_read_u1;
      require (Z.of_nat k' <? 32);;
      read_u_loop k' (Z.lor r (u32 (Z.shiftl x (Z.of_nat k'))))
  end.

Definition bs_read_u (n : Z) : prog bs_t Z := read_u_loop (Z.to_nat n) 0.

(** The count of leading zeros; [fuel] is [33 - i], and [i < 32] in the guard
    ends the loop before it is used up. *)
Fixpoint leading_zeros (fuel : nat) (i : Z) : prog bs_t Z :=
  match fuel with
  | O => nofuel
  | S f =>
      x ← bs_read_u1;
      eof ← gets bs_eof;
      if (x =? 0) && (i <? 32) && negb eof then leading_zeros f (i + 1) else mret i
  end.

(** [1 << i] is undefined when it does not fit in [int]. *)
Definition bs_read_ue : prog bs_t Z :=
  i ← leading_zeros 33 0;
  r ← bs_read_u i;
  require (i <? 31);;
  mret (u32 (i32 r + (Z.shiftl 1 i - 1))).

Definition bs_read_se : prog bs_t Z :=
  c ← bs_read_ue;
  let r := i32 c in
  mret (if Z.land r 1 =? 0 then - (Z.quot r 2) else Z.quot (r + 1) 2).

Definition bs_read_te (x : Z) : prog bs_t Z :=
  if x =? 1 then r ← bs_read_u1; mret (u32 (1 - r))
  else if 1 <? x then bs_read_ue
  else mret 0.

(** The loop of [more_rbsp_data] over the clone; every round reads a bit, so the
    bits of its bytes bound it. *)
Fixpoint rest_has_one (fuel : nat) : prog bs_t bool :=
  match fuel with
  | O => nofuel
  | S f =>
      eof ← gets bs_eof;
      if eof : bool then mret false else
      x ← bs_read_u1;
      if x =? 1 then mret true else rest_has_one f
  end.

(** The clone is a local variable: the handle itself is not changed. *)
Definition more_rbsp_data : prog bs_t Z := fun b =>
  if bs_eof b then Ret 0 b else
  match bs_peek_u1 b with
  | Ret x _ =>
      if x =? 0 then Ret 1 b else
      match (bs_read_u1;; rest_has_one (S (Z.to_nat (8 * (bs_end b - p b))))) (bs_clone b) with
      | Ret r _ => Ret (if r : bool then 1 else 0) b
      | Exit c _ => Exit c b
      | Undef => Undef
      | NoFuel => NoFuel
      end
  | _ => Undef
  end.

(** * Bits *)

Definition byte_bits (x : Z) : list bool := map (fun k => Z.testbit x (Z.of_nat k)) [7;6;5;4;3;2;1;0]%nat.
Definition bits_of (l : list Z) : list bool := flat_map byte_bits l.

(** The number a list of bits spells, the first bit the highest. *)
Definition bits_val (l : list bool) : Z := fold_left (fun a x => 2 * a + Z.b2z x) l 0.

(** The bits between the position and the end. *)
Definition pending (b : bs_t) : list bool :=
  drop (Z.to_nat (8 - bits_left b)) (bits_of (sub (Z.to_nat (p b)) (Z.to_nat (bs_end b - p b)) (mem b))).

Record bs_wf (b : bs_t) : Prop := {
  wf_p : 0 <= p b;
  wf_end : bs_end b <= Z.of_nat (length (mem b));
  wf_bits : 1 <= bits_left b <= 8
}.

Lemma length_byte_bits x : length (byte_bits x) = 8%nat.
Proof. done. Qed.

Lemma length_bits_of l : length (bits_of l) = (8 * length l)%nat.
Proof.
  induction l as [|x l IH]; [done|]. cbn [bits_of flat_map]. rewrite length_app, length_byte_bits.
  fold (bits_of l). rewrite IH. cbn [length]. lia.
Qed.

Lemma land_1_testbit x n : 0 <= n -> Z.land (Z.shiftr x n) 1 = Z.b2z (Z.testbit x n).
Proof.
  intros Hn. change 1 with (Z.ones 1). rewrite Z.land_ones by lia. change (2 ^ 1) with 2.
  rewrite <- Z.bit0_mod. rewrite Z.shiftr_spec by lia. done.
Qed.

Lemma byte_bits_drop x n :
  1 <= n <= 8 -> drop (Z.to_nat (8 - n)) (byte_bits x) =
    Z.testbit x (n - 1) :: drop (Z.to_nat (8 - (n - 1))) (byte_bits x).
Proof.
  intros H. assert (n = 1 \/ n = 2 \/ n = 3 \/ n = 4 \/ n = 5 \/ n = 6 \/ n = 7 \/ n = 8)
    as [->|[->|[->|[->|[->|[->|[->| ->]]]]]]] by lia; reflexivity.
Qed.

Lemma sub_cons (l : list Z) i n x :
  l !! i = Some x -> sub i (S n) l = x :: sub (S i) n l.
Proof. intros H. unfold sub. by rewrite (drop_S _ _ _ H). Qed.

Lemma pending_eof b : bs_end b <= p b -> pending b = [].
Proof.
  intros H. unfold pending. replace (Z.to_nat (bs_end b - p b)) with 0%nat by lia.
  unfold sub. rewrite take_0. apply drop_nil.
Qed.

Lemma pending_cons b x :
  bs_wf b -> p b < bs_end b -> mem b !! Z.to_nat (p b) = Some x ->
  pending b = drop (Z.to_nat (8 - bits_left b)) (byte_bits x) ++
    bits_of (sub (Z.to_nat (p b + 1)) (Z.to_nat (bs_end b - (p b + 1))) (mem b)).
Proof.
  intros [? ? ?] Hp E. unfold pending.
  replace (Z.to_nat (bs_end b - p b)) with (S (Z.to_nat (bs_end b - (p b + 1)))) by lia.
  replace (Z.to_nat (p b + 1)) with (S (Z.to_nat (p b))) by lia.
  rewrite (sub_cons _ _ _ _ E). cbn [bits_of flat_map].
  rewrite drop_app_le by (rewrite length_byte_bits; lia). done.
Qed.

Lemma pending_nil_iff b : bs_wf b -> pending b = [] <-> bs_eof b = true.
Proof.
  intros Hw. pose proof Hw as [? ? ?]. unfold bs_eof. rewrite Z.leb_le. split; [|apply pending_eof].
  intros E. destruct (Z.le_gt_cases (bs_end b) (p b)) as [|Hp]; [done|].
  destruct (lookup_lt_is_Some_2 (mem b) (Z.to_nat (p b)) ltac:(lia)) as [x Ex].
  rewrite (pending_cons b x Hw Hp Ex), byte_bits_drop in E by lia. done.
Qed.

(** Reading a bit: the first of what is pending, 0 when nothing is. *)
Lemma bs_read_u1_pending b :
  bs_wf b -> exists b', bs_read_u1 b = Ret (Z.b2z (default false (head (pending b)))) b' /\
    bs_wf b' /\ pending b' = tail (pending b).
Proof.
  intros Hw. pose proof Hw as [Hp He Hb]. unfold bs_read_u1.
  step (eq_refl : gets bits_left b = Ret (bits_left b) b).
  set (n := bits_left b) in *. set (b1 := set_bits_left (n - 1) b).
  step (eq_refl : modify (set_bits_left (n - 1)) b = Ret tt b1).
  step (eq_refl : gets bs_eof b1 = Ret (bs_eof b1) b1).
  change (bs_eof b1) with (bs_end b <=? p b).
  assert (forall v q, ((if n - 1 =? 0 then modify next_byte else mret tt);; mret v : prog bs_t Z) q =
    Ret v (if n - 1 =? 0 then next_byte q else q)) as Hlast by (intros; by destruct (n - 1 =? 0)).
  destruct (Z.leb_spec (bs_end b) (p b)) as [H|H].
  - step (eq_refl : (mret 0 : prog bs_t Z) b1 = Ret 0 b1). rewrite Hlast.
    rewrite (pending_eof b H). eexists. split; [reflexivity|].
    destruct (Z.eqb_spec (n - 1) 0); (split; [split; cbn; lia|]); apply pending_eof; cbn; lia.
  - destruct (lookup_lt_is_Some_2 (mem b) (Z.to_nat (p b)) ltac:(lia)) as [x Ex].
    assert (deref b1 = Ret x b1) as Ed.
    { unfold deref. cbn [mem p b1 set_bits_left]. unfold zget.
      rewrite (proj2 (Z.leb_le 0 _)) by lia. by rewrite Ex. }
    rewrite bind_assoc. step Ed.
    step (eq_refl : (mret (Z.land (Z.shiftr x (n - 1)) 1) : prog bs_t Z) b1 = Ret _ b1).
    rewrite Hlast, land_1_testbit by lia.
    rewrite (pending_cons b x Hw H Ex), byte_bits_drop by done. fold n. cbn [app head default tail].
    eexists. split; [reflexivity|]. destruct (Z.eqb_spec (n - 1) 0) as [E|E].
    + split; [split; cbn; lia|]. unfold pending. cbn [p bs_end bits_left mem next_byte b1 set_bits_left].
      rewrite E. reflexivity.
    + split; [split; cbn; lia|]. rewrite (pending_cons b1 x); [done|split; cbn; lia|cbn; lia|done].
Qed.

(** [n] bits of a stream that goes on with zeros. *)
Fixpoint ztake (n : nat) (l : list bool) : list bool :=
  match n with
  | O => []
  | S n' => default false (head l) :: ztake n' (tail l)
  end.

Lemma ztake_app l rest : ztake (length l) (l ++ rest) = l.
Proof. induction l as [|x l IH]; [done|]. simpl. by rewrite IH. Qed.

Lemma drop_tail {A} n (l : list A) : drop n (tail l) = drop (S n) l.
Proof. destruct l; [|done]. simpl. by rewrite drop_nil. Qed.

Lemma length_ztake n l : length (ztake n l) = n.
Proof. revert l. induction n; intros; simpl; [done|]. by rewrite IHn. Qed.

Lemma bits_val_acc l a : fold_left (fun a x => 2 * a + Z.b2z x) l a = a * 2 ^ Z.of_nat (length l) + bits_val l.
Proof.
  unfold bits_val. revert a. induction l as [|x l IH]; intros a; cbn [fold_left length].
  - change (2 ^ Z.of_nat 0) with 1. lia.
  - rewrite IH, (IH (2 * 0 + _)), Nat2Z.inj_succ, Z.pow_succ_r by lia. lia.
Qed.

Lemma bits_val_cons x l : bits_val (x :: l) = Z.b2z x * 2 ^ Z.of_nat (length l) + bits_val l.
Proof. unfold bits_val at 1. cbn [fold_left]. by rewrite bits_val_acc. Qed.

Lemma bits_val_bound l : 0 <= bits_val l < 2 ^ Z.of_nat (length l).
Proof.
  induction l as [|x l IH]; [done|]. rewrite bits_val_cons. cbn [length].
  rewrite Nat2Z.inj_succ, Z.pow_succ_r by apply Nat2Z.is_nonneg. destruct x; cbn [Z.b2z]; lia.
Qed.

Lemma lor_low a b k : 0 <= k -> 0 <= b < 2 ^ k -> Z.lor (a * 2 ^ k) b = a * 2 ^ k + b.
Proof.
  intros Hk Hb. assert (Z.land (a * 2 ^ k) b = 0) as E.
  { apply Z.bits_inj'. intros n Hn. rewrite Z.land_spec, Z.bits_0.
    destruct (Z.lt_ge_cases n k) as [H|H]; [by rewrite Z.mul_pow2_bits_low|].
    destruct (Z.eq_dec b 0) as [->|]; [by rewrite Z.bits_0, andb_false_r|].
    rewrite (Z.bits_above_log2 b n); [apply andb_false_r|lia|].
    apply Z.lt_le_trans with k; [apply Z.log2_lt_pow2; lia|done]. }
  rewrite Z.add_nocarry_lxor by done. symmetry. by apply Z.lxor_lor.
Qed.

Lemma read_u_loop_pending k v b :
  bs_wf b -> (k <= 32)%nat ->
  exists b', read_u_loop k (v * 2 ^ Z.of_nat k) b =
      Ret (v * 2 ^ Z.of_nat k + bits_val (ztake k (pending b))) b' /\
    bs_wf b' /\ pending b' = drop k (pending b).
Proof.
  revert v b. induction k as [|k IH]; intros v b Hw Hk.
  { exists b. cbn [read_u_loop ztake]. split; [|by rewrite drop_0].
    unfold mret, prog_ret. f_equal. change (bits_val []) with 0. lia. }
  destruct (bs_read_u1_pending b Hw) as (b1 & E1 & Hw1 & P1).
  cbn [read_u_loop]. step E1. rewrite (proj2 (Z.ltb_lt _ 32)) by lia.
  step (eq_refl : (require true : prog bs_t unit) b1 = Ret tt b1).
  set (x := default false (head (pending b))) in *.
  assert (0 < 2 ^ Z.of_nat k <= 2 ^ 31) as Hpk by (split; [lia|apply Z.pow_le_mono_r; lia]).
  rewrite Z.shiftl_mul_pow2, u32_id by (destruct x; cbn [Z.b2z]; lia).
  rewrite Nat2Z.inj_succ, Z.pow_succ_r by lia.
  replace (Z.lor _ _) with ((2 * v + Z.b2z x) * 2 ^ Z.of_nat k).
  - destruct (IH (2 * v + Z.b2z x) b1 Hw1 ltac:(lia)) as (b2 & E2 & Hw2 & P2).
    exists b2. rewrite E2, P2, P1. cbn [ztake]. rewrite bits_val_cons, length_ztake.
    fold x. split; [apply (f_equal2 Ret); [ring|done]|]. split; [done|apply drop_tail].
  - replace (v * (2 * 2 ^ Z.of_nat k)) with (v * 2 ^ Z.of_nat (S k))
      by (rewrite Nat2Z.inj_succ, Z.pow_succ_r; lia).
    rewrite lor_low; rewrite ?Nat2Z.inj_succ, ?Z.pow_succ_r; destruct x; cbn [Z.b2z]; lia.
Qed.

(** [bs_read_u] of at most 32 bits always returns: the bits that are pending, and
    zeros when they run out. *)
Lemma bs_read_u_pending n b :
  bs_wf b -> 0 <= n <= 32 ->
  exists b', bs_read_u n b = Ret (bits_val (ztake (Z.to_nat n) (pending b))) b' /\
    bs_wf b' /\ pending b' = drop (Z.to_nat n) (pending b).
Proof.
  intros Hw Hn. exact (read_u_loop_pending (Z.to_nat n) 0 b Hw ltac:(lia)).
Qed.

(** * Readers of exact bits *)

Definition reads {A} (m : prog bs_t A) (bits : list bool) (a : A) : Prop :=
  forall b rest, bs_wf b -> pending b = bits ++ rest ->
  exists b', m b = Ret a b' /\ bs_wf b' /\ pending b' = rest.

Lemma reads_ret {A} (a : A) : reads (mret a) [] a.
Proof. intros b rest Hw E. by exists b. Qed.

Lemma reads_bind {A B} (m : prog bs_t A) (k : A -> prog bs_t B) l1 l2 a r :
  reads m l1 a -> reads (k a) l2 r -> reads (m ≫= k) (l1 ++ l2) r.
Proof.
  intros Hm Hk b rest Hw E. rewrite <- app_assoc in E.
  destruct (Hm b _ Hw E) as (b1 & E1 & Hw1 & P1). destruct (Hk b1 _ Hw1 P1) as (b2 & E2 & Hw2 & P2).
  exists b2. by rewrite (bind_Ret _ _ _ _ _ E1).
Qed.

Lemma reads_u l n : (length l <= 32)%nat -> n = Z.of_nat (length l) -> reads (bs_read_u n) l (bits_val l).
Proof.
  intros H -> b rest Hw E. destruct (bs_read_u_pending (Z.of_nat (length l)) b Hw ltac:(lia)) as (b' & Er & Hw' & P').
  exists b'. rewrite Er, P', E, Nat2Z.id, ztake_app. by rewrite drop_app_length.
Qed.

Lemma reads_u1 (x : bool) : reads bs_read_u1 [x] (Z.b2z x).
Proof.
  intros b rest Hw E. destruct (bs_read_u1_pending b Hw) as (b' & Er & Hw' & P').
  exists b'. by rewrite Er, P', E.
Qed.

(** The [n] bits of a number, the highest first. *)
Fixpoint u_bits (n : nat) (v : Z) : list bool :=
  match n with
  | O => []
  | S n' => Z.testbit v (Z.of_nat n') :: u_bits n' v
  end.

Lemma length_u_bits n v : length (u_bits n v) = n.
Proof. induction n; simpl; congruence. Qed.

Lemma bits_val_u_bits n v : bits_val (u_bits n v) = v mod 2 ^ Z.of_nat n.
Proof.
  induction n as [|n IH]; [by rewrite Z.mod_1_r|].
  cbn [u_bits]. rewrite bits_val_cons, IH, length_u_bits.
  rewrite Nat2Z.inj_succ, Z.pow_succ_r, (Z.mul_comm 2), Z.rem_mul_r by lia.
  rewrite <- Z.shiftr_div_pow2, <- (Z.bit0_mod (Z.shiftr _ _)), Z.shiftr_spec, Z.add_0_l by lia. ring.
Qed.

Lemma reads_u_bits n v k :
  0 <= v < 2 ^ Z.of_nat n -> (n <= 32)%nat -> k = Z.of_nat n -> reads (bs_read_u k) (u_bits n v) v.
Proof.
  intros Hv Hn ->. pose proof (reads_u (u_bits n v) (Z.of_nat n)) as H.
  rewrite length_u_bits, bits_val_u_bits, Z.mod_small in H by done. by apply H.
Qed.

(** ** Exp-Golomb codes *)

(** The code of the standard: [k] zeros, then the [k + 1] bits of [v + 1]. *)
Definition ue_bits (v : Z) : list bool :=
  let k := Z.to_nat (Z.log2 (v + 1)) in replicate k false ++ u_bits (S k) (v + 1).

Definition se_code (v : Z) : Z := if 0 <? v then 2 * v - 1 else -2 * v.
Definition se_bits (v : Z) : list bool := ue_bits (se_code v).

Lemma reads_leading_zeros f i k :
  (k < f)%nat -> 0 <= i -> i + Z.of_nat k <= 32 ->
  reads (leading_zeros f i) (replicate k false ++ [true]) (i + Z.of_nat k).
Proof.
  revert i k. induction f as [|f IH]; intros i k Hk Hi Hik b rest Hw E; [lia|].
  cbn [leading_zeros]. destruct (bs_read_u1_pending b Hw) as (b1 & E1 & Hw1 & P1).
  rewrite E in E1, P1. step E1. step (eq_refl : gets bs_eof b1 = Ret (bs_eof b1) b1).
  destruct k as [|k].
  - exists b1. rewrite Z.add_0_r. by split.
  - cbn [replicate app head tail default Z.b2z] in *. change (Z.b2z (id false) =? 0) with true.
    rewrite (proj2 (Z.ltb_lt i 32)) by lia.
    destruct (bs_eof b1) eqn:Eb.
    { apply pending_nil_iff in Eb; [|done]. rewrite P1 in Eb. by destruct k. }
    cbn [andb negb]. cbv iota. destruct (IH (i + 1) k ltac:(lia) ltac:(lia) ltac:(lia) b1 rest Hw1 P1) as (b2 & E2 & H2).
    exists b2. rewrite E2. split; [f_equal; lia|done].
Qed.

Lemma log2_ue v : 0 <= v < 2 ^ 31 - 1 -> 0 <= Z.log2 (v + 1) < 31.
Proof. intros Hv. split; [apply Z.log2_nonneg|]. apply Z.log2_lt_pow2; lia. Qed.

(** [bs_read_ue] reads back every code of a value below 2^31 - 1. *)
Lemma reads_ue v : 0 <= v < 2 ^ 31 - 1 -> reads bs_read_ue (ue_bits v) v.
Proof.
  intros Hv. pose proof (log2_ue v Hv) as Hk. unfold ue_bits, bs_read_ue.
  set (k := Z.to_nat (Z.log2 (v + 1))).
  pose proof (Z.log2_spec (v + 1) ltac:(lia)) as Hlog.
  rewrite <- (Z2Nat.id (Z.log2 (v + 1))) in Hlog by lia. fold k in Hlog.
  rewrite Z.pow_succ_r in Hlog by lia.
  assert (Z.testbit (v + 1) (Z.of_nat k) = true) as Htop.
  { unfold k. rewrite Z2Nat.id by lia. apply Z.bit_log2. lia. }
  assert (replicate k false ++ u_bits (S k) (v + 1) =
    (replicate k false ++ [true]) ++ u_bits k (v + 1) ++ []) as ->
    by (cbn [u_bits]; by rewrite Htop, app_nil_r, <- app_assoc).
  eapply reads_bind; [apply (reads_leading_zeros 33 0); lia|].
  eapply reads_bind.
  { apply reads_u; rewrite length_u_bits; [lia|done]. }
  rewrite (proj2 (Z.ltb_lt _ 31)) by lia.
  rewrite bits_val_u_bits.
  replace ((v + 1) mod 2 ^ Z.of_nat k) with (v + 1 - 2 ^ Z.of_nat k)
    by (apply Z.mod_unique with 1; lia).
  intros b rest Hw E. exists b. split; [|done].
  step (eq_refl : (require true : prog bs_t unit) b = Ret tt b).
  unfold mret, prog_ret. rewrite Z.add_0_l, i32_id, Z.shiftl_1_l, u32_id by lia. f_equal. lia.
Qed.

(** [bs_read_se] maps the codes 0, 1, 2, 3, 4 .. to 0, 1, -1, 2, -2 .. *)
Lemma reads_se v : - 2 ^ 30 < v < 2 ^ 30 -> reads bs_read_se (se_bits v) v.
Proof.
  intros Hv. unfold bs_read_se, se_bits. rewrite <- (app_nil_r (ue_bits _)).
  assert (0 <= se_code v < 2 ^ 31 - 1) as Hc by (unfold se_code; destruct (Z.ltb_spec 0 v); lia).
  eapply reads_bind; [by apply reads_ue|]. rewrite i32_id by lia.
  intros b rest Hw E. exists b. split; [|done]. unfold mret, prog_ret. f_equal.
  change 1 with (Z.ones 1) at 1. rewrite Z.land_ones by lia. change (2 ^ 1) with 2.
  unfold se_code. destruct (Z.ltb_spec 0 v).
  - replace (2 * v - 1) with (1 + (v - 1) * 2) by lia. rewrite Z_mod_plus_full. cbn [Z.eqb Z.modulo Z.div_eucl].
    change (1 mod 2 =? 0) with false. cbv iota. rewrite Z.quot_div_nonneg by lia.
    replace (1 + (v - 1) * 2 + 1) with (v * 2) by lia. by rewrite Z.div_mul.
  - replace (-2 * v) with ((- v) * 2) by lia. rewrite Z_mod_mult. cbn [Z.eqb].
    rewrite Z.quot_mul by lia. lia.
Qed.

(** The truncated code: one inverted bit when the range is 1. *)
Definition te_bits (x v : Z) : list bool := if x =? 1 then [v =? 0] else ue_bits v.

Lemma reads_te x v :
  0 < x -> 0 <= v <= x -> v < 2 ^ 31 - 1 -> reads (bs_read_te x) (te_bits x v) v.
Proof.
  intros Hx Hv Hb. unfold bs_read_te, te_bits. destruct (Z.eqb_spec x 1) as [->|].
  - rewrite <- (app_nil_r [_]). eapply reads_bind; [apply reads_u1|].
    assert (v = 0 \/ v = 1) as [-> | ->] by lia; [exact (reads_ret 0)|exact (reads_ret 1)].
  - rewrite (proj2 (Z.ltb_lt 1 x)) by lia. apply reads_ue; lia.
Qed.

(** ** [more_rbsp_data] *)

Lemma rest_has_one_pending f b :
  bs_wf b -> (length (pending b) < f)%nat ->
  exists b', rest_has_one f b = Ret (existsb (fun x => x) (pending b)) b'.
Proof.
  revert b. induction f as [|f IH]; intros b Hw Hf; [lia|]. cbn [rest_has_one].
  step (eq_refl : gets bs_eof b = Ret (bs_eof b) b).
  destruct (bs_eof b) eqn:Eb.
  { exists b. by rewrite (proj2 (pending_nil_iff b Hw)). }
  destruct (pending b) as [|x l] eqn:E; [apply pending_nil_iff in E; congruence|].
  destruct (bs_read_u1_pending b Hw) as (b1 & E1 & Hw1 & P1). rewrite E in E1, P1.
  step E1. destruct x; [by exists b1|]. cbn [head default tail] in P1. cbn [length] in Hf.
  destruct (IH b1 Hw1) as (b' & E'); [rewrite P1; lia|]. exists b'.
  change (Z.b2z _ =? 1) with false. cbv iota. by rewrite E', P1.
Qed.

Lemma bs_clone_pending b :
  bs_wf b -> bs_wf (bs_clone b) /\ pending (bs_clone b) = pending b.
Proof.
  intros [? ? ?]. unfold bs_clone, pending. split.
  - split; cbn; [lia| |lia]. rewrite length_drop. lia.
  - cbn [bits_left p bs_end mem]. f_equal. f_equal. rewrite Z.sub_0_r. unfold sub.
    by rewrite drop_0.
Qed.

Lemma bs_peek_u1_pending b x l :
  bs_wf b -> pending b = x :: l -> bs_peek_u1 b = Ret (Z.b2z x) b.
Proof.
  intros Hw E. pose proof Hw as [Hp He Hb]. unfold bs_peek_u1.
  step (eq_refl : gets bs_eof b = Ret (bs_eof b) b).
  destruct (bs_eof b) eqn:Eb; [apply pending_nil_iff in Eb; [congruence|done]|].
  unfold bs_eof in Eb. apply Z.leb_gt in Eb.
  destruct (lookup_lt_is_Some_2 (mem b) (Z.to_nat (p b)) ltac:(lia)) as [y Ey].
  assert (deref b = Ret y b) as Ed.
  { unfold deref, zget. rewrite (proj2 (Z.leb_le 0 _)) by lia. by rewrite Ey. }
  step Ed. step (eq_refl : gets bits_left b = Ret (bits_left b) b).
  unfold mret, prog_ret. f_equal. rewrite land_1_testbit by lia.
  rewrite (pending_cons b y Hw Eb Ey), byte_bits_drop in E by done. by injection E as ->.
Qed.

(** More data follows unless nothing does, or the next bit is the last 1. *)
Definition more_data (l : list bool) : bool :=
  match l with
  | [] => false
  | false :: _ => true
  | true :: t => existsb (fun x => x) t
  end.

Lemma more_rbsp_data_pending b :
  bs_wf b -> more_rbsp_data b = Ret (Z.b2z (more_data (pending b))) b.
Proof.
  intros Hw. unfold more_rbsp_data. destruct (bs_eof b) eqn:Eb.
  { by rewrite (proj2 (pending_nil_iff b Hw)). }
  destruct (pending b) as [|x l] eqn:E; [apply pending_nil_iff in E; congruence|].
  rewrite (bs_peek_u1_pending b x l Hw E). destruct x; [|done].
  change (Z.b2z true =? 0) with false. cbv iota.
  destruct (bs_clone_pending b Hw) as [Hw1 P1].
  destruct (bs_read_u1_pending _ Hw1) as (b2 & E2 & Hw2 & P2). step E2.
  rewrite P1, E in P2. cbn [tail] in P2.
  destruct (rest_has_one_pending (S (Z.to_nat (8 * (bs_end b - p b)))) b2 Hw2) as (b3 & ->).
  - rewrite P2. assert (length (pending b) <= 8 * Z.to_nat (bs_end b - p b))%nat as Hl.
    { unfold pending. rewrite length_drop, length_bits_of. unfold sub. rewrite length_take. lia. }
    rewrite E in Hl. cbn [length] in Hl. lia.
  - rewrite P2. cbn [more_data]. by destruct (existsb _ l).
Qed.

(** In front of the trailing bits, a 1 and any number of zeros, [more_rbsp_data]
    tells whether there is data left. *)
Lemma more_rbsp_data_correct b data k :
  bs_wf b -> pending b = data ++ true :: replicate k false ->
  more_rbsp_data b = Ret (if decide (data = []) then 0 else 1) b.
Proof.
  intros Hw E. rewrite more_rbsp_data_pending, E by done.
  destruct data as [|x data]; cbn [app more_data].
  - assert (existsb (fun x => x) (replicate k false) = false) as -> by (clear E; induction k as [|k IH]; [done|exact IH]). done.
  - rewrite decide_False by done. destruct x; [|done].
    assert (existsb (fun x => x) (data ++ true :: replicate k false) = true) as ->; [|done].
    rewrite existsb_app. cbn [existsb]. by rewrite orb_true_r.
Qed.
