(* ===== verification/H264Nalu.v ===== *)
(** NAL units of the H.264 analyser, [src/h264/H264Analysis/nalu.h] and
    [nalu.c]: the search for start codes, the removal of the emulation
    prevention bytes and the search for the stop bit. *)

From S2P Require Import Prelude.
#[local] Open Scope Z_scope.

Record nalu_t := mkNalu {
  forbidden_zero_bit : Z;
  nal_ref_idc : Z;
  nal_unit_type : Z;
  len : Z;
  buf : list Z
}.

Definition set_len (n : Z) (u : nalu_t) : nalu_t :=
  mkNalu (forbidden_zero_bit u) (nal_ref_idc u) (nal_unit_type u) n (buf u).
Definition set_buf (b : list Z) (u : nalu_t) : nalu_t :=
  mkNalu (forbidden_zero_bit u) (nal_ref_idc u) (nal_unit_type u) (len u) b.

(** ** [find_nal_unit] *)

(** The global [file_buff] and what the pointer arguments point to. *)
Record Scan := mkScan {
  file_buff : list Z;
  nalu : nalu_t;
  curr_nal_start : Z;
  curr_find_index : Z
}.

Definition set_nalu (u : nalu_t) (s : Scan) : Scan :=
  mkScan (file_buff s) u (curr_nal_start s) (curr_find_index s).
Definition set_start (i : Z) (s : Scan) : Scan :=
  mkScan (file_buff s) (nalu s) i (curr_find_index s).
Definition set_index (i : Z) (s : Scan) : Scan :=
  mkScan (file_buff s) (nalu s) (curr_nal_start s) i.

Definition file_byte (i : Z) : prog Scan Z := fun s => of_option (zget (file_buff s) i) s.

(** [file_buff[i] != l[0] || file_buff[i+1] != l[1] || ..], left to right. *)
Fixpoint differs (i : Z) (l : list Z) : prog Scan bool :=
  match l with
  | [] => mret false
  | c :: t => x ← file_byte i; if x =? c then differs (i + 1) t else mret true
  end.

(** [nalu->buf[j] = file_buff[i]] *)
Definition copy_byte (j i : Z) : prog Scan unit :=
  x ← file_byte i;
  s ← gets nalu;
  b ← of_option (zset (buf s) j x);
  modify (set_nalu (set_buf b s)).

Definition set_nalu_len (n : Z) : prog Scan Z :=
  u ← gets nalu;
  modify (set_nalu (set_len n u));;
  mret n.

(** The first loop; [false] is the early return.  The index grows in every round
    until [*i + 3 > buff_size]. *)
Fixpoint find_start (fuel : nat) (buff_size : Z) : prog Scan bool :=
  match fuel with
  | O => nofuel
  | S f =>
      i ← gets curr_find_index;
      d3 ← differs i [0; 0; 1];
      d4 ← (if d3 : bool then differs i [0; 0; 0; 1] else mret false);
      if d4 : bool then
        modify (set_index (i + 1));;
        if buff_size <? i + 1 + 3 then mret false else find_start f buff_size
      else mret true
  end.

(** The second loop; [true] when it met the end of the file. *)
Fixpoint find_end (fuel : nat) (j buff_size : Z) : prog Scan bool :=
  match fuel with
  | O => nofuel
  | S f =>
      i ← gets curr_find_index;
      d0 ← differs i [0; 0; 0];
      d1 ← (if d0 : bool then differs i [0; 0; 1] else mret false);
      if d1 : bool then
        copy_byte j i;;
        modify (set_index (i + 1));;
        if buff_size <=? i + 1 + 3 then
          copy_byte (j + 1) (i + 1);;
          copy_byte (j + 2) (i + 2);;
          copy_byte (j + 3) (i + 3);;
          copy_byte (j + 4) (i + 4);;
          mret true
        else find_end f (j + 1) buff_size
      else mret false
  end.

Definition find_nal_unit (buff_size : Z) : prog Scan Z :=
  i ← gets curr_find_index;
  found ← find_start (S (Z.to_nat (buff_size - i))) buff_size;
  if negb found then set_nalu_len 0
  else
    i ← gets curr_find_index;
    d3 ← differs i [0; 0; 1];
    (if d3 : bool then modify (set_index (i + 1)) else mret tt);;
    i ← gets curr_find_index;
    modify (set_index (i + 3));;
    modify (set_start (i + 3));;
    eof ← find_end (S (Z.to_nat (buff_size - (i + 3)))) 0 buff_size;
    start ← gets curr_nal_start;
    if eof : bool then set_nalu_len (buff_size - start)
    else
      i ← gets curr_find_index;
      set_nalu_len (i - start).

(** ** [nal_to_rbsp] *)

Definition buf_byte (i : Z) : prog nalu_t Z := fun u => of_option (zget (buf u) i) u.

Definition buf_store (j x : Z) : prog nalu_t unit :=
  b ← gets buf;
  b' ← of_option (zset b j x);
  modify (set_buf b').

(** The [for] loop; every round moves [i] on. *)
Fixpoint rbsp_loop (fuel : nat) (i j count nalu_size : Z) : prog nalu_t Z :=
  match fuel with
  | O => nofuel
  | S f =>
      if i <? nalu_size then
        emulation ← (if count =? 2 then x ← buf_byte i; mret (x =? 3) else mret false);
        if (emulation : bool) && (i =? nalu_size - 1) then mret j
        else
          let i := if emulation : bool then i + 1 else i in
          let count := if emulation : bool then 0 else count in
          x ← buf_byte i;
          buf_store j x;;
          y ← buf_byte i;
          rbsp_loop f (i + 1) (j + 1) (if y =? 0 then count + 1 else 0) nalu_size
      else mret j
  end.

Definition nal_to_rbsp : prog nalu_t Z :=
  nalu_size ← gets len;
  rbsp_loop (S (Z.to_nat nalu_size)) 0 0 0 nalu_size.

(** ** [rbsp_to_sodb] *)

Definition ABORT : Z := 134.

(** The [while] loop with [ctr_bit] from the last test; a failing [assert]
    aborts. *)
Fixpoint sodb_loop (fuel : nat) (ctr_bit bitoffset last_byte_pos : Z) : prog nalu_t Z :=
  match fuel with
  | O => nofuel
  | S f =>
      if ctr_bit =? 0 then
        if bitoffset + 1 =? 8 then
          if last_byte_pos =? 1 then exit_with ABORT else
          x ← buf_byte (last_byte_pos - 1 - 1);
          sodb_loop f (Z.land x (Z.shiftl 1 0)) 0 (last_byte_pos - 1)
        else
          x ← buf_byte (last_byte_pos - 1);
          sodb_loop f (Z.land x (Z.shiftl 1 (bitoffset + 1))) (bitoffset + 1) last_byte_pos
      else mret last_byte_pos
  end.

(** Eight rounds for every byte. *)
Definition rbsp_to_sodb : prog nalu_t Z :=
  n ← gets len;
  x ← buf_byte (n - 1);
  sodb_loop (S (8 * Z.to_nat n)) (Z.land x (Z.shiftl 1 0)) 0 (n - 1).

(** * Emulation prevention *)

(** The encoder of the standard (7.3.1): a byte up to 3 after two zeros is
    escaped with 0x03, and so is the end after two zeros. *)
Fixpoint escape (zeros : Z) (l : list Z) : list Z :=
  match l with
  | [] => if zeros =? 2 then [3] else []
  | b :: t =>
      if (zeros =? 2) && (b <=? 3) then 3 :: b :: escape (if b =? 0 then 1 else 0) t
      else b :: escape (if b =? 0 then zeros + 1 else 0) t
  end.

Lemma buf_byte_mid u pre b rest i :
  buf u = pre ++ b :: rest -> i = Z.of_nat (length pre) -> buf_byte i u = Ret b u.
Proof.
  intros E ->. unfold buf_byte. rewrite zget_nat, E, list_lookup_middle by done. done.
Qed.

Lemma buf_store_mid u pre h rest j x :
  buf u = pre ++ h :: rest -> j = Z.of_nat (length pre) ->
  buf_store j x u = Ret tt (set_buf (pre ++ x :: rest) u).
Proof.
  intros E ->. unfold buf_store. step (eq_refl : gets buf u = Ret (buf u) u).
  rewrite zset_nat by (rewrite E, length_app; simpl; lia).
  rewrite E, insert_app_r_alt, Nat.sub_diag by lia. done.
Qed.

(** One round that copies the byte [b] from [i] to [j]. *)
Lemma rbsp_copy (u : nalu_t) pre mid b rest i j :
  buf u = pre ++ mid ++ b :: rest -> j = Z.of_nat (length pre) ->
  i = Z.of_nat (length pre + length mid) ->
  exists mid' u', length mid' = length mid /\ u' = set_buf ((pre ++ [b]) ++ mid' ++ rest) u /\
    buf_byte i u = Ret b u /\ buf_store j b u = Ret tt u' /\ buf_byte i u' = Ret b u'.
Proof.
  intros E -> ->. destruct mid as [|h mid].
  - exists [], (set_buf (pre ++ b :: rest) u). cbn [app length] in *. rewrite Nat.add_0_r.
    split_and!; [done|by rewrite <- app_assoc|by eapply buf_byte_mid|by eapply buf_store_mid|].
    by eapply buf_byte_mid.
  - exists (mid ++ [b]), (set_buf (pre ++ b :: (mid ++ b :: rest)) u). split_and!.
    + rewrite length_app. simpl. lia.
    + by rewrite <- !app_assoc.
    + eapply (buf_byte_mid _ (pre ++ h :: mid) b rest); [by rewrite E, <- app_assoc|].
      rewrite length_app. simpl. lia.
    + by eapply buf_store_mid.
    + eapply (buf_byte_mid _ (pre ++ b :: mid) b rest); [by cbn; rewrite <- app_assoc|].
      rewrite length_app. simpl. lia.
Qed.

Lemma rbsp_loop_escape l u pre mid junk f i j count nalu_size :
  buf u = pre ++ mid ++ escape count l ++ junk -> 0 <= count <= 2 ->
  j = Z.of_nat (length pre) -> i = Z.of_nat (length pre + length mid) ->
  nalu_size = i + Z.of_nat (length (escape count l)) -> (length (escape count l) < f)%nat ->
  exists b', rbsp_loop f i j count nalu_size u = Ret (j + Z.of_nat (length l)) (set_buf b' u) /\
    exists rest, b' = pre ++ l ++ rest.
Proof.
  revert u pre mid f i j count. induction l as [|b l IH]; intros u pre mid f i j count E Hc Hj Hi Hs Hf.
  - destruct f as [|f]; [lia|]. cbn [rbsp_loop escape] in *. exists (buf u).
    split; [|by exists (mid ++ (if count =? 2 then [3] else []) ++ junk)].
    assert (set_buf (buf u) u = u) as -> by (by destruct u). rewrite Z.add_0_r.
    destruct (Z.eqb_spec count 2).
    + cbn [length] in *. rewrite (proj2 (Z.ltb_lt i nalu_size)) by lia.
      rewrite bind_assoc. step (buf_byte_mid u (pre ++ mid) 3 junk i ltac:(by rewrite <- app_assoc)
        ltac:(rewrite length_app; lia)).
      step (eq_refl : (mret (3 =? 3) : prog nalu_t bool) u = Ret true u).
      by rewrite (proj2 (Z.eqb_eq i _)) by lia.
    + cbn [length] in *. by rewrite (proj2 (Z.ltb_ge i nalu_size)) by lia.
  - destruct f as [|f]; [lia|]. cbn [rbsp_loop escape] in *.
    destruct ((count =? 2) && (b <=? 3)) eqn:Ec.
    + apply andb_true_iff in Ec as [->%Z.eqb_eq Hb]. cbn [length app] in *.
      rewrite (proj2 (Z.ltb_lt i nalu_size)) by lia. cbn [Z.eqb Pos.eqb].
      rewrite bind_assoc. step (buf_byte_mid u (pre ++ mid) 3 _ i ltac:(by rewrite <- app_assoc)
        ltac:(rewrite length_app; lia)).
      step (eq_refl : (mret (3 =? 3) : prog nalu_t bool) u = Ret true u).
      rewrite (proj2 (Z.eqb_neq i _)) by lia. cbn [andb].
      destruct (rbsp_copy u pre (mid ++ [3]) b (escape (if b =? 0 then 1 else 0) l ++ junk) (i + 1) j)
        as (mid' & u' & Hm & Eu & E1 & E2 & E3);
        [by rewrite E, <- app_assoc|done|rewrite length_app; simpl; lia|].
      step E1. step E2. step E3. rewrite length_app in Hm. cbn [length] in Hm.
      assert ((if b =? 0 then 0 + 1 else 0) = (if b =? 0 then 1 else 0)) as -> by (by destruct (b =? 0)).
      destruct (IH u' (pre ++ [b]) mid' f (i + 1 + 1) (j + 1) (if b =? 0 then 1 else 0))
        as (b' & -> & rest & Eb); try (rewrite ?length_app; simpl; lia).
      { rewrite Eu. done. }
      { destruct (b =? 0); lia. }
      exists b'. subst u'. split; [apply (f_equal2 Ret); [lia|done]|].
      exists rest. by rewrite Eb, <- app_assoc.
    + cbn [length app] in *. rewrite (proj2 (Z.ltb_lt i nalu_size)) by lia.
      destruct (rbsp_copy u pre mid b (escape (if b =? 0 then count + 1 else 0) l ++ junk) i j)
        as (mid' & u' & Hm & Eu & E1 & E2 & E3); [done..|].
      assert ((if count =? 2 then x ← buf_byte i; mret (x =? 3) else mret false) u = Ret false u) as E0.
      { destruct (count =? 2); [|done]. step E1. unfold mret, prog_ret. f_equal.
        cbn [andb] in Ec. apply Z.leb_gt in Ec. apply Z.eqb_neq. lia. }
      step E0. cbn [andb]. step E1. step E2. step E3.
      destruct (IH u' (pre ++ [b]) mid' f (i + 1) (j + 1) (if b =? 0 then count + 1 else 0))
        as (b' & -> & rest & Eb); try (rewrite ?length_app; simpl; lia).
      { rewrite Eu. done. }
      { destruct (Z.eqb_spec b 0); [|lia]. subst b. destruct (Z.eqb_spec count 2); [done|lia]. }
      exists b'. subst u'. split; [apply (f_equal2 Ret); [lia|done]|].
      exists rest. by rewrite Eb, <- app_assoc.
Qed.

(** [nal_to_rbsp] undoes the encoder, whatever is in the buffer after the unit. *)
Lemma nal_to_rbsp_escape u l junk :
  buf u = escape 0 l ++ junk -> len u = Z.of_nat (length (escape 0 l)) ->
  exists rest, nal_to_rbsp u = Ret (Z.of_nat (length l)) (set_buf (l ++ rest) u).
Proof.
  intros E L. unfold nal_to_rbsp. step (eq_refl : gets len u = Ret (len u) u).
  destruct (rbsp_loop_escape l u [] [] junk (S (Z.to_nat (len u))) 0 0 0 (len u))
    as (b' & E' & rest & ->); try done; try lia.
  exists rest. exact E'.
Qed.

(** * Finding the units of a stream *)

Lemma file_byte_at s (i : nat) x : file_buff s !! i = Some x -> file_byte (Z.of_nat i) s = Ret x s.
Proof. intros E. unfold file_byte. by rewrite zget_nat, E. Qed.

Lemma differs_spec l s (i : nat) :
  (i + length l <= length (file_buff s))%nat ->
  differs (Z.of_nat i) l s = Ret (negb (bool_decide (sub i (length l) (file_buff s) = l))) s.
Proof.
  revert i. induction l as [|c l IH]; intros i H; cbn [length] in *.
  { unfold sub. rewrite take_0. by rewrite bool_decide_true. }
  destruct (lookup_lt_is_Some_2 (file_buff s) i ltac:(lia)) as [x Ex].
  cbn [differs]. step (file_byte_at s i x Ex).
  assert (sub i (S (length l)) (file_buff s) = x :: sub (S i) (length l) (file_buff s)) as ->
    by (unfold sub; by rewrite (drop_S _ _ _ Ex)).
  destruct (Z.eqb_spec x c) as [->|Hne].
  - replace (Z.of_nat i + 1) with (Z.of_nat (S i)) by lia. rewrite IH by lia.
    f_equal. f_equal. apply bool_decide_ext. split; congruence.
  - rewrite bool_decide_false by congruence. done.
Qed.

(** The end of a unit: three zeros, or a start code. *)
Definition boundary (l : list Z) : bool :=
  match l with
  | a :: b :: c :: _ => (a =? 0) && (b =? 0) && ((c =? 0) || (c =? 1))
  | _ => false
  end.

(** The payload of a unit: it ends with a byte that is not zero and holds neither
    three zeros nor a start code. *)
Definition payload (u : list Z) : Prop :=
  (exists t x, u = t ++ [x] /\ x <> 0) /\ forall k, boundary (drop k u) = false.

Lemma boundary_app l r : (3 <= length l)%nat -> boundary (l ++ r) = boundary l.
Proof. destruct l as [|a [|b [|c l]]]; simpl; intros; try lia; done. Qed.

Lemma payload_boundary u rest k :
  payload u -> (k < length u)%nat -> boundary (drop k (u ++ rest)) = false.
Proof.
  intros [(t & x & -> & Hx) Hb] Hk. rewrite drop_app_le by lia.
  rewrite length_app in Hk. cbn [length] in Hk.
  destruct (Nat.le_gt_cases 3 (length (drop k (t ++ [x])))) as [H|H].
  - by rewrite boundary_app.
  - rewrite length_drop, length_app in H. cbn [length] in H.
    rewrite drop_app_le by lia. pose proof (length_drop t k) as L.
    apply Z.eqb_neq in Hx. destruct (drop k t) as [|a [|b [|c l]]]; cbn [length] in L; try lia; simpl.
    + destruct rest as [|? [|? ?]]; [done..|]. by rewrite Hx.
    + destruct rest as [|? ?]; [done|]. by rewrite Hx, andb_false_r.
Qed.

(** The test of the loops, as a test of the bytes. *)
Definition at_end : Z -> prog Scan bool := fun i =>
  d0 ← differs i [0; 0; 0];
  if d0 : bool then differs i [0; 0; 1] else mret false.

Lemma at_end_spec s pre l (i : nat) :
  file_buff s = pre ++ l -> i = length pre -> (3 <= length l)%nat ->
  at_end (Z.of_nat i) s = Ret (negb (boundary l)) s.
Proof.
  intros E -> H. unfold at_end.
  assert (length (file_buff s) = length pre + length l)%nat as L by (by rewrite E, length_app).
  step (differs_spec [0; 0; 0] s (length pre) ltac:(simpl; lia)).
  assert (sub (length pre) 3 (file_buff s) = take 3 l) as E3
    by (unfold sub; by rewrite E, drop_app_length).
  cbn [length]. rewrite E3. destruct l as [|a [|b [|c l]]]; cbn [length] in H; try lia.
  assert (take 3 (a :: b :: c :: l) = [a; b; c]) as Et by (by destruct l).
  rewrite Et. cbn [boundary]. destruct (bool_decide_reflect ([a; b; c] = [0; 0; 0])) as [Eq|Hne].
  - injection Eq as -> -> ->. done.
  - cbn [negb]. cbv iota. cbn [length] in L. rewrite differs_spec by (simpl; lia). cbn [length]. rewrite E3, Et. f_equal. f_equal.
    destruct (Z.eqb_spec a 0), (Z.eqb_spec b 0), (Z.eqb_spec c 0), (Z.eqb_spec c 1); subst;
      simpl; first [by apply bool_decide_true | by apply bool_decide_false; congruence | done].
Qed.

Lemma copy_byte_at s (i : nat) done_ junk x j :
  file_buff s !! i = Some x -> buf (nalu s) = done_ ++ junk -> j = Z.of_nat (length done_) ->
  (0 < length junk)%nat ->
  copy_byte j (Z.of_nat i) s =
    Ret tt (set_nalu (set_buf ((done_ ++ [x]) ++ drop 1 junk) (nalu s)) s).
Proof.
  intros Ex Eb -> Hj. unfold copy_byte. step (file_byte_at s i x Ex).
  step (eq_refl : gets nalu s = Ret (nalu s) s).
  rewrite zset_nat by (rewrite Eb, length_app; lia).
  destruct junk as [|h junk]; [simpl in Hj; lia|].
  rewrite Eb, insert_app_r_alt, Nat.sub_diag, <- app_assoc by lia. done.
Qed.

(** One round of the second loop inside the unit. *)
Lemma find_end_round f s pre x l j buff_size done_ junk :
  file_buff s = pre ++ x :: l -> curr_find_index s = Z.of_nat (length pre) ->
  boundary (x :: l) = false -> (2 <= length l)%nat ->
  buf (nalu s) = done_ ++ junk -> j = Z.of_nat (length done_) -> (0 < length junk)%nat ->
  exists s', s' = set_index (Z.of_nat (S (length pre)))
      (set_nalu (set_buf ((done_ ++ [x]) ++ drop 1 junk) (nalu s)) s) /\
    find_end (S f) j buff_size s =
      (let i := Z.of_nat (length pre) in
       if buff_size <=? i + 1 + 3 then
         copy_byte (j + 1) (i + 1);;
         copy_byte (j + 2) (i + 2);;
         copy_byte (j + 3) (i + 3);;
         copy_byte (j + 4) (i + 4);;
         mret true
       else find_end f (j + 1) buff_size) s'.
Proof.
  intros E Ei Hb Hl Eb Hj Hjk. eexists. split; [reflexivity|]. cbn [find_end].
  step (eq_refl : gets curr_find_index s = Ret (curr_find_index s) s). rewrite Ei.
  pose proof (at_end_spec s pre (x :: l) (length pre) E eq_refl ltac:(simpl; lia)) as Ea.
  rewrite Hb in Ea. unfold at_end in Ea.
  rewrite <- (bind_assoc (differs _ [0; 0; 0])). step Ea. cbn [negb]. cbv iota.
  step (copy_byte_at s (length pre) done_ junk x j
    ltac:(rewrite E; by apply list_lookup_middle) Eb Hj Hjk).
  set (s1 := set_nalu _ s).
  step (eq_refl : modify (set_index (Z.of_nat (length pre) + 1)) s1 =
    Ret tt (set_index (Z.of_nat (length pre) + 1) s1)).
  replace (Z.of_nat (length pre) + 1) with (Z.of_nat (S (length pre))) by lia. done.
Qed.

(** The loop up to a boundary. *)
Lemma find_end_boundary f v s pre post j buff_size done_ junk :
  file_buff s = pre ++ v ++ post -> curr_find_index s = Z.of_nat (length pre) ->
  (forall k, (k < length v)%nat -> boundary (drop k (v ++ post)) = false) -> boundary post = true ->
  Z.of_nat (length pre + length v) + 3 < buff_size ->
  buf (nalu s) = done_ ++ junk -> j = Z.of_nat (length done_) -> (length v <= length junk)%nat ->
  (length v < f)%nat ->
  find_end f j buff_size s =
    Ret false (set_index (Z.of_nat (length pre + length v))
      (set_nalu (set_buf (done_ ++ v ++ drop (length v) junk) (nalu s)) s)).
Proof.
  assert (forall l, boundary l = true -> (3 <= length l)%nat) as H3
    by (intros [|? [|? [|]]]; simpl; try done; lia).
  revert v s pre j done_ junk.
  induction f as [|f IH]; intros v s pre j done_ junk E Ei Hv Hp Hs Eb Hj Hjk Hf; [lia|].
  destruct v as [|x v].
  - cbn [find_end]. step (eq_refl : gets curr_find_index s = Ret (curr_find_index s) s). rewrite Ei.
    pose proof (at_end_spec s pre post (length pre) E eq_refl (H3 _ Hp)) as Ea.
    rewrite Hp in Ea. unfold at_end in Ea. rewrite <- (bind_assoc (differs _ [0; 0; 0])). step Ea.
    cbn [negb length]. cbv iota. unfold mret, prog_ret. f_equal.
    cbn [app]. rewrite drop_0, Nat.add_0_r, <- Ei, <- Eb. by destruct s as [? [] ? ?].
  - cbn [length app] in *. pose proof (H3 _ Hp).
    destruct (find_end_round f s pre x (v ++ post) j buff_size done_ junk) as (s1 & Es & ->); try done.
    { apply (Hv 0%nat). lia. }
    { rewrite length_app. lia. }
    { lia. }
    cbv zeta. rewrite (proj2 (Z.leb_gt buff_size _)) by lia.
    rewrite (IH v s1 (pre ++ [x]) (j + 1) (done_ ++ [x]) (drop 1 junk)).
    + subst s1. cbn [nalu set_nalu set_index buf set_buf file_buff curr_nal_start curr_find_index].
      rewrite drop_drop, length_app, <- app_assoc. cbn [length app].
      replace (length pre + 1 + length v)%nat with (length pre + S (length v))%nat by lia. done.
    + subst s1. cbn. by rewrite E, <- app_assoc.
    + subst s1. cbn [curr_find_index set_index]. rewrite length_app. simpl. lia.
    + intros k Hk. apply (Hv (S k)). lia.
    + done.
    + rewrite length_app. simpl. lia.
    + by subst s1.
    + rewrite length_app. simpl. lia.
    + rewrite length_drop. lia.
    + lia.
Qed.

(** The four copies at the end of the file. *)
Lemma copy_four s pre a b c d l done_ junk i j :
  file_buff s = pre ++ a :: b :: c :: d :: l -> i = Z.of_nat (length pre) ->
  buf (nalu s) = done_ ++ junk -> j = Z.of_nat (length done_) -> (4 <= length junk)%nat ->
  (copy_byte j i;; copy_byte (j + 1) (i + 1);; copy_byte (j + 2) (i + 2);;
   copy_byte (j + 3) (i + 3);; mret true) s =
    Ret true (set_nalu (set_buf (done_ ++ [a; b; c; d] ++ drop 4 junk) (nalu s)) s).
Proof.
  intros E -> Eb -> Hj.
  assert (forall k, file_buff s !! (length pre + k)%nat = (a :: b :: c :: d :: l) !! k) as Hf
    by (intros; by rewrite E, lookup_app_r, Nat.add_sub' by lia).
  replace (Z.of_nat (length pre) + 1) with (Z.of_nat (length pre + 1)) by lia.
  replace (Z.of_nat (length pre) + 2) with (Z.of_nat (length pre + 2)) by lia.
  replace (Z.of_nat (length pre) + 3) with (Z.of_nat (length pre + 3)) by lia.
  pose proof (Hf 0%nat) as F0. rewrite Nat.add_0_r in F0. cbn in F0.
  step (copy_byte_at s (length pre) done_ junk a _ F0 Eb eq_refl ltac:(lia)).
  set (s1 := set_nalu _ s).
  step (copy_byte_at s1 (length pre + 1) (done_ ++ [a]) (drop 1 junk) b (Z.of_nat (length done_) + 1)
    (Hf 1%nat) eq_refl ltac:(rewrite length_app; simpl; lia) ltac:(rewrite length_drop; lia)).
  set (s2 := set_nalu _ s1).
  step (copy_byte_at s2 (length pre + 2) ((done_ ++ [a]) ++ [b]) (drop 1 (drop 1 junk)) c
    (Z.of_nat (length done_) + 2)
    (Hf 2%nat) eq_refl ltac:(rewrite !length_app; simpl; lia) ltac:(rewrite !length_drop; lia)).
  set (s3 := set_nalu _ s2).
  step (copy_byte_at s3 (length pre + 3) (((done_ ++ [a]) ++ [b]) ++ [c]) (drop 1 (drop 1 (drop 1 junk))) d
    (Z.of_nat (length done_) + 3)
    (Hf 3%nat) eq_refl ltac:(rewrite !length_app; simpl; lia) ltac:(rewrite !length_drop; lia)).
  unfold mret, prog_ret. f_equal. unfold s3, s2, s1. rewrite !drop_drop, <- !app_assoc. done.
Qed.

(** The loop up to the end of the file; two bytes after it are copied too. *)
Lemma find_end_eof f v s pre post j buff_size done_ junk :
  file_buff s = pre ++ v ++ post -> curr_find_index s = Z.of_nat (length pre) ->
  (forall k, (k < length v)%nat -> boundary (drop k (v ++ post)) = false) ->
  (3 <= length v)%nat -> (2 <= length post)%nat ->
  buff_size = Z.of_nat (length pre + length v) ->
  buf (nalu s) = done_ ++ junk -> j = Z.of_nat (length done_) -> (length v + 2 <= length junk)%nat ->
  (length v < f)%nat ->
  exists i' extra, find_end f j buff_size s =
      Ret true (set_index i' (set_nalu (set_buf (done_ ++ v ++ extra) (nalu s)) s)) /\
    buff_size - 3 <= i' <= buff_size - 2.
Proof.
  revert v s pre j done_ junk.
  induction f as [|f IH]; intros v s pre j done_ junk E Ei Hv Hl Hp Hs Eb Hj Hjk Hf; [lia|].
  destruct v as [|x v]; [simpl in Hl; lia|]. cbn [length app] in *.
  destruct (find_end_round f s pre x (v ++ post) j buff_size done_ junk) as (s1 & Es & ->); try done;
    [apply (Hv 0%nat); lia|rewrite length_app; lia|lia|].
  cbv zeta.
  assert (file_buff s1 = (pre ++ [x]) ++ v ++ post) as E1 by (subst s1; cbn; by rewrite E, <- app_assoc).
  assert (buf (nalu s1) = (done_ ++ [x]) ++ drop 1 junk) as Eb1 by (by subst s1).
  assert (Z.of_nat (length (pre ++ [x])) = Z.of_nat (length pre) + 1) as Lp by (rewrite length_app; simpl; lia).
  assert (Z.of_nat (length (done_ ++ [x])) = j + 1) as Lj by (rewrite length_app; simpl; lia).
  destruct (Z.leb_spec buff_size (Z.of_nat (length pre) + 1 + 3)).
  - assert (exists a b c d l, v ++ post = a :: b :: c :: d :: l /\ (length v <= 4)%nat) as (a & b & c & d & l & El & Lv).
    { assert (4 <= length (v ++ post))%nat as L4 by (rewrite length_app; lia).
      destruct (v ++ post) as [|a [|b [|c [|d l]]]]; simpl in L4; try lia.
      exists a, b, c, d, l. split; [done|lia]. }
    pose proof (copy_four s1 (pre ++ [x]) a b c d l (done_ ++ [x]) (drop 1 junk)
      (Z.of_nat (length pre) + 1) (j + 1) ltac:(by rewrite E1, El) ltac:(lia) Eb1 ltac:(lia)
      ltac:(rewrite length_drop; lia)) as Ec.
    rewrite <- !Z.add_assoc in Ec. change (1 + 1) with 2 in Ec. change (1 + 2) with 3 in Ec.
    change (1 + 3) with 4 in Ec.
    rewrite Ec. subst s1. cbn [nalu set_nalu set_index buf set_buf file_buff curr_nal_start curr_find_index].
    exists (Z.of_nat (S (length pre))), (drop (length v) [a; b; c; d] ++ drop 4 (drop 1 junk)).
    assert (v = take (length v) [a; b; c; d]) as Ev.
    { rewrite <- (take_app_length v post) at 1. rewrite El.
      change (a :: b :: c :: d :: l) with ([a; b; c; d] ++ l). by rewrite take_app_le by (simpl; lia). }
    assert ((done_ ++ [x]) ++ [a; b; c; d] ++ drop 4 (drop 1 junk) =
      done_ ++ (x :: v) ++ drop (length v) [a; b; c; d] ++ drop 4 (drop 1 junk)) as ->.
    { rewrite Ev at 1. rewrite <- app_assoc. cbn [app]. do 2 f_equal.
      rewrite app_assoc. by rewrite (take_drop (length v) [a; b; c; d]). }
    split; [reflexivity|lia].
  - destruct (IH v s1 (pre ++ [x]) (j + 1) (done_ ++ [x]) (drop 1 junk)) as (i' & extra & -> & Hi');
      try done; try lia.
    + subst s1. cbn [curr_find_index set_index]. lia.
    + intros k Hk. apply (Hv (S k)). lia.
    + rewrite length_drop. lia.
    + exists i', extra. split; [|done]. subst s1. cbn. by rewrite <- app_assoc.
Qed.

Definition start_code (long : bool) : list Z := if long then [0; 0; 0; 1] else [0; 0; 1].

Lemma differs_at l s pre rest (i : Z) :
  file_buff s = pre ++ rest -> i = Z.of_nat (length pre) -> (length l <= length rest)%nat ->
  differs i l s = Ret (negb (bool_decide (take (length l) rest = l))) s.
Proof.
  intros E -> H. rewrite differs_spec by (rewrite E, length_app; lia).
  unfold sub. by rewrite E, drop_app_length.
Qed.

(** The first loop stops at once at a start code, and the index moves behind it. *)
Lemma find_nal_unit_start s pre long rest buff_size :
  file_buff s = pre ++ start_code long ++ rest -> curr_find_index s = Z.of_nat (length pre) ->
  (1 <= length rest)%nat ->
  let i := Z.of_nat (length pre + length (start_code long)) in
  find_nal_unit buff_size s =
    (eof ← find_end (S (Z.to_nat (buff_size - i))) 0 buff_size;
     start ← gets curr_nal_start;
     if eof : bool then set_nalu_len (buff_size - start)
     else i ← gets curr_find_index; set_nalu_len (i - start))
    (set_start i (set_index i s)).
Proof.
  intros E Ei Hr i. unfold find_nal_unit.
  step (eq_refl : gets curr_find_index s = Ret (curr_find_index s) s). rewrite Ei.
  assert (differs (Z.of_nat (length pre)) [0; 0; 1] s = Ret long s) as E3.
  { rewrite (differs_at _ s pre _ _ E eq_refl) by (destruct long; simpl; lia). by destruct long. }
  assert (find_start (S (Z.to_nat (buff_size - Z.of_nat (length pre)))) buff_size s = Ret true s) as Es.
  { cbn [find_start]. step (eq_refl : gets curr_find_index s = Ret (curr_find_index s) s).
    rewrite Ei. step E3. destruct long; [|done].
    step (differs_at [0; 0; 0; 1] s pre _ _ E eq_refl ltac:(simpl; lia)). done. }
  step Es. cbn [negb]. cbv iota.
  step (eq_refl : gets curr_find_index s = Ret (curr_find_index s) s). rewrite Ei. step E3.
  set (s1 := if long then set_index (Z.of_nat (length pre) + 1) s else s).
  assert ((if long then modify (set_index (Z.of_nat (length pre) + 1)) else mret tt : prog Scan unit) s = Ret tt s1)
    as -> % (bind_Ret _ _ _ _ _) by (by destruct long).
  step (eq_refl : gets curr_find_index s1 = Ret (curr_find_index s1) s1).
  assert (curr_find_index s1 + 3 = i) as ->.
  { unfold s1, i. destruct long; cbn [curr_find_index set_index start_code length]; [|rewrite Ei]; lia. }
  step (eq_refl : modify (set_index i) s1 = Ret tt (set_index i s1)).
  step (eq_refl : modify (set_start i) (set_index i s1) = Ret tt (set_start i (set_index i s1))).
  unfold s1. by destruct long.
Qed.

(** What [find_nal_unit] leaves when it has found the unit [u]. *)
Record found (s s' : Scan) (u : list Z) (start idx : Z) : Prop := {
  fd_file : file_buff s' = file_buff s;
  fd_start : curr_nal_start s' = start;
  fd_index : curr_find_index s' = idx;
  fd_len : len (nalu s') = Z.of_nat (length u);
  fd_buf : exists junk, buf (nalu s') = u ++ junk
}.

(** A unit between two start codes is found whole, and the index is left at the
    next start code. *)
Lemma find_nal_unit_inner s pre long u post buff_size :
  file_buff s = pre ++ start_code long ++ u ++ post -> curr_find_index s = Z.of_nat (length pre) ->
  payload u -> boundary post = true -> (length u <= length (buf (nalu s)))%nat ->
  let i := Z.of_nat (length pre + length (start_code long)) in
  i + Z.of_nat (length u) + 3 < buff_size ->
  exists s', find_nal_unit buff_size s = Ret (Z.of_nat (length u)) s' /\
    found s s' u i (i + Z.of_nat (length u)) /\ length (buf (nalu s')) = length (buf (nalu s)).
Proof.
  intros E Ei Hu Hp Hb i Hs.
  assert (1 <= length (u ++ post))%nat as H1.
  { rewrite length_app. destruct Hu as [(t & x & -> & _) _]. rewrite length_app. simpl. lia. }
  rewrite (find_nal_unit_start s pre long (u ++ post) buff_size E Ei H1). fold i.
  set (s1 := set_start i (set_index i s)).
  pose proof (find_end_boundary (S (Z.to_nat (buff_size - i))) u s1 (pre ++ start_code long) post 0 buff_size []
    (buf (nalu s)) ltac:(by cbn; rewrite E, <- app_assoc) ltac:(cbn; by rewrite length_app)
    (fun k => payload_boundary u post k Hu) Hp) as Ef.
  rewrite length_app in Ef. specialize (Ef ltac:(lia) eq_refl eq_refl Hb ltac:(lia)). step Ef.
  set (s2 := set_index _ _). step (eq_refl : gets curr_nal_start s2 = Ret i s2). cbv iota.
  step (eq_refl : gets curr_find_index s2 = Ret (curr_find_index s2) s2).
  assert (curr_find_index s2 - i = Z.of_nat (length u)) as -> by (cbn; lia).
  eexists. split; [reflexivity|]. cbn [app]. split.
  - split; [done|done|cbn; lia|done|by eexists].
  - cbn. rewrite length_app, length_drop. lia.
Qed.

(** The last unit of a stream, of at least three bytes, is found whole too; the
    index is left so that the next call finds nothing. *)
Lemma find_nal_unit_last s pre long u post buff_size :
  file_buff s = pre ++ start_code long ++ u ++ post -> curr_find_index s = Z.of_nat (length pre) ->
  payload u -> (3 <= length u)%nat -> (2 <= length post)%nat ->
  (length u + 2 <= length (buf (nalu s)))%nat ->
  let i := Z.of_nat (length pre + length (start_code long)) in
  buff_size = i + Z.of_nat (length u) ->
  exists s' idx, find_nal_unit buff_size s = Ret (Z.of_nat (length u)) s' /\
    found s s' u i idx /\ buff_size - 3 <= idx <= buff_size - 2.
Proof.
  intros E Ei Hu H3 Hp Hb i Hs.
  assert (1 <= length (u ++ post))%nat as H1 by (rewrite length_app; lia).
  rewrite (find_nal_unit_start s pre long (u ++ post) buff_size E Ei H1). fold i.
  set (s1 := set_start i (set_index i s)).
  destruct (find_end_eof (S (Z.to_nat (buff_size - i))) u s1 (pre ++ start_code long) post 0 buff_size []
    (buf (nalu s))) as (idx & extra & Ef & Hi); try done; try (rewrite ?length_app; lia).
  { by cbn; rewrite E, <- app_assoc. }
  { cbn. by rewrite length_app. }
  { intros k. by apply payload_boundary. }
  step Ef. set (s2 := set_index _ _). step (eq_refl : gets curr_nal_start s2 = Ret i s2). cbv iota.
  replace (buff_size - i) with (Z.of_nat (length u)) by lia.
  exists (set_nalu (set_len (Z.of_nat (length u)) (nalu s2)) s2), idx. split; [reflexivity|].
  split; [|done]. split; [done..|by eexists].
Qed.

(** Behind the last unit there is no other: the call returns 0. *)
Lemma find_nal_unit_none s pre u post buff_size :
  file_buff s = pre ++ u ++ post -> payload u -> (3 <= length u)%nat -> (2 <= length post)%nat ->
  buff_size = Z.of_nat (length pre + length u) ->
  buff_size - 3 <= curr_find_index s <= buff_size - 2 ->
  exists s', find_nal_unit buff_size s = Ret 0 s' /\ file_buff s' = file_buff s.
Proof.
  intros E Hu H3 Hp Hs Hi. unfold find_nal_unit.
  step (eq_refl : gets curr_find_index s = Ret (curr_find_index s) s).
  set (i := curr_find_index s) in *. set (k := Z.to_nat (i - Z.of_nat (length pre))).
  assert (file_buff s = (pre ++ take k u) ++ drop k u ++ post) as Ek.
  { rewrite E, <- app_assoc. by rewrite (app_assoc (take k u)), take_drop. }
  assert (i = Z.of_nat (length (pre ++ take k u))) as Eik
    by (rewrite length_app, length_take; unfold k; lia).
  pose proof (payload_boundary u post k Hu ltac:(unfold k; lia)) as Hbk.
  rewrite drop_app_le in Hbk by (unfold k; lia).
  assert (4 <= length (drop k u ++ post))%nat as L by (rewrite length_app, length_drop; unfold k; lia).
  destruct (drop k u ++ post) as [|a [|b [|c [|d l]]]]; simpl in L; try lia.
  assert (find_start (S (Z.to_nat (buff_size - i))) buff_size s = Ret false (set_index (i + 1) s)) as Es.
  { cbn [find_start]. step (eq_refl : gets curr_find_index s = Ret i s).
    step (differs_at [0; 0; 1] s _ _ i Ek Eik ltac:(simpl; lia)).
    assert (a <> 0 \/ b <> 0 \/ (c <> 0 /\ c <> 1)) as Hne.
    { cbn [boundary] in Hbk. lia. }
    rewrite bool_decide_false by (intros Hc; injection Hc; lia). cbn [negb]. cbv iota.
    step (differs_at [0; 0; 0; 1] s _ _ i Ek Eik ltac:(simpl; lia)).
    rewrite bool_decide_false by (intros Hc; injection Hc; lia). cbn [negb]. cbv iota.
    step (eq_refl : modify (set_index (i + 1)) s = Ret tt (set_index (i + 1) s)).
    by rewrite (proj2 (Z.ltb_lt buff_size _)) by lia. }
  step Es. eexists. split; [reflexivity|done].
Qed.
