(* ===== verification/H264Parset.v ===== *)
(** Parameter sets of the H.264 analyser: [src/h264/H264Analysis/parset.h],
    [parset.c] and the enumerations of [frame.h].

    The fields are [int]s that take the result of a read.  A structure starts as
    zeros ([calloc]), so a field that the syntax does not hold is 0. *)

From S2P Require Import Prelude H264Bits.
#[local] Open Scope Z_scope.

(** ** Reads into [int] fields *)

Definition u (n : Z) : prog bs_t Z := r ← bs_read_u n; mret (i32 r).
Definition ue : prog bs_t Z := r ← bs_read_ue; mret (i32 r).
Definition se : prog bs_t Z := bs_read_se.

(** [for (i = i0; ..; i++) arr[i] = read();] for [n] rounds; a store outside the
    array is undefined behaviour. *)
Fixpoint read_array (rd : prog bs_t Z) (n : nat) (i : Z) (arr : list Z) : prog bs_t (list Z) :=
  match n with
  | O => mret arr
  | S n' =>
      v ← rd;
      arr ← of_option (zset arr i v);
      read_array rd n' (i + 1) arr
  end.

Definition YUV_4_4_4 : Z := 3.
Definition MAX_CPB_CNT : nat := 32.

(** ** The structures *)

Record hrd_parameters_t := mkHrd {
  cpb_cnt_minus1 : Z;
  bit_rate_scale : Z;
  cpb_size_scale : Z;
  bit_rate_value_minus1 : list Z;
  cpb_size_value_minus1 : list Z;
  cbr_flag : list Z;
  initial_cpb_removal_delay_length_minus1 : Z;
  cpb_removal_delay_length_minus1 : Z;
  dpb_output_delay_length_minus1 : Z;
  time_offset_length : Z
}.

Definition hrd_zero : hrd_parameters_t :=
  mkHrd 0 0 0 (replicate MAX_CPB_CNT 0) (replicate MAX_CPB_CNT 0) (replicate MAX_CPB_CNT 0) 0 0 0 0.

Record vui_parameters_t := mkVui {
  aspect_ratio_info_present_flag : Z;
  aspect_ratio_idc : Z;
  sar_width : Z;
  sar_height : Z;
  overscan_info_present_flag : Z;
  overscan_appropriate_flag : Z;
  video_signal_type_present_flag : Z;
  video_format : Z;
  video_full_range_flag : Z;
  colour_description_present_flag : Z;
  colour_primaries : Z;
  transfer_characteristics : Z;
  matrix_coefficients : Z;
  chroma_loc_info_present_flag : Z;
  chroma_sample_loc_type_top_field : Z;
  chroma_sample_loc_type_bottom_field : Z;
  timing_info_present_flag : Z;
  num_units_in_tick : Z;
  time_scale : Z;
  fixed_frame_rate_flag : Z;
  nal_hrd_parameters_present_flag : Z;
  nal_hrd_parameters : hrd_parameters_t;
  vcl_hrd_parameters_present_flag : Z;
  vcl_hrd_parameters : hrd_parameters_t;
  low_delay_hrd_flag : Z;
  pic_struct_present_flag : Z;
  bitstream_restriction_flag : Z;
  motion_vectors_over_pic_boundaries_flag : Z;
  max_bytes_per_pic_denom : Z;
  max_bits_per_mb_denom : Z;
  log2_max_mv_length_horizontal : Z;
  log2_max_mv_length_vertical : Z;
  max_num_reorder_frames : Z;
  max_dec_frame_buffering : Z
}.

Definition vui_zero : vui_parameters_t :=
  mkVui 0 0 0 0 0 0 0 0 0 0 0 0 0 0 0 0 0 0 0 0 0 hrd_zero 0 hrd_zero 0 0 0 0 0 0 0 0 0 0.

(** The scaling lists of a parameter set: [present[12]], [4x4[6][16]] with its
    flags and [8x8[6][64]] with its flags. *)
Record scaling_lists := mkScaling {
  scaling_list_present_flag : list Z;
  ScalingList4x4 : list (list Z);
  UseDefaultScalingMatrix4x4Flag : list Z;
  ScalingList8x8 : list (list Z);
  UseDefaultScalingMatrix8x8Flag : list Z
}.

Definition scaling_zero : scaling_lists :=
  mkScaling (replicate 12 0) (replicate 6 (replicate 16 0)) (replicate 6 0)
            (replicate 6 (replicate 64 0)) (replicate 6 0).

Record sps_t := mkSps {
  profile_idc : Z;
  constraint_set0_flag : Z;
  constraint_set1_flag : Z;
  constraint_set2_flag : Z;
  constraint_set3_flag : Z;
  constraint_set4_flag : Z;
  constraint_set5_flag : Z;
  reserved_zero_2bits : Z;
  level_idc : Z;
  seq_parameter_set_id : Z;
  chroma_format_idc : Z;
  separate_colour_plane_flag : Z;
  bit_depth_luma_minus8 : Z;
  bit_depth_chroma_minus8 : Z;
  qpprime_y_zero_transform_bypass_flag : Z;
  seq_scaling_matrix_present_flag : Z;
  seq_scaling : scaling_lists;
  log2_max_frame_num_minus4 : Z;
  pic_order_cnt_type : Z;
  log2_max_pic_order_cnt_lsb_minus4 : Z;
  delta_pic_order_always_zero_flag : Z;
  offset_for_non_ref_pic : Z;
  offset_for_top_to_bottom_field : Z;
  num_ref_frames_in_pic_order_cnt_cycle : Z;
  offset_for_ref_frame : list Z;
  max_num_ref_frames : Z;
  gaps_in_frame_num_value_allowed_flag : Z;
  pic_width_in_mbs_minus1 : Z;
  pic_height_in_map_units_minus1 : Z;
  frame_mbs_only_flag : Z;
  mb_adaptive_frame_field_flag : Z;
  direct_8x8_inference_flag : Z;
  frame_cropping_flag : Z;
  frame_crop_left_offset : Z;
  frame_crop_right_offset : Z;
  frame_crop_top_offset : Z;
  frame_crop_bottom_offset : Z;
  vui_parameters_present_flag : Z;
  vui_parameters : vui_parameters_t
}.

Definition sps_zero : sps_t :=
  mkSps 0 0 0 0 0 0 0 0 0 0 0 0 0 0 0 0 scaling_zero 0 0 0 0 0 0 0 (replicate 256 0)
        0 0 0 0 0 0 0 0 0 0 0 0 0 vui_zero.

(** [slice_group_id] is a heap block of [sgi_bytes] bytes that holds [int]s. *)
Record pps_t := mkPps {
  pic_parameter_set_id : Z;
  pps_seq_parameter_set_id : Z;
  entropy_coding_mode_flag : Z;
  bottom_field_pic_order_in_frame_present_flag : Z;
  num_slice_groups_minus1 : Z;
  slice_group_map_type : Z;
  run_length_minus1 : list Z;
  top_left : list Z;
  bottom_right : list Z;
  slice_group_change_direction_flag : Z;
  slice_group_change_rate_minus1 : Z;
  pic_size_in_map_units_minus1 : Z;
  slice_group_id : option (list Z);
  num_ref_idx_l0_default_active_minus1 : Z;
  num_ref_idx_l1_default_active_minus1 : Z;
  weighted_pred_flag : Z;
  weighted_bipred_idc : Z;
  pic_init_qp_minus26 : Z;
  pic_init_qs_minus26 : Z;
  chroma_qp_index_offset : Z;
  deblocking_filter_control_present_flag : Z;
  constrained_intra_pred_flag : Z;
  redundant_pic_cnt_present_flag : Z;
  transform_8x8_mode_flag : Z;
  pic_scaling_matrix_present_flag : Z;
  pic_scaling : scaling_lists;
  second_chroma_qp_index_offset : Z
}.

Definition pps_zero : pps_t :=
  mkPps 0 0 0 0 0 0 (replicate 8 0) (replicate 8 0) (replicate 8 0) 0 0 0 None
        0 0 0 0 0 0 0 0 0 0 0 0 scaling_zero 0.

(** A C integer as a condition. *)
Definition nz (x : Z) : bool := negb (x =? 0).

(** ** Scaling lists *)

Fixpoint scaling_loop (n : nat) (j lastScale nextScale flag : Z) (l : list Z)
  : prog bs_t (list Z * Z) :=
  match n with
  | O => mret (l, flag)
  | S n' =>
      '(nextScale, flag) ← (if nz nextScale then
          deltaScale ← se;
          let next := Z.rem (lastScale + deltaScale + 256) 256 in
          mret (next, if (j =? 0) && (next =? 0) then 1 else 0)
        else mret (nextScale, flag));
      let v := if nextScale =? 0 then lastScale else nextScale in
      l ← of_option (zset l j v);
      scaling_loop n' (j + 1) v nextScale flag l
  end.

(** The list and the flag behind the two pointers. *)
Definition scaling_list (scalingList : list Z) (sizeOfScalingList : nat) (flag : Z)
  : prog bs_t (list Z * Z) :=
  scaling_loop sizeOfScalingList 0 8 8 flag scalingList.

(** One round of the loops over the lists; [first8x8] is what the caller takes off
    the index of an 8x8 flag: 6 in the SPS, 0 in the PPS. *)
Definition parse_scaling_list (first8x8 i : Z) (s : scaling_lists) : prog bs_t scaling_lists :=
  present ← u 1;
  flags ← of_option (zset (scaling_list_present_flag s) i present);
  let s := mkScaling flags (ScalingList4x4 s) (UseDefaultScalingMatrix4x4Flag s)
             (ScalingList8x8 s) (UseDefaultScalingMatrix8x8Flag s) in
  if nz present then
    if i <? 6 then
      l ← of_option (zget (ScalingList4x4 s) i);
      d ← of_option (zget (UseDefaultScalingMatrix4x4Flag s) i);
      '(l, d) ← scaling_list l 16 d;
      ls ← of_option (zset (ScalingList4x4 s) i l);
      ds ← of_option (zset (UseDefaultScalingMatrix4x4Flag s) i d);
      mret (mkScaling flags ls ds (ScalingList8x8 s) (UseDefaultScalingMatrix8x8Flag s))
    else
      l ← of_option (zget (ScalingList8x8 s) (i - 6));
      d ← of_option (zget (UseDefaultScalingMatrix8x8Flag s) (i - first8x8));
      '(l, d) ← scaling_list l 64 d;
      ls ← of_option (zset (ScalingList8x8 s) (i - 6) l);
      ds ← of_option (zset (UseDefaultScalingMatrix8x8Flag s) (i - first8x8) d);
      mret (mkScaling flags (ScalingList4x4 s) (UseDefaultScalingMatrix4x4Flag s) ls ds)
  else mret s.

Fixpoint parse_scaling_lists (first8x8 : Z) (n : nat) (i : Z) (s : scaling_lists)
  : prog bs_t scaling_lists :=
  match n with
  | O => mret s
  | S n' => s ← parse_scaling_list first8x8 i s; parse_scaling_lists first8x8 n' (i + 1) s
  end.

(** ** VUI parameters *)

(** The loop of [parse_vui_hrd_parameters] over its three arrays. *)
Fixpoint parse_cpb (n : nat) (i : Z) (r s c : list Z) : prog bs_t (list Z * list Z * list Z) :=
  match n with
  | O => mret (r, s, c)
  | S n' =>
      v ← ue;
      r ← of_option (zset r i v);
      v ← ue;
      s ← of_option (zset s i v);
      v ← u 1;
      c ← of_option (zset c i v);
      parse_cpb n' (i + 1) r s c
  end.

Definition parse_vui_hrd_parameters (hrd : hrd_parameters_t) : prog bs_t hrd_parameters_t :=
  cpb_cnt ← ue;
  rate_scale ← u 4;
  size_scale ← u 4;
  '(rates, sizes, cbrs) ← parse_cpb (Z.to_nat (cpb_cnt + 1)) 0
     (bit_rate_value_minus1 hrd) (cpb_size_value_minus1 hrd) (cbr_flag hrd);
  initial ← u 5;
  removal ← u 5;
  output ← u 5;
  offset ← u 5;
  mret (mkHrd cpb_cnt rate_scale size_scale rates sizes cbrs initial removal output offset).

(** [if (flag) field = read();], the field staying 0 otherwise. *)
Definition when_u (c : bool) (n : Z) : prog bs_t Z := if c then u n else mret 0.
Definition when_ue (c : bool) : prog bs_t Z := if c then ue else mret 0.
Definition when_se (c : bool) : prog bs_t Z := if c then se else mret 0.

Definition parse_vui_parameters : prog bs_t vui_parameters_t :=
  aspect ← u 1;
  idc ← when_u (nz aspect) 8;
  let sar := nz aspect && (idc =? 255) in
  sar_w ← when_u sar 16;
  sar_h ← when_u sar 16;
  overscan ← u 1;
  appropriate ← when_u (nz overscan) 1;
  signal ← u 1;
  format ← when_u (nz signal) 3;
  full_range ← when_u (nz signal) 1;
  colour ← when_u (nz signal) 1;
  let description := nz signal && nz colour in
  primaries ← when_u description 8;
  transfer ← when_u description 8;
  matrix ← when_u description 8;
  chroma_loc ← u 1;
  loc_top ← when_ue (nz chroma_loc);
  loc_bottom ← when_ue (nz chroma_loc);
  timing ← u 1;
  units ← when_u (nz timing) 32;
  scale ← when_u (nz timing) 32;
  fixed_rate ← when_u (nz timing) 1;
  nal_hrd ← u 1;
  nal_params ← (if nz nal_hrd then parse_vui_hrd_parameters hrd_zero else mret hrd_zero);
  vcl_hrd ← u 1;
  vcl_params ← (if nz vcl_hrd then parse_vui_hrd_parameters hrd_zero else mret hrd_zero);
  low_delay ← when_u (nz nal_hrd || nz vcl_hrd) 1;
  pic_struct ← u 1;
  restriction ← u 1;
  let r := nz restriction in
  vectors ← when_u r 1;
  bytes_denom ← when_ue r;
  bits_denom ← when_ue r;
  mv_h ← when_ue r;
  mv_v ← when_ue r;
  reorder ← when_ue r;
  buffering ← when_ue r;
  mret (mkVui aspect idc sar_w sar_h overscan appropriate signal format full_range colour
    primaries transfer matrix chroma_loc loc_top loc_bottom timing units scale fixed_rate
    nal_hrd nal_params vcl_hrd vcl_params low_delay pic_struct restriction vectors
    bytes_denom bits_denom mv_h mv_v reorder buffering).

(** ** Sequence parameter sets *)

Definition high_profile (profile : Z) : bool :=
  existsb (Z.eqb profile) [100; 110; 122; 244; 44; 83; 86; 118; 128; 138; 139; 134; 135].

Definition parse_sps_syntax_element : prog bs_t sps_t :=
  profile ← u 8;
  set0 ← u 1;
  set1 ← u 1;
  set2 ← u 1;
  set3 ← u 1;
  set4 ← u 1;
  set5 ← u 1;
  reserved ← u 2;
  level ← u 8;
  sps_id ← ue;
  let high := high_profile profile in
  chroma ← when_ue high;
  separate ← when_u (high && (chroma =? YUV_4_4_4)) 1;
  luma_depth ← when_ue high;
  chroma_depth ← when_ue high;
  bypass ← when_u high 1;
  matrix ← when_u high 1;
  scaling ← (if high && nz matrix then
      parse_scaling_lists 6 (if negb (chroma =? YUV_4_4_4) then 8 else 12) 0 scaling_zero
    else mret scaling_zero);
  log2_frame_num ← ue;
  poc_type ← ue;
  log2_poc_lsb ← when_ue (poc_type =? 0);
  let poc1 := poc_type =? 1 in
  always_zero ← when_u poc1 1;
  non_ref ← when_se poc1;
  top_bottom ← when_se poc1;
  cycle ← when_ue poc1;
  offsets ← (if poc1 then read_array se (Z.to_nat cycle) 0 (replicate 256 0)
             else mret (replicate 256 0));
  ref_frames ← ue;
  gaps ← u 1;
  width ← ue;
  height ← ue;
  frame_mbs_only ← u 1;
  adaptive ← when_u (negb (nz frame_mbs_only)) 1;
  direct ← u 1;
  cropping ← u 1;
  crop_left ← when_ue (nz cropping);
  crop_right ← when_ue (nz cropping);
  crop_top ← when_ue (nz cropping);
  crop_bottom ← when_ue (nz cropping);
  vui_present ← u 1;
  vui ← (if nz vui_present then parse_vui_parameters else mret vui_zero);
  mret (mkSps profile set0 set1 set2 set3 set4 set5 reserved level sps_id chroma separate
    luma_depth chroma_depth bypass matrix scaling log2_frame_num poc_type log2_poc_lsb
    always_zero non_ref top_bottom cycle offsets ref_frames gaps width height frame_mbs_only
    adaptive direct cropping crop_left crop_right crop_top crop_bottom vui_present vui).

(** ** Picture parameter sets *)

(** The branches on [slice_group_map_type]. *)
Record slice_groups := mkGroups {
  sg_type : Z;
  sg_run_length : list Z;
  sg_top_left : list Z;
  sg_bottom_right : list Z;
  sg_direction : Z;
  sg_rate : Z;
  sg_pic_size : Z;
  sg_ids : option (list Z)
}.

Fixpoint parse_rectangles (n : nat) (i : Z) (tl br : list Z) : prog bs_t (list Z * list Z) :=
  match n with
  | O => mret (tl, br)
  | S n' =>
      v ← ue;
      tl ← of_option (zset tl i v);
      v ← ue;
      br ← of_option (zset br i v);
      parse_rectangles n' (i + 1) tl br
  end.

Definition group_id_bits (num_groups_minus1 : Z) : Z :=
  if 4 <? num_groups_minus1 + 1 then 3 else if 2 <? num_groups_minus1 + 1 then 2 else 1.

Definition EXIT_CALLOC : Z := 255.

(** [calloc(n, 1)] as an array of [int]: the whole [int]s of its bytes. *)
Definition calloc_bytes (calloc_ok : Z -> bool) (n : Z) : prog bs_t (list Z) :=
  if calloc_ok n then mret (replicate (Z.to_nat (n / 4)) 0) else exit_with EXIT_CALLOC.

Definition parse_slice_groups (calloc_ok : Z -> bool) (num : Z) : prog bs_t slice_groups :=
  let eight := replicate 8 0 in
  if 0 <? num then
    type ← ue;
    if type =? 0 then
      runs ← read_array ue (Z.to_nat (num + 1)) 0 eight;
      mret (mkGroups type runs eight eight 0 0 0 None)
    else if type =? 2 then
      '(tl, br) ← parse_rectangles (Z.to_nat num) 0 eight eight;
      mret (mkGroups type eight tl br 0 0 0 None)
    else if (type =? 3) || (type =? 4) || (type =? 5) then
      direction ← u 1;
      rate ← ue;
      mret (mkGroups type eight eight eight direction rate 0 None)
    else if type =? 6 then
      size ← ue;
      ids ← calloc_bytes calloc_ok (size + 1);
      ids ← read_array (u (group_id_bits num)) (Z.to_nat (size + 1)) 0 ids;
      mret (mkGroups type eight eight eight 0 0 size (Some ids))
    else mret (mkGroups type eight eight eight 0 0 0 None)
  else mret (mkGroups 0 eight eight eight 0 0 0 None).

(** [sets] is [Sequence_Parameters_Set_Array]. *)
Definition parse_pps_syntax_element (sets : list sps_t) (calloc_ok : Z -> bool) : prog bs_t pps_t :=
  pps_id ← ue;
  sps_id ← ue;
  entropy ← u 1;
  bottom_field ← u 1;
  groups ← ue;
  sg ← parse_slice_groups calloc_ok groups;
  l0 ← ue;
  l1 ← ue;
  weighted ← u 1;
  bipred ← u 2;
  qp ← se;
  qs ← se;
  chroma_qp ← se;
  deblocking ← u 1;
  constrained ← u 1;
  redundant ← u 1;
  more ← more_rbsp_data;
  '(transform, matrix, scaling, second) ← (if nz more then
      transform ← u 1;
      matrix ← u 1;
      scaling ← (if nz matrix then
          sps ← of_option (zget sets sps_id);
          let cycle := 6 + (if negb (chroma_format_idc sps =? YUV_4_4_4) then 2 else 6) * transform in
          parse_scaling_lists 0 (Z.to_nat cycle) 0 scaling_zero
        else mret scaling_zero);
      second ← se;
      mret (transform, matrix, scaling, second)
    else mret (0, 0, scaling_zero, chroma_qp));
  mret (mkPps pps_id sps_id entropy bottom_field groups (sg_type sg) (sg_run_length sg)
    (sg_top_left sg) (sg_bottom_right sg) (sg_direction sg) (sg_rate sg) (sg_pic_size sg) (sg_ids sg)
    l0 l1 weighted bipred qp qs chroma_qp deblocking constrained redundant
    transform matrix scaling second).
