(* ===== verification/H264Syntax.v ===== *)
(** The syntax tables of the standard as encoders, and the parameter set parsers
    of [parset.c] as their inverses. *)

From S2P Require Import Prelude H264Bits H264Parset.
#[local] Open Scope Z_scope.

(** ** Fields *)

Definition opt (c : bool) (l : list bool) : list bool := if c then l else [].

(** A field that is there when [c] holds and is 0 otherwise. *)
Definition fit_u (n : nat) (c : bool) (v : Z) : Prop := if c then 0 <= v < 2 ^ Z.of_nat n else v = 0.
Definition fit_i32 (c : bool) (v : Z) : Prop := if c then - 2 ^ 31 <= v < 2 ^ 31 else v = 0.
Definition fit_ue (c : bool) (v : Z) : Prop := if c then 0 <= v < 2 ^ 31 - 1 else v = 0.
Definition fit_se (c : bool) (v : Z) : Prop := if c then - 2 ^ 30 < v < 2 ^ 30 else v = 0.

Lemma reads_map {A B} (m : prog bs_t A) (f : A -> B) l a b :
  reads m l a -> f a = b -> reads (a ← m; mret (f a)) l b.
Proof.
  intros H <-. rewrite <- (app_nil_r l). eapply reads_bind; [exact H|]. apply reads_ret.
Qed.

Lemma reads_field_u n v : (n <= 31)%nat -> fit_u n true v -> reads (u (Z.of_nat n)) (u_bits n v) v.
Proof.
  intros Hn Hv. unfold u. cbn [fit_u] in Hv. eapply reads_map.
  - by apply reads_u_bits; [exact Hv|lia|].
  - apply i32_id. assert (2 ^ Z.of_nat n <= 2 ^ 31) by (apply Z.pow_le_mono_r; lia). lia.
Qed.

Lemma reads_field_u32 v : fit_i32 true v -> reads (u 32) (u_bits 32 v) v.
Proof.
  intros Hv. cbn [fit_i32] in Hv. unfold u.
  assert (u_bits 32 v = u_bits 32 (u32 v)) as ->.
  { assert (forall n, (n <= 32)%nat -> u_bits n v = u_bits n (u32 v)) as H; [|by apply H].
    induction n as [|n IH]; intros Hn; [done|]. cbn [u_bits]. rewrite IH by lia. f_equal.
    unfold u32. symmetry. apply Z.mod_pow2_bits_low. lia. }
  eapply reads_map; [apply reads_u_bits; [apply u32_bound|lia|done]|].
  rewrite i32_u32. apply i32_id. lia.
Qed.

Lemma reads_field_ue v : fit_ue true v -> reads ue (ue_bits v) v.
Proof. intros Hv. cbn [fit_ue] in Hv. eapply reads_map; [by apply reads_ue|]. apply i32_id. lia. Qed.

Lemma reads_field_se v : fit_se true v -> reads se (se_bits v) v.
Proof. apply reads_se. Qed.

Lemma reads_when_u n c v :
  (n <= 31)%nat -> fit_u n c v -> reads (when_u c (Z.of_nat n)) (opt c (u_bits n v)) v.
Proof.
  intros Hn Hv. destruct c; [by apply reads_field_u|]. cbn in Hv. subst v. apply reads_ret.
Qed.

Lemma reads_when_u32 c v : fit_i32 c v -> reads (when_u c 32) (opt c (u_bits 32 v)) v.
Proof. intros Hv. destruct c; [by apply reads_field_u32|]. cbn in Hv. subst v. apply reads_ret. Qed.

Lemma reads_when_ue c v : fit_ue c v -> reads (when_ue c) (opt c (ue_bits v)) v.
Proof. intros Hv. destruct c; [by apply reads_field_ue|]. cbn in Hv. subst v. apply reads_ret. Qed.

Lemma reads_when_se c v : fit_se c v -> reads (when_se c) (opt c (se_bits v)) v.
Proof. intros Hv. destruct c; [by apply reads_field_se|]. cbn in Hv. subst v. apply reads_ret. Qed.

Lemma reads_if {A} (c : bool) (m : prog bs_t A) l a d :
  (c = true -> reads m l a) -> (c = false -> a = d) ->
  reads (if c then m else mret d) (opt c l) a.
Proof. intros H1 H2. destruct c; [by apply H1|]. rewrite H2 by done. apply reads_ret. Qed.

(** One step of a parser: the field in front, found by the shape of the read and
    of the code; its range is an assumption. *)
Ltac small := apply Nat.leb_le; reflexivity.
Ltac read_field :=
  match goal with
  | |- reads (u _) (u_bits ?k _) _ => apply (reads_field_u k); [small|assumption]
  | |- reads ue _ _ => apply reads_field_ue; assumption
  | |- reads se _ _ => apply reads_field_se; assumption
  | |- reads (when_u _ 32) _ _ => apply reads_when_u32; assumption
  | |- reads (when_u _ _) (opt _ (u_bits ?k _)) _ => apply (reads_when_u k); [small|assumption]
  | |- reads (when_ue _) _ _ => apply reads_when_ue; assumption
  | |- reads (when_se _) _ _ => apply reads_when_se; assumption
  end.
Ltac next_field := eapply reads_bind; [read_field|cbv beta zeta].

(** ** Arrays: the values read, then the zeros of the allocation *)

Definition arr_ok (P : Z -> Prop) (n m : nat) (arr : list Z) : Prop :=
  (n <= m)%nat /\ exists vals, length vals = n /\ Forall P vals /\ arr = vals ++ replicate (m - n) 0.

Lemma zset_fill (pre : list Z) (m : nat) i v :
  i = Z.of_nat (length pre) ->
  zset (pre ++ replicate (S m) 0) i v = Some ((pre ++ [v]) ++ replicate m 0).
Proof.
  intros ->. rewrite zset_nat by (rewrite length_app, length_replicate; lia).
  rewrite insert_app_r_alt, Nat.sub_diag, <- app_assoc by lia. done.
Qed.

Lemma reads_of_option {A B} (o : option A) a (k : A -> prog bs_t B) l b :
  o = Some a -> reads (k a) l b -> reads (of_option o ≫= k) l b.
Proof. intros -> H. change l with ([] ++ l). eapply reads_bind; [apply reads_ret|exact H]. Qed.

Lemma reads_array_aux rd (enc : Z -> list bool) (P : Z -> Prop) vals pre m i :
  (forall v, P v -> reads rd (enc v) v) -> Forall P vals -> (length vals <= m)%nat ->
  i = Z.of_nat (length pre) ->
  reads (read_array rd (length vals) i (pre ++ replicate m 0)) (flat_map enc vals)
    (pre ++ vals ++ replicate (m - length vals) 0).
Proof.
  intros Hrd Hv. revert pre m i. induction Hv as [|v vals Hp _ IH]; intros pre m i Hm Hi.
  - cbn [length read_array flat_map app]. rewrite Nat.sub_0_r. apply reads_ret.
  - cbn [length read_array flat_map app] in *. destruct m as [|m]; [lia|].
    eapply reads_bind; [by apply Hrd|].
    eapply reads_of_option; [by apply zset_fill|].
    specialize (IH (pre ++ [v]) m (i + 1)). rewrite <- !app_assoc in *. cbn [app] in IH.
    apply IH; [lia|]. rewrite length_app. simpl. lia.
Qed.

Lemma reads_array rd enc P n m arr :
  (forall v, P v -> reads rd (enc v) v) -> arr_ok P n m arr ->
  reads (read_array rd n 0 (replicate m 0)) (flat_map enc (take n arr)) arr.
Proof.
  intros Hrd (Hm & vals & L & Hv & ->). rewrite take_app_le, take_ge by lia.
  pose proof (reads_array_aux rd enc P vals [] m 0 Hrd Hv ltac:(lia) eq_refl) as H.
  rewrite L in H. exact H.
Qed.

(** ** HRD parameters (E.1.2) *)

Definition cpb_bits (rsc : Z * Z * Z) : list bool :=
  let '(r, s, c) := rsc in ue_bits r ++ ue_bits s ++ u_bits 1 c.

Definition cpb_ok (rsc : Z * Z * Z) : Prop :=
  let '(r, s, c) := rsc in fit_ue true r /\ fit_ue true s /\ fit_u 1 true c.

(** The schedules in the three arrays. *)
Definition hrd_cpbs (h : hrd_parameters_t) : list (Z * Z * Z) :=
  let n := Z.to_nat (cpb_cnt_minus1 h + 1) in
  zip (zip (take n (bit_rate_value_minus1 h)) (take n (cpb_size_value_minus1 h))) (take n (cbr_flag h)).

Definition hrd_bits (h : hrd_parameters_t) : list bool :=
  concat [ue_bits (cpb_cnt_minus1 h); u_bits 4 (bit_rate_scale h); u_bits 4 (cpb_size_scale h);
    flat_map cpb_bits (hrd_cpbs h);
    u_bits 5 (initial_cpb_removal_delay_length_minus1 h); u_bits 5 (cpb_removal_delay_length_minus1 h);
    u_bits 5 (dpb_output_delay_length_minus1 h); u_bits 5 (time_offset_length h)].

(** At most 32 schedules: the bound of the arrays, which the code does not test. *)
Record hrd_ok (h : hrd_parameters_t) : Prop := {
  hrd_cnt : 0 <= cpb_cnt_minus1 h < 32;
  hrd_scales : fit_u 4 true (bit_rate_scale h) /\ fit_u 4 true (cpb_size_scale h);
  hrd_arrays : exists cpbs, length cpbs = Z.to_nat (cpb_cnt_minus1 h + 1) /\ Forall cpb_ok cpbs /\
    let z := replicate (32 - length cpbs) 0 in
    bit_rate_value_minus1 h = map (fun x => x.1.1) cpbs ++ z /\
    cpb_size_value_minus1 h = map (fun x => x.1.2) cpbs ++ z /\
    cbr_flag h = map (fun x => x.2) cpbs ++ z;
  hrd_lengths : fit_u 5 true (initial_cpb_removal_delay_length_minus1 h) /\
    fit_u 5 true (cpb_removal_delay_length_minus1 h) /\
    fit_u 5 true (dpb_output_delay_length_minus1 h) /\ fit_u 5 true (time_offset_length h)
}.

Lemma reads_cpb_aux cpbs p1 p2 p3 m i :
  Forall cpb_ok cpbs -> (length cpbs <= m)%nat ->
  i = Z.of_nat (length p1) -> length p2 = length p1 -> length p3 = length p1 ->
  let z := replicate (m - length cpbs) 0 in
  reads (parse_cpb (length cpbs) i (p1 ++ replicate m 0) (p2 ++ replicate m 0) (p3 ++ replicate m 0))
    (flat_map cpb_bits cpbs)
    (p1 ++ map (fun x => x.1.1) cpbs ++ z, p2 ++ map (fun x => x.1.2) cpbs ++ z,
     p3 ++ map (fun x => x.2) cpbs ++ z).
Proof.
  intros Hv. revert p1 p2 p3 m i. induction Hv as [|[[r s] c] cpbs (Hr & Hs & Hc) _ IH];
    intros p1 p2 p3 m i Hm Hi H2 H3.
  - cbn [length parse_cpb flat_map map app]. rewrite Nat.sub_0_r. apply reads_ret.
  - cbn [length parse_cpb flat_map map app cpb_bits fst snd] in *. destruct m as [|m]; [lia|].
    rewrite <- !app_assoc.
    eapply reads_bind; [by apply reads_field_ue|]. eapply reads_of_option; [by apply zset_fill|].
    eapply reads_bind; [by apply reads_field_ue|]. eapply reads_of_option; [apply zset_fill; lia|].
    eapply reads_bind; [by apply (reads_field_u 1); [lia|]|]. eapply reads_of_option; [apply zset_fill; lia|].
    specialize (IH (p1 ++ [r]) (p2 ++ [s]) (p3 ++ [c]) m (i + 1) ltac:(lia)).
    rewrite !length_app in IH. cbn [length] in IH. specialize (IH ltac:(lia) ltac:(lia) ltac:(lia)).
    rewrite <- !app_assoc in *. exact IH.
Qed.

Lemma hrd_cpbs_eq h cpbs :
  length cpbs = Z.to_nat (cpb_cnt_minus1 h + 1) ->
  bit_rate_value_minus1 h = map (fun x => x.1.1) cpbs ++ replicate (32 - length cpbs) 0 ->
  cpb_size_value_minus1 h = map (fun x => x.1.2) cpbs ++ replicate (32 - length cpbs) 0 ->
  cbr_flag h = map (fun x => x.2) cpbs ++ replicate (32 - length cpbs) 0 ->
  hrd_cpbs h = cpbs.
Proof.
  intros L E1 E2 E3. unfold hrd_cpbs. rewrite <- L, E1, E2, E3.
  rewrite !take_app_le, !take_ge by (rewrite length_map; lia).
  clear. induction cpbs as [|[[r s] c] cpbs IH]; [done|]. simpl. by rewrite IH.
Qed.

Lemma reads_hrd h : hrd_ok h -> reads (parse_vui_hrd_parameters hrd_zero) (hrd_bits h) h.
Proof.
  intros [Hc (H1 & H2) (cpbs & L & Hv & E1 & E2 & E3) (H3 & H4 & H5 & H6)].
  pose proof (hrd_cpbs_eq h cpbs L E1 E2 E3) as Eh.
  unfold parse_vui_hrd_parameters, hrd_bits. cbn [concat].
  eapply reads_bind; [apply reads_field_ue; cbn; lia|]. do 2 next_field.
  rewrite Eh, <- L. eapply reads_bind.
  { apply (reads_cpb_aux cpbs [] [] [] 32 0 Hv ltac:(lia)); done. }
  cbv beta iota. do 4 next_field.
  cbn [app]. rewrite <- E1, <- E2, <- E3. destruct h. apply reads_ret.
Qed.

(** ** VUI parameters (E.1.1) *)

Section Vui.
Variable v : vui_parameters_t.

Definition has_sar : bool := nz (aspect_ratio_info_present_flag v) && (aspect_ratio_idc v =? 255).
Definition has_signal : bool := nz (video_signal_type_present_flag v).
Definition has_colour : bool := has_signal && nz (colour_description_present_flag v).
Definition has_loc : bool := nz (chroma_loc_info_present_flag v).
Definition has_timing : bool := nz (timing_info_present_flag v).
Definition has_nal : bool := nz (nal_hrd_parameters_present_flag v).
Definition has_vcl : bool := nz (vcl_hrd_parameters_present_flag v).
Definition has_restriction : bool := nz (bitstream_restriction_flag v).

Definition vui_bits : list bool := concat
  [u_bits 1 (aspect_ratio_info_present_flag v);
   opt (nz (aspect_ratio_info_present_flag v)) (u_bits 8 (aspect_ratio_idc v));
   opt has_sar (u_bits 16 (sar_width v)); opt has_sar (u_bits 16 (sar_height v));
   u_bits 1 (overscan_info_present_flag v);
   opt (nz (overscan_info_present_flag v)) (u_bits 1 (overscan_appropriate_flag v));
   u_bits 1 (video_signal_type_present_flag v);
   opt has_signal (u_bits 3 (video_format v)); opt has_signal (u_bits 1 (video_full_range_flag v));
   opt has_signal (u_bits 1 (colour_description_present_flag v));
   opt has_colour (u_bits 8 (colour_primaries v));
   opt has_colour (u_bits 8 (transfer_characteristics v));
   opt has_colour (u_bits 8 (matrix_coefficients v));
   u_bits 1 (chroma_loc_info_present_flag v);
   opt has_loc (ue_bits (chroma_sample_loc_type_top_field v));
   opt has_loc (ue_bits (chroma_sample_loc_type_bottom_field v));
   u_bits 1 (timing_info_present_flag v);
   opt has_timing (u_bits 32 (num_units_in_tick v)); opt has_timing (u_bits 32 (time_scale v));
   opt has_timing (u_bits 1 (fixed_frame_rate_flag v));
   u_bits 1 (nal_hrd_parameters_present_flag v); opt has_nal (hrd_bits (nal_hrd_parameters v));
   u_bits 1 (vcl_hrd_parameters_present_flag v); opt has_vcl (hrd_bits (vcl_hrd_parameters v));
   opt (has_nal || has_vcl) (u_bits 1 (low_delay_hrd_flag v));
   u_bits 1 (pic_struct_present_flag v); u_bits 1 (bitstream_restriction_flag v);
   opt has_restriction (u_bits 1 (motion_vectors_over_pic_boundaries_flag v));
   opt has_restriction (ue_bits (max_bytes_per_pic_denom v));
   opt has_restriction (ue_bits (max_bits_per_mb_denom v));
   opt has_restriction (ue_bits (log2_max_mv_length_horizontal v));
   opt has_restriction (ue_bits (log2_max_mv_length_vertical v));
   opt has_restriction (ue_bits (max_num_reorder_frames v));
   opt has_restriction (ue_bits (max_dec_frame_buffering v))].

(** Every field is in the range of its descriptor, or 0 when it is absent. *)
Record vui_ok : Prop := {
  vk_aspect : fit_u 1 true (aspect_ratio_info_present_flag v) /\
    fit_u 8 (nz (aspect_ratio_info_present_flag v)) (aspect_ratio_idc v) /\
    fit_u 16 has_sar (sar_width v) /\ fit_u 16 has_sar (sar_height v);
  vk_overscan : fit_u 1 true (overscan_info_present_flag v) /\
    fit_u 1 (nz (overscan_info_present_flag v)) (overscan_appropriate_flag v);
  vk_signal : fit_u 1 true (video_signal_type_present_flag v) /\
    fit_u 3 has_signal (video_format v) /\ fit_u 1 has_signal (video_full_range_flag v) /\
    fit_u 1 has_signal (colour_description_present_flag v);
  vk_colour : fit_u 8 has_colour (colour_primaries v) /\
    fit_u 8 has_colour (transfer_characteristics v) /\ fit_u 8 has_colour (matrix_coefficients v);
  vk_loc : fit_u 1 true (chroma_loc_info_present_flag v) /\
    fit_ue has_loc (chroma_sample_loc_type_top_field v) /\
    fit_ue has_loc (chroma_sample_loc_type_bottom_field v);
  vk_timing : fit_u 1 true (timing_info_present_flag v) /\
    fit_i32 has_timing (num_units_in_tick v) /\ fit_i32 has_timing (time_scale v) /\
    fit_u 1 has_timing (fixed_frame_rate_flag v);
  vk_nal : fit_u 1 true (nal_hrd_parameters_present_flag v) /\
    (has_nal = true -> hrd_ok (nal_hrd_parameters v)) /\
    (has_nal = false -> nal_hrd_parameters v = hrd_zero);
  vk_vcl : fit_u 1 true (vcl_hrd_parameters_present_flag v) /\
    (has_vcl = true -> hrd_ok (vcl_hrd_parameters v)) /\
    (has_vcl = false -> vcl_hrd_parameters v = hrd_zero);
  vk_low : fit_u 1 (has_nal || has_vcl) (low_delay_hrd_flag v);
  vk_struct : fit_u 1 true (pic_struct_present_flag v) /\ fit_u 1 true (bitstream_restriction_flag v);
  vk_restriction : fit_u 1 has_restriction (motion_vectors_over_pic_boundaries_flag v) /\
    fit_ue has_restriction (max_bytes_per_pic_denom v) /\
    fit_ue has_restriction (max_bits_per_mb_denom v) /\
    fit_ue has_restriction (log2_max_mv_length_horizontal v) /\
    fit_ue has_restriction (log2_max_mv_length_vertical v) /\
    fit_ue has_restriction (max_num_reorder_frames v) /\
    fit_ue has_restriction (max_dec_frame_buffering v)
}.

(** [parse_vui_parameters] reads back every well-formed structure. *)
Lemma reads_vui : vui_ok -> reads parse_vui_parameters vui_bits v.
Proof.
  intros []. destruct_and?. unfold parse_vui_parameters, vui_bits. cbn [concat].
  do 21 next_field.
  eapply reads_bind; [apply reads_if; [intros; apply reads_hrd; auto|assumption]|cbv beta].
  next_field.
  eapply reads_bind; [apply reads_if; [intros; apply reads_hrd; auto|assumption]|cbv beta].
  do 10 next_field.
  destruct v. apply reads_ret.
Qed.
End Vui.

(** ** Scaling lists (7.3.2.1.1.1) *)

(** The change of scale that leads from one value to the next, modulo 256. *)
Definition delta (from to : Z) : Z := (to - from + 128) mod 256 - 128.

(** The explicit values; a shorter list is ended by the change that leads to 0. *)
Fixpoint scaling_bits (last : Z) (vals : list Z) (room : nat) : list bool :=
  match vals with
  | v :: t => se_bits (delta last v) ++ scaling_bits v t (room - 1)
  | [] => opt (0 <? room)%nat (se_bits (delta last 0))
  end.

(** The last value goes on to the end of the list. *)
Fixpoint extend (last : Z) (vals : list Z) (room : nat) : list Z :=
  match vals with
  | v :: t => v :: extend v t (room - 1)
  | [] => replicate room last
  end.

Lemma delta_range a b : - 128 <= delta a b < 128.
Proof. unfold delta. pose proof (Z.mod_pos_bound (b - a + 128) 256). lia. Qed.

Lemma delta_next a b : 0 < a < 256 -> 0 <= b < 256 -> Z.rem (a + delta a b + 256) 256 = b.
Proof.
  intros Ha Hb. pose proof (delta_range a b). rewrite Z.rem_mod_nonneg by lia. unfold delta.
  replace (a + _ + 256) with ((b - a + 128) mod 256 + (a + 128)) by lia.
  rewrite Zplus_mod_idemp_l. replace (b - a + 128 + (a + 128)) with (b + 1 * 256) by lia.
  rewrite Z_mod_plus_full. by apply Z.mod_small.
Qed.

Lemma zset_next (pre rest : list Z) h i v :
  i = Z.of_nat (length pre) -> zset (pre ++ h :: rest) i v = Some ((pre ++ [v]) ++ rest).
Proof.
  intros ->. rewrite zset_nat by (rewrite length_app; simpl; lia).
  rewrite insert_app_r_alt, Nat.sub_diag, <- app_assoc by lia. done.
Qed.

(** After the terminator the loop repeats the last value. *)
Lemma reads_scaling_tail n j last flag pre rest :
  length rest = n -> j = Z.of_nat (length pre) ->
  reads (scaling_loop n j last 0 flag (pre ++ rest)) [] (pre ++ replicate n last, flag).
Proof.
  revert j pre rest. induction n as [|n IH]; intros j pre rest L Hj.
  - destruct rest; [|done]. rewrite app_nil_r. cbn [replicate]. rewrite app_nil_r. apply reads_ret.
  - destruct rest as [|h rest]; [done|]. cbn [scaling_loop]. change (nz 0) with false. cbv iota.
    change (@nil bool) with (@nil bool ++ @nil bool). eapply reads_bind; [apply reads_ret|]. cbv beta iota zeta.
    change (0 =? 0) with true. cbv iota.
    eapply reads_of_option; [by apply zset_next|].
    specialize (IH (j + 1) (pre ++ [last]) rest). rewrite <- !app_assoc in IH. rewrite <- app_assoc.
    cbn [replicate]. apply IH; [by injection L|]. rewrite length_app. simpl. lia.
Qed.

Lemma reads_scaling_loop vals n j last flag pre rest :
  Forall (fun v => 0 < v < 256) vals -> (length vals <= n)%nat -> length rest = n ->
  j = Z.of_nat (length pre) -> 0 < last < 256 ->
  reads (scaling_loop n j last last flag (pre ++ rest)) (scaling_bits last vals n)
    (pre ++ extend last vals n,
     if decide (n = 0%nat) then flag
     else if decide (j = 0 /\ vals = []) then 1 else 0).
Proof.
  intros Hv. revert n j last flag pre rest. induction Hv as [|v vals Hb Hv IH];
    intros n j last flag pre rest Hl L Hj Hlast; (destruct n as [|n]; [|destruct rest as [|h rest]; [done|]]).
  - destruct rest; [|done]. cbn [extend replicate scaling_bits scaling_loop opt Nat.ltb Nat.leb].
    rewrite app_nil_r. apply reads_ret.
  - cbn [scaling_bits extend scaling_loop opt]. change (0 <? S n)%nat with true. cbn [opt].
    unfold nz. rewrite (proj2 (Z.eqb_neq last 0)) by lia. cbn [negb]. cbv iota.
    rewrite <- (app_nil_r (se_bits _)). eapply reads_bind.
    { eapply reads_map; [apply reads_se; pose proof (delta_range last 0); lia|reflexivity]. }
    cbv beta iota zeta. rewrite delta_next by lia. change (0 =? 0) with true. cbv iota.
    eapply reads_of_option; [by apply zset_next|].
    rewrite (decide_False (P := S n = 0%nat)) by done.
    assert ((if (j =? 0) && true then 1 else 0) = (if decide (j = 0 /\ @nil Z = []) then 1 else 0)) as ->.
    { rewrite andb_true_r. case_decide as E; destruct (Z.eqb_spec j 0); tauto. }
    pose proof (reads_scaling_tail n (j + 1) last
      (if decide (j = 0 /\ @nil Z = []) then 1 else 0) (pre ++ [last]) rest) as H.
    rewrite <- !app_assoc in H. rewrite <- app_assoc. cbn [replicate]. apply H; [by injection L|].
    rewrite length_app. simpl. lia.
  - cbn [length] in Hl. lia.
  - cbn [scaling_bits extend scaling_loop length] in *.
    unfold nz. rewrite (proj2 (Z.eqb_neq last 0)) by lia. cbn [negb]. cbv iota.
    eapply reads_bind.
    { eapply reads_map; [apply reads_se; pose proof (delta_range last v); lia|reflexivity]. }
    cbv beta iota zeta. rewrite delta_next by lia.
    rewrite (proj2 (Z.eqb_neq v 0)) by lia. rewrite andb_false_r. cbv iota.
    eapply reads_of_option; [by apply zset_next|].
    specialize (IH n (j + 1) v 0 (pre ++ [v]) rest ltac:(lia) ltac:(by injection L)
      ltac:(rewrite length_app; simpl; lia) Hb).
    rewrite <- !app_assoc in IH. rewrite <- app_assoc. rewrite Nat.sub_succ, Nat.sub_0_r.
    rewrite (decide_False (P := j + 1 = 0 /\ _)) in IH by lia.
    rewrite (decide_False (P := S n = 0%nat)) by done.
    rewrite (decide_False (P := j = 0 /\ _)) by (by intros []).
    by destruct (decide (n = 0%nat)).
Qed.

(** ** The lists of a parameter set *)

Record scaling_shape (s : scaling_lists) : Prop := {
  sh_present : length (scaling_list_present_flag s) = 12%nat;
  sh_4x4 : length (ScalingList4x4 s) = 6%nat /\ Forall (fun l => length l = 16%nat) (ScalingList4x4 s);
  sh_f4x4 : length (UseDefaultScalingMatrix4x4Flag s) = 6%nat;
  sh_8x8 : length (ScalingList8x8 s) = 6%nat /\ Forall (fun l => length l = 64%nat) (ScalingList8x8 s);
  sh_f8x8 : length (UseDefaultScalingMatrix8x8Flag s) = 6%nat
}.

Definition list_size (i : nat) : nat := if (i <? 6)%nat then 16 else 64.

(** An absent list, or the explicit values of one. *)
Definition entry_bits (i : nat) (e : option (list Z)) : list bool :=
  match e with
  | None => u_bits 1 0
  | Some vals => u_bits 1 1 ++ scaling_bits 8 vals (list_size i)
  end.

Definition entry_ok (i : nat) (e : option (list Z)) : Prop :=
  match e with
  | None => True
  | Some vals => Forall (fun v => 0 < v < 256) vals /\ (length vals <= list_size i)%nat
  end.

(** What list [i] becomes. *)
Definition put_scaling (i : nat) (e : option (list Z)) (s : scaling_lists) : scaling_lists :=
  match e with
  | None => mkScaling (<[i := 0]> (scaling_list_present_flag s)) (ScalingList4x4 s)
      (UseDefaultScalingMatrix4x4Flag s) (ScalingList8x8 s) (UseDefaultScalingMatrix8x8Flag s)
  | Some vals =>
      let flags := <[i := 1]> (scaling_list_present_flag s) in
      let default := if decide (vals = []) then 1 else 0 in
      if (i <? 6)%nat then
        mkScaling flags (<[i := extend 8 vals 16]> (ScalingList4x4 s))
          (<[i := default]> (UseDefaultScalingMatrix4x4Flag s))
          (ScalingList8x8 s) (UseDefaultScalingMatrix8x8Flag s)
      else
        mkScaling flags (ScalingList4x4 s) (UseDefaultScalingMatrix4x4Flag s)
          (<[(i - 6)%nat := extend 8 vals 64]> (ScalingList8x8 s))
          (<[(i - 6)%nat := default]> (UseDefaultScalingMatrix8x8Flag s))
  end.

Lemma length_extend last vals n : (length vals <= n)%nat -> length (extend last vals n) = n.
Proof.
  revert last n. induction vals as [|v vals IH]; intros last n H; cbn [extend length] in *.
  - apply length_replicate.
  - rewrite IH by lia. lia.
Qed.

Lemma scaling_zero_shape : scaling_shape scaling_zero.
Proof. split; try split; try done; by repeat constructor. Qed.

Lemma put_scaling_shape i e s :
  scaling_shape s -> entry_ok i e -> scaling_shape (put_scaling i e s).
Proof.
  intros [? [? ?] ? [? ?] ?] He. unfold put_scaling. destruct e as [vals|].
  - destruct He as [_ He]. unfold list_size in He. destruct (i <? 6)%nat;
      split; cbn [scaling_list_present_flag ScalingList4x4 UseDefaultScalingMatrix4x4Flag
        ScalingList8x8 UseDefaultScalingMatrix8x8Flag]; rewrite ?length_insert; try done;
      (split; [done|]); apply Forall_insert; try done; by apply length_extend.
  - split; cbn; rewrite ?length_insert; done.
Qed.

Lemma reads_scaling_list vals n flag l :
  Forall (fun v => 0 < v < 256) vals -> (length vals <= n)%nat -> length l = n -> (0 < n)%nat ->
  reads (scaling_list l n flag) (scaling_bits 8 vals n)
    (extend 8 vals n, if decide (vals = []) then 1 else 0).
Proof.
  intros Hv Hn L Hpos. unfold scaling_list.
  pose proof (reads_scaling_loop vals n 0 8 flag [] l Hv Hn L eq_refl ltac:(lia)) as H.
  rewrite (decide_False (P := n = 0%nat)) in H by lia. cbn [app] in H.
  assert ((if decide (0 = 0 /\ vals = []) then 1 else 0) = (if decide (vals = []) then 1 else 0)) as E
    by (repeat case_decide; tauto).
  by rewrite E in H.
Qed.

Lemma zget_lookup {A} (l : list A) (i : nat) x : l !! i = Some x -> zget l (Z.of_nat i) = Some x.
Proof. by rewrite zget_nat. Qed.

Lemma reads_entry first8x8 i e s :
  scaling_shape s -> (i < 12)%nat -> entry_ok i e -> (e = None \/ (i < 6)%nat \/ first8x8 = 6) ->
  reads (parse_scaling_list first8x8 (Z.of_nat i) s) (entry_bits i e) (put_scaling i e s).
Proof.
  intros [Hp [H4 F4] D4 [H8 F8] D8] Hi He Hf. unfold parse_scaling_list, entry_bits, put_scaling.
  destruct e as [vals|].
  - destruct He as [Hv Hl]. eapply reads_bind; [apply (reads_field_u 1); [small|cbn; lia]|].
    eapply reads_of_option; [apply zset_nat; lia|]. cbv zeta. change (nz 1) with true. cbv iota.
    unfold list_size in *. destruct (Nat.ltb_spec i 6) as [H|H].
    + rewrite (proj2 (Z.ltb_lt _ 6)) by lia.
      destruct (lookup_lt_is_Some_2 (ScalingList4x4 s) i ltac:(lia)) as [l El].
      destruct (lookup_lt_is_Some_2 (UseDefaultScalingMatrix4x4Flag s) i ltac:(lia)) as [d Ed].
      eapply reads_of_option; [by apply zget_lookup|]. eapply reads_of_option; [by apply zget_lookup|].
      rewrite <- (app_nil_r (scaling_bits _ _ _)). eapply reads_bind.
      { apply reads_scaling_list; [done|done| |lia]. rewrite Forall_lookup in F4. by eapply F4. }
      cbv beta iota. eapply reads_of_option; [apply zset_nat; cbn; lia|].
      eapply reads_of_option; [apply zset_nat; cbn; lia|]. apply reads_ret.
    + destruct Hf as [Hf | [Hf | ->]]; [done|lia|]. rewrite (proj2 (Z.ltb_ge _ 6)) by lia.
      replace (Z.of_nat i - 6) with (Z.of_nat (i - 6)) by lia.
      destruct (lookup_lt_is_Some_2 (ScalingList8x8 s) (i - 6) ltac:(lia)) as [l El].
      destruct (lookup_lt_is_Some_2 (UseDefaultScalingMatrix8x8Flag s) (i - 6) ltac:(lia)) as [d Ed].
      eapply reads_of_option; [by apply zget_lookup|]. eapply reads_of_option; [by apply zget_lookup|].
      rewrite <- (app_nil_r (scaling_bits _ _ _)). eapply reads_bind.
      { apply reads_scaling_list; [done|done| |lia]. rewrite Forall_lookup in F8. by eapply F8. }
      cbv beta iota. eapply reads_of_option; [apply zset_nat; cbn; lia|].
      eapply reads_of_option; [apply zset_nat; cbn; lia|]. apply reads_ret.
  - rewrite <- (app_nil_r (u_bits 1 0)).
    eapply reads_bind; [apply (reads_field_u 1); [small|cbn; lia]|].
    eapply reads_of_option; [apply zset_nat; lia|]. cbv zeta. change (nz 0) with false. cbv iota.
    apply reads_ret.
Qed.

Fixpoint entries_bits (i : nat) (es : list (option (list Z))) : list bool :=
  match es with [] => [] | e :: t => entry_bits i e ++ entries_bits (S i) t end.

Fixpoint put_entries (i : nat) (es : list (option (list Z))) (s : scaling_lists) : scaling_lists :=
  match es with [] => s | e :: t => put_entries (S i) t (put_scaling i e s) end.

Fixpoint entries_ok (i : nat) (es : list (option (list Z))) : Prop :=
  match es with [] => True | e :: t => entry_ok i e /\ entries_ok (S i) t end.

Lemma reads_scaling_lists first8x8 es i s :
  scaling_shape s -> (i + length es <= 12)%nat -> entries_ok i es ->
  (Forall (eq None) (drop (6 - i) es) \/ first8x8 = 6) ->
  reads (parse_scaling_lists first8x8 (length es) (Z.of_nat i) s) (entries_bits i es) (put_entries i es s).
Proof.
  revert i s. induction es as [|e es IH]; intros i s Hs Hi He Hf; cbn [length] in *.
  { apply reads_ret. }
  destruct He as [He Hes]. cbn [parse_scaling_lists entries_bits put_entries].
  eapply reads_bind.
  { apply reads_entry; [done|lia|done|]. destruct Hf as [Hf|]; [|by right; right].
    destruct (Nat.lt_ge_cases i 6); [by right; left|left].
    replace (6 - i)%nat with 0%nat in Hf by lia. by inversion Hf. }
  replace (Z.of_nat i + 1) with (Z.of_nat (S i)) by lia.
  apply IH; [by apply put_scaling_shape|lia|done|]. destruct Hf as [Hf|]; [left|by right].
  destruct (Nat.lt_ge_cases i 6).
  - replace (6 - i)%nat with (S (6 - S i)) in Hf by lia. exact Hf.
  - replace (6 - i)%nat with 0%nat in Hf by lia. replace (6 - S i)%nat with 0%nat by lia.
    by inversion Hf.
Qed.

(** ** Sequence parameter sets (7.3.2.1.1) *)

Section Sps.
Variable s : sps_t.
(** The scaling lists the stream holds. *)
Variable lists : list (option (list Z)).

Definition is_high : bool := high_profile (profile_idc s).
Definition is_444 : bool := chroma_format_idc s =? YUV_4_4_4.
Definition has_matrix : bool := is_high && nz (seq_scaling_matrix_present_flag s).
Definition is_poc1 : bool := pic_order_cnt_type s =? 1.
Definition has_cropping : bool := nz (frame_cropping_flag s).

Definition sps_bits : list bool := concat
  [u_bits 8 (profile_idc s); u_bits 1 (constraint_set0_flag s); u_bits 1 (constraint_set1_flag s);
   u_bits 1 (constraint_set2_flag s); u_bits 1 (constraint_set3_flag s);
   u_bits 1 (constraint_set4_flag s); u_bits 1 (constraint_set5_flag s);
   u_bits 2 (reserved_zero_2bits s); u_bits 8 (level_idc s); ue_bits (seq_parameter_set_id s);
   opt is_high (ue_bits (chroma_format_idc s));
   opt (is_high && is_444) (u_bits 1 (separate_colour_plane_flag s));
   opt is_high (ue_bits (bit_depth_luma_minus8 s)); opt is_high (ue_bits (bit_depth_chroma_minus8 s));
   opt is_high (u_bits 1 (qpprime_y_zero_transform_bypass_flag s));
   opt is_high (u_bits 1 (seq_scaling_matrix_present_flag s));
   opt has_matrix (entries_bits 0 lists);
   ue_bits (log2_max_frame_num_minus4 s); ue_bits (pic_order_cnt_type s);
   opt (pic_order_cnt_type s =? 0) (ue_bits (log2_max_pic_order_cnt_lsb_minus4 s));
   opt is_poc1 (u_bits 1 (delta_pic_order_always_zero_flag s));
   opt is_poc1 (se_bits (offset_for_non_ref_pic s));
   opt is_poc1 (se_bits (offset_for_top_to_bottom_field s));
   opt is_poc1 (ue_bits (num_ref_frames_in_pic_order_cnt_cycle s));
   opt is_poc1 (flat_map se_bits
     (take (Z.to_nat (num_ref_frames_in_pic_order_cnt_cycle s)) (offset_for_ref_frame s)));
   ue_bits (max_num_ref_frames s); u_bits 1 (gaps_in_frame_num_value_allowed_flag s);
   ue_bits (pic_width_in_mbs_minus1 s); ue_bits (pic_height_in_map_units_minus1 s);
   u_bits 1 (frame_mbs_only_flag s);
   opt (negb (nz (frame_mbs_only_flag s))) (u_bits 1 (mb_adaptive_frame_field_flag s));
   u_bits 1 (direct_8x8_inference_flag s); u_bits 1 (frame_cropping_flag s);
   opt has_cropping (ue_bits (frame_crop_left_offset s));
   opt has_cropping (ue_bits (frame_crop_right_offset s));
   opt has_cropping (ue_bits (frame_crop_top_offset s));
   opt has_cropping (ue_bits (frame_crop_bottom_offset s));
   u_bits 1 (vui_parameters_present_flag s);
   opt (nz (vui_parameters_present_flag s)) (vui_bits (vui_parameters s))].

Record sps_ok : Prop := {
  sk_profile : fit_u 8 true (profile_idc s) /\ fit_u 1 true (constraint_set0_flag s) /\
    fit_u 1 true (constraint_set1_flag s) /\ fit_u 1 true (constraint_set2_flag s) /\
    fit_u 1 true (constraint_set3_flag s) /\ fit_u 1 true (constraint_set4_flag s) /\
    fit_u 1 true (constraint_set5_flag s) /\ fit_u 2 true (reserved_zero_2bits s) /\
    fit_u 8 true (level_idc s) /\ fit_ue true (seq_parameter_set_id s);
  sk_high : fit_ue is_high (chroma_format_idc s) /\
    fit_u 1 (is_high && is_444) (separate_colour_plane_flag s) /\
    fit_ue is_high (bit_depth_luma_minus8 s) /\ fit_ue is_high (bit_depth_chroma_minus8 s) /\
    fit_u 1 is_high (qpprime_y_zero_transform_bypass_flag s) /\
    fit_u 1 is_high (seq_scaling_matrix_present_flag s);
  sk_lists : entries_ok 0 lists /\ length lists = (if negb is_444 then 8 else 12)%nat /\
    seq_scaling s = if has_matrix then put_entries 0 lists scaling_zero else scaling_zero;
  sk_poc : fit_ue true (log2_max_frame_num_minus4 s) /\ fit_ue true (pic_order_cnt_type s) /\
    fit_ue (pic_order_cnt_type s =? 0) (log2_max_pic_order_cnt_lsb_minus4 s) /\
    fit_u 1 is_poc1 (delta_pic_order_always_zero_flag s) /\
    fit_se is_poc1 (offset_for_non_ref_pic s) /\ fit_se is_poc1 (offset_for_top_to_bottom_field s) /\
    fit_ue is_poc1 (num_ref_frames_in_pic_order_cnt_cycle s);
  (** at most 256 frames in the cycle: the bound of the array *)
  sk_offsets : arr_ok (fit_se true) (Z.to_nat (num_ref_frames_in_pic_order_cnt_cycle s)) 256
    (offset_for_ref_frame s);
  sk_size : fit_ue true (max_num_ref_frames s) /\
    fit_u 1 true (gaps_in_frame_num_value_allowed_flag s) /\
    fit_ue true (pic_width_in_mbs_minus1 s) /\ fit_ue true (pic_height_in_map_units_minus1 s) /\
    fit_u 1 true (frame_mbs_only_flag s) /\
    fit_u 1 (negb (nz (frame_mbs_only_flag s))) (mb_adaptive_frame_field_flag s) /\
    fit_u 1 true (direct_8x8_inference_flag s);
  sk_crop : fit_u 1 true (frame_cropping_flag s) /\ fit_ue has_cropping (frame_crop_left_offset s) /\
    fit_ue has_cropping (frame_crop_right_offset s) /\ fit_ue has_cropping (frame_crop_top_offset s) /\
    fit_ue has_cropping (frame_crop_bottom_offset s);
  sk_vui : fit_u 1 true (vui_parameters_present_flag s) /\
    (nz (vui_parameters_present_flag s) = true -> vui_ok (vui_parameters s)) /\
    (nz (vui_parameters_present_flag s) = false -> vui_parameters s = vui_zero)
}.

Lemma reads_sps_lists :
  sps_ok ->
  reads (if is_high && nz (seq_scaling_matrix_present_flag s) then
      parse_scaling_lists 6 (if negb (chroma_format_idc s =? YUV_4_4_4) then 8 else 12) 0 scaling_zero
    else mret scaling_zero) (opt has_matrix (entries_bits 0 lists)) (seq_scaling s).
Proof.
  intros [_ _ (Hes & Hl & ->) _ _ _ _ _]. fold has_matrix is_444. apply reads_if.
  - intros ->. rewrite <- Hl.
    apply (reads_scaling_lists 6 lists 0); [apply scaling_zero_shape| |done|by right].
    rewrite Hl. destruct (negb is_444); lia.
  - by intros ->.
Qed.

Lemma reads_sps_offsets :
  sps_ok ->
  reads (if is_poc1 then
      read_array se (Z.to_nat (num_ref_frames_in_pic_order_cnt_cycle s)) 0 (replicate 256 0)
    else mret (replicate 256 0))
    (opt is_poc1 (flat_map se_bits
      (take (Z.to_nat (num_ref_frames_in_pic_order_cnt_cycle s)) (offset_for_ref_frame s))))
    (offset_for_ref_frame s).
Proof.
  intros [_ _ _ (_ & _ & _ & _ & _ & _ & Hc) Ha _ _ _]. apply reads_if.
  - intros _. eapply reads_array; [|exact Ha]. apply reads_field_se.
  - intros E. rewrite E in Hc. cbn in Hc. rewrite Hc in Ha.
    destruct Ha as (_ & vals & L & _ & ->). by destruct vals.
Qed.

(** [parse_sps_syntax_element] reads back every well-formed parameter set. *)
Lemma reads_sps : sps_ok -> reads parse_sps_syntax_element sps_bits s.
Proof.
  intros Hok. pose proof (reads_sps_lists Hok) as Hlists. pose proof (reads_sps_offsets Hok) as Hoff.
  destruct Hok as [? ? _ ? _ ? ? (? & Hv1 & Hv2)]. destruct_and?.
  unfold parse_sps_syntax_element, sps_bits. cbn [concat].
  do 16 next_field.
  eapply reads_bind; [exact Hlists|cbv beta zeta].
  do 7 next_field.
  eapply reads_bind; [exact Hoff|cbv beta zeta].
  do 13 next_field.
  eapply reads_bind; [apply reads_if; [intros; apply reads_vui; auto|exact Hv2]|cbv beta].
  clear. destruct s. apply reads_ret.
Qed.
End Sps.

(** ** Picture parameter sets (7.3.2.2) *)

(** A parser that looks at what follows its bits. *)
Definition reads_before {A} (m : prog bs_t A) (bits rest : list bool) (a : A) : Prop :=
  forall b, bs_wf b -> pending b = bits ++ rest ->
  exists b', m b = Ret a b' /\ bs_wf b' /\ pending b' = rest.

Lemma reads_before_bind {A B} (m : prog bs_t A) (k : A -> prog bs_t B) l1 l2 rest a r :
  reads m l1 a -> reads_before (k a) l2 rest r -> reads_before (m ≫= k) (l1 ++ l2) rest r.
Proof.
  intros Hm Hk b Hw E. rewrite <- app_assoc in E.
  destruct (Hm b _ Hw E) as (b1 & E1 & Hw1 & P1). destruct (Hk b1 Hw1 P1) as (b2 & E2 & Hw2 & P2).
  exists b2. by rewrite (bind_Ret _ _ _ _ _ E1).
Qed.

Lemma reads_before_reads {A} (m : prog bs_t A) l rest a : reads m l a -> reads_before m l rest a.
Proof. intros H b. apply H. Qed.

Definition trailing_bits (k : nat) : list bool := true :: replicate k false.

Lemma reads_before_more {B} (k : Z -> prog bs_t B) l n r :
  reads_before (k (if decide (l = []) then 0 else 1)) l (trailing_bits n) r ->
  reads_before (more_rbsp_data ≫= k) l (trailing_bits n) r.
Proof.
  intros H b Hw E. destruct (H b Hw E) as (b' & E' & H'). exists b'. split; [|done].
  step (more_rbsp_data_correct b l n Hw E). exact E'.
Qed.

Lemma reads_rectangles_aux tls brs p1 p2 m i :
  Forall (fit_ue true) tls -> Forall (fit_ue true) brs -> length brs = length tls ->
  (length tls <= m)%nat -> i = Z.of_nat (length p1) -> length p2 = length p1 ->
  let z := replicate (m - length tls) 0 in
  reads (parse_rectangles (length tls) i (p1 ++ replicate m 0) (p2 ++ replicate m 0))
    (flat_map (fun x => ue_bits x.1 ++ ue_bits x.2) (zip tls brs))
    (p1 ++ tls ++ z, p2 ++ brs ++ z).
Proof.
  intros Ht. revert brs p1 p2 m i. induction Ht as [|t tls Htl _ IH]; intros brs p1 p2 m i Hb L Hm Hi H2.
  - destruct brs; [|done]. cbn. rewrite Nat.sub_0_r. apply reads_ret.
  - destruct brs as [|x brs]; [done|]. inversion Hb as [|? ? Hx Hb'].
    cbn [length parse_rectangles zip flat_map zip_with app fst snd] in *. destruct m as [|m]; [lia|].
    rewrite <- app_assoc.
    eapply reads_bind; [by apply reads_field_ue|]. eapply reads_of_option; [by apply zset_fill|].
    eapply reads_bind; [by apply reads_field_ue|]. eapply reads_of_option; [apply zset_fill; lia|].
    specialize (IH brs (p1 ++ [t]) (p2 ++ [x]) m (i + 1) Hb' ltac:(by injection L) ltac:(lia)).
    rewrite !length_app in IH. cbn [length] in IH. specialize (IH ltac:(lia) ltac:(lia)).
    rewrite <- !app_assoc in *. exact IH.
Qed.

Definition eight : list Z := replicate 8 0.

Definition slice_group_bits (num : Z) (g : slice_groups) : list bool :=
  opt (0 <? num) (ue_bits (sg_type g) ++
    (if sg_type g =? 0 then flat_map ue_bits (take (Z.to_nat (num + 1)) (sg_run_length g))
     else if sg_type g =? 2 then
       flat_map (fun x => ue_bits x.1 ++ ue_bits x.2)
         (zip (take (Z.to_nat num) (sg_top_left g)) (take (Z.to_nat num) (sg_bottom_right g)))
     else if (sg_type g =? 3) || (sg_type g =? 4) || (sg_type g =? 5) then
       u_bits 1 (sg_direction g) ++ ue_bits (sg_rate g)
     else [])).

(** The slice groups the parser can read: every type but the explicit map, 6. *)
Inductive groups_ok (num : Z) : slice_groups -> Prop :=
| groups_one : num = 0 -> groups_ok num (mkGroups 0 eight eight eight 0 0 0 None)
| groups_interleaved runs :
    0 < num -> arr_ok (fit_ue true) (Z.to_nat (num + 1)) 8 runs ->
    groups_ok num (mkGroups 0 runs eight eight 0 0 0 None)
| groups_foreground tl br :
    0 < num -> arr_ok (fit_ue true) (Z.to_nat num) 8 tl -> arr_ok (fit_ue true) (Z.to_nat num) 8 br ->
    groups_ok num (mkGroups 2 eight tl br 0 0 0 None)
| groups_changing type direction rate :
    0 < num -> 3 <= type <= 5 -> fit_u 1 true direction -> fit_ue true rate ->
    groups_ok num (mkGroups type eight eight eight direction rate 0 None)
| groups_dispersed type :
    0 < num -> fit_ue true type -> type = 1 \/ 6 < type ->
    groups_ok num (mkGroups type eight eight eight 0 0 0 None).

Lemma reads_slice_groups calloc_ok num g :
  groups_ok num g -> reads (parse_slice_groups calloc_ok num) (slice_group_bits num g) g.
Proof.
  intros Hg. unfold parse_slice_groups, slice_group_bits. fold eight.
  destruct Hg as [-> | runs Hn Hr | tl br Hn Ht Hb | type direction rate Hn Ht Hd Hr | type Hn Ht Hty];
    [apply reads_ret|rewrite (proj2 (Z.ltb_lt 0 num) Hn); cbn [opt sg_type]..].
  - eapply reads_bind; [apply reads_field_ue; cbn; lia|]. cbv beta. change (0 =? 0) with true. cbv iota.
    cbn [sg_run_length]. rewrite <- (app_nil_r (flat_map _ _)).
    eapply reads_bind; [eapply reads_array; [|exact Hr]; apply reads_field_ue|]. apply reads_ret.
  - eapply reads_bind; [apply reads_field_ue; cbn; lia|]. cbv beta.
    change (2 =? 0) with false. change (2 =? 2) with true. cbv iota. cbn [sg_top_left sg_bottom_right].
    rewrite <- (app_nil_r (flat_map _ _)). destruct Ht as (Hm & tls & L1 & F1 & ->), Hb as (_ & brs & L2 & F2 & ->).
    rewrite !take_app_le, !take_ge by lia. rewrite <- L1. eapply reads_bind.
    { apply (reads_rectangles_aux tls brs [] [] 8 0 F1 F2); [lia|lia|done|done]. }
    cbv beta iota. cbn [app]. rewrite L1. apply reads_ret.
  - assert (fit_ue true type) as Htu by (cbn; lia).
    eapply reads_bind; [by apply reads_field_ue|]. cbv beta.
    rewrite (proj2 (Z.eqb_neq type 0)), (proj2 (Z.eqb_neq type 2)) by lia.
    assert ((type =? 3) || (type =? 4) || (type =? 5) = true) as ->
      by (rewrite !orb_true_iff, !Z.eqb_eq; lia).
    cbn [sg_direction sg_rate]. next_field. rewrite <- (app_nil_r (ue_bits _)). next_field. apply reads_ret.
  - eapply reads_bind; [by apply reads_field_ue|]. cbv beta.
    rewrite (proj2 (Z.eqb_neq type 0)), (proj2 (Z.eqb_neq type 2)), (proj2 (Z.eqb_neq type 3)),
      (proj2 (Z.eqb_neq type 4)), (proj2 (Z.eqb_neq type 5)), (proj2 (Z.eqb_neq type 6)) by lia.
    apply reads_ret.
Qed.

Section Pps.
Variable p : pps_t.
(** [sets] is the array of sequence parameter sets; [lists] are the scaling lists
    of the stream; [more] tells whether the extension is there. *)
Variables (sets : list sps_t) (calloc_ok : Z -> bool) (lists : list (option (list Z))) (more : bool).

Definition pps_groups : slice_groups :=
  mkGroups (slice_group_map_type p) (run_length_minus1 p) (top_left p) (bottom_right p)
    (slice_group_change_direction_flag p) (slice_group_change_rate_minus1 p)
    (pic_size_in_map_units_minus1 p) (slice_group_id p).

Definition pps_matrix : bool := nz (pic_scaling_matrix_present_flag p).

Definition pps_more_bits : list bool :=
  opt more (u_bits 1 (transform_8x8_mode_flag p) ++ u_bits 1 (pic_scaling_matrix_present_flag p) ++
    opt pps_matrix (entries_bits 0 lists) ++ se_bits (second_chroma_qp_index_offset p)).

(** Followed by [pps_more_bits]. *)
Definition pps_bits : list (list bool) :=
  [ue_bits (pic_parameter_set_id p); ue_bits (pps_seq_parameter_set_id p);
   u_bits 1 (entropy_coding_mode_flag p); u_bits 1 (bottom_field_pic_order_in_frame_present_flag p);
   ue_bits (num_slice_groups_minus1 p); slice_group_bits (num_slice_groups_minus1 p) pps_groups;
   ue_bits (num_ref_idx_l0_default_active_minus1 p); ue_bits (num_ref_idx_l1_default_active_minus1 p);
   u_bits 1 (weighted_pred_flag p); u_bits 2 (weighted_bipred_idc p);
   se_bits (pic_init_qp_minus26 p); se_bits (pic_init_qs_minus26 p); se_bits (chroma_qp_index_offset p);
   u_bits 1 (deblocking_filter_control_present_flag p); u_bits 1 (constrained_intra_pred_flag p);
   u_bits 1 (redundant_pic_cnt_present_flag p)].

Record pps_ok : Prop := {
  pk_ids : fit_ue true (pic_parameter_set_id p) /\ fit_ue true (pps_seq_parameter_set_id p) /\
    fit_u 1 true (entropy_coding_mode_flag p) /\
    fit_u 1 true (bottom_field_pic_order_in_frame_present_flag p) /\
    fit_ue true (num_slice_groups_minus1 p);
  pk_groups : groups_ok (num_slice_groups_minus1 p) pps_groups;
  pk_refs : fit_ue true (num_ref_idx_l0_default_active_minus1 p) /\
    fit_ue true (num_ref_idx_l1_default_active_minus1 p) /\
    fit_u 1 true (weighted_pred_flag p) /\ fit_u 2 true (weighted_bipred_idc p) /\
    fit_se true (pic_init_qp_minus26 p) /\ fit_se true (pic_init_qs_minus26 p) /\
    fit_se true (chroma_qp_index_offset p) /\
    fit_u 1 true (deblocking_filter_control_present_flag p) /\
    fit_u 1 true (constrained_intra_pred_flag p) /\ fit_u 1 true (redundant_pic_cnt_present_flag p);
  pk_more : fit_u 1 more (transform_8x8_mode_flag p) /\
    fit_u 1 more (pic_scaling_matrix_present_flag p) /\
    (if more then fit_se true (second_chroma_qp_index_offset p)
     else second_chroma_qp_index_offset p = chroma_qp_index_offset p);
  (** no 8x8 list: the code cannot store its flag *)
  pk_lists : pic_scaling p = (if pps_matrix then put_entries 0 lists scaling_zero else scaling_zero) /\
    (pps_matrix = true -> entries_ok 0 lists /\ Forall (eq None) (drop 6 lists) /\
     exists s, zget sets (pps_seq_parameter_set_id p) = Some s /\
       length lists = Z.to_nat (6 + (if negb (chroma_format_idc s =? YUV_4_4_4) then 2 else 6) *
                                 transform_8x8_mode_flag p) /\ (length lists <= 12)%nat)
}.

(** [parse_pps_syntax_element] reads back every well-formed parameter set in
    front of the trailing bits, with and without the extension. *)
Lemma reads_pps k :
  pps_ok ->
  reads_before (parse_pps_syntax_element sets calloc_ok)
    (foldr app pps_more_bits pps_bits) (trailing_bits k) p.
Proof.
  intros [? ? ? (Ht & Hm & Hs) (El & Hl)]. destruct_and?. unfold parse_pps_syntax_element, pps_bits.
  cbn [foldr].
  do 5 (eapply reads_before_bind; [read_field|cbv beta zeta]).
  eapply reads_before_bind; [by apply reads_slice_groups|cbv beta zeta].
  do 10 (eapply reads_before_bind; [read_field|cbv beta zeta]).
  apply reads_before_more. apply reads_before_reads. unfold pps_more_bits.
  destruct more; cbn [opt].
  - assert (u_bits 1 (transform_8x8_mode_flag p) <> []) as Hne by done.
    rewrite decide_False by (by intros [? _]%app_eq_nil). change (nz 1) with true. cbv iota.
    rewrite <- (app_nil_r (_ ++ _ ++ _ ++ _)), <- !app_assoc.
    rewrite !app_assoc. eapply reads_bind.
    { rewrite <- !app_assoc. do 2 next_field.
      eapply reads_bind with (a := pic_scaling p).
      - rewrite El. fold pps_matrix. apply reads_if; [|by intros ->]. intros Em. rewrite Em.
        destruct (Hl Em) as (He & Hd & sp & Esp & Elen & L12).
        eapply reads_of_option; [exact Esp|]. cbv zeta. rewrite <- Elen.
        apply (reads_scaling_lists 0 lists 0); [apply scaling_zero_shape|lia|done|by left].
      - rewrite <- (app_nil_r (se_bits _)). next_field. apply reads_ret. }
    cbv beta iota. unfold pps_groups. clear. destruct p. apply reads_ret.
  - rewrite decide_True by done. change (nz 0) with false. cbv iota.
    change (@nil bool) with (@nil bool ++ @nil bool). eapply reads_bind; [apply reads_ret|].
    cbv beta iota. cbn [fit_u] in Ht, Hm. unfold pps_matrix in El. rewrite Hm in El.
    change (nz 0) with false in El. cbv iota in El.
    revert Ht Hm El Hs. unfold pps_groups. clear. intros Ht Hm El Hs. destruct p. cbn in *. subst. apply reads_ret.
Qed.
End Pps.
