(* ===== verification/H264Header.v ===== *)
(** Slice headers of the H.264 analyser: [src/h264/H264Analysis/header.h],
    [header.c], [slice.h] and [slice.c].

    [active_sps] and [active_pps] are arguments of the parsers; a slice starts as
    zeros ([allocSlice]). *)

From S2P Require Import Prelude H264Bits H264Parset.
#[local] Open Scope Z_scope.

Definition Slice_Type_P : Z := 0.
Definition Slice_Type_B : Z := 1.
Definition Slice_Type_I : Z := 2.
Definition Slice_Type_SP : Z := 3.
Definition Slice_Type_SI : Z := 4.

Definition COLOR_PLANE_Y : Z := 0.

Record dec_ref_pic_marking_t := mkMarking {
  no_output_of_prior_pics_flag : Z;
  long_term_reference_flag : Z;
  adaptive_ref_pic_marking_mode_flag : Z;
  memory_management_control_operation : list Z;
  difference_of_pic_nums_minus1 : list Z;
  long_term_pic_num : list Z;
  long_term_frame_idx : list Z;
  max_long_term_frame_idx_plus1 : list Z
}.

(** One half of [pred_weight_table_t], for list 0 or list 1; a chroma entry is the
    pair of its two components. *)
Record weights := mkWeights {
  luma_weight_flag : Z;
  luma_weight : list Z;
  luma_offset : list Z;
  chroma_weight_flag : Z;
  chroma_weight : list (Z * Z);
  chroma_offset : list (Z * Z)
}.

Record pred_weight_table_t := mkWeightTable {
  luma_log2_weight_denom : Z;
  chroma_log2_weight_denom : Z;
  weights_l0 : weights;
  weights_l1 : weights
}.

(** One half of [rplm_t]; the buffers are heap blocks, [NULL] is [None]. *)
Record modification := mkModification {
  ref_pic_list_modification_flag : Z;
  modification_of_pic_nums_idc : option (list Z);
  abs_diff_pic_num_minus1 : option (list Z);
  rplm_long_term_pic_num : option (list Z)
}.

Record slice_header_t := mkHeader {
  first_mb_in_slice : Z;
  slice_type : Z;
  sh_pic_parameter_set_id : Z;
  colour_plane_id : Z;
  frame_num : Z;
  field_pic_flag : Z;
  bottom_field_flag : Z;
  idr_pic_id : Z;
  pic_order_cnt_lsb : Z;
  delta_pic_order_cnt_bottom : Z;
  delta_pic_order_cnt : Z * Z;
  redundant_pic_cnt : Z;
  direct_spatial_mv_pred_flag : Z;
  num_ref_idx_active_override_flag : Z;
  num_ref_idx_l0_active_minus1 : Z;
  num_ref_idx_l1_active_minus1 : Z;
  modification_l0 : modification;
  modification_l1 : modification;
  pred_weight_table : pred_weight_table_t;
  dec_ref_pic_marking : dec_ref_pic_marking_t;
  cabac_init_idc : Z;
  slice_qp_delta : Z;
  sp_for_switch_flag : Z;
  slice_qs_delta : Z;
  disable_deblocking_filter_idc : Z;
  slice_alpha_c0_offset_div2 : Z;
  slice_beta_offset_div2 : Z;
  slice_group_change_cycle : Z
}.

Definition marking_zero : dec_ref_pic_marking_t :=
  let z := replicate 64 0 in mkMarking 0 0 0 z z z z z.
Definition weights_zero : weights :=
  mkWeights 0 (replicate 32 0) (replicate 32 0) 0 (replicate 32 (0, 0)) (replicate 32 (0, 0)).
Definition table_zero : pred_weight_table_t := mkWeightTable 0 0 weights_zero weights_zero.

(** ** [calculateCeilLog2]; [unsigned] has 32 bits *)

Fixpoint ceil_log2_loop (fuel : nat) (tmpVal ret : Z) : Z :=
  match fuel with
  | O => ret
  | S f => if tmpVal =? 0 then ret else ceil_log2_loop f (Z.shiftr tmpVal 1) (ret + 1)
  end.

Definition calculateCeilLog2 (inputVal : Z) : Z := ceil_log2_loop 32 (u32 (inputVal - 1)) 0.

(** ** [parse_ref_pic_list_modification] *)

Definition alloc_ints (calloc_ok : Z -> bool) (size : Z) : prog bs_t (list Z) :=
  if calloc_ok (4 * size) then mret (replicate (Z.to_nat size) 0) else exit_with EXIT_CALLOC.

(** The buffers of one list, [NULL] when the slice does not have the list. *)
Definition alloc_ref_pic_list_modification_buffer (calloc_ok : Z -> bool) (has_list : bool) (size : Z)
  : prog bs_t modification :=
  if has_list then
    a ← alloc_ints calloc_ok size;
    b ← alloc_ints calloc_ok size;
    c ← alloc_ints calloc_ok size;
    mret (mkModification 0 (Some a) (Some b) (Some c))
  else mret (mkModification 0 None None None).

(** The [do .. while (val != 3)] loop.  Every round stores at [i], so a loop that
    stays within the buffer has at most as many rounds as it has elements. *)
Fixpoint modification_loop (fuel : nat) (i : Z) (idc diff long : list Z)
  : prog bs_t (list Z * list Z * list Z) :=
  match fuel with
  | O => nofuel
  | S f =>
      val ← ue;
      idc ← of_option (zset idc i val);
      '(diff, long) ← (if (val =? 0) || (val =? 1) then
          v ← ue;
          diff ← of_option (zset diff i v);
          mret (diff, long)
        else if val =? 2 then
          v ← ue;
          long ← of_option (zset long i v);
          mret (diff, long)
        else mret (diff, long));
      if val =? 3 then mret (idc, diff, long) else modification_loop f (i + 1) idc diff long
  end.

Definition parse_modification (m : modification) : prog bs_t modification :=
  flag ← u 1;
  if nz flag then
    idc ← of_option (modification_of_pic_nums_idc m);
    diff ← of_option (abs_diff_pic_num_minus1 m);
    long ← of_option (rplm_long_term_pic_num m);
    '(idc, diff, long) ← modification_loop (S (length idc)) 0 idc diff long;
    mret (mkModification flag (Some idc) (Some diff) (Some long))
  else mret (mkModification flag (modification_of_pic_nums_idc m) (abs_diff_pic_num_minus1 m)
               (rplm_long_term_pic_num m)).

Definition has_l0 (type : Z) : bool := negb (type =? Slice_Type_I) && negb (type =? Slice_Type_SI).

Definition parse_ref_pic_list_modification (calloc_ok : Z -> bool) (type l0 l1 : Z)
  : prog bs_t (modification * modification) :=
  m0 ← alloc_ref_pic_list_modification_buffer calloc_ok (has_l0 type) (l0 + 1);
  m1 ← alloc_ref_pic_list_modification_buffer calloc_ok (type =? Slice_Type_B) (l1 + 1);
  m0 ← (if has_l0 type then parse_modification m0 else mret m0);
  m1 ← (if type =? Slice_Type_B then parse_modification m1 else mret m1);
  mret (m0, m1).

(** ** [parse_pred_weight_table] *)

(** [1 << d], undefined when it is not an [int]. *)
Definition shift_one (d : Z) : prog bs_t Z := require (d <? 31);; mret (Z.shiftl 1 d).

(** One component of a chroma entry: its weight and its offset. *)
Definition parse_chroma (flag denom : Z) : prog bs_t (Z * Z) :=
  if nz flag then w ← se; o ← se; mret (w, o) else w ← shift_one denom; mret (w, 0).

Fixpoint parse_weights (n : nat) (i : Z) (chroma : bool) (luma_denom chroma_denom : Z) (w : weights)
  : prog bs_t weights :=
  match n with
  | O => mret w
  | S n' =>
      flag ← u 1;
      '(lw, lo) ← (if nz flag then x ← se; y ← se; mret (x, y)
                   else x ← shift_one luma_denom; mret (x, 0));
      lws ← of_option (zset (luma_weight w) i lw);
      los ← of_option (zset (luma_offset w) i lo);
      w ← (if chroma : bool then
          cflag ← u 1;
          '(w0, o0) ← parse_chroma cflag chroma_denom;
          '(w1, o1) ← parse_chroma cflag chroma_denom;
          cws ← of_option (zset (chroma_weight w) i (w0, w1));
          cos ← of_option (zset (chroma_offset w) i (o0, o1));
          mret (mkWeights flag lws los cflag cws cos)
        else mret (mkWeights flag lws los (chroma_weight_flag w) (chroma_weight w) (chroma_offset w)));
      parse_weights n' (i + 1) chroma luma_denom chroma_denom w
  end.

Definition parse_pred_weight_table (sps : sps_t) (type l0 l1 : Z) : prog bs_t pred_weight_table_t :=
  luma_denom ← ue;
  let chroma := nz (chroma_format_idc sps) in
  chroma_denom ← when_ue chroma;
  w0 ← parse_weights (Z.to_nat (l0 + 1)) 0 chroma luma_denom chroma_denom weights_zero;
  w1 ← (if type =? Slice_Type_B then
      parse_weights (Z.to_nat (l1 + 1)) 0 chroma luma_denom chroma_denom weights_zero
    else mret weights_zero);
  mret (mkWeightTable luma_denom chroma_denom w0 w1).

(** ** [parse_dec_ref_pic_marking] *)

(** [if (c) arr[i] = bs_read_ue(..);] *)
Definition store_ue (c : bool) (arr : list Z) (i : Z) : prog bs_t (list Z) :=
  if c then v ← ue; of_option (zset arr i v) else mret arr.

(** The [do .. while (val != 0)] loop over arrays of 64. *)
Fixpoint marking_loop (fuel : nat) (i : Z) (m : dec_ref_pic_marking_t) : prog bs_t dec_ref_pic_marking_t :=
  match fuel with
  | O => nofuel
  | S f =>
      val ← ue;
      ops ← of_option (zset (memory_management_control_operation m) i val);
      diff ← store_ue ((val =? 1) || (val =? 3)) (difference_of_pic_nums_minus1 m) i;
      long ← store_ue (val =? 2) (long_term_pic_num m) i;
      idx ← store_ue ((val =? 3) || (val =? 6)) (long_term_frame_idx m) i;
      max ← store_ue (val =? 4) (max_long_term_frame_idx_plus1 m) i;
      let m := mkMarking (no_output_of_prior_pics_flag m) (long_term_reference_flag m)
                 (adaptive_ref_pic_marking_mode_flag m) ops diff long idx max in
      if val =? 0 then mret m else marking_loop f (i + 1) m
  end.

Definition MARKING_FUEL : nat := 65.

Definition parse_dec_ref_pic_marking (idr : bool) : prog bs_t dec_ref_pic_marking_t :=
  let z := replicate 64 0 in
  if idr then
    no_output ← u 1;
    long_term ← u 1;
    mret (mkMarking no_output long_term 0 z z z z z)
  else
    adaptive ← u 1;
    let m := mkMarking 0 0 adaptive z z z z z in
    if nz adaptive then marking_loop MARKING_FUEL 0 m else mret m.

(** ** The header *)

(** The first three elements; [slice_type] 5 to 9 repeat 0 to 4. *)
Definition parse_first_three_element : prog bs_t (Z * Z * Z) :=
  first_mb ← ue;
  type ← ue;
  let type := if 4 <? type then type - 5 else type in
  pps_id ← ue;
  mret (first_mb, type, pps_id).

(** A signed sum or product that must fit in [int]. *)
Definition as_int (x : Z) : prog bs_t Z := require ((- 2 ^ 31 <=? x) && (x <? 2 ^ 31));; mret x.

(** The width of [slice_group_change_cycle]. *)
Definition change_cycle_bits (sps : sps_t) (pps : pps_t) : prog bs_t Z :=
  w ← as_int (pic_width_in_mbs_minus1 sps + 1);
  h ← as_int (pic_height_in_map_units_minus1 sps + 1);
  area ← as_int (w * h);
  rate ← as_int (slice_group_change_rate_minus1 pps + 1);
  require (negb (rate =? 0));;
  let len := Z.quot area rate in
  len ← as_int (if negb (Z.rem area rate =? 0) then len + 1 else len);
  len1 ← as_int (len + 1);
  mret (calculateCeilLog2 len1).

Definition parse_rest_elememt_of_sliceHeader (sps : sps_t) (pps : pps_t) (calloc_ok : Z -> bool)
    (idr_flag nal_ref_idc : Z) (three : Z * Z * Z) : prog bs_t slice_header_t :=
  let '(first_mb, type, pps_id) := three in
  let is_B := type =? Slice_Type_B in
  let is_SP := type =? Slice_Type_SP in
  let is_P := (type =? Slice_Type_P) || is_SP in
  plane ← (if separate_colour_plane_flag sps =? 1 then u 2 else mret COLOR_PLANE_Y);
  n ← as_int (log2_max_frame_num_minus4 sps + 4);
  frame ← u n;
  field ← when_u (negb (nz (frame_mbs_only_flag sps))) 1;
  bottom ← when_u (negb (nz (frame_mbs_only_flag sps)) && nz field) 1;
  idr_id ← when_ue (nz idr_flag);
  let frame_bottom := nz (bottom_field_pic_order_in_frame_present_flag pps) && negb (nz field) in
  lsb ← (if pic_order_cnt_type sps =? 0 then
      n ← as_int (log2_max_pic_order_cnt_lsb_minus4 sps + 4); u n
    else mret 0);
  delta_bottom ← when_se ((pic_order_cnt_type sps =? 0) && frame_bottom);
  let poc1 := (pic_order_cnt_type sps =? 1) && negb (nz (delta_pic_order_always_zero_flag sps)) in
  delta0 ← when_se poc1;
  delta1 ← when_se (poc1 && frame_bottom);
  redundant ← when_ue (nz (redundant_pic_cnt_present_flag pps));
  direct ← when_u is_B 1;
  override ← when_u (is_P || is_B) 1;
  l0 ← when_ue ((is_P || is_B) && nz override);
  l1 ← when_ue (is_B && nz override);
  '(m0, m1) ← parse_ref_pic_list_modification calloc_ok type l0 l1;
  table ← (if (nz (weighted_pred_flag pps) && is_P) || ((weighted_bipred_idc pps =? 1) && is_B)
           then parse_pred_weight_table sps type l0 l1 else mret table_zero);
  marking ← (if nz nal_ref_idc then parse_dec_ref_pic_marking (nz idr_flag) else mret marking_zero);
  cabac ← when_ue (nz (entropy_coding_mode_flag pps) && has_l0 type);
  qp ← se;
  switch ← when_u is_SP 1;
  qs ← when_se (is_SP || (type =? Slice_Type_SI));
  deblocking ← when_ue (nz (deblocking_filter_control_present_flag pps));
  let offsets := nz (deblocking_filter_control_present_flag pps) && negb (deblocking =? 1) in
  alpha ← when_se offsets;
  beta ← when_se offsets;
  cycle ← (if (0 <? num_slice_groups_minus1 pps) && (3 <=? slice_group_map_type pps) &&
              (slice_group_map_type pps <=? 5)
           then n ← change_cycle_bits sps pps; u n else mret 0);
  mret (mkHeader first_mb type pps_id plane frame field bottom idr_id lsb delta_bottom
    (delta0, delta1) redundant direct override l0 l1 m0 m1 table marking cabac qp switch qs
    deblocking alpha beta cycle).
