(* ===== verification/H264Slice.v ===== *)
(** Slice headers: the tables of the standard for the parts of [header.c] as
    encoders, and the parsers as their inverses; where the buffers of
    [parse_ref_pic_list_modification] end. *)

From S2P Require Import Prelude H264Bits H264Parset H264Syntax H264Header.
#[local] Open Scope Z_scope.

(** ** [calculateCeilLog2] *)

Lemma ceil_log2_loop_spec f t r :
  0 <= t < 2 ^ Z.of_nat f -> ceil_log2_loop f t r = r + (if t =? 0 then 0 else Z.log2 t + 1).
Proof.
  revert t r. induction f as [|f IH]; intros t r Ht; cbn [ceil_log2_loop].
  - change (2 ^ Z.of_nat 0) with 1 in Ht. replace t with 0 by lia. cbn. lia.
  - destruct (Z.eqb_spec t 0); [lia|]. rewrite Nat2Z.inj_succ, Z.pow_succ_r in Ht by lia.
    rewrite Z.shiftr_div_pow2 by lia. change (2 ^ 1) with 2.
    assert (0 <= t / 2 < 2 ^ Z.of_nat f) as Hd
      by (split; [apply Z.div_pos|apply Z.div_lt_upper_bound]; lia).
    rewrite IH by done. destruct (Z.eqb_spec (t / 2) 0) as [E|E].
    + assert (t = 1) as -> by (pose proof (Z.div_mod t 2); pose proof (Z.mod_pos_bound t 2); lia).
      change (Z.log2 1) with 0. lia.
    + pose proof (Z.log2_shiftr t 1 ltac:(lia)) as Es.
      rewrite Z.shiftr_div_pow2 in Es by lia. change (2 ^ 1) with 2 in Es.
      assert (2 <= t) by (pose proof (Z.div_mod t 2); pose proof (Z.mod_pos_bound t 2); lia).
      pose proof (Z.log2_le_mono 2 t ltac:(lia)). change (Z.log2 2) with 1 in *. lia.
Qed.

(** [calculateCeilLog2] is the logarithm to base 2, rounded up. *)
Lemma calculateCeilLog2_correct n : 1 <= n < 2 ^ 32 -> calculateCeilLog2 n = Z.log2_up n.
Proof.
  intros Hn. unfold calculateCeilLog2. rewrite u32_id by lia.
  rewrite ceil_log2_loop_spec by (change (2 ^ Z.of_nat 32) with (2 ^ 32); lia).
  destruct (Z.eqb_spec (n - 1) 0); [by replace n with 1 by lia|].
  rewrite Z.log2_up_eqn by lia. replace (Z.pred n) with (n - 1) by lia. lia.
Qed.

(** ** Reference picture list modification (7.3.3.1) *)

(** A command and its argument, which 0, 1 and 2 have. *)
Definition command : Type := Z * Z.

Definition command_bits (c : command) : list bool :=
  ue_bits c.1 ++ opt ((c.1 =? 0) || (c.1 =? 1) || (c.1 =? 2)) (ue_bits c.2).

Definition command_ok (c : command) : Prop :=
  fit_ue true c.1 /\ c.1 <> 3 /\ fit_ue ((c.1 =? 0) || (c.1 =? 1) || (c.1 =? 2)) c.2.

(** The entries a command leaves in the three buffers. *)
Definition diff_entry (c : command) : Z := if (c.1 =? 0) || (c.1 =? 1) then c.2 else 0.
Definition long_entry (c : command) : Z := if c.1 =? 2 then c.2 else 0.

Lemma fill_zero (pre : list Z) m : pre ++ replicate (S m) 0 = (pre ++ [0]) ++ replicate m 0.
Proof. by rewrite <- app_assoc. Qed.

(** The round of one command leads to the next round. *)
Lemma modification_command f i c p1 p2 p3 m b rest :
  command_ok c -> i = Z.of_nat (length p1) -> length p2 = length p1 -> length p3 = length p1 ->
  bs_wf b -> pending b = command_bits c ++ rest ->
  exists b', modification_loop (S f) i (p1 ++ replicate (S m) 0) (p2 ++ replicate (S m) 0)
      (p3 ++ replicate (S m) 0) b =
    modification_loop f (i + 1) ((p1 ++ [c.1]) ++ replicate m 0)
      ((p2 ++ [diff_entry c]) ++ replicate m 0) ((p3 ++ [long_entry c]) ++ replicate m 0) b' /\
    bs_wf b' /\ pending b' = rest.
Proof.
  destruct c as [val arg]. intros (Hv & H3 & Ha) Hi H2 H4 Hw E. unfold command_bits, diff_entry, long_entry in *.
  cbn [fst snd] in *. rewrite <- app_assoc in E. cbn [modification_loop].
  destruct (reads_field_ue val Hv b _ Hw E) as (b1 & E1 & Hw1 & P1). step E1.
  rewrite (zset_fill _ _ _ _ Hi). step (eq_refl : (of_option (Some ((p1 ++ [val]) ++ replicate m 0)) : prog bs_t _) b1 = Ret _ b1).
  assert ((val =? 3) = false) as H3' by (by apply Z.eqb_neq).
  destruct ((val =? 0) || (val =? 1)) eqn:E01; cbn [orb opt] in P1, Ha.
  - destruct (reads_field_ue arg Ha b1 _ Hw1 P1) as (b2 & E2 & Hw2 & P2).
    rewrite bind_assoc. step E2. rewrite bind_assoc, (zset_fill p2) by lia.
    exists b2. split; [|done]. unfold mbind, prog_bind, of_option, mret, prog_ret. cbv beta iota.
    rewrite H3', (fill_zero p3).
    apply orb_true_iff in E01 as [Ev|Ev]; apply Z.eqb_eq in Ev; by subst val.
  - destruct (val =? 2) eqn:E2'; cbn [opt app] in P1.
    + destruct (reads_field_ue arg Ha b1 _ Hw1 P1) as (b2 & E2 & Hw2 & P2).
      rewrite bind_assoc. step E2. rewrite bind_assoc, (zset_fill p3) by lia.
      exists b2. split; [|done]. unfold mbind, prog_bind, of_option, mret, prog_ret. cbv beta iota.
      by rewrite H3', (fill_zero p2).
    + exists b1. split; [|done]. unfold mbind, prog_bind, mret, prog_ret. cbv beta iota.
      by rewrite H3', (fill_zero p2), (fill_zero p3).
Qed.

Lemma reads_modification_aux cs p1 p2 p3 m i f :
  Forall command_ok cs -> (length cs < m)%nat -> (length cs < f)%nat ->
  i = Z.of_nat (length p1) -> length p2 = length p1 -> length p3 = length p1 ->
  let z := replicate (m - length cs) 0 in
  reads (modification_loop f i (p1 ++ replicate m 0) (p2 ++ replicate m 0) (p3 ++ replicate m 0))
    (flat_map command_bits cs ++ ue_bits 3)
    (p1 ++ map fst cs ++ 3 :: replicate (m - length cs - 1) 0, p2 ++ map diff_entry cs ++ z,
     p3 ++ map long_entry cs ++ z).
Proof.
  intros Hc. revert p1 p2 p3 m i f. induction Hc as [|c cs Hc _ IH];
    intros p1 p2 p3 m i f Hm Hf Hi H2 H3; (destruct f as [|f]; [lia|]); (destruct m as [|m]; [lia|]).
  - cbn [flat_map map app length modification_loop]. rewrite !Nat.sub_0_r, Nat.sub_succ, Nat.sub_0_r.
    rewrite <- (app_nil_r (ue_bits 3)).
    eapply reads_bind; [apply reads_field_ue; cbn; lia|].
    eapply reads_of_option; [by apply zset_fill|]. rewrite <- app_assoc. apply reads_ret.
  - cbn [flat_map map app length] in *. rewrite <- app_assoc. intros b rest Hw E.
    rewrite <- app_assoc in E.
    destruct (modification_command f i c p1 p2 p3 m b _ Hc Hi H2 H3 Hw E) as (b' & -> & Hw' & P').
    revert b' rest Hw' P' E. intros b' rest Hw' P' _. revert b' rest Hw' P'.
    specialize (IH (p1 ++ [c.1]) (p2 ++ [diff_entry c]) (p3 ++ [long_entry c]) m (i + 1) f
      ltac:(lia) ltac:(lia)). rewrite !length_app in IH. cbn [length] in IH.
    specialize (IH ltac:(lia) ltac:(lia) ltac:(lia)). rewrite <- !app_assoc in *. exact IH.
Qed.

(** What the parser leaves for a list with [size] entries. *)
Definition modified (size : Z) (flag : Z) (cs : list command) : modification :=
  let n := Z.to_nat size in
  if nz flag then
    let z := replicate (n - length cs) 0 in
    mkModification flag (Some (map fst cs ++ 3 :: replicate (n - length cs - 1) 0))
      (Some (map diff_entry cs ++ z)) (Some (map long_entry cs ++ z))
  else mkModification flag (Some (replicate n 0)) (Some (replicate n 0)) (Some (replicate n 0)).

Definition modification_bits (flag : Z) (cs : list command) : list bool :=
  u_bits 1 flag ++ opt (nz flag) (flat_map command_bits cs ++ ue_bits 3).

Definition empty_modification (size : Z) : modification :=
  let z := Some (replicate (Z.to_nat size) 0) in mkModification 0 z z z.

(** With fewer commands than entries, the terminator has a place. *)
Lemma reads_modification size flag cs :
  fit_u 1 true flag -> Forall command_ok cs -> Z.of_nat (length cs) < size ->
  reads (parse_modification (empty_modification size)) (modification_bits flag cs) (modified size flag cs).
Proof.
  intros Hf Hc Hs. unfold parse_modification, modification_bits, modified.
  eapply reads_bind; [by read_field|]. destruct (nz flag); [|apply reads_ret].
  cbn [opt empty_modification modification_of_pic_nums_idc abs_diff_pic_num_minus1 rplm_long_term_pic_num].
  do 3 (eapply reads_of_option; [reflexivity|]).
  rewrite <- (app_nil_r (flat_map _ _ ++ _)). eapply reads_bind.
  { rewrite length_replicate.
    apply (reads_modification_aux cs [] [] [] (Z.to_nat size) 0); try done; lia. }
  apply reads_ret.
Qed.

(** The standard allows as many commands as the list has entries; the terminator
    of such a sequence is stored behind the buffer. *)
Lemma modification_overflow cs p1 p2 p3 i f b rest :
  Forall command_ok cs -> (length cs < f)%nat ->
  i = Z.of_nat (length p1) -> length p2 = length p1 -> length p3 = length p1 ->
  bs_wf b -> pending b = flat_map command_bits cs ++ ue_bits 3 ++ rest ->
  modification_loop f i (p1 ++ replicate (length cs) 0) (p2 ++ replicate (length cs) 0)
    (p3 ++ replicate (length cs) 0) b = Undef.
Proof.
  intros Hc. revert p1 p2 p3 i f b. induction Hc as [|c cs Hc _ IH];
    intros p1 p2 p3 i f b Hf Hi H2 H3 Hw E; (destruct f as [|f]; [lia|]).
  - cbn [flat_map app length replicate] in *. rewrite !app_nil_r. cbn [modification_loop].
    destruct (reads_field_ue 3 ltac:(cbn; lia) b rest Hw E) as (b1 & E1 & _ & _). step E1.
    assert (zset p1 i 3 = None) as ->; [|done].
    unfold zset. rewrite (proj2 (Z.ltb_ge i _)) by lia. by rewrite andb_false_r.
  - cbn [flat_map length] in *. rewrite <- app_assoc in E.
    destruct (modification_command f i c p1 p2 p3 (length cs) b _ Hc Hi H2 H3 Hw E) as (b' & -> & Hw' & P').
    apply IH; try done; rewrite ?length_app; simpl; lia.
Qed.

(** ** Prediction weights (7.3.3.2) *)

(** The weight and offset of luma, and those of the two chroma components, each
    present or left to its default. *)
Definition weight_entry : Type := option (Z * Z) * option ((Z * Z) * (Z * Z)).

Definition pair_bits (x : Z * Z) : list bool := se_bits x.1 ++ se_bits x.2.
Definition pair_ok (x : Z * Z) : Prop := fit_se true x.1 /\ fit_se true x.2.

Definition weight_bits (chroma : bool) (e : weight_entry) : list bool :=
  match e.1 with Some x => u_bits 1 1 ++ pair_bits x | None => u_bits 1 0 end ++
  opt chroma (match e.2 with
              | Some (x, y) => u_bits 1 1 ++ pair_bits x ++ pair_bits y
              | None => u_bits 1 0
              end).

Definition weight_ok (e : weight_entry) : Prop :=
  (forall x, e.1 = Some x -> pair_ok x) /\ (forall x y, e.2 = Some (x, y) -> pair_ok x /\ pair_ok y).

Definition flag_of {A} (o : option A) : Z := match o with Some _ => 1 | None => 0 end.

(** The defaults are the weight [1 << denom] and the offset 0. *)
Definition put_weight (i : nat) (chroma : bool) (ld cd : Z) (e : weight_entry) (w : weights) : weights :=
  let l := default (2 ^ ld, 0) e.1 in
  let c := default ((2 ^ cd, 0), (2 ^ cd, 0)) e.2 in
  let lws := <[i := l.1]> (luma_weight w) in
  let los := <[i := l.2]> (luma_offset w) in
  if chroma then
    mkWeights (flag_of e.1) lws los (flag_of e.2) (<[i := (c.1.1, c.2.1)]> (chroma_weight w))
      (<[i := (c.1.2, c.2.2)]> (chroma_offset w))
  else mkWeights (flag_of e.1) lws los (chroma_weight_flag w) (chroma_weight w) (chroma_offset w).

Record weights_shape (w : weights) : Prop := {
  ws_lw : length (luma_weight w) = 32%nat; ws_lo : length (luma_offset w) = 32%nat;
  ws_cw : length (chroma_weight w) = 32%nat; ws_co : length (chroma_offset w) = 32%nat
}.

Lemma put_weight_shape i chroma ld cd e w : weights_shape w -> weights_shape (put_weight i chroma ld cd e w).
Proof. intros []. unfold put_weight. by destruct chroma; split; cbn; rewrite ?length_insert. Qed.

Lemma reads_pair x : pair_ok x -> reads (w ← se; o ← se; mret (w, o)) (pair_bits x) x.
Proof.
  intros [Hw Ho]. unfold pair_bits. next_field. rewrite <- (app_nil_r (se_bits x.2)). next_field.
  destruct x. apply reads_ret.
Qed.

Lemma reads_shift d : 0 <= d < 31 -> reads (shift_one d) [] (2 ^ d).
Proof.
  intros Hd. unfold shift_one. rewrite (proj2 (Z.ltb_lt d 31)) by lia.
  rewrite Z.shiftl_1_l. change (@nil bool) with (@nil bool ++ @nil bool).
  eapply reads_bind; [exact (reads_ret tt)|apply reads_ret].
Qed.

(** A pair behind its flag, or the default. *)
Lemma reads_weight_pair (o : option (Z * Z)) d :
  0 <= d < 31 -> (forall x, o = Some x -> pair_ok x) ->
  reads (if nz (flag_of o) then x ← se; y ← se; mret (x, y) else x ← shift_one d; mret (x, 0))
    (match o with Some x => pair_bits x | None => [] end) (default (2 ^ d, 0) o).
Proof.
  intros Hd Ho. destruct o as [x|].
  - change (nz (flag_of (Some x))) with true. cbv iota. by apply reads_pair, Ho.
  - change (nz (flag_of (@None (Z * Z)))) with false. cbv iota. eapply reads_map; [by apply reads_shift|done].
Qed.


Lemma reads_chroma_pair (o : option (Z * Z)) d :
  0 <= d < 31 -> (forall x, o = Some x -> pair_ok x) ->
  reads (parse_chroma (flag_of o) d) (match o with Some x => pair_bits x | None => [] end)
    (default (2 ^ d, 0) o).
Proof. apply reads_weight_pair. Qed.

Lemma flag_bits {A} (o : option A) : fit_u 1 true (flag_of o).
Proof. destruct o; cbn; lia. Qed.

(** The chroma half of a round. *)
Lemma reads_chroma_half i flag lws los cd e w :
  weights_shape w -> (i < 32)%nat -> 0 <= cd < 31 -> weight_ok e ->
  let c := default ((2 ^ cd, 0), (2 ^ cd, 0)) e.2 in
  reads (cflag ← u 1;
         '(w0, o0) ← parse_chroma cflag cd;
         '(w1, o1) ← parse_chroma cflag cd;
         cws ← of_option (zset (chroma_weight w) (Z.of_nat i) (w0, w1));
         cos ← of_option (zset (chroma_offset w) (Z.of_nat i) (o0, o1));
         mret (mkWeights flag lws los cflag cws cos))
    (match e.2 with Some (x, y) => u_bits 1 1 ++ pair_bits x ++ pair_bits y | None => u_bits 1 0 end)
    (mkWeights flag lws los (flag_of e.2) (<[i := (c.1.1, c.2.1)]> (chroma_weight w))
      (<[i := (c.1.2, c.2.2)]> (chroma_offset w))).
Proof.
  intros [] Hi Hcd [_ Hok]. destruct e.2 as [[x y]|]; cbn [default flag_of].
  - destruct (Hok x y eq_refl) as [Hx Hy]. eapply reads_bind; [apply (reads_field_u 1); [small|cbn; lia]|cbv beta].
    eapply reads_bind; [apply (reads_chroma_pair (Some x)); [done|congruence]|]. destruct x as [x1 x2]. cbn [default].
    rewrite <- (app_nil_r (pair_bits y)).
    eapply reads_bind; [apply (reads_chroma_pair (Some y)); [done|congruence]|]. destruct y as [y1 y2]. cbn [default].
    do 2 (eapply reads_of_option; [apply zset_nat; lia|]). apply reads_ret.
  - change (u_bits 1 0) with (u_bits 1 0 ++ [] ++ []).
    eapply reads_bind; [apply (reads_field_u 1); [small|cbn; lia]|cbv beta].
    eapply reads_bind; [by apply (reads_chroma_pair None)|]. cbn [default].
    change (@nil bool) with (@nil bool ++ @nil bool).
    eapply reads_bind; [by apply (reads_chroma_pair None)|]. cbn [default].
    do 2 (eapply reads_of_option; [apply zset_nat; lia|]). apply reads_ret.
Qed.

Fixpoint put_weights (i : nat) (chroma : bool) (ld cd : Z) (es : list weight_entry) (w : weights) : weights :=
  match es with [] => w | e :: t => put_weights (S i) chroma ld cd t (put_weight i chroma ld cd e w) end.

Lemma reads_weights chroma ld cd es i w :
  weights_shape w -> (i + length es <= 32)%nat -> 0 <= ld < 31 -> 0 <= cd < 31 -> Forall weight_ok es ->
  reads (parse_weights (length es) (Z.of_nat i) chroma ld cd w) (flat_map (weight_bits chroma) es)
    (put_weights i chroma ld cd es w).
Proof.
  intros Hw Hi Hld Hcd He. revert i w Hw Hi. induction He as [|e es He _ IH]; intros i w Hw Hi.
  { apply reads_ret. }
  cbn [length parse_weights flat_map put_weights] in *. unfold weight_bits at 1. rewrite <- !app_assoc.
  assert (match e.1 with Some x => u_bits 1 1 ++ pair_bits x | None => u_bits 1 0 end =
    u_bits 1 (flag_of e.1) ++ (match e.1 with Some x => pair_bits x | None => [] end)) as -> by (by destruct e.1).
  rewrite <- app_assoc. pose proof (flag_bits e.1). next_field.
  eapply reads_bind; [apply (reads_weight_pair e.1); [done|apply He]|].
  destruct (default (2 ^ ld, 0) e.1) as [lw lo] eqn:El.
  pose proof Hw as []. do 2 (eapply reads_of_option; [apply zset_nat; lia|]).
  replace (Z.of_nat i + 1) with (Z.of_nat (S i)) by lia.
  eapply reads_bind with (a := put_weight i chroma ld cd e w).
  - unfold put_weight. rewrite El. cbn [fst snd]. destruct chroma; cbn [opt].
    + apply (reads_chroma_half i); [done|lia|done|done].
    + apply reads_ret.
  - apply IH; [by apply put_weight_shape|lia].
Qed.

(** ** Reference picture marking (7.3.3.3) *)

(** An operation other than 0, the argument of its first field and that of
    [long_term_frame_idx]. *)
Definition marking_op : Type := Z * Z * Z.

Definition op_has_diff (v : Z) : bool := (v =? 1) || (v =? 3).
Definition op_has_idx (v : Z) : bool := (v =? 3) || (v =? 6).

Definition op_bits (o : marking_op) : list bool :=
  let '(v, a, x) := o in
  concat [ue_bits v; opt (op_has_diff v) (ue_bits a); opt (v =? 2) (ue_bits a);
          opt (op_has_idx v) (ue_bits x); opt (v =? 4) (ue_bits a)].

Definition op_ok (o : marking_op) : Prop :=
  let '(v, a, x) := o in fit_ue true v /\ fit_ue true a /\ fit_ue true x.

Definition put_if (c : bool) (i : nat) (v : Z) (l : list Z) : list Z := if c then <[i := v]> l else l.

Definition put_op (i : nat) (o : marking_op) (m : dec_ref_pic_marking_t) : dec_ref_pic_marking_t :=
  let '(v, a, x) := o in
  mkMarking (no_output_of_prior_pics_flag m) (long_term_reference_flag m)
    (adaptive_ref_pic_marking_mode_flag m)
    (<[i := v]> (memory_management_control_operation m))
    (put_if (op_has_diff v) i a (difference_of_pic_nums_minus1 m))
    (put_if (v =? 2) i a (long_term_pic_num m))
    (put_if (op_has_idx v) i x (long_term_frame_idx m))
    (put_if (v =? 4) i a (max_long_term_frame_idx_plus1 m)).

Record marking_shape (m : dec_ref_pic_marking_t) : Prop := {
  ms_ops : length (memory_management_control_operation m) = 64%nat;
  ms_diff : length (difference_of_pic_nums_minus1 m) = 64%nat;
  ms_long : length (long_term_pic_num m) = 64%nat;
  ms_idx : length (long_term_frame_idx m) = 64%nat;
  ms_max : length (max_long_term_frame_idx_plus1 m) = 64%nat
}.

Lemma length_put_if c i v l : length (put_if c i v l) = length l.
Proof. destruct c; [apply length_insert|done]. Qed.

Lemma put_op_shape i o m : marking_shape m -> marking_shape (put_op i o m).
Proof. intros []. destruct o as [[v a] x]. by split; cbn; rewrite ?length_put_if, ?length_insert. Qed.

Lemma reads_store_ue c arr i v :
  (i < length arr)%nat -> fit_ue true v ->
  reads (store_ue c arr (Z.of_nat i)) (opt c (ue_bits v)) (put_if c i v arr).
Proof.
  intros Hi Hv. unfold store_ue, put_if. destruct c; [|apply reads_ret].
  cbn [opt]. rewrite <- (app_nil_r (ue_bits v)). next_field. rewrite zset_nat by done. apply reads_ret.
Qed.

Fixpoint put_ops (i : nat) (os : list marking_op) (m : dec_ref_pic_marking_t) : dec_ref_pic_marking_t :=
  match os with [] => m | o :: t => put_ops (S i) t (put_op i o m) end.

(** The operations, then the 0 that ends them. *)
Lemma reads_marking_loop os i m f :
  Forall (fun o => op_ok o /\ o.1.1 <> 0) os -> marking_shape m -> (i + length os < 64)%nat ->
  (length os < f)%nat ->
  reads (marking_loop f (Z.of_nat i) m) (flat_map op_bits (os ++ [(0, 0, 0)]))
    (put_ops i (os ++ [(0, 0, 0)]) m).
Proof.
  intros Hos. revert i m f. induction Hos as [|[[v a] x] os [Hok Hv] _ IH]; intros i m f Hm Hi Hf;
    (destruct f as [|f]; [lia|]); pose proof Hm as []; cbn [app flat_map marking_loop put_ops length] in *.
  - rewrite app_nil_r. unfold op_bits. cbn [concat]. assert (fit_ue true 0) as H0 by (cbn; lia). next_field.
    eapply reads_of_option; [apply zset_nat; lia|].
    do 4 (eapply reads_bind; [apply reads_store_ue; [lia|done]|cbv beta zeta]).
    change (0 =? 0) with true. apply reads_ret.
  - destruct Hok as (Hv1 & Ha & Hx). cbn [fst] in Hv. unfold op_bits at 1. cbn [concat].
    rewrite <- !app_assoc, app_nil_l. next_field. eapply reads_of_option; [apply zset_nat; lia|].
    do 4 (eapply reads_bind; [apply reads_store_ue; [lia|done]|cbv beta zeta]).
    rewrite (proj2 (Z.eqb_neq v 0)) by done.
    replace (Z.of_nat i + 1) with (Z.of_nat (S i)) by lia.
    apply IH; [apply (put_op_shape i (v, a, x) m Hm)|lia|lia].
Qed.

(** ** The parts of a header *)

Lemma reads_as_int x : - 2 ^ 31 <= x < 2 ^ 31 -> reads (as_int x) [] x.
Proof.
  intros H. unfold as_int. rewrite (proj2 (Z.leb_le _ _)), (proj2 (Z.ltb_lt _ _)) by lia.
  change (@nil bool) with (@nil bool ++ @nil bool).
  eapply reads_bind; [exact (reads_ret tt)|apply reads_ret].
Qed.

(** A step that reads nothing. *)
Lemma reads_pure {A B} (m : prog bs_t A) (k : A -> prog bs_t B) l a r :
  reads m [] a -> reads (k a) l r -> reads (m ≫= k) l r.
Proof. intros Hm Hk. change l with ([] ++ l). by eapply reads_bind. Qed.

(** A field whose width comes from a parameter set. *)
Lemma reads_u_width n v : 0 <= n <= 31 -> fit_u (Z.to_nat n) true v -> reads (u n) (u_bits (Z.to_nat n) v) v.
Proof.
  intros Hn Hv. pose proof (reads_field_u (Z.to_nat n) v ltac:(lia) Hv) as H.
  by rewrite Z2Nat.id in H by lia.
Qed.

Lemma reads_width x n v :
  0 <= n <= 31 -> x = n -> fit_u (Z.to_nat n) true v ->
  reads (k ← as_int x; u k) (u_bits (Z.to_nat n) v) v.
Proof.
  intros Hn -> Hv. eapply reads_pure; [apply reads_as_int; lia|]. by apply reads_u_width.
Qed.

Lemma reads_alloc calloc_ok n :
  (forall k, calloc_ok k = true) -> reads (alloc_ints calloc_ok n) [] (replicate (Z.to_nat n) 0).
Proof. intros H. unfold alloc_ints. rewrite H. apply reads_ret. Qed.

Definition no_modification : modification := mkModification 0 None None None.

Lemma reads_alloc_modification calloc_ok has n :
  (forall k, calloc_ok k = true) ->
  reads (alloc_ref_pic_list_modification_buffer calloc_ok has n) []
    (if has then empty_modification n else no_modification).
Proof.
  intros H. unfold alloc_ref_pic_list_modification_buffer. destruct has; [|apply reads_ret].
  do 3 (eapply reads_pure; [by apply reads_alloc|]). apply reads_ret.
Qed.

(** The modification syntax of one list: its flag and its commands. *)
Definition list_mod : Type := Z * list command.

Definition list_mod_ok (has : bool) (n : Z) (m : list_mod) : Prop :=
  has = true -> fit_u 1 true m.1 /\ Forall command_ok m.2 /\ Z.of_nat (length m.2) < n.

Definition modification_of (has : bool) (n : Z) (m : list_mod) : modification :=
  if has then modified n m.1 m.2 else no_modification.

Lemma reads_both_modifications calloc_ok type l0 l1 m0 m1 :
  (forall k, calloc_ok k = true) ->
  list_mod_ok (has_l0 type) (l0 + 1) m0 -> list_mod_ok (type =? Slice_Type_B) (l1 + 1) m1 ->
  reads (parse_ref_pic_list_modification calloc_ok type l0 l1)
    (opt (has_l0 type) (modification_bits m0.1 m0.2) ++
     opt (type =? Slice_Type_B) (modification_bits m1.1 m1.2))
    (modification_of (has_l0 type) (l0 + 1) m0, modification_of (type =? Slice_Type_B) (l1 + 1) m1).
Proof.
  intros Hc H0 H1. unfold parse_ref_pic_list_modification, modification_of.
  do 2 (eapply reads_pure; [by apply reads_alloc_modification|]).
  eapply reads_bind; [|rewrite <- (app_nil_r (opt (type =? Slice_Type_B) _)); eapply reads_bind; [|apply reads_ret]].
  - destruct (has_l0 type); [|apply reads_ret]. destruct (H0 eq_refl) as (? & ? & ?). by apply reads_modification.
  - destruct (type =? Slice_Type_B); [|apply reads_ret]. destruct (H1 eq_refl) as (? & ? & ?). by apply reads_modification.
Qed.

(** The weight table of a slice with [l0 + 1] and, for B, [l1 + 1] entries. *)
Record table_syntax := mkTableSyntax {
  ts_luma : Z;
  ts_chroma : Z;
  ts_l0 : list weight_entry;
  ts_l1 : list weight_entry
}.

Definition table_bits (chroma isB : bool) (t : table_syntax) : list bool := concat
  [ue_bits (ts_luma t); opt chroma (ue_bits (ts_chroma t)); flat_map (weight_bits chroma) (ts_l0 t);
   opt isB (flat_map (weight_bits chroma) (ts_l1 t))].

Definition table_of (chroma isB : bool) (t : table_syntax) : pred_weight_table_t :=
  let put es := put_weights 0 chroma (ts_luma t) (ts_chroma t) es weights_zero in
  mkWeightTable (ts_luma t) (ts_chroma t) (put (ts_l0 t)) (if isB then put (ts_l1 t) else weights_zero).

(** At most 32 entries: the bound of the arrays. *)
Record table_ok (chroma isB : bool) (l0 l1 : Z) (t : table_syntax) : Prop := {
  tk_luma : 0 <= ts_luma t < 31;
  tk_chroma : if chroma then 0 <= ts_chroma t < 31 else ts_chroma t = 0;
  tk_l0 : length (ts_l0 t) = Z.to_nat (l0 + 1) /\ (length (ts_l0 t) <= 32)%nat /\ Forall weight_ok (ts_l0 t);
  tk_l1 : isB = true ->
    length (ts_l1 t) = Z.to_nat (l1 + 1) /\ (length (ts_l1 t) <= 32)%nat /\ Forall weight_ok (ts_l1 t)
}.

Lemma weights_zero_shape : weights_shape weights_zero.
Proof. by split. Qed.

Lemma reads_table sps type l0 l1 t :
  let chroma := nz (chroma_format_idc sps) in
  let isB := type =? Slice_Type_B in
  table_ok chroma isB l0 l1 t ->
  reads (parse_pred_weight_table sps type l0 l1) (table_bits chroma isB t) (table_of chroma isB t).
Proof.
  intros chroma isB [Hl Hc (L0 & M0 & W0) H1]. unfold parse_pred_weight_table, table_bits, table_of.
  fold chroma isB. cbn [concat].
  assert (0 <= ts_chroma t < 31) as Hc' by (destruct chroma; lia).
  eapply reads_bind; [apply reads_field_ue; cbn; lia|cbv beta zeta].
  eapply reads_bind; [apply reads_when_ue; destruct chroma; cbn; lia|cbv beta].
  rewrite <- L0. eapply reads_bind.
  { apply (reads_weights chroma _ _ (ts_l0 t) 0); done || apply weights_zero_shape. }
  eapply reads_bind; [|apply reads_ret]. destruct isB; [|apply reads_ret].
  destruct (H1 eq_refl) as (L1 & M1 & W1). rewrite <- L1. cbn [opt].
  apply (reads_weights chroma _ _ (ts_l1 t) 0); done || apply weights_zero_shape.
Qed.

(** The marking syntax: the two flags of an IDR picture, or the adaptive flag and
    its operations. *)
Record marking_syntax := mkMarkingSyntax {
  mk_no_output : Z;
  mk_long_term : Z;
  mk_adaptive : Z;
  mk_ops : list marking_op
}.

Definition marking_bits (idr : bool) (m : marking_syntax) : list bool :=
  if idr then u_bits 1 (mk_no_output m) ++ u_bits 1 (mk_long_term m)
  else u_bits 1 (mk_adaptive m) ++ opt (nz (mk_adaptive m)) (flat_map op_bits (mk_ops m ++ [(0, 0, 0)])).

Definition marking_of (idr : bool) (m : marking_syntax) : dec_ref_pic_marking_t :=
  let z := replicate 64 0 in
  if idr then mkMarking (mk_no_output m) (mk_long_term m) 0 z z z z z
  else
    let start := mkMarking 0 0 (mk_adaptive m) z z z z z in
    if nz (mk_adaptive m) then put_ops 0 (mk_ops m ++ [(0, 0, 0)]) start else start.

Definition marking_ok (idr : bool) (m : marking_syntax) : Prop :=
  if idr then fit_u 1 true (mk_no_output m) /\ fit_u 1 true (mk_long_term m)
  else fit_u 1 true (mk_adaptive m) /\
    Forall (fun o => op_ok o /\ o.1.1 <> 0) (mk_ops m) /\ (length (mk_ops m) < 64)%nat.

Lemma reads_marking idr m :
  marking_ok idr m -> reads (parse_dec_ref_pic_marking idr) (marking_bits idr m) (marking_of idr m).
Proof.
  unfold marking_ok, parse_dec_ref_pic_marking, marking_bits, marking_of. destruct idr.
  - intros [? ?]. next_field. rewrite <- (app_nil_r (u_bits 1 _)). next_field. apply reads_ret.
  - intros (? & Ho & Hl). next_field. destruct (nz (mk_adaptive m)); [|apply reads_ret]. cbn [opt].
    apply (reads_marking_loop (mk_ops m) 0); [done|by split|lia|unfold MARKING_FUEL; lia].
Qed.

(** The width of [slice_group_change_cycle] by the standard:
    Ceil(Log2(PicSizeInMapUnits / SliceGroupChangeRate + 1)). *)
Definition pic_size (sps : sps_t) : Z :=
  (pic_width_in_mbs_minus1 sps + 1) * (pic_height_in_map_units_minus1 sps + 1).

Definition change_cycle_width (sps : sps_t) (pps : pps_t) : Z :=
  let rate := slice_group_change_rate_minus1 pps + 1 in
  Z.log2_up ((pic_size sps + (rate - 1)) / rate + 1).

Lemma reads_change_cycle_bits sps pps :
  0 <= pic_width_in_mbs_minus1 sps -> 0 <= pic_height_in_map_units_minus1 sps ->
  pic_size sps < 2 ^ 31 - 1 -> 0 <= slice_group_change_rate_minus1 pps < 2 ^ 31 - 1 ->
  reads (change_cycle_bits sps pps) [] (change_cycle_width sps pps).
Proof.
  intros Hw Hh Hs Hr. unfold change_cycle_bits, change_cycle_width, pic_size in *.
  set (w := pic_width_in_mbs_minus1 sps + 1) in *. set (h := pic_height_in_map_units_minus1 sps + 1) in *.
  set (rate := slice_group_change_rate_minus1 pps + 1).
  assert (1 <= w /\ 1 <= h) as [Hw1 Hh1] by (unfold w, h; lia).
  assert (w <= w * h /\ h <= w * h) as [Hw2 Hh2] by nia.
  do 4 (eapply reads_pure; [apply reads_as_int; unfold rate; lia|]).
  rewrite (proj2 (Z.eqb_neq rate 0)) by (unfold rate; lia).
  eapply reads_pure; [exact (reads_ret tt)|]. cbv zeta.
  assert (1 <= rate) as Hrate by (unfold rate; lia).
  rewrite Z.quot_div_nonneg, Z.rem_mod_nonneg by lia.
  pose proof (Z.div_mod (w * h) rate ltac:(lia)) as Hdm. pose proof (Z.mod_pos_bound (w * h) rate ltac:(lia)).
  assert ((if negb ((w * h) mod rate =? 0) then w * h / rate + 1 else w * h / rate) =
    (w * h + (rate - 1)) / rate) as ->.
  { destruct (Z.eqb_spec ((w * h) mod rate) 0) as [E|E]; cbn [negb].
    - apply Z.div_unique with (rate - 1); lia.
    - apply Z.div_unique with ((w * h) mod rate - 1); lia. }
  assert (0 <= (w * h + (rate - 1)) / rate <= w * h).
  { split; [apply Z.div_pos; lia|]. apply Z.lt_succ_r, Z.div_lt_upper_bound; nia. }
  do 2 (eapply reads_pure; [apply reads_as_int; lia|]).
  rewrite calculateCeilLog2_correct by lia. apply reads_ret.
Qed.

(** ** The header (7.3.3) *)

Lemma reads_first_three coded h :
  fit_ue true (first_mb_in_slice h) -> fit_ue true coded -> fit_ue true (sh_pic_parameter_set_id h) ->
  slice_type h = (if 4 <? coded then coded - 5 else coded) ->
  reads parse_first_three_element
    (concat [ue_bits (first_mb_in_slice h); ue_bits coded; ue_bits (sh_pic_parameter_set_id h)])
    (first_mb_in_slice h, slice_type h, sh_pic_parameter_set_id h).
Proof.
  intros ? ? ? Et. unfold parse_first_three_element. cbn [concat]. do 3 next_field.
  rewrite <- Et. apply reads_ret.
Qed.

Section Header.
Variables (sps : sps_t) (pps : pps_t) (calloc_ok : Z -> bool) (idr ref : Z) (h : slice_header_t).
(** The syntax of the three parts the structure holds in decoded form. *)
Variables (m0 m1 : list_mod) (t : table_syntax) (mk : marking_syntax).

Definition is_B : bool := slice_type h =? Slice_Type_B.
Definition is_SP : bool := slice_type h =? Slice_Type_SP.
Definition is_P : bool := (slice_type h =? Slice_Type_P) || is_SP.
Definition has_field : bool := negb (nz (frame_mbs_only_flag sps)).
Definition frame_bottom : bool :=
  nz (bottom_field_pic_order_in_frame_present_flag pps) && negb (nz (field_pic_flag h)).
Definition poc0 : bool := pic_order_cnt_type sps =? 0.
Definition poc1 : bool :=
  (pic_order_cnt_type sps =? 1) && negb (nz (delta_pic_order_always_zero_flag sps)).
Definition has_override : bool := nz (num_ref_idx_active_override_flag h).
Definition has_table : bool :=
  (nz (weighted_pred_flag pps) && is_P) || ((weighted_bipred_idc pps =? 1) && is_B).
Definition has_deblocking : bool := nz (deblocking_filter_control_present_flag pps).
Definition has_offsets : bool := has_deblocking && negb (disable_deblocking_filter_idc h =? 1).
Definition has_cycle : bool :=
  (0 <? num_slice_groups_minus1 pps) && (3 <=? slice_group_map_type pps) &&
  (slice_group_map_type pps <=? 5).
Definition chroma_present : bool := nz (chroma_format_idc sps).

Definition header_bits : list bool := concat
  [opt (separate_colour_plane_flag sps =? 1) (u_bits 2 (colour_plane_id h));
   u_bits (Z.to_nat (log2_max_frame_num_minus4 sps + 4)) (frame_num h);
   opt has_field (u_bits 1 (field_pic_flag h));
   opt (has_field && nz (field_pic_flag h)) (u_bits 1 (bottom_field_flag h));
   opt (nz idr) (ue_bits (idr_pic_id h));
   opt poc0 (u_bits (Z.to_nat (log2_max_pic_order_cnt_lsb_minus4 sps + 4)) (pic_order_cnt_lsb h));
   opt (poc0 && frame_bottom) (se_bits (delta_pic_order_cnt_bottom h));
   opt poc1 (se_bits (delta_pic_order_cnt h).1);
   opt (poc1 && frame_bottom) (se_bits (delta_pic_order_cnt h).2);
   opt (nz (redundant_pic_cnt_present_flag pps)) (ue_bits (redundant_pic_cnt h));
   opt is_B (u_bits 1 (direct_spatial_mv_pred_flag h));
   opt (is_P || is_B) (u_bits 1 (num_ref_idx_active_override_flag h));
   opt ((is_P || is_B) && has_override) (ue_bits (num_ref_idx_l0_active_minus1 h));
   opt (is_B && has_override) (ue_bits (num_ref_idx_l1_active_minus1 h));
   opt (has_l0 (slice_type h)) (modification_bits m0.1 m0.2) ++ opt is_B (modification_bits m1.1 m1.2);
   opt has_table (table_bits chroma_present is_B t);
   opt (nz ref) (marking_bits (nz idr) mk);
   opt (nz (entropy_coding_mode_flag pps) && has_l0 (slice_type h)) (ue_bits (cabac_init_idc h));
   se_bits (slice_qp_delta h);
   opt is_SP (u_bits 1 (sp_for_switch_flag h));
   opt (is_SP || (slice_type h =? Slice_Type_SI)) (se_bits (slice_qs_delta h));
   opt has_deblocking (ue_bits (disable_deblocking_filter_idc h));
   opt has_offsets (se_bits (slice_alpha_c0_offset_div2 h));
   opt has_offsets (se_bits (slice_beta_offset_div2 h));
   opt has_cycle (u_bits (Z.to_nat (change_cycle_width sps pps)) (slice_group_change_cycle h))].

Definition fit_width (c : bool) (n v : Z) : Prop :=
  if c then 0 <= n <= 31 /\ fit_u (Z.to_nat n) true v else v = 0.

Record header_ok : Prop := {
  hk_frame : fit_u 2 (separate_colour_plane_flag sps =? 1) (colour_plane_id h) /\
    fit_width true (log2_max_frame_num_minus4 sps + 4) (frame_num h) /\
    fit_u 1 has_field (field_pic_flag h) /\
    fit_u 1 (has_field && nz (field_pic_flag h)) (bottom_field_flag h) /\
    fit_ue (nz idr) (idr_pic_id h);
  hk_poc : fit_width poc0 (log2_max_pic_order_cnt_lsb_minus4 sps + 4) (pic_order_cnt_lsb h) /\
    fit_se (poc0 && frame_bottom) (delta_pic_order_cnt_bottom h) /\
    fit_se poc1 (delta_pic_order_cnt h).1 /\ fit_se (poc1 && frame_bottom) (delta_pic_order_cnt h).2 /\
    fit_ue (nz (redundant_pic_cnt_present_flag pps)) (redundant_pic_cnt h);
  hk_refs : fit_u 1 is_B (direct_spatial_mv_pred_flag h) /\
    fit_u 1 (is_P || is_B) (num_ref_idx_active_override_flag h) /\
    fit_ue ((is_P || is_B) && has_override) (num_ref_idx_l0_active_minus1 h) /\
    fit_ue (is_B && has_override) (num_ref_idx_l1_active_minus1 h);
  hk_mods : list_mod_ok (has_l0 (slice_type h)) (num_ref_idx_l0_active_minus1 h + 1) m0 /\
    list_mod_ok is_B (num_ref_idx_l1_active_minus1 h + 1) m1 /\
    modification_l0 h =
      modification_of (has_l0 (slice_type h)) (num_ref_idx_l0_active_minus1 h + 1) m0 /\
    modification_l1 h = modification_of is_B (num_ref_idx_l1_active_minus1 h + 1) m1;
  hk_table : (has_table = true -> table_ok chroma_present is_B (num_ref_idx_l0_active_minus1 h)
      (num_ref_idx_l1_active_minus1 h) t) /\
    pred_weight_table h = if has_table then table_of chroma_present is_B t else table_zero;
  hk_marking : (nz ref = true -> marking_ok (nz idr) mk) /\
    dec_ref_pic_marking h = if nz ref then marking_of (nz idr) mk else marking_zero;
  hk_quant : fit_ue (nz (entropy_coding_mode_flag pps) && has_l0 (slice_type h)) (cabac_init_idc h) /\
    fit_se true (slice_qp_delta h) /\ fit_u 1 is_SP (sp_for_switch_flag h) /\
    fit_se (is_SP || (slice_type h =? Slice_Type_SI)) (slice_qs_delta h);
  hk_deblocking : fit_ue has_deblocking (disable_deblocking_filter_idc h) /\
    fit_se has_offsets (slice_alpha_c0_offset_div2 h) /\
    fit_se has_offsets (slice_beta_offset_div2 h);
  hk_cycle : fit_width has_cycle (change_cycle_width sps pps) (slice_group_change_cycle h) /\
    (has_cycle = true -> 0 <= pic_width_in_mbs_minus1 sps /\ 0 <= pic_height_in_map_units_minus1 sps /\
      pic_size sps < 2 ^ 31 - 1 /\ 0 <= slice_group_change_rate_minus1 pps < 2 ^ 31 - 1)
}.

Lemma reads_opt_width c (x n : Z) v :
  fit_width c n v -> x = n ->
  reads (if c then k ← as_int x; u k else mret 0) (opt c (u_bits (Z.to_nat n) v)) v.
Proof.
  intros Hv Hx. apply reads_if; intros ->; cbn [fit_width] in Hv; [|done].
  destruct Hv. by apply reads_width.
Qed.

Lemma reads_cycle :
  header_ok ->
  reads (if has_cycle then n ← change_cycle_bits sps pps; u n else mret 0)
    (opt has_cycle (u_bits (Z.to_nat (change_cycle_width sps pps)) (slice_group_change_cycle h)))
    (slice_group_change_cycle h).
Proof.
  intros [_ _ _ _ _ _ _ _ (Hc & Hp)]. apply reads_if; intros E; rewrite E in Hc; [|done].
  destruct (Hp E) as (? & ? & ? & ?). destruct Hc as [Hn Hv].
  eapply reads_pure; [by apply reads_change_cycle_bits|].
  by apply reads_u_width.
Qed.

(** The rest of a well-formed header is read back, whatever its type. *)
Lemma reads_header :
  (forall n, calloc_ok n = true) -> header_ok ->
  reads (parse_rest_elememt_of_sliceHeader sps pps calloc_ok idr ref
      (first_mb_in_slice h, slice_type h, sh_pic_parameter_set_id h)) header_bits h.
Proof.
  intros Hc Hok. pose proof (reads_cycle Hok) as Hcycle.
  destruct Hok as [(? & Hfn & ? & ? & ?) (Hlsb & ? & ? & ? & ?) (? & ? & ? & ?) (Hm0 & Hm1 & E0 & E1)
    (Ht & Et) (Hmk & Emk) (? & ? & ? & ?) (? & ? & ?) _].
  unfold parse_rest_elememt_of_sliceHeader, header_bits. cbn [concat].
  fold is_SP is_B. fold is_P has_field poc0 poc1.
  eapply reads_bind; [|cbv beta].
  { apply (reads_when_u 2); [small|eassumption]. }
  destruct Hfn as [Hn Hfn]. eapply reads_pure; [apply reads_as_int; lia|].
  eapply reads_bind; [by apply reads_u_width|cbv beta].
  do 3 next_field. fold frame_bottom.
  eapply reads_bind; [by apply reads_opt_width|cbv beta].
  do 8 next_field.
  eapply reads_bind; [by apply reads_both_modifications|cbv beta iota zeta].
  fold has_table. eapply reads_bind with (a := pred_weight_table h).
  { apply reads_if; [|intros E; by rewrite Et, E]. intros E. rewrite Et, E. by apply reads_table, Ht. }
  eapply reads_bind with (a := dec_ref_pic_marking h).
  { apply reads_if; [|intros E; by rewrite Emk, E]. intros E. rewrite Emk, E. by apply reads_marking, Hmk. }
  do 7 next_field. fold has_cycle. eapply reads_bind; [exact Hcycle|].
  fold is_B in E0, E1 |- *. rewrite <- E0, <- E1.
  assert (((delta_pic_order_cnt h).1, (delta_pic_order_cnt h).2) = delta_pic_order_cnt h) as ->
    by (by destruct (delta_pic_order_cnt h)).
  clear. destruct h. apply reads_ret.
Qed.
End Header.
