(* ===== verification/H264Decode.v ===== *)
(** The H.264 analyser as a whole: the tables of parameter sets of
    [src/h264/H264Analysis/parset.c], [read_nal_unit] of [nalu.c],
    [processSliceHeader] of [header.c], [stream.c] and [decode.c]. *)

From S2P Require Import Prelude H264Bits H264Nalu H264Parset H264Header.
#[local] Open Scope Z_scope.

(** Table 7-1 *)
Definition H264_NAL_SLICE : Z := 1.
Definition H264_NAL_DPA : Z := 2.
Definition H264_NAL_DPB : Z := 3.
Definition H264_NAL_DPC : Z := 4.
Definition H264_NAL_IDR_SLICE : Z := 5.
Definition H264_NAL_SPS : Z := 7.
Definition H264_NAL_PPS : Z := 8.

(** The structures whose elements the trace file lists, in order. *)
Inductive traced :=
| TraceSps (s : sps_t)
| TracePps (p : pps_t)
| TraceSlice (h : slice_header_t).

(** The globals of [parset.c].  [active_sps] and [active_pps] point into the
    arrays, which the slices share.  [traces] is the trace file, latest first. *)
Record Tables := mkTables {
  Sequence_Parameters_Set_Array : list sps_t;
  Picture_Parameters_Set_Array : list pps_t;
  active_sps : option Z;
  active_pps : option Z;
  traces : list traced
}.

(** [calloc_ok n] tells whether an allocation of [n] bytes succeeds. *)
Record Dec := mkDec {
  scan : Scan;
  tables : Tables;
  calloc_ok : Z -> bool
}.

Definition set_scan (x : Scan) (s : Dec) : Dec := mkDec x (tables s) (calloc_ok s).
Definition set_tables (f : Tables -> Tables) (s : Dec) : Dec := mkDec (scan s) (f (tables s)) (calloc_ok s).

Definition set_sps_array (l : list sps_t) (t : Tables) : Tables :=
  mkTables l (Picture_Parameters_Set_Array t) (active_sps t) (active_pps t) (traces t).
Definition set_pps_array (l : list pps_t) (t : Tables) : Tables :=
  mkTables (Sequence_Parameters_Set_Array t) l (active_sps t) (active_pps t) (traces t).
Definition set_active (a b : option Z) (t : Tables) : Tables :=
  mkTables (Sequence_Parameters_Set_Array t) (Picture_Parameters_Set_Array t) a b (traces t).
Definition add_trace (x : traced) (t : Tables) : Tables :=
  mkTables (Sequence_Parameters_Set_Array t) (Picture_Parameters_Set_Array t) (active_sps t)
    (active_pps t) (x :: traces t).

(** Runs a reader on the handle [b], which it returns as it leaves it. *)
Definition with_bs {A} (b : bs_t) (m : prog bs_t A) : prog Dec (A * bs_t) := fun s =>
  match m b with
  | Ret a b' => Ret (a, b') s
  | Exit c _ => Exit c s
  | Undef => Undef
  | NoFuel => NoFuel
  end.

Definition with_nalu {A} (m : prog nalu_t A) : prog Dec A :=
  zoom (fun s => nalu (scan s)) (fun u s => set_scan (set_nalu u (scan s)) s) m.

(** ** [parset.c] *)

Definition activeParameterSet (pps_id : Z) : prog Dec unit :=
  l ← gets (fun s => Picture_Parameters_Set_Array (tables s));
  pps ← of_option (zget l pps_id);
  k ← gets (fun s => Sequence_Parameters_Set_Array (tables s));
  of_option (zget k (pps_seq_parameter_set_id pps));;
  modify (set_tables (set_active (Some (pps_seq_parameter_set_id pps)) (Some pps_id))).

Definition save_sps_as_available (s : sps_t) : prog Dec unit :=
  l ← gets (fun s => Sequence_Parameters_Set_Array (tables s));
  l ← of_option (zset l (seq_parameter_set_id s) s);
  modify (set_tables (set_sps_array l)).

Definition processSPS (b : bs_t) : prog Dec unit :=
  '(s, _) ← with_bs b parse_sps_syntax_element;
  modify (set_tables (add_trace (TraceSps s)));;
  save_sps_as_available s.

(** The block of the old set is freed, that of the new one changes hands. *)
Definition save_pps_as_available (p : pps_t) : prog Dec unit :=
  l ← gets (fun s => Picture_Parameters_Set_Array (tables s));
  l ← of_option (zset l (pic_parameter_set_id p) p);
  modify (set_tables (set_pps_array l)).

Definition processPPS (b : bs_t) : prog Dec unit :=
  sets ← gets (fun s => Sequence_Parameters_Set_Array (tables s));
  ok ← gets calloc_ok;
  '(p, _) ← with_bs b (parse_pps_syntax_element sets ok);
  modify (set_tables (add_trace (TracePps p)));;
  save_pps_as_available p.

(** ** [slice.c] and [header.c] *)

(** A dereference of [active_sps] and [active_pps]. *)
Definition active_sets : prog Dec (sps_t * pps_t) := fun s =>
  match active_sps (tables s), active_pps (tables s) with
  | Some i, Some j =>
      match zget (Sequence_Parameters_Set_Array (tables s)) i,
            zget (Picture_Parameters_Set_Array (tables s)) j with
      | Some sps, Some pps => Ret (sps, pps) s
      | _, _ => Undef
      end
  | _, _ => Undef
  end.

Definition processSlice (b : bs_t) (idr_flag ref_idc : Z) : prog Dec unit :=
  '(three, b) ← with_bs b parse_first_three_element;
  let '(_, _, pps_id) := three in
  activeParameterSet pps_id;;
  '(sps, pps) ← active_sets;
  ok ← gets calloc_ok;
  '(h, _) ← with_bs b (parse_rest_elememt_of_sliceHeader sps pps ok idr_flag ref_idc three);
  modify (set_tables (add_trace (TraceSlice h))).

(** ** [read_nal_unit] *)

Definition set_header (f r t : Z) (x : nalu_t) : nalu_t := mkNalu f r t (len x) (buf x).

(** [nalu->len = rbsp_to_sodb(nalu)] *)
Definition store_sodb : prog Dec unit :=
  n ← with_nalu rbsp_to_sodb;
  with_nalu (modify (set_len n)).

(** What follows the removal of the emulation prevention bytes. *)
Definition read_rbsp : prog Dec unit :=
  x ← gets (fun s => nalu (scan s));
  let b := bs_init (buf x) (len x) in
  '(f, b) ← with_bs b (u 1);
  '(r, b) ← with_bs b (u 2);
  '(t, b) ← with_bs b (u 5);
  with_nalu (modify (set_header f r t));;
  if t =? H264_NAL_SPS then store_sodb;; processSPS b
  else if t =? H264_NAL_PPS then store_sodb;; processPPS b
  else if (t =? H264_NAL_SLICE) || (t =? H264_NAL_IDR_SLICE) then
    store_sodb;; processSlice b (if t =? H264_NAL_IDR_SLICE then 1 else 0) r
  else if (t =? H264_NAL_DPA) || (t =? H264_NAL_DPB) || (t =? H264_NAL_DPC) then store_sodb
  else mret tt.

Definition read_nal_unit : prog Dec unit :=
  n ← with_nalu nal_to_rbsp;
  with_nalu (modify (set_len n));;
  read_rbsp.

(** ** [decode.c] *)

Definition MAX_NALU_SIZE : nat := Z.to_nat 8000000.
Definition MAX_BUFFER_SIZE : Z := 50 * 1024 * 1024.

(** The loop of [main]; every unit found moves the index on. *)
Fixpoint decode_loop (fuel : nat) (buff_size : Z) : prog Dec unit :=
  match fuel with
  | O => nofuel
  | S f =>
      n ← zoom scan set_scan (find_nal_unit buff_size);
      if 0 <? n then read_nal_unit;; decode_loop f buff_size else mret tt
  end.

Definition allocNalu (buff_size : nat) : nalu_t := mkNalu 0 0 0 0 (replicate buff_size 0).

(** [main] on a file that could be opened; [block] is what [malloc] returned for
    the buffer.  The result is the exit code. *)
Definition main (file block : list Z) (ok : Z -> bool) : outcome Dec Z :=
  let contents := take (Z.to_nat MAX_BUFFER_SIZE) file in
  let buff_size := Z.of_nat (length contents) in
  let s := mkDec (mkScan (put 0 contents block) (allocNalu MAX_NALU_SIZE) 0 0)
             (mkTables (replicate 32 sps_zero) (replicate 256 pps_zero) None None []) ok in
  (decode_loop (S (length contents)) buff_size;; mret 0) s.
