(* ===== verification/H264Stream.v ===== *)
(** The analyser against an encoder of whole streams: start codes, emulation
    prevention and the syntax of the units. *)

From S2P Require Import Prelude H264Bits H264Nalu H264Parset H264Syntax H264Header H264Slice H264Decode.
#[local] Open Scope Z_scope.

(** ** The escaped bytes hold no start code *)

Lemma boundary_nonzero a l : a <> 0 -> boundary (a :: l) = false.
Proof.
  intros H. apply Z.eqb_neq in H. destruct l as [|b [|c l]]; [done..|]. simpl. by rewrite H.
Qed.

Lemma boundary_second b l : b <> 0 -> boundary (0 :: b :: l) = false.
Proof. intros H. apply Z.eqb_neq in H. destruct l as [|c l]; [done|]. simpl. by rewrite H. Qed.

Lemma boundary_third c l : c <> 0 -> c <> 1 -> boundary (0 :: 0 :: c :: l) = false.
Proof. intros H0 H1. apply Z.eqb_neq in H0, H1. simpl. by rewrite H0, H1. Qed.

Lemma escape_boundary l z k :
  (z <= 2)%nat -> Forall is_byte l -> boundary (drop k (replicate z 0 ++ escape (Z.of_nat z) l)) = false.
Proof.
  intros Hz Hb. revert z k Hz. induction Hb as [|b l Hb _ IH]; intros z k Hz.
  - destruct z as [|[|[|z]]]; [| | |lia]; cbn; destruct k as [|[|[|[|k]]]]; try done.
  - assert (forall k m, m <> 0 -> boundary (drop k (m :: escape 0 l)) = false) as Hnz.
    { intros [|j] m Hm; [by apply boundary_nonzero|]. apply (IH 0%nat j). lia. }
    cbn [escape]. destruct ((Z.of_nat z =? 2) && (b <=? 3)) eqn:E.
    + apply andb_true_iff in E as [E _]. apply Z.eqb_eq in E. assert (z = 2%nat) as -> by lia.
      destruct k as [|[|[|k]]]; cbn [replicate app drop];
        [by apply boundary_third|by apply boundary_second|by apply boundary_nonzero|].
      destruct (Z.eqb_spec b 0) as [->|Hb0]; [apply (IH 1%nat k); lia|by apply Hnz].
    + destruct (Z.eqb_spec b 0) as [->|Hb0].
      * assert (z < 2)%nat by (destruct (Z.eqb_spec (Z.of_nat z) 2); [done|lia]).
        replace (Z.of_nat z + 1) with (Z.of_nat (S z)) by lia.
        pose proof (IH (S z) k ltac:(lia)) as Hk. rewrite replicate_S_end, <- app_assoc in Hk. exact Hk.
      * destruct z as [|[|[|z]]]; [| | |lia]; cbn [replicate app] in *.
        -- by apply Hnz.
        -- destruct k as [|k]; [by apply boundary_second|]. by apply Hnz.
        -- destruct k as [|[|k]]; cbn [drop]; [|by apply boundary_second|by apply Hnz].
           change (Z.of_nat 2 =? 2) with true in E. cbn [andb] in E. apply Z.leb_gt in E.
           apply boundary_third; lia.
Qed.

Lemma escape_last l z t x :
  l = t ++ [x] -> x <> 0 -> exists t', escape z l = t' ++ [x].
Proof.
  revert z t. induction l as [|b l IH]; intros z t E Hx; [by destruct t|].
  cbn [escape]. destruct t as [|b' t].
  - injection E as -> ->. rewrite (proj2 (Z.eqb_neq x 0)) by done. cbn [escape].
    change (0 =? 2) with false. cbv iota. destruct (_ && _); [by exists [3]|by exists []].
  - injection E as -> ->. destruct ((z =? 2) && (b' <=? 3)).
    + destruct (IH (if b' =? 0 then 1 else 0) t eq_refl Hx) as [t' ->]. by exists (3 :: b' :: t').
    + destruct (IH (if b' =? 0 then z + 1 else 0) t eq_refl Hx) as [t' ->]. by exists (b' :: t').
Qed.

(** The encoder's output is the payload of a unit: no start code in it, no three
    zeros, and a last byte that is not zero. *)
Lemma escape_payload l t x :
  Forall is_byte l -> l = t ++ [x] -> x <> 0 -> payload (escape 0 l).
Proof.
  intros Hb E Hx. split.
  - destruct (escape_last l 0 t x E Hx) as [t' ->]. by exists t', x.
  - intros k. exact (escape_boundary l 0 k ltac:(lia) Hb).
Qed.

(** ** The search for the stop bit returns *)

Lemma land_bit_zero x o : 0 <= o -> Z.land x (Z.shiftl 1 o) = 0 -> Z.testbit x o = false.
Proof.
  intros Ho H. assert (Z.testbit (Z.land x (Z.shiftl 1 o)) o = false) as E by (by rewrite H, Z.bits_0).
  rewrite Z.land_spec, Z.shiftl_1_l, Z.pow2_bits_true, andb_true_r in E by done. done.
Qed.

(** A set bit [o] of the first byte, not the lowest, stops the loop there at the
    latest. *)
Lemma sodb_loop_returns f x b0 o ctr off last :
  buf x !! 0%nat = Some b0 -> Z.testbit b0 o = true -> 1 <= o < 8 ->
  1 <= last < Z.of_nat (length (buf x)) -> 0 <= off < 8 -> 8 * last - off < Z.of_nat f ->
  (last = 1 -> off < o \/ ctr <> 0) ->
  exists n, sodb_loop f ctr off last x = Ret n x /\ 1 <= n <= last.
Proof.
  intros E0 Hbit Ho. revert ctr off last. induction f as [|f IH]; intros ctr off last Hl Hoff Hf Hinv; [lia|].
  cbn [sodb_loop]. destruct (Z.eqb_spec ctr 0) as [->|]; [|exists last; split; [done|lia]].
  destruct (Z.eqb_spec (off + 1) 8) as [E8|E8].
  - destruct (Z.eqb_spec last 1) as [->|]; [destruct (Hinv eq_refl); lia|].
    destruct (lookup_lt_is_Some_2 (buf x) (Z.to_nat (last - 1 - 1)) ltac:(lia)) as [y Ey].
    assert (buf_byte (last - 1 - 1) x = Ret y x) as Eb.
    { unfold buf_byte, zget. rewrite (proj2 (Z.leb_le 0 _)) by lia. by rewrite Ey. }
    step Eb. destruct (IH (Z.land y (Z.shiftl 1 0)) 0 (last - 1)) as (k & En & Hk); [lia..| |].
    + intros _. left. lia.
    + exists k. split; [done|lia].
  - destruct (lookup_lt_is_Some_2 (buf x) (Z.to_nat (last - 1)) ltac:(lia)) as [y Ey].
    assert (buf_byte (last - 1) x = Ret y x) as Eb.
    { unfold buf_byte, zget. rewrite (proj2 (Z.leb_le 0 _)) by lia. by rewrite Ey. }
    step Eb. apply IH; try lia. intros ->. change (Z.to_nat (1 - 1)) with 0%nat in Ey.
    rewrite E0 in Ey. injection Ey as <-. destruct (Hinv eq_refl) as [Hlt|]; [|done].
    destruct (Z.eq_dec (off + 1) o) as [->|]; [|left; lia]. right. intros Hz.
    apply land_bit_zero in Hz; [congruence|lia].
Qed.

(** A unit of at least two bytes whose first byte is not 0 or 1. *)
Lemma rbsp_to_sodb_returns x b0 :
  buf x !! 0%nat = Some b0 -> 2 <= b0 < 256 -> 2 <= len x <= Z.of_nat (length (buf x)) ->
  exists n, rbsp_to_sodb x = Ret n x /\ 1 <= n < len x.
Proof.
  intros E0 Hb Hl. unfold rbsp_to_sodb. step (eq_refl : gets len x = Ret (len x) x).
  destruct (lookup_lt_is_Some_2 (buf x) (Z.to_nat (len x - 1)) ltac:(lia)) as [y Ey].
  assert (buf_byte (len x - 1) x = Ret y x) as Eb.
  { unfold buf_byte, zget. rewrite (proj2 (Z.leb_le 0 _)) by lia. by rewrite Ey. }
  step Eb. set (o := Z.log2 b0).
  assert (1 <= o < 8) as Ho.
  { unfold o. split; [apply (Z.log2_le_mono 2); lia|apply Z.log2_lt_pow2; lia]. }
  destruct (sodb_loop_returns (S (8 * Z.to_nat (len x))) x b0 o (Z.land y (Z.shiftl 1 0)) 0 (len x - 1))
    as (n & En & Hn); try lia; [done|by apply Z.bit_log2; lia|].
  exists n. split; [done|lia].
Qed.

(** It does not find the stop bit: the first test looks at the last byte, the
    others at the byte before. *)
Definition sodb_example : nalu_t := mkNalu 0 3 7 4 [103; 66; 0; 128].

(** On a unit that ends in the stop bit of its last byte the function returns a
    length that leaves out a byte of data. *)
Lemma rbsp_to_sodb_misses :
  rbsp_to_sodb sodb_example = Ret 2 sodb_example /\
  bits_of (drop 3 (buf sodb_example)) = trailing_bits 7.
Proof. split; vm_compute; reflexivity. Qed.

(** ** One unit *)

Lemma with_bs_reads {A} (m : prog bs_t A) l a b rest s :
  reads_before m l rest a -> bs_wf b -> pending b = l ++ rest ->
  exists b', with_bs b m s = Ret (a, b') s /\ bs_wf b' /\ pending b' = rest.
Proof.
  intros Hm Hw E. destruct (Hm b Hw E) as (b' & E' & H). exists b'. unfold with_bs. by rewrite E'.
Qed.

Definition nal_byte (ref type : Z) : Z := 32 * ref + type.

Lemma nal_byte_bits ref type :
  0 <= ref < 4 -> 0 <= type < 32 ->
  byte_bits (nal_byte ref type) = u_bits 1 0 ++ u_bits 2 ref ++ u_bits 5 type.
Proof.
  intros Hr Ht. set (P := fun r t => bool_decide (byte_bits (nal_byte r t) = u_bits 1 0 ++ u_bits 2 r ++ u_bits 5 t)).
  assert (forallb (fun r => forallb (fun t => P (Z.of_nat r) (Z.of_nat t)) (seq 0 32)) (seq 0 4) = true) as H
    by (vm_compute; reflexivity).
  rewrite forallb_forall in H. specialize (H (Z.to_nat ref)).
  rewrite forallb_forall in H. specialize (H ltac:(apply in_seq; lia) (Z.to_nat type) ltac:(apply in_seq; lia)).
  rewrite !Z2Nat.id in H by lia. by apply bool_decide_eq_true_1 in H.
Qed.

(** What a unit does to the tables: it stores a parameter set, or activates two
    and traces a slice header, or does nothing. *)
Inductive unit_effect (ok : Z -> bool) (t : Tables) : list Z -> Tables -> Prop :=
| effect_sps ref s lists body k :
    0 <= ref < 4 -> sps_ok s lists -> bits_of body = sps_bits s lists ++ trailing_bits k ->
    (Z.to_nat (seq_parameter_set_id s) < length (Sequence_Parameters_Set_Array t))%nat ->
    unit_effect ok t (nal_byte ref H264_NAL_SPS :: body)
      (set_sps_array (<[Z.to_nat (seq_parameter_set_id s) := s]> (Sequence_Parameters_Set_Array t))
        (add_trace (TraceSps s) t))
| effect_pps ref p lists more body k :
    0 <= ref < 4 -> pps_ok p (Sequence_Parameters_Set_Array t) lists more ->
    bits_of body = foldr app (pps_more_bits p lists more) (pps_bits p) ++ trailing_bits k ->
    (Z.to_nat (pic_parameter_set_id p) < length (Picture_Parameters_Set_Array t))%nat ->
    unit_effect ok t (nal_byte ref H264_NAL_PPS :: body)
      (set_pps_array (<[Z.to_nat (pic_parameter_set_id p) := p]> (Picture_Parameters_Set_Array t))
        (add_trace (TracePps p) t))
| effect_slice (idr : bool) ref h coded sps pps m0 m1 tb mk body data :
    let type := if idr then H264_NAL_IDR_SLICE else H264_NAL_SLICE in
    0 <= ref < 4 -> 2 <= nal_byte ref type ->
    fit_ue true (first_mb_in_slice h) -> fit_ue true coded -> fit_ue true (sh_pic_parameter_set_id h) ->
    slice_type h = (if 4 <? coded then coded - 5 else coded) ->
    zget (Picture_Parameters_Set_Array t) (sh_pic_parameter_set_id h) = Some pps ->
    zget (Sequence_Parameters_Set_Array t) (pps_seq_parameter_set_id pps) = Some sps ->
    (forall n, ok n = true) -> header_ok sps pps (if idr then 1 else 0) ref h m0 m1 tb mk ->
    bits_of body =
      concat [ue_bits (first_mb_in_slice h); ue_bits coded; ue_bits (sh_pic_parameter_set_id h)] ++
      header_bits sps pps (if idr then 1 else 0) ref h m0 m1 tb mk ++ data ->
    unit_effect ok t (nal_byte ref type :: body)
      (add_trace (TraceSlice h)
        (set_active (Some (pps_seq_parameter_set_id pps)) (Some (sh_pic_parameter_set_id h)) t))
| effect_other ref type body :
    0 <= ref < 4 -> type = 0 \/ type = 6 \/ 9 <= type < 32 -> unit_effect ok t (nal_byte ref type :: body) t.

(** Everything but the fields of the unit and the tables. *)
Record same_scan (s s' : Dec) : Prop := {
  sc_file : file_buff (scan s') = file_buff (scan s);
  sc_index : curr_find_index (scan s') = curr_find_index (scan s);
  sc_buf : buf (nalu (scan s')) = buf (nalu (scan s));
  sc_ok : calloc_ok s' = calloc_ok s
}.

Lemma store_sodb_returns s b0 :
  buf (nalu (scan s)) !! 0%nat = Some b0 -> 2 <= b0 < 256 ->
  2 <= len (nalu (scan s)) <= Z.of_nat (length (buf (nalu (scan s)))) ->
  exists s', store_sodb s = Ret tt s' /\ same_scan s s' /\ tables s' = tables s.
Proof.
  intros E0 Hb Hl. destruct (rbsp_to_sodb_returns _ b0 E0 Hb Hl) as (n & En & _).
  assert (with_nalu rbsp_to_sodb s = Ret n s) as Ew.
  { unfold with_nalu, zoom. rewrite En. by destruct s as [[] ? ?]. }
  unfold store_sodb. step Ew. eexists. split; [reflexivity|]. by split.
Qed.

(** The three fields of the header. *)
Lemma read_rbsp_header s ref type body junk :
  buf (nalu (scan s)) = (nal_byte ref type :: body) ++ junk ->
  len (nalu (scan s)) = Z.of_nat (length (nal_byte ref type :: body)) ->
  0 <= ref < 4 -> 0 <= type < 32 ->
  exists b s', bs_wf b /\ pending b = bits_of body /\ same_scan s s' /\ tables s' = tables s /\
    len (nalu (scan s')) = len (nalu (scan s)) /\
    read_rbsp s =
      (if type =? H264_NAL_SPS then store_sodb;; processSPS b
       else if type =? H264_NAL_PPS then store_sodb;; processPPS b
       else if (type =? H264_NAL_SLICE) || (type =? H264_NAL_IDR_SLICE) then
         store_sodb;; processSlice b (if type =? H264_NAL_IDR_SLICE then 1 else 0) ref
       else if (type =? H264_NAL_DPA) || (type =? H264_NAL_DPB) || (type =? H264_NAL_DPC) then store_sodb
       else mret tt) s'.
Proof.
  intros Eb El Hr Ht. unfold read_rbsp. set (x := nalu (scan s)) in *.
  step (eq_refl : gets (fun s => nalu (scan s)) s = Ret x s).
  assert (bs_wf (bs_init (buf x) (len x))) as Hw.
  { split; cbn; [lia| |lia]. rewrite Eb, El, length_app. lia. }
  assert (pending (bs_init (buf x) (len x)) = u_bits 1 0 ++ u_bits 2 ref ++ u_bits 5 type ++ bits_of body) as P.
  { unfold pending, bs_init. cbn [bits_left p bs_end mem]. rewrite Z.sub_0_r, El, Nat2Z.id, Eb.
    unfold sub. change (Z.to_nat 0) with 0%nat. change (Z.to_nat (8 - 8)) with 0%nat.
    rewrite !drop_0, take_app_length. cbn [bits_of flat_map].
    rewrite nal_byte_bits by done. by rewrite <- !app_assoc. }
  assert (forall n v rest, (n <= 31)%nat -> fit_u n true v ->
    reads_before (u (Z.of_nat n)) (u_bits n v) rest v) as Hu
    by (intros; apply reads_before_reads; by apply reads_field_u).
  destruct (with_bs_reads (u 1) _ 0 _ _ s (Hu 1%nat 0 _ ltac:(lia) ltac:(cbn; lia)) Hw P) as (b1 & E1 & Hw1 & P1).
  step E1.
  destruct (with_bs_reads (u 2) _ ref _ _ s (Hu 2%nat ref _ ltac:(lia) ltac:(cbn; lia)) Hw1 P1) as (b2 & E2 & Hw2 & P2).
  step E2.
  destruct (with_bs_reads (u 5) _ type _ _ s (Hu 5%nat type _ ltac:(lia) ltac:(cbn; lia)) Hw2 P2) as (b3 & E3 & Hw3 & P3).
  step E3. set (s1 := set_scan (set_nalu (set_header 0 ref type x) (scan s)) s).
  step (eq_refl : with_nalu (modify (set_header 0 ref type)) s = Ret tt s1).
  exists b3, s1. split_and!; [done|done|by split|done|done|reflexivity].
Qed.

Lemma same_scan_trans s1 s2 s3 : same_scan s1 s2 -> same_scan s2 s3 -> same_scan s1 s3.
Proof. intros [] []. split; congruence. Qed.

Lemma same_scan_tables f s : same_scan s (set_tables f s).
Proof. by split. Qed.

Lemma processSPS_effect s b x lists k :
  sps_ok x lists -> bs_wf b -> pending b = sps_bits x lists ++ trailing_bits k ->
  0 <= seq_parameter_set_id x ->
  (Z.to_nat (seq_parameter_set_id x) < length (Sequence_Parameters_Set_Array (tables s)))%nat ->
  processSPS b s = Ret tt
    (set_tables (fun t => set_sps_array
      (<[Z.to_nat (seq_parameter_set_id x) := x]> (Sequence_Parameters_Set_Array t))
      (add_trace (TraceSps x) t)) s).
Proof.
  intros Hx Hw P Hid Hl. unfold processSPS.
  destruct (with_bs_reads _ _ _ _ _ s (reads_before_reads _ _ (trailing_bits k) _ (reads_sps x lists Hx)) Hw P) as (b' & E & _).
  step E. step (eq_refl : modify (set_tables (add_trace (TraceSps x))) s = Ret tt _).
  unfold save_sps_as_available. set (s1 := set_tables _ s).
  step (eq_refl : gets (fun s => Sequence_Parameters_Set_Array (tables s)) s1 = Ret _ s1).
  rewrite <- (Z2Nat.id (seq_parameter_set_id x)) at 1 by done.
  rewrite zset_nat by exact Hl. by destruct s as [? [] ?].
Qed.

Lemma processPPS_effect s b p lists more k :
  pps_ok p (Sequence_Parameters_Set_Array (tables s)) lists more -> bs_wf b ->
  pending b = foldr app (pps_more_bits p lists more) (pps_bits p) ++ trailing_bits k ->
  0 <= pic_parameter_set_id p ->
  (Z.to_nat (pic_parameter_set_id p) < length (Picture_Parameters_Set_Array (tables s)))%nat ->
  processPPS b s = Ret tt
    (set_tables (fun t => set_pps_array
      (<[Z.to_nat (pic_parameter_set_id p) := p]> (Picture_Parameters_Set_Array t))
      (add_trace (TracePps p) t)) s).
Proof.
  intros Hx Hw P Hid Hl. unfold processPPS.
  step (eq_refl : gets (fun s => Sequence_Parameters_Set_Array (tables s)) s = Ret _ s).
  step (eq_refl : gets calloc_ok s = Ret _ s).
  destruct (with_bs_reads _ _ _ _ _ s (reads_pps p _ (calloc_ok s) lists more k Hx) Hw P) as (b' & E & _).
  step E. step (eq_refl : modify (set_tables (add_trace (TracePps p))) s = Ret tt _).
  unfold save_pps_as_available. set (s1 := set_tables _ s).
  step (eq_refl : gets (fun s => Picture_Parameters_Set_Array (tables s)) s1 = Ret _ s1).
  rewrite <- (Z2Nat.id (pic_parameter_set_id p)) at 1 by done.
  rewrite zset_nat by exact Hl. by destruct s as [? [] ?].
Qed.

Lemma processSlice_effect s b idr ref h coded sps pps m0 m1 tb mk data :
  fit_ue true (first_mb_in_slice h) -> fit_ue true coded -> fit_ue true (sh_pic_parameter_set_id h) ->
  slice_type h = (if 4 <? coded then coded - 5 else coded) ->
  zget (Picture_Parameters_Set_Array (tables s)) (sh_pic_parameter_set_id h) = Some pps ->
  zget (Sequence_Parameters_Set_Array (tables s)) (pps_seq_parameter_set_id pps) = Some sps ->
  (forall n, calloc_ok s n = true) -> header_ok sps pps idr ref h m0 m1 tb mk -> bs_wf b ->
  pending b =
    concat [ue_bits (first_mb_in_slice h); ue_bits coded; ue_bits (sh_pic_parameter_set_id h)] ++
    header_bits sps pps idr ref h m0 m1 tb mk ++ data ->
  processSlice b idr ref s = Ret tt
    (set_tables (fun t => add_trace (TraceSlice h)
      (set_active (Some (pps_seq_parameter_set_id pps)) (Some (sh_pic_parameter_set_id h)) t)) s).
Proof.
  intros H1 H2 H3 Et Ep Es Hok Hh Hw P. unfold processSlice.
  destruct (with_bs_reads _ _ _ _ _ s (reads_before_reads _ _ _ _ (reads_first_three coded h H1 H2 H3 Et)) Hw P)
    as (b1 & E1 & Hw1 & P1). step E1. cbv beta iota.
  assert (activeParameterSet (sh_pic_parameter_set_id h) s = Ret tt
    (set_tables (set_active (Some (pps_seq_parameter_set_id pps)) (Some (sh_pic_parameter_set_id h))) s)) as Ea.
  { unfold activeParameterSet.
    step (eq_refl : gets (fun s => Picture_Parameters_Set_Array (tables s)) s = Ret _ s). rewrite Ep.
    step (eq_refl : (of_option (Some pps) : prog Dec _) s = Ret pps s).
    step (eq_refl : gets (fun s => Sequence_Parameters_Set_Array (tables s)) s = Ret _ s). by rewrite Es. }
  step Ea. set (s1 := set_tables _ s).
  assert (active_sets s1 = Ret (sps, pps) s1) as E2.
  { unfold active_sets, s1. cbn [tables set_tables set_active active_sps active_pps
      Sequence_Parameters_Set_Array Picture_Parameters_Set_Array]. by rewrite Es, Ep. }
  step E2. step (eq_refl : gets calloc_ok s1 = Ret (calloc_ok s) s1).
  destruct (with_bs_reads _ _ _ _ _ s1 (reads_before_reads _ _ _ _ (reads_header sps pps (calloc_ok s) idr ref h m0 m1 tb mk Hok Hh)) Hw1 P1)
    as (b2 & E3 & _). step E3. by destruct s as [? [] ?].
Qed.

Lemma bits_of_nonempty body l : bits_of body = l -> l <> [] -> (1 <= length body)%nat.
Proof. intros <- H. destruct body; [done|simpl; lia]. Qed.

(** The effect of a unit whose bytes are in the buffer. *)
Lemma read_rbsp_effect s r junk t' :
  unit_effect (calloc_ok s) (tables s) r t' ->
  buf (nalu (scan s)) = r ++ junk -> len (nalu (scan s)) = Z.of_nat (length r) ->
  exists s', read_rbsp s = Ret tt s' /\ same_scan s s' /\ tables s' = t'.
Proof.
  intros He Eb El.
  assert (forall b0 body s1, r = b0 :: body -> 2 <= b0 < 256 ->
    (1 <= length body)%nat -> same_scan s s1 -> tables s1 = tables s ->
    len (nalu (scan s1)) = len (nalu (scan s)) ->
    exists s2, store_sodb s1 = Ret tt s2 /\ same_scan s s2 /\ tables s2 = tables s) as Hsodb.
  { intros b0 body s1 -> Hb Hl Hsc Ht Hlen. destruct (store_sodb_returns s1 b0) as (s2 & E2 & Hs2 & T2).
    - destruct Hsc as [_ _ -> _]. by rewrite Eb.
    - done.
    - rewrite Hlen, El. destruct Hsc as [_ _ -> _]. rewrite Eb, length_app. cbn [length]. lia.
    - exists s2. split_and!; [done|by eapply same_scan_trans|congruence]. }
  destruct He as [ref x lists body k Hr Hx Hbits Hl | ref p lists more body k Hr Hp Hbits Hl
    | idr ref h coded sps pps m0 m1 tb mk body data type Hr H2 ? ? ? Et Ep Es Hok Hh Hbits
    | ref type body Hr Ht].
  - destruct (read_rbsp_header s ref H264_NAL_SPS body junk Eb El Hr ltac:(cbv; split; congruence))
      as (b & s1 & Hw & P & Hsc & T1 & L1 & ->). change (H264_NAL_SPS =? H264_NAL_SPS) with true. cbv iota.
    assert (1 <= length body)%nat as Hlb by (eapply bits_of_nonempty; [exact Hbits|by intros [_ ?]%app_eq_nil]).
    destruct (Hsodb _ _ s1 eq_refl ltac:(unfold nal_byte, H264_NAL_SPS; lia) Hlb Hsc T1 L1)
      as (s2 & E2 & Hsc2 & T2). step E2. rewrite Hbits in P.
    assert (0 <= seq_parameter_set_id x) by (destruct Hx as [Hx _ _ _ _ _ _ _]; cbn in Hx; lia).
    rewrite (processSPS_effect s2 b x lists k Hx Hw P) by (rewrite ?T2; done).
    eexists. split; [reflexivity|]. split; [by eapply same_scan_trans; [exact Hsc2|apply same_scan_tables]|].
    cbn [tables set_tables]. by rewrite T2.
  - destruct (read_rbsp_header s ref H264_NAL_PPS body junk Eb El Hr ltac:(cbv; split; congruence))
      as (b & s1 & Hw & P & Hsc & T1 & L1 & ->).
    change (H264_NAL_PPS =? H264_NAL_SPS) with false. change (H264_NAL_PPS =? H264_NAL_PPS) with true. cbv iota.
    assert (1 <= length body)%nat as Hlb by (eapply bits_of_nonempty; [exact Hbits|by intros [_ ?]%app_eq_nil]).
    destruct (Hsodb _ _ s1 eq_refl ltac:(unfold nal_byte, H264_NAL_PPS; lia) Hlb Hsc T1 L1)
      as (s2 & E2 & Hsc2 & T2). step E2. rewrite Hbits in P.
    assert (0 <= pic_parameter_set_id p) by (destruct Hp as [Hp _ _ _ _]; cbn in Hp; lia).
    rewrite (processPPS_effect s2 b p lists more k) by (rewrite ?T2; done).
    eexists. split; [reflexivity|]. split; [by eapply same_scan_trans; [exact Hsc2|apply same_scan_tables]|].
    cbn [tables set_tables]. by rewrite T2.
  - assert (0 <= type < 32) as Htype by (unfold type; destruct idr; cbv; split; congruence).
    destruct (read_rbsp_header s ref type body junk Eb El Hr Htype) as (b & s1 & Hw & P & Hsc & T1 & L1 & ->).
    assert (forall (x y z w : prog Dec unit), (if type =? H264_NAL_SPS then x else if type =? H264_NAL_PPS then y else
      if (type =? H264_NAL_SLICE) || (type =? H264_NAL_IDR_SLICE) then z else w) = z) as -> by (intros; by destruct idr).
    assert ((if type =? H264_NAL_IDR_SLICE then 1 else 0) = (if idr then 1 else 0)) as -> by (by destruct idr).
    assert (1 <= length body)%nat as Hlb.
    { eapply bits_of_nonempty; [exact Hbits|]. intros [Hc _]%app_eq_nil. cbn [concat] in Hc.
      apply app_eq_nil in Hc as [Hc _]. unfold ue_bits in Hc. apply app_eq_nil in Hc as [_ Hc]. discriminate. }
    destruct (Hsodb _ _ s1 eq_refl ltac:(split; [done|unfold nal_byte in *; lia]) Hlb Hsc T1 L1)
      as (s2 & E2 & Hsc2 & T2). step E2. rewrite Hbits in P.
    assert (calloc_ok s2 = calloc_ok s) as Eok by apply Hsc2.
    rewrite (processSlice_effect s2 b (if idr then 1 else 0) ref h coded sps pps m0 m1 tb mk data)
      by (rewrite ?T2, ?Eok; done).
    eexists. split; [reflexivity|]. split; [by eapply same_scan_trans; [exact Hsc2|apply same_scan_tables]|].
    cbn [tables set_tables]. by rewrite T2.
  - destruct (read_rbsp_header s ref type body junk Eb El Hr ltac:(lia)) as (b & s1 & Hw & P & Hsc & T1 & L1 & ->).
    exists s1. split; [|by split].
    unfold H264_NAL_SPS, H264_NAL_PPS, H264_NAL_SLICE, H264_NAL_IDR_SLICE, H264_NAL_DPA, H264_NAL_DPB, H264_NAL_DPC.
    by rewrite (proj2 (Z.eqb_neq type 7)), (proj2 (Z.eqb_neq type 8)), (proj2 (Z.eqb_neq type 1)),
      (proj2 (Z.eqb_neq type 5)), (proj2 (Z.eqb_neq type 2)), (proj2 (Z.eqb_neq type 3)),
      (proj2 (Z.eqb_neq type 4)) by lia.
Qed.

(** ** Whole streams *)

Lemma buf_store_length j x s a s' : buf_store j x s = Ret a s' -> length (buf s') = length (buf s).
Proof.
  intros H. unfold buf_store in H. apply bind_inv in H as (b & s1 & E1 & H). injection E1 as <- <-.
  apply bind_inv in H as (b' & s2 & E2 & H). unfold of_option in E2.
  destruct (zset (buf s) j x) as [l|] eqn:E; [|done]. injection E2 as <- <-. injection H as <- <-.
  unfold zset in E. destruct (_ && _); [|done]. injection E as <-. apply length_insert.
Qed.

Lemma buf_byte_state i s a s' : buf_byte i s = Ret a s' -> s' = s.
Proof. unfold buf_byte. destruct (zget (buf s) i); [|done]. by intros [= _ <-]. Qed.

Lemma rbsp_loop_length f i j count n s a s' :
  rbsp_loop f i j count n s = Ret a s' -> length (buf s') = length (buf s).
Proof.
  revert i j count s. induction f as [|f IH]; intros i j count s H; [done|]. cbn [rbsp_loop] in H.
  destruct (i <? n); [|by injection H as _ <-].
  apply bind_inv in H as (e & s1 & E1 & H).
  assert (s1 = s) as ->.
  { destruct (count =? 2); [|by injection E1]. apply bind_inv in E1 as (x & s2 & E2 & E1).
    apply buf_byte_state in E2. injection E1 as _ <-. done. }
  destruct (e && (i =? n - 1)); [by injection H as _ <-|].
  apply bind_inv in H as (x & s2 & E2 & H). apply buf_byte_state in E2 as ->.
  apply bind_inv in H as (y & s3 & E3 & H). apply buf_store_length in E3.
  apply bind_inv in H as (z & s4 & E4 & H). apply buf_byte_state in E4 as ->.
  apply IH in H. congruence.
Qed.

Lemma read_nal_unit_effect s r junk t' :
  unit_effect (calloc_ok s) (tables s) r t' ->
  buf (nalu (scan s)) = escape 0 r ++ junk -> len (nalu (scan s)) = Z.of_nat (length (escape 0 r)) ->
  exists s', read_nal_unit s = Ret tt s' /\ file_buff (scan s') = file_buff (scan s) /\
    curr_find_index (scan s') = curr_find_index (scan s) /\
    length (buf (nalu (scan s'))) = length (buf (nalu (scan s))) /\ calloc_ok s' = calloc_ok s /\
    tables s' = t'.
Proof.
  intros He Eb El. destruct (nal_to_rbsp_escape (nalu (scan s)) r junk Eb El) as (rest & En).
  pose proof (rbsp_loop_length _ _ _ _ _ _ _ _ En) as Ln.
  unfold read_nal_unit. set (s1 := set_scan (set_nalu (set_buf (r ++ rest) (nalu (scan s))) (scan s)) s).
  assert (with_nalu nal_to_rbsp s = Ret (Z.of_nat (length r)) s1) as E1
    by (unfold with_nalu, zoom; by rewrite En).
  step E1.
  step (eq_refl : with_nalu (modify (set_len (Z.of_nat (length r)))) s1 = Ret tt _). set (s2 := set_scan _ s1).
  destruct (read_rbsp_effect s2 r rest t' He eq_refl eq_refl) as (s' & E & [F1 F2 F3 F4] & T).
  exists s'. rewrite E. split_and!; [done|by rewrite F1|by rewrite F2| |by rewrite F4|done].
  rewrite F3. exact Ln.
Qed.

(** A unit as the encoder writes it: a start code of three or four bytes and the
    escaped bytes, which end with a byte that is not zero. *)
Definition unit_bytes (x : bool * list Z) : list Z := start_code x.1 ++ escape 0 x.2.
Definition stream (us : list (bool * list Z)) : list Z := flat_map unit_bytes us.

Definition unit_fits (room : nat) (x : bool * list Z) : Prop :=
  Forall is_byte x.2 /\ (exists t y, x.2 = t ++ [y] /\ y <> 0) /\ (length (escape 0 x.2) + 2 <= room)%nat /\
  (3 <= length (escape 0 x.2))%nat.

(** The effects of the units one after the other. *)
Fixpoint effects (ok : Z -> bool) (t : Tables) (us : list (bool * list Z)) (t' : Tables) : Prop :=
  match us with
  | [] => t' = t
  | x :: us => exists t1, unit_effect ok t x.2 t1 /\ effects ok t1 us t'
  end.

Lemma zoom_scan_Ret {A} (m : prog Scan A) s a x :
  m (scan s) = Ret a x -> zoom scan set_scan m s = Ret a (set_scan x s).
Proof. intros E. unfold zoom. by rewrite E. Qed.

Lemma stream_cons x us : stream (x :: us) = unit_bytes x ++ stream us.
Proof. done. Qed.

Lemma decode_loop_stream us x s pre post f buff_size t' room :
  Forall (unit_fits room) (x :: us) -> effects (calloc_ok s) (tables s) (x :: us) t' ->
  file_buff (scan s) = pre ++ stream (x :: us) ++ post -> curr_find_index (scan s) = Z.of_nat (length pre) ->
  (2 <= length post)%nat -> length (buf (nalu (scan s))) = room ->
  buff_size = Z.of_nat (length pre + length (stream (x :: us))) -> (S (length us) < f)%nat ->
  exists s', decode_loop f buff_size s = Ret tt s' /\ tables s' = t'.
Proof.
  revert x s pre f t'. induction us as [|y us IH]; intros x s pre f t' Hf He E Ei Hp Hr Hs Hfu;
    (destruct f as [|f]; [lia|]); apply Forall_cons in Hf as [(Hx1 & (t & b & Hx2 & Hx3) & Hx4 & Hx5) Hf'];
    destruct x as [long r]; cbn [fst snd] in *; destruct He as (t1 & He1 & He2);
    pose proof (escape_payload r t b Hx1 Hx2 Hx3) as Hpay; cbn [decode_loop];
    rewrite stream_cons in E, Hs; unfold unit_bytes in E, Hs; cbn [fst snd] in E, Hs;
    rewrite <- !app_assoc in E.
  - change (stream []) with (@nil Z) in E. cbn [app] in E. destruct (find_nal_unit_last (scan s) pre long (escape 0 r) post buff_size E Ei Hpay Hx5 Hp)
      as (sc & idx & E1 & [F1 F2 F3 F4 (junk & F5)] & Hi); [lia| |].
    { rewrite Hs. cbn [stream flat_map]. rewrite app_nil_r, !length_app. lia. }
    step (zoom_scan_Ret _ _ _ _ E1). set (s1 := set_scan sc s).
    rewrite (proj2 (Z.ltb_lt 0 _)) by lia.
    destruct (read_nal_unit_effect s1 r junk t1 He1 F5 F4) as (s2 & E2 & G1 & G2 & _ & _ & T2). step E2.
    destruct f as [|f]; [lia|]. cbn [decode_loop].
    destruct (find_nal_unit_none (scan s2) (pre ++ start_code long) (escape 0 r) post buff_size)
      as (sc' & E3 & _); try done.
    { rewrite G1. cbn [scan s1 set_scan]. rewrite F1, E. by rewrite <- !app_assoc. }
    { rewrite Hs. cbn [stream flat_map]. rewrite app_nil_r, !length_app. lia. }
    { rewrite G2. cbn [scan s1 set_scan]. rewrite F3. lia. }
    step (zoom_scan_Ret _ _ _ _ E3). change (0 <? 0) with false. cbv iota.
    eexists. split; [reflexivity|]. cbn [effects] in He2. cbn [tables set_scan]. congruence.
  - assert (boundary (stream (y :: us) ++ post) = true) as Hb
      by (unfold stream, unit_bytes; cbn [flat_map]; by destruct y as [[] ?]).
    assert (4 <= length (stream (y :: us)))%nat as Hly.
    { apply Forall_cons in Hf' as [(_ & _ & _ & Hy5) _]. unfold stream, unit_bytes. cbn [flat_map].
      rewrite !length_app. destruct y as [[] ?]; cbn [fst snd start_code length] in *; lia. }
    destruct (find_nal_unit_inner (scan s) pre long (escape 0 r) (stream (y :: us) ++ post) buff_size E Ei Hpay Hb)
      as (sc & E1 & [F1 F2 F3 F4 (junk & F5)] & L1); [lia| |].
    { rewrite Hs, !length_app. lia. }
    step (zoom_scan_Ret _ _ _ _ E1). set (s1 := set_scan sc s).
    rewrite (proj2 (Z.ltb_lt 0 _)) by lia.
    destruct (read_nal_unit_effect s1 r junk t1 He1 F5 F4) as (s2 & E2 & G1 & G2 & G3 & G4 & T2). step E2.
    apply (IH y s2 (pre ++ start_code long ++ escape 0 r)); try done.
    + rewrite G4, T2. exact He2.
    + rewrite G1. cbn [scan s1 set_scan]. rewrite F1, E. by rewrite <- !app_assoc.
    + rewrite G2. cbn [scan s1 set_scan]. rewrite F3, !length_app. lia.
    + rewrite G3. cbn [scan s1 set_scan]. by rewrite L1.
    + rewrite Hs, !length_app. lia.
    + cbn [length] in Hfu. lia.
Qed.

(** The tables of a process that starts. *)
Definition tables_zero : Tables :=
  mkTables (replicate 32 sps_zero) (replicate 256 pps_zero) None None [].

(** C2: [main] decodes a stream: on the file that an encoder writes for a list of
    units, the tables and the trace end as the effects of the units say. *)
Lemma main_stream us x block ok t' :
  Forall (unit_fits MAX_NALU_SIZE) (x :: us) -> effects ok tables_zero (x :: us) t' ->
  (length (stream (x :: us)) + 2 <= length block)%nat ->
  Z.of_nat (length (stream (x :: us))) <= MAX_BUFFER_SIZE ->
  exists s', main (stream (x :: us)) block ok = Ret 0 s' /\ tables s' = t'.
Proof.
  unfold main. generalize MAX_NALU_SIZE. intros room Hf He Hb Hm. set (file := stream (x :: us)) in *.
  rewrite (take_ge file) by lia. fold tables_zero. set (s := mkDec _ _ _).
  assert (length us < length file)%nat as Hl.
  { unfold file, stream. apply Forall_cons in Hf as [(_ & _ & _ & Hx5) Hf']. cbn [flat_map].
    rewrite length_app. unfold unit_bytes at 1. rewrite length_app.
    assert (length us <= length (flat_map unit_bytes us))%nat; [|lia].
    clear -Hf'. induction Hf' as [|y us (_ & _ & _ & Hy5) _ IH]; [simpl; lia|].
    cbn [flat_map length]. rewrite length_app. unfold unit_bytes at 1. rewrite length_app. lia. }
  destruct (decode_loop_stream us x s [] (drop (length file) block) (S (length file))
    (Z.of_nat (length file)) t' room Hf He) as (s' & E & T); try done; try lia.
  - rewrite length_drop. lia.
  - unfold s. cbn [scan nalu allocNalu buf]. apply length_replicate.
  - exists s'. by step E.
Qed.
