(* ===== verification/H264Faults.v ===== *)
(** Where the analyser leaves its buffers or the standard on streams that the
    standard allows. *)

From S2P Require Import Prelude H264Bits H264Parset H264Syntax H264Header.
#[local] Open Scope Z_scope.

(** A width of 1 to 3 bits is read from any handle. *)
Lemma u_total k b :
  bs_wf b -> 0 <= k <= 31 -> exists v b', u k b = Ret v b' /\ bs_wf b'.
Proof.
  intros Hw Hk. destruct (bs_read_u_pending k b Hw ltac:(lia)) as (b' & E & Hw' & _).
  unfold u. step E. by eexists _, b'.
Qed.

(** [read_array] into too short an array is undefined behaviour. *)
Lemma read_array_overflow k n i arr b :
  bs_wf b -> 0 <= k <= 31 -> 0 <= i -> (length arr < Z.to_nat i + n)%nat -> i <= Z.of_nat (length arr) ->
  read_array (u k) n i arr b = Undef.
Proof.
  intros Hw Hk Hi. revert i arr b Hw Hi. induction n as [|n IH]; intros i arr b Hw Hi Hn Hl; [lia|].
  cbn [read_array]. destruct (u_total k b Hw Hk) as (v & b' & E & Hw'). step E.
  unfold zset. rewrite (proj2 (Z.leb_le 0 i)) by lia. cbn [andb].
  destruct (Z.ltb_spec i (Z.of_nat (length arr))); [|done].
  step (eq_refl : (of_option (Some (<[Z.to_nat i:=v]> arr)) : prog bs_t _) b' = Ret _ b').
  apply IH; rewrite ?length_insert; lia || done.
Qed.

(** C32: The explicit slice group map, type 6: the block has one byte per map unit, the
    loop stores one [int] per map unit, so every such set overflows it. *)
Lemma slice_group_map_overflow num size calloc_ok b rest :
  0 < num -> 0 <= size < 2 ^ 31 - 1 -> calloc_ok (size + 1) = true -> bs_wf b ->
  pending b = ue_bits 6 ++ ue_bits size ++ rest ->
  parse_slice_groups calloc_ok num b = Undef.
Proof.
  intros Hn Hs Hc Hw P. unfold parse_slice_groups. rewrite (proj2 (Z.ltb_lt 0 num) Hn).
  destruct (reads_field_ue 6 ltac:(cbn; lia) b _ Hw P) as (b1 & E1 & Hw1 & P1). step E1.
  change ((6 =? 3) || (6 =? 4) || (6 =? 5)) with false. change (6 =? 0) with false.
  change (6 =? 2) with false. change (6 =? 6) with true. cbv iota.
  destruct (reads_field_ue size ltac:(cbn; lia) b1 _ Hw1 P1) as (b2 & E2 & Hw2 & _). step E2.
  unfold calloc_bytes. rewrite Hc.
  step (eq_refl : (mret (replicate (Z.to_nat ((size + 1) / 4)) 0) : prog bs_t _) b2 = Ret _ b2).
  apply bind_Undef. apply read_array_overflow; [done| |lia| |rewrite length_replicate; lia].
  - unfold group_id_bits. destruct (_ <? _); [lia|]. destruct (_ <? _); lia.
  - rewrite length_replicate. pose proof (Z.div_lt (size + 1) 4 ltac:(lia) ltac:(lia)). lia.
Qed.

(** An 8x8 scaling list in a picture parameter set: its flag is stored behind the
    array of six flags, while the sequence parameter set takes 6 off the index. *)
Lemma pps_8x8_list_overflow i s b rest :
  scaling_shape s -> (6 <= i < 12)%nat -> bs_wf b -> pending b = u_bits 1 1 ++ rest ->
  parse_scaling_list 0 (Z.of_nat i) s b = Undef.
Proof.
  intros [Hp _ _ [H8 _] D8] Hi Hw P. unfold parse_scaling_list.
  destruct (reads_field_u 1 1 ltac:(small) ltac:(cbn; lia) b rest Hw P) as (b1 & E1 & _). step E1.
  rewrite zset_nat by lia.
  step (eq_refl : (of_option (Some (<[i:=1]> (scaling_list_present_flag s))) : prog bs_t _) b1 = Ret _ b1).
  change (nz 1) with true. cbv iota zeta. rewrite (proj2 (Z.ltb_ge _ 6)) by lia.
  replace (Z.of_nat i - 6) with (Z.of_nat (i - 6)) by lia. rewrite zget_nat.
  destruct (lookup_lt_is_Some_2 (ScalingList8x8 s) (i - 6) ltac:(lia)) as [l El].
  cbn [ScalingList8x8]. rewrite El.
  step (eq_refl : (of_option (Some l) : prog bs_t _) b1 = Ret l b1).
  cbn [UseDefaultScalingMatrix8x8Flag]. rewrite Z.sub_0_r, zget_nat.
  rewrite lookup_ge_None_2 by lia. done.
Qed.

(** The standard infers [chroma_format_idc] to be 1 where it is absent; the
    structure keeps 0, so [parse_pred_weight_table] takes the weights of a stream
    of the main profile for those of a monochrome one. *)
Lemma main_profile_chroma s lists b rest :
  sps_ok s lists -> profile_idc s = 77 -> bs_wf b -> pending b = sps_bits s lists ++ rest ->
  exists s' b', parse_sps_syntax_element b = Ret s' b' /\ chroma_format_idc s' = 0 /\
    forall type l0 l1 b1, parse_pred_weight_table s' type l0 l1 b1 =
      (luma_denom ← ue;
       w0 ← parse_weights (Z.to_nat (l0 + 1)) 0 false luma_denom 0 weights_zero;
       w1 ← (if type =? Slice_Type_B then
           parse_weights (Z.to_nat (l1 + 1)) 0 false luma_denom 0 weights_zero
         else mret weights_zero);
       mret (mkWeightTable luma_denom 0 w0 w1)) b1.
Proof.
  intros Hok Hp Hw P. destruct (reads_sps s lists Hok b rest Hw P) as (b' & E & _).
  exists s, b'. split; [done|].
  assert (chroma_format_idc s = 0) as Hc.
  { destruct Hok as [_ (Hc & _) _ _ _ _ _ _]. unfold is_high in Hc. by rewrite Hp in Hc. }
  split; [done|]. intros. unfold parse_pred_weight_table. by rewrite Hc.
Qed.

(** A code with 31 zeros in front is read by shifting 1 out of an [int]. *)
Lemma ue_31_zeros b rest :
  bs_wf b -> pending b = replicate 31 false ++ true :: rest -> (31 <= length rest)%nat ->
  bs_read_ue b = Undef.
Proof.
  intros Hw P Hl. unfold bs_read_ue.
  destruct (reads_leading_zeros 33 0 31 ltac:(lia) ltac:(lia) ltac:(lia) b rest Hw) as (b1 & E1 & Hw1 & P1);
    [by rewrite P, <- app_assoc|]. step E1.
  destruct (bs_read_u_pending (0 + Z.of_nat 31) b1 Hw1 ltac:(lia)) as (b2 & E2 & _). step E2. done.
Qed.
