(* ===== verification/H264Spec.v ===== *)
(** What the H.264 analyser promises: its readers against encoders of the
    syntax, each contract with an instance on concrete bytes. *)

From S2P Require Import Prelude H264Bits H264Nalu H264Parset H264Syntax H264Header H264Slice H264Decode H264Stream H264Faults.
#[local] Open Scope Z_scope.

(** ** Bits and codes *)

(** [bs_read_u] of up to 32 bits never fails: it returns the number that the
    pending bits spell, highest first, reads zeros behind the end of the data, and
    consumes exactly those bits. *)
Theorem read_u_value n b :
  bs_wf b -> 0 <= n <= 32 ->
  exists b', bs_read_u n b = Ret (bits_val (ztake (Z.to_nat n) (pending b))) b' /\
    bs_wf b' /\ pending b' = drop (Z.to_nat n) (pending b).
Proof. apply bs_read_u_pending. Qed.

(** Exponential-Golomb codes, unsigned, signed and truncated, are read back
    whatever follows them. *)
Theorem golomb_roundtrip v w x t b rest :
  0 <= v < 2 ^ 31 - 1 -> - 2 ^ 30 < w < 2 ^ 30 -> 0 < x -> 0 <= t <= x -> t < 2 ^ 31 - 1 ->
  bs_wf b -> pending b = ue_bits v ++ se_bits w ++ te_bits x t ++ rest ->
  exists b', (v' ← bs_read_ue; w' ← bs_read_se; t' ← bs_read_te x; mret (v', w', t')) b = Ret (v, w, t) b' /\
    bs_wf b' /\ pending b' = rest.
Proof.
  intros Hv Hw Hx Ht Ht' Hb E.
  apply (reads_bind _ _ (ue_bits v) (se_bits w ++ te_bits x t ++ []) v); [by apply reads_ue| |done|].
  - eapply reads_bind; [by apply reads_se|]. eapply reads_bind; [by apply reads_te|]. apply reads_ret.
  - by rewrite app_nil_r, <- !app_assoc.
Qed.

(** In front of the trailing bits [more_rbsp_data] tells whether syntax is left,
    and leaves the handle where it is. *)
Theorem more_data_exact b data k :
  bs_wf b -> pending b = data ++ trailing_bits k ->
  more_rbsp_data b = Ret (if decide (data = []) then 0 else 1) b.
Proof. apply more_rbsp_data_correct. Qed.

(** ** Units *)

(** Emulation prevention: what the encoder makes of a payload holds no start code,
    and [nal_to_rbsp] gets the payload back, with its length, in the same buffer. *)
Theorem escape_roundtrip u l t x junk :
  Forall is_byte l -> l = t ++ [x] -> x <> 0 ->
  buf u = escape 0 l ++ junk -> len u = Z.of_nat (length (escape 0 l)) ->
  (forall k, boundary (drop k (escape 0 l)) = false) /\
  exists rest, nal_to_rbsp u = Ret (Z.of_nat (length l)) (set_buf (l ++ rest) u).
Proof.
  intros Hb E Hx Hbuf Hlen. split; [by destruct (escape_payload l t x Hb E Hx)|].
  by eapply nal_to_rbsp_escape.
Qed.

(** A unit between two start codes, of three or four bytes, is copied to the
    buffer whole, its length is returned, and the next search starts at the next
    start code. *)
Theorem unit_found s pre long u post buff_size :
  file_buff s = pre ++ start_code long ++ u ++ post -> curr_find_index s = Z.of_nat (length pre) ->
  payload u -> boundary post = true -> (length u <= length (buf (nalu s)))%nat ->
  let i := Z.of_nat (length pre + length (start_code long)) in
  i + Z.of_nat (length u) + 3 < buff_size ->
  exists s', find_nal_unit buff_size s = Ret (Z.of_nat (length u)) s' /\
    found s s' u i (i + Z.of_nat (length u)).
Proof.
  intros Ef Ei Hp Hb Hl i Hs. destruct (find_nal_unit_inner s pre long u post buff_size Ef Ei Hp Hb Hl Hs)
    as (s' & E & Hf & _). by exists s'.
Qed.

(** The last unit of the file is found whole, and the call after it returns 0. *)
Theorem last_unit_found s pre long u post buff_size :
  file_buff s = pre ++ start_code long ++ u ++ post -> curr_find_index s = Z.of_nat (length pre) ->
  payload u -> (3 <= length u)%nat -> (2 <= length post)%nat ->
  (length u + 2 <= length (buf (nalu s)))%nat ->
  let i := Z.of_nat (length pre + length (start_code long)) in
  buff_size = i + Z.of_nat (length u) ->
  exists s' idx, find_nal_unit buff_size s = Ret (Z.of_nat (length u)) s' /\ found s s' u i idx /\
    exists s'', find_nal_unit buff_size s' = Ret 0 s''.
Proof.
  intros Ef Ei Hp Hu Hpost Hl i Hs.
  destruct (find_nal_unit_last s pre long u post buff_size Ef Ei Hp Hu Hpost Hl Hs)
    as (s' & idx & E & Hf & Hi). exists s', idx. split; [done|]. split; [done|]. destruct Hf as [Hfile _ Hidx _ _].
  destruct (find_nal_unit_none s' (pre ++ start_code long) u post buff_size) as (s'' & E' & _);
    [by rewrite Hfile, Ef, <- !app_assoc|done|done|done|rewrite length_app; lia|lia|]. by exists s''.
Qed.

(** The search for the stop bit ends, with a length shorter than the unit. *)
Theorem sodb_terminates x b0 :
  buf x !! 0%nat = Some b0 -> 2 <= b0 < 256 -> 2 <= len x <= Z.of_nat (length (buf x)) ->
  exists n, rbsp_to_sodb x = Ret n x /\ 1 <= n < len x.
Proof. apply rbsp_to_sodb_returns. Qed.

(** ** Parameter sets and slice headers *)

(** C30: [parse_sps_syntax_element] reads every sequence parameter set back from its
    bits, the scaling lists, the order count cycle and the VUI included. *)
Theorem sps_roundtrip s lists b rest :
  sps_ok s lists -> bs_wf b -> pending b = sps_bits s lists ++ rest ->
  exists b', parse_sps_syntax_element b = Ret s b' /\ bs_wf b' /\ pending b' = rest.
Proof. intros Hs. by apply reads_sps. Qed.

(** [parse_pps_syntax_element] reads every picture parameter set back, with or
    without its extension, which it tells by the trailing bits. *)
Theorem pps_roundtrip p sets calloc_ok lists more b k :
  pps_ok p sets lists more -> bs_wf b ->
  pending b = foldr app (pps_more_bits p lists more) (pps_bits p) ++ trailing_bits k ->
  exists b', parse_pps_syntax_element sets calloc_ok b = Ret p b' /\ pending b' = trailing_bits k.
Proof.
  intros Hp Hb E. destruct (reads_pps p sets calloc_ok lists more k Hp b Hb E) as (b' & E' & _ & P).
  by exists b'.
Qed.


(** [calculateCeilLog2] returns the number of bits that count up to its argument. *)
Theorem ceil_log2_exact n :
  1 < n < 2 ^ 32 -> 2 ^ (calculateCeilLog2 n - 1) < n <= 2 ^ calculateCeilLog2 n.
Proof.
  intros Hn. rewrite calculateCeilLog2_correct by lia. rewrite Z.sub_1_r. apply Z.log2_up_spec. lia.
Qed.

(** ** Instances *)

(** Bits as bytes; the last byte is filled with zeros. *)
Fixpoint pack (n : nat) (l : list bool) : list Z :=
  match n with O => [] | S n => bits_val (ztake 8 l) :: pack n (drop 8 l) end.

Definition bytes_for (l : list bool) : list Z := pack ((length l + 7) / 8) l.

Definition handle (l : list bool) : bs_t := bs_init (bytes_for l) (Z.of_nat (length (bytes_for l))).

(** Zeros up to the end of the last byte. *)
Definition padding (l : list bool) : list bool := replicate (8 * length (bytes_for l) - length l) false.

Lemma handle_wf l : bs_wf (handle l).
Proof. split; cbn [handle bs_init p bs_end mem bits_left]; lia. Qed.

Ltac fits := repeat split; vm_compute; try reflexivity; try discriminate; intros; discriminate.

Lemma read_u_value_witness : exists b', bs_read_u 12 (bs_init [171; 205] 2) = Ret 2748 b'.
Proof.
  destruct (read_u_value 12 (bs_init [171; 205] 2)) as (b' & E & _); [split; cbn; lia|lia|].
  by exists b'.
Defined.

Lemma golomb_roundtrip_witness :
  let l := ue_bits 9 ++ se_bits (-4) ++ te_bits 1 1 in
  exists b', (v' ← bs_read_ue; w' ← bs_read_se; t' ← bs_read_te 1; mret (v', w', t')) (handle l) = Ret (9, -4, 1) b'.
Proof.
  intros l. destruct (golomb_roundtrip 9 (-4) 1 1 (handle l) (padding l)) as (b' & E & _);
    try lia; [apply handle_wf|vm_compute; reflexivity|]. by exists b'.
Defined.

Lemma more_data_exact_witness :
  let b := handle (u_bits 3 5 ++ trailing_bits 4) in more_rbsp_data b = Ret 1 b.
Proof. apply (more_data_exact _ (u_bits 3 5) 4); [apply handle_wf|vm_compute; reflexivity]. Defined.

Lemma escape_roundtrip_witness :
  exists rest, nal_to_rbsp (mkNalu 0 0 0 6 [0; 0; 3; 1; 0; 9; 77]) = Ret 5 (mkNalu 0 0 0 6 ([0; 0; 1; 0; 9] ++ rest)).
Proof.
  destruct (escape_roundtrip (mkNalu 0 0 0 6 [0; 0; 3; 1; 0; 9; 77]) [0; 0; 1; 0; 9] [0; 0; 1; 0] 9 [77])
    as [_ [rest E]]; [repeat constructor; unfold is_byte; lia|done|done|done|done|]. by exists rest.
Defined.

Lemma sample_payload : payload [103; 66; 1].
Proof.
  split; [by exists [103; 66], 1|]. intros k. do 3 (destruct k as [|k]; [done|]). by destruct k.
Qed.

(** Two units; two bytes of the block lie behind the file. *)
Definition sample_scan : Scan :=
  mkScan ([0; 0; 0; 1; 103; 66; 1] ++ [0; 0; 1; 103; 66; 1] ++ [0; 0]) (allocNalu 8) 0 0.

Lemma unit_found_witness : exists s', find_nal_unit 13 sample_scan = Ret 3 s' /\ curr_find_index s' = 7.
Proof.
  destruct (unit_found sample_scan [] true [103; 66; 1] [0; 0; 1; 103; 66; 1; 0; 0] 13) as (s' & E & Hf);
    [reflexivity|reflexivity|exact sample_payload|reflexivity|cbn; lia|cbn; lia|].
  exists s'. split; [exact E|]. apply (fd_index _ _ _ _ _ Hf).
Defined.

Lemma last_unit_found_witness :
  let s := set_index 7 sample_scan in
  exists s', find_nal_unit 13 s = Ret 3 s' /\ exists s'', find_nal_unit 13 s' = Ret 0 s''.
Proof.
  intros s. destruct (last_unit_found s [0; 0; 0; 1; 103; 66; 1] false [103; 66; 1] [0; 0] 13)
    as (s' & idx & E & _ & H); [reflexivity|reflexivity|exact sample_payload|cbn; lia..|].
  by exists s'.
Defined.

Lemma sodb_terminates_witness : exists n, rbsp_to_sodb sodb_example = Ret n sodb_example /\ n < 4.
Proof.
  destruct (sodb_terminates sodb_example 103) as (n & E & H); [reflexivity|lia|cbn; lia|].
  exists n. split; [exact E|]. cbn in H. lia.
Defined.

Lemma ceil_log2_exact_witness : 2 ^ (calculateCeilLog2 100 - 1) < 100 <= 2 ^ calculateCeilLog2 100.
Proof. apply (ceil_log2_exact 100). lia. Defined.

(** A sequence parameter set of the high profile with two scaling lists, one of
    them the default, of 20 by 15 macroblocks. *)
Definition sample_lists : list (option (list Z)) :=
  [Some [16; 17; 18]; None; None; None; None; None; Some []; None].

Definition sample_sps : sps_t :=
  mkSps 100 0 0 0 0 0 0 0 30 0 1 0 0 0 0 1 (put_entries 0 sample_lists scaling_zero) 0 0 2 0 0 0 0
    (replicate 256 0) 4 0 19 14 1 0 1 0 0 0 0 0 0 vui_zero.

Lemma sample_sps_ok : sps_ok sample_sps sample_lists.
Proof.
  split; [fits|fits| |fits|split; [cbn; lia|exists []; by split_and!]|fits|fits|].
  - split_and!; [|reflexivity..].
    cbn. split_and!; try lia; try done; repeat apply Forall_cons_2; try apply Forall_nil_2; lia.
  - by split_and!.
Qed.

(** A picture parameter set with the extension, for P slices with weights. *)
Definition sample_pps : pps_t :=
  mkPps 0 0 1 0 0 0 eight eight eight 0 0 0 None 2 0 1 0 (-3) 0 2 1 0 0 1 0 scaling_zero (-2).

Lemma sample_pps_ok : pps_ok sample_pps [sample_sps] [] true.
Proof.
  split; [fits|by constructor|fits|fits|]. by split.
Qed.

Lemma sps_roundtrip_witness :
  exists b', parse_sps_syntax_element (handle (sps_bits sample_sps sample_lists)) = Ret sample_sps b'.
Proof.
  destruct (sps_roundtrip sample_sps sample_lists (handle (sps_bits sample_sps sample_lists))
    (padding (sps_bits sample_sps sample_lists)) sample_sps_ok (handle_wf _)) as (b' & E & _);
    [vm_compute; reflexivity|]. by exists b'.
Defined.

Definition sample_pps_bits : list bool :=
  foldr app (pps_more_bits sample_pps [] true) (pps_bits sample_pps) ++ [true].

Lemma pps_roundtrip_witness :
  exists b', parse_pps_syntax_element [sample_sps] (fun _ => true) (handle sample_pps_bits) = Ret sample_pps b'.
Proof.
  destruct (pps_roundtrip sample_pps [sample_sps] (fun _ => true) [] true (handle sample_pps_bits)
    (length (padding sample_pps_bits)) sample_pps_ok (handle_wf _)) as (b' & E & _);
    [vm_compute; reflexivity|]. by exists b'.
Defined.

(** A P slice with one reordering command, a weight table and a marking operation. *)
Definition sample_mod : list_mod := (1, [(0, 4)]).
Definition sample_table : table_syntax :=
  mkTableSyntax 3 2 [(Some (5, -1), None); (None, Some ((1, 2), (3, 4)))] [].
Definition sample_marking : marking_syntax := mkMarkingSyntax 0 0 1 [(1, 2, 0)].

Definition sample_header : slice_header_t :=
  mkHeader 0 Slice_Type_P 0 0 3 0 0 0 0 0 (0, 0) 0 0 1 1 0 (modified 2 1 [(0, 4)]) no_modification
    (table_of true false sample_table) (marking_of false sample_marking) 1 (-2) 0 0 0 1 (-1) 0.

Lemma sample_header_ok :
  header_ok sample_sps sample_pps 0 1 sample_header sample_mod (0, []) sample_table sample_marking.
Proof.
  split; [fits|fits|fits| | | |fits|fits|].
  - split_and!; [|by intros ?|reflexivity..]. intros _. split_and!; [fits| |by cbn].
    apply Forall_cons_2; [fits|apply Forall_nil_2].
  - split; [|reflexivity]. intros _. split; [fits|fits| |done].
    split_and!; [reflexivity|cbn; lia|].
    apply Forall_cons_2; [|apply Forall_cons_2; [|apply Forall_nil_2]];
      split; [intros x [= <-]|intros x y [=]|intros x [=]|intros x y [= <- <-]]; fits.
  - split; [|reflexivity]. intros _. split_and!; [fits| |cbn; lia].
    apply Forall_cons_2; [|apply Forall_nil_2]. split; [fits|by cbn].
  - split; [reflexivity|by intros ?].
Qed.

Definition sample_slice_bits : list bool :=
  concat [ue_bits 0; ue_bits 5; ue_bits 0] ++
  header_bits sample_sps sample_pps 0 1 sample_header sample_mod (0, []) sample_table sample_marking.


(** ** A whole stream *)

Definition sample_idr : slice_header_t :=
  mkHeader 0 Slice_Type_I 0 0 0 0 0 1 0 0 (0, 0) 0 0 0 0 0 no_modification no_modification
    table_zero (marking_of true (mkMarkingSyntax 0 1 0 [])) 0 4 0 0 1 0 0 0.

Lemma sample_idr_ok :
  header_ok sample_sps sample_pps 1 3 sample_idr (0, []) (0, []) sample_table (mkMarkingSyntax 0 1 0 []).
Proof.
  split; [fits|fits|fits| | | |fits|fits|].
  - split_and!; [by intros ?|by intros ?|reflexivity..].
  - split; [by intros ?|reflexivity].
  - split; [|reflexivity]. intros _. fits.
  - split; [reflexivity|by intros ?].
Qed.

Definition sample_idr_bits : list bool :=
  concat [ue_bits 0; ue_bits 7; ue_bits 0] ++
  header_bits sample_sps sample_pps 1 3 sample_idr (0, []) (0, []) sample_table (mkMarkingSyntax 0 1 0 []).

Definition sample_sps_unit : list Z := nal_byte 3 7 :: bytes_for (sps_bits sample_sps sample_lists ++ [true]).
Definition sample_pps_unit : list Z := nal_byte 3 8 :: bytes_for sample_pps_bits.
Definition sample_idr_unit : list Z := nal_byte 3 5 :: bytes_for (sample_idr_bits ++ [true]).

Definition sample_stream : list (bool * list Z) :=
  [(true, sample_sps_unit); (true, sample_pps_unit); (false, sample_idr_unit)].

Lemma sample_unit_fits long l :
  forallb (fun x => (0 <=? x) && (x <? 256)) l = true -> negb (List.last l 0 =? 0) = true ->
  (3 <=? length (escape 0 l))%nat = true -> (length (escape 0 l) <=? 100)%nat = true ->
  unit_fits MAX_NALU_SIZE (long, l).
Proof.
  intros Hb Hx H3 Hl. split_and!; cbn [snd].
  - apply Forall_forall. intros x Hin. rewrite forallb_forall in Hb.
    specialize (Hb x ltac:(by apply list_elem_of_In)). unfold is_byte. lia.
  - exists (removelast l), (List.last l 0). split; [|lia]. apply app_removelast_last. by intros ->.
  - apply Nat.leb_le in Hl. unfold MAX_NALU_SIZE. lia.
  - by apply Nat.leb_le.
Qed.

Lemma main_stream_witness :
  let file := stream sample_stream in
  exists s', main file (replicate (length file + 2) 0) (fun _ => true) = Ret 0 s' /\
    traces (tables s') = [TraceSlice sample_idr; TracePps sample_pps; TraceSps sample_sps].
Proof.
  intros file. edestruct main_stream as (s' & E & Ht);
    [| | | |exists s'; split; [exact E|rewrite Ht]].
  - repeat apply Forall_cons_2; try apply Forall_nil_2; apply sample_unit_fits; vm_compute; reflexivity.
  - eexists. split; [eapply (effect_sps _ _ 3 sample_sps sample_lists _ (length (padding (sps_bits sample_sps sample_lists ++ [true])))); [lia|exact sample_sps_ok|vm_compute; reflexivity|cbn; lia]|].
    eexists. split; [eapply (effect_pps _ _ 3 sample_pps [] true _ (length (padding sample_pps_bits)));
      [lia| |vm_compute; reflexivity|cbn; lia]|].
    { split; [fits|by constructor|fits|fits|]. by split. }
    eexists. split; [|reflexivity].
    eapply (effect_slice _ _ true 3 sample_idr 7 sample_sps sample_pps (0, []) (0, []) sample_table
      (mkMarkingSyntax 0 1 0 []) _ (true :: padding (sample_idr_bits ++ [true])));
      [lia|vm_compute; discriminate|fits|fits|fits|reflexivity|reflexivity|reflexivity|done|exact sample_idr_ok|vm_compute; reflexivity].
  - rewrite length_replicate. done.
  - vm_compute. discriminate.
  - reflexivity.
Defined.

(** ** Streams the analyser mistreats *)

Lemma slice_group_map_overflow_witness :
  parse_slice_groups (fun _ => true) 1 (handle (ue_bits 6 ++ ue_bits 3)) = Undef.
Proof.
  apply (slice_group_map_overflow 1 3 _ _ (padding (ue_bits 6 ++ ue_bits 3)));
    [lia|lia|done|apply handle_wf|vm_compute; reflexivity].
Defined.

Lemma pps_8x8_list_overflow_witness : parse_scaling_list 0 6 scaling_zero (handle [true]) = Undef.
Proof.
  apply (pps_8x8_list_overflow 6 scaling_zero (handle [true]) (padding [true]));
    [exact scaling_zero_shape|lia|apply handle_wf|vm_compute; reflexivity].
Defined.

(** The smallest parameter set of the main profile. *)
Definition sample_main_sps : sps_t :=
  mkSps 77 0 0 0 0 0 0 0 30 0 0 0 0 0 0 0 scaling_zero 0 2 0 0 0 0 0
    (replicate 256 0) 1 0 10 8 1 0 1 0 0 0 0 0 0 vui_zero.

Lemma sample_main_sps_ok : sps_ok sample_main_sps (replicate 8 None).
Proof.
  split; [fits|fits|by cbn|fits|split; [cbn; lia|exists []; by split_and!]|fits|fits|by split_and!].
Qed.

Lemma main_profile_chroma_witness :
  exists s' b', parse_sps_syntax_element (handle (sps_bits sample_main_sps (replicate 8 None))) = Ret s' b' /\
    chroma_format_idc s' = 0.
Proof.
  set (l := sps_bits sample_main_sps (replicate 8 None)).
  destruct (main_profile_chroma sample_main_sps (replicate 8 None) (handle l) (padding l)
    sample_main_sps_ok eq_refl (handle_wf l)) as (s' & b' & E & H & _); [vm_compute; reflexivity|].
  exists s', b'. split; [exact E|exact H].
Defined.

Lemma ue_31_zeros_witness : bs_read_ue (bs_init [0; 0; 0; 1; 0; 0; 0; 0] 8) = Undef.
Proof.
  apply (ue_31_zeros _ (replicate 32 false)); [split; cbn; lia|vm_compute; reflexivity|cbn; lia].
Defined.

Lemma modification_overflow_witness :
  modification_loop 5 0 [0] [0] [0] (handle (command_bits (0, 4) ++ ue_bits 3)) = Undef.
Proof.
  apply (modification_overflow [(0, 4)] [] [] [] 0 5 _ (padding (command_bits (0, 4) ++ ue_bits 3)));
    [apply Forall_cons_2; [fits|apply Forall_nil_2]|cbn; lia|done|done|done|apply handle_wf|vm_compute; reflexivity].
Defined.
