(* ===== verification/NetList.v ===== *)
(** The intrusive doubly linked lists of [src/tcpip/include/utils.h]
    (struct list_head, list_init, list_add, list_add_tail, list_del,
    list_empty, list_for_each).  The store maps the address of every allocated
    list_head to its two pointers; a null pointer is [None].  [ring] says that
    the store holds a circular list, and each operation is shown to be the
    corresponding operation on sequences. *)

From S2P Require Import Prelude.
#[local] Open Scope Z_scope.

(** The fields [next] and [prev] of every list_head. *)
Abbreviation Links A := (gmap A (option A * option A)).

Section ListHead.
Context {A : Type} `{Countable A}.
Implicit Types (a b x y pos head : A) (l : list A).

Definition get_next x : prog (Links A) A :=
  o ← gets (fun m => m !! x); p ← of_option o; of_option (p.1 : option A).
Definition get_prev x : prog (Links A) A :=
  o ← gets (fun m => m !! x); p ← of_option o; of_option (p.2 : option A).
Definition put_next x y : prog (Links A) unit :=
  o ← gets (fun m => m !! x); p ← of_option o; modify (<[x := (Some y, p.2)]>).
Definition put_prev x y : prog (Links A) unit :=
  o ← gets (fun m => m !! x); p ← of_option o; modify (<[x := (p.1, Some y)]>).

Definition list_init (head : A) : prog (Links A) unit :=
  put_next head head;; put_prev head head.

Definition list_add (new head : A) : prog (Links A) unit :=
  n ← get_next head;
  put_prev n new;;
  n ← get_next head;
  put_next new n;;
  put_prev new head;;
  put_next head new.

Definition list_add_tail (new head : A) : prog (Links A) unit :=
  p ← get_prev head;
  put_next p new;;
  p ← get_prev head;
  put_prev new p;;
  put_next new head;;
  put_prev head new.

Definition list_del (elem : A) : prog (Links A) unit :=
  prev ← get_prev elem;
  next ← get_next elem;
  put_next prev next;;
  put_prev next prev.

Definition list_empty (head : A) : prog (Links A) bool :=
  n ← get_next head; mret (bool_decide (n = head)).

(** [list_for_each]: the body runs on every element and may leave the loop
    with a result. *)
Fixpoint for_each {S B} (get : S -> (Links A)) (set : (Links A) -> S -> S)
    (body : A -> prog S (option B)) (fuel : nat) (pos head : A) : prog S (option B) :=
  match fuel with
  | O => nofuel
  | S fuel =>
      if bool_decide (pos = head) then mret None
      else r ← body pos;
           match r with
           | Some v => mret (Some v)
           | None => n ← zoom get set (get_next pos); for_each get set body fuel n head
           end
  end.

(** * Circular lists *)

Definition nxt (m : (Links A)) x : option A := m !! x ≫= fst.
Definition prv (m : (Links A)) x : option A := m !! x ≫= snd.
Definition link (m : (Links A)) x y : Prop := nxt m x = Some y /\ prv m y = Some x.

(** The nodes [a], then those of [l], then [b] are linked in this order. *)
Fixpoint edges (m : (Links A)) a l b : Prop :=
  match l with
  | [] => link m a b
  | x :: l => link m a x /\ edges m x l b
  end.

Definition ring (m : (Links A)) l : Prop :=
  match l with [] => False | x :: l => NoDup (x :: l) /\ edges m x l x end.

Lemma get_next_nxt (m : (Links A)) x y : nxt m x = Some y -> get_next x m = Ret y m.
Proof.
  unfold nxt, get_next. intros E. step (eq_refl : gets (fun m => m !! x) m = Ret (m !! x) m).
  destruct (m !! x) as [[n p]|]; [|done]. simpl in *. by subst.
Qed.

Lemma get_prev_prv (m : (Links A)) x y : prv m x = Some y -> get_prev x m = Ret y m.
Proof.
  unfold prv, get_prev. intros E. step (eq_refl : gets (fun m => m !! x) m = Ret (m !! x) m).
  destruct (m !! x) as [[n p]|]; [|done]. simpl in *. by subst.
Qed.

(** A store differs from another one in the [next] of [x] and the [prev] of [y]. *)
Lemma put_next_spec (m : (Links A)) x y :
  is_Some (m !! x) ->
  exists m', put_next x y m = Ret tt m' /\ nxt m' x = Some y /\
    (forall z, z <> x -> nxt m' z = nxt m z) /\ (forall z, prv m' z = prv m z) /\ dom m' = dom m.
Proof.
  intros [[n p] E]. exists (<[x := (Some y, p)]> m). unfold put_next, nxt, prv.
  step (eq_refl : gets (fun m => m !! x) m = Ret (m !! x) m). rewrite E.
  split_and!; [done|by rewrite lookup_insert_eq| | |].
  - intros z Hz. by rewrite lookup_insert_ne.
  - intros z. destruct (decide (z = x)) as [->|]; [rewrite lookup_insert_eq, E|rewrite lookup_insert_ne]; done.
  - rewrite dom_insert_lookup_L; [done|]. by rewrite E.
Qed.

Lemma put_prev_spec (m : (Links A)) x y :
  is_Some (m !! x) ->
  exists m', put_prev x y m = Ret tt m' /\ prv m' x = Some y /\
    (forall z, z <> x -> prv m' z = prv m z) /\ (forall z, nxt m' z = nxt m z) /\ dom m' = dom m.
Proof.
  intros [[n p] E]. exists (<[x := (n, Some y)]> m). unfold put_prev, nxt, prv.
  step (eq_refl : gets (fun m => m !! x) m = Ret (m !! x) m). rewrite E.
  split_and!; [done|by rewrite lookup_insert_eq| | |].
  - intros z Hz. by rewrite lookup_insert_ne.
  - intros z. destruct (decide (z = x)) as [->|]; [rewrite lookup_insert_eq, E|rewrite lookup_insert_ne]; done.
  - rewrite dom_insert_lookup_L; [done|]. by rewrite E.
Qed.

Lemma nxt_is_Some (m : (Links A)) x y : nxt m x = Some y -> is_Some (m !! x).
Proof. unfold nxt. destruct (m !! x); [eauto|done]. Qed.
Lemma prv_is_Some (m : (Links A)) x y : prv m x = Some y -> is_Some (m !! x).
Proof. unfold prv. destruct (m !! x); [eauto|done]. Qed.

Lemma edges_app (m : (Links A)) a l1 x l2 b :
  edges m a (l1 ++ x :: l2) b <-> edges m a l1 x /\ edges m x l2 b.
Proof.
  revert a. induction l1 as [|y l1 IH]; intros a; simpl; [done|]. rewrite IH. tauto.
Qed.

Lemma edges_ext (m m' : (Links A)) a l b :
  edges m a l b ->
  (forall z, z ∈ a :: l -> nxt m' z = nxt m z) ->
  (forall z, z ∈ l ++ [b] -> prv m' z = prv m z) -> edges m' a l b.
Proof.
  revert a. induction l as [|x l IH]; intros a; simpl.
  - intros [E1 E2] Hn Hp. split; [rewrite Hn|rewrite Hp]; (done || set_solver).
  - intros [[E1 E2] E] Hn Hp. split; [split; [rewrite Hn|rewrite Hp]; (done || set_solver)|].
    apply IH; [done| |]; intros z Hz; [apply Hn|apply Hp]; set_solver.
Qed.

Lemma edges_dom (m : (Links A)) a l b x : edges m a l b -> x ∈ a :: l ++ [b] -> is_Some (m !! x).
Proof.
  revert a. induction l as [|y l IH]; intros a; simpl.
  - intros [E1 E2] Hx. apply elem_of_cons in Hx as [->|Hx]; [by eapply nxt_is_Some|].
    apply list_elem_of_singleton in Hx as ->. by eapply prv_is_Some.
  - intros [[E1 E2] E] Hx. apply elem_of_cons in Hx as [->|Hx]; [by eapply nxt_is_Some|].
    by apply (IH y).
Qed.

Lemma ring_dom (m : (Links A)) l x : ring m l -> x ∈ l -> is_Some (m !! x).
Proof.
  destruct l as [|a l]; [done|]. intros [_ E] Hx. eapply edges_dom; [exact E|]. set_solver.
Qed.

Lemma ring_NoDup (m : (Links A)) l : ring m l -> NoDup l.
Proof. destruct l; [done|]. by intros [? _]. Qed.

(** A circular list may be read from any of its nodes. *)
Lemma ring_rotate (m : (Links A)) l1 l2 : ring m (l1 ++ l2) -> ring m (l2 ++ l1).
Proof.
  destruct l1 as [|x l1]; [by rewrite app_nil_r|].
  destruct l2 as [|y l2]; [by rewrite app_nil_r|]. simpl. intros [N E]. split.
  - by rewrite app_comm_cons, Permutation_app_comm.
  - apply edges_app in E as [E1 E2]. apply edges_app. done.
Qed.

Lemma ring_ext (m m' : (Links A)) l :
  ring m l -> (forall z, z ∈ l -> nxt m' z = nxt m z /\ prv m' z = prv m z) -> ring m' l.
Proof.
  destruct l as [|x l]; [done|]. intros [N E] Heq. split; [done|].
  eapply edges_ext; [exact E| |]; intros z Hz; apply Heq; set_solver.
Qed.

(** The two stores agree outside of [l]. *)
Definition agree_off l (m m' : (Links A)) : Prop :=
  dom m' = dom m /\ forall z, z ∉ l -> nxt m' z = nxt m z /\ prv m' z = prv m z.

Lemma list_init_ring (m : (Links A)) head :
  is_Some (m !! head) ->
  exists m', list_init head m = Ret tt m' /\ ring m' [head] /\ agree_off [head] m m'.
Proof.
  intros Hh. destruct (put_next_spec m head head Hh) as (m1 & E1 & N1 & F1 & P1 & D1).
  assert (is_Some (m1 !! head)) as Hh1 by (apply elem_of_dom; rewrite D1; by apply elem_of_dom).
  destruct (put_prev_spec m1 head head Hh1) as (m2 & E2 & N2 & F2 & P2 & D2).
  exists m2. unfold list_init. step E1. split_and!; [done| |].
  - split; [apply NoDup_singleton|]. split; [by rewrite P2|done].
  - split; [congruence|]. intros z Hz. rewrite P2, F1, F2, P1 by set_solver. done.
Qed.

Lemma is_Some_dom (m m' : Links A) x : dom m' = dom m -> is_Some (m !! x) -> is_Some (m' !! x).
Proof. intros D Hx. apply elem_of_dom. rewrite D. by apply elem_of_dom. Qed.

Lemma last_cons a x l : List.last (x :: l) a = List.last l x.
Proof. revert a x. induction l as [|y l IH]; intros a x; [done|]. change (List.last (y :: l) a = List.last (y :: l) x). by rewrite !IH. Qed.

Lemma last_elem a l : List.last l a ∈ a :: l.
Proof.
  revert a. induction l as [|x l IH]; intros a; [set_solver|].
  rewrite last_cons. specialize (IH x). set_solver.
Qed.

(** The last node before the end of a chain. *)
Lemma edges_last (m : Links A) a l b :
  edges m a l b -> prv m b = Some (List.last l a) /\
    forall p l', l = l' ++ [p] -> edges m a l' p /\ link m p b.
Proof.
  intros E. split.
  - revert a E. induction l as [|x l IH]; intros a; [by intros [_ ?]|].
    intros [_ E]. rewrite last_cons. by apply IH.
  - intros p l' ->. by apply edges_app in E.
Qed.

(** Inserting before the first node of a list read from that node is
    appending at its end; with [pos] the head this is [list_add_tail]'s use as
    a queue, with [pos] an element it inserts in front of that element. *)
Lemma list_add_tail_ring (m : Links A) new pos l :
  ring m (pos :: l) -> new ∉ pos :: l -> is_Some (m !! new) ->
  exists m', list_add_tail new pos m = Ret tt m' /\ ring m' (pos :: l ++ [new]) /\
    agree_off (new :: pos :: l) m m'.
Proof.
  intros [N E] Hnew Hs. destruct (edges_last _ _ _ _ E) as [P L].
  set (p := List.last l pos) in *.
  assert (p ∈ pos :: l) as Hp by apply last_elem.
  assert (is_Some (m !! p)) as Sp by (eapply edges_dom; [exact E|set_solver]).
  destruct (put_next_spec m p new Sp) as (m1 & R1 & N1 & F1 & P1 & D1).
  destruct (put_prev_spec m1 new p (is_Some_dom _ _ _ D1 Hs)) as (m2 & R2 & P2 & F2 & N2 & D2).
  destruct (put_next_spec m2 new pos) as (m3 & R3 & N3 & F3 & P3 & D3).
  { apply (is_Some_dom m); [congruence|done]. }
  destruct (put_prev_spec m3 pos new) as (m4 & R4 & P4 & F4 & N4 & D4).
  { apply (is_Some_dom m); [congruence|]. eapply edges_dom; [exact E|set_solver]. }
  exists m4. unfold list_add_tail. step (get_prev_prv _ _ _ P). step R1.
  step (get_prev_prv m1 pos p ltac:(by rewrite P1)). step R2. step R3. split_and!; [done| |].
  - split; [by rewrite app_comm_cons, Permutation_app_comm; constructor|].
    apply edges_app. split.
    + destruct (decide (l = [])) as [->|Hl].
      { subst p. simpl in *. split.
        - rewrite N4, F3, N2 by set_solver. done.
        - rewrite F4, P3 by set_solver. done. }
      destruct (exists_last Hl) as (l' & q & ->). subst p.
      rewrite List.last_last in *. destruct (L q l' eq_refl) as [E' _].
      apply edges_app. split.
      * eapply edges_ext; [exact E'| |]; intros z Hz.
        -- rewrite N4, F3, N2, F1; [done| |]; intros ->; apply NoDup_cons in N as [N0 N];
             apply NoDup_app in N as (_ & N & _); set_solver.
        -- rewrite F4, P3, F2, P1; [done| |]; intros ->; apply NoDup_cons in N as [N0 N]; set_solver.
      * split; [rewrite N4, F3, N2 by set_solver; done|].
        rewrite F4, P3 by set_solver. done.
    + split; [by rewrite N4|done].
  - split; [congruence|]. intros z Hz. rewrite N4, F3, N2, F1, F4, P3, F2, P1 by set_solver. done.
Qed.

Lemma list_add_ring (m : Links A) new head l :
  ring m (head :: l) -> new ∉ head :: l -> is_Some (m !! new) ->
  exists m', list_add new head m = Ret tt m' /\ ring m' (head :: new :: l) /\
    agree_off (new :: head :: l) m m'.
Proof.
  intros [N E] Hnew Hs.
  set (n := hd head l).
  assert (nxt m head = Some n) as Nx by (destruct l; [by destruct E|by destruct E as [[]]]).
  assert (n ∈ head :: l) as Hn by (subst n; destruct l; set_solver).
  assert (is_Some (m !! n)) as Sn by (eapply edges_dom; [exact E|set_solver]).
  destruct (put_prev_spec m n new Sn) as (m1 & R1 & P1 & F1 & N1 & D1).
  destruct (put_next_spec m1 new n (is_Some_dom _ _ _ D1 Hs)) as (m2 & R2 & N2 & F2 & P2 & D2).
  destruct (put_prev_spec m2 new head) as (m3 & R3 & P3 & F3 & N3 & D3).
  { apply (is_Some_dom m); [congruence|done]. }
  destruct (put_next_spec m3 head new) as (m4 & R4 & N4 & F4 & P4 & D4).
  { apply (is_Some_dom m); [congruence|]. eapply edges_dom; [exact E|set_solver]. }
  exists m4. unfold list_add. step (get_next_nxt _ _ _ Nx). step R1.
  step (get_next_nxt m1 head n ltac:(by rewrite N1)). step R2. step R3. split_and!; [done| |].
  - apply NoDup_cons in N as [N0 N]. split.
    { apply NoDup_cons. split; [set_solver|]. apply NoDup_cons. set_solver. }
    split; [split; [done|by rewrite P4]|].
    destruct l as [|x l]; simpl in *.
    + subst n. split; [rewrite F4, N3 by set_solver; done|rewrite P4, F3, P2 by set_solver; done].
    + destruct E as [_ E]. apply NoDup_cons in N as [Nx' N]. split.
      * split; [rewrite F4, N3 by set_solver; done|rewrite P4, F3, P2 by set_solver; done].
      * eapply edges_ext; [exact E| |]; intros z Hz.
        -- rewrite F4, N3, F2, N1 by set_solver. done.
        -- rewrite P4, F3, P2, F1 by set_solver. done.
  - split; [congruence|]. intros z Hz. rewrite F4, N3, F2, N1, P4, F3, P2, F1 by set_solver. done.
Qed.

Lemma list_del_ring (m : Links A) elem l :
  ring m (elem :: l) -> l <> [] ->
  exists m', list_del elem m = Ret tt m' /\ ring m' l /\ agree_off (elem :: l) m m'.
Proof.
  intros [N E] Hl. destruct (edges_last _ _ _ _ E) as [P L].
  destruct l as [|x l]; [done|]. clear Hl. destruct E as [[Nx Px] E].
  rewrite last_cons in P. set (p := List.last l x) in *.
  apply NoDup_cons in N as [N0 N].
  assert (p ∈ x :: l) as Hp by apply last_elem.
  assert (is_Some (m !! p)) as Sp by (eapply edges_dom; [exact E|set_solver]).
  destruct (put_next_spec m p x Sp) as (m1 & R1 & N1 & F1 & P1 & D1).
  destruct (put_prev_spec m1 x p) as (m2 & R2 & P2 & F2 & N2 & D2).
  { apply (is_Some_dom m); [done|]. eapply edges_dom; [exact E|set_solver]. }
  exists m2. unfold list_del. step (get_prev_prv _ _ _ P). step (get_next_nxt _ _ _ Nx). step R1.
  split_and!; [done| |].
  - split; [done|]. destruct (decide (l = [])) as [->|Hl].
    { subst p. simpl in *. split; [by rewrite N2|done]. }
    destruct (exists_last Hl) as (l' & q & ->).
    destruct (L q (x :: l') eq_refl) as [[_ E'] _].
    assert (p = q) as ->. { subst p. by rewrite List.last_last. }
    apply edges_app. split; [|split; [by rewrite N2|done]].
    apply NoDup_cons in N as [N3 N]. apply NoDup_app in N as (_ & N & _).
    eapply edges_ext; [exact E'| |]; intros z Hz.
    + rewrite N2, F1 by set_solver. done.
    + rewrite F2, P1 by set_solver. done.
  - split; [congruence|]. intros z Hz. rewrite N2, F1, F2, P1 by set_solver. done.
Qed.

Lemma list_empty_ring (m : Links A) head l :
  ring m (head :: l) -> list_empty head m = Ret (bool_decide (l = [])) m.
Proof.
  intros [N E]. unfold list_empty. destruct l as [|x l].
  - destruct E as [E _]. step (get_next_nxt _ _ _ E). by rewrite !bool_decide_eq_true_2.
  - destruct E as [[E _] _]. step (get_next_nxt _ _ _ E).
    apply NoDup_cons in N as [N _]. rewrite !bool_decide_eq_false_2; [done|done|].
    intros ->. set_solver.
Qed.

(** * Traversal *)

Fixpoint first_some {B} (f : A -> option B) l : option B :=
  match l with
  | [] => None
  | x :: l => match f x with Some v => Some v | None => first_some f l end
  end.

(** A loop whose body only looks visits the elements in order and stops at the
    first one that gives a result. *)
Lemma for_each_edges {S B} (get : S -> Links A) (set : Links A -> S -> S)
    (body : A -> prog S (option B)) (f : A -> option B) s a head l fuel :
  set (get s) s = s -> edges (get s) a l head -> head ∉ l ->
  (forall x, x ∈ l -> body x s = Ret (f x) s) -> (length l < fuel)%nat ->
  for_each get set body fuel (List.hd head l) head s = Ret (first_some f l) s.
Proof.
  intros Hs E Hh Hb. revert a fuel E Hh Hb.
  induction l as [|x l IH]; intros a fuel E Hh Hb Hf; (destruct fuel as [|fuel]; [simpl in Hf; lia|]).
  - simpl. by rewrite bool_decide_eq_true_2.
  - simpl. rewrite bool_decide_eq_false_2 by set_solver.
    step (Hb x ltac:(set_solver)). destruct (f x); [done|].
    destruct E as [_ E].
    assert (nxt (get s) x = Some (List.hd head l)) as Hn.
    { destruct l; [by destruct E|by destruct E as [[]]]. }
    assert (zoom get set (get_next x) s = Ret (List.hd head l) s) as Hz.
    { unfold zoom. by rewrite (get_next_nxt _ _ _ Hn), Hs. }
    step Hz. apply (IH x); [done|set_solver|set_solver|simpl in Hf; lia].
Qed.

Lemma ring_next (m : Links A) head l :
  ring m (head :: l) -> get_next head m = Ret (List.hd head l) m.
Proof.
  intros [_ E]. apply get_next_nxt. destruct l; [by destruct E|by destruct E as [[]]].
Qed.

Lemma ring_size (m : Links A) l : ring m l -> (length l <= size m)%nat.
Proof.
  intros R. pose proof (ring_NoDup _ _ R) as N.
  rewrite <- (size_dom (D := gset A)), <- (size_list_to_set (C := gset A) l) by done.
  apply subseteq_size. intros x Hx. apply elem_of_dom. apply elem_of_list_to_set in Hx.
  by eapply ring_dom.
Qed.
End ListHead.
