(* ===== verification/NetState.v ===== *)
(** The data of the TCP/IP stack and its packet buffers:
    [src/tcpip/include/netdev.h], [skbuff.h], [route.h], [arp.h], [ip.h] and
    [src/tcpip/common/skbuff.c].

    The heap objects (packet buffers, devices, routes) are finite maps from
    addresses; a freed or never allocated address is absent and using it is
    undefined behaviour.  All the list_heads are in one store of links.  The
    debug prints of the sources are compiled out. *)

From S2P Require Import Prelude NetList.
#[local] Open Scope Z_scope.

(** * Addresses of list_heads *)

Inductive node :=
| net_devices | rt_head
| net_list (dev : Z) | rt_list (rt : Z) | pk_list (pkb : Z) | ae_list (i : Z).

#[global] Instance node_eq_dec : EqDecision node.
Proof. solve_decision. Defined.

#[global] Instance node_countable : Countable node.
Proof.
  apply (inj_countable'
    (fun x => match x with
              | net_devices => (0, 0) | rt_head => (1, 0)
              | net_list d => (2, d) | rt_list r => (3, r)
              | pk_list p => (4, p) | ae_list i => (5, i) end)
    (fun y => match y with
              | (0, _) => net_devices | (1, _) => rt_head
              | (2, d) => net_list d | (3, r) => rt_list r
              | (4, p) => pk_list p | (_, i) => ae_list i end)).
  by intros [].
Defined.

(** * Data *)

Record netstats := mkStats {
  rx_packets : Z; tx_packets : Z; rx_errors : Z; tx_errors : Z; rx_bytes : Z; tx_bytes : Z
}.

(** The two operation tables of the program, [loop_ops] and [veth_ops]. *)
Inductive netdev_ops := loop_ops | veth_ops.

Record netdev := mkDev {
  net_mtu : Z;
  net_ipaddr : Z;
  net_mask : Z;
  net_hwaddr : list Z;
  net_name : list Z;
  net_ops : option netdev_ops;
  net_stats : netstats
}.

Record pkbuf := mkPkb {
  pk_pro : Z;
  pk_type : Z;
  pk_len : Z;
  pk_refcnt : Z;
  pk_indev : option Z;
  pk_rtdst : option Z;
  pk_data : list Z
}.

Record rtentry := mkRt {
  rt_net : Z; rt_netmask : Z; rt_gw : Z; rt_flags : Z; rt_metric : Z; rt_dev : Z
}.

Record arpentry := mkAe {
  ae_dev : option Z;
  ae_retry : Z;
  ae_ttl : Z;
  ae_state : Z;
  ae_pro : Z;
  ae_ipaddr : Z;
  ae_hwaddr : list Z
}.

Definition PKT_NONE : Z := 0.
Definition PKT_LOCALHOST : Z := 1.
Definition PKT_OTHERHOST : Z := 2.
Definition PKT_MULTICAST : Z := 3.
Definition PKT_BROADCAST : Z := 4.
Definition MAX_PKBS : Z := 200.
Definition NETDEV_ALEN : nat := 6.
Definition NETDEV_NLEN : nat := 16.
Definition ETH_HDR_LEN : Z := 14.
Definition ARP_HDR_LEN : Z := 8.
Definition ARP_DATA_LEN : Z := 20.
Definition IP_HDR_LEN : Z := 20.
Definition ETH_P_IP : Z := 2048.
Definition ETH_P_ARP : Z := 2054.
Definition ETH_P_RARP : Z := 32821.
Definition ARP_CACHE_SZ : nat := 20.

(** * State *)

(** What [realloc] did: shrank in place, moved the block, or failed. *)
Inductive ReallocResult := InPlace | Moved | Failed.

(** The behaviour of the C library and of the tap device: whether an
    allocation succeeds and what it finds in fresh memory, what a read of a
    block just freed yields, what [tap_alloc] returns and how many bytes of a
    frame [write] accepts. *)
Record NetEnv := mkNetEnv {
  malloc_ok : Z -> bool;
  junk : Z -> nat -> Z;
  realloc_result : Z -> ReallocResult;
  stale_refcnt : Z -> Z;
  tap_alloc : Z;
  tap_accepts : list Z -> Z
}.

Record Net := mkNet {
  links : Links node;
  pkbs : gmap Z pkbuf;
  devs : gmap Z netdev;
  rts : gmap Z rtentry;
  fresh : Z;                 (* the address of the next allocation *)
  alloc_pkbs : Z;
  free_pkbs : Z;
  arp_cache : list arpentry;
  arp_next : Z;              (* the static [next] of arp_entry_alloc *)
  loop : option Z;
  veth : option Z;
  tap_in : list (option (list Z));   (* the frames [tap_read] will return *)
  tap_out : list (list Z);           (* the frames written, newest first *)
  net_env : NetEnv
}.

Definition set_links (m : Links node) (s : Net) : Net :=
  mkNet m (pkbs s) (devs s) (rts s) (fresh s) (alloc_pkbs s) (free_pkbs s) (arp_cache s)
    (arp_next s) (loop s) (veth s) (tap_in s) (tap_out s) (net_env s).
Definition set_pkbs (m : gmap Z pkbuf) (s : Net) : Net :=
  mkNet (links s) m (devs s) (rts s) (fresh s) (alloc_pkbs s) (free_pkbs s) (arp_cache s)
    (arp_next s) (loop s) (veth s) (tap_in s) (tap_out s) (net_env s).
Definition set_devs (m : gmap Z netdev) (s : Net) : Net :=
  mkNet (links s) (pkbs s) m (rts s) (fresh s) (alloc_pkbs s) (free_pkbs s) (arp_cache s)
    (arp_next s) (loop s) (veth s) (tap_in s) (tap_out s) (net_env s).
Definition set_rts (m : gmap Z rtentry) (s : Net) : Net :=
  mkNet (links s) (pkbs s) (devs s) m (fresh s) (alloc_pkbs s) (free_pkbs s) (arp_cache s)
    (arp_next s) (loop s) (veth s) (tap_in s) (tap_out s) (net_env s).
Definition set_fresh (n : Z) (s : Net) : Net :=
  mkNet (links s) (pkbs s) (devs s) (rts s) n (alloc_pkbs s) (free_pkbs s) (arp_cache s)
    (arp_next s) (loop s) (veth s) (tap_in s) (tap_out s) (net_env s).
Definition set_counts (a f : Z) (s : Net) : Net :=
  mkNet (links s) (pkbs s) (devs s) (rts s) (fresh s) a f (arp_cache s)
    (arp_next s) (loop s) (veth s) (tap_in s) (tap_out s) (net_env s).
Definition set_arp (l : list arpentry) (n : Z) (s : Net) : Net :=
  mkNet (links s) (pkbs s) (devs s) (rts s) (fresh s) (alloc_pkbs s) (free_pkbs s) l
    n (loop s) (veth s) (tap_in s) (tap_out s) (net_env s).
Definition set_ifs (a b : option Z) (s : Net) : Net :=
  mkNet (links s) (pkbs s) (devs s) (rts s) (fresh s) (alloc_pkbs s) (free_pkbs s) (arp_cache s)
    (arp_next s) a b (tap_in s) (tap_out s) (net_env s).
Definition set_tap (i : list (option (list Z))) (o : list (list Z)) (s : Net) : Net :=
  mkNet (links s) (pkbs s) (devs s) (rts s) (fresh s) (alloc_pkbs s) (free_pkbs s) (arp_cache s)
    (arp_next s) (loop s) (veth s) i o (net_env s).

(** List operations on the links of the stack. *)
Definition on_links {A} (m : prog (Links node) A) : prog Net A := zoom links set_links m.

(** A new block: its address, or a null pointer when memory is short. *)
Definition malloc : prog Net (option Z) :=
  s ← gets id;
  modify (set_fresh (fresh s + 1));;
  mret (if malloc_ok (net_env s) (fresh s) then Some (fresh s) else None).

(** * Packet buffers *)

Definition pkb_at (p : Z) : prog Net pkbuf := o ← gets (fun s => pkbs s !! p); of_option o.
Definition pkb_put (p : Z) (b : pkbuf) : prog Net unit :=
  modify (fun s => set_pkbs (<[p := b]> (pkbs s)) s).
Definition pkb_upd (p : Z) (f : pkbuf -> pkbuf) : prog Net unit := b ← pkb_at p; pkb_put p (f b).

Definition set_pk_pro (x : Z) (b : pkbuf) : pkbuf :=
  mkPkb x (pk_type b) (pk_len b) (pk_refcnt b) (pk_indev b) (pk_rtdst b) (pk_data b).
Definition set_pk_type (x : Z) (b : pkbuf) : pkbuf :=
  mkPkb (pk_pro b) x (pk_len b) (pk_refcnt b) (pk_indev b) (pk_rtdst b) (pk_data b).
Definition set_pk_len (x : Z) (b : pkbuf) : pkbuf :=
  mkPkb (pk_pro b) (pk_type b) x (pk_refcnt b) (pk_indev b) (pk_rtdst b) (pk_data b).
Definition set_pk_refcnt (x : Z) (b : pkbuf) : pkbuf :=
  mkPkb (pk_pro b) (pk_type b) (pk_len b) x (pk_indev b) (pk_rtdst b) (pk_data b).
Definition set_pk_indev (x : option Z) (b : pkbuf) : pkbuf :=
  mkPkb (pk_pro b) (pk_type b) (pk_len b) (pk_refcnt b) x (pk_rtdst b) (pk_data b).
Definition set_pk_rtdst (x : option Z) (b : pkbuf) : pkbuf :=
  mkPkb (pk_pro b) (pk_type b) (pk_len b) (pk_refcnt b) (pk_indev b) x (pk_data b).
Definition set_pk_data (x : list Z) (b : pkbuf) : pkbuf :=
  mkPkb (pk_pro b) (pk_type b) (pk_len b) (pk_refcnt b) (pk_indev b) (pk_rtdst b) x.

(** [++] on an int, whose overflow is undefined. *)
Definition int_incr (x : Z) : prog Net Z := require (x <? 2 ^ 31 - 1);; mret (x + 1).

Definition EXIT_FAILURE : Z := 1.

Definition pkb_safe : prog Net unit :=
  s ← gets id;
  if MAX_PKBS <? alloc_pkbs s - free_pkbs s then exit_with EXIT_FAILURE else mret tt.

Definition count_alloc : prog Net unit :=
  s ← gets id;
  n ← int_incr (alloc_pkbs s);
  modify (fun s => set_counts n (free_pkbs s) s).

Definition fresh_bytes (env : NetEnv) (p : Z) (n : nat) : list Z :=
  (fun i => u8 (junk env p i)) <$> seq 0 n.

Definition alloc_pkb (size : Z) : prog Net (option Z) :=
  o ← malloc;
  match o with
  | None => mret None
  | Some p =>
      env ← gets net_env;
      pkb_put p (mkPkb 65535 0 size 1 None None (fresh_bytes env p (Z.to_nat size)));;
      modify (fun s => set_links (<[pk_list p := (None, None)]> (links s)) s);;
      on_links (list_init (pk_list p));;
      count_alloc;;
      pkb_safe;;
      mret (Some p)
  end.

Definition SIZEOF_PKBUF : Z := 48.

(** [malloc(pk_len)] and a copy of [pk_len] bytes from the start of the
    structure: the copy holds the header of the buffer and what is left of
    [pk_len] for the data. *)
Definition copy_pkb (pkb : Z) : prog Net (option Z) :=
  b ← pkb_at pkb;
  o ← malloc;
  match o with
  | None => mret None
  | Some p =>
      require (SIZEOF_PKBUF <=? pk_len b);;
      require (pk_len b - SIZEOF_PKBUF <=? Z.of_nat (length (pk_data b)));;
      pkb_put p (set_pk_refcnt 1 (set_pk_data (take (Z.to_nat (pk_len b - SIZEOF_PKBUF)) (pk_data b)) b));;
      modify (fun s => set_links (<[pk_list p := (None, None)]> (links s)) s);;
      on_links (list_init (pk_list p));;
      count_alloc;;
      pkb_safe;;
      mret (Some p)
  end.

Definition pkb_delete (p : Z) : prog Net unit :=
  modify (fun s => set_links (delete (pk_list p) (links s)) (set_pkbs (delete p (pkbs s)) s)).

(** After [free] the counter is read once more, in memory no longer owned;
    storing there is undefined. *)
Definition free_pkb (p : Z) : prog Net unit :=
  b ← pkb_at p;
  let n := pk_refcnt b - 1 in
  pkb_put p (set_pk_refcnt n b);;
  if n =? 0 then
    s ← gets id;
    k ← int_incr (free_pkbs s);
    modify (fun s => set_counts (alloc_pkbs s) k s);;
    pkb_delete p;;
    require (0 <=? stale_refcnt (net_env s) p)
  else if n <? 0 then pkb_upd p (set_pk_refcnt 0)
  else mret tt.

Definition get_pkb (p : Z) : prog Net unit :=
  b ← pkb_at p;
  n ← int_incr (pk_refcnt b);
  pkb_put p (set_pk_refcnt n b).

(** The result of [realloc] is dropped: when the block moves, the caller keeps
    the address of the old one. *)
Definition pkb_trim (p len : Z) : prog Net unit :=
  pkb_upd p (set_pk_len len);;
  s ← gets id;
  match realloc_result (net_env s) p with
  | InPlace => pkb_upd p (fun b => set_pk_data (take (Z.to_nat len) (pk_data b)) b)
  | Moved => pkb_delete p
  | Failed => mret tt
  end.

(** ** Bytes of a packet *)

Definition ld (p : Z) (off n : nat) : prog Net (list Z) :=
  b ← pkb_at p;
  require (off + n <=? length (pk_data b))%nat;;
  mret (sub off n (pk_data b)).

Definition st (p : Z) (off : nat) (bs : list Z) : prog Net unit :=
  b ← pkb_at p;
  require (off + length bs <=? length (pk_data b))%nat;;
  pkb_put p (set_pk_data (put off bs (pk_data b)) b).

Definition ld8 (p : Z) (off : nat) : prog Net Z := l ← ld p off 1; mret (le_decode l).
Definition ld16 (p : Z) (off : nat) : prog Net Z := l ← ld p off 2; mret (le_decode l).
Definition ld32 (p : Z) (off : nat) : prog Net Z := l ← ld p off 4; mret (le_decode l).
Definition st8 (p : Z) (off : nat) (x : Z) : prog Net unit := st p off (le_encode 1 x).
Definition st16 (p : Z) (off : nat) (x : Z) : prog Net unit := st p off (le_encode 2 x).
Definition st32 (p : Z) (off : nat) (x : Z) : prog Net unit := st p off (le_encode 4 x).

(** [ntohs] and [htons] of a little-endian machine. *)
Definition ntohs (x : Z) : Z := x mod 256 * 256 + x / 256 mod 256.
Definition htons (x : Z) : Z := ntohs x.

(** ** Devices *)

Definition dev_at (d : Z) : prog Net netdev := o ← gets (fun s => devs s !! d); of_option o.
Definition dev_upd (d : Z) (f : netdev -> netdev) : prog Net unit :=
  v ← dev_at d; modify (fun s => set_devs (<[d := f v]> (devs s)) s).
Definition set_net_stats (x : netstats) (d : netdev) : netdev :=
  mkDev (net_mtu d) (net_ipaddr d) (net_mask d) (net_hwaddr d) (net_name d) (net_ops d) x.

Definition add_rx (n : Z) (t : netstats) : netstats :=
  mkStats (u32 (rx_packets t + 1)) (tx_packets t) (rx_errors t) (tx_errors t)
    (u32 (rx_bytes t + n)) (tx_bytes t).
Definition add_tx (n : Z) (t : netstats) : netstats :=
  mkStats (rx_packets t) (u32 (tx_packets t + 1)) (rx_errors t) (tx_errors t)
    (rx_bytes t) (u32 (tx_bytes t + n)).
Definition add_rx_error (t : netstats) : netstats :=
  mkStats (rx_packets t) (tx_packets t) (u32 (rx_errors t + 1)) (tx_errors t) (rx_bytes t) (tx_bytes t).
Definition add_tx_error (t : netstats) : netstats :=
  mkStats (rx_packets t) (tx_packets t) (rx_errors t) (u32 (tx_errors t + 1)) (rx_bytes t) (tx_bytes t).
Definition count_on (d : Z) (f : netstats -> netstats) : prog Net unit :=
  dev_upd d (fun v => set_net_stats (f (net_stats v)) v).

(** * Running a list operation inside the stack *)

Lemma on_links_Ret {A} (m : prog (Links node) A) s a m' :
  m (links s) = Ret a m' -> on_links m s = Ret a (set_links m' s).
Proof. intros H. unfold on_links, zoom. by rewrite H. Qed.

Lemma set_links_id s : set_links (links s) s = s.
Proof. by destruct s. Qed.

Lemma on_links_same {A} (m : prog (Links node) A) s a :
  m (links s) = Ret a (links s) -> on_links m s = Ret a s.
Proof. intros H. rewrite (on_links_Ret _ _ _ _ H). by rewrite set_links_id. Qed.

(** Runs a list operation at the head of the program with the result [E]. *)
Ltac links_step E :=
  match goal with
  | |- context [(on_links ?op ≫= _) ?s] => rewrite (bind_Ret _ _ _ _ _ (on_links_Ret op s _ _ E))
  end.
