(* ===== verification/NetSum.v ===== *)
(** The Internet checksum: [src/tcpip/common/utils.c]. *)

From S2P Require Import Prelude.
#[local] Open Scope Z_scope.

(** [sum_every_16bits]: the 16-bit words of the region as the machine loads
    them, then a byte left over, in 32-bit arithmetic. *)
Fixpoint sum_every_16bits (sum : Z) (l : list Z) : Z :=
  match l with
  | a :: b :: l => sum_every_16bits (u32 (sum + (a + 256 * b))) l
  | [a] => u32 (sum + a)
  | [] => sum
  end.

Definition FOLD_FUEL : nat := 3.

Fixpoint fold_sum (fuel : nat) (sum : Z) : option Z :=
  match fuel with
  | O => None
  | S fuel =>
      if Z.shiftr sum 16 =? 0 then Some sum
      else fold_sum fuel (u32 (Z.land sum 65535 + Z.shiftr sum 16))
  end.

Definition checksum (addr : list Z) (start_sum : Z) : option Z :=
  s ← fold_sum FOLD_FUEL (u32 (u32 start_sum + sum_every_16bits 0 addr));
  Some (u16 (Z.lnot s)).

(** * The sum of the words, and its folding modulo 65535 *)

Fixpoint words (l : list Z) : Z :=
  match l with
  | a :: b :: l => a + 256 * b + words l
  | [a] => a
  | [] => 0
  end.

(** Induction two bytes at a time. *)
Lemma pairs_ind (P : list Z -> Prop) :
  P [] -> (forall a, P [a]) -> (forall a b l, P l -> P (a :: b :: l)) -> forall l, P l.
Proof.
  intros H0 H1 H2 l. enough (P l /\ forall a, P (a :: l)) by tauto.
  induction l as [|x l [IH IH']]; [auto|]. split; [auto|]. intros a. by apply H2.
Qed.

Lemma sum_words s l : 0 <= s < 2 ^ 32 -> sum_every_16bits s l = u32 (s + words l).
Proof.
  revert s. induction l as [|a|a b l IH] using pairs_ind; intros s Hs.
  - simpl. rewrite Z.add_0_r. by rewrite u32_id.
  - done.
  - simpl sum_every_16bits. simpl words. rewrite IH by apply u32_bound.
    unfold u32. rewrite Zplus_mod_idemp_l. f_equal. lia.
Qed.

Lemma words_app l1 l2 : Nat.even (length l1) = true -> words (l1 ++ l2) = words l1 + words l2.
Proof.
  induction l1 as [|a|a b l IH] using pairs_ind; [done|done|].
  intros E. simpl in E. simpl words. simpl app. rewrite IH by done. lia.
Qed.

Lemma words_bound l :
  Forall is_byte l -> 0 <= words l <= 65535 * ((Z.of_nat (length l) + 1) / 2).
Proof.
  induction l as [|a|a b l IH] using pairs_ind; intros F.
  - done.
  - apply Forall_cons in F as [F _]. unfold is_byte in F. simpl words.
    change ((Z.of_nat (length [a]) + 1) / 2) with 1. lia.
  - apply Forall_cons in F as [Ha F]. apply Forall_cons in F as [Hb F]. specialize (IH F).
    unfold is_byte in *. simpl words. simpl length.
    replace (Z.of_nat (S (S (length l))) + 1) with (Z.of_nat (length l) + 1 + 1 * 2) by lia.
    rewrite Z.div_add by lia. lia.
Qed.

(** A fold keeps the sum modulo 65535 and never turns a positive sum into zero. *)
Lemma fold_step s :
  0 <= s < 2 ^ 32 ->
  exists q r, s = 65536 * q + r /\ 0 <= r < 65536 /\ 0 <= q < 65536 /\
    u32 (Z.land s 65535 + Z.shiftr s 16) = q + r.
Proof.
  intros Hs. exists (s / 65536), (s mod 65536). change 65535 with (Z.ones 16).
  rewrite Z.land_ones, Z.shiftr_div_pow2 by lia. change (2 ^ 16) with 65536.
  pose proof (Z.div_mod s 65536 ltac:(lia)). pose proof (Z.mod_pos_bound s 65536 ltac:(lia)).
  assert (0 <= s / 65536 < 65536).
  { split; [apply Z.div_pos; lia|apply Z.div_lt_upper_bound; lia]. }
  rewrite u32_id by lia. lia.
Qed.

Definition folded (s : Z) : Z := if s =? 0 then 0 else (s - 1) mod 65535 + 1.

Lemma folded_bound s : 0 <= folded s <= 65535.
Proof. unfold folded. case_match; [lia|]. pose proof (Z.mod_pos_bound (s - 1) 65535). lia. Qed.

Lemma folded_step s t k : s = t + 65535 * k -> (s = 0 <-> t = 0) -> folded s = folded t.
Proof.
  intros E Z0. unfold folded. destruct (Z.eqb_spec s 0), (Z.eqb_spec t 0); try tauto.
  f_equal. subst s. replace (t + 65535 * k - 1) with (t - 1 + k * 65535) by lia.
  by rewrite Z.mod_add by lia.
Qed.

Lemma folded_small s : 0 <= s <= 65535 -> folded s = s.
Proof. intros Hs. unfold folded. case_match; [lia|]. rewrite Z.mod_small; lia. Qed.

Lemma fold_sum_S fuel s b :
  0 <= s < 2 ^ 32 -> s <= b ->
  (b <= 65535 \/ fold_sum fuel (u32 (Z.land s 65535 + Z.shiftr s 16)) = Some (folded s)) ->
  fold_sum (S fuel) s = Some (folded s).
Proof.
  intros Hs Hb D. simpl. destruct (Z.eqb_spec (Z.shiftr s 16) 0) as [E|E].
  - rewrite Z.shiftr_div_pow2 in E by lia. apply Z.div_small_iff in E; [|lia].
    rewrite folded_small; [done|lia].
  - destruct D as [D|D]; [|done]. exfalso. apply E. rewrite Z.shiftr_div_pow2 by lia.
    apply Z.div_small. lia.
Qed.

(** Three rounds are enough for any 32-bit sum. *)
Lemma fold_sum_folded s : 0 <= s < 2 ^ 32 -> fold_sum FOLD_FUEL s = Some (folded s).
Proof.
  intros Hs. destruct (fold_step s Hs) as (q & r & E & Hr & Hq & T).
  assert (0 <= q + r < 2 ^ 32) as Ht by lia.
  destruct (fold_step (q + r) Ht) as (q' & r' & E' & Hr' & Hq' & T').
  assert (folded s = folded (q + r)) as F1 by (apply (folded_step _ _ q); lia).
  assert (folded (q + r) = folded (q' + r')) as F2 by (apply (folded_step _ _ q'); lia).
  apply (fold_sum_S _ _ s); [done|lia|]. right. rewrite T, F1.
  apply (fold_sum_S _ _ (q + r)); [done|lia|]. right. rewrite T', F2.
  apply (fold_sum_S _ _ (q' + r')); lia.
Qed.

(** The checksum is the one's complement of the folded sum, for regions short
    enough for the 32-bit sum not to wrap. *)
Lemma checksum_folded l :
  Forall is_byte l -> Z.of_nat (length l) <= 131069 -> checksum l 0 = Some (65535 - folded (words l)).
Proof.
  intros F L. unfold checksum.
  pose proof (words_bound l F) as B.
  assert ((Z.of_nat (length l) + 1) / 2 <= 65535) as D by (apply Z.div_le_upper_bound; lia).
  set (k := (Z.of_nat (length l) + 1) / 2) in *.
  assert (words l < 2 ^ 32) by lia.
  rewrite sum_words by lia. change (u32 0) with 0. rewrite !Z.add_0_l.
  rewrite (u32_id (words l)) by lia. rewrite u32_id by lia.
  rewrite fold_sum_folded by lia. simpl. f_equal.
  pose proof (folded_bound (words l)). unfold u16, Z.lnot.
  rewrite <- (Z.mod_add _ 1) by lia. rewrite Z.mod_small; lia.
Qed.

(** Replacing a word of the region changes the sum by the difference. *)
Lemma words_put o c l :
  Nat.even o = true -> (o + 2 <= length l)%nat -> 0 <= c < 65536 ->
  words (put o (le_encode 2 c) l) = words l - words (sub o 2 l) + c.
Proof.
  intros E L Hc. unfold put. rewrite length_le_encode.
  assert (Nat.even (length (take o l)) = true) as E1 by (rewrite length_take, Nat.min_l; [done|lia]).
  rewrite <- (take_drop o l) at 3. rewrite !words_app by done.
  assert (words (le_encode 2 c) = c) as ->.
  { unfold le_encode. simpl. pose proof (Z.div_mod c 256 ltac:(lia)).
    rewrite (Z.mod_small (c / 256)); [lia|]. split; [apply Z.div_pos; lia|].
    apply Z.div_lt_upper_bound; lia. }
  assert (words (drop o l) = words (sub o 2 l) + words (drop (o + 2) l)) as ->; [|lia].
  rewrite <- drop_drop. rewrite <- (take_drop 2 (drop o l)) at 1.
  apply words_app. fold (sub o 2 l). rewrite length_sub by lia. done.
Qed.

Lemma words_zeros n : words (replicate n 0) = 0.
Proof.
  enough (words (replicate n 0) = 0 /\ words (0 :: replicate n 0) = 0) by tauto.
  induction n as [|n [IH IH']]; [done|]. simpl replicate. split; [done|].
  simpl words. lia.
Qed.

(** A region verifies when its words sum to a positive multiple of 65535. *)
Lemma checksum_zero l :
  Forall is_byte l -> Z.of_nat (length l) <= 131069 ->
  checksum l 0 = Some 0 <-> 0 < words l /\ words l mod 65535 = 0.
Proof.
  intros F L. rewrite checksum_folded by done. pose proof (words_bound l F) as [P _].
  unfold folded. destruct (Z.eqb_spec (words l) 0) as [E|E].
  { rewrite E. split; [intros [=]|lia]. }
  pose proof (Z.mod_pos_bound (words l - 1) 65535 ltac:(lia)) as B.
  assert (words l mod 65535 = 0 <-> (words l - 1) mod 65535 = 65534) as ->.
  { pose proof (Z.div_mod (words l - 1) 65535 ltac:(lia)) as D.
    pose proof (Z.div_mod (words l) 65535 ltac:(lia)) as D'.
    pose proof (Z.mod_pos_bound (words l) 65535 ltac:(lia)) as B'. lia. }
  split; [intros [= X]; lia|intros [? X]; f_equal; lia].
Qed.

(** Filling in the checksum of a header whose field is zero makes it verify. *)
Lemma checksum_fill l o c :
  Forall is_byte l -> Z.of_nat (length l) <= 131069 -> Nat.even o = true -> (o + 2 <= length l)%nat ->
  sub o 2 l = [0; 0] -> checksum l 0 = Some c -> checksum (put o (le_encode 2 c) l) 0 = Some 0.
Proof.
  intros F L E Ho Hz Hc. rewrite checksum_folded in Hc by done. injection Hc as Hc.
  pose proof (folded_bound (words l)) as B. pose proof (words_bound l F) as [P _].
  apply checksum_zero; [auto with regions|by rewrite length_put by (rewrite length_le_encode; lia)|].
  rewrite words_put by (done || lia). rewrite Hz. simpl words. subst c.
  unfold folded in *. destruct (Z.eqb_spec (words l) 0) as [W|W]; [rewrite W; done|].
  pose proof (Z.div_mod (words l - 1) 65535 ltac:(lia)) as D.
  pose proof (Z.mod_pos_bound (words l - 1) 65535 ltac:(lia)) as B'.
  split; [lia|].
  replace (words l - (0 + 256 * 0 + 0) + (65535 - ((words l - 1) mod 65535 + 1)))
    with (0 + ((words l - 1) / 65535 + 1) * 65535) by lia.
  by rewrite Z.mod_add.
Qed.

(** A word of a verified header counted down by one while the checksum field
    keeps its old value: the checksum computed over it is always 1. *)
Lemma checksum_off_by_one l l' :
  Forall is_byte l -> Forall is_byte l' -> length l' = length l -> Z.of_nat (length l) <= 131069 ->
  checksum l 0 = Some 0 -> words l' = words l - 1 -> checksum l' 0 = Some 1.
Proof.
  intros F F' E L Hc W. apply checksum_zero in Hc as [P M]; [|done|done].
  rewrite checksum_folded by (done || lia). rewrite W. unfold folded.
  pose proof (Z.div_mod (words l) 65535 ltac:(lia)) as D. rewrite M in D.
  destruct (Z.eqb_spec (words l - 1) 0); [lia|].
  replace (words l - 1 - 1) with (65533 + (words l / 65535 - 1) * 65535) by lia.
  by rewrite Z.mod_add.
Qed.

(** Changing the low byte of a word. *)
Lemma words_put_low o a x l :
  Nat.even o = true -> (o + 2 <= length l)%nat -> l !! o = Some a ->
  words (put o [x] l) = words l - a + x.
Proof.
  intros E L H. rewrite <- (take_drop_middle l o a H) at 2. unfold put.
  assert (Nat.even (length (take o l)) = true) as E1 by (rewrite length_take, Nat.min_l; [done|lia]).
  rewrite !(words_app (take o l)) by done. simpl length. replace (o + 1)%nat with (S o) by lia.
  destruct (drop (S o) l) as [|y t] eqn:D.
  { apply (f_equal length) in D. rewrite length_drop in D. simpl in D. lia. }
  cbn [app words]. lia.
Qed.
