(* ===== verification/NetRoute.v ===== *)
(** The routing table: [src/tcpip/ip/route.c]. *)

From Stdlib Require Import Sorted.
From S2P Require Import Prelude NetList NetState.
#[local] Open Scope Z_scope.

Definition RT_NONE : Z := 0.
Definition RT_LOCALHOST : Z := 1.
Definition RT_DEFAULT : Z := 2.
Definition FAKE_TAP_ADDR : Z := 33554442.   (* 0x0200000a, 10.0.0.2 *)

Definition rt_at (r : Z) : prog Net rtentry := o ← gets (fun s => rts s !! r); of_option o.

(** [list_for_each] over one of the lists of the stack; a list never has more
    nodes than there are list_heads. *)
Definition list_for_each {B} (head : node) (body : node -> prog Net (option B)) : prog Net (option B) :=
  n ← on_links (get_next head);
  fuel ← gets (fun s => S (size (links s)));
  for_each links set_links body fuel n head.

(** [list_entry(item, struct rtentry, rt_list)] *)
Definition rt_entry (item : node) : prog Net Z :=
  match item with rt_list r => mret r | _ => undef end.

Definition rt_matches (e : rtentry) (ipaddr : Z) : bool :=
  Z.land (rt_netmask e) ipaddr =? Z.land (rt_netmask e) (rt_net e).

Definition rt_lookup (ipaddr : Z) : prog Net (option Z) :=
  list_for_each rt_head (fun item =>
    r ← rt_entry item;
    e ← rt_at r;
    mret (if rt_matches e ipaddr then Some r else None)).

Definition rt_alloc (net netmask gw metric flags dev : Z) : prog Net (option Z) :=
  o ← malloc;
  match o with
  | None => mret None
  | Some r =>
      modify (fun s => set_rts (<[r := mkRt net netmask gw flags metric dev]> (rts s)) s);;
      modify (fun s => set_links (<[rt_list r := (None, None)]> (links s)) s);;
      on_links (list_init (rt_list r));;
      mret (Some r)
  end.

Definition rt_add (net netmask gw metric flags dev : Z) : prog Net unit :=
  o ← rt_alloc net netmask gw metric flags dev;
  match o with
  | None => mret tt
  | Some r =>
      rt ← rt_at r;
      pos ← list_for_each rt_head (fun item =>
        q ← rt_entry item;
        rte ← rt_at q;
        mret (if rt_netmask rte <=? rt_netmask rt then Some (rt_list q) else None));
      on_links (list_add_tail (rt_list r) (default rt_head pos))
  end.

(** The global pointers [loop] and [veth]. *)
Definition loop_dev : prog Net Z := o ← gets loop; of_option o.
Definition veth_dev : prog Net Z := o ← gets veth; of_option o.

Definition LOCALNET (v : netdev) : Z := Z.land (net_ipaddr v) (net_mask v).

Definition rt_init : prog Net unit :=
  l ← loop_dev;
  v ← veth_dev;
  dl ← dev_at l;
  rt_add (LOCALNET dl) (net_mask dl) 0 0 RT_LOCALHOST l;;
  dv ← dev_at v;
  rt_add (net_ipaddr dv) (2 ^ 32 - 1) 0 0 RT_LOCALHOST l;;
  dv ← dev_at v;
  rt_add (LOCALNET dv) (net_mask dv) 0 0 RT_NONE v;;
  rt_add 0 0 FAKE_TAP_ADDR 0 RT_DEFAULT v.

(** ** Fields of the IP header, at offset 14 of the packet *)

Definition IP_VHL : nat := 14.
Definition IP_LEN : nat := 16.
Definition IP_ID : nat := 18.
Definition IP_FRAG : nat := 20.
Definition IP_TTL : nat := 22.
Definition IP_PROTO : nat := 23.
Definition IP_CSUM : nat := 24.
Definition IP_SADDR : nat := 26.
Definition IP_DADDR : nat := 30.

Definition swap16_at (pkb : Z) (off : nat) : prog Net unit := x ← ld16 pkb off; st16 pkb off (ntohs x).

Definition ip_ntoh (pkb : Z) : prog Net unit :=
  swap16_at pkb IP_LEN;; swap16_at pkb IP_ID;; swap16_at pkb IP_FRAG.
Definition ip_hton (pkb : Z) : prog Net unit := ip_ntoh pkb.

Definition rt_input (pkb : Z) : prog Net Z :=
  daddr ← ld32 pkb IP_DADDR;
  rt ← rt_lookup daddr;
  match rt with
  | None => ip_hton pkb;; free_pkb pkb;; mret (-1)
  | Some r => pkb_upd pkb (set_pk_rtdst (Some r));; mret 0
  end.

Definition rt_output (pkb : Z) : prog Net Z :=
  daddr ← ld32 pkb IP_DADDR;
  rt ← rt_lookup daddr;
  match rt with
  | None => mret (-1)
  | Some r =>
      pkb_upd pkb (set_pk_rtdst (Some r));;
      e ← rt_at r;
      v ← dev_at (rt_dev e);
      st32 pkb IP_SADDR (net_ipaddr v);;
      mret 0
  end.

(** * The table as a sequence *)

Record route_table (s : Net) (l : list (Z * rtentry)) : Prop := {
  table_ring : ring (links s) (rt_head :: ((fun x => rt_list x.1) <$> l));
  table_entries : Forall (fun x => rts s !! x.1 = Some x.2) l
}.

Fixpoint find_route (ipaddr : Z) (l : list (Z * rtentry)) : option (Z * rtentry) :=
  match l with
  | [] => None
  | x :: l => if rt_matches x.2 ipaddr then Some x else find_route ipaddr l
  end.

(** A route goes in front of the first one whose mask is not larger. *)
Fixpoint insert_route (x : Z * rtentry) (l : list (Z * rtentry)) : list (Z * rtentry) :=
  match l with
  | [] => [x]
  | y :: l => if rt_netmask y.2 <=? rt_netmask x.2 then x :: y :: l else y :: insert_route x l
  end.

Lemma list_for_each_ring {B} s head l (body : node -> prog Net (option B)) f :
  ring (links s) (head :: l) -> (forall x, x ∈ l -> body x s = Ret (f x) s) ->
  list_for_each head body s = Ret (first_some f l) s.
Proof.
  intros R Hb. unfold list_for_each. step (on_links_same _ _ _ (ring_next _ _ _ R)).
  step (eq_refl : gets (fun s => S (size (links s))) s = Ret (S (size (links s))) s).
  pose proof (ring_size _ _ R) as L. pose proof (ring_NoDup _ _ R) as N. simpl in L.
  apply NoDup_cons in N as [N _]. destruct R as [_ E].
  by apply (for_each_edges links set_links body f s head);
    [apply set_links_id|done|done|done|lia].
Qed.

Lemma rt_at_entry s r e : rts s !! r = Some e -> rt_at r s = Ret e s.
Proof.
  intros H. unfold rt_at. step (eq_refl : gets (fun s => rts s !! r) s = Ret (rts s !! r) s).
  by rewrite H.
Qed.

(** A pure view of the body of a loop over the table. *)
Definition on_route {B} (s : Net) (f : Z -> rtentry -> option B) (x : node) : option B :=
  match x with rt_list r => e ← rts s !! r; f r e | _ => None end.

Lemma route_body {B} s l (f : Z -> rtentry -> option B) x :
  route_table s l -> x ∈ ((fun y => rt_list y.1) <$> l) ->
  (r ← rt_entry x; e ← rt_at r; mret (f r e)) s = Ret (on_route s f x) s.
Proof.
  intros [_ F] Hx. apply list_elem_of_fmap in Hx as ([r e] & -> & Hr). simpl.
  rewrite Forall_forall in F. specialize (F _ Hr). simpl in F.
  step (eq_refl : (mret r : prog Net Z) s = Ret r s). step (rt_at_entry _ _ _ F).
  by rewrite F.
Qed.

Lemma first_some_route {B} s l (f : Z -> rtentry -> option B) :
  Forall (fun x => rts s !! x.1 = Some x.2) l ->
  first_some (on_route s f) ((fun y => rt_list y.1) <$> l) = first_some (fun x => f x.1 x.2) l.
Proof.
  induction 1 as [|[r e] l H _ IH]; [done|].
  simpl in *. rewrite H. simpl. destruct (f r e); [done|exact IH].
Qed.

Lemma rt_lookup_find s l ipaddr :
  route_table s l -> rt_lookup ipaddr s = Ret (fst <$> find_route ipaddr l) s.
Proof.
  intros T. unfold rt_lookup. set (f (r : Z) e := if rt_matches e ipaddr then Some r else None).
  rewrite (list_for_each_ring s rt_head _ _ (on_route s f) (table_ring _ _ T)
             (fun x Hx => route_body s l f x T Hx)).
  rewrite first_some_route by apply T. f_equal. clear T.
  induction l as [|[r e] l IH]; [done|]. simpl. unfold f at 1. simpl. by destruct (rt_matches e ipaddr).
Qed.

(** * Adding a route *)

Lemma malloc_Ret s :
  malloc_ok (net_env s) (fresh s) = true ->
  malloc s = Ret (Some (fresh s)) (set_fresh (fresh s + 1) s).
Proof. intros H. unfold malloc, gets, modify, mbind, prog_bind. simpl. by rewrite H. Qed.

(** The address the next allocation returns is not in use. *)
Definition fresh_route (s : Net) : Prop :=
  links s !! rt_list (fresh s) = None /\ rts s !! fresh s = None.

Lemma route_fresh s l x : route_table s l -> rts s !! fresh s = None -> x ∈ l -> x.1 <> fresh s.
Proof.
  intros [_ F] Hn Hx E. rewrite Forall_forall in F. specialize (F _ Hx). congruence.
Qed.

Lemma rt_alloc_Ret s l net mask gw metric flags dev :
  route_table s l -> malloc_ok (net_env s) (fresh s) = true -> fresh_route s ->
  let e := mkRt net mask gw flags metric dev in
  exists m, rt_alloc net mask gw metric flags dev s =
      Ret (Some (fresh s)) (set_links m (set_rts (<[fresh s := e]> (rts s)) (set_fresh (fresh s + 1) s))) /\
    ring m (rt_head :: ((fun x => rt_list x.1) <$> l)) /\ is_Some (m !! rt_list (fresh s)).
Proof.
  intros T Hm [Hl Hr] e. set (r := fresh s) in *.
  set (m0 := <[rt_list r := (None, None)]> (links s) : Links node).
  destruct (list_init_ring m0 (rt_list r)) as (m & Em & Rm & Dm & Am).
  { subst m0. rewrite lookup_insert_eq. eauto. }
  exists m. unfold rt_alloc. step (malloc_Ret s Hm). fold r.
  pure_steps.
  split_and!.
  - by links_step Em.
  - eapply ring_ext; [apply T|]. intros z Hz.
    assert (z <> rt_list r) as Hne.
    { intros ->. apply elem_of_cons in Hz as [|Hz]; [done|].
      apply list_elem_of_fmap in Hz as (x & [= E] & Hx). by apply (route_fresh s l x T Hr Hx). }
    destruct (Am z) as [-> ->]; [by rewrite list_elem_of_singleton|].
    unfold nxt, prv, m0. by rewrite lookup_insert_ne.
  - apply elem_of_dom. rewrite Dm. unfold m0. rewrite dom_insert. set_solver.
Qed.

Abbreviation route_nodes l := ((fun x : Z * rtentry => rt_list x.1) <$> l).

Lemma insert_route_split x l :
  let pos := first_some (fun y => if rt_netmask y.2 <=? rt_netmask x.2 then Some (rt_list y.1) else None) l in
  exists l1 l2, l = l1 ++ l2 /\ insert_route x l = l1 ++ x :: l2 /\
    default rt_head pos = hd rt_head (route_nodes l2).
Proof.
  induction l as [|y l (l1 & l2 & -> & E & D)]; simpl; [by exists [], []|].
  destruct (rt_netmask y.2 <=? rt_netmask x.2).
  - by exists [], (y :: l1 ++ l2).
  - exists (y :: l1), l2. by rewrite E.
Qed.

(** Inserting in front of a position of the circular list of the table. *)
Lemma add_tail_at (m : Links node) new l1 l2 :
  ring m (rt_head :: l1 ++ l2) -> new ∉ rt_head :: l1 ++ l2 -> is_Some (m !! new) ->
  exists m', list_add_tail new (hd rt_head l2) m = Ret tt m' /\ ring m' (rt_head :: l1 ++ new :: l2).
Proof.
  intros R Hn Hs. destruct l2 as [|y l2]; simpl.
  - rewrite app_nil_r in R, Hn. destruct (list_add_tail_ring m new rt_head l1 R Hn Hs) as (m' & E & R' & _).
    by exists m'.
  - pose proof (ring_rotate m (rt_head :: l1) (y :: l2) R) as R1.
    destruct (list_add_tail_ring m new y (l2 ++ rt_head :: l1) R1) as (m' & E & R' & _);
      [set_solver|done|].
    exists m'. split; [done|].
    assert (ring m' ((y :: l2) ++ (rt_head :: l1 ++ [new]))) as R2.
    { simpl. by rewrite <- app_assoc in R'. }
    apply ring_rotate in R2. simpl in R2. by rewrite <- app_assoc in R2.
Qed.

Lemma rt_add_insert s l net mask gw metric flags dev :
  route_table s l -> malloc_ok (net_env s) (fresh s) = true -> fresh_route s ->
  let r := fresh s in
  let e := mkRt net mask gw flags metric dev in
  exists m, let s' := set_links m (set_rts (<[r := e]> (rts s)) (set_fresh (r + 1) s)) in
    rt_add net mask gw metric flags dev s = Ret tt s' /\ route_table s' (insert_route (r, e) l).
Proof.
  intros T Hm Hf r e.
  destruct (rt_alloc_Ret s l net mask gw metric flags dev T Hm Hf) as (m0 & E0 & R0 & S0).
  fold r e in E0, S0. set (s1 := set_links m0 _) in E0.
  assert (forall x, x ∈ l -> x.1 <> r) as Hne by (intros x; by apply (route_fresh s l x T), Hf).
  assert (Forall (fun x => <[r:=e]> (rts s) !! x.1 = Some x.2) l) as Fl.
  { apply Forall_forall. intros x Hx. rewrite lookup_insert_ne by (intros ->; by apply (Hne x Hx)).
    destruct T as [_ F]. rewrite Forall_forall in F. by apply F. }
  assert (route_table s1 l) as T1 by done.
  destruct (insert_route_split (r, e) l) as (l1 & l2 & El & Ei & Ep).
  set (f (q : Z) (y : rtentry) := if rt_netmask y <=? mask then Some (rt_list q) else None).
  destruct (add_tail_at m0 (rt_list r) (route_nodes l1) (route_nodes l2)) as (m & Em & Rm).
  - rewrite <- fmap_app, <- El. apply T1.
  - rewrite <- fmap_app, <- El. intros Hx. apply elem_of_cons in Hx as [|Hx]; [done|].
    apply list_elem_of_fmap in Hx as (x & [= Ex] & Hx). by apply (Hne x Hx).
  - done.
  - exists m. unfold rt_add. step E0. cbv beta iota.
    step (rt_at_entry s1 r e ltac:(apply lookup_insert_eq)).
    rewrite (bind_Ret _ _ _ _ _ (list_for_each_ring s1 rt_head _ _ (on_route s1 f) (table_ring _ _ T1)
               (fun x Hx => route_body s1 l f x T1 Hx))).
    rewrite first_some_route by apply T1. 
    assert (default rt_head (first_some (fun x => f x.1 x.2) l) = hd rt_head (route_nodes l2)) as -> by exact Ep.
    split; [exact (on_links_Ret _ s1 _ _ Em)|].
    rewrite Ei. split.
    + rewrite fmap_app. done.
    + apply Forall_app. rewrite El in Fl. apply Forall_app in Fl as [F1 F2].
      split; [done|]. constructor; [apply lookup_insert_eq|done].
Qed.

(** * Longest prefix *)

(** The mask with [n] leading ones in network order, as the little-endian
    machine loads it. *)
Definition bswap32 (x : Z) : Z := le_decode (rev (le_encode 4 x)).
Definition prefix_mask (n : nat) : Z := bswap32 (2 ^ 32 - 2 ^ (32 - Z.of_nat n)).

Definition descending (l : list (Z * rtentry)) : Prop :=
  StronglySorted (fun x y => rt_netmask y.2 <= rt_netmask x.2) l.

Lemma insert_route_sorted x l : descending l -> descending (insert_route x l).
Proof.
  unfold descending. induction 1 as [|y l S IH F]; simpl; [repeat constructor|].
  destruct (Z.leb_spec (rt_netmask y.2) (rt_netmask x.2)) as [L|L].
  - constructor; [by constructor|]. constructor; [done|].
    eapply Forall_impl; [exact F|]. simpl. lia.
  - constructor; [done|]. clear S IH. induction F as [|z l Hz F IH]; simpl; [repeat constructor; lia|].
    destruct (rt_netmask z.2 <=? rt_netmask x.2);
      [constructor; [lia|by constructor]|by constructor].
Qed.

(** Longer prefixes have larger masks, also in the machine's byte order. *)
Lemma prefix_mask_lt n m : (n < m <= 32)%nat -> prefix_mask n < prefix_mask m.
Proof.
  intros H.
  assert (forallb (fun m => forallb (fun n => prefix_mask n <? prefix_mask m) (seq 0 m)) (seq 0 33) = true)
    as C by (vm_compute; reflexivity).
  rewrite forallb_forall in C. specialize (C m ltac:(apply in_seq; lia)).
  rewrite forallb_forall in C. specialize (C n ltac:(apply in_seq; lia)). lia.
Qed.

Lemma find_route_first ip l x :
  find_route ip l = Some x ->
  exists l1 l2, l = l1 ++ x :: l2 /\ rt_matches x.2 ip = true /\ Forall (fun y => rt_matches y.2 ip = false) l1.
Proof.
  induction l as [|y l IH]; [done|]. simpl. destruct (rt_matches y.2 ip) eqn:E.
  - intros [= <-]. by exists [], l.
  - intros H. destruct (IH H) as (l1 & l2 & -> & M & F). exists (y :: l1), l2. by repeat constructor.
Qed.

Lemma find_route_none ip l : find_route ip l = None -> Forall (fun y => rt_matches y.2 ip = false) l.
Proof.
  induction l as [|y l IH]; [by constructor|]. simpl.
  destruct (rt_matches y.2 ip) eqn:E; [done|]. by constructor; auto.
Qed.

Lemma descending_after l1 x l2 y :
  descending (l1 ++ x :: l2) -> y ∈ l2 -> rt_netmask y.2 <= rt_netmask x.2.
Proof.
  unfold descending. induction l1 as [|z l1 IH]; simpl; intros S Hy.
  - apply StronglySorted_inv in S as [_ F]. rewrite Forall_forall in F. by apply F.
  - apply StronglySorted_inv in S as [S _]. by apply IH.
Qed.

(** In a table ordered by descending mask the first route that matches has the
    longest prefix of all that match. *)
Lemma find_route_longest ip l x y n m :
  descending l -> find_route ip l = Some x -> y ∈ l -> rt_matches y.2 ip = true ->
  (n <= 32)%nat -> (m <= 32)%nat ->
  rt_netmask x.2 = prefix_mask n -> rt_netmask y.2 = prefix_mask m -> (m <= n)%nat.
Proof.
  intros D Hf Hy M Hn Hm Ex Ey. destruct (find_route_first _ _ _ Hf) as (l1 & l2 & -> & _ & F).
  apply elem_of_app in Hy as [Hy|Hy].
  { rewrite Forall_forall in F. by rewrite (F y Hy) in M. }
  apply elem_of_cons in Hy as [->|Hy].
  - destruct (Nat.lt_trichotomy n m) as [L|[->|L]]; [|lia|lia].
    pose proof (prefix_mask_lt n m ltac:(lia)). lia.
  - pose proof (descending_after _ _ _ _ D Hy) as L.
    destruct (Nat.le_gt_cases m n) as [|G]; [done|].
    pose proof (prefix_mask_lt n m ltac:(lia)). lia.
Qed.
