(* ===== verification/NetArp.v ===== *)
(** ARP: [src/tcpip/arp/arp.c] and [arp_cache.c].  The driver's transmit
    function, which itself may hand a packet back to ARP through the loopback
    device, is an argument. *)

From S2P Require Import Prelude NetList NetState NetRoute.
#[local] Open Scope Z_scope.

Definition ARP_TTL_TIMEOUT : Z := 600.
Definition ARP_TTL_WAITTIME : Z := 1.
Definition ARP_STATE_FREE : Z := 1.
Definition ARP_STATE_WAITING : Z := 2.
Definition ARP_STATE_RESOLVED : Z := 3.
Definition ARP_REQ_RETRY : Z := 4.
Definition ARP_ETHERNET : Z := 1.
Definition ARP_OP_REQUEST : Z := 1.
Definition ARP_OP_REPLY : Z := 2.
Definition IP_ALEN : Z := 4.

(** Offsets of the fields of eth_hdr, arp_hdr and arp_ipv4 in a packet. *)
Definition ETH_DMAC : nat := 0.
Definition ETH_SMAC : nat := 6.
Definition ETH_TYPE : nat := 12.
Definition ARP_HWTYPE : nat := 14.
Definition ARP_PROTYPE : nat := 16.
Definition ARP_HWSIZE : nat := 18.
Definition ARP_PROSIZE : nat := 19.
Definition ARP_OPCODE : nat := 20.
Definition ARP_SMAC : nat := 22.
Definition ARP_SIP : nat := 28.
Definition ARP_DMAC : nat := 32.
Definition ARP_DIP : nat := 38.

Definition broadcast_hw : list Z := replicate 6 255.

(** A pointer to a hardware address: a constant, a cache entry, or the packet
    that is about to be overwritten. *)
Inductive mac_ptr :=
| MacConst (l : list Z)
| MacEntry (ae : Z)
| MacPacket (pkb : Z) (off : nat).

(** ** The cache *)

Definition ae_at (i : Z) : prog Net arpentry := l ← gets arp_cache; of_option (zget l i).
Definition ae_put (i : Z) (e : arpentry) : prog Net unit :=
  s ← gets id; l ← of_option (zset (arp_cache s) i e); modify (set_arp l (arp_next s)).

Definition set_ae_dev (x : option Z) (e : arpentry) : arpentry :=
  mkAe x (ae_retry e) (ae_ttl e) (ae_state e) (ae_pro e) (ae_ipaddr e) (ae_hwaddr e).
Definition set_ae_retry (x : Z) (e : arpentry) : arpentry :=
  mkAe (ae_dev e) x (ae_ttl e) (ae_state e) (ae_pro e) (ae_ipaddr e) (ae_hwaddr e).
Definition set_ae_ttl (x : Z) (e : arpentry) : arpentry :=
  mkAe (ae_dev e) (ae_retry e) x (ae_state e) (ae_pro e) (ae_ipaddr e) (ae_hwaddr e).
Definition set_ae_state (x : Z) (e : arpentry) : arpentry :=
  mkAe (ae_dev e) (ae_retry e) (ae_ttl e) x (ae_pro e) (ae_ipaddr e) (ae_hwaddr e).
Definition set_ae_hwaddr (x : list Z) (e : arpentry) : arpentry :=
  mkAe (ae_dev e) (ae_retry e) (ae_ttl e) (ae_state e) (ae_pro e) (ae_ipaddr e) x.
Definition ae_upd (i : Z) (f : arpentry -> arpentry) : prog Net unit := e ← ae_at i; ae_put i (f e).

(** The search of arp_entry_alloc: whether a free entry was found, and where
    the static [next] stands then. *)
Fixpoint scan_free (k : nat) (next : Z) : prog Net (bool * Z) :=
  match k with
  | O => mret (false, next)
  | S k =>
      e ← ae_at next;
      if ae_state e =? ARP_STATE_FREE then mret (true, next)
      else scan_free k ((next + 1) mod Z.of_nat ARP_CACHE_SZ)
  end.

Definition set_arp_next (n : Z) : prog Net unit := modify (fun s => set_arp (arp_cache s) n s).

Definition arp_entry_alloc : prog Net (option Z) :=
  next ← gets arp_next;
  '(found, n) ← scan_free ARP_CACHE_SZ next;
  set_arp_next n;;
  if found : bool then
    ae_upd n (fun e => mkAe None ARP_REQ_RETRY ARP_TTL_WAITTIME ARP_STATE_WAITING ETH_P_IP
                         (ae_ipaddr e) (ae_hwaddr e));;
    on_links (list_init (ae_list n));;
    set_arp_next ((n + 1) mod Z.of_nat ARP_CACHE_SZ);;
    mret (Some n)
  else mret None.

Definition arp_cache_insert (nd pro ipaddr : Z) (hwaddr : list Z) : prog Net Z :=
  o ← arp_entry_alloc;
  match o with
  | None => mret (-1)
  | Some i =>
      ae_upd i (fun e => mkAe (Some nd) (ae_retry e) ARP_TTL_TIMEOUT ARP_STATE_RESOLVED pro ipaddr hwaddr);;
      mret 0
  end.

Definition arp_cache_init : prog Net unit :=
  modify (fun s => set_arp (set_ae_state ARP_STATE_FREE <$> arp_cache s) (arp_next s) s).

Definition ae_matches (pro ipaddr : Z) (e : arpentry) : bool :=
  negb (ae_state e =? ARP_STATE_FREE) && (ae_pro e =? pro) && (ae_ipaddr e =? ipaddr).

Fixpoint lookup_from (i : Z) (l : list arpentry) (pro ipaddr : Z) : option Z :=
  match l with
  | [] => None
  | e :: l => if ae_matches pro ipaddr e then Some i else lookup_from (i + 1) l pro ipaddr
  end.

Definition arp_cache_lookup (pro ipaddr : Z) : prog Net (option Z) :=
  gets (fun s => lookup_from 0 (arp_cache s) pro ipaddr).

(** [list_first_entry(&ae->ae_list, struct pkbuf, pk_list)] *)
Definition first_pkb (i : Z) : prog Net Z :=
  n ← on_links (get_next (ae_list i));
  match n with pk_list p => mret p | _ => undef end.

Definition MULTICAST (netip : Z) : bool := Z.land 240 netip =? 224.

Section Transmit.
Variable net_tx : Z -> Z -> Z -> Z -> mac_ptr -> prog Net Z.

Fixpoint queue_loop (send : Z -> prog Net unit) (fuel : nat) (i : Z) : prog Net unit :=
  match fuel with
  | O => nofuel
  | S fuel =>
      e ← on_links (list_empty (ae_list i));
      if e : bool then mret tt
      else
        p ← first_pkb i;
        n ← on_links (get_next (ae_list i));
        on_links (list_del n);;
        send p;;
        queue_loop send fuel i
  end.

Definition queue_each (send : Z -> prog Net unit) (i : Z) : prog Net unit :=
  fuel ← gets (fun s => S (size (links s)));
  queue_loop send fuel i.

Definition arp_queue_send (i : Z) : prog Net unit :=
  queue_each (fun p =>
    e ← ae_at i;
    d ← of_option (ae_dev e);
    b ← pkb_at p;
    net_tx d p (pk_len b - ETH_HDR_LEN) (pk_pro b) (MacEntry i);;
    mret tt) i.

Definition arp_queue_drop (i : Z) : prog Net unit := queue_each free_pkb i.

Definition arp_request (i : Z) : prog Net Z :=
  o ← alloc_pkb (ETH_HDR_LEN + ARP_HDR_LEN);
  p ← of_option o;
  st16 p ARP_HWTYPE (htons ARP_ETHERNET);;
  st16 p ARP_PROTYPE (htons ETH_P_IP);;
  st8 p ARP_HWSIZE (Z.of_nat NETDEV_ALEN);;
  st8 p ARP_PROSIZE IP_ALEN;;
  st16 p ARP_OPCODE (htons ARP_OP_REQUEST);;
  e ← ae_at i;
  d ← of_option (ae_dev e);
  v ← dev_at d;
  st32 p ARP_SIP (net_ipaddr v);;
  st p ARP_SMAC (net_hwaddr v);;
  st32 p ARP_DIP (ae_ipaddr e);;
  st p ARP_DMAC broadcast_hw;;
  net_tx d p (ARP_HDR_LEN + ARP_DATA_LEN) ETH_P_ARP (MacConst broadcast_hw).

Definition arp_reply (dev pkb : Z) : prog Net unit :=
  st16 pkb ARP_OPCODE ARP_OP_REPLY;;
  smac ← ld pkb ARP_SMAC NETDEV_ALEN;
  st pkb ARP_DMAC smac;;
  sip ← ld32 pkb ARP_SIP;
  st32 pkb ARP_DIP sip;;
  v ← dev_at dev;
  st pkb ARP_SMAC (net_hwaddr v);;
  st32 pkb ARP_SIP (net_ipaddr v);;
  swap16_at pkb ARP_HWTYPE;;
  swap16_at pkb ARP_PROTYPE;;
  swap16_at pkb ARP_OPCODE;;
  net_tx dev pkb (ARP_HDR_LEN + ARP_DATA_LEN) ETH_P_ARP (MacPacket pkb ETH_SMAC);;
  mret tt.

Definition arp_update (i : Z) (smac : list Z) : prog Net unit :=
  ae_upd i (set_ae_hwaddr smac);;
  e ← ae_at i;
  (if ae_state e =? ARP_STATE_WAITING then arp_queue_send i else mret tt);;
  ae_upd i (set_ae_state ARP_STATE_RESOLVED);;
  ae_upd i (set_ae_ttl ARP_TTL_TIMEOUT).

Definition arp_recv (dev pkb : Z) : prog Net unit :=
  dip ← ld32 pkb ARP_DIP;
  if MULTICAST dip then free_pkb pkb
  else
    v ← dev_at dev;
    if negb (dip =? net_ipaddr v) then free_pkb pkb
    else
      protype ← ld16 pkb ARP_PROTYPE;
      sip ← ld32 pkb ARP_SIP;
      smac ← ld pkb ARP_SMAC NETDEV_ALEN;
      opcode ← ld16 pkb ARP_OPCODE;
      ae ← arp_cache_lookup protype sip;
      match ae with
      | Some i => arp_update i smac
      | None =>
          if opcode =? ARP_OP_REQUEST then arp_cache_insert dev protype sip smac;; mret tt
          else mret tt
      end;;
      opcode ← ld16 pkb ARP_OPCODE;
      if opcode =? ARP_OP_REQUEST then arp_reply dev pkb else free_pkb pkb.

(** [pk_len < ETH_HDR_LEN + ARP_HDR_LEN] compares as unsigned long. *)
Definition arp_too_small (len : Z) : bool := len mod 2 ^ 64 <? ETH_HDR_LEN + ARP_HDR_LEN.

Definition arp_in (dev pkb : Z) : prog Net Z :=
  b ← pkb_at pkb;
  if pk_type b =? PKT_OTHERHOST then free_pkb pkb;; mret (-1)
  else if arp_too_small (pk_len b) then free_pkb pkb;; mret (-1)
  else
    smac ← ld pkb ARP_SMAC NETDEV_ALEN;
    esmac ← ld pkb ETH_SMAC NETDEV_ALEN;
    if negb (bool_decide (smac = esmac)) then free_pkb pkb;; mret (-1)
    else
      swap16_at pkb ARP_HWTYPE;;
      swap16_at pkb ARP_PROTYPE;;
      swap16_at pkb ARP_OPCODE;;
      hwtype ← ld16 pkb ARP_HWTYPE;
      protype ← ld16 pkb ARP_PROTYPE;
      hwsize ← ld8 pkb ARP_HWSIZE;
      prosize ← ld8 pkb ARP_PROSIZE;
      opcode ← ld16 pkb ARP_OPCODE;
      if negb (hwtype =? ARP_ETHERNET) || negb (protype =? ETH_P_IP)
         || negb (hwsize =? Z.of_nat NETDEV_ALEN) || negb (prosize =? IP_ALEN)
      then free_pkb pkb;; mret (-1)
      else if negb (opcode =? ARP_OP_REQUEST) && negb (opcode =? ARP_OP_REPLY)
      then free_pkb pkb;; mret (-1)
      else arp_recv dev pkb;; mret 0.

(** One entry of arp_timer; [ae_ttl - delta] and [--ae_retry] stay ints. *)
Definition timer_entry (delta i : Z) : prog Net unit :=
  e ← ae_at i;
  if ae_state e =? ARP_STATE_FREE then mret tt
  else
    require ((- 2 ^ 31 <=? ae_ttl e - delta) && (ae_ttl e - delta <? 2 ^ 31));;
    ae_upd i (set_ae_ttl (ae_ttl e - delta));;
    if 0 <? ae_ttl e - delta then mret tt
    else
      expired ← (if ae_state e =? ARP_STATE_WAITING
                 then require (- 2 ^ 31 <? ae_retry e);;
                      ae_upd i (set_ae_retry (ae_retry e - 1));;
                      mret (ae_retry e - 1 <? 0)
                 else mret (ae_state e =? ARP_STATE_RESOLVED));
      if expired : bool then
        (if ae_state e =? ARP_STATE_WAITING then arp_queue_drop i else mret tt);;
        ae_upd i (set_ae_state ARP_STATE_FREE)
      else
        ae_upd i (set_ae_ttl ARP_TTL_WAITTIME);;
        arp_request i;;
        mret tt.

Fixpoint timer_from (k : nat) (delta i : Z) : prog Net unit :=
  match k with
  | O => mret tt
  | S k => timer_entry delta i;; timer_from k delta (i + 1)
  end.

Definition arp_timer (delta : Z) : prog Net unit := timer_from ARP_CACHE_SZ delta 0.
End Transmit.
