(* ===== verification/NetDev.v ===== *)
(** The link layer: [src/tcpip/netdev/netdev.c], [loop_if.c] and [tap_if.c]
    with the helpers of [netdev.h].  [net_tx] and [net_rx] call each other
    through the loopback device and ARP; the fuel bounds the depth of that
    recursion. *)

From S2P Require Import Prelude NetList NetState NetRoute NetArp.
#[local] Open Scope Z_scope.

Definition mac_cmp (a b : list Z) : bool := negb (bool_decide (a = b)).

(** [hwa[0] & 0x01], and the conjunction of the six bytes. *)
Definition is_eth_multicast (hwa : list Z) : bool := negb (Z.land (hd 0 hwa) 1 =? 0).
Definition is_eth_broadcast (hwa : list Z) : bool := foldr Z.land 255 hwa =? 255.

Definition packet_type (dmac hwaddr : list Z) : Z :=
  if is_eth_multicast dmac then
    if is_eth_broadcast dmac then PKT_BROADCAST else PKT_MULTICAST
  else if negb (mac_cmp dmac hwaddr) then PKT_LOCALHOST
  else PKT_OTHERHOST.

(** Whether the packet is big enough to have a header. *)
Definition eth_init (dev pkb : Z) : prog Net bool :=
  b ← pkb_at pkb;
  if pk_len b <? ETH_HDR_LEN then mret false
  else
    dmac ← ld pkb ETH_DMAC NETDEV_ALEN;
    v ← dev_at dev;
    pkb_upd pkb (set_pk_type (packet_type dmac (net_hwaddr v)));;
    type ← ld16 pkb ETH_TYPE;
    pkb_upd pkb (set_pk_pro (ntohs type));;
    pkb_upd pkb (set_pk_indev (Some dev));;
    mret true.

(** ** The drivers *)

Definition LOOPBACK_MTU : Z := 1500.
Definition LOOPBACK_IPADDR : Z := 16777343.   (* 0x0100007F, 127.0.0.1 *)
Definition LOOPBACK_NETMASK : Z := 255.       (* 0x000000FF, 255.0.0.0 *)
Definition VETH_NETMASK : Z := 16777215.      (* 0x00ffffff, 255.255.255.0 *)
Definition VETH_IPADDR : Z := 16777226.       (* 0x0100000a, 10.0.0.1 *)
Definition VETH_HWADDR : list Z := [0; 52; 69; 103; 137; 171].

Definition loop_dev_init (dev : Z) : prog Net Z :=
  dev_upd dev (fun v => mkDev LOOPBACK_MTU LOOPBACK_IPADDR LOOPBACK_NETMASK (net_hwaddr v)
                          (net_name v) (net_ops v) (net_stats v));;
  mret 0.

Definition veth_dev_init (dev : Z) : prog Net Z :=
  env ← gets net_env;
  if negb (tap_alloc env =? 0) then mret (tap_alloc env)
  else
    dev_upd dev (fun v => mkDev 1500 VETH_IPADDR VETH_NETMASK VETH_HWADDR
                            (net_name v) (net_ops v) (net_stats v));;
    mret 0.

(** [write] of the first [len] bytes of the packet to the tap device. *)
Definition tap_write (pkb len : Z) : prog Net Z :=
  require (0 <=? len);;
  l ← ld pkb 0 (Z.to_nat len);
  s ← gets id;
  modify (set_tap (tap_in s) (l :: tap_out s));;
  mret (tap_accepts (net_env s) l).

Definition veth_dev_xmit (dev pkb : Z) : prog Net Z :=
  b ← pkb_at pkb;
  write_len ← tap_write pkb (pk_len b);
  (if negb (write_len =? pk_len b) then count_on dev add_tx_error
   else count_on dev (add_tx write_len));;
  mret write_len.

Definition loop_recv (net_rx : Z -> Z -> prog Net Z) (dev pkb : Z) : prog Net unit :=
  b ← pkb_at pkb;
  count_on dev (add_rx (pk_len b));;
  net_rx dev pkb;;
  mret tt.

Definition loop_dev_xmit (net_rx : Z -> Z -> prog Net Z) (dev pkb : Z) : prog Net Z :=
  get_pkb pkb;;
  loop_recv net_rx dev pkb;;
  b ← pkb_at pkb;
  count_on dev (add_tx (pk_len b));;
  b ← pkb_at pkb;
  mret (pk_len b).

(** ** Transmit and receive *)

Definition mac_read (m : mac_ptr) : prog Net (list Z) :=
  match m with
  | MacConst l => mret l
  | MacEntry i => e ← ae_at i; mret (ae_hwaddr e)
  | MacPacket pkb off => ld pkb off NETDEV_ALEN
  end.

Definition net_rx_with (tx : Z -> Z -> Z -> Z -> mac_ptr -> prog Net Z) (dev pkb : Z) : prog Net Z :=
  ok ← eth_init dev pkb;
  if ok : bool then
    b ← pkb_at pkb;
    (if pk_pro b =? ETH_P_RARP then mret tt
     else if pk_pro b =? ETH_P_ARP then arp_in tx dev pkb;; mret tt
     else if pk_pro b =? ETH_P_IP then mret tt
     else free_pkb pkb);;
    mret 0
  else free_pkb pkb;; mret (-1).

Fixpoint net_tx (fuel : nat) (dev pkb len proto : Z) (dst : mac_ptr) : prog Net Z :=
  match fuel with
  | O => nofuel
  | S fuel =>
      st16 pkb ETH_TYPE (htons proto);;
      dmac ← mac_read dst;
      st pkb ETH_DMAC dmac;;
      v ← dev_at dev;
      st pkb ETH_SMAC (net_hwaddr v);;
      pkb_upd pkb (set_pk_len (len + ETH_HDR_LEN));;
      v ← dev_at dev;
      ret ← match net_ops v with
            | Some loop_ops => loop_dev_xmit (net_rx_with (net_tx fuel)) dev pkb
            | Some veth_ops => veth_dev_xmit dev pkb
            | None => mret 0
            end;
      free_pkb pkb;;
      mret ret
  end.

(** A reply to a frame looped back is the deepest nesting there is. *)
Definition TX_FUEL : nat := 3.

Definition net_rx : Z -> Z -> prog Net Z := net_rx_with (net_tx TX_FUEL).

(** ** The list of devices *)

Definition stats_zero : netstats := mkStats 0 0 0 0 0 0.

Definition netdev_alloc (devstr : list Z) (netops : option netdev_ops) : prog Net (option Z) :=
  o ← malloc;
  match o with
  | None => mret None
  | Some d =>
      require (length devstr <? NETDEV_NLEN)%nat;;
      modify (fun s => set_links (<[net_list d := (None, None)]> (links s)) s);;
      modify (fun s => set_devs (<[d := mkDev 0 0 0 (replicate NETDEV_ALEN 0)
                (put 0 (devstr ++ [0]) (replicate NETDEV_NLEN 0)) netops stats_zero]> (devs s)) s);;
      on_links (list_add_tail (net_list d) net_devices);;
      match netops with
      | Some loop_ops => loop_dev_init d;; mret tt
      | Some veth_ops => veth_dev_init d;; mret tt
      | None => mret tt
      end;;
      mret (Some d)
  end.

(** Neither [loop_ops.exit], which is null, nor [tap_free] touches this state. *)
Definition netdev_free (dev : Z) : prog Net unit :=
  v ← dev_at dev;
  on_links (list_del (net_list dev));;
  modify (fun s => set_devs (delete dev (devs s)) (set_links (delete (net_list dev) (links s)) s)).

Definition netdev_find (sip : Z) : prog Net (option Z) :=
  list_for_each net_devices (fun item =>
    d ← match item with net_list d => mret d | _ => undef end;
    v ← dev_at d;
    mret (if net_ipaddr v =? sip then Some d else None)).

Definition loop_init : prog Net unit :=
  o ← netdev_alloc [108; 111] (Some loop_ops); modify (fun s => set_ifs o (veth s) s).
Definition veth_init : prog Net unit :=
  o ← netdev_alloc [118; 101; 116; 104] (Some veth_ops); modify (fun s => set_ifs (loop s) o s).

Definition netdev_init : prog Net unit := on_links (list_init net_devices);; loop_init;; veth_init.
Definition netdev_exit : prog Net unit :=
  v ← veth_dev; netdev_free v;; l ← loop_dev; netdev_free l.

(** ** The receive thread *)

(** [read] from the tap device: a frame longer than the buffer is cut. *)
Definition tap_read (pkb len : Z) (frame : option (list Z)) : prog Net Z :=
  match frame with
  | None => mret (-1)
  | Some l =>
      let l := take (Z.to_nat len) l in
      st pkb 0 l;; mret (Z.of_nat (length l))
  end.

Definition recv_one (frame : option (list Z)) : prog Net bool :=
  v ← veth_dev;
  d ← dev_at v;
  o ← alloc_pkb (net_mtu d + ETH_HDR_LEN);
  pkb ← of_option o;
  b ← pkb_at pkb;
  read_len ← tap_read pkb (pk_len b) frame;
  if read_len <=? 0 then
    count_on v add_rx_error;; free_pkb pkb;; mret false
  else
    count_on v (add_rx read_len);;
    pkb_upd pkb (set_pk_len read_len);;
    net_rx v pkb;;
    mret true.

(** One turn per frame that arrives; [poll] waits when there is none. *)
Fixpoint recv_frames (l : list (option (list Z))) : prog Net unit :=
  match l with
  | [] => mret tt
  | f :: l =>
      modify (fun s => set_tap l (tap_out s) s);;
      go ← recv_one f;
      if go : bool then recv_frames l else mret tt
  end.

Definition recv_interrupt : prog Net unit := l ← gets tap_in; recv_frames l.
