(* ===== verification/NetIp.v ===== *)
(** IPv4 input and forwarding: [src/tcpip/ip/ip.c]. *)

From S2P Require Import Prelude NetList NetState NetSum NetRoute NetArp NetDev.
#[local] Open Scope Z_scope.

Definition IP_VERSION_4 : Z := 4.
Definition IP_FRAG_DF : Z := 16384.    (* 0x4000 *)
Definition IP_FRAG_MF : Z := 8192.     (* 0x2000 *)
Definition IP_FRAG_OFF : Z := 8191.    (* 0x1fff *)
Definition IP_P_ICMP : Z := 1.
Definition IP_P_TCP : Z := 6.
Definition IP_P_UDP : Z := 17.

(** The bit fields of the first byte; the header length in bytes. *)
Definition ipver (pkb : Z) : prog Net Z := x ← ld8 pkb IP_VHL; mret (Z.shiftr x 4).
Definition iphlen (pkb : Z) : prog Net Z := x ← ld8 pkb IP_VHL; mret (Z.shiftl (Z.land x 15) 2).

Definition header_checksum (pkb hlen : Z) : prog Net Z :=
  l ← ld pkb IP_VHL (Z.to_nat hlen); of_option (checksum l 0).

Definition equsubnet (mask ip1 ip2 : Z) : bool := Z.land mask ip1 =? Z.land mask ip2.

Definition ip_recv_local (pkb : Z) : prog Net unit :=
  frag ← ld16 pkb IP_FRAG;
  if negb (Z.land frag (Z.lor IP_FRAG_OFF IP_FRAG_MF) =? 0) && negb (Z.land frag IP_FRAG_DF =? 0)
  then free_pkb pkb
  else
    proto ← ld8 pkb IP_PROTO;
    if (proto =? IP_P_ICMP) || (proto =? IP_P_TCP) || (proto =? IP_P_UDP) then mret tt
    else free_pkb pkb.

Definition ip_forward (pkb : Z) : prog Net unit :=
  b ← pkb_at pkb;
  ttl ← ld8 pkb IP_TTL;
  if ttl <=? 1 then free_pkb pkb
  else
    st8 pkb IP_TTL (ttl - 1);;
    hlen ← iphlen pkb;
    sum ← header_checksum pkb hlen;
    st16 pkb IP_CSUM sum;;
    r ← of_option (pk_rtdst b);
    rt ← rt_at r;
    daddr ← ld32 pkb IP_DADDR;
    let dst := if negb (Z.land (rt_flags rt) RT_DEFAULT =? 0) || (0 <? rt_metric rt)
               then rt_gw rt else daddr in
    (* the redirect test only looks: its actions are commented out *)
    (if bool_decide (pk_indev b = Some (rt_dev rt)) then
       saddr ← ld32 pkb IP_SADDR;
       srt ← rt_lookup saddr;
       match srt with
       | Some q => e ← rt_at q;
                   if (rt_metric e =? 0) && equsubnet (rt_netmask e) saddr dst then mret tt else mret tt
       | None => mret tt
       end
     else mret tt);;
    len ← ld16 pkb IP_LEN;
    v ← dev_at (rt_dev rt);
    if net_mtu v <? ntohs len then
      frag ← ld16 pkb IP_FRAG;
      if negb (Z.land frag (htons IP_FRAG_DF) =? 0) then free_pkb pkb else mret tt
    else mret tt.

Definition ip_recv_route (pkb : Z) : prog Net unit :=
  r ← rt_input pkb;
  if r <? 0 then mret tt
  else
    b ← pkb_at pkb;
    rt ← of_option (pk_rtdst b);
    e ← rt_at rt;
    if negb (Z.land (rt_flags e) RT_LOCALHOST =? 0) then ip_recv_local pkb
    else ip_hton pkb;; ip_forward pkb.

Definition ip_in (dev pkb : Z) : prog Net unit :=
  b ← pkb_at pkb;
  if pk_type b =? PKT_OTHERHOST then free_pkb pkb
  else if pk_len b <? ETH_HDR_LEN + IP_HDR_LEN then free_pkb pkb
  else
    ver ← ipver pkb;
    if negb (ver =? IP_VERSION_4) then free_pkb pkb
    else
      hlen ← iphlen pkb;
      if hlen <? IP_HDR_LEN then free_pkb pkb
      else
        sum ← header_checksum pkb hlen;
        if negb (sum =? 0) then free_pkb pkb
        else
          ip_ntoh pkb;;
          len ← ld16 pkb IP_LEN;
          if (len <? hlen) || (pk_len b <? ETH_HDR_LEN + len) then free_pkb pkb
          else
            (if ETH_HDR_LEN + len <? pk_len b then pkb_trim pkb (ETH_HDR_LEN + len) else mret tt);;
            ip_recv_route pkb.
