(* ===== verification/NetPkb.v ===== *)
(** Reasoning about the stack: running a handler on a packet whose bytes are
    known, invariants that every operation preserves, and the accounting of
    packet buffers. *)

From S2P Require Import Prelude NetList NetState NetSum NetRoute NetArp NetDev.
#[local] Open Scope Z_scope.

(** A statement that runs like another one from another state. *)
Lemma bind_run {S A B} (m m' : prog S A) (k : A -> prog S B) s s' :
  m s = m' s' -> (m ≫= k) s = (m' ≫= k) s'.
Proof. intros H. unfold mbind, prog_bind. by rewrite H. Qed.

(** * One packet *)

(** The state [s] in which the buffer at [p] holds [b]. *)
Definition at_pkb (p : Z) (b : pkbuf) (s : Net) : Net := set_pkbs (<[p := b]> (pkbs s)) s.

Section OnePacket.
Variables (p : Z) (b : pkbuf) (s : Net).

Lemma pkb_at_pkb : pkb_at p (at_pkb p b s) = Ret b (at_pkb p b s).
Proof. unfold pkb_at. rewrite bind_gets. simpl. by rewrite lookup_insert_eq. Qed.

Lemma pkb_put_pkb b' : pkb_put p b' (at_pkb p b s) = Ret tt (at_pkb p b' s).
Proof. unfold pkb_put, modify, at_pkb, set_pkbs. simpl. by rewrite insert_insert_eq. Qed.

Lemma pkb_upd_pkb f : pkb_upd p f (at_pkb p b s) = Ret tt (at_pkb p (f b) s).
Proof. unfold pkb_upd. step pkb_at_pkb. apply pkb_put_pkb. Qed.

Lemma ld_pkb off n :
  (off + n <= length (pk_data b))%nat ->
  ld p off n (at_pkb p b s) = Ret (sub off n (pk_data b)) (at_pkb p b s).
Proof.
  intros H. unfold ld. step pkb_at_pkb. by rewrite bind_require by (by apply Nat.leb_le).
Qed.

Lemma st_pkb off bs :
  (off + length bs <= length (pk_data b))%nat ->
  st p off bs (at_pkb p b s) = Ret tt (at_pkb p (set_pk_data (put off bs (pk_data b)) b) s).
Proof.
  intros H. unfold st. step pkb_at_pkb. rewrite bind_require by (by apply Nat.leb_le).
  apply pkb_put_pkb.
Qed.

Lemma ld16_pkb off :
  (off + 2 <= length (pk_data b))%nat ->
  ld16 p off (at_pkb p b s) = Ret (le_decode (sub off 2 (pk_data b))) (at_pkb p b s).
Proof. intros H. unfold ld16. by step (ld_pkb off 2 H). Qed.

Lemma ld8_pkb off :
  (off + 1 <= length (pk_data b))%nat ->
  ld8 p off (at_pkb p b s) = Ret (le_decode (sub off 1 (pk_data b))) (at_pkb p b s).
Proof. intros H. unfold ld8. by step (ld_pkb off 1 H). Qed.

Lemma ld32_pkb off :
  (off + 4 <= length (pk_data b))%nat ->
  ld32 p off (at_pkb p b s) = Ret (le_decode (sub off 4 (pk_data b))) (at_pkb p b s).
Proof. intros H. unfold ld32. by step (ld_pkb off 4 H). Qed.

Lemma st16_pkb off x :
  (off + 2 <= length (pk_data b))%nat ->
  st16 p off x (at_pkb p b s) = Ret tt (at_pkb p (set_pk_data (put off (le_encode 2 x) (pk_data b)) b) s).
Proof. intros H. apply st_pkb. by rewrite length_le_encode. Qed.

Lemma st8_pkb off x :
  (off + 1 <= length (pk_data b))%nat ->
  st8 p off x (at_pkb p b s) = Ret tt (at_pkb p (set_pk_data (put off (le_encode 1 x) (pk_data b)) b) s).
Proof. intros H. apply st_pkb. by rewrite length_le_encode. Qed.

Lemma st32_pkb off x :
  (off + 4 <= length (pk_data b))%nat ->
  st32 p off x (at_pkb p b s) = Ret tt (at_pkb p (set_pk_data (put off (le_encode 4 x) (pk_data b)) b) s).
Proof. intros H. apply st_pkb. by rewrite length_le_encode. Qed.

Lemma swap16_pkb off :
  (off + 2 <= length (pk_data b))%nat ->
  swap16_at p off (at_pkb p b s) =
    Ret tt (at_pkb p (set_pk_data (put off (le_encode 2 (ntohs (le_decode (sub off 2 (pk_data b))))) (pk_data b)) b) s).
Proof. intros H. unfold swap16_at. step (ld16_pkb off H). by apply st16_pkb. Qed.

Lemma dev_at_pkb d v : devs s !! d = Some v -> dev_at d (at_pkb p b s) = Ret v (at_pkb p b s).
Proof. intros H. unfold dev_at. rewrite bind_gets. simpl. by rewrite H. Qed.
End OnePacket.

(** ** Allocation *)

Lemma list_init_new {A} `{Countable A} (m : Links A) x v :
  list_init x (<[x := v]> m) = Ret tt (<[x := (Some x, Some x)]> m).
Proof.
  unfold list_init, put_next, put_prev. pure_steps. rewrite lookup_insert_eq. pure_steps.
  rewrite insert_insert_eq, lookup_insert_eq. pure_steps.
  unfold modify. by rewrite insert_insert_eq.
Qed.

(** The state after the allocation of a buffer. *)
Definition new_buf (size : Z) (s : Net) : pkbuf :=
  mkPkb 65535 0 size 1 None None (fresh_bytes (net_env s) (fresh s) (Z.to_nat size)).
Definition new_pkb (size : Z) (s : Net) : Net :=
  let p := fresh s in
  set_counts (alloc_pkbs s + 1) (free_pkbs s)
    (set_links (<[pk_list p := (Some (pk_list p), Some (pk_list p))]> (links s))
      (at_pkb p (new_buf size s) (set_fresh (p + 1) s))).

Lemma alloc_pkb_eq size s :
  alloc_pkb size s =
    if malloc_ok (net_env s) (fresh s) then
      if alloc_pkbs s <? 2 ^ 31 - 1 then
        if MAX_PKBS <? alloc_pkbs s + 1 - free_pkbs s then Exit EXIT_FAILURE (new_pkb size s)
        else Ret (Some (fresh s)) (new_pkb size s)
      else Undef
    else Ret None (set_fresh (fresh s + 1) s).
Proof.
  unfold alloc_pkb, malloc. pure_steps. cbn [id].
  destruct (malloc_ok (net_env s) (fresh s)); [|done]. pure_steps.
  unfold pkb_put. pure_steps. links_step (list_init_new (links s) (pk_list (fresh s)) (None, None)).
  unfold count_alloc, int_incr. pure_steps. cbn [id].
  change (alloc_pkbs (set_links _ _)) with (alloc_pkbs s).
  destruct (alloc_pkbs s <? 2 ^ 31 - 1); [|done].
  transitivity ((pkb_safe;; mret (Some (fresh s))) (new_pkb size s)); [reflexivity|].
  unfold pkb_safe. pure_steps. cbn [id].
  change (alloc_pkbs (new_pkb size s) - free_pkbs (new_pkb size s)) with (alloc_pkbs s + 1 - free_pkbs s).
  by destruct (MAX_PKBS <? _).
Qed.

(** * Invariants *)

Class Preserves (P : Net -> Prop) {A} (m : prog Net A) : Prop :=
  preserves s a s' : P s -> m s = Ret a s' -> P s'.

Section Preserves.
Variable P : Net -> Prop.

#[export] Instance preserves_bind {A B} (m : prog Net A) (k : A -> prog Net B) :
  Preserves P m -> (forall a, Preserves P (k a)) -> Preserves P (m ≫= k).
Proof.
  intros Hm Hk s b s' Hs E. apply bind_inv in E as (a & t & E1 & E2).
  eapply (Hk a t); [|done]. by eapply Hm.
Qed.
#[export] Instance preserves_ret {A} (a : A) : Preserves P (mret a).
Proof. by intros s b s' Hs [= _ <-]. Qed.
#[export] Instance preserves_gets {A} (f : Net -> A) : Preserves P (gets f).
Proof. by intros s b s' Hs [= _ <-]. Qed.
#[export] Instance preserves_undef {A} : Preserves P (undef : prog Net A).
Proof. by intros s b s' Hs [=]. Qed.
#[export] Instance preserves_nofuel {A} : Preserves P (nofuel : prog Net A).
Proof. by intros s b s' Hs [=]. Qed.
#[export] Instance preserves_exit {A} c : Preserves P (exit_with c : prog Net A).
Proof. by intros s b s' Hs [=]. Qed.
#[export] Instance preserves_require b : Preserves P (require b).
Proof. unfold require. destruct b; apply _. Qed.
#[export] Instance preserves_of_option {A} (o : option A) : Preserves P (of_option o).
Proof. destruct o; apply _. Qed.
Lemma preserves_modify (f : Net -> Net) : (forall s, P s -> P (f s)) -> Preserves P (modify f).
Proof. intros H s [] s' Hs [= <-]. auto. Qed.
Lemma preserves_on_links {A} (m : prog (Links node) A) :
  (forall s l, P s -> P (set_links l s)) -> Preserves P (on_links m).
Proof.
  intros H s a s' Hs E. unfold on_links, zoom in E. destruct (m (links s)); try discriminate.
  injection E as _ <-. auto.
Qed.
End Preserves.

(** Goes down the structure of a program, leaving the operations for which no
    instance is known. *)
Ltac preserve_step :=
  match goal with
  | |- Preserves _ (_ ≫= _) => apply preserves_bind; [|intros ?]
  | |- Preserves _ (match ?x with _ => _ end) => destruct x
  | |- Preserves _ ((fun _ => _) _) => cbv beta
  | |- Preserves _ _ => apply _
  end.
Ltac preserve := repeat preserve_step.

(** The rest of a run [E] keeps the invariant, which holds by [C] where it starts. *)
Ltac keeps P E C :=
  match type of E with
  | ?m ?s = Ret ?a ?s' =>
      let K := fresh "K" in assert (Preserves P m) as K; [|exact (K s a s' C E)]
  end.

Lemma preserves_for_each P {B} (body : node -> prog Net (option B)) fuel pos head :
  (forall x, Preserves P (body x)) -> (forall s l, P s -> P (set_links l s)) ->
  Preserves P (for_each links set_links body fuel pos head).
Proof.
  intros Hb Hl. revert pos. induction fuel as [|fuel IH]; intros pos; simpl; preserve.
  - by apply preserves_on_links.
Qed.

Lemma preserves_list_for_each P {B} head (body : node -> prog Net (option B)) :
  (forall x, Preserves P (body x)) -> (forall s l, P s -> P (set_links l s)) ->
  Preserves P (list_for_each head body).
Proof.
  intros Hb Hl. unfold list_for_each. preserve; [by apply preserves_on_links|by apply preserves_for_each].
Qed.

(** * Accounting of packet buffers *)

(** The counters count the live buffers, and the addresses not yet handed out
    hold none. *)
Record accounted (s : Net) : Prop := {
  acc_count : alloc_pkbs s - free_pkbs s = Z.of_nat (size (pkbs s));
  acc_fresh p : fresh s <= p -> pkbs s !! p = None
}.

#[export] Hint Constructors accounted : accounting.

Lemma accounted_frame s s' :
  accounted s -> pkbs s' = pkbs s -> alloc_pkbs s' = alloc_pkbs s -> free_pkbs s' = free_pkbs s ->
  fresh s <= fresh s' -> accounted s'.
Proof. intros [C F] E1 E2 E3 E4. split; [congruence|]. intros p Hp. rewrite E1. apply F. lia. Qed.

Ltac frame_step := apply preserves_modify; intros ? ?; eapply accounted_frame; [eassumption|done..|simpl; lia].

#[export] Instance acc_on_links {A} (m : prog (Links node) A) : Preserves accounted (on_links m).
Proof. apply preserves_on_links. intros s l H. by eapply accounted_frame; [exact H|..]. Qed.

#[export] Instance acc_pkb_at p : Preserves accounted (pkb_at p).
Proof. unfold pkb_at. apply _. Qed.

(** Overwriting a live buffer. *)
Lemma acc_put s p b : accounted s -> is_Some (pkbs s !! p) -> accounted (set_pkbs (<[p := b]> (pkbs s)) s).
Proof.
  intros [C F] [b0 Hb]. split; simpl.
  - rewrite C, map_size_insert_Some; eauto.
  - intros q Hq. rewrite lookup_insert_ne; [auto|]. intros ->. rewrite F in Hb by done. done.
Qed.

Lemma pkb_at_inv p s b s' : pkb_at p s = Ret b s' -> s' = s /\ pkbs s !! p = Some b.
Proof.
  unfold pkb_at. rewrite bind_gets. destruct (pkbs s !! p); [|done]. by intros [= -> ->].
Qed.

#[export] Instance acc_upd p f : Preserves accounted (pkb_upd p f).
Proof.
  intros s [] s' Hs E. apply bind_inv in E as (b & t & E1 & E2).
  apply pkb_at_inv in E1 as [-> Hb]. injection E2 as <-. apply acc_put; eauto.
Qed.

#[export] Instance acc_st p off bs : Preserves accounted (st p off bs).
Proof.
  intros s [] s' Hs E. apply bind_inv in E as (b & t & E1 & E2).
  apply pkb_at_inv in E1 as [-> Hb]. apply bind_inv in E2 as (? & t & E2 & E3).
  unfold require in E2. destruct (off + _ <=? _)%nat; [|done]. injection E2 as _ <-.
  injection E3 as <-. apply acc_put; eauto.
Qed.

#[export] Instance acc_get p : Preserves accounted (get_pkb p).
Proof.
  intros s [] s' Hs E. apply bind_inv in E as (b & t & E1 & E2).
  apply pkb_at_inv in E1 as [-> Hb]. apply bind_inv in E2 as (n & t & E2 & E3).
  assert (t = s) as ->.
  { unfold int_incr, require in E2. destruct (_ <? _); [|done]. by injection E2 as _ <-. }
  injection E3 as <-. apply acc_put; eauto.
Qed.

Lemma acc_delete s p k :
  accounted s -> is_Some (pkbs s !! p) -> k = free_pkbs s + 1 ->
  accounted (set_links (delete (pk_list p) (links s))
               (set_pkbs (delete p (pkbs s)) (set_counts (alloc_pkbs s) k s))).
Proof.
  intros [C F] Hb ->. split; simpl.
  - rewrite map_size_delete_Some by done.
    assert (size (pkbs s) <> 0%nat); [|lia].
    destruct Hb as [b Hb]. intros E. apply map_size_empty_iff in E. by rewrite E in Hb.
  - intros q Hq. rewrite lookup_delete_None. right. auto.
Qed.

#[export] Instance acc_free p : Preserves accounted (free_pkb p).
Proof.
  intros s [] s' Hs E. apply bind_inv in E as (b & t & E1 & E2).
  apply pkb_at_inv in E1 as [-> Hb]. cbv zeta in E2. apply bind_inv in E2 as ([] & t & E2 & E3).
  injection E2 as <-. set (s1 := set_pkbs _ s) in E3.
  assert (accounted s1) as H1 by (apply acc_put; eauto).
  assert (is_Some (pkbs s1 !! p)) as S1 by (simpl; rewrite lookup_insert_eq; eauto).
  destruct (pk_refcnt b - 1 =? 0).
  - apply bind_inv in E3 as (? & t & E2 & E3). injection E2 as <- <-.
    apply bind_inv in E3 as (k & t & E2 & E3).
    unfold int_incr, require in E2. destruct (_ <? _); [|done]. injection E2 as <- <-.
    apply bind_inv in E3 as ([] & t & E2 & E3). injection E2 as <-.
    apply bind_inv in E3 as ([] & t & E2 & E3). injection E2 as <-.
    unfold require in E3. destruct (_ <=? _); [|done]. injection E3 as <-.
    by apply (acc_delete s1).
  - destruct (pk_refcnt b - 1 <? 0); [by eapply acc_upd|]. injection E3 as E3. by rewrite <- E3.
Qed.

#[export] Hint Extern 3 (Preserves accounted (modify _)) => frame_step : typeclass_instances.

#[export] Instance acc_dev_at d : Preserves accounted (dev_at d).
Proof. unfold dev_at. apply _. Qed.
#[export] Instance acc_count_on d f : Preserves accounted (count_on d f).
Proof. unfold count_on, dev_upd. preserve. Qed.
#[export] Instance acc_int_incr n : Preserves accounted (int_incr n).
Proof. unfold int_incr. preserve. Qed.

Lemma acc_new s size : accounted s -> accounted (new_pkb size s).
Proof.
  intros [C F]. split; simpl.
  - rewrite map_size_insert_None by (apply F; lia). lia.
  - intros q Hq. rewrite lookup_insert_ne by lia. apply F. lia.
Qed.

#[export] Instance acc_alloc size : Preserves accounted (alloc_pkb size).
Proof.
  intros s o s' Hs. rewrite alloc_pkb_eq. destruct (malloc_ok _ _).
  - destruct (_ <? _); [|done]. destruct (_ <? _); [done|]. intros [= _ <-]. by apply acc_new.
  - intros [= _ <-]. eapply accounted_frame; [exact Hs|done..|simpl; lia].
Qed.

#[export] Instance acc_ae_at i : Preserves accounted (ae_at i).
Proof. unfold ae_at. apply _. Qed.
#[export] Instance acc_ae_upd i f : Preserves accounted (ae_upd i f).
Proof. unfold ae_upd, ae_put. preserve. Qed.
#[export] Instance acc_swap16 p off : Preserves accounted (swap16_at p off).
Proof. unfold swap16_at, ld16, ld, st16. preserve. Qed.
#[export] Instance acc_scan_free k n : Preserves accounted (scan_free k n).
Proof. revert n. induction k; intros n; simpl; preserve. Qed.
#[export] Instance acc_arp_insert nd pro ip hw : Preserves accounted (arp_cache_insert nd pro ip hw).
Proof. unfold arp_cache_insert, arp_entry_alloc, set_arp_next. preserve. Qed.

(** What ARP needs of the driver below it: transmitting keeps the accounts. *)
Class TxAccounts (tx : Z -> Z -> Z -> Z -> mac_ptr -> prog Net Z) : Prop :=
  tx_accounts d p len proto dst : Preserves accounted (tx d p len proto dst).
#[export] Existing Instance tx_accounts.

Section Arp.
Context (tx : Z -> Z -> Z -> Z -> mac_ptr -> prog Net Z) `{!TxAccounts tx}.

#[export] Instance acc_queue_loop send fuel i :
  (forall p, Preserves accounted (send p)) -> Preserves accounted (queue_loop send fuel i).
Proof. intros Hs. induction fuel; simpl; unfold first_pkb; preserve. Qed.
#[export] Instance acc_queue_send i : Preserves accounted (arp_queue_send tx i).
Proof. unfold arp_queue_send, queue_each. preserve. Qed.
#[export] Instance acc_queue_drop i : Preserves accounted (arp_queue_drop i).
Proof. unfold arp_queue_drop, queue_each. preserve. Qed.
#[export] Instance acc_arp_request i : Preserves accounted (arp_request tx i).
Proof. unfold arp_request, st16, st8, st32. preserve. Qed.
#[export] Instance acc_arp_reply d p : Preserves accounted (arp_reply tx d p).
Proof. unfold arp_reply, ld, ld32, st16, st32. preserve. Qed.
#[export] Instance acc_arp_recv d p : Preserves accounted (arp_recv tx d p).
Proof. unfold arp_recv, ld, ld16, ld32, arp_update, arp_cache_lookup. preserve. Qed.
#[export] Instance acc_arp_in d p : Preserves accounted (arp_in tx d p).
Proof. unfold arp_in, ld, ld16, ld8. preserve. Qed.
#[export] Instance acc_arp_timer delta : Preserves accounted (arp_timer tx delta).
Proof.
  unfold arp_timer. generalize 0. generalize ARP_CACHE_SZ as k.
  induction k as [|k IH]; intros i; simpl; [apply _|]. unfold timer_entry. preserve.
Qed.
#[export] Instance acc_net_rx_with d p : Preserves accounted (net_rx_with tx d p).
Proof. unfold net_rx_with, eth_init, ld, ld16. preserve. Qed.
End Arp.

#[export] Instance acc_net_tx fuel : TxAccounts (net_tx fuel).
Proof.
  induction fuel as [|fuel IH]; intros d p len proto dst; simpl; [apply _|].
  unfold st16, mac_read, ld, loop_dev_xmit, loop_recv, veth_dev_xmit, tap_write. preserve.
Qed.

#[export] Instance acc_recv_one f : Preserves accounted (recv_one f).
Proof. unfold recv_one, veth_dev, tap_read, net_rx. preserve. Qed.
#[export] Instance acc_recv_frames l : Preserves accounted (recv_frames l).
Proof. induction l; simpl; preserve. Qed.
