(* ===== verification/NetArpSpec.v ===== *)
(** What ARP does with the frames it receives: the cache as a finite search
    table, the answer to a request on the tap device, and the life of the
    packet buffer. *)

From S2P Require Import Prelude NetList NetState NetSum NetRoute NetArp NetDev NetPkb.
#[local] Open Scope Z_scope.

(** * Giving a buffer back, and sending it *)

(** The state after the last reference to the buffer at [p] is dropped. *)
Definition released (p : Z) (s : Net) : Net :=
  set_links (delete (pk_list p) (links s))
    (set_pkbs (delete p (pkbs s)) (set_counts (alloc_pkbs s) (free_pkbs s + 1) s)).

(** [free] may be called once more: the counter has room and the stale word is
    not negative. *)
Definition can_free (p : Z) (s : Net) : Prop :=
  free_pkbs s < 2 ^ 31 - 1 /\ 0 <= stale_refcnt (net_env s) p.

Lemma free_pkb_last p b s :
  pk_refcnt b = 1 -> can_free p s -> free_pkb p (at_pkb p b s) = Ret tt (released p s).
Proof.
  intros R [F S]. unfold free_pkb. step (pkb_at_pkb p b s). rewrite R.
  cbv zeta. change (1 - 1) with 0. step (pkb_put_pkb p b s (set_pk_refcnt 0 b)).
  change (0 =? 0) with true. cbv iota. unfold int_incr. pure_steps. cbn [id]. rewrite bind_require by (apply Z.ltb_lt; exact F). pure_steps.
  unfold pkb_delete. pure_steps. unfold require.
  rewrite (proj2 (Z.leb_le 0 _)) by exact S. unfold mret, prog_ret, released. f_equal.
  unfold set_links, set_pkbs, set_counts. simpl. by rewrite delete_insert_eq.
Qed.

Definition tx_stats (n written : Z) (t : netstats) : netstats :=
  if negb (written =? n) then add_tx_error t else add_tx written t.

(** The state after [frame] left through the tap device [d]. *)
Definition transmitted (d : Z) (v : netdev) (frame : list Z) (s : Net) : Net :=
  let n := tap_accepts (net_env s) frame in
  set_devs (<[d := set_net_stats (tx_stats (Z.of_nat (length frame)) n (net_stats v)) v]> (devs s))
    (set_tap (tap_in s) (frame :: tap_out s) s).

Lemma veth_dev_xmit_pkb d v p b s :
  devs s !! d = Some v -> 0 <= pk_len b -> pk_len b <= Z.of_nat (length (pk_data b)) ->
  let frame := take (Z.to_nat (pk_len b)) (pk_data b) in
  veth_dev_xmit d p (at_pkb p b s) =
    Ret (tap_accepts (net_env s) frame) (at_pkb p b (transmitted d v frame s)).
Proof.
  intros Hd H0 HL frame. unfold veth_dev_xmit. step (pkb_at_pkb p b s). unfold tap_write. pure_steps.
  rewrite bind_require by lia. pure_steps.
  step (ld_pkb p b s 0 (Z.to_nat (pk_len b)) ltac:(lia)). pure_steps. cbn [id].
  unfold sub. rewrite drop_0. fold frame. change (net_env (at_pkb p b s)) with (net_env s).
  assert (pk_len b = Z.of_nat (length frame)) as ->.
  { unfold frame. rewrite length_take. lia. }
  set (n := tap_accepts (net_env s) frame).
  unfold transmitted, tx_stats. fold n. destruct (negb (n =? Z.of_nat (length frame)));
    unfold count_on, dev_upd, dev_at; pure_steps;
    change (devs (set_tap _ _ _)) with (devs s); rewrite Hd; by pure_steps.
Qed.

Lemma length_put_eq o (bs l : list Z) n :
  length l = n -> (o + length bs <= n)%nat -> length (put o bs l) = n.
Proof. intros <- H. by apply length_put. Qed.

(** The packet with its link-layer header filled in. *)
Definition framed (dmac smac : list Z) (proto : Z) (data : list Z) : list Z :=
  put 6 smac (put 0 dmac (put 12 (le_encode 2 (htons proto)) data)).

Lemma net_tx_veth fuel d v p b s len proto dst dmac :
  devs s !! d = Some v -> net_ops v = Some veth_ops -> length (net_hwaddr v) = 6%nat ->
  pk_refcnt b = 1 -> can_free p s -> 0 <= len -> 14 + len <= Z.of_nat (length (pk_data b)) ->
  length dmac = 6%nat ->
  (let b1 := set_pk_data (put 12 (le_encode 2 (htons proto)) (pk_data b)) b in
   mac_read dst (at_pkb p b1 s) = Ret dmac (at_pkb p b1 s)) ->
  let frame := take (Z.to_nat (len + 14)) (framed dmac (net_hwaddr v) proto (pk_data b)) in
  net_tx (S fuel) d p len proto dst (at_pkb p b s) =
    Ret (tap_accepts (net_env s) frame) (released p (transmitted d v frame s)).
Proof.
  intros Hd Ho Hh Hr Hf Hl HL Hm Hdst frame. simpl.
  step (st16_pkb p b s ETH_TYPE (htons proto) ltac:(unfold ETH_TYPE; lia)). step Hdst.
  set (b1 := set_pk_data _ b).
  assert (length (pk_data b1) = length (pk_data b)) as L1 by (apply length_put_eq; [done|]; rewrite length_le_encode; unfold ETH_TYPE; lia).
  step (st_pkb p b1 s ETH_DMAC dmac ltac:(unfold ETH_DMAC; lia)). set (b2 := set_pk_data _ b1).
  assert (length (pk_data b2) = length (pk_data b)) as L2 by (apply length_put_eq; [done|]; unfold ETH_DMAC; lia).
  step (dev_at_pkb p b2 s d v Hd).
  step (st_pkb p b2 s ETH_SMAC (net_hwaddr v) ltac:(unfold ETH_SMAC; lia)). set (b3 := set_pk_data _ b2).
  assert (length (pk_data b3) = length (pk_data b)) as L3 by (apply length_put_eq; [done|]; unfold ETH_SMAC; lia).
  step (pkb_upd_pkb p b3 s (set_pk_len (len + ETH_HDR_LEN))).
  step (dev_at_pkb p (set_pk_len (len + ETH_HDR_LEN) b3) s d v Hd). rewrite Ho.
  assert (pk_data (set_pk_len (len + ETH_HDR_LEN) b3) = pk_data b3) as E3 by done.
  step (veth_dev_xmit_pkb d v p (set_pk_len (len + ETH_HDR_LEN) b3) s Hd
          ltac:(simpl; unfold ETH_HDR_LEN; lia) ltac:(rewrite E3, L3; simpl; unfold ETH_HDR_LEN; lia)).
  step (free_pkb_last p (set_pk_len (len + ETH_HDR_LEN) b3) (transmitted d v frame s) Hr Hf).
  done.
Qed.

(** * ARP frames *)

(** An ARP packet for Ethernet and IPv4 in network order; addresses are the
    bytes in the packet. *)
Definition arp_frame (dmac smac : list Z) (op : Z) (sha spa tha tpa : list Z) : list Z :=
  dmac ++ smac ++ [8; 6] ++ [0; 1; 8; 0; 6; 4; 0; op] ++ sha ++ spa ++ tha ++ tpa.

(** The same packet after arp_in turned three of its fields to host order. *)
Definition arp_host (dmac smac : list Z) (op : Z) (sha spa tha tpa : list Z) : list Z :=
  dmac ++ smac ++ [8; 6] ++ [1; 0; 0; 8; 6; 4; op; 0] ++ sha ++ spa ++ tha ++ tpa.

Definition mac (l : list Z) : Prop := length l = 6%nat /\ Forall is_byte l.
Definition ip4 (l : list Z) : Prop := length l = 4%nat /\ Forall is_byte l.

Lemma mac_cons (l : list Z) : mac l -> exists a b c d e f, l = [a; b; c; d; e; f].
Proof.
  intros [L _]. do 6 (destruct l as [|? l]; [done|]). destruct l; [|done]. eauto 10.
Qed.

Lemma ip4_cons (l : list Z) : ip4 l -> exists a b c d, l = [a; b; c; d].
Proof.
  intros [L _]. do 4 (destruct l as [|? l]; [done|]). destruct l; [|done]. eauto 10.
Qed.

Ltac is_numeral x := match x with Z0 => idtac | Zpos _ => idtac | Zneg _ => idtac end.
Ltac is_known bs :=
  match bs with
  | _ :: _ => idtac
  | le_encode _ ?x => let r := eval vm_compute in x in is_numeral r
  end.

(** Computes the regions of a packet whose first bytes are known, and the
    numbers in them that do not depend on a variable. *)
Ltac norm_regions :=
  repeat match goal with
  | |- context [sub ?o ?n ?l] =>
      let r := eval vm_compute in (sub o n l) in change (sub o n l) with r
  | |- context [le_decode ?l] =>
      let r := eval vm_compute in (le_decode l) in is_numeral r; change (le_decode l) with r
  | |- context [put ?o ?bs ?l] =>
      is_known bs; let r := eval vm_compute in (put o bs l) in change (put o bs l) with r
  end.

Lemma set_pk_data_id b l : pk_data b = l -> b = set_pk_data l b.
Proof. intros <-. by destruct b. Qed.

Ltac region_fits := apply Nat.leb_le; vm_compute; reflexivity.

(** Runs an operation on the packet in hand. *)
Ltac pkb_step :=
  match goal with
  | |- context [(pkb_at ?p ≫= _) (at_pkb ?p ?b ?s)] => rewrite (bind_Ret _ _ _ _ _ (pkb_at_pkb p b s))
  | |- context [(ld ?p ?o ?n ≫= _) (at_pkb ?p ?b ?s)] =>
      rewrite (bind_Ret _ _ _ _ _ (ld_pkb p b s o n ltac:(region_fits)))
  | |- context [(ld8 ?p ?o ≫= _) (at_pkb ?p ?b ?s)] =>
      rewrite (bind_Ret _ _ _ _ _ (ld8_pkb p b s o ltac:(region_fits)))
  | |- context [(ld16 ?p ?o ≫= _) (at_pkb ?p ?b ?s)] =>
      rewrite (bind_Ret _ _ _ _ _ (ld16_pkb p b s o ltac:(region_fits)))
  | |- context [(ld32 ?p ?o ≫= _) (at_pkb ?p ?b ?s)] =>
      rewrite (bind_Ret _ _ _ _ _ (ld32_pkb p b s o ltac:(region_fits)))
  | |- context [(st ?p ?o ?bs ≫= _) (at_pkb ?p ?b ?s)] =>
      rewrite (bind_Ret _ _ _ _ _ (st_pkb p b s o bs ltac:(region_fits)))
  | |- context [(st16 ?p ?o ?x ≫= _) (at_pkb ?p ?b ?s)] =>
      rewrite (bind_Ret _ _ _ _ _ (st16_pkb p b s o x ltac:(region_fits)))
  | |- context [(st32 ?p ?o ?x ≫= _) (at_pkb ?p ?b ?s)] =>
      rewrite (bind_Ret _ _ _ _ _ (st32_pkb p b s o x ltac:(region_fits)))
  | |- context [(swap16_at ?p ?o ≫= _) (at_pkb ?p ?b ?s)] =>
      rewrite (bind_Ret _ _ _ _ _ (swap16_pkb p b s o ltac:(region_fits)))
  end; norm_regions.

(** Reads the device [d], known to be [v] by [H]. *)
Ltac dev_step d v H :=
  match goal with
  | |- context [(dev_at d ≫= _) (at_pkb ?p ?b ?s)] =>
      rewrite (bind_Ret _ _ _ _ _ (dev_at_pkb p b s d v H))
  end.

Section Receive.
Variable tx : Z -> Z -> Z -> Z -> mac_ptr -> prog Net Z.
Variables (d p : Z) (v : netdev) (s : Net).

Lemma arp_in_host b dmac smac op spa tha tpa rest :
  pk_data b = arp_frame dmac smac op smac spa tha tpa ++ rest ->
  pk_type b <> PKT_OTHERHOST -> 22 <= pk_len b < 2 ^ 64 -> op = 1 \/ op = 2 ->
  mac dmac -> mac smac -> ip4 spa -> mac tha -> ip4 tpa ->
  arp_in tx d p (at_pkb p b s) =
    (arp_recv tx d p;; mret 0)
      (at_pkb p (set_pk_data (arp_host dmac smac op smac spa tha tpa ++ rest) b) s).
Proof.
  intros E T L O (?&?&?&?&?&?&->)%mac_cons (?&?&?&?&?&?&->)%mac_cons (?&?&?&?&->)%ip4_cons
    (?&?&?&?&?&?&->)%mac_cons (?&?&?&?&->)%ip4_cons.
  rewrite (set_pk_data_id b _ E) at 1. unfold arp_in. pkb_step.
  change (pk_type (set_pk_data _ b)) with (pk_type b). change (pk_len (set_pk_data _ b)) with (pk_len b).
  rewrite (proj2 (Z.eqb_neq _ _) T). unfold arp_too_small.
  rewrite (Z.mod_small (pk_len _)) by (destruct L; lia). rewrite (proj2 (Z.ltb_ge _ _)) by apply L. cbv iota.
  destruct O as [-> | ->].
  - do 2 pkb_step. rewrite bool_decide_eq_true_2 by done. cbv [negb]. cbv iota.
    do 8 pkb_step. reflexivity.
  - do 2 pkb_step. rewrite bool_decide_eq_true_2 by done. cbv [negb]. cbv iota.
    do 8 pkb_step. reflexivity.
Qed.
End Receive.

(** * The cache *)

(** The first free slot at or after [next], going round. *)
Fixpoint free_slot (k : nat) (next : Z) (cache : list arpentry) : option Z :=
  match k with
  | O => None
  | S k => match zget cache next with
           | Some e => if ae_state e =? ARP_STATE_FREE then Some next
                       else free_slot k ((next + 1) mod 20) cache
           | None => None
           end
  end.

Record arp_wf (s : Net) : Prop := {
  wf_length : length (arp_cache s) = 20%nat;
  wf_next : 0 <= arp_next s < 20;
  wf_waiting : Forall (fun e => ae_state e <> ARP_STATE_WAITING) (arp_cache s);
  wf_links i : 0 <= i < 20 -> is_Some (links s !! ae_list i)
}.

Lemma ae_at_ok s i :
  length (arp_cache s) = 20%nat -> 0 <= i < 20 ->
  exists e, zget (arp_cache s) i = Some e /\ ae_at i s = Ret e s.
Proof.
  intros L Hi. destruct (lookup_lt_is_Some_2 (arp_cache s) (Z.to_nat i)) as [e He]; [lia|].
  assert (zget (arp_cache s) i = Some e) as Hz by (apply zget_Some; split; [lia|done]).
  exists e. split; [done|]. unfold ae_at. rewrite bind_gets. by rewrite Hz.
Qed.

Lemma ae_put_ok s i e :
  length (arp_cache s) = 20%nat -> 0 <= i < 20 ->
  ae_put i e s = Ret tt (set_arp (<[Z.to_nat i := e]> (arp_cache s)) (arp_next s) s).
Proof.
  intros L Hi. unfold ae_put. rewrite bind_gets. cbn [id].
  rewrite <- (Z2Nat.id i) at 1 by lia. rewrite zset_nat by lia. by rewrite bind_Some.
Qed.

Lemma ae_upd_ok s i e f :
  length (arp_cache s) = 20%nat -> 0 <= i < 20 -> zget (arp_cache s) i = Some e ->
  ae_upd i f s = Ret tt (set_arp (<[Z.to_nat i := f e]> (arp_cache s)) (arp_next s) s).
Proof.
  intros L Hi He. destruct (ae_at_ok s i L Hi) as (e' & He' & Ha).
  rewrite He in He'. injection He' as <-. unfold ae_upd. step Ha. by apply ae_put_ok.
Qed.

Lemma scan_free_slot s k next :
  length (arp_cache s) = 20%nat -> 0 <= next < 20 ->
  scan_free k next s =
    Ret (match free_slot k next (arp_cache s) with
         | Some i => (true, i)
         | None => (false, (next + Z.of_nat k) mod 20)
         end) s.
Proof.
  intros L. revert next. induction k as [|k IH]; intros next Hn; simpl.
  - rewrite Z.add_0_r, Z.mod_small by done. done.
  - destruct (ae_at_ok s next L Hn) as (e & He & Ha). step Ha. rewrite He.
    destruct (ae_state e =? ARP_STATE_FREE); [done|].
    change (Z.of_nat ARP_CACHE_SZ) with 20. rewrite IH by (apply Z.mod_pos_bound; lia).
    destruct (free_slot k ((next + 1) mod 20) (arp_cache s)); [done|].
    rewrite Zplus_mod_idemp_l. do 3 f_equal. lia.
Qed.

Lemma free_slot_ok k next cache i :
  0 <= next < 20 -> free_slot k next cache = Some i ->
  0 <= i < 20 /\ exists e, zget cache i = Some e /\ ae_state e = ARP_STATE_FREE.
Proof.
  revert next. induction k as [|k IH]; intros next Hn; simpl; [done|].
  destruct (zget cache next) as [e|] eqn:E; [|done].
  destruct (Z.eqb_spec (ae_state e) ARP_STATE_FREE).
  - intros [= <-]. eauto.
  - apply IH, Z.mod_pos_bound. lia.
Qed.

(** A cache that has a free slot is searched successfully from any position. *)
Lemma free_slot_found cache next j e :
  length cache = 20%nat -> 0 <= next < 20 -> cache !! j = Some e -> ae_state e = ARP_STATE_FREE ->
  exists i, free_slot 20 next cache = Some i.
Proof.
  intros L Hn Hj He. apply lookup_lt_Some in Hj as Hlt.
  assert (forall k m, 0 <= m < 20 -> (Z.of_nat j - m) mod 20 < Z.of_nat k ->
            exists i, free_slot k m cache = Some i) as G.
  { induction k as [|k IH]; intros m Hm Hk.
    - pose proof (Z.mod_pos_bound (Z.of_nat j - m) 20). lia.
    - simpl. destruct (lookup_lt_is_Some_2 cache (Z.to_nat m)) as [x Hx]; [lia|].
      rewrite (proj2 (zget_Some cache m x)) by (split; [lia|done]).
      destruct (Z.eqb_spec (ae_state x) ARP_STATE_FREE) as [|Hne]; [eauto|].
      apply IH; [apply Z.mod_pos_bound; lia|].
      assert (m <> Z.of_nat j) by (intros ->; rewrite Nat2Z.id in Hx; congruence).
      rewrite Zminus_mod_idemp_r. pose proof (Z.mod_pos_bound (Z.of_nat j - m) 20).
      assert ((Z.of_nat j - m) mod 20 <> 0) as Hnz.
      { intros Z0. apply Z.mod_divide in Z0 as [q Hq]; [|lia]. lia. }
      assert ((Z.of_nat j - (m + 1)) mod 20 = (Z.of_nat j - m) mod 20 - 1) as ->; [|lia].
      pose proof (Z.div_mod (Z.of_nat j - m) 20 ltac:(lia)).
      symmetry. apply (Z.mod_unique _ _ ((Z.of_nat j - m) / 20)); lia. }
  apply (G 20%nat next Hn). pose proof (Z.mod_pos_bound (Z.of_nat j - next) 20). simpl. lia.
Qed.

(** The slot of the cache that holds an address, as the code finds it. *)
Lemma lookup_from_spec l i pro ip :
  match lookup_from i l pro ip with
  | Some j => exists n e, j = i + Z.of_nat n /\ l !! n = Some e /\ ae_matches pro ip e = true
  | None => Forall (fun e => ae_matches pro ip e = false) l
  end.
Proof.
  revert i. induction l as [|e l IH]; intros i; simpl; [by constructor|].
  destruct (ae_matches pro ip e) eqn:E.
  - exists 0%nat, e. split; [lia|done].
  - specialize (IH (i + 1)). destruct (lookup_from (i + 1) l pro ip).
    + destruct IH as (n & x & -> & H). exists (S n), x. split; [lia|done].
    + by constructor.
Qed.

(** The cache after a packet said that [ip] is at [hw]. *)
Definition entry_for (d pro ip : Z) (hw : list Z) : arpentry :=
  mkAe (Some d) ARP_REQ_RETRY ARP_TTL_TIMEOUT ARP_STATE_RESOLVED pro ip hw.
Definition refreshed (hw : list Z) (e : arpentry) : arpentry :=
  mkAe (ae_dev e) (ae_retry e) ARP_TTL_TIMEOUT ARP_STATE_RESOLVED (ae_pro e) (ae_ipaddr e) hw.

Definition inserted (d pro ip : Z) (hw : list Z) (s : Net) : Net :=
  match free_slot 20 (arp_next s) (arp_cache s) with
  | None => s
  | Some i =>
      set_links (<[ae_list i := (Some (ae_list i), Some (ae_list i))]> (links s))
        (set_arp (<[Z.to_nat i := entry_for d pro ip hw]> (arp_cache s)) ((i + 1) mod 20) s)
  end.

Definition learned (d pro ip : Z) (hw : list Z) (request : bool) (s : Net) : Net :=
  match lookup_from 0 (arp_cache s) pro ip with
  | Some i => set_arp (alter (refreshed hw) (Z.to_nat i) (arp_cache s)) (arp_next s) s
  | None => if request then inserted d pro ip hw s else s
  end.

Lemma set_arp_id s : set_arp (arp_cache s) (arp_next s) s = s.
Proof. by destruct s. Qed.

Lemma arp_cache_insert_ok d pro ip hw s :
  arp_wf s ->
  arp_cache_insert d pro ip hw s =
    Ret (if free_slot 20 (arp_next s) (arp_cache s) then 0 else -1) (inserted d pro ip hw s).
Proof.
  intros [L N _ K]. unfold arp_cache_insert, arp_entry_alloc. pure_steps.
  step (scan_free_slot s ARP_CACHE_SZ (arp_next s) L N). unfold inserted.
  change ARP_CACHE_SZ with 20%nat. destruct (free_slot 20 (arp_next s) (arp_cache s)) as [i|] eqn:E.
  - destruct (free_slot_ok _ _ _ _ N E) as (Hi & e & He & _). unfold set_arp_next. pure_steps.
    set (s1 := set_arp (arp_cache s) i s).
    step (ae_upd_ok s1 i e (fun e => mkAe None ARP_REQ_RETRY ARP_TTL_WAITTIME ARP_STATE_WAITING ETH_P_IP
                                       (ae_ipaddr e) (ae_hwaddr e)) L Hi He).
    destruct (K i Hi) as [lv Hl].
    assert (list_init (ae_list i) (links s) =
      Ret tt (<[ae_list i := (Some (ae_list i), Some (ae_list i))]> (links s))) as El.
    { rewrite <- (insert_id (links s) (ae_list i) lv) at 1 by done. apply list_init_new. }
    pure_steps. links_step El. pure_steps. change (Z.of_nat 20) with 20.
    match goal with |- (ae_upd i ?f ≫= _) ?t = _ =>
      step (ae_upd_ok t i (mkAe None ARP_REQ_RETRY ARP_TTL_WAITTIME ARP_STATE_WAITING ETH_P_IP
              (ae_ipaddr e) (ae_hwaddr e)) f
             ltac:(simpl; by rewrite length_insert) Hi
             ltac:(apply zget_Some; split; [lia|simpl; apply list_lookup_insert_eq; lia])) end.
    unfold mret, prog_ret. f_equal. unfold set_links, set_arp. simpl.
    by rewrite list_insert_insert_eq.
  - unfold set_arp_next. pure_steps. unfold mret, prog_ret. f_equal.
    change (Z.of_nat 20) with (1 * 20). rewrite Z.mod_add, Z.mod_small by lia. apply set_arp_id.
Qed.

Lemma alter_insert {A} (l : list A) n x f : l !! n = Some x -> alter f n l = <[n := f x]> l.
Proof.
  revert n. induction l as [|y l IH]; intros [|n]; simpl; try done.
  - by intros [= ->].
  - intros H. f_equal. by apply IH.
Qed.

Lemma arp_update_ok tx s i n e hw :
  arp_wf s -> i = Z.of_nat n -> arp_cache s !! n = Some e ->
  arp_update tx i hw s = Ret tt (set_arp (alter (refreshed hw) n (arp_cache s)) (arp_next s) s).
Proof.
  intros [L N W K] -> He. apply lookup_lt_Some in He as Hlt. rewrite L in Hlt.
  assert (forall (c : list arpentry) x, c !! n = Some x -> zget c (Z.of_nat n) = Some x) as Hz
    by (intros c x Hc; by rewrite zget_nat).
  unfold arp_update. step (ae_upd_ok s (Z.of_nat n) e (set_ae_hwaddr hw) L ltac:(lia) (Hz _ _ He)).
  rewrite Nat2Z.id. set (s1 := set_arp _ _ s).
  assert (arp_cache s1 !! n = Some (set_ae_hwaddr hw e)) as E1 by (apply list_lookup_insert_eq; lia).
  assert (length (arp_cache s1) = 20%nat) as L1 by (simpl; by rewrite length_insert).
  destruct (ae_at_ok s1 (Z.of_nat n) L1 ltac:(lia)) as (e' & He' & Ha). step Ha.
  rewrite (Hz _ _ E1) in He'. injection He' as <-.
  rewrite Forall_forall in W. specialize (W e (list_elem_of_lookup_2 _ _ _ He)).
  change (ae_state (set_ae_hwaddr hw e)) with (ae_state e).
  rewrite (proj2 (Z.eqb_neq _ _) W). rewrite bind_mret.
  step (ae_upd_ok s1 (Z.of_nat n) _ (set_ae_state ARP_STATE_RESOLVED) L1 ltac:(lia) (Hz _ _ E1)).
  rewrite Nat2Z.id. set (s2 := set_arp _ _ s1).
  assert (arp_cache s2 !! n = Some (set_ae_state ARP_STATE_RESOLVED (set_ae_hwaddr hw e))) as E2
    by (apply list_lookup_insert_eq; simpl; rewrite length_insert; lia).
  rewrite (ae_upd_ok s2 (Z.of_nat n) _ (set_ae_ttl ARP_TTL_TIMEOUT)
             ltac:(simpl; by rewrite !length_insert) ltac:(lia) (Hz _ _ E2)).
  f_equal. rewrite Nat2Z.id. unfold set_arp. simpl. rewrite !list_insert_insert_eq.
  by rewrite (alter_insert _ _ e _ He).
Qed.

Lemma arp_wf_at_pkb p b s : arp_wf s -> arp_wf (at_pkb p b s).
Proof. by intros []. Qed.

Lemma learned_at_pkb d pro ip hw req p b s :
  learned d pro ip hw req (at_pkb p b s) = at_pkb p b (learned d pro ip hw req s).
Proof.
  unfold learned, inserted. change (arp_cache (at_pkb p b s)) with (arp_cache s).
  change (arp_next (at_pkb p b s)) with (arp_next s).
  destruct (lookup_from _ _ _ _); [reflexivity|]. destruct req; [|reflexivity].
  destruct (free_slot _ _ _); reflexivity.
Qed.

(** Learning from a packet in hand. *)
Lemma arp_learn_pkb tx d pro ip hw (req : bool) p b s :
  arp_wf s ->
  (ae ← arp_cache_lookup pro ip;
   match ae with
   | Some i => arp_update tx i hw
   | None => if req then arp_cache_insert d pro ip hw;; mret tt else mret tt
   end) (at_pkb p b s) = Ret tt (at_pkb p b (learned d pro ip hw req s)).
Proof.
  intros W. apply (arp_wf_at_pkb p b) in W. rewrite <- learned_at_pkb. set (t := at_pkb p b s) in *.
  unfold arp_cache_lookup. pure_steps. unfold learned.
  pose proof (lookup_from_spec (arp_cache t) 0 pro ip) as L.
  destruct (lookup_from 0 (arp_cache t) pro ip) as [i|].
  - destruct L as (n & e & Hi & He & _). rewrite (arp_update_ok tx t i n e hw W Hi He).
    replace (Z.to_nat i) with n by lia. done.
  - destruct req; [|done]. by step (arp_cache_insert_ok d pro ip hw t W).
Qed.

Section Receive2.
Variable tx : Z -> Z -> Z -> Z -> mac_ptr -> prog Net Z.
Variables (d p : Z) (v : netdev) (s : Net).
Hypothesis dev_up : devs s !! d = Some v.

Lemma arp_recv_host b dmac smac op spa tha tpa rest :
  arp_wf s -> MULTICAST (net_ipaddr v) = false -> net_ipaddr v = le_decode tpa ->
  op = 1 \/ op = 2 -> mac dmac -> mac smac -> ip4 spa -> mac tha -> ip4 tpa ->
  pk_data b = arp_host dmac smac op smac spa tha tpa ++ rest ->
  arp_recv tx d p (at_pkb p b s) =
    (if op =? 1 then arp_reply tx d p else free_pkb p)
      (at_pkb p b (learned d ETH_P_IP (le_decode spa) smac (op =? 1) s)).
Proof.
  intros W M I O (?&?&?&?&?&?&->)%mac_cons (?&?&?&?&?&?&->)%mac_cons (?&?&?&?&->)%ip4_cons
    (?&?&?&?&?&?&->)%mac_cons (?&?&?&?&->)%ip4_cons E.
  rewrite (set_pk_data_id b _ E) at 1. unfold arp_recv. pkb_step.
  rewrite <- I, M. cbv iota. dev_step d v dev_up. rewrite Z.eqb_refl. cbv [negb]. cbv iota.
  do 3 pkb_step. destruct O as [-> | ->]; pkb_step;
    rewrite <- (bind_assoc (arp_cache_lookup _ _)).
  - match goal with |- (_ ≫= _) (at_pkb p ?b0 s) = _ =>
      step (arp_learn_pkb tx d ETH_P_IP (le_decode [x11; x12; x13; x14]) [x5; x6; x7; x8; x9; x10] true p
              b0 s W) end.
    pkb_step. by rewrite <- (set_pk_data_id b _ E).
  - match goal with |- (_ ≫= _) (at_pkb p ?b0 s) = _ =>
      step (arp_learn_pkb tx d ETH_P_IP (le_decode [x11; x12; x13; x14]) [x5; x6; x7; x8; x9; x10] false p
              b0 s W) end.
    pkb_step. by rewrite <- (set_pk_data_id b _ E).
Qed.
End Receive2.

Lemma ip4_encode l : ip4 l -> le_encode 4 (le_decode l) = l.
Proof. intros [L F]. rewrite <- L. by apply le_encode_decode. Qed.

(** A device that sends on the tap and is configured. *)
Record tap_device (v : netdev) (tpa : list Z) : Prop := {
  dev_veth : net_ops v = Some veth_ops;
  dev_hw : mac (net_hwaddr v);
  dev_ip : net_ipaddr v = le_decode tpa;
  dev_tpa : ip4 tpa
}.

Lemma arp_reply_sends fuel d p v b s dmac smac spa tha tpa rest :
  devs s !! d = Some v -> tap_device v tpa ->
  mac dmac -> mac smac -> ip4 spa -> mac tha -> pk_refcnt b = 1 -> can_free p s ->
  pk_data b = arp_host dmac smac 1 smac spa tha tpa ++ rest ->
  arp_reply (net_tx (S fuel)) d p (at_pkb p b s) =
    Ret tt (released p (transmitted d v (arp_frame smac (net_hwaddr v) 2 (net_hwaddr v) tpa smac spa) s)).
Proof.
  intros Hd [O Hm I Ht] D S P T R F E.
  pose proof (ip4_encode _ P) as Es. pose proof (ip4_encode _ Ht) as Et.
  destruct (mac_cons _ Hm) as (h & h0 & h1 & h2 & h3 & h4 & Hh).
  apply mac_cons in D as (?&?&?&?&?&?&->). apply mac_cons in S as (?&?&?&?&?&?&->).
  apply ip4_cons in P as (?&?&?&?&->). apply mac_cons in T as (?&?&?&?&?&?&->).
  apply ip4_cons in Ht as (?&?&?&?&->).
  rewrite (set_pk_data_id b _ E) at 1. unfold arp_reply. do 4 pkb_step.
  pkb_step. rewrite Es. norm_regions. dev_step d v Hd. rewrite Hh. pkb_step.
  rewrite I. pkb_step. rewrite Et. norm_regions. do 3 pkb_step.
  match goal with |- context [at_pkb p ?b0 s] =>
    set (b1 := b0); assert (let b2 := set_pk_data (put 12 (le_encode 2 (htons ETH_P_ARP)) (pk_data b1)) b1 in
      mac_read (MacPacket p ETH_SMAC) (at_pkb p b2 s) = Ret [x5; x6; x7; x8; x9; x10] (at_pkb p b2 s)) as Hdst
  end.
  { cbv zeta. unfold mac_read. rewrite ld_pkb by region_fits. norm_regions. reflexivity. }
  step (net_tx_veth fuel d v p b1 s (ARP_HDR_LEN + ARP_DATA_LEN) ETH_P_ARP (MacPacket p ETH_SMAC)
          [x5; x6; x7; x8; x9; x10] Hd O (proj1 Hm) R F ltac:(done)
          ltac:(apply (Nat2Z.inj_le 42); region_fits) ltac:(done) Hdst).
  unfold framed. rewrite Hh. reflexivity.
Qed.

(** * Frames from the tap device *)

(** The tap device is [d], configured as [v]. *)
Record up (s : Net) (d : Z) (v : netdev) : Prop := {
  up_veth : veth s = Some d;
  up_dev : devs s !! d = Some v;
  up_mtu : 0 <= net_mtu v
}.

(** Another buffer can be had. *)
Record can_alloc (s : Net) : Prop := {
  alloc_memory : malloc_ok (net_env s) (fresh s) = true;
  alloc_room : alloc_pkbs s - free_pkbs s < MAX_PKBS;
  alloc_count : alloc_pkbs s < 2 ^ 31 - 1
}.

Definition with_stats (f : netstats -> netstats) (v : netdev) : netdev :=
  set_net_stats (f (net_stats v)) v.

(** The state around the buffer of a frame of [n] bytes that came in. *)
Definition received (d : Z) (v : netdev) (n : Z) (s : Net) : Net :=
  let p := fresh s in
  set_devs (<[d := with_stats (add_rx n) v]> (devs s))
    (set_counts (alloc_pkbs s + 1) (free_pkbs s)
      (set_links (<[pk_list p := (Some (pk_list p), Some (pk_list p))]> (links s)) (set_fresh (p + 1) s))).

(** The buffer once the link layer has looked at it. *)
Definition frame_buf (d : Z) (v : netdev) (l junk : list Z) : pkbuf :=
  mkPkb (ntohs (le_decode (sub 12 2 l))) (packet_type (sub 0 6 l) (net_hwaddr v))
    (Z.of_nat (length l)) 1 (Some d) None (put 0 l junk).

Definition dispatch (tx : Z -> Z -> Z -> Z -> mac_ptr -> prog Net Z) (proto d p : Z) : prog Net unit :=
  if proto =? ETH_P_RARP then mret tt
  else if proto =? ETH_P_ARP then arp_in tx d p;; mret tt
  else if proto =? ETH_P_IP then mret tt
  else free_pkb p.

Lemma count_on_dev d v p b s f :
  devs s !! d = Some v ->
  count_on d f (at_pkb p b s) = Ret tt (at_pkb p b (set_devs (<[d := with_stats f v]> (devs s)) s)).
Proof.
  intros H. unfold count_on, dev_upd, dev_at. pure_steps. simpl. rewrite H. done.
Qed.

Lemma length_fresh env p n : length (fresh_bytes env p n) = n.
Proof. unfold fresh_bytes. by rewrite length_fmap, length_seq. Qed.

(** The link layer's part of the reception of a frame. *)
Lemma net_rx_with_frame tx d v p b s l junk :
  devs s !! d = Some v -> (14 <= length l <= length junk)%nat ->
  pk_len b = Z.of_nat (length l) -> pk_refcnt b = 1 -> pk_rtdst b = None -> pk_data b = put 0 l junk ->
  net_rx_with tx d p (at_pkb p b s) =
    (dispatch tx (ntohs (le_decode (sub 12 2 l))) d p;; mret 0) (at_pkb p (frame_buf d v l junk) s).
Proof.
  intros Hd Hl Hlen Href Hrt Hdata. unfold net_rx_with, eth_init. pure_steps.
  assert (length (put 0 l junk) = length junk) as Lp by (apply length_put_eq; [done|lia]).
  assert (forall o n, (o + n <= 14)%nat -> sub o n (put 0 l junk) = sub o n l) as Hs.
  { intros o n Hon. unfold put. rewrite take_0. simpl. unfold sub.
    rewrite drop_app_le, take_app_le by (rewrite ?length_drop; lia). done. }
  step (pkb_at_pkb p b s). rewrite (proj2 (Z.ltb_ge _ _)) by (rewrite Hlen; unfold ETH_HDR_LEN; lia).
  pure_steps.
  step (ld_pkb p b s ETH_DMAC NETDEV_ALEN ltac:(rewrite Hdata, Lp; unfold ETH_DMAC, NETDEV_ALEN; lia)).
  rewrite Hdata, Hs by (unfold ETH_DMAC, NETDEV_ALEN; lia). pure_steps.
  step (dev_at_pkb p b s d v Hd). pure_steps. step (pkb_upd_pkb p b s (set_pk_type
    (packet_type (sub ETH_DMAC NETDEV_ALEN l) (net_hwaddr v)))). pure_steps.
  set (b1 := set_pk_type _ b).
  step (ld16_pkb p b1 s ETH_TYPE ltac:(change (pk_data b1) with (pk_data b); rewrite Hdata, Lp; unfold ETH_TYPE; lia)).
  change (pk_data b1) with (pk_data b). rewrite Hdata, Hs by (unfold ETH_TYPE; lia). pure_steps.
  step (pkb_upd_pkb p b1 s (set_pk_pro (ntohs (le_decode (sub ETH_TYPE 2 l))))). pure_steps.
  set (b2 := set_pk_pro _ b1). step (pkb_upd_pkb p b2 s (set_pk_indev (Some d))). pure_steps.
  assert (set_pk_indev (Some d) b2 = frame_buf d v l junk) as ->.
  { subst b1 b2. destruct b. simpl in *. unfold frame_buf, set_pk_indev, set_pk_pro, set_pk_type. simpl. by subst. }
  step (pkb_at_pkb p (frame_buf d v l junk) s). done.
Qed.

Lemma recv_one_frame d v l s :
  up s d v -> can_alloc s -> (14 <= length l)%nat -> Z.of_nat (length l) <= net_mtu v + 14 ->
  let junk := fresh_bytes (net_env s) (fresh s) (Z.to_nat (net_mtu v + 14)) in
  recv_one (Some l) s =
    (dispatch (net_tx TX_FUEL) (ntohs (le_decode (sub 12 2 l))) d (fresh s);; mret true)
      (at_pkb (fresh s) (frame_buf d (with_stats (add_rx (Z.of_nat (length l))) v) l junk)
         (received d v (Z.of_nat (length l)) s)).
Proof.
  intros [Hv Hd Hm] [Ha Hr Hc] H14 Hmtu junk. unfold recv_one, veth_dev. pure_steps. rewrite Hv.
  unfold dev_at. pure_steps. rewrite Hd. pure_steps.
  assert (alloc_pkb (net_mtu v + ETH_HDR_LEN) s = Ret (Some (fresh s)) (new_pkb (net_mtu v + ETH_HDR_LEN) s)) as Ea.
  { rewrite alloc_pkb_eq, Ha. rewrite (proj2 (Z.ltb_lt _ _)) by done. by rewrite (proj2 (Z.ltb_ge _ _)) by lia. }
  step Ea. pure_steps. set (p := fresh s). set (b0 := new_buf (net_mtu v + ETH_HDR_LEN) s).
  set (s0 := set_counts (alloc_pkbs s + 1) (free_pkbs s)
      (set_links (<[pk_list p := (Some (pk_list p), Some (pk_list p))]> (links s)) (set_fresh (p + 1) s))).
  change (new_pkb (net_mtu v + ETH_HDR_LEN) s) with (at_pkb p b0 s0).
  step (pkb_at_pkb p b0 s0). unfold tap_read.
  assert (length junk = Z.to_nat (net_mtu v + 14)) as Lj by apply length_fresh.
  rewrite take_ge by (change (pk_len b0) with (net_mtu v + 14); lia).
  pure_steps. step (st_pkb p b0 s0 0 l ltac:(change (pk_data b0) with junk; lia)). pure_steps.
  rewrite (proj2 (Z.leb_gt _ _)) by lia. set (b1 := set_pk_data _ b0).
  step (count_on_dev d v p b1 s0 (add_rx (Z.of_nat (length l))) Hd).
  match goal with |- context [at_pkb p b1 ?t] => set (s1 := t) end.
  step (pkb_upd_pkb p b1 s1 (set_pk_len (Z.of_nat (length l)))). set (b2 := set_pk_len _ b1).
  unfold net_rx.
  pose proof (net_rx_with_frame (net_tx TX_FUEL) d (with_stats (add_rx (Z.of_nat (length l))) v) p b2 s1 l junk
    ltac:(apply lookup_insert_eq) ltac:(lia) eq_refl eq_refl eq_refl eq_refl) as En.
  unfold mbind at 1, prog_bind at 1. rewrite En. unfold mbind, prog_bind.
  change (received d v (Z.of_nat (length l)) s) with s1. by destruct (dispatch _ _ _ _ _).
Qed.

Lemma put_0 (l junk : list Z) : put 0 l junk = l ++ drop (length l) junk.
Proof. done. Qed.

Lemma learned_cache d pro ip hw req s t :
  arp_cache t = arp_cache s -> arp_next t = arp_next s ->
  arp_cache (learned d pro ip hw req t) = arp_cache (learned d pro ip hw req s).
Proof.
  intros E N. unfold learned, inserted. rewrite E, N.
  destruct (lookup_from _ _ _ _); [done|]. destruct req; [|done]. by destruct (free_slot _ _ _).
Qed.

(** Learning touches nothing but the cache and the links of its entries. *)
Lemma learned_frame d pro ip hw req s :
  let t := learned d pro ip hw req s in
  pkbs t = pkbs s /\ devs t = devs s /\ alloc_pkbs t = alloc_pkbs s /\ free_pkbs t = free_pkbs s /\
  tap_out t = tap_out s /\ net_env t = net_env s.
Proof.
  unfold learned, inserted. destruct (lookup_from _ _ _ _); [done|]. destruct req; [|done].
  by destruct (free_slot _ _ _).
Qed.

Lemma arp_wf_received d v n s : arp_wf s -> arp_wf (received d v n s).
Proof.
  intros [L N W K]. split; [done..|]. intros i Hi. simpl. rewrite lookup_insert_ne by done. auto.
Qed.

(** The hypotheses under which an ARP frame is for this host. *)
Record arp_for_us (s : Net) (d : Z) (v : netdev) (dmac smac spa tha tpa pad : list Z) : Prop := {
  us_up : up s d v;
  us_dev : tap_device v tpa;
  us_unicast : MULTICAST (net_ipaddr v) = false;
  us_alloc : can_alloc s;
  us_free : can_free (fresh s) s;
  us_cache : arp_wf s;
  us_dmac : mac dmac; us_smac : mac smac; us_spa : ip4 spa; us_tha : mac tha;
  us_type : packet_type dmac (net_hwaddr v) <> PKT_OTHERHOST;
  us_fits : Z.of_nat (length pad) <= net_mtu v - 28;
  us_mtu : net_mtu v < 2 ^ 31
}.

Section ArpFrames.
Variables (s : Net) (d : Z) (v : netdev) (dmac smac spa tha tpa pad : list Z) (op : Z).
Hypothesis us : arp_for_us s d v dmac smac spa tha tpa pad.
Hypothesis op_known : op = 1 \/ op = 2.

Let frame := arp_frame dmac smac op smac spa tha tpa ++ pad.

Lemma arp_frame_length : length frame = (42 + length pad)%nat.
Proof.
  unfold frame, arp_frame. rewrite !length_app.
  rewrite (proj1 (us_dmac _ _ _ _ _ _ _ _ _ us)), (proj1 (us_smac _ _ _ _ _ _ _ _ _ us)).
  rewrite (proj1 (us_spa _ _ _ _ _ _ _ _ _ us)), (proj1 (us_tha _ _ _ _ _ _ _ _ _ us)).
  rewrite (proj1 (dev_tpa _ _ (us_dev _ _ _ _ _ _ _ _ _ us))). simpl. lia.
Qed.

(** Up to the point where the packet is answered or dropped. *)
Lemma recv_arp :
  exists b t,
    recv_one (Some frame) s =
      ((if op =? 1 then arp_reply (net_tx TX_FUEL) d (fresh s) else free_pkb (fresh s));; mret true)
        (at_pkb (fresh s) b t) /\
    t = learned d ETH_P_IP (le_decode spa) smac (op =? 1) (received d v (Z.of_nat (length frame)) s) /\
    pk_refcnt b = 1 /\
    exists rest, pk_data b = arp_host dmac smac op smac spa tha tpa ++ rest.
Proof.
  destruct us as [U D M A F W Dm Sm Sp Th Ty Fi Mt].
  pose proof arp_frame_length as L. pose proof (dev_tpa _ _ D) as Tp.
  rewrite (recv_one_frame d v frame s U A ltac:(lia) ltac:(lia)).
  set (v' := with_stats _ v). set (junk := fresh_bytes _ _ _). set (s1 := received d v _ s).
  assert (sub 12 2 frame = [8; 6] /\ sub 0 6 frame = dmac) as [S1 S2].
  { unfold frame, arp_frame. apply mac_cons in Dm as (?&?&?&?&?&?&->).
    apply mac_cons in Sm as (?&?&?&?&?&?&->). done. }
  set (b := frame_buf d v' frame junk).
  assert (pk_data b = arp_frame dmac smac op smac spa tha tpa ++ (pad ++ drop (length frame) junk)) as Db.
  { unfold b, frame_buf. simpl. rewrite put_0. unfold frame at 1. by rewrite <- app_assoc. }
  assert (pk_type b <> PKT_OTHERHOST) as Tb by (unfold b, frame_buf; simpl; by rewrite S2).
  rewrite S1. change (dispatch (net_tx TX_FUEL) (ntohs (le_decode [8; 6])) d (fresh s))
    with (arp_in (net_tx TX_FUEL) d (fresh s);; mret tt).
  pure_steps.
  rewrite (bind_run _ _ _ _ _ (arp_in_host (net_tx TX_FUEL) d (fresh s) s1 b dmac smac op spa tha tpa _ Db Tb
             ltac:(unfold b, frame_buf; simpl; lia) op_known Dm Sm Sp Th Tp)).
  set (b1 := set_pk_data _ b).
  assert (devs s1 !! d = Some v') as Hd1 by apply lookup_insert_eq.
  exists b1, (learned d ETH_P_IP (le_decode spa) smac (op =? 1) s1).
  split; [|split; [done|split; [done|by eexists]]].
  pure_steps.
  rewrite (bind_run _ _ _ _ _ (arp_recv_host (net_tx TX_FUEL) d (fresh s) v' s1 Hd1 b1 dmac smac op spa tha tpa
             _ (arp_wf_received d v _ s W) M (dev_ip _ _ D) op_known Dm Sm Sp Th Tp eq_refl)).
  done.
Qed.
End ArpFrames.
