(* ===== verification/NetCold.v ===== *)
(** The ARP cache of the running program.  [main] never calls arp_cache_init,
    so the entries start zeroed: no entry is in the state that means free, and
    none can be allocated. *)

From S2P Require Import Prelude NetList NetState NetSum NetRoute NetArp NetDev NetPkb NetArpSpec.
#[local] Open Scope Z_scope.

(** A static arpentry, all zero. *)
Definition ae_zero : arpentry := mkAe None 0 0 0 0 0 (replicate 6 0).

Definition cold (s : Net) : Prop :=
  arp_cache s = replicate ARP_CACHE_SZ ae_zero /\ 0 <= arp_next s < 20.

Lemma free_slot_cold k next : free_slot k next (replicate ARP_CACHE_SZ ae_zero) = None.
Proof.
  revert next. induction k as [|k IH]; intros next; [done|]. cbn [free_slot].
  destruct (zget (replicate ARP_CACHE_SZ ae_zero) next) as [e|] eqn:E; [|done].
  apply zget_Some in E as [_ E]. apply lookup_replicate in E as [-> _]. apply IH.
Qed.

Lemma arp_cache_insert_cold nd pro ip hw s :
  cold s -> arp_cache_insert nd pro ip hw s = Ret (-1) s.
Proof.
  intros [C N]. assert (length (arp_cache s) = 20%nat) as L by (by rewrite C).
  unfold arp_cache_insert, arp_entry_alloc. pure_steps.
  step (scan_free_slot s ARP_CACHE_SZ (arp_next s) L N). rewrite C, free_slot_cold.
  unfold set_arp_next. pure_steps. unfold mret, prog_ret. f_equal.
  change (Z.of_nat ARP_CACHE_SZ) with (1 * 20). rewrite Z.mod_add, Z.mod_small by lia. apply set_arp_id.
Qed.

(** Nothing is found under a protocol number. *)
Lemma lookup_cold pro ip : pro <> 0 -> lookup_from 0 (replicate ARP_CACHE_SZ ae_zero) pro ip = None.
Proof.
  intros Hp. pose proof (lookup_from_spec (replicate ARP_CACHE_SZ ae_zero) 0 pro ip) as L.
  destruct (lookup_from _ _ _ _); [|done]. destruct L as (n & e & _ & E & M).
  apply lookup_replicate in E as [-> _]. unfold ae_matches in M.
  change (ae_pro ae_zero) with 0 in M. rewrite (proj2 (Z.eqb_neq 0 pro)) in M by done.
  by rewrite andb_false_r in M.
Qed.

(** * Every operation keeps the cache cold *)

#[export] Hint Extern 3 (Preserves cold (modify _)) =>
  (apply preserves_modify; intros ? Hcold; exact Hcold) : typeclass_instances.

#[export] Instance cold_on_links {A} (m : prog (Links node) A) : Preserves cold (on_links m).
Proof. apply preserves_on_links. by intros s l H. Qed.
#[export] Instance cold_pkb_at p : Preserves cold (pkb_at p).
Proof. unfold pkb_at. apply _. Qed.
#[export] Instance cold_pkb_upd p f : Preserves cold (pkb_upd p f).
Proof. unfold pkb_upd, pkb_put. preserve. Qed.
#[export] Instance cold_ld p o n : Preserves cold (ld p o n).
Proof. unfold ld. preserve. Qed.
#[export] Instance cold_st p o bs : Preserves cold (st p o bs).
Proof. unfold st, pkb_put. preserve. Qed.
#[export] Instance cold_get p : Preserves cold (get_pkb p).
Proof. unfold get_pkb, int_incr, pkb_put. preserve. Qed.
#[export] Instance cold_free p : Preserves cold (free_pkb p).
Proof. unfold free_pkb, int_incr, pkb_put, pkb_delete. cbv zeta. preserve. Qed.
#[export] Instance cold_dev_at d : Preserves cold (dev_at d).
Proof. unfold dev_at. apply _. Qed.
#[export] Instance cold_count_on d f : Preserves cold (count_on d f).
Proof. unfold count_on, dev_upd. preserve. Qed.
#[export] Instance cold_alloc size : Preserves cold (alloc_pkb size).
Proof. unfold alloc_pkb, malloc, count_alloc, int_incr, pkb_safe, pkb_put. preserve. Qed.
#[export] Instance cold_swap16 p o : Preserves cold (swap16_at p o).
Proof. unfold swap16_at, ld16, st16. preserve. Qed.
#[export] Instance cold_ae_at i : Preserves cold (ae_at i).
Proof. unfold ae_at. apply _. Qed.
#[export] Instance cold_insert nd pro ip hw : Preserves cold (arp_cache_insert nd pro ip hw).
Proof. intros s a s' C. rewrite (arp_cache_insert_cold nd pro ip hw s C). by intros [= _ <-]. Qed.

Class TxCold (tx : Z -> Z -> Z -> Z -> mac_ptr -> prog Net Z) : Prop :=
  tx_cold d p len proto dst : Preserves cold (tx d p len proto dst).
#[export] Existing Instance tx_cold.

(** Reads leave the state alone. *)
Lemma ld_same p o n s l s' : ld p o n s = Ret l s' -> s' = s.
Proof.
  unfold ld. intros E. apply bind_inv in E as (b & t & E1 & E). apply pkb_at_inv in E1 as [-> _].
  apply bind_inv in E as (u & t & E1 & E). unfold require in E1. destruct (_ <=? _)%nat; [|done].
  injection E1 as _ <-. by injection E as _ <-.
Qed.

Lemma ld16_same p o s x s' : ld16 p o s = Ret x s' -> s' = s.
Proof.
  unfold ld16. intros E. apply bind_inv in E as (l & t & E1 & E). apply ld_same in E1 as ->.
  by injection E as _ <-.
Qed.

Lemma ld8_same p o s x s' : ld8 p o s = Ret x s' -> s' = s.
Proof.
  unfold ld8. intros E. apply bind_inv in E as (l & t & E1 & E). apply ld_same in E1 as ->.
  by injection E as _ <-.
Qed.

Lemma ld32_same p o s x s' : ld32 p o s = Ret x s' -> s' = s.
Proof.
  unfold ld32. intros E. apply bind_inv in E as (l & t & E1 & E). apply ld_same in E1 as ->.
  by injection E as _ <-.
Qed.

Lemma dev_at_same d s v s' : dev_at d s = Ret v s' -> s' = s.
Proof. unfold dev_at. rewrite bind_gets. destruct (devs s !! d); [|done]. by intros [= _ <-]. Qed.

(** Takes the first statement off the run [E], a read. *)
Ltac read_off E :=
  let t := fresh "t" in let H := fresh "R" in let Q := fresh "Q" in
  apply bind_inv in E as (? & t & H & E);
  first [pose proof (ld_same _ _ _ _ _ _ H) as Q|pose proof (ld16_same _ _ _ _ _ H) as Q
        |pose proof (ld8_same _ _ _ _ _ H) as Q|pose proof (ld32_same _ _ _ _ _ H) as Q
        |pose proof (dev_at_same _ _ _ _ H) as Q];
  subst t.

Section Cold.
Context (tx : Z -> Z -> Z -> Z -> mac_ptr -> prog Net Z) `{!TxCold tx}.

#[export] Instance cold_arp_reply d p : Preserves cold (arp_reply tx d p).
Proof. unfold arp_reply, ld32, st16, st32. preserve. Qed.

Lemma arp_recv_cold d p s a s' :
  cold s -> ld16 p ARP_PROTYPE s = Ret ETH_P_IP s -> arp_recv tx d p s = Ret a s' -> cold s'.
Proof.
  intros C Hp E. unfold arp_recv in E. read_off E.
  destruct (MULTICAST x); [by eapply cold_free|]. read_off E.
  destruct (negb _); [by eapply cold_free|].
  rewrite (bind_Ret _ _ _ _ _ Hp) in E. do 3 read_off E.
  unfold arp_cache_lookup in E. rewrite !bind_gets in E. destruct C as [C N].
  rewrite C, lookup_cold in E by done. assert (cold s) as Cs by done.
  keeps cold E Cs. unfold ld16. preserve.
Qed.

#[export] Instance cold_arp_in d p : Preserves cold (arp_in tx d p).
Proof.
  intros s a s' C E. unfold arp_in in E.
  apply bind_inv in E as (b & t & E1 & E). apply pkb_at_inv in E1 as [-> _].
  destruct (_ =? _); [keeps cold E C; preserve|].
  destruct (arp_too_small _); [keeps cold E C; preserve|].
  do 2 read_off E.
  destruct (negb _); [keeps cold E C; preserve|].
  do 3 (apply bind_inv in E as ([] & ? & E1 & E); apply cold_swap16 in E1; [|done]; clear C; rename E1 into C).
  do 5 read_off E.
  destruct (_ || _) eqn:G in E; [keeps cold E C; preserve|].
  destruct (_ && _); [keeps cold E C; preserve|].
  apply bind_inv in E as ([] & u & E1 & E). injection E as _ <-.
  eapply arp_recv_cold; [exact C| |exact E1].
  apply orb_false_iff in G as [G _]. apply orb_false_iff in G as [G _].
  apply orb_false_iff in G as [_ G]. apply negb_false_iff, Z.eqb_eq in G as ->. done.
Qed.

#[export] Instance cold_net_rx_with d p : Preserves cold (net_rx_with tx d p).
Proof. unfold net_rx_with, eth_init, ld16. preserve. Qed.
End Cold.

#[export] Instance cold_net_tx fuel : TxCold (net_tx fuel).
Proof.
  induction fuel as [|fuel IH]; intros d p len proto dst; simpl; [apply _|].
  unfold st16, mac_read, loop_dev_xmit, loop_recv, veth_dev_xmit, tap_write. preserve.
Qed.

#[export] Instance cold_recv_one f : Preserves cold (recv_one f).
Proof. unfold recv_one, veth_dev, tap_read, net_rx. preserve. Qed.
#[export] Instance cold_recv_frames l : Preserves cold (recv_frames l).
Proof. induction l; simpl; preserve. Qed.
