(* ===== verification/NetIpSpec.v ===== *)
(** What ip_in accepts, and what ip_forward does to the header checksum. *)

From S2P Require Import Prelude NetList NetState NetSum NetRoute NetArp NetDev NetIp NetPkb NetArpSpec.
#[local] Open Scope Z_scope.

(** * The header of a packet *)

Definition vhl (data : list Z) : Z := le_decode (sub IP_VHL 1 data).
Definition hdr_len (data : list Z) : Z := Z.shiftl (Z.land (vhl data) 15) 2.
Definition header (data : list Z) : list Z := sub IP_VHL (Z.to_nat (hdr_len data)) data.
Definition total_len (data : list Z) : Z := ntohs (le_decode (sub IP_LEN 2 data)).

(** The tests of ip_in, in its order. *)
Definition ip_ok (b : pkbuf) : bool :=
  negb (pk_type b =? PKT_OTHERHOST) && (34 <=? pk_len b) && (Z.shiftr (vhl (pk_data b)) 4 =? IP_VERSION_4)
  && (20 <=? hdr_len (pk_data b)) && bool_decide (checksum (header (pk_data b)) 0 = Some 0)
  && (hdr_len (pk_data b) <=? total_len (pk_data b)) && (14 + total_len (pk_data b) <=? pk_len b).

Definition swap16_in (off : nat) (data : list Z) : list Z :=
  put off (le_encode 2 (ntohs (le_decode (sub off 2 data)))) data.
Definition ntoh_data (data : list Z) : list Z := swap16_in IP_FRAG (swap16_in IP_ID (swap16_in IP_LEN data)).

(** The packet as ip_recv_route gets it: length fields in host order, what
    follows the datagram cut off. *)
Definition ip_accepted (b : pkbuf) : pkbuf :=
  let n := 14 + total_len (pk_data b) in
  let b1 := set_pk_data (ntoh_data (pk_data b)) b in
  if n <? pk_len b then set_pk_data (take (Z.to_nat n) (pk_data b1)) (set_pk_len n b1) else b1.

Lemma hdr_len_bound data : 0 <= hdr_len data <= 60.
Proof.
  unfold hdr_len. change 15 with (Z.ones 4). rewrite Z.land_ones by lia. rewrite Z.shiftl_mul_pow2 by lia.
  pose proof (Z.mod_pos_bound (vhl data) (2 ^ 4)). lia.
Qed.

Lemma length_swap16_in off data : (off + 2 <= length data)%nat -> length (swap16_in off data) = length data.
Proof. intros H. apply length_put. by rewrite length_le_encode. Qed.

Lemma sub_swap16_other o n off data :
  (o + n <= off \/ off + 2 <= o)%nat -> (off + 2 <= length data)%nat ->
  sub o n (swap16_in off data) = sub o n data.
Proof. intros D H. unfold swap16_in. apply sub_put_other; rewrite length_le_encode; lia. Qed.

Lemma ntohs_bound x : 0 <= ntohs x < 65536.
Proof. unfold ntohs. pose proof (Z.mod_pos_bound x 256). pose proof (Z.mod_pos_bound (x / 256) 256). lia. Qed.

Lemma checksum_some l : Forall is_byte l -> Z.of_nat (length l) <= 131069 -> exists c, checksum l 0 = Some c.
Proof. intros F L. rewrite checksum_folded by done. eauto. Qed.

Section Input.
Variables (d p : Z) (b : pkbuf) (s : Net).
Hypothesis alone : pk_refcnt b = 1.
Hypothesis room : (74 <= length (pk_data b))%nat.
Hypothesis bytes : Forall is_byte (pk_data b).
Hypothesis freeable : can_free p s.
Hypothesis in_place : realloc_result (net_env s) p = InPlace.

Let data := pk_data b.

Lemma ip_ntoh_pkb b0 :
  (74 <= length (pk_data b0))%nat ->
  ip_ntoh p (at_pkb p b0 s) = Ret tt (at_pkb p (set_pk_data (ntoh_data (pk_data b0)) b0) s).
Proof.
  intros L. unfold ip_ntoh. step (swap16_pkb p b0 s IP_LEN ltac:(unfold IP_LEN; lia)).
  fold (swap16_in IP_LEN (pk_data b0)). set (b1 := set_pk_data _ b0).
  assert (length (pk_data b1) = length (pk_data b0)) as L1 by (apply length_swap16_in; unfold IP_LEN; lia).
  step (swap16_pkb p b1 s IP_ID ltac:(unfold IP_ID; lia)). fold (swap16_in IP_ID (pk_data b1)).
  set (b2 := set_pk_data _ b1).
  assert (length (pk_data b2) = length (pk_data b0)) as L2
    by (rewrite <- L1; apply length_swap16_in; unfold IP_ID; lia).
  by rewrite (swap16_pkb p b2 s IP_FRAG ltac:(unfold IP_FRAG; lia)).
Qed.

Lemma free_pkb_of b0 : pk_refcnt b0 = 1 -> free_pkb p (at_pkb p b0 s) = Ret tt (released p s).
Proof. intros R. by apply free_pkb_last. Qed.

Lemma len_field :
  le_decode (sub IP_LEN 2 (ntoh_data data)) = total_len data.
Proof.
  assert (length (swap16_in IP_LEN data) = length data) as L1
    by (apply length_swap16_in; unfold IP_LEN; subst data; lia).
  assert (length (swap16_in IP_ID (swap16_in IP_LEN data)) = length data) as L2
    by (rewrite <- L1; apply length_swap16_in; unfold IP_ID; subst data; lia).
  unfold ntoh_data. rewrite (sub_swap16_other IP_LEN 2 IP_FRAG), (sub_swap16_other IP_LEN 2 IP_ID);
    rewrite ?L2, ?L1; unfold IP_LEN, IP_ID, IP_FRAG; try (subst data; lia).
  unfold swap16_in. rewrite sub_put_same by (rewrite ?length_le_encode; subst data; lia).
  rewrite le_decode_encode. change (256 ^ Z.of_nat 2) with 65536.
  apply Z.mod_small, ntohs_bound.
Qed.

(** [ip_in] accepts exactly the packets that pass its tests; every other one
    is given back at once. *)
Lemma ip_in_tests :
  ip_in d p (at_pkb p b s) =
    if ip_ok b then ip_recv_route p (at_pkb p (ip_accepted b) s) else Ret tt (released p s).
Proof.
  unfold ip_in, ip_ok. step (pkb_at_pkb p b s).
  destruct (pk_type b =? PKT_OTHERHOST); [by apply free_pkb_of|]. cbn [negb andb].
  change (ETH_HDR_LEN + IP_HDR_LEN) with 34. rewrite Z.ltb_antisym.
  destruct (34 <=? pk_len b); [|by apply free_pkb_of]. cbn [negb andb].
  unfold ipver, iphlen. pure_steps. step (ld8_pkb p b s IP_VHL ltac:(unfold IP_VHL; lia)). pure_steps.
  fold (vhl (pk_data b)). destruct (_ =? IP_VERSION_4); [|by apply free_pkb_of]. cbn [negb andb].
  pure_steps. step (ld8_pkb p b s IP_VHL ltac:(unfold IP_VHL; lia)). pure_steps. fold (vhl (pk_data b)).
  fold (hdr_len (pk_data b)). pose proof (hdr_len_bound (pk_data b)) as HB.
  change IP_HDR_LEN with 20. rewrite Z.ltb_antisym.
  destruct (20 <=? hdr_len (pk_data b)); [|by apply free_pkb_of]. cbn [negb andb].
  unfold header_checksum. pure_steps.
  step (ld_pkb p b s IP_VHL (Z.to_nat (hdr_len (pk_data b))) ltac:(unfold IP_VHL; lia)).
  fold (header (pk_data b)).
  destruct (checksum_some (header (pk_data b))) as [c Hc].
  { by apply Forall_sub. }
  { unfold header. rewrite length_sub by (unfold IP_VHL; lia). lia. }
  rewrite Hc. pure_steps. destruct (Z.eqb_spec c 0) as [->|Hne].
  2: { rewrite bool_decide_eq_false_2 by congruence. cbn [negb andb]. by apply free_pkb_of. }
  rewrite bool_decide_eq_true_2 by done. cbn [negb andb].
  step (ip_ntoh_pkb b room). set (b1 := set_pk_data _ b).
  assert (length (pk_data b1) = length (pk_data b)) as L1.
  { simpl. unfold ntoh_data. rewrite !length_swap16_in; unfold IP_LEN, IP_ID, IP_FRAG; rewrite ?length_swap16_in;
      unfold IP_LEN, IP_ID, IP_FRAG; rewrite ?length_swap16_in; unfold IP_LEN; lia. }
  step (ld16_pkb p b1 s IP_LEN ltac:(unfold IP_LEN; lia)).
  change (pk_data b1) with (ntoh_data data). rewrite len_field. fold data.
  rewrite Z.ltb_antisym, (Z.ltb_antisym (ETH_HDR_LEN + total_len data)).
  change (ETH_HDR_LEN + total_len data) with (14 + total_len data).
  change (pk_len b1) with (pk_len b).
  destruct (hdr_len data <=? total_len data); [|by apply (free_pkb_of b1)]. cbn [negb orb andb].
  destruct (14 + total_len data <=? pk_len b); [|by apply (free_pkb_of b1)]. cbn [negb].
  unfold ip_accepted. fold data. fold b1.
  destruct (14 + total_len data <? pk_len b); [|by rewrite bind_mret].
  unfold pkb_trim. pure_steps. step (pkb_upd_pkb p b1 s (set_pk_len (14 + total_len data))). pure_steps.
  cbn [id]. change (net_env (at_pkb _ _ s)) with (net_env s). rewrite in_place.
  by step (pkb_upd_pkb p (set_pk_len (14 + total_len data) b1) s
          (fun b => set_pk_data (take (Z.to_nat (14 + total_len data)) (pk_data b)) b)).
Qed.
End Input.

(** * Forwarding *)

Lemma le_encode_1 x : 0 <= x < 256 -> le_encode 1 x = [x].
Proof. intros H. unfold le_encode. by rewrite Z.mod_small. Qed.

Lemma byte_at data o :
  Forall is_byte data -> (o < length data)%nat ->
  exists x, data !! o = Some x /\ is_byte x /\ le_decode (sub o 1 data) = x.
Proof.
  intros F H. destruct (lookup_lt_is_Some_2 data o H) as [x Hx]. exists x. split_and!; [done| |].
  - rewrite Forall_forall in F. apply F. by eapply list_elem_of_lookup_2.
  - assert (sub o 1 data = [x]) as ->; [|simpl; lia].
    apply list_eq. intros [|i].
    + rewrite lookup_sub by lia. by rewrite Nat.add_0_r.
    + rewrite !lookup_ge_None_2; [done|simpl; lia|rewrite length_sub; lia].
Qed.

Lemma words_pos a l : Forall is_byte l -> l !! 0%nat = Some a -> 0 < a -> 0 < words l.
Proof.
  destruct l as [|x [|y l]]; intros F [= ->] Ha; simpl; [done|].
  apply Forall_cons in F as [_ F]. apply Forall_cons in F as [Hy F]. unfold is_byte in Hy.
  pose proof (words_bound l F). lia.
Qed.

(** The header with its time to live counted down, and with [1] as its checksum. *)
Definition ttl_down (h : list Z) : list Z := put 8 [default 0 (h !! 8%nat) - 1] h.
Definition csum_one (h : list Z) : list Z := put 10 [1; 0] h.
Definition old_csum (data : list Z) : Z := le_decode (sub IP_CSUM 2 data).

Section Forward.
Variables (data : list Z).
Hypothesis room : (74 <= length data)%nat.
Hypothesis bytes : Forall is_byte data.
Hypothesis hlen_ok : 20 <= hdr_len data.
Hypothesis valid : checksum (header data) 0 = Some 0.

Let k := Z.to_nat (hdr_len data).

Lemma header_length : length (header data) = k /\ (20 <= k <= 60)%nat.
Proof.
  pose proof (hdr_len_bound data). unfold header. rewrite length_sub by (unfold IP_VHL; lia).
  unfold k. lia.
Qed.

Lemma header_lookup i : (i < k)%nat -> header data !! i = data !! (14 + i)%nat.
Proof. intros H. unfold header. by rewrite lookup_sub. Qed.

Lemma header_bytes : Forall is_byte (header data).
Proof. by apply Forall_sub. Qed.

(** What the code stores is the header with the new time to live and checksum. *)
Lemma header_put_ttl x :
  header data !! 8%nat = Some x -> is_byte (x - 1) ->
  let data1 := put IP_TTL (le_encode 1 (x - 1)) data in
  length data1 = length data /\ hdr_len data1 = hdr_len data /\ header data1 = ttl_down (header data) /\
  Forall is_byte data1.
Proof.
  intros Hx Hb data1. pose proof header_length as [L K].
  assert (length data1 = length data) as L1 by (apply length_put; rewrite length_le_encode; unfold IP_TTL; lia).
  assert (hdr_len data1 = hdr_len data) as E.
  { unfold hdr_len, vhl, data1. rewrite sub_put_other; rewrite ?length_le_encode; unfold IP_VHL, IP_TTL; lia. }
  split_and!; [done|done| |].
  - unfold header. rewrite E. unfold data1. rewrite sub_put_inside;
      rewrite ?length_le_encode; unfold IP_VHL, IP_TTL; fold k; try lia.
    unfold ttl_down. fold (header data). unfold header in Hx. fold k in Hx. unfold IP_VHL in Hx. rewrite Hx.
    by rewrite le_encode_1.
  - apply Forall_put; auto with regions.
Qed.

Lemma words_ttl_down x :
  header data !! 8%nat = Some x -> words (ttl_down (header data)) = words (header data) - 1.
Proof.
  intros Hx. pose proof header_length as [L K]. unfold ttl_down. rewrite Hx. simpl default.
  rewrite (words_put_low 8 x) by (done || lia). lia.
Qed.

Lemma ttl_down_length : length (ttl_down (header data)) = k.
Proof. pose proof header_length as [L K]. unfold ttl_down. rewrite length_put; simpl; lia. Qed.

Lemma ttl_down_bytes x :
  header data !! 8%nat = Some x -> is_byte (x - 1) -> Forall is_byte (ttl_down (header data)).
Proof.
  intros Hx Hb. unfold ttl_down. rewrite Hx. apply Forall_put; [by constructor|apply header_bytes].
Qed.

Lemma forward_checksum x :
  header data !! 8%nat = Some x -> is_byte (x - 1) -> checksum (ttl_down (header data)) 0 = Some 1.
Proof.
  intros Hx Hb. pose proof header_length as [L K].
  apply (checksum_off_by_one (header data)); [apply header_bytes|by eapply ttl_down_bytes|
    by rewrite ttl_down_length, L|lia|exact valid|by eapply words_ttl_down].
Qed.

(** The next router accepts the result only when the old checksum was zero. *)
Lemma forwarded_valid x :
  header data !! 8%nat = Some x -> is_byte (x - 1) -> vhl data <> 0 ->
  checksum (csum_one (ttl_down (header data))) 0 = Some 0 <-> old_csum data = 0 \/ old_csum data = 65535.
Proof.
  intros Hx Hb Hv. pose proof header_length as [L K].
  pose proof (ttl_down_bytes x Hx Hb) as F1. pose proof ttl_down_length as L1.
  assert (csum_one (ttl_down (header data)) = put 10 (le_encode 2 1) (ttl_down (header data))) as E by done.
  assert (sub 10 2 (ttl_down (header data)) = sub IP_CSUM 2 data) as Es.
  { unfold ttl_down. rewrite sub_put_other by (simpl; lia). unfold header. fold k.
    rewrite sub_sub by lia. done. }
  assert (words (sub IP_CSUM 2 data) = old_csum data /\ 0 <= old_csum data <= 65535) as [Ew B].
  { unfold old_csum. destruct (byte_at data IP_CSUM bytes) as (a & Ha & Ba & _); [unfold IP_CSUM; lia|].
    destruct (byte_at data (S IP_CSUM) bytes) as (c & Hc & Bc & _); [unfold IP_CSUM; lia|].
    assert (sub IP_CSUM 2 data = [a; c]) as ->; [|unfold is_byte in *; simpl; lia].
    apply list_eq. intros [|[|i]]; [rewrite lookup_sub by lia; by rewrite Nat.add_0_r|
      rewrite lookup_sub by lia; by rewrite Nat.add_1_r|].
    rewrite !lookup_ge_None_2; [done|simpl; lia|rewrite length_sub; unfold IP_CSUM; lia]. }
  pose proof valid as [P M]%checksum_zero; [|apply header_bytes|lia].
  rewrite checksum_zero; [|rewrite E; apply Forall_put; auto with regions|
    rewrite E, length_put; rewrite ?length_le_encode; lia].
  rewrite E, words_put by (done || lia). rewrite Es, Ew, (words_ttl_down x Hx).
  assert (0 < words (header data) - old_csum data) as Pos.
  { rewrite <- Ew. replace (sub IP_CSUM 2 data) with (sub 10 2 (header data))
      by (unfold header; fold k; rewrite sub_sub by lia; done).
    replace (words (header data) - words (sub 10 2 (header data)))
      with (words (header data) - words (sub 10 2 (header data)) + 0) by lia.
    rewrite <- words_put by (done || lia).
    destruct (byte_at data IP_VHL bytes) as (a & Ha & Ba & Ev); [unfold IP_VHL; lia|].
    apply (words_pos a); [apply Forall_put; auto with regions; apply header_bytes| |unfold vhl in Hv; unfold is_byte in Ba; lia].
    rewrite lookup_put by (rewrite length_le_encode; lia).
    rewrite decide_False by lia. by rewrite header_lookup by lia. }
  pose proof (Z.div_mod (words (header data)) 65535 ltac:(lia)) as D. rewrite M in D.
  replace (words (header data) - 1 - old_csum data + 1) with (words (header data) - old_csum data) by lia.
  split.
  - intros [_ M']. apply Z.mod_divide in M' as [q Hq]; [|lia].
    assert (old_csum data = 65535 * (words (header data) / 65535 - q)) by lia. lia.
  - intros [E0|E0]; rewrite E0 in *; (split; [lia|]); apply Z.mod_divide; try lia.
    + exists (words (header data) / 65535). lia.
    + exists (words (header data) / 65535 - 1). lia.
Qed.
End Forward.

(** A packet that ip_forward passes on: a valid header, time to live left, a
    route, and no need to fragment. *)
Record forwardable (s : Net) (b : pkbuf) (l : list (Z * rtentry)) (r : Z) (e : rtentry) (v : netdev) : Prop := {
  fw_room : (74 <= length (pk_data b))%nat;
  fw_bytes : Forall is_byte (pk_data b);
  fw_hlen : 20 <= hdr_len (pk_data b);
  fw_valid : checksum (header (pk_data b)) 0 = Some 0;
  fw_ttl : 1 < le_decode (sub IP_TTL 1 (pk_data b));
  fw_table : route_table s l;
  fw_route : pk_rtdst b = Some r;
  fw_entry : rts s !! r = Some e;
  fw_dev : devs s !! rt_dev e = Some v;
  fw_mtu : total_len (pk_data b) <= net_mtu v
}.

Lemma route_table_at_pkb p b s l : route_table s l -> route_table (at_pkb p b s) l.
Proof. by intros []. Qed.

(** The redirect test of ip_forward has no effect. *)
Lemma redirect_skip s l (indev : option Z) (dev : Z) dst (k : unit -> prog Net unit) p b :
  route_table s l -> (34 <= length (pk_data b))%nat ->
  ((if bool_decide (indev = Some dev) then
     saddr ← ld32 p IP_SADDR;
     srt ← rt_lookup saddr;
     match srt with
     | Some q => e ← rt_at q;
                 if (rt_metric e =? 0) && equsubnet (rt_netmask e) saddr dst then mret tt else mret tt
     | None => mret tt
     end
   else mret tt) ≫= k) (at_pkb p b s) = k tt (at_pkb p b s).
Proof.
  intros T L. case_bool_decide; [|done]. pure_steps.
  step (ld32_pkb p b s IP_SADDR ltac:(unfold IP_SADDR; lia)).
  set (saddr := le_decode _). pure_steps.
  step (rt_lookup_find (at_pkb p b s) l saddr (route_table_at_pkb p b s l T)).
  destruct (find_route saddr l) as [[q e]|] eqn:F; [|done]. simpl fmap. cbv iota. pure_steps.
  destruct (find_route_first _ _ _ F) as (l1 & l2 & El & _ & _).
  destruct T as [_ T]. rewrite El in T. apply Forall_app in T as [_ T]. apply Forall_cons in T as [T _].
  step (rt_at_entry (at_pkb p b s) q e T). by destruct ((rt_metric e =? 0) && _).
Qed.

Lemma ip_forward_run s p b l r e v :
  forwardable s b l r e v ->
  exists data, ip_forward p (at_pkb p b s) = Ret tt (at_pkb p (set_pk_data data b) s) /\
    header data = csum_one (ttl_down (header (pk_data b))) /\
    exists x, header (pk_data b) !! 8%nat = Some x /\ is_byte (x - 1).
Proof.
  intros [R F HL V T Tb Er Ee Ev M]. set (D := pk_data b) in *.
  destruct (byte_at D IP_TTL F) as (x & Hx & Bx & Ex); [unfold IP_TTL; lia|].
  pose proof (header_length D R HL) as [LH LK].
  assert (header D !! 8%nat = Some x) as Hx8 by (rewrite header_lookup by lia; exact Hx).
  assert (is_byte (x - 1)) as Bx1 by (unfold is_byte in *; lia).
  destruct (header_put_ttl D R F HL x Hx8 Bx1) as (L1 & E1 & H1 & F1).
  set (D1 := put IP_TTL (le_encode 1 (x - 1)) D) in *. set (D2 := put IP_CSUM (le_encode 2 1) D1).
  assert (length D2 = length D) as L2 by (rewrite <- L1; apply length_put; rewrite length_le_encode; unfold IP_CSUM; lia).
  assert (forall o n, (o + n <= IP_TTL)%nat -> sub o n D2 = sub o n D) as Hlow.
  { intros o n Hon. unfold IP_TTL in Hon. transitivity (sub o n D1); [|]; apply sub_put_other;
      rewrite ?length_le_encode; unfold IP_CSUM, IP_TTL; lia. }
  assert (hdr_len D2 = hdr_len D) as E2 by (unfold hdr_len, vhl; by rewrite Hlow by (unfold IP_VHL, IP_TTL; lia)).
  exists D2. split_and!.
  2: { unfold header. rewrite E2. unfold D2. rewrite sub_put_inside; rewrite ?length_le_encode;
         unfold IP_VHL, IP_CSUM; try lia.
       change (put 10 (le_encode 2 1) (sub 14 (Z.to_nat (hdr_len D)) D1) = csum_one (ttl_down (header D))).
       rewrite <- E1. change (sub 14 (Z.to_nat (hdr_len D1)) D1) with (header D1). by rewrite H1. }
  2: { by exists x. }
  unfold ip_forward. step (pkb_at_pkb p b s).
  step (ld8_pkb p b s IP_TTL ltac:(fold D; unfold IP_TTL; lia)). fold D. rewrite Ex.
  rewrite (proj2 (Z.leb_gt x 1)) by lia.
  step (st8_pkb p b s IP_TTL (x - 1) ltac:(fold D; unfold IP_TTL; lia)). fold D. fold D1.
  set (b1 := set_pk_data D1 b). unfold iphlen. pure_steps.
  step (ld8_pkb p b1 s IP_VHL ltac:(change (pk_data b1) with D1; unfold IP_VHL; lia)). change (pk_data b1) with D1. pure_steps.
  fold (vhl D1). fold (hdr_len D1). unfold header_checksum. pure_steps.
  step (ld_pkb p b1 s IP_VHL (Z.to_nat (hdr_len D1)) ltac:(change (pk_data b1) with D1; rewrite E1; unfold IP_VHL; lia)).
  change (pk_data b1) with D1. fold (header D1). rewrite H1, (forward_checksum D R F HL V x Hx8 Bx1). pure_steps.
  step (st16_pkb p b1 s IP_CSUM 1 ltac:(change (pk_data b1) with D1; unfold IP_CSUM; lia)). change (pk_data b1) with D1. fold D2.
  set (b2 := set_pk_data D2 b1). rewrite Er. pure_steps. step (rt_at_entry (at_pkb p b2 s) r e Ee).
  step (ld32_pkb p b2 s IP_DADDR ltac:(change (pk_data b2) with D2; unfold IP_DADDR; lia)).
  rewrite (redirect_skip s l _ _ _ _ p b2 Tb ltac:(change (pk_data b2) with D2; lia)).
  step (ld16_pkb p b2 s IP_LEN ltac:(change (pk_data b2) with D2; unfold IP_LEN; lia)). change (pk_data b2) with D2.
  rewrite Hlow by (unfold IP_LEN, IP_TTL; lia). step (dev_at_pkb p b2 s (rt_dev e) v Ev).
  fold (total_len D). by rewrite (proj2 (Z.ltb_ge _ _)) by exact M.
Qed.
