(* ===== verification/NetSpec.v ===== *)
(** Properties of the TCP/IP stack as a whole: what comes out of the tap
    device for what comes in, and what happens to the packet buffers. *)

From S2P Require Import Prelude NetList NetState NetSum NetRoute NetArp NetDev NetIp NetPkb NetArpSpec NetCold NetIpSpec.
#[local] Open Scope Z_scope.

(** * ARP requests and replies *)

Definition balance (s : Net) : Z := alloc_pkbs s - free_pkbs s.


(** A reply for this host sends nothing: it refreshes the entry of its sender,
    if there is one, and the buffer is given back. *)
Theorem arp_reply_learned s d v dmac smac spa tha tpa pad :
  arp_for_us s d v dmac smac spa tha tpa pad -> pkbs s !! fresh s = None ->
  exists s',
    recv_one (Some (arp_frame dmac smac ARP_OP_REPLY smac spa tha tpa ++ pad)) s = Ret true s' /\
    tap_out s' = tap_out s /\
    arp_cache s' = arp_cache (learned d ETH_P_IP (le_decode spa) smac false s) /\
    pkbs s' = pkbs s /\ balance s' = balance s.
Proof.
  intros U Hp.
  destruct (recv_arp s d v dmac smac spa tha tpa pad ARP_OP_REPLY U ltac:(by right)) as (b & t & E & Et & R & rest & Db).
  destruct U as [U D M A F W Dm Sm Sp Th Ty Fi Mt].
  set (s1 := received d v _ s) in Et.
  destruct (learned_frame d ETH_P_IP (le_decode spa) smac false s1) as (L1 & L2 & L3 & L4 & L5 & L6).
  change (ARP_OP_REPLY =? 1) with false in *. rewrite <- Et in *. cbv iota in E.
  assert (can_free (fresh s) t) as F' by (unfold can_free; rewrite L4, L6; exact F).
  exists (released (fresh s) t). split_and!.
  - rewrite E. by step (free_pkb_last (fresh s) b t R F').
  - simpl. by rewrite L5.
  - simpl. rewrite Et. by apply learned_cache.
  - simpl. rewrite L1. by rewrite delete_id.
  - unfold balance. simpl. rewrite L3, L4. simpl. lia.
Qed.

(** * IP frames are never given back *)

Definition ip_frame (v : netdev) (l : list Z) : Prop :=
  (14 <= length l)%nat /\ Z.of_nat (length l) <= net_mtu v + 14 /\ sub 12 2 l = [8; 0].

Lemma recv_ip_frame s d v l :
  up s d v -> can_alloc s -> ip_frame v l ->
  exists s', recv_one (Some l) s = Ret true s' /\ balance s' = balance s + 1 /\
    alloc_pkbs s' = alloc_pkbs s + 1 /\ net_env s' = net_env s /\ fresh s' = fresh s + 1 /\
    exists v', up s' d v' /\ net_mtu v' = net_mtu v.
Proof.
  intros U A (H14 & Hm & Ht). rewrite (recv_one_frame d v l s U A H14 Hm), Ht.
  eexists. split; [reflexivity|]. split_and!; [unfold balance; simpl; lia|done..|].
  exists (with_stats (add_rx (Z.of_nat (length l))) v). destruct U as [U1 U2 U3].
  split; [|done]. split; [done|apply lookup_insert_eq|done].
Qed.

(** More IP frames than there are buffers to spare end the process. *)
Theorem ip_frames_exhaust l : forall s d v,
  up s d v -> (forall p, malloc_ok (net_env s) p = true) ->
  Forall (fun f => exists x, f = Some x /\ ip_frame v x) l ->
  alloc_pkbs s + Z.of_nat (length l) < 2 ^ 31 -> balance s <= MAX_PKBS ->
  MAX_PKBS - balance s < Z.of_nat (length l) ->
  exists s', recv_frames l s = Exit EXIT_FAILURE s'.
Proof.
  induction l as [|f l IH]; intros s d v U Hm F Ha Hb Hn; [simpl in Hn; lia|].
  apply Forall_cons in F as [(x & -> & Hx) F]. simpl recv_frames. rewrite bind_modify.
  set (s0 := set_tap l (tap_out s) s).
  assert (up s0 d v) as U0 by (by destruct U).
  simpl length in *. destruct (Z.eq_dec (balance s) MAX_PKBS) as [E|E].
  - exists (new_pkb (net_mtu v + 14) s0). apply bind_Exit.
    unfold recv_one, veth_dev. pure_steps. rewrite (up_veth _ _ _ U0). pure_steps.
    unfold dev_at. pure_steps. rewrite (up_dev _ _ _ U0). pure_steps.
    apply bind_Exit. rewrite alloc_pkb_eq. change (net_env s0) with (net_env s). rewrite Hm.
    change (alloc_pkbs s0) with (alloc_pkbs s). change (free_pkbs s0) with (free_pkbs s).
    rewrite (proj2 (Z.ltb_lt _ _)) by lia. unfold balance in E.
    by rewrite (proj2 (Z.ltb_lt _ _)) by lia.
  - assert (can_alloc s0) as A.
    { split; [apply Hm|unfold balance in *; simpl; lia|simpl; lia]. }
    destruct (recv_ip_frame s0 d v x U0 A Hx) as (s' & R & B & Ea & Ee & _ & v' & U' & Em).
    step R. apply (IH s' d v' U'); [by rewrite Ee| |rewrite Ea; simpl; lia|..].
    + eapply Forall_impl; [exact F|]. intros f (y & -> & Hy). exists y. split; [done|].
      unfold ip_frame. by rewrite Em.
    + change (balance s0) with (balance s) in B. lia.
    + change (balance s0) with (balance s) in B. lia.
Qed.

(** * Requests the stack sends itself *)

(** The buffer that arp_request allocates ends before the ARP addresses it
    writes: the function never completes. *)
Theorem arp_request_never tx i s r s' : arp_request tx i s <> Ret r s'.
Proof.
  unfold arp_request. intros E. apply bind_inv in E as (o & t & Ea & E). rewrite alloc_pkb_eq in Ea.
  destruct (malloc_ok _ _); [|injection Ea as <- <-; done].
  destruct (_ <? _); [|done]. destruct (_ <? _); [done|]. injection Ea as <- <-.
  rewrite bind_Some in E. set (p := fresh s) in *. set (size := ETH_HDR_LEN + ARP_HDR_LEN) in *.
  set (s1 := set_counts (alloc_pkbs s + 1) (free_pkbs s)
      (set_links (<[pk_list p := (Some (pk_list p), Some (pk_list p))]> (links s)) (set_fresh (p + 1) s))).
  change (new_pkb size s) with (at_pkb p (new_buf size s) s1) in E.
  assert (length (pk_data (new_buf size s)) = 22%nat) as L by apply length_fresh.
  revert E L. generalize (new_buf size s) as b. intros b E L.
  do 5 (match type of E with
    | (st16 p ?o ?x ≫= _) (at_pkb p ?b0 s1) = _ =>
        rewrite (bind_Ret _ _ _ _ _ (st16_pkb p b0 s1 o x ltac:(rewrite L; apply Nat.leb_le; reflexivity))) in E;
        assert (length (pk_data (set_pk_data (put o (le_encode 2 x) (pk_data b0)) b0)) = 22%nat) as L'
          by (apply length_put_eq; [exact L|rewrite length_le_encode; apply Nat.leb_le; reflexivity])
    | (st8 p ?o ?x ≫= _) (at_pkb p ?b0 s1) = _ =>
        rewrite (bind_Ret _ _ _ _ _ (st8_pkb p b0 s1 o x ltac:(rewrite L; apply Nat.leb_le; reflexivity))) in E;
        assert (length (pk_data (set_pk_data (put o (le_encode 1 x) (pk_data b0)) b0)) = 22%nat) as L'
          by (apply length_put_eq; [exact L|rewrite length_le_encode; apply Nat.leb_le; reflexivity])
    end; clear L; rename L' into L).
  match type of E with _ (at_pkb p ?b0 s1) = _ => set (b5 := b0) in * end.
  apply bind_inv in E as (e & t & Ee & E).
  assert (t = at_pkb p b5 s1) as ->.
  { unfold ae_at in Ee. rewrite bind_gets in Ee. destruct (zget _ _); [|done]. by injection Ee. }
  destruct (ae_dev e) as [dv|]; [|done]. rewrite bind_Some in E.
  apply bind_inv in E as (v & t & Ev & E). apply dev_at_same in Ev as ->.
  apply bind_inv in E as ([] & t & Es & _). unfold st32, st in Es.
  rewrite (bind_Ret _ _ _ _ _ (pkb_at_pkb p b5 s1)), L, length_le_encode in Es. done.
Qed.

(** The first tick of the ARP timer on the zeroed cache asks for address 0 on
    no device, and does not come back. *)
Theorem arp_timer_cold tx delta s s' :
  cold s -> 0 <= delta < 2 ^ 31 -> arp_timer tx delta s <> Ret tt s'.
Proof.
  intros [C N] Hd E. unfold arp_timer in E. simpl timer_from in E.
  apply bind_inv in E as ([] & t & E & _). unfold timer_entry in E.
  assert (zget (arp_cache s) 0 = Some ae_zero) as Z0 by (by rewrite C).
  assert (length (arp_cache s) = 20%nat) as L by (by rewrite C).
  destruct (ae_at_ok s 0 L ltac:(lia)) as (e & He & Ha). rewrite Z0 in He. injection He as <-.
  rewrite (bind_Ret _ _ _ _ _ Ha) in E. change (ae_state ae_zero =? ARP_STATE_FREE) with false in E.
  cbv iota in E. change (ae_ttl ae_zero) with 0 in E. rewrite bind_require in E by lia.
  rewrite (bind_Ret _ _ _ _ _ (ae_upd_ok s 0 ae_zero (set_ae_ttl (0 - delta)) L ltac:(lia) Z0)) in E.
  rewrite (proj2 (Z.ltb_ge 0 _)) in E by lia.
  change (ae_state ae_zero =? ARP_STATE_WAITING) with false in E.
  change (ae_state ae_zero =? ARP_STATE_RESOLVED) with false in E. cbv iota in E. rewrite bind_mret in E.
  apply bind_inv in E as ([] & t1 & _ & E). apply bind_inv in E as (r & t2 & E & _).
  by apply arp_request_never in E.
Qed.

(** * Boot *)

(** The static list_heads: [rt_head] is initialised by LIST_HEAD, the others
    are zero. *)
Definition static_links : Links node :=
  <[net_devices := (None, None)]> (<[rt_head := (Some rt_head, Some rt_head)]>
    (list_to_map ((fun i : nat => (ae_list (Z.of_nat i), (None, None))) <$> seq 0 ARP_CACHE_SZ))).

Definition net_start (env : NetEnv) (frames : list (option (list Z))) : Net :=
  mkNet static_links ∅ ∅ ∅ 1 0 0 (replicate ARP_CACHE_SZ ae_zero) 0 None None frames [] env.

(** An environment in which memory is there and the tap device opens. *)
Definition good_net (junk : Z -> nat -> Z) (ra : Z -> ReallocResult) (stale : Z -> Z) (acc : list Z -> Z) : NetEnv :=
  mkNetEnv (fun _ => true) junk ra stale 0 acc.

Definition host_route : Z * rtentry := (4, mkRt VETH_IPADDR (2 ^ 32 - 1) 0 RT_LOCALHOST 0 1).
Definition veth_route : Z * rtentry := (5, mkRt (Z.land VETH_IPADDR VETH_NETMASK) VETH_NETMASK 0 RT_NONE 0 2).
Definition loop_route : Z * rtentry := (3, mkRt (Z.land LOOPBACK_IPADDR LOOPBACK_NETMASK) LOOPBACK_NETMASK 0 RT_LOCALHOST 0 1).
Definition default_route : Z * rtentry := (6, mkRt 0 0 FAKE_TAP_ADDR RT_DEFAULT 0 2).

(** The table that netdev_init and rt_init leave. *)
Lemma rt_init_table junk ra stale acc frames :
  exists s, (netdev_init;; rt_init) (net_start (good_net junk ra stale acc) frames) = Ret tt s /\
    route_table s [host_route; veth_route; loop_route; default_route].
Proof.
  eexists. split; [vm_compute; reflexivity|].
  split.
  - split.
    + by vm_compute; repeat constructor; rewrite ?elem_of_cons, ?elem_of_nil; intuition discriminate.
    + vm_compute. repeat split.
  - repeat constructor.
Qed.

(** After netdev_init and rt_init the table holds the four routes, most
    specific first, and every address has a route: the host itself, its
    network, the loopback network, or the default. *)
Theorem rt_init_routes junk ra stale acc frames :
  exists s, (netdev_init;; rt_init) (net_start (good_net junk ra stale acc) frames) = Ret tt s /\
    route_table s [host_route; veth_route; loop_route; default_route] /\
    forall ip, 0 <= ip < 2 ^ 32 ->
      rt_lookup ip s = Ret (Some (if ip =? VETH_IPADDR then 4
                                  else if Z.land VETH_NETMASK ip =? Z.land VETH_IPADDR VETH_NETMASK then 5
                                  else if Z.land LOOPBACK_NETMASK ip =? 127 then 3 else 6)) s.
Proof.
  destruct (rt_init_table junk ra stale acc frames) as (t & E & T). exists t. split; [done|].
  split; [done|]. intros ip Hip. rewrite (rt_lookup_find t _ ip T). f_equal. clear E T.
  assert (rt_matches host_route.2 ip = (ip =? VETH_IPADDR)) as E1.
  { unfold rt_matches. change (rt_netmask host_route.2) with (Z.ones 32).
    change (Z.land (Z.ones 32) (rt_net host_route.2)) with VETH_IPADDR.
    rewrite Z.land_comm, Z.land_ones by lia. by rewrite Z.mod_small. }
  assert (rt_matches default_route.2 ip = true) as E4 by done.
  cbn [find_route]. rewrite E1, E4. destruct (ip =? VETH_IPADDR); [done|].
  change (rt_matches veth_route.2 ip) with (Z.land VETH_NETMASK ip =? Z.land VETH_IPADDR VETH_NETMASK).
  destruct (Z.land VETH_NETMASK ip =? _); [done|].
  change (rt_matches loop_route.2 ip) with (Z.land LOOPBACK_NETMASK ip =? 127).
  by destruct (Z.land LOOPBACK_NETMASK ip =? 127).
Qed.

(** A cold cache answers no lookup. *)
Lemma cold_lookup s pro ip : cold s -> pro <> 0 -> arp_cache_lookup pro ip s = Ret None s.
Proof.
  intros [C _] Hp. unfold arp_cache_lookup, gets. by rewrite C, lookup_cold.
Qed.

#[export] Instance cold_netdev_init : Preserves cold netdev_init.
Proof.
  unfold netdev_init, loop_init, veth_init, netdev_alloc, malloc, loop_dev_init, veth_dev_init, dev_upd.
  preserve.
Qed.

(** From boot on the cache is cold: however many frames arrive, no address is
    ever found in it. *)
Theorem boot_cache_cold env frames s :
  (netdev_init;; recv_interrupt) (net_start env frames) = Ret tt s ->
  forall pro ip, pro <> 0 -> arp_cache_lookup pro ip s = Ret None s.
Proof.
  intros E pro ip Hp. apply cold_lookup; [|done].
  assert (cold (net_start env frames)) as C by done.
  keeps cold E C. unfold recv_interrupt. preserve.
Qed.

#[export] Instance acc_malloc : Preserves accounted malloc.
Proof.
  intros s o s' C E. unfold malloc in E. rewrite bind_gets, bind_modify in E. injection E as _ <-.
  eapply accounted_frame; [exact C|done..|simpl; lia].
Qed.

#[export] Instance acc_netdev_init : Preserves accounted netdev_init.
Proof.
  unfold netdev_init, loop_init, veth_init, netdev_alloc, loop_dev_init, veth_dev_init, dev_upd.
  preserve.
Qed.

(** From boot on the counters of packet buffers differ by the number of live
    buffers, whatever frames arrive. *)
Theorem boot_accounted env frames s :
  (netdev_init;; recv_interrupt) (net_start env frames) = Ret tt s ->
  balance s = Z.of_nat (size (pkbs s)).
Proof.
  intros E. assert (accounted (net_start env frames)) as C by (by split).
  enough (accounted s) as [H _] by exact H. keeps accounted E C. unfold recv_interrupt. preserve.
Qed.
