(* ===== verification/NetLaws.v ===== *)
(** What the data structures and the IP path of the stack promise, and instances
    of these and of the properties of the whole stack. *)

From S2P Require Import Prelude NetList NetState NetSum NetRoute NetArp NetDev NetIp NetPkb NetArpSpec NetCold NetIpSpec NetSpec.
#[local] Open Scope Z_scope.

(** ** The circular lists of [list.h] *)

Section Deque.
Context {A : Type} `{Countable A}.

(** [list_del] of the first element. *)
Definition pop_front (head : A) : prog (Links A) A :=
  x ← get_next head; list_del x;; mret x.

Lemma pop_front_ring (m : Links A) head x l :
  ring m (head :: x :: l) -> exists m', pop_front head m = Ret x m' /\ ring m' (head :: l).
Proof.
  intros R. unfold pop_front. step (ring_next m head (x :: l) R). cbn [List.hd].
  apply (ring_rotate m [head] (x :: l)) in R.
  destruct (list_del_ring m x (l ++ [head]) R) as (m' & E & R' & _); [by destruct l|].
  step E. exists m'. split; [done|]. by apply (ring_rotate m' l [head]).
Qed.

(** On a list that is linked as the ring of its head and elements, [list_add_tail]
    appends, [list_add] puts in front, and taking the first element away gives the
    list of the others: a queue and a stack. *)
Theorem list_deque (m : Links A) head new l :
  ring m (head :: l) -> new ∉ head :: l -> is_Some (m !! new) ->
  (exists m', list_add_tail new head m = Ret tt m' /\ ring m' (head :: l ++ [new])) /\
  (exists m', list_add new head m = Ret tt m' /\ ring m' (head :: new :: l) /\
     exists m'', pop_front head m' = Ret new m'' /\ ring m'' (head :: l)) /\
  list_empty head m = Ret (bool_decide (l = [])) m.
Proof.
  intros R Hn Hs. split_and!; [| |by apply list_empty_ring].
  - destruct (list_add_tail_ring m new head l R Hn Hs) as (m' & E & R' & _). by exists m'.
  - destruct (list_add_ring m new head l R Hn Hs) as (m' & E & R' & _).
    exists m'. split_and!; [done|done|]. by apply pop_front_ring.
Qed.
End Deque.

(** ** The routing table *)

Lemma insert_route_perm x l : insert_route x l ≡ₚ x :: l.
Proof.
  destruct (insert_route_split x l) as (l1 & l2 & -> & -> & _). by rewrite <- Permutation_middle.
Qed.

(** [rt_add] puts one route more into the table and keeps the table ordered by
    descending mask. *)
Theorem rt_add_sorted s l net mask gw metric flags dev :
  route_table s l -> descending l -> malloc_ok (net_env s) (fresh s) = true -> fresh_route s ->
  exists s' l', rt_add net mask gw metric flags dev s = Ret tt s' /\ route_table s' l' /\ descending l' /\
    l' ≡ₚ (fresh s, mkRt net mask gw flags metric dev) :: l.
Proof.
  intros T D M F. destruct (rt_add_insert s l net mask gw metric flags dev T M F) as (m & E & T').
  eexists _, _. split; [exact E|]. split; [exact T'|].
  split; [by apply insert_route_sorted|apply insert_route_perm].
Qed.

(** C39: In an ordered table [rt_lookup] finds a route for every address that has one,
    and of all routes that match one with the longest prefix. *)
Theorem rt_lookup_longest s l ip :
  route_table s l -> descending l ->
  Forall (fun x => exists n, (n <= 32)%nat /\ rt_netmask x.2 = prefix_mask n) l ->
  match rt_lookup ip s with
  | Ret None s' => s' = s /\ Forall (fun x => rt_matches x.2 ip = false) l
  | Ret (Some r) s' => s' = s /\ exists e n, (r, e) ∈ l /\ rt_matches e ip = true /\
      rt_netmask e = prefix_mask n /\
      forall y m, y ∈ l -> rt_matches y.2 ip = true -> (m <= 32)%nat ->
        rt_netmask y.2 = prefix_mask m -> (m <= n)%nat
  | _ => False
  end.
Proof.
  intros T D P. rewrite (rt_lookup_find s l ip T). destruct (find_route ip l) as [[r e]|] eqn:E; cbn.
  - split; [done|]. destruct (find_route_first _ _ _ E) as (l1 & l2 & El & Hm & _).
    assert ((r, e) ∈ l) as Hin by (rewrite El; set_solver).
    rewrite Forall_forall in P. destruct (P _ Hin) as (n & Hn & En).
    exists e, n. split_and!; [done|done|done|]. intros y m Hy Hmy Hm32 Em.
    by eapply (find_route_longest ip l (r, e) y n m).
  - split; [done|]. by apply find_route_none.
Qed.

(** ** Checksums *)

(** The sum of a block with a zeroed checksum field, stored in that field, makes
    the block verify: [ip_in] and every other host accept it. *)
Theorem checksum_verifies l o :
  Forall is_byte l -> Z.of_nat (length l) <= 131069 -> Nat.even o = true -> (o + 2 <= length l)%nat ->
  sub o 2 l = [0; 0] ->
  exists c, checksum l 0 = Some c /\ checksum (put o (le_encode 2 c) l) 0 = Some 0.
Proof.
  intros Hb Hl Ho Hlen Hz. destruct (checksum_some l Hb Hl) as [c E]. exists c. split; [done|].
  by eapply checksum_fill.
Qed.

(** ** The way of an IP packet *)

(** A packet as the device layer hands it up: one reference, a block of at least
    the smallest frame, and an environment that can take it back. *)
Record handed_up (p : Z) (b : pkbuf) (s : Net) : Prop := {
  hu_ref : pk_refcnt b = 1;
  hu_room : (74 <= length (pk_data b))%nat;
  hu_bytes : Forall is_byte (pk_data b);
  hu_free : can_free p s;
  hu_realloc : realloc_result (net_env s) p = InPlace
}.


(** [ip_forward] recomputes the checksum over the old one: what it passes on
    verifies at the next router only if the old checksum was zero, in one of its
    two forms. *)
Theorem ip_forward_checksum s p b l r e v :
  forwardable s b l r e v ->
  exists data, ip_forward p (at_pkb p b s) = Ret tt (at_pkb p (set_pk_data data b) s) /\
    le_decode (sub IP_CSUM 2 data) = 1 /\
    (checksum (header data) 0 = Some 0 <-> old_csum (pk_data b) = 0 \/ old_csum (pk_data b) = 65535).
Proof.
  intros F. destruct (ip_forward_run s p b l r e v F) as (data & E & Hh & x & Hx & Hb).
  destruct F as [L B H V _ _ _ _ _ _]. exists data. split; [done|].
  assert (vhl (pk_data b) <> 0) as Hv.
  { intros E0. unfold hdr_len in H. by rewrite E0 in H. }
  split; [|rewrite Hh; by apply (forwarded_valid (pk_data b) L B H V x)].
  destruct (header_length (pk_data b) L) as [Lk Hk]; [done|].
  set (h := ttl_down (header (pk_data b))) in *.
  pose proof (ttl_down_length (pk_data b) L H) as Lh. fold h in Lh.
  assert (sub 10 2 (header data) = [1; 0]) as E1
    by (rewrite Hh; unfold csum_one; apply (sub_put_same 10 2 [1; 0] h); cbn [length]; lia).
  assert (length (header data) <= Z.to_nat (hdr_len data))%nat as Lx
    by (unfold header, sub; rewrite length_take; lia).
  assert (length (header data) = length h) as Ly
    by (rewrite Hh; unfold csum_one; apply length_put; cbn [length]; lia).
  unfold header in E1. rewrite sub_sub in E1 by lia.
  change (IP_VHL + 10)%nat with IP_CSUM in E1. by rewrite E1.
Qed.

(** ** Instances *)

(** A stack whose devices are up, with [frames] to read from the tap device. *)
Definition calm_net : NetEnv := good_net (fun _ _ => 0) (fun _ => InPlace) (fun _ => 0) (fun l => Z.of_nat (length l)).

Definition run_to {A} (m : prog Net A) (s : Net) : Net := match m s with Ret _ t => t | _ => s end.

Definition booted (frames : list (option (list Z))) : Net := run_to netdev_init (net_start calm_net frames).

Definition tap_dev : netdev :=
  default (mkDev 0 0 0 [] [] None (mkStats 0 0 0 0 0 0)) (devs (booted []) !! 2).

Lemma booted_up frames : up (booted frames) 2 tap_dev.
Proof. split; [reflexivity|reflexivity|vm_compute; discriminate]. Qed.

Ltac bytes_of := repeat apply Forall_cons_2; try apply Forall_nil_2; unfold is_byte; lia.

Lemma booted_arp : arp_wf (booted []).
Proof.
  split; [reflexivity|vm_compute; intuition discriminate| |].
  - apply Forall_forall. intros e He.
    change (arp_cache (booted [])) with (replicate 20 ae_zero) in He.
    apply elem_of_replicate in He as [-> _]. discriminate.
  - assert (forallb (fun i => bool_decide (is_Some (links (booted []) !! ae_list (Z.of_nat i)))) (seq 0 20) = true) as H
      by (vm_compute; reflexivity).
    intros i Hi. rewrite forallb_forall in H. specialize (H (Z.to_nat i) ltac:(apply in_seq; lia)).
    apply bool_decide_eq_true in H. by rewrite Z2Nat.id in H by lia.
Qed.

Definition my_mac : list Z := [2; 0; 0; 0; 0; 1].
Definition my_ip : list Z := [10; 0; 0; 2].
Definition host_ip : list Z := [10; 0; 0; 1].

Lemma booted_for_us :
  arp_for_us (booted []) 2 tap_dev (replicate 6 255) my_mac my_ip (replicate 6 0) host_ip (replicate 18 0).
Proof.
  split; [apply booted_up|split; [reflexivity|split; [reflexivity|bytes_of]|reflexivity|split; [reflexivity|bytes_of]]
    |reflexivity|by split|by split|exact booted_arp
    |split; [reflexivity|bytes_of]..|discriminate|vm_compute; discriminate|reflexivity].
Qed.


Lemma arp_reply_learned_witness :
  exists s', recv_one (Some (arp_frame (replicate 6 255) my_mac ARP_OP_REPLY my_mac my_ip (replicate 6 0) host_ip
      ++ replicate 18 0)) (booted []) = Ret true s' /\ tap_out s' = [].
Proof.
  destruct (arp_reply_learned _ _ _ _ _ _ _ _ _ booted_for_us eq_refl) as (s' & E & Ht & _).
  exists s'. split; [exact E|]. rewrite Ht. reflexivity.
Defined.

(** Two hundred and one empty IP frames. *)
Definition flood : list (option (list Z)) :=
  replicate (Z.to_nat MAX_PKBS + 1) (Some (replicate 12 0 ++ [8; 0] ++ replicate 20 0)).

Lemma ip_frames_exhaust_witness : exists s', recv_frames flood (booted flood) = Exit EXIT_FAILURE s'.
Proof.
  apply (ip_frames_exhaust flood (booted flood) 2 tap_dev (booted_up flood)); try (vm_compute; done).
  unfold flood. apply Forall_replicate. eexists. split; [reflexivity|].
  split; [apply Nat.leb_le; reflexivity|]. split; [vm_compute; discriminate|reflexivity].
Defined.

Lemma cold_booted : cold (booted []).
Proof. split; [reflexivity|vm_compute; intuition discriminate]. Qed.

Lemma arp_timer_cold_witness :
  match arp_timer (net_tx 1) 1 (booted []) with Ret _ _ => False | _ => True end.
Proof.
  destruct (arp_timer (net_tx 1) 1 (booted [])) as [[] s'|c s'| |] eqn:E; try exact I.
  refine (arp_timer_cold (net_tx 1) 1 (booted []) s' cold_booted _ E). lia.
Defined.

Definition routed : Net := run_to (netdev_init;; rt_init) (net_start calm_net []).

Definition boot_routes : list (Z * rtentry) := [host_route; veth_route; loop_route; default_route].

Lemma routed_table : route_table routed boot_routes.
Proof.
  destruct (rt_init_table (fun _ _ => 0) (fun _ => InPlace) (fun _ => 0) (fun l => Z.of_nat (length l)) [])
    as (s & E & T). unfold routed, run_to, calm_net. by rewrite E.
Qed.

Lemma boot_routes_descending : descending boot_routes.
Proof. repeat constructor; vm_compute; discriminate. Qed.

(** A route to 10.0.1.0/24. *)
Lemma rt_add_sorted_witness :
  exists s' l', rt_add 65546 (prefix_mask 24) 0 0 RT_NONE 2 routed = Ret tt s' /\ descending l' /\ length l' = 5%nat.
Proof.
  destruct (rt_add_sorted routed boot_routes 65546 (prefix_mask 24) 0 0 RT_NONE 2 routed_table
    boot_routes_descending) as (s' & l' & E & _ & D & P); [reflexivity|by split|].
  exists s', l'. split; [exact E|]. split; [exact D|]. by apply Permutation_length in P.
Defined.

(** The address 10.0.0.7 is in the network of the tap device. *)
Lemma rt_lookup_longest_witness :
  exists e n, (5, e) ∈ boot_routes /\ rt_netmask e = prefix_mask n /\
    forall y m, y ∈ boot_routes -> rt_matches y.2 (le_decode [10; 0; 0; 7]) = true -> (m <= 32)%nat ->
      rt_netmask y.2 = prefix_mask m -> (m <= n)%nat.
Proof.
  pose proof (rt_lookup_longest routed boot_routes (le_decode [10; 0; 0; 7]) routed_table boot_routes_descending) as H.
  rewrite (rt_lookup_find routed boot_routes _ routed_table) in H.
  destruct H as (_ & e & n & Hin & _ & En & Hmax).
  { apply Forall_cons_2; [exists 32%nat; split; [lia|reflexivity]|].
    apply Forall_cons_2; [exists 24%nat; split; [lia|reflexivity]|].
    apply Forall_cons_2; [exists 8%nat; split; [lia|reflexivity]|].
    apply Forall_cons_2; [exists 0%nat; split; [lia|reflexivity]|apply Forall_nil_2]. }
  exists e, n. split; [exact Hin|]. split; [exact En|exact Hmax].
Defined.

(** Three nodes of the stack as a list of one element and a node to add. *)
Lemma list_deque_witness :
  let m : Links node := <[rt_list 4 := (Some rt_head, Some rt_head)]>
    (<[rt_list 5 := (None, None)]> (<[rt_head := (Some (rt_list 4), Some (rt_list 4))]> ∅)) in
  exists m', list_add_tail (rt_list 5) rt_head m = Ret tt m' /\ ring m' [rt_head; rt_list 4; rt_list 5].
Proof.
  intros m. destruct (list_deque m rt_head (rt_list 5) [rt_list 4]) as [(m' & E & R) _].
  - split; [repeat constructor; set_solver|by vm_compute].
  - set_solver.
  - by eexists.
  - exists m'. split; [exact E|exact R].
Defined.

(** The header of a datagram from 10.0.0.9 to 8.8.8.8, checksum to be filled in. *)
Definition blank_header : list Z := [69; 0; 0; 40; 0; 0; 0; 0; 64; 17; 0; 0; 10; 0; 0; 9; 8; 8; 8; 8].

Lemma checksum_verifies_witness :
  exists c, checksum blank_header 0 = Some c /\ checksum (put 10 (le_encode 2 c) blank_header) 0 = Some 0.
Proof. apply (checksum_verifies blank_header 10); [bytes_of|cbn; lia|reflexivity|cbn; lia|reflexivity]. Defined.

(** A packet with that header in the block at address 9. *)
Definition sample_pkb (csum : Z) : pkbuf :=
  mkPkb 8 PKT_LOCALHOST 60 1 (Some 2) (Some 6)
    (replicate 14 0 ++ put 10 (le_encode 2 csum) blank_header ++ replicate 40 0).

Definition good_csum : Z := default 0 (checksum blank_header 0).

Lemma sample_pkb_bytes c : Forall is_byte (pk_data (sample_pkb c)).
Proof.
  cbn [sample_pkb pk_data]. rewrite !Forall_app. split; [|split].
  - bytes_of.
  - apply Forall_put; [apply le_encode_bytes|bytes_of].
  - bytes_of.
Qed.

Lemma sample_handed_up c : handed_up 9 (sample_pkb c) routed.
Proof. split; [done|apply Nat.leb_le; reflexivity|apply sample_pkb_bytes|by split|done]. Qed.


Lemma sample_forwardable :
  forwardable routed (sample_pkb good_csum) boot_routes 6 default_route.2 tap_dev.
Proof.
  split; [apply Nat.leb_le; reflexivity|apply sample_pkb_bytes|vm_compute; discriminate|vm_compute; reflexivity|
    vm_compute; reflexivity|exact routed_table|done|reflexivity|reflexivity|vm_compute; discriminate].
Qed.

Lemma ip_forward_checksum_witness :
  exists data, ip_forward 9 (at_pkb 9 (sample_pkb good_csum) routed) =
      Ret tt (at_pkb 9 (set_pk_data data (sample_pkb good_csum)) routed) /\
    checksum (header data) 0 <> Some 0.
Proof.
  destruct (ip_forward_checksum routed 9 _ _ _ _ _ sample_forwardable) as (data & E & _ & H).
  exists data. split; [exact E|]. intros F. apply H in F. vm_compute in F. by destruct F.
Defined.

Definition two_frames : list (option (list Z)) :=
  [Some (replicate 12 0 ++ [8; 0] ++ replicate 20 0); None].

Definition run_end : Net := run_to (netdev_init;; recv_interrupt) (net_start calm_net two_frames).

Lemma run_end_returns : (netdev_init;; recv_interrupt) (net_start calm_net two_frames) = Ret tt run_end.
Proof. vm_compute. reflexivity. Qed.

Lemma boot_cache_cold_witness : arp_cache_lookup ETH_P_IP (le_decode my_ip) run_end = Ret None run_end.
Proof. apply (boot_cache_cold _ _ _ run_end_returns). discriminate. Defined.

(** The IP frame is still held when the input ends. *)
Lemma boot_accounted_witness : balance run_end = Z.of_nat (size (pkbs run_end)).
Proof. exact (boot_accounted _ _ _ run_end_returns). Defined.
