(* ===== verification/WtList.v ===== *)
(** The circular lists of the worker threads, [src/workthread/list.h], on the
    same store of links as the lists of the TCP/IP stack. *)

From S2P Require Import Prelude NetList.
#[local] Open Scope Z_scope.

Section WorkList.
Context {A : Type} `{Countable A}.

(** * Operations *)

Definition ListInit (node : A) : prog (Links A) unit :=
  put_next node node;; put_prev node node.

Definition ListAddTail (head item : A) : prog (Links A) unit :=
  put_next item head;;
  p ← get_prev head;
  put_prev item p;;
  p ← get_prev head;
  put_next p item;;
  put_prev head item.

Definition ListAddHead (head item : A) : prog (Links A) unit :=
  n ← get_next head;
  put_next item n;;
  put_prev item head;;
  n ← get_next head;
  put_prev n item;;
  put_next head item.

Definition ListAppend (head1 head2 : A) : prog (Links A) unit :=
  t2 ← get_prev head2;
  put_next t2 head1;;
  f2 ← get_next head2;
  t1 ← get_prev head1;
  put_prev f2 t1;;
  t1 ← get_prev head1;
  f2 ← get_next head2;
  put_next t1 f2;;
  t2 ← get_prev head2;
  put_prev head1 t2;;
  put_prev head2 head2;;
  put_next head2 head2.

(** The swap of the two pointers of [pNode], with its old [next] as the result. *)
Definition swap_links (pNode : A) : prog (Links A) A :=
  pTmp ← get_next pNode;
  p ← get_prev pNode;
  put_next pNode p;;
  put_prev pNode pTmp;;
  mret pTmp.

Fixpoint reverse_loop (fuel : nat) (pNode head : A) : prog (Links A) A :=
  match fuel with
  | O => nofuel
  | S f =>
      n ← get_next pNode;
      if bool_decide (n = head) then mret pNode
      else pTmp ← swap_links pNode; reverse_loop f pTmp head
  end.

(** One round per node of the store is enough. *)
Definition ListReverse (head : A) : prog (Links A) unit :=
  fuel ← gets (fun m : Links A => S (size m));
  pNode ← reverse_loop fuel head head;
  swap_links pNode;;
  mret tt.

Definition ListRemove (item : A) : prog (Links A) unit :=
  n ← get_next item;
  p ← get_prev item;
  put_prev n p;;
  p ← get_prev item;
  n ← get_next item;
  put_next p n.

Definition ListIsEmpty (list : A) : prog (Links A) bool :=
  n ← get_next list; mret (bool_decide (list = n)).

(** The nodes that [ListForEach] visits. *)
Fixpoint visit (fuel : nat) (node list : A) : prog (Links A) (Datatypes.list A) :=
  match fuel with
  | O => nofuel
  | S f =>
      if bool_decide (node = list) then mret []
      else n ← get_next node; r ← visit f n list; mret (node :: r)
  end.

Definition ListForEach (list : A) : prog (Links A) (Datatypes.list A) :=
  fuel ← gets (fun m : Links A => S (size m));
  n ← get_next list;
  visit fuel n list.

(** * Stores as pairs of functions *)

Lemma put_next_upd (m : Links A) x y :
  is_Some (m !! x) ->
  exists m', put_next x y m = Ret tt m' /\ dom m' = dom m /\ (forall z, prv m' z = prv m z) /\
    forall z, nxt m' z = if decide (z = x) then Some y else nxt m z.
Proof.
  intros Hx. destruct (put_next_spec m x y Hx) as (m' & E & N & F & P & D). exists m'.
  split_and!; [done|done|done|]. intros z. case_decide as Hz; [by rewrite Hz|by apply F].
Qed.

Lemma put_prev_upd (m : Links A) x y :
  is_Some (m !! x) ->
  exists m', put_prev x y m = Ret tt m' /\ dom m' = dom m /\ (forall z, nxt m' z = nxt m z) /\
    forall z, prv m' z = if decide (z = x) then Some y else prv m z.
Proof.
  intros Hx. destruct (put_prev_spec m x y Hx) as (m' & E & N & F & P & D). exists m'.
  split_and!; [done|done|done|]. intros z. case_decide as Hz; [by rewrite Hz|by apply F].
Qed.

Lemma ring_prev (m : Links A) head l : ring m (head :: l) -> get_prev head m = Ret (List.last l head) m.
Proof. intros [_ E]. apply get_prev_prv. by destruct (edges_last _ _ _ _ E). Qed.

Lemma get_prev_inv (m : Links A) x y : get_prev x m = Ret y m -> prv m x = Some y.
Proof.
  unfold get_prev, prv. rewrite bind_gets. destruct (m !! x) as [[n [p|]]|]; [|done..]. cbn. by intros [= ->].
Qed.

(** A chain whose end is moved from [b] to [b']. *)
Lemma edges_retarget (m m' : Links A) a l b b' :
  edges m a l b -> NoDup (a :: l) ->
  (forall z, z ∈ a :: l -> z <> List.last l a -> nxt m' z = nxt m z) ->
  nxt m' (List.last l a) = Some b' ->
  (forall z, z ∈ l -> prv m' z = prv m z) -> prv m' b' = Some (List.last l a) ->
  edges m' a l b'.
Proof.
  revert a. induction l as [|x l IH]; intros a E N Hn Hl Hp Hb; [by split|].
  destruct E as [[E1 E2] E]. apply NoDup_cons in N as [Na N]. rewrite last_cons in *.
  split; [split; [rewrite Hn|rewrite Hp]; (done || set_solver || idtac)|].
  - intros ->. apply Na, last_elem.
  - apply IH; try done; intros z Hz; [intros Hzl; apply Hn|apply Hp]; (done || set_solver).
Qed.

(** A chain whose start is moved from [a] to [a']. *)
Lemma edges_resource (m m' : Links A) a a' l b :
  edges m a l b -> NoDup (l ++ [b]) -> nxt m' a' = Some (List.hd b l) -> prv m' (List.hd b l) = Some a' ->
  (forall z, z ∈ l -> nxt m' z = nxt m z) ->
  (forall z, z ∈ l ++ [b] -> z <> List.hd b l -> prv m' z = prv m z) -> edges m' a' l b.
Proof.
  intros E N Hn Hp Hnz Hpz. destruct l as [|x l]; [by split|]. destruct E as [_ E]. split; [by split|].
  simpl in *. apply NoDup_cons in N as [Nx _].
  eapply edges_ext; [exact E|done|]. intros z Hz. apply Hpz; [set_solver|]. by intros ->.
Qed.

Lemma is_Some_ring (m m' : Links A) l x : dom m' = dom m -> ring m l -> x ∈ l -> is_Some (m' !! x).
Proof. intros D R Hx. eapply is_Some_dom; [exact D|]. by eapply ring_dom. Qed.

Ltac dom_eq := repeat match goal with D : dom ?x = _ |- dom ?x = _ => rewrite D end; reflexivity.

(** [decide] on the nodes of a rewritten store. *)
Ltac nodes :=
  repeat match goal with
  | H : forall _ : A, _ |- _ => clear H
  | H : _ = Ret _ _ |- _ => clear H
  | H : edges _ _ _ _ |- _ => clear H
  | H : ring _ _ |- _ => clear H
  | H : dom _ = dom _ |- _ => clear H
  end;
  repeat case_decide; try done; try congruence; set_solver.

(** * What the operations do to circular lists *)

(** [ListInit] makes a list of one node. *)
Lemma ListInit_ring (m : Links A) node :
  is_Some (m !! node) -> exists m', ListInit node m = Ret tt m' /\ ring m' [node] /\ dom m' = dom m.
Proof.
  intros Hx. destruct (list_init_ring m node Hx) as (m' & E & R & D & _). by exists m'.
Qed.

Lemma ListAddTail_ring (m : Links A) head item l :
  ring m (head :: l) -> item ∉ head :: l -> is_Some (m !! item) ->
  exists m', ListAddTail head item m = Ret tt m' /\ ring m' (head :: l ++ [item]) /\ dom m' = dom m.
Proof.
  intros R Hi Hs. pose proof (ring_prev m head l R) as P0. pose proof R as [N E].
  pose proof (last_elem head l) as Lt. set (t := List.last l head) in *.
  destruct (put_next_upd m item head Hs) as (m1 & R1 & D1 & P1 & N1).
  destruct (put_prev_upd m1 item t (is_Some_dom _ _ _ D1 Hs)) as (m2 & R2 & D2 & N2 & P2).
  destruct (put_next_upd m2 t item (is_Some_ring m m2 _ t ltac:(dom_eq) R Lt)) as (m3 & R3 & D3 & P3 & N3).
  destruct (put_prev_upd m3 head item (is_Some_ring m m3 _ head ltac:(dom_eq) R ltac:(set_solver)))
    as (m4 & R4 & D4 & N4 & P4).
  assert (prv m head = Some t) as Pt by (by destruct (edges_last _ _ _ _ E)).
  exists m4. unfold ListAddTail. step R1.
  step (get_prev_prv m1 head t ltac:(by rewrite P1)). step R2.
  step (get_prev_prv m2 head t ltac:(rewrite P2, P1; nodes)). step R3.
  split_and!; [exact R4| |dom_eq]. split.
  { by rewrite app_comm_cons, Permutation_app_comm; constructor. }
  apply edges_app. split.
  - eapply edges_retarget; [exact E|done|..]; fold t.
    + intros z Hz Hzt. rewrite N4, N3, N2, N1. nodes.
    + rewrite N4, N3. nodes.
    + intros z Hz. apply NoDup_cons in N as [Nh _]. rewrite P4, P3, P2, P1. nodes.
    + rewrite P4, P3, P2. nodes.
  - split; [rewrite N4, N3, N2, N1; nodes|rewrite P4; nodes].
Qed.

Lemma ListAddHead_ring (m : Links A) head item l :
  ring m (head :: l) -> item ∉ head :: l -> is_Some (m !! item) ->
  exists m', ListAddHead head item m = Ret tt m' /\ ring m' (head :: item :: l) /\ dom m' = dom m.
Proof.
  intros R Hi Hs. pose proof R as [N E]. set (n := List.hd head l).
  assert (nxt m head = Some n) as Nx by (destruct l; [by destruct E|by destruct E as [[]]]).
  assert (n ∈ head :: l) as Hn by (subst n; destruct l; set_solver).
  destruct (put_next_upd m item n Hs) as (m1 & R1 & D1 & P1 & N1).
  destruct (put_prev_upd m1 item head (is_Some_dom _ _ _ D1 Hs)) as (m2 & R2 & D2 & N2 & P2).
  destruct (put_prev_upd m2 n item (is_Some_ring m m2 _ n ltac:(dom_eq) R Hn)) as (m3 & R3 & D3 & N3 & P3).
  destruct (put_next_upd m3 head item (is_Some_ring m m3 _ head ltac:(dom_eq) R ltac:(set_solver)))
    as (m4 & R4 & D4 & P4 & N4).
  exists m4. unfold ListAddHead. step (get_next_nxt m head n Nx). step R1. step R2.
  step (get_next_nxt m2 head n ltac:(rewrite N2, N1; nodes)). step R3.
  split_and!; [exact R4| |dom_eq]. apply NoDup_cons in N as [Nh N]. split.
  { apply NoDup_cons. split; [set_solver|]. apply NoDup_cons. set_solver. }
  split; [split; [rewrite N4; nodes|rewrite P4, P3, P2; nodes]|].
  eapply edges_resource; [exact E| |..]; fold n.
  - rewrite Permutation_app_comm. by constructor.
  - rewrite N4, N3, N2, N1. nodes.
  - rewrite P4, P3. nodes.
  - intros z Hz. rewrite N4, N3, N2, N1. nodes.
  - intros z Hz Hzn. rewrite P4, P3, P2, P1. nodes.
Qed.

Lemma ListRemove_ring (m : Links A) item l :
  ring m (item :: l) -> l <> [] ->
  exists m', ListRemove item m = Ret tt m' /\ ring m' l /\ dom m' = dom m.
Proof.
  intros R Hl. pose proof (ring_prev m item l R) as Pt. apply (get_prev_inv) in Pt.
  destruct l as [|x l]; [done|]. pose proof R as [N [[Nx Px] E]]. rewrite last_cons in Pt.
  pose proof (last_elem x l) as Lt. set (t := List.last l x) in *.
  apply NoDup_cons in N as [Ni N].
  destruct (put_prev_upd m x t (is_Some_ring m m _ x eq_refl R ltac:(set_solver))) as (m1 & R1 & D1 & N1 & P1).
  destruct (put_next_upd m1 t x (is_Some_ring m m1 _ t D1 R ltac:(set_solver))) as (m2 & R2 & D2 & P2 & N2).
  exists m2. unfold ListRemove. step (get_next_nxt m item x Nx). step (get_prev_prv m item t Pt). step R1.
  step (get_prev_prv m1 item t ltac:(rewrite P1, Pt; nodes)). step (get_next_nxt m1 item x ltac:(by rewrite N1)).
  split_and!; [exact R2| |dom_eq]. split; [done|].
  eapply edges_retarget; [exact E|done|..]; fold t.
  - intros z Hz Hzt. rewrite N2, N1. nodes.
  - rewrite N2. nodes.
  - intros z Hz. apply NoDup_cons in N as [Nx' N]. rewrite P2, P1. nodes.
  - rewrite P2, P1. nodes.
Qed.

(** Appending a list with elements moves them all, and leaves the other empty. *)
Lemma ListAppend_ring (m : Links A) h1 l1 h2 f l2 :
  ring m (h1 :: l1) -> ring m (h2 :: f :: l2) -> (forall x, x ∈ h1 :: l1 -> x ∉ h2 :: f :: l2) ->
  exists m', ListAppend h1 h2 m = Ret tt m' /\ ring m' (h1 :: l1 ++ f :: l2) /\ ring m' [h2].
Proof.
  intros Ra Rb Hd. pose proof (ring_prev m h1 l1 Ra) as Pa. apply get_prev_inv in Pa.
  pose proof (ring_prev m h2 (f :: l2) Rb) as Pb. apply get_prev_inv in Pb. rewrite last_cons in Pb.
  pose proof Ra as [Na Ea]. pose proof Rb as [Nb [[Nf Pf] Eb]].
  pose proof (last_elem h1 l1) as La. pose proof (last_elem f l2) as Lb.
  set (ta := List.last l1 h1) in *. set (tb := List.last l2 f) in *.
  assert (tb ∈ h2 :: f :: l2) as Lb' by set_solver.
  apply NoDup_cons in Nb as [Nh Nb].
  assert (tb <> h2) as Hth by (intros E; by rewrite E in Lb).
  assert (h1 <> h2 /\ h1 <> f /\ h1 <> tb /\ ta <> h2 /\ ta <> f /\ ta <> tb /\ f <> h2) as (? & ? & ? & ? & ? & ? & ?).
  { assert (forall x y, x ∈ h1 :: l1 -> y ∈ h2 :: f :: l2 -> x <> y) as Hne
      by (intros x y Hx Hy ->; by apply (Hd y)).
    assert (f ∈ h2 :: f :: l2 /\ h2 ∈ h2 :: f :: l2 /\ h1 ∈ h1 :: l1) as (Mf & M2 & M1)
      by (rewrite !elem_of_cons; auto).
    split_and!; try (by apply Hne). intros ->. apply Nh, elem_of_cons. by left. }
  destruct (put_next_upd m tb h1 (is_Some_ring m m _ tb eq_refl Rb Lb')) as (m1 & R1 & D1 & P1 & N1).
  destruct (put_prev_upd m1 f ta (is_Some_ring m m1 _ f ltac:(dom_eq) Rb ltac:(set_solver))) as (m2 & R2 & D2 & N2 & P2).
  destruct (put_next_upd m2 ta f (is_Some_ring m m2 _ ta ltac:(dom_eq) Ra La)) as (m3 & R3 & D3 & P3 & N3).
  destruct (put_prev_upd m3 h1 tb (is_Some_ring m m3 _ h1 ltac:(dom_eq) Ra ltac:(set_solver))) as (m4 & R4 & D4 & N4 & P4).
  destruct (put_prev_upd m4 h2 h2 (is_Some_ring m m4 _ h2 ltac:(dom_eq) Rb ltac:(set_solver))) as (m5 & R5 & D5 & N5 & P5).
  destruct (put_next_upd m5 h2 h2 (is_Some_ring m m5 _ h2 ltac:(dom_eq) Rb ltac:(set_solver))) as (m6 & R6 & D6 & P6 & N6).
  exists m6. unfold ListAppend. step (get_prev_prv m h2 tb Pb). step R1.
  step (get_next_nxt m1 h2 f ltac:(rewrite N1, Nf; nodes)). step (get_prev_prv m1 h1 ta ltac:(by rewrite P1)). step R2.
  step (get_prev_prv m2 h1 ta ltac:(rewrite P2, P1, Pa; nodes)).
  step (get_next_nxt m2 h2 f ltac:(rewrite N2, N1, Nf; nodes)). step R3.
  step (get_prev_prv m3 h2 tb ltac:(rewrite P3, P2, P1, Pb; nodes)). step R4. step R5.
  split_and!; [exact R6| |].
  2: { split; [apply NoDup_singleton|]. split; [rewrite N6|rewrite P6, P5]; nodes. }
  split.
  { rewrite app_comm_cons. apply NoDup_app. split_and!; [done| |done].
    intros x Hx Hxl. apply (Hd x Hx). set_solver. }
  apply edges_app. split.
  - eapply edges_retarget; [exact Ea|done|..]; fold ta.
    + intros z Hz Hzt. pose proof (Hd z Hz). rewrite N6, N5, N4, N3, N2, N1. nodes.
    + rewrite N6, N5, N4, N3. nodes.
    + intros z Hz. pose proof (Hd z ltac:(set_solver)). apply NoDup_cons in Na as [Nah _].
      rewrite P6, P5, P4, P3, P2, P1. nodes.
    + rewrite P6, P5, P4, P3, P2. nodes.
  - eapply edges_retarget; [exact Eb|done|..]; fold tb.
    + intros z Hz Hzt. assert (z <> ta) by (intros ->; apply (Hd ta La); set_solver).
      rewrite N6, N5, N4, N3, N2, N1. nodes.
    + rewrite N6, N5, N4, N3, N2, N1. nodes.
    + intros z Hz. apply NoDup_cons in Nb as [Nfl _].
      assert (z <> h1) by (intros ->; apply (Hd h1); set_solver).
      rewrite P6, P5, P4, P3, P2, P1. nodes.
    + rewrite P6, P5, P4. nodes.
Qed.

(** * Reversal *)

Lemma swap_links_upd (m : Links A) a n q :
  nxt m a = Some n -> prv m a = Some q ->
  exists m', swap_links a m = Ret n m' /\ dom m' = dom m /\
    (forall z, nxt m' z = if decide (z = a) then prv m z else nxt m z) /\
    (forall z, prv m' z = if decide (z = a) then nxt m z else prv m z).
Proof.
  intros Hn Hq. destruct (put_next_upd m a q (nxt_is_Some _ _ _ Hn)) as (m1 & R1 & D1 & P1 & N1).
  destruct (put_prev_upd m1 a n (is_Some_dom _ _ _ D1 (nxt_is_Some _ _ _ Hn))) as (m2 & R2 & D2 & N2 & P2).
  exists m2. unfold swap_links. step (get_next_nxt m a n Hn). step (get_prev_prv m a q Hq). step R1. step R2.
  split_and!; [done|dom_eq|..]; intros z.
  - rewrite N2, N1. case_decide as E; [by rewrite E, Hq|done].
  - rewrite P2, P1. case_decide as E; [by rewrite E, Hn|done].
Qed.

(** The nodes [a], then those of [l], then [b] in the direction of [next]. *)
Fixpoint forward (m : Links A) a l b : Prop :=
  match l with [] => nxt m a = Some b | x :: l => nxt m a = Some x /\ forward m x l b end.

Lemma edges_forward (m : Links A) a l b : edges m a l b -> forward m a l b.
Proof. revert a. induction l as [|x l IH]; intros a; [by intros [? _]|]. intros [[? _] E]. split; [done|by apply IH]. Qed.

Lemma forward_ext (m m' : Links A) a l b :
  forward m a l b -> (forall z, z ∈ a :: l -> nxt m' z = nxt m z) -> forward m' a l b.
Proof.
  revert a. induction l as [|x l IH]; intros a F Hn; cbn in *; [by rewrite Hn by set_solver|].
  destruct F as [F1 F2]. split; [by rewrite Hn by set_solver|]. apply IH; [done|]. intros z Hz. apply Hn. set_solver.
Qed.

(** The loop and the last swap exchange the pointers of every node. *)
Lemma reverse_loop_swaps f a r head (m : Links A) :
  forward m a r head -> NoDup (a :: r) -> head ∉ r ->
  (forall z, z ∈ a :: r -> is_Some (prv m z)) -> (length r < f)%nat ->
  exists m', (b ← reverse_loop f a head; swap_links b;; mret tt) m = Ret tt m' /\ dom m' = dom m /\
    forall z, (z ∈ a :: r -> nxt m' z = prv m z /\ prv m' z = nxt m z) /\
              (z ∉ a :: r -> nxt m' z = nxt m z /\ prv m' z = prv m z).
Proof.
  revert a m f. induction r as [|x r IH]; intros a m f F N Hh Hp Hf; (destruct f as [|f]; [simpl in Hf; lia|]);
    destruct (Hp a ltac:(set_solver)) as [q Hq]; cbn [reverse_loop]; rewrite bind_assoc.
  - cbn in F. step (get_next_nxt m a head F). rewrite bool_decide_eq_true_2 by done. rewrite bind_mret.
    destruct (swap_links_upd m a head q F Hq) as (m' & E & D & Nz & Pz). step E.
    exists m'. split_and!; [done|done|]. intros z. rewrite Nz, Pz.
    split; intros Hz; case_decide as E'; try done; set_solver.
  - destruct F as [Fa F]. step (get_next_nxt m a x Fa).
    rewrite bool_decide_eq_false_2 by set_solver.
    destruct (swap_links_upd m a x q Fa Hq) as (m1 & E & D & Nz & Pz). rewrite bind_assoc. step E.
    apply NoDup_cons in N as [Na N].
    destruct (IH x m1 f) as (m' & E' & D' & Hz).
    + eapply forward_ext; [exact F|]. intros z Hz. rewrite Nz. case_decide; [by subst|done].
    + done.
    + set_solver.
    + intros z Hz. rewrite Pz. case_decide as Ez; [by subst|]. apply Hp. set_solver.
    + simpl in Hf. lia.
    + exists m'. split_and!; [exact E'|dom_eq|]. intros z. destruct (Hz z) as [H1 H2].
      rewrite Nz, Pz in H1, H2. split; intros Hin.
      * case_decide as Ez; [subst; by apply H2|]. apply H1. set_solver.
      * rewrite decide_False in H2 by set_solver. rewrite decide_False in H2 by set_solver. apply H2. set_solver.
Qed.

Lemma edges_swapped (m m' : Links A) a l b :
  edges m a l b -> (forall z, z ∈ a :: l ++ [b] -> nxt m' z = prv m z /\ prv m' z = nxt m z) ->
  edges m' b (rev l) a.
Proof.
  revert a. induction l as [|x l IH]; intros a E Hz.
  - destruct E as [E1 E2]. split; [by rewrite (proj1 (Hz b ltac:(set_solver)))|by rewrite (proj2 (Hz a ltac:(set_solver)))].
  - destruct E as [[E1 E2] E]. cbn [rev]. apply edges_app. split; [apply IH; [done|]; intros z Hin; apply Hz; set_solver|].
    split; [by rewrite (proj1 (Hz x ltac:(set_solver)))|by rewrite (proj2 (Hz a ltac:(set_solver)))].
Qed.

Lemma ListReverse_ring (m : Links A) head l :
  ring m (head :: l) -> exists m', ListReverse head m = Ret tt m' /\ ring m' (head :: rev l).
Proof.
  intros R. pose proof R as [N E]. pose proof (ring_size m _ R) as Hs. cbn [length] in Hs.
  assert (forall z, z ∈ head :: l -> is_Some (prv m z)) as Hp.
  { intros z Hz. apply list_elem_of_split in Hz as (l1 & l2 & El). rewrite El in R.
    apply ring_rotate in R. pose proof (ring_prev m z (l2 ++ l1) R) as P. apply get_prev_inv in P. by eexists. }
  destruct (reverse_loop_swaps (S (size m)) head l head m) as (m' & Em & _ & Hz);
    [by apply edges_forward|done|by apply NoDup_cons in N as [? _]|done|lia|].
  exists m'. unfold ListReverse. rewrite bind_gets. split; [exact Em|].
  apply NoDup_cons in N as [Nh N]. split.
  - rewrite <- (Permutation_rev l). by constructor.
  - eapply edges_swapped; [exact E|]. intros z Hin. apply (Hz z). set_solver.
Qed.

(** * Traversal *)

Lemma visit_forward f (m : Links A) a l head :
  forward m a l head -> head ∉ l -> (length l < f)%nat -> visit f (List.hd head l) head m = Ret l m.
Proof.
  revert a f. induction l as [|x l IH]; intros a f F Hh Hf; (destruct f as [|f]; [simpl in Hf; lia|]); cbn [visit List.hd].
  - by rewrite bool_decide_eq_true_2.
  - rewrite bool_decide_eq_false_2 by set_solver. destruct F as [_ F].
    step (get_next_nxt m x (List.hd head l) ltac:(by destruct l as [|y l]; [|destruct F])).
    by step (IH x f F ltac:(set_solver) ltac:(simpl in Hf; lia)).
Qed.

Lemma ListForEach_forward (m : Links A) head l :
  forward m head l head -> head ∉ l -> (length l <= size m)%nat -> ListForEach head m = Ret l m.
Proof.
  intros F Hh Hs. unfold ListForEach. rewrite bind_gets.
  step (get_next_nxt m head (List.hd head l) ltac:(by destruct l as [|y l]; [|destruct F])).
  apply (visit_forward _ m head); [done|done|lia].
Qed.

Lemma ListForEach_ring (m : Links A) head l : ring m (head :: l) -> ListForEach head m = Ret l m.
Proof.
  intros R. pose proof (ring_size m _ R) as Hs. destruct R as [N E]. apply NoDup_cons in N as [Nh N].
  apply ListForEach_forward; [by apply edges_forward|done|simpl in Hs; lia].
Qed.

(** Appending an empty list leaves the [prev] of the first list at the head of the
    second: an element added to the tail afterwards is linked there, and a
    traversal of the list does not meet it. *)
Lemma append_empty_loses (m : Links A) h1 l1 h2 x :
  ring m (h1 :: l1) -> ring m [h2] -> h2 ∉ h1 :: l1 -> is_Some (m !! x) -> x ∉ h2 :: h1 :: l1 ->
  exists m', (ListAppend h1 h2;; ListAddTail h1 x) m = Ret tt m' /\ ListForEach h1 m' = Ret l1 m'.
Proof.
  intros Ra Rb Hd Hx Hxn. pose proof (ring_prev m h1 l1 Ra) as Pa. apply get_prev_inv in Pa.
  pose proof Ra as [Na Ea]. destruct Rb as [_ [Nb Pb]]. pose proof (last_elem h1 l1) as La.
  pose proof (edges_forward _ _ _ _ Ea) as F. pose proof (ring_size m _ Ra) as Hs. cbn [length] in Hs.
  set (ta := List.last l1 h1) in *.
  assert (nxt m ta = Some h1) as Nta.
  { unfold ta. destruct (decide (l1 = [])) as [->|Hl]; [by destruct Ea|].
    destruct (exists_last Hl) as (l' & q & El). rewrite El. rewrite List.last_last.
    rewrite El in Ea. apply edges_app in Ea as [_ [? _]]. done. }
  assert (h1 <> h2 /\ ta <> h2 /\ x <> h1 /\ x <> h2 /\ x <> ta) as (? & ? & ? & ? & ?) by (split_and!; set_solver).
  assert (is_Some (m !! h2)) as S2 by (by eapply nxt_is_Some).
  assert (is_Some (m !! h1)) as S1 by (by eapply prv_is_Some).
  assert (is_Some (m !! ta)) as St by (by eapply nxt_is_Some).
  destruct (put_next_upd m h2 h1 S2) as (m1 & R1 & D1 & P1 & N1).
  destruct (put_prev_upd m1 h1 ta (is_Some_dom m m1 _ ltac:(dom_eq) S1)) as (m2 & R2 & D2 & N2 & P2).
  destruct (put_next_upd m2 ta h1 (is_Some_dom m m2 _ ltac:(dom_eq) St)) as (m3 & R3 & D3 & P3 & N3).
  destruct (put_prev_upd m3 h1 h2 (is_Some_dom m m3 _ ltac:(dom_eq) S1)) as (m4 & R4 & D4 & N4 & P4).
  destruct (put_prev_upd m4 h2 h2 (is_Some_dom m m4 _ ltac:(dom_eq) S2)) as (m5 & R5 & D5 & N5 & P5).
  destruct (put_next_upd m5 h2 h2 (is_Some_dom m m5 _ ltac:(dom_eq) S2)) as (m6 & R6 & D6 & P6 & N6).
  assert (ListAppend h1 h2 m = Ret tt m6) as E1.
  { unfold ListAppend. step (get_prev_prv m h2 h2 Pb). step R1.
    step (get_next_nxt m1 h2 h1 ltac:(rewrite N1; nodes)). step (get_prev_prv m1 h1 ta ltac:(by rewrite P1)). step R2.
    step (get_prev_prv m2 h1 ta ltac:(rewrite P2; nodes)). step (get_next_nxt m2 h2 h1 ltac:(rewrite N2, N1; nodes)).
    step R3. step (get_prev_prv m3 h2 h2 ltac:(rewrite P3, P2, P1, Pb; nodes)). step R4. by step R5. }
  step E1.
  destruct (put_next_upd m6 x h1 (is_Some_dom m m6 _ ltac:(dom_eq) Hx)) as (m7 & R7 & D7 & P7 & N7).
  destruct (put_prev_upd m7 x h2 (is_Some_dom m m7 _ ltac:(dom_eq) Hx)) as (m8 & R8 & D8 & N8 & P8).
  destruct (put_next_upd m8 h2 x (is_Some_dom m m8 _ ltac:(dom_eq) S2)) as (m9 & R9 & D9 & P9 & N9).
  destruct (put_prev_upd m9 h1 x (is_Some_dom m m9 _ ltac:(dom_eq) S1)) as (m10 & R10 & D10 & N10 & P10).
  exists m10. split.
  { unfold ListAddTail. step R7. step (get_prev_prv m7 h1 h2 ltac:(rewrite P7, P6, P5, P4; nodes)). step R8.
    step (get_prev_prv m8 h1 h2 ltac:(rewrite P8, P7, P6, P5, P4; nodes)). step R9. exact R10. }
  apply NoDup_cons in Na as [Nh _]. apply ListForEach_forward; [|done|].
  - eapply forward_ext; [exact F|]. intros z Hz. assert (z <> x /\ z <> h2) as [? ?] by (split; set_solver).
    rewrite N10, N9, N8, N7, N6, N5, N4, N3, N2, N1. rewrite !(decide_False (P := z = x)), !(decide_False (P := z = h2)) by done.
    case_decide as E; [by rewrite E|done].
  - assert (dom m10 = dom m) as D by dom_eq. rewrite <- (size_dom m10), D, size_dom. lia.
Qed.

(** On a store that holds the ring of a head and its elements, a new element is
    added at either end, an element at any place is removed, the list is
    reversed, a non-empty second list is moved behind it, and [ListForEach] meets the
    elements in order: the list operations are those on sequences. *)
Theorem work_list_ops (m : Links A) head l :
  ring m (head :: l) ->
  (forall x, x ∉ head :: l -> is_Some (m !! x) ->
     (exists m', ListAddTail head x m = Ret tt m' /\ ring m' (head :: l ++ [x])) /\
     (exists m', ListAddHead head x m = Ret tt m' /\ ring m' (head :: x :: l))) /\
  (forall l1 x l2, l = l1 ++ x :: l2 -> exists m', ListRemove x m = Ret tt m' /\ ring m' (head :: l1 ++ l2)) /\
  (exists m', ListReverse head m = Ret tt m' /\ ring m' (head :: rev l)) /\
  (forall h2 f l2, ring m (h2 :: f :: l2) -> (forall x, x ∈ head :: l -> x ∉ h2 :: f :: l2) ->
     exists m', ListAppend head h2 m = Ret tt m' /\ ring m' (head :: l ++ f :: l2) /\ ring m' [h2]) /\
  ListForEach head m = Ret l m.
Proof.
  intros R. split_and!.
  - intros x Hx Hs. destruct (ListAddTail_ring m head x l R Hx Hs) as (m1 & E1 & R1 & _).
    destruct (ListAddHead_ring m head x l R Hx Hs) as (m2 & E2 & R2 & _). split; by eexists.
  - intros l1 x l2 ->. apply (ring_rotate m (head :: l1)) in R.
    destruct (ListRemove_ring m x _ R) as (m' & E & R' & _); [by destruct l2|].
    exists m'. split; [done|]. by apply (ring_rotate m' l2 (head :: l1)).
  - by apply ListReverse_ring.
  - intros h2 f l2 R2 Hd. by apply ListAppend_ring.
  - by apply ListForEach_ring.
Qed.
End WorkList.

Lemma work_list_ops_witness :
  let m : Links nat := list_to_map [(0, (Some 1, Some 2)); (1, (Some 2, Some 0)); (2, (Some 0, Some 1))]%nat in
  (exists m', ListReverse 0%nat m = Ret tt m' /\ ring m' [0; 2; 1]%nat) /\ ListForEach 0%nat m = Ret [1; 2]%nat m.
Proof.
  intros m. destruct (work_list_ops m 0%nat [1; 2]%nat) as (_ & _ & H & _ & F).
  - split; [repeat constructor; set_solver|by vm_compute].
  - exact (conj H F).
Defined.
