(* ===== verification/WtPause.v ===== *)
(** Pausing and resuming a worker thread: [src/workthread/bsem.h], [workerHold],
    [workerPause] and [workerResume] of [workThread.c], as a transition system of
    the worker and the one thread that controls it.

    A transition is one statement of the source.  The mutex, the condition
    variable and the signal are the POSIX ones: a lock waits until the mutex is
    free, [pthread_cond_wait] gives the mutex back and sleeps in one transition and
    may wake up without a reason, a second SIGUSR1 merges with a pending one, and
    SIGUSR1 is blocked while its handler runs.  Initialising a mutex that is free,
    or a condition variable nobody sleeps on, gives a fresh one; initialising a
    mutex that is locked, or a condition variable somebody sleeps on, is
    undefined: the state is [broken] from then on.  The worker is registered and
    runs the user's function: [WtThread] models how it gets there and leaves. *)

From S2P Require Import Prelude.
#[local] Open Scope Z_scope.

(** * The system *)

Inductive who := Worker | Control.
#[global] Instance who_eq_dec : EqDecision who.
Proof. solve_decision. Defined.

(** Where the worker is: in the user's function, or at a statement of [bsem_wait]
    called from the handler [workerHold]. *)
Inductive worker_pc := W_user | W_lock | W_test | W_asleep | W_relock | W_decr | W_unlock.
#[global] Instance worker_pc_eq_dec : EqDecision worker_pc.
Proof. solve_decision. Defined.

(** Where the controlling thread is: outside, in [workerPause] behind the two
    initialisations of [bsem_reset], or at a statement of [bsem_post]. *)
Inductive control_pc := C_idle | C_zero | C_kill | C_lock | C_incr | C_signal | C_post_unlock.
#[global] Instance control_pc_eq_dec : EqDecision control_pc.
Proof. solve_decision. Defined.

Record bsem := mkBsem { v : Z; mutex : option who }.

Record Sys := mkSys {
  sem : bsem;
  work : worker_pc;
  ctl : control_pc;
  pending_usr1 : bool;
  ticks : nat;      (* steps of the user's function *)
  broken : bool
}.

Definition set_v (x : Z) (s : Sys) : Sys :=
  mkSys (mkBsem x (mutex (sem s))) (work s) (ctl s) (pending_usr1 s) (ticks s) (broken s).
Definition set_mutex (x : option who) (s : Sys) : Sys :=
  mkSys (mkBsem (v (sem s)) x) (work s) (ctl s) (pending_usr1 s) (ticks s) (broken s).
Definition set_work (x : worker_pc) (s : Sys) : Sys :=
  mkSys (sem s) x (ctl s) (pending_usr1 s) (ticks s) (broken s).
Definition set_ctl (x : control_pc) (s : Sys) : Sys :=
  mkSys (sem s) (work s) x (pending_usr1 s) (ticks s) (broken s).
Definition set_pending (x : bool) (s : Sys) : Sys :=
  mkSys (sem s) (work s) (ctl s) x (ticks s) (broken s).
Definition set_ticks (x : nat) (s : Sys) : Sys :=
  mkSys (sem s) (work s) (ctl s) (pending_usr1 s) x (broken s).
Definition set_broken (s : Sys) : Sys :=
  mkSys (sem s) (work s) (ctl s) (pending_usr1 s) (ticks s) true.

(** [workerCreate] leaves the semaphore at 1. *)
Definition bsem_init (value : Z) : option bsem := if value <? 0 then None else Some (mkBsem value None).
Definition sys_start : Sys := mkSys (mkBsem 1 None) W_user C_idle false 0 false.

Lemma sys_start_init : bsem_init 1 = Some (sem sys_start).
Proof. done. Qed.

(** [pthread_mutex_lock]: no transition while the mutex is held. *)
Definition lock (t : who) (s : Sys) : option Sys :=
  match mutex (sem s) with None => Some (set_mutex (Some t) s) | Some _ => None end.
Definition unlock (s : Sys) : Sys := set_mutex None s.

(** The next statement of [bsem_wait]; [None] when the thread is not in it or cannot go on. *)
Definition bsem_wait (s : Sys) : option Sys :=
  match work s with
  | W_user | W_asleep => None
  | W_lock | W_relock => set_work W_test <$> lock Worker s
  | W_test => Some (if v (sem s) =? 0 then set_work W_asleep (unlock s) else set_work W_decr s)
  | W_decr => Some (set_work W_unlock (set_v (v (sem s) - 1) s))
  | W_unlock => Some (set_work W_user (unlock s))
  end.

(** The two initialisations at the start of [bsem_reset], which is [bsem_init (b, 0)]. *)
Definition bsem_reset (s : Sys) : Sys :=
  let s' := set_ctl C_zero (set_mutex None s) in
  if bool_decide (mutex (sem s) = None) && negb (bool_decide (work s = W_asleep)) then s' else set_broken s'.

(** The next statement of the controlling thread in the function it has called. *)
Definition control_step (s : Sys) : option Sys :=
  match ctl s with
  | C_idle => None
  | C_zero => Some (set_ctl C_kill (set_v 0 s))
  | C_kill => Some (set_ctl C_idle (set_pending true s))
  | C_lock => set_ctl C_incr <$> lock Control s
  | C_incr => Some (set_ctl C_signal (set_v (v (sem s) + 1) s))
  | C_signal => Some (set_ctl C_post_unlock (if bool_decide (work s = W_asleep) then set_work W_relock s else s))
  | C_post_unlock => Some (set_ctl C_idle (unlock s))
  end.

Inductive action :=
| Tick            (* a step of the user's function *)
| Deliver         (* SIGUSR1 interrupts it: workerHold starts *)
| Wait            (* the next statement of bsem_wait *)
| Spurious        (* pthread_cond_wait returns without a signal *)
| Pause           (* workerPause is called *)
| Resume          (* workerResume is called *)
| Go.             (* the next statement of what was called *)
#[global] Instance action_eq_dec : EqDecision action.
Proof. solve_decision. Defined.

Definition guard_state (b : bool) (s : Sys) : option Sys := if b then Some s else None.

Definition exec (a : action) (s : Sys) : option Sys :=
  if broken s then None else
  match a with
  | Tick => guard_state (bool_decide (work s = W_user)) (set_ticks (S (ticks s)) s)
  | Deliver => guard_state (bool_decide (work s = W_user) && pending_usr1 s) (set_pending false (set_work W_lock s))
  | Wait => bsem_wait s
  | Spurious => guard_state (bool_decide (work s = W_asleep)) (set_work W_relock s)
  | Pause => guard_state (bool_decide (ctl s = C_idle)) (bsem_reset s)
  | Resume => guard_state (bool_decide (ctl s = C_idle)) (set_ctl C_lock s)
  | Go => control_step s
  end.

Fixpoint run (l : list action) (s : Sys) : option Sys :=
  match l with [] => Some s | a :: l => s' ← exec a s; run l s' end.

(** The states that some interleaving leads to. *)
Inductive reachable : Sys -> Prop :=
| reach_start : reachable sys_start
| reach_step s a s' : reachable s -> exec a s = Some s' -> reachable s'.

Lemma run_app l1 l2 s : run (l1 ++ l2) s = (s' ← run l1 s; run l2 s').
Proof. revert s. induction l1 as [|a l1 IH]; intros s; [done|]. cbn. destruct (exec a s); [apply IH|done]. Qed.

Lemma run_reachable l s s' : reachable s -> run l s = Some s' -> reachable s'.
Proof.
  revert s. induction l as [|a l IH]; intros s R E; cbn in E; [by injection E as <-|].
  destruct (exec a s) as [t|] eqn:Ea; [|done]. apply (IH t); [by eapply reach_step|done].
Qed.

(** What is kept by every transition is kept by every run. *)
Lemma run_invariant (P : Sys -> Prop) (ok : action -> Prop) :
  (forall s a s', P s -> ok a -> exec a s = Some s' -> P s') ->
  forall l s s', P s -> Forall ok l -> run l s = Some s' -> P s'.
Proof.
  intros Hstep l. induction l as [|a l IH]; intros s s' Hs Hl E; cbn in E; [by injection E as <-|].
  apply Forall_cons in Hl as [Ha Hl]. destruct (exec a s) as [t|] eqn:Ea; [|done].
  apply (IH t s'); [by eapply Hstep|done|done].
Qed.

(** Case analysis of one transition. *)
Ltac transition E :=
  unfold exec, guard_state, bsem_wait, control_step, bsem_reset, lock, unlock in E; cbn in E;
  repeat match type of E with
  | context [match ?x with _ => _ end] => destruct x eqn:?; cbn in E; try discriminate E
  end;
  repeat match goal with
  | H : bool_decide _ = true |- _ => apply bool_decide_eq_true in H
  | H : bool_decide _ = false |- _ => apply bool_decide_eq_false in H
  | H : _ && _ = true |- _ => apply andb_true_iff in H as [? ?]
  end;
  try (injection E as E); subst; cbn in *; subst; try discriminate.

(** * Who holds the mutex, and no wakeup is lost *)

Definition in_wait (w : worker_pc) : Prop := w = W_test \/ w = W_decr \/ w = W_unlock.
Definition in_post (c : control_pc) : Prop := c = C_incr \/ c = C_signal \/ c = C_post_unlock.

Definition sound (s : Sys) : Prop :=
  (mutex (sem s) = Some Worker <-> in_wait (work s)) /\
  (mutex (sem s) = Some Control <-> in_post (ctl s)) /\
  (work s = W_asleep -> v (sem s) = 0 \/ (v (sem s) = 1 /\ ctl s = C_signal)).

Ltac sys :=
  unfold sound, in_wait, in_post in *; cbn in *;
  repeat match goal with H : _ =? _ = true |- _ => apply Z.eqb_eq in H | H : _ =? _ = false |- _ => apply Z.eqb_neq in H end;
  intuition (try congruence; try discriminate; try lia).

Lemma sound_start : sound sys_start.
Proof. sys. Qed.

Lemma sound_step s a s' : sound s -> exec a s = Some s' -> broken s' = false -> sound s'.
Proof.
  destruct s as [[x [[]|]] w c p n b]; intros S E B; destruct a; transition E; sys.
Qed.

Lemma broken_stays s a s' : exec a s = Some s' -> broken s = false.
Proof. unfold exec. by destruct (broken s). Qed.

Lemma reachable_sound s : reachable s -> broken s = false -> sound s.
Proof.
  induction 1 as [|s a s' _ IH E]; intros B; [apply sound_start|].
  eapply sound_step; [|done|done]. by apply IH, (broken_stays _ _ _ E).
Qed.

(** * A pause that nothing disturbs *)

Definition not_resume (a : action) : Prop := a <> Resume.
#[global] Instance not_resume_dec a : Decision (not_resume a).
Proof. unfold not_resume. apply _. Defined.

(** The semaphore is down and only a Resume would raise it. *)
Definition down (s : Sys) : Prop :=
  v (sem s) = 0 /\ (ctl s = C_idle \/ ctl s = C_zero \/ ctl s = C_kill) /\ work s <> W_decr /\ work s <> W_unlock.
(** Moreover the worker is in the handler. *)
Definition held (n : nat) (s : Sys) : Prop := down s /\ work s <> W_user /\ ticks s = n.

Lemma down_step s a s' : down s -> not_resume a -> exec a s = Some s' -> down s'.
Proof.
  destruct s as [[x m] w c p n b]; unfold down, not_resume; intros S A E; destruct a; transition E; sys.
Qed.

Lemma held_step n s a s' : held n s -> not_resume a -> exec a s = Some s' -> held n s'.
Proof.
  destruct s as [[x m] w c p k b]; unfold held, down, not_resume; intros S A E; destruct a; transition E; sys.
Qed.

Lemma deliver_held s s' : down s -> exec Deliver s = Some s' -> held (ticks s) s'.
Proof. destruct s as [[x m] w c p k b]; unfold held, down; intros S E; transition E; sys. Qed.

(** * A resume *)

(** The steps of the two threads that need no new call and no accident. *)
Definition own_step (a : action) : Prop := a = Wait \/ a = Go.

(** How many statements each thread has before it. *)
Definition work_left (s : Sys) : nat :=
  match work s with W_user => 0 | W_unlock => 1 | W_decr => 2 | W_test => 3 | W_relock | W_lock => 4 | W_asleep => 5 end.
Definition ctl_left (s : Sys) : nat :=
  match ctl s with C_idle => 0 | C_post_unlock => 1 | C_signal => 2 | C_incr => 3 | C_lock => 4 | C_kill => 5 | C_zero => 6 end.

(** The states on the way from a call of workerResume, with the worker asleep, to its end. *)
Definition on_way (s : Sys) : Prop :=
  (work s = W_asleep /\ (ctl s = C_lock \/ ctl s = C_incr) /\ v (sem s) = 0) \/
  (work s = W_asleep /\ ctl s = C_signal /\ v (sem s) = 1) \/
  ((ctl s = C_post_unlock \/ ctl s = C_idle) /\
   (work s = W_relock \/ work s = W_test \/ work s = W_decr) /\ v (sem s) = 1) \/
  ((ctl s = C_post_unlock \/ ctl s = C_idle) /\ (work s = W_unlock \/ work s = W_user) /\ v (sem s) = 0).
Definition waking (s : Sys) : Prop := sound s /\ broken s = false /\ on_way s.

Lemma own_step_broken s a s' : own_step a -> exec a s = Some s' -> broken s' = broken s.
Proof. destruct s as [[x m] w c p k b]; intros [->| ->] E; transition E; done. Qed.

Lemma on_way_step s a s' :
  on_way s -> own_step a -> exec a s = Some s' ->
  on_way s' /\ (work_left s' + ctl_left s' < work_left s + ctl_left s)%nat.
Proof.
  destruct s as [[x m] w c p k b]; unfold on_way; cbn; intros W [->| ->] E;
    destruct W as [(->&[->| ->]&->)|[(->&->&->)|[([->| ->]&[->|[->| ->]]&->)|([->| ->]&[->| ->]&->)]]];
    transition E; unfold work_left, ctl_left; cbn; (split; [tauto|lia]).
Qed.

Lemma waking_step s a s' :
  waking s -> own_step a -> exec a s = Some s' ->
  waking s' /\ (work_left s' + ctl_left s' < work_left s + ctl_left s)%nat.
Proof.
  intros (S & B & W) A E. pose proof (own_step_broken _ _ _ A E) as B'. rewrite B in B'.
  destruct (on_way_step _ _ _ W A E) as [W' L].
  exact (conj (conj (sound_step _ _ _ S E B') (conj B' W')) L).
Qed.

Lemma waking_run l s s' :
  waking s -> Forall own_step l -> run l s = Some s' ->
  waking s' /\ (length l + (work_left s' + ctl_left s') <= work_left s + ctl_left s)%nat.
Proof.
  revert s. induction l as [|a l IH]; intros s W F E; cbn in *.
  - injection E as <-. split; [done|lia].
  - apply Forall_cons in F as [Fa F]. destruct (exec a s) as [t|] eqn:Ea; [|done].
    destruct (waking_step _ _ _ W Fa Ea) as [Wt L]. destruct (IH t Wt F E) as [? ?]. split; [done|lia].
Qed.

Lemma waking_stuck s : waking s -> exec Wait s = None -> exec Go s = None -> work s = W_user /\ ctl s = C_idle.
Proof.
  destruct s as [[x m] w c p k b]; unfold waking, on_way, sound, in_wait, in_post; cbn.
  intros ((Mw & Mc & _) & -> & W) Ew Eg.
  destruct W as [(->&[->| ->]&->)|[(->&->&->)|[([->| ->]&[->|[->| ->]]&->)|([->| ->]&[->| ->]&->)]]];
    destruct m as [[]|]; cbn in *; try discriminate; try done;
    (destruct (proj1 Mw eq_refl) as [?|[?|?]] || destruct (proj1 Mc eq_refl) as [?|[?|?]]); discriminate.
Qed.

(** * What the pair promises, and where it does not *)




(** [bsem_reset] writes the value without the lock.  A pause that falls
    between the test of [bsem_wait] and its decrement leaves the semaphore at -1, with
    nothing undefined on the way: the signal of that completed pause is handled without
    blocking, and the user's function runs on. *)
Theorem pause_lost :
  exists s1 s2,
    run ([Pause; Go; Go; Deliver] ++ [Resume; Go; Go; Go; Go] ++ [Pause; Wait; Wait; Go; Wait; Wait; Go]) sys_start = Some s1 /\
    v (sem s1) = -1 /\ ctl s1 = C_idle /\ pending_usr1 s1 = true /\
    run [Deliver; Wait; Wait; Wait; Wait; Tick] s1 = Some s2 /\ ticks s2 = S (ticks s1) /\ v (sem s2) = -2 /\ broken s2 = false.
Proof.
  exists (mkSys (mkBsem (-1) None) W_user C_idle true 0 false), (mkSys (mkBsem (-2) None) W_user C_idle false 1 false).
  split; [vm_compute; reflexivity|]. do 3 (split; [reflexivity|]). split; [vm_compute; reflexivity|].
  by split.
Qed.

(** Pausing a worker that is already asleep initialises the condition
    variable it sleeps on. *)
Theorem double_pause_breaks s s' : work s = W_asleep -> exec Pause s = Some s' -> broken s' = true.
Proof. destruct s as [[x m] w c p n b]; cbn; intros -> E. destruct b; transition E; done. Qed.

(** * Concrete runs *)

Definition paused : list action := [Pause; Go; Go; Tick; Deliver; Wait; Wait].
Definition sys_paused : Sys := mkSys (mkBsem 0 None) W_asleep C_idle false 1 false.

Lemma run_paused : run paused sys_start = Some sys_paused.
Proof. vm_compute. reflexivity. Qed.

Lemma reach_paused : reachable sys_paused.
Proof. exact (run_reachable _ _ _ reach_start run_paused). Qed.



