(* ===== verification/WtThread.v ===== *)
(** The life of the worker threads, [src/workthread/workThread.c]: workerCreate,
    the registration and removal in workerDo, the search of workerHold and
    workerDestroy.

    A worker is named by the address of its block.  [step_thread] is one statement
    of workerDo that touches the manager, so that a list of actions is an
    interleaving of any number of workers; an operation on the list of workers
    is one statement here.  The messages are not modelled, and what the semaphore
    does once workerHold has found it is [WtPause]. *)

From S2P Require Import Prelude NetList WtList.
#[local] Open Scope Z_scope.

(** * The state *)

(** The list nodes: the head in the manager, and the one at the front of a worker. *)
Inductive link_node := linkHead | linkNode (w : nat).
#[global] Instance link_node_eq_dec : EqDecision link_node.
Proof. solve_decision. Defined.
#[global] Instance link_node_countable : Countable link_node.
Proof.
  refine (inj_countable' (fun n => match n with linkHead => None | linkNode w => Some w end)
            (fun o => match o with None => linkHead | Some w => linkNode w end) _).
  by intros [].
Defined.
#[global] Instance linkNode_inj : Inj (=) (=) linkNode.
Proof. by intros ?? [=]. Qed.

Record workThread := mkWork {
  pth : Z;
  threadName : list Z;
  usrFn : option Z;
  pArg : Z;
  stBinarySem : Z
}.

(** Where a thread is in workerDo; [E_run] is the user's function. *)
Inductive thread_pc := E_test | E_init | E_zero | E_set | E_add | E_count | E_run | L_remove | L_count | L_done.
#[global] Instance thread_pc_eq_dec : EqDecision thread_pc.
Proof. solve_decision. Defined.

(** The manager [gManager], the links of all list nodes, the allocated workers and
    the threads that were started. *)
Record Workers := mkWorkers {
  bInit : bool;
  threadsNum : Z;
  links : Links link_node;
  blocks : gmap nat workThread;
  pcs : gmap nat thread_pc
}.

Definition workers_start : Workers := mkWorkers false 0 {[linkHead := (None, None)]} ∅ ∅.

Definition set_bInit (b : bool) (s : Workers) : Workers := mkWorkers b (threadsNum s) (links s) (blocks s) (pcs s).
Definition set_num (n : Z) (s : Workers) : Workers := mkWorkers (bInit s) n (links s) (blocks s) (pcs s).
Definition set_links (l : Links link_node) (s : Workers) : Workers :=
  mkWorkers (bInit s) (threadsNum s) l (blocks s) (pcs s).
Definition set_blocks (b : gmap nat workThread) (s : Workers) : Workers :=
  mkWorkers (bInit s) (threadsNum s) (links s) b (pcs s).
Definition set_pcs (p : gmap nat thread_pc) (s : Workers) : Workers :=
  mkWorkers (bInit s) (threadsNum s) (links s) (blocks s) p.

Definition on_links {A} (m : prog (Links link_node) A) : prog Workers A := zoom links set_links m.
Definition set_pc (w : nat) (pc : thread_pc) : prog Workers unit := modify (fun s => set_pcs (<[w := pc]> (pcs s)) s).

(** * Operations *)

(** [worker] is what malloc returns: [None], or the address of a fresh block, and [tid] the
    identifier of the new thread.  [strcpy] has 128 bytes to write to. *)
Definition workerCreate (worker : option nat) (tid : Z) (fn : option Z) (arg : Z) (workerName : option (list Z)) :
    prog Workers (option nat) :=
  match worker with
  | None => mret None
  | Some w =>
      s ← gets id;
      require (bool_decide (blocks s !! w = None));;
      modify (fun s => set_links (<[linkNode w := (None, None)]> (links s)) s);;
      on_links (ListInit (linkNode w));;
      name ← match workerName with
             | None => mret (repeat 0 128)
             | Some str =>
                 require (bool_decide (length (cstr str) < 128)%nat);;
                 mret (put 0 (cstr str ++ [0]) (repeat 0 128))
             end;
      modify (fun s => set_blocks (<[w := mkWork tid name fn arg 1]> (blocks s)) s);;
      set_pc w E_test;;
      mret (Some w)
  end.

(** The statement of workerDo at [pc], with the place of the next one. *)
Definition step_thread (w : nat) (pc : thread_pc) : prog Workers thread_pc :=
  match pc with
  | E_test => b ← gets bInit; mret (if b : bool then E_add else E_init)
  | E_init => on_links (ListInit linkHead);; mret E_zero
  | E_zero => modify (set_num 0);; mret E_set
  | E_set => modify (set_bInit true);; mret E_add
  | E_add => on_links (ListAddTail linkHead (linkNode w));; mret E_count
  | E_count => n ← gets threadsNum; modify (set_num (n + 1));; mret E_run
  | E_run => mret L_remove
  | L_remove => on_links (ListRemove (linkNode w));; mret L_count
  | L_count => n ← gets threadsNum; modify (set_num (n - 1));; mret L_done
  | L_done => undef
  end.

(** One thread without interruption, up to the call of the user's function. *)
Definition workerEnter (w : nat) : prog Workers unit :=
  b ← gets bInit;
  (if b : bool then mret tt
   else on_links (ListInit linkHead);; modify (set_num 0);; modify (set_bInit true));;
  on_links (ListAddTail linkHead (linkNode w));;
  n ← gets threadsNum; modify (set_num (n + 1)).

(** The same, from its return. *)
Definition workerLeave (w : nat) : prog Workers unit :=
  on_links (ListRemove (linkNode w));;
  n ← gets threadsNum; modify (set_num (n - 1)).

Definition workerDo (usr : option Z -> Z -> prog Workers Z) (w : nat) : prog Workers Z :=
  workerEnter w;;
  s ← gets id;
  b ← of_option (blocks s !! w);
  pRet ← match usrFn b with None => mret 0 | Some _ => usr (usrFn b) (pArg b) end;
  workerLeave w;;
  mret pRet.

(** The loop of workerHold: the node it ends at and [pWorker], which is not
    initialised before the first round. *)
Fixpoint find_worker (fuel : nat) (tid : Z) (node : link_node) (pWorker : option nat) :
    prog Workers (link_node * option nat) :=
  match fuel with
  | O => nofuel
  | S fuel =>
      match node with
      | linkHead => mret (node, pWorker)
      | linkNode w =>
          s ← gets id;
          b ← of_option (blocks s !! w);
          if pth b =? tid then mret (node, Some w)
          else n ← on_links (get_next node); find_worker fuel tid n (Some w)
      end
  end.

(** The worker whose semaphore the handler waits on, in the thread [tid]; that
    the search failed is only printed. *)
Definition workerHold (tid : Z) : prog Workers nat :=
  fuel ← gets (fun s => S (size (links s)));
  n ← on_links (get_next linkHead);
  r ← find_worker fuel tid n None;
  of_option (snd r).

(** [pthread_join] returns once the thread has ended. *)
Definition workerDestroy (worker : option nat) : prog Workers unit :=
  match worker with
  | None => mret tt
  | Some w =>
      modify (fun s => set_links (delete (linkNode w) (links s)) s);;
      modify (fun s => set_blocks (delete w (blocks s)) s);;
      modify (fun s => set_pcs (delete w (pcs s)) s)
  end.

(** * Interleavings *)

Inductive event :=
| Create (w : nat) (tid : Z) (fn : option Z) (arg : Z)
| Step (w : nat)
| Destroy (w : nat).

(** Which events can happen: a fresh block, a thread that has not ended, a join of one that has. *)
Definition enabled (e : event) (s : Workers) : Prop :=
  match e with
  | Create w _ _ _ => blocks s !! w = None
  | Step w => exists pc, pcs s !! w = Some pc /\ pc <> L_done
  | Destroy w => pcs s !! w = Some L_done
  end.

Definition event_step (e : event) : prog Workers unit :=
  match e with
  | Create w tid fn arg => workerCreate (Some w) tid fn arg None;; mret tt
  | Step w => s ← gets id; pc ← of_option (pcs s !! w); pc' ← step_thread w pc; set_pc w pc'
  | Destroy w => workerDestroy (Some w)
  end.

Fixpoint events (l : list event) : prog Workers unit :=
  match l with [] => mret tt | e :: l => event_step e;; events l end.

(** Every event of the list is possible when its turn comes. *)
Fixpoint schedule (l : list event) (s : Workers) : Prop :=
  match l with
  | [] => True
  | e :: l => enabled e s /\ forall s', event_step e s = Ret tt s' -> schedule l s'
  end.

(** * The invariant once a worker has initialised the manager *)

Definition registered (pc : thread_pc) : Prop := pc = E_count \/ pc = E_run \/ pc = L_remove.
Definition counted (pc : thread_pc) : Prop := pc = E_run \/ pc = L_remove \/ pc = L_count.
Definition initialising (pc : thread_pc) : Prop := pc = E_init \/ pc = E_zero \/ pc = E_set.

(** The threads at a place of the kind [P]. *)
Definition at_pc (P : thread_pc -> Prop) (m : gmap nat thread_pc) (w : nat) : Prop :=
  exists pc, m !! w = Some pc /\ P pc.

(** [ws] are the workers in the list, in its order, and [cs] those that are counted. *)
Record managed (s : Workers) (ws : list nat) (cs : gset nat) : Prop := {
  man_init : bInit s = true;
  man_ring : ring (links s) (linkHead :: (linkNode <$> ws));
  man_ws : forall w, w ∈ ws <-> at_pc registered (pcs s) w;
  man_cs : forall w, w ∈ cs <-> at_pc counted (pcs s) w;
  man_num : threadsNum s = Z.of_nat (size cs);
  man_no : forall w, ~ at_pc initialising (pcs s) w;
  man_nodes : forall w, is_Some (pcs s !! w) -> is_Some (links s !! linkNode w);
  man_blocks : forall w, is_Some (blocks s !! w) <-> is_Some (pcs s !! w)
}.

Lemma at_pc_put P m w pc u : at_pc P (<[w := pc]> m) u <-> (u = w /\ P pc) \/ (u <> w /\ at_pc P m u).
Proof.
  unfold at_pc. split.
  - intros (q & E & H). rewrite lookup_insert_Some in E. destruct E as [[-> ->]|[? ?]]; eauto.
  - intros [[-> H]|[N (q & E & H)]]; [exists pc; by rewrite lookup_insert_eq|exists q; by rewrite lookup_insert_ne].
Qed.

Lemma worker_links_Ret {A} (m : prog (Links link_node) A) s a l : m (links s) = Ret a l -> on_links m s = Ret a (set_links l s).
Proof. intros E. unfold on_links, zoom. by rewrite E. Qed.

Lemma node_elem w ws : linkNode w ∈ linkHead :: (linkNode <$> ws) <-> w ∈ ws.
Proof.
  rewrite elem_of_cons, list_elem_of_fmap. split; [intros [?|(u & [= ->] & ?)]; done|]. intros ?. right. by exists w.
Qed.


(** The set after the thread [w] went to [pc]: only its own membership can have changed. *)
Definition moved (P : thread_pc -> Prop) (w : nat) (pc : thread_pc) (X X' : nat -> Prop) : Prop :=
  forall u, X' u <-> (u = w /\ P pc) \/ (u <> w /\ X u).

Lemma moved_at_pc P m w pc X X' :
  (forall u, X u <-> at_pc P m u) -> moved P w pc X X' -> forall u, X' u <-> at_pc P (<[w := pc]> m) u.
Proof. intros HX HM u. rewrite (HM u), at_pc_put, HX. tauto. Qed.

Lemma moved_same P m w pc pc' X :
  m !! w = Some pc -> (forall u, X u <-> at_pc P m u) -> (P pc <-> P pc') -> moved P w pc' X X.
Proof.
  intros E HX S u. destruct (decide (u = w)) as [->|]; [|tauto]. rewrite HX. unfold at_pc. rewrite E.
  split; [intros (q & [= ->] & ?); tauto|intros [[_ ?]|[]]; [|done]]. exists pc. tauto.
Qed.

(** What the statement of the thread [w] has to establish. *)
Lemma managed_put s ws cs w pc pc' n l ws' cs' :
  managed s ws cs -> pcs s !! w = Some pc ->
  ring l (linkHead :: (linkNode <$> ws')) -> dom l = dom (links s) ->
  moved registered w pc' (.∈ ws) (.∈ ws') -> moved counted w pc' (.∈ cs) (.∈ cs') ->
  n = Z.of_nat (size cs') -> ~ initialising pc' ->
  managed (mkWorkers (bInit s) n l (blocks s) (<[w := pc']> (pcs s))) ws' cs'.
Proof.
  intros M Hw R D Mw Mc Hn Hi. destruct M as [I0 R0 W0 C0 N0 X0 D0 B0].
  split; cbn; [done|done|exact (moved_at_pc _ _ _ _ _ _ W0 Mw)|exact (moved_at_pc _ _ _ _ _ _ C0 Mc)|done|..].
  - intros u. rewrite at_pc_put. specialize (X0 u). tauto.
  - intros u Hu. apply elem_of_dom. rewrite D. apply elem_of_dom, D0.
    destruct (decide (u = w)) as [->|]; [by eexists|by rewrite lookup_insert_ne in Hu].
  - intros u. rewrite B0. destruct (decide (u = w)) as [->|]; [|by rewrite lookup_insert_ne].
    rewrite lookup_insert_eq, Hw. split; intros _; by eexists.
Qed.

(** A statement that leaves the list and the counter alone. *)
Lemma managed_move s ws cs w pc pc' :
  managed s ws cs -> pcs s !! w = Some pc ->
  (registered pc <-> registered pc') -> (counted pc <-> counted pc') -> ~ initialising pc' ->
  managed (set_pcs (<[w := pc']> (pcs s)) s) ws cs.
Proof.
  intros M Hw Sr Sc Hi. apply (managed_put s ws cs w pc pc' (threadsNum s) (links s) ws cs M Hw);
    [apply M|done| | |apply M|done].
  - exact (moved_same _ _ _ _ _ _ Hw (man_ws _ _ _ M) Sr).
  - exact (moved_same _ _ _ _ _ _ Hw (man_cs _ _ _ M) Sc).
Qed.

Lemma event_Step s w pc : pcs s !! w = Some pc -> event_step (Step w) s = (pc' ← step_thread w pc; set_pc w pc') s.
Proof. intros E. cbn [event_step]. rewrite bind_gets. cbn [id]. by rewrite E, bind_Some. Qed.

Ltac place := unfold registered, counted, initialising; intuition (try discriminate; try congruence).

Lemma step_add s ws cs w :
  managed s ws cs -> pcs s !! w = Some E_add ->
  exists s', event_step (Step w) s = Ret tt s' /\ managed s' (ws ++ [w]) cs.
Proof.
  intros M Hw. assert (Hn : w ∉ ws) by (rewrite (man_ws _ _ _ M); unfold at_pc; rewrite Hw; intros (q & [= <-] & H); revert H; place).
  destruct (ListAddTail_ring (links s) linkHead (linkNode w) (linkNode <$> ws)) as (l & El & R & D);
    [apply M|by rewrite node_elem|apply (man_nodes _ _ _ M); by eexists|].
  eexists. rewrite (event_Step _ _ _ Hw). cbn [step_thread]. rewrite bind_assoc. step (worker_links_Ret _ s _ _ El).
  split; [reflexivity|]. apply (managed_put s ws cs w E_add E_count (threadsNum s) l (ws ++ [w]) cs M Hw).
  - by rewrite fmap_app.
  - done.
  - intros u. rewrite elem_of_app, list_elem_of_singleton. assert (registered E_count) by place.
    destruct (decide (u = w)) as [->|]; tauto.
  - refine (moved_same _ _ _ _ _ _ Hw (man_cs _ _ _ M) _); place.
  - apply M.
  - place.
Qed.

Lemma step_remove s ws cs w :
  managed s ws cs -> pcs s !! w = Some L_remove ->
  exists s' ws', event_step (Step w) s = Ret tt s' /\ managed s' ws' cs /\ (forall u, u ∈ ws' <-> u ∈ ws /\ u <> w).
Proof.
  intros M Hw. assert (Hn : w ∈ ws) by (rewrite (man_ws _ _ _ M); exists L_remove; split; [done|place]).
  apply list_elem_of_split in Hn as (l1 & l2 & Ews). pose proof (man_ring _ _ _ M) as R.
  pose proof (ring_NoDup _ _ R) as N. rewrite Ews, fmap_app, fmap_cons, app_comm_cons in R.
  apply ring_rotate in R. destruct (ListRemove_ring (links s) _ _ R) as (l & El & R' & D); [by destruct l2|].
  assert (forall u, u ∈ l1 ++ l2 <-> u ∈ ws /\ u <> w) as Hu.
  { apply NoDup_cons in N as [_ N]. rewrite Ews in N. apply NoDup_fmap_1 in N.
    rewrite <- Permutation_middle in N. apply NoDup_cons in N as [N _]. rewrite elem_of_app in N.
    intros u. rewrite Ews, !elem_of_app, elem_of_cons. destruct (decide (u = w)) as [->|]; tauto. }
  eexists _, (l1 ++ l2). rewrite (event_Step _ _ _ Hw). cbn [step_thread]. rewrite bind_assoc.
  step (worker_links_Ret _ s _ _ El). split; [reflexivity|]. split; [|done].
  apply (managed_put s ws cs w L_remove L_count (threadsNum s) l (l1 ++ l2) cs M Hw).
  - rewrite fmap_app, app_comm_cons. by apply (ring_rotate l (linkNode <$> l2)).
  - done.
  - intros u. rewrite Hu. assert (~ registered L_count) by place. tauto.
  - refine (moved_same _ _ _ _ _ _ Hw (man_cs _ _ _ M) _); place.
  - apply M.
  - place.
Qed.

Lemma step_count s ws cs w :
  managed s ws cs -> pcs s !! w = Some E_count ->
  exists s', event_step (Step w) s = Ret tt s' /\ managed s' ws ({[w]} ∪ cs).
Proof.
  intros M Hw. assert (Hn : w ∉ cs) by (rewrite (man_cs _ _ _ M); unfold at_pc; rewrite Hw; intros (q & [= <-] & H); revert H; place).
  eexists. rewrite (event_Step _ _ _ Hw). cbn [step_thread]. rewrite bind_assoc, bind_gets, bind_assoc, bind_modify.
  split; [reflexivity|]. apply (managed_put s ws cs w E_count E_run (threadsNum s + 1) (links s) ws _ M Hw).
  - apply M.
  - done.
  - refine (moved_same _ _ _ _ _ _ Hw (man_ws _ _ _ M) _); place.
  - intros u. assert (counted E_run) by place. rewrite elem_of_union, elem_of_singleton.
    destruct (decide (u = w)) as [->|]; tauto.
  - rewrite (man_num _ _ _ M), size_union, size_singleton by set_solver. lia.
  - place.
Qed.

Lemma step_uncount s ws cs w :
  managed s ws cs -> pcs s !! w = Some L_count ->
  exists s', event_step (Step w) s = Ret tt s' /\ managed s' ws (cs ∖ {[w]}).
Proof.
  intros M Hw. assert (Hn : w ∈ cs) by (rewrite (man_cs _ _ _ M); exists L_count; split; [done|place]).
  eexists. rewrite (event_Step _ _ _ Hw). cbn [step_thread]. rewrite bind_assoc, bind_gets, bind_assoc, bind_modify.
  split; [reflexivity|]. apply (managed_put s ws cs w L_count L_done (threadsNum s - 1) (links s) ws _ M Hw).
  - apply M.
  - done.
  - refine (moved_same _ _ _ _ _ _ Hw (man_ws _ _ _ M) _); place.
  - intros u. assert (~ counted L_done) by place. rewrite elem_of_difference, elem_of_singleton. tauto.
  - rewrite (man_num _ _ _ M). rewrite (union_difference_L {[w]} cs) at 1 by set_solver.
    rewrite size_union, size_singleton by set_solver. lia.
  - place.
Qed.

Lemma step_create s ws cs w tid fn arg :
  managed s ws cs -> blocks s !! w = None ->
  exists s', event_step (Create w tid fn arg) s = Ret tt s' /\ managed s' ws cs.
Proof.
  intros M Hb. pose proof M as [I0 R0 W0 C0 N0 X0 D0 B0].
  assert (Hp : pcs s !! w = None) by (apply eq_None_not_Some; rewrite <- B0, Hb; by intros [? ?]).
  assert (Hw : w ∉ ws) by (rewrite W0; unfold at_pc; rewrite Hp; by intros (? & ? & _)).
  set (l1 := <[linkNode w := (None, None)]> (links s)).
  assert (L1 : is_Some (l1 !! linkNode w)) by (unfold l1; rewrite lookup_insert_eq; by eexists).
  destruct (list_init_ring l1 (linkNode w) L1) as (l & El & _ & D & F).
  eexists. cbn [event_step workerCreate]. rewrite bind_assoc, bind_gets. cbn [id].
  rewrite bool_decide_eq_true_2 by done. rewrite bind_assoc, bind_require by done.
  rewrite bind_assoc, bind_modify, bind_assoc. step (worker_links_Ret (ListInit (linkNode w)) (set_links l1 s) tt l El).
  split; [reflexivity|]. clear El.
  split; cbn; [done| | | |done|..].
  - apply (ring_ext (links s) _ (linkHead :: (linkNode <$> ws))); [done|]. intros z Hz. assert (z <> linkNode w) as Hzw by (intros ->; by apply node_elem in Hz).
    destruct (F z) as [-> ->]; [set_solver|]. unfold nxt, prv, l1. by rewrite lookup_insert_ne.
  - apply (moved_at_pc _ _ _ _ _ _ W0). intros u. assert (~ registered E_test) by place.
    destruct (decide (u = w)) as [->|]; tauto.
  - apply (moved_at_pc _ _ _ _ _ _ C0). intros u. assert (~ counted E_test) by place.
    assert (w ∉ cs) by (rewrite C0; unfold at_pc; rewrite Hp; by intros (? & ? & _)).
    destruct (decide (u = w)) as [->|]; tauto.
  - intros u. rewrite at_pc_put. specialize (X0 u). assert (~ initialising E_test) by place. tauto.
  - intros u Hu. apply elem_of_dom. rewrite D. unfold l1. rewrite dom_insert, elem_of_union, elem_of_singleton.
    destruct (decide (u = w)) as [->|]; [by left|]. right. rewrite lookup_insert_ne in Hu by done. by apply elem_of_dom, D0.
  - intros u. destruct (decide (u = w)) as [->|]; [rewrite !lookup_insert_eq|by rewrite !lookup_insert_ne].
    split; intros _; by eexists.
Qed.

Lemma step_destroy s ws cs w :
  managed s ws cs -> pcs s !! w = Some L_done ->
  exists s', event_step (Destroy w) s = Ret tt s' /\ managed s' ws cs.
Proof.
  intros M Hp. pose proof M as [I0 R0 W0 C0 N0 X0 D0 B0].
  assert (forall P, ~ P L_done -> forall u, at_pc P (pcs s) u <-> at_pc P (delete w (pcs s)) u) as Hd.
  { intros P HP u. unfold at_pc. destruct (decide (u = w)) as [->|]; [|by rewrite lookup_delete_ne].
    rewrite lookup_delete_eq, Hp. split; [by intros (? & [= <-] & ?)|by intros (? & ? & _)]. }
  assert (Hw : w ∉ ws) by (rewrite W0; unfold at_pc; rewrite Hp; intros (q & [= <-] & H); revert H; place).
  eexists. split; [reflexivity|]. split; cbn; [done| | | |done|..].
  - apply (ring_ext (links s) _ (linkHead :: (linkNode <$> ws))); [done|]. intros z Hz. unfold nxt, prv.
    rewrite lookup_delete_ne; [done|]. intros <-. by apply node_elem in Hz.
  - intros u. rewrite W0. apply Hd. place.
  - intros u. rewrite C0. apply Hd. place.
  - intros u. rewrite <- Hd; [done|place].
  - intros u. rewrite !lookup_delete_is_Some. intros [? ?]. split; [by intros [= ->]|by apply D0].
  - intros u. by rewrite !lookup_delete_is_Some, B0.
Qed.

Lemma managed_step s ws cs e :
  managed s ws cs -> enabled e s -> exists s' ws' cs', event_step e s = Ret tt s' /\ managed s' ws' cs'.
Proof.
  intros M E. destruct e as [w tid fn arg|w|w]; cbn in E.
  - destruct (step_create s ws cs w tid fn arg M E) as (s' & ? & ?). by exists s', ws, cs.
  - destruct E as (pc & Hw & Hd). pose proof (man_no _ _ _ M w) as Hi.
    assert (~ initialising pc) as Hn by (intros ?; apply Hi; by exists pc).
    destruct pc; try (exfalso; apply Hn; place; fail); try done.
    + eexists _, ws, cs. rewrite (event_Step _ _ _ Hw). cbn [step_thread]. rewrite bind_assoc, bind_gets, (man_init _ _ _ M).
      split; [reflexivity|]. apply (managed_move s ws cs w E_test); (done || place).
    + destruct (step_add s ws cs w M Hw) as (s' & ? & ?). by exists s', (ws ++ [w]), cs.
    + destruct (step_count s ws cs w M Hw) as (s' & ? & ?). by exists s', ws, ({[w]} ∪ cs).
    + eexists _, ws, cs. rewrite (event_Step _ _ _ Hw). cbn [step_thread].
      split; [reflexivity|]. apply (managed_move s ws cs w E_run); (done || place).
    + destruct (step_remove s ws cs w M Hw) as (s' & ws' & ? & ? & _). by exists s', ws', cs.
    + destruct (step_uncount s ws cs w M Hw) as (s' & ? & ?). by exists s', ws, (cs ∖ {[w]}).
  - destruct (step_destroy s ws cs w M E) as (s' & ? & ?). by exists s', ws, cs.
Qed.

Lemma events_app l1 l2 s : events (l1 ++ l2) s = (events l1;; events l2) s.
Proof.
  revert s. induction l1 as [|e l1 IH]; intros s; [done|]. cbn [events app]. rewrite bind_assoc.
  unfold mbind, prog_bind. destruct (event_step e s) as [[] s'| | |]; [apply IH|done..].
Qed.

Lemma schedule_app l1 l2 s s' : schedule (l1 ++ l2) s -> events l1 s = Ret tt s' -> schedule l2 s'.
Proof.
  revert s. induction l1 as [|e l1 IH]; intros s; cbn [events app schedule]; [by intros ? [= <-]|].
  intros [_ H] E. apply bind_inv in E as ([] & t & Et & E). apply (IH t); [by apply H|done].
Qed.

Lemma managed_events l s ws cs :
  managed s ws cs -> schedule l s -> exists s' ws' cs', events l s = Ret tt s' /\ managed s' ws' cs'.
Proof.
  revert s ws cs. induction l as [|e l IH]; intros s ws cs M S; [by exists s, ws, cs|].
  destruct S as [E S]. destruct (managed_step s ws cs e M E) as (t & ws1 & cs1 & Et & M1).
  destruct (IH t ws1 cs1 M1 (S t Et)) as (s' & ws' & cs' & El & M'). exists s', ws', cs'.
  cbn [events]. by step Et.
Qed.

(** * One thread alone runs the body of workerDo *)

Lemma bind_on_links {A B} (m : prog (Links link_node) A) (k : A -> prog Workers B) s :
  (on_links m ≫= k) s =
  match m (links s) with
  | Ret a l => k a (set_links l s)
  | Exit c l => Exit c (set_links l s)
  | Undef => Undef
  | NoFuel => NoFuel
  end.
Proof. unfold on_links, zoom, mbind, prog_bind. by destruct (m (links s)). Qed.

Lemma bind_set_pc {B} w pc (k : unit -> prog Workers B) s :
  (set_pc w pc ≫= k) s = k tt (set_pcs (<[w := pc]> (pcs s)) s).
Proof. done. Qed.

(** Runs the statements of threads and of the code, leaving the outcomes of the list operations. *)
Ltac alone :=
  cbn [repeat events event_step step_thread id];
  repeat first
    [ rewrite bind_assoc | rewrite bind_gets | rewrite bind_modify | rewrite bind_mret | rewrite bind_Some
    | rewrite bind_set_pc | rewrite bind_on_links
    | progress cbn [id pcs set_pcs set_num set_bInit set_links links threadsNum bInit blocks step_thread]
    | rewrite lookup_insert_eq ].

Lemma workerLeave_steps s w :
  pcs s !! w = Some L_remove ->
  events (repeat (Step w) 2) s = (workerLeave w;; set_pc w L_done) s.
Proof.
  intros Hw. alone. rewrite Hw. unfold workerLeave. alone.
  destruct (ListRemove (linkNode w) (links s)) as [[] l|c l| |]; [|done..]. alone.
  unfold set_pc, modify, mret, prog_ret. cbn. by rewrite insert_insert_eq.
Qed.

(** Registration is three statements, and six for the first thread. *)
Lemma workerEnter_steps s w s' :
  pcs s !! w = Some E_test -> workerEnter w s = Ret tt s' ->
  events (repeat (Step w) (if bInit s then 3 else 6)) s = set_pc w E_run s'.
Proof.
  intros Hw. unfold workerEnter. destruct (bInit s) eqn:Hi; alone; rewrite ?Hi; alone; rewrite Hw; alone; rewrite Hi; alone.
  - destruct (ListAddTail linkHead (linkNode w) (links s)) as [[] l|c l| |]; [|done..]. alone.
    intros [= <-]. unfold set_pc, modify, mret, prog_ret. cbn. by rewrite !insert_insert_eq.
  - destruct (ListInit linkHead (links s)) as [[] l0|c l0| |]; [|done..]. alone.
    destruct (ListAddTail linkHead (linkNode w) l0) as [[] l|c l| |]; [|done..]. alone.
    intros [= <-]. unfold set_pc, modify, mret, prog_ret. cbn. by rewrite !insert_insert_eq.
Qed.

(** * From the start *)

(** The first worker is created and registers before anything else happens. *)
Definition boot (w : nat) (tid : Z) (fn : option Z) (arg : Z) : list event :=
  Create w tid fn arg :: repeat (Step w) 6.

Lemma boot_managed w tid fn arg :
  exists s, events (boot w tid fn arg) workers_start = Ret tt s /\ managed s [w] {[w]} /\
    blocks s = {[w := mkWork tid (repeat 0 128) fn arg 1]}.
Proof.
  set (l1 := <[linkNode w := (None, None)]> (links workers_start)).
  assert (L1 : is_Some (l1 !! linkNode w)) by (unfold l1; rewrite lookup_insert_eq; by eexists).
  destruct (ListInit_ring l1 (linkNode w) L1) as (l2 & E2 & _ & D2).
  assert (L2 : is_Some (l2 !! linkHead)).
  { apply elem_of_dom. rewrite D2. unfold l1. rewrite dom_insert. set_solver. }
  destruct (ListInit_ring l2 linkHead L2) as (l3 & E3 & R3 & D3).
  destruct (ListAddTail_ring l3 linkHead (linkNode w) [] R3) as (l4 & E4 & R4 & D4);
    [by rewrite list_elem_of_singleton|by apply (is_Some_dom l1 l3 _ ltac:(by rewrite D3, D2))|].
  set (s1 := mkWorkers false 0 l2 {[w := mkWork tid (repeat 0 128) fn arg 1]} {[w := E_test]}).
  assert (E1 : event_step (Create w tid fn arg) workers_start = Ret tt s1).
  { cbn [event_step workerCreate]. alone. rewrite bool_decide_eq_true_2 by done. rewrite bind_require by done. alone.
    fold l1. rewrite E2. alone. reflexivity. }
  assert (E5 : workerEnter w s1 = Ret tt (mkWorkers true 1 l4 (blocks s1) (pcs s1))).
  { unfold workerEnter, s1. alone. rewrite E3. alone. rewrite E4. alone. reflexivity. }
  assert (Hw : pcs s1 !! w = Some E_test) by apply lookup_insert_eq.
  pose proof (workerEnter_steps s1 w _ Hw E5) as E6.
  eexists. split; [|split].
  - unfold boot. cbn [events]. step E1. exact E6.
  - assert (HP : forall P u, at_pc P (<[w := E_run]> {[w := E_test]}) u <-> u = w /\ P E_run).
    { intros P u. rewrite at_pc_put. unfold at_pc. split; [|tauto]. intros [?|[N (q & E & _)]]; [done|].
      by rewrite lookup_singleton_ne in E. }
    split; cbn; [done|done| | |by rewrite size_singleton|..].
    + intros u. rewrite HP, list_elem_of_singleton. assert (registered E_run) by place. tauto.
    + intros u. rewrite HP, elem_of_singleton. assert (counted E_run) by place. tauto.
    + intros u. rewrite HP. assert (~ initialising E_run) by place. tauto.
    + intros u Hu. apply elem_of_dom. rewrite D4, D3, D2. unfold l1. rewrite dom_insert.
      destruct (decide (u = w)) as [->|N]; [set_solver|].
      rewrite lookup_insert_ne, lookup_singleton_ne in Hu by done. by destruct Hu.
    + intros u. destruct (decide (u = w)) as [->|N].
      * rewrite lookup_singleton_eq, lookup_insert_eq. split; intros _; by eexists.
      * by rewrite lookup_insert_ne, !lookup_singleton_ne.
  - reflexivity.
Qed.

Lemma on_links_next s a n : nxt (links s) a = Some n -> on_links (get_next a) s = Ret n s.
Proof. intros E. rewrite (worker_links_Ret _ s n (links s) (get_next_nxt _ _ _ E)). by destruct s. Qed.

(** The search goes on from [a] through the list, and stops at the first worker of the thread. *)
Lemma find_worker_spec l1 f s w b p a q :
  forward (links s) a (linkNode <$> (l1 ++ w :: p)) linkHead -> blocks s !! w = Some b ->
  (forall u, u ∈ l1 -> exists c, blocks s !! u = Some c /\ pth c <> pth b) -> (length l1 < f)%nat ->
  (n ← on_links (get_next a); find_worker f (pth b) n q) s = Ret (linkNode w, Some w) s.
Proof.
  revert f a q. induction l1 as [|u l1 IH]; intros f a q F Hb Hl Hf; (destruct f as [|f]; [simpl in Hf; lia|]);
    destruct F as [F1 F]; step (on_links_next s a _ F1); cbn [find_worker]; rewrite bind_gets; cbn [id].
  - by rewrite Hb, bind_Some, Z.eqb_refl.
  - destruct (Hl u ltac:(set_solver)) as (c & Hc & Hn). rewrite Hc, bind_Some.
    destruct (Z.eqb_spec (pth c) (pth b)) as [|_]; [done|].
    apply IH; [exact F|exact Hb|intros v Hv; apply Hl; set_solver|simpl in Hf; lia].
Qed.

(** Without a match the search ends at the head, with the last worker of the list. *)
Lemma find_worker_none l f s tid a q :
  forward (links s) a (linkNode <$> l) linkHead ->
  (forall u, u ∈ l -> exists c, blocks s !! u = Some c /\ pth c <> tid) -> (length l < f)%nat ->
  (n ← on_links (get_next a); find_worker f tid n q) s = Ret (linkHead, default q (Some <$> last l)) s.
Proof.
  revert f a q. induction l as [|u l IH]; intros f a q F Hl Hf; (destruct f as [|f]; [simpl in Hf; lia|]).
  - by step (on_links_next s a _ F).
  - destruct F as [F1 F]; step (on_links_next s a _ F1); cbn [find_worker]; rewrite bind_gets; cbn [id].
    destruct (Hl u ltac:(set_solver)) as (c & Hc & Hn). rewrite Hc, bind_Some.
    destruct (Z.eqb_spec (pth c) tid) as [|_]; [done|].
    rewrite (IH f (linkNode u) (Some u) F); [rewrite (list_basics.list.last_cons u l); by destruct (last l)|intros v Hv; apply Hl; set_solver|simpl in Hf; lia].
Qed.

(** * What the manager promises, and where it does not *)

(** The identifiers of the workers in the list are those of different threads. *)
Definition own_ids (s : Workers) (ws : list nat) : Prop :=
  forall u w, u ∈ ws -> w ∈ ws -> pth <$> (blocks s !! u) = pth <$> (blocks s !! w) -> u = w.


(** The signal handler finds the worker of the thread it runs in, if that is in
    the list; in a thread that is not, it waits on the semaphore of the
    last worker of the list, and with an empty list it follows a pointer that was
    never written. *)
Theorem workerHold_finds s ws cs tid :
  managed s ws cs -> own_ids s ws ->
  (forall w, w ∈ ws -> pth <$> (blocks s !! w) = Some tid -> workerHold tid s = Ret w s) /\
  ((forall w, w ∈ ws -> pth <$> (blocks s !! w) <> Some tid) ->
   workerHold tid s = match last ws with Some w => Ret w s | None => Undef end).
Proof.
  intros M D. pose proof (man_ring _ _ _ M) as R. pose proof (ring_size _ _ R) as Hs.
  pose proof (ring_NoDup _ _ R) as N. apply NoDup_cons in N as [_ N]. apply NoDup_fmap_1 in N.
  cbn [length] in Hs. rewrite length_fmap in Hs. destruct R as [_ F]. apply edges_forward in F.
  assert (B : forall u, u ∈ ws -> exists c, blocks s !! u = Some c).
  { intros u Hu. apply (man_blocks _ _ _ M). apply (man_ws _ _ _ M) in Hu as (q & -> & _). by eexists. }
  unfold workerHold. rewrite !bind_gets. rewrite <- bind_assoc. split.
  - intros w Hw Ht. destruct (blocks s !! w) as [b|] eqn:Hb; [|done]. injection Ht as <-.
    apply list_elem_of_split in Hw as (l1 & p & ->). rewrite length_app in Hs. cbn [length] in Hs.
    rewrite (bind_Ret _ _ _ _ _ (find_worker_spec l1 (S (size (links s))) s w b p linkHead None F Hb
      ltac:(idtac; intros u Hu; destruct (B u ltac:(set_solver)) as [c Hc]; exists c; split; [exact Hc|];
        intros Ec; assert (u = w) by (apply D; [set_solver..|]; rewrite Hc, Hb; cbn; by rewrite Ec); subst;
        apply NoDup_app in N as (_ & N & _); apply (N w Hu); left) ltac:(lia))).
    done.
  - intros Ht. rewrite (bind_Ret _ _ _ _ _ (find_worker_none ws (S (size (links s))) s tid linkHead None F
      ltac:(idtac; intros u Hu; destruct (B u Hu) as [c Hc]; exists c; split; [exact Hc|];
        intros Ec; apply (Ht u Hu); by rewrite Hc, <- Ec) ltac:(lia))).
    by destruct (last ws).
Qed.

(** Two first workers that both test [bInit] before one of them has set it. *)
Definition race : list event :=
  [Create 1 11 None 0; Create 2 12 None 0; Step 1; Step 2] ++ repeat (Step 1) 5 ++ repeat (Step 2) 5.

(** Nothing locks the registration.  In that interleaving both workers run and one
    is counted; only the second is in the list, and a signal that pauses the first
    waits on the semaphore of the second.  When the first leaves, the list is
    empty although the second runs on: the handler of a signal to the second
    then reads the pointer [pWorker] uninitialised. *)
Theorem registration_race :
  exists s s',
    events race workers_start = Ret tt s /\ pcs s !! 1%nat = Some E_run /\ pcs s !! 2%nat = Some E_run /\
    threadsNum s = 1 /\ ListForEach linkHead (links s) = Ret [linkNode 2] (links s) /\
    workerHold 11 s = Ret 2%nat s /\
    events (repeat (Step 1) 3) s = Ret tt s' /\ pcs s' !! 2%nat = Some E_run /\
    threadsNum s' = 0 /\ workerHold 12 s' = Undef.
Proof.
  destruct (events race workers_start) as [[] s| | |] eqn:E; try (vm_compute in E; discriminate).
  destruct (events (repeat (Step 1) 3) s) as [[] s'| | |] eqn:E'; try (vm_compute in E; injection E as <-; vm_compute in E'; discriminate).
  exists s, s'. vm_compute in E. injection E as <-. vm_compute in E'. injection E' as <-.
  repeat split; vm_compute; reflexivity.
Qed.

(** * Concrete runs *)

(** Two workers of which the second registers while the first leaves. *)
Definition two_workers : list event :=
  [Create 2 12 (Some 7) 0; Step 2; Step 1; Step 2; Step 1; Step 2; Step 1; Destroy 1].

Lemma schedule_run l s :
  (fix go l s : bool :=
     match l with
     | [] => true
     | e :: l =>
         (match e with
          | Create w _ _ _ => bool_decide (blocks s !! w = None)
          | Step w => match pcs s !! w with Some pc => bool_decide (pc <> L_done) | None => false end
          | Destroy w => bool_decide (pcs s !! w = Some L_done)
          end) && match event_step e s with Ret _ s' => go l s' | _ => true end
     end) l s = true -> schedule l s.
Proof.
  revert s. induction l as [|e l IH]; intros s H; [done|]. apply andb_true_iff in H as [H1 H2]. split.
  - destruct e as [w tid fn arg|w|w]; cbn; [by apply bool_decide_eq_true in H1| |by apply bool_decide_eq_true in H1].
    destruct (pcs s !! w) as [pc|]; [|done]. exists pc. by apply bool_decide_eq_true in H1.
  - intros s' E. rewrite E in H2. by apply IH.
Qed.


Lemma workerHold_finds_witness :
  exists s, events (boot 1 11 None 0) workers_start = Ret tt s /\ workerHold 11 s = Ret 1%nat s /\ workerHold 12 s = Ret 1%nat s.
Proof.
  destruct (boot_managed 1 11 None 0) as (s & E & M & B).
  assert (D : own_ids s [1%nat]) by (intros u w Hu Hw _; apply list_elem_of_singleton in Hu as ->; by apply list_elem_of_singleton in Hw as ->).
  exists s. split; [exact E|]. split.
  - apply (proj1 (workerHold_finds s _ _ 11 M D) 1%nat); [left|rewrite B; reflexivity].
  - apply (proj2 (workerHold_finds s _ _ 12 M D)). intros w Hw. apply list_elem_of_singleton in Hw as ->. rewrite B.
    vm_compute. discriminate.
Defined.
