(* ===== verification/MyPrintf.v ===== *)
(** The formatter of the shell, [src/mysh/common/printf.c], without
    PRINTF_LONG_SUPPORT, as it is compiled.

    [putf] is the character output function; a number is written to the 12 bytes
    of [bf] first, and [None] or [Undef] is a store outside of it, a signed overflow or an
    argument that is missing or of another type. *)

From stdpp Require Import strings.
From S2P Require Import Prelude.
#[local] Open Scope Z_scope.

(** * Numbers *)

(** [d *= base] while there is a digit more; [unsigned int] has 32 bits, so that 32
    rounds are enough for every base above 1. *)
Fixpoint ui2a_scale (fuel : nat) (num base d : Z) : option Z :=
  match fuel with
  | O => None
  | S f =>
      if d =? 0 then None
      else if base <=? num / d then ui2a_scale f num base (u32 (d * base)) else Some d
  end.

Definition digit_char (uc : bool) (dgt : Z) : Z :=
  dgt + (if dgt <? 10 then 48 else (if uc then 65 else 97) - 10).

Fixpoint ui2a_digits (fuel : nat) (num base : Z) (uc : bool) (d n : Z) (bf : list Z) (p : Z) : option (list Z) :=
  match fuel with
  | O => None
  | S f =>
      if d =? 0 then zset bf p 0
      else
        let dgt := num / d in
        let num := num mod d in
        let d := d / base in
        if negb (n =? 0) || (0 <? dgt) || (d =? 0) then
          bf ← zset bf p (digit_char uc dgt);
          ui2a_digits f num base uc d (n + 1) bf (p + 1)
        else ui2a_digits f num base uc d n bf p
  end.

Definition ui2a (num base : Z) (uc : bool) (bf : list Z) (p : Z) : option (list Z) :=
  d ← ui2a_scale 33 num base 1;
  ui2a_digits 34 num base uc d 0 bf p.

Definition i2a (num : Z) (bf : list Z) (p : Z) : option (list Z) :=
  if num <? 0 then
    if num =? - 2 ^ 31 then None
    else bf ← zset bf p 45; ui2a (u32 (- num)) 10 false bf (p + 1)
  else ui2a (u32 num) 10 false bf p.

Definition a2d (ch : Z) : Z :=
  if (48 <=? ch) && (ch <=? 57) then ch - 48
  else if (97 <=? ch) && (ch <=? 102) then ch - 97 + 10
  else if (65 <=? ch) && (ch <=? 70) then ch - 65 + 10
  else -1.

(** The rest of a string, from a pointer into it; at its end is the NUL, and behind it nothing. *)
Definition get_char (src : list Z) : Z * option (list Z) :=
  match src with [] => (0, None) | c :: src => (c, Some src) end.

(** [ch], the pointer and the number, when the loop ends.  It ends at the NUL at the latest. *)
Fixpoint a2i_loop (fuel : nat) (ch : Z) (src : option (list Z)) (base num : Z) : option (Z * option (list Z) * Z) :=
  match fuel with
  | O => None
  | S f =>
      let digit := a2d ch in
      if digit <? 0 then Some (ch, src, num)
      else if base <? digit then Some (ch, src, num)
      else
        let num := num * base + digit in
        if num <? 2 ^ 31 then
          p ← src;
          let '(ch, src) := get_char p in a2i_loop f ch src base num
        else None
  end.

Definition a2i (ch : Z) (src : list Z) (base : Z) : option (Z * option (list Z) * Z) :=
  a2i_loop (S (S (length src))) ch (Some src) base 0.

(** * Output *)

(** What [va_arg] can take: an integer or the characters of a string. *)
Inductive va_value := VInt (n : Z) | VStr (s : list Z).

Section Format.
Context {S : Type} (putf : Z -> prog S unit).

Fixpoint putchw_width (n : Z) (p : list Z) : Z :=
  match p with [] => n | _ :: p => if 0 <? n then putchw_width (n - 1) p else n end.

Fixpoint put_all (s : list Z) : prog S unit :=
  match s with [] => mret tt | c :: s => putf c;; put_all s end.

Definition putchw (n : Z) (z : bool) (bf : list Z) : prog S unit :=
  let fc := if z then 48 else 32 in
  let n := putchw_width n bf in
  put_all (replicate (Z.to_nat n) fc);;
  put_all bf.

Definition va_int (va : list va_value) : prog S (Z * list va_value) :=
  match va with VInt n :: va => mret (n, va) | _ => undef end.
Definition va_str (va : list va_value) : prog S (list Z * list va_value) :=
  match va with VStr s :: va => mret (s, va) | _ => undef end.

Definition bf_start : list Z := repeat 0 12.

Definition put_number (w : Z) (lz : bool) (bf : option (list Z)) : prog S unit :=
  bf ← of_option bf; putchw w lz (cstr bf).

(** [fmt] holds the characters of the format without the NUL; [None] is a pointer behind it. *)
Fixpoint tfp_loop (fuel : nat) (fmt : option (list Z)) (va : list va_value) : prog S unit :=
  match fuel with
  | O => nofuel
  | Datatypes.S f =>
      fmt ← of_option fmt;
      let '(ch, fmt) := get_char fmt in
      if ch =? 0 then mret tt
      else if negb (ch =? 37) then putf ch;; tfp_loop f fmt va
      else
        fmt ← of_option fmt;
        let '(ch, fmt) := get_char fmt in
        let lz := ch =? 48 in
        r ← (if lz then fmt ← of_option fmt; mret (get_char fmt) else mret (ch, fmt));
        let '(ch, fmt) := r : Z * option (list Z) in
        r ← (if (48 <=? ch) && (ch <=? 57) then fmt ← of_option fmt; of_option (a2i ch fmt 10) else mret (ch, fmt, 0));
        let '(ch, fmt, w) := r : Z * option (list Z) * Z in
        if ch =? 0 then mret tt
        else if ch =? 117 then
          a ← va_int va; let '(n, va) := a : Z * list va_value in
          put_number w lz (ui2a (u32 n) 10 false bf_start 0);; tfp_loop f fmt va
        else if ch =? 100 then
          a ← va_int va; let '(n, va) := a : Z * list va_value in
          put_number w lz (i2a n bf_start 0);; tfp_loop f fmt va
        else if (ch =? 120) || (ch =? 88) then
          a ← va_int va; let '(n, va) := a : Z * list va_value in
          put_number w lz (ui2a (u32 n) 16 (ch =? 88) bf_start 0);; tfp_loop f fmt va
        else if ch =? 99 then
          a ← va_int va; let '(n, va) := a : Z * list va_value in
          putf ((n + 128) mod 256 - 128);; tfp_loop f fmt va
        else if ch =? 115 then
          a ← va_str va; let '(s, va) := a : list Z * list va_value in
          putchw w false s;; tfp_loop f fmt va
        else if ch =? 37 then putf ch;; tfp_loop f fmt va
        else tfp_loop f fmt va
  end.

Definition tfp_format (fmt : list Z) (va : list va_value) : prog S unit :=
  tfp_loop (Datatypes.S (length fmt)) (Some fmt) va.
End Format.

(** A buffer and the position behind what was written; a write beyond its end is undefined. *)
Definition putcp (c : Z) : prog (list Z * Z) unit := fun '(b, p) =>
  match zset b p c with Some b' => Ret tt (b', p + 1) | None => Undef end.

Definition tfp_sprintf (fmt : list Z) (va : list va_value) (s : list Z) : outcome (list Z * Z) unit :=
  (tfp_format putcp fmt va;; putcp 0) (s, 0).

(** * The digits of a number *)

(** The numeral of [n], most significant digit first, and its [k] low digits. *)
Fixpoint numeral (fuel : nat) (base n : Z) : list Z :=
  match fuel with
  | O => []
  | S f => if n <? base then [n] else numeral f base (n / base) ++ [n mod base]
  end.

Fixpoint low_digits (base : Z) (k : nat) (n : Z) : list Z :=
  match k with O => [] | S k => n / base ^ Z.of_nat k :: low_digits base k (n mod base ^ Z.of_nat k) end.

Section Digits.
Context (base : Z) (Hb : 1 < base).

Lemma base_pow_pos k : 0 < base ^ Z.of_nat k.
Proof. apply Z.pow_pos_nonneg; lia. Qed.

Lemma base_pow_S k : base ^ Z.of_nat (S k) = base * base ^ Z.of_nat k.
Proof. rewrite Nat2Z.inj_succ, Z.pow_succ_r; lia. Qed.


Lemma length_low_digits k n : length (low_digits base k n) = k.
Proof. revert n. induction k as [|k IH]; intros n; [done|]. cbn [low_digits length]. by rewrite IH. Qed.

Lemma low_digits_step k n :
  0 <= n -> low_digits base (S (S k)) n = low_digits base (S k) (n / base) ++ [n mod base].
Proof.
  revert n. induction k as [|k IH]; intros n Hn.
  - cbn. by rewrite Z.pow_1_r, !Z.div_1_r.
  - change (low_digits base (S (S (S k))) n)
      with (n / base ^ Z.of_nat (S (S k)) :: low_digits base (S (S k)) (n mod base ^ Z.of_nat (S (S k)))).
    pose proof (base_pow_pos k). pose proof (base_pow_pos (S k)). rewrite IH by (apply Z.mod_pos_bound, base_pow_pos).
    rewrite (base_pow_S (S k)), <- Z.div_div, Z.rem_mul_r by lia.
    rewrite (Z.mul_comm base (_ mod _)), Z.div_add, Z.mod_add, (Z.div_small (n mod base)), Z.mod_mod by (try apply Z.mod_pos_bound; lia).
    done.
Qed.

Lemma numeral_low f k n :
  base ^ Z.of_nat k <= n < base ^ Z.of_nat (S k) \/ (k = O /\ 0 <= n < base) -> (k < f)%nat ->
  numeral f base n = low_digits base (S k) n.
Proof.
  revert k n. induction f as [|f IH]; intros k n Hk Hf; [lia|]. pose proof (base_pow_pos k). cbn [numeral].
  destruct k as [|k].
  - destruct (Z.ltb_spec n base); [cbn; by rewrite Z.div_1_r|]. cbn in Hk. lia.
  - destruct Hk as [Hk|[? _]]; [|lia]. rewrite !base_pow_S in Hk. pose proof (base_pow_pos k).
    destruct (Z.ltb_spec n base); [nia|]. rewrite low_digits_step by nia. f_equal. apply IH; [|lia]. left.
    rewrite base_pow_S. split; [apply Z.div_le_lower_bound|apply Z.div_lt_upper_bound]; nia.
Qed.

(** Every number has a leading digit at some place [k]. *)
Lemma leading_place n f :
  0 <= n < base ^ Z.of_nat f -> (0 < f)%nat ->
  exists k, (k < f)%nat /\ (base ^ Z.of_nat k <= n < base ^ Z.of_nat (S k) \/ (k = O /\ 0 <= n < base)).
Proof.
  revert n. induction f as [|f IH]; intros n Hn Hf; [lia|].
  destruct (decide (n < base)); [exists O; split; [lia|right; lia]|].
  destruct f as [|f]; [cbn in Hn; rewrite Z.pow_1_r in Hn; lia|].
  destruct (decide (n < base ^ Z.of_nat (S f))) as [Hs|Hs].
  - destruct (IH n ltac:(lia) ltac:(lia)) as (k & ? & ?). exists k. split; [lia|done].
  - exists (S f). split; [lia|]. left. lia.
Qed.

Lemma low_digits_range k n : 0 <= n < base ^ Z.of_nat k -> Forall (fun d => 0 <= d < base) (low_digits base k n).
Proof.
  revert n. induction k as [|k IH]; intros n Hn; [constructor|]. rewrite base_pow_S in Hn. pose proof (base_pow_pos k).
  constructor; [|apply IH, Z.mod_pos_bound; lia].
  split; [apply Z.div_pos; lia|apply Z.div_lt_upper_bound; lia].
Qed.

(** Their value is the number. *)
Lemma low_digits_value k n acc :
  0 <= n < base ^ Z.of_nat k ->
  fold_left (fun v d => v * base + d) (low_digits base k n) acc = acc * base ^ Z.of_nat k + n.
Proof.
  revert n acc. induction k as [|k IH]; intros n acc Hn; [cbn in *; lia|]. pose proof (base_pow_pos k).
  cbn [low_digits fold_left]. rewrite IH by (apply Z.mod_pos_bound; lia). rewrite base_pow_S.
  pose proof (Z.div_mod n (base ^ Z.of_nat k)). nia.
Qed.
End Digits.

(** * The code computes these digits *)

Lemma zset_put (bf : list Z) (p : nat) x : (p < length bf)%nat -> zset bf (Z.of_nat p) x = Some (put p [x] bf).
Proof.
  intros H. rewrite zset_nat by done. f_equal. unfold put. cbn [length]. rewrite insert_take_drop by done.
  cbn. by rewrite Nat.add_1_r.
Qed.

Lemma put_next (p : nat) x l (bf : list Z) :
  (p + S (length l) <= length bf)%nat -> put (S p) l (put p [x] bf) = put p (x :: l) bf.
Proof. intros H. rewrite <- (Nat.add_1_r p). apply (put_app p [x] l). cbn. lia. Qed.

Section Code.
Context (base : Z) (uc : bool) (Hb : 1 < base).

Lemma scale_spec num k j f :
  base ^ Z.of_nat k <= num < base ^ Z.of_nat (S k) \/ (k = O /\ 0 <= num < base) ->
  num < 2 ^ 32 -> (j <= k)%nat -> (k - j < f)%nat ->
  ui2a_scale f num base (base ^ Z.of_nat j) = Some (base ^ Z.of_nat k).
Proof.
  revert j. induction f as [|f IH]; intros j Hk Hn Hj Hf; [lia|]. cbn [ui2a_scale].
  pose proof (base_pow_pos base Hb j). destruct (Z.eqb_spec (base ^ Z.of_nat j) 0); [lia|].
  destruct (decide (j = k)) as [->|Hne].
  - destruct (Z.leb_spec base (num / base ^ Z.of_nat k)) as [Hl|]; [|done]. exfalso. revert Hl. apply Z.lt_nge.
    destruct Hk as [[_ Hk]|[-> Hk]]; [|cbn; rewrite Z.div_1_r; lia].
    apply Z.div_lt_upper_bound; [lia|]. rewrite base_pow_S in Hk by done. lia.
  - destruct Hk as [Hk|[-> _]]; [|lia].
    assert (base ^ Z.of_nat (S j) <= num) as Hs.
    { etransitivity; [|apply Hk]. apply Z.pow_le_mono_r; lia. }
    rewrite base_pow_S in Hs by done.
    destruct (Z.leb_spec base (num / base ^ Z.of_nat j)) as [|Hl]; [|exfalso; revert Hl; apply Z.le_ngt, Z.div_le_lower_bound; lia].
    rewrite u32_id by lia. rewrite Z.mul_comm, <- base_pow_S by done. apply IH; [by left|done|lia|lia].
Qed.

Lemma digits_spec k num n (bf : list Z) p f :
  0 <= num < base ^ Z.of_nat (S k) -> 0 <= n -> n <> 0 \/ base ^ Z.of_nat k <= num \/ k = O ->
  (S k < f)%nat -> (p + S k < length bf)%nat ->
  ui2a_digits f num base uc (base ^ Z.of_nat k) n bf (Z.of_nat p) =
    Some (put p ((digit_char uc <$> low_digits base (S k) num) ++ [0]) bf).
Proof.
  revert num n bf p f. induction k as [|k IH]; intros num n bf p f Hn Hn0 Hd Hf Hp;
    (destruct f as [|f]; [lia|]); cbn [ui2a_digits].
  - change (base ^ Z.of_nat 0) with 1. change (1 =? 0) with false. cbv iota.
    rewrite (Z.div_small 1 base) by lia. change (0 =? 0) with true. rewrite orb_true_r. rewrite zset_put by lia. cbn [mbind option_bind].
    destruct f as [|f]; [lia|]. cbn [ui2a_digits]. change (0 =? 0) with true. cbv iota.
    replace (Z.of_nat p + 1) with (Z.of_nat (S p)) by lia. rewrite zset_put by (rewrite length_put; cbn; lia).
    rewrite put_next by (cbn; lia). cbn [low_digits fmap list_fmap app]. by rewrite (Z.div_1_r num : num / base ^ Z.of_nat 0 = num), Z.div_1_r.
  - pose proof (base_pow_pos base Hb (S k)). pose proof (base_pow_pos base Hb k).
    destruct (Z.eqb_spec (base ^ Z.of_nat (S k)) 0); [lia|].
    assert (base ^ Z.of_nat (S k) / base = base ^ Z.of_nat k) as Hdiv.
    { rewrite base_pow_S by done. rewrite Z.mul_comm. apply Z.div_mul. lia. }
    rewrite Hdiv. set (dgt := num / base ^ Z.of_nat (S k)).
    assert (negb (n =? 0) || (0 <? dgt) || (base ^ Z.of_nat k =? 0) = true) as ->.
    { destruct (Z.eqb_spec n 0) as [->|]; [|done]. destruct Hd as [?|[Hd|?]]; [done| |done].
      replace (0 <? dgt) with true; [done|]. symmetry. apply Z.ltb_lt. apply Z.div_str_pos. lia. }
    rewrite zset_put by lia. cbn [mbind option_bind]. replace (Z.of_nat p + 1) with (Z.of_nat (S p)) by lia.
    rewrite IH; [|apply Z.mod_pos_bound; lia|lia|left; lia|lia|rewrite length_put; cbn; lia].
    rewrite put_next by (rewrite length_app, length_fmap, length_low_digits; cbn; lia). done.
Qed.

Lemma ui2a_digits_of num (bf : list Z) p m :
  0 <= num < 2 ^ 32 -> 0 <= num < base ^ Z.of_nat m -> (0 < m)%nat -> (m <= 32)%nat -> (p + m < length bf)%nat ->
  exists k, (k < m)%nat /\ (base ^ Z.of_nat k <= num \/ k = O) /\ num < base ^ Z.of_nat (S k) /\
    numeral m base num = low_digits base (S k) num /\
    ui2a num base uc bf (Z.of_nat p) = Some (put p ((digit_char uc <$> numeral m base num) ++ [0]) bf).
Proof.
  intros Hn Hm H0 H32 Hp. destruct (leading_place base num m Hm H0) as (k & Hk & Hl). exists k.
  assert (num < base ^ Z.of_nat (S k)) as Hs by (destruct Hl as [?|[-> ?]]; cbn; lia).
  pose proof (numeral_low base Hb m k num Hl Hk) as En. rewrite En.
  split; [done|]. split; [destruct Hl as [?|[-> ?]]; [left; lia|by right]|]. split; [done|]. split; [done|].
  unfold ui2a. change 1 with (base ^ Z.of_nat 0) at 1. rewrite (scale_spec num k 0 33 Hl) by lia.
  cbn [mbind option_bind]. apply digits_spec; [lia|done| |lia|lia].
  destruct Hl as [?|[-> ?]]; [right; left; lia|right; by right].
Qed.
End Code.

Lemma digit_char_pos uc d : 0 <= d -> 0 < digit_char uc d.
Proof. intros H. unfold digit_char. destruct (Z.ltb_spec d 10), uc; lia. Qed.

Lemma digits_no_nul uc base k n : 1 < base -> 0 <= n < base ^ Z.of_nat k -> no_nul (digit_char uc <$> low_digits base k n).
Proof.
  intros Hb Hn. apply Forall_fmap. eapply Forall_impl; [by apply (low_digits_range base Hb k)|].
  intros d Hd. cbn. pose proof (digit_char_pos uc d (proj1 Hd)). lia.
Qed.

(** * What is printed *)

Definition decimal (n : Z) : list Z := digit_char false <$> numeral 10 10 n.
Definition hexadecimal (uc : bool) (n : Z) : list Z := digit_char uc <$> numeral 8 16 n.
Definition signed_decimal (n : Z) : list Z := if n <? 0 then 45 :: decimal (- n) else decimal n.

(** [s] to the right of a field of [w] characters. *)
Definition padded (w : Z) (z : bool) (s : list Z) : list Z :=
  replicate (Z.to_nat (w - Z.of_nat (length s))) (if z then 48 else 32) ++ s.

(** A format as it is meant: characters, a percent sign, and conversions with a
    field width of 0 for none. *)
Inductive conversion :=
| Cu (n : Z) | Cd (n : Z) | Cx (upper : bool) (n : Z) | Cc (n : Z) | Cs (s : list Z).
Inductive piece := Lit (c : Z) | Percent | Conv (zero : bool) (w : Z) (c : conversion).

Definition letter (c : conversion) : Z :=
  match c with Cu _ => 117 | Cd _ => 100 | Cx up _ => if up then 88 else 120 | Cc _ => 99 | Cs _ => 115 end.
Definition argument (c : conversion) : va_value :=
  match c with Cu n | Cd n | Cx _ n | Cc n => VInt n | Cs s => VStr s end.

Definition fmt_of (p : piece) : list Z :=
  match p with
  | Lit c => [c]
  | Percent => [37; 37]
  | Conv z w c => 37 :: (if z then [48] else []) ++ (if w =? 0 then [] else decimal w) ++ [letter c]
  end.
Definition args_of (p : piece) : list va_value := match p with Conv _ _ c => [argument c] | _ => [] end.
Definition text_of (p : piece) : list Z :=
  match p with
  | Lit c => [c]
  | Percent => [37]
  | Conv z w (Cu n) => padded w z (decimal n)
  | Conv z w (Cd n) => padded w z (signed_decimal n)
  | Conv z w (Cx up n) => padded w z (hexadecimal up n)
  | Conv z w (Cc n) => [n]
  | Conv z w (Cs s) => padded w false s
  end.

Definition conv_ok (c : conversion) : Prop :=
  match c with
  | Cu n | Cx _ n => 0 <= n < 2 ^ 32
  | Cd n => - 2 ^ 31 < n < 2 ^ 31
  | Cc n => -128 <= n < 128
  | Cs _ => True
  end.
Definition piece_ok (p : piece) : Prop :=
  match p with Lit c => c <> 0 /\ c <> 37 | Percent => True | Conv _ w c => 0 <= w < 2 ^ 31 /\ conv_ok c end.

(** The buffer of 12 bytes holds every number. *)
Lemma put_number_digits base uc m (p : nat) pre num :
  1 < base -> (0 < m <= 10)%nat -> 2 ^ 32 <= base ^ Z.of_nat m -> 0 <= num < 2 ^ 32 ->
  (p = O /\ pre = [] \/ p = 1%nat /\ pre = [45]) ->
  exists bf, ui2a num base uc (put 0 pre bf_start) (Z.of_nat p) = Some bf /\
    cstr bf = pre ++ (digit_char uc <$> numeral m base num).
Proof.
  intros Hb Hm H32 Hn Hp.
  destruct (ui2a_digits_of base uc Hb num (put 0 pre bf_start) p m) as (k & Hk & _ & Hs & En & Eu);
    [done|lia|lia|lia|destruct Hp as [[-> ->]|[-> ->]];
       [change (length (put 0 [] bf_start)) with 12%nat|change (length (put 0 [45] bf_start)) with 12%nat]; lia|].
  eexists. split; [exact Eu|]. pose proof (digits_no_nul uc base (S k) num Hb ltac:(lia)) as Hd. rewrite <- En in Hd.
  set (ds := digit_char uc <$> numeral m base num) in *. destruct Hp as [[-> ->]|[-> ->]].
  - change (put 0 [] bf_start) with bf_start. unfold put. cbn [take app]. rewrite <- app_assoc. by apply cstr_app_nul.
  - unfold put at 1. change (take 1 (put 0 [45] bf_start)) with [45]. cbn [app cstr]. change (45 =? 0) with false. cbv iota.
    f_equal. rewrite <- app_assoc. by apply cstr_app_nul.
Qed.

Lemma i2a_spec n : - 2 ^ 31 < n < 2 ^ 31 -> exists bf, i2a n bf_start 0 = Some bf /\ cstr bf = signed_decimal n.
Proof.
  intros Hn. unfold i2a, signed_decimal. destruct (Z.ltb_spec n 0).
  - destruct (Z.eqb_spec n (- 2 ^ 31)); [lia|]. rewrite u32_id by lia.
    apply (put_number_digits 10 false 10 1 [45] (- n)); lia || auto.
  - rewrite u32_id by lia. apply (put_number_digits 10 false 10 0 [] n); lia || auto.
Qed.

Lemma ui2a_decimal n : 0 <= n < 2 ^ 32 -> exists bf, ui2a n 10 false bf_start 0 = Some bf /\ cstr bf = decimal n.
Proof. intros Hn. apply (put_number_digits 10 false 10 0 [] n); lia || auto. Qed.

Lemma ui2a_hexadecimal uc n :
  0 <= n < 2 ^ 32 -> exists bf, ui2a n 16 uc bf_start 0 = Some bf /\ cstr bf = hexadecimal uc n.
Proof. intros Hn. apply (put_number_digits 16 uc 8 0 [] n); lia || auto. Qed.

Lemma putchw_width_spec p n : Z.to_nat (putchw_width n p) = Z.to_nat (n - Z.of_nat (length p)).
Proof.
  revert n. induction p as [|c p IH]; intros n; cbn [putchw_width length]; [f_equal; lia|].
  destruct (Z.ltb_spec 0 n); [rewrite IH|]; lia.
Qed.

(** A number of up to ten decimal digits has a leading digit that is not 0, unless it is 0. *)
Lemma decimal_digits n :
  0 < n < 2 ^ 32 ->
  exists k d ds, numeral 10 10 n = d :: ds /\ 0 < d < 10 /\ Forall (fun d => 0 <= d < 10) ds /\
    fold_left (fun v d => v * 10 + d) (d :: ds) 0 = n /\ length ds = k /\ (k < 10)%nat.
Proof.
  intros Hn. destruct (ui2a_digits_of 10 false ltac:(lia) n (repeat 0 12) 0 10) as (k & Hk & Hl & Hs & En & _);
    [lia..|change (length (repeat 0 12)) with 12%nat; lia|].
  exists k. eexists _, _. split; [rewrite En; reflexivity|].
  pose proof (low_digits_range 10 ltac:(lia) (S k) n ltac:(lia)) as Hr.
  pose proof (low_digits_value 10 ltac:(lia) (S k) n 0 ltac:(lia)) as Hv. cbn [low_digits] in Hr, Hv.
  apply Forall_cons in Hr as [Hd Hr]. split; [|split; [done|split; [etransitivity; [exact Hv|lia]|split; [apply length_low_digits|done]]]].
  split; [|lia]. destruct Hl as [Hl| ->]; [apply Z.div_str_pos; pose proof (base_pow_pos 10 ltac:(lia) k); lia|].
  change (10 ^ Z.of_nat 0) with 1. rewrite Z.div_1_r. lia.
Qed.

Lemma fold_digits_ge ds num : Forall (fun d => 0 <= d < 10) ds -> 0 <= num -> num <= fold_left (fun v d => v * 10 + d) ds num.
Proof.
  intros F. revert num. induction F as [|d ds Hd _ IH]; intros num Hn; cbn; [lia|]. etransitivity; [|apply IH]; lia.
Qed.

Lemma a2d_digit d : 0 <= d < 10 -> a2d (digit_char false d) = d.
Proof.
  intros Hd. unfold a2d, digit_char. destruct (Z.ltb_spec d 10); [|lia].
  destruct (Z.leb_spec 48 (d + 48)); [|lia]. destruct (Z.leb_spec (d + 48) 57); [cbn; lia|lia].
Qed.

(** A decimal number in a format is read up to the letter behind it. *)
Lemma a2i_digits ds f d c rest num :
  Forall (fun d => 0 <= d < 10) (d :: ds) -> 0 <= num -> fold_left (fun v d => v * 10 + d) (d :: ds) num < 2 ^ 31 ->
  a2d c < 0 \/ 10 < a2d c -> (length ds + 1 < f)%nat ->
  a2i_loop f (digit_char false d) (Some ((digit_char false <$> ds) ++ c :: rest)) 10 num =
    Some (c, Some rest, fold_left (fun v d => v * 10 + d) (d :: ds) num).
Proof.
  revert f d num. induction ds as [|e ds IH]; intros f d num F Hn Hv Hc Hf; (destruct f as [|f]; [cbn in Hf; lia|]);
    apply Forall_cons in F as [Hd F]; cbn [a2i_loop]; rewrite a2d_digit by done;
    pose proof (fold_digits_ge _ (num * 10 + d) F ltac:(lia)) as Hg; cbn [fold_left] in Hv;
    (destruct (Z.ltb_spec d 0); [lia|]); (destruct (Z.ltb_spec 10 d); [lia|]);
    (destruct (Z.ltb_spec (num * 10 + d) (2 ^ 31)); [|cbn [fold_left] in Hg; lia]).
  - cbn [fmap list_fmap app mbind option_bind get_char]. destruct f as [|f]; [cbn in Hf; lia|]. cbn [a2i_loop].
    destruct (Z.ltb_spec (a2d c) 0); [done|]. by destruct (Z.ltb_spec 10 (a2d c)); [|lia].
  - cbn [fmap list_fmap app mbind option_bind get_char]. apply (IH f e (num * 10 + d)); try done; [lia|cbn in Hf; lia].
Qed.

Definition field_width (w : Z) : list Z := if w =? 0 then [] else decimal w.

Lemma letter_range c : letter c = 117 \/ letter c = 100 \/ letter c = 120 \/ letter c = 88 \/ letter c = 99 \/ letter c = 115.
Proof. destruct c as [|?|[]|?|?]; cbn; tauto. Qed.

Section Printing.
Context {S : Type} (putf : Z -> prog S unit).

Lemma put_all_app a b s : put_all putf (a ++ b) s = (put_all putf a;; put_all putf b) s.
Proof.
  revert s. induction a as [|c a IH]; intros s; [done|]. cbn [put_all app]. rewrite bind_assoc.
  apply bind_cong. intros [] t. apply IH.
Qed.

Lemma putchw_padded w z s t : putchw putf w z s t = put_all putf (padded w z s) t.
Proof. unfold putchw, padded. by rewrite put_all_app, putchw_width_spec. Qed.

Lemma put_number_ok w lz o s t :
  (exists bf, o = Some bf /\ cstr bf = s) -> put_number putf w lz o t = put_all putf (padded w lz s) t.
Proof. intros (bf & -> & <-). unfold put_number. rewrite bind_Some. apply putchw_padded. Qed.

(** The field width is read up to the letter, and does not begin with 0. *)
Lemma width_read w cv rest :
  0 <= w < 2 ^ 31 ->
  exists ch fmt, get_char (field_width w ++ letter cv :: rest) = (ch, fmt) /\ ch <> 48 /\
    forall s : S, (if (48 <=? ch) && (ch <=? 57) then fmt ← of_option fmt; of_option (a2i ch fmt 10) else mret (ch, fmt, 0)) s =
      Ret (letter cv, Some rest, w) s.
Proof.
  intros Hw. unfold field_width. destruct (Z.eqb_spec w 0) as [->|].
  - eexists _, _. split; [reflexivity|]. pose proof (letter_range cv) as Hl. split; [lia|]. intros s.
    destruct (Z.leb_spec 48 (letter cv)); destruct (Z.leb_spec (letter cv) 57); (lia || done).
  - destruct (decimal_digits w ltac:(lia)) as (k & d & ds & Ed & Hd & Hr & Hv & Hk & Hk10).
    unfold decimal. rewrite Ed. cbn [fmap list_fmap app get_char]. eexists _, _. split; [reflexivity|].
    assert (digit_char false d = d + 48) as Hc by (unfold digit_char; destruct (Z.ltb_spec d 10); lia).
    split; [lia|]. intros s. rewrite Hc.
    destruct (Z.leb_spec 48 (d + 48)); [|lia]. destruct (Z.leb_spec (d + 48) 57); [|lia]. cbn [andb]. rewrite bind_Some, <- Hc.
    unfold a2i. change (list_fmap Z Z (digit_char false) ds) with (digit_char false <$> ds).
    rewrite (a2i_digits ds _ d (letter cv) rest 0).
    + by rewrite Hv.
    + apply Forall_cons_2; [|exact Hr]. split; [apply Z.lt_le_incl|]; apply Hd.
    + done.
    + rewrite Hv. apply Hw.
    + destruct (letter_range cv) as [->|[->|[->|[->|[->| ->]]]]]; vm_compute; auto.
    + rewrite length_app, length_fmap. cbn [length]. lia.
Qed.

Lemma piece_printed p f rest va s :
  piece_ok p ->
  tfp_loop putf (Datatypes.S f) (Some (fmt_of p ++ rest)) (args_of p ++ va) s =
  (put_all putf (text_of p);; tfp_loop putf f (Some rest) va) s.
Proof.
  intros Hp. cbn [tfp_loop]. rewrite bind_Some. destruct p as [c| |z w cv].
  - cbn [fmt_of app get_char args_of text_of put_all]. destruct Hp as [H0 H37].
    rewrite (proj2 (Z.eqb_neq _ _) H0), (proj2 (Z.eqb_neq _ _) H37). cbn [negb]. by rewrite bind_assoc.
  - cbn [args_of text_of put_all]. rewrite bind_assoc. reflexivity.
  - destruct Hp as [Hw Hc]. destruct (width_read w cv rest Hw) as (ch & fmt & Eg & H48 & Er).
    cbn [fmt_of app get_char args_of]. rewrite <- !app_assoc. fold (field_width w).
    change (37 =? 0) with false. change (37 =? 37) with true. cbn [negb]. rewrite bind_Some.
    transitivity ((if letter cv =? 0 then mret tt else
      (match cv with
       | Cu n => put_number putf w z (ui2a (u32 n) 10 false bf_start 0)
       | Cd n => put_number putf w z (i2a n bf_start 0)
       | Cx up n => put_number putf w z (ui2a (u32 n) 16 up bf_start 0)
       | Cc n => putf ((n + 128) mod 256 - 128)
       | Cs str => putchw putf w false str
       end);; tfp_loop putf f (Some rest) va) s).
    { destruct z; cbn [app get_char].
      - change (48 =? 48) with true. cbv iota. rewrite bind_assoc, bind_Some, bind_mret, Eg. step (Er s).
        destruct cv as [|?|[]|?|?]; reflexivity.
      - rewrite Eg. rewrite (proj2 (Z.eqb_neq _ _) H48). rewrite bind_mret. step (Er s).
        destruct cv as [|?|[]|?|?]; reflexivity. }
    assert (letter cv =? 0 = false) as -> by (destruct cv as [|?|[]|?|?]; reflexivity). cbn [text_of].
    cbn [conv_ok] in Hc.
    unfold mbind, prog_bind. destruct cv as [n|n|up n|n|str]; cbn [conv_ok] in Hc.
    + by rewrite (u32_id n Hc), (put_number_ok w z _ _ _ (ui2a_decimal n Hc)).
    + by rewrite (put_number_ok w z _ _ _ (i2a_spec n Hc)).
    + by rewrite (u32_id n Hc), (put_number_ok w z _ _ _ (ui2a_hexadecimal up n Hc)).
    + rewrite Z.mod_small by lia. replace (n + 128 - 128) with n by lia. cbn [put_all]. unfold mbind, prog_bind.
      by destruct (putf n s) as [[] ?| | |].
    + by rewrite putchw_padded.
Qed.

Lemma tfp_format_prints_all ps s :
  Forall piece_ok ps ->
  tfp_format putf (concat (fmt_of <$> ps)) (concat (args_of <$> ps)) s = put_all putf (concat (text_of <$> ps)) s.
Proof.
  intros F. unfold tfp_format. assert (forall f s, (length ps < f)%nat ->
    tfp_loop putf f (Some (concat (fmt_of <$> ps))) (concat (args_of <$> ps)) s = put_all putf (concat (text_of <$> ps)) s) as H.
  { clear s. induction F as [|p ps Hp F IH]; intros f s Hf; (destruct f as [|f]; [cbn in Hf; lia|]); [reflexivity|].
    cbn [fmap list_fmap concat]. rewrite (piece_printed p f _ _ s Hp), put_all_app.
    apply bind_cong. intros [] t. apply IH. cbn in Hf. lia. }
  apply H. clear. induction ps as [|p ps IH]; cbn [fmap list_fmap concat length] in *; [lia|]. rewrite length_app.
  assert (1 <= length (fmt_of p))%nat by (destruct p; cbn; lia). lia.
Qed.
(** C34: A format made of characters, percent signs and conversions, called with
    arguments of the right types, puts out exactly the text it spells: every unsigned,
    signed, hexadecimal, character and string conversion, in its field.  The
    twelve bytes for a number are always enough. *)
Theorem tfp_format_prints ps s :
  Forall piece_ok ps ->
  tfp_format putf (concat (fmt_of <$> ps)) (concat (args_of <$> ps)) s = put_all putf (concat (text_of <$> ps)) s.
Proof. apply tfp_format_prints_all. Qed.
End Printing.

(** * Writing to a buffer *)

Lemma put_all_putcp text : forall b (p : nat),
  (p <= length b)%nat ->
  put_all putcp text (b, Z.of_nat p) =
    if decide (p + length text <= length b)%nat
    then Ret tt (put p text b, Z.of_nat (p + length text)) else Undef.
Proof.
  induction text as [|c text IH]; intros b p Hp; cbn [put_all length].
  - rewrite Nat.add_0_r, decide_True by done. unfold put. cbn [length app]. by rewrite Nat.add_0_r, take_drop.
  - destruct (decide (p < length b)%nat) as [Hlt|Hge].
    + assert (putcp c (b, Z.of_nat p) = Ret tt (put p [c] b, Z.of_nat (S p))) as E.
      { unfold putcp. rewrite zset_put by done. do 2 f_equal. lia. }
      step E. assert (length (put p [c] b) = length b) as El by (apply length_put; cbn; lia).
      rewrite IH by lia. rewrite El. repeat case_decide; try lia; [|done].
      f_equal. f_equal; [|lia]. replace (S p) with (p + length [c])%nat by (cbn; lia). rewrite put_app by (cbn; lia). done.
    + assert (putcp c (b, Z.of_nat p) = Undef) as E.
      { unfold putcp, zset. rewrite (proj2 (Z.ltb_ge (Z.of_nat p) _)) by lia. by rewrite andb_false_r. }
      rewrite (bind_Undef _ _ _ E). by rewrite decide_False by lia.
Qed.

(** The text of the format and its NUL are written, when the buffer has room for them; nothing
    looks at the size of the buffer, so that a longer text is written beyond its end. *)
Theorem tfp_sprintf_writes ps b :
  Forall piece_ok ps ->
  let text := concat (text_of <$> ps) in
  tfp_sprintf (concat (fmt_of <$> ps)) (concat (args_of <$> ps)) b =
    if decide (length text < length b)%nat then Ret tt (put 0 (text ++ [0]) b, Z.of_nat (length text) + 1) else Undef.
Proof.
  intros F text. unfold tfp_sprintf. pose proof (tfp_format_prints_all putcp ps (b, 0) F) as Ef. fold text in Ef.
  pose proof (put_all_putcp text b 0 ltac:(lia)) as Ep. change (Z.of_nat 0) with 0 in Ep. rewrite Ep in Ef. cbn [Nat.add] in Ef.
  destruct (decide (length text <= length b)%nat).
  - step Ef. pose proof (put_all_putcp [0] (put 0 text b) (length text)) as Ez.
    rewrite length_put in Ez by (cbn; lia). specialize (Ez ltac:(lia)). cbn [put_all length] in Ez.
    assert (putcp 0 (put 0 text b, Z.of_nat (length text)) = (putcp 0;; mret tt) (put 0 text b, Z.of_nat (length text))) as ->.
    { unfold mbind, prog_bind. by destruct (putcp 0 _) as [[] ?| | |]. }
    rewrite Ez. repeat case_decide; try lia; [|done]. f_equal. f_equal; [|lia].
    rewrite (put_app 0 text [0]) by (cbn; lia). done.
  - rewrite (bind_Undef _ _ _ Ef). by rewrite decide_False by lia.
Qed.

(** * The formatter always ends *)

Lemma get_char_shorter l c p : get_char l = (c, p) -> c = 0 \/ exists l', p = Some l' /\ (length l' < length l)%nat.
Proof. destruct l as [|d l]; cbn; intros [= <- <-]; [by left|right]. exists l. split; [done|lia]. Qed.

Lemma a2i_loop_shorter f ch l base num c src n :
  a2i_loop f ch (Some l) base num = Some (c, src, n) -> c = 0 \/ exists l', src = Some l' /\ (length l' <= length l)%nat.
Proof.
  revert ch l num. induction f as [|f IH]; intros ch l num E; [done|]. cbn [a2i_loop] in E.
  assert (Some (ch, Some l, num) = Some (c, src, n) -> c = 0 \/ exists l', src = Some l' /\ (length l' <= length l)%nat)
    as Hend by (intros [= <- <- <-]; right; by exists l).
  destruct (a2d ch <? 0); [by apply Hend|]. destruct (base <? a2d ch); [by apply Hend|].
  destruct (_ <? 2 ^ 31); [|done]. cbn [mbind option_bind] in E. destruct l as [|d l]; cbn [get_char] in E.
  - destruct f as [|f]; [done|]. cbn [a2i_loop] in E. change (a2d 0 <? 0) with true in E. injection E as <- _ _. by left.
  - apply IH in E as [?|(l' & -> & ?)]; [by left|right]. exists l'. split; [done|cbn; lia].
Qed.

Section Ends.
Context {S : Type} (I : S -> Prop) (putf : Z -> prog S unit) (Hputf : forall c, Total I (putf c)).

Lemma put_all_total s : Total I (put_all putf s).
Proof. induction s as [|c s IH]; cbn [put_all]; [apply total_ret|]. apply total_bind; [apply Hputf|done]. Qed.

Lemma putchw_total n z s : Total I (putchw putf n z s).
Proof. apply total_bind; intros; apply put_all_total. Qed.

Lemma put_number_total w z o : Total I (put_number putf w z o).
Proof. apply total_bind; [apply total_option|intros; apply putchw_total]. Qed.

Lemma va_int_total va : Total I (va_int va : prog S _).
Proof. destruct va as [|[]]; (apply total_ret || apply total_undef). Qed.

Lemma va_str_total va : Total I (va_str va : prog S _).
Proof. destruct va as [|[]]; (apply total_ret || apply total_undef). Qed.

Lemma total_known {A B} (a : A) (k : A -> prog S B) : Total I (k a) -> Total I (mret a ≫= k).
Proof. intros H s. exact (H s). Qed.

Lemma total_unknown {A B} (k : A -> prog S B) : Total I (of_option None ≫= k).
Proof. by intros s. Qed.

(** What is known of a character of the format and of the pointer behind it. *)
Definition behind (n : nat) (c : Z) (p : option (list Z)) : Prop := c = 0 \/ exists l, p = Some l /\ (length l < n)%nat.

Lemma behind_le n n' c p : behind n c p -> (n <= n')%nat -> behind n' c p.
Proof. intros [->|(l & -> & H)] Hn; [by left|right]. exists l. split; [done|lia]. Qed.

Lemma tfp_loop_total f l va : (length l < f)%nat -> Total I (tfp_loop putf f (Some l) va).
Proof.
  revert l va. induction f as [|f IH]; intros l va Hf; [lia|]. cbn [tfp_loop]. apply (total_known l).
  destruct (get_char l) as [ch p] eqn:E. destruct (get_char_shorter _ _ _ E) as [->|(l1 & -> & H1)]; [apply total_ret|].
  destruct (ch =? 0); [apply total_ret|]. destruct (ch =? 37); cbn [negb].
  2: { apply total_bind; [apply Hputf|intros _; apply IH; lia]. }
  apply (total_known l1). clear E ch. destruct (get_char l1) as [ch p] eqn:E. apply get_char_shorter in E.
  assert (B : behind f ch p) by (eapply behind_le; [exact E|lia]). clear E.
  match goal with |- Total I (_ ≫= ?k) => assert (K : forall c q, behind f c q -> Total I (k (c, q))) end.
  2: { destruct (Z.eqb_spec ch 48) as [->|]; [|by apply (total_known (ch, p)), K].
    destruct B as [B|(l2 & -> & H2)]; [done|].
    match goal with |- Total I (_ ≫= ?k) => enough (Total I (k (get_char l2))) as H by exact H end.
    destruct (get_char l2) as [c q] eqn:E. apply K. eapply behind_le; [by apply get_char_shorter|lia]. }
  intros c q B'. cbv beta iota.
  match goal with |- Total I (_ ≫= ?k) => assert (K : forall c q w, behind f c q -> Total I (k (c, q, w))) end.
  2: { destruct ((48 <=? c) && (c <=? 57)) eqn:Ed; [|by apply (total_known (c, q, 0)), K].
    destruct B' as [->|(l2 & -> & H2)]; [done|].
    match goal with |- Total I (_ ≫= ?k) => enough (Total I (of_option (a2i c l2 10) ≫= k)) as H by exact H end.
    destruct (a2i c l2 10) as [[[c3 q3] w]|] eqn:Ea; [|apply total_unknown].
    apply (total_known (c3, q3, w)), K. apply a2i_loop_shorter in Ea as [->|(l3 & -> & H3)]; [by left|right].
    exists l3. split; [done|lia]. }
  clear B' c q. intros c q w [->|(l3 & -> & H3)]; cbv beta iota; [apply total_ret|].
  repeat match goal with |- Total I (if ?b then _ else _) => destruct b end;
    repeat first [apply total_ret | apply va_int_total | apply va_str_total | apply put_number_total | apply putchw_total
      | apply Hputf | apply IH; lia | apply total_bind; [|intros [? ?]] | apply total_bind; [|intros _]].
Qed.

(** A format and arguments of any kind are worked off to the end. *)
Theorem tfp_format_ends fmt va : Total I (tfp_format putf fmt va).
Proof. apply tfp_loop_total. lia. Qed.
End Ends.

(** The width of "%1ad" is 20: [a2i] takes a digit equal to the base. *)
Example hex_width : a2i 49 [97; 100] 10 = Some (100, Some [], 20).
Proof. reflexivity. Qed.

(** The most negative number has no negation to print. *)
Lemma i2a_min bf p : i2a (- 2 ^ 31) bf p = None.
Proof. reflexivity. Qed.

Lemma tfp_format_prints_witness :
  let put c : prog (list Z) unit := modify (fun out => out ++ [c]) in
  tfp_format put (chars "%05d/%x"%string) [VInt (-42); VInt 255] [] = Ret tt (chars "00-42/ff"%string).
Proof.
  intros put. etransitivity; [apply (tfp_format_prints put [Conv true 5 (Cd (-42)); Lit 47; Conv false 0 (Cx false 255)] [])|].
  - repeat constructor; cbn; lia.
  - vm_compute. reflexivity.
Defined.
