(* ===== verification/MyLine.v ===== *)
(** The line editor of the shell: [read_input] of [src/mysh/shell/shell.c] with
    the functions for its keys, on the buffers of the shell ([shell.h]), the terminal
    ([common/uart.c]) and the string functions of [common/lib_mem.c].

    A buffer is the list of its [char]s, which are signed.  The terminal is what was put out
    so far, and the bytes that are still to come; behind them [getchar] returns EOF. *)

From stdpp Require Import strings.
From S2P Require Import Prelude MyPrintf.
#[local] Open Scope Z_scope.

(** * The state of the shell *)

Definition COMMAND_BUF_SIZE : Z := 2048.
Definition ARG_MAX_COUNT : Z := 10.
Definition HISTORY_MAXITEMS : Z := 50.
Definition MAX_KEY_WORD_SIZE : Z := 32.
Definition MAX_KEY_WORD_CNT : Z := 1024.

Record cmd_records_t := mkRecords { cmd_idx : Z; level : Z; cmd_buf : list (list Z) }.
Record shell_keywords_t := mkKeywords { keywords_cnt : Z; keywords_buf : list (list Z) }.

(** The input line in front of the cursor, [buf] up to [pi], and behind it, the
    end of [exbuf] from [piex + 1] on: [input], [i], [expand_buf] and [ie] of read_input. *)
Record Line := mkLine { buf : list Z; pi : Z; exbuf : list Z; piex : Z }.

Record Shell := mkShell {
  stdin : list Z;
  screen : list Z;
  shell_should_exit : bool;
  cmd_records : cmd_records_t;
  shell_keywords : shell_keywords_t;
  prompt : list Z;
  cmd_tbl_items : Z;
  line : Line
}.

Definition set_stdin x s := mkShell x (screen s) (shell_should_exit s) (cmd_records s) (shell_keywords s) (prompt s) (cmd_tbl_items s) (line s).
Definition set_screen x s := mkShell (stdin s) x (shell_should_exit s) (cmd_records s) (shell_keywords s) (prompt s) (cmd_tbl_items s) (line s).
Definition set_exit x s := mkShell (stdin s) (screen s) x (cmd_records s) (shell_keywords s) (prompt s) (cmd_tbl_items s) (line s).
Definition set_records x s := mkShell (stdin s) (screen s) (shell_should_exit s) x (shell_keywords s) (prompt s) (cmd_tbl_items s) (line s).
Definition set_keywords x s := mkShell (stdin s) (screen s) (shell_should_exit s) (cmd_records s) x (prompt s) (cmd_tbl_items s) (line s).
Definition set_prompt x s := mkShell (stdin s) (screen s) (shell_should_exit s) (cmd_records s) (shell_keywords s) x (cmd_tbl_items s) (line s).
Definition set_items x s := mkShell (stdin s) (screen s) (shell_should_exit s) (cmd_records s) (shell_keywords s) (prompt s) x (line s).
Definition set_line x s := mkShell (stdin s) (screen s) (shell_should_exit s) (cmd_records s) (shell_keywords s) (prompt s) (cmd_tbl_items s) x.

Definition set_buf x (l : Line) := mkLine x (pi l) (exbuf l) (piex l).
Definition set_pi x (l : Line) := mkLine (buf l) x (exbuf l) (piex l).
Definition set_exbuf x (l : Line) := mkLine (buf l) (pi l) x (piex l).
Definition set_piex x (l : Line) := mkLine (buf l) (pi l) (exbuf l) x.

(** * The terminal and the string functions *)

Definition shell_putchar (ch : Z) : prog Shell unit := modify (fun s => set_screen (screen s ++ [ch]) s).

(** A byte as a [char]; EOF is -1. *)
Definition as_char (b : Z) : Z := (b + 128) mod 256 - 128.

Definition shell_getch : prog Shell Z :=
  l ← gets stdin;
  match l with
  | [] => mret (-1)
  | b :: l => modify (set_stdin l);; mret (as_char b)
  end.

Definition shell_printf (fmt : list Z) (va : list va_value) : prog Shell unit := tfp_format shell_putchar fmt va.

(** No NUL in the array is a read behind it. *)
Fixpoint sh_strlen (str : list Z) : option Z :=
  match str with
  | [] => None
  | c :: str => if c =? 0 then Some 0 else Z.succ <$> sh_strlen str
  end.

(** The first [size] elements of [src], to the start of [dst]. *)
Definition sh_memcpy (dst src : list Z) (size : Z) : option (list Z) :=
  if (0 <=? size) && (size <=? Z.of_nat (length dst)) && (size <=? Z.of_nat (length src))
  then Some (put 0 (take (Z.to_nat size) src) dst) else None.

Definition zeros (n : Z) : list Z := replicate (Z.to_nat n) 0.

(** * The buffers of the line *)

Definition the_line : prog Shell Line := gets line.
Definition upd_line (f : Line -> Line) : prog Shell unit := modify (fun s => set_line (f (line s)) s).

Definition buf_at (i : Z) : prog Shell Z := l ← the_line; of_option (zget (buf l) i).
Definition exbuf_at (i : Z) : prog Shell Z := l ← the_line; of_option (zget (exbuf l) i).
Definition put_buf (i x : Z) : prog Shell unit := l ← the_line; b ← of_option (zset (buf l) i x); upd_line (set_buf b).
Definition put_exbuf (i x : Z) : prog Shell unit := l ← the_line; b ← of_option (zset (exbuf l) i x); upd_line (set_exbuf b).

(** [for (ii = ...; exbuf[ii] > 0; ii++)]: one round more than the buffer has bytes is enough. *)
Definition TAIL_FUEL : nat := 2049.
Fixpoint tail_loop (fuel : nat) (f : Z -> prog Shell unit) (ii : Z) : prog Shell unit :=
  match fuel with
  | O => nofuel
  | S fuel => c ← exbuf_at ii; if 0 <? c then f c;; tail_loop fuel f (ii + 1) else mret tt
  end.

(** The loop over the characters behind the cursor. *)
Definition for_tail (f : Z -> prog Shell unit) : prog Shell unit :=
  l ← the_line; tail_loop TAIL_FUEL f (piex l + 1).

Definition times (n : Z) (c : Z) : prog Shell unit := put_all shell_putchar (replicate (Z.to_nat n) c).

(** * The keys *)

Definition key_backspace_process : prog Shell unit :=
  l ← the_line;
  if 0 <? pi l then
    shell_putchar 8;;
    c ← exbuf_at (piex l + 1);
    (if 0 <? c then
       for_tail shell_putchar;;
       shell_putchar 32;;
       for_tail (fun _ => shell_putchar 8);;
       shell_putchar 8
     else
       shell_putchar 32;;
       shell_putchar 8);;
    put_buf (pi l) 0;;
    upd_line (set_pi (pi l - 1))
  else mret tt.

Definition key_left_process : prog Shell unit :=
  l ← the_line;
  if 0 <? pi l then
    shell_putchar 8;;
    upd_line (set_pi (pi l - 1));;
    c ← buf_at (pi l - 1);
    put_exbuf (piex l) c;;
    upd_line (set_piex (piex l - 1));;
    put_buf (pi l - 1) 0
  else mret tt.

Definition key_right_process : prog Shell unit :=
  l ← the_line;
  c ← exbuf_at (piex l + 1);
  if 0 <? c then
    shell_putchar c;;
    put_buf (pi l) c;;
    put_exbuf (piex l + 1) 0;;
    upd_line (set_pi (pi l + 1));;
    upd_line (set_piex (piex l + 1))
  else mret tt.

Definition key_del_process : prog Shell unit :=
  l ← the_line;
  c ← exbuf_at (piex l + 1);
  if 0 <? c then key_right_process;; key_backspace_process else mret tt.

(** [%] of C truncates towards zero: the index is negative when [cmd_idx + offset] is. *)
Definition history_process (offset : Z) : prog Shell unit :=
  r ← gets cmd_records;
  let idx := Z.rem (cmd_idx r + offset) HISTORY_MAXITEMS in
  l ← the_line;
  times (pi l) 8;;
  times (pi l) 32;;
  for_tail (fun _ => shell_putchar 32);;
  times (pi l) 8;;
  for_tail (fun _ => shell_putchar 8);;
  upd_line (set_exbuf (zeros COMMAND_BUF_SIZE));;
  upd_line (set_piex (COMMAND_BUF_SIZE - 2));;
  h ← of_option (zget (cmd_buf r) idx);
  l ← the_line;
  b ← of_option (sh_memcpy (buf l) h COMMAND_BUF_SIZE);
  upd_line (set_buf b);;
  n ← of_option (sh_strlen b);
  upd_line (set_pi n);;
  put_all shell_putchar (take (Z.to_nat n) b).

(** * Completion *)

(** A pointer to a string, as the argument of a conversion. *)
Definition c_string (row : list Z) : option (list Z) := n ← sh_strlen row; Some (take (Z.to_nat n) row).

(** How far the two agree, from [t] on and below [len]. *)
Fixpoint agree_loop (fuel : nat) (t len : Z) (inp key : list Z) : option Z :=
  match fuel with
  | O => None
  | S f =>
      if t <? len then
        a ← zget inp t; b ← zget key t;
        if a =? b then agree_loop f (t + 1) len inp key else Some t
      else Some t
  end.

Fixpoint match_loop (n : nat) (i len : Z) (inp : list Z) (keys : list (list Z)) : option (list Z) :=
  match n with
  | O => Some []
  | S n =>
      key ← zget keys i;
      t ← agree_loop (S (Z.to_nat len)) 0 len inp key;
      r ← match_loop n (i + 1) len inp keys;
      Some (if t =? len then i :: r else r)
  end.

(** The indices that are stored, in their order; [idxs] has room for MAX_KEY_WORD_CNT of them. *)
Definition find_match (inp : list Z) (k : shell_keywords_t) : option (list Z) :=
  len ← sh_strlen inp;
  idxs ← match_loop (Z.to_nat (keywords_cnt k)) 0 len inp (keywords_buf k);
  if Z.of_nat (length idxs) <=? MAX_KEY_WORD_CNT then Some idxs else None.

(** The last word of [buf] in [tmp], its length, and the place of the blank in front of it. *)
Fixpoint last_word (n : nat) (i : Z) (b tmp : list Z) (itmp blank_pos : Z) : option (list Z * Z * Z) :=
  match n with
  | O => Some (tmp, itmp, blank_pos)
  | S n =>
      c ← zget b i;
      if c =? 32 then last_word n (i + 1) b tmp 0 i
      else tmp ← zset tmp itmp c; last_word n (i + 1) b tmp (itmp + 1) blank_pos
  end.

Fixpoint print_matches (idxs : list Z) (keys : list (list Z)) : prog Shell unit :=
  match idxs with
  | [] => mret tt
  | i :: idxs =>
      key ← of_option (zget keys i ≫= c_string);
      shell_printf (chars "%s  ") [VStr key];;
      print_matches idxs keys
  end.

Fixpoint type_rest (rest : list Z) : prog Shell unit :=
  match rest with
  | [] => mret tt
  | c :: rest =>
      l ← the_line;
      put_buf (pi l) c;;
      upd_line (set_pi (pi l + 1));;
      shell_putchar c;;
      type_rest rest
  end.

Definition auto_complete : prog Shell unit :=
  l ← the_line;
  k ← gets shell_keywords;
  w ← of_option (last_word (Z.to_nat (pi l)) 0 (buf l) (zeros COMMAND_BUF_SIZE) 0 (-1));
  let '(tmp, itmp, blank_pos) := w : list Z * Z * Z in
  tmp ← of_option (zset tmp itmp 0);
  idxs ← of_option (find_match tmp k);
  match idxs with
  | [] => mret tt
  | [i] =>
      key ← of_option (zget (keywords_buf k) i ≫= c_string);
      type_rest (drop (Z.to_nat (pi l - (blank_pos + 1))) key);;
      l ← the_line;
      put_buf (pi l) 0
  | _ =>
      shell_printf [13; 10] [];;
      print_matches idxs (keywords_buf k);;
      p ← gets prompt;
      p ← of_option (c_string p);
      b ← of_option (c_string (buf l));
      shell_printf ([13; 10] ++ chars "%s%s") [VStr p; VStr b]
  end.

(** * The loop *)

Definition KEY_UP : Z := 65.
Definition KEY_DOWN : Z := 66.
Definition KEY_RIGHT : Z := 67.
Definition KEY_LEFT : Z := 68.
Definition KEY_DEL : Z := 51.
Definition KEY_BACKSPACE : Z := 127.

(** An escape sequence behind its first byte, with the offset in the history it leaves. *)
Definition escape (offset : Z) : prog Shell Z :=
  c ← shell_getch;
  if c =? 91 then
    c ← shell_getch;
    if c =? KEY_UP then
      r ← gets cmd_records;
      let offset := offset - 1 in
      let offset := if level r <? - offset then - level r else offset in
      history_process offset;; mret offset
    else if c =? KEY_DOWN then
      let offset := offset + 1 in
      let offset := if -1 <=? offset then -1 else offset in
      history_process offset;; mret offset
    else if c =? KEY_LEFT then key_left_process;; mret offset
    else if c =? KEY_RIGHT then key_right_process;; mret offset
    else if c =? KEY_DEL then shell_getch;; key_del_process;; mret offset
    else mret offset
  else mret offset.

(** A character that is typed, put in at the cursor. *)
Definition type_char (c : Z) : prog Shell unit :=
  shell_putchar c;;
  l ← the_line;
  put_buf (pi l) c;;
  upd_line (set_pi (pi l + 1));;
  for_tail shell_putchar;;
  for_tail (fun _ => shell_putchar 8).

(** The text behind the cursor, to the end of the input. *)
Definition append_tail : prog Shell unit :=
  for_tail (fun c => l ← the_line; put_buf (pi l) c;; upd_line (set_pi (pi l + 1)));;
  l ← the_line;
  put_buf (pi l) 0.

Definition too_long : list Z := chars "error! input exceed COMMAND_BUF_SIZE(%d)" ++ [10].

Fixpoint read_loop (fuel : nat) (offset : Z) : prog Shell Z :=
  match fuel with
  | O => nofuel
  | S f =>
      c ← shell_getch;
      if (c =? 10) || (c =? 13) then
        shell_putchar 13;; shell_putchar 10;; append_tail;; mret 0
      else if c =? KEY_BACKSPACE then key_backspace_process;; read_loop f offset
      else if c =? 27 then offset ← escape offset; read_loop f offset
      else if c =? 9 then
        l ← the_line; put_buf (pi l) 0;; auto_complete;; read_loop f offset
      else
        l ← the_line;
        if COMMAND_BUF_SIZE <=? pi l then
          shell_printf too_long [VInt COMMAND_BUF_SIZE];; mret (-1)
        else type_char c;; read_loop f offset
  end.

(** Every round reads a byte, or, behind the end of the input, types one more EOF. *)
Definition read_fuel (s : Shell) : nat := (length (stdin s) + 2050)%nat.

(** The caller has cleared the buffer [input]. *)
Definition read_input : prog Shell Z :=
  upd_line (fun l => mkLine (buf l) 0 (zeros COMMAND_BUF_SIZE) (COMMAND_BUF_SIZE - 2));;
  fuel ← gets read_fuel;
  read_loop fuel 0.
