(* ===== verification/MyEdit.v ===== *)
(** The line editor of the shell keeps the line a user edits and shows it:
    the functions of [MyLine] against a line of text with a cursor and a
    terminal row. *)

From S2P Require Import Prelude MyPrintf MyLine.
#[local] Open Scope Z_scope.

(** * Buffers cut at an index *)

Lemma zget_mid {A} (a b : list A) x i : i = Z.of_nat (length a) -> zget (a ++ x :: b) i = Some x.
Proof. intros ->. rewrite zget_nat. by rewrite lookup_app_r, Nat.sub_diag by lia. Qed.

Lemma zset_mid {A} (a b : list A) x y i : i = Z.of_nat (length a) -> zset (a ++ x :: b) i y = Some (a ++ y :: b).
Proof.
  intros ->. rewrite zset_nat by (rewrite length_app; cbn; lia). f_equal.
  by rewrite insert_app_r_alt, Nat.sub_diag by lia.
Qed.

Lemma zset_none {A} (a : list A) y i : Z.of_nat (length a) <= i -> zset a i y = None.
Proof. intros H. unfold zset. destruct (Z.ltb_spec i (Z.of_nat (length a))); [lia|]. by rewrite andb_false_r. Qed.

Lemma snoc_of {A} (l : list A) : (0 < length l)%nat -> exists l' x, l = l' ++ [x].
Proof. intros H. destruct (exists_last (l := l)) as (l' & x & ->); [intros ->; cbn in H; lia|]. by exists l', x. Qed.

Lemma sh_strlen_app s b : no_nul s -> sh_strlen (s ++ 0 :: b) = Some (Z.of_nat (length s)).
Proof.
  induction 1 as [|c s Hc _ IH]; [done|]. cbn [app sh_strlen length]. rewrite (proj2 (Z.eqb_neq _ _) Hc), IH. cbn.
  f_equal. lia.
Qed.

Lemma c_string_app s b : no_nul s -> c_string (s ++ 0 :: b) = Some s.
Proof. intros H. unfold c_string. rewrite sh_strlen_app by done. cbn. by rewrite Nat2Z.id, take_app_length. Qed.

(** * The line and its buffers *)

(** [l] is the text in front of the cursor and [r] the text behind it. *)
Definition holds (L : Line) (l r : list Z) : Prop :=
  exists pre post,
    L = mkLine (l ++ post) (Z.of_nat (length l)) (pre ++ r ++ [0]) (Z.of_nat (length pre) - 1) /\
    Z.of_nat (length l + length post) = 2048 /\ Z.of_nat (length pre + length r) = 2047 /\
    Z.of_nat (length l + length r) <= 2046 /\ Forall (fun c => 0 < c) r.

(** [m] puts out [d] and leaves the line [l], [r]. *)
Definition edits (m : prog Shell unit) (s : Shell) (d l r : list Z) : Prop :=
  exists L, m s = Ret tt (set_line L (set_screen (screen s ++ d) s)) /\ holds L l r.

Lemma putchar_run c s : shell_putchar c s = Ret tt (set_screen (screen s ++ [c]) s).
Proof. done. Qed.

Lemma put_all_run w s : put_all shell_putchar w s = Ret tt (set_screen (screen s ++ w) s).
Proof.
  revert s. induction w as [|c w IH]; intros s; [by destruct s; cbn; rewrite app_nil_r|].
  cbn [put_all]. step (putchar_run c s). rewrite IH. cbn. by rewrite <- app_assoc.
Qed.

Lemma tail_loop_run fuel f g r pre s :
  exbuf (line s) = pre ++ r ++ [0] -> Forall (fun c => 0 < c) r -> (length r < fuel)%nat ->
  (forall c s, f c s = Ret tt (set_screen (screen s ++ [g c]) s)) ->
  tail_loop fuel f (Z.of_nat (length pre)) s = Ret tt (set_screen (screen s ++ (g <$> r)) s).
Proof.
  intros E F Hf Hg. revert pre s fuel E Hf. induction F as [|c r Hc F IH]; intros pre s fuel E Hf;
    (destruct fuel as [|fuel]; [cbn in Hf; lia|]); cbn [tail_loop]; unfold exbuf_at, the_line;
    rewrite bind_assoc, bind_gets, E; cbn [app]; rewrite zget_mid, bind_Some by done.
  - destruct s. cbn. by rewrite app_nil_r.
  - destruct (Z.ltb_spec 0 c); [|lia]. rewrite (bind_Ret _ _ _ _ _ (Hg c s)).
    replace (Z.of_nat (length pre) + 1) with (Z.of_nat (length (pre ++ [c]))) by (rewrite length_app; cbn; lia).
    rewrite IH; [|cbn; by rewrite E, <- app_assoc|cbn in Hf; lia]. cbn. by rewrite <- app_assoc.
Qed.

Lemma TAIL_FUEL_enough n : Z.of_nat n <= 2047 -> (n < TAIL_FUEL)%nat.
Proof. intros H. apply Nat2Z.inj_lt. change (Z.of_nat TAIL_FUEL) with 2049. lia. Qed.

Lemma for_tail_run f g s l r :
  holds (line s) l r -> (forall c s, f c s = Ret tt (set_screen (screen s ++ [g c]) s)) ->
  for_tail f s = Ret tt (set_screen (screen s ++ (g <$> r)) s).
Proof.
  intros (pre & post & E & H1 & H2 & H3 & F) Hg. unfold for_tail, the_line. rewrite bind_gets, E. cbn [piex].
  replace (Z.of_nat (length pre) - 1 + 1) with (Z.of_nat (length pre)) by lia.
  apply tail_loop_run; [by rewrite E|done|apply TAIL_FUEL_enough; lia|done].
Qed.

Lemma set_line_id s : set_line (line s) s = s.
Proof. by destruct s. Qed.

Lemma fmap_const (c : Z) (r : list Z) : (fun _ => c) <$> r = replicate (length r) c.
Proof. induction r as [|x r IH]; [done|]. cbn. by f_equal. Qed.

(** * The steps of the keys *)

Lemma buf_at_run s i x : zget (buf (line s)) i = Some x -> buf_at i s = Ret x s.
Proof. intros E. unfold buf_at, the_line. by rewrite bind_gets, E. Qed.

Lemma exbuf_at_run s i x : zget (exbuf (line s)) i = Some x -> exbuf_at i s = Ret x s.
Proof. intros E. unfold exbuf_at, the_line. by rewrite bind_gets, E. Qed.

Lemma put_buf_run s i x b : zset (buf (line s)) i x = Some b -> put_buf i x s = Ret tt (set_line (set_buf b (line s)) s).
Proof. intros E. unfold put_buf, the_line. by rewrite bind_gets, E, bind_Some. Qed.

Lemma put_exbuf_run s i x b :
  zset (exbuf (line s)) i x = Some b -> put_exbuf i x s = Ret tt (set_line (set_exbuf b (line s)) s).
Proof. intros E. unfold put_exbuf, the_line. by rewrite bind_gets, E, bind_Some. Qed.

Lemma upd_line_run f s : upd_line f s = Ret tt (set_line (f (line s)) s).
Proof. done. Qed.

Lemma the_line_run s L : line s = L -> the_line s = Ret L s.
Proof. by intros <-. Qed.

Ltac fields := cbn [line set_line screen set_screen buf pi exbuf piex set_buf set_pi set_exbuf set_piex].

(** Lists whose lengths are compared. *)
Ltac lens := rewrite ?length_app, ?length_cons, ?length_nil in *; cbn [length] in *; lia.

(** The two lines have the same buffers. *)
Ltac same_line := unfold set_buf, set_pi, set_exbuf, set_piex; fields; f_equal; (reflexivity || lens || (rewrite <- !app_assoc; reflexivity)).

Lemma left_edits s l c r : 0 < c -> holds (line s) (l ++ [c]) r -> edits key_left_process s [8] l (c :: r).
Proof.
  intros Hc (pre & post & E & H1 & H2 & H3 & F). destruct (snoc_of pre) as (pre' & x & ->); [lens|].
  rewrite <- !app_assoc in E. cbn [app] in E. eexists. split.
  - unfold key_left_process. step (the_line_run s _ E). fields.
    destruct (Z.ltb_spec 0 (Z.of_nat (length (l ++ [c])))); [|lens]. step (putchar_run 8 s).
    step (upd_line_run (set_pi (Z.of_nat (length (l ++ [c])) - 1)) (set_screen (screen s ++ [8]) s)). fields. rewrite E. fields.
    erewrite bind_Ret; [|apply buf_at_run; fields; apply zget_mid; lens].
    erewrite bind_Ret; [|apply put_exbuf_run; fields; apply (zset_mid pre' (r ++ [0]) x c); lens].
    erewrite bind_Ret; [|apply upd_line_run]. fields.
    erewrite put_buf_run; [reflexivity|]. fields. apply zset_mid. lens.
  - exists pre', (0 :: post). split_and!; [|lens|lens|lens|by constructor].
    same_line.
Qed.

Lemma right_edits s l c r : holds (line s) l (c :: r) -> edits key_right_process s [c] (l ++ [c]) r.
Proof.
  intros (pre & post & E & H1 & H2 & H3 & F). apply Forall_cons in F as [Hc F].
  destruct post as [|x post]; [lens|]. cbn [app] in E. eexists. split.
  - unfold key_right_process. step (the_line_run s _ E). fields.
    erewrite bind_Ret; [|apply exbuf_at_run; rewrite E; fields; apply zget_mid; lens].
    destruct (Z.ltb_spec 0 c); [|lia]. step (putchar_run c s).
    erewrite bind_Ret; [|apply put_buf_run; fields; rewrite E; fields; apply zset_mid; lens]. fields.
    erewrite bind_Ret; [|apply put_exbuf_run; fields; rewrite E; fields; apply zset_mid; lens]. fields.
    erewrite bind_Ret; [|apply upd_line_run]. fields. rewrite E. fields. rewrite upd_line_run. fields. reflexivity.
  - exists (pre ++ [0]), post. split_and!; [|lens..|done]. same_line.
Qed.

Lemma backspace_edits s l c r :
  holds (line s) (l ++ [c]) r ->
  edits key_backspace_process s (8 :: r ++ [32] ++ replicate (S (length r)) 8) l r.
Proof.
  intros Hl. pose proof Hl as (pre & post & E & H1 & H2 & H3 & F). destruct post as [|x post]; [lens|].
  eexists. split.
  - unfold key_backspace_process. step (the_line_run s _ E). fields.
    destruct (Z.ltb_spec 0 (Z.of_nat (length (l ++ [c])))); [|lens]. step (putchar_run 8 s).
    set (s1 := set_screen (screen s ++ [8]) s). assert (line s1 = line s) as E1 by done.
    assert (exists r0, exbuf_at (Z.of_nat (length pre) - 1 + 1) s1 = Ret r0 s1 /\ (0 < r0 <-> r <> [])) as (r0 & Er & Hr).
    { destruct r as [|r0 r]; [exists 0|exists r0]; (split; [apply exbuf_at_run; rewrite E1, E; fields; apply zget_mid; lens|]).
      - split; [lia|done].
      - apply Forall_cons in F as [? _]. done. }
    step Er.
    match goal with |- ((if _ then ?a else ?b) ≫= _) _ = _ =>
      assert ((if 0 <? r0 then a else b) s1 = Ret tt (set_screen (screen s1 ++ r ++ [32] ++ replicate (S (length r)) 8) s1)) as Eif end.
    { destruct (Z.ltb_spec 0 r0) as [Hp|Hp].
      - step (for_tail_run shell_putchar id s1 _ r Hl ltac:(done)). set (s2 := set_screen _ s1). step (putchar_run 32 s2).
        set (s3 := set_screen _ s2).
        step (for_tail_run (fun _ => shell_putchar 8) (fun _ => 8) s3 _ r Hl ltac:(done)).
        rewrite putchar_run. unfold s3, s2. fields. rewrite list_fmap_id, fmap_const, <- !app_assoc.
        by rewrite (replicate_S_end (length r)).
      - destruct r as [|? r]; [|by assert (0 < r0) by (by apply Hr); lia]. cbn [app length replicate].
        step (putchar_run 32 s1). rewrite putchar_run. fields. by rewrite <- app_assoc. }
    step Eif. erewrite bind_Ret; [|apply put_buf_run; fields; rewrite E1, E; fields; apply zset_mid; lens].
    rewrite upd_line_run. fields. rewrite E1, E. unfold s1. fields. rewrite <- !app_assoc. reflexivity.
  - exists pre, (c :: 0 :: post). split_and!; [|lens..|done]. same_line.
Qed.

Lemma type_edits s l c r :
  Z.of_nat (length l + length r) < 2046 -> holds (line s) l r ->
  edits (type_char c) s (c :: r ++ replicate (length r) 8) (l ++ [c]) r.
Proof.
  intros Hlen (pre & post & E & H1 & H2 & H3 & F). destruct post as [|x post]; [lens|].
  set (L := mkLine (l ++ c :: post) (Z.of_nat (length l) + 1) (pre ++ r ++ [0]) (Z.of_nat (length pre) - 1)).
  assert (HL : holds L (l ++ [c]) r).
  { exists pre, post. split_and!; [|lens..|done]. unfold L. f_equal; [by rewrite <- app_assoc|lens]. }
  exists L. split; [|done]. unfold type_char. step (putchar_run c s).
  set (s1 := set_screen (screen s ++ [c]) s). assert (line s1 = line s) as E1 by done. rewrite E in E1.
  step (the_line_run s1 _ E1). fields.
  erewrite bind_Ret; [|apply put_buf_run; rewrite E1; fields; apply zset_mid; done]. rewrite E1. fields.
  erewrite bind_Ret; [|apply upd_line_run]. fields.
  change (set_pi (Z.of_nat (length l) + 1) (set_buf (l ++ c :: post)
    (mkLine (l ++ x :: post) (Z.of_nat (length l)) (pre ++ r ++ [0]) (Z.of_nat (length pre) - 1)))) with L.
  erewrite bind_Ret; [|eapply (for_tail_run shell_putchar id); [exact HL|done]]. fields.
  erewrite for_tail_run; [|exact HL|done]. fields. unfold s1. fields.
  by rewrite list_fmap_id, fmap_const, <- !app_assoc.
Qed.

Lemma edits_seq m1 m2 s d1 d2 l1 r1 l2 r2 :
  edits m1 s d1 l1 r1 ->
  (forall s', holds (line s') l1 r1 -> edits m2 s' d2 l2 r2) ->
  edits (m1;; m2) s (d1 ++ d2) l2 r2.
Proof.
  intros (L1 & E1 & H1) H. destruct (H (set_line L1 (set_screen (screen s ++ d1) s)) H1) as (L2 & E2 & H2).
  exists L2. split; [|done]. step E1. rewrite E2. fields. by rewrite <- app_assoc.
Qed.

Lemma del_edits s l c r :
  holds (line s) l (c :: r) -> edits key_del_process s (c :: 8 :: r ++ [32] ++ replicate (S (length r)) 8) l r.
Proof.
  intros Hl. pose proof Hl as (pre & post & E & _ & _ & _ & F). apply Forall_cons in F as [Hc _].
  unfold key_del_process. destruct (edits_seq key_right_process key_backspace_process s [c] _ _ _ l r
    (right_edits s l c r Hl) (fun s' H => backspace_edits s' l c r H)) as (L & EL & HL).
  exists L. split; [|done]. step (the_line_run s _ E). fields.
  erewrite bind_Ret; [|apply exbuf_at_run; rewrite E; fields; apply zget_mid; lia].
  destruct (Z.ltb_spec 0 c); [|lia]. exact EL.
Qed.

Lemma length_zeros n : 0 <= n -> Z.of_nat (length (zeros n)) = n.
Proof. intros H. unfold zeros. rewrite length_replicate. lia. Qed.

Lemma zeros_end : zeros COMMAND_BUF_SIZE = replicate 2047 0 ++ [] ++ [0].
Proof. vm_compute. reflexivity. Qed.

(** A line from the history: [e] in its buffer. *)
Definition stored_line (h e : list Z) : Prop :=
  exists rest, h = e ++ 0 :: rest /\ Z.of_nat (length h) = 2048 /\ Z.of_nat (length e) <= 2046 /\ no_nul e.

Lemma history_edits s l r offset h e :
  holds (line s) l r ->
  zget (cmd_buf (cmd_records s)) (Z.rem (cmd_idx (cmd_records s) + offset) HISTORY_MAXITEMS) = Some h ->
  stored_line h e ->
  edits (history_process offset) s
    (replicate (length l) 8 ++ replicate (length l) 32 ++ replicate (length r) 32 ++
     replicate (length l) 8 ++ replicate (length r) 8 ++ e) e [].
Proof.
  intros Hl Eh (rest & -> & Hlen & He & Hn). pose proof Hl as (pre & post & E & H1 & H2 & H3 & F).
  exists (mkLine (e ++ 0 :: rest) (Z.of_nat (length e)) (zeros COMMAND_BUF_SIZE) (COMMAND_BUF_SIZE - 2)). split.
  - unfold history_process. rewrite bind_gets. step (the_line_run s _ E). fields. unfold times. rewrite !Nat2Z.id.
    assert (forall s', cmd_records s' = cmd_records s -> line s' = line s -> holds (line s') l r) as HH by (intros s' _ ->; done).
    erewrite bind_Ret; [|apply put_all_run]. erewrite bind_Ret; [|apply put_all_run].
    erewrite bind_Ret; [|eapply (for_tail_run _ (fun _ => 32)); [by apply HH|done]].
    erewrite bind_Ret; [|apply put_all_run].
    erewrite bind_Ret; [|eapply (for_tail_run _ (fun _ => 8)); [by apply HH|done]].
    erewrite bind_Ret; [|apply upd_line_run]. erewrite bind_Ret; [|apply upd_line_run].
    rewrite Eh, bind_Some. erewrite bind_Ret; [|by apply the_line_run]. fields. rewrite E. fields.
    assert (sh_memcpy (l ++ post) (e ++ 0 :: rest) COMMAND_BUF_SIZE = Some (e ++ 0 :: rest)) as ->.
    { unfold sh_memcpy, COMMAND_BUF_SIZE. rewrite Hlen, length_app, H1. change ((0 <=? 2048) && (2048 <=? 2048) && (2048 <=? 2048)) with true. cbv iota.
      f_equal. rewrite take_ge by lia. unfold put. cbn [take app]. rewrite drop_ge, app_nil_r; [done|].
      rewrite !length_app in *. lia. }
    rewrite bind_Some. erewrite bind_Ret; [|apply upd_line_run]. rewrite sh_strlen_app, bind_Some by done.
    erewrite bind_Ret; [|apply upd_line_run]. rewrite Nat2Z.id, take_app_length, put_all_run. fields.
    rewrite !fmap_const, <- !app_assoc. reflexivity.
  - exists (replicate 2047 0), (0 :: rest). split_and!; [|rewrite <- Hlen; lens|reflexivity|lens|done].
    rewrite zeros_end. reflexivity.
Qed.

(** Enter: the line is put together in the buffer. *)
Lemma append_tail_run s l r :
  holds (line s) l r ->
  exists L post, append_tail s = Ret tt (set_line L s) /\ buf L = l ++ r ++ 0 :: post /\ Z.of_nat (length (buf L)) = 2048.
Proof.
  intros (pre & post & E & H1 & H2 & H3 & F). unfold append_tail, for_tail. rewrite bind_assoc.
  step (the_line_run s _ E). fields. replace (Z.of_nat (length pre) - 1 + 1) with (Z.of_nat (length pre)) by lia.
  set (f := fun c : Z => _). set (j := Z.of_nat (length pre) - 1) in *. clearbody j.
  assert (forall fuel done pre s post, line s = mkLine (done ++ post) (Z.of_nat (length done)) (pre ++ r ++ [0]) j ->
    (length r < fuel)%nat -> (length r <= length post)%nat ->
    exists e, tail_loop fuel f (Z.of_nat (length pre)) s =
      Ret tt (set_line (mkLine (done ++ r ++ drop (length r) post) (Z.of_nat (length (done ++ r))) e j) s)) as Hloop.
  { clear -F. induction F as [|c r Hc F IH]; intros fuel dn pre s post E Hf Hp;
      (destruct fuel as [|fuel]; [cbn in Hf; lia|]); cbn [tail_loop];
      (erewrite bind_Ret; [|apply exbuf_at_run; rewrite E; fields; apply zget_mid; done]).
    - exists (pre ++ [0]). cbn [app drop length] in *. rewrite app_nil_r. rewrite drop_0. rewrite <- E, set_line_id. done.
    - destruct (Z.ltb_spec 0 c); [|lia]. destruct post as [|x post]; [cbn in Hp; lia|].
      assert (f c s = Ret tt (set_line (mkLine (dn ++ c :: post) (Z.of_nat (length dn) + 1) (pre ++ (c :: r) ++ [0]) j) s)) as Ef.
      { unfold f. step (the_line_run s _ E). fields.
        erewrite bind_Ret; [|apply put_buf_run; rewrite E; fields; apply zset_mid; done]. rewrite upd_line_run, E. done. }
      step Ef.
      replace (Z.of_nat (length pre) + 1) with (Z.of_nat (length (pre ++ [c]))) by lens.
      edestruct (IH fuel (dn ++ [c]) (pre ++ [c])) as (e & Ee); [| | |exists e; rewrite Ee].
      + fields. rewrite <- !app_assoc. f_equal. lens.
      + cbn in Hf; lia.
      + cbn in Hp; lia.
      + cbn [length drop]. rewrite <- !app_assoc. done. }
  destruct (Hloop TAIL_FUEL l pre s post E ltac:(apply TAIL_FUEL_enough; lia) ltac:(lia)) as (e & Ee). step Ee.
  erewrite bind_Ret; [|by apply the_line_run]. fields.
  destruct (drop (length r) post) as [|x p] eqn:Ep; [assert (length (drop (length r) post) = 0%nat) by (by rewrite Ep); rewrite length_drop in *; lia|].
  erewrite put_buf_run; [|fields; rewrite app_assoc; apply zset_mid; done]. fields.
  eexists _, p. split; [reflexivity|]. unfold set_buf. fields. split; [by rewrite <- app_assoc|].
  assert (length (drop (length r) post) = S (length p)) as El by (by rewrite Ep). rewrite length_drop in El. lens.
Qed.

(** * The row of the terminal *)

(** A row of characters, as wide as needed, and the column of the cursor. *)
Definition Term : Type := list Z * nat.

Definition tput (t : Term) (c : Z) : Term :=
  let '(row, cur) := t in
  if c =? 8 then (row, pred cur)
  else if c =? 13 then (row, O)
  else if c =? 10 then ([], cur)
  else (put cur [c] row, S cur).

(** What the terminal shows after all output. *)
Definition shown (out : list Z) : Term := fold_left tput out ([], O).

Definition printable (c : Z) : Prop := 32 <= c < 127.
#[global] Instance printable_dec c : Decision (printable c).
Proof. unfold printable. apply _. Defined.

(** Behind [p] the row shows the line, with nothing but blanks after it, and the cursor is where the next character goes. *)
Definition shows (t : Term) (p l r : list Z) : Prop :=
  exists n, t = (p ++ l ++ r ++ replicate n 32, (length p + length l)%nat).

Lemma tput_over w a x :
  Forall printable w -> fold_left tput w (a ++ x, length a) = (a ++ w ++ drop (length w) x, (length a + length w)%nat).
Proof.
  intros F. revert a x. induction F as [|c w Hc F IH]; intros a x; cbn [fold_left length app drop]; [by rewrite Nat.add_0_r|].
  unfold tput at 2. unfold printable in Hc. destruct (Z.eqb_spec c 8); [lia|].
  destruct (Z.eqb_spec c 13); [lia|]. destruct (Z.eqb_spec c 10); [lia|].
  assert (put (length a) [c] (a ++ x) = (a ++ [c]) ++ drop 1 x) as ->.
  { unfold put. cbn [length]. by rewrite take_app_length, drop_app_add, <- app_assoc. }
  replace (S (length a)) with (length (a ++ [c])) by lens. rewrite IH, <- !app_assoc, drop_drop. cbn [app].
  f_equal. lens.
Qed.

Lemma tput_back n row cur : fold_left tput (replicate n 8) (row, cur) = (row, (cur - n)%nat).
Proof. revert cur. induction n as [|n IH]; intros cur; cbn; [by rewrite Nat.sub_0_r|]. rewrite IH. f_equal. lia. Qed.

Lemma blanks_printable n : Forall printable (replicate n 32).
Proof. apply Forall_replicate. unfold printable. lia. Qed.

Lemma shows_left t p l c r : shows t p (l ++ [c]) r -> shows (fold_left tput [8] t) p l (c :: r).
Proof.
  intros (n & ->). exists n. rewrite <- !app_assoc. cbn [app fold_left].
  unfold tput. change (8 =? 8) with true. cbv iota. f_equal. lens.
Qed.

(** Writing [w] at the cursor over as much of what is there. *)
Lemma shows_write t p l r w :
  Forall printable w -> (length w <= length r)%nat -> shows t p l r -> shows (fold_left tput w t) p (l ++ w) (drop (length w) r).
Proof.
  intros F Hw (n & ->). exists n. rewrite app_assoc, <- length_app, tput_over by done.
  rewrite drop_app_le by done. rewrite <- !app_assoc. f_equal. lens.
Qed.

Lemma shows_back t p l w r : shows t p (l ++ w) r -> shows (fold_left tput (replicate (length w) 8) t) p l (w ++ r).
Proof. intros (n & ->). exists n. rewrite tput_back, <- !app_assoc. f_equal. lens. Qed.

(** Writing beyond the end of the line, where the row is blank. *)
Lemma shows_append t p l r w :
  Forall printable w -> (length r <= length w)%nat -> shows t p l r -> shows (fold_left tput w t) p (l ++ w) [].
Proof.
  intros F Hw (n & ->). exists (n - (length w - length r))%nat. rewrite app_assoc, <- length_app, tput_over by done.
  rewrite drop_app_ge, drop_replicate by done. rewrite <- !app_assoc. f_equal. lens.
Qed.

(** Blanks at the end of the line are not part of it. *)
Lemma shows_trim t p l r n : shows t p l (r ++ replicate n 32) -> shows t p l r.
Proof. intros (m & ->). exists (n + m)%nat. by rewrite replicate_add, <- !app_assoc. Qed.

Lemma shows_trim_left t p l r n :
  shows t p (l ++ replicate n 32) r -> shows (fold_left tput (replicate n 8) t) p l (replicate n 32 ++ r).
Proof.
  intros H. pose proof (shows_back t p l (replicate n 32) r H) as B. by rewrite length_replicate in B.
Qed.

Lemma shows_right t p l c r : printable c -> shows t p l (c :: r) -> shows (fold_left tput [c] t) p (l ++ [c]) r.
Proof. intros Hc H. apply (shows_write t p l (c :: r) [c]); [by constructor|cbn; lia|done]. Qed.

Lemma shows_type t p l c r :
  printable c -> Forall printable r -> shows t p l r ->
  shows (fold_left tput (c :: r ++ replicate (length r) 8) t) p (l ++ [c]) r.
Proof.
  intros Hc F H. rewrite app_comm_cons, fold_left_app. rewrite <- (app_nil_r r) at 3.
  apply shows_back. rewrite <- app_assoc. apply (shows_append t p l r (c :: r)); [by constructor|cbn; lia|done].
Qed.

Lemma shows_backspace t p l c r :
  Forall printable r -> shows t p (l ++ [c]) r ->
  shows (fold_left tput (8 :: r ++ [32] ++ replicate (S (length r)) 8) t) p l r.
Proof.
  intros F H. change (8 :: r ++ [32] ++ replicate (S (length r)) 8) with ([8] ++ r ++ [32] ++ replicate (S (length r)) 8).
  rewrite fold_left_app. apply shows_left in H. revert H. generalize (fold_left tput [8] t). clear t. intros t H.
  rewrite (app_assoc r [32]), fold_left_app. apply (shows_trim _ p l r 1). rewrite <- (app_nil_r (r ++ replicate 1 32)).
  assert (S (length r) = length (r ++ [32])) as -> by lens. apply shows_back.
  change (replicate 1 32) with [32].
  apply (shows_append t p l (c :: r)); [apply Forall_app; split; [done|apply (blanks_printable 1)]|lens|done].
Qed.

Lemma shows_history t p l r e :
  Forall printable e -> shows t p l r ->
  shows (fold_left tput (replicate (length l) 8 ++ replicate (length l) 32 ++ replicate (length r) 32 ++
     replicate (length l) 8 ++ replicate (length r) 8 ++ e) t) p e [].
Proof.
  intros F H. rewrite (app_assoc (replicate _ 32) (replicate _ 32)), (app_assoc (replicate _ 8) (replicate _ 8) e).
  rewrite <- !replicate_add, !fold_left_app.
  apply (shows_back t p [] l r) in H. rewrite <- length_app in *.
  apply (shows_append _ p [] (l ++ r) (replicate (length (l ++ r)) 32)) in H; [|apply blanks_printable|by rewrite length_replicate].
  apply shows_trim_left in H. rewrite app_nil_r in H. apply (shows_trim _ p [] [] (length (l ++ r))) in H.
  by apply (shows_append _ p [] [] e) in H; [|done|cbn; lia].
Qed.

(** * An editor of a line of text *)

Inductive key := KChar (c : Z) | KBackspace | KLeft | KRight | KDel | KUp | KDown.

(** What the terminal sends for a key. *)
Definition key_bytes (k : key) : list Z :=
  match k with
  | KChar c => [c]
  | KBackspace => [KEY_BACKSPACE]
  | KUp => [27; 91; KEY_UP]
  | KDown => [27; 91; KEY_DOWN]
  | KRight => [27; 91; KEY_RIGHT]
  | KLeft => [27; 91; KEY_LEFT]
  | KDel => [27; 91; KEY_DEL; 126]
  end.

Definition key_ok (k : key) : Prop := match k with KChar c => printable c | _ => True end.

(** The text in front of the cursor, the text behind it, and the place in the history. *)
Definition Edited : Type := list Z * list Z * Z.

(** A command of the history, in its buffer, that can be shown. *)
Definition recall (r : cmd_records_t) (offset : Z) : option (list Z) :=
  h ← zget (cmd_buf r) (Z.rem (cmd_idx r + offset) HISTORY_MAXITEMS);
  e ← c_string h;
  if bool_decide (Z.of_nat (length h) = 2048 /\ Z.of_nat (length e) <= 2046 /\ Forall printable e) then Some e else None.

(** What a key means; [None] when the line is full or there is no such command. *)
Definition key_step (h : cmd_records_t) (k : key) (x : Edited) : option Edited :=
  let '(l, r, o) := x in
  match k with
  | KChar c => if Z.of_nat (length l + length r) <? 2046 then Some (l ++ [c], r, o) else None
  | KBackspace => match rev l with [] => Some x | _ :: l' => Some (rev l', r, o) end
  | KLeft => match rev l with [] => Some x | c :: l' => Some (rev l', c :: r, o) end
  | KRight => match r with [] => Some x | c :: r' => Some (l ++ [c], r', o) end
  | KDel => match r with [] => Some x | _ :: r' => Some (l, r', o) end
  | KUp =>
      let o := if level h <? - (o - 1) then - level h else o - 1 in
      e ← recall h o; Some (e, [], o)
  | KDown =>
      let o := if -1 <=? o + 1 then -1 else o + 1 in
      e ← recall h o; Some (e, [], o)
  end.

Fixpoint edit (h : cmd_records_t) (ks : list key) (x : Edited) : option Edited :=
  match ks with [] => Some x | k :: ks => x ← key_step h k x; edit h ks x end.

(** * The loop does what the keys mean *)

Lemma getch_run s b rest : stdin s = b :: rest -> shell_getch s = Ret (as_char b) (set_stdin rest s).
Proof. intros E. unfold shell_getch. by rewrite bind_gets, E. Qed.

Lemma recall_stored r o e :
  recall r o = Some e ->
  Forall printable e /\
  exists h, zget (cmd_buf r) (Z.rem (cmd_idx r + o) HISTORY_MAXITEMS) = Some h /\ stored_line h e.
Proof.
  unfold recall. destruct (zget _ _) as [h|]; [|done]. cbn. destruct (c_string h) as [e'|] eqn:Ec; [|done]. cbn.
  case_bool_decide as Hd; [|done]. intros [= ->]. destruct Hd as (H1 & H2 & H3). split; [done|].
  exists h. split; [done|].
  assert (exists rest, h = e ++ 0 :: rest) as (rest & ->).
  { clear -Ec. unfold c_string in Ec. destruct (sh_strlen h) as [n|] eqn:En; [|done]. injection Ec as <-.
    revert n En. induction h as [|c h IH]; intros n En; [done|]. cbn in En. destruct (Z.eqb_spec c 0) as [->|].
    - injection En as <-. by exists h.
    - destruct (sh_strlen h) as [m|] eqn:Em; [|done]. injection En as <-. destruct (IH m eq_refl) as (rest & Er).
      exists rest. assert (0 <= m) as Hm.
      { clear -Em. revert m Em. induction h as [|c h IH]; intros m Em; [done|]. cbn in Em.
        destruct (c =? 0); [injection Em as <-; lia|]. destruct (sh_strlen h); [|done]. injection Em as <-.
        specialize (IH _ eq_refl). lia. }
      rewrite Z2Nat.inj_succ by done. cbn. by rewrite <- Er. }
  exists rest. split_and!; [done|done|done|]. eapply Forall_impl; [exact H3|]. unfold printable. lia.
Qed.

Lemma rev_snoc {A} (l : list A) x l' : rev l = x :: l' -> l = rev l' ++ [x].
Proof. intros E. by rewrite <- (rev_involutive l), E. Qed.

(** The line is one of printable characters. *)
Definition text (l r : list Z) : Prop := Forall printable l /\ Forall printable r.

Lemma text_pos l r : text l r -> Forall (fun c => 0 < c) r.
Proof. intros [_ F]. eapply Forall_impl; [exact F|]. unfold printable. lia. Qed.

(** What one key has to do. *)
Definition does (m : prog Shell unit) (s : Shell) (x' : Edited) (l r : list Z) : Prop :=
  let '(l', r', _) := x' in
  exists d, edits m s d l' r' /\ text l' r' /\ forall t p, shows t p l r -> shows (fold_left tput d t) p l' r'.

Lemma nothing_does s l r o : holds (line s) l r -> text l r -> does (mret tt) s (l, r, o) l r.
Proof.
  intros H T. exists []. split_and!; [|done|done]. exists (line s). split; [|done].
  rewrite app_nil_r. by destruct s.
Qed.

Lemma left_does s l r o : holds (line s) l r -> text l r -> does key_left_process s
  (match rev l with [] => (l, r, o) | c :: l' => (rev l', c :: r, o) end) l r.
Proof.
  intros H T. destruct (rev l) as [|c l'] eqn:E.
  - assert (l = []) as -> by (destruct l; [done|]; apply (f_equal length) in E; rewrite length_rev in E; done).
    assert (key_left_process s = Ret tt s) as Em.
    { destruct H as (pre & post & EL & _). unfold key_left_process. by step (the_line_run s _ EL). }
    destruct (nothing_does s [] r o H T) as (d & (L & EL & HL) & ?). exists d. split; [|done]. exists L. rewrite Em. exact (conj EL HL).
  - apply rev_snoc in E. subst l. destruct T as [Fl Fr]. apply Forall_app in Fl as [Fl Fc].
    apply Forall_cons in Fc as [Fc _]. unfold printable in Fc. exists [8]. split_and!.
    + apply left_edits; [lia|done].
    + split; [done|by constructor].
    + intros t p. apply shows_left.
Qed.

Lemma right_does s l r o : holds (line s) l r -> text l r -> does key_right_process s
  (match r with [] => (l, r, o) | c :: r' => (l ++ [c], r', o) end) l r.
Proof.
  intros H T. destruct r as [|c r].
  - assert (key_right_process s = Ret tt s) as Em.
    { destruct H as (pre & post & EL & _). unfold key_right_process. step (the_line_run s _ EL). fields.
      erewrite bind_Ret; [|apply exbuf_at_run; rewrite EL; fields; apply zget_mid; lia]. done. }
    destruct (nothing_does s l [] o H T) as (d & (L & EL & HL) & ?). exists d. split; [|done]. exists L. rewrite Em. exact (conj EL HL).
  - destruct T as [Fl Fr]. apply Forall_cons in Fr as [Fc Fr]. exists [c]. split_and!.
    + by apply right_edits.
    + split; [apply Forall_app; split; [done|by constructor]|done].
    + intros t p. by apply shows_right.
Qed.

Lemma backspace_does s l r o : holds (line s) l r -> text l r -> does key_backspace_process s
  (match rev l with [] => (l, r, o) | _ :: l' => (rev l', r, o) end) l r.
Proof.
  intros H T. destruct (rev l) as [|c l'] eqn:E.
  - assert (l = []) as -> by (destruct l; [done|]; apply (f_equal length) in E; rewrite length_rev in E; done).
    assert (key_backspace_process s = Ret tt s) as Em.
    { destruct H as (pre & post & EL & _). unfold key_backspace_process. by step (the_line_run s _ EL). }
    destruct (nothing_does s [] r o H T) as (d & (L & EL & HL) & ?). exists d. split; [|done]. exists L. rewrite Em. exact (conj EL HL).
  - apply rev_snoc in E. subst l. destruct T as [Fl Fr]. apply Forall_app in Fl as [Fl _]. eexists. split_and!.
    + exact (backspace_edits s (rev l') c r H).
    + by split.
    + intros t p. exact (shows_backspace t p (rev l') c r Fr).
Qed.

Lemma del_does s l r o : holds (line s) l r -> text l r -> does key_del_process s
  (match r with [] => (l, r, o) | _ :: r' => (l, r', o) end) l r.
Proof.
  intros H T. destruct r as [|c r].
  - assert (key_del_process s = Ret tt s) as Em.
    { destruct H as (pre & post & EL & _). unfold key_del_process. step (the_line_run s _ EL). fields.
      erewrite bind_Ret; [|apply exbuf_at_run; rewrite EL; fields; apply zget_mid; lia]. done. }
    destruct (nothing_does s l [] o H T) as (d & (L & EL & HL) & ?). exists d. split; [|done]. exists L. rewrite Em. exact (conj EL HL).
  - destruct T as [Fl Fr]. apply Forall_cons in Fr as [Fc Fr]. eexists. split_and!.
    + exact (del_edits s l c r H).
    + by split.
    + intros t p Ht. apply (shows_right t p l c r Fc) in Ht. by apply (shows_backspace _ p l c r Fr).
Qed.

Lemma history_does s l r o e :
  holds (line s) l r -> recall (cmd_records s) o = Some e -> does (history_process o) s (e, [], o) l r.
Proof.
  intros H E. apply recall_stored in E as (F & h & Eh & S). eexists. split_and!.
  - by eapply history_edits.
  - by split.
  - intros t p. by apply shows_history.
Qed.

Lemma type_does s l r c o :
  Z.of_nat (length l + length r) < 2046 -> printable c -> holds (line s) l r -> text l r ->
  does (type_char c) s (l ++ [c], r, o) l r.
Proof.
  intros Hl Hc H [Fl Fr]. eexists. split_and!.
  - by apply type_edits.
  - split; [apply Forall_app; split; [done|by constructor]|done].
  - intros t p. by apply shows_type.
Qed.

(** Escape sequences of three bytes, and of four. *)
Lemma escape_run {B} s c rest o o' m (k : Z -> prog Shell B) :
  stdin s = 91 :: c :: rest ->
  (c = KEY_LEFT /\ m = key_left_process /\ o' = o) \/ (c = KEY_RIGHT /\ m = key_right_process /\ o' = o) \/
  (c = KEY_UP /\ m = history_process o' /\
   o' = (if level (cmd_records s) <? - (o - 1) then - level (cmd_records s) else o - 1)) \/
  (c = KEY_DOWN /\ m = history_process o' /\ o' = (if -1 <=? o + 1 then -1 else o + 1)) ->
  (x ← escape o; k x) s = (m;; k o') (set_stdin rest s).
Proof.
  intros Es Hc. unfold escape. rewrite bind_assoc, (bind_Ret _ _ _ _ _ (getch_run s _ _ Es)).
  change (as_char 91 =? 91) with true. cbv iota. rewrite bind_assoc, (bind_Ret _ _ _ _ _ (getch_run (set_stdin (c :: rest) s) _ _ eq_refl)).
  change (set_stdin rest (set_stdin (c :: rest) s)) with (set_stdin rest s).
  destruct Hc as [(-> & -> & ->)|[(-> & -> & ->)|[(-> & Hm & Ho)|(-> & Hm & Ho)]]].
  - change (if as_char KEY_LEFT =? KEY_UP then _ else _) with (key_left_process;; mret o : prog Shell Z). by rewrite bind_assoc.
  - change (if as_char KEY_RIGHT =? KEY_UP then _ else _) with (key_right_process;; mret o : prog Shell Z). by rewrite bind_assoc.
  - rewrite Hm. change (as_char KEY_UP =? KEY_UP) with true. cbv iota. rewrite bind_assoc, bind_gets.
    change (cmd_records (set_stdin rest s)) with (cmd_records s). cbv zeta. rewrite <- Ho. by rewrite bind_assoc.
  - rewrite Hm. change (as_char KEY_DOWN =? KEY_UP) with false. change (as_char KEY_DOWN =? KEY_DOWN) with true. cbv iota zeta.
    rewrite <- Ho. by rewrite bind_assoc.
Qed.

Lemma escape_del_run {B} s x rest o (k : Z -> prog Shell B) :
  stdin s = 91 :: KEY_DEL :: x :: rest ->
  (o ← escape o; k o) s = (key_del_process;; k o) (set_stdin rest s).
Proof.
  intros Es. unfold escape. rewrite bind_assoc, (bind_Ret _ _ _ _ _ (getch_run s _ _ Es)).
  change (as_char 91 =? 91) with true. cbv iota. rewrite bind_assoc, (bind_Ret _ _ _ _ _ (getch_run (set_stdin (KEY_DEL :: x :: rest) s) _ _ eq_refl)).
  change (if as_char KEY_DEL =? KEY_UP then _ else _) with (shell_getch;; key_del_process;; mret o : prog Shell Z).
  rewrite bind_assoc, (bind_Ret _ _ _ _ _ (getch_run (set_stdin (x :: rest) (set_stdin (KEY_DEL :: x :: rest) s)) _ _ eq_refl)).
  by rewrite bind_assoc.
Qed.

(** The loop at the first byte of an escape sequence, and at a backspace. *)
Lemma loop_escape s rest f o :
  stdin s = 27 :: rest -> read_loop (S f) o s = (o ← escape o; read_loop f o) (set_stdin rest s).
Proof. intros Es. cbn [read_loop]. by rewrite (bind_Ret _ _ _ _ _ (getch_run s _ _ Es)). Qed.

(** The loop at a printable character. *)
Lemma loop_char s c rest f l r o :
  stdin s = c :: rest -> printable c -> holds (line s) l r -> Z.of_nat (length l) < 2046 ->
  read_loop (S f) o s = (type_char c;; read_loop f o) (set_stdin rest s).
Proof.
  intros Es Hc (pre & post & EL & _) Hl. cbn [read_loop]. rewrite (bind_Ret _ _ _ _ _ (getch_run s _ _ Es)).
  unfold printable in Hc. assert (as_char c = c) as -> by (unfold as_char; rewrite Z.mod_small; lia).
  unfold KEY_BACKSPACE. repeat match goal with |- context [c =? ?b] => destruct (Z.eqb_spec c b); [lia|] end. cbn [orb].
  step (the_line_run (set_stdin rest s) _ EL). fields.
  destruct (Z.leb_spec COMMAND_BUF_SIZE (Z.of_nat (length l))) as [Hg|]; [|done]. unfold COMMAND_BUF_SIZE in Hg. lia.
Qed.

(** One round of the loop. *)
Lemma round s k rest f l r o l' r' o' :
  stdin s = key_bytes k ++ rest -> holds (line s) l r -> text l r -> key_ok k ->
  key_step (cmd_records s) k (l, r, o) = Some (l', r', o') ->
  exists m, read_loop (S f) o s = (m;; read_loop f o') (set_stdin rest s) /\ does m (set_stdin rest s) (l', r', o') l r.
Proof.
  intros Es Hl T Hk Ek. set (s1 := set_stdin rest s). assert (holds (line s1) l r) as H1 by exact Hl.
  destruct k as [c| | | | | |]; cbn [key_bytes app] in Es; cbn [key_step] in Ek.
  - exists (type_char c). destruct (Z.ltb_spec (Z.of_nat (length l + length r)) 2046) as [Hlen|]; [|done].
    injection Ek as <- <- <-. split; [|by apply type_does]. apply (loop_char s c rest f l r o Es Hk Hl). lia.
  - pose proof (backspace_does s1 l r o H1 T) as D. exists key_backspace_process.
    assert (o' = o) as -> by (destruct (rev l); congruence).
    split; [cbn [read_loop]; by rewrite (bind_Ret _ _ _ _ _ (getch_run s _ _ Es))|destruct (rev l); by injection Ek as <- <-].
  - pose proof (left_does s1 l r o H1 T) as D. exists key_left_process. assert (o' = o) as -> by (destruct (rev l); congruence).
    rewrite (loop_escape _ _ _ _ Es). split; [exact (escape_run (set_stdin (91 :: KEY_LEFT :: rest) s) _ _ _ _ _ _ eq_refl ltac:(tauto))|destruct (rev l); by injection Ek as <- <-].
  - pose proof (right_does s1 l r o H1 T) as D. exists key_right_process. assert (o' = o) as -> by (destruct r; congruence).
    rewrite (loop_escape _ _ _ _ Es). split; [exact (escape_run (set_stdin (91 :: KEY_RIGHT :: rest) s) _ _ _ _ _ _ eq_refl ltac:(tauto))|destruct r; by injection Ek as <- <-].
  - pose proof (del_does s1 l r o H1 T) as D. exists key_del_process. assert (o' = o) as -> by (destruct r; congruence).
    rewrite (loop_escape _ _ _ _ Es). split; [exact (escape_del_run (set_stdin (91 :: KEY_DEL :: 126 :: rest) s) _ _ _ _ eq_refl)|destruct r; by injection Ek as <- <-].
  - set (o1 := if _ <? _ then _ else _) in Ek. destruct (recall (cmd_records s) o1) as [e|] eqn:Er; [|done].
    injection Ek as <- <- <-. exists (history_process o1). rewrite (loop_escape _ _ _ _ Es).
    split; [exact (escape_run (set_stdin (91 :: KEY_UP :: rest) s) _ _ _ _ _ _ eq_refl ltac:(tauto))|by apply history_does].
  - set (o1 := if _ <=? _ then _ else _) in Ek. destruct (recall (cmd_records s) o1) as [e|] eqn:Er; [|done].
    injection Ek as <- <- <-. exists (history_process o1). rewrite (loop_escape _ _ _ _ Es).
    split; [exact (escape_run (set_stdin (91 :: KEY_DOWN :: rest) s) _ _ _ _ _ _ eq_refl ltac:(tauto))|by apply history_does].
Qed.

(** The loop at the end of the line. *)
Lemma loop_enter s f o l r eol rest :
  stdin s = eol :: rest -> eol = 10 \/ eol = 13 -> holds (line s) l r ->
  exists L post, read_loop (S f) o s = Ret 0 (set_line L (set_screen (screen s ++ [13; 10]) (set_stdin rest s))) /\
    buf L = l ++ r ++ 0 :: post /\ Z.of_nat (length (buf L)) = 2048.
Proof.
  intros Es He Hl. cbn [read_loop]. rewrite (bind_Ret _ _ _ _ _ (getch_run s _ _ Es)). set (s1 := set_stdin rest s).
  assert ((as_char eol =? 10) || (as_char eol =? 13) = true) as -> by (destruct He as [-> | ->]; reflexivity).
  step (putchar_run 13 s1). set (s2 := set_screen _ s1). step (putchar_run 10 s2). set (s3 := set_screen _ s2).
  destruct (append_tail_run s3 l r Hl) as (L & post & EL & HL & HLen). step EL.
  exists L, post. split_and!; [|done|done]. unfold s3, s2, s1. cbn. by rewrite <- !app_assoc.
Qed.

Lemma read_keys ks s f l r o l' r' o' eol rest :
  stdin s = concat (key_bytes <$> ks) ++ eol :: rest -> eol = 10 \/ eol = 13 ->
  holds (line s) l r -> text l r -> Forall key_ok ks ->
  edit (cmd_records s) ks (l, r, o) = Some (l', r', o') -> (length ks < f)%nat ->
  exists d L post, read_loop f o s = Ret 0 (set_line L (set_screen (screen s ++ d ++ [13; 10]) (set_stdin rest s))) /\
    buf L = l' ++ r' ++ 0 :: post /\ Z.of_nat (length (buf L)) = 2048 /\ text l' r' /\
    forall t p, shows t p l r -> shows (fold_left tput d t) p l' r'.
Proof.
  revert s f l r o. induction ks as [|k ks IH]; intros s f l r o Es He Hl T F Ek Hf;
    (destruct f as [|f]; [cbn in Hf; lia|]).
  - injection Ek as <- <- <-. cbn [fmap list_fmap concat app] in Es.
    destruct (loop_enter s f o l r eol rest Es He Hl) as (L & post & E & HL & HLen).
    exists [], L, post. by split_and!.
  - apply Forall_cons in F as [Fk F]. cbn [edit] in Ek.
    destruct (key_step (cmd_records s) k (l, r, o)) as [[[l1 r1] o1]|] eqn:E1; [|done]. cbn [mbind option_bind] in Ek.
    cbn [fmap list_fmap concat] in Es. rewrite <- app_assoc in Es.
    destruct (round s k _ f l r o l1 r1 o1 Es Hl T Fk E1) as (m & Em & d & (L & EL & HL) & T1 & D).
    rewrite Em. step EL.
    destruct (IH (set_line L (set_screen (screen (set_stdin (concat (key_bytes <$> ks) ++ eol :: rest) s) ++ d)
      (set_stdin (concat (key_bytes <$> ks) ++ eol :: rest) s))) f l1 r1 o1 eq_refl He HL T1 F Ek ltac:(cbn in Hf; lia))
      as (d2 & L2 & post & E2 & B2 & N2 & T2 & D2).
    exists (d ++ d2), L2, post. split_and!; [|done|done|done|].
    + etransitivity; [exact E2|]. cbn. by rewrite <- !app_assoc.
    + intros t p Ht. rewrite fold_left_app. by apply D2, D.
Qed.


(** * Reading a line always ends *)

(** Between two bytes of the input: the bytes to come, and what the loops over the buffers rely on. *)
Definition steady (st : list Z) (s : Shell) : Prop :=
  stdin s = st /\ Z.of_nat (length (exbuf (line s))) <= 2048 /\ 0 <= pi (line s).

(** The loop over the characters behind the cursor ends, whatever [f] keeps up. *)
Lemma tail_loop_total (I : Shell -> Prop) fuel f ii :
  (forall s, I s -> Z.of_nat (length (exbuf (line s))) <= 2048) ->
  (forall c, Total I (f c)) -> (0 <= ii -> 2048 - ii < Z.of_nat fuel) -> (0 < fuel)%nat -> Total I (tail_loop fuel f ii).
Proof.
  intros HI Hf. revert ii. induction fuel as [|fuel IH]; intros ii Hi H0; [lia|]. cbn [tail_loop].
  intros s Hs. destruct (zget (exbuf (line s)) ii) as [c|] eqn:E.
  - rewrite (bind_Ret _ _ _ _ _ (exbuf_at_run s ii c E)). destruct (0 <? c); [|done].
    unfold zget in E. destruct (Z.leb_spec 0 ii); [|done]. apply lookup_lt_Some in E.
    pose proof (HI s Hs). apply (total_bind I (f c)); [apply Hf|intros _; apply IH; lia|done].
  - unfold exbuf_at, the_line. by rewrite bind_assoc, bind_gets, E.
Qed.

Lemma for_tail_total (I : Shell -> Prop) f :
  (forall s, I s -> Z.of_nat (length (exbuf (line s))) <= 2048) -> (forall c, Total I (f c)) -> Total I (for_tail f).
Proof.
  intros HI Hf. unfold for_tail. apply total_bind; [by intros s Hs|intros L]. apply tail_loop_total; [done|done| |].
  - change (Z.of_nat TAIL_FUEL) with 2049. lia.
  - apply Nat2Z.inj_lt. change (Z.of_nat TAIL_FUEL) with 2049. lia.
Qed.

Section Steady.
Context (st : list Z).
Notation Steady m := (Total (steady st) m).

Lemma steady_putchar c : Steady (shell_putchar c).
Proof. intros s (H1 & H2 & H3). done. Qed.

Lemma steady_printf fmt va : Steady (shell_printf fmt va).
Proof. apply tfp_format_ends. apply steady_putchar. Qed.

Lemma steady_put_all w : Steady (put_all shell_putchar w).
Proof. apply put_all_total, steady_putchar. Qed.

Lemma steady_the_line : Steady the_line.
Proof. by intros s Hs. Qed.

Lemma steady_upd f :
  (forall L, Z.of_nat (length (exbuf L)) <= 2048 -> 0 <= pi L -> Z.of_nat (length (exbuf (f L))) <= 2048 /\ 0 <= pi (f L)) ->
  Steady (upd_line f).
Proof. intros H s (H1 & H2 & H3). cbn. destruct (H (line s) H2 H3). done. Qed.

Lemma steady_set_buf b : Steady (upd_line (set_buf b)).
Proof. by apply steady_upd. Qed.

Lemma steady_set_piex x : Steady (upd_line (set_piex x)).
Proof. by apply steady_upd. Qed.

Lemma steady_set_pi x : 0 <= x -> Steady (upd_line (set_pi x)).
Proof. intros Hx. by apply steady_upd. Qed.

Lemma steady_buf_at i : Steady (buf_at i).
Proof. apply total_bind; [apply steady_the_line|intros; apply total_option]. Qed.

Lemma steady_exbuf_at i : Steady (exbuf_at i).
Proof. apply total_bind; [apply steady_the_line|intros; apply total_option]. Qed.

Lemma steady_put_buf i x : Steady (put_buf i x).
Proof.
  apply total_bind; [apply steady_the_line|intros L]. apply total_bind; [apply total_option|intros b]. apply steady_set_buf.
Qed.

Lemma length_zset {A} (l l' : list A) i x : zset l i x = Some l' -> length l' = length l.
Proof. unfold zset. destruct (_ && _); [|done]. intros [= <-]. apply length_insert. Qed.

Lemma steady_put_exbuf i x : Steady (put_exbuf i x).
Proof.
  intros s (H1 & H2 & H3). unfold put_exbuf, the_line. rewrite bind_gets.
  destruct (zset (exbuf (line s)) i x) as [b|] eqn:E; [|done]. apply length_zset in E. rewrite <- E in H2. done.
Qed.

Lemma steady_for_tail f : (forall c, Steady (f c)) -> Steady (for_tail f).
Proof. apply for_tail_total. by intros s (_ & ? & _). Qed.

(** A step of a program whose parts are all steady. *)
Ltac steady :=
  repeat match goal with
  | |- Total _ (mret _) => apply total_ret
  | |- Total _ undef => apply total_undef
  | |- Total _ (of_option _) => apply total_option
  | |- Total _ (gets _) => apply total_gets
  | |- Total _ the_line => apply steady_the_line
  | |- Total _ (shell_putchar _) => apply steady_putchar
  | |- Total _ (shell_printf _ _) => apply steady_printf
  | |- Total _ (put_all shell_putchar _) => apply steady_put_all
  | |- Total _ (upd_line (set_buf _)) => apply steady_set_buf
  | |- Total _ (upd_line (set_piex _)) => apply steady_set_piex
  | |- Total _ (buf_at _) => apply steady_buf_at
  | |- Total _ (exbuf_at _) => apply steady_exbuf_at
  | |- Total _ (put_buf _ _) => apply steady_put_buf
  | |- Total _ (put_exbuf _ _) => apply steady_put_exbuf
  | |- Total _ (for_tail _) => apply steady_for_tail; intros ?
  | |- Total _ (of_option ?o ≫= _) => destruct o eqn:?; [apply total_known|apply total_unknown]
  | |- Total _ (_ ≫= _) => apply total_bind; [|intros ?]
  | |- Total _ (if ?b then _ else _) => destruct b eqn:?
  end.

(** Moving the cursor from where the line says it is. *)
Lemma steady_move (m : Line -> prog Shell unit) :
  (forall L, 0 <= pi L -> Steady (m L)) -> Steady (l ← the_line; m l).
Proof. intros H s Hs. pose proof Hs as (_ & _ & H3). exact (H (line s) H3 s Hs). Qed.

Lemma steady_backspace : Steady key_backspace_process.
Proof. apply steady_move. intros L HL. destruct (Z.ltb_spec 0 (pi L)); steady. apply steady_set_pi. lia. Qed.

Lemma steady_left : Steady key_left_process.
Proof. apply steady_move. intros L HL. destruct (Z.ltb_spec 0 (pi L)); steady. apply steady_set_pi. lia. Qed.

Lemma steady_right : Steady key_right_process.
Proof. apply steady_move. intros L HL. steady. apply steady_set_pi. lia. Qed.

Lemma steady_del : Steady key_del_process.
Proof. unfold key_del_process. steady; [apply steady_right|apply steady_backspace]. Qed.

Lemma sh_strlen_nonneg l n : sh_strlen l = Some n -> 0 <= n.
Proof.
  revert n. induction l as [|c l IH]; intros n E; [done|]. cbn in E. destruct (c =? 0); [injection E as <-; lia|].
  destruct (sh_strlen l); [|done]. injection E as <-. specialize (IH _ eq_refl). lia.
Qed.

Lemma steady_history offset : Steady (history_process offset).
Proof.
  unfold history_process, times. steady.
  - apply steady_upd. intros L _ HL. split; [|done]. unfold set_exbuf. fields. by rewrite length_zeros.
  - apply steady_set_pi. by eapply sh_strlen_nonneg.
Qed.

Lemma steady_type_rest rest : Steady (type_rest rest).
Proof.
  induction rest as [|c rest IH]; cbn [type_rest]; [apply total_ret|].
  apply steady_move. intros L HL. steady; [apply steady_set_pi; lia|exact IH].
Qed.

Lemma steady_print_matches idxs keys : Steady (print_matches idxs keys).
Proof. induction idxs as [|i idxs IH]; cbn [print_matches]; steady. exact IH. Qed.

Lemma steady_auto_complete : Steady auto_complete.
Proof.
  unfold auto_complete. steady. destruct p as [[tmp itmp] blank_pos]. steady.
  match goal with |- Total _ (match ?l with _ => _ end) => destruct l as [|i [|j idxs]] end; steady;
    [apply steady_type_rest|apply steady_print_matches].
Qed.

Lemma steady_type c : Steady (type_char c).
Proof.
  unfold type_char. apply total_bind; [apply steady_putchar|intros _]. apply steady_move. intros L HL. steady.
  apply steady_set_pi. lia.
Qed.

Lemma steady_append_tail : Steady append_tail.
Proof.
  unfold append_tail. apply total_bind; [apply steady_for_tail; intros c|intros; steady].
  apply steady_move. intros L HL. steady. apply steady_set_pi. lia.
Qed.
End Steady.

(** The same, with at most [n] bytes of input left. *)
Definition steady_le (n : nat) (s : Shell) : Prop := steady (stdin s) s /\ (length (stdin s) <= n)%nat.

Lemma steady_le_of {A} (m : prog Shell A) n : (forall st, Total (steady st) m) -> Total (steady_le n) m.
Proof.
  intros H s [Hs Hn]. specialize (H (stdin s) s Hs). destruct (m s) as [a s'| | |]; [|done..].
  pose proof H as (E & _ & _). rewrite <- E in Hn. rewrite <- E in H. done.
Qed.

Lemma getch_le n : Total (steady_le n) shell_getch.
Proof.
  intros s [(_ & H2 & H3) Hn]. unfold shell_getch. rewrite bind_gets. destruct (stdin s) as [|b rest] eqn:E.
  - cbn. split; [done|]. by rewrite E.
  - cbn. split; [done|]. cbn in *. lia.
Qed.

Lemma escape_le n o : Total (steady_le n) (escape o).
Proof.
  unfold escape. apply total_bind; [apply getch_le|intros c]. destruct (c =? 91); [|apply total_ret].
  apply total_bind; [apply getch_le|intros c']. repeat match goal with |- Total _ (if ?b then _ else _) => destruct b end.
  - apply total_bind; [apply total_gets|intros r]. apply total_bind; [|intros; apply total_ret]. apply steady_le_of. intros. apply steady_history.
  - apply total_bind; [|intros; apply total_ret]. apply steady_le_of. intros. apply steady_history.
  - apply total_bind; [|intros; apply total_ret]. apply steady_le_of. intros. apply steady_left.
  - apply total_bind; [|intros; apply total_ret]. apply steady_le_of. intros. apply steady_right.
  - apply total_bind; [apply getch_le|intros _]. apply total_bind; [|intros; apply total_ret]. apply steady_le_of. intros. apply steady_del.
  - apply total_ret.
Qed.

(** A typed character moves the cursor by one. *)
Lemma type_char_moves c s :
  steady (stdin s) s ->
  match type_char c s with
  | Ret _ s' => steady (stdin s) s' /\ pi (line s') = pi (line s) + 1
  | NoFuel => False
  | _ => True
  end.
Proof.
  intros (H1 & H2 & H3). unfold type_char. step (putchar_run c s). set (s1 := set_screen _ s).
  step (the_line_run s1 (line s) eq_refl). unfold put_buf. rewrite bind_assoc. step (the_line_run s1 (line s) eq_refl).
  rewrite bind_assoc. destruct (zset (buf (line s)) (pi (line s)) c) as [b|]; [|done]. rewrite bind_Some.
  step (upd_line_run (set_buf b) s1). step (upd_line_run (set_pi (pi (line s) + 1)) (set_line (set_buf b (line s1)) s1)).
  set (s2 := set_line _ _). set (I := fun t => steady (stdin s) t /\ pi (line t) = pi (line s) + 1).
  assert (I s2) as Hs by (split; [split; [done|split; [exact H2|cbn; lia]]|done]).
  apply (total_bind I (for_tail shell_putchar)); [|intros _|exact Hs]; apply for_tail_total;
    (by intros t [(_ & ? & _) _]) || by (intros d t [(? & ? & ?) ?]).
Qed.

(** How many rounds the loop needs: one per byte, and behind the input one per place of the buffer. *)
Definition rounds (s : Shell) : Z :=
  match stdin s with [] => Z.max 0 (2048 - pi (line s)) | l => Z.of_nat (length l) + 2049 end.

Lemma rounds_le n s : steady_le n s -> rounds s <= Z.of_nat n + 2049.
Proof. intros [(_ & _ & H3) Hn]. unfold rounds. destruct (stdin s); cbn [length] in *; lia. Qed.

Definition loop_ends (f : nat) : Prop :=
  forall s o, steady (stdin s) s -> rounds s < Z.of_nat f -> read_loop f o s <> NoFuel.

Lemma loop_eof f s o :
  loop_ends f -> stdin s = [] -> steady (stdin s) s -> rounds s < Z.of_nat (S f) -> read_loop (S f) o s <> NoFuel.
Proof.
  intros IH Es Hs Hf. cbn [read_loop].
  assert (shell_getch s = Ret (-1) s) as Eg by (unfold shell_getch; by rewrite bind_gets, Es).
  step Eg. change (-1 =? 10) with false. change (-1 =? 13) with false. change (-1 =? KEY_BACKSPACE) with false.
  change (-1 =? 27) with false. change (-1 =? 9) with false. cbn [orb]. step (the_line_run s _ eq_refl).
  destruct (Z.leb_spec COMMAND_BUF_SIZE (pi (line s))) as [|Hp].
  - pose proof (steady_printf _ too_long [VInt COMMAND_BUF_SIZE] s Hs) as T. revert T. generalize (shell_printf too_long [VInt COMMAND_BUF_SIZE]).
    intros m T. unfold mbind, prog_bind. by destruct (m s).
  - pose proof (type_char_moves (-1) s Hs) as H. revert H. generalize (type_char (-1)). intros m H. unfold mbind, prog_bind.
    destruct (m s) as [[] s'| | |]; [|done..]. destruct H as [(E1 & H2 & H3) Hpi].
    apply IH; [by rewrite E1|]. unfold rounds in *. rewrite E1, Es, Hpi. rewrite Es in Hf. unfold COMMAND_BUF_SIZE in Hp. lia.
Qed.

(** What follows a step that keeps the input below [n] bytes. *)
Lemma then_ends {A} n (m : prog Shell A) (k : A -> prog Shell Z) s :
  steady_le n s -> Total (steady_le n) m -> (forall a s', steady_le n s' -> k a s' <> NoFuel) -> (m ≫= k) s <> NoFuel.
Proof. intros H Hm Hk. specialize (Hm s H). unfold mbind, prog_bind. destruct (m s); [by apply Hk|done..]. Qed.

Lemma loop_next f n : loop_ends f -> Z.of_nat n + 2049 < Z.of_nat f -> forall o s, steady_le n s -> read_loop f o s <> NoFuel.
Proof. intros IH Hn o s H. apply IH; [apply H|]. pose proof (rounds_le _ _ H). lia. Qed.

Lemma loop_byte f s o b rest :
  loop_ends f -> stdin s = b :: rest -> steady (stdin s) s -> rounds s < Z.of_nat (S f) -> read_loop (S f) o s <> NoFuel.
Proof.
  intros IH Es Hs Hf. cbn [read_loop]. rewrite (bind_Ret _ _ _ _ _ (getch_run s _ _ Es)).
  assert (steady_le (length rest) (set_stdin rest s)) as H1 by (split; [destruct Hs as (_ & ? & ?); done|done]).
  assert (Z.of_nat (length rest) + 2049 < Z.of_nat f) as Hr by (unfold rounds in Hf; rewrite Es in Hf; cbn [length] in Hf; lia).
  pose proof (loop_next f _ IH Hr) as Hnext. revert H1 Hnext. generalize (set_stdin rest s) (length rest) (as_char b). clear.
  intros s n c H1 Hnext. destruct ((c =? 10) || (c =? 13)).
  { apply (then_ends n); [done|apply steady_le_of; intros; apply steady_putchar|intros _ s1 S1].
    apply (then_ends n); [done|apply steady_le_of; intros; apply steady_putchar|intros _ s2 S2].
    apply (then_ends n); [done|apply steady_le_of; intros; apply steady_append_tail|done]. }
  destruct (c =? KEY_BACKSPACE).
  { apply (then_ends n); [done|apply steady_le_of; intros; apply steady_backspace|intros _; apply Hnext]. }
  destruct (c =? 27).
  { apply (then_ends n); [done|apply escape_le|intros o'; apply Hnext]. }
  destruct (c =? 9); (apply (then_ends n); [done|apply steady_le_of; intros; apply steady_the_line|intros L s1 S1]).
  { apply (then_ends n); [done|apply steady_le_of; intros; apply steady_put_buf|intros _ s2 S2].
    apply (then_ends n); [done|apply steady_le_of; intros; apply steady_auto_complete|intros _; apply Hnext]. }
  destruct (COMMAND_BUF_SIZE <=? pi L).
  { apply (then_ends n); [done|apply steady_le_of; intros; apply steady_printf|done]. }
  apply (then_ends n); [done|apply steady_le_of; intros; apply steady_type|intros _; apply Hnext].
Qed.

Lemma read_loop_total f : loop_ends f.
Proof.
  induction f as [|f IH]; intros s o Hs Hf.
  - unfold rounds in Hf. destruct (stdin s); cbn in Hf; lia.
  - destruct (stdin s) as [|b rest] eqn:Es; [apply loop_eof|eapply loop_byte]; rewrite ?Es; done.
Qed.

(** Reading a line always ends, whatever bytes are typed and wherever the input ends. *)
Theorem read_input_ends s : read_input s <> NoFuel.
Proof.
  unfold read_input. step (upd_line_run (fun l => mkLine (buf l) 0 (zeros COMMAND_BUF_SIZE) (COMMAND_BUF_SIZE - 2)) s).
  rewrite bind_gets. apply read_loop_total.
  - split; [done|]. cbn [line set_line exbuf pi]. rewrite length_zeros by done. unfold COMMAND_BUF_SIZE. lia.
  - unfold rounds, read_fuel. cbn [line set_line stdin pi]. destruct (stdin s); cbn [length]; lia.
Qed.
