(* ===== verification/MyShell.v ===== *)
(** The shell: parsing and execution of commands, prompt, keywords and the main
    loop of [src/mysh/shell/shell.c], and the commands of [shell_cmd_tbl.c].

    The commands on files ([fs/vfat.c]) are a parameter: their usage and their
    function. *)

From stdpp Require Import strings.
From S2P Require Import Prelude MyPrintf MyLine.
#[local] Open Scope Z_scope.

(** * Commands *)

Inductive cli_status_t := CLI_OK | CLI_CMD_NOT_FOUND | CLI_INVALID_ARGS | CLI_EXE_ERROR.
#[global] Instance cli_status_eq_dec : EqDecision cli_status_t.
Proof. solve_decision. Defined.

Definition status_to_str (st : cli_status_t) : list Z :=
  match st with
  | CLI_CMD_NOT_FOUND => chars "CLI_CMD_NOT_FOUND"
  | CLI_INVALID_ARGS => chars "CLI_INVALID_ARGS"
  | CLI_EXE_ERROR => chars "CLI_EXE_ERROR"
  | CLI_OK => []
  end.

(** [argv] points to rows of [args]. *)
Record cmd_parsed_t := mkParsed { argc : Z; argv : list (option Z); args : list (list Z) }.

Definition parsed_zero : cmd_parsed_t :=
  mkParsed 0 (replicate (Z.to_nat ARG_MAX_COUNT) None) (replicate (Z.to_nat ARG_MAX_COUNT) (zeros COMMAND_BUF_SIZE)).

(** The row [argv[k]] points to. *)
Definition arg (c : cmd_parsed_t) (k : Z) : option (list Z) := p ← zget (argv c) k; i ← p; zget (args c) i.

Definition crlf : list Z := [13; 10].
Definition println (s : string) (va : list va_value) : prog Shell unit := shell_printf (chars s ++ crlf) va.

(** ** [is_blank], [match_cmd] *)

Fixpoint blank_loop (n : nat) (i : Z) (input : list Z) : option bool :=
  match n with
  | O => Some true
  | S n => c ← zget input i; if c =? 32 then blank_loop n (i + 1) input else Some false
  end.
Definition is_blank (input : list Z) : option bool := n ← sh_strlen input; blank_loop (Z.to_nat n) 0 input.

Definition match_cmd (a b : list Z) : option bool :=
  n ← sh_strlen a;
  m ← sh_strlen b;
  if n =? m then t ← agree_loop (S (Z.to_nat n)) 0 n a b; Some (t =? n) else Some false.

(** ** [parse_command] *)

Definition put_arg (a : list (list Z)) (k oi x : Z) : option (list (list Z)) :=
  row ← zget a k; row ← zset row oi x; zset a k row.

(** From the character [i] on; [None] is the result -1, else [argc] and the rows. *)
Fixpoint parse_loop (count : nat) (i n : Z) (input : list Z) (flag : bool) (oi ac : Z) (a : list (list Z)) :
    prog Shell (option (Z * list (list Z))) :=
  match count with
  | O => mret (Some (ac, a))
  | S count =>
      c ← of_option (zget input i);
      if negb (c =? 32) || flag then
        if COMMAND_BUF_SIZE <=? oi then shell_printf (chars "error: args too long!" ++ [10]) [];; mret None
        else if ARG_MAX_COUNT <=? ac then shell_printf (chars "error: too many args !" ++ [10]) [];; mret None
        else
          let flag := if c =? 34 then negb flag else flag in
          a ← of_option (put_arg a ac oi c);
          if i =? n - 1 then
            a ← of_option (put_arg a ac (oi + 1) 0);
            parse_loop count (i + 1) n input flag (oi + 1) (ac + 1) a
          else parse_loop count (i + 1) n input flag (oi + 1) ac a
      else if negb (oi =? 0) then
        a ← of_option (put_arg a ac oi 0);
        parse_loop count (i + 1) n input flag 0 (ac + 1) a
      else parse_loop count (i + 1) n input flag oi ac a
  end.

Fixpoint set_argv (count : nat) (i : Z) (v : list (option Z)) : option (list (option Z)) :=
  match count with O => Some v | S count => v ← zset v i (Some i); set_argv count (i + 1) v end.

(** The caller has cleared [output]. *)
Definition parse_command (input : list Z) (output : cmd_parsed_t) : prog Shell (option cmd_parsed_t) :=
  n ← of_option (sh_strlen input);
  r ← parse_loop (Z.to_nat n) 0 n input false 0 0 (args output);
  match r with
  | None => mret None
  | Some (ac, a) =>
      v ← of_option (set_argv (Z.to_nat ac) 0 (argv output));
      v ← of_option (zset v ac None);
      mret (Some (mkParsed ac v a))
  end.

(** ** Prompt and keywords *)

Definition shell_set_prompt (p : list Z) : prog Shell unit :=
  n ← of_option (sh_strlen p);
  i ← (if 255 - 3 <? n then println "prompt is too long!" [];; mret (255 - 3) else mret n);
  old ← gets prompt;
  b ← of_option (sh_memcpy old p i);
  b ← of_option (zset b i 62);
  b ← of_option (zset b (i + 1) 62);
  b ← of_option (zset b (i + 2) 0);
  modify (set_prompt b).

(** Without the NUL: the rows are taken to be clear. *)
Definition shell_add_keyword (keyname : list Z) : prog Shell unit :=
  k ← gets shell_keywords;
  n ← of_option (sh_strlen keyname);
  row ← of_option (zget (keywords_buf k) (keywords_cnt k));
  row ← of_option (sh_memcpy row keyname n);
  b ← of_option (zset (keywords_buf k) (keywords_cnt k) row);
  modify (set_keywords (mkKeywords (keywords_cnt k + 1) b)).

(** The first keyword from [i] on that is [keyname], or the number of keywords. *)
Fixpoint find_keyword (count : nat) (i : Z) (keyname : list Z) (b : list (list Z)) : option (Z * bool) :=
  match count with
  | O => Some (i, false)
  | S count =>
      row ← zget b i;
      m ← match_cmd keyname row;
      if m : bool then Some (i, true) else find_keyword count (i + 1) keyname b
  end.

Fixpoint shift_keywords (count : nat) (i : Z) (b : list (list Z)) : option (list (list Z)) :=
  match count with
  | O => Some b
  | S count =>
      row ← zget b i; next ← zget b (i + 1);
      row ← sh_memcpy row next MAX_KEY_WORD_SIZE;
      b ← zset b i row;
      shift_keywords count (i + 1) b
  end.

Definition shell_remove_keyword (keyname : list Z) : prog Shell unit :=
  k ← gets shell_keywords;
  r ← of_option (find_keyword (Z.to_nat (keywords_cnt k)) 0 keyname (keywords_buf k));
  b ← of_option (shift_keywords (Z.to_nat (keywords_cnt k - 1 - r.1)) r.1 (keywords_buf k));
  modify (set_keywords (mkKeywords (if r.2 : bool then keywords_cnt k - 1 else keywords_cnt k) b)).

(** * The command table *)

(** The names of [cmd_tbl], in its order; the first four are the commands of this file. *)
Definition cmd_tbl : list string :=
  ["help"; "echo"; "history"; "exit"; "ufat"; "touch"; "mkdir"; "sync"; "ls"; "cd"]%string.

(** A string literal as the array it is. *)
Definition literal (s : string) : list Z := chars s ++ [0].

Definition cmd_name (i : Z) : option (list Z) := literal <$> zget cmd_tbl i.

Section Commands.
(** The commands on files, by their place in the table. *)
Context (fs_usage : Z -> prog Shell unit) (fs_func : Z -> cmd_parsed_t -> prog Shell cli_status_t).

Fixpoint print_names (count : nat) (i : Z) : prog Shell unit :=
  match count with
  | O => mret tt
  | S count =>
      name ← of_option (zget cmd_tbl i);
      println "%d.%s " [VInt i; VStr (chars name)];;
      print_names count (i + 1)
  end.

Definition help_usage : prog Shell unit :=
  println "usage: help <cmd-name>" [];;
  println "<cmd-name> can be: " [];;
  n ← gets cmd_tbl_items;
  print_names (Z.to_nat n) 0.

Definition echo_usage : prog Shell unit := println "usage: echo <string>" [].

Definition history_usage : prog Shell unit :=
  println "usage: history <cmd-name>" [];;
  println "<cmd-name> can be: " [];;
  shell_printf (chars "1.show" ++ crlf ++ chars "2.clear" ++ crlf ++ chars "3.<selected-history-cmd>" ++ crlf) [].

Definition exit_usage : prog Shell unit := println "usage: exit shell" [].

Definition cmd_usage (i : Z) : prog Shell unit :=
  if i =? 0 then help_usage
  else if i =? 1 then echo_usage
  else if i =? 2 then history_usage
  else if i =? 3 then exit_usage
  else fs_usage i.

(** The first command of the table, from [i] on, with the name [word]. *)
Fixpoint find_cmd (count : nat) (i : Z) (word : list Z) : option (option Z) :=
  match count with
  | O => Some None
  | S count =>
      name ← cmd_name i;
      m ← match_cmd name word;
      if m : bool then Some (Some i) else find_cmd count (i + 1) word
  end.

Definition help_func (c : cmd_parsed_t) : prog Shell cli_status_t :=
  if negb (argc c =? 2) then mret CLI_INVALID_ARGS
  else
    n ← gets cmd_tbl_items;
    word ← of_option (arg c 1);
    r ← of_option (find_cmd (Z.to_nat n) 0 word);
    match r with
    | Some i => cmd_usage i;; mret CLI_OK
    | None => println "error! not match any cmd." [];; mret CLI_INVALID_ARGS
    end.

Definition echo_func (c : cmd_parsed_t) : prog Shell cli_status_t :=
  if negb (argc c =? 2) then mret CLI_INVALID_ARGS
  else
    word ← of_option (arg c 1 ≫= c_string);
    println "%s" [VStr word];;
    mret CLI_OK.

(** The digits that are accepted are those strictly between '0' and '9'. *)
Fixpoint string_to_int (a : list Z) (res : Z) : option Z :=
  match a with
  | [] => None
  | c :: a =>
      if c =? 0 then Some res
      else if (48 <? c) && (c <? 57) then
        let res := res * 10 + (c - 48) in
        if res <? 2 ^ 31 then string_to_int a res else None
      else Some (-1)
  end.

Fixpoint show_history (count : nat) (i : Z) : prog Shell unit :=
  match count with
  | O => mret tt
  | S count =>
      r ← gets cmd_records;
      let idx := Z.rem (cmd_idx r - i) HISTORY_MAXITEMS in
      row ← of_option (zget (cmd_buf r) idx ≫= c_string);
      println "%d: %s" [VInt idx; VStr row];;
      show_history count (i + 1)
  end.

Definition history_func (c : cmd_parsed_t) : prog Shell cli_status_t :=
  if negb (argc c =? 2) then mret CLI_INVALID_ARGS
  else
    word ← of_option (arg c 1);
    show ← of_option (match_cmd (literal "show") word);
    if show : bool then r ← gets cmd_records; show_history (Z.to_nat (level r)) 1;; mret CLI_OK
    else
      clear ← of_option (match_cmd (literal "clear") word);
      if clear : bool then
        modify (fun s => set_records (mkRecords (cmd_idx (cmd_records s)) 0 (cmd_buf (cmd_records s))) s);; mret CLI_OK
      else
        v ← of_option (string_to_int word 0);
        (if 0 <=? v then
           r ← gets cmd_records;
           row ← of_option (zget (cmd_buf r) v ≫= c_string);
           println "%s" [VStr row]
         else mret tt);;
        mret CLI_OK.

Definition exit_func (c : cmd_parsed_t) : prog Shell cli_status_t :=
  println "Bye." [];; modify (set_exit true);; mret CLI_OK.

Definition cmd_func (i : Z) (c : cmd_parsed_t) : prog Shell cli_status_t :=
  if i =? 0 then help_func c
  else if i =? 1 then echo_func c
  else if i =? 2 then history_func c
  else if i =? 3 then exit_func c
  else fs_func i c.

Definition execute_command (c : cmd_parsed_t) : prog Shell cli_status_t :=
  n ← gets cmd_tbl_items;
  word ← of_option (arg c 0);
  r ← of_option (find_cmd (Z.to_nat n) 0 word);
  match r with
  | None => mret CLI_CMD_NOT_FOUND
  | Some i =>
      rc ← cmd_func i c;
      (if bool_decide (rc = CLI_INVALID_ARGS) then cmd_usage i else mret tt);;
      mret rc
  end.

(** * The main loop *)

(** A command other than history goes into the records. *)
Definition add_record (b : list Z) : prog Shell unit :=
  r ← gets cmd_records;
  row ← of_option (zget (cmd_buf r) (cmd_idx r));
  row ← of_option (sh_memcpy row b COMMAND_BUF_SIZE);
  rows ← of_option (zset (cmd_buf r) (cmd_idx r) row);
  modify (set_records (mkRecords (Z.rem (cmd_idx r + 1) HISTORY_MAXITEMS)
    (if level r <? HISTORY_MAXITEMS then level r + 1 else level r) rows)).

Definition dashes : string := "---------------------".

(** What the loop does with the line in the buffer. *)
Definition run_line : prog Shell unit :=
  l ← the_line;
  let b := buf l in
  n ← of_option (sh_strlen b);
  blank ← of_option (is_blank b);
  if (0 <? n) && negb blank then
    r ← parse_command b parsed_zero;
    match r with
    | None => println "error! parse_command error" []
    | Some c =>
        word ← of_option (arg c 0);
        h ← of_option (match_cmd (literal "history") word);
        (if h : bool then mret tt else add_record b);;
        rc ← execute_command c;
        if bool_decide (rc = CLI_OK) then mret tt
        else
          println dashes [];;
          println "error: %s" [VStr (status_to_str rc)];;
          println dashes []
    end
  else mret tt.

Fixpoint shell_loop (fuel : nat) : prog Shell Z :=
  match fuel with
  | O => nofuel
  | S f =>
      e ← gets shell_should_exit;
      if e : bool then mret 0
      else
        p ← gets prompt;
        p ← of_option (c_string p);
        shell_printf p [];;
        upd_line (set_buf (zeros COMMAND_BUF_SIZE));;
        rc ← read_input;
        if rc <? 0 then println "error! read_input error" [];; shell_loop f
        else if 0 <? rc then println "read input_key_code %d" [VInt rc];; mret (-1)
        else run_line;; shell_loop f
  end.

(** The loop runs until a command sets [shell_should_exit]: one round for each of [fuel] lines. *)
Definition shell_execute (fuel : nat) : prog Shell Z := shell_set_prompt [0];; shell_loop fuel.

Fixpoint add_names (count : nat) (i : Z) : prog Shell unit :=
  match count with
  | O => mret tt
  | S count => name ← of_option (cmd_name i); shell_add_keyword name;; add_names count (i + 1)
  end.

Fixpoint print_keywords (count : nat) (i : Z) : prog Shell unit :=
  match count with
  | O => mret tt
  | S count =>
      k ← gets shell_keywords;
      row ← of_option (zget (keywords_buf k) i ≫= c_string);
      shell_printf (chars "%s ") [VStr row];;
      print_keywords count (i + 1)
  end.

Definition stars : string := "********************************************************************".

Definition shell_init : prog Shell unit :=
  modify (set_items (Z.of_nat (length cmd_tbl)));;
  println stars [];;
  println "** this is a simple cli, type 'help' to see what cmds is supported." [];;
  println stars [];;
  n ← gets cmd_tbl_items;
  add_names (Z.to_nat n) 0;;
  shell_printf (chars "all supported keywords are { ") [];;
  k ← gets shell_keywords;
  print_keywords (Z.to_nat (keywords_cnt k)) 0;;
  println "}" [];;
  shell_printf crlf [].

(** The result of main is not used. *)
Definition main (fuel : nat) : prog Shell Z := shell_init;; shell_execute fuel.
End Commands.

(** The objects of the program at its start, with [input] to come from the terminal. *)
Definition shell_start (input : list Z) : Shell :=
  mkShell input [] false
    (mkRecords 0 0 (replicate (Z.to_nat HISTORY_MAXITEMS) (zeros COMMAND_BUF_SIZE)))
    (mkKeywords 0 (replicate (Z.to_nat MAX_KEY_WORD_CNT) (zeros MAX_KEY_WORD_SIZE)))
    (zeros 255) 0 (mkLine (zeros COMMAND_BUF_SIZE) 0 (zeros COMMAND_BUF_SIZE) (COMMAND_BUF_SIZE - 2)).
