(* ===== verification/MyParse.v ===== *)
(** The words of a command line: [parse_command], [match_cmd] and the search in
    the command table compute what they mean on strings. *)

From stdpp Require Import strings.
From S2P Require Import Prelude MyPrintf MyLine MyEdit MyShell.
#[local] Open Scope Z_scope.

(** * Messages *)

Lemma printf_run ps s :
  Forall piece_ok ps ->
  shell_printf (concat (fmt_of <$> ps)) (concat (args_of <$> ps)) s = Ret tt (set_screen (screen s ++ concat (text_of <$> ps)) s).
Proof. intros F. unfold shell_printf. by rewrite tfp_format_prints_all, put_all_run. Qed.

(** A text without percent signs and NULs. *)
Definition plain (l : list Z) : Prop := Forall (fun c => c <> 0 /\ c <> 37) l.
#[global] Instance plain_dec l : Decision (plain l).
Proof. unfold plain. apply _. Defined.

Lemma printf_lit l s : plain l -> shell_printf l [] s = Ret tt (set_screen (screen s ++ l) s).
Proof.
  intros F. assert (concat (fmt_of <$> (Lit <$> l)) = l /\ concat (args_of <$> (Lit <$> l)) = [] /\ concat (text_of <$> (Lit <$> l)) = l)
    as (E1 & E2 & E3) by (clear; induction l as [|c l (E1 & E2 & E3)]; [done|]; cbn; rewrite E1, E2, E3; done).
  pose proof (printf_run (Lit <$> l) s) as H. rewrite E1, E2, E3 in H. apply H. by apply Forall_fmap.
Qed.

(** * The words of a line *)

(** Words are separated by blanks, except between double quotes, which stay in
    the word; [cur] is the word that has begun. *)
Fixpoint tokens (cur : list Z) (flag : bool) (l : list Z) : list (list Z) :=
  match l with
  | [] => if bool_decide (cur = []) then [] else [cur]
  | c :: l =>
      if negb (c =? 32) || flag then tokens (cur ++ [c]) (if c =? 34 then negb flag else flag) l
      else if bool_decide (cur = []) then tokens [] false l
      else cur :: tokens [] false l
  end.

Definition words (l : list Z) : list (list Z) := tokens [] false l.

(** * The rows of [args] *)

(** A word in its row, and the rows behind the words. *)
Definition pad (w : list Z) : list Z := w ++ replicate (2048 - length w) 0.
Definition rows_of (ts : list (list Z)) : list (list Z) := (pad <$> ts) ++ replicate (10 - length ts) (pad []).

Lemma length_rows_of ts : (length ts <= 10)%nat -> length (rows_of ts) = 10%nat.
Proof. intros H. unfold rows_of. rewrite length_app, length_fmap, length_replicate. lia. Qed.

Lemma rows_of_nil ts : (length ts < 10)%nat -> rows_of (ts ++ [[]]) = rows_of ts.
Proof.
  intros H. unfold rows_of. rewrite fmap_app, length_app. cbn [fmap list_fmap length]. rewrite <- app_assoc. cbn [app].
  f_equal. replace (10 - length ts)%nat with (S (10 - (length ts + 1))) by lia. done.
Qed.

Lemma lookup_rows ts i w : ts !! i = Some w -> rows_of ts !! i = Some (pad w).
Proof.
  intros H. unfold rows_of. rewrite lookup_app_l by (rewrite length_fmap; by eapply lookup_lt_Some).
  by rewrite list_lookup_fmap, H.
Qed.

(** The row behind the text is clear. *)
Lemma pad_room w : Z.of_nat (length w) < 2048 -> pad w = w ++ 0 :: replicate (2047 - length w) 0.
Proof.
  intros H. unfold pad.
  assert (Z.of_nat (2048 - length w) = Z.succ (Z.of_nat (2047 - length w))) as E by lia.
  rewrite <- Nat2Z.inj_succ in E. apply Nat2Z.inj in E. by rewrite E.
Qed.

Lemma zset_row w c : Z.of_nat (length w) < 2048 -> zset (pad w) (Z.of_nat (length w)) c = Some (pad (w ++ [c])).
Proof.
  intros H. rewrite pad_room by done. rewrite zset_mid by done. unfold pad. rewrite <- app_assoc. cbn [app].
  do 4 f_equal. rewrite length_app. cbn [length]. lia.
Qed.

Lemma zset_row_end w : Z.of_nat (length w) < 2048 -> zset (pad w) (Z.of_nat (length w)) 0 = Some (pad w).
Proof. intros H. rewrite pad_room by done. by rewrite zset_mid. Qed.

Lemma put_arg_rows dn cur c row :
  (length dn < 10)%nat -> zset (pad cur) (Z.of_nat (length cur)) c = Some (pad row) ->
  put_arg (rows_of (dn ++ [cur])) (Z.of_nat (length dn)) (Z.of_nat (length cur)) c = Some (rows_of (dn ++ [row])).
Proof.
  intros H E. unfold put_arg, rows_of. rewrite !fmap_app, !length_app, <- !app_assoc. cbn [fmap list_fmap app length].
  rewrite zget_mid by (by rewrite length_fmap). cbn [mbind option_bind]. rewrite E. cbn [mbind option_bind].
  by rewrite zset_mid by (by rewrite length_fmap).
Qed.

(** * Parsing *)

Definition ARGS_MSG : list Z := chars "error: too many args !" ++ [10].

Lemma args_msg_plain : plain ARGS_MSG.
Proof. apply (bool_decide_unpack _). vm_compute. exact I. Qed.

Lemma tokens_nonempty cur flag l : cur <> [] -> (0 < length (tokens cur flag l))%nat.
Proof.
  revert cur flag. induction l as [|c l IH]; intros cur flag H; cbn [tokens].
  - rewrite bool_decide_eq_false_2 by done. cbn. lia.
  - destruct (_ || _); [apply IH; by destruct cur|]. rewrite bool_decide_eq_false_2 by done. cbn. lia.
Qed.

(** The state of the loop in front of the characters [l]: the words [dn] are done and [cur] has begun. *)
Lemma parse_loop_spec l : forall i n input flag cur dn s,
  (forall k c, l !! k = Some c -> zget input (i + Z.of_nat k) = Some c) ->
  i + Z.of_nat (length l) = n -> Z.of_nat (length cur) <= i -> n <= 2046 ->
  (l = [] -> cur = []) -> (length dn < 10 \/ (length dn = 10 /\ cur = []))%nat ->
  parse_loop (length l) i n input flag (Z.of_nat (length cur)) (Z.of_nat (length dn)) (rows_of (if bool_decide (cur = []) then dn else dn ++ [cur])) s =
    let ts := dn ++ tokens cur flag l in
    if (length ts <=? 10)%nat then Ret (Some (Z.of_nat (length ts), rows_of ts)) s
    else Ret None (set_screen (screen s ++ ARGS_MSG) s).
Proof.
  induction l as [|c l IH]; intros i n input flag cur dn s Hin Hlen Hcur Hn Hl Hdn; cbn [parse_loop length tokens].
  - rewrite (Hl eq_refl). rewrite bool_decide_eq_true_2 by done. cbn. rewrite app_nil_r.
    destruct (Nat.leb_spec (length dn) 10); [done|lia].
  - pose proof (Hin O c eq_refl) as Hc. rewrite Z.add_0_r in Hc. rewrite Hc, bind_Some. cbn [length] in Hlen.
    assert (Hin' : forall k d, l !! k = Some d -> zget input (i + 1 + Z.of_nat k) = Some d).
    { intros k d Hk. specialize (Hin (S k) d Hk). by replace (i + 1 + Z.of_nat k) with (i + Z.of_nat (S k)) by lia. }
    destruct (negb (c =? 32) || flag) eqn:Ew.
    + destruct (Z.leb_spec COMMAND_BUF_SIZE (Z.of_nat (length cur))) as [Hb|]; [unfold COMMAND_BUF_SIZE in Hb; lia|].
      destruct (Z.leb_spec ARG_MAX_COUNT (Z.of_nat (length dn))) as [Ha|Ha]; unfold ARG_MAX_COUNT in Ha.
      * assert (0 < length (tokens (cur ++ [c]) (if (c =? 34)%Z then negb flag else flag) l))%nat
          by (apply tokens_nonempty; by destruct cur).
        match goal with |- context [(?n <=? 10)%nat] => destruct (Nat.leb_spec n 10) as [Hle|] end;
          [rewrite length_app in Hle; lia|].
        rewrite (bind_Ret _ _ _ _ _ (printf_lit ARGS_MSG s args_msg_plain)). reflexivity.
      * assert (length dn < 10)%nat as Hd by lia.
        assert (rows_of (if bool_decide (cur = []) then dn else dn ++ [cur]) = rows_of (dn ++ [cur])) as ->
          by (case_bool_decide; [subst; by rewrite rows_of_nil|done]).
        rewrite (put_arg_rows dn cur c (cur ++ [c]) Hd (zset_row cur c ltac:(lia))), bind_Some.
        replace (Z.of_nat (length cur) + 1) with (Z.of_nat (length (cur ++ [c]))) by (rewrite length_app; cbn; lia).
        destruct (Z.eqb_spec i (n - 1)) as [Ei|Ei].
        -- assert (l = []) as -> by (destruct l; [done|cbn in Hlen; lia]).
           rewrite (put_arg_rows dn (cur ++ [c]) 0 (cur ++ [c]) Hd); [|apply zset_row_end; rewrite length_app; cbn; lia].
           rewrite bind_Some. cbn [parse_loop length tokens]. rewrite bool_decide_eq_false_2 by (by destruct cur).
           rewrite length_app. cbn [length]. destruct (Nat.leb_spec (length dn + 1) 10); [|lia]. unfold mret, prog_ret.
           do 3 f_equal. lia.
        -- pose proof (IH (i + 1) n input (if c =? 34 then negb flag else flag) (cur ++ [c]) dn s Hin' ltac:(lia)
             ltac:(rewrite length_app; cbn; lia) Hn ltac:(intros ->; cbn in Hlen; lia) ltac:(by left)) as G.
           rewrite bool_decide_eq_false_2 in G by (by destruct cur). exact G.
    + apply orb_false_iff in Ew as [Ew ->]. apply negb_false_iff, Z.eqb_eq in Ew. subst c.
      case_bool_decide as Hce.
      * subst cur. cbn [length]. change (negb (Z.of_nat 0 =? 0)) with false. cbv iota.
        pose proof (IH (i + 1) n input false [] dn s Hin' ltac:(lia) ltac:(cbn; lia) Hn ltac:(done) Hdn) as G.
        rewrite bool_decide_eq_true_2 in G by done. exact G.
      * destruct Hdn as [Hd|[_ ?]]; [|done]. destruct cur as [|x cur]; [done|].
        destruct (Z.eqb_spec (Z.of_nat (length (x :: cur))) 0) as [E0|_]; [cbn in E0; lia|]. cbn [negb].
        rewrite (put_arg_rows dn (x :: cur) 0 (x :: cur) Hd); [|apply zset_row_end; lia]. rewrite bind_Some.
        pose proof (IH (i + 1) n input false [] (dn ++ [x :: cur]) s Hin' ltac:(lia) ltac:(cbn in *; lia) Hn ltac:(done)
          ltac:(rewrite length_app; cbn; destruct (decide (length dn = 9)%nat); [right; split; [lia|done]|left; lia])) as G.
        rewrite bool_decide_eq_true_2 in G by done. rewrite <- app_assoc in G. cbn [app] in G.
        replace (Z.of_nat (length dn) + 1) with (Z.of_nat (length (dn ++ [x :: cur]))) by (rewrite length_app; cbn; lia).
        exact G.
Qed.

(** The command with the words [ts]. *)
Definition argv_of (n : nat) : list (option Z) := ((fun i => Some (Z.of_nat i)) <$> seq 0 n) ++ replicate (10 - n) None.
Definition parsed (ts : list (list Z)) : cmd_parsed_t := mkParsed (Z.of_nat (length ts)) (argv_of (length ts)) (rows_of ts).

Lemma set_argv_spec k i :
  (i + k <= 10)%nat -> set_argv k (Z.of_nat i) (argv_of i) = Some (argv_of (i + k)).
Proof.
  revert i. induction k as [|k IH]; intros i H; [by rewrite Nat.add_0_r|]. cbn [set_argv].
  assert (zset (argv_of i) (Z.of_nat i) (Some (Z.of_nat i)) = Some (argv_of (S i))) as ->.
  { unfold argv_of. replace (10 - i)%nat with (S (10 - S i)) by lia. cbn [replicate].
    rewrite zset_mid by (by rewrite length_fmap, length_seq). rewrite seq_S, fmap_app, <- app_assoc. done. }
  cbn [mbind option_bind]. replace (Z.of_nat i + 1) with (Z.of_nat (S i)) by lia. rewrite IH by lia. do 2 f_equal. lia.
Qed.

Lemma set_argv_over k i v : (10 < i + k)%nat -> (i <= 10)%nat -> length v = 10%nat -> set_argv k (Z.of_nat i) v = None.
Proof.
  revert i v. induction k as [|k IH]; intros i v H Hi Hv; [lia|]. cbn [set_argv].
  destruct (decide (i = 10)%nat) as [->|]; [by rewrite zset_none by (rewrite Hv; lia)|].
  rewrite zset_nat by lia. cbn [mbind option_bind]. replace (Z.of_nat i + 1) with (Z.of_nat (S i)) by lia.
  apply IH; [lia|lia|by rewrite length_insert].
Qed.

Lemma args_zero : args parsed_zero = rows_of [] /\ argv parsed_zero = argv_of 0.
Proof. split; vm_compute; reflexivity. Qed.

Lemma parse_command_words input w s :
  stored_line input w ->
  let ts := words w in
  parse_command input parsed_zero s =
    if (length ts <? 10)%nat then Ret (Some (parsed ts)) s
    else if (length ts =? 10)%nat then Undef
    else Ret None (set_screen (screen s ++ ARGS_MSG) s).
Proof.
  intros (rest & -> & Hlen & Hw & Hn) ts. unfold parse_command. rewrite sh_strlen_app by done. rewrite bind_Some, Nat2Z.id.
  destruct args_zero as [-> ->].
  pose proof (parse_loop_spec w 0 (Z.of_nat (length w)) (w ++ 0 :: rest) false [] [] s) as P.
  cbn [length app] in P. rewrite bool_decide_eq_true_2 in P by done. change (Z.of_nat 0) with 0 in P.
  change (tokens [] false w) with ts in P. unfold mbind at 1, prog_bind at 1. rewrite P; clear P.
  - destruct (Nat.leb_spec (length ts) 10) as [H10|H10].
    + rewrite Nat2Z.id. pose proof (set_argv_spec (length ts) 0 ltac:(lia)) as Ea. change (Z.of_nat 0) with 0 in Ea. rewrite Ea.
      rewrite bind_Some. cbn [Nat.add]. destruct (Nat.ltb_spec (length ts) 10).
      * assert (zset (argv_of (length ts)) (Z.of_nat (length ts)) None = Some (argv_of (length ts))) as ->; [|done].
        unfold argv_of. replace (10 - length ts)%nat with (S (9 - length ts)) by lia. cbn [replicate].
        by rewrite zset_mid by (by rewrite length_fmap, length_seq).
      * rewrite zset_none; [by destruct (Nat.eqb_spec (length ts) 10); [|lia]|].
        unfold argv_of. rewrite length_app, length_fmap, length_seq, length_replicate. lia.
    + destruct (Nat.ltb_spec (length ts) 10); [lia|]. destruct (Nat.eqb_spec (length ts) 10); [lia|done].
  - intros k c Hk. rewrite Z.add_0_l, zget_nat. by apply lookup_app_l_Some.
  - lia.
  - lia.
  - lia.
  - done.
  - left. lia.
Qed.

Lemma arg_parsed ts k w : (length ts < 10)%nat -> ts !! k = Some w -> arg (parsed ts) (Z.of_nat k) = Some (pad w).
Proof.
  intros Hn H. pose proof (lookup_lt_Some _ _ _ H). unfold arg, parsed. cbn [argv args]. rewrite zget_nat. unfold argv_of.
  rewrite lookup_app_l by (by rewrite length_fmap, length_seq). rewrite list_lookup_fmap, lookup_seq_lt by done. cbn.
  rewrite zget_nat. by apply lookup_rows.
Qed.

(** * Comparing words *)

Lemma agree_spec f t len a b x y :
  length a = len -> length b = len -> (t <= len)%nat -> (len - t < f)%nat -> take t a = take t b ->
  exists r, agree_loop f (Z.of_nat t) (Z.of_nat len) (a ++ x) (b ++ y) = Some r /\ (r = Z.of_nat len <-> a = b).
Proof.
  revert t. induction f as [|f IH]; intros t Ha Hb Ht Hf Et; [lia|]. cbn [agree_loop].
  destruct (Z.ltb_spec (Z.of_nat t) (Z.of_nat len)) as [Hl|Hl].
  - destruct (lookup_lt_is_Some_2 a t ltac:(lia)) as [u Hu]. destruct (lookup_lt_is_Some_2 b t ltac:(lia)) as [v Hv].
    rewrite !zget_nat, (lookup_app_l_Some _ _ _ _ Hu), (lookup_app_l_Some _ _ _ _ Hv). cbn [mbind option_bind].
    destruct (Z.eqb_spec u v) as [->|Hne].
    + replace (Z.of_nat t + 1) with (Z.of_nat (S t)) by lia. apply IH; [done|done|lia|lia|].
      by rewrite (take_S_r _ _ _ Hu), (take_S_r _ _ _ Hv), Et.
    + eexists. split; [done|]. split; [lia|]. intros ->. congruence.
  - assert (t = len) as -> by lia. eexists. split; [done|]. split; [|done]. intros _.
    by rewrite !take_ge in Et by lia.
Qed.

Lemma match_cmd_spec a b x y :
  no_nul a -> no_nul b -> match_cmd (a ++ 0 :: x) (b ++ 0 :: y) = Some (bool_decide (a = b)).
Proof.
  intros Ha Hb. unfold match_cmd. rewrite !sh_strlen_app by done. cbn [mbind option_bind].
  destruct (Z.eqb_spec (Z.of_nat (length a)) (Z.of_nat (length b))) as [E|E].
  - apply Nat2Z.inj in E. rewrite Nat2Z.id.
    destruct (agree_spec (S (length a)) 0 (length a) a b (0 :: x) (0 :: y)) as (r & Er & Hr); [done|done|lia|lia|done|].
    change (Z.of_nat 0) with 0 in Er. rewrite Er. cbn [mbind option_bind]. f_equal.
    destruct (Z.eqb_spec r (Z.of_nat (length a))) as [->|Hne]; symmetry; [apply bool_decide_eq_true_2, Hr; done|].
    apply bool_decide_eq_false_2. by intros ->%Hr.
  - f_equal. symmetry. apply bool_decide_eq_false_2. by intros ->.
Qed.

(** The place of a name in a table. *)
Fixpoint place (w : list Z) (i : Z) (names : list string) : option Z :=
  match names with
  | [] => None
  | n :: names => if bool_decide (chars n = w) then Some i else place w (i + 1) names
  end.

Lemma find_cmd_spec w x : no_nul w -> forall k i names,
  (forall j n, names !! j = Some n -> zget cmd_tbl (i + Z.of_nat j) = Some n) -> Forall (fun n => no_nul (chars n)) names ->
  length names = k -> find_cmd k i (w ++ 0 :: x) = Some (place w i names).
Proof.
  intros Hw k. induction k as [|k IH]; intros i names Hn F Hk; (destruct names as [|n names]; [|try done]); [done|done|].
  apply Forall_cons in F as [Fn F]. cbn [find_cmd place]. unfold cmd_name.
  pose proof (Hn O n eq_refl) as H0. rewrite Z.add_0_r in H0. rewrite H0. cbn [fmap option_fmap option_map mbind option_bind].
  unfold literal. rewrite match_cmd_spec by done. cbn [mbind option_bind]. destruct (bool_decide (chars n = w)); [done|].
  apply IH; [|done|by injection Hk]. intros j m Hj. specialize (Hn (S j) m Hj).
  by replace (i + 1 + Z.of_nat j) with (i + Z.of_nat (S j)) by lia.
Qed.

Lemma find_cmd_table w x : no_nul w -> find_cmd 10 0 (w ++ 0 :: x) = Some (place w 0 cmd_tbl).
Proof.
  intros Hw. apply find_cmd_spec; [done| |by repeat constructor|done].
  intros j n Hj. by rewrite Z.add_0_l, zget_nat.
Qed.

(** * What a line is parsed to *)

(** A word that is typed as it is: not empty, without blanks and quotes. *)
Definition simple (w : list Z) : Prop := w <> [] /\ Forall (fun c => c <> 32 /\ c <> 34 /\ c <> 0) w.

Lemma tokens_simple w cur l : Forall (fun c => c <> 32 /\ c <> 34 /\ c <> 0) w -> tokens cur false (w ++ l) = tokens (cur ++ w) false l.
Proof.
  intros F. revert cur. induction F as [|c w (H1 & H2 & _) F IH]; intros cur; [by rewrite app_nil_r|]. cbn [app tokens].
  destruct (Z.eqb_spec c 32); [done|]. destruct (Z.eqb_spec c 34); [done|]. cbn [negb orb]. rewrite IH, <- app_assoc. done.
Qed.

Lemma words_blanks n l : words (replicate n 32 ++ l) = words l.
Proof. unfold words. induction n as [|n IH]; [done|]. exact IH. Qed.

Lemma words_simple w n l : simple w -> words (replicate n 32 ++ w ++ 32 :: l) = w :: words l.
Proof.
  intros [Hw F]. rewrite words_blanks. unfold words. rewrite tokens_simple by done. cbn [app tokens negb orb Z.eqb].
  change (negb (32 =? 32) || false) with false. cbv iota. by rewrite bool_decide_eq_false_2.
Qed.

Lemma words_last w n : simple w -> words (replicate n 32 ++ w) = [w].
Proof.
  intros [Hw F]. rewrite words_blanks. unfold words. rewrite <- (app_nil_r w) at 1. rewrite tokens_simple by done. cbn.
  by rewrite bool_decide_eq_false_2.
Qed.

(** The words with any number of blanks in front of each, and at least one between two. *)
Fixpoint spread (ws : list (nat * list Z)) : list Z :=
  match ws with
  | [] => []
  | [(n, w)] => replicate n 32 ++ w
  | (n, w) :: ws => replicate n 32 ++ w ++ 32 :: spread ws
  end.

Lemma words_spread ws : Forall (fun x => simple x.2) ws -> words (spread ws) = ws.*2.
Proof.
  induction 1 as [|[n w] ws Hw F IH]; [done|]. destruct ws as [|x ws]; [by apply words_last|].
  change (spread ((n, w) :: x :: ws)) with (replicate n 32 ++ w ++ 32 :: spread (x :: ws)).
  rewrite words_simple by done. by rewrite IH.
Qed.


