(* ===== verification/MySpec.v ===== *)
(** What a user of the shell sees: an abstract shell, with a history of lines and
    the text each line is answered with, and the program of [MyShell]
    that implements it from the first prompt to exit. *)

From stdpp Require Import strings.
From S2P Require Import Prelude MyPrintf MyLine MyEdit MyShell MyParse.
#[local] Open Scope Z_scope.

(** * The abstract shell *)

Definition say (s : string) : list Z := chars s ++ crlf.

(** Every line that was recorded, and how many of the latest are shown. *)
Record History := mkHistory { past : list (list Z); lv : nat }.

Definition name_line (i : nat) (n : string) : list Z := signed_decimal (Z.of_nat i) ++ [46] ++ chars n ++ [32] ++ crlf.

(** The usage of a command of the shell itself. *)
Definition usage_text (i : Z) : option (list Z) :=
  if i =? 0 then Some (say "usage: help <cmd-name>" ++ say "<cmd-name> can be: " ++ concat (imap name_line cmd_tbl))
  else if i =? 1 then Some (say "usage: echo <string>")
  else if i =? 2 then Some (say "usage: history <cmd-name>" ++ say "<cmd-name> can be: " ++
    chars "1.show" ++ crlf ++ chars "2.clear" ++ crlf ++ chars "3.<selected-history-cmd>" ++ crlf)
  else if i =? 3 then Some (say "usage: exit shell")
  else None.

(** The lines of the history from the [i]th last on. *)
Fixpoint show_text (h : list (list Z)) (count i : nat) : list Z :=
  match count with
  | O => []
  | S count =>
      let idx := (length h - i)%nat in
      signed_decimal (Z.of_nat idx) ++ [58; 32] ++ (h !!! idx) ++ crlf ++ show_text h count (S i)
  end.

Definition Answer : Type := list Z * cli_status_t * History * bool.

Definition history_answer (h : History) (w : list Z) : option Answer :=
  if bool_decide (chars "show" = w) then Some (show_text (past h) (lv h) 1, CLI_OK, h, false)
  else if bool_decide (chars "clear" = w) then Some ([], CLI_OK, mkHistory (past h) 0, false)
  else
    v ← string_to_int (w ++ [0]) 0;
    if v <? 0 then Some ([], CLI_OK, h, false)
    else if v <? 50 then Some (default [] (past h !! Z.to_nat v) ++ crlf, CLI_OK, h, false) else None.

(** A command of the table and its arguments; [None] is a command on files or
    something undefined. *)
Definition command_answer (h : History) (i : Z) (rest : list (list Z)) : option Answer :=
  let invalid : option Answer := Some ([], CLI_INVALID_ARGS, h, false) in
  if i =? 0 then
    match rest with
    | [w] =>
        match place w 0 cmd_tbl with
        | Some j => t ← usage_text j; Some (t, CLI_OK, h, false)
        | None => Some (say "error! not match any cmd.", CLI_INVALID_ARGS, h, false)
        end
    | _ => invalid
    end
  else if i =? 1 then match rest with [w] => Some (w ++ crlf, CLI_OK, h, false) | _ => invalid end
  else if i =? 2 then match rest with [w] => history_answer h w | _ => invalid end
  else if i =? 3 then Some (say "Bye.", CLI_OK, h, true)
  else None.

(** With the usage behind wrong arguments. *)
Definition answer (h : History) (ts : list (list Z)) : option Answer :=
  match ts with
  | [] => None
  | c :: rest =>
      match place c 0 cmd_tbl with
      | None => Some ([], CLI_CMD_NOT_FOUND, h, false)
      | Some i =>
          a ← command_answer h i rest;
          let '(t, st, h', ex) := a : Answer in
          if bool_decide (st = CLI_INVALID_ARGS) then u ← usage_text i; Some (t ++ u, st, h', ex) else Some a
      end
  end.

Definition error_text (st : cli_status_t) : list Z :=
  if bool_decide (st = CLI_OK) then [] else say dashes ++ chars "error: " ++ status_to_str st ++ crlf ++ say dashes.

(** The history has room for 49 lines before its index wraps. *)
Definition recorded (h : History) (w : list Z) : option History :=
  if (length (past h) <? 49)%nat then Some (mkHistory (past h ++ [w]) (S (lv h))) else None.

(** The text behind a line, the history then, and whether the shell ends. *)
Definition line_answer (h : History) (w : list Z) : option (list Z * History * bool) :=
  if bool_decide (Forall (fun c => c = 32) w) then Some ([], h, false)
  else
    let ts := words w in
    if (length ts <? 10)%nat then
      h ← (if bool_decide (chars "history" = default [] (head ts)) then Some h else recorded h w);
      a ← answer h ts;
      let '(t, st, h', ex) := a : Answer in
      Some (t ++ error_text st, h', ex)
    else if (length ts =? 10)%nat then None
    else Some (ARGS_MSG ++ say "error! parse_command error", h, false).

(** A session that ends with its last line. *)
Fixpoint session (h : History) (lines : list (list Z)) : option (list Z) :=
  match lines with
  | [] => None
  | w :: lines =>
      a ← line_answer h w;
      let '(t, h', ex) := a : list Z * History * bool in
      rest ← (if ex : bool then if lines is [] then Some [] else None else session h' lines);
      Some ([62; 62] ++ w ++ crlf ++ t ++ rest)
  end.

Example session_text : session (mkHistory [] 0) [chars "echo hi"; chars "history show"; chars "exit"] =
  Some (chars ">>echo hi" ++ crlf ++ chars "hi" ++ crlf ++ chars ">>history show" ++ crlf ++ chars "0: echo hi" ++ crlf ++
        chars ">>exit" ++ crlf ++ chars "Bye." ++ crlf).
Proof. vm_compute. reflexivity. Qed.

(** * The records *)

Definition at_history (r : cmd_records_t) (h : History) : Prop :=
  cmd_idx r = Z.of_nat (length (past h)) /\ level r = Z.of_nat (lv h) /\ (lv h <= length (past h))%nat /\
  (length (past h) <= 49)%nat /\ length (cmd_buf r) = 50%nat /\
  forall i, (i < 50)%nat -> exists row, cmd_buf r !! i = Some row /\ stored_line row (default [] (past h !! i)).

Lemma history_row r h i :
  at_history r h -> 0 <= i < 50 -> exists row, zget (cmd_buf r) i = Some row /\ stored_line row (default [] (past h !! Z.to_nat i)).
Proof.
  intros (_ & _ & _ & _ & _ & H) Hi. destruct (H (Z.to_nat i) ltac:(lia)) as (row & E & S). exists row. split; [|done].
  unfold zget. by destruct (Z.leb_spec 0 i); [|lia].
Qed.

Lemma stored_c_string row w : stored_line row w -> c_string row = Some w.
Proof. intros (rest & -> & _ & _ & Hn). by apply c_string_app. Qed.

Lemma stored_row rows i row w : zget rows i = Some row -> stored_line row w -> zget rows i ≫= c_string = Some w.
Proof. intros -> H. by apply stored_c_string. Qed.

Lemma rem_50 i : 0 <= i < 50 -> Z.rem i HISTORY_MAXITEMS = i.
Proof. intros H. apply Z.rem_small. exact H. Qed.

(** * Messages of the commands *)

Lemma println_lit str s : plain (chars str ++ crlf) -> println str [] s = Ret tt (set_screen (screen s ++ say str) s).
Proof. apply printf_lit. Qed.

Lemma padded_0 s : padded 0 false s = s.
Proof. unfold padded. by replace (Z.to_nat (0 - Z.of_nat (length s))) with O by lia. Qed.

Lemma println_s w s : println "%s" [VStr w] s = Ret tt (set_screen (screen s ++ w ++ crlf) s).
Proof.
  pose proof (printf_run [Conv false 0 (Cs w); Lit 13; Lit 10] s) as H. cbn [fmap list_fmap concat text_of] in H.
  rewrite padded_0 in H. apply H. repeat constructor; cbn; lia.
Qed.

Lemma printf_line fmt i w pre mid post s :
  fmt = pre ++ [37; 100] ++ mid ++ [37; 115] ++ post -> plain pre -> plain mid -> plain post -> - 2 ^ 31 < i < 2 ^ 31 ->
  shell_printf fmt [VInt i; VStr w] s =
    Ret tt (set_screen (screen s ++ pre ++ signed_decimal i ++ mid ++ w ++ post) s).
Proof.
  intros -> P1 P2 P3 Hi.
  pose proof (printf_run ((Lit <$> pre) ++ [Conv false 0 (Cd i)] ++ (Lit <$> mid) ++ [Conv false 0 (Cs w)] ++ (Lit <$> post)) s) as H.
  assert (forall l, concat (fmt_of <$> (Lit <$> l)) = l /\ concat (args_of <$> (Lit <$> l)) = [] /\ concat (text_of <$> (Lit <$> l)) = l)
    as HL by (clear; intros l; induction l as [|c l (E1 & E2 & E3)]; [done|]; cbn; rewrite E1, E2, E3; done).
  rewrite !fmap_app, !concat_app in H.
  destruct (HL pre) as (E1 & E2 & E3), (HL mid) as (E4 & E5 & E6), (HL post) as (E7 & E8 & E9).
  rewrite E1, E2, E3, E4, E5, E6, E7, E8, E9 in H.
  cbn [fmap list_fmap concat text_of fmt_of args_of app letter argument] in H. rewrite !padded_0 in H. rewrite !app_nil_r in H.
  assert (forall l, plain l -> Forall piece_ok (Lit <$> l)) as HP by (intros l F; by apply Forall_fmap).
  apply H. apply Forall_app_2; [by apply HP|]. apply Forall_cons_2; [cbn; lia|].
  apply Forall_app_2; [by apply HP|]. apply Forall_cons_2; [cbn; lia|]. by apply HP.
Qed.

(** * The commands *)

Section Session.
Context (fs_usage : Z -> prog Shell unit) (fs_func : Z -> cmd_parsed_t -> prog Shell cli_status_t).

Lemma print_names_run k i s :
  (k + i = 10)%nat ->
  print_names k (Z.of_nat i) s = Ret tt (set_screen (screen s ++ concat (imap (fun j => name_line (i + j)%nat) (drop i cmd_tbl))) s).
Proof.
  revert i s. induction k as [|k IH]; intros i s Hk.
  - rewrite drop_ge by (cbn; lia). cbn. rewrite app_nil_r. by destruct s.
  - destruct (lookup_lt_is_Some_2 cmd_tbl i ltac:(cbn; lia)) as [n Hn]. cbn [print_names].
    rewrite zget_nat, Hn, bind_Some. rewrite (drop_S _ _ _ Hn). cbn [imap concat].
    unfold println. rewrite (bind_Ret _ _ _ _ _ (printf_line (chars "%d.%s " ++ crlf) (Z.of_nat i) (chars n) [] [46] ([32] ++ crlf) s
      eq_refl ltac:(by constructor) ltac:(apply (bool_decide_unpack _); exact I) ltac:(apply (bool_decide_unpack _); exact I) ltac:(lia))).
    replace (Z.of_nat i + 1) with (Z.of_nat (S i)) by lia. rewrite IH by lia. cbn [screen set_screen]. rewrite Nat.add_0_r.
    assert (imap ((fun j => name_line (i + j)%nat) ∘ S) (drop (S i) cmd_tbl) = imap (fun j => name_line (S i + j)%nat) (drop (S i) cmd_tbl)) as ->
      by (apply imap_ext; intros j ? _; unfold compose; f_equal; lia).
    unfold name_line at 2. cbn [app]. rewrite <- !app_assoc. cbn [app]. done.
Qed.

Lemma cmd_usage_run i t s :
  usage_text i = Some t -> cmd_tbl_items s = 10 -> cmd_usage fs_usage i s = Ret tt (set_screen (screen s ++ t) s).
Proof.
  intros E Hi. unfold usage_text in E. unfold cmd_usage.
  destruct (i =? 0).
  { injection E as <-. unfold help_usage.
    step (println_lit "usage: help <cmd-name>" s ltac:(apply (bool_decide_unpack _); vm_compute; exact I)).
    set (s1 := set_screen _ s). step (println_lit "<cmd-name> can be: " s1 ltac:(apply (bool_decide_unpack _); vm_compute; exact I)).
    set (s2 := set_screen _ s1). rewrite bind_gets. change (cmd_tbl_items s2) with (cmd_tbl_items s). rewrite Hi.
    etransitivity; [apply (print_names_run 10 0 s2 eq_refl)|]. unfold s2, s1. cbn [screen set_screen]. by rewrite <- !app_assoc. }
  destruct (i =? 1).
  { injection E as <-. by rewrite <- (println_lit "usage: echo <string>" s ltac:(apply (bool_decide_unpack _); vm_compute; exact I)). }
  destruct (i =? 2).
  { injection E as <-. unfold history_usage.
    step (println_lit "usage: history <cmd-name>" s ltac:(apply (bool_decide_unpack _); vm_compute; exact I)).
    set (s1 := set_screen _ s). step (println_lit "<cmd-name> can be: " s1 ltac:(apply (bool_decide_unpack _); vm_compute; exact I)).
    set (s2 := set_screen _ s1). rewrite printf_lit by (apply (bool_decide_unpack _); vm_compute; exact I).
    unfold s2, s1. cbn [screen set_screen]. by rewrite <- !app_assoc. }
  destruct (i =? 3); [|done].
  injection E as <-. by rewrite <- (println_lit "usage: exit shell" s ltac:(apply (bool_decide_unpack _); vm_compute; exact I)).
Qed.

(** The program gives the answer, and its records hold the history then. *)
Definition answers (m : prog Shell cli_status_t) (s : Shell) (a : Answer) : Prop :=
  let '(t, st, h', ex) := a in
  exists r', m s = Ret st (set_records r' (set_exit ex (set_screen (screen s ++ t) s))) /\ at_history r' h'.

Lemma keep_state s x : shell_should_exit s = false ->
  set_screen x s = set_records (cmd_records s) (set_exit false (set_screen x s)).
Proof. destruct s. cbn. by intros ->. Qed.

Lemma answers_quiet m s st h t :
  shell_should_exit s = false -> at_history (cmd_records s) h ->
  m s = Ret st (set_screen (screen s ++ t) s) -> answers m s (t, st, h, false).
Proof. intros He Hh E. exists (cmd_records s). split; [|done]. by rewrite E, (keep_state s _ He) at 1. Qed.

Lemma same_screen s : set_screen (screen s ++ []) s = s.
Proof. destruct s. cbn. by rewrite app_nil_r. Qed.

Lemma show_history_run h count i s :
  at_history (cmd_records s) h -> (1 <= i)%nat -> (i + count <= S (length (past h)))%nat ->
  show_history count (Z.of_nat i) s = Ret tt (set_screen (screen s ++ show_text (past h) count i) s).
Proof.
  intros Hh. revert i s Hh. induction count as [|count IH]; intros i s Hh H1 Hi; cbn [show_history show_text].
  - by rewrite same_screen.
  - pose proof Hh as (Hidx & _ & _ & H49 & _). rewrite bind_gets, Hidx.
    replace (Z.of_nat (length (past h)) - Z.of_nat i) with (Z.of_nat (length (past h) - i)) by lia.
    rewrite rem_50 by lia. cbv zeta.
    destruct (history_row _ h (Z.of_nat (length (past h) - i)) Hh ltac:(lia)) as (row & Er & Sr).
    destruct (lookup_lt_is_Some_2 (past h) (length (past h) - i) ltac:(lia)) as [w Hw].
    rewrite (list_lookup_total_correct _ _ _ Hw). rewrite Nat2Z.id, Hw in Sr. cbn [default] in Sr.
    rewrite (stored_row _ _ _ _ Er Sr), bind_Some. unfold println.
    rewrite (bind_Ret _ _ _ _ _ (printf_line (chars "%d: %s" ++ crlf) (Z.of_nat (length (past h) - i)) w [] [58; 32] crlf s
      eq_refl ltac:(by constructor) ltac:(apply (bool_decide_unpack _); exact I) ltac:(apply (bool_decide_unpack _); exact I) ltac:(lia))).
    replace (Z.of_nat i + 1) with (Z.of_nat (S i)) by lia. rewrite IH by (done || lia). cbn [screen set_screen app].
    rewrite <- !app_assoc. cbn [app]. rewrite <- !app_assoc. done.
Qed.

Lemma string_to_int_pad w x res : no_nul w -> string_to_int (w ++ 0 :: x) res = string_to_int (w ++ [0]) res.
Proof.
  intros F. revert res. induction F as [|c w Hc F IH]; intros res; [done|]. cbn [app string_to_int].
  destruct (c =? 0); [done|]. destruct (_ && _); [|done]. destruct (_ <? _); [apply IH|done].
Qed.

Lemma pad_word w : Z.of_nat (length w) < 2048 -> exists x, pad w = w ++ 0 :: x.
Proof. intros H. eexists. by apply pad_room. Qed.

(** A word of a line: short, and without NUL. *)
Definition word_ok (w : list Z) : Prop := Z.of_nat (length w) < 2048 /\ no_nul w.

Lemma history_func_answers s h c w a :
  shell_should_exit s = false -> at_history (cmd_records s) h -> arg c 1 = Some (pad w) -> argc c = 2 -> word_ok w ->
  history_answer h w = Some a -> answers (history_func c) s a.
Proof.
  intros He Hh Ha Hc [Hl Hn] E. destruct (pad_word w Hl) as [x Ex]. rewrite Ex in Ha. unfold history_func, answers in *.
  rewrite Hc. change (negb (2 =? 2)) with false. cbv iota. rewrite Ha. unfold history_answer in E.
  assert (forall str, no_nul (chars str) -> match_cmd (literal str) (w ++ 0 :: x) = Some (bool_decide (chars str = w)))
    as Hm by (intros str Hs; by apply (match_cmd_spec (chars str) w [] x)).
  assert (no_nul (chars "show")) as N1 by (unfold no_nul; apply (bool_decide_unpack _); exact I).
  assert (no_nul (chars "clear")) as N2 by (unfold no_nul; apply (bool_decide_unpack _); exact I).
  destruct (bool_decide (chars "show" = w)) eqn:Es.
  { injection E as <-. apply (answers_quiet _ _ _ _ _ He Hh). pose proof Hh as (_ & Hlv & H1 & _).
    rewrite bind_Some, (Hm "show"%string N1), bind_Some, Es, bind_gets, Hlv, Nat2Z.id.
    step (show_history_run h (lv h) 1 s Hh ltac:(lia) ltac:(lia)). done. }
  destruct (bool_decide (chars "clear" = w)) eqn:Ec.
  { injection E as <-. exists (mkRecords (cmd_idx (cmd_records s)) 0 (cmd_buf (cmd_records s))).
    rewrite bind_Some, (Hm "show"%string N1), bind_Some, Es, (Hm "clear"%string N2), bind_Some, Ec, bind_modify. split.
    - unfold mret, prog_ret. f_equal. destruct s. cbn in *. by rewrite He, app_nil_r.
    - destruct Hh as (? & ? & ? & ? & ? & ?). split_and!; try done. cbn. lia. }
  destruct (string_to_int (w ++ [0]) 0) as [v|] eqn:Ev; [|done]. cbn [mbind option_bind] in E.
  rewrite bind_Some, (Hm "show"%string N1), bind_Some, Es, (Hm "clear"%string N2), bind_Some, Ec, (string_to_int_pad w x 0 Hn), Ev, bind_Some.
  destruct (Z.ltb_spec v 0).
  - injection E as <-. apply (answers_quiet _ _ _ _ _ He Hh). destruct (Z.leb_spec 0 v); [lia|]. rewrite bind_mret, same_screen. done.
  - destruct (Z.ltb_spec v 50); [|done]. injection E as <-. apply (answers_quiet _ _ _ _ _ He Hh).
    destruct (Z.leb_spec 0 v); [|lia]. rewrite bind_assoc, bind_gets.
    destruct (history_row _ h v Hh ltac:(lia)) as (row & Er & Sr).
    rewrite (stored_row _ _ _ _ Er Sr), bind_assoc, bind_Some. step (println_s (default [] (past h !! Z.to_nat v)) s). done.
Qed.

Lemma cmd_func_answers s h i c rest a :
  shell_should_exit s = false -> cmd_tbl_items s = 10 -> at_history (cmd_records s) h ->
  (length (c :: rest) < 10)%nat -> Forall word_ok rest ->
  command_answer h i rest = Some a -> answers (cmd_func fs_usage fs_func i (parsed (c :: rest))) s a.
Proof.
  intros He Hi Hh Hlen F E. unfold command_answer in E. unfold cmd_func.
  assert (forall w, rest = [w] -> arg (parsed (c :: rest)) 1 = Some (pad w) /\ argc (parsed (c :: rest)) = 2) as Harg.
  { intros w ->. split; [|done]. by apply (arg_parsed [c; w] 1). }
  assert (forall m, (forall w, rest <> [w]) -> a = ([], CLI_INVALID_ARGS, h, false) ->
    answers (if negb (argc (parsed (c :: rest)) =? 2) then mret CLI_INVALID_ARGS else m) s a) as Hinv.
  { intros m Hr ->. apply (answers_quiet _ _ _ _ _ He Hh). unfold parsed. cbn [argc].
    destruct (Z.eqb_spec (Z.of_nat (length (c :: rest))) 2) as [El|_]; [|by rewrite same_screen].
    destruct rest as [|w [|? ?]]; [done|by destruct (Hr w)|cbn in El; lia]. }
  assert (forall m, argc (parsed (c :: rest)) = 2 ->
    (if negb (argc (parsed (c :: rest)) =? 2) then mret CLI_INVALID_ARGS else m : prog Shell cli_status_t) = m) as Htwo by (by intros m ->).
  destruct (i =? 0).
  { unfold help_func. destruct rest as [|w [|? ?]]; [apply Hinv; [done|by injection E]| |apply Hinv; [done|by injection E]].
    destruct (Harg w eq_refl) as [Ha Hc]. apply Forall_cons in F as [[Hl Hn] _]. rewrite (Htwo _ Hc).
    destruct (pad_word w Hl) as [x Ex]. rewrite Ex in Ha. destruct (place w 0 cmd_tbl) as [j|] eqn:Ep.
    - destruct (usage_text j) as [t|] eqn:Et; [|done]. injection E as <-. apply (answers_quiet _ _ _ _ _ He Hh).
      rewrite bind_gets, Ha, bind_Some, Hi. change (Z.to_nat 10) with 10%nat. rewrite (find_cmd_table w x Hn), bind_Some, Ep.
      by step (cmd_usage_run j t s Et Hi).
    - injection E as <-. apply (answers_quiet _ _ _ _ _ He Hh).
      rewrite bind_gets, Ha, bind_Some, Hi. change (Z.to_nat 10) with 10%nat. rewrite (find_cmd_table w x Hn), bind_Some, Ep.
      by step (println_lit "error! not match any cmd." s ltac:(apply (bool_decide_unpack _); exact I)). }
  destruct (i =? 1).
  { unfold echo_func. destruct rest as [|w [|? ?]]; [apply Hinv; [done|by injection E]| |apply Hinv; [done|by injection E]].
    destruct (Harg w eq_refl) as [Ha Hc]. apply Forall_cons in F as [[Hl Hn] _]. rewrite (Htwo _ Hc).
    destruct (pad_word w Hl) as [x Ex]. rewrite Ex in Ha. injection E as <-. apply (answers_quiet _ _ _ _ _ He Hh).
    assert (arg (parsed [c; w]) 1 ≫= c_string = Some w) as -> by (rewrite Ha; by apply c_string_app).
    rewrite bind_Some. by step (println_s w s). }
  destruct (i =? 2).
  { unfold history_func. destruct rest as [|w [|? ?]]; [apply Hinv; [done|by injection E]| |apply Hinv; [done|by injection E]].
    destruct (Harg w eq_refl) as [Ha Hc]. apply Forall_cons in F as [F _].
    exact (history_func_answers s h _ w a He Hh Ha Hc F E). }
  destruct (i =? 3); [|done]. injection E as <-. exists (cmd_records s). split; [|done]. unfold exit_func.
  step (println_lit "Bye." s ltac:(apply (bool_decide_unpack _); exact I)). rewrite bind_modify. by destruct s.
Qed.

Lemma execute_answers s h ts a :
  shell_should_exit s = false -> cmd_tbl_items s = 10 -> at_history (cmd_records s) h ->
  (length ts < 10)%nat -> Forall word_ok ts ->
  answer h ts = Some a -> answers (execute_command fs_usage fs_func (parsed ts)) s a.
Proof.
  intros He Hi Hh Hlen F E. destruct ts as [|c rest]; [done|]. cbn [answer] in E.
  apply Forall_cons in F as [[Hl Hn] F]. destruct (pad_word c Hl) as [x Ex].
  pose proof (arg_parsed (c :: rest) 0 c Hlen eq_refl) as Ha. change (Z.of_nat 0) with 0 in Ha. rewrite Ex in Ha.
  unfold answers, execute_command. destruct a as [[[t st] h'] ex].
  rewrite bind_gets, Ha, bind_Some, Hi. change (Z.to_nat 10) with 10%nat. rewrite (find_cmd_table c x Hn), bind_Some.
  destruct (place c 0 cmd_tbl) as [i|].
  - destruct (command_answer h i rest) as [[[[t1 st1] h1] ex1]|] eqn:Ea; [|done]. cbn [mbind option_bind] in E.
    destruct (cmd_func_answers s h i c rest _ He Hi Hh Hlen F Ea) as (r' & Er & Hr). step Er.
    destruct (bool_decide (st1 = CLI_INVALID_ARGS)).
    + destruct (usage_text i) as [u|] eqn:Eu; [|done]. injection E as <- <- <- <-. exists r'. split; [|done].
      step (cmd_usage_run i u (set_records r' (set_exit ex1 (set_screen (screen s ++ t1) s))) Eu Hi).
      unfold mret, prog_ret. f_equal. cbn. by rewrite <- app_assoc.
    + injection E as <- <- <- <-. exists r'. split; [|done]. by rewrite bind_mret.
  - injection E as <- <- <- <-. exists (cmd_records s). split; [|done]. unfold mret, prog_ret. f_equal.
    rewrite <- (keep_state s _ He). by rewrite same_screen.
Qed.

(** * A line *)

Lemma tokens_ok l cur flag :
  no_nul cur -> no_nul l -> Z.of_nat (length cur + length l) < 2048 -> Forall word_ok (tokens cur flag l).
Proof.
  intros Fc F. revert cur flag Fc. induction F as [|c l Hc F IH]; intros cur flag Fc Hl; cbn [tokens].
  - case_bool_decide; constructor; [|constructor]. split; [lia|done].
  - destruct (_ || _).
    + apply IH; [apply Forall_app; split; [done|by repeat constructor]|rewrite length_app; cbn [length] in *; lia].
    + case_bool_decide; [apply IH; [constructor|cbn [length] in *; lia]|].
      constructor; [split; [lia|done]|]. apply IH; [constructor|cbn [length] in *; lia].
Qed.

Lemma is_blank_spec w x : no_nul w -> is_blank (w ++ 0 :: x) = Some (bool_decide (Forall (fun c => c = 32) w)).
Proof.
  intros Hn. unfold is_blank. rewrite sh_strlen_app by done. cbn [mbind option_bind]. rewrite Nat2Z.id.
  assert (forall v u, blank_loop (length v) (Z.of_nat (length u)) (u ++ v ++ 0 :: x) = Some (bool_decide (Forall (fun c => c = 32) v))) as H.
  { induction v as [|c v IH]; intros u; [done|]. cbn [blank_loop length app]. rewrite zget_mid by done. cbn [mbind option_bind].
    destruct (Z.eqb_spec c 32) as [->|Hc].
    - replace (Z.of_nat (length u) + 1) with (Z.of_nat (length (u ++ [32]))) by (rewrite length_app; cbn; lia).
      specialize (IH (u ++ [32])). rewrite <- app_assoc in IH. cbn [app] in IH. rewrite IH. f_equal. apply bool_decide_ext.
      rewrite Forall_cons. tauto.
    - f_equal. symmetry. apply bool_decide_eq_false_2. rewrite Forall_cons. tauto. }
  apply (H w []).
Qed.

Lemma add_record_run s h h' b w :
  at_history (cmd_records s) h -> stored_line b w -> recorded h w = Some h' ->
  exists r', add_record b s = Ret tt (set_records r' s) /\ at_history r' h'.
Proof.
  intros Hh Hb Er. unfold recorded in Er. destruct (Nat.ltb_spec (length (past h)) 49) as [H49|]; [|done]. injection Er as <-.
  pose proof Hh as (Hidx & Hlv & Hle & _ & Hlen & Hrows).
  destruct (Hrows (length (past h)) ltac:(lia)) as (row & Erow & Srow). unfold add_record.
  rewrite bind_gets, Hidx, zget_nat, Erow, bind_Some.
  pose proof Hb as (rest & Eb & Hlb & _). pose proof Srow as (rest' & _ & Hlr & _).
  assert (sh_memcpy row b COMMAND_BUF_SIZE = Some b) as ->.
  { unfold sh_memcpy, COMMAND_BUF_SIZE. rewrite Hlb, Hlr. change ((0 <=? 2048) && (2048 <=? 2048) && (2048 <=? 2048)) with true.
    cbv iota. f_equal. rewrite take_ge by lia. unfold put. cbn [take app]. rewrite drop_ge, app_nil_r; [done|lia]. }
  rewrite bind_Some, zset_nat by lia. rewrite bind_Some. eexists. split; [reflexivity|]. split_and!; cbn [cmd_idx level cmd_buf past lv].
  - rewrite rem_50 by lia. rewrite length_app. cbn [length]. lia.
  - rewrite Hlv. destruct (Z.ltb_spec (Z.of_nat (lv h)) HISTORY_MAXITEMS) as [|Hg]; [lia|unfold HISTORY_MAXITEMS in Hg; lia].
  - rewrite length_app. cbn [length]. lia.
  - rewrite length_app. cbn [length]. lia.
  - by rewrite length_insert.
  - intros i Hi. destruct (decide (i = length (past h))) as [->|Hne].
    + exists b. rewrite list_lookup_insert_eq by lia. rewrite lookup_app_r, Nat.sub_diag by lia. done.
    + destruct (Hrows i Hi) as (row' & E' & S'). exists row'. rewrite list_lookup_insert_ne by done. split; [done|].
      destruct (decide (i < length (past h))%nat).
      * by rewrite lookup_app_l by done.
      * rewrite lookup_ge_None_2 in S' by lia. rewrite lookup_ge_None_2; [done|]. rewrite length_app. cbn [length]. lia.
Qed.

Definition plain_msg (str : string) : Prop := plain (chars str ++ crlf).

Lemma error_block st s :
  st <> CLI_OK ->
  (println dashes [];; println "error: %s" [VStr (status_to_str st)];; println dashes []) s =
  Ret tt (set_screen (screen s ++ error_text st) s).
Proof.
  intros Hs. unfold error_text. rewrite bool_decide_eq_false_2 by done.
  assert (plain (chars dashes ++ crlf)) as Hd by (apply (bool_decide_unpack _); vm_compute; exact I).
  step (println_lit dashes s Hd). set (s1 := set_screen _ s).
  pose proof (printf_run ((Lit <$> chars "error: ") ++ [Conv false 0 (Cs (status_to_str st)); Lit 13; Lit 10]) s1) as H.
  assert (println "error: %s" [VStr (status_to_str st)] s1 =
    Ret tt (set_screen (screen s1 ++ chars "error: " ++ status_to_str st ++ crlf) s1)) as E2.
  { etransitivity; [apply H|].
    - apply Forall_app_2; [apply Forall_fmap|]; repeat (apply Forall_cons_2; [cbn; lia|]); constructor.
    - rewrite fmap_app, concat_app. cbn [fmap list_fmap concat text_of]. rewrite padded_0. done. }
  step E2. rewrite (println_lit dashes _ Hd). unfold s1. cbn [screen set_screen]. unfold say. by rewrite <- !app_assoc.
Qed.

Lemma run_line_answers s h w t h' ex :
  stored_line (buf (line s)) w -> shell_should_exit s = false -> cmd_tbl_items s = 10 -> at_history (cmd_records s) h ->
  line_answer h w = Some (t, h', ex) ->
  exists r', run_line fs_usage fs_func s = Ret tt (set_records r' (set_exit ex (set_screen (screen s ++ t) s))) /\ at_history r' h'.
Proof.
  intros Hb He Hi Hh E. pose proof Hb as (rest & Eb & Hlb & Hlw & Hn). unfold run_line.
  step (the_line_run s _ eq_refl). cbv zeta. rewrite Eb, (sh_strlen_app w rest Hn), bind_Some, (is_blank_spec w rest Hn), bind_Some.
  unfold line_answer in E. destruct (bool_decide (Forall (fun c => c = 32) w)) eqn:Hblank.
  { injection E as <- <- <-. exists (cmd_records s). split; [|done]. rewrite andb_false_r, same_screen.
    unfold mret, prog_ret. f_equal. destruct s. cbn in *. by rewrite He. }
  assert (0 < length w)%nat as Hw by (destruct w; [by rewrite bool_decide_eq_true_2 in Hblank|cbn; lia]).
  destruct (Z.ltb_spec 0 (Z.of_nat (length w))); [|lia]. cbn [negb andb].
  pose proof (parse_command_words (w ++ 0 :: rest) w s ltac:(by rewrite <- Eb)) as Ep. cbv zeta in Ep.
  assert (Forall word_ok (words w)) as Fw by (apply tokens_ok; [constructor|done|cbn [length]; lia]).
  set (ts := words w) in *. destruct (Nat.ltb_spec (length ts) 10) as [Hts|Hts].
  - step Ep. destruct ts as [|c ts'] eqn:Ets; [by destruct (_ : option History)|]. cbn [head default] in E.
    apply Forall_cons in Fw as Fc. destruct Fc as [[Hcl Hcn] _]. destruct (pad_word c Hcl) as [x Ex].
    pose proof (arg_parsed (c :: ts') 0 c Hts eq_refl) as Ha. change (Z.of_nat 0) with 0 in Ha. rewrite Ex in Ha.
    rewrite Ha, bind_Some.
    assert (no_nul (chars "history")) as N1 by (unfold no_nul; apply (bool_decide_unpack _); exact I).
    assert (match_cmd (literal "history") (c ++ 0 :: x) = Some (bool_decide (chars "history" = c))) as ->
      by (by apply (match_cmd_spec (chars "history") c [] x)).
    rewrite bind_Some. cbn [from_option id] in E.
    destruct (if bool_decide (chars "history" = c) then Some h else recorded h w) as [h1|] eqn:Eh; [|done].
    cbn [mbind option_bind] in E. destruct (answer h1 (c :: ts')) as [[[[t1 st1] h2] ex1]|] eqn:Ea; [|done].
    cbn [mbind option_bind] in E. injection E as <- <- <-.
    assert (exists r1, (if bool_decide (chars "history" = c) then mret tt else add_record (w ++ 0 :: rest)) s =
      Ret tt (set_records r1 s) /\ at_history r1 h1) as (r1 & E1 & H1).
    { destruct (bool_decide (chars "history" = c)).
      - injection Eh as <-. exists (cmd_records s). split; [by destruct s|done].
      - apply (add_record_run s h h1 _ w Hh); [by rewrite <- Eb|done]. }
    step E1. destruct (execute_answers (set_records r1 s) h1 (c :: ts') _ He Hi H1 Hts Fw Ea) as (r2 & E2 & H2). step E2.
    exists r2. split; [|done]. unfold error_text. destruct (bool_decide (st1 = CLI_OK)) eqn:Hst.
    + unfold mret, prog_ret. f_equal. cbn. by rewrite app_nil_r.
    + apply bool_decide_eq_false in Hst. rewrite (error_block st1 _ Hst). f_equal. cbn. rewrite <- app_assoc.
      unfold error_text. by rewrite bool_decide_eq_false_2.
  - destruct (Nat.eqb_spec (length ts) 10); [done|]. injection E as <- <- <-. step Ep.
    exists (cmd_records s). split; [|done].
    rewrite println_lit by (apply (bool_decide_unpack _); vm_compute; exact I). f_equal. rewrite <- (keep_state _ _ He).
    cbn. by rewrite <- app_assoc.
Qed.

(** * Reading plain lines *)

Lemma read_plain w : forall s f o l rest,
  stdin s = w ++ 10 :: rest -> Forall printable w -> holds (line s) l [] -> Z.of_nat (length l + length w) <= 2046 ->
  (length w < f)%nat ->
  exists L, read_loop f o s = Ret 0 (set_line L (set_screen (screen s ++ w ++ [13; 10]) (set_stdin rest s))) /\
    exists post, buf L = (l ++ w) ++ 0 :: post /\ Z.of_nat (length (buf L)) = 2048.
Proof.
  induction w as [|c w IH]; intros s f o l rest Es F Hl Hlen Hf; (destruct f as [|f]; [cbn in Hf; lia|]).
  - destruct (loop_enter s f o l [] 10 rest Es ltac:(by left) Hl) as (L & post & E & B & N).
    exists L. split; [exact E|]. exists post. by rewrite app_nil_r.
  - apply Forall_cons in F as [Hc F]. cbn [app] in Es. cbn [length] in *.
    rewrite (loop_char s c _ f l [] o Es Hc Hl) by lia. set (s1 := set_stdin _ s).
    destruct (type_edits s1 l c [] ltac:(cbn [length]; lia) Hl) as (L1 & E1 & H1). step E1.
    destruct (IH (set_line L1 (set_screen (screen s1 ++ [c]) s1)) f o (l ++ [c]) rest eq_refl F H1) as (L & E & post & B & N);
      [rewrite length_app; cbn [length]; lia|lia|].
    exists L. split; [etransitivity; [exact E|]; cbn; by rewrite <- app_assoc|]. exists post. split; [by rewrite B, <- !app_assoc|done].
Qed.

(** * Sessions *)

(** In front of a prompt. *)
Definition ready (s : Shell) (h : History) : Prop :=
  shell_should_exit s = false /\ cmd_tbl_items s = 10 /\ at_history (cmd_records s) h /\
  exists rest, prompt s = [62; 62; 0] ++ rest.

Definition typed (lines : list (list Z)) : list Z := concat ((fun w => w ++ [10]) <$> lines).
Definition line_ok (w : list Z) : Prop := Forall printable w /\ Z.of_nat (length w) <= 2046.
#[local] Instance line_ok_dec w : Decision (line_ok w).
Proof. unfold line_ok. apply _. Defined.

(** A line that is typed goes into the cleared buffer, and onto the screen. *)
Lemma line_read s w rest : stdin s = w ++ 10 :: rest -> line_ok w ->
  exists L, read_input (set_line (set_buf (zeros COMMAND_BUF_SIZE) (line s)) s) = Ret 0 (set_line L (set_screen (screen s ++ w ++ crlf) (set_stdin rest s))) /\
    stored_line (buf L) w.
Proof.
  intros Es [F Hw]. set (s2 := set_line _ s). unfold read_input. step (upd_line_run (fun l => mkLine (buf l) 0 (zeros COMMAND_BUF_SIZE) (COMMAND_BUF_SIZE - 2)) s2).
  rewrite bind_gets. set (s3 := set_line _ s2). destruct (read_plain w s3 (read_fuel s3) 0 [] rest Es F) as (L & EL & post & B & N).
  - exists (replicate 2047 0), (zeros COMMAND_BUF_SIZE). split_and!; [|by rewrite Nat.add_0_l, length_zeros|done|done|constructor].
    unfold s3, s2. cbn [line set_line set_buf buf]. rewrite zeros_end. reflexivity.
  - cbn [length]. lia.
  - unfold read_fuel. change (stdin s3) with (stdin s). rewrite Es, length_app. lia.
  - exists L. split; [exact EL|]. exists post. rewrite B in N |- *. split_and!; [done|done|done|].
    eapply Forall_impl; [exact F|]. unfold printable. lia.
Qed.

(** One round of the main loop. *)
Lemma shell_round s h w rest t h' ex f :
  ready s h -> stdin s = w ++ 10 :: rest -> line_ok w -> line_answer h w = Some (t, h', ex) ->
  exists s', shell_loop fs_usage fs_func (S f) s = shell_loop fs_usage fs_func f s' /\
    screen s' = screen s ++ [62; 62] ++ w ++ crlf ++ t /\ stdin s' = rest /\ shell_should_exit s' = ex /\
    cmd_tbl_items s' = 10 /\ at_history (cmd_records s') h' /\ prompt s' = prompt s.
Proof.
  intros (He & Hi & Hh & p & Hp) Es [F Hw] E. cbn [shell_loop]. rewrite bind_gets, He, bind_gets, Hp.
  assert (c_string ([62; 62; 0] ++ p) = Some [62; 62]) as -> by (apply (c_string_app [62; 62]); by repeat constructor).
  rewrite bind_Some. step (printf_lit [62; 62] s ltac:(apply (bool_decide_unpack _); exact I)).
  set (s1 := set_screen _ s). step (upd_line_run (set_buf (zeros COMMAND_BUF_SIZE)) s1). set (s2 := set_line _ s1).
  destruct (line_read s1 w rest Es (conj F Hw)) as (L & EL & HL).
  step EL. change (0 <? 0) with false. cbv iota. set (s4 := set_line L _).
  destruct (run_line_answers s4 h w t h' ex HL He Hi Hh E) as (r' & Er & Hr). step Er.
  eexists. split; [reflexivity|]. split_and!; try done. unfold s4, s1. cbn. rewrite <- !app_assoc. done.
Qed.

Lemma session_loop lines : forall s h rest text f,
  ready s h -> stdin s = typed lines ++ rest -> Forall line_ok lines -> session h lines = Some text -> (length lines < f)%nat ->
  exists s', shell_loop fs_usage fs_func f s = Ret 0 s' /\ screen s' = screen s ++ text /\ stdin s' = rest.
Proof.
  induction lines as [|w lines IH]; intros s h rest text f Hr Es F E Hf; [done|]. cbn [session] in E.
  destruct (line_answer h w) as [[[t h'] ex]|] eqn:Ea; [|done]. cbn [mbind option_bind] in E.
  apply Forall_cons in F as [Fw F]. destruct f as [|f]; [cbn in Hf; lia|].
  cbn [typed fmap list_fmap concat] in Es. rewrite <- !app_assoc in Es. cbn [app] in Es.
  destruct (shell_round s h w (typed lines ++ rest) t h' ex f Hr Es Fw Ea) as (s1 & E1 & S1 & I1 & X1 & T1 & H1 & P1).
  rewrite E1. destruct ex.
  - destruct lines as [|? ?]; [|done]. injection E as <-. exists s1. destruct f as [|f]; [cbn in Hf; lia|]. cbn [shell_loop].
    rewrite bind_gets, X1. split; [done|]. rewrite S1, app_nil_r. done.
  - destruct (session h' lines) as [text'|] eqn:Er; [|done]. injection E as <-.
    destruct (IH s1 h' rest text' f) as (s' & E' & S' & I'); [|done|done|done|cbn in Hf; lia|].
    + split_and!; [done|done|done|]. rewrite P1. apply Hr.
    + exists s'. split; [done|]. rewrite S', S1, <- !app_assoc. done.
Qed.

(** What [shell_init] prints, for every input. *)
Definition banner : list Z :=
  say stars ++ say "** this is a simple cli, type 'help' to see what cmds is supported." ++ say stars ++
  chars "all supported keywords are { " ++ concat ((fun n => chars n ++ [32]) <$> cmd_tbl) ++ say "}" ++ crlf.

Lemma shell_init_run input :
  exists k, shell_init (shell_start input) =
    Ret tt (set_keywords k (set_items 10 (set_screen banner (shell_start input)))).
Proof. eexists. vm_compute. reflexivity. Qed.

Lemma set_prompt_run s :
  prompt s = zeros 255 -> exists rest, shell_set_prompt [0] s = Ret tt (set_prompt ([62; 62; 0] ++ rest) s).
Proof. intros E. exists (replicate 252 0). unfold shell_set_prompt. change (sh_strlen [0]) with (Some 0). rewrite bind_Some. change (255 - 3 <? 0) with false. cbv iota. rewrite bind_mret, bind_gets, E. reflexivity. Qed.

Lemma start_history : at_history (mkRecords 0 0 (replicate (Z.to_nat HISTORY_MAXITEMS) (zeros COMMAND_BUF_SIZE))) (mkHistory [] 0).
Proof.
  split_and!; [done|done|done|cbn; lia|done|]. intros i Hi. exists (zeros COMMAND_BUF_SIZE). cbn [cmd_buf past]. split.
  - by apply lookup_replicate_2.
  - rewrite lookup_nil. exists (replicate 2047 0). split_and!; [vm_compute; reflexivity|by rewrite length_zeros|cbn; lia|constructor].
Qed.

(** The shell is the abstract shell.  From its start, when lines of printable
    characters are typed that make up a session that ends with exit, the
    program ends, has printed the banner and then exactly the text of the session
    (every prompt, line, answer, usage and error message), and leaves what was typed behind it. *)
Theorem shell_session lines rest text fuel :
  Forall line_ok lines -> session (mkHistory [] 0) lines = Some text -> (length lines < fuel)%nat ->
  exists s, main fs_usage fs_func fuel (shell_start (typed lines ++ rest)) = Ret 0 s /\
    screen s = banner ++ text /\ stdin s = rest.
Proof.
  intros F E Hf. destruct (shell_init_run (typed lines ++ rest)) as (k & Ek). unfold main. step Ek. unfold shell_execute.
  set (s0 := set_keywords k _). destruct (set_prompt_run s0 eq_refl) as (p & Ep). step Ep.
  assert (ready (set_prompt ([62; 62; 0] ++ p) s0) (mkHistory [] 0)) as R
    by exact (conj eq_refl (conj eq_refl (conj start_history (ex_intro _ p eq_refl)))).
  destruct (session_loop lines (set_prompt ([62; 62; 0] ++ p) s0) (mkHistory [] 0) rest text fuel R eq_refl F E Hf) as (s & E1 & S1 & I1).
  exists s. exact (conj E1 (conj S1 I1)).
Qed.
End Session.

(** The commands on files, where a session has none. *)
Definition no_usage (i : Z) : prog Shell unit := mret tt.
Definition no_func (i : Z) (c : cmd_parsed_t) : prog Shell cli_status_t := mret CLI_EXE_ERROR.

Definition sample_lines : list (list Z) := [chars "echo hi"; chars "nope"; chars "history show"; chars "exit"].

Lemma shell_session_witness :
  exists s, main no_usage no_func 5 (shell_start (typed sample_lines ++ [97])) = Ret 0 s /\ stdin s = [97].
Proof.
  destruct (session (mkHistory [] 0) sample_lines) as [text|] eqn:E; [|vm_compute in E; discriminate E].
  destruct (shell_session no_usage no_func sample_lines [97] text 5) as (s & E1 & _ & E3).
  - apply (bool_decide_unpack _). vm_compute. exact I.
  - exact E.
  - apply Nat.ltb_lt. reflexivity.
  - exists s. exact (conj E1 E3).
Defined.
