(* ===== verification/MyFaults.v ===== *)
(** Where the shell does not do what it means to: the end of the input, the
    history behind its fiftieth command, characters that are not ASCII, lines that are too
    long, and keywords that are removed. *)

From stdpp Require Import strings.
From S2P Require Import Prelude MyPrintf MyLine MyEdit MyShell MyParse MySpec.
#[local] Open Scope Z_scope.

(** * The end of the input *)

(** Nothing behind the cursor. *)
Lemma for_tail_nil f s pre :
  exbuf (line s) = pre ++ [0] -> piex (line s) = Z.of_nat (length pre) - 1 -> for_tail f s = Ret tt s.
Proof.
  intros E P. assert (forall fuel, (0 < fuel)%nat -> tail_loop fuel f (Z.of_nat (length pre)) s = Ret tt s) as H.
  { intros [|fuel] Hf; [lia|]. cbn [tail_loop].
    by rewrite (bind_Ret _ _ _ _ _ (exbuf_at_run s _ 0 ltac:(rewrite E; by apply zget_mid))). }
  unfold for_tail, the_line. rewrite bind_gets, P. replace (Z.of_nat (length pre) - 1 + 1) with (Z.of_nat (length pre)) by lia.
  apply H, TAIL_FUEL_enough. lia.
Qed.

(** Behind the end of the input read_input fills the line with EOFs and fails. *)
Lemma eof_fills post : forall s f o l pre,
  stdin s = [] -> line s = mkLine (l ++ post) (Z.of_nat (length l)) (pre ++ [0]) (Z.of_nat (length pre) - 1) ->
  Z.of_nat (length l + length post) = 2048 -> (length post < f)%nat ->
  exists L x, read_loop f o s = Ret (-1) (set_line L (set_screen x s)).
Proof.
  induction post as [|c post IH]; intros s f o l pre Es El Hl Hf; (destruct f as [|f]; [cbn in Hf; lia|]); cbn [read_loop].
  all: assert (shell_getch s = Ret (-1) s) as Eg by (unfold shell_getch; by rewrite bind_gets, Es).
  all: step Eg; change (-1 =? 10) with false; change (-1 =? 13) with false; change (-1 =? KEY_BACKSPACE) with false;
    change (-1 =? 27) with false; change (-1 =? 9) with false; cbn [orb]; step (the_line_run s _ El); fields;
    cbn [length] in *.
  - destruct (Z.leb_spec COMMAND_BUF_SIZE (Z.of_nat (length l))) as [|Hp]; [|unfold COMMAND_BUF_SIZE in Hp; lia].
    pose proof (printf_run ((Lit <$> chars "error! input exceed COMMAND_BUF_SIZE(") ++ [Conv false 0 (Cd 2048); Lit 41; Lit 10]) s) as HP.
    assert (Forall piece_ok ((Lit <$> chars "error! input exceed COMMAND_BUF_SIZE(") ++ [Conv false 0 (Cd 2048); Lit 41; Lit 10])) as F.
    { apply Forall_app_2; [apply Forall_fmap; apply (bool_decide_unpack _); vm_compute; exact I|].
      repeat (apply Forall_cons_2; [cbn; lia|]). constructor. }
    exists (line s). eexists. refine (eq_trans (bind_Ret (shell_printf too_long [VInt COMMAND_BUF_SIZE]) _ s tt _ (HP F)) _).
    unfold mret, prog_ret. f_equal.
  - destruct (Z.leb_spec COMMAND_BUF_SIZE (Z.of_nat (length l))) as [Hg|_]; [unfold COMMAND_BUF_SIZE in Hg; lia|].
    set (s1 := set_screen (screen s ++ [-1]) s). set (L1 := mkLine (l ++ -1 :: post) (Z.of_nat (length l) + 1) (pre ++ [0]) (Z.of_nat (length pre) - 1)).
    assert (type_char (-1) s = Ret tt (set_line L1 s1)) as Et.
    { unfold type_char. step (putchar_run (-1) s). fold s1. assert (line s1 = line s) as E1 by done. rewrite El in E1.
      step (the_line_run s1 _ E1). fields. erewrite bind_Ret; [|apply put_buf_run; rewrite E1; fields; apply zset_mid; done].
      rewrite E1. fields. erewrite bind_Ret; [|apply upd_line_run].
      change (set_line (set_pi (Z.of_nat (length l) + 1) _) _) with (set_line L1 s1).
      assert (forall g, for_tail g (set_line L1 s1) = Ret tt (set_line L1 s1)) as Hft by (intros g; by apply (for_tail_nil g _ pre)).
      step (Hft shell_putchar). apply Hft. }
    step Et. destruct (IH (set_line L1 s1) f o (l ++ [-1]) pre) as (L & x & E);
      [done|unfold L1, s1; fields; rewrite <- !app_assoc; f_equal; lens|rewrite length_app; cbn [length]; lia|lia|].
    exists L, x. rewrite E. unfold s1. f_equal.
Qed.

Section Eof.
Context (fs_usage : Z -> prog Shell unit) (fs_func : Z -> cmd_parsed_t -> prog Shell cli_status_t).

(** At the end of its input the shell does not end: it fills the line with
    EOFs, reports that the line is too long, and prompts again, for ever. *)
Theorem shell_eof_spins s h fuel : ready s h -> stdin s = [] -> shell_loop fs_usage fs_func fuel s = NoFuel.
Proof.
  revert s. induction fuel as [|f IH]; intros s R Es; [done|]. pose proof R as (He & Hi & Hh & p & Hp).
  cbn [shell_loop]. rewrite bind_gets, He, bind_gets, Hp.
  assert (c_string ([62; 62; 0] ++ p) = Some [62; 62]) as -> by (apply (c_string_app [62; 62]); by repeat constructor).
  rewrite bind_Some. step (printf_lit [62; 62] s ltac:(apply (bool_decide_unpack _); exact I)).
  set (s1 := set_screen _ s). step (upd_line_run (set_buf (zeros COMMAND_BUF_SIZE)) s1). set (s2 := set_line _ s1).
  assert (exists L x, read_input s2 = Ret (-1) (set_line L (set_screen x s2))) as (L & x & EL).
  { unfold read_input. step (upd_line_run (fun l => mkLine (buf l) 0 (zeros COMMAND_BUF_SIZE) (COMMAND_BUF_SIZE - 2)) s2).
    rewrite bind_gets. set (s3 := set_line _ s2).
    destruct (eof_fills (zeros COMMAND_BUF_SIZE) s3 (read_fuel s3) 0 [] (replicate 2047 0)) as (L & x & E).
    - exact Es.
    - unfold s3, s2. cbn [line set_line set_buf buf app]. rewrite zeros_end. reflexivity.
    - by rewrite Nat.add_0_l, length_zeros.
    - apply Nat2Z.inj_lt. rewrite length_zeros by done. unfold read_fuel, COMMAND_BUF_SIZE. lia.
    - exists L, x. rewrite E. done. }
  step EL. change (-1 <? 0) with true. cbv iota.
  rewrite (bind_Ret _ _ _ _ _ (println_lit "error! read_input error" _ ltac:(apply (bool_decide_unpack _); vm_compute; exact I))).
  apply IH; [|exact Es]. exact (conj He (conj Hi (conj Hh (ex_intro _ p Hp)))).
Qed.
End Eof.

(** * The history *)

(** [%] keeps the sign of its left side.  When the history is asked for a command further
    back than [cmd_idx], which happens as soon as the index has wrapped, and
    with Down before the first command, it reads in front of the array. *)
Theorem history_key_undefined s l r offset :
  holds (line s) l r -> - HISTORY_MAXITEMS < cmd_idx (cmd_records s) + offset < 0 -> history_process offset s = Undef.
Proof.
  intros Hl Ho. pose proof Hl as (pre & post & E & _). unfold history_process. rewrite bind_gets. step (the_line_run s _ E). fields.
  unfold times. assert (forall s', line s' = line s -> holds (line s') l r) as HH by (intros s' ->; done).
  erewrite bind_Ret; [|apply put_all_run]. erewrite bind_Ret; [|apply put_all_run].
  erewrite bind_Ret; [|eapply (for_tail_run _ (fun _ => 32)); [by apply HH|done]].
  erewrite bind_Ret; [|apply put_all_run].
  erewrite bind_Ret; [|eapply (for_tail_run _ (fun _ => 8)); [by apply HH|done]].
  erewrite bind_Ret; [|apply upd_line_run]. erewrite bind_Ret; [|apply upd_line_run].
  assert (zget (cmd_buf (cmd_records s)) (Z.rem (cmd_idx (cmd_records s) + offset) HISTORY_MAXITEMS) = None) as ->; [|done].
  unfold HISTORY_MAXITEMS in *. rewrite <- (Z.opp_involutive (cmd_idx (cmd_records s) + offset)), Z.rem_opp_l, Z.rem_small by lia.
  unfold zget. by destruct (Z.leb_spec 0 (- - (cmd_idx (cmd_records s) + offset))); [lia|].
Qed.

(** * Concrete runs *)

Definition at_prompt (input : list Z) : Shell := set_prompt ([62; 62; 0] ++ replicate 252 0) (set_items 10 (shell_start input)).

Lemma at_prompt_ready input : ready (at_prompt input) (mkHistory [] 0).
Proof. exact (conj eq_refl (conj eq_refl (conj start_history (ex_intro _ (replicate 252 0) eq_refl)))). Qed.

Lemma shell_eof_spins_witness :
  ready (at_prompt []) (mkHistory [] 0) /\ shell_loop no_usage no_func 3 (at_prompt []) = NoFuel.
Proof. exact (conj (at_prompt_ready []) (shell_eof_spins no_usage no_func (at_prompt []) _ 3 (at_prompt_ready []) eq_refl)). Defined.

Lemma start_holds : holds (line (shell_start [])) [] [].
Proof.
  exists (replicate 2047 0), (zeros COMMAND_BUF_SIZE).
  split_and!; [vm_compute; reflexivity|by rewrite Nat.add_0_l, length_zeros|vm_compute; reflexivity|cbn; lia|constructor].
Qed.

(** Down, before any command. *)
Lemma history_key_undefined_witness : history_process (-1) (shell_start []) = Undef.
Proof. apply (history_key_undefined (shell_start []) [] [] (-1) start_holds). split; reflexivity. Defined.

(** The result of read_input and the string in the buffer. *)
Definition read_result (input : list Z) : option (Z * option (list Z)) :=
  match read_input (shell_start input) with Ret rc s => Some (rc, c_string (buf (line s))) | _ => None end.

(** A character of two bytes, which are negative: Left over the second one loses it. *)
Example non_ascii_lost : read_result [195; 169; 27; 91; 68; 10] = Some (0, Some [-61]).
Proof. vm_compute. reflexivity. Qed.

(** A line of 2047 characters fits; the NUL of one of 2048 is written behind the buffer. *)
Example line_fits : read_result (replicate 2047 97 ++ [10]) = Some (0, Some (replicate 2047 97)).
Proof. vm_compute. reflexivity. Qed.

Example line_full : read_input (shell_start (replicate 2048 97 ++ [10])) = Undef.
Proof. vm_compute. reflexivity. Qed.

(** Fifty commands, then Up twice: the index has wrapped to 0, and the second last command is not found. *)
Example history_wraps :
  main no_usage no_func 60 (shell_start (typed (replicate 51 (chars "foo")) ++ concat (key_bytes <$> [KUp; KUp]) ++ [10])) = Undef.
Proof. vm_compute. reflexivity. Qed.

(** A keyword that is added where a longer one was removed keeps the end of that one. *)
Definition keyword_of (i : Z) (m : prog Shell unit) : option (list Z) :=
  match m (shell_start []) with Ret _ s => zget (keywords_buf (shell_keywords s)) i ≫= c_string | _ => None end.

Example stale_keyword :
  keyword_of 1 (shell_add_keyword (literal "history");; shell_add_keyword (literal "readme");;
                shell_remove_keyword (literal "history");; shell_add_keyword (literal "ls")) = Some (chars "lsadme").
Proof. vm_compute. reflexivity. Qed.

(** Typing, and moving and removing in front of and behind the cursor. *)
Definition keys : list key := [KChar 97; KChar 98; KLeft; KBackspace; KDel; KChar 120; KChar 121; KLeft; KChar 122; KLeft].

Lemma keys_ok : Forall key_ok keys.
Proof. unfold keys. repeat (apply Forall_cons_2; [unfold key_ok, printable; lia|]). constructor. Qed.

