(* ===== verification/UfatDev.v ===== *)
(** The structures of ufat.h and ufat_internal.h, and the block device under them.

    [BlockDevice] is what uFAT asks of a device, [DeviceSpec] what a device promises;
    common/block.c, which keeps the blocks in a file, is an instance. *)

From S2P Require Import Prelude.
#[local] Open Scope Z_scope.

Definition u64 (x : Z) : Z := x mod 2 ^ 64.

Lemma u64_id x : 0 <= x < 2 ^ 64 -> u64 x = x.
Proof. apply Z.mod_small. Qed.

(** * The device *)

(** The size of a block, and reading and writing [count] blocks from [start] on.  Reading gets
    the buffer it fills and gives its contents afterwards. *)
Class BlockDevice (D : Type) := {
  log2_block_size : Z;
  dev_read : Z -> Z -> list Z -> D -> Z * list Z * D;
  dev_write : Z -> Z -> list Z -> D -> Z * D
}.

(** The size of a block in bytes. *)
Definition block_size {D} {BD : BlockDevice D} : nat := Z.to_nat (Z.shiftl 1 log2_block_size).

(** The blocks a device has, and what is in them.  Calls may fail, but only where [may_fail]
    says so; a failed write may spoil the blocks it was to write. *)
Class DeviceSpec (D : Type) {BD : BlockDevice D} := {
  may_fail : Prop;
  dev_has : Z -> Prop;
  dev_ok : D -> Prop;
  dev_block : D -> Z -> list Z;
  log2_block_size_bound : 5 <= log2_block_size <= 13;
  dev_has_bound b : dev_has b -> 0 <= b < 2 ^ 62;
  dev_block_ok d b : dev_ok d -> dev_has b ->
    length (dev_block d b) = block_size /\ Forall is_byte (dev_block d b);
  dev_read_ok b (n : nat) old d rc data d' : dev_ok d -> (0 < n)%nat ->
    (forall i, (i < n)%nat -> dev_has (b + Z.of_nat i)) -> length old = (n * block_size)%nat -> Forall is_byte old ->
    dev_read b (Z.of_nat n) old d = (rc, data, d') ->
    dev_ok d' /\ (forall b', dev_has b' -> dev_block d' b' = dev_block d b') /\
    length data = length old /\ Forall is_byte data /\
    if rc <? 0 then may_fail else forall i, (i < n)%nat -> sub (i * block_size) block_size data = dev_block d (b + Z.of_nat i);
  dev_write_ok b (n : nat) data d rc d' : dev_ok d -> (0 < n)%nat ->
    (forall i, (i < n)%nat -> dev_has (b + Z.of_nat i)) -> length data = (n * block_size)%nat -> Forall is_byte data ->
    dev_write b (Z.of_nat n) data d = (rc, d') ->
    dev_ok d' /\ (forall b', dev_has b' -> ~ (b <= b' < b + Z.of_nat n) -> dev_block d' b' = dev_block d b') /\
    if rc <? 0 then may_fail else forall i, (i < n)%nat -> dev_block d' (b + Z.of_nat i) = sub (i * block_size) block_size data
}.

(** * Structures *)

Definition UFAT_BLOCK_NONE : Z := 0xffffffffffffffff.
Definition UFAT_CACHE_MAX_BLOCKS : Z := 16.
Definition UFAT_CACHE_BYTES : Z := 8192.
Definition UFAT_CACHE_FLAG_DIRTY : Z := 1.
Definition UFAT_CACHE_FLAG_PRESENT : Z := 2.

Record ufat_cache_desc := mkDesc { flags : Z; seq : Z; index : Z }.

Record ufat_stat := mkStat {
  st_read : Z; st_write : Z; st_read_blocks : Z; st_write_blocks : Z;
  cache_hit : Z; cache_miss : Z; cache_write : Z; cache_flushes : Z }.

Definition UFAT_CLUSTER_FREE : Z := 0.
Definition UFAT_CLUSTER_BAD : Z := 0xffffff7.
Definition UFAT_CLUSTER_EOC : Z := 0xffffff8.
Definition UFAT_CLUSTER_IS_PTR (c : Z) : bool := (2 <=? c) && (c <? 0xffffff0).

Definition UFAT_TYPE_FAT12 : Z := 12.
Definition UFAT_TYPE_FAT16 : Z := 16.
Definition UFAT_TYPE_FAT32 : Z := 32.

Record ufat_bpb := mkBpb {
  fat_type : Z; log2_blocks_per_cluster : Z;
  fat_start : Z; fat_size : Z; fat_count : Z;
  cluster_start : Z; num_clusters : Z;
  root_start : Z; root_size : Z; root_cluster : Z }.

(** [dev] tells whether the pointer to the device is set; there is one device only. *)
Record ufat {D : Type} := mkUfat {
  dev : bool; disk : D; stat : ufat_stat; bpb : ufat_bpb;
  next_seq : Z; cache_size : Z; alloc_ptr : Z;
  cache_desc : list ufat_cache_desc; cache_data : list Z }.
Arguments ufat : clear implicits.

Definition UFAT_ERR_IO : Z := 1.
Definition UFAT_ERR_BLOCK_SIZE : Z := 2.
Definition UFAT_ERR_INVALID_BPB : Z := 3.
Definition UFAT_ERR_BLOCK_ALIGNMENT : Z := 4.
Definition UFAT_ERR_INVALID_CLUSTER : Z := 5.
Definition UFAT_ERR_NAME_TOO_LONG : Z := 6.
Definition UFAT_ERR_NOT_DIRECTORY : Z := 7.
Definition UFAT_ERR_NOT_FILE : Z := 8.
Definition UFAT_ERR_IMMUTABLE : Z := 9.
Definition UFAT_ERR_DIRECTORY_NOT_EMPTY : Z := 10.
Definition UFAT_ERR_ILLEGAL_NAME : Z := 11.
Definition UFAT_ERR_FILE_EXISTS : Z := 12.
Definition UFAT_ERR_BAD_ENCODING : Z := 13.
Definition UFAT_ERR_DIRECTORY_FULL : Z := 14.
Definition UFAT_ERR_NO_CLUSTERS : Z := 15.

(** * Numbers in a block *)

Definition r16 (o : nat) (data : list Z) : Z := le_decode (sub o 2 data).
Definition r32 (o : nat) (data : list Z) : Z := le_decode (sub o 4 data).
Definition w16 (o : nat) (value : Z) (data : list Z) : list Z := put o (le_encode 2 value) data.
Definition w32 (o : nat) (value : Z) (data : list Z) : list Z := put o (le_encode 4 value) data.

(** * Clusters and blocks *)

(** The shift is one of 32 bits, the sum one of 64. *)
Definition cluster_to_block (b : ufat_bpb) (c : Z) : Z :=
  u64 (u32 (Z.shiftl (u32 (c - 2)) (log2_blocks_per_cluster b)) + cluster_start b).

Definition block_to_cluster (b : ufat_bpb) (blk : Z) : Z :=
  u32 (Z.shiftr (u64 (blk - cluster_start b)) (log2_blocks_per_cluster b) + 2).

(** * Results

    A function that returns a negative error, and something else when all is well. *)

Notation result S A := (prog S (Z + A)) (only parsing).

Definition fail {S A} (e : Z) : result S A := mret (inl (- e)).
Definition ok {S A} (a : A) : result S A := mret (inr a).

(** [if (err < 0) return err;] *)
Definition check {S A B} (m : result S A) (k : A -> result S B) : result S B :=
  r ← m; match r with inl e => mret (inl e) | inr a => k a end.

Notation "x ⇐ m ; k" := (check m (fun x => k)) (at level 20, m at level 100, k at level 200).
Notation "' x ⇐ m ; k" := (check m (fun x => k)) (at level 20, x pattern, m at level 100, k at level 200).
Notation "m ;? k" := (check m (fun _ => k)) (at level 100, k at level 200, right associativity).

Section Results.
Context {S : Type}.

(** [m] returns; an error satisfies [E] and a result [Q]. *)
Definition returns {A} (m : result S A) (s : S) (E : Z -> S -> Prop) (Q : A -> S -> Prop) : Prop :=
  wp m s (fun r t => match r with inl e => E e t | inr a => Q a t end).

Lemma returns_check {A B} (m : result S A) (k : A -> result S B) s E Q (E' : Z -> S -> Prop) R :
  returns m s E Q -> (forall e t, E e t -> E' e t) -> (forall a t, Q a t -> returns (k a) t E' R) ->
  returns (check m k) s E' R.
Proof.
  intros H He Hk. unfold returns, check. apply wp_bind. eapply wp_mono; [exact H|].
  intros [e|a] t Ht; [by apply He|by apply Hk].
Qed.

Lemma returns_bind {A B} (m : prog S A) (k : A -> result S B) s E R :
  wp m s (fun a t => returns (k a) t E R) -> returns (m ≫= k) s E R.
Proof. intros H. unfold returns. by apply wp_bind. Qed.

Lemma returns_mono {A} (m : result S A) s (E E' : Z -> S -> Prop) (Q Q' : A -> S -> Prop) :
  returns m s E Q -> (forall e t, E e t -> E' e t) -> (forall a t, Q a t -> Q' a t) -> returns m s E' Q'.
Proof. intros H HE HQ. eapply wp_mono; [exact H|]. intros [e|a] t; eauto. Qed.

Lemma wp_go {A B} (m : prog S A) (k : A -> prog S B) s a t Q : m s = Ret a t -> wp (k a) t Q -> wp (m ≫= k) s Q.
Proof. intros E H. apply wp_bind. unfold wp at 1. by rewrite E. Qed.

Lemma returns_go {A B} (m : prog S A) (k : A -> result S B) s a t E Q :
  m s = Ret a t -> returns (k a) t E Q -> returns (m ≫= k) s E Q.
Proof. apply wp_go. Qed.

Lemma check_go {A B} (m : result S A) (k : A -> result S B) s a t E Q :
  m s = Ret (inr a) t -> returns (k a) t E Q -> returns (check m k) s E Q.
Proof. intros H R. unfold returns, check. by eapply wp_go. Qed.

Lemma returns_ok {A} (a : A) s (E : Z -> S -> Prop) Q : Q a s -> returns (ok a) s E Q.
Proof. done. Qed.

Lemma returns_err {A} e s (E : Z -> S -> Prop) (Q : A -> S -> Prop) : E e s -> returns (mret (inl e)) s E Q.
Proof. done. Qed.
End Results.

(** [go H]: the first program of the sequence runs as [H] says. *)
Ltac go H := first [eapply check_go; [apply H|] | eapply returns_go; [apply H|] | eapply wp_go; [apply H|]].
Ltac go_gets := first [eapply returns_go; [reflexivity|] | eapply wp_go; [reflexivity|]].

(** * The state of an open file system *)

Section Ufat.
Context {D : Type} {BD : BlockDevice D}.
Notation ufat := (ufat D).

Definition set_dev x (u : ufat) := mkUfat _ x (disk u) (stat u) (bpb u) (next_seq u) (cache_size u) (alloc_ptr u) (cache_desc u) (cache_data u).
Definition set_disk (x : D) (u : ufat) : ufat := mkUfat _ (dev u) x (stat u) (bpb u) (next_seq u) (cache_size u) (alloc_ptr u) (cache_desc u) (cache_data u).
Definition set_stat x (u : ufat) := mkUfat _ (dev u) (disk u) x (bpb u) (next_seq u) (cache_size u) (alloc_ptr u) (cache_desc u) (cache_data u).
Definition set_bpb x (u : ufat) := mkUfat _ (dev u) (disk u) (stat u) x (next_seq u) (cache_size u) (alloc_ptr u) (cache_desc u) (cache_data u).
Definition set_next_seq x (u : ufat) := mkUfat _ (dev u) (disk u) (stat u) (bpb u) x (cache_size u) (alloc_ptr u) (cache_desc u) (cache_data u).
Definition set_cache_size x (u : ufat) := mkUfat _ (dev u) (disk u) (stat u) (bpb u) (next_seq u) x (alloc_ptr u) (cache_desc u) (cache_data u).
Definition set_alloc_ptr x (u : ufat) := mkUfat _ (dev u) (disk u) (stat u) (bpb u) (next_seq u) (cache_size u) x (cache_desc u) (cache_data u).
Definition set_cache_desc x (u : ufat) := mkUfat _ (dev u) (disk u) (stat u) (bpb u) (next_seq u) (cache_size u) (alloc_ptr u) x (cache_data u).
Definition set_cache_data x (u : ufat) := mkUfat _ (dev u) (disk u) (stat u) (bpb u) (next_seq u) (cache_size u) (alloc_ptr u) (cache_desc u) x.

Definition count_read n (t : ufat_stat) := mkStat (u32 (st_read t + 1)) (st_write t) (u32 (st_read_blocks t + n)) (st_write_blocks t) (cache_hit t) (cache_miss t) (cache_write t) (cache_flushes t).
Definition count_write n (t : ufat_stat) := mkStat (st_read t) (u32 (st_write t + 1)) (st_read_blocks t) (u32 (st_write_blocks t + n)) (cache_hit t) (cache_miss t) (cache_write t) (cache_flushes t).
Definition count_hit (t : ufat_stat) := mkStat (st_read t) (st_write t) (st_read_blocks t) (st_write_blocks t) (u32 (cache_hit t + 1)) (cache_miss t) (cache_write t) (cache_flushes t).
Definition count_miss (t : ufat_stat) := mkStat (st_read t) (st_write t) (st_read_blocks t) (st_write_blocks t) (cache_hit t) (u32 (cache_miss t + 1)) (cache_write t) (cache_flushes t).
Definition count_cache_write (t : ufat_stat) := mkStat (st_read t) (st_write t) (st_read_blocks t) (st_write_blocks t) (cache_hit t) (cache_miss t) (u32 (cache_write t + 1)) (cache_flushes t).
Definition count_flush (t : ufat_stat) := mkStat (st_read t) (st_write t) (st_read_blocks t) (st_write_blocks t) (cache_hit t) (cache_miss t) (cache_write t) (u32 (cache_flushes t + 1)).

Definition count (f : ufat_stat -> ufat_stat) : prog ufat unit := modify (fun u => set_stat (f (stat u)) u).

(** The calls of the device. *)
Definition io_read (start n : Z) (old : list Z) : prog ufat (Z * list Z) := fun u =>
  let '(rc, data, d) := dev_read start n old (disk u) in Ret (rc, data) (set_disk d u).

Definition io_write (start n : Z) (data : list Z) : prog ufat Z := fun u =>
  let '(rc, d) := dev_write start n data (disk u) in Ret rc (set_disk d u).

(** The descriptor and the block of a slot of the cache. *)
Definition desc_at (i : Z) : prog ufat ufat_cache_desc := ds ← gets cache_desc; of_option (zget ds i).

Definition put_desc (i : Z) (d : ufat_cache_desc) : prog ufat unit :=
  ds ← gets cache_desc; ds ← of_option (zset ds i d); modify (set_cache_desc ds).

Definition slot_offset (i : Z) : nat := Z.to_nat (Z.shiftl i log2_block_size).

Definition slot_inside (i : Z) (u : ufat) : bool :=
  (0 <=? i) && (Z.of_nat (slot_offset i + block_size) <=? Z.of_nat (length (cache_data u))).

Definition ufat_cache_data (i : Z) : prog ufat (list Z) :=
  b ← gets (slot_inside i); require b;; c ← gets cache_data; mret (sub (slot_offset i) block_size c).

Definition put_cache_data (i : Z) (data : list Z) : prog ufat unit :=
  b ← gets (slot_inside i); require b;; modify (fun u => set_cache_data (put (slot_offset i) data (cache_data u)) u).

(** A store through the pointer to the block. *)
Definition update_data (i : Z) (f : list Z -> list Z) : prog ufat unit := data ← ufat_cache_data i; put_cache_data i (f data).

Definition ufat_cache_write (i : Z) : prog ufat unit :=
  count count_cache_write;;
  d ← desc_at i;
  put_desc i (mkDesc (Z.lor (flags d) UFAT_CACHE_FLAG_DIRTY) (seq d) (index d)).
End Ufat.
