(* ===== verification/UfatCache.v ===== *)
(** The cache of blocks of ufat.c: flushing, evicting, opening a block, writing everything back.

    Whatever the cache does, the blocks seen through it stay the same: [view] is what a
    block holds, and [holds u V] that the state [u] is sound and shows the blocks [V]. *)

From S2P Require Import Prelude UfatDev.
#[local] Open Scope Z_scope.

Section Cache.
Context {D : Type} {BD : BlockDevice D}.
Notation ufat := (ufat D).

Definition is_present (d : ufat_cache_desc) : bool := negb (Z.land (flags d) UFAT_CACHE_FLAG_PRESENT =? 0).
Definition is_dirty (d : ufat_cache_desc) : bool := negb (Z.land (flags d) UFAT_CACHE_FLAG_DIRTY =? 0).

(** The copies of a block of the FAT; a write that fails is ignored. *)
Fixpoint mirror_loop (n : nat) (b : Z) (data : list Z) : prog ufat unit :=
  match n with
  | O => mret tt
  | S n =>
      p ← gets bpb;
      let b := u64 (b + fat_size p) in
      io_write b 1 data;;
      count (count_write 1);;
      mirror_loop n b data
  end.

Definition cache_flush (cache_index : Z) : result ufat unit :=
  d ← desc_at cache_index;
  if negb (is_dirty d) || negb (is_present d) then ok tt
  else
    data ← ufat_cache_data cache_index;
    rc ← io_write (index d) 1 data;
    if rc <? 0 then fail UFAT_ERR_IO
    else
      count (fun t => count_write 1 (count_flush t));;
      p ← gets bpb;
      (if (fat_start p <=? index d) && (index d <? u64 (fat_start p + fat_size p)) then
         mirror_loop (Z.to_nat (fat_count p - 1)) (index d) data
       else mret tt);;
      put_desc cache_index (mkDesc (Z.land (flags d) (Z.lnot UFAT_CACHE_FLAG_DIRTY)) (seq d) (index d));;
      ok tt.

(** Is the block of a descriptor one of [count] blocks from [start] on? *)
Definition in_range (d : ufat_cache_desc) (start count : Z) : bool :=
  is_present d && (start <=? index d) && (index d <? u64 (start + count)).

Fixpoint evict_loop (n : nat) (i start count : Z) : result ufat unit :=
  match n with
  | O => ok tt
  | S n =>
      d ← desc_at i;
      if in_range d start count then
        cache_flush i ;?
        (put_desc i (mkDesc 0 (seq d) (index d));;
         evict_loop n (i + 1) start count)
      else evict_loop n (i + 1) start count
  end.

Definition ufat_cache_evict (start count : Z) : result ufat unit :=
  n ← gets cache_size; evict_loop (Z.to_nat n) 0 start count.

Fixpoint invalidate_loop (n : nat) (i start count : Z) : prog ufat unit :=
  match n with
  | O => mret tt
  | S n =>
      d ← desc_at i;
      (if in_range d start count then put_desc i (mkDesc 0 (seq d) (index d)) else mret tt);;
      invalidate_loop n (i + 1) start count
  end.

Definition ufat_cache_invalidate (start count : Z) : prog ufat unit :=
  n ← gets cache_size; invalidate_loop (Z.to_nat n) 0 start count.

(** The scan of the slots: the slot that holds the block, or the oldest slot and the last free one, -1 for none. *)
Fixpoint cache_scan (n : nat) (i blk_index oldest oldest_age free : Z) : prog ufat (Z + Z * Z) :=
  match n with
  | O => mret (inr (oldest, free))
  | S n =>
      d ← desc_at i;
      ns ← gets next_seq;
      if is_present d && (index d =? blk_index) then
        put_desc i (mkDesc (flags d) ns (index d));;
        modify (set_next_seq (u32 (ns + 1)));;
        count count_hit;;
        mret (inl i)
      else
        let age := u32 (ns - seq d) in
        let free := if is_present d then free else i in
        if (oldest <? 0) || (oldest_age <? age) then cache_scan n (i + 1) blk_index i age free
        else cache_scan n (i + 1) blk_index oldest oldest_age free
  end.

(** The block goes into the slot, from the device or as zeros. *)
Definition fill_slot (i blk_index : Z) (skip_read : bool) : result ufat unit :=
  if skip_read then put_cache_data i (replicate block_size 0);; ok tt
  else
    old ← ufat_cache_data i;
    '(rc, data) ← io_read blk_index 1 old;
    put_cache_data i data;;
    if rc <? 0 then
      d ← desc_at i;
      put_desc i (mkDesc 0 (seq d) (index d));;
      mret (inl rc)
    else count (count_read 1);; ok tt.

Definition ufat_cache_open (blk_index : Z) (skip_read : bool) : result ufat Z :=
  n ← gets cache_size;
  r ← cache_scan (Z.to_nat n) 0 blk_index (-1) 0 (-1);
  match r with
  | inl i => ok i
  | inr (oldest, free) =>
      (if 0 <=? free then ok free else cache_flush oldest ;? ok oldest) ≫= fun r =>
      match r with
      | inl e => mret (inl e)
      | inr i =>
          fill_slot i blk_index skip_read ;?
          (ns ← gets next_seq;
           put_desc i (mkDesc UFAT_CACHE_FLAG_PRESENT ns blk_index);;
           modify (set_next_seq (u32 (ns + 1)));;
           count count_miss;;
           ok i)
      end
  end.

(** Every slot is written back; the last error is reported. *)
Fixpoint sync_loop (n : nat) (i ret : Z) : prog ufat Z :=
  match n with
  | O => mret ret
  | S n =>
      r ← cache_flush i;
      sync_loop n (i + 1) (match r with inl e => e | inr _ => ret end)
  end.

Definition ufat_sync : prog ufat Z := n ← gets cache_size; sync_loop (Z.to_nat n) 0 0.

Definition ufat_close : prog ufat unit := ufat_sync;; mret tt.

(** * What a state shows *)

Definition no_desc : ufat_cache_desc := mkDesc 0 0 0.
Definition desc (u : ufat) (i : Z) : ufat_cache_desc := default no_desc (zget (cache_desc u) i).
Definition slot (u : ufat) (i : Z) : list Z := sub (slot_offset i) block_size (cache_data u).

Definition upd_desc (i : Z) (d : ufat_cache_desc) (u : ufat) : ufat := set_cache_desc (<[Z.to_nat i := d]> (cache_desc u)) u.
Definition upd_slot (i : Z) (data : list Z) (u : ufat) : ufat := set_cache_data (put (slot_offset i) data (cache_data u)) u.

(** What the cache does not touch. *)
Definition meta (u : ufat) : bool * ufat_bpb * Z * Z := (dev u, bpb u, cache_size u, alloc_ptr u).

Definition block_ok (data : list Z) : Prop := length data = block_size /\ Forall is_byte data.

Context {DS : DeviceSpec D}.

(** The blocks of the further copies of the FAT. *)
Definition mirror (p : ufat_bpb) (b : Z) : Prop :=
  fat_start p + fat_size p <= b < fat_start p + fat_size p * fat_count p.

Definition shown (p : ufat_bpb) (b : Z) : Prop := dev_has b /\ ~ mirror p b.

Definition geometry (p : ufat_bpb) : Prop :=
  0 <= fat_start p /\ 0 <= fat_size p /\ 0 <= fat_count p /\
  forall b, 0 <= b < fat_start p + fat_size p * fat_count p -> dev_has b.

(** The shape of the cache. *)
Record shape (u : ufat) : Prop := {
  shape_geometry : geometry (bpb u);
  shape_descs : length (cache_desc u) = Z.to_nat UFAT_CACHE_MAX_BLOCKS;
  shape_bytes : Forall is_byte (cache_data u);
  shape_size : 0 < cache_size u <= UFAT_CACHE_MAX_BLOCKS;
  shape_fits : (Z.to_nat (cache_size u) * block_size <= length (cache_data u))%nat;
  shape_distinct i j : 0 <= i < cache_size u -> 0 <= j < cache_size u ->
    is_present (desc u i) = true -> is_present (desc u j) = true -> index (desc u i) = index (desc u j) -> i = j
}.

(** The state is sound, and shows the blocks [V].  Slot [x] (none when it is negative) may
    differ from the device without being marked as dirty. *)
Record holds_but (x : Z) (u : ufat) (V : Z -> list Z) : Prop := {
  holds_shape : shape u;
  holds_disk : dev_ok (disk u);
  holds_slot i : 0 <= i < cache_size u -> is_present (desc u i) = true ->
    shown (bpb u) (index (desc u i)) /\ slot u i = V (index (desc u i));
  holds_dev b : shown (bpb u) b ->
    (forall i, 0 <= i < cache_size u -> is_present (desc u i) = true -> is_dirty (desc u i) = true \/ i = x -> index (desc u i) <> b) ->
    dev_block (disk u) b = V b
}.

Definition holds : ufat -> (Z -> list Z) -> Prop := holds_but (-1).
End Cache.
