(* ===== verification/UfatView.v ===== *)
(** What the cache of uFAT guarantees: the blocks seen through it do not change when it
    flushes, evicts or loads them, whatever the device does. *)

From S2P Require Import Prelude UfatDev UfatCache.
#[local] Open Scope Z_scope.

Section View.
Context {D : Type} {BD : BlockDevice D} {DS : DeviceSpec D}.
Notation ufat := (ufat D).
Implicit Types (u : ufat) (V : Z -> list Z).

(** * Slots *)

Lemma block_size_pos : (0 < block_size)%nat.
Proof.
  unfold block_size. rewrite Z.shiftl_1_l. pose proof log2_block_size_bound.
  assert (0 < 2 ^ log2_block_size) by (apply Z.pow_pos_nonneg; lia). lia.
Qed.

Lemma block_size_Z : Z.of_nat block_size = 2 ^ log2_block_size.
Proof.
  unfold block_size. rewrite Z.shiftl_1_l. pose proof log2_block_size_bound.
  rewrite Z2Nat.id; [done|]. apply Z.pow_nonneg. lia.
Qed.

Lemma slot_offset_mul i : 0 <= i -> slot_offset i = (Z.to_nat i * block_size)%nat.
Proof.
  intros Hi. unfold slot_offset. pose proof log2_block_size_bound. rewrite Z.shiftl_mul_pow2 by lia.
  rewrite <- block_size_Z. rewrite Z2Nat.inj_mul by lia. by rewrite Nat2Z.id.
Qed.

Lemma slot_fits u i : shape u -> 0 <= i < cache_size u -> (slot_offset i + block_size <= length (cache_data u))%nat.
Proof.
  intros H Hi. rewrite slot_offset_mul by lia. pose proof (shape_fits u H).
  assert (S (Z.to_nat i) * block_size <= Z.to_nat (cache_size u) * block_size)%nat; [|lia].
  apply Nat.mul_le_mono_r. lia.
Qed.

Lemma slot_ok u i : shape u -> 0 <= i < cache_size u -> block_ok (slot u i).
Proof.
  intros H Hi. split; [by apply length_sub, slot_fits|]. apply Forall_sub, H.
Qed.

Lemma slot_inside_true u i : shape u -> 0 <= i < cache_size u -> slot_inside i u = true.
Proof.
  intros H Hi. pose proof (slot_fits u i H Hi). unfold slot_inside. apply andb_true_iff. split; [apply Z.leb_le|apply Z.leb_le]; lia.
Qed.

Lemma cache_data_run u i : shape u -> 0 <= i < cache_size u -> ufat_cache_data i u = Ret (slot u i) u.
Proof. intros H Hi. unfold ufat_cache_data. rewrite bind_gets, slot_inside_true by done. done. Qed.

Lemma put_cache_data_run u i data :
  shape u -> 0 <= i < cache_size u -> put_cache_data i data u = Ret tt (upd_slot i data u).
Proof. intros H Hi. unfold put_cache_data. rewrite bind_gets, slot_inside_true by done. done. Qed.

Lemma desc_at_run u i : shape u -> 0 <= i < cache_size u -> desc_at i u = Ret (desc u i) u.
Proof.
  intros H Hi. unfold desc_at, desc. rewrite bind_gets. pose proof (shape_descs u H). pose proof (shape_size u H).
  destruct (zget (cache_desc u) i) eqn:E; [done|].
  unfold zget in E. destruct (Z.leb_spec 0 i); [|lia]. apply lookup_ge_None in E. unfold UFAT_CACHE_MAX_BLOCKS in *. lia.
Qed.

Lemma put_desc_run u i d : shape u -> 0 <= i < cache_size u -> put_desc i d u = Ret tt (upd_desc i d u).
Proof.
  intros H Hi. unfold put_desc, upd_desc. rewrite bind_gets. pose proof (shape_descs u H). pose proof (shape_size u H).
  unfold zset. unfold UFAT_CACHE_MAX_BLOCKS in *.
  rewrite (proj2 (Z.leb_le _ _)), (proj2 (Z.ltb_lt _ _)) by lia. done.
Qed.

Lemma desc_upd u i d j : length (cache_desc u) = Z.to_nat UFAT_CACHE_MAX_BLOCKS -> 0 <= i < UFAT_CACHE_MAX_BLOCKS -> 0 <= j ->
  desc (upd_desc i d u) j = if decide (j = i) then d else desc u j.
Proof.
  intros H Hi Hj. unfold desc, upd_desc, zget. cbn [cache_desc set_cache_desc]. rewrite (proj2 (Z.leb_le 0 j)) by lia.
  case_decide as E; [subst; rewrite list_lookup_insert_eq; [done|unfold UFAT_CACHE_MAX_BLOCKS in *; lia]|].
  by rewrite list_lookup_insert_ne by lia.
Qed.

Lemma slot_upd_same u i data : shape u -> 0 <= i < cache_size u -> length data = block_size -> slot (upd_slot i data u) i = data.
Proof. intros H Hi Hl. apply sub_put_same; [done|]. by apply slot_fits. Qed.

Lemma slot_upd_other u i j data : shape u -> 0 <= i < cache_size u -> 0 <= j < cache_size u -> i <> j -> length data = block_size ->
  slot (upd_slot i data u) j = slot u j.
Proof.
  intros H Hi Hj Hn Hl. apply sub_put_other; rewrite Hl; [|by apply slot_fits].
  rewrite !slot_offset_mul by lia. nia.
Qed.

(** * The shape is kept *)

Lemma shape_desc u i d :
  shape u -> 0 <= i < cache_size u ->
  (is_present d = true -> forall j, 0 <= j < cache_size u -> j <> i -> is_present (desc u j) = true -> index (desc u j) <> index d) ->
  shape (upd_desc i d u).
Proof.
  intros H Hi Hd. pose proof (shape_size u H) as Hs. pose proof (shape_descs u H) as Hl.
  split; try apply H.
  - cbn [upd_desc set_cache_desc cache_desc]. by rewrite length_insert.
  - intros a b Ha Hb. change (cache_size (upd_desc i d u)) with (cache_size u) in *.
    rewrite !desc_upd by lia. repeat case_decide; subst; try done.
    + intros Pd Pb E. by destruct (Hd Pd b Hb ltac:(done) Pb).
    + intros Pa Pd E. by destruct (Hd Pd a Ha ltac:(done) Pa).
    + by apply H.
Qed.

Lemma shape_slot u i data : shape u -> 0 <= i < cache_size u -> block_ok data -> shape (upd_slot i data u).
Proof.
  intros H Hi [Hl Hb]. split; try apply H.
  - cbn [upd_slot set_cache_data cache_data]. apply Forall_put; [done|apply H].
  - cbn [upd_slot set_cache_data cache_data cache_size]. rewrite length_put; [apply H|]. rewrite Hl. by apply slot_fits.
Qed.

(** Two states that differ in what the cache does not depend on. *)
Definition alike (u u' : ufat) : Prop :=
  bpb u' = bpb u /\ cache_size u' = cache_size u /\ cache_desc u' = cache_desc u /\ cache_data u' = cache_data u.

Lemma shape_alike u u' : alike u u' -> shape u -> shape u'.
Proof.
  intros (Hb & Hs & Hc & Hd) H. destruct H as [A B C E F G]. split; rewrite ?Hb, ?Hs, ?Hc, ?Hd; try done.
  intros i j. unfold desc. rewrite Hc. apply G.
Qed.

Lemma holds_alike x u u' V : alike u u' -> disk u' = disk u -> holds_but x u V -> holds_but x u' V.
Proof.
  intros A Hk [H1 H2 H3 H4]. pose proof A as (Hb & Hs & Hc & Hd). split; [by apply (shape_alike u)|by rewrite Hk|..]; unfold desc, slot in *; rewrite ?Hb, ?Hs, ?Hc, ?Hd, ?Hk; done.
Qed.

Lemma alike_count f u : alike u (set_stat (f (stat u)) u).
Proof. done. Qed.

Lemma alike_disk d u : alike u (set_disk d u).
Proof. done. Qed.

Lemma alike_trans u1 u2 u3 : alike u1 u2 -> alike u2 u3 -> alike u1 u3.
Proof. unfold alike. intuition congruence. Qed.

(** * Flushing *)

Lemma geometry_fat p b : geometry p -> fat_start p <= b < fat_start p + fat_size p -> 0 < fat_count p -> dev_has b.
Proof. intros (H1 & H2 & H3 & H4) Hb Hc. apply H4. nia. Qed.

(** A change of the device that spoils nothing but [b] and the copies of the FAT. *)
Definition disk_but (p : ufat_bpb) (b : Z) (d d' : D) : Prop :=
  dev_ok d' /\ forall b', shown p b' -> b' <> b -> dev_block d' b' = dev_block d b'.

Lemma io_write_one u b data : dev_ok (disk u) -> dev_has b -> block_ok data ->
  wp (io_write b 1 data) u (fun rc u' => exists d, u' = set_disk d u /\ dev_ok d /\
    (forall b', dev_has b' -> b' <> b -> dev_block d b' = dev_block (disk u) b') /\
    if rc <? 0 then may_fail else dev_block d b = data).
Proof.
  intros Hd Hb [Hl Hy]. unfold wp, io_write. destruct (dev_write b 1 data (disk u)) as [rc d] eqn:E.
  destruct (dev_write_ok b 1 data (disk u) rc d) as (H1 & H2 & H3); [done|lia|..|exact E|].
  - intros i Hi. by replace (b + Z.of_nat i) with b by lia.
  - by rewrite Nat.mul_1_l.
  - done.
  - exists d. split_and!; [done|done|intros b' H N; apply H2; [done|lia]|].
    destruct (rc <? 0); [done|]. specialize (H3 0%nat ltac:(lia)).
    replace (b + Z.of_nat 0) with b in H3 by lia. rewrite H3, Nat.mul_0_l. unfold sub.
    rewrite drop_0. apply take_ge. lia.
Qed.

Lemma mirror_loop_runs p0 b0 data n : forall b u k,
  block_ok data -> bpb u = p0 -> geometry p0 -> dev_ok (disk u) ->
  fat_start p0 <= b0 < fat_start p0 + fat_size p0 -> 0 <= k -> b = b0 + k * fat_size p0 -> k + Z.of_nat n < fat_count p0 ->
  wp (mirror_loop n b data) u (fun _ u' => exists t d, u' = set_stat t (set_disk d u) /\ dev_ok d /\
    forall b', shown p0 b' -> dev_block d b' = dev_block (disk u) b').
Proof.
  induction n as [|n IH]; intros b u k Hb Hp Hg Hd Hb0 Hk -> Hn; cbn [mirror_loop].
  { apply wp_ret. exists (stat u), (disk u). split_and!; [by destruct u|done|done]. }
  go_gets. rewrite Hp. destruct Hg as (G1 & G2 & G3 & G4).
  assert (0 <= b0 + k * fat_size p0 + fat_size p0 < fat_start p0 + fat_size p0 * fat_count p0) as Hr by nia.
  pose proof (G4 _ Hr) as Hh. pose proof (dev_has_bound _ Hh) as Hbd. rewrite u64_id by lia.
  eapply wp_step; [by apply io_write_one|]. intros rc u1 (d & -> & Hd1 & Hsame & _).
  go_gets. eapply wp_mono; [apply (IH _ _ (k + 1)); try done; lia|].
  intros [] u' (t & d' & -> & Hd' & Hall). exists t, d'. split_and!; [done|done|].
  intros b' Hs. rewrite Hall by done. cbn [disk set_stat set_disk]. apply Hsame; [apply Hs|].
  intros ->. apply Hs. unfold mirror. nia.
Qed.

(** What a flush leaves: the data, the descriptors but for one dirty flag. *)
Definition flushed (i : Z) (u u' : ufat) : Prop :=
  meta u' = meta u /\ next_seq u' = next_seq u /\ cache_data u' = cache_data u /\
  (forall j, 0 <= j < cache_size u -> j <> i -> desc u' j = desc u j) /\
  is_present (desc u' i) = is_present (desc u i) /\ index (desc u' i) = index (desc u i) /\ seq (desc u' i) = seq (desc u i) /\
  (is_present (desc u i) = true -> is_dirty (desc u' i) = false).

Lemma clear_dirty f : Z.land (Z.land f (Z.lnot UFAT_CACHE_FLAG_DIRTY)) UFAT_CACHE_FLAG_DIRTY = 0 /\
  Z.land (Z.land f (Z.lnot UFAT_CACHE_FLAG_DIRTY)) UFAT_CACHE_FLAG_PRESENT = Z.land f UFAT_CACHE_FLAG_PRESENT.
Proof. split; rewrite <- Z.land_assoc; [by rewrite Z.land_0_r|done]. Qed.

Lemma mirrors_run u b data : block_ok data -> geometry (bpb u) -> dev_ok (disk u) -> dev_has b ->
  wp (if (fat_start (bpb u) <=? b) && (b <? u64 (fat_start (bpb u) + fat_size (bpb u)))
      then mirror_loop (Z.to_nat (fat_count (bpb u) - 1)) b data else mret tt) u
    (fun _ u' => exists t d, u' = set_stat t (set_disk d u) /\ dev_ok d /\
      forall b', shown (bpb u) b' -> dev_block d b' = dev_block (disk u) b').
Proof.
  intros Hb Hg Hd Hh.
  assert (wp (mret tt) u (fun _ u' => exists t d, u' = set_stat t (set_disk d u) /\ dev_ok d /\
      forall b', shown (bpb u) b' -> dev_block d b' = dev_block (disk u) b')) as Hn.
  { apply wp_ret. exists (stat u), (disk u). split_and!; [by destruct u|done|done]. }
  destruct ((fat_start (bpb u) <=? b) && _) eqn:E; [|exact Hn]. apply andb_true_iff in E as [E1 E2].
  apply Z.leb_le in E1. apply Z.ltb_lt in E2. destruct (Z.leb_spec (fat_count (bpb u)) 1) as [Hc|Hc].
  { by replace (Z.to_nat (fat_count (bpb u) - 1)) with 0%nat by lia. }
  pose proof Hg as (G1 & G2 & G3 & G4).
  assert (b < fat_start (bpb u) + fat_size (bpb u)) as Hin.
  { destruct (decide (fat_size (bpb u) = 0)) as [Ez|Ez].
    - rewrite Ez, Z.add_0_r in *. pose proof (Z.mod_le (fat_start (bpb u)) (2 ^ 64)). unfold u64 in E2. lia.
    - pose proof (dev_has_bound _ (G4 (fat_start (bpb u) + fat_size (bpb u)) ltac:(nia))). rewrite u64_id in E2; lia. }
  eapply (mirror_loop_runs (bpb u) b data _ b u 0); try done; lia.
Qed.

Lemma flush_holds x u V i :
  holds_but x u V -> 0 <= i < cache_size u ->
  returns (cache_flush i) u
    (fun e u' => e = - UFAT_ERR_IO /\ may_fail /\ holds_but x u' V /\ alike u u' /\ meta u' = meta u)
    (fun _ u' => holds_but x u' V /\ flushed i u u').
Proof.
  intros H Hi. pose proof (holds_shape _ _ _ H) as Hs. unfold cache_flush. go desc_at_run; [done..|].
  destruct (is_dirty (desc u i)) eqn:Ed; [|apply returns_ok; split; [done|unfold flushed; naive_solver]].
  destruct (is_present (desc u i)) eqn:Ep; [|apply returns_ok; split; [done|unfold flushed; naive_solver]].
  cbn [negb orb]. go cache_data_run; [done..|]. destruct (holds_slot _ _ _ H i Hi Ep) as [Hsh Hv].
  apply returns_bind. eapply wp_mono; [apply io_write_one; [apply H|apply Hsh|by apply slot_ok]|].
  intros rc u1 (d & -> & Hd & Hoth & Hrc). destruct (rc <? 0).
  - apply returns_err. split_and!; try done. destruct H as [A1 A2 A3 A4].
    split; [by apply (shape_alike u)|done|exact A3|]. intros b Hb Hni. cbn [disk set_disk]. rewrite Hoth; [by apply A4|apply Hb|].
    intros ->. by apply (Hni i Hi Ep); [left|].
  - go_gets. set (u1 := set_stat _ _).
    go_gets. apply returns_bind. eapply wp_mono; [apply (mirrors_run u1 (index (desc u i)) (slot u i)); [by apply slot_ok|apply Hs|done|apply Hsh]|].
    intros [] u2 (t & d2 & -> & Hd2 & Hall). set (u2 := set_stat t _).
    assert (alike u u2) as Hal by done. go put_desc_run; [by apply (shape_alike u)|done|]. apply returns_ok.
    pose proof (clear_dirty (flags (desc u i))) as [Cd Cp]. set (dn := mkDesc _ _ _).
    assert (is_present dn = true) as Pn by (unfold is_present, dn; cbn [flags]; by rewrite Cp).
    assert (is_dirty dn = false) as Dn by (unfold is_dirty, dn; cbn [flags]; by rewrite Cd).
    pose proof (shape_descs u Hs) as Hl. pose proof (shape_size u Hs) as Hz.
    assert (forall j, 0 <= j -> desc (upd_desc i dn u2) j = if decide (j = i) then dn else desc u j) as Hdesc.
    { intros j Hj. rewrite desc_upd by (try done; lia). done. }
    split.
    + split.
      * apply shape_desc; [by apply (shape_alike u)|done|]. intros _ j Hj Hne Pj Heq. apply Hne, (shape_distinct u Hs); done.
      * done.
      * intros j Hj. change (cache_size (upd_desc i dn u2)) with (cache_size u) in Hj. rewrite Hdesc by lia.
        change (slot (upd_desc i dn u2) j) with (slot u j). case_decide; [subst; done|]. by apply (holds_slot _ _ _ H).
      * intros b Hb Hni. change (disk (upd_desc i dn u2)) with d2. rewrite Hall by done. change (disk u1) with d.
        destruct (decide (b = index (desc u i))) as [->|Hne]; [by rewrite Hrc|].
        rewrite Hoth by (done || apply Hb). apply (holds_dev _ _ _ H); [done|]. intros j Hj Pj Dj.
        destruct (decide (j = i)) as [->|Hji]; [done|]. specialize (Hni j Hj). rewrite Hdesc in Hni by lia.
        rewrite decide_False in Hni by done. by apply Hni.
    + unfold flushed. rewrite !Hdesc, !decide_True by lia. split_and!; try done; [|by rewrite Pn, Ep].
      intros j Hj Hne. rewrite Hdesc by lia. by rewrite decide_False.
Qed.

(** * Slots that are dropped and filled *)

(** The blocks [V], with [data] at [b]. *)
Definition vset (b : Z) (data : list Z) (V : Z -> list Z) : Z -> list Z := fun b' => if decide (b' = b) then data else V b'.

Lemma vset_same b data V : vset b data V b = data.
Proof. unfold vset. by rewrite decide_True. Qed.

Lemma vset_other b data V b' : b' <> b -> vset b data V b' = V b'.
Proof. intros H. unfold vset. by rewrite decide_False. Qed.

Lemma holds_ext x u V W : (forall b, shown (bpb u) b -> V b = W b) -> holds_but x u V -> holds_but x u W.
Proof.
  intros E [H1 H2 H3 H4]. split; [done|done|..].
  - intros i Hi P. destruct (H3 i Hi P) as [S1 S2]. split; [done|]. by rewrite S2, E.
  - intros b Hb Hn. rewrite <- E by done. by apply H4.
Qed.

(** No slot holds the block. *)
Definition absent (u : ufat) (b : Z) : Prop := forall j, 0 <= j < cache_size u -> is_present (desc u j) = true -> index (desc u j) <> b.

Lemma find_slot u b : absent u b \/ exists i, 0 <= i < cache_size u /\ is_present (desc u i) = true /\ index (desc u i) = b.
Proof.
  assert (forall n, (forall j, 0 <= j < Z.of_nat n -> is_present (desc u j) = true -> index (desc u j) <> b) \/
    exists i, 0 <= i < Z.of_nat n /\ is_present (desc u i) = true /\ index (desc u i) = b) as F.
  { induction n as [|n [IH|(i & Hi & P)]]; [left; lia| |right; exists i; split; [lia|done]].
    destruct (decide (is_present (desc u (Z.of_nat n)) = true /\ index (desc u (Z.of_nat n)) = b)) as [P|P]; [right; exists (Z.of_nat n); split; [lia|done]|].
    left. intros j Hj Pj Ej. destruct (decide (j = Z.of_nat n)) as [->|]; [by apply P|by apply (IH j); [lia|..]]. }
  destruct (Z.leb_spec 0 (cache_size u)); [|left; intros j Hj; lia].
  destruct (F (Z.to_nat (cache_size u))) as [N|(i & Hi & P)]; [left|right; exists i; split; [lia|done]].
  intros j Hj. apply N. lia.
Qed.

Lemma holds_block u V x b : holds_but x u V -> shown (bpb u) b -> block_ok (V b).
Proof.
  intros H Hb. destruct (find_slot u b) as [N|(i & Hi & Pi & <-)].
  { rewrite <- (holds_dev _ _ _ H b Hb); [apply dev_block_ok; [apply H|apply Hb]|]. intros i Hi Pi _. by apply N. }
  destruct (holds_slot _ _ _ H i Hi Pi) as [_ <-]. apply slot_ok; [apply H|done].
Qed.

Lemma not_present0 s b : is_present (mkDesc 0 s b) = false.
Proof. done. Qed.

(** A slot that is not dirty may be forgotten. *)
Lemma drop_holds u V i s b0 :
  holds u V -> 0 <= i < cache_size u -> (is_present (desc u i) = true -> is_dirty (desc u i) = false) ->
  holds (upd_desc i (mkDesc 0 s b0) u) V.
Proof.
  intros H Hi Hc. pose proof (holds_shape _ _ _ H) as Hs. pose proof (shape_descs u Hs) as Hl. pose proof (shape_size u Hs) as Hz.
  assert (forall j, 0 <= j -> desc (upd_desc i (mkDesc 0 s b0) u) j = if decide (j = i) then mkDesc 0 s b0 else desc u j) as Hd.
  { intros j Hj. apply desc_upd; (done || lia). }
  split.
  - by apply shape_desc.
  - apply H.
  - intros j Hj. change (cache_size (upd_desc i _ u)) with (cache_size u) in Hj. rewrite Hd by lia. case_decide; [done|]. by apply H.
  - intros b Hb Hn. apply (holds_dev _ _ _ H); [done|]. intros j Hj Pj Dj.
    destruct (decide (j = i)) as [->|Hne].
    { destruct Dj as [Dj|Dj]; [by rewrite Hc in Dj|lia]. }
    specialize (Hn j Hj). rewrite Hd, decide_False in Hn by (done || lia). by apply Hn.
Qed.

(** A slot that is not dirty may be filled with a block that is in no slot. *)
Lemma load_holds u V i x blk data s :
  holds u V -> 0 <= i < cache_size u -> (is_present (desc u i) = true -> is_dirty (desc u i) = false) ->
  absent u blk -> shown (bpb u) blk -> block_ok data -> x = i \/ x = -1 /\ dev_block (disk u) blk = data ->
  holds_but x (upd_desc i (mkDesc UFAT_CACHE_FLAG_PRESENT s blk) (upd_slot i data u)) (vset blk data V).
Proof.
  intros H Hi Hc Ha Hb Hk Hx. pose proof (holds_shape _ _ _ H) as Hs. pose proof (shape_descs u Hs) as Hl. pose proof (shape_size u Hs) as Hz.
  set (dn := mkDesc _ s blk). set (u1 := upd_slot i data u). set (u2 := upd_desc i dn u1).
  assert (forall j, 0 <= j -> desc u2 j = if decide (j = i) then dn else desc u j) as Hd.
  { intros j Hj. unfold u2. rewrite desc_upd by (done || lia). done. }
  split.
  - apply shape_desc; [by apply shape_slot|done|]. intros _ j Hj Hne Pj. by apply Ha.
  - apply H.
  - intros j Hj. change (cache_size u2) with (cache_size u) in Hj. change (slot u2 j) with (slot u1 j). rewrite Hd by lia.
    case_decide as Ej.
    + subst. intros _. split; [done|]. cbn [index dn]. rewrite vset_same. apply slot_upd_same; [done|done|apply Hk].
    + intros Pj. destruct (holds_slot _ _ _ H j Hj Pj) as [S1 S2]. split; [done|].
      rewrite vset_other by by apply Ha. unfold u1. rewrite slot_upd_other; [done..|apply Hk].
  - intros b Hbs Hn. change (disk u2) with (disk u). change (bpb u2) with (bpb u) in Hbs.
    destruct (decide (b = blk)) as [->|Hne].
    + rewrite vset_same. destruct Hx as [->|[_ Hx]]; [|done]. exfalso. specialize (Hn i Hi).
      rewrite Hd, decide_True in Hn by (done || lia). by apply Hn; [|right|].
    + rewrite vset_other by done. apply (holds_dev _ _ _ H); [done|]. intros j Hj Pj Dj.
      destruct (decide (j = i)) as [->|Hji]; [destruct Dj as [Dj|Dj]; [by rewrite Hc in Dj|lia]|].
      specialize (Hn j Hj). rewrite Hd, decide_False in Hn by (done || lia). apply Hn; [done|].
      destruct Dj as [Dj|Dj]; [by left|lia].
Qed.

(** * Opening a block *)

Lemma cache_scan_runs u blk n : forall i o a f,
  shape u -> 0 <= i -> i + Z.of_nat n = cache_size u ->
  (forall j, 0 <= j < i -> is_present (desc u j) = true -> index (desc u j) <> blk) ->
  (o < 0 /\ i = 0 \/ 0 <= o < cache_size u) -> (0 <= f -> f < cache_size u /\ is_present (desc u f) = false) ->
  wp (cache_scan n i blk o a f) u (fun r u' => match r with
    | inl k => 0 <= k < cache_size u /\ is_present (desc u k) = true /\ index (desc u k) = blk /\
        exists s ns t, u' = set_stat t (set_next_seq ns (upd_desc k (mkDesc (flags (desc u k)) s blk) u))
    | inr (o, f) => u' = u /\ absent u blk /\ 0 <= o < cache_size u /\ (0 <= f -> f < cache_size u /\ is_present (desc u f) = false)
    end).
Proof.
  induction n as [|n IH]; intros i o a f Hs Hi0 Hi Hno Ho Hf; cbn [cache_scan].
  { apply wp_ret. pose proof (shape_size u Hs). split_and!; [done|intros j Hj; apply Hno; lia|lia|lia|done]. }
  go desc_at_run; [done|lia|]. go_gets. destruct (is_present (desc u i)) eqn:Ep; cbn [andb].
  - destruct (Z.eqb_spec (index (desc u i)) blk) as [<-|Hne].
    + go put_desc_run; [done|lia|]. go_gets. go_gets. apply wp_ret. split_and!; [lia|lia|done|done|by eauto].
    + assert (forall j, 0 <= j < i + 1 -> is_present (desc u j) = true -> index (desc u j) <> blk) as Hno'.
      { intros j Hj. destruct (decide (j = i)) as [->|]; [done|apply Hno; lia]. }
      destruct (Z.ltb_spec o 0); cbn [orb]; [|destruct (a <? _)]; apply IH; try done; lia.
  - assert (forall j, 0 <= j < i + 1 -> is_present (desc u j) = true -> index (desc u j) <> blk) as Hno'.
    { intros j Hj. destruct (decide (j = i)) as [->|]; [by rewrite Ep|apply Hno; lia]. }
    destruct (Z.ltb_spec o 0); cbn [orb]; [|destruct (a <? _)]; apply IH; try done; try lia; intros _; (split; [lia|done]).
Qed.

Lemma upd_desc_holds x u V k s : holds_but x u V -> 0 <= k < cache_size u ->
  holds_but x (upd_desc k (mkDesc (flags (desc u k)) s (index (desc u k))) u) V.
Proof.
  intros H Hk. pose proof (holds_shape _ _ _ H) as Hs. pose proof (shape_descs u Hs) as Hl. pose proof (shape_size u Hs) as Hz.
  set (dn := mkDesc _ s _). assert (forall j, 0 <= j -> is_present (desc (upd_desc k dn u) j) = is_present (desc u j) /\
    is_dirty (desc (upd_desc k dn u) j) = is_dirty (desc u j) /\ index (desc (upd_desc k dn u) j) = index (desc u j)) as Hd.
  { intros j Hj. rewrite desc_upd by (done || lia). by case_decide; subst. }
  split.
  - apply shape_desc; [done..|]. intros P j Hj Hne Pj E. apply Hne. by apply (shape_distinct u Hs).
  - apply H.
  - intros j Hj. change (cache_size (upd_desc k dn u)) with (cache_size u) in Hj. destruct (Hd j ltac:(lia)) as (-> & _ & ->).
    by apply (holds_slot _ _ _ H).
  - intros b Hb Hn. apply (holds_dev _ _ _ H); [done|]. intros j Hj. destruct (Hd j ltac:(lia)) as (E1 & E2 & E3).
    specialize (Hn j Hj). by rewrite E1, E2, E3 in Hn.
Qed.

(** The slot holds the block. *)
Definition in_slot (u : ufat) (i b : Z) : Prop := 0 <= i < cache_size u /\ is_present (desc u i) = true /\ index (desc u i) = b.

Lemma io_read_one u b old : dev_ok (disk u) -> dev_has b -> block_ok old ->
  wp (io_read b 1 old) u (fun '(rc, data) u' => exists d, u' = set_disk d u /\ dev_ok d /\ block_ok data /\
    (forall b', dev_has b' -> dev_block d b' = dev_block (disk u) b') /\
    if rc <? 0 then may_fail else data = dev_block (disk u) b).
Proof.
  intros Hd Hb [Hl Hy]. unfold wp, io_read. destruct (dev_read b 1 old (disk u)) as [[rc data] d] eqn:E.
  destruct (dev_read_ok b 1 old (disk u) rc data d) as (H1 & H2 & H3 & H4 & H5); [done|lia|..|exact E|].
  - intros i Hi. by replace (b + Z.of_nat i) with b by lia.
  - by rewrite Nat.mul_1_l.
  - done.
  - rewrite Hl in H3. exists d. split_and!; [done|done|by split|done|]. destruct (rc <? 0); [done|].
    specialize (H5 0%nat ltac:(lia)). rewrite Nat.mul_0_l in H5. replace (b + Z.of_nat 0) with b in H5 by lia.
    rewrite <- H5. unfold sub. rewrite drop_0. symmetry. apply take_ge. lia.
Qed.

Lemma holds_disk_same x u V d : holds_but x u V -> dev_ok d -> (forall b, dev_has b -> dev_block d b = dev_block (disk u) b) ->
  holds_but x (set_disk d u) V.
Proof.
  intros [H1 H2 H3 H4] Hd E. split; [by apply (shape_alike u)|done|exact H3|]. intros b Hb Hn. cbn [disk set_disk].
  rewrite E by apply Hb. by apply H4.
Qed.

(** What a slot gets when a block is opened. *)
Definition filled (skip_read : bool) (b : Z) (V : Z -> list Z) : Z -> list Z :=
  if skip_read then vset b (replicate block_size 0) V else V.

Lemma zero_block_ok : block_ok (replicate block_size 0).
Proof. split; [apply length_replicate|]. apply Forall_replicate. unfold is_byte. lia. Qed.

Definition excepted (skip_read : bool) (i : Z) : Z := if skip_read then i else -1.

(** Filling a slot that may be dropped. *)
Lemma fill_slot_holds u V i b skip :
  holds u V -> 0 <= i < cache_size u -> (is_present (desc u i) = true -> is_dirty (desc u i) = false) ->
  absent u b -> shown (bpb u) b ->
  returns (fill_slot i b skip) u (fun e u' => may_fail /\ e < 0 /\ holds u' V /\ meta u' = meta u)
    (fun _ u1 => shape u1 /\ meta u1 = meta u /\ forall s ns t,
      holds_but (excepted skip i) (set_stat t (set_next_seq ns (upd_desc i (mkDesc UFAT_CACHE_FLAG_PRESENT s b) u1))) (filled skip b V)).
Proof.
  intros H Hi Hc Ha Hb. pose proof (holds_shape _ _ _ H) as Hs. unfold fill_slot. destruct skip.
  - go put_cache_data_run; [done..|]. apply returns_ok. split_and!; [by apply shape_slot, zero_block_ok|done|].
    intros s ns t. eapply (holds_alike _ (upd_desc i (mkDesc _ s b) (upd_slot i _ u))); [done..|].
    apply load_holds; try done; [apply zero_block_ok|by left].
  - go cache_data_run; [done..|]. apply returns_bind.
    eapply wp_mono; [apply io_read_one; [apply H|apply Hb|by apply slot_ok]|].
    intros [rc data] u1 (d & -> & Hd & Hk & Hsame & Hrc).
    pose proof (holds_disk_same _ _ _ d H Hd Hsame) as H1. set (u1 := set_disk d u) in *.
    assert (shape u1) as Hs1 by apply H1. go put_cache_data_run; [done..|].
    assert (shape (upd_slot i data u1)) as Hs2 by by apply shape_slot. destruct (Z.ltb_spec rc 0).
    + go desc_at_run; [done..|]. go put_desc_run; [done..|]. apply returns_err. split_and!; try done.
      (* forget the slot first, then change its data *)
      pose proof (drop_holds u1 V i (seq (desc u1 i)) (index (desc u1 i)) H1 Hi Hc) as H2.
      destruct H2 as [A1 A2 A3 A4]. pose proof (shape_descs u Hs) as Hl. pose proof (shape_size u Hs) as Hz. split.
      * change (shape (upd_slot i data (upd_desc i (mkDesc 0 (seq (desc u1 i)) (index (desc u1 i))) u1))). by apply shape_slot.
      * done.
      * intros j Hj Pj. change (slot (upd_desc i (mkDesc 0 (seq (desc (upd_slot i data u1) i)) (index (desc (upd_slot i data u1) i))) (upd_slot i data u1)) j) with (slot (upd_slot i data u1) j).
        destruct (A3 j Hj Pj) as [S1 S2]. split; [exact S1|]. rewrite slot_upd_other; [exact S2|done|done|done| |apply Hk].
        intros ->. change (desc (upd_desc j (mkDesc 0 (seq (desc (upd_slot j data u1) j)) (index (desc (upd_slot j data u1) j))) (upd_slot j data u1)) j)
          with (desc (upd_desc j (mkDesc 0 (seq (desc u1 j)) (index (desc u1 j))) u1) j) in Pj.
        rewrite desc_upd, decide_True in Pj; [done|done|exact Hl|lia|lia].
      * exact A4.
    + go_gets. apply returns_ok. subst data. split_and!; [by apply (shape_alike (upd_slot i (dev_block (disk u) b) u1))|done|].
      intros s ns t. eapply (holds_alike _ (upd_desc i (mkDesc _ s b) (upd_slot i _ u1))); [done..|].
      eapply holds_ext; [|apply load_holds; try done].
      * intros b' Hb'. unfold vset. case_decide; [subst|done]. apply (holds_dev _ _ _ H); [done|]. intros j Hj Pj _. by apply Ha.
      * right. split; [done|]. by apply Hsame, Hb.
Qed.

(** An error leaves the view as it was. *)
Definition failed (u : ufat) (V : Z -> list Z) (e : Z) (u' : ufat) : Prop :=
  may_fail /\ e < 0 /\ holds u' V /\ meta u' = meta u.

Lemma holds_weaken x u V : holds u V -> holds_but x u V.
Proof. intros [H1 H2 H3 H4]. split; try done. intros b Hb Hn. apply H4; [done|]. intros i Hi P Dd. apply Hn; [done..|]. destruct Dd; [by left|lia]. Qed.

Lemma alike_meta u u' : alike u u' -> dev u' = dev u -> alloc_ptr u' = alloc_ptr u -> meta u' = meta u.
Proof. intros (A & B & _) E F. unfold meta. congruence. Qed.

Lemma cache_open_any u V b skip :
  holds u V -> shown (bpb u) b ->
  returns (ufat_cache_open b skip) u (failed u V)
    (fun i u' => meta u' = meta u /\ in_slot u' i b /\ exists W, holds_but (excepted skip i) u' W /\ (W = V \/ W = filled skip b V)).
Proof.
  intros H Hb. pose proof (holds_shape _ _ _ H) as Hs. pose proof (shape_size u Hs) as Hz. pose proof (shape_descs u Hs) as Hl.
  unfold ufat_cache_open. go_gets. apply returns_bind.
  eapply wp_mono; [apply cache_scan_runs; try done; lia|]. intros [k|[o f]] u'.
  - intros (Hk & Pk & Ek & s & ns & t & ->). apply returns_ok. split_and!; [done| |].
    + split; [done|]. change (desc (set_stat t (set_next_seq ns (upd_desc k (mkDesc (flags (desc u k)) s b) u))) k) with (desc (upd_desc k (mkDesc (flags (desc u k)) s b) u) k).
      rewrite desc_upd, decide_True by (done || lia). done.
    + exists V. split; [|by left]. apply holds_weaken.
      eapply holds_alike; [..|apply (upd_desc_holds (-1) u V k s H Hk)]; rewrite Ek; done.
  - intros (-> & Ha & Ho & Hf).
    assert (forall u1 i, holds u1 V -> meta u1 = meta u -> 0 <= i < cache_size u -> absent u1 b ->
      (is_present (desc u1 i) = true -> is_dirty (desc u1 i) = false) ->
      returns (fill_slot i b skip ;? (ns ← gets next_seq; put_desc i (mkDesc UFAT_CACHE_FLAG_PRESENT ns b);; modify (set_next_seq (u32 (ns + 1)));; count count_miss;; ok i)) u1
        (failed u V) (fun i u' => meta u' = meta u /\ in_slot u' i b /\ exists W, holds_but (excepted skip i) u' W /\ (W = V \/ W = filled skip b V))) as Hfill.
    { intros u1 i H1 Hm Hi Ha1 Hc. pose proof Hm as [= Hm1 Hm2 Hm3 Hm4].
      eapply returns_check; [apply fill_slot_holds; try done; [by rewrite Hm3|by rewrite Hm2]| |].
      - intros e t (F1 & F2 & F3 & F4). split_and!; [done..|congruence].
      - intros _ u2 (Hs2 & Hm' & Hall). pose proof Hm' as [= M1 M2 M3 M4]. go_gets. go put_desc_run; [done|by rewrite M3, Hm3|]. go_gets. go_gets.
        apply returns_ok. split_and!; [unfold meta; cbn; congruence| |].
        + split; [cbn; by rewrite M3, Hm3|]. set (dn := mkDesc _ _ b). pose proof (shape_size u2 Hs2) as Hz2.
          match goal with |- context [desc ?x i] => change (desc x i) with (desc (upd_desc i dn u2) i) end.
          rewrite desc_upd, decide_True by (done || lia || apply shape_descs, Hs2). done.
        + eexists. split; [|by right]. apply Hall. }
    destruct (Z.leb_spec 0 f) as [Hf0|Hf0].
    + apply returns_bind. apply wp_ret. destruct (Hf Hf0) as [Hf1 Hf2]. apply Hfill; try done. by rewrite Hf2.
    + apply returns_bind. apply wp_bind. eapply wp_mono; [apply (flush_holds _ _ _ o H Ho)|].
      intros [e|[]] u1.
      * intros (-> & F1 & F2 & F3 & F4). apply wp_ret. apply returns_err. split_and!; done.
      * intros (F1 & Hm & Hn & Hcd & Hoth & Hp & Hi & Hsq & Hcl). apply wp_ret. apply Hfill; try done.
        -- intros j Hj Pj. pose proof Hm as [= _ _ M3 _]. rewrite M3 in Hj. destruct (decide (j = o)) as [->|Hne].
           ++ rewrite Hi. apply Ha; [done|]. by rewrite <- Hp.
           ++ rewrite Hoth in * by done. by apply Ha.
        -- intros P. apply Hcl. by rewrite <- Hp.
Qed.

(** ufat_cache_open finds the block, or reads it, into a slot, and what is seen does not change. *)
Lemma cache_open_holds u V b :
  holds u V -> shown (bpb u) b ->
  returns (ufat_cache_open b false) u (failed u V)
    (fun i u' => meta u' = meta u /\ in_slot u' i b /\ holds u' V /\ slot u' i = V b).
Proof.
  intros H Hb. eapply returns_mono; [by apply (cache_open_any u V b false)|done|].
  intros i u' (Hm & Hi & W & HW & [->| ->]); split_and!; try done; by destruct Hi as (I1 & I2 & <-), (holds_slot _ _ _ HW i I1 I2).
Qed.

(** * Changing a block *)

Lemma set_dirty f : Z.land (Z.lor f UFAT_CACHE_FLAG_DIRTY) UFAT_CACHE_FLAG_DIRTY <> 0 /\
  Z.land (Z.lor f UFAT_CACHE_FLAG_DIRTY) UFAT_CACHE_FLAG_PRESENT = Z.land f UFAT_CACHE_FLAG_PRESENT.
Proof.
  split.
  - intros E. apply (f_equal (fun x => Z.testbit x 0)) in E. rewrite Z.land_spec, Z.lor_spec in E.
    change (Z.testbit UFAT_CACHE_FLAG_DIRTY 0) with true in E. by rewrite orb_true_r in E.
  - rewrite Z.land_lor_distr_l. by rewrite Z.lor_0_r.
Qed.

(** Marking a slot as dirty mends what loading it without reading left open. *)
Lemma cache_write_holds x u V i b :
  holds_but x u V -> in_slot u i b -> x = -1 \/ x = i ->
  wp (ufat_cache_write i) u (fun _ u' => meta u' = meta u /\ in_slot u' i b /\ holds u' V /\ is_dirty (desc u' i) = true /\ slot u' i = slot u i).
Proof.
  intros H (Hi & Pi & <-) Hx. pose proof (holds_shape _ _ _ H) as Hs. pose proof (shape_size u Hs) as Hz. pose proof (shape_descs u Hs) as Hl.
  unfold ufat_cache_write. go_gets. set (u1 := set_stat _ u). assert (shape u1) as Hs1 by by apply (shape_alike u).
  go desc_at_run; [done..|]. change (desc u1 i) with (desc u i). unfold wp. rewrite put_desc_run by done. set (dn := mkDesc _ _ _).
  pose proof (set_dirty (flags (desc u i))) as [Dd Dp].
  assert (is_dirty dn = true) as Dn by (unfold is_dirty, dn; cbn [flags]; by rewrite (proj2 (Z.eqb_neq _ _))).
  assert (is_present dn = true) as Pn by (unfold is_present, dn; cbn [flags]; by rewrite Dp).
  assert (forall j, 0 <= j -> desc (upd_desc i dn u1) j = if decide (j = i) then dn else desc u j) as Hd.
  { intros j Hj. rewrite desc_upd by (done || lia). done. }
  unfold in_slot. rewrite !Hd, !decide_True by lia. split_and!; try done; try apply Hi. split.
  - apply shape_desc; [done..|]. intros _ j Hj Hne Pj E. by apply Hne, (shape_distinct u Hs).
  - apply H.
  - intros j Hj. change (cache_size (upd_desc i dn u1)) with (cache_size u) in Hj. change (slot (upd_desc i dn u1) j) with (slot u j).
    rewrite Hd by lia. case_decide; [subst; intros _|]; by apply (holds_slot _ _ _ H).
  - intros b Hb Hn. apply (holds_dev _ _ _ H); [done|]. intros j Hj Pj Dj. specialize (Hn j Hj). rewrite Hd in Hn by lia.
    destruct (decide (j = i)) as [->|Hne]; [apply Hn; [done|by left]|]. apply Hn; [done|]. destruct Dj as [Dj|Dj]; [by left|lia].
Qed.

Lemma update_data_holds u V i b f :
  holds u V -> in_slot u i b -> is_dirty (desc u i) = true -> (block_ok (V b) -> block_ok (f (V b))) ->
  wp (update_data i f) u (fun _ u' => meta u' = meta u /\ in_slot u' i b /\ holds u' (vset b (f (V b)) V) /\ is_dirty (desc u' i) = true).
Proof.
  intros H (Hi & Pi & <-) Di Hf. pose proof (holds_shape _ _ _ H) as Hs. destruct (holds_slot _ _ _ H i Hi Pi) as [Hb Hv].
  pose proof (Hf (holds_block _ _ _ _ H Hb)) as Hk. unfold update_data. go cache_data_run; [done..|]. rewrite Hv.
  unfold wp. rewrite put_cache_data_run by done. set (data := f _) in *. split_and!; try done. split.
  - by apply shape_slot.
  - apply H.
  - intros j Hj. change (cache_size (upd_slot i data u)) with (cache_size u) in Hj. change (desc (upd_slot i data u) j) with (desc u j). intros Pj.
    destruct (holds_slot _ _ _ H j Hj Pj) as [S1 S2]. split; [done|]. destruct (decide (j = i)) as [->|Hne].
    + rewrite vset_same. apply slot_upd_same; [done|done|apply Hk].
    + rewrite vset_other by by intros E; apply Hne, (shape_distinct u Hs). rewrite slot_upd_other; [done..|apply Hk].
  - intros b' Hb' Hn. rewrite vset_other by by intros ->; apply (Hn i Hi Pi); [left|]. by apply (holds_dev _ _ _ H).
Qed.

(** [V] with the block [b] changed by [f]. *)
Definition vmod (b : Z) (f : list Z -> list Z) (V : Z -> list Z) : Z -> list Z := vset b (f (V b)) V.

(** The way uFAT changes a block: open it, mark it, store. *)
Lemma write_block_holds {A} u V i b f (k : unit -> result ufat A) E Q :
  holds u V -> in_slot u i b -> (block_ok (V b) -> block_ok (f (V b))) ->
  (forall u', meta u' = meta u -> in_slot u' i b -> holds u' (vmod b f V) -> is_dirty (desc u' i) = true -> returns (k tt) u' E Q) ->
  returns (ufat_cache_write i;; update_data i f ≫= k) u E Q.
Proof.
  intros H Hi Hf Hk. apply returns_bind. eapply wp_mono; [apply (cache_write_holds (-1) u V i b H Hi); by left|].
  intros [] u1 (M1 & I1 & H1 & D1 & _). apply returns_bind. eapply wp_mono; [by apply (update_data_holds u1 V i b f H1 I1 D1)|].
  intros [] u2 (M2 & I2 & H2 & D2). apply Hk; [congruence|done..].
Qed.

(** A block that is opened to be written as a whole is not read. *)
Lemma fresh_block_holds {A} u V b data (k : unit -> result ufat A) E Q :
  holds u V -> shown (bpb u) b -> block_ok data -> (forall e u', failed u V e u' -> E e u') ->
  (forall u', meta u' = meta u -> holds u' (vset b data V) -> returns (k tt) u' E Q) ->
  returns (i ⇐ ufat_cache_open b true; ufat_cache_write i;; put_cache_data i data ≫= k) u E Q.
Proof.
  intros H Hb Hd He Hk. eapply returns_check; [by apply (cache_open_any u V b true)|exact He|].
  intros i u1 (M1 & I1 & W & HW & EW). apply returns_bind.
  eapply wp_mono; [apply (cache_write_holds i u1 W i b HW I1); by right|]. intros [] u2 (M2 & I2 & H2 & D2 & _).
  pose proof (update_data_holds u2 W i b (fun _ => data) H2 I2 D2 (fun _ => Hd)) as Hput. pose proof I2 as (J & _ & _).
  unfold update_data, wp in Hput. pose proof (holds_shape _ _ _ H2) as Hs. rewrite (bind_Ret _ _ _ _ _ (cache_data_run u2 i Hs J)) in Hput.
  apply returns_bind. eapply wp_mono; [exact Hput|]. intros [] u3 (M3 & I3 & H3 & D3). apply Hk; [congruence|].
  eapply holds_ext; [|exact H3]. intros b' _. unfold vset. case_decide; [done|].
  destruct EW as [->| ->]; [done|]. cbn [filled]. by rewrite vset_other.
Qed.

(** * Writing everything back *)

(** A slot has nothing the device has not. *)
Definition clean (u : ufat) (i : Z) : Prop := is_present (desc u i) = true -> is_dirty (desc u i) = false.

Lemma sync_loop_runs u0 V n : forall i ret u,
  holds u V -> meta u = meta u0 -> 0 <= i -> i + Z.of_nat n = cache_size u0 ->
  (ret = 0 -> forall j, 0 <= j < i -> clean u j) -> (ret <> 0 -> may_fail) ->
  wp (sync_loop n i ret) u (fun rc u' => holds u' V /\ meta u' = meta u0 /\
    (rc = 0 -> forall j, 0 <= j < cache_size u' -> clean u' j) /\ (rc <> 0 -> may_fail)).
Proof.
  induction n as [|n IH]; intros i ret u H Hm Hi Hn Hc Hr; cbn [sync_loop]; pose proof Hm as [= M1 M2 M3 M4].
  { apply wp_ret. split_and!; [done..| |done]. intros E j Hj. apply Hc; [done|]. lia. }
  apply wp_bind. eapply wp_mono; [apply (flush_holds _ _ _ i H); lia|]. intros [e|[]] u1.
  - intros (-> & F1 & F2 & _ & F3). apply IH; try done; try lia. congruence.
  - intros (F1 & F2 & _ & _ & Foth & Fp & Fi & _ & Fc). apply IH; try done; try lia; [congruence|].
    intros E j Hj. specialize (Hc E). unfold clean. destruct (decide (j = i)) as [->|Hne]; [by rewrite Fp|].
    rewrite Foth by (done || lia). apply Hc. lia.
Qed.

Lemma sync_holds u V : holds u V ->
  wp ufat_sync u (fun rc u' => holds u' V /\ meta u' = meta u /\ (rc <> 0 -> may_fail) /\
    (rc = 0 -> forall b, shown (bpb u) b -> dev_block (disk u') b = V b)).
Proof.
  intros H. pose proof (shape_size u (holds_shape _ _ _ H)). unfold ufat_sync. go_gets.
  eapply wp_mono; [apply (sync_loop_runs u V _ 0 0 u H); try done; lia|].
  intros rc u' (H1 & Hm & Hc & Hf). split_and!; try done. intros E b Hb. pose proof Hm as [= M1 M2 M3 M4].
  apply (holds_dev _ _ _ H1); [by rewrite M2|]. intros i Hi Pi [Di|Di]; [|lia]. specialize (Hc E i Hi Pi). congruence.
Qed.

(** * Around the cache *)

(** No slot holds a block of the range. *)
Definition none_in (u : ufat) (start n : Z) (upto : Z) : Prop :=
  forall i, 0 <= i < upto -> is_present (desc u i) = true -> ~ (start <= index (desc u i) < start + n).

Lemma in_range_spec d start n : 0 <= start -> 0 <= n -> start + n < 2 ^ 64 ->
  in_range d start n = true <-> is_present d = true /\ start <= index d < start + n.
Proof.
  intros Hs Hn Hb. unfold in_range. rewrite u64_id by lia. rewrite !andb_true_iff, Z.leb_le, Z.ltb_lt. tauto.
Qed.

Lemma evict_loop_runs u0 V start cnt n : 0 <= start -> 0 <= cnt -> start + cnt < 2 ^ 64 -> forall i u,
  holds u V -> meta u = meta u0 -> 0 <= i -> i + Z.of_nat n = cache_size u0 -> none_in u start cnt i ->
  returns (evict_loop n i start cnt) u (fun e u' => e = - UFAT_ERR_IO /\ may_fail /\ holds u' V /\ meta u' = meta u0)
    (fun _ u' => holds u' V /\ meta u' = meta u0 /\ none_in u' start cnt (cache_size u')).
Proof.
  intros Hs0 Hc0 Hb0. induction n as [|n IH]; intros i u H Hm Hi Hn Hno; cbn [evict_loop]; pose proof Hm as [= M1 M2 M3 M4].
  { apply returns_ok. split_and!; [done..|]. by replace (cache_size u) with i by lia. }
  pose proof (holds_shape _ _ _ H) as Hs. go desc_at_run; [done|lia|].
  destruct (in_range (desc u i) start cnt) eqn:E.
  - eapply returns_check; [apply (flush_holds _ _ _ i H); lia| |].
    + intros e t (-> & F1 & F2 & _ & F3). split_and!; try done. congruence.
    + intros [] u1 (H1 & Fm & Fn & Fd & Foth & Fp & Fi & Fs & Fc). pose proof Fm as [= L1 L2 L3 L4]. pose proof (holds_shape _ _ _ H1) as Hs1.
      go put_desc_run; [done|lia|]. apply IH; try lia; [|by rewrite <- Hm|].
      * apply drop_holds; [done|lia|]. by rewrite Fp.
      * pose proof (shape_size _ Hs1). pose proof (shape_descs _ Hs1). intros j Hj. rewrite desc_upd by (done || lia). case_decide; [done|]. rewrite Foth by lia. apply Hno. lia.
  - apply IH; try done; try lia. intros j Hj Pj Rj. destruct (decide (j = i)) as [->|]; [|apply (Hno j); [lia|done..]].
    enough (in_range (desc u i) start cnt = true) by congruence. by apply in_range_spec.
Qed.

Lemma evict_holds u V start cnt :
  holds u V -> 0 <= start -> 0 <= cnt -> start + cnt < 2 ^ 64 ->
  returns (ufat_cache_evict start cnt) u (failed u V)
    (fun _ u' => holds u' V /\ meta u' = meta u /\ none_in u' start cnt (cache_size u')).
Proof.
  intros H H0 H1 H2. pose proof (shape_size u (holds_shape _ _ _ H)). unfold ufat_cache_evict. go_gets.
  eapply returns_mono; [apply (evict_loop_runs u V start cnt _ H0 H1 H2 0 u H); try done; try lia; intros j Hj; lia| |done].
  intros e t (-> & F1 & F2 & F3). done.
Qed.

(** What is seen when the cached blocks of a range are dropped. *)
Definition dropped (u : ufat) (start cnt : Z) (V : Z -> list Z) : Z -> list Z :=
  fun b => if decide (start <= b < start + cnt) then dev_block (disk u) b else V b.

(** A slot may be forgotten when the block is then what the device has. *)
Lemma forget_holds u V W i s b0 :
  holds u V -> 0 <= i < cache_size u -> (forall b, b <> index (desc u i) -> W b = V b) ->
  (is_present (desc u i) = true -> W (index (desc u i)) = dev_block (disk u) (index (desc u i))) -> is_present (desc u i) = true ->
  holds (upd_desc i (mkDesc 0 s b0) u) W.
Proof.
  intros H Hi Hw Hd Pi. pose proof (holds_shape _ _ _ H) as Hs. pose proof (shape_descs u Hs) as Hl. pose proof (shape_size u Hs) as Hz.
  assert (forall j, 0 <= j -> desc (upd_desc i (mkDesc 0 s b0) u) j = if decide (j = i) then mkDesc 0 s b0 else desc u j) as Hdesc.
  { intros j Hj. apply desc_upd; (done || lia). }
  split.
  - by apply shape_desc.
  - apply H.
  - intros j Hj. change (cache_size (upd_desc i _ u)) with (cache_size u) in Hj. rewrite Hdesc by lia. case_decide as E; [done|].
    intros Pj. destruct (holds_slot _ _ _ H j Hj Pj) as [S1 S2]. split; [done|]. rewrite Hw; [done|].
    intros E'. by apply E, (shape_distinct u Hs).
  - intros b Hb Hn. destruct (decide (b = index (desc u i))) as [->|Hne]; [by rewrite Hd|].
    rewrite Hw by done. apply (holds_dev _ _ _ H); [done|]. intros j Hj Pj Dj. destruct (decide (j = i)) as [->|Hji]; [done|].
    specialize (Hn j Hj). rewrite Hdesc, decide_False in Hn by (done || lia). by apply Hn.
Qed.

Lemma invalidate_loop_runs u0 V start cnt n : 0 <= start -> 0 <= cnt -> start + cnt < 2 ^ 64 -> forall i u W,
  holds u W -> (forall b, ~ (start <= b < start + cnt) -> W b = V b) -> meta u = meta u0 -> disk u = disk u0 ->
  0 <= i -> i + Z.of_nat n = cache_size u0 -> none_in u start cnt i ->
  wp (invalidate_loop n i start cnt) u (fun _ u' => exists W, holds u' W /\ (forall b, ~ (start <= b < start + cnt) -> W b = V b) /\
    meta u' = meta u0 /\ disk u' = disk u0 /\ none_in u' start cnt (cache_size u')).
Proof.
  intros Hs0 Hc0 Hb0. induction n as [|n IH]; intros i u W H HW Hm Hd Hi Hn Hno; cbn [invalidate_loop]; pose proof Hm as [= M1 M2 M3 M4].
  { apply wp_ret. exists W. split_and!; [done..|]. by replace (cache_size u) with i by lia. }
  pose proof (holds_shape _ _ _ H) as Hs. pose proof (shape_size _ Hs). pose proof (shape_descs _ Hs). go desc_at_run; [done|lia|].
  destruct (in_range (desc u i) start cnt) eqn:E.
  - apply in_range_spec in E as [Ep Er]; [|done..]. go put_desc_run; [done|lia|].
    eapply (IH _ _ (vset (index (desc u i)) (dev_block (disk u) (index (desc u i))) W)); try done; try lia.
    + apply forget_holds with (V := W); [done|lia|intros b Hb; by apply vset_other|intros _; apply vset_same|done].
    + intros b Hb. rewrite vset_other; [by apply HW|]. intros ->. by apply Hb.
    + intros j Hj. rewrite desc_upd by (done || lia). case_decide; [done|]. apply Hno. lia.
  - go_gets. apply (IH _ _ W); try done; try lia. intros j Hj Pj Rj. destruct (decide (j = i)) as [->|]; [|apply (Hno j); [lia|done..]].
    enough (in_range (desc u i) start cnt = true) by congruence. by apply in_range_spec.
Qed.

Lemma invalidate_holds u V start cnt :
  holds u V -> 0 <= start -> 0 <= cnt -> start + cnt < 2 ^ 64 ->
  wp (ufat_cache_invalidate start cnt) u (fun _ u' => holds u' (dropped u start cnt V) /\ meta u' = meta u /\ disk u' = disk u /\
    none_in u' start cnt (cache_size u')).
Proof.
  intros H H0 H1 H2. pose proof (shape_size u (holds_shape _ _ _ H)). unfold ufat_cache_invalidate. go_gets.
  eapply wp_mono; [apply (invalidate_loop_runs u V start cnt _ H0 H1 H2 0 u V H); try done; try lia; intros j Hj; lia|].
  intros [] u' (W & HW & E & Hm & Hd & Hno). split_and!; [|done..]. eapply holds_ext; [|exact HW]. intros b Hb. unfold dropped.
  case_decide; [|by apply E]. rewrite <- Hd. symmetry. apply (holds_dev _ _ _ HW); [done|]. intros i Hi Pi _ <-. by apply (Hno i Hi Pi).
Qed.

(** Blocks read around the cache, which holds none of them, are the ones that are seen. *)
Lemma io_read_holds u V start (n : nat) old :
  holds u V -> (0 < n)%nat -> (forall i, (i < n)%nat -> shown (bpb u) (start + Z.of_nat i)) -> none_in u start (Z.of_nat n) (cache_size u) ->
  length old = (n * block_size)%nat -> Forall is_byte old ->
  wp (io_read start (Z.of_nat n) old) u (fun '(rc, data) u' => holds u' V /\ meta u' = meta u /\ length data = length old /\ Forall is_byte data /\
    if rc <? 0 then may_fail else forall i, (i < n)%nat -> sub (i * block_size) block_size data = V (start + Z.of_nat i)).
Proof.
  intros H Hpos Hb Hno Hl Hy. unfold wp, io_read. destruct (dev_read start (Z.of_nat n) old (disk u)) as [[rc data] d] eqn:E.
  destruct (dev_read_ok start n old (disk u) rc data d) as (H1 & H2 & H3 & H4 & H5); [apply H|done|intros i Hi; by apply Hb|done..|].
  split_and!; [by apply holds_disk_same|done..|]. destruct (rc <? 0); [done|]. intros i Hi. rewrite H5 by done.
  apply (holds_dev _ _ _ H); [by apply Hb|]. intros j Hj Pj _ Ej. apply (Hno j Hj Pj). lia.
Qed.

(** [n] blocks of [V] from [start] on replaced. *)
Definition vput (start : Z) (n : nat) (data : list Z) (V : Z -> list Z) : Z -> list Z :=
  fun b => if decide (start <= b < start + Z.of_nat n) then sub (Z.to_nat (b - start) * block_size) block_size data else V b.

(** Blocks written around the cache; when the write fails, nothing is known of them. *)
Lemma io_write_holds u V start (n : nat) data :
  holds u V -> (0 < n)%nat -> (forall i, (i < n)%nat -> shown (bpb u) (start + Z.of_nat i)) -> none_in u start (Z.of_nat n) (cache_size u) ->
  length data = (n * block_size)%nat -> Forall is_byte data ->
  wp (io_write start (Z.of_nat n) data) u (fun rc u' => meta u' = meta u /\
    if rc <? 0 then may_fail /\ exists W, holds u' W /\ forall b, ~ (start <= b < start + Z.of_nat n) -> W b = V b
    else holds u' (vput start n data V)).
Proof.
  intros H Hpos Hb Hno Hl Hy. unfold wp, io_write. destruct (dev_write start (Z.of_nat n) data (disk u)) as [rc d] eqn:E.
  destruct (dev_write_ok start n data (disk u) rc d) as (H1 & H2 & H3); [apply H|done|intros i Hi; by apply Hb|done..|].
  split; [done|].
  assert (forall W, (forall b, ~ (start <= b < start + Z.of_nat n) -> W b = V b) ->
    (forall b, shown (bpb u) b -> start <= b < start + Z.of_nat n -> W b = dev_block d b) -> holds (set_disk d u) W) as HW.
  { intros W W1 W2. split.
    - apply (shape_alike u); [done|apply H].
    - done.
    - intros i Hi Pi. destruct (holds_slot _ _ _ H i Hi Pi) as [S1 S2]. split; [done|]. change (slot (set_disk d u) i) with (slot u i).
      rewrite S2. symmetry. by apply W1, Hno.
    - intros b Hbs Hn. cbn [disk set_disk]. destruct (decide (start <= b < start + Z.of_nat n)) as [Hr|Hr]; [by rewrite W2|].
      rewrite H2, W1 by (done || apply Hbs). by apply (holds_dev _ _ _ H). }
  destruct (rc <? 0).
  - split; [done|]. exists (fun b => if decide (start <= b < start + Z.of_nat n) then dev_block d b else V b).
    split; [apply HW|]; intros b **; (by rewrite decide_False) || by rewrite decide_True.
  - apply HW; intros b **; unfold vput; [by rewrite decide_False|rewrite decide_True by done].
    replace b with (start + Z.of_nat (Z.to_nat (b - start))) at 2 by lia. symmetry. apply H3. lia.
Qed.
End View.
