(* ===== verification/UfatFat.v ===== *)
(** The file allocation table of ufat.c: reading and writing the entry of a cluster in the
    three formats, freeing and allocating chains of clusters. *)

From S2P Require Import Prelude UfatDev UfatCache.
#[local] Open Scope Z_scope.

Section Fat.
Context {D : Type} {BD : BlockDevice D}.
Notation ufat := (ufat D).

(** Block and place of byte [offset] of the FAT. *)
Definition fat_block (offset : Z) : Z := Z.shiftr offset log2_block_size.
Definition fat_place (offset : Z) : nat := Z.to_nat (Z.land offset (Z.shiftl 1 log2_block_size - 1)).

Definition read_fat_byte (offset : Z) : result ufat Z :=
  p ← gets bpb;
  idx ⇐ ufat_cache_open (u64 (fat_start p + fat_block offset)) false;
  data ← ufat_cache_data idx;
  b ← of_option (data !! fat_place offset);
  ok b.

(** What an entry of each width means. *)
Definition entry12 (raw : Z) : Z :=
  if (0xff8 <=? raw) || (raw =? 0xff0) then UFAT_CLUSTER_EOC
  else if raw =? 0xff7 then UFAT_CLUSTER_BAD else raw.

Definition entry16 (raw : Z) : Z :=
  if 0xfff8 <=? raw then UFAT_CLUSTER_EOC else if raw =? 0xfff7 then UFAT_CLUSTER_BAD else raw.

Definition entry32 (raw : Z) : Z :=
  if 0xffffff8 <=? raw then UFAT_CLUSTER_EOC else if raw =? 0xffffff7 then UFAT_CLUSTER_BAD else raw.

Definition read_fat12 (cluster : Z) : result ufat Z :=
  let offset := u32 (Z.shiftr cluster 1 * 3) in
  a ⇐ read_fat_byte (u32 (offset + 1));
  if negb (Z.land cluster 1 =? 0) then
    b ⇐ read_fat_byte (u32 (offset + 2));
    ok (entry12 (u16 (Z.lor (Z.shiftl b 4) (Z.shiftr a 4))))
  else
    b ⇐ read_fat_byte offset;
    ok (entry12 (u16 (Z.lor b (Z.shiftl (Z.land a 0xf) 8)))).

(** Block and place of the entry of a cluster when a block has [2 ^ shift] entries. *)
Definition wide_block (shift cluster : Z) : Z := Z.shiftr cluster shift.
Definition wide_place (shift cluster : Z) : Z := Z.land cluster (Z.shiftl 1 shift - 1).

Definition read_fat16 (cluster : Z) : result ufat Z :=
  let shift := log2_block_size - 1 in
  p ← gets bpb;
  i ⇐ ufat_cache_open (u64 (fat_start p + wide_block shift cluster)) false;
  data ← ufat_cache_data i;
  ok (entry16 (r16 (Z.to_nat (wide_place shift cluster * 2)) data)).

Definition UFAT_CLUSTER_MASK : Z := 0x0fffffff.

Definition read_fat32 (cluster : Z) : result ufat Z :=
  let shift := log2_block_size - 2 in
  p ← gets bpb;
  i ⇐ ufat_cache_open (u64 (fat_start p + wide_block shift cluster)) false;
  data ← ufat_cache_data i;
  ok (entry32 (Z.land (r32 (Z.to_nat (wide_place shift cluster * 4)) data) UFAT_CLUSTER_MASK)).

(** With a type that is none of the three the caller goes on with a variable that was never set. *)
Definition ufat_read_fat (cluster : Z) : result ufat Z :=
  p ← gets bpb;
  if num_clusters p <=? cluster then fail UFAT_ERR_INVALID_CLUSTER
  else if fat_type p =? UFAT_TYPE_FAT12 then read_fat12 cluster
  else if fat_type p =? UFAT_TYPE_FAT16 then read_fat16 cluster
  else if fat_type p =? UFAT_TYPE_FAT32 then read_fat32 cluster
  else undef.

Definition set_byte (r : nat) (byte mask : Z) (data : list Z) : list Z :=
  match data !! r with
  | Some x => <[r := Z.lor (Z.land x (Z.lnot mask)) (Z.land byte mask)]> data
  | None => data
  end.

Definition write_fat_byte (offset byte mask : Z) : result ufat unit :=
  p ← gets bpb;
  idx ⇐ ufat_cache_open (u64 (fat_start p + fat_block offset)) false;
  ufat_cache_write idx;;
  update_data idx (set_byte (fat_place offset) byte mask);;
  ok tt.

Definition write_fat12 (cluster v : Z) : result ufat unit :=
  let offset := u32 (Z.shiftr cluster 1 * 3) in
  if negb (Z.land cluster 1 =? 0) then
    write_fat_byte (u32 (offset + 1)) (Z.shiftl (Z.land v 0xf) 4) 0xf0 ;?
    write_fat_byte (u32 (offset + 2)) (Z.shiftr (Z.land v 0xff0) 4) 0xff
  else
    write_fat_byte offset (Z.land v 0xff) 0xff ;?
    write_fat_byte (u32 (offset + 1)) (Z.shiftr (Z.land v 0xf00) 8) 0x0f.

Definition write_fat16 (cluster v : Z) : result ufat unit :=
  let shift := log2_block_size - 1 in
  p ← gets bpb;
  i ⇐ ufat_cache_open (u64 (fat_start p + wide_block shift cluster)) false;
  ufat_cache_write i;;
  update_data i (w16 (Z.to_nat (wide_place shift cluster * 2)) (Z.land v 0xffff));;
  ok tt.

Definition write_fat32 (cluster v : Z) : result ufat unit :=
  let shift := log2_block_size - 2 in
  p ← gets bpb;
  i ⇐ ufat_cache_open (u64 (fat_start p + wide_block shift cluster)) false;
  ufat_cache_write i;;
  update_data i (w32 (Z.to_nat (wide_place shift cluster * 4)) v);;
  ok tt.

Definition ufat_write_fat (cluster v : Z) : result ufat unit :=
  p ← gets bpb;
  if num_clusters p <=? cluster then fail UFAT_ERR_INVALID_CLUSTER
  else if fat_type p =? UFAT_TYPE_FAT12 then write_fat12 cluster v
  else if fat_type p =? UFAT_TYPE_FAT16 then write_fat16 cluster v
  else if fat_type p =? UFAT_TYPE_FAT32 then write_fat32 cluster v
  else ok tt.

(** * Chains *)

Fixpoint free_loop (fuel : nat) (c : Z) : result ufat unit :=
  if UFAT_CLUSTER_IS_PTR c then
    match fuel with
    | O => nofuel
    | S fuel =>
        next ⇐ ufat_read_fat c;
        ufat_write_fat c UFAT_CLUSTER_FREE ;?
        free_loop fuel next
    end
  else ok tt.

(** Every round but the last frees a cluster, so there are no more rounds than clusters. *)
Definition ufat_free_chain (c : Z) : result ufat unit := p ← gets bpb; free_loop (Z.to_nat (num_clusters p)) c.

Fixpoint alloc_loop (n : nat) (total tail : Z) : result ufat Z :=
  match n with
  | O => fail UFAT_ERR_NO_CLUSTERS
  | S n =>
      a ← gets alloc_ptr;
      let idx := u32 (a + 2) in
      modify (set_alloc_ptr (u32 (a + 1) mod total));;
      p ← gets bpb;
      if (idx =? 0xff0) && (fat_type p =? UFAT_TYPE_FAT12) then alloc_loop n total tail
      else
        r ← ufat_read_fat idx;
        match r with
        | inr c =>
            if c =? UFAT_CLUSTER_FREE then ufat_write_fat idx tail ;? ok idx
            else alloc_loop n total tail
        | inl _ => alloc_loop n total tail
        end
  end.

Definition alloc_cluster (tail : Z) : result ufat Z :=
  p ← gets bpb;
  let total := u32 (num_clusters p - 2) in
  alloc_loop (Z.to_nat total) total tail.

Fixpoint alloc_chain_loop (count : nat) (chain : Z) : result ufat Z :=
  match count with
  | O => ok chain
  | S count =>
      r ← alloc_cluster chain;
      match r with
      | inl e => ufat_free_chain chain;; mret (inl e)
      | inr c => alloc_chain_loop count c
      end
  end.

Definition ufat_alloc_chain (count : nat) : result ufat Z := alloc_chain_loop count UFAT_CLUSTER_EOC.

(** The free clusters are counted. *)
Fixpoint count_loop (n : nat) (idx local_free : Z) : result ufat Z :=
  match n with
  | O => ok local_free
  | S n =>
      p ← gets bpb;
      if (idx =? 0xff0) && (fat_type p =? UFAT_TYPE_FAT12) then count_loop n (idx + 1) local_free
      else
        c ⇐ ufat_read_fat idx;
        count_loop n (idx + 1) (if c =? UFAT_CLUSTER_FREE then local_free + 1 else local_free)
  end.

Definition ufat_count_free_clusters : result ufat Z :=
  p ← gets bpb; count_loop (Z.to_nat (num_clusters p - 2)) 2 0.
End Fat.
