(* ===== verification/UfatTable.v ===== *)
(** The entries of the file allocation table: what a state shows of them, and that reading
    and writing one does what it says in each of the three formats. *)

From Stdlib Require Import Btauto.
From S2P Require Import Prelude UfatDev UfatCache UfatView UfatFat.
#[local] Open Scope Z_scope.

(** * Bits *)

Lemma testbit_above x w m : 0 <= x < 2 ^ w -> w <= m -> Z.testbit x m = false.
Proof.
  intros Hx Hm. destruct (Z.leb_spec 0 w); [|rewrite Z.pow_neg_r in Hx; lia]. destruct (Z.eq_dec x 0) as [->|]; [apply Z.testbit_0_l|].
  apply Z.bits_above_log2; [lia|]. assert (Z.log2 x < w); [|lia]. apply Z.log2_lt_pow2; lia.
Qed.

(** Equations between expressions of bit operations on at most 16 bits, one bit after the other. *)
Ltac bit_ops := repeat first [rewrite Z.lor_spec | rewrite Z.land_spec | match goal with
  | |- context [Z.testbit ?a ?n] => rewrite (Z.testbit_neg_r a n) by lia
  | |- context [Z.testbit (Z.lnot ?a) ?n] => rewrite (Z.lnot_spec a n) by lia
  | |- context [Z.testbit (Z.shiftl ?a ?k) ?n] => rewrite (Z.shiftl_spec a k n) by lia
  | |- context [Z.testbit (Z.shiftr ?a ?k) ?n] => rewrite (Z.shiftr_spec a k n) by lia end].
Ltac bit_literals := repeat match goal with
  | |- context [Z.testbit (Zpos ?p) ?k] => let b := eval vm_compute in (Z.testbit (Zpos p) k) in
      match b with true => idtac | false => idtac end; change (Z.testbit (Zpos p) k) with b end.
Ltac bit_index := repeat match goal with
  | |- context [Z.testbit _ (?a + ?b)] => let c := eval vm_compute in (a + b) in change (a + b) with c
  | |- context [Z.testbit _ (?a - ?b)] => let c := eval vm_compute in (a - b) in change (a - b) with c end.
Ltac bits16 := apply Z.bits_inj'; let n := fresh "n" in intros n Hn;
  destruct (Z.lt_ge_cases n 16) as [Hlt|Hge];
  [ assert (n = 15 \/ n = 14 \/ n = 13 \/ n = 12 \/ n = 11 \/ n = 10 \/ n = 9 \/ n = 8 \/ n = 7 \/ n = 6 \/ n = 5 \/ n = 4 \/ n = 3 \/ n = 2 \/ n = 1 \/ n = 0) as Hc by lia;
    repeat (destruct Hc as [Hc|Hc]); subst; bit_ops; bit_index; bit_literals; repeat rewrite Z.testbit_neg_r by lia; try btauto
  | bit_ops; repeat match goal with |- context [Z.testbit (Zpos ?p) ?m] => first [rewrite (testbit_above (Zpos p) 12 m) by lia | rewrite (testbit_above (Zpos p) 4 m) by lia] end; try btauto ].

Lemma byte_above x : is_byte x -> forall m, 8 <= m -> Z.testbit x m = false.
Proof. intros H m. by apply testbit_above. Qed.

(** What a store through a mask leaves of a byte. *)
Definition masked (x byte mask : Z) : Z := Z.lor (Z.land x (Z.lnot mask)) (Z.land byte mask).

Ltac byte_bits :=
  repeat match goal with H : is_byte ?x |- _ => pose proof (byte_above x H); clear H end;
  bits16; repeat match goal with B : forall m, 8 <= m -> Z.testbit _ m = false |- _ => progress (repeat rewrite B by lia) end; try btauto.

Lemma even_low x y v : 0 <= v -> is_byte x -> is_byte y ->
  Z.lor (masked y (Z.land v 0xff) 0xff) (Z.shiftl (Z.land (masked x (Z.shiftr (Z.land v 0xf00) 8) 0x0f) 0xf) 8) = Z.land v 0xfff.
Proof. intros Hv Hx Hy. unfold masked. byte_bits. Qed.

Lemma odd_high x y v : 0 <= v -> is_byte x -> is_byte y ->
  Z.lor (Z.shiftl (masked y (Z.shiftr (Z.land v 0xff0) 4) 0xff) 4) (Z.shiftr (masked x (Z.shiftl (Z.land v 0xf) 4) 0xf0) 4) = Z.land v 0xfff.
Proof. intros Hv Hx Hy. unfold masked. byte_bits. Qed.

Lemma even_keeps_odd x v : is_byte x -> Z.shiftr (masked x (Z.shiftr (Z.land v 0xf00) 8) 0x0f) 4 = Z.shiftr x 4.
Proof. intros Hx. unfold masked. byte_bits. Qed.

Lemma odd_keeps_even x v : is_byte x -> Z.land (masked x (Z.shiftl (Z.land v 0xf) 4) 0xf0) 0xf = Z.land x 0xf.
Proof. intros Hx. unfold masked. byte_bits. Qed.

Lemma masked_byte x b mask : is_byte x -> 0 <= mask < 256 -> is_byte (masked x b mask).
Proof.
  intros Hx Hm. unfold is_byte, masked.
  assert (0 <= Z.lor (Z.land x (Z.lnot mask)) (Z.land b mask)) as H0.
  { apply Z.lor_nonneg. unfold is_byte in Hx. split; apply Z.land_nonneg; lia. }
  split; [done|]. destruct (Z.lt_ge_cases (Z.lor (Z.land x (Z.lnot mask)) (Z.land b mask)) 256) as [|Hge]; [done|exfalso].
  set (y := Z.lor _ _) in *. assert (8 <= Z.log2 y) as Hl by (apply Z.log2_le_pow2; lia).
  assert (Z.testbit y (Z.log2 y) = true) as Ht by (apply Z.bit_log2; lia). unfold y in Ht at 1.
  rewrite Z.lor_spec, !Z.land_spec, (byte_above x Hx), (testbit_above mask 8) in Ht by (lia || done).
  by rewrite andb_false_r in Ht.
Qed.

Section Table.
Context {D : Type} {BD : BlockDevice D} {DS : DeviceSpec D}.
Notation ufat := (ufat D).
Implicit Types (u : ufat) (V W : Z -> list Z).

(** * A sound volume *)

Definition fat_bytes (p : ufat_bpb) : Z := Z.shiftl (fat_size p) log2_block_size.

(** The bytes of the entries of all clusters. *)
Definition table_bytes (p : ufat_bpb) : Z :=
  if fat_type p =? UFAT_TYPE_FAT12 then (num_clusters p / 2) * 3 + 3
  else if fat_type p =? UFAT_TYPE_FAT16 then num_clusters p * 2 else num_clusters p * 4.

Definition max_clusters (p : ufat_bpb) : Z :=
  if fat_type p =? UFAT_TYPE_FAT12 then 0xff6 else if fat_type p =? UFAT_TYPE_FAT16 then 0xfff6 else 0xffffff0.

Definition cluster_blocks (p : ufat_bpb) : Z := Z.shiftl 1 (log2_blocks_per_cluster p).
Definition end_block (p : ufat_bpb) : Z := cluster_start p + (num_clusters p - 2) * cluster_blocks p.

(** The numbers of the boot sector fit each other and the device. *)
Record volume (p : ufat_bpb) : Prop := {
  volume_type : fat_type p = UFAT_TYPE_FAT12 \/ fat_type p = UFAT_TYPE_FAT16 \/ fat_type p = UFAT_TYPE_FAT32;
  volume_fat : 0 <= fat_start p /\ 0 <= fat_size p /\ 1 <= fat_count p;
  volume_clusters : 2 <= num_clusters p <= max_clusters p;
  volume_table : table_bytes p <= fat_bytes p < 2 ^ 32;
  volume_cluster_size : 0 <= log2_blocks_per_cluster p <= 16;
  volume_shift : (num_clusters p - 2) * cluster_blocks p < 2 ^ 32;
  volume_root : fat_start p + fat_size p * fat_count p <= root_start p /\ root_start p + root_size p <= cluster_start p /\ 0 <= root_size p;
  volume_blocks b : 0 <= b < end_block p -> dev_has b
}.

Lemma cluster_blocks_pos p : volume p -> 0 < cluster_blocks p.
Proof. intros H. unfold cluster_blocks. rewrite Z.shiftl_1_l. apply Z.pow_pos_nonneg; [lia|apply H]. Qed.

Lemma volume_geometry p : volume p -> geometry p.
Proof.
  intros H. pose proof (volume_fat p H). pose proof (volume_root p H). pose proof (volume_clusters p H). pose proof (cluster_blocks_pos p H).
  split_and!; try lia. intros b Hb. apply (volume_blocks p H). unfold end_block. nia.
Qed.

Lemma end_block_bound p : volume p -> 0 <= cluster_start p /\ cluster_start p <= end_block p /\ end_block p < 2 ^ 63.
Proof.
  intros H. pose proof (volume_fat p H). pose proof (volume_root p H). pose proof (volume_clusters p H). pose proof (cluster_blocks_pos p H).
  assert (0 <= cluster_start p) by nia. assert (cluster_start p <= end_block p) by (unfold end_block; nia). split_and!; try done.
  destruct (Z.leb_spec (end_block p) 0); [lia|]. pose proof (dev_has_bound _ (volume_blocks p H (end_block p - 1) ltac:(lia))). lia.
Qed.

Definition in_fat (p : ufat_bpb) (b : Z) : Prop := fat_start p <= b < fat_start p + fat_size p.

Lemma fat_shown p b : volume p -> in_fat p b -> shown p b.
Proof.
  intros H Hb. pose proof (volume_fat p H). split.
  - apply (geometry_fat p); [by apply volume_geometry|done|lia].
  - unfold mirror, in_fat in *. lia.
Qed.

(** * Bytes of the FAT *)

Definition fat_byte (p : ufat_bpb) (V : Z -> list Z) (offset : Z) : Z :=
  default 0 (V (fat_start p + fat_block offset) !! fat_place offset).

Lemma fat_place_mod offset : Z.of_nat (fat_place offset) = offset mod 2 ^ log2_block_size.
Proof.
  unfold fat_place. pose proof log2_block_size_bound. rewrite Z.shiftl_1_l. change (2 ^ log2_block_size - 1) with (Z.pred (2 ^ log2_block_size)). rewrite <- Z.ones_equiv, Z.land_ones by lia.
  apply Z2Nat.id. apply Z.mod_pos_bound, Z.pow_pos_nonneg; lia.
Qed.

Lemma fat_place_bound offset : (fat_place offset < block_size)%nat.
Proof.
  apply Nat2Z.inj_lt. rewrite fat_place_mod, block_size_Z. pose proof log2_block_size_bound. apply Z.mod_pos_bound, Z.pow_pos_nonneg; lia.
Qed.

Lemma fat_split offset : offset = fat_block offset * 2 ^ log2_block_size + Z.of_nat (fat_place offset).
Proof.
  rewrite fat_place_mod. unfold fat_block. pose proof log2_block_size_bound. rewrite Z.shiftr_div_pow2 by lia.
  pose proof (Z.div_mod offset (2 ^ log2_block_size)). assert (0 < 2 ^ log2_block_size) by (apply Z.pow_pos_nonneg; lia). lia.
Qed.

Lemma fat_offset_inj o o' : fat_block o = fat_block o' -> fat_place o = fat_place o' -> o = o'.
Proof. intros E1 E2. rewrite (fat_split o), (fat_split o'). by rewrite E1, E2. Qed.

Lemma fat_block_in p offset : volume p -> 0 <= offset < fat_bytes p -> in_fat p (fat_start p + fat_block offset).
Proof.
  intros H Ho. unfold in_fat, fat_bytes, fat_block in *. pose proof log2_block_size_bound.
  rewrite Z.shiftl_mul_pow2, Z.shiftr_div_pow2 in * by lia. assert (0 < 2 ^ log2_block_size) by (apply Z.pow_pos_nonneg; lia).
  split; [pose proof (Z.div_pos offset (2 ^ log2_block_size)); lia|].
  assert (offset / 2 ^ log2_block_size < fat_size p); [|lia]. apply Z.div_lt_upper_bound; lia.
Qed.

Lemma in_fat_bound p b : volume p -> in_fat p b -> u64 b = b.
Proof. intros H Hb. pose proof (dev_has_bound b (proj1 (fat_shown p b H Hb))). apply u64_id. lia. Qed.

(** The byte of a block that is shown. *)
Lemma shown_byte x u V b (n : nat) : holds_but x u V -> shown (bpb u) b -> (n < block_size)%nat ->
  exists y, V b !! n = Some y /\ is_byte y.
Proof.
  intros H Hb Hn. destruct (holds_block _ _ _ _ H Hb) as [Hl Hy]. destruct (V b !! n) as [y|] eqn:E.
  - exists y. split; [done|]. by eapply Forall_lookup_1.
  - apply lookup_ge_None in E. lia.
Qed.

Lemma read_fat_byte_holds u V offset :
  holds u V -> volume (bpb u) -> 0 <= offset < fat_bytes (bpb u) ->
  returns (read_fat_byte offset) u (failed u V) (fun b u' => meta u' = meta u /\ holds u' V /\ b = fat_byte (bpb u) V offset /\ is_byte b).
Proof.
  intros H Hv Ho. pose proof (fat_block_in _ _ Hv Ho) as Hin. unfold read_fat_byte. go_gets. rewrite (in_fat_bound (bpb u)) by done.
  eapply returns_check; [apply cache_open_holds; [done|by apply fat_shown]|done|].
  intros i u1 (Hm & (Hi & _) & H1 & Hd). go cache_data_run; [apply H1|done|]. rewrite Hd.
  destruct (shown_byte _ _ _ (fat_start (bpb u) + fat_block offset) (fat_place offset) H1) as (y & E & Hy);
    [pose proof Hm as [= _ -> _ _]; by apply fat_shown|apply fat_place_bound|].
  rewrite E. go_gets. apply returns_ok. unfold fat_byte. by rewrite E.
Qed.

(** The bytes after a store. *)
Definition byte_set (p : ufat_bpb) (offset byte mask : Z) (V : Z -> list Z) : Z -> list Z :=
  vmod (fat_start p + fat_block offset) (set_byte (fat_place offset) byte mask) V.

Lemma set_byte_ok r b mask data : 0 <= mask < 256 -> block_ok data -> block_ok (set_byte r b mask data).
Proof.
  intros Hm [Hl Hy]. unfold set_byte. destruct (data !! r) as [x|] eqn:E; [|done]. split; [by rewrite length_insert|].
  apply Forall_insert; [done|]. apply masked_byte; [|done]. by eapply Forall_lookup_1.
Qed.

Lemma write_fat_byte_holds u V offset byte mask :
  holds u V -> volume (bpb u) -> 0 <= offset < fat_bytes (bpb u) -> 0 <= mask < 256 ->
  returns (write_fat_byte offset byte mask) u (failed u V) (fun _ u' => meta u' = meta u /\ holds u' (byte_set (bpb u) offset byte mask V)).
Proof.
  intros H Hv Ho Hmask. pose proof (fat_block_in _ _ Hv Ho) as Hin. unfold write_fat_byte. go_gets. rewrite (in_fat_bound (bpb u)) by done.
  eapply returns_check; [apply cache_open_holds; [done|by apply fat_shown]|done|].
  intros i u1 (Hm & Hi & H1 & _). eapply write_block_holds; [done|exact Hi|by apply set_byte_ok|].
  intros u2 Hm2 _ H2 _. apply returns_ok. split; [congruence|done].
Qed.

Lemma fat_byte_set x u V offset byte mask o :
  holds_but x u V -> volume (bpb u) -> 0 <= offset < fat_bytes (bpb u) ->
  fat_byte (bpb u) (byte_set (bpb u) offset byte mask V) o =
    if decide (o = offset) then masked (fat_byte (bpb u) V offset) byte mask else fat_byte (bpb u) V o.
Proof.
  intros H Hv Ho. destruct (shown_byte _ _ _ (fat_start (bpb u) + fat_block offset) (fat_place offset) H) as (y & E & Hy);
    [apply fat_shown; [done|by apply fat_block_in]|apply fat_place_bound|].
  unfold fat_byte, byte_set, vmod. case_decide as Eo.
  - subst. rewrite vset_same. unfold set_byte. rewrite E. rewrite list_lookup_insert_eq by (by eapply lookup_lt_Some). done.
  - destruct (decide (fat_block o = fat_block offset)) as [Eb|Eb].
    + rewrite Eb, vset_same. unfold set_byte. rewrite E. rewrite list_lookup_insert_ne; [done|].
      intros Ep. by apply Eo, fat_offset_inj.
    + rewrite vset_other by lia. done.
Qed.

Lemma byte_set_outside p offset byte mask V b : volume p -> 0 <= offset < fat_bytes p -> ~ in_fat p b ->
  byte_set p offset byte mask V b = V b.
Proof. intros Hv Ho Hb. apply vset_other. intros ->. by apply Hb, fat_block_in. Qed.

Lemma fat_byte_ok x u V o : holds_but x u V -> volume (bpb u) -> 0 <= o < fat_bytes (bpb u) -> is_byte (fat_byte (bpb u) V o).
Proof.
  intros H Hv Ho. destruct (shown_byte _ _ _ (fat_start (bpb u) + fat_block o) (fat_place o) H) as (y & E & Hy);
    [apply fat_shown; [done|by apply fat_block_in]|apply fat_place_bound|]. unfold fat_byte. by rewrite E.
Qed.

(** * Entries of two and four bytes *)

(** Entry [i] of a table with entries of [2 ^ e] bytes. *)
Definition wide_offset (e i : Z) : nat := Z.to_nat (wide_place (log2_block_size - e) i * 2 ^ e).
Definition wide_entry (e : Z) (p : ufat_bpb) (V : Z -> list Z) (i : Z) : list Z :=
  sub (wide_offset e i) (Z.to_nat (2 ^ e)) (V (fat_start p + wide_block (log2_block_size - e) i)).
Definition wide_set (e : Z) (p : ufat_bpb) (i : Z) (new : list Z) (V : Z -> list Z) : Z -> list Z :=
  vmod (fat_start p + wide_block (log2_block_size - e) i) (put (wide_offset e i) new) V.

Lemma wide_place_mod e i : 0 <= e <= 4 -> wide_place (log2_block_size - e) i = i mod 2 ^ (log2_block_size - e).
Proof.
  intros He. unfold wide_place. pose proof log2_block_size_bound. rewrite Z.shiftl_1_l.
  change (2 ^ (log2_block_size - e) - 1) with (Z.pred (2 ^ (log2_block_size - e))). rewrite <- Z.ones_equiv, Z.land_ones by lia. done.
Qed.

Lemma wide_split e i : 0 <= e <= 4 ->
  i = wide_block (log2_block_size - e) i * 2 ^ (log2_block_size - e) + wide_place (log2_block_size - e) i.
Proof.
  intros He. rewrite wide_place_mod by done. unfold wide_block. pose proof log2_block_size_bound. rewrite Z.shiftr_div_pow2 by lia.
  pose proof (Z.div_mod i (2 ^ (log2_block_size - e))). assert (0 < 2 ^ (log2_block_size - e)) by (apply Z.pow_pos_nonneg; lia). lia.
Qed.

Lemma wide_fits e i : 0 <= e <= 4 -> (wide_offset e i + Z.to_nat (2 ^ e) <= block_size)%nat.
Proof.
  intros He. pose proof log2_block_size_bound. assert (0 < 2 ^ (log2_block_size - e)) by (apply Z.pow_pos_nonneg; lia).
  assert (0 < 2 ^ e) by (apply Z.pow_pos_nonneg; lia). unfold wide_offset. rewrite wide_place_mod by done.
  pose proof (Z.mod_pos_bound i (2 ^ (log2_block_size - e)) H0) as Hm. pose proof block_size_Z as Hz.
  replace (2 ^ log2_block_size) with (2 ^ (log2_block_size - e) * 2 ^ e) in Hz by (rewrite <- Z.pow_add_r by lia; f_equal; lia).
  generalize dependent (i mod 2 ^ (log2_block_size - e)). generalize dependent (2 ^ (log2_block_size - e)). generalize dependent (2 ^ e).
  intros a Ha b Hb Hz m Hm. nia.
Qed.

Lemma wide_in p e i : volume p -> 0 <= e <= 4 -> 0 <= i -> i * 2 ^ e < fat_bytes p ->
  in_fat p (fat_start p + wide_block (log2_block_size - e) i).
Proof.
  intros Hv He Hi Hb. unfold in_fat, fat_bytes, wide_block in *. pose proof log2_block_size_bound.
  rewrite Z.shiftl_mul_pow2, Z.shiftr_div_pow2 in * by lia.
  assert (0 < 2 ^ (log2_block_size - e)) by (apply Z.pow_pos_nonneg; lia). assert (0 < 2 ^ e) by (apply Z.pow_pos_nonneg; lia).
  split; [pose proof (Z.div_pos i (2 ^ (log2_block_size - e))); lia|].
  assert (i / 2 ^ (log2_block_size - e) < fat_size p); [|lia]. apply Z.div_lt_upper_bound; [lia|].
  replace (2 ^ log2_block_size) with (2 ^ (log2_block_size - e) * 2 ^ e) in Hb; [nia|]. rewrite <- Z.pow_add_r by lia. f_equal. lia.
Qed.

Lemma wide_entry_set x u V e i j new :
  holds_but x u V -> volume (bpb u) -> 0 <= e <= 4 -> 0 <= i -> 0 <= j -> i * 2 ^ e < fat_bytes (bpb u) -> length new = Z.to_nat (2 ^ e) ->
  wide_entry e (bpb u) (wide_set e (bpb u) i new V) j = if decide (j = i) then new else wide_entry e (bpb u) V j.
Proof.
  intros H Hv He Hi Hj Hb Hl. pose proof (wide_fits e i He) as Hf. pose proof (wide_fits e j He) as Hg.
  destruct (holds_block _ _ _ _ H (fat_shown _ _ Hv (wide_in _ _ _ Hv He Hi Hb))) as [Hlen _].
  unfold wide_entry, wide_set, vmod. case_decide as E.
  - subst. rewrite vset_same. apply sub_put_same; [by rewrite Hl|lia].
  - destruct (decide (wide_block (log2_block_size - e) j = wide_block (log2_block_size - e) i)) as [Eb|Eb]; [|by rewrite vset_other by lia].
    rewrite Eb, vset_same. apply sub_put_other; [|lia]. rewrite Hl. unfold wide_offset.
    pose proof (wide_split e i He) as S1. pose proof (wide_split e j He) as S2. rewrite Eb in S2.
    assert (0 < 2 ^ e) by (apply Z.pow_pos_nonneg; lia).
    assert (0 <= wide_place (log2_block_size - e) i /\ 0 <= wide_place (log2_block_size - e) j) as [P1 P2].
    { rewrite !wide_place_mod by done. pose proof log2_block_size_bound. split; apply Z.mod_pos_bound, Z.pow_pos_nonneg; lia. }
    rewrite <- !Z2Nat.inj_add by nia. nia.
Qed.

Lemma wide_set_outside p e i new V b : volume p -> 0 <= e <= 4 -> 0 <= i -> i * 2 ^ e < fat_bytes p -> ~ in_fat p b ->
  wide_set e p i new V b = V b.
Proof. intros Hv He Hi Hb Hn. apply vset_other. intros ->. by apply Hn, wide_in. Qed.

(** * Entries *)

Definition raw12 (p : ufat_bpb) (V : Z -> list Z) (i : Z) : Z :=
  let o := i / 2 * 3 in
  if Z.odd i then Z.lor (Z.shiftl (fat_byte p V (o + 2)) 4) (Z.shiftr (fat_byte p V (o + 1)) 4)
  else Z.lor (fat_byte p V o) (Z.shiftl (Z.land (fat_byte p V (o + 1)) 0xf) 8).

(** The number in the entry of cluster [i], and what it means. *)
Definition raw (p : ufat_bpb) (V : Z -> list Z) (i : Z) : Z :=
  if fat_type p =? UFAT_TYPE_FAT12 then raw12 p V i
  else if fat_type p =? UFAT_TYPE_FAT16 then le_decode (wide_entry 1 p V i)
  else Z.land (le_decode (wide_entry 2 p V i)) UFAT_CLUSTER_MASK.

Definition entry (p : ufat_bpb) (r : Z) : Z :=
  if fat_type p =? UFAT_TYPE_FAT12 then entry12 r
  else if fat_type p =? UFAT_TYPE_FAT16 then entry16 r else entry32 r.

Definition fat (p : ufat_bpb) (V : Z -> list Z) (i : Z) : Z := entry p (raw p V i).

(** The number that is stored for a value. *)
Definition stored_as (p : ufat_bpb) (v : Z) : Z :=
  if fat_type p =? UFAT_TYPE_FAT12 then Z.land v 0xfff
  else if fat_type p =? UFAT_TYPE_FAT16 then Z.land v 0xffff else Z.land v UFAT_CLUSTER_MASK.

(** [W] is [V] but for the entry of cluster [i]. *)
Definition fat_but (p : ufat_bpb) (i : Z) (V W : Z -> list Z) : Prop :=
  (forall j, 0 <= j < num_clusters p -> j <> i -> raw p W j = raw p V j) /\ (forall b, ~ in_fat p b -> W b = V b).

Lemma fat_but_refl p i V : fat_but p i V V.
Proof. done. Qed.

(** * Reading *)

Lemma odd_land i : negb (Z.land i 1 =? 0) = Z.odd i.
Proof. change 1 with (Z.ones 1). rewrite Z.land_ones by lia. rewrite Zmod_odd. by destruct (Z.odd i). Qed.

(** The places of the bytes of a 12 bit entry. *)
Lemma places12 u i : volume (bpb u) -> fat_type (bpb u) = UFAT_TYPE_FAT12 -> 0 <= i < num_clusters (bpb u) ->
  u32 (Z.shiftr i 1 * 3) = i / 2 * 3 /\ u32 (i / 2 * 3 + 1) = i / 2 * 3 + 1 /\ u32 (i / 2 * 3 + 2) = i / 2 * 3 + 2 /\
  0 <= i / 2 * 3 /\ i / 2 * 3 + 2 < fat_bytes (bpb u).
Proof.
  intros Hv Ht Hi. pose proof (volume_table _ Hv) as Hb. unfold table_bytes in Hb. rewrite Ht in Hb. cbn [Z.eqb] in Hb.
  change (UFAT_TYPE_FAT12 =? UFAT_TYPE_FAT12) with true in Hb. cbv iota in Hb.
  rewrite Z.shiftr_div_pow2 by lia. change (2 ^ 1) with 2.
  assert (0 <= i / 2) by (apply Z.div_pos; lia). assert (i / 2 <= num_clusters (bpb u) / 2) by (apply Z.div_le_mono; lia).
  rewrite !u32_id by lia. lia.
Qed.

Lemma u16_id x : 0 <= x < 2 ^ 16 -> u16 x = x.
Proof. apply Z.mod_small. Qed.

Lemma raw12_bound a b : is_byte a -> is_byte b ->
  0 <= Z.lor (Z.shiftl b 4) (Z.shiftr a 4) < 2 ^ 12 /\ 0 <= Z.lor b (Z.shiftl (Z.land a 0xf) 8) < 2 ^ 12.
Proof.
  intros Ha Hb. assert (Z.lor (Z.shiftl b 4) (Z.shiftr a 4) = Z.land (Z.lor (Z.shiftl b 4) (Z.shiftr a 4)) 0xfff) as -> by byte_bits.
  assert (Z.lor b (Z.shiftl (Z.land a 0xf) 8) = Z.land (Z.lor b (Z.shiftl (Z.land a 0xf) 8)) 0xfff) as -> by byte_bits.
  change 0xfff with (Z.ones 12). rewrite !Z.land_ones by lia. split; by apply Z.mod_pos_bound.
Qed.

Lemma read_fat12_holds u V i :
  holds u V -> volume (bpb u) -> fat_type (bpb u) = UFAT_TYPE_FAT12 -> 0 <= i < num_clusters (bpb u) ->
  returns (read_fat12 i) u (failed u V) (fun c u' => meta u' = meta u /\ holds u' V /\ c = entry12 (raw12 (bpb u) V i)).
Proof.
  intros H Hv Ht Hi. destruct (places12 u i Hv Ht Hi) as (E0 & E1 & E2 & B0 & B1). unfold read_fat12. rewrite E0, E1, E2, odd_land.
  eapply returns_check; [apply read_fat_byte_holds; try done; lia|done|]. intros a u1 (Hm & H1 & -> & Ba). pose proof Hm as [= _ Mb _ _].
  rewrite <- Mb in Hv, B1. unfold raw12. rewrite <- Mb. rewrite <- Mb in Ba. destruct (Z.odd i).
  - eapply returns_check; [apply read_fat_byte_holds; try done; lia| |].
    + intros e t (F1 & F2 & F3 & F4). split_and!; try done. congruence.
    + intros b u2 (Hm2 & H2 & -> & Bb). apply returns_ok. split_and!; [congruence|done|]. rewrite u16_id; [done|].
      destruct (raw12_bound _ _ Ba Bb) as [? _]. lia.
  - eapply returns_check; [apply read_fat_byte_holds; try done; lia| |].
    + intros e t (F1 & F2 & F3 & F4). split_and!; try done. congruence.
    + intros b u2 (Hm2 & H2 & -> & Bb). apply returns_ok. split_and!; [congruence|done|]. rewrite u16_id; [done|].
      destruct (raw12_bound _ _ Ba Bb) as [_ ?]. lia.
Qed.

(** Opening the block with a wide entry. *)
Lemma open_wide_holds u V e i : holds u V -> volume (bpb u) -> 0 <= e <= 4 -> 0 <= i -> i * 2 ^ e < fat_bytes (bpb u) ->
  returns (ufat_cache_open (u64 (fat_start (bpb u) + wide_block (log2_block_size - e) i)) false) u (failed u V)
    (fun k u' => meta u' = meta u /\ in_slot u' k (fat_start (bpb u) + wide_block (log2_block_size - e) i) /\ holds u' V /\
      slot u' k = V (fat_start (bpb u) + wide_block (log2_block_size - e) i)).
Proof.
  intros H Hv He Hi Hb. pose proof (wide_in _ _ _ Hv He Hi Hb) as Hin. rewrite (in_fat_bound (bpb u)) by done.
  apply cache_open_holds; [done|by apply fat_shown].
Qed.

Lemma wide_table u i : volume (bpb u) -> fat_type (bpb u) <> UFAT_TYPE_FAT12 -> 0 <= i < num_clusters (bpb u) ->
  fat_type (bpb u) = UFAT_TYPE_FAT16 /\ i * 2 ^ 1 < fat_bytes (bpb u) \/ fat_type (bpb u) = UFAT_TYPE_FAT32 /\ i * 2 ^ 2 < fat_bytes (bpb u).
Proof.
  intros Hv Ht Hi. pose proof (volume_table _ Hv) as Hb. unfold table_bytes in Hb.
  destruct (volume_type _ Hv) as [E|[E|E]]; [done|..]; rewrite E in Hb |- *; [left|right]; (split; [done|]);
    [change (UFAT_TYPE_FAT16 =? UFAT_TYPE_FAT12) with false in Hb|change (UFAT_TYPE_FAT32 =? UFAT_TYPE_FAT12) with false in Hb; change (UFAT_TYPE_FAT32 =? UFAT_TYPE_FAT16) with false in Hb];
    cbv iota in Hb; [change (UFAT_TYPE_FAT16 =? UFAT_TYPE_FAT16) with true in Hb; cbv iota in Hb|]; lia.
Qed.

Lemma read_fat16_holds u V i :
  holds u V -> volume (bpb u) -> 0 <= i -> i * 2 ^ 1 < fat_bytes (bpb u) ->
  returns (read_fat16 i) u (failed u V) (fun c u' => meta u' = meta u /\ holds u' V /\ c = entry16 (le_decode (wide_entry 1 (bpb u) V i))).
Proof.
  intros H Hv Hi Hb. unfold read_fat16. go_gets. eapply returns_check; [apply open_wide_holds; try done; lia|done|].
  intros k u1 (Hm & (Hk & _) & H1 & Hd). go cache_data_run; [apply H1|done|]. rewrite Hd. by apply returns_ok.
Qed.

Lemma read_fat32_holds u V i :
  holds u V -> volume (bpb u) -> 0 <= i -> i * 2 ^ 2 < fat_bytes (bpb u) ->
  returns (read_fat32 i) u (failed u V) (fun c u' => meta u' = meta u /\ holds u' V /\
    c = entry32 (Z.land (le_decode (wide_entry 2 (bpb u) V i)) UFAT_CLUSTER_MASK)).
Proof.
  intros H Hv Hi Hb. unfold read_fat32. go_gets. eapply returns_check; [apply open_wide_holds; try done; lia|done|].
  intros k u1 (Hm & (Hk & _) & H1 & Hd). go cache_data_run; [apply H1|done|]. rewrite Hd. by apply returns_ok.
Qed.

Lemma type_eqb a b : a = b -> (a =? b) = true.
Proof. intros ->. apply Z.eqb_refl. Qed.

(** ufat_read_fat reads the entry of a cluster. *)
Lemma read_fat_holds u V i :
  holds u V -> volume (bpb u) -> 0 <= i < num_clusters (bpb u) ->
  returns (ufat_read_fat i) u (failed u V) (fun c u' => meta u' = meta u /\ holds u' V /\ c = fat (bpb u) V i).
Proof.
  intros H Hv Hi. unfold ufat_read_fat. go_gets. destruct (Z.leb_spec (num_clusters (bpb u)) i); [lia|]. unfold fat, entry, raw.
  destruct (Z.eqb_spec (fat_type (bpb u)) UFAT_TYPE_FAT12) as [E|E]; [by apply read_fat12_holds|].
  destruct (wide_table u i Hv E Hi) as [[-> Hb]|[-> Hb]]; [apply read_fat16_holds|apply read_fat32_holds]; try done; lia.
Qed.

Lemma read_fat_outside u i : num_clusters (bpb u) <= i -> ufat_read_fat i u = Ret (inl (- UFAT_ERR_INVALID_CLUSTER)) u.
Proof. intros H. unfold ufat_read_fat. rewrite bind_gets, (proj2 (Z.leb_le _ _)) by done. done. Qed.

Lemma wide_entry_bytes x u V e i : holds_but x u V -> volume (bpb u) -> 0 <= e <= 4 -> 0 <= i -> i * 2 ^ e < fat_bytes (bpb u) ->
  Forall is_byte (wide_entry e (bpb u) V i).
Proof. intros H Hv He Hi Hb. apply Forall_sub. by apply (holds_block u V x _ H), fat_shown, wide_in. Qed.

(** No entry is negative. *)
Lemma fat_nonneg u V i : holds u V -> volume (bpb u) -> 0 <= i < num_clusters (bpb u) -> 0 <= fat (bpb u) V i.
Proof.
  intros H Hv Hi. assert (0 <= raw (bpb u) V i) as Hr.
  { unfold raw. destruct (Z.eqb_spec (fat_type (bpb u)) UFAT_TYPE_FAT12) as [E|E].
    - destruct (places12 u i Hv E Hi) as (_ & _ & _ & B0 & B1). unfold raw12.
      assert (forall k, 0 <= k <= 2 -> is_byte (fat_byte (bpb u) V (i / 2 * 3 + k))) as Hy by (intros k Hk; apply (fat_byte_ok (-1) u); (done || lia)).
      pose proof (raw12_bound _ _ (Hy 1 ltac:(lia)) (Hy 2 ltac:(lia))). pose proof (raw12_bound _ _ (Hy 1 ltac:(lia)) (Hy 0 ltac:(lia))) as Hlo.
      rewrite Z.add_0_r in Hlo. case_match; lia.
    - destruct (wide_table u i Hv E Hi) as [[-> Hb]|[-> Hb]].
      + change (UFAT_TYPE_FAT16 =? UFAT_TYPE_FAT16) with true. apply le_decode_bound, (wide_entry_bytes (-1) u V 1); (done || lia).
      + change (UFAT_TYPE_FAT32 =? UFAT_TYPE_FAT16) with false. apply Z.land_nonneg. left. apply le_decode_bound, (wide_entry_bytes (-1) u V 2); (done || lia). }
  unfold fat, entry, entry12, entry16, entry32, UFAT_CLUSTER_EOC, UFAT_CLUSTER_BAD. repeat case_match; lia.
Qed.

(** * Writing *)

(** An error of a write may spoil the entry it was to write. *)
Definition fat_failed (u : ufat) (i : Z) (V : Z -> list Z) (e : Z) (u' : ufat) : Prop :=
  may_fail /\ e < 0 /\ meta u' = meta u /\ exists W, holds u' W /\ fat_but (bpb u) i V W.

Definition fat_written (u : ufat) (i v : Z) (V : Z -> list Z) (u' : ufat) : Prop :=
  meta u' = meta u /\ exists W, holds u' W /\ fat_but (bpb u) i V W /\ raw (bpb u) W i = stored_as (bpb u) v.

Lemma wide_written u V e i new :
  holds u V -> volume (bpb u) -> 0 <= e <= 4 -> 0 <= i -> i * 2 ^ e < fat_bytes (bpb u) -> length new = Z.to_nat (2 ^ e) -> Forall is_byte new ->
  returns (k ⇐ ufat_cache_open (u64 (fat_start (bpb u) + wide_block (log2_block_size - e) i)) false;
    ufat_cache_write k;; update_data k (put (wide_offset e i) new);; ok tt) u (failed u V)
    (fun _ u' => meta u' = meta u /\ holds u' (wide_set e (bpb u) i new V)).
Proof.
  intros H Hv He Hi Hb Hl Hy. eapply returns_check; [by apply open_wide_holds|done|].
  intros k u1 (Hm & Hk & H1 & _). eapply write_block_holds; [done|exact Hk| |].
  - intros [L Y]. pose proof (wide_fits e i He). split; [rewrite length_put; lia|by apply Forall_put].
  - intros u2 Hm2 _ H2 _. apply returns_ok. split; [congruence|done].
Qed.

Lemma failed_fat u i V e u' : failed u V e u' -> fat_failed u i V e u'.
Proof. intros (F1 & F2 & F3 & F4). split_and!; try done. by exists V. Qed.

Lemma write_fat16_holds u V i v :
  holds u V -> volume (bpb u) -> fat_type (bpb u) = UFAT_TYPE_FAT16 -> 0 <= i < num_clusters (bpb u) -> 0 <= v ->
  returns (write_fat16 i v) u (fat_failed u i V) (fun _ => fat_written u i v V).
Proof.
  intros H Hv Ht Hi Hpos. destruct (wide_table u i Hv ltac:(by rewrite Ht) Hi) as [[_ Hb]|[E _]]; [|by rewrite Ht in E].
  unfold write_fat16. go_gets. eapply returns_mono; [apply (wide_written u V 1 i); try done; try lia; apply le_encode_bytes|apply failed_fat|].
  intros _ u' (Hm & H'). split; [done|]. eexists. split; [exact H'|]. repeat split.
  - intros j Hj Hne. unfold raw. rewrite Ht. cbn [Z.eqb UFAT_TYPE_FAT16 UFAT_TYPE_FAT12]. cbv iota.
    change (UFAT_TYPE_FAT16 =? UFAT_TYPE_FAT12) with false. change (UFAT_TYPE_FAT16 =? UFAT_TYPE_FAT16) with true. cbv iota.
    f_equal. erewrite wide_entry_set; [|exact H|done|lia|lia|lia|done|done]. by rewrite decide_False.
  - intros b Hn. apply wide_set_outside; try done; lia.
  - unfold raw, stored_as. rewrite Ht. change (UFAT_TYPE_FAT16 =? UFAT_TYPE_FAT12) with false. change (UFAT_TYPE_FAT16 =? UFAT_TYPE_FAT16) with true. cbv iota.
    erewrite wide_entry_set; [|exact H|done|lia|lia|lia|done|done]. rewrite decide_True by done.
    rewrite le_decode_encode. change (256 ^ Z.of_nat 2) with (2 ^ 16). change 0xffff with (Z.ones 16). rewrite Z.land_ones by lia. by rewrite Z.mod_mod.
Qed.

Lemma write_fat32_holds u V i v :
  holds u V -> volume (bpb u) -> fat_type (bpb u) = UFAT_TYPE_FAT32 -> 0 <= i < num_clusters (bpb u) -> 0 <= v ->
  returns (write_fat32 i v) u (fat_failed u i V) (fun _ => fat_written u i v V).
Proof.
  intros H Hv Ht Hi Hpos. destruct (wide_table u i Hv ltac:(by rewrite Ht) Hi) as [[E _]|[_ Hb]]; [by rewrite Ht in E|].
  unfold write_fat32. go_gets. eapply returns_mono; [apply (wide_written u V 2 i); try done; try lia; apply le_encode_bytes|apply failed_fat|].
  intros _ u' (Hm & H'). split; [done|]. eexists. split; [exact H'|]. repeat split.
  - intros j Hj Hne. unfold raw. rewrite Ht.
    change (UFAT_TYPE_FAT32 =? UFAT_TYPE_FAT12) with false. change (UFAT_TYPE_FAT32 =? UFAT_TYPE_FAT16) with false. cbv iota.
    f_equal. f_equal. erewrite wide_entry_set; [|exact H|done|lia|lia|lia|done|done]. by rewrite decide_False.
  - intros b Hn. apply wide_set_outside; try done; lia.
  - unfold raw, stored_as. rewrite Ht. change (UFAT_TYPE_FAT32 =? UFAT_TYPE_FAT12) with false. change (UFAT_TYPE_FAT32 =? UFAT_TYPE_FAT16) with false. cbv iota.
    erewrite wide_entry_set; [|exact H|done|lia|lia|lia|done|done]. rewrite decide_True by done.
    rewrite le_decode_encode. change (256 ^ Z.of_nat 4) with (2 ^ 32). rewrite <- (Z.land_ones v 32), <- Z.land_assoc by lia. done.
Qed.

(** A 12 bit entry depends on three bytes. *)
Lemma raw12_ext p p' V W i :
  (forall o, i / 2 * 3 <= o <= i / 2 * 3 + 2 -> fat_byte p' W o = fat_byte p V o) -> raw12 p' W i = raw12 p V i.
Proof. intros E. unfold raw12. rewrite !E by lia. done. Qed.

Lemma half_odd i : i = 2 * (i / 2) + (if Z.odd i then 1 else 0).
Proof. pose proof (Z.div_mod i 2). rewrite Zmod_odd in H. destruct (Z.odd i); lia. Qed.

(** The two stores of write_fat12, to the bytes [o1] and [o2]. *)
Lemma two_bytes u V i v o1 b1 m1 o2 b2 m2 :
  holds u V -> volume (bpb u) -> 0 <= o1 < fat_bytes (bpb u) -> 0 <= o2 < fat_bytes (bpb u) -> 0 <= m1 < 256 -> 0 <= m2 < 256 -> o1 <> o2 ->
  fat_type (bpb u) = UFAT_TYPE_FAT12 ->
  (forall W, (forall o, fat_byte (bpb u) W o = if decide (o = o1) then masked (fat_byte (bpb u) V o1) b1 m1 else fat_byte (bpb u) V o) ->
    forall j, 0 <= j < num_clusters (bpb u) -> j <> i -> raw12 (bpb u) W j = raw12 (bpb u) V j) ->
  (forall W, (forall o, fat_byte (bpb u) W o = if decide (o = o2) then masked (fat_byte (bpb u) V o2) b2 m2 else
      if decide (o = o1) then masked (fat_byte (bpb u) V o1) b1 m1 else fat_byte (bpb u) V o) ->
    (forall j, 0 <= j < num_clusters (bpb u) -> j <> i -> raw12 (bpb u) W j = raw12 (bpb u) V j) /\ raw12 (bpb u) W i = Z.land v 0xfff) ->
  returns (write_fat_byte o1 b1 m1 ;? write_fat_byte o2 b2 m2) u (fat_failed u i V) (fun _ => fat_written u i v V).
Proof.
  intros H Hv B1 B2 M1 M2 Hne Ht K1 K2.
  assert (forall W, raw (bpb u) W = raw12 (bpb u) W) as Er by (intros W; unfold raw; by rewrite Ht).
  eapply returns_check; [by apply write_fat_byte_holds|intros e t; apply failed_fat|].
  intros _ u1 (Hm & H1). pose proof Hm as [= Md Mb Mc Ma].
  assert (forall o, fat_byte (bpb u) (byte_set (bpb u) o1 b1 m1 V) o = if decide (o = o1) then masked (fat_byte (bpb u) V o1) b1 m1 else fat_byte (bpb u) V o) as F1.
  { intros o. by apply (fat_byte_set (-1)). }
  assert (forall b, ~ in_fat (bpb u) b -> byte_set (bpb u) o1 b1 m1 V b = V b) as O1 by (intros b Hb; by apply byte_set_outside).
  eapply returns_mono; [apply (write_fat_byte_holds u1 _ o2 b2 m2 H1); rewrite ?Mb; done| |].
  - intros e t (E1 & E2 & E3 & E4). split_and!; [done..|congruence|]. eexists. split; [exact E3|]. split; [|done].
    intros j Hj Hji. rewrite !Er. by apply K1.
  - intros _ u2 (Hm2 & H2). split; [congruence|]. eexists. split; [exact H2|].
    assert (forall o, fat_byte (bpb u) (byte_set (bpb u1) o2 b2 m2 (byte_set (bpb u) o1 b1 m1 V)) o =
      if decide (o = o2) then masked (fat_byte (bpb u) V o2) b2 m2 else if decide (o = o1) then masked (fat_byte (bpb u) V o1) b1 m1 else fat_byte (bpb u) V o) as F2.
    { intros o. pose proof (fat_byte_set (-1) u1 _ o2 b2 m2 o H1 ltac:(by rewrite Mb) ltac:(by rewrite Mb)) as F.
      rewrite Mb in F |- *. rewrite F, !F1. rewrite (decide_False (P := o2 = o1)); done. }
    destruct (K2 _ F2) as [K3 K4]. split; [split|].
    + intros j Hj Hji. rewrite !Er. by apply K3.
    + intros b Hb. rewrite Mb, byte_set_outside by done. by apply O1.
    + rewrite Er, K4. unfold stored_as. by rewrite Ht.
Qed.

Lemma write_fat12_holds u V i v :
  holds u V -> volume (bpb u) -> fat_type (bpb u) = UFAT_TYPE_FAT12 -> 0 <= i < num_clusters (bpb u) -> 0 <= v ->
  returns (write_fat12 i v) u (fat_failed u i V) (fun _ => fat_written u i v V).
Proof.
  intros H Hv Ht Hi Hpos. destruct (places12 u i Hv Ht Hi) as (E0 & E1 & E2 & B0 & B1).
  pose proof (half_odd i) as Hh. unfold write_fat12. rewrite E0, E1, E2, odd_land.
  assert (forall o, 0 <= o -> o <= i / 2 * 3 + 2 -> is_byte (fat_byte (bpb u) V o)) as Hy.
  { intros o Ho Hle. apply (fat_byte_ok (-1) u V o H Hv). lia. }
  destruct (Z.odd i) eqn:Eo.
  - apply two_bytes; try done; try lia.
    + intros W F j Hj Hne. pose proof (half_odd j) as Hhj. destruct (decide (j / 2 = i / 2)) as [Ej|Ej].
      * destruct (Z.odd j) eqn:Ejo; [lia|]. unfold raw12. rewrite Ejo, Ej, !F, decide_False, decide_True by lia.
        f_equal. f_equal. apply odd_keeps_even, Hy; lia.
      * apply raw12_ext. intros o Ho. rewrite F, decide_False by lia. done.
    + intros W F. split.
      * intros j Hj Hne. pose proof (half_odd j) as Hhj. destruct (decide (j / 2 = i / 2)) as [Ej|Ej].
        -- destruct (Z.odd j) eqn:Ejo; [lia|]. unfold raw12. rewrite Ejo, Ej, !F, !decide_False, decide_True by lia.
           f_equal. f_equal. apply odd_keeps_even, Hy; lia.
        -- apply raw12_ext. intros o Ho. rewrite F, !decide_False by lia. done.
      * unfold raw12. rewrite Eo, !F, (decide_True (P := i / 2 * 3 + 2 = i / 2 * 3 + 2)), (decide_False (P := i / 2 * 3 + 1 = i / 2 * 3 + 2)), decide_True by lia.
        apply odd_high; [done|apply Hy; lia..].
  - apply two_bytes; try done; try lia.
    + intros W F j Hj Hne. pose proof (half_odd j) as Hhj. destruct (decide (j / 2 = i / 2)) as [Ej|Ej].
      * destruct (Z.odd j) eqn:Ejo; [|lia]. unfold raw12. rewrite Ejo, Ej, !F, !decide_False by lia. done.
      * apply raw12_ext. intros o Ho. rewrite F, decide_False by lia. done.
    + intros W F. split.
      * intros j Hj Hne. pose proof (half_odd j) as Hhj. destruct (decide (j / 2 = i / 2)) as [Ej|Ej].
        -- destruct (Z.odd j) eqn:Ejo; [|lia]. unfold raw12. rewrite Ejo, Ej, !F.
           rewrite (decide_False (P := i / 2 * 3 + 2 = i / 2 * 3 + 1)), (decide_False (P := i / 2 * 3 + 2 = i / 2 * 3)), decide_True by lia.
           f_equal. apply even_keeps_odd, Hy; lia.
        -- apply raw12_ext. intros o Ho. rewrite F, !decide_False by lia. done.
      * unfold raw12. rewrite Eo, !F, (decide_False (P := i / 2 * 3 = i / 2 * 3 + 1)), (decide_True (P := i / 2 * 3 = i / 2 * 3)), decide_True by lia.
        apply even_low; [done|apply Hy; lia..].
Qed.

(** ufat_write_fat writes the entry of a cluster, and no other one. *)
Lemma write_fat_holds u V i v :
  holds u V -> volume (bpb u) -> 0 <= i < num_clusters (bpb u) -> 0 <= v ->
  returns (ufat_write_fat i v) u (fat_failed u i V) (fun _ => fat_written u i v V).
Proof.
  intros H Hv Hi Hpos. unfold ufat_write_fat. go_gets. destruct (Z.leb_spec (num_clusters (bpb u)) i); [lia|].
  destruct (volume_type _ Hv) as [E|[E|E]]; rewrite !E.
  - by apply write_fat12_holds.
  - change (UFAT_TYPE_FAT16 =? UFAT_TYPE_FAT12) with false. by apply write_fat16_holds.
  - change (UFAT_TYPE_FAT32 =? UFAT_TYPE_FAT12) with false. change (UFAT_TYPE_FAT32 =? UFAT_TYPE_FAT16) with false. by apply write_fat32_holds.
Qed.
End Table.
