(* ===== verification/UfatChain.v ===== *)
(** Chains of clusters: freeing one frees its clusters and no others, allocating one links
    free clusters; both end whatever the table holds. *)

From S2P Require Import Prelude UfatDev UfatCache UfatView UfatFat UfatTable.
#[local] Open Scope Z_scope.

Section Chain.
Context {D : Type} {BD : BlockDevice D} {DS : DeviceSpec D}.
Notation ufat := (ufat D).
Implicit Types (u : ufat) (V W : Z -> list Z) (p : ufat_bpb).

(** * Values that can be stored *)

(** The clusters that are ever allocated: FAT12 reads 0xff0 as an end of chain. *)
Definition usable p (c : Z) : Prop := 2 <= c < num_clusters p /\ ~ (fat_type p = UFAT_TYPE_FAT12 /\ c = 0xff0).

Definition storable p (v : Z) : Prop := v = UFAT_CLUSTER_FREE \/ v = UFAT_CLUSTER_EOC \/ usable p v.

Lemma storable_nonneg p v : storable p v -> 0 <= v.
Proof. unfold storable, usable, UFAT_CLUSTER_FREE, UFAT_CLUSTER_EOC. lia. Qed.

Lemma land_small v w : 0 <= v < 2 ^ w -> 0 <= w -> Z.land v (Z.ones w) = v.
Proof. intros Hv Hw. rewrite Z.land_ones by done. by apply Z.mod_small. Qed.

(** What is stored is read back. *)
Lemma entry_stored p v : volume p -> storable p v -> entry p (stored_as p v) = v.
Proof.
  intros Hv Hs. pose proof (volume_clusters p Hv) as Hc. unfold max_clusters in Hc. unfold entry, stored_as.
  destruct Hs as [->|[->|[Hu Hn]]]; [by repeat case_match|by repeat case_match|].
  destruct (Z.eqb_spec (fat_type p) UFAT_TYPE_FAT12) as [E|E].
  - change 0xfff with (Z.ones 12). rewrite land_small by lia. unfold entry12.
    destruct (Z.leb_spec 0xff8 v); [lia|]. destruct (Z.eqb_spec v 0xff0); [tauto|]. by destruct (Z.eqb_spec v 0xff7); [lia|].
  - destruct (Z.eqb_spec (fat_type p) UFAT_TYPE_FAT16).
    + change 0xffff with (Z.ones 16). rewrite land_small by lia. unfold entry16.
      destruct (Z.leb_spec 0xfff8 v); [lia|]. by destruct (Z.eqb_spec v 0xfff7); [lia|].
    + change UFAT_CLUSTER_MASK with (Z.ones 28). rewrite land_small by lia. unfold entry32.
      destruct (Z.leb_spec 0xffffff8 v); [lia|]. by destruct (Z.eqb_spec v 0xffffff7); [lia|].
Qed.

(** Nothing but the FAT differs. *)
Definition off_fat p V W : Prop := forall b, ~ in_fat p b -> W b = V b.

(** [W] is [V] with [v] in the entry of [i]. *)
Definition fat_upd p i v V W : Prop :=
  (forall j, 0 <= j < num_clusters p -> fat p W j = if decide (j = i) then v else fat p V j) /\ off_fat p V W.

Lemma written_upd u i v V u' : fat_written u i v V u' -> volume (bpb u) -> storable (bpb u) v ->
  meta u' = meta u /\ exists W, holds u' W /\ fat_upd (bpb u) i v V W.
Proof.
  intros (Hm & W & HW & [F1 F2] & Hr) Hv Hs. split; [done|]. exists W. split; [done|]. split; [|done].
  intros j Hj. unfold fat. case_decide as E; [subst; by rewrite Hr, entry_stored|by rewrite F1].
Qed.

(** What a chain of operations on the FAT keeps of the state. *)
Definition vol u : bool * ufat_bpb * Z := (dev u, bpb u, cache_size u).

Lemma meta_vol u u' : meta u' = meta u -> vol u' = vol u.
Proof. unfold meta, vol. congruence. Qed.

Lemma vol_bpb u u' : vol u' = vol u -> bpb u' = bpb u.
Proof. unfold vol. congruence. Qed.

(** * Freeing *)

Fixpoint chain p V (c : Z) (l : list Z) : Prop :=
  match l with
  | [] => UFAT_CLUSTER_IS_PTR c = false
  | x :: l => c = x /\ UFAT_CLUSTER_IS_PTR c = true /\ c < num_clusters p /\ chain p V (fat p V c) l
  end.

Lemma is_ptr_pos c : UFAT_CLUSTER_IS_PTR c = true -> 2 <= c.
Proof. unfold UFAT_CLUSTER_IS_PTR. rewrite andb_true_iff, Z.leb_le. tauto. Qed.

Lemma usable_ptr p c : volume p -> usable p c -> UFAT_CLUSTER_IS_PTR c = true.
Proof.
  intros Hv [Hc _]. pose proof (volume_clusters p Hv) as Hm. unfold max_clusters in Hm. unfold UFAT_CLUSTER_IS_PTR.
  apply andb_true_iff. rewrite Z.leb_le, Z.ltb_lt. repeat case_match; lia.
Qed.

Lemma chain_range p V l : forall c, chain p V c l -> Forall (fun x => 2 <= x < num_clusters p) l.
Proof.
  induction l as [|x l IH]; intros c H; [constructor|]. destruct H as (<- & Hp & Hn & Hl). constructor; [|by eapply IH].
  apply is_ptr_pos in Hp. lia.
Qed.

(** A chain depends on the entries of its clusters. *)
Lemma chain_ext p V W l : forall c, (forall x, x ∈ l -> fat p W x = fat p V x) -> chain p V c l -> chain p W c l.
Proof.
  induction l as [|x l IH]; intros c E H; [done|]. destruct H as (<- & Hp & Hn & Hl). split_and!; try done.
  rewrite E by by left. apply IH; [|done]. intros y Hy. apply E. by right.
Qed.

(** [W] is [V] with the clusters of [l] freed. *)
Definition freed p (l : list Z) V W : Prop :=
  (forall j, 0 <= j < num_clusters p -> fat p W j = if decide (j ∈ l) then UFAT_CLUSTER_FREE else fat p V j) /\ off_fat p V W.

(** An operation on the FAT that fails leaves all other blocks alone. *)
Definition fat_error u V (e : Z) u' : Prop := may_fail /\ e < 0 /\ vol u' = vol u /\ alloc_ptr u' = alloc_ptr u /\ exists W, holds u' W /\ off_fat (bpb u) V W.

Lemma free_loop_chain u0 V0 l : forall fuel c u V,
  holds u V -> volume (bpb u0) -> meta u = meta u0 -> off_fat (bpb u0) V0 V ->
  chain (bpb u0) V c l -> NoDup l -> (length l <= fuel)%nat ->
  returns (free_loop fuel c) u (fat_error u0 V0)
    (fun _ u' => meta u' = meta u0 /\ exists W, holds u' W /\ freed (bpb u0) l V W).
Proof.
  induction l as [|x l IH]; intros fuel c u V H Hv Hm Ho Hc Hd Hf.
  { assert (free_loop fuel c = ok tt) as ->. { destruct fuel; cbn [free_loop]; by rewrite Hc. }
    apply returns_ok. split; [done|]. exists V. split; [done|]. split; [|done]. intros j Hj. rewrite decide_False; [done|]. set_solver. }
  destruct Hc as (<- & Hp & Hn & Hl). apply NoDup_cons in Hd as [Hx Hd]. destruct fuel as [|fuel]; [cbn in Hf; lia|].
  cbn [free_loop]. rewrite Hp. pose proof (is_ptr_pos _ Hp) as Hc2. pose proof Hm as [= M1 M2 M3 M4].
  eapply returns_check; [apply (read_fat_holds u V c H); rewrite ?M2; (done || lia)| |].
  { intros e t (E1 & E2 & E3 & E4). split_and!; [done..|apply meta_vol; congruence|unfold meta in *; congruence|]. by exists V. }
  intros n1 u1 (Hm1 & H1 & ->). pose proof Hm1 as [= N1 N2 N3 N4].
  eapply returns_check; [apply (write_fat_holds u1 V c UFAT_CLUSTER_FREE H1); rewrite ?N2, ?M2; (done || lia)| |].
  { intros e t (E1 & E2 & E3 & W & HW & _ & E4). split_and!; [done..|apply meta_vol; congruence|unfold meta in *; congruence|].
    exists W. split; [done|]. intros b Hb. rewrite E4 by (rewrite N2, M2; done). by apply Ho. }
  intros [] u2 Hw. apply written_upd in Hw as (Hm2 & W & HW & Hu & Hou); [|by rewrite N2, M2|by left]. rewrite N2, M2 in Hu, Hou. rewrite M2.
  eapply returns_mono; [apply (IH fuel _ u2 W HW Hv); [congruence|intros b Hb; rewrite Hou by done; by apply Ho| |done|cbn in Hf; lia]|done|].
  - eapply chain_ext; [|exact Hl]. intros y Hy. pose proof (chain_range _ _ _ _ Hl) as Hr. rewrite Forall_forall in Hr. specialize (Hr y Hy).
    rewrite Hu by lia. rewrite decide_False; [done|]. by intros ->.
  - intros _ u3 (Hm3 & W3 & H3 & [F1 F2]). split; [done|]. exists W3. split; [done|]. split.
    + intros j Hj. rewrite F1, Hu by done. repeat case_decide; set_solver.
    + intros b Hb. rewrite F2 by done. by apply Hou.
Qed.

Lemma chain_length p V c l : volume p -> chain p V c l -> NoDup l -> (length l <= Z.to_nat (num_clusters p))%nat.
Proof.
  intros Hv Hc Hd. pose proof (chain_range _ _ _ _ Hc) as Hr. pose proof (volume_clusters p Hv).
  assert (l ⊆+ seqZ 0 (num_clusters p)) as Hs.
  { apply NoDup_submseteq; [done|]. intros x Hx. apply elem_of_seqZ. rewrite Forall_forall in Hr. specialize (Hr x Hx). lia. }
  apply submseteq_length in Hs. rewrite length_seqZ in Hs. lia.
Qed.

Lemma free_chain_holds u V c l :
  holds u V -> volume (bpb u) -> chain (bpb u) V c l -> NoDup l ->
  returns (ufat_free_chain c) u (fat_error u V) (fun _ u' => meta u' = meta u /\ exists W, holds u' W /\ freed (bpb u) l V W).
Proof.
  intros H Hv Hc Hd. unfold ufat_free_chain. go_gets. apply free_loop_chain; try done. by eapply chain_length.
Qed.

(** * Freeing ends, whatever the table holds *)

Definition busy p V : list Z := filter (fun j => fat p V j <> UFAT_CLUSTER_FREE) (seqZ 2 (num_clusters p - 2)).

Lemma elem_of_busy p V j : j ∈ busy p V <-> fat p V j <> UFAT_CLUSTER_FREE /\ 2 <= j < num_clusters p.
Proof. unfold busy. rewrite list_elem_of_filter, elem_of_seqZ. split; intros []; split; try done; lia. Qed.

Lemma NoDup_busy p V : NoDup (busy p V).
Proof. apply NoDup_filter, NoDup_seqZ. Qed.

Lemma busy_bound p V : 2 <= num_clusters p -> (length (busy p V) < Z.to_nat (num_clusters p))%nat.
Proof.
  intros H. unfold busy. pose proof (length_filter (fun j => fat p V j <> UFAT_CLUSTER_FREE) (seqZ 2 (num_clusters p - 2))) as L.
  rewrite length_seqZ in L. lia.
Qed.

Lemma busy_freed p c V W : fat_upd p c UFAT_CLUSTER_FREE V W -> c ∈ busy p V -> (length (busy p W) < length (busy p V))%nat.
Proof.
  intros [Hu _] Hc. assert (c :: busy p W ⊆+ busy p V) as Hs.
  { apply NoDup_submseteq.
    - apply NoDup_cons. split; [|apply NoDup_busy]. rewrite elem_of_busy. intros [N R]. rewrite Hu, decide_True in N by (done || lia). done.
    - intros x Hx. apply elem_of_cons in Hx as [->|Hx]; [done|]. apply elem_of_busy in Hx as [N R]. apply elem_of_busy.
      rewrite Hu in N by lia. case_decide; [done|]. by split. }
  apply submseteq_length in Hs. cbn [length] in Hs. lia.
Qed.

Definition only_freed p V W : Prop :=
  (forall j, 0 <= j < num_clusters p -> fat p W j = fat p V j \/ fat p W j = UFAT_CLUSTER_FREE) /\ off_fat p V W.

Lemma only_freed_trans p V W X : only_freed p V W -> only_freed p W X -> only_freed p V X.
Proof.
  intros [A1 A2] [B1 B2]. split; [|intros b Hb; by rewrite B2, A2]. intros j Hj.
  destruct (B1 j Hj) as [->| ->]; [by apply A1|by right].
Qed.

(** From any cluster on the loop returns, having done nothing but freeing. *)
Lemma free_loop_any p fuel : forall c u V,
  holds u V -> volume p -> bpb u = p -> 0 <= c -> (length (busy p V) < fuel)%nat ->
  returns (free_loop fuel c) u
    (fun e u' => (may_fail \/ e = - UFAT_ERR_INVALID_CLUSTER) /\ vol u' = vol u /\ alloc_ptr u' = alloc_ptr u /\ exists W, holds u' W /\ off_fat p V W)
    (fun _ u' => meta u' = meta u /\ exists W, holds u' W /\ only_freed p V W).
Proof.
  induction fuel as [|fuel IH]; intros c u V H Hv Hp Hc0 Hb; [lia|]. cbn [free_loop].
  destruct (UFAT_CLUSTER_IS_PTR c) eqn:Ec.
  2: { apply returns_ok. split; [done|]. exists V. split; [done|]. split; [by left|done]. }
  pose proof (is_ptr_pos _ Ec) as Hc2. destruct (Z.leb_spec (num_clusters p) c) as [Hn|Hn].
  { unfold returns, check. eapply wp_go; [apply read_fat_outside; by rewrite Hp|]. apply wp_ret. split_and!; [by right|done..|by exists V]. }
  eapply returns_check; [apply (read_fat_holds u V c H); rewrite ?Hp; (done || lia)| |].
  { intros e t (E1 & E2 & E3 & E4). pose proof E4 as [= _ _ _ E5]. split_and!; [by left|by apply meta_vol|done|by exists V]. }
  intros n1 u1 (Hm1 & H1 & ->). pose proof Hm1 as [= N1 N2 N3 N4].
  eapply returns_check; [apply (write_fat_holds u1 V c UFAT_CLUSTER_FREE H1); rewrite ?N2, ?Hp; (done || lia)| |].
  { intros e t (E1 & E2 & E3 & W & HW & _ & E4). split_and!; [by left|apply meta_vol; congruence|unfold meta in *; congruence|]. exists W. split; [done|]. by rewrite N2, Hp in E4. }
  intros [] u2 Hw. apply written_upd in Hw as (Hm2 & W & HW & Hu); [|by rewrite N2, Hp|by left]. rewrite N2, Hp in *.
  assert (only_freed p V W) as Hof. { split; [|apply Hu]. intros j Hj. rewrite (proj1 Hu) by done. case_decide; [by right|by left]. }
  assert (meta u2 = meta u) as Hm3 by congruence. pose proof Hm3 as [= K1 K2 K3 K4].
  destruct (decide (fat p V c = UFAT_CLUSTER_FREE)) as [Ef|Ef].
  { rewrite Ef. assert (free_loop fuel UFAT_CLUSTER_FREE = ok tt) as -> by (by destruct fuel). apply returns_ok. split; [done|]. by exists W. }
  eapply returns_mono; [apply (IH (fat p V c) u2 W HW Hv); [congruence| |]| |].
  - subst p. apply fat_nonneg; (done || lia).
  - pose proof (busy_freed p c V W Hu). rewrite elem_of_busy in H0. specialize (H0 ltac:(split; [done|lia])). lia.
  - intros e t (E1 & E2 & E3 & W2 & H2 & E4). split_and!; [done|rewrite E2; by apply meta_vol|congruence|]. exists W2. split; [done|].
    intros b Hb2. rewrite E4 by done. by apply Hof.
  - intros _ t (E1 & W2 & H2 & E4). split; [congruence|]. exists W2. split; [done|]. by eapply only_freed_trans.
Qed.

Lemma free_chain_any u V c :
  holds u V -> volume (bpb u) -> 0 <= c ->
  returns (ufat_free_chain c) u
    (fun e u' => (may_fail \/ e = - UFAT_ERR_INVALID_CLUSTER) /\ vol u' = vol u /\ alloc_ptr u' = alloc_ptr u /\ exists W, holds u' W /\ off_fat (bpb u) V W)
    (fun _ u' => meta u' = meta u /\ exists W, holds u' W /\ only_freed (bpb u) V W).
Proof.
  intros H Hv Hc. unfold ufat_free_chain. go_gets. apply free_loop_any; try done. apply busy_bound, (volume_clusters _ Hv).
Qed.

(** * Allocating *)

(** The place where the search for free clusters goes on. *)
Definition alloc_ok u : Prop := 0 <= alloc_ptr u /\ (2 < num_clusters (bpb u) -> alloc_ptr u < num_clusters (bpb u) - 2).

Lemma upd_trans_off p V W X : off_fat p V W -> off_fat p W X -> off_fat p V X.
Proof. intros A B b Hb. by rewrite B, A. Qed.

Lemma holds_alloc_ptr x u V a : holds_but x u V -> holds_but x (set_alloc_ptr a u) V.
Proof. by apply holds_alike. Qed.

(** The cluster that is looked at [k] steps after the pointer [a]. *)
Definition nth_cluster p (a k : Z) : Z := (a + k) mod (num_clusters p - 2) + 2.

Lemma nth_cluster_range p a k : 2 < num_clusters p -> 2 <= nth_cluster p a k < num_clusters p.
Proof. intros H. unfold nth_cluster. pose proof (Z.mod_pos_bound (a + k) (num_clusters p - 2)). lia. Qed.

(** All clusters are looked at. *)
Lemma nth_cluster_all p a c : 2 <= c < num_clusters p -> exists k, 0 <= k < num_clusters p - 2 /\ nth_cluster p a k = c.
Proof.
  intros Hc. set (t := num_clusters p - 2). exists ((c - 2 - a) mod t).
  pose proof (Z.mod_pos_bound (c - 2 - a) t ltac:(lia)). split; [done|]. unfold nth_cluster. fold t.
  rewrite Zplus_mod_idemp_r. replace (a + (c - 2 - a)) with (c - 2) by lia. rewrite Z.mod_small by lia. lia.
Qed.

(** What an allocation does: a usable cluster that was free gets [tail]. *)
Definition allocated u V (tail idx : Z) u' : Prop :=
  vol u' = vol u /\ alloc_ok u' /\ usable (bpb u) idx /\ fat (bpb u) V idx = UFAT_CLUSTER_FREE /\
  exists W, holds u' W /\ fat_upd (bpb u) idx tail V W.

(** No usable cluster is free, or the device failed. *)
Definition none_free p V : Prop := forall c, usable p c -> fat p V c <> UFAT_CLUSTER_FREE \/ may_fail.

Definition alloc_error u V (e : Z) u' : Prop :=
  vol u' = vol u /\ alloc_ok u' /\ e < 0 /\
  (e = - UFAT_ERR_NO_CLUSTERS /\ none_free (bpb u) V /\ holds u' V \/ may_fail /\ exists W, holds u' W /\ off_fat (bpb u) V W).

Lemma alloc_loop_runs u0 V tail n : forall u k,
  holds u V -> volume (bpb u0) -> 2 < num_clusters (bpb u0) -> alloc_ok u0 -> storable (bpb u0) tail -> vol u = vol u0 ->
  0 <= k -> k + Z.of_nat n = num_clusters (bpb u0) - 2 ->
  alloc_ptr u = (alloc_ptr u0 + k) mod (num_clusters (bpb u0) - 2) ->
  (forall i, 0 <= i < k -> usable (bpb u0) (nth_cluster (bpb u0) (alloc_ptr u0) i) ->
    fat (bpb u0) V (nth_cluster (bpb u0) (alloc_ptr u0) i) <> UFAT_CLUSTER_FREE \/ may_fail) ->
  returns (alloc_loop n (num_clusters (bpb u0) - 2) tail) u (alloc_error u0 V) (allocated u0 V tail).
Proof.
  induction n as [|n IH]; intros u k H Hv Ht Ha0 Hst Hvo Hk Hn Ha Hno; cbn [alloc_loop]; pose proof (vol_bpb _ _ Hvo) as Hb.
  { apply returns_err. split_and!; [done| |done|].
    - unfold alloc_ok. rewrite Hb, Ha. pose proof (Z.mod_pos_bound (alloc_ptr u0 + k) (num_clusters (bpb u0) - 2)). lia.
    - left. split_and!; [done| |done]. intros c Hc. destruct (nth_cluster_all (bpb u0) (alloc_ptr u0) c (proj1 Hc)) as (i & Hi & <-).
      apply Hno; [lia|done]. }
  pose proof (volume_clusters _ Hv) as Hmax. assert (num_clusters (bpb u0) < 2 ^ 31) as Hsmall by (unfold max_clusters in Hmax; repeat case_match; lia).
  set (t := num_clusters (bpb u0) - 2) in *. pose proof (Z.mod_pos_bound (alloc_ptr u0 + k) t ltac:(lia)) as Hmod.
  go_gets. rewrite !u32_id by lia. go_gets. go_gets. cbn [bpb set_alloc_ptr]. rewrite Hb.
  assert (alloc_ptr u + 2 = nth_cluster (bpb u0) (alloc_ptr u0) k) as Hidx by (unfold nth_cluster; fold t; lia).
  rewrite Hidx. set (idx := nth_cluster _ _ k) in *. set (u1 := set_alloc_ptr _ u).
  pose proof (nth_cluster_range (bpb u0) (alloc_ptr u0) k Ht) as Hr. fold idx in Hr.
  assert (holds u1 V) as H1 by by apply holds_alloc_ptr. assert (vol u1 = vol u0) as Hv1 by done. assert (bpb u1 = bpb u0) as Hb1 by done.
  assert (alloc_ptr u1 = (alloc_ptr u0 + (k + 1)) mod t) as Ha1.
  { unfold u1. cbn [alloc_ptr set_alloc_ptr]. rewrite Ha, Zplus_mod_idemp_l. f_equal. lia. }
  assert (forall u2, holds u2 V -> vol u2 = vol u0 -> alloc_ptr u2 = alloc_ptr u1 -> (usable (bpb u0) idx -> fat (bpb u0) V idx <> UFAT_CLUSTER_FREE \/ may_fail) ->
    returns (alloc_loop n t tail) u2 (alloc_error u0 V) (allocated u0 V tail)) as Hgo.
  { intros u2 H2 V2 A2 N2. apply (IH u2 (k + 1)); try done; try lia. intros i Hi. destruct (decide (i = k)) as [->|]; [exact N2|apply Hno; lia]. }
  destruct ((idx =? 0xff0) && (fat_type (bpb u0) =? UFAT_TYPE_FAT12)) eqn:E12.
  { apply andb_true_iff in E12 as [E1 E2]. apply Z.eqb_eq in E1, E2. apply Hgo; try done. intros [_ Hnu]. by destruct Hnu. }
  apply returns_bind. eapply wp_mono; [apply (read_fat_holds u1 V idx H1); rewrite ?Hb1; (done || lia)|]. intros [e|c] u2.
  - intros (F1 & F2 & F3 & F4). apply Hgo; [done|etransitivity; [by apply meta_vol|done]|unfold meta in F4; congruence|by right].
  - intros (Hm2 & H2 & ->). rewrite Hb1. pose proof Hm2 as [= M1 M2 M3 M4]. destruct (Z.eqb_spec (fat (bpb u0) V idx) UFAT_CLUSTER_FREE) as [Ef|Ef].
    + assert (usable (bpb u0) idx) as Hus. { split; [done|]. intros [E1 E2]. by rewrite E1, E2 in E12. }
      assert (alloc_ok u2) as Hok2. { unfold alloc_ok. rewrite M2, Hb, M4. fold t. pose proof (Z.mod_pos_bound (alloc_ptr u + 1) t ltac:(lia)). lia. }
      assert (vol u2 = vol u0) as Hvo2 by (rewrite (meta_vol _ _ Hm2); done).
      eapply returns_check; [apply (write_fat_holds u2 V idx tail H2); rewrite ?M2, ?Hb; (done || lia || by eapply storable_nonneg)| |].
      * intros e u3 (F1 & F2 & F3 & W & HW & _ & F4). pose proof F3 as [= L1 L2 L3 L4]. split_and!; [by rewrite (meta_vol _ _ F3)| |done|].
        -- unfold alloc_ok in *. by rewrite L2, L4.
        -- right. split; [done|]. exists W. split; [done|]. by rewrite M2, Hb in F4.
      * intros [] u3 Hw. apply written_upd in Hw as (Hm3 & W & HW & Hu); [|by rewrite M2, Hb..]. apply returns_ok. pose proof Hm3 as [= L1 L2 L3 L4].
        split_and!; [by rewrite (meta_vol _ _ Hm3)| |done..|]. { unfold alloc_ok in *. by rewrite L2, L4. }
        exists W. split; [done|]. by rewrite M2, Hb in Hu.
    + apply Hgo; [done|by rewrite (meta_vol _ _ Hm2)|done|by left].
Qed.

Lemma alloc_cluster_holds u V tail :
  holds u V -> volume (bpb u) -> alloc_ok u -> storable (bpb u) tail ->
  returns (alloc_cluster tail) u (alloc_error u V) (allocated u V tail).
Proof.
  intros H Hv Ha Hs. unfold alloc_cluster. go_gets. pose proof (volume_clusters _ Hv) as Hmax.
  assert (num_clusters (bpb u) < 2 ^ 31) as Hsmall by (unfold max_clusters in Hmax; repeat case_match; lia). rewrite u32_id by lia.
  destruct (decide (num_clusters (bpb u) = 2)) as [E|E].
  - rewrite E. apply returns_err. split_and!; try done. left. split_and!; try done. intros c [Hc _]. lia.
  - pose proof Ha as [Ha1 Ha2]. apply (alloc_loop_runs u V tail _ u 0); try done; try lia. rewrite Z.add_0_r, Z.mod_small by lia. done.
Qed.

(** The clusters of [l] lead from [c] to [e]. *)
Fixpoint seg p V (c : Z) (l : list Z) (e : Z) : Prop :=
  match l with
  | [] => c = e
  | x :: l => c = x /\ UFAT_CLUSTER_IS_PTR c = true /\ c < num_clusters p /\ seg p V (fat p V c) l e
  end.

Lemma seg_chain p V l e : UFAT_CLUSTER_IS_PTR e = false -> forall c, seg p V c l e -> chain p V c l.
Proof. intros He. induction l as [|x l IH]; intros c H; [by cbn in *; subst|]. destruct H as (? & ? & ? & ?). split_and!; eauto. Qed.

Lemma seg_ext p V W l e : forall c, (forall x, x ∈ l -> fat p W x = fat p V x) -> seg p V c l e -> seg p W c l e.
Proof.
  induction l as [|x l IH]; intros c E H; [done|]. destruct H as (<- & Hp & Hn & Hl). split_and!; try done.
  rewrite E by by left. apply IH; [|done]. intros y Hy. apply E. by right.
Qed.

(** No cluster of a chain that ends properly is free. *)
Lemma seg_busy p V l : forall c x, seg p V c l UFAT_CLUSTER_EOC -> x ∈ l -> fat p V x <> UFAT_CLUSTER_FREE.
Proof.
  induction l as [|y l IH]; intros c x H Hx; [by apply not_elem_of_nil in Hx|]. destruct H as (<- & Hp & Hn & Hl).
  apply elem_of_cons in Hx as [->|Hx]; [|by eapply IH]. intros E. rewrite E in Hl. destruct l; [done|]. by destruct Hl as (_ & ? & _).
Qed.

Lemma seg_range p V l e : forall c, seg p V c l e -> Forall (fun x => 2 <= x < num_clusters p) l.
Proof.
  induction l as [|x l IH]; intros c H; [constructor|]. destruct H as (<- & Hp & Hn & Hl). constructor; [|by eapply IH].
  apply is_ptr_pos in Hp. lia.
Qed.

(** [W] is [V] with the clusters of [l], free and usable before, linked into a chain from [c] on. *)
Definition linked p V (c : Z) (l : list Z) W : Prop :=
  seg p W c l UFAT_CLUSTER_EOC /\ NoDup l /\ (forall x, x ∈ l -> usable p x /\ fat p V x = UFAT_CLUSTER_FREE) /\
  (forall j, 0 <= j < num_clusters p -> j ∉ l -> fat p W j = fat p V j) /\ off_fat p V W.

Lemma linked_storable p V c l W : linked p V c l W -> storable p c.
Proof.
  intros (Hc & _ & Hl & _). destruct l as [|x l]; [cbn in Hc; subst; by right; left|]. destruct Hc as (-> & _). right; right. apply Hl. by left.
Qed.

(** What a failed allocation of a chain leaves: the table as it was, unless the device failed. *)
Definition chain_error u V (n : nat) (e : Z) u' : Prop :=
  vol u' = vol u /\ alloc_ok u' /\ e < 0 /\ exists W, holds u' W /\ off_fat (bpb u) V W /\
  (may_fail \/ e = - UFAT_ERR_NO_CLUSTERS /\ (forall j, 0 <= j < num_clusters (bpb u) -> fat (bpb u) W j = fat (bpb u) V j) /\
    exists l, (length l < n)%nat /\ forall c, usable (bpb u) c -> fat (bpb u) V c = UFAT_CLUSTER_FREE -> c ∈ l \/ may_fail).

Definition chain_allocated u V (n : nat) (c : Z) u' : Prop :=
  vol u' = vol u /\ alloc_ok u' /\ exists W l, holds u' W /\ length l = n /\ linked (bpb u) V c l W.

Lemma linked_cons p V c l W idx X : linked p V c l W -> usable p idx -> fat p W idx = UFAT_CLUSTER_FREE -> volume p ->
  fat_upd p idx c W X -> linked p V idx (idx :: l) X.
Proof.
  intros (Hc & Hd & Hl & Ho & Hf) Hu Hfree Hv [HX HXo]. pose proof (proj1 Hu) as Hr.
  assert (idx ∉ l) as Hn by (intros Hi; by apply (seg_busy _ _ _ _ _ Hc Hi)). split_and!.
  - split; [done|]. split; [by eapply usable_ptr|]. split; [apply Hr|]. rewrite HX, decide_True by (done || lia).
    eapply seg_ext; [|exact Hc]. intros x Hx. pose proof (seg_range _ _ _ _ _ Hc) as Hrs. rewrite Forall_forall in Hrs. specialize (Hrs x Hx).
    rewrite HX by lia. rewrite decide_False; [done|]. by intros ->.
  - by apply NoDup_cons.
  - intros x Hx. apply elem_of_cons in Hx as [->|Hx]; [|by apply Hl]. split; [done|]. rewrite <- Ho by (done || lia). done.
  - intros j Hj Hjl. apply not_elem_of_cons in Hjl as [Hji Hjl]. rewrite HX by done. rewrite decide_False by done. by apply Ho.
  - by eapply upd_trans_off.
Qed.

(** Freeing the chain brings the table back. *)
Lemma linked_freed p V c l W X : linked p V c l W -> freed p l W X ->
  (forall j, 0 <= j < num_clusters p -> fat p X j = fat p V j) /\ off_fat p V X.
Proof.
  intros (Hc & Hd & Hl & Ho & Hf) [HX HXo]. split; [|by eapply upd_trans_off]. intros j Hj. rewrite HX by done. case_decide as E.
  - symmetry. by apply Hl.
  - by apply Ho.
Qed.

Lemma alloc_chain_loop_runs u0 V0 count : forall u V chain l,
  holds u V -> volume (bpb u0) -> vol u = vol u0 -> alloc_ok u -> linked (bpb u0) V0 chain l V ->
  returns (alloc_chain_loop count chain) u (chain_error u0 V0 (length l + count)) (chain_allocated u0 V0 (length l + count)).
Proof.
  induction count as [|count IH]; intros u V ch l H Hv Hvo Ha Hl; cbn [alloc_chain_loop]; pose proof (vol_bpb _ _ Hvo) as Hb.
  { apply returns_ok. split_and!; [done..|]. exists V, l. split_and!; [done|lia|done]. }
  apply returns_bind. eapply wp_mono; [apply (alloc_cluster_holds u V ch H); [by rewrite Hb|done|rewrite Hb; by eapply linked_storable]|].
  intros [e|c] u1.
  - intros (Hvo1 & Ha1 & He & Hor). pose proof (vol_bpb _ _ Hvo1) as Hb1. destruct Hor as [(-> & Hno & H1)|(Hf & W & HW & Ho)].
    + apply returns_bind. pose proof Hl as (Hseg & Hd & Hls & _).
      eapply wp_mono; [apply (free_chain_holds u1 V ch l H1); [by rewrite Hb1, Hb|rewrite Hb1, Hb; by apply (seg_chain _ _ _ UFAT_CLUSTER_EOC)|done]|].
      assert (forall c, usable (bpb u0) c -> fat (bpb u0) V0 c = UFAT_CLUSTER_FREE -> c ∈ l \/ may_fail) as Hall.
      { intros c Hc Hfree. destruct (decide (c ∈ l)) as [|Hcl]; [by left|right]. rewrite Hb in Hno. destruct (Hno c Hc) as [N|]; [|done].
        exfalso. apply N. rewrite <- Hfree. apply Hl; [destruct Hc; lia|done]. }
      intros [e|[]] u2.
      * intros (F1 & F2 & F3 & F4 & W & HW & F5). apply returns_err. pose proof (vol_bpb _ _ F3) as Hb2. split_and!; [congruence| |done|].
        { unfold alloc_ok in *. by rewrite Hb2, F4. }
        exists W. split; [done|]. split; [|by left]. rewrite Hb1, Hb in F5. eapply upd_trans_off; [apply Hl|done].
      * intros (F3 & W & HW & F5). rewrite Hb1, Hb in F5. apply returns_err. destruct (linked_freed _ _ _ _ _ _ Hl F5) as [G1 G2].
        pose proof F3 as [= L1 L2 L3 L4]. split_and!; [by rewrite (meta_vol _ _ F3), Hvo1| |done|].
        { unfold alloc_ok in *. by rewrite L2, L4. }
        exists W. split; [done|]. split; [done|].
        right. split_and!; [done|done|]. exists l. split; [lia|done].
    + apply returns_bind. rewrite Hb in Ho. pose proof (storable_nonneg _ _ (linked_storable _ _ _ _ _ Hl)) as Hch.
      eapply wp_mono; [apply (free_chain_any u1 W ch HW); [by rewrite Hb1, Hb|done]|].
      assert (off_fat (bpb u0) V0 W) as Ho0 by (eapply upd_trans_off; [apply Hl|done]).
      assert (forall u2 X, holds u2 X -> vol u2 = vol u1 -> alloc_ok u2 -> off_fat (bpb u1) W X -> chain_error u0 V0 (length l + S count) e u2) as Hend.
      { intros u2 X H2 V2 A2 O2. rewrite Hb1, Hb in O2. split_and!; [congruence|done|done|]. exists X. split; [done|].
        split; [by eapply upd_trans_off|by left]. }
      intros [e'|[]] u2; [intros (_ & F2 & F4 & X & HX & F5)|intros (F3 & X & HX & F5)]; apply returns_err.
      * pose proof (vol_bpb _ _ F2) as Hb2. eapply Hend; try done. unfold alloc_ok in *. by rewrite Hb2, F4.
      * pose proof F3 as [= L1 L2 L3 L4]. eapply Hend; [done|by apply meta_vol| |apply F5]. unfold alloc_ok in *. by rewrite L2, L4.
  - intros (Hvo1 & Ha1 & Hus & Hfree & W & HW & Hu). rewrite Hb in *.
    eapply returns_mono; [apply (IH u1 W c (c :: l)); try done; [congruence|by eapply linked_cons]|..]; cbn [length]; intros ??; by rewrite Nat.add_succ_r.
Qed.

Lemma alloc_chain_holds u V count :
  holds u V -> volume (bpb u) -> alloc_ok u ->
  returns (ufat_alloc_chain count) u (chain_error u V count) (chain_allocated u V count).
Proof.
  intros H Hv Ha. apply (alloc_chain_loop_runs u V count u V UFAT_CLUSTER_EOC []); try done. split_and!; try done.
  - constructor.
  - intros x Hx. by apply not_elem_of_nil in Hx.
Qed.
End Chain.
