(* ===== verification/UfatBlock.v ===== *)
(** The block device of the shell, common/block.c: the blocks are kept in the file test.fat32. *)

From S2P Require Import Prelude UfatDev UfatCache UfatView.
#[local] Open Scope Z_scope.

(** Where fseek goes: an offset that is negative as a long is refused, and the file stays at its beginning. *)
Definition file_offset (start log2 : Z) : nat :=
  let o := u64 (Z.shiftl start log2) in if o <? 2 ^ 63 then Z.to_nat o else 0%nat.

(** fread stores what the file has, fwrite makes the file longer where needed; both results are
    ignored, and the functions always return 0.  The file is there. *)
Definition read_sector (log2 start count : Z) (buffer : list Z) (file : list Z) : Z * list Z * list Z :=
  let n := Z.to_nat (Z.shiftl 1 log2 * count) in
  (0, put 0 (sub (file_offset start log2) n file) buffer, file).

Definition write_sector (log2 start count : Z) (buffer : list Z) (file : list Z) : Z * list Z :=
  let n := Z.to_nat (Z.shiftl 1 log2 * count) in
  let o := file_offset start log2 in
  (0, put o (take n buffer) (file ++ replicate (o + n - length file) 0)).

(** [ufat_dev] of vfat.c *)
#[export] Instance ufat_dev : BlockDevice (list Z) := {|
  log2_block_size := 9;
  dev_read := read_sector 9;
  dev_write := write_sector 9
|}.

Lemma block_size_512 : @block_size _ ufat_dev = 512%nat.
Proof. reflexivity. Qed.

Section FileDevice.
Context (nblk : nat).

Definition file_ok (file : list Z) : Prop :=
  length file = (nblk * 512)%nat /\ Forall is_byte file /\ Z.of_nat nblk < 2 ^ 32.

Definition file_block (file : list Z) (b : Z) : list Z := sub (Z.to_nat b * 512) 512 file.

Lemma file_offset_small b : 0 <= b < 2 ^ 32 -> file_offset b 9 = (Z.to_nat b * 512)%nat.
Proof.
  intros Hb. unfold file_offset. rewrite Z.shiftl_mul_pow2 by lia. change (2 ^ 9) with 512. rewrite u64_id by lia.
  rewrite (proj2 (Z.ltb_lt _ _)) by lia. rewrite Z2Nat.inj_mul by lia. done.
Qed.

Lemma blocks_bytes (n : nat) : Z.to_nat (Z.shiftl 1 9 * Z.of_nat n) = (n * 512)%nat.
Proof. change (Z.shiftl 1 9) with 512. lia. Qed.

Lemma file_read b (n : nat) old file rc data file' :
  file_ok file -> 0 <= b -> b + Z.of_nat n <= Z.of_nat nblk -> length old = (n * 512)%nat ->
  read_sector 9 b (Z.of_nat n) old file = (rc, data, file') -> rc = 0 /\ file' = file /\ data = sub (Z.to_nat b * 512) (n * 512) file.
Proof.
  intros (Hl & Hy & Hs) Hb Hn Ho. unfold read_sector. rewrite blocks_bytes, file_offset_small by lia. intros [= <- <- <-].
  split_and!; try done. unfold put. rewrite length_sub by nia. rewrite Nat.add_0_l. cbn [take app].
  rewrite (drop_ge old) by lia. by rewrite app_nil_r.
Qed.

Lemma file_write b (n : nat) data file rc file' :
  file_ok file -> 0 <= b -> b + Z.of_nat n <= Z.of_nat nblk -> length data = (n * 512)%nat ->
  write_sector 9 b (Z.of_nat n) data file = (rc, file') -> rc = 0 /\ file' = put (Z.to_nat b * 512) data file.
Proof.
  intros (Hl & Hy & Hs) Hb Hn Ho. unfold write_sector. rewrite blocks_bytes, file_offset_small by lia. intros [= <- <-].
  split; [done|]. rewrite take_ge by lia. rewrite (proj2 (Nat.sub_0_le _ _)) by nia. cbn [replicate]. by rewrite app_nil_r.
Qed.

Lemma inside b (n : nat) : (0 < n)%nat -> (forall i, (i < n)%nat -> 0 <= b + Z.of_nat i < Z.of_nat nblk /\ b + Z.of_nat i < 2 ^ 32) ->
  0 <= b /\ b + Z.of_nat n <= Z.of_nat nblk.
Proof. intros Hp Hn. destruct (Hn 0%nat ltac:(lia)) as [H0 _]. destruct (Hn (n - 1)%nat ltac:(lia)) as [H1 _]. lia. Qed.

(** The file is a device that never fails. *)
#[export, refine] Instance file_spec : DeviceSpec (list Z) := {|
  may_fail := False;
  dev_has b := 0 <= b < Z.of_nat nblk /\ b < 2 ^ 32;
  dev_ok := file_ok;
  dev_block := file_block
|}.
Proof.
  - cbn. lia.
  - intros b [H1 H2]. lia.
  - intros d b (Hl & Hy & Hs) [Hb _]. rewrite block_size_512. split; [apply length_sub; nia|by apply Forall_sub].
  - intros b n old d rc data d' Hd Hpos Hn Ho _. rewrite block_size_512 in *. cbn [dev_read ufat_dev]. intros E.
    destruct (inside b n Hpos Hn) as [Hb0 Hb1]. destruct (file_read b n old d rc data d') as (-> & -> & ->); try done. pose proof Hd as (Hl & Hy & Hs).
    split_and!; try done; [rewrite length_sub; nia|by apply Forall_sub|]. change (0 <? 0) with false. cbv iota. intros i Hi. unfold file_block.
    rewrite sub_sub by nia. f_equal. nia.
  - intros b n data d rc d' Hd Hpos Hn Ho Hy. rewrite block_size_512 in *. cbn [dev_write ufat_dev]. intros E.
    destruct (inside b n Hpos Hn) as [Hb0 Hb1]. destruct (file_write b n data d rc d') as (-> & ->); try done. pose proof Hd as (Hl & Hyd & Hs). split_and!.
    + split_and!; [rewrite length_put; nia|by apply Forall_put|done].
    + intros b' [Hb' _] Hne. apply sub_put_other; nia.
    + change (0 <? 0) with false. cbv iota. intros i Hi. unfold file_block.
      replace (Z.to_nat (b + Z.of_nat i) * 512)%nat with (Z.to_nat b * 512 + i * 512)%nat by lia.
      rewrite <- (sub_sub (i * 512) 512 (Z.to_nat b * 512) (n * 512)) by nia. by rewrite sub_put_same by nia.
Defined.
End FileDevice.
