(* ===== verification/UfatBpb.v ===== *)
(** Opening a file system: the BIOS parameter block of its first block, ufat_open of ufat.c. *)

From S2P Require Import Prelude UfatDev UfatCache.
#[local] Open Scope Z_scope.

Definition UFAT_DIRENT_SIZE : Z := 32.
Definition UFAT_MAX_FAT12 : Z := 0xff6.

(** The logarithm of a power of two; an unsigned int has 32 bits. *)
Fixpoint log2_loop (fuel : nat) (e count : Z) : option Z :=
  if 1 <? e then
    match fuel with
    | O => None
    | S fuel => if negb (Z.land e 1 =? 0) then None else log2_loop fuel (Z.shiftr e 1) (count + 1)
    end
  else Some count.

Definition log2_exact (e : Z) : option Z := if e =? 0 then None else log2_loop 32 e 0.

(** The sizes in blocks: shift in blocks per cluster, reserved, FAT and root directory blocks. *)
Definition to_blocks (log2_bytes_per_block log2_bytes_per_sector log2_sectors_per_cluster : Z)
    (reserved sectors_per_fat root_sectors : Z) : option (Z * Z * Z * Z) :=
  if log2_bytes_per_sector <? log2_bytes_per_block then
    let shift := log2_bytes_per_block - log2_bytes_per_sector in
    if log2_sectors_per_cluster <? shift then None
    else if negb (Z.land (Z.lor (Z.lor reserved sectors_per_fat) root_sectors) (Z.shiftl 1 shift - 1) =? 0) then None
    else Some (log2_sectors_per_cluster - shift, Z.shiftr reserved shift, Z.shiftr sectors_per_fat shift, Z.shiftr root_sectors shift)
  else
    let shift := log2_bytes_per_sector - log2_bytes_per_block in
    Some (log2_sectors_per_cluster + shift, Z.shiftl reserved shift, u32 (Z.shiftl sectors_per_fat shift), u32 (Z.shiftl root_sectors shift)).

(** The new parameters and the result; [None] where the division by the size of a sector
    divides by zero, which it does before that size is looked at. *)
Definition parse_bpb (log2_bytes_per_block : Z) (ufb : ufat_bpb) (bpb : list Z) : option (ufat_bpb * Z) :=
  let bytes_per_sector := r16 0x00b bpb in
  let sectors_per_cluster := default 0 (bpb !! 0x00d%nat) in
  let reserved_sector_count := r16 0x00e bpb in
  let root_entries := r16 0x011 bpb in
  let number_of_fats := default 0 (bpb !! 0x010%nat) in
  let root_clus := r32 0x02c bpb in
  if bytes_per_sector =? 0 then None
  else
    let root_sectors := (root_entries * UFAT_DIRENT_SIZE + bytes_per_sector - 1) / bytes_per_sector in
    if log2_bytes_per_block <? 9 then Some (ufb, - UFAT_ERR_BLOCK_SIZE)
    else
      let total := if r16 0x013 bpb =? 0 then r32 0x020 bpb else r16 0x013 bpb in
      let sectors_per_fat := if r16 0x016 bpb =? 0 then r32 0x024 bpb else r16 0x016 bpb in
      match log2_exact bytes_per_sector, log2_exact sectors_per_cluster with
      | Some log2_bytes_per_sector, Some log2_sectors_per_cluster =>
          if negb (r16 0x1fe bpb =? 0xaa55) then Some (ufb, - UFAT_ERR_INVALID_BPB)
          else match to_blocks log2_bytes_per_block log2_bytes_per_sector log2_sectors_per_cluster reserved_sector_count sectors_per_fat root_sectors with
          | None => Some (mkBpb (fat_type ufb) (if log2_sectors_per_cluster <? log2_bytes_per_block - log2_bytes_per_sector then log2_blocks_per_cluster ufb
                       else log2_sectors_per_cluster - (log2_bytes_per_block - log2_bytes_per_sector))
                       (fat_start ufb) (fat_size ufb) (fat_count ufb) (cluster_start ufb) (num_clusters ufb) (root_start ufb) (root_size ufb) (root_cluster ufb),
                     - UFAT_ERR_BLOCK_ALIGNMENT)
          | Some (log2_bpc, fstart, fsize, rsize) =>
              if number_of_fats =? 0 then
                Some (mkBpb (fat_type ufb) log2_bpc fstart fsize (fat_count ufb) (cluster_start ufb) (num_clusters ufb) (root_start ufb) rsize (root_cluster ufb),
                  - UFAT_ERR_INVALID_BPB)
              else
                let clusters := u32 (Z.shiftr (u32 (total - reserved_sector_count - sectors_per_fat * number_of_fats - root_sectors)) log2_sectors_per_cluster + 2) in
                let rstart := u64 (fstart + fsize * number_of_fats) in
                let ty := if root_sectors =? 0 then UFAT_TYPE_FAT32 else if clusters <=? UFAT_MAX_FAT12 then UFAT_TYPE_FAT12 else UFAT_TYPE_FAT16 in
                Some (mkBpb ty log2_bpc fstart fsize number_of_fats (u64 (rstart + rsize)) clusters rstart rsize
                        (if root_sectors =? 0 then Z.land root_clus 0x0fffffff else 0), 0)
          end
      | _, _ => Some (ufb, - UFAT_ERR_INVALID_BPB)
      end.

Section Open.
Context {D : Type} {BD : BlockDevice D}.
Notation ufat := (ufat D).

Definition read_bpb : result ufat unit :=
  idx ⇐ ufat_cache_open 0 false;
  b ← gets bpb;
  data ← ufat_cache_data idx;
  '(b, rc) ← of_option (parse_bpb log2_block_size b data);
  modify (set_bpb b);;
  if rc <? 0 then mret (inl rc) else ok tt.

Definition stat_zero : ufat_stat := mkStat 0 0 0 0 0 0 0 0.

Definition ufat_open : result ufat unit :=
  modify (set_dev true);;
  modify (set_next_seq 0);;
  let n := Z.shiftr UFAT_CACHE_BYTES log2_block_size in
  let n := if UFAT_CACHE_MAX_BLOCKS <? n then UFAT_CACHE_MAX_BLOCKS else n in
  modify (set_cache_size n);;
  if n =? 0 then fail UFAT_ERR_BLOCK_SIZE
  else
    modify (set_alloc_ptr 0);;
    modify (set_stat stat_zero);;
    modify (set_cache_desc (replicate (Z.to_nat UFAT_CACHE_MAX_BLOCKS) (mkDesc 0 0 0)));;
    read_bpb.
End Open.
