(* ===== verification/UfatName.v ===== *)
(** Directory entries and names, ufat_ent.c: packing and parsing an entry, the characters of
    long names (UTF-8 outside, UCS-2 on the disk), short names and the fragments of long ones.

    A [char *] is the list of its bytes without the NUL; a [char] is signed where its sign
    matters ([schar]). *)

From Stdlib Require List.
From S2P Require Import Prelude UfatDev UfatBpb.
#[local] Open Scope Z_scope.

Definition UFAT_ATTR_READONLY : Z := 0x01.
Definition UFAT_ATTR_HIDDEN : Z := 0x02.
Definition UFAT_ATTR_SYSTEM : Z := 0x04.
Definition UFAT_ATTR_VOLLABEL : Z := 0x08.
Definition UFAT_ATTR_DIRECTORY : Z := 0x10.
Definition UFAT_ATTR_ARCHIVE : Z := 0x20.
Definition UFAT_ATTR_LFN_FRAGMENT : Z := 0x0f.
Definition UFAT_ATTR_USER : Z := 0x27.

Definition UFAT_TIME_H (t : Z) : Z := Z.land (Z.shiftr t 11) 0x1f.
Definition UFAT_TIME_M (t : Z) : Z := Z.land (Z.shiftr t 5) 0x3f.
Definition UFAT_TIME_S (t : Z) : Z := Z.shiftl (Z.land t 0x1f) 1.
Definition UFAT_DATE_Y (d : Z) : Z := Z.shiftr d 9 + 1980.
Definition UFAT_DATE_M (d : Z) : Z := Z.land (Z.shiftr d 5) 0xf.
Definition UFAT_DATE_D (d : Z) : Z := Z.land d 0x1f.

Definition UFAT_LFN_MAX_CHARS : Z := 255.
Definition UFAT_LFN_MAX_UTF8 : Z := 768.

(** The fields [dirent_block], [dirent_pos] and [file_size] are called [ent_block], [ent_pos] and
    [ent_size]: an open file has fields of these names too. *)
Record ufat_dirent := mkDirent {
  ent_block : Z; ent_pos : Z;
  lfn_block : Z; lfn_pos : Z;
  short_name : list Z; short_ext : list Z;
  attributes : Z;
  create_date : Z; create_time : Z; modify_date : Z; modify_time : Z; access_date : Z;
  first_cluster : Z; ent_size : Z }.

Definition set_place b p (e : ufat_dirent) := mkDirent b p (lfn_block e) (lfn_pos e) (short_name e) (short_ext e) (attributes e)
  (create_date e) (create_time e) (modify_date e) (modify_time e) (access_date e) (first_cluster e) (ent_size e).
Definition set_lfn b p (e : ufat_dirent) := mkDirent (ent_block e) (ent_pos e) b p (short_name e) (short_ext e) (attributes e)
  (create_date e) (create_time e) (modify_date e) (modify_time e) (access_date e) (first_cluster e) (ent_size e).
Definition set_short n x (e : ufat_dirent) := mkDirent (ent_block e) (ent_pos e) (lfn_block e) (lfn_pos e) n x (attributes e)
  (create_date e) (create_time e) (modify_date e) (modify_time e) (access_date e) (first_cluster e) (ent_size e).
Definition set_attributes a (e : ufat_dirent) := mkDirent (ent_block e) (ent_pos e) (lfn_block e) (lfn_pos e) (short_name e) (short_ext e) a
  (create_date e) (create_time e) (modify_date e) (modify_time e) (access_date e) (first_cluster e) (ent_size e).
Definition set_dates cd ct md mt ad (e : ufat_dirent) := mkDirent (ent_block e) (ent_pos e) (lfn_block e) (lfn_pos e) (short_name e) (short_ext e) (attributes e)
  cd ct md mt ad (first_cluster e) (ent_size e).
Definition set_first_cluster c (e : ufat_dirent) := mkDirent (ent_block e) (ent_pos e) (lfn_block e) (lfn_pos e) (short_name e) (short_ext e) (attributes e)
  (create_date e) (create_time e) (modify_date e) (modify_time e) (access_date e) c (ent_size e).
Definition set_ent_size s (e : ufat_dirent) := mkDirent (ent_block e) (ent_pos e) (lfn_block e) (lfn_pos e) (short_name e) (short_ext e) (attributes e)
  (create_date e) (create_time e) (modify_date e) (modify_time e) (access_date e) (first_cluster e) s.

(** * Entries as bytes *)

(** The bytes up to the first that is a blank or a control character, no more than [len]. *)
Fixpoint sn_copy (len : nat) (src : list Z) : list Z :=
  match len, src with
  | S len, c :: src => if 32 <? c then c :: sn_copy len src else []
  | _, _ => []
  end.

Definition byte_at (o : nat) (data : list Z) : Z := default 0 (data !! o).

Definition ufat_parse_dirent (type : Z) (data : list Z) (inf : ufat_dirent) : ufat_dirent :=
  let low := r16 0x1a data in
  mkDirent (ent_block inf) (ent_pos inf) (lfn_block inf) (lfn_pos inf)
    (sn_copy 8 data) (sn_copy 3 (drop 0x08 data))
    (byte_at 0x0b data)
    (r16 0x10 data) (r16 0x0e data) (r16 0x18 data) (r16 0x16 data) (r16 0x12 data)
    (if type =? UFAT_TYPE_FAT32 then Z.lor low (Z.shiftl (r16 0x14 data) 16) else low)
    (r32 0x1c data).

(** [data] has 32 bytes, all of which are overwritten. *)
Definition ufat_pack_dirent (ent : ufat_dirent) (data : list Z) : list Z :=
  let data := put 0 (replicate 11 0x20) data in
  let data := put 0 (short_name ent) data in
  let data := put 0x08 (short_ext ent) data in
  let data := put 0x0b [u8 (attributes ent); 0; 0] data in
  let data := w16 0x0e (create_time ent) data in
  let data := w16 0x10 (create_date ent) data in
  let data := w16 0x12 (access_date ent) data in
  let data := w16 0x14 (Z.shiftr (first_cluster ent) 16) data in
  let data := w16 0x16 (modify_time ent) data in
  let data := w16 0x18 (modify_date ent) data in
  let data := w16 0x1a (Z.land (first_cluster ent) 0xffff) data in
  w32 0x1c (ent_size ent) data.

(** * Names *)

Definition schar (c : Z) : Z := if c <? 128 then c else c - 256.
Definition is_sep (c : Z) : bool := (c =? 92) || (c =? 47).

Fixpoint legal_chars (name : list Z) : bool :=
  match name with
  | [] => true
  | c :: name => if is_sep c || (schar c <? 32) then false else legal_chars name
  end.

Definition ufat_lfn_is_legal (name : list Z) : bool :=
  match name with
  | [] | [46] | [46; 46] => false
  | _ => legal_chars name
  end.

(** [isalnum] and [toupper] of the C locale. *)
Definition is_lower (c : Z) : bool := (97 <=? c) && (c <=? 122).
Definition is_upper (c : Z) : bool := (65 <=? c) && (c <=? 90).
Definition is_digit (c : Z) : bool := (48 <=? c) && (c <=? 57).
Definition isalnum (c : Z) : bool := is_lower c || is_upper c || is_digit c.
Definition toupper (c : Z) : Z := if is_lower c then c - 32 else c.

Definition is_legal_dos_char (c : Z) : bool :=
  isalnum c || ((33 <=? c) && (c <=? 41)) || (c =? 45) || (c =? 64) || ((94 <=? c) && (c <=? 96)) ||
  (c =? 123) || (c =? 125) || (c =? 126).

(** Where the last [c] is, from the end of the string downwards; -1 when there is none. *)
Fixpoint last_index (c : Z) (s : list Z) (i found : Z) : Z :=
  match s with
  | [] => found
  | x :: s => last_index c s (i + 1) (if x =? c then i else found)
  end.

(** The first [room] legal characters, in capitals. *)
Fixpoint dos_chars (room : nat) (s : list Z) : list Z :=
  match s with
  | [] => []
  | c :: s =>
      match room with
      | O => []
      | S room' => if is_legal_dos_char (schar c) then toupper c :: dos_chars room' s else dos_chars room s
      end
  end.

Definition ufat_short_first (long_name : list Z) : list Z * list Z :=
  let len := Z.of_nat (length long_name) in
  let dot := last_index 46 long_name 0 (-1) in
  let ext := if 0 <? dot then dot + 1 else len in
  let ext_text := dos_chars 3 (drop (Z.to_nat ext) long_name) in
  let short := dos_chars 8 (take (Z.to_nat ext) long_name) in
  (if bool_decide (short = []) then replicate 8 126 else short, ext_text).

(** The number that the digits at the front of a string make. *)
Fixpoint atoi (s : list Z) (n : Z) : Z :=
  match s with
  | c :: s => if is_digit c then atoi s (n * 10 + (c - 48)) else n
  | [] => n
  end.

(** The digits of [num] from place [i] down to place 0 of the array; the place that comes next. *)
Fixpoint put_digits (places : nat) (num : Z) (name : list Z) : list Z * Z :=
  match places with
  | O => (name, -1)
  | S i => if num =? 0 then (name, Z.of_nat i) else put_digits i (num / 10) (<[i := num mod 10 + 48]> name)
  end.

Fixpoint put_tildes (count : nat) (i : Z) (name : list Z) : list Z :=
  match count with
  | O => name
  | S count => put_tildes count (i - 1) (<[Z.to_nat i := 126]> name)
  end.

(** The name has at most 8 characters and an array of 9; what the array has behind the name does
    not matter, since all of it is overwritten. *)
Definition ufat_short_next (name : list Z) : list Z :=
  let len := Z.of_nat (length name) in
  let at_ := last_index 126 name 0 (-1) in
  let tilde := if at_ <? 0 then len else at_ + 1 in
  let suffix_num := atoi (drop (Z.to_nat tilde) name) 0 + 1 in
  let '(b, i) := put_digits 8 suffix_num (name ++ replicate (8 - length name) 0) in
  let '(b, i) := if 0 <=? i then (<[Z.to_nat i := 126]> b, i - 1) else (b, i) in
  put_tildes (Z.to_nat (i - tilde + 1)) i b.

Definition cksum_next (cur c : Z) : Z := u8 (Z.lor (Z.shiftl (Z.land cur 1) 7) (Z.shiftr cur 1) + c).

Definition cksum_part (sum : Z) (width : nat) (s : list Z) : Z :=
  foldl cksum_next (foldl cksum_next sum s) (replicate (width - length s) 32).

Definition ufat_short_checksum (name ext : list Z) : Z := cksum_part (cksum_part 0 8 name) 3 ext.

(** Only the characters up to [i < max_len] fit. *)
Fixpoint copy_name (s : list Z) (max_len : Z) (out : list Z) : Z + list Z :=
  match s with
  | [] => inr out
  | c :: s => if max_len <=? Z.of_nat (length out) then inl (- UFAT_ERR_NAME_TOO_LONG) else copy_name s max_len (out ++ [c])
  end.

Definition ufat_format_short (name ext : list Z) (max_len : Z) : Z + list Z :=
  match copy_name name max_len [] with
  | inl e => inl e
  | inr out =>
      match (match ext with [] => inr out | _ => copy_name (46 :: ext) max_len out end) with
      | inl e => inl e
      | inr out => if max_len <=? Z.of_nat (length out) then inl (- UFAT_ERR_NAME_TOO_LONG) else inr out
      end
  end.

(** The length of the name that matches, or -1. *)
Fixpoint compare_from (m : Z) (search_name dir_name : list Z) (component_only : bool) : Z :=
  match search_name with
  | [] => match dir_name with [] => m | _ => -1 end
  | sc :: search_name =>
      if component_only && is_sep sc then match dir_name with [] => m | _ => -1 end
      else
        match dir_name with
        | [] => -1
        | dc :: dir_name => if toupper sc =? toupper dc then compare_from (m + 1) search_name dir_name component_only else -1
        end
  end.
Definition ufat_compare_name : list Z -> list Z -> bool -> Z := compare_from 0.

(** * Characters *)

Fixpoint utf8_chars (src : list Z) (dst_len : Z) (dst : list Z) : Z + list Z :=
  match src with
  | [] => if dst_len <=? Z.of_nat (length dst) then inl (- UFAT_ERR_NAME_TOO_LONG) else inr dst
  | c :: src =>
      let j := Z.of_nat (length dst) in
      if c =? 0 then (if dst_len <=? j then inl (- UFAT_ERR_NAME_TOO_LONG) else inr dst)
      else if 0x800 <=? c then
        if dst_len <=? j + 3 then inl (- UFAT_ERR_BAD_ENCODING)
        else utf8_chars src dst_len (dst ++ [Z.lor 0xe0 (Z.shiftr c 12); Z.lor 0x80 (Z.land (Z.shiftr c 6) 0x3f); Z.lor 0x80 (Z.land c 0x3f)])
      else if 0x80 <=? c then
        if dst_len <=? j + 2 then inl (- UFAT_ERR_BAD_ENCODING)
        else utf8_chars src dst_len (dst ++ [Z.lor 0xc0 (Z.shiftr c 6); Z.lor 0x80 (Z.land c 0x3f)])
      else if dst_len <=? j + 1 then inl (- UFAT_ERR_BAD_ENCODING)
      else utf8_chars src dst_len (dst ++ [c])
  end.

(** A character that is 0 in the middle ends the name. *)
Definition ufat_ucs2_to_utf8 (src : list Z) (src_len dst_len : Z) : Z + list Z := utf8_chars (take (Z.to_nat src_len) src) dst_len [].

(** The bytes of a character after the first are wanted to have the bits 0xc0. *)
Fixpoint ucs2_chars (fuel : nat) (src : list Z) (dst : list Z) : Z + list Z :=
  match fuel, src with
  | S fuel, c :: src =>
      if UFAT_LFN_MAX_CHARS <=? Z.of_nat (length dst) then inl (- UFAT_ERR_NAME_TOO_LONG)
      else if Z.land c 0xf0 =? 0xf0 then inl (- UFAT_ERR_ILLEGAL_NAME)
      else if Z.land c 0xe0 =? 0xe0 then
        let b := byte_at 0 src in
        let a := byte_at 1 src in
        if negb (Z.land a 0xc0 =? 0xc0) || negb (Z.land b 0xc0 =? 0xc0) then inl (- UFAT_ERR_BAD_ENCODING)
        else ucs2_chars fuel (drop 2 src) (dst ++ [Z.lor (Z.lor (Z.shiftl (Z.land c 0xf) 12) (Z.shiftl (Z.land b 0x3f) 6)) (Z.land a 0x3f)])
      else if Z.land c 0xc0 =? 0xc0 then
        let b := byte_at 0 src in
        if negb (Z.land b 0xc0 =? 0xc0) then inl (- UFAT_ERR_BAD_ENCODING)
        else ucs2_chars fuel (drop 1 src) (dst ++ [Z.lor (Z.shiftl (Z.land c 0x1f) 6) (Z.land b 0x3f)])
      else if negb (Z.land c 0x80 =? 0) then inl (- UFAT_ERR_BAD_ENCODING)
      else ucs2_chars fuel src (dst ++ [c])
  | _, _ => inr dst
  end.

(** The characters, padded to the length of the array, and how many they are. *)
Definition ufat_utf8_to_ucs2 (src : list Z) : Z + list Z * Z :=
  match ucs2_chars (length src) src [] with
  | inl e => inl e
  | inr dst => inr (dst ++ replicate (Z.to_nat UFAT_LFN_MAX_CHARS - length dst) 0, Z.of_nat (length dst))
  end.

(** * Fragments of long names *)

Record ufat_lfn_parser := mkParser {
  start_block : Z; start_pos : Z; short_checksum : Z; lfn_len : Z; lfn_seq : Z; lfn_buf : list Z }.

(** A parser that was just reset; its other fields are not set yet, and are not looked at before they are. *)
Definition new_parser : ufat_lfn_parser := mkParser 0 0 0 0 (-1) (replicate (Z.to_nat UFAT_LFN_MAX_CHARS) 0).

Definition ufat_lfn_reset (s : ufat_lfn_parser) : ufat_lfn_parser :=
  mkParser (start_block s) (start_pos s) (short_checksum s) (lfn_len s) (-1) (lfn_buf s).
Definition ufat_lfn_ok (s : ufat_lfn_parser) : bool := lfn_seq s =? 0.

(** The 13 characters of a fragment. *)
Definition fragment_chars (data : list Z) : list Z :=
  ((fun i => r16 (0x01 + i * 2) data) <$> List.seq 0 5) ++ ((fun i => r16 (0x0e + i * 2) data) <$> List.seq 0 6) ++ [r16 0x1c data; r16 0x1e data].

(** Fragment 0 goes in front of the buffer: [None]. *)
Definition put_fragment (fr_pos fr_len : Z) (chars buf : list Z) : option (list Z) :=
  if fr_len <=? 0 then Some buf
  else if (0 <=? fr_pos) && (fr_pos + fr_len <=? Z.of_nat (length buf)) then Some (put (Z.to_nat fr_pos) (take (Z.to_nat fr_len) chars) buf)
  else None.

Definition ufat_lfn_parse (s : ufat_lfn_parser) (data : list Z) (blk pos : Z) : option ufat_lfn_parser :=
  let fr_seq := byte_at 0 data in
  let fr_pos := (Z.land fr_seq 0x3f - 1) * 13 in
  let fr_len := if UFAT_LFN_MAX_CHARS <? fr_pos + 13 then UFAT_LFN_MAX_CHARS - fr_pos else 13 in
  let first := negb (Z.land fr_seq 0x40 =? 0) in
  let s := if first then mkParser blk pos (byte_at 0x0d data) (fr_pos + fr_len) (Z.land fr_seq 0x3f) (lfn_buf s) else s in
  if negb first && (negb (fr_seq =? lfn_seq s) || negb (short_checksum s =? byte_at 0x0d data)) then Some (ufat_lfn_reset s)
  else
    b ← put_fragment fr_pos fr_len (fragment_chars data) (lfn_buf s);
    Some (mkParser (start_block s) (start_pos s) (short_checksum s) (lfn_len s) (lfn_seq s - 1) b).

Fixpoint put_chars (o : nat) (cs : list Z) (data : list Z) : list Z :=
  match cs with [] => data | c :: cs => put_chars (o + 2) cs (w16 o c data) end.

(** [ucs] has 13 characters; all of the 32 bytes of [data] are overwritten. *)
Definition ufat_lfn_pack_fragment (ucs : list Z) (seq : Z) (is_first : bool) (data : list Z) (checksum : Z) : list Z :=
  let s := if is_first then Z.lor (u8 seq) 0x40 else u8 seq in
  let data := put 0 [s] data in
  let data := put_chars 0x01 (take 5 ucs) data in
  let data := put 0x0b [UFAT_ATTR_LFN_FRAGMENT; 0; checksum] data in
  let data := put_chars 0x0e (sub 5 6 ucs) data in
  let data := put 0x1a [0; 0] data in
  put_chars 0x1c (sub 11 2 ucs) data.
