(* ===== verification/UfatLong.v ===== *)
(** What the bytes of entries and of the fragments of long names mean: an entry that is packed
    is parsed as it was, and the fragments of a name give the name back. *)

From stdpp Require Import numbers.
From S2P Require Import Prelude UfatDev UfatBpb UfatName.
#[local] Open Scope Z_scope.

(** * Numbers and fields of an entry *)

Lemma le_encode_2 v : le_encode 2 v = [v mod 256; v / 256 mod 256].
Proof. reflexivity. Qed.

Lemma le_decode_2 v : le_decode (le_encode 2 v) = v mod 2 ^ 16.
Proof. apply le_decode_encode. Qed.

Lemma r16_here o v data : (o + 2 <= length data)%nat -> r16 o (w16 o v data) = v mod 2 ^ 16.
Proof. intros H. unfold r16, w16. rewrite sub_put_same by (rewrite ?length_le_encode; lia). apply le_decode_2. Qed.

Lemma r32_here o v data : (o + 4 <= length data)%nat -> r32 o (w32 o v data) = v mod 2 ^ 32.
Proof. intros H. unfold r32, w32. rewrite sub_put_same by (rewrite ?length_le_encode; lia). apply le_decode_encode. Qed.

Lemma r16_put o o' new data : (o + 2 <= o' \/ o' + length new <= o)%nat -> (o' + length new <= length data)%nat -> r16 o (put o' new data) = r16 o data.
Proof. intros H1 H2. unfold r16. by rewrite sub_put_other. Qed.

Lemma r32_put o o' new data : (o + 4 <= o' \/ o' + length new <= o)%nat -> (o' + length new <= length data)%nat -> r32 o (put o' new data) = r32 o data.
Proof. intros H1 H2. unfold r32. by rewrite sub_put_other. Qed.

Lemma byte_at_sub o data : byte_at o data = default 0 (sub o 1 data !! 0%nat).
Proof. unfold byte_at. rewrite lookup_sub by lia. by rewrite Nat.add_0_r. Qed.

Lemma byte_at_put o o' new data : (o < o' \/ o' + length new <= o)%nat -> (o' + length new <= length data)%nat -> byte_at o (put o' new data) = byte_at o data.
Proof. intros H1 H2. rewrite !byte_at_sub, sub_put_other by lia. done. Qed.

Lemma byte_at_here o i new data : (i < length new)%nat -> (o + length new <= length data)%nat -> byte_at (o + i) (put o new data) = byte_at i new.
Proof. intros H1 H2. unfold byte_at. rewrite lookup_put by done. case_decide; [|lia]. f_equal. f_equal. lia. Qed.

(** * Entries *)

(** A part of a short name: no blanks and no control characters. *)
Definition short_part (n : nat) (s : list Z) : Prop := (length s <= n)%nat /\ Forall (fun c => 32 < c < 256) s.

Record dirent_ok (type : Z) (e : ufat_dirent) : Prop := {
  ok_name : short_part 8 (short_name e);
  ok_ext : short_part 3 (short_ext e);
  ok_attributes : is_byte (attributes e);
  ok_create_date : 0 <= create_date e < 2 ^ 16;
  ok_create_time : 0 <= create_time e < 2 ^ 16;
  ok_modify_date : 0 <= modify_date e < 2 ^ 16;
  ok_modify_time : 0 <= modify_time e < 2 ^ 16;
  ok_access_date : 0 <= access_date e < 2 ^ 16;
  ok_cluster : 0 <= first_cluster e < (if type =? UFAT_TYPE_FAT32 then 2 ^ 32 else 2 ^ 16);
  ok_size : 0 <= ent_size e < 2 ^ 32
}.

Lemma sn_copy_take len src n : (len <= n)%nat -> sn_copy len (take n src) = sn_copy len src.
Proof.
  revert src n. induction len as [|len IH]; intros src n H; [done|]. destruct n as [|n]; [lia|]. destruct src as [|c src]; [done|].
  cbn. destruct (32 <? c); [|done]. f_equal. apply IH. lia.
Qed.

Lemma sn_copy_padded s : forall len rest, (length s <= len)%nat -> Forall (fun c => 32 < c < 256) s -> (forall c, head rest = Some c -> c <= 32) -> sn_copy len (s ++ rest) = s.
Proof.
  induction s as [|c s IH]; intros len rest Hl Hs Hr; cbn [app].
  - destruct len as [|len]; [done|]. destruct rest as [|c rest]; [done|]. cbn. by rewrite (proj2 (Z.ltb_ge _ _) (Hr c eq_refl)).
  - inversion_clear Hs as [|x y Hc Hs']. destruct len as [|len]; [cbn in Hl; lia|]. cbn. rewrite (proj2 (Z.ltb_lt _ _)) by lia. f_equal. apply IH; [cbn in Hl; lia|done|done].
Qed.

Lemma length_w16 o v data : (o + 2 <= length data)%nat -> length (w16 o v data) = length data.
Proof. intros H. unfold w16. by rewrite length_put by (rewrite length_le_encode; lia). Qed.

Lemma length_w32 o v data : (o + 4 <= length data)%nat -> length (w32 o v data) = length data.
Proof. intros H. unfold w32. by rewrite length_put by (rewrite length_le_encode; lia). Qed.

(** The names, before the numbers are put behind them. *)
Definition packed_names (e : ufat_dirent) (data : list Z) : list Z :=
  put 0x08 (short_ext e) (put 0 (short_name e) (put 0 (replicate 11 0x20) data)).

(** Lengths and places in lists that are put together by [put]. *)
Ltac lens := repeat first [rewrite length_put | rewrite length_app | rewrite length_replicate | rewrite length_le_encode | progress cbn [length]]; lia.

Lemma length_packed_names type e data : dirent_ok type e -> length data = 32%nat -> length (packed_names e data) = 32%nat.
Proof. intros He Hd. destruct (ok_name _ _ He) as [Hn _], (ok_ext _ _ He) as [Hx _]. unfold packed_names. lens. Qed.

Lemma packed_name type e data : dirent_ok type e -> length data = 32%nat -> sub 0 8 (packed_names e data) = short_name e ++ replicate (8 - length (short_name e)) 0x20.
Proof.
  intros He Hd. destruct (ok_name _ _ He) as [Hn _], (ok_ext _ _ He) as [Hx _]. unfold packed_names.
  rewrite sub_put_other by lens. apply list_eq. intros i. destruct (Nat.lt_ge_cases i 8) as [Hi|Hi].
  - rewrite lookup_sub by done. rewrite lookup_put by lens. rewrite Nat.add_0_l, Nat.sub_0_r. case_decide.
    + by rewrite lookup_app_l by lia.
    + rewrite lookup_app_r by lia. rewrite lookup_put by lens. rewrite length_replicate. case_decide; [|lia].
      by rewrite !lookup_replicate_2 by lia.
  - rewrite !lookup_ge_None_2; [done|lens|rewrite length_sub; [lia|lens]].
Qed.

Lemma packed_ext type e data : dirent_ok type e -> length data = 32%nat -> sub 8 3 (packed_names e data) = short_ext e ++ replicate (3 - length (short_ext e)) 0x20.
Proof.
  intros He Hd. destruct (ok_name _ _ He) as [Hn _], (ok_ext _ _ He) as [Hx _]. unfold packed_names.
  apply list_eq. intros i. destruct (Nat.lt_ge_cases i 3) as [Hi|Hi].
  - rewrite lookup_sub by done. rewrite lookup_put by lens. case_decide.
    + rewrite lookup_app_l by lia. f_equal. lia.
    + rewrite lookup_app_r by lia. rewrite lookup_put by lens. case_decide; [lia|].
      rewrite lookup_put by lens. rewrite length_replicate. case_decide; [|lia]. by rewrite !lookup_replicate_2 by lia.
  - rewrite !lookup_ge_None_2; [done|lens|rewrite length_sub; [lia|lens]].
Qed.

Lemma high_low c : 0 <= c < 2 ^ 32 -> Z.lor (Z.land c 0xffff) (Z.shiftl (Z.shiftr c 16) 16) = c.
Proof.
  intros Hc. apply Z.bits_inj'. intros i Hi. change 0xffff with (Z.ones 16). rewrite Z.lor_spec, Z.land_spec, Z.testbit_ones_nonneg by lia. destruct (Z.ltb_spec i 16).
  - rewrite Z.shiftl_spec_low by lia. by rewrite andb_true_r, orb_false_r.
  - rewrite Z.shiftl_spec, Z.shiftr_spec by lia. rewrite andb_false_r. cbn [orb]. f_equal. lia.
Qed.

(** The numbers, behind the names. *)
Definition packed_numbers (e : ufat_dirent) (data : list Z) : list Z :=
  w32 0x1c (ent_size e) (w16 0x1a (Z.land (first_cluster e) 0xffff) (w16 0x18 (modify_date e) (w16 0x16 (modify_time e)
    (w16 0x14 (Z.shiftr (first_cluster e) 16) (w16 0x12 (access_date e) (w16 0x10 (create_date e) (w16 0x0e (create_time e)
      (put 0x0b [u8 (attributes e); 0; 0] data)))))))).

Lemma pack_split e data : ufat_pack_dirent e data = packed_numbers e (packed_names e data).
Proof. reflexivity. Qed.

Lemma length_packed_numbers e data : length data = 32%nat -> length (packed_numbers e data) = 32%nat.
Proof. intros Hd. unfold packed_numbers, w16, w32. lens. Qed.

Lemma sub_packed_numbers o n e data : (o + n <= 11)%nat -> length data = 32%nat -> sub o n (packed_numbers e data) = sub o n data.
Proof. intros H Hd. unfold packed_numbers, w16, w32. by rewrite !sub_put_other by lens. Qed.

Ltac field_here := unfold packed_numbers, w16, w32; repeat first [rewrite r16_put by lens | rewrite r32_put by lens | rewrite byte_at_put by lens];
  first [apply r16_here; lens | apply r32_here; lens].

Lemma numbers_parsed e data : length data = 32%nat ->
  let d := packed_numbers e data in
  byte_at 0x0b d = u8 (attributes e) /\ r16 0x0e d = create_time e mod 2 ^ 16 /\ r16 0x10 d = create_date e mod 2 ^ 16 /\
  r16 0x12 d = access_date e mod 2 ^ 16 /\ r16 0x14 d = Z.shiftr (first_cluster e) 16 mod 2 ^ 16 /\ r16 0x16 d = modify_time e mod 2 ^ 16 /\
  r16 0x18 d = modify_date e mod 2 ^ 16 /\ r16 0x1a d = Z.land (first_cluster e) 0xffff mod 2 ^ 16 /\ r32 0x1c d = ent_size e mod 2 ^ 32.
Proof.
  intros Hd d. subst d. split; [|split_and!; field_here].
  unfold packed_numbers, w16, w32. rewrite !byte_at_put by lens. by rewrite (byte_at_here 0x0b 0) by lens.
Qed.

(** The entry, at the place where the caller has it. *)
Definition placed_like (inf e : ufat_dirent) : ufat_dirent := set_place (ent_block inf) (ent_pos inf) (set_lfn (lfn_block inf) (lfn_pos inf) e).

Lemma parse_pack type e data inf : dirent_ok type e -> length data = 32%nat -> ufat_parse_dirent type (ufat_pack_dirent e data) inf = placed_like inf e.
Proof.
  intros He Hd. rewrite pack_split. pose proof (length_packed_names _ _ _ He Hd) as Hn.
  destruct (numbers_parsed e (packed_names e data) Hn) as (N1 & N2 & N3 & N4 & N5 & N6 & N7 & N8 & N9). set (d := packed_numbers e (packed_names e data)) in *.
  assert (sn_copy 8 d = short_name e) as E8.
  { rewrite <- (sn_copy_take 8 d 8) by lia. change (take 8 d) with (sub 0 8 d). unfold d. rewrite sub_packed_numbers, (packed_name _ _ _ He Hd) by (done || lia).
    apply sn_copy_padded; [apply (ok_name _ _ He)..|]. intros c Hc. destruct (8 - _)%nat; [done|]. cbn in Hc. injection Hc as <-. lia. }
  assert (sn_copy 3 (drop 8 d) = short_ext e) as E3.
  { rewrite <- (sn_copy_take 3 (drop 8 d) 3) by lia. change (take 3 (drop 8 d)) with (sub 8 3 d). unfold d. rewrite sub_packed_numbers, (packed_ext _ _ _ He Hd) by (done || lia).
    apply sn_copy_padded; [apply (ok_ext _ _ He)..|]. intros c Hc. destruct (3 - _)%nat; [done|]. cbn in Hc. injection Hc as <-. lia. }
  unfold ufat_parse_dirent, placed_like, set_place, set_lfn. rewrite E8, E3, N1, N2, N3, N4, N5, N6, N7, N8, N9. cbn [ent_block ent_pos lfn_block lfn_pos short_name short_ext attributes create_date create_time modify_date modify_time access_date first_cluster ent_size].
  destruct He as [_ _ O1 O2 O3 O4 O5 O6 O7 O8]. rewrite (u8_id _ O1), !(Z.mod_small (create_date e)), !(Z.mod_small (create_time e)), !(Z.mod_small (modify_date e)), !(Z.mod_small (modify_time e)), !(Z.mod_small (access_date e)), (Z.mod_small (ent_size e)) by done.
  f_equal. change 0xffff with (Z.ones 16). rewrite Z.land_ones, Z.mod_mod by lia. destruct (type =? UFAT_TYPE_FAT32).
  - rewrite (Z.mod_small (Z.shiftr _ _)); [|rewrite Z.shiftr_div_pow2 by lia; split; [apply Z.div_pos; lia|apply Z.div_lt_upper_bound; lia]].
    rewrite <- (high_low (first_cluster e)) at 3 by lia. change 0xffff with (Z.ones 16). by rewrite Z.land_ones by lia.
  - by rewrite Z.mod_small.
Qed.

Lemma length_pack e data type : dirent_ok type e -> length data = 32%nat -> length (ufat_pack_dirent e data) = 32%nat.
Proof. intros He Hd. rewrite pack_split. by eapply length_packed_numbers, length_packed_names. Qed.

(** * Characters *)

Lemma ascii_bits c : 0 < c < 128 -> (Z.land c 0xf0 =? 0xf0) = false /\ (Z.land c 0xe0 =? 0xe0) = false /\ (Z.land c 0xc0 =? 0xc0) = false /\ Z.land c 0x80 = 0.
Proof.
  intros Hc.
  assert (Forall (fun c => (Z.land c 0xf0 =? 0xf0) = false /\ (Z.land c 0xe0 =? 0xe0) = false /\ (Z.land c 0xc0 =? 0xc0) = false /\ Z.land c 0x80 = 0) (seqZ 0 128)) as H
    by (apply (bool_decide_unpack _); vm_compute; exact I).
  rewrite Forall_forall in H. apply H, elem_of_seqZ. lia.
Qed.

Definition ascii (s : list Z) : Prop := Forall (fun c => 0 < c < 128) s.

Lemma ucs2_chars_ascii s : forall fuel dst, ascii s -> (length s <= fuel)%nat -> Z.of_nat (length dst + length s) <= 255 -> ucs2_chars fuel s dst = inr (dst ++ s).
Proof.
  induction s as [|c s IH]; intros fuel dst Hs Hf Hl; [destruct fuel; cbn; by rewrite app_nil_r|]. inversion_clear Hs as [|x y Hc Hs'].
  destruct fuel as [|fuel]; [cbn in Hf; lia|]. cbn [length] in *. cbn [ucs2_chars]. destruct (ascii_bits c Hc) as (B1 & B2 & B3 & B4).
  rewrite (proj2 (Z.leb_gt _ _)) by (unfold UFAT_LFN_MAX_CHARS; lia). rewrite B1, B2, B3, B4. cbn [negb Z.eqb]. rewrite IH; [by rewrite <- app_assoc|done|lia|rewrite length_app; cbn; lia].
Qed.

Lemma utf8_chars_ascii s : forall dst_len dst rest, ascii s -> (forall c, head rest = Some c -> c = 0) -> Z.of_nat (length dst + length s) < dst_len ->
  utf8_chars (s ++ rest) dst_len dst = inr (dst ++ s).
Proof.
  induction s as [|c s IH]; intros dst_len dst rest Hs Hr Hl; cbn [length app] in *.
  - rewrite app_nil_r. destruct rest as [|c rest]; cbn [utf8_chars]; [|rewrite (Hr c eq_refl); cbn [Z.eqb]]; by rewrite (proj2 (Z.leb_gt _ _)) by lia.
  - inversion_clear Hs as [|x y Hc Hs']. cbn [utf8_chars]. rewrite (proj2 (Z.eqb_neq _ _)), !(proj2 (Z.leb_gt _ _)) by lia.
    rewrite IH; [by rewrite <- app_assoc|done|done|rewrite length_app; cbn; lia].
Qed.

(** The characters of a name, padded. *)
Definition padded (s : list Z) : list Z := s ++ replicate (255 - length s) 0.

Lemma length_padded s : (length s <= 255)%nat -> length (padded s) = 255%nat.
Proof. intros H. unfold padded. lens. Qed.

Lemma utf8_to_ucs2_ascii s : ascii s -> (length s <= 255)%nat -> ufat_utf8_to_ucs2 s = inr (padded s, Z.of_nat (length s)).
Proof. intros Hs Hl. unfold ufat_utf8_to_ucs2. rewrite ucs2_chars_ascii by (done || (cbn; lia)). done. Qed.

Lemma legal_chars_spec s : legal_chars s = true -> Forall (fun c => is_byte c) s -> Forall (fun c => 32 <= c < 128 /\ c <> 47 /\ c <> 92) s.
Proof.
  induction s as [|c s IH]; intros Hl Hb; [done|]. inversion_clear Hb as [|x y Hc Hb']. cbn in Hl. destruct (is_sep c || _) eqn:E; [done|].
  apply orb_false_iff in E as [[E1 E2]%orb_false_iff E3%Z.ltb_ge]. apply Z.eqb_neq in E1, E2. constructor; [|by apply IH].
  unfold schar in E3. unfold is_byte in Hc. destruct (Z.ltb_spec c 128); lia.
Qed.

(** A legal name has printable ASCII characters only, and no separators. *)
Lemma legal_name s : ufat_lfn_is_legal s = true -> Forall is_byte s -> s <> [] /\ Forall (fun c => 32 <= c < 128 /\ c <> 47 /\ c <> 92) s.
Proof.
  intros Hl Hb. assert (legal_chars s = true /\ s <> []) as [Hc Hn]; [|split; [done|by apply legal_chars_spec]].
  unfold ufat_lfn_is_legal in Hl. repeat case_match; done.
Qed.

Lemma legal_ascii s : ufat_lfn_is_legal s = true -> Forall is_byte s -> ascii s.
Proof. intros Hl Hb. apply (Forall_impl _ _ _ (proj2 (legal_name s Hl Hb))). lia. Qed.

(** * Fragments *)

Lemma length_put_chars cs : forall o data, (o + 2 * length cs <= length data)%nat -> length (put_chars o cs data) = length data.
Proof.
  induction cs as [|c cs IH]; intros o data H; [done|]. cbn [put_chars length] in *. rewrite IH; rewrite length_w16; lia.
Qed.

Lemma sub_put_chars cs : forall o n o' data, (o + n <= o' \/ o' + 2 * length cs <= o)%nat -> (o' + 2 * length cs <= length data)%nat ->
  sub o n (put_chars o' cs data) = sub o n data.
Proof.
  induction cs as [|c cs IH]; intros o n o' data H1 H2; [done|]. cbn [put_chars length] in *.
  rewrite IH by (rewrite ?length_w16; lia). unfold w16. by rewrite sub_put_other by (rewrite ?length_le_encode; lia).
Qed.

Lemma r16_put_chars cs : forall o data i c, (o + 2 * length cs <= length data)%nat -> cs !! i = Some c -> r16 (o + i * 2) (put_chars o cs data) = c mod 2 ^ 16.
Proof.
  induction cs as [|c' cs IH]; intros o data i c H Hi; [done|]. cbn [put_chars length] in *. destruct i as [|i].
  - injection Hi as ->. unfold r16. rewrite sub_put_chars by (rewrite ?length_w16; lia). replace (o + 0 * 2)%nat with o by lia. apply r16_here. lia.
  - replace (o + S i * 2)%nat with (o + 2 + i * 2)%nat by lia. apply IH; [rewrite length_w16; lia|done].
Qed.

(** Characters that were stored at [o] in [data'], and are still there in [data]. *)
Lemma chars_stored cs o data data' : (o + 2 * length cs <= length data')%nat ->
  (forall i, (i < length cs)%nat -> sub (o + i * 2) 2 data = sub (o + i * 2) 2 (put_chars o cs data')) ->
  (fun i => r16 (o + i * 2) data) <$> List.seq 0 (length cs) = (fun x => x mod 2 ^ 16) <$> cs.
Proof.
  intros H Hs. apply list_eq. intros i. rewrite !list_lookup_fmap. destruct (cs !! i) as [c|] eqn:Hc; cbn.
  - pose proof (lookup_lt_Some _ _ _ Hc). rewrite (lookup_seq_lt 0 (length cs) i) by done. cbn. f_equal. rewrite <- (r16_put_chars cs o data' i c H Hc). unfold r16. by rewrite Hs.
  - apply lookup_ge_None_1 in Hc. by rewrite (lookup_seq_ge 0 (length cs) i).
Qed.

(** The raw entry [d] is the fragment [n] with the characters [ucs]. *)
Record fragment (ucs : list Z) (n : Z) (is_first : bool) (ck : Z) (d : list Z) : Prop := {
  fr_length : length d = 32%nat;
  fr_seq : byte_at 0 d = (if is_first then Z.lor (u8 n) 0x40 else u8 n);
  fr_attr : byte_at 0x0b d = 0x0f;
  fr_checksum : byte_at 0x0d d = ck;
  fr_chars : fragment_chars d = (fun x => x mod 2 ^ 16) <$> ucs
}.

Lemma pack_fragment ucs n (b : bool) data ck : length ucs = 13%nat -> length data = 32%nat -> fragment ucs n b ck (ufat_lfn_pack_fragment ucs n b data ck).
Proof.
  intros Hu Hd. unfold ufat_lfn_pack_fragment. set (d1 := put 0 [_] data). assert (length d1 = 32%nat) as H1 by (unfold d1; lens).
  assert (length (take 5 ucs) = 5%nat) as L2 by (rewrite length_take; lia).
  set (d2 := put_chars 1 (take 5 ucs) d1). assert (length d2 = 32%nat) as H2 by (unfold d2; rewrite length_put_chars; lia).
  set (d3 := put 0x0b _ d2). assert (length d3 = 32%nat) as H3 by (unfold d3; lens).
  assert (length (sub 5 6 ucs) = 6%nat) as L4 by (rewrite length_sub; lia).
  set (d4 := put_chars 0x0e _ d3). assert (length d4 = 32%nat) as H4 by (unfold d4; rewrite length_put_chars; lia).
  set (d5 := put 0x1a _ d4). assert (length d5 = 32%nat) as H5 by (unfold d5; lens).
  assert (length (sub 11 2 ucs) = 2%nat) as L6 by (rewrite length_sub; lia).
  assert (forall o n, (o + n <= 0x1c)%nat -> sub o n (put_chars 0x1c (sub 11 2 ucs) d5) = sub o n d5) as Hs6 by (intros; apply sub_put_chars; lia).
  assert (forall o n, (o + n <= 0x1a)%nat -> sub o n d5 = sub o n d4) as Hs5 by (intros; apply sub_put_other; cbn; lia).
  assert (forall o n, (o + n <= 0x0e)%nat -> sub o n d4 = sub o n d3) as Hs4 by (intros; apply sub_put_chars; lia).
  assert (forall o n, (o + n <= 0x0b)%nat -> sub o n d3 = sub o n d2) as Hs3 by (intros; apply sub_put_other; cbn; lia).
  split.
  - rewrite length_put_chars; lia.
  - rewrite byte_at_sub, Hs6, Hs5, Hs4, Hs3 by lia. unfold d2. rewrite sub_put_chars by lia. unfold d1. by rewrite sub_put_same by (cbn; lia).
  - rewrite byte_at_sub, Hs6, Hs5, Hs4, <- byte_at_sub by lia. apply (byte_at_here 0x0b 0); cbn; lia.
  - rewrite byte_at_sub, Hs6, Hs5, Hs4, <- byte_at_sub by lia. apply (byte_at_here 0x0b 2); cbn; lia.
  - rewrite <- (take_drop 5 ucs) at 2. rewrite <- (take_drop 6 (drop 5 ucs)). rewrite !fmap_app, drop_drop. unfold fragment_chars.
    set (d6 := put_chars 0x1c (sub 11 2 ucs) d5).
    pose proof (chars_stored (take 5 ucs) 1 d6 d1) as C1. pose proof (chars_stored (sub 5 6 ucs) 0x0e d6 d3) as C2. pose proof (chars_stored (sub 11 2 ucs) 0x1c d6 d5) as C3.
    rewrite L2 in C1. rewrite L4 in C2. rewrite L6 in C3. f_equal; [apply C1; [lia|]|f_equal; [apply C2; [lia|]|]].
    + intros i Hi. unfold d6. by rewrite Hs6, Hs5, Hs4, Hs3 by lia.
    + intros i Hi. unfold d6. by rewrite Hs6, Hs5 by lia.
    + change [r16 0x1c d6; r16 0x1e d6] with ((fun i => r16 (0x1c + i * 2) d6) <$> List.seq 0 2). rewrite C3; [|lia|done]. f_equal. apply take_ge. rewrite length_drop. lia.
Qed.

Lemma seq_bits n : 1 <= n <= 20 -> u8 n = n /\ Z.land (Z.lor n 0x40) 0x3f = n /\ Z.land (Z.lor n 0x40) 0x40 <> 0 /\ Z.land n 0x3f = n /\ Z.land n 0x40 = 0.
Proof.
  intros Hn. assert (Forall (fun n => u8 n = n /\ Z.land (Z.lor n 0x40) 0x3f = n /\ Z.land (Z.lor n 0x40) 0x40 <> 0 /\ Z.land n 0x3f = n /\ Z.land n 0x40 = 0) (seqZ 1 20)) as H
    by (apply (bool_decide_unpack _); vm_compute; exact I).
  rewrite Forall_forall in H. apply H, elem_of_seqZ. lia.
Qed.

Section Parsing.
(** The characters [P] of a long name that takes [nf] fragments, the checksum of its short name, and where the first fragment is. *)
Context (P : list Z) (nf : nat) (ck blk pos : Z).
Hypothesis P_length : length P = 255%nat.
Hypothesis P_chars : Forall (fun c => 0 <= c < 2 ^ 16) P.
Hypothesis nf_fits : (1 <= nf)%nat /\ (13 * nf <= 255)%nat.

(** The parser has seen the fragments from the last one down to [k], and [k] are to come. *)
Record parsing (k : nat) (s : ufat_lfn_parser) : Prop := {
  pa_start : start_block s = blk /\ start_pos s = pos;
  pa_checksum : short_checksum s = ck;
  pa_len : lfn_len s = 13 * Z.of_nat nf;
  pa_seq : lfn_seq s = Z.of_nat k;
  pa_buf : length (lfn_buf s) = 255%nat;
  pa_chars : sub (13 * k) (13 * (nf - k)) (lfn_buf s) = sub (13 * k) (13 * (nf - k)) P
}.

Lemma chars_mod k : (fun x => x mod 2 ^ 16) <$> sub (13 * k) 13 P = sub (13 * k) 13 P.
Proof.
  rewrite <- (list_fmap_id (sub (13 * k) 13 P)) at 2. apply Forall_fmap_ext_1, (Forall_impl (fun c => 0 <= c < 2 ^ 16)); [by apply Forall_sub|].
  intros x Hx. by apply Z.mod_small.
Qed.

(** A fragment that has its place in the buffer. *)
Lemma put_place k (s : ufat_lfn_parser) : (k < nf)%nat -> length (lfn_buf s) = 255%nat ->
  put_fragment (Z.of_nat (13 * k)) 13 (sub (13 * k) 13 P) (lfn_buf s) = Some (put (13 * k) (sub (13 * k) 13 P) (lfn_buf s)).
Proof.
  intros Hk Hb. unfold put_fragment. cbn [Z.leb Z.compare]. rewrite (proj2 (Z.leb_le 0 _)), (proj2 (Z.leb_le _ _)) by lia. cbn [andb]. rewrite Nat2Z.id.
  rewrite take_ge; [done|]. rewrite length_sub; lia.
Qed.

Lemma chars_grow k (buf : list Z) : (k < nf)%nat -> length buf = 255%nat ->
  sub (13 * S k) (13 * (nf - S k)) buf = sub (13 * S k) (13 * (nf - S k)) P ->
  sub (13 * k) (13 * (nf - k)) (put (13 * k) (sub (13 * k) 13 P) buf) = sub (13 * k) (13 * (nf - k)) P.
Proof.
  intros Hk Hb Hs. replace (13 * (nf - k))%nat with (13 + 13 * (nf - S k))%nat by lia. rewrite !sub_plus.
  assert (length (sub (13 * k) 13 P) = 13%nat) as HL by (rewrite length_sub; lia).
  rewrite sub_put_same by lia. rewrite sub_put_other by lia. replace (13 * k + 13)%nat with (13 * S k)%nat by lia. by rewrite Hs.
Qed.

Lemma parse_step k s d b p (first : bool) : (k < nf)%nat -> fragment (sub (13 * k) 13 P) (Z.of_nat k + 1) first ck d -> length (lfn_buf s) = 255%nat ->
  (if first then k = (nf - 1)%nat /\ b = blk /\ p = pos else parsing (S k) s) ->
  exists s', ufat_lfn_parse s d b p = Some s' /\ parsing k s'.
Proof.
  intros Hk [F1 F2 F3 F4 F5] Hb Hs. rewrite chars_mod in F5. destruct (seq_bits (Z.of_nat k + 1) ltac:(lia)) as (B1 & B2 & B3 & B4 & B5). rewrite B1 in F2.
  unfold ufat_lfn_parse. rewrite F2, F4, F5. destruct first.
  - destruct Hs as (-> & -> & ->). rewrite B2, (proj2 (Z.eqb_neq _ 0) B3). cbn [negb andb lfn_buf].
    replace ((Z.of_nat (nf - 1) + 1 - 1) * 13) with (Z.of_nat (13 * (nf - 1))) by lia.
    rewrite (proj2 (Z.ltb_ge _ _)) by (unfold UFAT_LFN_MAX_CHARS; lia). rewrite put_place by done. cbn [mbind option_bind start_block start_pos short_checksum lfn_len lfn_seq].
    eexists. split; [done|]. split; cbn [start_block start_pos short_checksum lfn_len lfn_seq lfn_buf]; try done; try lia.
    + rewrite length_put; [done|]. rewrite length_sub; lia.
    + apply chars_grow; [lia|done|]. replace (13 * (nf - S (nf - 1)))%nat with 0%nat by lia. done.
  - rewrite B4, B5. cbn [Z.eqb negb andb]. rewrite (pa_seq _ _ Hs), (pa_checksum _ _ Hs). replace (Z.of_nat (S k)) with (Z.of_nat k + 1) by lia. rewrite !Z.eqb_refl. cbn [negb orb].
    replace ((Z.of_nat k + 1 - 1) * 13) with (Z.of_nat (13 * k)) by lia. rewrite (proj2 (Z.ltb_ge _ _)) by (unfold UFAT_LFN_MAX_CHARS; lia).
    rewrite put_place by done. cbn [mbind option_bind]. eexists. split; [done|]. destruct Hs as [S1 S2 S3 S4 S5 S6].
    split; cbn [start_block start_pos short_checksum lfn_len lfn_seq lfn_buf]; try done; try lia.
    + rewrite length_put; [done|]. rewrite length_sub; lia.
    + by apply chars_grow.
Qed.

(** All of the fragments were there. *)
Lemma parsing_done s : parsing 0 s -> ufat_lfn_ok s = true /\ take (Z.to_nat (lfn_len s)) (lfn_buf s) = take (13 * nf) P.
Proof.
  intros [S1 S2 S3 S4 S5 S6]. unfold ufat_lfn_ok. rewrite S4. split; [done|]. rewrite S3.
  replace (Z.to_nat (13 * Z.of_nat nf)) with (13 * nf)%nat by lia. rewrite Nat.mul_0_r, Nat.sub_0_r in S6. unfold sub in S6. by rewrite !drop_0 in S6.
Qed.
End Parsing.

Lemma fragments_fit (n : nat) : (1 <= n <= 247)%nat -> let nf := Z.to_nat ((Z.of_nat n + 12) / 13) in (1 <= nf)%nat /\ (13 * nf <= 255)%nat /\ (n <= 13 * nf)%nat.
Proof. intros Hn nf. subst nf. Z.to_euclidean_division_equations. lia. Qed.

Lemma name_back s (nf : nat) (buf : list Z) len : ascii s -> (length s <= 13 * nf)%nat -> (13 * nf <= 255)%nat -> take (Z.to_nat len) buf = take (13 * nf) (padded s) ->
  ufat_ucs2_to_utf8 buf len UFAT_LFN_MAX_UTF8 = inr s.
Proof.
  intros Hs Hl Hn Hb. unfold ufat_ucs2_to_utf8. rewrite Hb. unfold padded. rewrite take_app_ge by lia. rewrite take_replicate.
  rewrite utf8_chars_ascii; [done|done| |unfold UFAT_LFN_MAX_UTF8; cbn; lia]. intros c Hc. destruct (Nat.min _ _); [done|]. by injection Hc.
Qed.

Lemma padded_chars s : ascii s -> Forall (fun c => 0 <= c < 2 ^ 16) (padded s).
Proof. intros Hs. apply Forall_app. split; [apply (Forall_impl _ _ _ Hs); lia|apply Forall_replicate; lia]. Qed.

(** * Short names *)

(** What the functions for short names make of any name. *)
Definition dos_name (n : nat) (s : list Z) : Prop := (length s <= n)%nat /\ Forall (fun c => 33 <= c <= 126 /\ c <> 46) s.

Lemma dos_short n s : dos_name n s -> short_part n s.
Proof. intros [H1 H2]. split; [done|]. apply (Forall_impl _ _ _ H2). lia. Qed.

Lemma dos_char_range c : is_byte c -> is_legal_dos_char (schar c) = true -> 33 <= toupper c <= 126 /\ toupper c <> 46.
Proof.
  unfold is_byte, is_legal_dos_char, isalnum, toupper, is_lower, is_upper, is_digit, schar. intros Hc. destruct (Z.ltb_spec c 128); [|lia].
  destruct ((97 <=? c) && (c <=? 122)) eqn:E; lia.
Qed.

Lemma dos_chars_good s : forall room, Forall is_byte s -> dos_name room (dos_chars room s).
Proof.
  induction s as [|c s IH]; intros room Hs; cbn [dos_chars]; [split; [cbn; lia|done]|]. destruct room as [|room]; [split; [cbn; lia|done]|].
  inversion_clear Hs as [|x y Hc Hs']. destruct (is_legal_dos_char (schar c)) eqn:E; [|by apply IH]. destruct (IH room Hs') as [H1 H2].
  split; [cbn; lia|]. constructor; [by apply dos_char_range|done].
Qed.

Lemma short_first_good l : Forall is_byte l -> dos_name 8 (ufat_short_first l).1 /\ (ufat_short_first l).1 <> [] /\ dos_name 3 (ufat_short_first l).2.
Proof.
  intros Hl. unfold ufat_short_first. cbn [fst snd]. split_and!; [|case_bool_decide; done|apply dos_chars_good; by apply Forall_drop].
  case_bool_decide; [|apply dos_chars_good; by apply Forall_take]. split; [done|]. apply Forall_replicate. lia.
Qed.

Lemma last_index_range c s : forall i found, last_index c s i found = found \/ i <= last_index c s i found < i + Z.of_nat (length s).
Proof.
  induction s as [|x s IH]; intros i found; cbn [last_index length]; [by left|]. destruct (IH (i + 1) (if x =? c then i else found)) as [E|E]; [|right; lia].
  rewrite E. destruct (x =? c); [right; lia|by left].
Qed.

Lemma atoi_nonneg s : forall n, 0 <= n -> 0 <= atoi s n.
Proof. induction s as [|c s IH]; intros n Hn; [done|]. cbn. destruct (is_digit c) eqn:E; [|done]. apply IH. unfold is_digit in E. lia. Qed.

Lemma put_digits_spec places : forall num b b' i, put_digits places num b = (b', i) -> (places <= length b)%nat ->
  -1 <= i < Z.of_nat places /\ length b' = length b /\ (num <> 0 -> (0 < places)%nat -> i < Z.of_nat places - 1) /\
  forall j, if decide (i < Z.of_nat j < Z.of_nat places) then exists c, b' !! j = Some c /\ 48 <= c <= 57 else b' !! j = b !! j.
Proof.
  induction places as [|k IH]; intros num b b' i E Hl; cbn [put_digits] in E.
  - injection E as <- <-. split_and!; try lia. intros j. case_decide; [lia|done].
  - destruct (Z.eqb_spec num 0) as [Hz|Hz].
    + injection E as <- <-. split_and!; try lia. intros j. case_decide; [lia|done].
    + destruct (IH (num / 10) _ b' i E) as (H1 & H2 & H3 & H4); [rewrite length_insert; lia|]. rewrite length_insert in H2. split_and!; try lia. intros j. specialize (H4 j).
      pose proof (Z.mod_pos_bound num 10 ltac:(lia)). case_decide as D1; case_decide as D2; try lia; [done| |].
      * assert (j = k) as -> by lia. rewrite list_lookup_insert_eq in H4 by lia. eexists. split; [exact H4|]. lia.
      * rewrite H4, list_lookup_insert_ne by lia. done.
Qed.

Lemma put_tildes_spec count : forall i b, -1 <= i < Z.of_nat (length b) -> Z.of_nat count <= i + 1 ->
  length (put_tildes count i b) = length b /\
  forall j, put_tildes count i b !! j = if decide (i - Z.of_nat count < Z.of_nat j <= i) then Some 126 else b !! j.
Proof.
  induction count as [|n IH]; intros i b Hi Hn; cbn [put_tildes]; [split; [done|]; intros j; case_decide; [lia|done]|].
  destruct (IH (i - 1) (<[Z.to_nat i := 126]> b)) as [H1 H2]; [rewrite length_insert; lia|lia|]. rewrite length_insert in H1. split; [done|]. intros j. rewrite H2.
  repeat case_decide; try lia; try done; [|by rewrite list_lookup_insert_ne by lia]. assert (j = Z.to_nat i) as -> by lia. rewrite list_lookup_insert_eq by lia. done.
Qed.

Lemma short_next_good s : dos_name 8 s -> dos_name 8 (ufat_short_next s) /\ ufat_short_next s <> [].
Proof.
  intros [Hl Hs]. unfold ufat_short_next. set (tilde := if _ <? 0 then _ else _). set (num := atoi _ 0 + 1). set (b0 := s ++ _).
  assert (0 <= tilde <= Z.of_nat (length s)) as Ht by (unfold tilde; destruct (last_index_range 126 s 0 (-1)) as [->|?]; [cbn; lia|destruct (Z.ltb_spec (last_index 126 s 0 (-1)) 0); lia]).
  assert (length b0 = 8%nat) as Hb0 by (unfold b0; lens). assert (0 < num) as Hnum by (pose proof (atoi_nonneg (drop (Z.to_nat tilde) s) 0 ltac:(lia)); lia).
  destruct (put_digits 8 num b0) as [b1 i1] eqn:E1. destruct (put_digits_spec _ _ _ _ _ E1 ltac:(lia)) as (D1 & D2 & D3 & D4). specialize (D3 ltac:(lia) ltac:(lia)).
  set (b2 := if 0 <=? i1 then _ else _). assert (length b2.1 = 8%nat /\ -1 <= b2.2 <= 6 /\ forall j, (j < 8)%nat -> (b2.2 < Z.of_nat j -> exists c, b2.1 !! j = Some c /\ 33 <= c <= 126 /\ c <> 46) /\ (Z.of_nat j <= b2.2 -> b2.1 !! j = b0 !! j)) as (F1 & F2 & F3).
  { unfold b2. destruct (Z.leb_spec 0 i1); cbn [fst snd]; (split_and!; [rewrite ?length_insert; lia|lia|lia|]); intros j Hj; specialize (D4 j); case_decide as D.
    - rewrite list_lookup_insert_ne by lia. split; [|lia]. intros _. destruct D4 as (c & Hc & ?). exists c. split; [done|lia].
    - destruct (decide (j = Z.to_nat i1)) as [->|Hne]; [rewrite list_lookup_insert_eq by lia; split; [|lia]; exists 126; split; [done|lia]|].
      rewrite list_lookup_insert_ne by lia. split; [lia|done].
    - split; [|lia]. intros _. destruct D4 as (c & Hc & ?). exists c. split; [done|lia].
    - lia. }
  clearbody b2. destruct b2 as [b2 i2]. cbn [fst snd] in *.
  destruct (put_tildes_spec (Z.to_nat (i2 - tilde + 1)) i2 b2 ltac:(lia) ltac:(lia)) as [G1 G2].
  split; [split; [lia|]|intros E; rewrite E in G1; cbn in G1; lia]. apply Forall_lookup. intros j c Hc. assert (j < 8)%nat as Hj by (apply lookup_lt_Some in Hc; lia).
  rewrite G2 in Hc. destruct (F3 j Hj) as [F4 F5]. case_decide as D; [injection Hc as <-; lia|].
  destruct (Z.lt_ge_cases i2 (Z.of_nat j)) as [L|L]; [destruct (F4 L) as (c' & Hc' & ?); congruence|]. rewrite (F5 L) in Hc. unfold b0 in Hc.
  rewrite lookup_app_l in Hc by lia. by apply (Forall_lookup_1 _ _ _ _ Hs Hc).
Qed.

(** * Names that are tried one after the other *)

(** The number behind the last '~' of a short name, 0 when there is none. *)
Definition suffix_number (s : list Z) : Z :=
  let at_ := last_index 126 s 0 (-1) in atoi (drop (Z.to_nat (if at_ <? 0 then Z.of_nat (length s) else at_ + 1)) s) 0.

Lemma last_index_app c s t : forall i found, last_index c (s ++ t) i found = last_index c t (i + Z.of_nat (length s)) (last_index c s i found).
Proof.
  induction s as [|x s IH]; intros i found; cbn [app last_index length]; [f_equal; lia|]. rewrite IH. f_equal. lia.
Qed.

Lemma last_index_none c s : forall i found, Forall (fun x => x <> c) s -> last_index c s i found = found.
Proof.
  induction s as [|x s IH]; intros i found H; [done|]. inversion_clear H as [|y z Hx Hs]. cbn [last_index]. rewrite IH by done. by rewrite (proj2 (Z.eqb_neq _ _)).
Qed.

Definition digits (s : list Z) : Prop := Forall (fun c => 48 <= c <= 57) s.

Lemma atoi_digits s : forall n, digits s -> atoi s n = n * 10 ^ Z.of_nat (length s) + atoi s 0.
Proof.
  induction s as [|c s IH]; intros n Hs; [cbn; lia|]. inversion_clear Hs as [|x y Hc Hs']. cbn [atoi length]. assert (is_digit c = true) as -> by (unfold is_digit; lia).
  rewrite IH, (IH (0 * 10 + _)), Nat2Z.inj_succ, Z.pow_succ_r by (done || lia). lia.
Qed.

Lemma put_digits_number places : forall num b b' i, put_digits places num b = (b', i) -> (places <= length b)%nat -> 0 <= num < 10 ^ Z.of_nat places ->
  exists ds, b' = take (Z.to_nat (i + 1)) b ++ ds ++ drop places b /\ digits ds /\ atoi ds 0 = num /\ Z.of_nat (length ds) = Z.of_nat places - (i + 1) /\ -1 <= i /\ (ds = [] \/ 10 ^ (Z.of_nat (length ds) - 1) <= num).
Proof.
  induction places as [|k IH]; intros num b b' i E Hl Hn; cbn [put_digits] in E.
  - injection E as <- <-. exists []. cbn in *. split_and!; try done; try lia. by left.
  - destruct (Z.eqb_spec num 0) as [->|Hz].
    + injection E as <- <-. exists []. replace (Z.to_nat (Z.of_nat k + 1)) with (S k) by lia. cbn [app length]. rewrite take_drop. split_and!; try done; try lia. by left.
    + rewrite Nat2Z.inj_succ, Z.pow_succ_r in Hn by lia. pose proof (Z.mod_pos_bound num 10 ltac:(lia)).
      destruct (IH (num / 10) _ b' i E) as (ds & -> & D1 & D2 & D3 & D4 & D5); [rewrite length_insert; lia|split; [apply Z.div_pos; lia|apply Z.div_lt_upper_bound; lia]|].
      destruct (lookup_lt_is_Some_2 b k) as [x Hx]; [lia|]. exists (ds ++ [num mod 10 + 48]). split_and!.
      * rewrite take_insert_ge by lia. rewrite (drop_S (<[k:=_]> b) (num mod 10 + 48) k) by (apply list_lookup_insert_eq; lia).
        rewrite drop_insert_lt by lia. by rewrite <- app_assoc.
      * apply Forall_app. split; [done|]. constructor; [lia|done].
      * assert (forall s c n, digits s -> 48 <= c <= 57 -> atoi (s ++ [c]) n = atoi s n * 10 + (c - 48)) as Hsnoc.
        { intros s c. induction s as [|y s IHs]; intros m Hs Hc; cbn [app atoi].
          - assert (is_digit c = true) as -> by (unfold is_digit; lia). lia.
          - inversion_clear Hs as [|? ? Hy Hs']. assert (is_digit y = true) as -> by (unfold is_digit; lia). by apply IHs. }
        rewrite Hsnoc by (done || lia). rewrite D2. pose proof (Z.div_mod num 10 ltac:(lia)). lia.
      * rewrite length_app. cbn. lia.
      * done.
      * right. rewrite length_app. cbn [length]. replace (Z.of_nat (length ds + 1) - 1) with (Z.of_nat (length ds)) by lia. destruct D5 as [->|D5]; [cbn; lia|].
        destruct ds as [|d ds]; [cbn; lia|]. cbn [length] in *. rewrite Nat2Z.inj_succ, Z.pow_succ_r by lia.
        replace (Z.of_nat (S (length ds)) - 1) with (Z.of_nat (length ds)) in D5 by lia. pose proof (Z.div_mod num 10 ltac:(lia)). lia.
Qed.

Lemma put_tildes_app count : forall i a b, i < Z.of_nat (length a) -> Z.of_nat count <= i + 1 -> exists a', put_tildes count i (a ++ b) = a' ++ b /\ length a' = length a.
Proof.
  induction count as [|n IH]; intros i a b Hi Hn; cbn [put_tildes]; [by exists a|]. rewrite insert_app_l by lia.
  destruct (IH (i - 1) (<[Z.to_nat i := 126]> a) b) as (a' & -> & Ha); [rewrite length_insert; lia|lia|]. exists a'. by rewrite length_insert in Ha.
Qed.

Lemma suffix_at a ds : digits ds -> suffix_number (a ++ 126 :: ds) = atoi ds 0.
Proof.
  intros Hd. unfold suffix_number. rewrite last_index_app. cbn [last_index]. rewrite Z.eqb_refl, last_index_none by (apply (Forall_impl _ _ _ Hd); lia).
  rewrite (proj2 (Z.ltb_ge _ _)) by lia. replace (Z.to_nat (0 + Z.of_nat (length a) + 1)) with (length a + 1)%nat by lia.
  by rewrite drop_app_add.
Qed.

(** A name that is not free is followed by one with the next number. *)
Lemma short_next_number s : (length s <= 8)%nat -> suffix_number s + 1 < 10 ^ 7 -> suffix_number (ufat_short_next s) = suffix_number s + 1.
Proof.
  intros Hl Hn. assert (0 <= suffix_number s) as H0 by (apply atoi_nonneg; lia). unfold ufat_short_next.
  change (atoi (drop (Z.to_nat (if last_index 126 s 0 (-1) <? 0 then Z.of_nat (length s) else last_index 126 s 0 (-1) + 1)) s) 0) with (suffix_number s).
  set (tilde := if _ <? 0 then _ else _).
  assert (0 <= tilde) as Ht by (unfold tilde; destruct (last_index_range 126 s 0 (-1)) as [->|?]; [cbn; lia|destruct (Z.ltb_spec (last_index 126 s 0 (-1)) 0); lia]).
  set (b0 := s ++ _). assert (length b0 = 8%nat) as Hb0 by (unfold b0; lens).
  destruct (put_digits 8 (suffix_number s + 1) b0) as [b1 i1] eqn:E1. destruct (put_digits_number _ _ _ _ _ E1 ltac:(lia) ltac:(lia)) as (ds & -> & D1 & D2 & D3 & D4 & D5).
  assert (0 <= i1) as Hi1.
  { destruct (Z.leb_spec 0 i1); [done|exfalso]. assert (Z.of_nat (length ds) = 8) as H8 by lia. rewrite H8 in D5. destruct D5 as [->|D5]; [done|]. change (10 ^ (8 - 1)) with (10 ^ 7) in D5. lia. }
  rewrite (proj2 (Z.leb_le _ _) Hi1). rewrite (drop_ge b0) by lia. rewrite app_nil_r.
  assert (exists a, length a = Z.to_nat i1 /\ <[Z.to_nat i1 := 126]> (take (Z.to_nat (i1 + 1)) b0 ++ ds) = a ++ 126 :: ds) as (a & Ha & ->).
  { exists (take (Z.to_nat i1) b0). split; [rewrite length_take; lia|]. destruct (lookup_lt_is_Some_2 b0 (Z.to_nat i1)) as [x Hx]; [lia|].
    replace (Z.to_nat (i1 + 1)) with (S (Z.to_nat i1)) by lia. rewrite (take_S_r _ _ x Hx), <- app_assoc. cbn [app].
    rewrite insert_app_r_alt by (rewrite length_take; lia). rewrite length_take, Nat.min_l, Nat.sub_diag by lia. done. }
  destruct (put_tildes_app (Z.to_nat (i1 - 1 - tilde + 1)) (i1 - 1) a (126 :: ds)) as (a' & -> & _); [lia|lia|]. rewrite suffix_at by done. done.
Qed.

(** * Names that are the same but for the case of their letters *)

Definition upper (s : list Z) : list Z := toupper <$> s.

Lemma upper_cons x s : upper (x :: s) = toupper x :: upper s.
Proof. reflexivity. Qed.

Lemma compare_from_spec a : forall b m, 0 <= m -> (0 <=? compare_from m a b false) = bool_decide (upper a = upper b).
Proof.
  induction a as [|x a IH]; intros b m Hm; cbn [compare_from andb]; destruct b as [|y b].
  - rewrite bool_decide_true by done. lia.
  - by rewrite bool_decide_false.
  - by rewrite bool_decide_false.
  - rewrite !upper_cons. destruct (Z.eqb_spec (toupper x) (toupper y)) as [E|E].
    + rewrite IH by lia. apply bool_decide_ext. rewrite E. split; [by intros ->|by intros [= ->]].
    + rewrite bool_decide_false; [done|]. by intros [= ? _].
Qed.

Lemma compare_name_spec a b : (0 <=? ufat_compare_name a b false) = bool_decide (upper a = upper b).
Proof. by apply compare_from_spec. Qed.

Lemma toupper_tilde x : (toupper x =? 126) = (x =? 126) /\ is_digit (toupper x) = is_digit x /\ (is_digit x = true -> toupper x = x).
Proof. unfold toupper, is_digit, is_lower. destruct ((97 <=? x) && (x <=? 122)) eqn:E; lia. Qed.

Lemma suffix_upper s : suffix_number (upper s) = suffix_number s.
Proof.
  assert (forall t i f, last_index 126 (upper t) i f = last_index 126 t i f) as E1.
  { induction t as [|x t IH]; intros i f; [done|]. rewrite upper_cons. cbn [last_index]. by rewrite IH, (proj1 (toupper_tilde x)). }
  assert (forall t n, atoi (upper t) n = atoi t n) as E2.
  { induction t as [|x t IH]; intros n; [done|]. rewrite upper_cons. cbn [atoi]. destruct (toupper_tilde x) as (_ & -> & Hx). destruct (is_digit x); [|done]. by rewrite Hx, IH. }
  unfold suffix_number. rewrite E1. unfold upper. rewrite length_fmap, <- fmap_drop. apply E2.
Qed.

Definition tried (name : list Z) (k : nat) : list Z := Nat.iter k ufat_short_next name.

Lemma tried_good name k : dos_name 8 name -> name <> [] -> dos_name 8 (tried name k) /\ tried name k <> [].
Proof. intros Hn H0. induction k as [|k [IH _]]; [done|]. by apply short_next_good. Qed.

Lemma tried_number name k : dos_name 8 name -> name <> [] -> suffix_number name + Z.of_nat k < 10 ^ 7 -> suffix_number (tried name k) = suffix_number name + Z.of_nat k.
Proof.
  intros Hn H0. induction k as [|k IH]; intros Hk; [cbn; lia|]. change (tried name (S k)) with (ufat_short_next (tried name k)).
  rewrite short_next_number, IH; [lia|lia|apply (tried_good name k Hn H0)|]. rewrite IH; lia.
Qed.

(** Among more names than there are others, one is new. *)
Lemma some_name_free name (others : list (list Z)) : dos_name 8 name -> name <> [] -> suffix_number name + Z.of_nat (length others) < 10 ^ 7 ->
  exists k, (k <= length others)%nat /\ (upper (tried name k)) ∉ (upper <$> others) /\
    forall j, (j < k)%nat -> (upper (tried name j)) ∈ (upper <$> others).
Proof.
  intros Hn H0 Hk. set (P j := (upper (tried name j)) ∈ (upper <$> others)).
  assert (forall n, (exists k, (k < n)%nat /\ ~ P k /\ forall j, (j < k)%nat -> P j) \/ forall j, (j < n)%nat -> P j) as Hleast.
  { induction n as [|n [(k & ? & ?)|IH]]; [right; lia|left; exists k; split; [lia|done]|]. destruct (decide ((toupper <$> tried name n) ∈ (upper <$> others))) as [Hp|Hp].
    - right. intros j Hj. destruct (decide (j = n)) as [->|]; [done|apply IH; lia].
    - left. exists n. split; [lia|]. by split. }
  destruct (Hleast (S (length others))) as [(k & Hlt & Hnk & Hj)|Hall]; [exists k; split; [lia|done]|exfalso].
  set (L := (fun j => upper (tried name j)) <$> List.seq 0 (S (length others))).
  assert (NoDup L) as Hnd.
  { apply NoDup_fmap_2_strong; [|apply NoDup_seq]. intros i j Hi Hj E. apply elem_of_seq in Hi, Hj. apply (f_equal suffix_number) in E.
    rewrite !suffix_upper, !tried_number in E by (done || lia). lia. }
  assert (L ⊆+ (upper <$> others)) as Hsub.
  { apply NoDup_submseteq; [done|]. intros x Hx. apply list_elem_of_fmap in Hx as (j & -> & Hj). apply elem_of_seq in Hj. apply Hall. lia. }
  apply submseteq_length in Hsub. unfold L in Hsub. rewrite !length_fmap, List.length_seq in Hsub. lia.
Qed.

(** * Everything that is stored is a byte *)

Lemma put_chars_bytes cs : forall o data, Forall is_byte data -> Forall is_byte (put_chars o cs data).
Proof. induction cs as [|c cs IH]; intros o data Hd; [done|]. cbn. apply IH. apply Forall_put; [apply le_encode_bytes|done]. Qed.

Lemma u8_byte x : is_byte (u8 x).
Proof. unfold is_byte, u8. pose proof (Z.mod_pos_bound x (2 ^ 8) ltac:(lia)). lia. Qed.

Lemma pack_fragment_bytes ucs n (b : bool) data ck : 1 <= n <= 20 -> is_byte ck -> Forall is_byte data -> Forall is_byte (ufat_lfn_pack_fragment ucs n b data ck).
Proof.
  intros Hn Hc Hd. unfold ufat_lfn_pack_fragment. apply put_chars_bytes, Forall_put; [repeat constructor; unfold is_byte; lia|].
  apply put_chars_bytes, Forall_put; [constructor; [done|constructor; [unfold is_byte; lia|by constructor]]|]. apply put_chars_bytes, Forall_put; [|done].
  constructor; [|done]. destruct b; [|apply u8_byte]. destruct (seq_bits n Hn) as (-> & _).
  assert (Forall (fun n => is_byte (Z.lor n 0x40)) (seqZ 1 20)) as H by (apply (bool_decide_unpack _); vm_compute; exact I).
  rewrite Forall_forall in H. apply H, elem_of_seqZ. lia.
Qed.

Lemma pack_dirent_bytes type e data : dirent_ok type e -> Forall is_byte data -> Forall is_byte (ufat_pack_dirent e data).
Proof.
  intros He Hd. unfold ufat_pack_dirent, w16, w32. destruct (ok_name _ _ He) as [_ Hn], (ok_ext _ _ He) as [_ Hx].
  repeat (apply Forall_put; [apply le_encode_bytes|]). apply Forall_put; [constructor; [apply u8_byte|repeat constructor; unfold is_byte; lia]|].
  apply Forall_put; [apply (Forall_impl _ _ _ Hx); unfold is_byte; lia|]. apply Forall_put; [apply (Forall_impl _ _ _ Hn); unfold is_byte; lia|].
  apply Forall_put; [apply Forall_replicate; unfold is_byte; lia|done].
Qed.

Lemma checksum_byte name ext : is_byte (ufat_short_checksum name ext).
Proof.
  assert (forall l x, is_byte x -> is_byte (foldl cksum_next x l)) as H by (induction l as [|c l IH]; intros x Hx; [done|apply IH, u8_byte]).
  unfold ufat_short_checksum, cksum_part. repeat apply H. unfold is_byte. lia.
Qed.

(** * An entry is no fragment, and not an empty one *)

Lemma packed_first type e data c s : dirent_ok type e -> length data = 32%nat -> short_name e = c :: s -> byte_at 0 (ufat_pack_dirent e data) = c.
Proof.
  intros He Hd En. rewrite byte_at_sub, pack_split. rewrite sub_packed_numbers by (first [lia | by eapply length_packed_names]). rewrite lookup_sub by lia.
  pose proof (packed_name type e data He Hd) as Hp. rewrite En in Hp. apply (f_equal (fun l => l !! 0%nat)) in Hp. rewrite lookup_sub in Hp by lia. cbn [app lookup list_lookup] in Hp. by rewrite Hp.
Qed.

Lemma packed_head type e data : dirent_ok type e -> length data = 32%nat -> dos_name 8 (short_name e) -> short_name e <> [] ->
  33 <= byte_at 0 (ufat_pack_dirent e data) <= 126.
Proof.
  intros He Hd [_ Hn] H0. destruct (short_name e) as [|c s] eqn:En; [done|]. rewrite (packed_first type e data c s He Hd En). inversion_clear Hn as [|? ? [? _] _]. done.
Qed.

Lemma packed_attributes type e data : dirent_ok type e -> length data = 32%nat -> byte_at 0x0b (ufat_pack_dirent e data) = attributes e.
Proof.
  intros He Hd. rewrite pack_split. destruct (numbers_parsed e (packed_names e data)) as [-> _]; [by eapply length_packed_names|]. apply u8_id, He.
Qed.
