(* ===== verification/UfatMkfs.v ===== *)
(** Formatting a device: the layout, the tables and the boot sector of ufat_mkfs.c. *)

From stdpp Require Import strings.
From S2P Require Import Prelude UfatDev UfatBpb.
#[local] Open Scope Z_scope.

Definition BACKUP_SECTOR : Z := 6.
Definition FSINFO_SECTOR : Z := 1.
Definition MEDIA_DISK : Z := 0xf8.
Definition UINT32_MAX : Z := 0xffffffff.

Record fs_layout := mkLayout {
  log2_sector_size : Z; log2_bpc : Z;
  reserved_blocks : Z; root_blocks : Z; fat_blocks : Z; logical_blocks : Z;
  clusters : Z; layout_type : Z }.

Definition bytes_to_blocks (log2 bytes : Z) : Z := Z.shiftr (u32 (bytes + Z.shiftl 1 log2 - 1)) log2.

(** Larger sectors until their number fits 32 bits. *)
Fixpoint bps_loop (fuel : nat) (log2 nblk log2_bps : Z) : Z :=
  match fuel with
  | O => log2_bps
  | S fuel => if (log2 + log2_bps <? 12) && (UINT32_MAX <? Z.shiftr nblk log2_bps) then bps_loop fuel log2 nblk (log2_bps + 1) else log2_bps
  end.

(** Larger clusters until their number is below the threshold. *)
Fixpoint spc_loop (fuel : nat) (log2_sector nsect threshold log2_spc : Z) : Z :=
  match fuel with
  | O => log2_spc
  | S fuel =>
      if (log2_spc <? 7) && (log2_sector + log2_spc <? 15) && (threshold <? Z.shiftr nsect log2_spc)
      then spc_loop fuel log2_sector nsect threshold (log2_spc + 1) else log2_spc
  end.

Definition calculate_layout (nblk log2_block_size : Z) : Z + fs_layout :=
  if 12 <? log2_block_size then inl (- UFAT_ERR_BLOCK_SIZE)
  else
    let log2_bps := bps_loop 12 log2_block_size nblk (if log2_block_size <? 9 then 9 - log2_block_size else 0) in
    let nblk := if UINT32_MAX <? Z.shiftr nblk log2_bps then u64 (Z.shiftl UINT32_MAX log2_bps) else nblk in
    let log2_sector := log2_block_size + log2_bps in
    let nsect := u32 (Z.shiftr nblk log2_bps) in
    let '(ty, threshold, spc) :=
      if nsect <? 8400 then (UFAT_TYPE_FAT12, Z.shiftl 1 12, 1)
      else if nsect <? 1048576 then (UFAT_TYPE_FAT16, Z.shiftl 1 16, 1)
      else (UFAT_TYPE_FAT32, 2097152, 3) in
    let log2_spc := spc_loop 7 log2_sector nsect threshold spc in
    let bpc := log2_bps + log2_spc in
    let reserved := Z.shiftl (if ty =? UFAT_TYPE_FAT32 then 32 else 1) log2_bps in
    let est_clusters := u32 (Z.shiftr (u64 (nblk - reserved)) bpc + 2) in
    let fat_bytes := u32 (if ty =? UFAT_TYPE_FAT32 then Z.shiftl est_clusters 2
                          else if ty =? UFAT_TYPE_FAT16 then Z.shiftl est_clusters 1 else Z.shiftr (u32 (est_clusters * 3 + 1)) 1) in
    let fblocks := bytes_to_blocks log2_block_size fat_bytes in
    let rblocks := if ty =? UFAT_TYPE_FAT32 then 0 else bytes_to_blocks log2_block_size 16384 in
    let nclusters := u32 (Z.shiftr (u64 (nblk - reserved - rblocks - fblocks * 2)) bpc + 2) in
    let rblocks := if ty =? UFAT_TYPE_FAT32 then rblocks else u64 (nblk - reserved - fblocks * 2 - u32 (Z.shiftl (u32 (nclusters - 2)) bpc)) in
    let logical := u64 (u32 (Z.shiftl (u32 (nclusters - 2)) bpc) + fblocks * 2 + reserved + rblocks) in
    inr (mkLayout log2_sector bpc reserved rblocks fblocks logical nclusters ty).

(** * The boot sector *)

Definition store (o : nat) (new : list Z) (data : list Z) : list Z := put o new data.
Definition boot_header : list Z := [0xeb; 0xfe; 0x90] ++ chars "ufat    ".

(** The bytes of the boot sector, a store after the other. *)
Definition boot_sector (log2_block_size : Z) (fl : fs_layout) : list Z :=
  let log2_bps := log2_sector_size fl - log2_block_size in
  let is32 := layout_type fl =? UFAT_TYPE_FAT32 in
  let name := if layout_type fl =? UFAT_TYPE_FAT12 then "FAT12   "
              else if layout_type fl =? UFAT_TYPE_FAT16 then "FAT16   " else if is32 then "FAT32   " else "FAT     " in
  let buf := replicate (Z.to_nat (Z.shiftl 1 log2_block_size)) 0 in
  let buf := store 0 boot_header buf in
  let buf := store 0x1fe [0x55] buf in
  let buf := store 0x1ff [0xaa] buf in
  let buf := w16 0x00b (Z.shiftl 1 (log2_sector_size fl)) buf in
  let buf := store 0x00d [u8 (Z.shiftl 1 (log2_bpc fl - log2_bps))] buf in
  let buf := w16 0x00e (Z.shiftl (reserved_blocks fl) log2_bps) buf in
  let buf := store 0x010 [2] buf in
  let buf := w16 0x011 (Z.shiftl (root_blocks fl) (log2_block_size - 5)) buf in
  let buf := if negb is32 && (logical_blocks fl <=? 0xffff) then w16 0x013 (Z.shiftl (logical_blocks fl) log2_bps) buf
             else w32 0x020 (Z.shiftl (logical_blocks fl) log2_bps) buf in
  let buf := store 0x015 [MEDIA_DISK] buf in
  if negb is32 then
    let buf := w16 0x016 (Z.shiftl (fat_blocks fl) log2_bps) buf in
    let buf := store 0x026 [0x29] buf in
    let buf := store 0x02b (replicate 11 32) buf in
    store 0x036 (chars name) buf
  else
    let buf := w32 0x024 (Z.shiftl (fat_blocks fl) log2_bps) buf in
    let buf := w32 0x02c 2 buf in
    let buf := w16 0x030 1 buf in
    let buf := w16 0x032 BACKUP_SECTOR buf in
    let buf := store 0x042 [0x29] buf in
    let buf := store 0x047 (replicate 11 32) buf in
    store 0x052 (chars name) buf.

(** * The first blocks of the tables *)

(** A block of a FAT12 table, from byte [minor] of pair [pair] of clusters on. *)
Fixpoint fat12_bytes (n : nat) (nclusters minor cpair : Z) : list Z * Z * Z :=
  match n with
  | O => ([], minor, cpair)
  | S n =>
      let pair_data := if nclusters <=? Z.shiftl cpair 1 then 0xff7ff7 else if nclusters <=? Z.shiftl cpair 1 + 1 then 0xff7000 else 0 in
      let x := u8 (Z.shiftr pair_data (Z.shiftl minor 3)) in
      let '(minor', cpair') := if 3 <=? minor + 1 then (0, cpair + 1) else (minor + 1, cpair) in
      let '(l, m, p) := fat12_bytes n nclusters minor' cpair' in (x :: l, m, p)
  end.

(** A block of a table with [n] entries of [k] bytes, from cluster [c] on. *)
Fixpoint fat_entries (n k : nat) (bad nclusters c : Z) : list Z :=
  match n with
  | O => []
  | S n => le_encode k (if nclusters <=? c then bad else 0) ++ fat_entries n k bad nclusters (c + 1)
  end.

Section Mkfs.
Context {D : Type} {BD : BlockDevice D}.

Definition dev_store (b : Z) (data : list Z) : prog D Z := fun d => let '(rc, d) := dev_write b 1 data d in Ret rc d.

(** A failed write ends the formatting. *)
Definition put_block (b : Z) (data : list Z) : result D unit :=
  rc ← dev_store b data; if rc <? 0 then fail UFAT_ERR_IO else ok tt.

Fixpoint erase_blocks (n : nat) (start : Z) : result D unit :=
  match n with
  | O => ok tt
  | S n => put_block (u64 start) (replicate block_size 0) ;? erase_blocks n (start + 1)
  end.

Fixpoint fat12_loop (n : nat) (fl : fs_layout) (i block minor cpair : Z) : result D unit :=
  match n with
  | O => ok tt
  | S n =>
      let '(block, minor, cpair) := if block =? fat_blocks fl then (0, 0, 0) else (block, minor, cpair) in
      let '(buf, minor, cpair) := fat12_bytes block_size (clusters fl) minor cpair in
      let buf := if block =? 0 then store 0 [MEDIA_DISK; 0x8f; 0xff] buf else buf in
      put_block (u64 (reserved_blocks fl + i)) buf ;? fat12_loop n fl (i + 1) (block + 1) minor cpair
  end.

Definition init_fat12 (fl : fs_layout) : result D unit := fat12_loop (Z.to_nat (fat_blocks fl * 2)) fl 0 0 0 0.

(** The tables with entries of [k] bytes, [per] in a block; [first] are the reserved entries. *)
Fixpoint fat_loop (n per k : nat) (bad : Z) (first : list Z) (fl : fs_layout) (i block c : Z) : result D unit :=
  match n with
  | O => ok tt
  | S n =>
      let '(block, c) := if block =? fat_blocks fl then (0, 0) else (block, c) in
      let buf := fat_entries per k bad (clusters fl) c in
      let buf := if block =? 0 then store 0 first buf else buf in
      put_block (u64 (reserved_blocks fl + i)) buf ;? fat_loop n per k bad first fl (i + 1) (block + 1) (c + Z.of_nat per)
  end.

Definition init_fat16 (fl : fs_layout) : result D unit :=
  fat_loop (Z.to_nat (fat_blocks fl * 2)) (block_size / 2) 2 0xfff7 (le_encode 2 (Z.lor 0xff00 MEDIA_DISK) ++ le_encode 2 0xfff8) fl 0 0 0.

Definition init_fat32 (fl : fs_layout) : result D unit :=
  fat_loop (Z.to_nat (fat_blocks fl * 2)) (block_size / 4) 4 0xfffffff7
    (le_encode 4 (Z.lor 0xffffff00 MEDIA_DISK) ++ le_encode 4 0xfffffff8 ++ le_encode 4 0xfffffff8) fl 0 0 0.

Definition init_root_blocks (fl : fs_layout) : result D unit :=
  erase_blocks (Z.to_nat (root_blocks fl)) (u64 (fat_blocks fl * 2 + reserved_blocks fl)).

Definition init_root_cluster (fl : fs_layout) : result D unit :=
  erase_blocks (Z.to_nat (Z.shiftl 1 (log2_bpc fl))) (u64 (fat_blocks fl * 2 + reserved_blocks fl + root_blocks fl)).

Definition fsinfo (fl : fs_layout) : list Z :=
  w32 0x1fc 0xaa550000 (w32 0x1ec 2 (w32 0x1e8 (clusters fl - 3) (w32 0x1e4 0x61417272 (w32 0 0x41615252 (replicate block_size 0))))).

Definition write_fsinfo (fl : fs_layout) : result D unit :=
  let log2_bps := log2_sector_size fl - log2_block_size in
  put_block (Z.shiftr FSINFO_SECTOR log2_bps) (fsinfo fl) ;?
  put_block (Z.shiftr (FSINFO_SECTOR + BACKUP_SECTOR) log2_bps) (fsinfo fl).

Definition write_bpb (fl : fs_layout) : result D unit :=
  let buf := boot_sector log2_block_size fl in
  put_block 0 buf ;?
  if layout_type fl =? UFAT_TYPE_FAT32 then put_block (Z.shiftr BACKUP_SECTOR (log2_sector_size fl - log2_block_size)) buf else ok tt.

Definition ufat_mkfs (nblk : Z) : result D unit :=
  match calculate_layout nblk log2_block_size with
  | inl e => mret (inl e)
  | inr fl =>
      erase_blocks (Z.to_nat (reserved_blocks fl)) 0 ;?
      (if layout_type fl =? UFAT_TYPE_FAT12 then init_fat12 fl
       else if layout_type fl =? UFAT_TYPE_FAT16 then init_fat16 fl else init_fat32 fl) ;?
      (if layout_type fl =? UFAT_TYPE_FAT32 then init_root_cluster fl else init_root_blocks fl) ;?
      (if layout_type fl =? UFAT_TYPE_FAT32 then write_fsinfo fl else ok tt) ;?
      write_bpb fl
  end.
End Mkfs.
