(* ===== verification/UfatFile.v ===== *)
(** Files, ufat_file.c: reading, writing and truncating at the position of an open file. *)

From S2P Require Import Prelude UfatDev UfatCache UfatFat UfatBpb.
#[local] Open Scope Z_scope.

Record ufat_file := mkFile {
  dirent_block : Z; dirent_pos : Z;
  file_start : Z; file_size : Z;
  prev_cluster : Z; cur_cluster : Z; cur_pos : Z }.

Definition set_file_start x (f : ufat_file) := mkFile (dirent_block f) (dirent_pos f) x (file_size f) (prev_cluster f) (cur_cluster f) (cur_pos f).
Definition set_file_size x (f : ufat_file) := mkFile (dirent_block f) (dirent_pos f) (file_start f) x (prev_cluster f) (cur_cluster f) (cur_pos f).
Definition set_cur_cluster x (f : ufat_file) := mkFile (dirent_block f) (dirent_pos f) (file_start f) (file_size f) (prev_cluster f) x (cur_pos f).
Definition set_position prev cur pos (f : ufat_file) := mkFile (dirent_block f) (dirent_pos f) (file_start f) (file_size f) prev cur pos.

Section File.
Context {D : Type} {BD : BlockDevice D}.

(** The file system and the file that is open in it. *)
Record opened := mkOpened { fs : ufat D; fd : ufat_file }.

Definition set_fs x o := mkOpened x (fd o).
Definition set_fd x o := mkOpened (fs o) x.

(** A call of a function on the file system. *)
Definition on_fs {A} (m : prog (ufat D) A) : prog opened A := zoom fs set_fs m.
Definition upd_file (g : ufat_file -> ufat_file) : prog opened unit := modify (fun o => set_fd (g (fd o)) o).
Definition the_bpb : prog opened ufat_bpb := gets (fun o => bpb (fs o)).

Definition ufat_file_rewind : prog opened unit := upd_file (fun f => set_position 0 (file_start f) 0 f).

(** [nclusters] steps along the chain. *)
Fixpoint advance_loop (nclusters : nat) (c prev : Z) : result opened (Z * Z) :=
  match nclusters with
  | O => ok (c, prev)
  | S n => next ⇐ on_fs (ufat_read_fat c); advance_loop n next c
  end.

Definition advance_ptr (nbytes : Z) : result opened unit :=
  f ← gets fd;
  p ← the_bpb;
  let log2_cluster_size := log2_block_size + log2_blocks_per_cluster p in
  let end_pos := u32 (cur_pos f + nbytes) in
  let nclusters := u32 (Z.shiftr end_pos log2_cluster_size - Z.shiftr (cur_pos f) log2_cluster_size) in
  '(c, prev) ⇐ advance_loop (Z.to_nat nclusters) (cur_cluster f) (prev_cluster f);
  upd_file (set_position prev c end_pos);;
  ok tt.

Definition ufat_file_advance (nbytes : Z) : result opened unit :=
  f ← gets fd;
  let room := u32 (file_size f - cur_pos f) in
  advance_ptr (if room <? nbytes then room else nbytes).

(** Offset in the block, block in the cluster, and the block of the position. *)
Definition block_offset (f : ufat_file) : Z := Z.land (cur_pos f) (Z.shiftl 1 log2_block_size - 1).
Definition cluster_offset (p : ufat_bpb) (f : ufat_file) : Z :=
  Z.land (Z.shiftr (cur_pos f) log2_block_size) (Z.shiftl 1 (log2_blocks_per_cluster p) - 1).
Definition cur_block (p : ufat_bpb) (f : ufat_file) : Z := u64 (cluster_to_block p (cur_cluster f) + cluster_offset p f).

(** The part of [size] bytes that lies in a partial block at the position. *)
Definition fragment_size (f : ufat_file) (size : Z) : Z :=
  let remainder := Z.shiftl 1 log2_block_size - block_offset f in
  Z.land (if remainder <? size then remainder else size) (Z.shiftl 1 log2_block_size - 1).

(** The bytes that are read. *)
Definition read_block_fragment (size : Z) : result opened (list Z) :=
  f ← gets fd;
  p ← the_bpb;
  let size := fragment_size f size in
  if size =? 0 then ok []
  else if negb (UFAT_CLUSTER_IS_PTR (cur_cluster f)) then fail UFAT_ERR_INVALID_CLUSTER
  else
    i ⇐ on_fs (ufat_cache_open (cur_block p f) false);
    data ← on_fs (ufat_cache_data i);
    let bytes := sub (Z.to_nat (block_offset f)) (Z.to_nat size) data in
    advance_ptr size ;? ok bytes.

(** Whole blocks at the position, no more than the cluster has left. *)
Definition whole_blocks (p : ufat_bpb) (f : ufat_file) (size : Z) : Z :=
  let remainder := Z.shiftl 1 (log2_blocks_per_cluster p) - cluster_offset p f in
  let requested := Z.shiftr size log2_block_size in
  if remainder <? requested then remainder else requested.

(** Reads into the front of [buf]. *)
Definition read_blocks (buf : list Z) (size : Z) : result opened (list Z) :=
  f ← gets fd;
  p ← the_bpb;
  let n := whole_blocks p f size in
  if n =? 0 then ok []
  else if negb (UFAT_CLUSTER_IS_PTR (cur_cluster f)) then fail UFAT_ERR_INVALID_CLUSTER
  else
    let start := cur_block p f in
    on_fs (ufat_cache_evict start n) ;?
    ('(rc, data) ← on_fs (io_read start n (take (Z.to_nat (Z.shiftl n log2_block_size)) buf));
     if rc <? 0 then fail UFAT_ERR_IO
     else
       on_fs (count (count_read n));;
       (advance_ptr (u32 (Z.shiftl n log2_block_size)) ;? ok data)).

Fixpoint read_loop (fuel : nat) (buf : list Z) (size : Z) : result opened (list Z * Z) :=
  match fuel with
  | O => nofuel
  | S fuel =>
      data ⇐ read_blocks buf size;
      if bool_decide (data = []) then ok ([], size)
      else
        '(rest, size) ⇐ read_loop fuel (drop (length data) buf) (size - Z.of_nat (length data));
        ok (data ++ rest, size)
  end.

(** The bytes that are read into [buf], which has room for [size]. *)
Definition ufat_file_read (buf : list Z) (size : Z) : result opened (list Z) :=
  f ← gets fd;
  let room := u32 (file_size f - cur_pos f) in
  let size := if room <? size then room else size in
  a ⇐ read_block_fragment size;
  let size := size - Z.of_nat (length a) in
  '(b, size) ⇐ read_loop (S (Z.to_nat (Z.shiftr size log2_block_size))) (drop (length a) buf) size;
  c ⇐ read_block_fragment size;
  ok (a ++ b ++ c).

(** * Writing *)

(** A store into the directory entry of the file. *)
Definition on_dirent (g : nat -> list Z -> list Z) : result opened unit :=
  f ← gets fd;
  i ⇐ on_fs (ufat_cache_open (dirent_block f) false);
  on_fs (ufat_cache_write i);;
  on_fs (update_data i (g (Z.to_nat (dirent_pos f * UFAT_DIRENT_SIZE))));;
  ok tt.

Definition set_size (s : Z) : result opened unit :=
  on_dirent (fun o => w32 (o + 0x1c) s) ;? (upd_file (set_file_size s);; ok tt).

Definition set_start (s : Z) : result opened unit :=
  on_dirent (fun o data => w16 (o + 0x1a) (Z.land s 0xffff) (w16 (o + 0x14) (Z.shiftr s 16) data)) ;?
  (upd_file (set_file_start s);; ok tt).

Definition ensure_room : result opened unit :=
  f ← gets fd;
  if UFAT_CLUSTER_IS_PTR (cur_cluster f) then ok tt
  else
    c ⇐ on_fs (ufat_alloc_chain 1);
    r ← (if UFAT_CLUSTER_IS_PTR (prev_cluster f) then on_fs (ufat_write_fat (prev_cluster f) c) else set_start c);
    match r with
    | inl e => on_fs (ufat_free_chain c);; mret (inl e)
    | inr _ => upd_file (set_cur_cluster c);; ok tt
    end.

(** The number of bytes of [data] that are written. *)
Definition write_block_fragment (data : list Z) (size : Z) : result opened Z :=
  f ← gets fd;
  p ← the_bpb;
  let size := fragment_size f size in
  if size =? 0 then ok 0
  else
    ensure_room ;?
    (f ← gets fd;
     i ⇐ on_fs (ufat_cache_open (cur_block p f) false);
     on_fs (ufat_cache_write i);;
     on_fs (update_data i (put (Z.to_nat (block_offset f)) (take (Z.to_nat size) data)));;
     (advance_ptr size ;? ok size)).

Definition write_blocks (data : list Z) (size : Z) : result opened Z :=
  f ← gets fd;
  p ← the_bpb;
  let n := whole_blocks p f size in
  if n =? 0 then ok 0
  else
    ensure_room ;?
    (f ← gets fd;
     let start := cur_block p f in
     on_fs (ufat_cache_invalidate start n);;
     rc ← on_fs (io_write start n (take (Z.to_nat (Z.shiftl n log2_block_size)) data));
     if rc <? 0 then fail UFAT_ERR_IO
     else
       on_fs (count (count_write n));;
       (advance_ptr (u32 (Z.shiftl n log2_block_size)) ;? ok (Z.shiftl n log2_block_size))).

Fixpoint write_loop (fuel : nat) (data : list Z) (len : Z) : result opened (list Z * Z) :=
  match fuel with
  | O => nofuel
  | S fuel =>
      n ⇐ write_blocks data len;
      if n =? 0 then ok (data, len) else write_loop fuel (drop (Z.to_nat n) data) (len - n)
  end.

(** [data] has at least [len] bytes; the result is the number of bytes written. *)
Definition ufat_file_write (data : list Z) (len : Z) : result opened Z :=
  f ← gets fd;
  let max_write := 0xffffffff - cur_pos f in
  let len := if max_write <? len then max_write else len in
  let total := len in
  n ⇐ write_block_fragment data len;
  '(data, len) ⇐ write_loop (S (Z.to_nat (Z.shiftr len log2_block_size))) (drop (Z.to_nat n) data) (len - n);
  n ⇐ write_block_fragment data len;
  f ← gets fd;
  (if file_size f <? cur_pos f then set_size (cur_pos f) else ok tt) ;?
  ok total.

(** * Truncating *)

Definition ufat_file_truncate : result opened unit :=
  f ← gets fd;
  p ← the_bpb;
  let cluster_size := Z.shiftl 1 (log2_blocks_per_cluster p + log2_block_size) in
  set_size (cur_pos f) ;?
  if cur_pos f =? 0 then
    set_start 0 ;?
    (if UFAT_CLUSTER_IS_PTR (file_start f) then on_fs (ufat_free_chain (file_start f)) else ok tt) ;?
    (upd_file (set_cur_cluster 0);; ok tt)
  else if negb (Z.land (cur_pos f) (cluster_size - 1) =? 0) then
    tail ⇐ on_fs (ufat_read_fat (cur_cluster f));
    on_fs (ufat_write_fat (cur_cluster f) UFAT_CLUSTER_EOC) ;?
    (if UFAT_CLUSTER_IS_PTR tail then on_fs (ufat_free_chain tail) else ok tt)
  else if UFAT_CLUSTER_IS_PTR (cur_cluster f) then
    on_fs (ufat_write_fat (prev_cluster f) UFAT_CLUSTER_EOC) ;?
    (on_fs (ufat_free_chain (cur_cluster f));;
     upd_file (set_cur_cluster 0);;
     ok tt)
  else ok tt.
End File.
