(* ===== verification/UfatDir.v ===== *)
(** Directories: the raw entries of ufat_ent.c, and ufat_dir.c - reading, creating, deleting,
    finding and moving entries. *)

From S2P Require Import Prelude UfatDev UfatCache UfatFat UfatBpb UfatFile UfatName.
#[local] Open Scope Z_scope.

(** The pointer to the file system is left out: there is one only. *)
Record ufat_directory := mkDir { dir_pos : Z; dir_block : Z; dir_start : Z }.

Definition ufat_open_root (p : ufat_bpb) : ufat_directory :=
  let start := if root_cluster p =? 0 then root_start p else cluster_to_block p (root_cluster p) in
  mkDir 0 start start.

Definition ufat_open_subdir (p : ufat_bpb) (ent : ufat_dirent) : Z + ufat_directory :=
  if Z.land (attributes ent) UFAT_ATTR_DIRECTORY =? 0 then inl (- UFAT_ERR_NOT_DIRECTORY)
  else if (ent_block ent =? UFAT_BLOCK_NONE) || (first_cluster ent =? 0) then inr (ufat_open_root p)
  else let start := cluster_to_block p (first_cluster ent) in inr (mkDir 0 start start).

Definition ufat_open_file (ent : ufat_dirent) : Z + ufat_file :=
  if negb (Z.land (attributes ent) UFAT_ATTR_DIRECTORY =? 0) then inl (- UFAT_ERR_NOT_FILE)
  else inr (mkFile (ent_block ent) (ent_pos ent) (first_cluster ent) (ent_size ent) 0 (first_cluster ent) 0).

Section Directory.
Context {D : Type} {BD : BlockDevice D}.

(** The file system and a directory that is open in it. *)
Record walk := mkWalk { wfs : ufat D; wdir : ufat_directory }.

Definition set_wfs x w := mkWalk x (wdir w).
Definition set_wdir x w := mkWalk (wfs w) x.

(** A call of a function on the file system. *)
Definition on_ufat {A} (m : prog (ufat D) A) : prog walk A := zoom wfs set_wfs m.
Definition move_to (b pos : Z) : prog walk unit := modify (fun w => set_wdir (mkDir pos b (dir_start (wdir w))) w).
Definition walk_bpb : prog walk ufat_bpb := gets (fun w => bpb (wfs w)).

(** A directory that is a local variable of the function. *)
Definition with_dir {A} (d : ufat_directory) (m : prog walk A) : prog (ufat D) A := fun u =>
  match m (mkWalk u d) with
  | Ret a w => Ret a (wfs w)
  | Exit c w => Exit c (wfs w)
  | Undef => Undef
  | NoFuel => NoFuel
  end.

(** Enough rounds for a loop over the entries of a directory whose chain does not meet itself:
    no directory has more entries than the root directory and all of the clusters together. *)
Definition entries_per_block : Z := Z.shiftr (Z.shiftl 1 log2_block_size) 5.
Definition dir_fuel (p : ufat_bpb) : nat :=
  S (Z.to_nat ((root_size p + Z.shiftl (num_clusters p) (log2_blocks_per_cluster p)) * entries_per_block)).

(** * Raw entries *)

(** An entry at [pos] lies in its block. *)
Definition entry_inside (pos n : Z) : bool := (0 <=? pos) && (pos * UFAT_DIRENT_SIZE + n <=? Z.of_nat block_size).
Definition entry_offset (pos : Z) : nat := Z.to_nat (pos * UFAT_DIRENT_SIZE).

Definition ufat_write_raw_dirent (data : list Z) : result walk unit :=
  d ← gets wdir;
  if dir_block d =? UFAT_BLOCK_NONE then fail UFAT_ERR_IO
  else
    idx ⇐ on_ufat (ufat_cache_open (dir_block d) false);
    on_ufat (ufat_cache_write idx);;
    require (entry_inside (dir_pos d) (Z.of_nat (length data)));;
    on_ufat (update_data idx (put (entry_offset (dir_pos d)) data));;
    ok tt.

(** [None] at the end of the directory. *)
Definition ufat_read_raw_dirent : result walk (option (list Z)) :=
  d ← gets wdir;
  if dir_block d =? UFAT_BLOCK_NONE then ok None
  else
    idx ⇐ on_ufat (ufat_cache_open (dir_block d) false);
    data ← on_ufat (ufat_cache_data idx);
    require (entry_inside (dir_pos d) UFAT_DIRENT_SIZE);;
    ok (Some (sub (entry_offset (dir_pos d)) (Z.to_nat UFAT_DIRENT_SIZE) data)).

(** The blocks of a cluster are cleared, the last one first. *)
Fixpoint init_loop (count : nat) (start : Z) : result (ufat D) unit :=
  match count with
  | O => ok tt
  | S i =>
      idx ⇐ ufat_cache_open (u64 (start + Z.of_nat i)) true;
      ufat_cache_write idx;;
      put_cache_data idx (replicate block_size 0);;
      init_loop i start
  end.

Definition ufat_init_dirent_cluster (c : Z) : result (ufat D) unit :=
  p ← gets bpb; init_loop (Z.to_nat (Z.shiftl 1 (log2_blocks_per_cluster p))) (cluster_to_block p c).

(** The chain is freed when a step after its allocation fails. *)
Definition or_free {A} (c : Z) (m : result (ufat D) A) : result (ufat D) A :=
  r ← m;
  match r with
  | inl e => ufat_free_chain c;; mret (inl e)
  | inr a => ok a
  end.

(** The block that comes next when the chain of the directory has to be followed. *)
Definition next_in_chain (cur_cluster : Z) (can_alloc : bool) : result (ufat D) Z :=
  p ← gets bpb;
  next ⇐ ufat_read_fat cur_cluster;
  if UFAT_CLUSTER_IS_PTR next then ok (cluster_to_block p next)
  else if negb can_alloc then ok UFAT_BLOCK_NONE
  else
    c ⇐ ufat_alloc_chain 1;
    or_free c (ufat_init_dirent_cluster c) ;?
    or_free c (ufat_write_fat cur_cluster c) ;?
    ok (cluster_to_block p c).

Definition advance_block_in_chain (can_alloc : bool) : result walk unit :=
  p ← walk_bpb;
  d ← gets wdir;
  let cur_cluster := block_to_cluster p (dir_block d) in
  let next_block := u64 (dir_block d + 1) in
  if cur_cluster =? block_to_cluster p next_block then move_to next_block (dir_pos d);; ok tt
  else
    b ⇐ on_ufat (next_in_chain cur_cluster can_alloc);
    move_to b (dir_pos d);;
    ok tt.

Definition ufat_advance_raw_dirent (can_alloc : bool) : result walk unit :=
  p ← walk_bpb;
  d ← gets wdir;
  let pos := u32 (dir_pos d + 1) in
  if Z.shiftl 1 log2_block_size <=? u32 (pos * UFAT_DIRENT_SIZE) then
    move_to (dir_block d) 0;;
    if dir_block d <? cluster_start p then
      let b := dir_block d + 1 in
      move_to (if cluster_start p <=? b then UFAT_BLOCK_NONE else b) 0;;
      ok tt
    else advance_block_in_chain can_alloc
  else move_to (dir_block d) pos;; ok tt.

Definition ufat_dir_rewind : prog walk unit := modify (fun w => set_wdir (mkDir 0 (dir_start (wdir w)) (dir_start (wdir w))) w).

Definition is_empty_entry (data : list Z) : bool := (byte_at 0 data =? 0) || (byte_at 0 data =? 0xe5).

(** The place and the length of the run of empty entries that is being counted. *)
Fixpoint allocate_loop (fuel : nat) (count start pos empty : Z) : result walk unit :=
  match fuel with
  | O => nofuel
  | S fuel =>
      r ⇐ ufat_read_raw_dirent;
      data ← of_option r;
      d ← gets wdir;
      let '(start, pos, empty) :=
        if is_empty_entry data then
          if empty =? 0 then (dir_block d, dir_pos d, 1) else (start, pos, empty + 1)
        else (start, pos, 0) in
      if count <=? empty then move_to start pos;; ok tt
      else
        ufat_advance_raw_dirent true ;?
        (d ← gets wdir;
         if dir_block d =? UFAT_BLOCK_NONE then fail UFAT_ERR_DIRECTORY_FULL
         else allocate_loop fuel count start pos empty)
  end.

Definition ufat_allocate_raw_dirent (count : Z) : result walk unit :=
  ufat_dir_rewind;;
  p ← walk_bpb;
  allocate_loop (dir_fuel p) count UFAT_BLOCK_NONE 0 0.

(** The fields a user may set are stored over those of the entry on the disk. *)
Definition merge_attributes (old ent : ufat_dirent) : ufat_dirent :=
  let a :=
    if Z.land (attributes old) UFAT_ATTR_DIRECTORY =? 0
    then Z.lor (Z.land (attributes old) (Z.lnot UFAT_ATTR_USER)) (Z.land (attributes ent) UFAT_ATTR_USER)
    else attributes old in
  set_dates (create_date ent) (create_time ent) (modify_date ent) (modify_time ent) (access_date ent) (set_attributes a old).

(** The entry is parsed and packed where it is in the block. *)
Definition on_entry (pos : Z) (f : list Z -> list Z) (data : list Z) : list Z :=
  put (entry_offset pos) (f (sub (entry_offset pos) (Z.to_nat UFAT_DIRENT_SIZE) data)) data.

Definition ufat_update_attributes (ent : ufat_dirent) : result (ufat D) unit :=
  idx ⇐ ufat_cache_open (ent_block ent) false;
  p ← gets bpb;
  require (entry_inside (ent_pos ent) UFAT_DIRENT_SIZE);;
  ufat_cache_write idx;;
  update_data idx (on_entry (ent_pos ent) (fun data => ufat_pack_dirent (merge_attributes (ufat_parse_dirent (fat_type p) data ent) ent) data));;
  ok tt.

(** * Reading a directory *)

Definition format_name (lfn : ufat_lfn_parser) (inf : ufat_dirent) (max_len : Z) : Z + list Z :=
  if ufat_lfn_ok lfn then ufat_ucs2_to_utf8 (lfn_buf lfn) (lfn_len lfn) max_len
  else ufat_format_short (short_name inf) (short_ext inf) max_len.

Definition is_fragment (data : list Z) : bool := (byte_at 0x0b data =? 0x0f) && negb (byte_at 0 data =? 0xe5).

(** The entry that comes next, with the parser of its long name; [None] at the end.  [inf] is
    what the structure of the caller holds, all of which is overwritten. *)
Fixpoint read_entry (fuel : nat) (lfn : ufat_lfn_parser) (inf : ufat_dirent) : result walk (option (ufat_dirent * ufat_lfn_parser)) :=
  match fuel with
  | O => nofuel
  | S fuel =>
      d ← gets wdir;
      let inf := set_place (dir_block d) (dir_pos d) inf in
      r ⇐ ufat_read_raw_dirent;
      match r with
      | None => ok None
      | Some data =>
          ufat_advance_raw_dirent false ;?
          if is_fragment data then
            lfn ← of_option (ufat_lfn_parse lfn data (ent_block inf) (ent_pos inf));
            read_entry fuel lfn inf
          else if negb (is_empty_entry data) then
            p ← walk_bpb;
            let inf := ufat_parse_dirent (fat_type p) data inf in
            let lfn := if ufat_short_checksum (short_name inf) (short_ext inf) =? short_checksum lfn then lfn else ufat_lfn_reset lfn in
            if negb (Z.land (attributes inf) UFAT_ATTR_VOLLABEL =? 0) then read_entry fuel (ufat_lfn_reset lfn) inf
            else
              let inf := if ufat_lfn_ok lfn then set_lfn (start_block lfn) (start_pos lfn) inf else set_lfn UFAT_BLOCK_NONE 0 inf in
              ok (Some (inf, lfn))
          else read_entry fuel (ufat_lfn_reset lfn) inf
      end
  end.

Definition no_entry : ufat_dirent := mkDirent 0 0 0 0 [] [] 0 0 0 0 0 0 0 0.

(** Without a buffer for the name, and with one of [max_len] bytes. *)
Definition ufat_dir_next : result walk (option (ufat_dirent * ufat_lfn_parser)) :=
  p ← walk_bpb; read_entry (dir_fuel p) new_parser no_entry.

Definition ufat_dir_read (max_len : Z) : result walk (option (ufat_dirent * list Z)) :=
  r ⇐ ufat_dir_next;
  match r with
  | None => ok None
  | Some (inf, lfn) =>
      match format_name lfn inf max_len with
      | inl e => mret (inl e)
      | inr name => ok (Some (inf, name))
      end
  end.

(** * Finding entries *)

Fixpoint find_loop (fuel : nat) (target : list Z) : result walk (option ufat_dirent) :=
  match fuel with
  | O => nofuel
  | S fuel =>
      r ⇐ ufat_dir_read UFAT_LFN_MAX_UTF8;
      match r with
      | None => ok None
      | Some (inf, name) => if 0 <=? ufat_compare_name target name false then ok (Some inf) else find_loop fuel target
      end
  end.

Definition ufat_dir_find (target : list Z) : result walk (option ufat_dirent) :=
  ufat_dir_rewind;; p ← walk_bpb; find_loop (dir_fuel p) target.

(** A component of a path: the entry and the length of the component. *)
Fixpoint component_loop (fuel : nat) (path : list Z) : result walk (option (ufat_dirent * Z)) :=
  match fuel with
  | O => nofuel
  | S fuel =>
      r ⇐ ufat_dir_read UFAT_LFN_MAX_UTF8;
      match r with
      | None => ok None
      | Some (ent, name) =>
          let len := ufat_compare_name path name true in
          if 0 <=? len then ok (Some (ent, len)) else component_loop fuel path
      end
  end.

(** A pseudo entry for the root directory. *)
Definition root_entry : ufat_dirent := set_attributes UFAT_ATTR_DIRECTORY (set_place UFAT_BLOCK_NONE 0 no_entry).

(** The entry, or the rest of the path from the component that is not there.  [ent] is the entry
    of the component before, none at the root. *)
Fixpoint path_loop (fuel : nat) (path : list Z) (ent : option ufat_dirent) : result walk (ufat_dirent + list Z) :=
  match fuel with
  | O => nofuel
  | S fuel =>
      match path with
      | [] => ok (inl (default root_entry ent))
      | c :: rest =>
          if is_sep c then path_loop fuel rest ent
          else
            match ent with
            | None => ok tt
            | Some e =>
                p ← walk_bpb;
                match ufat_open_subdir p e with
                | inl err => mret (inl err)
                | inr d => modify (set_wdir d);; ok tt
                end
            end ;?
            (p ← walk_bpb;
             r ⇐ component_loop (dir_fuel p) path;
             match r with
             | None => ok (inr path)
             | Some (e, len) => path_loop fuel (tail (drop (Z.to_nat len) path)) (Some e)
             end)
      end
  end.

Definition ufat_dir_find_path (path : list Z) : result walk (ufat_dirent + list Z) :=
  ufat_dir_rewind;; path_loop (S (length path)) path None.

Fixpoint short_exists_loop (fuel : nat) (name ext : list Z) : result walk bool :=
  match fuel with
  | O => nofuel
  | S fuel =>
      r ⇐ ufat_dir_next;
      match r with
      | None => ok false
      | Some (ent, _) =>
          if (0 <=? ufat_compare_name name (short_name ent) false) && (0 <=? ufat_compare_name ext (short_ext ent) false) then ok true
          else short_exists_loop fuel name ext
      end
  end.

Definition ufat_short_exists (name ext : list Z) : result walk bool :=
  ufat_dir_rewind;; p ← walk_bpb; short_exists_loop (dir_fuel p) name ext.

(** * Deleting *)

Fixpoint empty_loop (fuel : nat) : result walk unit :=
  match fuel with
  | O => nofuel
  | S fuel =>
      r ⇐ ufat_dir_next;
      match r with
      | None => ok tt
      | Some (e, _) => if bool_decide (head (short_name e) = Some 46) then empty_loop fuel else fail UFAT_ERR_DIRECTORY_NOT_EMPTY
      end
  end.

Definition verify_empty_dir (ent : ufat_dirent) : result (ufat D) unit :=
  p ← gets bpb;
  match ufat_open_subdir p ent with
  | inl e => mret (inl e)
  | inr d => with_dir d (empty_loop (dir_fuel p))
  end.

Definition at_entry (d : ufat_directory) (ent : ufat_dirent) : bool := (dir_block d =? ent_block ent) && (dir_pos d =? ent_pos ent).

Fixpoint delete_loop (fuel : nat) (ent : ufat_dirent) : result walk unit :=
  match fuel with
  | O => nofuel
  | S fuel =>
      ufat_write_raw_dirent [0xe5] ;?
      (d ← gets wdir;
       if at_entry d ent then ok tt
       else ufat_advance_raw_dirent false ;? delete_loop fuel ent)
  end.

(** The first of the entries that make up [ent]. *)
Definition first_raw (ent : ufat_dirent) : ufat_directory :=
  if lfn_block ent =? UFAT_BLOCK_NONE then mkDir (ent_pos ent) (ent_block ent) 0 else mkDir (lfn_pos ent) (lfn_block ent) 0.

Definition delete_entry (ent : ufat_dirent) : result (ufat D) unit :=
  p ← gets bpb; with_dir (first_raw ent) (delete_loop (dir_fuel p) ent).

Definition is_dot (ent : ufat_dirent) : bool := bool_decide (head (short_name ent) = Some 46).

Definition ufat_dir_delete (ent : ufat_dirent) : result (ufat D) unit :=
  if (ent_block ent =? UFAT_BLOCK_NONE) || is_dot ent then fail UFAT_ERR_IMMUTABLE
  else
    (if Z.land (attributes ent) UFAT_ATTR_DIRECTORY =? 0 then ok tt else verify_empty_dir ent) ;?
    delete_entry ent ;?
    ufat_free_chain (first_cluster ent).

(** * Creating *)

(** The entries "." and ".." of a new directory in the cluster [c]. *)
Definition dot_entry (downptr : ufat_dirent) (name : list Z) (c : Z) : ufat_dirent :=
  set_ent_size 0 (set_first_cluster c (set_attributes UFAT_ATTR_DIRECTORY (set_short name [] downptr))).

Definition parent_cluster (p : ufat_bpb) (parent : ufat_directory) : Z :=
  if cluster_start p <=? dir_start parent then block_to_cluster p (dir_start parent) else 0.

Definition create_empty_dir (parent : ufat_directory) (downptr : ufat_dirent) : result (ufat D) Z :=
  c ⇐ ufat_alloc_chain 1;
  or_free c (ufat_init_dirent_cluster c) ;?
  (p ← gets bpb;
   idx ⇐ or_free c (ufat_cache_open (cluster_to_block p c) false);
   ufat_cache_write idx;;
   update_data idx (on_entry 0 (ufat_pack_dirent (dot_entry downptr [46] c)));;
   update_data idx (on_entry 1 (ufat_pack_dirent (dot_entry downptr [46; 46] (parent_cluster p parent))));;
   ok c).

(** A short name that no entry of the directory has yet. *)
Fixpoint choose_short (fuel : nat) (name ext : list Z) : result walk (list Z) :=
  match fuel with
  | O => nofuel
  | S fuel =>
      e ⇐ ufat_short_exists name ext;
      if e : bool then choose_short fuel (ufat_short_next name) ext else ok name
  end.

(** The 13 characters from [o] on, which have to be in the array. *)
Definition ucs2_fragment (ucs2_name : list Z) (o : Z) : option (list Z) :=
  if o + 13 <=? Z.of_nat (length ucs2_name) then Some (sub (Z.to_nat o) 13 ucs2_name) else None.

(** The fragments of the long name, the last one first; [i] are left to write. *)
Fixpoint write_fragments (i : nat) (is_first : bool) (ucs2_name data : list Z) (checksum : Z) : result walk (list Z) :=
  match i with
  | O => ok data
  | S i' =>
      ucs ← of_option (ucs2_fragment ucs2_name (Z.of_nat i' * 13));
      let data := ufat_lfn_pack_fragment ucs (Z.of_nat i) is_first data checksum in
      ufat_write_raw_dirent data ;?
      ufat_advance_raw_dirent false ;?
      write_fragments i' false ucs2_name data checksum
  end.

(** The entry with the fields for its names filled in. *)
Definition insert_dirent (ent : ufat_dirent) (long_name : list Z) : result walk ufat_dirent :=
  match ufat_utf8_to_ucs2 long_name with
  | inl e => mret (inl e)
  | inr (ucs2_name, ucs2_len) =>
      let num_lfn_frags := (ucs2_len + 12) / 13 in
      let '(name, ext) := ufat_short_first long_name in
      p ← walk_bpb;
      name ⇐ choose_short (dir_fuel p) name ext;
      let ent := set_short name ext ent in
      let checksum := ufat_short_checksum name ext in
      ufat_allocate_raw_dirent (num_lfn_frags + 1) ;?
      (d ← gets wdir;
       let ent := set_lfn (dir_block d) (dir_pos d) ent in
       data ⇐ write_fragments (Z.to_nat num_lfn_frags) true ucs2_name (replicate (Z.to_nat UFAT_DIRENT_SIZE) 0) checksum;
       d ← gets wdir;
       let ent := set_place (dir_block d) (dir_pos d) ent in
       ufat_write_raw_dirent (ufat_pack_dirent ent data) ;?
       ok ent)
  end.

(** The name is legal and not there yet; any error of the search counts as not there. *)
Definition check_new (name : list Z) : result walk unit :=
  if negb (ufat_lfn_is_legal name) then fail UFAT_ERR_ILLEGAL_NAME
  else
    r ← ufat_dir_find name;
    match r with
    | inr (Some _) => fail UFAT_ERR_FILE_EXISTS
    | _ => ok tt
    end.

(** [ent] is what the caller has in the structure for the new entry. *)
Definition ufat_dir_create (ent : ufat_dirent) (name : list Z) : result walk ufat_dirent :=
  check_new name ;?
  (d ← gets wdir;
   c ⇐ on_ufat (create_empty_dir d ent);
   let ent := set_attributes (Z.lor (Z.land (attributes ent) UFAT_ATTR_USER) UFAT_ATTR_DIRECTORY) (set_ent_size 0 (set_first_cluster c ent)) in
   r ← insert_dirent ent name;
   match r with
   | inl e => on_ufat (ufat_free_chain c);; mret (inl e)
   | inr ent => ok ent
   end).

Definition ufat_dir_mkfile (ent : ufat_dirent) (name : list Z) : result walk ufat_dirent :=
  check_new name ;?
  insert_dirent (set_attributes (Z.land (attributes ent) UFAT_ATTR_USER) (set_first_cluster 0 (set_ent_size 0 ent))) name.

(** The directory is the one that the entry moves to. *)
Definition ufat_move (ent : ufat_dirent) (new_name : list Z) : result walk unit :=
  check_new new_name ;?
  if is_dot ent || (ent_block ent =? UFAT_BLOCK_NONE) then fail UFAT_ERR_IMMUTABLE
  else
    new_ent ⇐ insert_dirent ent new_name;
    r ← on_ufat (delete_entry ent);
    match r with
    | inl e => on_ufat (delete_entry new_ent);; mret (inl e)
    | inr _ => ok tt
    end.

(** * The name of an entry *)

Fixpoint name_loop (fuel : nat) (lfn : ufat_lfn_parser) (ent : ufat_dirent) : result walk ufat_lfn_parser :=
  match fuel with
  | O => nofuel
  | S fuel =>
      d ← gets wdir;
      if at_entry d ent || (dir_block d =? UFAT_BLOCK_NONE) then ok lfn
      else
        r ⇐ ufat_read_raw_dirent;
        data ← of_option r;
        ufat_advance_raw_dirent false ;?
        (d ← gets wdir;
         lfn ← of_option (ufat_lfn_parse lfn data (dir_block d) (dir_pos d));
         name_loop fuel lfn ent)
  end.

Definition ufat_get_filename (ent : ufat_dirent) (max_len : Z) : result (ufat D) (list Z) :=
  p ← gets bpb;
  lfn ⇐ (if lfn_block ent =? UFAT_BLOCK_NONE then ok new_parser
         else with_dir (mkDir (lfn_pos ent) (lfn_block ent) 0) (name_loop (dir_fuel p) new_parser ent));
  mret (format_name lfn ent max_len).
End Directory.
