(* ===== verification/UfatRead.v ===== *)
(** Reading files: what is read is the part of the contents at the position, the bytes of
    the chain of clusters of the file one after the other. *)

From S2P Require Import Prelude UfatDev UfatCache UfatView UfatFat UfatTable UfatChain UfatFile.
#[local] Open Scope Z_scope.

(** * Lists of blocks of one size *)

Lemma length_concat_uniform {A} (k : nat) (ls : list (list A)) :
  Forall (fun x => length x = k) ls -> length (concat ls) = (length ls * k)%nat.
Proof. induction 1 as [|x ls Hx _ IH]; [done|]. cbn [concat length]. rewrite length_app, Hx, IH. lia. Qed.

Lemma drop_concat_uniform {A} (k : nat) (ls : list (list A)) n :
  Forall (fun x => length x = k) ls -> drop (n * k) (concat ls) = concat (drop n ls).
Proof.
  intros H. revert n. induction H as [|x ls Hx _ IH]; intros [|n]; try done; [cbn [concat drop]; by rewrite drop_nil|].
  cbn [concat drop Nat.mul]. rewrite drop_app_ge by lia. rewrite Hx. replace (k + n * k - k)%nat with (n * k)%nat by lia. apply IH.
Qed.

Lemma take_concat_uniform {A} (k : nat) (ls : list (list A)) n :
  Forall (fun x => length x = k) ls -> take (n * k) (concat ls) = concat (take n ls).
Proof.
  intros H. revert n. induction H as [|x ls Hx _ IH]; intros [|n]; try done; [cbn [concat take]; by rewrite take_nil|].
  cbn [concat take Nat.mul]. rewrite take_app_ge by lia. rewrite Hx. replace (k + n * k - k)%nat with (n * k)%nat by lia. by rewrite IH.
Qed.

Lemma sub_concat_uniform {A} (k : nat) (ls : list (list A)) n m :
  Forall (fun x => length x = k) ls -> sub (n * k) (m * k) (concat ls) = concat (sub n m ls).
Proof.
  intros H. unfold sub. rewrite drop_concat_uniform by done. apply take_concat_uniform. by apply Forall_drop.
Qed.

(** A part of one block. *)
Lemma sub_block {A} (k : nat) (ls : list (list A)) n o m x :
  Forall (fun x => length x = k) ls -> ls !! n = Some x -> (o + m <= k)%nat -> sub (n * k + o) m (concat ls) = sub o m x.
Proof.
  intros H Hx Ho. rewrite <- (sub_sub o m (n * k) k) by done. rewrite <- (Nat.mul_1_l k) at 2.
  rewrite sub_concat_uniform by done. f_equal. unfold sub. rewrite (drop_S _ _ _ Hx). cbn. by rewrite app_nil_r.
Qed.

(** Blocks that are known one by one. *)
Lemma sub_concat_blocks {A} (k : nat) (ls : list (list A)) n m (data : list A) :
  Forall (fun x => length x = k) ls -> length data = (m * k)%nat -> (forall i, (i < m)%nat -> ls !! (n + i)%nat = Some (sub (i * k) k data)) ->
  sub (n * k) (m * k) (concat ls) = data.
Proof.
  intros H Hl Hi. rewrite sub_concat_uniform by done. revert n data Hl Hi. induction m as [|m IH]; intros n data Hl Hi.
  { destruct data; [|cbn in Hl; lia]. unfold sub. done. }
  pose proof (Hi 0%nat ltac:(lia)) as H0. rewrite Nat.add_0_r in H0. unfold sub at 1. rewrite (drop_S _ _ _ H0). cbn [take concat].
  change (take m (drop (S n) ls)) with (sub (S n) m ls). rewrite (IH (S n) (drop k data)).
  - unfold sub. cbn [Nat.mul drop]. apply take_drop.
  - rewrite length_drop, Hl. cbn [Nat.mul]. lia.
  - intros i Hm. replace (S n + i)%nat with (n + S i)%nat by lia. rewrite Hi by lia. unfold sub. rewrite drop_drop. f_equal.
Qed.

(** A run of blocks that is replaced. *)
Lemma concat_splice {A} (k : nat) (ls ls' : list (list A)) j w (data : list A) :
  Forall (fun x => length x = k) ls -> length ls' = length ls -> (j + w <= length ls)%nat -> length data = (w * k)%nat ->
  (forall q, (q < length ls)%nat -> ls' !! q = if decide (j <= q < j + w)%nat then Some (sub ((q - j) * k) k data) else ls !! q) ->
  concat ls' = put (j * k) data (concat ls).
Proof.
  intros H Hl Hw Hd Hq.
  assert (Forall (fun x => length x = k) ls') as H'.
  { apply Forall_lookup. intros q x Hx. pose proof (lookup_lt_Some _ _ _ Hx) as Hlt. rewrite Hq in Hx by lia. case_decide.
    - injection Hx as <-. apply length_sub. nia.
    - by eapply Forall_lookup_1 in H. }
  assert (take j ls' = take j ls) as E1.
  { apply list_eq. intros q. destruct (decide (q < j)%nat); [|by rewrite !lookup_take_ge by lia]. rewrite !lookup_take_lt, Hq, decide_False by lia. done. }
  assert (drop (j + w) ls' = drop (j + w) ls) as E2.
  { apply list_eq. intros q. rewrite !lookup_drop. destruct (decide (j + w + q < length ls)%nat); [by rewrite Hq, decide_False by lia|].
    rewrite !lookup_ge_None_2 by lia. done. }
  assert (sub (j * k) (w * k) (concat ls') = data) as E3.
  { apply sub_concat_blocks; [done..|]. intros i Hi. rewrite Hq, decide_True by lia. do 2 f_equal. lia. }
  rewrite <- (take_drop (j * k) (concat ls')), <- (take_drop (w * k) (drop (j * k) (concat ls'))). fold (sub (j * k) (w * k) (concat ls')). rewrite E3.
  rewrite (take_concat_uniform k), E1, <- (take_concat_uniform k) by done. unfold put. do 2 f_equal. rewrite drop_drop, Hd, <- Nat.mul_add_distr_r.
  by rewrite (drop_concat_uniform k), E2, <- (drop_concat_uniform k) by done.
Qed.

Lemma put_inside {A} o off n (d x l : list A) : sub o n l = x -> (off + length d <= n)%nat -> (o + n <= length l)%nat ->
  put o (put off d x) l = put (o + off) d l.
Proof.
  intros <- Hd Hl. apply list_eq. intros i. assert (length (sub o n l) = n) as Hs by by apply length_sub.
  rewrite !lookup_put by (rewrite ?length_put; lia). rewrite length_put, Hs by lia. repeat case_decide; try lia.
  - f_equal. lia.
  - rewrite lookup_sub by lia. f_equal. lia.
  - done.
Qed.

Section Read.
Context {D : Type} {BD : BlockDevice D} {DS : DeviceSpec D}.
Implicit Types (V W : Z -> list Z) (p : ufat_bpb) (o : @opened D) (f : ufat_file).

(** * The blocks of clusters *)

Definition data_block p (c k : Z) : Z := cluster_start p + (c - 2) * cluster_blocks p + k.

Lemma cluster_blocks_small p : volume p -> cluster_blocks p <= 2 ^ 16.
Proof. intros Hv. unfold cluster_blocks. rewrite Z.shiftl_1_l. apply Z.pow_le_mono_r; [lia|apply Hv]. Qed.

Lemma data_block_range p c k : volume p -> 2 <= c < num_clusters p -> 0 <= k < cluster_blocks p ->
  cluster_start p <= data_block p c k < end_block p.
Proof. intros Hv Hc Hk. unfold data_block, end_block. nia. Qed.

Lemma data_shown p c k : volume p -> 2 <= c < num_clusters p -> 0 <= k < cluster_blocks p -> shown p (data_block p c k).
Proof.
  intros Hv Hc Hk. pose proof (data_block_range p c k Hv Hc Hk). pose proof (end_block_bound p Hv) as (? & ? & ?).
  pose proof (volume_root p Hv). split; [apply (volume_blocks p Hv); lia|]. unfold mirror. lia.
Qed.

Lemma data_not_fat p c k : volume p -> 2 <= c < num_clusters p -> 0 <= k < cluster_blocks p -> ~ in_fat p (data_block p c k).
Proof.
  intros Hv Hc Hk. pose proof (data_block_range p c k Hv Hc Hk). pose proof (volume_root p Hv). pose proof (volume_fat p Hv).
  unfold in_fat. nia.
Qed.

Lemma data_block_inj p c k c' k' : volume p -> 0 <= k < cluster_blocks p -> 0 <= k' < cluster_blocks p ->
  data_block p c k = data_block p c' k' -> c = c' /\ k = k'.
Proof.
  intros Hv Hk Hk' E. unfold data_block in E. assert (c = c') as ->; [|lia].
  destruct (Z.lt_total c c') as [Hlt|[->|Hlt]]; [|done|]; exfalso; [assert (1 <= c' - c) by lia|assert (1 <= c - c') by lia]; nia.
Qed.

Lemma cluster_block p c : volume p -> 2 <= c < num_clusters p -> cluster_to_block p c = data_block p c 0.
Proof.
  intros Hv Hc. pose proof (end_block_bound p Hv) as (? & ? & ?). pose proof (data_block_range p c 0 Hv Hc) as Hr.
  pose proof (cluster_blocks_pos p Hv). specialize (Hr ltac:(lia)). unfold cluster_to_block, data_block in *.
  pose proof (volume_shift p Hv). pose proof (volume_cluster_size p Hv). pose proof (volume_clusters p Hv) as Hmax.
  assert (num_clusters p < 2 ^ 31) by (unfold max_clusters in Hmax; repeat case_match; lia).
  rewrite Z.shiftl_mul_pow2 by lia. unfold cluster_blocks in *. rewrite Z.shiftl_1_l in *.
  rewrite (u32_id (c - 2)) by lia. rewrite u32_id by nia. rewrite u64_id by lia. lia.
Qed.

(** The blocks of a chain, and the bytes in them. *)
Definition chain_blocks p (l : list Z) : list Z := concat ((fun c => data_block p c <$> seqZ 0 (cluster_blocks p)) <$> l).
Definition content p V (l : list Z) : list Z := concat (V <$> chain_blocks p l).

Definition cluster_bytes p : Z := cluster_blocks p * 2 ^ log2_block_size.

Lemma chain_blocks_lookup p l n c k : 0 <= k < cluster_blocks p -> l !! n = Some c ->
  chain_blocks p l !! (n * Z.to_nat (cluster_blocks p) + Z.to_nat k)%nat = Some (data_block p c k).
Proof.
  intros Hk. revert n. induction l as [|x l IH]; intros [|n] E; try done; unfold chain_blocks; cbn [fmap list_fmap concat].
  - injection E as ->. rewrite lookup_app_l by (rewrite length_fmap, length_seqZ; lia). rewrite list_lookup_fmap, lookup_seqZ_lt by lia.
    cbn. f_equal. f_equal. lia.
  - rewrite lookup_app_r by (rewrite length_fmap, length_seqZ; lia). rewrite length_fmap, length_seqZ.
    replace (S n * Z.to_nat (cluster_blocks p) + Z.to_nat k - Z.to_nat (cluster_blocks p))%nat with (n * Z.to_nat (cluster_blocks p) + Z.to_nat k)%nat by lia.
    by apply IH.
Qed.

Lemma length_chain_blocks p l : length (chain_blocks p l) = (length l * Z.to_nat (cluster_blocks p))%nat.
Proof.
  unfold chain_blocks. erewrite length_concat_uniform; [by rewrite length_fmap|]. apply Forall_fmap, Forall_forall.
  intros x _. cbn. by rewrite length_fmap, length_seqZ.
Qed.

Lemma elem_of_chain_blocks p l b : b ∈ chain_blocks p l <-> exists c k, c ∈ l /\ 0 <= k < cluster_blocks p /\ b = data_block p c k.
Proof.
  unfold chain_blocks. rewrite list_elem_of_In, in_concat. split.
  - intros (x & Hx & Hb). apply list_elem_of_In, list_elem_of_fmap in Hx as (c & -> & Hc). apply list_elem_of_In, list_elem_of_fmap in Hb as (k & -> & Hk).
    apply elem_of_seqZ in Hk. exists c, k. split_and!; (done || lia).
  - intros (c & k & Hc & Hk & ->). exists (data_block p c <$> seqZ 0 (cluster_blocks p)). rewrite <- !list_elem_of_In. split.
    + apply list_elem_of_fmap. by exists c.
    + apply list_elem_of_fmap. exists k. split; [done|]. apply elem_of_seqZ. lia.
Qed.

Lemma content_uniform u V x p l : holds_but x u V -> bpb u = p -> volume p -> Forall (fun c => 2 <= c < num_clusters p) l ->
  Forall (fun y => length y = block_size) (V <$> chain_blocks p l) /\ Forall is_byte (content p V l).
Proof.
  intros H Hb Hv Hl. rewrite Forall_forall in Hl.
  assert (forall b, b ∈ chain_blocks p l -> block_ok (V b)) as Hok.
  { intros b (c & k & Hc & Hk & ->)%elem_of_chain_blocks. apply (holds_block _ _ _ _ H). rewrite Hb. apply data_shown; [done|by apply Hl|done]. }
  split; [apply Forall_fmap, Forall_forall; intros b Hx; by apply Hok|]. unfold content. apply Forall_forall. intros y Hy.
  apply list_elem_of_In, in_concat in Hy as (z & Hz & Hy). apply list_elem_of_In, list_elem_of_fmap in Hz as (b & -> & Hx).
  destruct (Hok b Hx) as [_ F]. rewrite Forall_forall in F. by apply F, list_elem_of_In.
Qed.

Lemma length_content u V p l : holds u V -> bpb u = p -> volume p -> Forall (fun c => 2 <= c < num_clusters p) l ->
  Z.of_nat (length (content p V l)) = Z.of_nat (length l) * cluster_bytes p.
Proof.
  intros H Hb Hv Hl. destruct (content_uniform u V (-1) p l H Hb Hv Hl) as [Hu _]. unfold content, cluster_bytes.
  rewrite (length_concat_uniform block_size), length_fmap, length_chain_blocks by done. pose proof block_size_Z as E.
  rewrite !Nat2Z.inj_mul, E, Z2Nat.id; [lia|]. pose proof (cluster_blocks_pos p Hv). lia.
Qed.

Lemma content_ext p V W l : (forall b, b ∈ chain_blocks p l -> W b = V b) -> content p W l = content p V l.
Proof. intros E. unfold content. f_equal. apply list_fmap_ext. intros i b Hb. apply E. by eapply list_elem_of_lookup_2. Qed.

(** * Chains by index *)

Definition nth_next p V (c : Z) (n : nat) : Z := Nat.iter n (fat p V) c.

Lemma nth_next_S p V c n : nth_next p V c (S n) = fat p V (nth_next p V c n).
Proof. done. Qed.

Lemma nth_next_shift p V c n : nth_next p V c (S n) = nth_next p V (fat p V c) n.
Proof. unfold nth_next. by rewrite Nat.iter_succ_r. Qed.

Lemma chain_nth p V l : forall c n, chain p V c l -> match l !! n with
  | Some x => nth_next p V c n = x
  | None => n = length l -> UFAT_CLUSTER_IS_PTR (nth_next p V c n) = false
  end.
Proof.
  induction l as [|x l IH]; intros c n H; [cbn in H; intros ->; done|]. destruct H as (<- & Hp & Hn & Hl). destruct n as [|n]; [done|].
  cbn [lookup list_lookup]. rewrite nth_next_shift. specialize (IH (fat p V c) n Hl). destruct (l !! n); [done|].
  intros E. apply IH. cbn in E. lia.
Qed.

(** * Moving the position *)

Lemma on_fs_wp {A} (m : prog (ufat D) A) o Q :
  wp m (fs o) Q -> wp (on_fs m) o (fun a o' => Q a (fs o') /\ fd o' = fd o).
Proof. unfold wp, on_fs, zoom. by destruct (m (fs o)). Qed.

Lemma on_fs_returns {A} (m : result (ufat D) A) o E Q :
  returns m (fs o) E Q -> returns (on_fs m) o (fun e o' => E e (fs o') /\ fd o' = fd o) (fun a o' => Q a (fs o') /\ fd o' = fd o).
Proof. intros H. eapply wp_mono; [by apply on_fs_wp|]. intros [e|a] t; tauto. Qed.

(** The number of the cluster with the position in it. *)
Definition cluster_index p (pos : Z) : nat := Z.to_nat (pos / cluster_bytes p).

(** An open file: its clusters are [l], and the position is in them or behind the last one. *)
Record file_at p V f (l : list Z) : Prop := {
  at_chain : chain p V (file_start f) l;
  at_nodup : NoDup l;
  at_pos : 0 <= cur_pos f < 2 ^ 32;
  at_inside : cur_pos f <= Z.of_nat (length l) * cluster_bytes p;
  at_size : 0 <= file_size f < 2 ^ 32;
  at_fits : file_size f <= Z.of_nat (length l) * cluster_bytes p;
  at_cur : cur_cluster f = nth_next p V (file_start f) (cluster_index p (cur_pos f));
  at_prev : prev_cluster f = match cluster_index p (cur_pos f) with O => 0 | S i => nth_next p V (file_start f) i end
}.

Lemma cluster_bytes_pow p : volume p -> cluster_bytes p = 2 ^ (log2_block_size + log2_blocks_per_cluster p).
Proof.
  intros Hv. unfold cluster_bytes, cluster_blocks. rewrite Z.shiftl_1_l, Z.mul_comm. symmetry. apply Z.pow_add_r; [|apply Hv].
  pose proof log2_block_size_bound. lia.
Qed.

Lemma cluster_bytes_pos p : volume p -> 0 < cluster_bytes p.
Proof.
  intros Hv. rewrite cluster_bytes_pow by done. apply Z.pow_pos_nonneg; [lia|]. pose proof log2_block_size_bound. pose proof (volume_cluster_size p Hv). lia.
Qed.

Lemma shiftr_cluster p x : volume p -> Z.shiftr x (log2_block_size + log2_blocks_per_cluster p) = x / cluster_bytes p.
Proof.
  intros Hv. rewrite cluster_bytes_pow by done. apply Z.shiftr_div_pow2. pose proof log2_block_size_bound. pose proof (volume_cluster_size p Hv). lia.
Qed.

(** What happens to a file when only its position moves. *)
Definition moved o (V : Z -> list Z) (l : list Z) (n : Z) o' : Prop :=
  holds (fs o') V /\ meta (fs o') = meta (fs o) /\ file_at (bpb (fs o)) V (fd o') l /\
  exists prev cur, fd o' = set_position prev cur (cur_pos (fd o) + n) (fd o).

Definition stuck o (V : Z -> list Z) (e : Z) o' : Prop := failed (fs o) V e (fs o').

Lemma moved_zero o V l : holds (fs o) V -> file_at (bpb (fs o)) V (fd o) l -> moved o V l 0 o.
Proof.
  intros H Hf. split; [done|]. split; [done|]. split; [done|]. exists (prev_cluster (fd o)), (cur_cluster (fd o)). rewrite Z.add_0_r. by destruct (fd o).
Qed.

(** Steps before that keep the file and the frame. *)
Definition stays o o' : Prop := meta (fs o') = meta (fs o) /\ fd o' = fd o.

Lemma moved_from o o1 V l n o' : stays o o1 -> moved o1 V l n o' -> moved o V l n o'.
Proof. intros [Hm Hf] (A & B & C & E). pose proof Hm as [= M1 M2 M3 M4]. unfold moved. rewrite <- Hf, <- M2. split_and!; [done|by rewrite B|done..]. Qed.

Lemma stuck_from o o1 V e o' : stays o o1 -> stuck o1 V e o' -> stuck o V e o'.
Proof. intros [Hm Hf] (A & B & C & E). unfold stuck, failed. rewrite E, Hm. done. Qed.

Lemma advance_loop_runs o0 V l n : forall o i c prev,
  holds (fs o) V -> meta (fs o) = meta (fs o0) -> volume (bpb (fs o0)) -> fd o = fd o0 -> chain (bpb (fs o0)) V (file_start (fd o0)) l ->
  c = nth_next (bpb (fs o0)) V (file_start (fd o0)) i -> (i + n <= length l)%nat ->
  returns (advance_loop n c prev) o (stuck o0 V)
    (fun r o' => holds (fs o') V /\ meta (fs o') = meta (fs o0) /\ fd o' = fd o0 /\
      r = (nth_next (bpb (fs o0)) V (file_start (fd o0)) (i + n), match n with O => prev | S m => nth_next (bpb (fs o0)) V (file_start (fd o0)) (i + m) end)).
Proof.
  induction n as [|n IH]; intros o i c prev H Hm Hv Hf Hc -> Hn; cbn [advance_loop].
  { apply returns_ok. split_and!; try done. by rewrite Nat.add_0_r. }
  pose proof Hm as [= M1 M2 M3 M4]. pose proof (chain_nth _ _ _ _ i Hc) as Hi.
  destruct (l !! i) as [x|] eqn:Ex; [|apply lookup_ge_None in Ex; lia]. pose proof (chain_range _ _ _ _ Hc) as Hr.
  pose proof (Forall_lookup_1 _ _ _ _ Hr Ex) as Hx. rewrite <- Hi in Hx. cbn beta in Hx.
  eapply returns_check; [apply on_fs_returns, (read_fat_holds (fs o) V _ H); rewrite M2; (done || lia)| |].
  - intros e o' [(F1 & F2 & F3 & F4) F5]. split_and!; [done..|congruence].
  - intros c1 o1 [(Hm1 & H1 & ->) Hf1]. rewrite M2. eapply returns_mono; [apply (IH o1 (S i)); try done; try lia; congruence|done|].
    intros r o' (G1 & G2 & G3 & ->). split_and!; try done. rewrite Nat.add_succ_r. f_equal. destruct n; [by rewrite Nat.add_0_r|].
    by rewrite Nat.add_succ_r.
Qed.

Lemma advance_holds o V l n :
  holds (fs o) V -> volume (bpb (fs o)) -> file_at (bpb (fs o)) V (fd o) l -> 0 <= n -> cur_pos (fd o) + n < 2 ^ 32 -> cur_pos (fd o) + n <= Z.of_nat (length l) * cluster_bytes (bpb (fs o)) ->
  returns (advance_ptr n) o (stuck o V) (fun _ o' => moved o V l n o').
Proof.
  intros H Hv Hf Hn Hsz Hin. pose proof Hf as [Hc Hd Hs Hi0 Hmax Hfit Hcur Hprev]. set (f := fd o) in *. set (p := bpb (fs o)) in *.
  pose proof (cluster_bytes_pos p Hv) as Hcb. unfold advance_ptr. go_gets. go_gets. fold f p. rewrite !shiftr_cluster by done.
  rewrite (u32_id (cur_pos f + n)) by lia.
  set (i := cur_pos f / cluster_bytes p). set (j := (cur_pos f + n) / cluster_bytes p).
  assert (0 <= i <= j) as Hij by (split; [apply Z.div_pos; lia|apply Z.div_le_mono; lia]).
  assert (j <= Z.of_nat (length l)) as Hjl.
  { unfold j. apply Z.div_le_upper_bound; [done|]. rewrite Z.mul_comm. lia. }
  assert (j < 2 ^ 32) as Hj32. { unfold j. apply Z.div_lt_upper_bound; [done|]. nia. }
  rewrite u32_id by lia.
  eapply returns_check; [apply (advance_loop_runs o V l (Z.to_nat (j - i)) o (Z.to_nat i)); try done; lia|done|].
  intros [c prev] o1 (G1 & G2 & G3 & [= -> ->]). go_gets. apply returns_ok. split; [done|]. split; [done|]. split; [|rewrite G3; by eauto].
  change (fd (set_fd ?g o1)) with g. split; try done; cbn [cur_pos file_size set_position cur_cluster prev_cluster file_start fd set_fd]; rewrite ?G3.
  - exact Hc.
  - fold f. lia.
  - exact Hmax.
  - exact Hfit.
  - unfold cluster_index. fold f p j. f_equal. lia.
  - unfold cluster_index. fold f p j. destruct (Z.to_nat (j - i)) as [|m] eqn:Em.
    + assert (j = i) as -> by lia. exact Hprev.
    + destruct (Z.to_nat j) as [|m'] eqn:Ej; [lia|]. f_equal. lia.
Qed.

Lemma advance_after o o2 V l n :
  stays o o2 -> holds (fs o2) V -> volume (bpb (fs o)) -> file_at (bpb (fs o)) V (fd o) l -> 0 <= n -> cur_pos (fd o) + n < 2 ^ 32 -> cur_pos (fd o) + n <= Z.of_nat (length l) * cluster_bytes (bpb (fs o)) ->
  returns (advance_ptr n) o2 (stuck o V) (fun _ o' => moved o V l n o').
Proof.
  intros Hst H Hv Hf Hn Hle Hin. pose proof Hst as [Hm Hfd]. pose proof Hm as [= M1 M2 M3 M4].
  eapply returns_mono; [apply (advance_holds o2 V l n)|intros e o'; by apply stuck_from|intros [] o'; by apply moved_from].
  all: rewrite ?Hfd, ?M2; done.
Qed.

(** * The position in blocks *)

Notation bytes := (2 ^ log2_block_size).

Lemma bytes_pos : 0 < 2 ^ log2_block_size.
Proof. apply Z.pow_pos_nonneg; [lia|]. pose proof log2_block_size_bound. lia. Qed.

Lemma land_pred x n : 0 <= n -> Z.land x (Z.shiftl 1 n - 1) = x mod 2 ^ n.
Proof.
  intros Hn. rewrite Z.shiftl_1_l. change (2 ^ n - 1) with (Z.pred (2 ^ n)). by rewrite <- Z.ones_equiv, Z.land_ones.
Qed.

Lemma block_offset_mod f : block_offset f = cur_pos f mod bytes.
Proof. apply land_pred. pose proof log2_block_size_bound. lia. Qed.

Lemma cluster_offset_mod p f : volume p -> cluster_offset p f = (cur_pos f / bytes) mod cluster_blocks p.
Proof.
  intros Hv. unfold cluster_offset. rewrite land_pred by apply Hv. pose proof log2_block_size_bound. rewrite Z.shiftr_div_pow2 by lia.
  unfold cluster_blocks. by rewrite Z.shiftl_1_l.
Qed.

Lemma cluster_index_div p f : volume p -> 0 <= cur_pos f -> Z.of_nat (cluster_index p (cur_pos f)) = (cur_pos f / bytes) / cluster_blocks p.
Proof.
  intros Hv Hp. unfold cluster_index, cluster_bytes. pose proof bytes_pos. pose proof (cluster_blocks_pos p Hv).
  rewrite Z.mul_comm, <- Z.div_div by lia. apply Z2Nat.id. apply Z.div_pos; [|lia]. apply Z.div_pos; lia.
Qed.

(** The position counted in clusters, blocks and bytes. *)
Lemma position_split p f : volume p -> 0 <= cur_pos f ->
  Z.to_nat (cur_pos f) = ((cluster_index p (cur_pos f) * Z.to_nat (cluster_blocks p) + Z.to_nat (cluster_offset p f)) * block_size + Z.to_nat (block_offset f))%nat /\
  0 <= cluster_offset p f < cluster_blocks p /\ 0 <= block_offset f < bytes.
Proof.
  intros Hv Hp. pose proof bytes_pos as Hb0. pose proof (cluster_blocks_pos p Hv) as Hc0. pose proof (cluster_index_div p f Hv Hp) as Hi.
  rewrite cluster_offset_mod, block_offset_mod by done.
  pose proof (Z.mod_pos_bound (cur_pos f / bytes) (cluster_blocks p) Hc0). pose proof (Z.mod_pos_bound (cur_pos f) bytes Hb0).
  split; [|done]. pose proof (Z.div_mod (cur_pos f) bytes (Z.neq_sym _ _ (Z.lt_neq _ _ Hb0))) as E1.
  pose proof (Z.div_mod (cur_pos f / bytes) (cluster_blocks p) (Z.neq_sym _ _ (Z.lt_neq _ _ Hc0))) as E2.
  pose proof block_size_Z as Hbs. set (i := cluster_index p (cur_pos f)) in *. set (q := cur_pos f / bytes) in *.
  set (co := q mod cluster_blocks p) in *. set (bo := cur_pos f mod bytes) in *. set (cb := cluster_blocks p) in *.
  apply Nat2Z.inj. rewrite Z2Nat.id by done. rewrite E1 at 1. rewrite E2 at 1. clear E1 E2.
  rewrite Nat2Z.inj_add, Nat2Z.inj_mul, Nat2Z.inj_add, Nat2Z.inj_mul, Hbs, Hi, !Z2Nat.id by (tauto || lia). ring.
Qed.

(** The block at the position of a file that does not end there. *)
Lemma block_at V l f p :
  volume p -> file_at p V f l -> cur_pos f < Z.of_nat (length l) * cluster_bytes p ->
  exists c, l !! cluster_index p (cur_pos f) = Some c /\ cur_cluster f = c /\ 2 <= c < num_clusters p /\ UFAT_CLUSTER_IS_PTR c = true /\
    cur_block p f = data_block p c (cluster_offset p f) /\
    chain_blocks p l !! (cluster_index p (cur_pos f) * Z.to_nat (cluster_blocks p) + Z.to_nat (cluster_offset p f))%nat = Some (data_block p c (cluster_offset p f)).
Proof.
  intros Hv [Hc Hd Hs Hi0 Hmax Hfit Hcur Hprev] Hlt. pose proof (cluster_bytes_pos p Hv) as Hcb. pose proof (position_split p f Hv ltac:(lia)) as (_ & Hco & _).
  set (i := cluster_index p (cur_pos f)) in *.
  assert (i < length l)%nat as Hi.
  { unfold i, cluster_index. assert (cur_pos f / cluster_bytes p < Z.of_nat (length l)); [|pose proof (Z.div_pos (cur_pos f) (cluster_bytes p)); lia].
    apply Z.div_lt_upper_bound; [done|]. lia. }
  destruct (l !! i) as [c|] eqn:Ec; [|apply lookup_ge_None in Ec; lia]. pose proof (chain_nth _ _ _ _ i Hc) as Hn. rewrite Ec in Hn.
  pose proof (Forall_lookup_1 _ _ _ _ (chain_range _ _ _ _ Hc) Ec) as Hr. cbn beta in Hr. fold i in Hcur. rewrite Hn in Hcur. exists c. rewrite Hcur.
  assert (UFAT_CLUSTER_IS_PTR c = true) as Hptr.
  { clear -Hc Ec. revert Hc Ec. generalize (file_start f) i. clear. intros c0 i. revert c0 i.
    induction l as [|x l IH]; intros c0 i H E; [done|]. destruct H as (<- & Hp & Hn & Hl).
    destruct i as [|i]; [by injection E as <-|]. exact (IH _ i Hl E). }
  split_and!; try done; try lia.
  - unfold cur_block. rewrite Hcur, cluster_block by done. pose proof (end_block_bound p Hv) as (? & ? & ?).
    pose proof (data_block_range p c (cluster_offset p f) Hv Hr Hco). unfold data_block in *. rewrite u64_id; lia.
  - by apply chain_blocks_lookup.
Qed.

Lemma fragment_cases f size : 0 <= size ->
  fragment_size f size = if cur_pos f mod bytes =? 0 then (if size <? bytes then size else 0)
    else Z.min size (bytes - cur_pos f mod bytes).
Proof.
  intros Hs. pose proof log2_block_size_bound. pose proof bytes_pos. unfold fragment_size. rewrite land_pred, block_offset_mod by lia. rewrite Z.shiftl_1_l.
  pose proof (Z.mod_pos_bound (cur_pos f) bytes bytes_pos) as Hm. revert Hm. generalize (cur_pos f mod bytes). intros m Hm.
  assert (bytes mod bytes = 0) as E0 by (apply Z_mod_same_full). revert E0 Hm. revert dependent size. generalize dependent bytes. intros b Hb size Hs E0 Hm.
  destruct (Z.eqb_spec m 0) as [->|E].
  - rewrite Z.sub_0_r. destruct (Z.ltb_spec b size), (Z.ltb_spec size b); try lia.
    + by apply Z.mod_small.
    + by replace size with b by lia.
  - destruct (Z.ltb_spec (b - m) size); rewrite Z.mod_small by lia; lia.
Qed.

(** Part of one block of the contents. *)
Lemma content_block V l f p n c : volume p -> Forall (fun y => length y = block_size) (V <$> chain_blocks p l) -> 0 <= cur_pos f ->
  chain_blocks p l !! (cluster_index p (cur_pos f) * Z.to_nat (cluster_blocks p) + Z.to_nat (cluster_offset p f))%nat = Some c ->
  (Z.to_nat (block_offset f) + n <= block_size)%nat -> sub (Z.to_nat (cur_pos f)) n (content p V l) = sub (Z.to_nat (block_offset f)) n (V c).
Proof.
  intros Hv Hu Hp Hc Hn. destruct (position_split p f Hv Hp) as (-> & _). unfold content. apply sub_block; [done| |done].
  by rewrite list_lookup_fmap, Hc.
Qed.

Lemma read_fragment_holds o V l size :
  holds (fs o) V -> volume (bpb (fs o)) -> file_at (bpb (fs o)) V (fd o) l -> 0 <= size -> cur_pos (fd o) + size <= file_size (fd o) ->
  returns (read_block_fragment size) o (stuck o V)
    (fun bs o' => moved o V l (fragment_size (fd o) size) o' /\
      bs = sub (Z.to_nat (cur_pos (fd o))) (Z.to_nat (fragment_size (fd o) size)) (content (bpb (fs o)) V l)).
Proof.
  intros H Hv Hf Hsz Hle. set (f := fd o) in *. set (p := bpb (fs o)) in *. pose proof bytes_pos. pose proof (at_pos _ _ _ _ Hf) as Hs.
  unfold read_block_fragment. go_gets. go_gets. fold f p. pose proof (fragment_cases f size Hsz) as Hfr.
  pose proof (position_split p f Hv ltac:(lia)) as (_ & Hco & Hbo). pose proof (block_offset_mod f) as Hbm. rewrite <- Hbm in Hfr.
  assert (0 <= fragment_size f size <= size /\ block_offset f + fragment_size f size <= bytes) as [Hn Hnb].
  { rewrite Hfr. destruct (Z.eqb_spec (block_offset f) 0); [destruct (Z.ltb_spec size bytes)|]; lia. }
  set (n := fragment_size f size) in *. destruct (Z.eqb_spec n 0) as [E|E].
  { apply returns_ok. rewrite E. split; [by apply moved_zero|done]. }
  destruct (block_at V l f p Hv Hf ltac:(pose proof (at_fits _ _ _ _ Hf); lia)) as (c & Hc & Hcur & Hr & Hptr & Hblk & Hlk). rewrite Hcur, Hptr. cbn [negb].
  rewrite Hblk. eapply returns_check; [apply on_fs_returns, cache_open_holds; [done|by apply data_shown]| |].
  { intros e t [F1 F2]. exact F1. }
  intros i o1 [(Hm1 & (Hi1 & _) & H1 & Hd1) Hf1]. pose proof Hm1 as [= M1 M2 M3 M4].
  apply returns_bind. eapply wp_mono; [apply (on_fs_wp _ _ (fun data t => data = slot (fs o1) i /\ t = fs o1))|].
  { unfold wp. rewrite cache_data_run by (done || apply H1). done. }
  intros data o2 [[-> Hs2] Hf2]. rewrite Hd1. assert (stays o o2) as Hst by (split; congruence).
  eapply returns_check; [apply (advance_after o o2 V l n); rewrite ?Hs2; try done; fold f p; pose proof (at_fits _ _ _ _ Hf); pose proof (at_size _ _ _ _ Hf); lia|done|]. intros [] o3 Ho3. apply returns_ok. split; [done|]. symmetry.
  apply content_block; try done. { eapply content_uniform; try done. by eapply chain_range, at_chain. }
  { lia. }
  pose proof block_size_Z. lia.
Qed.

Lemma cur_block_range V l f p : volume p -> file_at p V f l -> cur_pos f < Z.of_nat (length l) * cluster_bytes p ->
  0 <= cur_block p f < 2 ^ 63.
Proof.
  intros Hv Hf Hlt. destruct (block_at V l f p Hv Hf Hlt) as (c & _ & _ & Hr & _ & -> & _). pose proof (at_pos _ _ _ _ Hf).
  pose proof (position_split p f Hv ltac:(lia)) as (_ & Hco & _). pose proof (data_block_range p c _ Hv Hr Hco). pose proof (end_block_bound p Hv).
  pose proof (volume_root p Hv). lia.
Qed.

Lemma shiftl_bytes n : Z.shiftl n log2_block_size = n * bytes.
Proof. apply Z.shiftl_mul_pow2. pose proof log2_block_size_bound. lia. Qed.

Lemma whole_blocks_bound p f size : volume p -> 0 <= cur_pos f -> 0 <= size ->
  0 <= whole_blocks p f size <= cluster_blocks p - cluster_offset p f /\ 0 <= whole_blocks p f size * bytes <= size /\
  (whole_blocks p f size = 0 -> size < bytes).
Proof.
  intros Hv Hp Hs. pose proof (position_split p f Hv Hp) as (_ & Hco & _). unfold whole_blocks, cluster_blocks in *. pose proof bytes_pos as Hb.
  rewrite Z.shiftr_div_pow2 by (pose proof log2_block_size_bound; lia). set (r := Z.shiftl 1 (log2_blocks_per_cluster p)) in *.
  pose proof (Z.div_pos size bytes Hs Hb). pose proof (Z.mul_div_le size bytes Hb). pose proof (Z.mul_succ_div_gt size bytes Hb).
  revert H H0 H1. generalize (size / bytes). generalize dependent bytes. intros b Hb q Hq H1 H2.
  destruct (Z.ltb_spec (r - cluster_offset p f) q); nia.
Qed.

Lemma stays_refl o : stays o o.
Proof. done. Qed.

Lemma on_fs_step {A B} (m : prog (ufat D) A) (k : A -> result opened B) o Q E R :
  wp m (fs o) Q -> (forall a o', Q a (fs o') -> fd o' = fd o -> returns (k a) o' E R) -> returns (on_fs m ≫= k) o E R.
Proof. intros H Hk. apply returns_bind. eapply wp_mono; [by apply on_fs_wp|]. intros a o' []. by apply Hk. Qed.

(** What whole blocks from the position on hold. *)
Lemma content_blocks V l f p n (data : list Z) : volume p -> file_at p V f l -> cur_pos f mod bytes = 0 ->
  Forall (fun y => length y = block_size) (V <$> chain_blocks p l) -> (0 < n)%nat -> cur_pos f < Z.of_nat (length l) * cluster_bytes p ->
  Z.of_nat n <= cluster_blocks p - cluster_offset p f -> length data = (n * block_size)%nat ->
  (forall i, (i < n)%nat -> sub (i * block_size) block_size data = V (cur_block p f + Z.of_nat i)) ->
  sub (Z.to_nat (cur_pos f)) (n * block_size) (content p V l) = data.
Proof.
  intros Hv Hf Ha Hu Hn Hlt Hle Hl Hd. pose proof (at_pos _ _ _ _ Hf). destruct (position_split p f Hv ltac:(lia)) as (-> & Hco & _).
  rewrite block_offset_mod, Ha, Nat.add_0_r. apply sub_concat_blocks; [done..|]. intros i Hi. rewrite Hd by done.
  destruct (block_at V l f p Hv Hf Hlt) as (c & Hc & _ & _ & _ & -> & _). rewrite list_lookup_fmap, <- Nat.add_assoc.
  replace (Z.to_nat (cluster_offset p f) + i)%nat with (Z.to_nat (cluster_offset p f + Z.of_nat i)) by lia.
  rewrite (chain_blocks_lookup p l _ c) by (done || lia). cbn. do 2 f_equal. unfold data_block. lia.
Qed.

Lemma read_blocks_holds o V l (buf : list Z) size :
  holds (fs o) V -> volume (bpb (fs o)) -> file_at (bpb (fs o)) V (fd o) l -> cur_pos (fd o) mod bytes = 0 ->
  0 <= size -> cur_pos (fd o) + size <= file_size (fd o) -> size <= Z.of_nat (length buf) -> Forall is_byte buf ->
  let n := whole_blocks (bpb (fs o)) (fd o) size * bytes in
  returns (read_blocks buf size) o (stuck o V)
    (fun data o' => moved o V l n o' /\ data = sub (Z.to_nat (cur_pos (fd o))) (Z.to_nat n) (content (bpb (fs o)) V l) /\ Z.of_nat (length data) = n).
Proof.
  intros H Hv Hf Ha Hsz Hle Hbuf Hby n. set (f := fd o) in *. set (p := bpb (fs o)) in *. pose proof (at_pos _ _ _ _ Hf) as Hs.
  pose proof (at_size _ _ _ _ Hf) as Hmax. destruct (whole_blocks_bound p f size Hv ltac:(lia) Hsz) as (Hw & Hwn & _). fold n in Hwn.
  unfold read_blocks. go_gets. go_gets. fold f p. set (w := whole_blocks p f size) in *. destruct (Z.eqb_spec w 0) as [E|E].
  { apply returns_ok. unfold n. rewrite E. split; [by apply moved_zero|done]. }
  pose proof bytes_pos as Hb0. assert (0 < n) as Hn0 by (unfold n; apply Z.mul_pos_pos; lia).
  assert (cur_pos f < Z.of_nat (length l) * cluster_bytes p) as Hlt by (pose proof (at_fits _ _ _ _ Hf); lia).
  destruct (block_at V l f p Hv Hf Hlt) as (c & Hc & Hcur & Hr & Hptr & Hblk & _). rewrite Hcur, Hptr. cbn [negb].
  pose proof (cur_block_range V l f p Hv Hf Hlt) as Hcb. destruct (position_split p f Hv ltac:(lia)) as (_ & Hco & _).
  assert (w <= cluster_blocks p) as Hwc by lia. pose proof (cluster_blocks_small p Hv) as Hcs.
  eapply returns_check; [apply on_fs_returns, (evict_holds (fs o) V); (done || lia)|by intros e t [F _]|].
  intros [] o1 [(H1 & Hm1 & Hno) Hf1]. pose proof Hm1 as [= M1 M2 M3 M4]. rewrite shiftl_bytes. fold n.
  assert (Z.to_nat n = Z.to_nat w * block_size)%nat as Hnn.
  { unfold n. rewrite Z2Nat.inj_mul by lia. f_equal. pose proof block_size_Z. lia. }
  eapply on_fs_step.
  { rewrite <- (Z2Nat.id w) by lia. apply (io_read_holds (fs o1) V (cur_block p f) (Z.to_nat w) (take (Z.to_nat n) buf)); [done|lia| | | |].
    - intros i Hi. rewrite M2, Hblk. fold p. replace (_ + Z.of_nat i) with (data_block p c (cluster_offset p f + Z.of_nat i)) by (unfold data_block; lia).
      apply data_shown; (done || lia).
    - by rewrite Z2Nat.id by lia.
    - rewrite length_take. lia.
    - by apply Forall_take. }
  intros [rc data] o2 (H2 & Hm2 & Hl & Hby2 & Hrc) Hf2. assert (stays o o2) as Hst by (split; congruence). destruct (rc <? 0).
  { apply returns_err. split_and!; try done. apply Hst. }
  rewrite length_take_le in Hl by lia. rewrite Hnn in Hl.
  eapply (on_fs_step _ _ _ (fun _ u => stays o o2 /\ holds u V /\ meta u = meta (fs o))).
  { unfold wp, count, modify. split_and!; [done|eapply holds_alike; [apply alike_count|done|done]|apply Hst]. }
  intros [] o3 (_ & H3 & Hm3) Hf3. rewrite u32_id by lia.
  eapply returns_check; [apply (advance_after o o3 V l n); [by split; congruence|done..|lia|fold f; lia|fold f p; pose proof (at_fits _ _ _ _ Hf); lia]|done|]. intros [] o4 H4. apply returns_ok.
  split_and!; [done| |lia]. fold f p. rewrite Hnn. symmetry. eapply content_blocks; try done; try lia.
  apply (content_uniform (fs o) V (-1)); [done..|]. by eapply chain_range, at_chain.
Qed.

(** * The whole read *)

Lemma moved_facts o V l n o1 : moved o V l n o1 ->
  holds (fs o1) V /\ bpb (fs o1) = bpb (fs o) /\ file_at (bpb (fs o1)) V (fd o1) l /\
  cur_pos (fd o1) = cur_pos (fd o) + n /\ file_size (fd o1) = file_size (fd o).
Proof. intros (H & Hm & Hf & prev & cur & E). pose proof Hm as [= M1 M2 M3 M4]. rewrite M2. split_and!; try done; by rewrite E. Qed.

Lemma moved_trans o o1 o2 V l n m : moved o V l n o1 -> moved o1 V l m o2 -> moved o V l (n + m) o2.
Proof.
  intros H1 H2. destruct (moved_facts _ _ _ _ _ H1) as (_ & Hb & _ & Hp & _). destruct H1 as (_ & Hm & _ & prev & cur & E).
  destruct H2 as (A & B & C & prev' & cur' & E'). split; [done|]. split; [congruence|]. split; [by rewrite <- Hb|].
  exists prev', cur'. rewrite E', Hp, E. cbn. by rewrite Z.add_assoc.
Qed.

Lemma stuck_moved o o1 V l n e o' : moved o V l n o1 -> stuck o1 V e o' -> stuck o V e o'.
Proof. intros (_ & Hm & _) (A & B & C & E). unfold stuck, failed. rewrite E, Hm. done. Qed.

Definition aligned f : Prop := cur_pos f mod bytes = 0.

Lemma aligned_blocks o n o1 : cur_pos (fd o1) = cur_pos (fd o) + n * bytes -> aligned (fd o) -> aligned (fd o1).
Proof. unfold aligned. intros -> H. by rewrite Z_mod_plus_full. Qed.

Lemma read_loop_holds V l fuel : forall o (buf : list Z) size,
  holds (fs o) V -> volume (bpb (fs o)) -> file_at (bpb (fs o)) V (fd o) l -> aligned (fd o) \/ size = 0 ->
  0 <= size -> cur_pos (fd o) + size <= file_size (fd o) -> size <= Z.of_nat (length buf) -> Forall is_byte buf ->
  (Z.to_nat (size / bytes) < fuel)%nat ->
  returns (read_loop fuel buf size) o (stuck o V)
    (fun '(data, rest) o' => moved o V l (size - rest) o' /\ 0 <= rest <= size /\ rest < bytes /\ (aligned (fd o') \/ rest = 0) /\
      Z.of_nat (length data) = size - rest /\
      data = sub (Z.to_nat (cur_pos (fd o))) (Z.to_nat (size - rest)) (content (bpb (fs o)) V l)).
Proof.
  induction fuel as [|fuel IH]; intros o buf size H Hv Hf Ha Hsz Hle Hbuf Hby Hfuel; [lia|]. cbn [read_loop]. pose proof bytes_pos as Hb0.
  pose proof (at_pos _ _ _ _ Hf) as Hs. destruct (whole_blocks_bound (bpb (fs o)) (fd o) size Hv ltac:(lia) Hsz) as (Hw & Hwn & Hw0).
  set (w := whole_blocks (bpb (fs o)) (fd o) size) in *. set (n := w * bytes) in *.
  assert (returns (read_blocks buf size) o (stuck o V) (fun data o' => moved o V l n o' /\
    data = sub (Z.to_nat (cur_pos (fd o))) (Z.to_nat n) (content (bpb (fs o)) V l) /\ Z.of_nat (length data) = n /\ (aligned (fd o') \/ size = 0))) as Hr.
  { destruct Ha as [Ha|Ha].
    - eapply returns_mono; [by apply (read_blocks_holds o V l)|done|]. intros data o' (A & B & C). split_and!; [done..|]. left.
      destruct (moved_facts _ _ _ _ _ A) as (_ & _ & _ & Hp & _). by eapply aligned_blocks.
    - assert (w = 0) as E by nia. unfold read_blocks. go_gets. go_gets. fold w. unfold n. rewrite E. apply returns_ok. split_and!; [by apply moved_zero|done|done|by right]. }
  eapply returns_check; [exact Hr|done|]. intros data o1 (Hmv & Hd & Hl & Ha1). case_bool_decide as Hnil.
  { apply returns_ok. rewrite Hnil in Hl. cbn in Hl. assert (w = 0) as E by nia. specialize (Hw0 E). unfold n in Hmv. rewrite E in Hmv.
    rewrite Z.sub_diag. split_and!; (done || lia). }
  assert (0 < n) as Hn0 by (destruct data; [done|cbn in Hl; lia]). destruct (moved_facts _ _ _ _ _ Hmv) as (H1 & Hb1 & Hf1 & Hp1 & Hz1).
  rewrite Hl. eapply returns_check; [apply (IH o1); try done; rewrite ?Hb1, ?Hp1, ?Hz1; try done; try lia| |].
  - destruct Ha1 as [Ha1|Ha1]; [by left|lia].
  - rewrite length_drop. lia.
  - by apply Forall_drop.
  - assert (1 <= w) by (unfold n in Hn0; nia). replace (size - n) with (size + - w * bytes) by (unfold n; lia). rewrite Z_div_plus_full by lia.
    assert (w <= size / bytes) by (apply Z.div_le_lower_bound; lia). lia.
  - intros e t. by apply stuck_moved with (1 := Hmv).
  - intros [rest_data rest] o2 (Hmv2 & Hr2 & Hlt & Ha2 & Hl2 & Hd2). apply returns_ok.
    replace (size - rest) with (n + (size - n - rest)) by lia. split_and!; [by eapply moved_trans|lia|lia|lia|done|rewrite length_app; lia|].
    rewrite Z2Nat.inj_add by lia. rewrite sub_plus, Hd, Hd2, Hb1, Hp1. do 2 f_equal. apply Z2Nat.inj_add; lia.
Qed.

Lemma fragment_bound f size : 0 <= size ->
  0 <= fragment_size f size <= size /\ block_offset f + fragment_size f size <= bytes /\
  (fragment_size f size = size \/ (cur_pos f + fragment_size f size) mod bytes = 0) /\
  (aligned f -> size < bytes -> fragment_size f size = size) /\ (size = 0 -> fragment_size f size = 0).
Proof.
  intros Hs. rewrite fragment_cases, block_offset_mod by done. unfold aligned. pose proof (Z.mod_pos_bound (cur_pos f) bytes bytes_pos) as Hm.
  assert ((cur_pos f + (bytes - cur_pos f mod bytes)) mod bytes = 0) as Hnext.
  { apply Z.mod_divide; [pose proof bytes_pos as Hb; intros E; by rewrite E in Hb|]. exists (cur_pos f / bytes + 1).
    rewrite (Z_div_mod_eq_full (cur_pos f) bytes) at 1. ring. }
  assert (cur_pos f mod bytes = 0 -> (cur_pos f + 0) mod bytes = 0) as H0 by by rewrite Z.add_0_r.
  revert Hnext Hm H0. generalize (cur_pos f mod bytes). pose proof bytes_pos as Hb. generalize dependent bytes. intros b Hb m Hnext Hm H0.
  destruct (Z.eqb_spec m 0) as [E|E].
  - destruct (Z.ltb_spec size b); split_and!; lia.
  - split_and!; try lia. destruct (Z.le_gt_cases size (b - m)); [left; lia|right]. by rewrite Z.min_r by lia.
Qed.

(** What [ufat_file_read] promises: the bytes of the file at the position, as many as were
    asked for and there are, and the position behind them. *)
Lemma file_read_holds o V l (buf : list Z) size :
  holds (fs o) V -> volume (bpb (fs o)) -> file_at (bpb (fs o)) V (fd o) l -> 0 <= size <= Z.of_nat (length buf) -> Forall is_byte buf ->
  cur_pos (fd o) <= file_size (fd o) ->
  let n := Z.min size (file_size (fd o) - cur_pos (fd o)) in
  returns (ufat_file_read buf size) o (stuck o V)
    (fun data o' => moved o V l n o' /\ data = sub (Z.to_nat (cur_pos (fd o))) (Z.to_nat n) (content (bpb (fs o)) V l)).
Proof.
  intros H Hv Hf Hbuf Hby Hpos n. pose proof (at_pos _ _ _ _ Hf) as Hs. pose proof (at_size _ _ _ _ Hf) as Hmax. unfold ufat_file_read. go_gets.
  rewrite u32_id by lia. assert ((if file_size (fd o) - cur_pos (fd o) <? size then file_size (fd o) - cur_pos (fd o) else size) = n) as ->.
  { unfold n. destruct (Z.ltb_spec (file_size (fd o) - cur_pos (fd o)) size); lia. }
  destruct (fragment_bound (fd o) n) as (Hn1 & _ & Hal & _); [lia|].
  eapply returns_check; [apply (read_fragment_holds o V l n); (done || lia)|done|]. intros a o1 (Hm1 & Ha).
  destruct (moved_facts _ _ _ _ _ Hm1) as (H1 & Hb1 & Hf1 & Hp1 & Hz1). set (n1 := fragment_size (fd o) n) in *.
  assert (Forall is_byte (content (bpb (fs o)) V l)) as Hbyc by (apply (content_uniform (fs o) V (-1)); [done..|by eapply chain_range, at_chain]).
  assert (Z.of_nat (length (content (bpb (fs o)) V l)) = Z.of_nat (length l) * cluster_bytes (bpb (fs o))) as Hlc by (apply (length_content (fs o)); [done..|by eapply chain_range, at_chain]).
  pose proof (at_fits _ _ _ _ Hf) as Hfit.
  assert (Z.of_nat (length a) = n1) as Hla by (rewrite Ha, length_sub by lia; lia). rewrite Hla.
  eapply returns_check; [apply (read_loop_holds V l _ o1); rewrite ?Hb1, ?Hp1, ?Hz1; try done; try lia| |].
  - by rewrite <- Hb1.
  - unfold aligned. rewrite Hp1. destruct Hal; [right; lia|by left].
  - rewrite length_drop. lia.
  - by apply Forall_drop.
  - rewrite Z.shiftr_div_pow2 by (pose proof log2_block_size_bound; lia). lia.
  - intros e t. by apply stuck_moved with (1 := Hm1).
  - intros [b rest] o2 (Hm2 & Hr & Hlt & Ha2 & Hlb & Hb). pose proof (moved_trans _ _ _ _ _ _ _ Hm1 Hm2) as Hm12.
    destruct (moved_facts _ _ _ _ _ Hm2) as (H2 & Hb2 & Hf2 & Hp2 & Hz2). destruct (fragment_bound (fd o2) rest) as (_ & _ & _ & Hfa & Hf0); [lia|].
    assert (fragment_size (fd o2) rest = rest) as Hfr by (destruct Ha2 as [Ha2|Ha2]; [by apply Hfa|lia]).
    eapply returns_check; [apply (read_fragment_holds o2 V l rest); rewrite ?Hb2, ?Hp2, ?Hz2, ?Hb1, ?Hp1, ?Hz1; try (done || lia); by rewrite <- Hb1, <- Hb2| |].
    + intros e t. by apply stuck_moved with (1 := Hm12).
    + intros c o3 (Hm3 & Hc). rewrite Hfr in *. apply returns_ok. pose proof (moved_trans _ _ _ _ _ _ _ Hm12 Hm3) as Hm.
      replace (n1 + (n - n1 - rest) + rest) with n in Hm by lia. split; [done|].
      rewrite Ha, Hb, Hc, Hb2, Hb1, Hp2, Hp1. replace (Z.to_nat n) with (Z.to_nat n1 + (Z.to_nat (n - n1 - rest) + Z.to_nat rest))%nat by lia.
      rewrite !sub_plus. repeat f_equal; lia.
Qed.
End Read.
