(* ===== verification/UfatWrite.v ===== *)
(** Writing files: what is written replaces the part of the contents at the position, the
    chain of clusters grows by free clusters where it has to, and no other file is touched. *)

From S2P Require Import Prelude UfatDev UfatCache UfatView UfatFat UfatTable UfatChain UfatBpb UfatFile UfatRead.
#[local] Open Scope Z_scope.

Section Write.
Context {D : Type} {BD : BlockDevice D} {DS : DeviceSpec D}.
Implicit Types (V W : Z -> list Z) (p : ufat_bpb) (o : @opened D) (f : ufat_file) (l m : list Z).

(** * What changes outside of the FAT do to it *)

Lemma fat_byte_ext p V W off : volume p -> (forall b, in_fat p b -> W b = V b) -> 0 <= off < fat_bytes p -> fat_byte p W off = fat_byte p V off.
Proof. intros Hv E Ho. unfold fat_byte. by rewrite E by by apply fat_block_in. Qed.

Lemma wide_entry_ext e p V W j : volume p -> (forall b, in_fat p b -> W b = V b) -> 0 <= e <= 4 -> 0 <= j -> j * 2 ^ e < fat_bytes p ->
  wide_entry e p W j = wide_entry e p V j.
Proof. intros Hv E He Hj Hb. unfold wide_entry. by rewrite E by by apply wide_in. Qed.

Lemma fat_ext p V W j : volume p -> (forall b, in_fat p b -> W b = V b) -> 0 <= j < num_clusters p -> fat p W j = fat p V j.
Proof.
  intros Hv E Hj. unfold fat. f_equal. unfold raw. pose proof (volume_table p Hv) as [Ht _]. unfold table_bytes in Ht.
  destruct (fat_type p =? UFAT_TYPE_FAT12).
  - unfold raw12. pose proof (Z.div_pos j 2). pose proof (Z.div_le_mono j (num_clusters p) 2). 
    rewrite !(fat_byte_ext p V W) by (done || lia). done.
  - destruct (fat_type p =? UFAT_TYPE_FAT16); rewrite (wide_entry_ext _ p V W) by (done || lia); done.
Qed.

(** * A file that can be written *)

(** The directory entry of the file: a place in a block that is neither in the FAT nor in a
    cluster of the file or a free one. *)
Record dirent_at p V f l : Prop := {
  dirent_shown : shown p (dirent_block f);
  dirent_inside : 0 <= dirent_pos f /\ (dirent_pos f + 1) * 32 <= 2 ^ log2_block_size;
  dirent_off_fat : ~ in_fat p (dirent_block f);
  dirent_apart c k : 2 <= c < num_clusters p -> 0 <= k < cluster_blocks p -> dirent_block f = data_block p c k ->
    c ∉ l /\ fat p V c <> UFAT_CLUSTER_FREE
}.

Record writable p V f l : Prop := {
  writable_file : file_at p V f l;
  writable_dirent : dirent_at p V f l;
  writable_busy c : c ∈ l -> fat p V c <> UFAT_CLUSTER_FREE
}.

(** The directory entry gets the first cluster when the file has none. *)
Definition store_start (c : Z) f (data : list Z) : list Z :=
  let at_ := Z.to_nat (dirent_pos f * UFAT_DIRENT_SIZE) in
  w16 (at_ + 0x1a) (Z.land c 0xffff) (w16 (at_ + 0x14) (Z.shiftr c 16) data).

Definition start_stored V f l W f' m : Prop :=
  file_start f' = file_start f /\ W (dirent_block f) = V (dirent_block f) \/
  l = [] /\ m <> [] /\ W (dirent_block f) = store_start (file_start f') f (V (dirent_block f)).

(** [data] was written at the position: the clusters [m] are those of [l] and some that were
    free, and nothing but the FAT, the directory entry and the blocks of [m] is different. *)
Record wrote o V l (data : list Z) W m o' : Prop := {
  wrote_holds : holds (fs o') W;
  wrote_vol : vol (fs o') = vol (fs o);
  wrote_alloc : alloc_ok (fs o');
  wrote_file : writable (bpb (fs o)) W (fd o') m;
  wrote_grown : exists new, m = l ++ new /\ forall c, c ∈ new -> fat (bpb (fs o)) V c = UFAT_CLUSTER_FREE;
  wrote_same : dirent_block (fd o') = dirent_block (fd o) /\ dirent_pos (fd o') = dirent_pos (fd o) /\ file_size (fd o') = file_size (fd o);
  wrote_pos : cur_pos (fd o') = cur_pos (fd o) + Z.of_nat (length data);
  wrote_content : content (bpb (fs o)) W m = put (Z.to_nat (cur_pos (fd o))) data (content (bpb (fs o)) V m);
  wrote_start : start_stored V (fd o) l W (fd o') m;
  wrote_blocks b : ~ in_fat (bpb (fs o)) b -> b <> dirent_block (fd o) -> b ∉ chain_blocks (bpb (fs o)) m -> W b = V b;
  wrote_fat c : 0 <= c < num_clusters (bpb (fs o)) -> c ∉ m -> fat (bpb (fs o)) W c = fat (bpb (fs o)) V c
}.

(** The blocks that no write of the file may change: those outside of its clusters and the free ones. *)
Definition foreign p V f l b : Prop :=
  ~ in_fat p b /\ b <> dirent_block f /\
  forall c k, 2 <= c < num_clusters p -> 0 <= k < cluster_blocks p -> b = data_block p c k -> c ∉ l /\ fat p V c <> UFAT_CLUSTER_FREE.

(** A write that fails because the device did, or because no cluster is free. *)
Definition write_error o V l (e : Z) o' : Prop :=
  e < 0 /\ (may_fail \/ e = - UFAT_ERR_NO_CLUSTERS) /\ vol (fs o') = vol (fs o) /\
  exists W, holds (fs o') W /\ forall b, foreign (bpb (fs o)) V (fd o) l b -> W b = V b.

Lemma wrote_bpb o V l data W m o' : wrote o V l data W m o' -> bpb (fs o') = bpb (fs o).
Proof. intros H. by apply vol_bpb, (wrote_vol _ _ _ _ _ _ _ H). Qed.

(** A block that is foreign before is so afterwards, and has not changed. *)
Lemma foreign_kept o V l data W m o' b : volume (bpb (fs o)) -> wrote o V l data W m o' -> foreign (bpb (fs o)) V (fd o) l b ->
  foreign (bpb (fs o)) W (fd o') m b /\ W b = V b.
Proof.
  intros Hv H (F1 & F2 & F3). destruct (wrote_grown _ _ _ _ _ _ _ H) as (new & -> & Hnew). destruct (wrote_same _ _ _ _ _ _ _ H) as (S1 & _).
  assert (forall c k, 2 <= c < num_clusters (bpb (fs o)) -> 0 <= k < cluster_blocks (bpb (fs o)) -> b = data_block (bpb (fs o)) c k -> c ∉ l ++ new) as Hno.
  { intros c k Hc Hk E [Hin|Hin]%elem_of_app; destruct (F3 c k Hc Hk E) as [N1 N2]; [done|]. by apply N2, Hnew. }
  pose proof (chain_range _ _ _ _ (at_chain _ _ _ _ (writable_file _ _ _ _ (wrote_file _ _ _ _ _ _ _ H)))) as Hr. rewrite Forall_forall in Hr.
  split.
  - split; [done|]. split; [by rewrite S1|]. intros c k Hc Hk E. split; [by eapply Hno|].
    rewrite (wrote_fat _ _ _ _ _ _ _ H) by (lia || by eapply Hno). by eapply F3.
  - apply (wrote_blocks _ _ _ _ _ _ _ H); [done..|]. intros (c & k & Hc & Hk & E)%elem_of_chain_blocks. by eapply Hno; [apply Hr|..].
Qed.

Lemma write_error_trans o V l data W m o1 e o' : volume (bpb (fs o)) -> wrote o V l data W m o1 -> write_error o1 W m e o' -> write_error o V l e o'.
Proof.
  intros Hv H (E1 & E2 & E3 & X & HX & EX). pose proof (wrote_bpb _ _ _ _ _ _ _ H) as Hb. rewrite Hb in EX.
  split_and!; [done|done|by rewrite E3, (wrote_vol _ _ _ _ _ _ _ H)|]. exists X. split; [done|]. intros b Hf.
  destruct (foreign_kept _ _ _ _ _ _ _ b Hv H Hf) as [F1 <-]. by apply EX.
Qed.

(** * Writes one after the other *)

Lemma chain_blocks_app p l m : chain_blocks p (l ++ m) = chain_blocks p l ++ chain_blocks p m.
Proof. unfold chain_blocks. by rewrite fmap_app, concat_app. Qed.

Lemma content_app p V l m : content p V (l ++ m) = content p V l ++ content p V m.
Proof. unfold content. by rewrite chain_blocks_app, fmap_app, concat_app. Qed.

Lemma put_app_l {A} off (d a b : list A) : (off + length d <= length a)%nat -> put off d (a ++ b) = put off d a ++ b.
Proof. intros H. unfold put. rewrite take_app_le, drop_app_le by lia. by rewrite !app_assoc. Qed.

Lemma blocks_disjoint p l m b : volume p -> NoDup (l ++ m) -> b ∈ chain_blocks p l -> b ∈ chain_blocks p m -> False.
Proof.
  intros Hv (_ & Hd & _)%NoDup_app (c & k & Hc & Hk & ->)%elem_of_chain_blocks (c' & k' & Hc' & Hk' & E)%elem_of_chain_blocks.
  destruct (data_block_inj p c k c' k' Hv Hk Hk' E) as [-> _]. by apply (Hd c').
Qed.

Lemma dirent_not_in_chain p V f l : volume p -> dirent_at p V f l -> Forall (fun c => 2 <= c < num_clusters p) l -> dirent_block f ∉ chain_blocks p l.
Proof.
  intros Hv Hd Hl (c & k & Hc & Hk & E)%elem_of_chain_blocks. rewrite Forall_forall in Hl. by destruct (dirent_apart _ _ _ _ Hd c k (Hl c Hc) Hk E).
Qed.

Lemma chain_not_fat p l b : volume p -> Forall (fun c => 2 <= c < num_clusters p) l -> b ∈ chain_blocks p l -> ~ in_fat p b.
Proof. intros Hv Hl (c & k & Hc & Hk & ->)%elem_of_chain_blocks. rewrite Forall_forall in Hl. apply data_not_fat; (done || by apply Hl). Qed.

(** What a file that grows gets has not changed so far. *)
Lemma new_content o V l data W m o1 new : volume (bpb (fs o)) -> wrote o V l data W m o1 -> NoDup (m ++ new) ->
  Forall (fun c => 2 <= c < num_clusters (bpb (fs o))) (m ++ new) ->
  (forall c, c ∈ new -> fat (bpb (fs o)) W c = UFAT_CLUSTER_FREE) -> content (bpb (fs o)) W new = content (bpb (fs o)) V new.
Proof.
  intros Hv H Hd Hr Hfree. apply content_ext. intros b Hb. destruct (wrote_same _ _ _ _ _ _ _ H) as (S1 & _).
  apply Forall_app in Hr as [Hr1 Hr2]. apply (wrote_blocks _ _ _ _ _ _ _ H).
  - by eapply chain_not_fat.
  - apply elem_of_chain_blocks in Hb as (c & k & Hc & Hk & ->). intros E. rewrite Forall_forall in Hr2.
    rewrite <- S1 in E. destruct (dirent_apart _ _ _ _ (writable_dirent _ _ _ _ (wrote_file _ _ _ _ _ _ _ H)) c k (Hr2 c Hc) Hk (eq_sym E)) as [_ N].
    by apply N, Hfree.
  - intros Hin. by eapply blocks_disjoint.
Qed.

Lemma wrote_trans o V l d1 W1 m1 o1 d2 W2 m2 o2 : volume (bpb (fs o)) -> holds (fs o) V -> 0 <= cur_pos (fd o) ->
  wrote o V l d1 W1 m1 o1 -> wrote o1 W1 m1 d2 W2 m2 o2 -> wrote o V l (d1 ++ d2) W2 m2 o2.
Proof.
  intros Hv H Hp0 H1 H2. pose proof (wrote_bpb _ _ _ _ _ _ _ H1) as Hb. destruct H2 as [A1 A2 A3 A4 A5 A6 A7 A8 A9 A10 A11]. rewrite Hb in *.
  pose proof (writable_file _ _ _ _ A4) as Hf2. destruct A5 as (n2 & -> & Hn2). destruct (wrote_grown _ _ _ _ _ _ _ H1) as (n1 & E1 & Hn1).
  pose proof (at_nodup _ _ _ _ Hf2) as Hd. pose proof (chain_range _ _ _ _ (at_chain _ _ _ _ Hf2)) as Hr.
  destruct (wrote_same _ _ _ _ _ _ _ H1) as (S1 & S2 & S3). pose proof (wrote_pos _ _ _ _ _ _ _ H1) as Hp.
  pose proof (writable_file _ _ _ _ (wrote_file _ _ _ _ _ _ _ H1)) as Hf1. apply Forall_app in Hr as Hr12. destruct Hr12 as [Hr1 Hr2].
  pose proof (wrote_content _ _ _ _ _ _ _ H1) as Hc1. pose proof (length_content (fs o) V _ m1 H eq_refl Hv Hr1) as Hl1.
  assert (forall b, b ∉ chain_blocks (bpb (fs o)) (m1 ++ n2) -> b ∉ chain_blocks (bpb (fs o)) m1) as Hsub.
  { intros b Hb' Hin. apply Hb'. rewrite chain_blocks_app. apply elem_of_app. by left. }
  split; try done.
  - by rewrite A2, (wrote_vol _ _ _ _ _ _ _ H1).
  - exists (n1 ++ n2). rewrite E1, app_assoc. split; [done|]. intros c [Hc|Hc]%elem_of_app; [by apply Hn1|].
    rewrite <- (Hn2 c Hc). symmetry. apply (wrote_fat _ _ _ _ _ _ _ H1).
    + rewrite Forall_forall in Hr2. pose proof (Hr2 c Hc). lia.
    + intros Hin. apply NoDup_app in Hd as (_ & Hd & _). by apply (Hd c).
  - destruct A6 as (-> & -> & ->). done.
  - rewrite A7, Hp, length_app. lia.
  - pose proof (at_inside _ _ _ _ Hf1) as Hin. pose proof (at_pos _ _ _ _ Hf1). pose proof (at_inside _ _ _ _ Hf2) as Hin2.
    pose proof (length_content (fs o) V _ (m1 ++ n2) H eq_refl Hv Hr) as Hl12. rewrite content_app in Hl12.
    rewrite A8, !content_app, Hc1, (new_content o V l d1 W1 m1 o1 n2), <- put_app_l by (done || lia).
    replace (Z.to_nat (cur_pos (fd o1))) with (Z.to_nat (cur_pos (fd o)) + length d1)%nat by lia. apply put_app. lia.
  - pose proof (wrote_start _ _ _ _ _ _ _ H1) as Hs1. unfold start_stored in *. rewrite S1 in A9. unfold store_start in A9. rewrite S2 in A9. fold (store_start (file_start (fd o2)) (fd o)) in A9.
    destruct Hs1 as [[E2 E3]|(-> & Hm1 & E)].
    + rewrite E2, E3 in A9. destruct A9 as [?|(-> & Hm2 & E)]; [by left|right]. destruct l; [|done]. done.
    + right. destruct A9 as [[-> ->]|(-> & _)]; [|done]. split_and!; [done|by destruct m1|done].
  - intros b Hb1 Hb2 Hb3. rewrite A10 by (congruence || done). apply (wrote_blocks _ _ _ _ _ _ _ H1); [done..|by apply Hsub].
  - intros c Hc Hno. rewrite A11 by done. apply (wrote_fat _ _ _ _ _ _ _ H1); [done|]. intros Hin. apply Hno, elem_of_app. by left.
Qed.

Lemma put_nil {A} off (l : list A) : put off [] l = l.
Proof. unfold put. cbn. rewrite Nat.add_0_r. apply take_drop. Qed.

Lemma wrote_nil o V l : holds (fs o) V -> alloc_ok (fs o) -> writable (bpb (fs o)) V (fd o) l -> wrote o V l [] V l o.
Proof.
  intros H Ha Hw. split; try done.
  - exists []. rewrite app_nil_r. split; [done|]. intros c Hc. by apply not_elem_of_nil in Hc.
  - cbn. lia.
  - by rewrite put_nil.
  - by left.
Qed.

(** * Room at the position *)

Lemma chain_ptr p V l : forall c x, chain p V c l -> x ∈ l -> UFAT_CLUSTER_IS_PTR x = true.
Proof.
  induction l as [|y l IH]; intros c x H Hx; [by apply not_elem_of_nil in Hx|]. destruct H as (<- & Hp & _ & Hl).
  apply elem_of_cons in Hx as [->|Hx]; [done|]. by eapply IH.
Qed.

(** The position is behind the clusters exactly when there is no cluster at it. *)
Lemma position_room p V f l : volume p -> file_at p V f l ->
  if UFAT_CLUSTER_IS_PTR (cur_cluster f) then cur_pos f < Z.of_nat (length l) * cluster_bytes p
  else cluster_index p (cur_pos f) = length l /\ cur_pos f = Z.of_nat (length l) * cluster_bytes p.
Proof.
  intros Hv [Hc Hd Hs Hi Hmax Hfit Hcur Hprev]. pose proof (cluster_bytes_pos p Hv) as Hcb. pose proof (chain_nth _ _ _ _ (cluster_index p (cur_pos f)) Hc) as Hn.
  rewrite Hcur. unfold cluster_index in *. set (q := cur_pos f / cluster_bytes p) in *.
  assert (0 <= q) by (apply Z.div_pos; lia). assert (q <= Z.of_nat (length l)) as Hq by (apply Z.div_le_upper_bound; lia).
  pose proof (Z.mul_div_le (cur_pos f) (cluster_bytes p) Hcb) as Hle. fold q in Hle. pose proof (Z.mul_succ_div_gt (cur_pos f) (cluster_bytes p) Hcb) as Hgt. fold q in Hgt.
  destruct (l !! Z.to_nat q) as [x|] eqn:E.
  - rewrite Hn, (chain_ptr _ _ _ _ x Hc) by by eapply list_elem_of_lookup_2. apply lookup_lt_Some in E. nia.
  - apply lookup_ge_None in E. rewrite Hn by lia. split; [lia|]. assert (q = Z.of_nat (length l)) by lia. nia.
Qed.

Lemma chain_extend p V W c l : forall c0 last, chain p V c0 (l ++ [last]) -> (forall x, x ∈ l -> fat p W x = fat p V x) ->
  fat p W last = c -> UFAT_CLUSTER_IS_PTR c = true -> c < num_clusters p -> UFAT_CLUSTER_IS_PTR (fat p W c) = false ->
  chain p W c0 (l ++ [last] ++ [c]).
Proof.
  induction l as [|x l IH]; intros c0 last H E Hl Hp Hn He.
  - destruct H as (-> & Hp0 & Hn0 & _). cbn. rewrite Hl. done.
  - destruct H as (-> & Hp0 & Hn0 & Hl0). split_and!; [done..|]. rewrite E by by left. apply IH; try done. intros y Hy. apply E. by right.
Qed.

(** The file with a further cluster. *)
Lemma grown_wrote o V l W c o' : let p := bpb (fs o) in
  volume p -> writable p V (fd o) l -> cluster_index p (cur_pos (fd o)) = length l -> cur_pos (fd o) = Z.of_nat (length l) * cluster_bytes p ->
  holds (fs o') W -> vol (fs o') = vol (fs o) -> alloc_ok (fs o') ->
  usable p c -> fat p V c = UFAT_CLUSTER_FREE -> fat p W c = UFAT_CLUSTER_EOC ->
  (forall j, 0 <= j < num_clusters p -> j ∉ l -> j <> c -> fat p W j = fat p V j) -> (forall x, x ∈ l -> fat p W x <> UFAT_CLUSTER_FREE) ->
  chain p W (file_start (fd o')) (l ++ [c]) ->
  fd o' = set_cur_cluster c (set_file_start (file_start (fd o')) (fd o)) ->
  (forall b, ~ in_fat p b -> b <> dirent_block (fd o) -> W b = V b) -> start_stored V (fd o) l W (fd o') (l ++ [c]) ->
  wrote o V l [] W (l ++ [c]) o'.
Proof.
  intros p Hv Hw Hidx Hpos H Hvol Ha Hu Hfree Heoc Hoth Hbusy Hch Hfd Hblk Hst. pose proof (writable_file _ _ _ _ Hw) as Hf. pose proof (writable_dirent _ _ _ _ Hw) as Hd.
  assert (c ∉ l) as Hcl by (intros Hin; by apply (writable_busy _ _ _ _ Hw c)). pose proof (chain_range _ _ _ _ Hch) as Hr.
  pose proof (cluster_bytes_pos p Hv) as Hcb. pose proof (chain_nth _ _ _ _ (length l) Hch) as Hn. rewrite lookup_app_r, Nat.sub_diag in Hn by done. cbn in Hn.
  assert (dirent_at p W (fd o') (l ++ [c])) as Hd'.
  { rewrite Hfd. split; [apply Hd|apply Hd|apply Hd|]. cbn [dirent_block set_cur_cluster set_file_start]. intros x k Hx Hk E.
    destruct (dirent_apart _ _ _ _ Hd x k Hx Hk E) as [N1 N2]. assert (x <> c) as Hxc by (intros ->; done).
    split; [by intros [?| ->%list_elem_of_singleton]%elem_of_app|]. rewrite Hoth by (done || lia). done. }
  assert (file_at p W (fd o') (l ++ [c])) as Hf'.
  { destruct Hf as [F1 F2 F3 F4 F5 F6 F7 F8]. split; [done| |..]; [apply NoDup_app; split_and!; [done| |apply NoDup_singleton]; by intros x Hx ->%list_elem_of_singleton|..].
    all: rewrite Hfd; cbn [cur_pos file_size file_start cur_cluster prev_cluster set_cur_cluster set_file_start]; try done.
    - rewrite length_app. cbn. lia.
    - rewrite length_app. cbn. lia.
    - by rewrite Hidx.
    - rewrite F8, Hidx. destruct (length l) as [|k] eqn:El; [done|]. pose proof (chain_nth _ _ _ _ k F1) as N1. pose proof (chain_nth _ _ _ _ k Hch) as N2.
      destruct (lookup_lt_is_Some_2 l k ltac:(lia)) as [x Ex]. rewrite Ex in N1. rewrite lookup_app_l, Ex in N2 by lia. congruence. }
  split; try done; fold p.
  - split; [done..|]. fold p. intros x [Hx| ->%list_elem_of_singleton]%elem_of_app; [by apply Hbusy|]. by rewrite Heoc.
  - exists [c]. split; [done|]. by intros x ->%list_elem_of_singleton.
  - by rewrite Hfd.
  - rewrite Hfd. cbn. lia.
  - rewrite put_nil. apply content_ext. intros b Hb. apply Hblk; [by eapply chain_not_fat|]. intros ->.
    eapply (dirent_not_in_chain p W (fd o') (l ++ [c])); try done. by rewrite Hfd.
  - intros b Hb1 Hb2 _. by apply Hblk.
  - intros j Hj Hno. apply Hoth; [done|..]; intros Hin; apply Hno, elem_of_app; [by left|right]. subst. by apply list_elem_of_singleton.
Qed.

Lemma off_fat_foreign p V W f l b : off_fat p V W -> foreign p V f l b -> W b = V b.
Proof. intros H (F & _). by apply H. Qed.

(** Giving a cluster back after an error. *)
Lemma give_back o u V W c (e : Z) {A} (Q : A -> opened -> Prop) l o1 : e < 0 -> may_fail \/ e = - UFAT_ERR_NO_CLUSTERS -> 0 <= c ->
  volume (bpb (fs o)) -> fs o1 = u -> vol u = vol (fs o) -> holds u W -> (forall b, foreign (bpb (fs o)) V (fd o) l b -> W b = V b) ->
  returns (on_fs (ufat_free_chain c);; mret (inl e)) o1 (write_error o V l) Q.
Proof.
  intros He Hr Hc Hv <- Hvol H HW. pose proof (vol_bpb _ _ Hvol) as Hb. eapply on_fs_step.
  - apply (free_chain_any (fs o1) W c); [done|by rewrite Hb|done].
  - intros r o2 Hres _. apply returns_err. split_and!; [done|done|..].
    + destruct r as [e'|[]]; cbn in Hres; [destruct Hres as (_ & -> & _)|destruct Hres as (Hm & _); rewrite (meta_vol _ _ Hm)]; done.
    + destruct r as [e'|[]]; cbn in Hres.
      * destruct Hres as (_ & _ & _ & X & HX & Ho). exists X. split; [done|]. rewrite Hb in Ho. intros b Hfb. rewrite Ho by apply Hfb. by apply HW.
      * destruct Hres as (_ & X & HX & _ & Ho). exists X. split; [done|]. rewrite Hb in Ho. intros b Hfb. rewrite Ho by apply Hfb. by apply HW.
Qed.

(** A free cluster was taken for the file [fd o], which ends at the position. *)
Record taken o V l (c : Z) W o1 : Prop := {
  taken_holds : holds (fs o1) W;
  taken_vol : vol (fs o1) = vol (fs o);
  taken_alloc : alloc_ok (fs o1);
  taken_fd : fd o1 = fd o;
  taken_usable : usable (bpb (fs o)) c;
  taken_free : fat (bpb (fs o)) V c = UFAT_CLUSTER_FREE;
  taken_eoc : fat (bpb (fs o)) W c = UFAT_CLUSTER_EOC;
  taken_others j : 0 <= j < num_clusters (bpb (fs o)) -> j <> c -> fat (bpb (fs o)) W j = fat (bpb (fs o)) V j;
  taken_blocks : off_fat (bpb (fs o)) V W
}.

(** It was linked, or that failed. *)
Definition linked_room o V l (c : Z) (r : Z + unit) o2 : Prop :=
  match r with
  | inl e => e < 0 /\ may_fail /\ vol (fs o2) = vol (fs o) /\ exists W, holds (fs o2) W /\ forall b, foreign (bpb (fs o)) V (fd o) l b -> W b = V b
  | inr _ => exists W, wrote o V l [] W (l ++ [c]) (set_fd (set_cur_cluster c (fd o2)) o2)
  end.

Lemma link_tail o V l last c W o1 : volume (bpb (fs o)) -> writable (bpb (fs o)) V (fd o) (l ++ [last]) ->
  cluster_index (bpb (fs o)) (cur_pos (fd o)) = length (l ++ [last]) -> cur_pos (fd o) = Z.of_nat (length (l ++ [last])) * cluster_bytes (bpb (fs o)) ->
  taken o V (l ++ [last]) c W o1 -> wp (on_fs (ufat_write_fat last c)) o1 (linked_room o V (l ++ [last]) c).
Proof.
  intros Hv Hw Hidx Hpos [H Hvol Ha Hfd Hu Hfree Heoc Hoth Hblk]. set (p := bpb (fs o)) in *. pose proof (vol_bpb _ _ Hvol) as Hb. fold p in Hb.
  pose proof (writable_file _ _ _ _ Hw) as Hf. pose proof (chain_range _ _ _ _ (at_chain _ _ _ _ Hf)) as Hr.
  assert (2 <= last < num_clusters p) as Hlast by (rewrite Forall_forall in Hr; apply Hr, elem_of_app; right; by apply list_elem_of_singleton).
  pose proof (usable_ptr p c Hv Hu) as Hptr. pose proof (proj1 Hu) as Huc.
  assert (c ∉ l ++ [last]) as Hcl by (intros Hin; by apply (writable_busy _ _ _ _ Hw c)).
  assert (last <> c) as Hne by (intros ->; apply Hcl, elem_of_app; right; by apply list_elem_of_singleton).
  eapply wp_mono; [apply (on_fs_returns _ _ _ _ (write_fat_holds (fs o1) W last c H ltac:(by rewrite Hb) ltac:(rewrite Hb; lia) ltac:(lia)))|].
  intros [e|[]] o2 [Hres Hf2]; cbn beta in *.
  - destruct Hres as (F1 & F2 & F3 & X & HX & _ & Ho). split; [done|]. split; [done|]. split; [by rewrite (meta_vol _ _ F3)|]. exists X. split; [done|].
    rewrite Hb in Ho. intros b Hfb. rewrite Ho by apply Hfb. apply Hblk, Hfb.
  - apply written_upd in Hres as (Hm & X & HX & HXf & HXo); [|by rewrite Hb|rewrite Hb; by right; right]. rewrite Hb in HXf, HXo. pose proof Hm as [= M1 M2 M3 M4].
    assert (set_cur_cluster c (fd o2) = set_cur_cluster c (set_file_start (file_start (fd o)) (fd o))) as Hfd2 by (rewrite Hf2, Hfd; by destruct (fd o)).
    exists X. apply grown_wrote; try done.
    + by rewrite <- Hvol; apply meta_vol.
    + destruct Ha as [Ha1 Ha2]. rewrite <- M2, <- M4 in *. by split.
    + by rewrite HXf, decide_False by (done || lia).
    + intros j Hj Hjl Hjc. rewrite HXf, decide_False, Hoth; try done. intros ->. apply Hjl, elem_of_app. right. by apply list_elem_of_singleton.
    + intros x Hx. rewrite Forall_forall in Hr. pose proof (Hr x Hx). rewrite HXf by lia. case_decide; [unfold UFAT_CLUSTER_FREE; lia|].
      rewrite Hoth by (lia || by intros ->). by apply (writable_busy _ _ _ _ Hw).
    + cbn [fd set_fd file_start set_cur_cluster]. rewrite Hf2, Hfd. rewrite <- app_assoc. apply (chain_extend p V); [apply Hf|..].
      * intros x Hx. assert (x ∈ l ++ [last]) as Hx' by (apply elem_of_app; by left). rewrite Forall_forall in Hr. pose proof (Hr x Hx').
        pose proof (at_nodup _ _ _ _ Hf) as (_ & Hdl & _)%NoDup_app.
        rewrite HXf, decide_False by (lia || intros ->; apply (Hdl _ Hx), list_elem_of_singleton; done). apply Hoth; [lia|]. by intros ->.
      * by rewrite HXf, decide_True by (done || lia).
      * done.
      * lia.
      * by rewrite HXf, decide_False, Heoc by (done || lia).
    + cbn [fd set_fd]. by rewrite Hfd2.
    + intros b Hb1 Hb2. rewrite HXo by done. by apply Hblk.
    + left. cbn [fd set_fd file_start set_cur_cluster]. rewrite Hf2, Hfd. split; [done|]. rewrite HXo by apply (dirent_off_fat _ _ _ _ (writable_dirent _ _ _ _ Hw)).
      apply Hblk, (dirent_off_fat _ _ _ _ (writable_dirent _ _ _ _ Hw)).
Qed.

(** The directory entry. *)
Lemma fs_write_block {A} o V i b (g : list Z -> list Z) (k : unit -> result opened A) E R :
  holds (fs o) V -> in_slot (fs o) i b -> (block_ok (V b) -> block_ok (g (V b))) ->
  (forall o', stays o o' -> holds (fs o') (vmod b g V) -> returns (k tt) o' E R) ->
  returns (on_fs (ufat_cache_write i);; on_fs (update_data i g) ≫= k) o E R.
Proof.
  intros H Hi Hg Hk. eapply on_fs_step; [apply (cache_write_holds (-1) _ V i b H Hi); by left|].
  intros [] o1 (M1 & I1 & H1 & D1 & _) F1. eapply on_fs_step; [by apply (update_data_holds _ V i b g H1 I1 D1)|].
  intros [] o2 (M2 & I2 & H2 & D2) F2. apply Hk; [split; congruence|done].
Qed.

Definition dirent_place f : nat := Z.to_nat (dirent_pos f * UFAT_DIRENT_SIZE).

Lemma on_dirent_holds o V (g : nat -> list Z -> list Z) :
  holds (fs o) V -> shown (bpb (fs o)) (dirent_block (fd o)) -> (forall data, block_ok data -> block_ok (g (dirent_place (fd o)) data)) ->
  returns (on_dirent g) o (stuck o V) (fun _ o' => stays o o' /\ holds (fs o') (vmod (dirent_block (fd o)) (g (dirent_place (fd o))) V)).
Proof.
  intros H Hb Hg. unfold on_dirent. go_gets. eapply returns_check; [by apply on_fs_returns, cache_open_holds|by intros e t [F _]|].
  intros i o1 [(Hm1 & Hi1 & H1 & _) Hf1]. eapply (fs_write_block o1 V); [done|done|by apply Hg|]. intros o2 [S1 S2] H2. apply returns_ok.
  split; [split; congruence|done].
Qed.

Lemma block_ok_w16 (n : nat) x data : (n + 2 <= block_size)%nat -> block_ok data -> block_ok (w16 n x data).
Proof. intros Hn [Hl Hy]. unfold w16. split; [rewrite length_put; rewrite ?length_le_encode; lia|]. apply Forall_put; [apply le_encode_bytes|done]. Qed.

Lemma block_ok_w32 (n : nat) x data : (n + 4 <= block_size)%nat -> block_ok data -> block_ok (w32 n x data).
Proof. intros Hn [Hl Hy]. unfold w32. split; [rewrite length_put; rewrite ?length_le_encode; lia|]. apply Forall_put; [apply le_encode_bytes|done]. Qed.

Lemma dirent_place_fits p V f l : dirent_at p V f l -> (dirent_place f + 32 <= block_size)%nat.
Proof. intros H. pose proof (dirent_inside _ _ _ _ H) as [H1 H2]. pose proof block_size_Z. unfold dirent_place, UFAT_DIRENT_SIZE. lia. Qed.

Lemma link_start o V c W o1 : volume (bpb (fs o)) -> writable (bpb (fs o)) V (fd o) [] -> cur_pos (fd o) = 0 ->
  taken o V [] c W o1 -> wp (set_start c) o1 (linked_room o V [] c).
Proof.
  intros Hv Hw Hpos [H Hvol Ha Hfd Hu Hfree Heoc Hoth Hblk]. set (p := bpb (fs o)) in *. pose proof (vol_bpb _ _ Hvol) as Hb. fold p in Hb.
  pose proof (writable_dirent _ _ _ _ Hw) as Hd. pose proof (dirent_place_fits _ _ _ _ Hd) as Hfit. pose proof (dirent_off_fat _ _ _ _ Hd) as Hoff. pose proof (proj1 Hu) as Huc.
  unfold set_start. set (g := fun (at_ : nat) (data : list Z) => w16 (at_ + 0x1a) (Z.land c 0xffff) (w16 (at_ + 0x14) (Z.shiftr c 16) data)).
  apply (returns_check _ _ _ _ _ (fun e o2 => linked_room o V [] c (inl e) o2) (fun r o2 => linked_room o V [] c (inr r) o2)
    (on_dirent_holds o1 W g H ltac:(rewrite Hb, Hfd; apply Hd) ltac:(intros data; rewrite Hfd; intros Hok; apply block_ok_w16, block_ok_w16, Hok; lia))).
  - intros e o2 (F1 & F2 & F3 & F4). split_and!; [done|done|by rewrite (meta_vol _ _ F4)|]. exists W. split; [done|]. intros b Hfb. by apply Hblk, Hfb.
  - intros [] o2 [[Hm Hf2] H2]. rewrite Hfd in H2. pose proof Hm as [= M1 M2 M3 M4].
    set (X := vmod (dirent_block (fd o)) (g (dirent_place (fd o))) W) in H2. assert (forall b, in_fat p b -> X b = W b) as HX by (intros b Hfb; apply vset_other; intros ->; done).
    assert (forall j, 0 <= j < num_clusters p -> fat p X j = fat p W j) as HXf by (intros j Hj; by apply fat_ext).
    go_gets. apply returns_ok. exists X. apply (grown_wrote o V [] X c); try done.
    + fold p. pose proof (position_room p V (fd o) [] Hv (writable_file _ _ _ _ Hw)) as Hr. rewrite Hpos. unfold cluster_index. by rewrite Z.div_0_l by (pose proof (cluster_bytes_pos p Hv); lia).
    + rewrite <- Hvol. by apply meta_vol.
    + destruct Ha as [Ha1 Ha2]. rewrite <- M2, <- M4 in *. by split.
    + fold p. by rewrite HXf by lia.
    + intros j Hj _ Hjc. fold p. rewrite HXf by done. by apply Hoth.
    + intros x Hx. by apply not_elem_of_nil in Hx.
    + cbn [fd set_fd file_start set_cur_cluster set_file_start]. change (file_start _) with c. cbn [app chain]. fold p. rewrite HXf, Heoc by lia. split_and!; [done|by apply (usable_ptr p)|lia|done].
    + cbn [fd set_fd]. by rewrite Hf2, Hfd.
    + intros b Hb1 Hb2. unfold X, vmod. rewrite vset_other by done. by apply Hblk.
    + right. split_and!; [done|done|]. unfold X, vmod. rewrite vset_same, (Hblk _ Hoff). done.
Qed.

Lemma alloc_taken o V l c u1 o1 : volume (bpb (fs o)) -> chain_allocated (fs o) V 1 c u1 -> fs o1 = u1 -> fd o1 = fd o ->
  exists W, taken o V l c W o1 /\ UFAT_CLUSTER_IS_PTR c = true.
Proof.
  intros Hv (Hvol & Ha & W & k & H & Hk & Hseg & _ & Hfree & Hoth & Hblk) <- Hf. destruct k as [|x [|y k]]; try done.
  destruct Hseg as (<- & Hp & Hn & He). destruct (Hfree c) as [Hu Hc]; [by left|]. exists W. split; [|done]. split; try done.
  intros j Hj Hne. apply Hoth; [done|]. by intros ->%list_elem_of_singleton.
Qed.

Lemma ensure_room_holds o V l :
  holds (fs o) V -> volume (bpb (fs o)) -> alloc_ok (fs o) -> writable (bpb (fs o)) V (fd o) l ->
  returns ensure_room o (write_error o V l) (fun _ o' => exists W m, wrote o V l [] W m o' /\
    cur_pos (fd o') < Z.of_nat (length m) * cluster_bytes (bpb (fs o))).
Proof.
  intros H Hv Ha Hw. pose proof (writable_file _ _ _ _ Hw) as Hf. pose proof (position_room _ _ _ _ Hv Hf) as Hroom. pose proof (cluster_bytes_pos _ Hv) as Hcb.
  unfold ensure_room. go_gets. destruct (UFAT_CLUSTER_IS_PTR (cur_cluster (fd o))) eqn:Eptr.
  { apply returns_ok. exists V, l. split; [by apply wrote_nil|done]. }
  destruct Hroom as [Hidx Hpos]. eapply returns_check; [by apply on_fs_returns, alloc_chain_holds| |].
  { intros e t [(Hvol & _ & He & W & HW & Ho & Hr) _]. split; [done|]. split; [tauto|]. split; [done|]. exists W. split; [done|]. intros b Hb. by apply Ho, Hb. }
  intros c o1 [Hal Hf1]. destruct (alloc_taken o V l c (fs o1) o1 Hv Hal eq_refl Hf1) as (W & Ht & Hptr).
  assert (wp (if UFAT_CLUSTER_IS_PTR (prev_cluster (fd o)) then on_fs (ufat_write_fat (prev_cluster (fd o)) c) else set_start c) o1 (linked_room o V l c)) as Hlink.
  { pose proof (at_prev _ _ _ _ Hf) as Hprev. rewrite Hidx in Hprev. destruct l as [|last l _] using rev_ind.
    - cbn in Hprev. rewrite Hprev. by eapply link_start.
    - rewrite length_app, Nat.add_comm in Hprev. cbn [length Nat.add] in Hprev. pose proof (chain_nth _ _ _ _ (length l) (at_chain _ _ _ _ Hf)) as Hn.
      rewrite lookup_app_r, Nat.sub_diag in Hn by done. change ([last] !! 0%nat) with (Some last) in Hn. cbv iota in Hn. rewrite Hprev, Hn.
      rewrite (chain_ptr _ _ _ _ last (at_chain _ _ _ _ Hf)) by (apply elem_of_app; right; by apply list_elem_of_singleton). by eapply link_tail. }
  apply returns_bind. eapply wp_mono; [exact Hlink|]. intros [e|[]] o2 Hres.
  - destruct Hres as (He & Hm & Hvol & X & HX & Hfr). eapply give_back; try done; [by left|]. apply is_ptr_pos in Hptr. lia.
  - destruct Hres as (X & HX). go_gets. apply returns_ok. exists X, (l ++ [c]). split; [done|]. rewrite (wrote_pos _ _ _ _ _ _ _ HX), length_app, Hpos. cbn. lia.
Qed.

(** * Data *)

Lemma NoDup_chain_blocks p l : volume p -> NoDup l -> NoDup (chain_blocks p l).
Proof.
  intros Hv Hd. induction Hd as [|c l Hc Hd IH]; [constructor|]. change (NoDup ((data_block p c <$> seqZ 0 (cluster_blocks p)) ++ chain_blocks p l)).
  apply NoDup_app. split_and!; [|intros b Hb Hb'|done].
  - apply NoDup_fmap_2_strong; [|apply NoDup_seqZ]. intros x y _ _ E. unfold data_block in E. lia.
  - assert (NoDup ([c] ++ l)) as Hcl by by constructor. apply (blocks_disjoint p [c] l b Hv Hcl); [|done]. unfold chain_blocks. cbn. by rewrite app_nil_r.
Qed.

Lemma content_put p V l j start w (data : list Z) : Forall (fun y => length y = block_size) (V <$> chain_blocks p l) -> NoDup (chain_blocks p l) ->
  (forall i, (i < w)%nat -> chain_blocks p l !! (j + i)%nat = Some (start + Z.of_nat i)) -> (0 < w)%nat -> length data = (w * block_size)%nat ->
  content p (vput start w data V) l = put (j * block_size) data (content p V l).
Proof.
  intros Hu Hd Hj Hw Hl. pose proof (lookup_lt_Some _ _ _ (Hj (w - 1)%nat ltac:(lia))) as Hlen. unfold content.
  apply (concat_splice _ _ _ _ w); [done|by rewrite !length_fmap|rewrite length_fmap; lia|done|]. intros q Hq. rewrite length_fmap in Hq.
  rewrite !list_lookup_fmap. destruct (lookup_lt_is_Some_2 _ _ Hq) as [b Eb]. rewrite Eb. cbn. unfold vput. case_decide as E.
  - assert (b = start + Z.of_nat (Z.to_nat (b - start))) as Hb by lia. pose proof (Hj (Z.to_nat (b - start)) ltac:(lia)) as Hb'. rewrite <- Hb in Hb'.
    pose proof (NoDup_lookup _ _ _ _ Hd Eb Hb') as ->. rewrite decide_True by lia. do 4 f_equal. lia.
  - rewrite decide_False; [done|]. intros Hqj. pose proof (Hj (q - j)%nat ltac:(lia)) as Hb'. replace (j + (q - j))%nat with q in Hb' by lia.
    rewrite Eb in Hb'. injection Hb' as ->. lia.
Qed.

Lemma content_fragment p V l j b off (d : list Z) : Forall (fun y => length y = block_size) (V <$> chain_blocks p l) -> NoDup (chain_blocks p l) ->
  chain_blocks p l !! j = Some b -> (off + length d <= block_size)%nat ->
  content p (vmod b (put off d) V) l = put (j * block_size + off) d (content p V l).
Proof.
  intros Hu Hd Hj Hoff. assert (length (V b) = block_size) as Hb by (apply (Forall_lookup_1 _ _ j _ Hu); by rewrite list_lookup_fmap, Hj).
  pose proof (lookup_lt_Some _ _ _ Hj) as Hlt. assert (length (content p V l) = length (chain_blocks p l) * block_size)%nat as Hc.
  { unfold content. rewrite (length_concat_uniform block_size) by done. by rewrite length_fmap. }
  assert (sub (j * block_size) block_size (content p V l) = V b) as Hs.
  { pose proof (sub_block block_size (V <$> chain_blocks p l) j 0 block_size (V b) Hu) as E. rewrite Nat.add_0_r in E. unfold content. rewrite E; [|by rewrite list_lookup_fmap, Hj|lia].
    unfold sub. rewrite drop_0. apply take_ge. lia. }
  rewrite <- (put_inside _ _ block_size d (V b)) by (done || nia).
  rewrite <- (content_put p V l j b 1); try done; [|intros i Hi; replace i with 0%nat by lia; by rewrite Nat.add_0_r, Z.add_0_r|lia|rewrite length_put; lia].
  apply content_ext. intros b' _. unfold vmod, vset, vput. destruct (decide (b' = b)) as [->|].
  - rewrite decide_True by lia. rewrite Z.sub_diag. unfold sub. cbn [Z.to_nat Nat.mul]. rewrite drop_0, take_ge; [done|]. rewrite length_put; lia.
  - by rewrite decide_False by lia.
Qed.

Lemma file_at_ext p V W f l : volume p -> (forall j, 0 <= j < num_clusters p -> fat p W j = fat p V j) -> file_at p V f l -> file_at p W f l.
Proof.
  intros Hv E [H1 H2 H3 H4 H5 H6 H7 H8]. pose proof (chain_range _ _ _ _ H1) as Hr. rewrite Forall_forall in Hr.
  assert (chain p W (file_start f) l) as H1' by (eapply chain_ext; [|done]; intros x Hx; apply E; pose proof (Hr x Hx); lia).
  assert (forall i, (i <= length l)%nat -> nth_next p W (file_start f) i = nth_next p V (file_start f) i) as En.
  { intros i. induction i as [|i IH]; intros Hi; [done|]. rewrite !nth_next_S, IH by lia. apply E. pose proof (chain_nth _ _ _ _ i H1) as Hn.
    destruct (lookup_lt_is_Some_2 l i ltac:(lia)) as [x Ex]. rewrite Ex in Hn. rewrite Hn. pose proof (Hr x (list_elem_of_lookup_2 _ _ _ Ex)). lia. }
  assert (cluster_index p (cur_pos f) <= length l)%nat as Hi.
  { unfold cluster_index. pose proof (Z.div_le_upper_bound (cur_pos f) (cluster_bytes p) (Z.of_nat (length l)) (cluster_bytes_pos p Hv)). lia. }
  split; try done; [by rewrite En|]. rewrite H8. destruct (cluster_index p (cur_pos f)); [done|]. by rewrite En by lia.
Qed.

(** Blocks of the file were changed, and the position moved behind the change. *)
Lemma stored_wrote o W l (d : list Z) X o2 o3 : volume (bpb (fs o)) -> alloc_ok (fs o) -> writable (bpb (fs o)) W (fd o) l -> stays o o2 ->
  (forall b, b ∉ chain_blocks (bpb (fs o)) l -> X b = W b) ->
  content (bpb (fs o)) X l = put (Z.to_nat (cur_pos (fd o))) d (content (bpb (fs o)) W l) ->
  moved o2 X l (Z.of_nat (length d)) o3 -> wrote o W l d X l o3.
Proof.
  intros Hv Ha [Hf Hd Hb] [Sm Sf] HX Hc (H3 & Hm3 & Hf3 & prev & cur & E). pose proof Sm as [= M1 M2 M3 M4]. rewrite M2 in Hf3. rewrite Sf in E.
  pose proof (chain_range _ _ _ _ (at_chain _ _ _ _ Hf)) as Hr.
  assert (forall j, 0 <= j < num_clusters (bpb (fs o)) -> fat (bpb (fs o)) X j = fat (bpb (fs o)) W j) as EX.
  { intros j Hj. apply fat_ext; [done| |done]. intros b Hin. apply HX. intros Hch. by apply (chain_not_fat _ _ _ Hv Hr Hch). }
  pose proof Hm3 as [= N1 N2 N3 N4]. split; try done.
  - unfold vol. congruence.
  - destruct Ha as [Ha1 Ha2]. split; [congruence|]. by rewrite N4, N2, M4, M2.
  - split; [done|..].
    + rewrite E. destruct Hd as [D1 D2 D3 D4]. split; [done..|]. intros c k Hc' Hk Ec. destruct (D4 c k Hc' Hk Ec). rewrite EX by lia. done.
    + intros c Hin. rewrite Forall_forall in Hr. pose proof (Hr c Hin). rewrite EX by lia. by apply Hb.
  - exists []. rewrite app_nil_r. split; [done|]. intros c Hin. by apply not_elem_of_nil in Hin.
  - by rewrite E.
  - by rewrite E.
  - left. rewrite E. split; [done|]. apply HX. by apply (dirent_not_in_chain _ W).
  - intros b _ _ Hno. by apply HX.
  - intros c Hc' _. by apply EX.
Qed.

(** Whole blocks at the position, in the rest of its cluster, are inside of the clusters of the file. *)
Lemma room_blocks V l f p w : volume p -> file_at p V f l -> cur_pos f < Z.of_nat (length l) * cluster_bytes p ->
  0 <= w <= cluster_blocks p - cluster_offset p f -> cur_pos f - block_offset f + w * 2 ^ log2_block_size <= Z.of_nat (length l) * cluster_bytes p.
Proof.
  intros Hv Hf Hlt Hw. pose proof (at_pos _ _ _ _ Hf). destruct (position_split p f Hv ltac:(lia)) as (E & Hco & Hbo).
  destruct (block_at V l f p Hv Hf Hlt) as (c & Hc & _). apply lookup_lt_Some in Hc. pose proof (cluster_blocks_pos p Hv) as Hcb. pose proof bytes_pos as Hb.
  pose proof block_size_Z as Hbs. apply (f_equal Z.of_nat) in E. rewrite Nat2Z.inj_add, Nat2Z.inj_mul, Nat2Z.inj_add, Nat2Z.inj_mul, Hbs, !Z2Nat.id in E by lia.
  unfold cluster_bytes. generalize dependent (2 ^ log2_block_size). intros b Hbo Hb Hbs E.
  assert (Z.of_nat (cluster_index p (cur_pos f)) + 1 <= Z.of_nat (length l)) as Hi by lia.
  assert ((Z.of_nat (cluster_index p (cur_pos f)) + 1) * cluster_blocks p <= Z.of_nat (length l) * cluster_blocks p) as H1 by nia.
  assert (cur_pos f - block_offset f + w * b = (Z.of_nat (cluster_index p (cur_pos f)) * cluster_blocks p + cluster_offset p f + w) * b) as -> by lia.
  rewrite Z.mul_assoc. apply Z.mul_le_mono_nonneg_r; lia.
Qed.

(** The numbers of the blocks from the position to the end of its cluster. *)
Lemma blocks_at V l f p : volume p -> file_at p V f l -> cur_pos f < Z.of_nat (length l) * cluster_bytes p ->
  let j := (cluster_index p (cur_pos f) * Z.to_nat (cluster_blocks p) + Z.to_nat (cluster_offset p f))%nat in
  (forall i : nat, Z.of_nat i < cluster_blocks p - cluster_offset p f -> chain_blocks p l !! (j + i)%nat = Some (cur_block p f + Z.of_nat i) /\
    shown p (cur_block p f + Z.of_nat i)) /\
  Z.to_nat (cur_pos f) = (j * block_size + Z.to_nat (block_offset f))%nat.
Proof.
  intros Hv Hf Hlt j. pose proof (at_pos _ _ _ _ Hf). destruct (position_split p f Hv ltac:(lia)) as (E & Hco & Hbo).
  destruct (block_at V l f p Hv Hf Hlt) as (c & Hc & _ & Hr & _ & Hblk & _). split; [|done]. intros i Hi. rewrite Hblk.
  replace (data_block p c (cluster_offset p f) + Z.of_nat i) with (data_block p c (cluster_offset p f + Z.of_nat i)) by (unfold data_block; lia).
  split; [|apply data_shown; (done || lia)]. unfold j. rewrite <- Nat.add_assoc, <- (chain_blocks_lookup p l _ c) by (done || lia). f_equal. lia.
Qed.

Lemma foreign_not_ours p V f l b : Forall (fun c => 2 <= c < num_clusters p) l -> foreign p V f l b -> b ∉ chain_blocks p l.
Proof. intros Hr (_ & _ & F) (c & k & Hc & Hk & E)%elem_of_chain_blocks. rewrite Forall_forall in Hr. by destruct (F c k (Hr c Hc) Hk E). Qed.

Lemma stuck_error o W l X o2 e o' : volume (bpb (fs o)) -> writable (bpb (fs o)) W (fd o) l -> stays o o2 ->
  (forall b, b ∉ chain_blocks (bpb (fs o)) l -> X b = W b) -> stuck o2 X e o' -> write_error o W l e o'.
Proof.
  intros Hv Hw [Sm Sf] HX (F1 & F2 & F3 & F4). split; [done|]. split; [by left|]. split; [apply meta_vol; congruence|]. exists X. split; [done|].
  intros b Hb. apply HX. eapply foreign_not_ours; [|exact Hb]. eapply chain_range, at_chain, writable_file, Hw.
Qed.

Lemma stored_advance o W l (d : list Z) X o2 : volume (bpb (fs o)) -> alloc_ok (fs o) -> writable (bpb (fs o)) W (fd o) l -> stays o o2 -> holds (fs o2) X ->
  (forall b, b ∉ chain_blocks (bpb (fs o)) l -> X b = W b) ->
  content (bpb (fs o)) X l = put (Z.to_nat (cur_pos (fd o))) d (content (bpb (fs o)) W l) ->
  cur_pos (fd o) + Z.of_nat (length d) < 2 ^ 32 -> cur_pos (fd o) + Z.of_nat (length d) <= Z.of_nat (length l) * cluster_bytes (bpb (fs o)) ->
  returns (advance_ptr (Z.of_nat (length d))) o2 (write_error o W l) (fun _ o3 => wrote o W l d X l o3).
Proof.
  intros Hv Ha Hw Hst H HX Hc Hmax Hin. pose proof Hst as [Sm Sf]. pose proof Sm as [= M1 M2 M3 M4]. pose proof (writable_file _ _ _ _ Hw) as Hf.
  pose proof (chain_range _ _ _ _ (at_chain _ _ _ _ Hf)) as Hr.
  eapply returns_mono; [apply (advance_holds o2 X l); rewrite ?M2, ?Sf; try (done || lia)| |].
  - eapply file_at_ext; [done| |exact Hf]. intros j Hj. apply fat_ext; [done| |done]. intros b Hb. apply HX. intros Hch. by apply (chain_not_fat _ _ _ Hv Hr Hch).
  - intros e o'. by apply stuck_error with (2 := Hw).
  - intros [] o3 H3. by apply (stored_wrote o W l d X o2).
Qed.

Lemma write_fragment_holds o V l (data : list Z) size :
  holds (fs o) V -> volume (bpb (fs o)) -> alloc_ok (fs o) -> writable (bpb (fs o)) V (fd o) l ->
  0 <= size <= Z.of_nat (length data) -> Forall is_byte data -> cur_pos (fd o) + size < 2 ^ 32 ->
  returns (write_block_fragment data size) o (write_error o V l) (fun n o' => n = fragment_size (fd o) size /\
    exists W m, wrote o V l (take (Z.to_nat n) data) W m o').
Proof.
  intros H Hv Ha Hw Hsz Hby Hmax. unfold write_block_fragment. go_gets. go_gets. destruct (fragment_bound (fd o) size) as (Hn & Hnb & _); [lia|].
  set (n := fragment_size (fd o) size) in *. pose proof (at_pos _ _ _ _ (writable_file _ _ _ _ Hw)) as Hp.
  destruct (Z.eqb_spec n 0) as [E|E]. { apply returns_ok. split; [done|]. exists V, l. by apply wrote_nil. }
  eapply returns_check; [by apply (ensure_room_holds o V l)|done|]. intros [] o1 (W & m & Hw1 & Hlt). go_gets.
  pose proof (wrote_bpb _ _ _ _ _ _ _ Hw1) as Hb1. pose proof (wrote_file _ _ _ _ _ _ _ Hw1) as Hwr1. pose proof (writable_file _ _ _ _ Hwr1) as Hf1.
  pose proof (wrote_pos _ _ _ _ _ _ _ Hw1) as Hp1. cbn [length Z.of_nat] in Hp1. rewrite Z.add_0_r in Hp1.
  assert (block_offset (fd o1) = block_offset (fd o)) as Hbo by (unfold block_offset; by rewrite Hp1).
  destruct (blocks_at W m (fd o1) (bpb (fs o)) Hv Hf1 Hlt) as [Hblk Hpos]. set (j := (_ + _)%nat) in *. destruct (position_split (bpb (fs o)) (fd o1) Hv ltac:(lia)) as (_ & Hco & Hbo1).
  destruct (Hblk 0%nat ltac:(lia)) as [Hlk Hsh]. rewrite Nat.add_0_r, Z.add_0_r in Hlk. rewrite Z.add_0_r in Hsh. set (b := cur_block (bpb (fs o)) (fd o1)) in *.
  pose proof (wrote_holds _ _ _ _ _ _ _ Hw1) as H1. pose proof (chain_range _ _ _ _ (at_chain _ _ _ _ Hf1)) as Hr.
  destruct (content_uniform (fs o1) W (-1) _ m H1 Hb1 Hv Hr) as [Hu _].
  eapply returns_check; [apply on_fs_returns, cache_open_holds; [done|by rewrite Hb1]| |].
  { intros e t [F Ff]. eapply write_error_trans; [done|exact Hw1|]. apply (stuck_error o1 W m W o1); rewrite ?Hb1; done. }
  intros i o2 [(Hm2 & Hi2 & H2 & _) Hf2]. pose proof block_size_Z as Hbs. pose proof bytes_pos as Hb0. set (d := take (Z.to_nat n) data). assert (length d = Z.to_nat n) as Hd by (apply length_take_le; lia).
  assert (block_ok (W b) -> block_ok (put (Z.to_nat (block_offset (fd o))) d (W b))) as Hok.
  { intros [Hl Hy]. split; [rewrite length_put; lia|]. apply Forall_put; [by apply Forall_take|done]. }
  eapply (fs_write_block o2 W); [done|done|rewrite Hbo; exact Hok|]. intros o3 [Sm Sf] H3. rewrite Hbo in H3.
  replace n with (Z.of_nat (length d)) at 1 by lia.
  eapply returns_check; [apply (stored_advance o1 W m d (vmod b (put (Z.to_nat (block_offset (fd o))) d) W) o3); rewrite ?Hb1, ?Hp1|..]; try done.
  - by apply (wrote_alloc _ _ _ _ _ _ _ Hw1).
  - split; congruence.
  - intros b' Hb'. apply vset_other. intros ->. apply Hb'. by eapply list_elem_of_lookup_2.
  - rewrite <- Hp1, Hpos, Hbo. apply content_fragment; try done; [|lia]. by apply NoDup_chain_blocks, (at_nodup _ _ _ _ Hf1).
  - lia.
  - pose proof (room_blocks W m (fd o1) (bpb (fs o)) 1 Hv Hf1 Hlt ltac:(lia)). lia.
  - intros e t. by apply write_error_trans with (2 := Hw1).
  - intros [] o4 Hw4. apply returns_ok. split; [done|]. eexists _, m. apply (wrote_trans o V l [] W m o1 d); [done..|lia|done|exact Hw4].
Qed.

(** Whole blocks are written around the cache. *)
Lemma write_around {A} o W b w (d : list Z) (k : result opened A) E R :
  holds (fs o) W -> 0 < w -> 0 <= b -> b + w < 2 ^ 64 -> (forall i : nat, Z.of_nat i < w -> shown (bpb (fs o)) (b + Z.of_nat i)) ->
  length d = (Z.to_nat w * block_size)%nat -> Forall is_byte d ->
  (forall o' X, stays o o' -> may_fail -> holds (fs o') X -> (forall b', ~ (b <= b' < b + w) -> X b' = W b') -> E (- UFAT_ERR_IO) o') ->
  (forall o', stays o o' -> holds (fs o') (vput b (Z.to_nat w) d W) -> returns k o' E R) ->
  returns (on_fs (ufat_cache_invalidate b w);;
    rc ← on_fs (io_write b w d);
    if rc <? 0 then fail UFAT_ERR_IO else on_fs (count (count_write w));; k) o E R.
Proof.
  intros H Hw Hb Hbw Hsh Hl Hy HE Hk. eapply on_fs_step; [apply (invalidate_holds (fs o) W b w); (done || lia)|].
  intros [] o2 (H2 & Hm2 & _ & Hno) Hf2. pose proof Hm2 as [= M1 M2 M3 M4].
  assert (forall b', ~ (b <= b' < b + w) -> dropped (fs o) b w W b' = W b') as Hdrop by (intros b' Hn; unfold dropped; by rewrite decide_False).
  pose proof (io_write_holds (fs o2) _ b (Z.to_nat w) d H2) as Hio. rewrite Z2Nat.id, M2 in Hio by lia.
  eapply on_fs_step; [apply Hio; [lia| |done..]; intros i Hi; apply Hsh; lia|].
  intros rc o3 [Hm3 Hrc] Hf3. destruct (rc <? 0).
  { destruct Hrc as (Hfail & X & HX & EX). apply returns_err. apply (HE o3 X); [split; congruence|done|done|]. intros b' Hb'. rewrite EX by done. by apply Hdrop. }
  assert (holds (fs o3) (vput b (Z.to_nat w) d W)) as HX.
  { eapply holds_ext; [|exact Hrc]. intros b' _. unfold vput. case_decide; [done|]. apply Hdrop. lia. }
  eapply (on_fs_step _ _ _ (fun _ u => holds u (vput b (Z.to_nat w) d W) /\ meta u = meta (fs o3))).
  { unfold wp, count, modify. split; [by eapply holds_alike; [apply alike_count|done|]|done]. }
  intros [] o4 (H4 & Hm4) Hf4. apply Hk; [split; congruence|done].
Qed.

Lemma write_blocks_holds o V l (data : list Z) size :
  holds (fs o) V -> volume (bpb (fs o)) -> alloc_ok (fs o) -> writable (bpb (fs o)) V (fd o) l -> aligned (fd o) \/ size = 0 ->
  0 <= size <= Z.of_nat (length data) -> Forall is_byte data -> cur_pos (fd o) + size < 2 ^ 32 ->
  returns (write_blocks data size) o (write_error o V l) (fun n o' => n = whole_blocks (bpb (fs o)) (fd o) size * 2 ^ log2_block_size /\
    exists W m, wrote o V l (take (Z.to_nat n) data) W m o').
Proof.
  intros H Hv Ha Hw Hal Hsz Hby Hmax. unfold write_blocks. go_gets. go_gets. pose proof (at_pos _ _ _ _ (writable_file _ _ _ _ Hw)) as Hp.
  destruct (whole_blocks_bound (bpb (fs o)) (fd o) size Hv) as (Hw0 & Hwn & _); [lia..|]. pose proof bytes_pos as Hb0. pose proof block_size_Z as Hbs.
  set (w := whole_blocks (bpb (fs o)) (fd o) size) in *. rewrite shiftl_bytes. set (n := w * 2 ^ log2_block_size) in *.
  destruct (Z.eqb_spec w 0) as [E|E]. { apply returns_ok. unfold n. rewrite E. split; [done|]. exists V, l. by apply wrote_nil. }
  assert (aligned (fd o)) as Hal0 by (destruct Hal as [|E0]; [done|]; exfalso; apply E; unfold n in Hwn; nia).
  eapply returns_check; [by apply (ensure_room_holds o V l)|done|]. intros [] o1 (W & m & Hw1 & Hlt). go_gets.
  pose proof (wrote_bpb _ _ _ _ _ _ _ Hw1) as Hb1. pose proof (wrote_file _ _ _ _ _ _ _ Hw1) as Hwr1. pose proof (writable_file _ _ _ _ Hwr1) as Hf1.
  pose proof (wrote_pos _ _ _ _ _ _ _ Hw1) as Hp1. cbn [length Z.of_nat] in Hp1. rewrite Z.add_0_r in Hp1.
  assert (block_offset (fd o1) = 0) as Hbo by (rewrite block_offset_mod, Hp1; exact Hal0).
  assert (cluster_offset (bpb (fs o)) (fd o1) = cluster_offset (bpb (fs o)) (fd o)) as Hce by (unfold cluster_offset; by rewrite Hp1). rewrite <- Hce in Hw0.
  destruct (blocks_at W m (fd o1) (bpb (fs o)) Hv Hf1 Hlt) as [Hblk Hpos]. set (j := (_ + _)%nat) in *. pose proof (cur_block_range W m (fd o1) _ Hv Hf1 Hlt) as Hcb.
  set (b := cur_block (bpb (fs o)) (fd o1)) in *. pose proof (wrote_holds _ _ _ _ _ _ _ Hw1) as H1. pose proof (chain_range _ _ _ _ (at_chain _ _ _ _ Hf1)) as Hr.
  destruct (content_uniform (fs o1) W (-1) _ m H1 Hb1 Hv Hr) as [Hu _]. pose proof (cluster_blocks_small _ Hv) as Hcs.
  destruct (position_split (bpb (fs o)) (fd o1) Hv ltac:(lia)) as (_ & Hco & _).
  set (d := take (Z.to_nat n) data). assert (Z.to_nat n = Z.to_nat w * block_size)%nat as Hnn by (unfold n; rewrite Z2Nat.inj_mul by lia; f_equal; lia).
  assert (length d = Z.to_nat w * block_size)%nat as Hd by (unfold d; rewrite length_take_le; lia).
  assert (forall b', b' ∉ chain_blocks (bpb (fs o)) m -> ~ (b <= b' < b + w)) as Hrange.
  { intros b' Hno' Hin. apply Hno'. eapply (list_elem_of_lookup_2 _ (j + Z.to_nat (b' - b))). rewrite (proj1 (Hblk (Z.to_nat (b' - b)) ltac:(lia))). f_equal. lia. }
  apply (write_around o1 W b w d); [done|lia|lia|lia|intros i Hi; rewrite Hb1; apply Hblk; lia|done|by apply Forall_take|..].
  { intros o' X Hst Hfail HX EX. eapply write_error_trans; [done|exact Hw1|]. apply (stuck_error o1 W m X o'); rewrite ?Hb1; [done..| |by split_and!].
    intros b' Hb'. by apply EX, Hrange. }
  intros o4 Hst H4. rewrite u32_id by lia. replace n with (Z.of_nat (length d)) at 1 by lia.
  eapply returns_check; [apply (stored_advance o1 W m d (vput b (Z.to_nat w) d W) o4); rewrite ?Hb1, ?Hp1|..]; try done.
  - by apply (wrote_alloc _ _ _ _ _ _ _ Hw1).
  - intros b' Hb'. unfold vput. rewrite decide_False; [done|]. pose proof (Hrange b' Hb'). lia.
  - rewrite <- Hp1, Hpos, Hbo, Nat.add_0_r. apply content_put; [done|by apply NoDup_chain_blocks, (at_nodup _ _ _ _ Hf1)| |lia|done]. intros i Hi. apply Hblk. lia.
  - lia.
  - pose proof (room_blocks W m (fd o1) (bpb (fs o)) w Hv Hf1 Hlt ltac:(lia)). lia.
  - intros e t. by apply write_error_trans with (2 := Hw1).
  - intros [] o5 Hw5. apply returns_ok. split; [done|]. eexists _, m. apply (wrote_trans o V l [] W m o1 d); [done..|lia|done|exact Hw5].
Qed.

(** * The whole write *)

Lemma wrote_facts o V l d W m o1 : wrote o V l d W m o1 ->
  holds (fs o1) W /\ alloc_ok (fs o1) /\ writable (bpb (fs o1)) W (fd o1) m /\ bpb (fs o1) = bpb (fs o) /\ cur_pos (fd o1) = cur_pos (fd o) + Z.of_nat (length d).
Proof. intros H. pose proof (wrote_bpb _ _ _ _ _ _ _ H) as Hb. destruct H. rewrite Hb. done. Qed.

Lemma take_plus {A} (n k : nat) (l : list A) : take n l ++ take k (drop n l) = take (n + k) l.
Proof. pose proof (sub_plus 0 n k l) as E. unfold sub in E. rewrite !drop_0 in E. done. Qed.

Lemma write_loop_holds fuel : forall o V l (data : list Z) len,
  holds (fs o) V -> volume (bpb (fs o)) -> alloc_ok (fs o) -> writable (bpb (fs o)) V (fd o) l -> aligned (fd o) \/ len = 0 ->
  0 <= len <= Z.of_nat (length data) -> Forall is_byte data -> cur_pos (fd o) + len < 2 ^ 32 -> (Z.to_nat (len / 2 ^ log2_block_size) < fuel)%nat ->
  returns (write_loop fuel data len) o (write_error o V l) (fun '(rest, togo) o' => exists n, rest = drop (Z.to_nat n) data /\ togo = len - n /\
    0 <= n <= len /\ togo < 2 ^ log2_block_size /\ (aligned (fd o') \/ togo = 0) /\ exists W m, wrote o V l (take (Z.to_nat n) data) W m o').
Proof.
  induction fuel as [|fuel IH]; intros o V l data len H Hv Ha Hw Hal Hlen Hby Hmax Hfuel; [lia|]. cbn [write_loop]. pose proof bytes_pos as Hb0.
  pose proof (at_pos _ _ _ _ (writable_file _ _ _ _ Hw)) as Hp. destruct (whole_blocks_bound (bpb (fs o)) (fd o) len Hv ltac:(lia) ltac:(lia)) as (Hw1 & Hwn & Hw0).
  eapply returns_check; [by apply (write_blocks_holds o V l)|done|]. set (w := whole_blocks (bpb (fs o)) (fd o) len) in *. intros n o1 (-> & W & m & Hwr).
  set (n := w * 2 ^ log2_block_size) in *. destruct (wrote_facts _ _ _ _ _ _ _ Hwr) as (H1 & Ha1 & Hwr1 & Hb1 & Hp1). rewrite length_take_le, Z2Nat.id in Hp1 by lia.
  assert (aligned (fd o1) \/ len = 0) as Hal1 by (destruct Hal as [Hal|]; [left; by apply (aligned_blocks o w)|by right]).
  destruct (Z.eqb_spec n 0) as [E|E].
  { apply returns_ok. exists 0. rewrite drop_0, Z.sub_0_r. split; [done|]. split; [done|]. split; [lia|]. split; [apply Hw0; unfold n in E; nia|]. split; [done|].
    exists W, m. by rewrite E in Hwr. }
  assert (1 <= w) as Hw2 by (unfold n in *; nia).
  eapply returns_mono; [apply (IH o1 W m); rewrite ?Hb1; try done; rewrite ?length_drop; try lia| |].
  - by rewrite <- Hb1.
  - destruct Hal1 as [|E0]; [by left|lia].
  - by apply Forall_drop.
  - replace (len - n) with (len + - w * 2 ^ log2_block_size) by (unfold n; lia). rewrite Z_div_plus_full by lia.
    assert (w <= len / 2 ^ log2_block_size) by (apply Z.div_le_lower_bound; lia). lia.
  - intros e t. by apply write_error_trans with (2 := Hwr).
  - intros [rest left_] o2 (k & -> & -> & Hk & Hlt & Hal2 & X & m2 & Hwr2). exists (n + k). rewrite drop_drop, Z2Nat.inj_add by lia.
    split; [done|]. split; [lia|]. split; [lia|]. split; [lia|]. split; [destruct Hal2; [by left|right; lia]|]. exists X, m2. rewrite <- take_plus. eapply wrote_trans; [done..|lia|exact Hwr|exact Hwr2].
Qed.

(** The size in the directory entry, which is written last. *)
Definition store_size (n : Z) f : list Z -> list Z := w32 (dirent_place f + 0x1c) n.

Definition size_stored V f W f' : Prop :=
  if file_size f <? cur_pos f then f' = set_file_size (cur_pos f) f /\ W = vmod (dirent_block f) (store_size (cur_pos f) f) V
  else f' = f /\ W = V.

(** A write as a whole: the data and then the size. *)
Definition written o V l (d : list Z) W m o' : Prop := exists o1 X,
  wrote o V l d X m o1 /\ meta (fs o') = meta (fs o1) /\ holds (fs o') W /\ size_stored X (fd o1) W (fd o').

Lemma set_size_holds o V l : volume (bpb (fs o)) -> holds (fs o) V -> writable (bpb (fs o)) V (fd o) l ->
  returns (set_size (cur_pos (fd o))) o (stuck o V) (fun _ o' => meta (fs o') = meta (fs o) /\ fd o' = set_file_size (cur_pos (fd o)) (fd o) /\
    holds (fs o') (vmod (dirent_block (fd o)) (store_size (cur_pos (fd o)) (fd o)) V)).
Proof.
  intros Hv H Hw. pose proof (writable_dirent _ _ _ _ Hw) as Hd. pose proof (dirent_place_fits _ _ _ _ Hd) as Hfit. unfold set_size.
  set (g := fun (at_ : nat) => w32 (at_ + 0x1c) (cur_pos (fd o))).
  eapply returns_check; [apply (on_dirent_holds o V g); [done|apply Hd|]; intros data Hok; apply block_ok_w32; [lia|done]|done|].
  intros [] o1 [[Hm Hf] H1]. go_gets. apply returns_ok. cbn [fs fd set_fd]. rewrite Hf. done.
Qed.

Lemma file_write_holds o V l (data : list Z) len :
  holds (fs o) V -> volume (bpb (fs o)) -> alloc_ok (fs o) -> writable (bpb (fs o)) V (fd o) l ->
  0 <= len <= Z.of_nat (length data) -> Forall is_byte data ->
  let n := Z.min len (2 ^ 32 - 1 - cur_pos (fd o)) in
  returns (ufat_file_write data len) o (write_error o V l) (fun r o' => r = n /\ exists W m, written o V l (take (Z.to_nat n) data) W m o').
Proof.
  intros H Hv Ha Hw Hlen Hby n. pose proof (at_pos _ _ _ _ (writable_file _ _ _ _ Hw)) as Hp. unfold ufat_file_write. go_gets.
  assert ((if 0xffffffff - cur_pos (fd o) <? len then 0xffffffff - cur_pos (fd o) else len) = n) as ->.
  { unfold n. destruct (Z.ltb_spec (0xffffffff - cur_pos (fd o)) len); lia. }
  destruct (fragment_bound (fd o) n) as (Hn1 & _ & Hal & _); [lia|]. pose proof bytes_pos as Hb0.
  eapply returns_check; [apply (write_fragment_holds o V l data n); (done || lia)|done|]. intros n1 o1 (-> & W & m & Hw1). set (n1 := fragment_size (fd o) n) in *.
  destruct (wrote_facts _ _ _ _ _ _ _ Hw1) as (H1 & Ha1 & Hwr1 & Hb1 & Hp1). rewrite length_take_le, Z2Nat.id in Hp1 by lia.
  eapply returns_check; [apply (write_loop_holds _ o1 W m); rewrite ?Hb1; try done; rewrite ?length_drop; try lia| |].
  - by rewrite <- Hb1.
  - unfold aligned. rewrite Hp1. destruct Hal; [right; lia|by left].
  - by apply Forall_drop.
  - rewrite Z.shiftr_div_pow2 by (pose proof log2_block_size_bound; lia). pose proof (Z.div_le_mono (n - n1) n _ Hb0 ltac:(lia)). lia.
  - intros e t. by apply write_error_trans with (2 := Hw1).
  - intros [rest togo] o2 (n2 & -> & -> & Hn2 & Hlt & Hal2 & W2 & m2 & Hw2).
    pose proof (wrote_trans _ _ _ _ _ _ _ _ _ _ _ Hv H (proj1 Hp) Hw1 Hw2) as Hw12. rewrite take_plus, <- (Z2Nat.inj_add n1 n2) in Hw12 by lia.
    destruct (wrote_facts _ _ _ _ _ _ _ Hw12) as (H2 & Ha2 & Hwr2 & Hb2 & Hp2). rewrite length_take_le, Z2Nat.id in Hp2 by lia.
    destruct (fragment_bound (fd o2) (n - n1 - n2)) as (_ & _ & _ & Hfa & Hf0); [lia|].
    assert (fragment_size (fd o2) (n - n1 - n2) = n - n1 - n2) as Hfr by (destruct Hal2 as [Hal2|Hal2]; [by apply Hfa|rewrite Hal2 in *; by apply Hf0]).
    rewrite drop_drop, <- (Z2Nat.inj_add n1 n2) by lia.
    eapply returns_check; [apply (write_fragment_holds o2 W2 m2); rewrite ?Hb2; try done; rewrite ?length_drop; try lia; [by rewrite <- Hb2|by apply Forall_drop]|intros e t; by apply write_error_trans with (2 := Hw12)|].
    intros n3 o3 (-> & X & m3 & Hw3). rewrite Hfr in Hw3. pose proof (wrote_trans _ _ _ _ _ _ _ _ _ _ _ Hv H (proj1 Hp) Hw12 Hw3) as Hw123.
    rewrite take_plus, <- (Z2Nat.inj_add (n1 + n2)) in Hw123 by lia. replace (n1 + n2 + (n - n1 - n2)) with n in Hw123 by lia.
    destruct (wrote_facts _ _ _ _ _ _ _ Hw123) as (H3 & Ha3 & Hwr3 & Hb3 & Hp3). go_gets. destruct (file_size (fd o3) <? cur_pos (fd o3)) eqn:Esz.
    + eapply returns_check; [apply (set_size_holds o3 X m3); [by rewrite Hb3|done|done]| |].
      * intros e t Hst. eapply write_error_trans; [done|exact Hw123|]. by apply (stuck_error o3 X m3 X o3); [rewrite Hb3| | | |].
      * intros [] o4 (Hm4 & Hf4 & H4). apply returns_ok. split; [done|]. eexists _, m3, o3, X. split_and!; [done|done|exact H4|].
        unfold size_stored. rewrite Esz. by rewrite Hf4.
    + eapply check_go; [reflexivity|]. apply returns_ok. split; [done|]. exists X, m3, o3, X. split_and!; try done. unfold size_stored. by rewrite Esz.
Qed.

(** * What a write does to the file and to others *)

(** The bytes of a file. *)
Definition file_bytes p V f l : list Z := take (Z.to_nat (file_size f)) (content p V l).

Lemma writable_ext p V W f l : volume p -> (forall j, 0 <= j < num_clusters p -> fat p W j = fat p V j) -> writable p V f l -> writable p W f l.
Proof.
  intros Hv E [Hf [D1 D2 D3 D4] Hb]. pose proof (chain_range _ _ _ _ (at_chain _ _ _ _ Hf)) as Hr. rewrite Forall_forall in Hr. split.
  - by eapply file_at_ext.
  - split; [done..|]. intros c k Hc Hk Ec. destruct (D4 c k Hc Hk Ec). rewrite E by lia. done.
  - intros c Hc. pose proof (Hr c Hc). rewrite E by lia. by apply Hb.
Qed.

Lemma writable_size p V f l n : 0 <= n < 2 ^ 32 -> n <= Z.of_nat (length l) * cluster_bytes p -> writable p V f l -> writable p V (set_file_size n f) l.
Proof. intros Hn Hl [[] [] Hb]. split; [split|split|]; done. Qed.

Lemma written_facts o V l d W m o' : volume (bpb (fs o)) -> written o V l d W m o' ->
  holds (fs o') W /\ vol (fs o') = vol (fs o) /\ alloc_ok (fs o') /\ writable (bpb (fs o)) W (fd o') m /\
  cur_pos (fd o') = cur_pos (fd o) + Z.of_nat (length d) /\ file_size (fd o') = Z.max (file_size (fd o)) (cur_pos (fd o')) /\
  content (bpb (fs o)) W m = put (Z.to_nat (cur_pos (fd o))) d (content (bpb (fs o)) V m) /\
  (forall b, b <> dirent_block (fd o) -> ~ in_fat (bpb (fs o)) b -> b ∉ chain_blocks (bpb (fs o)) m -> W b = V b) /\
  (forall c, 0 <= c < num_clusters (bpb (fs o)) -> c ∉ m -> fat (bpb (fs o)) W c = fat (bpb (fs o)) V c) /\
  exists new, m = l ++ new /\ forall c, c ∈ new -> fat (bpb (fs o)) V c = UFAT_CLUSTER_FREE.
Proof.
  intros Hv (o1 & X & Hw & Hm & H & Hsz). pose proof (wrote_same _ _ _ _ _ _ _ Hw) as (S1 & S2 & S3). pose proof Hm as [= M1 M2 M3 M4].
  pose proof (wrote_bpb _ _ _ _ _ _ _ Hw) as Hb. pose proof (wrote_file _ _ _ _ _ _ _ Hw) as Hwr. pose proof (wrote_alloc _ _ _ _ _ _ _ Hw) as Ha. pose proof (writable_file _ _ _ _ Hwr) as Hf.
  assert (alloc_ok (fs o')) as Ha' by (unfold alloc_ok in *; by rewrite M2, M4).
  assert (vol (fs o') = vol (fs o)) as Hvol by (rewrite (meta_vol _ _ Hm); apply Hw).
  unfold size_stored in Hsz. destruct (Z.ltb_spec (file_size (fd o1)) (cur_pos (fd o1))) as [Hlt|Hge].
  - destruct Hsz as [Hfd HW]. pose proof (writable_dirent _ _ _ _ Hwr) as Hd. pose proof (dirent_off_fat _ _ _ _ Hd) as Hoff.
    pose proof (chain_range _ _ _ _ (at_chain _ _ _ _ Hf)) as Hr. pose proof (dirent_not_in_chain _ _ _ _ Hv Hd Hr) as Hnc.
    assert (forall b, b <> dirent_block (fd o1) -> W b = X b) as EW by (intros b Hb'; rewrite HW; by apply vset_other).
    assert (forall j, 0 <= j < num_clusters (bpb (fs o)) -> fat (bpb (fs o)) W j = fat (bpb (fs o)) X j) as Efat.
    { intros j Hj. apply fat_ext; [done| |done]. intros b Hin. apply EW. by intros ->. }
    split_and!; try done; rewrite ?Hfd.
    + apply writable_size; [apply Hf|apply Hf|]. by eapply writable_ext.
    + exact (wrote_pos _ _ _ _ _ _ _ Hw).
    + cbn. lia.
    + rewrite <- (wrote_content _ _ _ _ _ _ _ Hw). apply content_ext. intros b Hin. apply EW. by intros ->.
    + intros b B1 B2 B3. rewrite EW by by rewrite S1. by apply (wrote_blocks _ _ _ _ _ _ _ Hw).
    + intros c Hc Hno. rewrite Efat by done. by apply (wrote_fat _ _ _ _ _ _ _ Hw).
    + exact (wrote_grown _ _ _ _ _ _ _ Hw).
  - destruct Hsz as [Hfd ->]. split_and!; try done; rewrite ?Hfd.
    + exact Hwr.
    + exact (wrote_pos _ _ _ _ _ _ _ Hw).
    + lia.
    + exact (wrote_content _ _ _ _ _ _ _ Hw).
    + intros b B1 B2 B3. by apply (wrote_blocks _ _ _ _ _ _ _ Hw).
    + exact (wrote_fat _ _ _ _ _ _ _ Hw).
    + exact (wrote_grown _ _ _ _ _ _ _ Hw).
Qed.

(** Written bytes replace the old ones at the position, and may make the file longer. *)
Lemma written_bytes o V l d W m o' : volume (bpb (fs o)) -> holds (fs o) V -> file_at (bpb (fs o)) V (fd o) l -> cur_pos (fd o) <= file_size (fd o) ->
  written o V l d W m o' ->
  let old := file_bytes (bpb (fs o)) V (fd o) l in let pos := Z.to_nat (cur_pos (fd o)) in
  file_bytes (bpb (fs o)) W (fd o') m = take pos old ++ d ++ drop (pos + length d) old.
Proof.
  intros Hv H Hf Hpos Hwr old pos. destruct (written_facts _ _ _ _ _ _ _ Hv Hwr) as (_ & _ & _ & Hw & Hp & Hs & Hc & _ & _ & new & -> & Hnew).
  pose proof (at_pos _ _ _ _ Hf). pose proof (at_size _ _ _ _ Hf). pose proof (at_fits _ _ _ _ Hf). pose proof (writable_file _ _ _ _ Hw) as Hf'.
  pose proof (length_content (fs o) V _ l H eq_refl Hv (chain_range _ _ _ _ (at_chain _ _ _ _ Hf))) as Hl.
  pose proof (length_content (fs o) V _ (l ++ new) H eq_refl Hv (chain_range _ _ _ _ (at_chain _ _ _ _ Hf'))) as Hl'.
  pose proof (at_inside _ _ _ _ Hf'). unfold file_bytes. rewrite Hc, Hs, Hp. fold pos. assert (Z.of_nat pos = cur_pos (fd o)) as Epos by (unfold pos; lia). clearbody pos. rewrite content_app in *. rewrite length_app in Hl'.
  set (A := content _ V l) in *. set (B := content _ V new) in *. unfold old, file_bytes. fold A. rewrite take_take, Nat.min_l by lia.
  unfold put. rewrite (take_app_le A B) by lia. destruct (Z.le_gt_cases (cur_pos (fd o) + Z.of_nat (length d)) (file_size (fd o))).
  - rewrite Z.max_l by lia. rewrite take_app_ge by (rewrite length_take; lia). rewrite length_take, Nat.min_l by lia. f_equal.
    rewrite take_app_ge by lia. f_equal. rewrite drop_app_le by lia. rewrite take_app_le by (rewrite length_drop; lia).
    rewrite skipn_firstn_comm. f_equal. lia.
  - rewrite Z.max_r by lia. rewrite (drop_ge (take _ _)) by (rewrite length_take; lia). rewrite app_nil_r, app_assoc. rewrite take_app_le by (rewrite length_app, length_take; lia).
    apply take_ge. rewrite length_app, length_take. lia.
Qed.
End Write.
