(* ===== verification/UfatWalk.v ===== *)
(** A directory as the sequence of its raw entries: what reading, advancing and writing at a
    place of the sequence do, and what reading the entries that are made of them gives. *)

From S2P Require Import Prelude UfatDev UfatCache UfatView UfatFat UfatTable UfatChain UfatBpb UfatName UfatLong UfatFile UfatDir UfatRead UfatWrite.
#[local] Open Scope Z_scope.

(** A raw entry with its block and its place in the block. *)
Notation dslot := (list Z * Z * Z)%type (only parsing).
Definition slot_data (s : dslot) : list Z := s.1.1.

Section Walk.
Context {D : Type} {BD : BlockDevice D} {DS : DeviceSpec D}.
Implicit Types (V W : Z -> list Z) (w : @walk D) (b : Z).

(** * The entries of a block *)

Definition in_block : nat := block_size / 32.

Lemma block_entries : (block_size = in_block * 32)%nat /\ (0 < in_block)%nat.
Proof.
  pose proof log2_block_size_bound as Hl. assert (0 < 2 ^ (log2_block_size - 5)) as Hp by (apply Z.pow_pos_nonneg; lia).
  assert (2 ^ log2_block_size = 2 ^ (log2_block_size - 5) * 32) as E2 by (change 32 with (2 ^ 5); rewrite <- Z.pow_add_r by lia; f_equal; lia).
  pose proof block_size_Z as E. rewrite E2 in E. clear E2. revert Hp E. generalize (2 ^ (log2_block_size - 5)). intros k Hp E.
  assert (block_size = Z.to_nat k * 32)%nat as E3 by lia. unfold in_block. rewrite E3, Nat.div_mul by lia. lia.
Qed.

Lemma in_block_small : Z.of_nat in_block <= 2 ^ 13.
Proof.
  destruct block_entries as [E _]. pose proof log2_block_size_bound. assert (2 ^ log2_block_size <= 2 ^ 13) as Hl by (apply Z.pow_le_mono_r; lia).
  rewrite <- block_size_Z, E in Hl. lia.
Qed.

Lemma entries_per_block_nat : entries_per_block = Z.of_nat in_block.
Proof.
  destruct block_entries as [E _]. pose proof block_size_Z as EZ. unfold entries_per_block. rewrite Z.shiftl_1_l, <- EZ, E, Z.shiftr_div_pow2 by lia.
  change (2 ^ 5) with 32. rewrite Nat2Z.inj_mul, Z.div_mul; lia.
Qed.

Lemma entry_fits (j : nat) n : (j < in_block)%nat -> 0 <= n <= 32 -> entry_inside (Z.of_nat j) n = true /\ entry_offset (Z.of_nat j) = (j * 32)%nat /\ (j * 32 + 32 <= block_size)%nat.
Proof. intros Hj Hn. destruct block_entries as [E _]. unfold entry_inside, entry_offset, UFAT_DIRENT_SIZE. split_and!; nia. Qed.

Lemma last_entry (j : nat) : (j < in_block)%nat ->
  (Z.shiftl 1 log2_block_size <=? u32 (u32 (Z.of_nat j + 1) * UFAT_DIRENT_SIZE)) = bool_decide (S j = in_block).
Proof.
  intros Hj. destruct block_entries as [E _]. pose proof block_size_Z as EZ. pose proof log2_block_size_bound.
  assert (2 ^ log2_block_size <= 2 ^ 13) by (apply Z.pow_le_mono_r; lia). unfold UFAT_DIRENT_SIZE. rewrite (u32_id (Z.of_nat j + 1)), u32_id by lia.
  rewrite Z.shiftl_1_l, <- EZ. case_bool_decide; lia.
Qed.

(** * The blocks of a directory *)

(** The block behind [b] in the directory, when nothing is allocated. *)
Definition next_block (p : ufat_bpb) V b : Z :=
  if b <? cluster_start p then if cluster_start p <=? b + 1 then UFAT_BLOCK_NONE else b + 1
  else if block_to_cluster p b =? block_to_cluster p (u64 (b + 1)) then u64 (b + 1)
  else let c := fat p V (block_to_cluster p b) in if UFAT_CLUSTER_IS_PTR c then cluster_to_block p c else UFAT_BLOCK_NONE.

Record dir_at (p : ufat_bpb) V (bs : list Z) : Prop := {
  da_nodup : NoDup bs;
  da_shown b : b ∈ bs -> shown p b /\ ~ in_fat p b;
  da_cluster b : b ∈ bs -> cluster_start p <= b -> 2 <= block_to_cluster p b < num_clusters p;
  da_next i b : bs !! i = Some b -> next_block p V b = default UFAT_BLOCK_NONE (bs !! S i);
  da_fuel : (length bs * in_block < dir_fuel p)%nat
}.

Lemma dir_block_bound p V bs b : dir_at p V bs -> b ∈ bs -> 0 <= b < 2 ^ 62.
Proof. intros Hd Hb. apply dev_has_bound, (da_shown _ _ _ Hd b Hb). Qed.

Lemma dir_block_some p V bs b : dir_at p V bs -> b ∈ bs -> (b =? UFAT_BLOCK_NONE) = false.
Proof. intros Hd Hb. pose proof (dir_block_bound _ _ _ _ Hd Hb). apply Z.eqb_neq. unfold UFAT_BLOCK_NONE. lia. Qed.

Lemma dir_at_ext p V W bs : volume p -> (forall b, in_fat p b -> W b = V b) -> dir_at p V bs -> dir_at p W bs.
Proof.
  intros Hv E Hd. destruct Hd as [H1 H2 H3 H4 H5]. split; try done. intros i b Hb. rewrite <- (H4 i b Hb). unfold next_block.
  destruct (Z.ltb_spec b (cluster_start p)); [done|]. pose proof (H3 b (list_elem_of_lookup_2 _ _ _ Hb) ltac:(done)). by rewrite (fat_ext p V W) by (done || lia).
Qed.

(** * The sequence of the entries *)

Definition raw V b (j : nat) : list Z := sub (j * 32) 32 (V b).
Definition block_slots V b : list dslot := (fun j => (raw V b j, b, Z.of_nat j)) <$> List.seq 0 in_block.
Definition slots V (bs : list Z) : list dslot := concat (block_slots V <$> bs).

Lemma length_block_slots V b : length (block_slots V b) = in_block.
Proof. unfold block_slots. by rewrite length_fmap, List.length_seq. Qed.

Lemma length_slots V bs : length (slots V bs) = (length bs * in_block)%nat.
Proof.
  unfold slots. rewrite (length_concat_uniform in_block); [by rewrite length_fmap|]. apply Forall_fmap, Forall_forall. intros b _. apply length_block_slots.
Qed.

Lemma block_slots_lookup V b j : (j < in_block)%nat -> block_slots V b !! j = Some (raw V b j, b, Z.of_nat j).
Proof. intros Hj. unfold block_slots. rewrite list_lookup_fmap, lookup_seq_lt by done. done. Qed.

Lemma slots_lookup V bs n j b : bs !! n = Some b -> (j < in_block)%nat -> slots V bs !! (n * in_block + j)%nat = Some (raw V b j, b, Z.of_nat j).
Proof.
  unfold slots. revert n. induction bs as [|x bs IH]; intros n Hn Hj; [done|]. cbn [fmap list_fmap concat]. destruct n as [|n].
  - injection Hn as ->. rewrite lookup_app_l by (rewrite length_block_slots; lia). by apply block_slots_lookup.
  - rewrite lookup_app_r by (rewrite length_block_slots; lia). rewrite length_block_slots. replace (S n * in_block + j - in_block)%nat with (n * in_block + j)%nat by lia. by apply IH.
Qed.

(** Where the entry [i] is; behind the last one there is no block. *)
Definition at_index (start : Z) (bs : list Z) (i : nat) : ufat_directory :=
  mkDir (Z.of_nat (i mod in_block)) (default UFAT_BLOCK_NONE (bs !! (i / in_block)%nat)) start.

Lemma split_index (i : nat) : (i = (i / in_block) * in_block + i mod in_block)%nat /\ (i mod in_block < in_block)%nat.
Proof. destruct block_entries as [_ H]. pose proof (Nat.div_mod i in_block ltac:(lia)). pose proof (Nat.mod_upper_bound i in_block ltac:(lia)). lia. Qed.

Lemma index_inside V bs i : (i < length bs * in_block)%nat -> exists b, bs !! (i / in_block)%nat = Some b /\
  slots V bs !! i = Some (raw V b (i mod in_block), b, Z.of_nat (i mod in_block)).
Proof.
  intros Hi. destruct (split_index i) as [E Hj]. destruct (lookup_lt_is_Some_2 bs (i / in_block)) as [b Hb]; [apply Nat.Div0.div_lt_upper_bound; by rewrite Nat.mul_comm|].
  exists b. split; [done|]. rewrite E at 1. by apply slots_lookup.
Qed.

Lemma index_end start bs i : (length bs * in_block <= i)%nat -> dir_block (at_index start bs i) = UFAT_BLOCK_NONE.
Proof.
  intros Hi. destruct block_entries as [_ H0]. unfold at_index. cbn [dir_block]. rewrite lookup_ge_None_2; [done|]. by apply Nat.div_le_lower_bound; [lia|rewrite Nat.mul_comm].
Qed.

Lemma index_unique i q r : (r < in_block)%nat -> i = (q * in_block + r)%nat -> (i / in_block = q)%nat /\ (i mod in_block = r)%nat.
Proof.
  intros Hr E. split; symmetry; [apply (Nat.div_unique i in_block q r Hr)|apply (Nat.mod_unique i in_block q r Hr)]; lia.
Qed.

Lemma next_index i : if bool_decide (S (i mod in_block) = in_block) then (S i / in_block = S (i / in_block))%nat /\ (S i mod in_block = 0)%nat
  else (S i / in_block = i / in_block)%nat /\ (S i mod in_block = S (i mod in_block))%nat.
Proof.
  destruct (split_index i) as [E Hj]. pose proof (index_unique (S i)) as U. revert E Hj. generalize (i / in_block)%nat (i mod in_block)%nat. intros q r E Hr.
  case_bool_decide as B; apply U; lia.
Qed.

(** * Steps *)

Lemma on_ufat_wp {A} (m : prog (ufat D) A) w Q : wp m (wfs w) Q -> wp (on_ufat m) w (fun a w' => Q a (wfs w') /\ wdir w' = wdir w).
Proof. unfold wp, on_ufat, zoom. by destruct (m (wfs w)). Qed.

Lemma on_ufat_returns {A} (m : result (ufat D) A) w E Q :
  returns m (wfs w) E Q -> returns (on_ufat m) w (fun e w' => E e (wfs w') /\ wdir w' = wdir w) (fun a w' => Q a (wfs w') /\ wdir w' = wdir w).
Proof. intros H. eapply wp_mono; [by apply on_ufat_wp|]. intros [e|a] t; tauto. Qed.

Lemma on_ufat_step {A B} (m : prog (ufat D) A) (k : A -> result walk B) w Q E R :
  wp m (wfs w) Q -> (forall a w', Q a (wfs w') -> wdir w' = wdir w -> returns (k a) w' E R) -> returns (on_ufat m ≫= k) w E R.
Proof. intros H Hk. apply returns_bind. eapply wp_mono; [by apply on_ufat_wp|]. intros a w' []. by apply Hk. Qed.

Section Directory.
Context (p : ufat_bpb) (start : Z) (bs : list Z).
Hypothesis Hvol : volume p.
Notation n_slots := (length bs * in_block)%nat.

(** At the entry [i] of the directory, in a state that shows [V]. *)
Record walking w V (i : nat) : Prop := {
  wk_holds : holds (wfs w) V;
  wk_bpb : bpb (wfs w) = p;
  wk_dir : dir_at p V bs;
  wk_at : wdir w = at_index start bs i;
  wk_inside : (i <= n_slots)%nat
}.

(** The device has failed; nothing that can be seen has changed. *)
Definition walk_failed w V (e : Z) w' : Prop := failed (wfs w) V e (wfs w') /\ dir_start (wdir w') = start.

Definition kept w w' : Prop := meta (wfs w') = meta (wfs w).

Lemma walking_kept w V i w' j : walking w V i -> kept w w' -> holds (wfs w') V -> wdir w' = at_index start bs j -> (j <= n_slots)%nat -> walking w' V j.
Proof. intros [H1 H2 H3 H4 H5] [= _ Hb _ _] Hh Hd Hj. split; try done. congruence. Qed.

Lemma walk_failed_from w w1 V e w' : kept w w1 -> walk_failed w1 V e w' -> walk_failed w V e w'.
Proof. unfold walk_failed, failed, kept. intros Hk ((H1 & H2 & H3 & H4) & H5). split_and!; (done || congruence). Qed.

Lemma read_raw_holds w V i : walking w V i ->
  returns ufat_read_raw_dirent w (walk_failed w V) (fun r w' => walking w' V i /\ kept w w' /\ r = slot_data <$> slots V bs !! i).
Proof.
  intros Hw. pose proof Hw as [H1 H2 H3 H4 H5]. unfold ufat_read_raw_dirent. go_gets. rewrite H4. destruct (decide (i < n_slots)%nat) as [Hi|Hi].
  - destruct (index_inside V bs i Hi) as (b & Hb & Hs). destruct (split_index i) as [_ Hj].
    assert (dir_block (at_index start bs i) = b) as Eb by (unfold at_index; cbn [dir_block]; by rewrite Hb). rewrite Eb.
    pose proof (list_elem_of_lookup_2 _ _ _ Hb) as Hin. rewrite (dir_block_some _ _ _ _ H3 Hin).
    eapply returns_check; [apply on_ufat_returns, (cache_open_holds _ V b); [done|rewrite H2; by apply (da_shown _ _ _ H3)]|intros e t [F FD]; split; [exact F|by rewrite FD, H4]|].
    intros idx w1 [(M1 & I1 & Hh1 & S1) D1]. apply (on_ufat_step _ _ _ (fun data u => data = V b /\ u = wfs w1)); [unfold wp; rewrite cache_data_run; [done|apply Hh1|apply I1]|].
    intros data w2 [-> U2] D2. destruct (entry_fits (i mod in_block) UFAT_DIRENT_SIZE Hj ltac:(done)) as (E1 & E2 & _).
    change (dir_pos (at_index start bs i)) with (Z.of_nat (i mod in_block)). rewrite E1. apply returns_bind. apply wp_require; [done|]. apply returns_ok.
    assert (kept w w2) as K by (unfold kept; congruence). split_and!; [|done|].
    + eapply walking_kept; [done|done|by rewrite U2|by rewrite D2, D1, H4|done].
    + rewrite Hs. cbn [fmap option_fmap option_map slot_data fst]. by rewrite E2.
  - rewrite index_end by lia. cbn [Z.eqb]. apply returns_ok. split_and!; [done|done|]. rewrite lookup_ge_None_2; [done|rewrite length_slots; lia].
Qed.

Lemma at_next i b : bs !! (i / in_block)%nat = Some b ->
  at_index start bs (S i) = if bool_decide (S (i mod in_block) = in_block) then mkDir 0 (default UFAT_BLOCK_NONE (bs !! S (i / in_block))) start
    else mkDir (Z.of_nat (S (i mod in_block))) b start.
Proof. intros Hb. pose proof (next_index i) as N. unfold at_index. case_bool_decide; destruct N as [-> ->]; [done|by rewrite Hb]. Qed.

Lemma next_in_chain_holds w V b (can_alloc : bool) : holds (wfs w) V -> dir_start (wdir w) = start -> bpb (wfs w) = p -> dir_at p V bs -> b ∈ bs -> cluster_start p <= b ->
  block_to_cluster p b <> block_to_cluster p (u64 (b + 1)) -> can_alloc = false \/ next_block p V b <> UFAT_BLOCK_NONE ->
  returns (on_ufat (next_in_chain (block_to_cluster p b) can_alloc)) w (walk_failed w V)
    (fun r w' => r = next_block p V b /\ holds (wfs w') V /\ kept w w' /\ wdir w' = wdir w).
Proof.
  intros H H0 Hb Hd Hin Hc Hne Ha. pose proof (da_cluster _ _ _ Hd b Hin Hc) as Hr.
  eapply returns_mono; [apply (on_ufat_returns _ _ (failed (wfs w) V) (fun r u => r = next_block p V b /\ holds u V /\ meta u = meta (wfs w)))|intros e t [F FD]; split; [exact F|congruence]|by intros r t ((F1 & F2 & F3) & F4)].
  unfold next_in_chain. go_gets. rewrite Hb. eapply returns_check; [apply (read_fat_holds _ V); [done|by rewrite Hb|rewrite Hb; lia]|done|].
  intros c u1 (M1 & H1 & ->). rewrite Hb. unfold next_block in *. rewrite (proj2 (Z.ltb_ge _ _) Hc), (proj2 (Z.eqb_neq _ _) Hne) in *. cbn zeta in *.
  destruct (UFAT_CLUSTER_IS_PTR _); [by apply returns_ok|]. destruct can_alloc; [by destruct Ha|]. by apply returns_ok.
Qed.

(** A step to the next entry; nothing is allocated while the directory has one. *)
Lemma advance_raw_holds w V i (can_alloc : bool) : walking w V i -> (i < n_slots)%nat -> can_alloc = false \/ (S i < n_slots)%nat ->
  returns (ufat_advance_raw_dirent can_alloc) w (walk_failed w V) (fun _ w' => walking w' V (S i) /\ kept w w').
Proof.
  intros Hw Hi Ha. pose proof Hw as [H1 H2 H3 H4 H5]. destruct (index_inside V bs i Hi) as (b & Hb & Hs). destruct (split_index i) as [_ Hj].
  pose proof (list_elem_of_lookup_2 _ _ _ Hb) as Hin. pose proof (at_next i b Hb) as Hn. pose proof (dir_block_bound _ _ _ _ H3 Hin) as Hbb.
  assert (wdir w = mkDir (Z.of_nat (i mod in_block)) b start) as Ed by (rewrite H4; unfold at_index; by rewrite Hb).
  assert (forall w', kept w w' -> holds (wfs w') V -> wdir w' = at_index start bs (S i) -> returns (ok tt) w' (walk_failed w V) (fun _ w' => walking w' V (S i) /\ kept w w')) as Hend.
  { intros w' K Hh Hd. apply returns_ok. split; [|done]. eapply walking_kept; [done|done|done|done|lia]. }
  unfold ufat_advance_raw_dirent. go_gets. go_gets. rewrite Ed, H2. cbn [dir_pos dir_block]. rewrite last_entry by done. case_bool_decide as B.
  - go_gets. pose proof (da_next _ _ _ H3 _ _ Hb) as Hx. set (w1 := set_wdir _ w).
    assert (wdir w1 = mkDir 0 b start) as Ed1 by (unfold w1, set_wdir; cbn [wdir]; by rewrite Ed).
    destruct (Z.ltb_spec b (cluster_start p)) as [Hc|Hc].
    + go_gets. apply Hend; [done|done|]. unfold set_wdir. cbn [wdir]. rewrite Ed1, Hn, <- Hx. cbn [dir_start]. unfold next_block. by rewrite (proj2 (Z.ltb_lt _ _) Hc).
    + unfold advance_block_in_chain. go_gets. go_gets. change (bpb (wfs w1)) with (bpb (wfs w)). rewrite H2, Ed1. cbn [dir_block dir_pos].
      destruct (Z.eqb_spec (block_to_cluster p b) (block_to_cluster p (u64 (b + 1)))) as [Hcl|Hcl].
      * go_gets. apply Hend; [done|done|]. unfold set_wdir. cbn [wdir]. rewrite Ed1, Hn, <- Hx. cbn [dir_start]. unfold next_block.
        by rewrite (proj2 (Z.ltb_ge _ _) Hc), (proj2 (Z.eqb_eq _ _) Hcl).
      * assert (returns (on_ufat (next_in_chain (block_to_cluster p b) can_alloc)) w1 (walk_failed w V)
          (fun r w' => r = next_block p V b /\ holds (wfs w') V /\ kept w1 w' /\ wdir w' = wdir w1)) as Hr.
        { apply (next_in_chain_holds w1 V b); try done; [by rewrite Ed1|]. destruct Ha as [->|Ha]; [by left|right]. destruct (index_inside V bs (S i) Ha) as (b' & Hb' & _).
          pose proof (next_index i) as N. rewrite bool_decide_true in N by done. rewrite (proj1 N) in Hb'. rewrite Hx, Hb'. cbn.
          pose proof (dir_block_bound _ _ _ _ H3 (list_elem_of_lookup_2 _ _ _ Hb')). unfold UFAT_BLOCK_NONE. lia. }
        eapply returns_check; [exact Hr|done|]. intros r w2 (-> & Hh & K & D2). go_gets. apply Hend; [done|done|].
        unfold set_wdir. cbn [wdir]. rewrite D2, Ed1, Hn, Hx. done.
  - go_gets. apply Hend; [done|done|]. unfold set_wdir. cbn [wdir]. rewrite Ed, Hn. cbn [dir_start]. pose proof in_block_small. rewrite (u32_id _) by lia.
    f_equal. lia.
Qed.

(** * The entries that the raw entries make *)

Definition entry_of (type : Z) (s : dslot) (lfn : ufat_lfn_parser) : ufat_dirent :=
  let '(data, b, pos) := s in
  (if ufat_lfn_ok lfn then set_lfn (start_block lfn) (start_pos lfn) else set_lfn UFAT_BLOCK_NONE 0) (ufat_parse_dirent type data (set_place b pos no_entry)).

(** A long name that is not the one of the entry is forgotten. *)
Definition matched (e : ufat_dirent) (lfn : ufat_lfn_parser) : ufat_lfn_parser :=
  if ufat_short_checksum (short_name e) (short_ext e) =? short_checksum lfn then lfn else ufat_lfn_reset lfn.

(** What a raw entry adds: the parser for the next one, or an entry with its parser. *)
Definition digest (type : Z) (s : dslot) (lfn : ufat_lfn_parser) : option (ufat_lfn_parser + ufat_dirent * ufat_lfn_parser) :=
  let '(data, b, pos) := s in
  if is_fragment data then match ufat_lfn_parse lfn data b pos with Some lfn => Some (inl lfn) | None => None end
  else if is_empty_entry data then Some (inl (ufat_lfn_reset lfn))
  else
    let e := ufat_parse_dirent type data no_entry in
    let lfn := matched e lfn in
    if negb (Z.land (attributes e) UFAT_ATTR_VOLLABEL =? 0) then Some (inl (ufat_lfn_reset lfn)) else Some (inr (entry_of type s lfn, lfn)).

(** The first entry, and the raw entries behind it. *)
Fixpoint scan (type : Z) (l : list dslot) (lfn : ufat_lfn_parser) : option (option (ufat_dirent * ufat_lfn_parser * list dslot)) :=
  match l with
  | [] => Some None
  | s :: l =>
      match digest type s lfn with
      | None => None
      | Some (inl lfn) => scan type l lfn
      | Some (inr (e, lfn)) => Some (Some (e, lfn, l))
      end
  end.

(** All of the entries. *)
Fixpoint listing (type : Z) (l : list dslot) (lfn : ufat_lfn_parser) : option (list (ufat_dirent * ufat_lfn_parser)) :=
  match l with
  | [] => Some []
  | s :: l =>
      match digest type s lfn with
      | None => None
      | Some (inl lfn) => listing type l lfn
      | Some (inr e) => match listing type l new_parser with Some es => Some (e :: es) | None => None end
      end
  end.

Lemma listing_scan type l : forall lfn, listing type l lfn = match scan type l lfn with
  | None => None
  | Some None => Some []
  | Some (Some (e, lfn, l)) => match listing type l new_parser with Some es => Some ((e, lfn) :: es) | None => None end
  end.
Proof. induction l as [|s l IH]; intros lfn; cbn [listing scan]; [done|]. destruct (digest type s lfn) as [[lfn'|[e lfn']]|]; [apply IH|done..]. Qed.

Notation all := (fun V => slots V bs).

Lemma drop_slot V i : (i < n_slots)%nat -> exists s, slots V bs !! i = Some s /\ drop i (slots V bs) = s :: drop (S i) (slots V bs).
Proof.
  intros Hi. destruct (lookup_lt_is_Some_2 (slots V bs) i) as [s Hs]; [by rewrite length_slots|]. exists s. split; [done|]. by apply drop_S.
Qed.

Lemma read_entry_holds fuel : forall w V i lfn inf r, walking w V i -> (n_slots - i < fuel)%nat -> scan (fat_type p) (drop i (slots V bs)) lfn = Some r ->
  returns (read_entry fuel lfn inf) w (walk_failed w V) (fun r' w' => kept w w' /\ exists j, walking w' V j /\ (i <= j)%nat /\
    match r with None => r' = None | Some (e, l, rest) => r' = Some (e, l) /\ rest = drop j (slots V bs) /\ (i < j)%nat end).
Proof.
  induction fuel as [|fuel IH]; intros w V i lfn inf r Hw Hf Hs; [lia|]. cbn [read_entry]. go_gets.
  eapply returns_check; [by apply read_raw_holds|done|]. intros r1 w1 (Hw1 & K1 & ->).
  destruct (decide (i < n_slots)%nat) as [Hi|Hi].
  - destruct (drop_slot V i Hi) as ([[data b] pos] & Hl & Hd). rewrite Hl. cbn [fmap option_fmap option_map slot_data fst].
    assert (dir_block (wdir w) = b /\ dir_pos (wdir w) = pos) as [-> ->].
    { destruct (index_inside V bs i Hi) as (b' & Hb' & Hs'). rewrite Hl in Hs'. injection Hs' as _ -> ->. rewrite (wk_at _ _ _ Hw). unfold at_index. cbn [dir_block dir_pos]. by rewrite Hb'. }
    eapply returns_check; [by apply (advance_raw_holds w1 V i false); [..|left]|intros e t; by apply walk_failed_from|]. intros _ w2 [Hw2 K2].
    assert (kept w w2) as K by (unfold kept in *; congruence). rewrite Hd in Hs. cbn [scan digest] in Hs. clear Hd.
    assert (forall lfn' inf', scan (fat_type p) (drop (S i) (slots V bs)) lfn' = Some r ->
      returns (read_entry fuel lfn' inf') w2 (walk_failed w V) (fun r' w' => kept w w' /\ exists j, walking w' V j /\ (i <= j)%nat /\
        match r with None => r' = None | Some (e, l, rest) => r' = Some (e, l) /\ rest = drop j (slots V bs) /\ (i < j)%nat end)) as Hgo.
    { intros lfn' inf' Hs'. eapply returns_mono; [apply (IH w2 V (S i) lfn' inf' r Hw2 ltac:(lia) Hs')|intros e t; by apply walk_failed_from|].
      intros r' w' (K' & j & Hj & Hle & Hr). split; [unfold kept in *; congruence|]. exists j. split; [done|]. split; [lia|].
      destruct r as [[[e l] rest]|]; [|done]. destruct Hr as (-> & -> & ?). split_and!; [done..|lia]. }
    destruct (is_fragment data).
    + cbn [ent_block ent_pos set_place]. destruct (ufat_lfn_parse lfn data b pos) as [lfn'|]; [|done]. apply returns_bind. eapply wp_option; [done|]. by apply Hgo.
    + destruct (is_empty_entry data); cbn [negb]; [by apply Hgo|]. go_gets. rewrite (wk_bpb _ _ _ Hw2). set (e0 := ufat_parse_dirent _ data _).
      change (ufat_parse_dirent (fat_type p) data no_entry) with (set_place 0 0 (set_lfn 0 0 e0)) in Hs. cbn [short_name short_ext attributes set_place set_lfn] in Hs.
      change (matched (set_place 0 0 (set_lfn 0 0 e0)) lfn) with (matched e0 lfn) in Hs. fold (matched e0 lfn). set (lfn' := matched e0 lfn) in *.
      destruct (negb _); [by apply Hgo|]. injection Hs as <-. apply returns_ok. split; [done|]. exists (S i). split; [done|]. split; [lia|]. split_and!; [|done|lia].
      do 2 f_equal. by destruct (ufat_lfn_ok lfn').
  - rewrite lookup_ge_None_2 by (rewrite length_slots; lia). apply returns_ok. split; [done|]. exists i. split; [done|]. split; [done|].
    rewrite drop_ge in Hs by (rewrite length_slots; lia). by injection Hs as <-.
Qed.

(** * Finding *)

(** An entry with its name. *)
Definition named (x : ufat_dirent * ufat_lfn_parser) : ufat_dirent * (Z + list Z) := (x.1, format_name x.2 x.1 UFAT_LFN_MAX_UTF8).

(** The first entry with the name. *)
Fixpoint search (target : list Z) (l : list (ufat_dirent * (Z + list Z))) : Z + option ufat_dirent :=
  match l with
  | [] => inr None
  | (_, inl err) :: _ => inl err
  | (e, inr name) :: l => if 0 <=? ufat_compare_name target name false then inr (Some e) else search target l
  end.

Definition same_short (name ext : list Z) (e : ufat_dirent) : bool := (0 <=? ufat_compare_name name (short_name e) false) && (0 <=? ufat_compare_name ext (short_ext e) false).
Definition short_search (name ext : list Z) (l : list (ufat_dirent * ufat_lfn_parser)) : bool := existsb (fun x => same_short name ext x.1) l.

Hypothesis Hstart : bs !! 0%nat = Some start.

(** The directory is open, at any place. *)
Record opened_dir w V : Prop := {
  od_holds : holds (wfs w) V;
  od_bpb : bpb (wfs w) = p;
  od_dir : dir_at p V bs;
  od_start : dir_start (wdir w) = start
}.

Lemma walking_opened w V i : walking w V i -> opened_dir w V.
Proof. intros [H1 H2 H3 H4 H5]. split; try done. by rewrite H4. Qed.

Lemma opened_kept w V w' : opened_dir w V -> kept w w' -> holds (wfs w') V -> dir_start (wdir w') = dir_start (wdir w) -> opened_dir w' V.
Proof. intros [H1 H2 H3 H4] [= _ Hb _ _] Hh Hd. split; congruence. Qed.

Lemma rewind_holds w V : opened_dir w V -> wp ufat_dir_rewind w (fun _ w' => walking w' V 0 /\ kept w w').
Proof.
  intros [H1 H2 H3 H4]. unfold ufat_dir_rewind. apply wp_modify. split; [|done]. split; try done; [|lia]. unfold set_wdir. cbn [wdir]. rewrite H4.
  destruct block_entries as [_ H0]. unfold at_index. rewrite Nat.Div0.mod_0_l, Nat.Div0.div_0_l, Hstart. done.
Qed.

Lemma dir_next_holds w V i r : walking w V i -> scan (fat_type p) (drop i (slots V bs)) new_parser = Some r ->
  returns ufat_dir_next w (walk_failed w V) (fun r' w' => kept w w' /\ exists j, walking w' V j /\ (i <= j)%nat /\
    match r with None => r' = None | Some (e, l, rest) => r' = Some (e, l) /\ rest = drop j (slots V bs) /\ (i < j)%nat end).
Proof.
  intros Hw Hs. unfold ufat_dir_next. go_gets. rewrite (wk_bpb _ _ _ Hw). pose proof (da_fuel _ _ _ (wk_dir _ _ _ Hw)). apply read_entry_holds; [done|lia|done].
Qed.

(** The entries from a place on, one by one. *)
Lemma listing_next V i es : listing (fat_type p) (drop i (slots V bs)) new_parser = Some es ->
  exists r, scan (fat_type p) (drop i (slots V bs)) new_parser = Some r /\
    match r with
    | None => es = []
    | Some (e, l, rest) => exists es', es = (e, l) :: es' /\ listing (fat_type p) rest new_parser = Some es'
    end.
Proof.
  rewrite listing_scan. intros H. destruct (scan _ _ _) as [[[[e l] rest]|]|]; [|exists None; split; [done|by injection H]|done].
  exists (Some (e, l, rest)). split; [done|]. destruct (listing _ rest _) as [es'|]; [|done]. injection H as <-. by exists es'.
Qed.

Definition left_off w V w' : Prop := kept w w' /\ exists j, walking w' V j.

(** The next entry with its name. *)
Lemma dir_read_holds w V i es : walking w V i -> listing (fat_type p) (drop i (slots V bs)) new_parser = Some es ->
  returns (ufat_dir_read UFAT_LFN_MAX_UTF8) w
    (fun e w' => walk_failed w V e w' \/ (exists x es', es = x :: es' /\ (named x).2 = inl e) /\ left_off w V w')
    (fun a w' => kept w w' /\ exists j, walking w' V j /\
      match es with
      | [] => a = None
      | x :: es' => exists name, (named x).2 = inr name /\ a = Some (x.1, name) /\ listing (fat_type p) (drop j (slots V bs)) new_parser = Some es' /\ (i < j)%nat
      end).
Proof.
  intros Hw Hl. destruct (listing_next V i es Hl) as (r & Hr & Hes). unfold ufat_dir_read.
  eapply returns_check; [by apply dir_next_holds|by left|]. intros a w1 (K & j & Hj & Hle & Ha). destruct r as [[[e l] rest]|].
  - destruct Ha as (-> & -> & Hlt), Hes as (es' & -> & Hl'). destruct (format_name l e UFAT_LFN_MAX_UTF8) as [err|name] eqn:Ef.
    + apply returns_err. right. split; [by exists (e, l), es'|]. split; [done|]. by exists j.
    + apply returns_ok. split; [done|]. exists j. split; [done|]. by exists name.
  - subst a es. apply returns_ok. split; [done|]. by exists j.
Qed.

Lemma search_cons target x es : search target (named <$> x :: es) = match (named x).2 with
  | inl e => inl e
  | inr name => if 0 <=? ufat_compare_name target name false then inr (Some x.1) else search target (named <$> es)
  end.
Proof. done. Qed.

Lemma find_loop_holds fuel target : forall w V i es, walking w V i -> (n_slots - i < fuel)%nat -> listing (fat_type p) (drop i (slots V bs)) new_parser = Some es ->
  returns (find_loop fuel target) w (fun e w' => walk_failed w V e w' \/ search target (named <$> es) = inl e /\ left_off w V w')
    (fun r w' => search target (named <$> es) = inr r /\ left_off w V w').
Proof.
  induction fuel as [|fuel IH]; intros w V i es Hw Hf Hl; [lia|]. cbn [find_loop]. eapply returns_check; [by apply (dir_read_holds w V i es)| |].
  - intros e w1 [F|[(x & es' & -> & E) Ho]]; [by left|right]. by rewrite search_cons, E.
  - intros a w1 (K & j & Hj & Ha). destruct es as [|x es]; [subst a; apply returns_ok; split; [done|]; split; [done|]; by exists j|].
    destruct Ha as (name & En & -> & Hl' & Hlt). rewrite search_cons, En.
    pose proof (wk_inside _ _ _ Hj). destruct (0 <=? _); [apply returns_ok; split; [done|]; split; [done|]; by exists j|].
    eapply returns_mono; [apply (IH w1 V j es Hj); [lia|done]| |].
    + intros err w2 [F|[F1 [F2 F3]]]; [left; by eapply walk_failed_from|right]. split; [done|]. split; [unfold kept in *; congruence|done].
    + intros a w2 [F1 [F2 F3]]. split; [done|]. split; [unfold kept in *; congruence|done].
Qed.

Lemma dir_find_holds w V target es : opened_dir w V -> listing (fat_type p) (slots V bs) new_parser = Some es ->
  returns (ufat_dir_find target) w (fun e w' => walk_failed w V e w' \/ search target (named <$> es) = inl e /\ left_off w V w')
    (fun r w' => search target (named <$> es) = inr r /\ left_off w V w').
Proof.
  intros Ho Hl. unfold ufat_dir_find. apply returns_bind. eapply wp_mono; [by apply rewind_holds|]. intros [] w1 [Hw1 K1]. go_gets. rewrite (wk_bpb _ _ _ Hw1).
  pose proof (da_fuel _ _ _ (wk_dir _ _ _ Hw1)). eapply returns_mono; [apply (find_loop_holds _ target w1 V 0 es Hw1); [lia|by rewrite drop_0]| |].
  - intros err w2 [F|[F1 [F2 F3]]]; [left; by eapply walk_failed_from|right]. split; [done|]. split; [unfold kept in *; congruence|done].
  - intros a w2 [F1 [F2 F3]]. split; [done|]. split; [unfold kept in *; congruence|done].
Qed.

Lemma short_loop_holds fuel name ext : forall w V i es, walking w V i -> (n_slots - i < fuel)%nat -> listing (fat_type p) (drop i (slots V bs)) new_parser = Some es ->
  returns (short_exists_loop fuel name ext) w (walk_failed w V) (fun r w' => r = short_search name ext es /\ left_off w V w').
Proof.
  induction fuel as [|fuel IH]; intros w V i es Hw Hf Hl; [lia|]. cbn [short_exists_loop]. destruct (listing_next V i es Hl) as (r & Hr & Hes).
  eapply returns_check; [by apply dir_next_holds|done|]. intros a w1 (K & j & Hj & Hle & Ha). destruct r as [[[e l] rest]|].
  - destruct Ha as (-> & -> & Hlt). destruct Hes as (es' & -> & Hl'). unfold short_search. cbn [existsb fst]. pose proof (wk_inside _ _ _ Hj). destruct (same_short name ext e) eqn:Es; unfold same_short in Es; rewrite Es; [apply returns_ok; split; [done|]; split; [done|]; by exists j|].
    cbn [orb]. eapply returns_mono; [apply (IH w1 V j es' Hj); [lia|done]|intros e' t; by apply walk_failed_from|].
    intros a w2 [F1 [F2 F3]]. split; [done|]. split; [unfold kept in *; congruence|done].
  - subst a es. apply returns_ok. split; [done|]. split; [done|]. by exists j.
Qed.

Lemma short_exists_holds w V name ext es : opened_dir w V -> listing (fat_type p) (slots V bs) new_parser = Some es ->
  returns (ufat_short_exists name ext) w (walk_failed w V) (fun r w' => r = short_search name ext es /\ left_off w V w').
Proof.
  intros Ho Hl. unfold ufat_short_exists. apply returns_bind. eapply wp_mono; [by apply rewind_holds|]. intros [] w1 [Hw1 K1]. go_gets. rewrite (wk_bpb _ _ _ Hw1).
  pose proof (da_fuel _ _ _ (wk_dir _ _ _ Hw1)). eapply returns_mono; [apply (short_loop_holds _ name ext w1 V 0 es Hw1); [lia|by rewrite drop_0]|intros e t; by apply walk_failed_from|].
  intros a w2 [F1 [F2 F3]]. split; [done|]. split; [unfold kept in *; congruence|done].
Qed.
End Directory.
End Walk.

(** * Directories of a volume *)

Section Places.
Context {D : Type} {BD : BlockDevice D} {DS : DeviceSpec D}.
Implicit Types (V W : Z -> list Z) (p : ufat_bpb).

(** A directory: the area of the root directory of FAT12 and FAT16, or the clusters of a chain. *)
Inductive is_dir p V : Z -> list Z -> Prop :=
| is_root : 0 < root_size p -> root_start p + root_size p = cluster_start p -> is_dir p V (root_start p) (seqZ (root_start p) (root_size p))
| is_chain c l : chain p V c l -> NoDup l -> l <> [] -> is_dir p V (cluster_to_block p c) (chain_blocks p l).

Lemma block_of_cluster p c k : volume p -> 2 <= c <= num_clusters p -> 0 <= k < cluster_blocks p -> data_block p c k < 2 ^ 63 -> block_to_cluster p (data_block p c k) = c.
Proof.
  intros Hv Hc Hk Hb. pose proof (end_block_bound p Hv) as (H1 & H2 & H3). pose proof (volume_cluster_size p Hv). pose proof (volume_clusters p Hv) as Hmax.
  assert (num_clusters p < 2 ^ 31) by (unfold max_clusters in Hmax; repeat case_match; lia).
  unfold block_to_cluster, data_block in *. replace (cluster_start p + (c - 2) * cluster_blocks p + k - cluster_start p) with ((c - 2) * cluster_blocks p + k) by lia.
  rewrite u64_id by nia. rewrite Z.shiftr_div_pow2 by lia. unfold cluster_blocks in *. rewrite Z.shiftl_1_l in *.
  rewrite Z.div_add_l by lia. rewrite Z.div_small by lia. rewrite u32_id by lia. lia.
Qed.

Lemma root_dir_at p V : volume p -> 0 < root_size p -> root_start p + root_size p = cluster_start p -> dir_at p V (seqZ (root_start p) (root_size p)).
Proof.
  intros Hv H0 He. pose proof (volume_root p Hv) as (R1 & R2 & R3). pose proof (volume_fat p Hv) as (F1 & F2 & F3). pose proof (end_block_bound p Hv) as (E1 & E2 & E3).
  assert (forall b, b ∈ seqZ (root_start p) (root_size p) -> root_start p <= b < cluster_start p) as Hr by (intros b Hb%elem_of_seqZ; lia).
  split.
  - apply NoDup_seqZ.
  - intros b Hb%Hr. split; [split; [apply (volume_blocks p Hv); nia|unfold mirror; lia]|unfold in_fat; nia].
  - intros b Hb%Hr Hc. lia.
  - intros i b Hi. apply lookup_seqZ in Hi as [-> Hi]. unfold next_block. rewrite (proj2 (Z.ltb_lt _ _)) by lia.
    destruct (Z.leb_spec (cluster_start p) (root_start p + Z.of_nat i + 1)).
    + rewrite lookup_seqZ_ge by lia. done.
    + rewrite lookup_seqZ_lt by lia. cbn. lia.
  - rewrite length_seqZ. unfold dir_fuel.
    assert (0 <= Z.shiftl (num_clusters p) (log2_blocks_per_cluster p)) by (apply Z.shiftl_nonneg; pose proof (volume_clusters p Hv); lia).
    rewrite entries_per_block_nat, Z2Nat.inj_mul, Nat2Z.id by lia. apply Nat.lt_succ_r, Nat.mul_le_mono_r. lia.
Qed.

Lemma chain_next p V l : forall c i x, chain p V c l -> l !! i = Some x ->
  match l !! S i with Some y => fat p V x = y /\ UFAT_CLUSTER_IS_PTR y = true | None => UFAT_CLUSTER_IS_PTR (fat p V x) = false end.
Proof.
  intros c i x Hc Hx. pose proof (chain_nth p V l c i Hc) as H1. rewrite Hx in H1. pose proof (chain_nth p V l c (S i) Hc) as H2.
  rewrite nth_next_S, H1 in H2. destruct (l !! S i) as [y|] eqn:Ey.
  - split; [done|]. by apply (chain_ptr p V l c y Hc), (list_elem_of_lookup_2 _ _ _ Ey).
  - apply H2. apply lookup_lt_Some in Hx. apply lookup_ge_None_1 in Ey. lia.
Qed.

Lemma chain_dir_at p V c l : volume p -> chain p V c l -> NoDup l -> dir_at p V (chain_blocks p l).
Proof.
  intros Hv Hc Hnd. pose proof (chain_range p V l c Hc) as Hr. rewrite Forall_forall in Hr. pose proof (cluster_blocks_pos p Hv) as Hcb. pose proof (end_block_bound p Hv) as (E1 & E2 & E3).
  assert (forall x k, x ∈ l -> 0 <= k < cluster_blocks p -> block_to_cluster p (data_block p x k) = x /\ cluster_start p <= data_block p x k < end_block p) as Hb.
  { intros x k Hx Hk. pose proof (data_block_range p x k Hv (Hr x Hx) Hk). pose proof (Hr x Hx). split; [|done]. apply block_of_cluster; (done || lia). }
  split.
  - by apply NoDup_chain_blocks.
  - intros b (x & k & Hx & Hk & ->)%elem_of_chain_blocks. split; [apply data_shown|apply data_not_fat]; try done; by apply Hr.
  - intros b (x & k & Hx & Hk & ->)%elem_of_chain_blocks _. rewrite (proj1 (Hb x k Hx Hk)). by apply Hr.
  - intros i b Hi. assert (Z.of_nat (Z.to_nat (cluster_blocks p)) = cluster_blocks p) as Hcbz by lia. set (cb := Z.to_nat (cluster_blocks p)) in *. pose proof (lookup_lt_Some _ _ _ Hi) as Hlt. rewrite length_chain_blocks in Hlt. fold cb in Hlt.
    assert (exists n k, i = (n * cb + k)%nat /\ (k < cb)%nat /\ (n < length l)%nat) as (n & k & -> & Hk & Hn).
    { exists (i / cb)%nat, (i mod cb)%nat. assert (cb <> 0)%nat by lia. pose proof (Nat.div_mod i cb ltac:(done)). pose proof (Nat.mod_upper_bound i cb ltac:(done)).
      split; [lia|]. split; [done|]. apply Nat.Div0.div_lt_upper_bound. by rewrite Nat.mul_comm. }
    destruct (lookup_lt_is_Some_2 l n Hn) as [x Hx]. pose proof (list_elem_of_lookup_2 _ _ _ Hx) as Hin. pose proof (Hr x Hin) as Hxr.
    assert (forall m y, (m < cb)%nat -> forall q, l !! q = Some y -> chain_blocks p l !! (q * cb + m)%nat = Some (data_block p y (Z.of_nat m))) as Hat.
    { intros m y Hm q Hq. pose proof (chain_blocks_lookup p l q y (Z.of_nat m) ltac:(lia) Hq) as Hl. by rewrite Nat2Z.id in Hl. }
    rewrite (Hat k x Hk n Hx) in Hi. injection Hi as <-. destruct (Hb x (Z.of_nat k) Hin ltac:(lia)) as [B1 B2]. unfold next_block. rewrite (proj2 (Z.ltb_ge _ _)) by lia. rewrite B1.
    destruct (decide (S k = cb)) as [Ek|Ek].
    + assert (data_block p x (Z.of_nat k) + 1 = data_block p (x + 1) 0) as Enext by (unfold data_block; lia). rewrite u64_id by lia. rewrite Enext.
      assert (block_to_cluster p (data_block p (x + 1) 0) = x + 1) as -> by (apply block_of_cluster; (done || lia)). rewrite (proj2 (Z.eqb_neq _ _)) by lia. cbn zeta.
      replace (S (n * cb + k))%nat with (S n * cb + 0)%nat by lia. pose proof (chain_next p V l c n x Hc Hx) as Hnx. destruct (l !! S n) as [y|] eqn:Ey.
      * destruct Hnx as [-> ->]. rewrite (Hat 0%nat y ltac:(lia) (S n) Ey). cbn [default]. apply cluster_block; [done|]. apply Hr, (list_elem_of_lookup_2 _ _ _ Ey).
      * rewrite Hnx. rewrite lookup_ge_None_2; [done|]. rewrite length_chain_blocks. fold cb. apply lookup_ge_None_1 in Ey. nia.
    + assert (data_block p x (Z.of_nat k) + 1 = data_block p x (Z.of_nat (S k))) as Enext by (unfold data_block; lia). rewrite u64_id by lia. rewrite Enext.
      destruct (Hb x (Z.of_nat (S k)) Hin ltac:(lia)) as [B3 B4]. rewrite B3, Z.eqb_refl. replace (S (n * cb + k))%nat with (n * cb + S k)%nat by lia. by rewrite (Hat (S k) x ltac:(lia) n Hx).
  - rewrite length_chain_blocks. unfold dir_fuel. pose proof (chain_length p V c l Hv Hc Hnd) as Hl. pose proof (volume_clusters p Hv). pose proof (volume_root p Hv) as (_ & _ & R3).
    pose proof (volume_cluster_size p Hv). rewrite entries_per_block_nat, Z2Nat.inj_mul, Nat2Z.id by (try apply Z.add_nonneg_nonneg; try apply Z.shiftl_nonneg; lia).
    apply Nat.lt_succ_r, Nat.mul_le_mono_r. rewrite Z.shiftl_mul_pow2 by lia. unfold cluster_blocks in *. rewrite Z.shiftl_1_l in *. nia.
Qed.

Lemma is_dir_at p V start bs : volume p -> is_dir p V start bs -> dir_at p V bs /\ bs !! 0%nat = Some start.
Proof.
  intros Hv [H0 He|c l Hc Hnd Hne].
  - split; [by apply root_dir_at|]. rewrite lookup_seqZ_lt by lia. f_equal. lia.
  - split; [by apply (chain_dir_at p V c)|]. destruct l as [|x l]; [done|]. pose proof (chain_range p V (x :: l) c Hc) as Hr. destruct Hc as (-> & _). pose proof (cluster_blocks_pos p Hv).
    inversion_clear Hr as [|? ? Hx' _].
    pose proof (chain_blocks_lookup p (x :: l) 0 x 0 ltac:(lia) eq_refl) as Hl. rewrite (cluster_block p x Hv Hx'). exact Hl.
Qed.
End Places.
