(* ===== verification/UfatInsert.v ===== *)
(** Making entries in a directory: raw entries are written, room is found, and a new entry with
    its long name is one entry more in what reading the directory gives. *)

From S2P Require Import Prelude UfatDev UfatCache UfatView UfatFat UfatTable UfatChain UfatBpb UfatName UfatLong UfatFile UfatDir UfatRead UfatWrite UfatWalk.
#[local] Open Scope Z_scope.

Section Insert.
Context {D : Type} {BD : BlockDevice D} {DS : DeviceSpec D}.
Implicit Types (V W : Z -> list Z) (w : @walk D) (b : Z).
Context (p : ufat_bpb) (start : Z) (bs : list Z).
Hypothesis Hvol : volume p.
Hypothesis Hstart : bs !! 0%nat = Some start.
Notation n_slots := (length bs * in_block)%nat.
Notation walking := (walking p start bs).
Notation opened_dir := (opened_dir p start bs).
Notation walk_failed := (walk_failed start).

(** * Writing a raw entry *)

Definition overwrite (d : list Z) (s : dslot) : dslot := (put 0 d (slot_data s), s.1.2, s.2).

Lemma block_lengths w V i : walking w V i -> forall b, b ∈ bs -> block_ok (V b).
Proof. intros [H1 H2 H3 H4 H5] b Hb. apply (holds_block _ _ _ _ H1). rewrite H2. by apply (da_shown _ _ _ H3). Qed.

Lemma slots_written V i b d : NoDup bs -> (forall x, x ∈ bs -> length (V x) = block_size) -> bs !! (i / in_block)%nat = Some b -> (length d <= 32)%nat ->
  slots (vmod b (put (i mod in_block * 32) d) V) bs = alter (overwrite d) i (slots V bs).
Proof.
  intros Hnd Hlen Hb Hd. destruct block_entries as [E0 E1]. destruct (split_index i) as [Ei Hi]. set (W := vmod _ _ _).
  apply list_eq. intros k. destruct (decide (k < n_slots)%nat) as [Hk|Hk].
  - destruct (index_inside V bs k Hk) as (b' & Hb' & HV). destruct (index_inside W bs k Hk) as (b'' & Hb'' & HW). rewrite Hb' in Hb''. injection Hb'' as <-.
    destruct (split_index k) as [Ek Hkj]. rewrite HW. destruct (decide (k = i)) as [->|Hne].
    + rewrite list_lookup_alter_eq, HV. cbn [fmap option_fmap option_map overwrite slot_data fst snd]. rewrite Hb in Hb'. injection Hb' as <-.
      do 3 f_equal. unfold raw, W, vmod. rewrite vset_same, sub_put_inside; [by rewrite Nat.sub_diag|lia|lia|].
      rewrite (Hlen b (list_elem_of_lookup_2 _ _ _ Hb)), E0. nia.
    + rewrite list_lookup_alter_ne by done. rewrite HV. do 3 f_equal. unfold raw, W, vmod. destruct (decide (b' = b)) as [->|Hbb]; [|by rewrite vset_other].
      rewrite vset_same. pose proof (NoDup_lookup _ _ _ _ Hnd Hb Hb') as Eq. assert (k mod in_block <> i mod in_block)%nat as Hj by (intros Ej; apply Hne; rewrite Ek, Ei; lia).
      apply sub_put_other; [lia|]. rewrite (Hlen b (list_elem_of_lookup_2 _ _ _ Hb)), E0. nia.
  - rewrite !lookup_ge_None_2; [done|rewrite length_alter, length_slots; lia|rewrite length_slots; lia].
Qed.

(** [W] is [V] with other raw entries in this directory, and everything else as it was. *)
Definition dir_changed V W : Prop := forall b, b ∉ bs -> W b = V b.

Lemma dir_changed_refl V : dir_changed V V.
Proof. done. Qed.

Lemma dir_changed_trans V W X : dir_changed V W -> dir_changed W X -> dir_changed V X.
Proof. intros H1 H2 b Hb. rewrite H2, H1; done. Qed.

Lemma dir_at_changed V W : dir_at p V bs -> dir_changed V W -> dir_at p W bs.
Proof.
  intros Hd Hc. apply (dir_at_ext p V); [done| |done]. intros b Hb. apply Hc. intros Hin. by apply (proj2 (da_shown _ _ _ Hd b Hin)).
Qed.

Lemma write_raw_holds w V i (d : list Z) : walking w V i -> (i < n_slots)%nat -> (length d <= 32)%nat -> Forall is_byte d ->
  returns (ufat_write_raw_dirent d) w (walk_failed w V) (fun _ w' => kept w w' /\ exists W, walking w' W i /\ dir_changed V W /\ slots W bs = alter (overwrite d) i (slots V bs)).
Proof.
  intros Hw Hi Hl Hy. pose proof Hw as [H1 H2 H3 H4 H5]. unfold ufat_write_raw_dirent. go_gets. rewrite H4.
  destruct (index_inside V bs i Hi) as (b & Hb & Hs). destruct (split_index i) as [_ Hj].
  assert (dir_block (at_index start bs i) = b) as Eb by (unfold at_index; cbn [dir_block]; by rewrite Hb). rewrite Eb.
  pose proof (list_elem_of_lookup_2 _ _ _ Hb) as Hin. rewrite (dir_block_some _ _ _ _ H3 Hin).
  eapply returns_check; [apply on_ufat_returns, (cache_open_holds _ V b); [done|rewrite H2; by apply (da_shown _ _ _ H3)]|intros e t [F FD]; split; [exact F|by rewrite FD, H4]|].
  intros idx w1 [(M1 & I1 & Hh1 & S1) D1]. destruct (entry_fits (i mod in_block) (Z.of_nat (length d)) Hj ltac:(lia)) as (E1 & E2 & E3).
  eapply on_ufat_step; [apply (cache_write_holds (-1) _ V idx b Hh1 I1); by left|]. intros [] w2 (M2 & I2 & H2' & D2 & _) DD2.
  change (dir_pos (at_index start bs i)) with (Z.of_nat (i mod in_block)). rewrite E1. apply returns_bind. apply wp_require; [done|]. rewrite E2.
  set (f := put (i mod in_block * 32) d). assert (block_ok (V b) -> block_ok (f (V b))) as Hf.
  { intros [B1 B2]. split; [unfold f; rewrite length_put; lia|by apply Forall_put]. }
  eapply on_ufat_step; [by apply (update_data_holds _ V idx b f H2' I2 D2)|]. intros [] w3 (M3 & I3 & H3' & D3) DD3. apply returns_ok.
  assert (kept w w3) as K by (unfold kept; congruence). split; [done|]. exists (vmod b f V).
  assert (dir_changed V (vmod b f V)) as Hc by (intros x Hx; apply vset_other; by intros ->). split_and!.
  - pose proof K as [= _ Kb _ _]. split; [done|congruence|by eapply dir_at_changed|by rewrite DD3, DD2, D1|lia].
  - done.
  - apply slots_written; [apply H3| |done|done]. intros x Hx. by apply (block_lengths _ _ _ Hw).
Qed.

(** * Finding room *)

(** The first of [count] empty raw entries in a row, from the entry [i] on, with [empty] counted from [first] on. *)
Fixpoint find_run (l : list dslot) (i first empty count : nat) : option nat :=
  match l with
  | [] => None
  | s :: l =>
      let '(first, empty) := if is_empty_entry (slot_data s) then (if Nat.eqb empty 0 then (i, 1%nat) else (first, S empty)) else (first, 0%nat) in
      if Nat.leb count empty then Some first else find_run l (S i) first empty count
  end.

Lemma move_at w i : dir_start (wdir w) = start -> wdir (set_wdir (mkDir (dir_pos (at_index start bs i)) (dir_block (at_index start bs i)) (dir_start (wdir w))) w) = at_index start bs i.
Proof. intros ->. done. Qed.

Lemma allocate_loop_holds (count : nat) fuel : forall w V i first empty k cs cp, (0 < count)%nat -> walking w V i -> (n_slots - i < fuel)%nat ->
  (empty <> 0%nat -> cs = dir_block (at_index start bs first) /\ cp = dir_pos (at_index start bs first) /\ (first <= n_slots)%nat) ->
  find_run (drop i (slots V bs)) i first empty count = Some k ->
  returns (allocate_loop fuel (Z.of_nat count) cs cp (Z.of_nat empty)) w (walk_failed w V) (fun _ w' => kept w w' /\ walking w' V k).
Proof.
  induction fuel as [|fuel IH]; intros w V i first empty k cs cp Hc Hw Hf He Hr; [lia|]. cbn [allocate_loop].
  assert (i < n_slots)%nat as Hi.
  { destruct (Nat.lt_ge_cases i n_slots) as [|Hge]; [done|]. rewrite drop_ge in Hr by (rewrite length_slots; lia). done. }
  eapply returns_check; [by apply read_raw_holds|done|]. intros r w1 (Hw1 & K1 & ->). destruct (drop_slot bs V i Hi) as (s & Hs & Hd). rewrite Hs. cbn [fmap option_fmap option_map].
  apply returns_bind. eapply wp_option; [done|]. go_gets. rewrite Hd in Hr. cbn [find_run] in Hr.
  set (st := if is_empty_entry (slot_data s) then if Z.of_nat empty =? 0 then _ else _ else _).
  set (st' := if is_empty_entry (slot_data s) then if Nat.eqb empty 0 then _ else _ else _) in Hr.
  assert (exists cs' cp', st = (cs', cp', Z.of_nat st'.2) /\ (st'.2 <> 0%nat -> cs' = dir_block (at_index start bs st'.1) /\ cp' = dir_pos (at_index start bs st'.1) /\ (st'.1 <= n_slots)%nat)) as (cs' & cp' & Est & He').
  { unfold st, st'. destruct (is_empty_entry (slot_data s)); [|by exists cs, cp]. destruct (Nat.eqb_spec empty 0) as [->|E0]; cbn [Z.of_nat Z.eqb fst snd].
    - eexists _, _. split; [done|]. intros _. rewrite (wk_at _ _ _ _ _ _ Hw1). split_and!; (done || lia).
    - rewrite (proj2 (Z.eqb_neq _ _)) by lia. exists cs, cp. split; [f_equal; lia|]. intros _. by apply He. }
  clearbody st st'. subst st. destruct st' as [first' empty']. cbn [fst snd] in *.
  destruct (Nat.leb_spec count empty') as [Hle|Hgt].
  - injection Hr as ->. rewrite (proj2 (Z.leb_le _ _)) by lia. destruct He' as (-> & -> & Hk); [lia|]. go_gets. apply returns_ok. split; [done|].
    eapply walking_kept; [exact Hw1|done|apply (wk_holds _ _ _ _ _ _ Hw1)| |done]. apply move_at. by rewrite (wk_at _ _ _ _ _ _ Hw1).
  - rewrite (proj2 (Z.leb_gt _ _)) by lia. assert (S i < n_slots)%nat as HSi.
    { destruct (Nat.lt_ge_cases (S i) n_slots) as [|Hge]; [done|]. rewrite (drop_ge _ (S i)) in Hr by (rewrite length_slots; lia). done. }
    eapply returns_check; [by apply (advance_raw_holds p start bs Hvol w1 V i true Hw1 Hi); right|intros e t; by apply walk_failed_from|]. intros _ w2 [Hw2 K2]. go_gets.
    rewrite (wk_at _ _ _ _ _ _ Hw2). destruct (index_inside V bs (S i) HSi) as (b2 & Hb2 & _).
    assert (dir_block (at_index start bs (S i)) = b2) as -> by (unfold at_index; cbn [dir_block]; by rewrite Hb2).
    rewrite (dir_block_some _ _ _ _ (wk_dir _ _ _ _ _ _ Hw2) (list_elem_of_lookup_2 _ _ _ Hb2)).
    eapply returns_mono; [apply (IH w2 V (S i) first' empty' k cs' cp'); (done || lia)|intros e t|].
    + intros F. eapply walk_failed_from; [|exact F]. unfold kept in *. congruence.
    + intros _ w3 [K3 Hw3]. split; [unfold kept in *; congruence|done].
Qed.

Lemma allocate_holds w V (count k : nat) : opened_dir w V -> (0 < count)%nat -> find_run (slots V bs) 0 0 0 count = Some k ->
  returns (ufat_allocate_raw_dirent (Z.of_nat count)) w (walk_failed w V) (fun _ w' => kept w w' /\ walking w' V k).
Proof.
  intros Ho Hc Hr. unfold ufat_allocate_raw_dirent. apply returns_bind. eapply wp_mono; [by apply rewind_holds|]. intros [] w1 [Hw1 K1]. go_gets.
  rewrite (wk_bpb _ _ _ _ _ _ Hw1). pose proof (da_fuel _ _ _ (wk_dir _ _ _ _ _ _ Hw1)).
  eapply returns_mono; [apply (allocate_loop_holds count _ w1 V 0 0 0 k _ _ Hc Hw1); [lia|done|by rewrite drop_0]|intros e t; by apply walk_failed_from|].
  intros _ w2 [K2 Hw2]. split; [unfold kept in *; congruence|done].
Qed.

(** The run is empty. *)
Lemma find_run_empty count S : (0 < count)%nat -> forall l i first empty k, l = drop i S -> (i <= length S)%nat -> (first + empty = i \/ empty = 0)%nat ->
  (forall j, (first <= j < first + empty)%nat -> exists s, S !! j = Some s /\ is_empty_entry (slot_data s) = true) ->
  find_run l i first empty count = Some k ->
  (k + count <= length S)%nat /\ forall j, (k <= j < k + count)%nat -> exists s, S !! j = Some s /\ is_empty_entry (slot_data s) = true.
Proof.
  intros Hc l. induction l as [|s l IH]; intros i first empty k El Hi Hfe He Hr; [done|]. cbn [find_run] in Hr.
  assert (S !! i = Some s /\ l = drop (Datatypes.S i) S) as [Hs Hl].
  { assert (S !! i = Some s) as Hs by (rewrite <- (Nat.add_0_r i), <- lookup_drop, <- El; done). split; [done|]. rewrite (drop_S _ s i Hs) in El. by injection El. }
  pose proof (lookup_lt_Some _ _ _ Hs) as Hlt.
  set (st' := if is_empty_entry (slot_data s) then if Nat.eqb empty 0 then _ else _ else _) in Hr.
  assert ((st'.1 + st'.2 = Datatypes.S i \/ st'.2 = 0)%nat /\ forall j, (st'.1 <= j < st'.1 + st'.2)%nat -> exists s, S !! j = Some s /\ is_empty_entry (slot_data s) = true) as [Hfe' He'].
  { unfold st'. destruct (is_empty_entry (slot_data s)) eqn:Ee; [|split; [by right|cbn; lia]]. destruct (Nat.eqb_spec empty 0) as [E0|E0]; cbn [fst snd].
    - split; [left; lia|]. intros j Hj. assert (j = i) as -> by lia. by exists s.
    - split; [left; lia|]. intros j Hj. destruct (decide (j = i)) as [->|]; [by exists s|apply He; lia]. }
  clearbody st'. destruct st' as [first' empty']. cbn [fst snd] in *. destruct (Nat.leb_spec count empty') as [Hle|Hgt].
  - injection Hr as <-. split; [lia|]. intros j Hj. apply He'. lia.
  - by apply (IH (Datatypes.S i) first' empty' k Hl).
Qed.

(** * Choosing a short name *)

Lemma left_off_opened w V w' : left_off p start bs w V w' -> opened_dir w' V.
Proof. intros [_ [j Hj]]. by eapply walking_opened. Qed.

Lemma choose_loop_holds ext es name K fuel : forall w V j, opened_dir w V -> listing (fat_type p) (slots V bs) new_parser = Some es ->
  (j <= K)%nat -> (K - j < fuel)%nat -> short_search (tried name K) ext es = false ->
  returns (choose_short fuel (tried name j) ext) w (walk_failed w V)
    (fun r w' => kept w w' /\ opened_dir w' V /\ exists k, r = tried name k /\ short_search r ext es = false).
Proof.
  induction fuel as [|fuel IH]; intros w V j Ho Hl Hj Hf HK; [lia|]. cbn [choose_short].
  eapply returns_check; [by apply short_exists_holds|done|]. intros r w1 [-> Hlo]. pose proof (left_off_opened _ _ _ Hlo) as Ho1. destruct Hlo as [K1 _].
  destruct (short_search (tried name j) ext es) eqn:Es.
  - assert (j <> K) by (intros ->; congruence). change (ufat_short_next (tried name j)) with (tried name (S j)).
    eapply returns_mono; [apply (IH w1 V (S j)); (done || lia)|intros e t; by apply walk_failed_from|]. intros r w2 (K2 & H2). split; [unfold kept in *; congruence|done].
  - apply returns_ok. split; [done|]. split; [done|]. by exists j.
Qed.

Lemma length_listing type l : forall lfn es, listing type l lfn = Some es -> (length es <= length l)%nat.
Proof.
  induction l as [|s l IH]; intros lfn es H; cbn [listing] in H; [by injection H as <-|]. destruct (digest type s lfn) as [[lfn'|e]|]; [|destruct (listing type l new_parser) eqn:E|]; try done.
  - apply IH in H. cbn. lia.
  - injection H as <-. apply IH in E. cbn. lia.
Qed.

Lemma choose_holds w V name ext es : opened_dir w V -> listing (fat_type p) (slots V bs) new_parser = Some es ->
  dos_name 8 name -> name <> [] -> suffix_number name + Z.of_nat (length es) < 10 ^ 7 ->
  returns (choose_short (dir_fuel p) name ext) w (walk_failed w V)
    (fun r w' => kept w w' /\ opened_dir w' V /\ dos_name 8 r /\ r <> [] /\ short_search r ext es = false).
Proof.
  intros Ho Hl Hn H0 Hs. destruct (some_name_free name ((fun x => short_name x.1) <$> es) Hn H0) as (K & HK & Hfree & _); [by rewrite length_fmap|].
  rewrite length_fmap in HK. pose proof (length_listing _ _ _ _ Hl) as Hle. rewrite length_slots in Hle. pose proof (da_fuel _ _ _ (od_dir _ _ _ _ _ Ho)).
  eapply returns_mono; [apply (choose_loop_holds ext es name K (dir_fuel p) w V 0 Ho Hl); [lia|lia|]|done|].
  - unfold short_search. apply not_true_is_false. intros Ht. apply existsb_exists in Ht as (x & Hx & Hsame). apply Hfree.
    unfold same_short in Hsame. apply andb_true_iff in Hsame as [Hsame _]. rewrite compare_name_spec, bool_decide_eq_true in Hsame. rewrite Hsame.
    rewrite <- list_fmap_compose. apply list_elem_of_In in Hx. by apply (list_elem_of_fmap_2 (fun y => upper (short_name y.1))).
  - intros r w' (K' & Ho' & k & -> & Hr). split_and!; try done; by apply tried_good.
Qed.

(** * Writing the raw entries *)

(** The device has failed on the way: other directories and files are as they were. *)
Definition gone w V (e : Z) w' : Prop := may_fail /\ e < 0 /\ kept w w' /\ exists W, holds (wfs w') W /\ dir_changed V W.

Lemma failed_gone w V W w1 e w' : kept w w1 -> dir_changed V W -> walk_failed w1 W e w' -> gone w V e w'.
Proof. intros K Hc ((F1 & F2 & F3 & F4) & F5). unfold gone, kept in *. split_and!; [done|done|congruence|]. by exists W. Qed.

Lemma gone_from w V W w1 e w' : kept w w1 -> dir_changed V W -> gone w1 W e w' -> gone w V e w'.
Proof.
  intros K Hc (F1 & F2 & F3 & X & HX & F4). unfold gone, kept in *. split_and!; [done|done|congruence|]. exists X. split; [done|]. by eapply dir_changed_trans.
Qed.

(** The raw entries from [k] on overwritten by the ones of [ds]. *)
Fixpoint overlay (k : nat) (ds : list (list Z)) (l : list dslot) : list dslot :=
  match ds with [] => l | d :: ds => overlay (S k) ds (alter (overwrite d) k l) end.

Lemma overlay_split ds : forall (A M B : list dslot), length ds = length M -> overlay (length A) ds (A ++ M ++ B) = A ++ zip_with overwrite ds M ++ B.
Proof.
  induction ds as [|d ds IH]; intros A M B Hl; destruct M as [|s M]; try done. cbn [overlay zip_with app].
  rewrite alter_app_r_alt by lia. rewrite Nat.sub_diag. change (alter (overwrite d) 0%nat (s :: M ++ B)) with (overwrite d s :: M ++ B).
  replace (A ++ overwrite d s :: M ++ B) with ((A ++ [overwrite d s]) ++ M ++ B) by (by rewrite <- app_assoc).
  replace (S (length A)) with (length (A ++ [overwrite d s])) by (rewrite length_app; cbn; lia). rewrite IH by (cbn in Hl; lia). by rewrite <- app_assoc.
Qed.

(** The raw entries of the fragments [i], [i - 1], ... 1 of a long name. *)
Definition fragments (P : list Z) (i : nat) (is_first : bool) (ck : Z) (ds : list (list Z)) : Prop :=
  length ds = i /\ forall m d, ds !! m = Some d -> Forall is_byte d /\ fragment (sub (13 * (i - 1 - m)) 13 P) (Z.of_nat (i - m)) (is_first && Nat.eqb m 0) ck d.

Lemma write_fragments_holds (P : list Z) (ck : Z) i : forall (first : bool) w V k (data : list Z), length P = 255%nat -> is_byte ck -> (13 * i <= 255)%nat ->
  walking w V k -> (k + i < n_slots)%nat -> length data = 32%nat -> Forall is_byte data ->
  returns (write_fragments i first P data ck) w (gone w V) (fun data' w' => length data' = 32%nat /\ Forall is_byte data' /\ kept w w' /\
    exists W ds, walking w' W (k + i) /\ dir_changed V W /\ fragments P i first ck ds /\ slots W bs = overlay k ds (slots V bs)).
Proof.
  induction i as [|i IH]; intros first w V k data HP Hck Hi Hw Hk Hd Hy; cbn [write_fragments].
  { apply returns_ok. split_and!; try done. exists V, []. rewrite Nat.add_0_r. split_and!; try done. }
  assert (ucs2_fragment P (Z.of_nat i * 13) = Some (sub (13 * i) 13 P)) as ->.
  { unfold ucs2_fragment. rewrite (proj2 (Z.leb_le _ _)) by lia. do 2 f_equal. lia. }
  apply returns_bind. eapply wp_option; [done|]. set (ucs := sub (13 * i) 13 P). assert (length ucs = 13%nat) as Hu by (unfold ucs; rewrite length_sub; lia).
  set (d := ufat_lfn_pack_fragment ucs _ first data ck). assert (fragment ucs (Z.of_nat (S i)) first ck d) as Hfr by by apply pack_fragment.
  assert (Forall is_byte d) as Hyd by (apply pack_fragment_bytes; (done || lia)). pose proof (fr_length _ _ _ _ _ Hfr) as Hld.
  eapply returns_check; [apply (write_raw_holds w V k d Hw); (done || lia)|intros e t; by apply failed_gone|]. intros _ w1 (K1 & W1 & Hw1 & Hc1 & Hs1).
  eapply returns_check; [apply (advance_raw_holds p start bs Hvol w1 W1 k false Hw1); [lia|by left]|intros e t; by apply failed_gone|]. intros _ w2 [Hw2 K2].
  assert (kept w w2) as K by (unfold kept in *; congruence).
  eapply returns_mono; [apply (IH false w2 W1 (S k) d); (done || lia)|intros e t; by apply gone_from|].
  intros data' w3 (L3 & Y3 & K3 & W & ds & Hw3 & Hc3 & [Hf1 Hf2] & Hs3). split; [done|]. split; [done|]. split; [unfold kept in *; congruence|].
  exists W, (d :: ds). split; [by rewrite Nat.add_succ_r|]. split; [by eapply dir_changed_trans|]. split; [|by rewrite Hs3, Hs1]. split; [cbn; lia|].
  intros [|m] d' Hm; cbn in Hm.
  - injection Hm as <-. split; [done|]. replace (S i - 1 - 0)%nat with i by lia. by rewrite Nat.sub_0_r, andb_true_r.
  - destruct (Hf2 m d' Hm) as [? Hfm]. split; [done|]. cbn [Nat.eqb]. rewrite andb_false_r. replace (S i - 1 - S m)%nat with (i - 1 - m)%nat by lia. done.
Qed.
End Insert.

(** * What is read from the raw entries, and how it depends on those before *)

(** The entries, and the parser that is left at the end. *)
Fixpoint read_all (type : Z) (l : list dslot) (lfn : ufat_lfn_parser) : option (list (ufat_dirent * ufat_lfn_parser) * ufat_lfn_parser) :=
  match l with
  | [] => Some ([], lfn)
  | s :: l =>
      match digest type s lfn with
      | None => None
      | Some (inl lfn) => read_all type l lfn
      | Some (inr e) => match read_all type l new_parser with Some (es, f) => Some (e :: es, f) | None => None end
      end
  end.

Lemma listing_read type l : forall lfn, listing type l lfn = match read_all type l lfn with Some (es, _) => Some es | None => None end.
Proof.
  induction l as [|s l IH]; intros lfn; cbn [listing read_all]; [done|]. destruct (digest type s lfn) as [[lfn'|e]|]; [apply IH| |done].
  rewrite IH. by destruct (read_all type l new_parser) as [[es f]|].
Qed.

Lemma read_all_app type a b : forall lfn, read_all type (a ++ b) lfn =
  match read_all type a lfn with
  | Some (es, f) => match read_all type b f with Some (es', f') => Some (es ++ es', f') | None => None end
  | None => None
  end.
Proof.
  induction a as [|s a IH]; intros lfn; cbn [read_all app]; [by destruct (read_all type b lfn) as [[??]|]|].
  destruct (digest type s lfn) as [[lfn'|e]|]; [apply IH| |done]. rewrite IH. destruct (read_all type a new_parser) as [[es f]|]; [|done].
  by destruct (read_all type b f) as [[??]|].
Qed.

(** Parsers that go on in the same way: what is not looked at any more may differ. *)
Record alike_parser (s t : ufat_lfn_parser) : Prop := {
  al_seq : lfn_seq s = lfn_seq t;
  al_bound : -1 <= lfn_seq s <= 62;
  al_bufs : length (lfn_buf s) = 255%nat /\ length (lfn_buf t) = 255%nat;
  al_rest : lfn_seq s <> -1 -> start_block s = start_block t /\ start_pos s = start_pos t /\ short_checksum s = short_checksum t /\ lfn_len s = lfn_len t /\
    forall j, 13 * lfn_seq s <= Z.of_nat j < lfn_len s -> lfn_buf s !! j = lfn_buf t !! j
}.

Lemma alike_refl s : -1 <= lfn_seq s <= 62 -> length (lfn_buf s) = 255%nat -> alike_parser s s.
Proof. intros H1 H2. by split. Qed.

Lemma alike_reset s t : length (lfn_buf s) = 255%nat -> length (lfn_buf t) = 255%nat -> alike_parser (ufat_lfn_reset s) (ufat_lfn_reset t).
Proof. intros H1 H2. split; cbn; try done. Qed.

Lemma put_fragment_alike fr_pos fr_len chars (a b : list Z) : length a = 255%nat -> length b = 255%nat -> length chars = 13%nat -> fr_len <= 13 ->
  match put_fragment fr_pos fr_len chars a, put_fragment fr_pos fr_len chars b with
  | Some a', Some b' => length a' = 255%nat /\ length b' = 255%nat /\ forall j, (fr_pos <= Z.of_nat j < fr_pos + fr_len \/ a !! j = b !! j) -> a' !! j = b' !! j
  | None, None => True
  | _, _ => False
  end.
Proof.
  intros Ha Hb Hc Hl. unfold put_fragment. rewrite Ha, Hb. destruct (Z.leb_spec fr_len 0); [split_and!; [done..|]; intros j [?|?]; [lia|done]|].
  destruct ((0 <=? fr_pos) && (fr_pos + fr_len <=? Z.of_nat 255)) eqn:E; [|done]. apply andb_true_iff in E as [E1%Z.leb_le E2%Z.leb_le].
  assert (length (take (Z.to_nat fr_len) chars) = Z.to_nat fr_len) as HL by (rewrite length_take; lia).
  split_and!; [rewrite length_put; lia..|]. intros j Hj. rewrite !lookup_put by lia. case_decide; [done|]. destruct Hj as [Hj|Hj]; [lia|done].
Qed.

Lemma parse_alike s t data b pos : alike_parser s t -> byte_at 0 data < 256 -> 0 <= byte_at 0 data ->
  match ufat_lfn_parse s data b pos, ufat_lfn_parse t data b pos with
  | Some s', Some t' => alike_parser s' t'
  | None, None => True
  | _, _ => False
  end.
Proof.
  intros [A1 A2 [A3 A4] A5] H256 H0. unfold ufat_lfn_parse. set (n := byte_at 0 data) in *.
  assert (0 <= Z.land n 0x3f < 64 /\ (0 <= n <= 62 -> Z.land n 0x3f = n)) as [Hland Hsmall].
  { change 0x3f with (Z.ones 6). rewrite Z.land_ones by lia. change (2 ^ 6) with 64. clearbody n. pose proof (Z.mod_pos_bound n 64 ltac:(lia)). split; [lia|]. intros Hn. apply Z.mod_small. lia. }
  revert Hland Hsmall. generalize (Z.land n 0x3f). intros q Hland Hsmall. set (fr_pos := (q - 1) * 13).
  assert (exists fr_len, (if UFAT_LFN_MAX_CHARS <? fr_pos + 13 then UFAT_LFN_MAX_CHARS - fr_pos else 13) = fr_len /\ fr_len <= 13 /\ (fr_len = 13 \/ fr_pos + fr_len = 255)) as (fr_len & -> & Hfl & Hfe).
  { unfold UFAT_LFN_MAX_CHARS. destruct (Z.ltb_spec 255 (fr_pos + 13)); eexists; (split; [reflexivity|lia]). }
  pose proof (put_fragment_alike fr_pos fr_len (fragment_chars data) (lfn_buf s) (lfn_buf t) A3 A4 eq_refl Hfl) as Hput.
  assert (forall a', put_fragment fr_pos fr_len (fragment_chars data) (lfn_buf s) = Some a' -> 0 <= fr_pos) as Hpos.
  { intros a' Ha. unfold put_fragment in Ha. destruct (Z.leb_spec fr_len 0); [lia|]. destruct ((0 <=? fr_pos) && _) eqn:E; [|done]. by apply andb_true_iff in E as [E1%Z.leb_le _]. }
  destruct (negb (Z.land n 0x40 =? 0)) eqn:Ef; cbn [andb negb lfn_buf lfn_seq short_checksum start_block start_pos lfn_len].
  - destruct (put_fragment fr_pos fr_len _ (lfn_buf s)) as [a'|], (put_fragment fr_pos fr_len _ (lfn_buf t)) as [b'|]; try done. cbn [mbind option_bind].
    destruct Hput as (L1 & L2 & Hj). pose proof (Hpos _ eq_refl). split; cbn [lfn_seq lfn_buf start_block start_pos short_checksum lfn_len]; [done|lia|done|].
    intros _. split_and!; [done..|]. intros j Hr. apply Hj. left. lia.
  - rewrite <- A1. destruct (Z.eqb_spec n (lfn_seq s)) as [En|En]; cbn [negb orb]; [|by apply alike_reset].
    destruct A5 as (B1 & B2 & B3 & B4 & B5); [lia|]. rewrite <- B3. destruct (short_checksum s =? byte_at 13 data); cbn [negb]; [|by apply alike_reset].
    destruct (put_fragment fr_pos fr_len _ (lfn_buf s)) as [a'|], (put_fragment fr_pos fr_len _ (lfn_buf t)) as [b'|]; try done. cbn [mbind option_bind].
    destruct Hput as (L1 & L2 & Hj). pose proof (Hpos _ eq_refl). specialize (Hsmall ltac:(lia)). split; cbn [lfn_seq lfn_buf start_block start_pos short_checksum lfn_len]; [by rewrite A1|lia|done|].
    intros _. split_and!; [done..|]. intros j Hr. apply Hj. destruct (Z.lt_ge_cases (Z.of_nat j) (13 * lfn_seq s)) as [?|?]; [|right; apply B5; lia].
    destruct (Z.lt_ge_cases (Z.of_nat j) (fr_pos + fr_len)) as [?|?]; [left; lia|]. right. rewrite !lookup_ge_None_2 by lia. done.
Qed.

Lemma byte_at_byte o data : Forall is_byte data -> is_byte (byte_at o data).
Proof. intros H. unfold byte_at. destruct (data !! o) as [c|] eqn:E; [by apply (Forall_lookup_1 _ _ _ _ H E)|]. unfold is_byte. cbn. lia. Qed.

Lemma alike_matched e s t : alike_parser s t -> alike_parser (matched e s) (matched e t).
Proof.
  intros [A1 A2 [A3 A4] A5]. unfold matched. destruct (Z.eq_dec (lfn_seq s) (-1)) as [E|E].
  - assert (forall b b' : bool, alike_parser (if b then s else ufat_lfn_reset s) (if b' then t else ufat_lfn_reset t)) as H; [|apply H].
    intros b b'. split; destruct b, b'; cbn; try done; lia.
  - destruct (A5 E) as (_ & _ & <- & _). destruct (_ =? _); [by split|by apply alike_reset].
Qed.

Lemma named_alike e s t : alike_parser s t -> named (e, s) = named (e, t).
Proof.
  intros [A1 A2 [A3 A4] A5]. unfold named, format_name, ufat_lfn_ok. cbn [fst snd]. rewrite <- A1. destruct (Z.eqb_spec (lfn_seq s) 0) as [E|]; [|done].
  destruct A5 as (_ & _ & _ & <- & B5); [lia|]. unfold ufat_ucs2_to_utf8. do 2 f_equal. apply list_eq. intros j.
  destruct (Nat.lt_ge_cases j (Z.to_nat (lfn_len s))) as [Hlt|Hge]; [rewrite !lookup_take_lt by done; apply B5; lia|]. rewrite !lookup_ge_None_2; [done|rewrite length_take; lia..].
Qed.

(** The same is read by parsers that are alike. *)
Lemma read_all_alike type l : forall s t, alike_parser s t -> Forall (fun x => Forall is_byte (slot_data x)) l ->
  match read_all type l s, read_all type l t with
  | Some (es, f), Some (es', f') => named <$> es = named <$> es' /\ alike_parser f f'
  | None, None => True
  | _, _ => False
  end.
Proof.
  induction l as [|[[data b] pos] l IH]; intros s t Ha Hb; [done|]. inversion_clear Hb as [|? ? Hd Hl]. cbn [slot_data fst] in Hd. pose proof (byte_at_byte 0 data Hd) as [H0 H256].
  assert (forall s', digest type (data, b, pos) s = Some (inl s') -> exists t', digest type (data, b, pos) t = Some (inl t') /\ alike_parser s' t') as Hin.
  { intros s' E. cbn [digest] in *. destruct (is_fragment data).
    - pose proof (parse_alike s t data b pos Ha H256 H0) as Hp. destruct (ufat_lfn_parse s data b pos), (ufat_lfn_parse t data b pos); try done. injection E as <-. eauto.
    - destruct (is_empty_entry data); [injection E as <-; eexists; split; [done|]; apply alike_reset; apply Ha|].
      destruct (negb _); [|done]. injection E as <-. eexists. split; [done|]. pose proof (alike_matched (ufat_parse_dirent type data no_entry) s t Ha) as [_ _ [? ?] _]. by apply alike_reset. }
  assert (forall x, digest type (data, b, pos) s = Some (inr x) -> exists y, digest type (data, b, pos) t = Some (inr y) /\ named x = named y) as Hout.
  { intros x E. cbn [digest] in *. destruct (is_fragment data); [by destruct (ufat_lfn_parse s data b pos)|]. destruct (is_empty_entry data); [done|].
    destruct (negb _); [done|]. injection E as <-. eexists. split; [done|]. pose proof (alike_matched (ufat_parse_dirent type data no_entry) s t Ha) as Hm.
    set (s' := matched _ s) in *. set (t' := matched _ t) in *. rewrite (named_alike _ _ _ Hm). do 2 f_equal. cbn [entry_of]. unfold ufat_lfn_ok. rewrite <- (al_seq _ _ Hm).
    destruct (Z.eqb_spec (lfn_seq s') 0) as [E|]; [|done]. destruct (al_rest _ _ Hm) as (-> & -> & _); [lia|done]. }
  assert (digest type (data, b, pos) s = None -> digest type (data, b, pos) t = None) as Hnone.
  { intros E. cbn [digest] in *. destruct (is_fragment data); [|destruct (is_empty_entry data); [done|]; by destruct (negb _)].
    pose proof (parse_alike s t data b pos Ha H256 H0) as Hp. by destruct (ufat_lfn_parse s data b pos), (ufat_lfn_parse t data b pos). }
  cbn [read_all]. destruct (digest type (data, b, pos) s) as [[s'|x]|].
  - destruct (Hin s' eq_refl) as (t' & -> & Ha'). by apply IH.
  - destruct (Hout x eq_refl) as (y & -> & E). pose proof (IH new_parser new_parser) as Hn. destruct (read_all type l new_parser) as [[es f]|]; [|done].
    destruct (Hn ltac:(by apply alike_refl) Hl) as [_ Hf]. split; [by rewrite !fmap_cons, E|done].
  - by rewrite Hnone.
Qed.

(** A raw entry that is empty is skipped; the first byte 0 with the attributes of a fragment is never the next one. *)
Lemma digest_empty type x s r : is_empty_entry (slot_data x) = true -> digest type x s = Some r -> r = inl (ufat_lfn_reset s).
Proof.
  destruct x as [[data b] pos]. cbn [slot_data fst digest]. intros He. destruct (is_fragment data) eqn:Ef; [|rewrite He; congruence].
  unfold is_fragment in Ef. apply andb_true_iff in Ef as [_ Ef]. unfold is_empty_entry in He. apply orb_true_iff in He as [He|He]; [|by rewrite He in Ef]. apply Z.eqb_eq in He.
  assert (ufat_lfn_parse s data b pos = if negb (0 =? lfn_seq s) || negb (short_checksum s =? byte_at 13 data) then Some (ufat_lfn_reset s) else None) as ->
    by (unfold ufat_lfn_parse; rewrite He; by destruct (_ || _)).
  destruct (_ || _); congruence.
Qed.

Lemma read_empty type l : forall s es f, Forall (fun x => is_empty_entry (slot_data x) = true) l -> l <> [] -> read_all type l s = Some (es, f) ->
  es = [] /\ f = ufat_lfn_reset s.
Proof.
  induction l as [|x l IH]; intros s es f He H0 Hr; [done|]. inversion_clear He as [|? ? Hx Hl]. cbn [read_all] in Hr. destruct (digest type x s) as [r|] eqn:Ed; [|done].
  rewrite (digest_empty _ _ _ _ Hx Ed) in Hr. destruct l as [|y l]; [by injection Hr as <- <-|]. destruct (IH _ _ _ Hl ltac:(done) Hr) as [-> ->]. done.
Qed.

(** * Reading back a new entry *)

Lemma fragments_cons P i (first : bool) ck d ds : fragments P (S i) first ck (d :: ds) -> fragment (sub (13 * i) 13 P) (Z.of_nat i + 1) first ck d /\ fragments P i false ck ds.
Proof.
  intros [Hl Hf]. split.
  - destruct (Hf 0%nat d eq_refl) as [_ H]. replace (S i - 1 - 0)%nat with i in H by lia. cbn [Nat.eqb] in H. rewrite andb_true_r in H. by replace (Z.of_nat (S i - 0)) with (Z.of_nat i + 1) in H by lia.
  - split; [cbn in Hl; lia|]. intros m d' Hm. destruct (Hf (S m) d' Hm) as [Hb H]. split; [done|]. cbn [Nat.eqb] in H. rewrite andb_false_r in H. cbn [andb].
    replace (S i - 1 - S m)%nat with (i - 1 - m)%nat in H by lia. by replace (S i - S m)%nat with (i - m)%nat in H by lia.
Qed.

Lemma fragment_read ucs n (first : bool) ck d : fragment ucs n first ck d -> 1 <= n <= 20 -> is_fragment d = true.
Proof.
  intros [F1 F2 F3 F4 F5] Hn. unfold is_fragment. rewrite F3, F2. cbn [Z.eqb Pos.eqb andb]. destruct (seq_bits n Hn) as (-> & _).
  assert (Forall (fun n => Z.lor n 0x40 <> 0xe5 /\ n <> 0xe5) (seqZ 1 20)) as H by (apply (bool_decide_unpack _); vm_compute; exact I).
  rewrite Forall_forall in H. destruct (H n) as [H1 H2]; [apply elem_of_seqZ; lia|]. destruct first; by rewrite (proj2 (Z.eqb_neq _ _)).
Qed.

Section ReadNew.
Context (type : Z) (P : list Z) (nf : nat) (ck blk pos : Z).
Hypothesis P_length : length P = 255%nat.
Hypothesis P_chars : Forall (fun c => 0 <= c < 2 ^ 16) P.
Hypothesis nf_fits : (1 <= nf)%nat /\ (13 * nf <= 255)%nat.

Lemma read_fragment k s (x : dslot) rest (first : bool) : (k < nf)%nat -> length (lfn_buf s) = 255%nat ->
  fragment (sub (13 * k) 13 P) (Z.of_nat k + 1) first ck (slot_data x) ->
  (if first then k = (nf - 1)%nat /\ x.1.2 = blk /\ x.2 = pos else parsing P nf ck blk pos (S k) s) ->
  exists s', read_all type (x :: rest) s = read_all type rest s' /\ parsing P nf ck blk pos k s'.
Proof.
  destruct x as [[d b] q]. cbn [slot_data fst snd]. intros Hk Hb Hf Hs.
  destruct (parse_step P nf ck blk pos P_length P_chars nf_fits k s d b q first Hk Hf Hb Hs) as (s' & E & Hp). exists s'. split; [|done].
  cbn [read_all digest]. rewrite (fragment_read _ _ _ _ _ Hf) by lia. by rewrite E.
Qed.

Lemma read_fragments k : forall (frs : list dslot) s rest, (k < nf)%nat -> parsing P nf ck blk pos k s -> fragments P k false ck (slot_data <$> frs) ->
  exists s', read_all type (frs ++ rest) s = read_all type rest s' /\ parsing P nf ck blk pos 0 s'.
Proof.
  induction k as [|k IH]; intros frs s rest Hk Hs Hf.
  - destruct frs as [|x frs]; [by exists s|]. by destruct Hf.
  - destruct frs as [|x frs]; [by destruct Hf|]. rewrite fmap_cons in Hf. apply fragments_cons in Hf as [Hx Hf].
    destruct (read_fragment k s x (frs ++ rest) false ltac:(lia) (pa_buf _ _ _ _ _ _ _ Hs) Hx Hs) as (s1 & E1 & H1).
    destruct (IH frs s1 rest ltac:(lia) H1 Hf) as (s2 & E2 & H2). exists s2. split; [|done]. cbn [app]. by rewrite E1.
Qed.

(** The fragments of a name and the entry for it are read as the entry with this name. *)
Lemma read_new name (frs : list dslot) e data s rest : ascii name -> (length name <= 13 * nf)%nat -> P = padded name ->
  fragments P nf true ck (slot_data <$> frs) -> (x ← head frs; Some (x.1.2, x.2)) = Some (blk, pos) ->
  length (lfn_buf s) = 255%nat -> length data = 32%nat -> dirent_ok type e -> dos_name 8 (short_name e) -> short_name e <> [] ->
  ufat_short_checksum (short_name e) (short_ext e) = ck -> Z.land (attributes e) UFAT_ATTR_VOLLABEL = 0 -> attributes e <> 0x0f ->
  lfn_block e = blk -> lfn_pos e = pos ->
  exists lfn, named (e, lfn) = (e, inr name) /\
    read_all type (frs ++ (ufat_pack_dirent e data, ent_block e, ent_pos e) :: rest) s =
      match read_all type rest new_parser with Some (es, f) => Some ((e, lfn) :: es, f) | None => None end.
Proof.
  intros Hasc Hlen HP Hf Hhead Hb Hd He Hn H0 Hck Hvl Hat Hlb Hlp. assert (exists k, nf = S k) as [k Enf] by (exists (nf - 1)%nat; lia).
  rewrite Enf in Hf. destruct frs as [|x frs]; [by destruct Hf as [Hf _]|]. rewrite fmap_cons in Hf. apply fragments_cons in Hf as [Hx Hf]. cbn in Hhead. injection Hhead as Hx1 Hx2.
  destruct (read_fragment k s x (frs ++ (ufat_pack_dirent e data, ent_block e, ent_pos e) :: rest) true ltac:(lia) Hb Hx) as (s1 & E1 & H1); [split_and!; (done || lia)|].
  destruct (read_fragments k frs s1 ((ufat_pack_dirent e data, ent_block e, ent_pos e) :: rest) ltac:(lia) H1 Hf) as (s2 & E2 & H2).
  exists s2. pose proof (parsing_done P nf ck blk pos P_length nf_fits s2 H2) as [Hok Hbuf]. split.
  - unfold named, format_name. cbn [fst snd]. rewrite Hok. f_equal. apply (name_back _ nf); [done|done|lia|]. by rewrite Hbuf, HP.
  - cbn [app]. rewrite E1, E2. cbn [read_all digest]. pose proof (packed_head type e data He Hd Hn H0) as Hhd. pose proof (packed_attributes type e data He Hd) as Hattr.
    unfold is_fragment, is_empty_entry. rewrite Hattr, (proj2 (Z.eqb_neq _ _) Hat). cbn [andb]. rewrite !(proj2 (Z.eqb_neq (byte_at 0 _) _)) by lia. cbn [orb].
    rewrite (parse_pack type e data no_entry He Hd). set (e0 := placed_like no_entry e). assert (matched e0 s2 = s2) as Hm.
    { unfold matched. cbn [e0 placed_like set_place set_lfn short_name short_ext]. rewrite Hck, (pa_checksum _ _ _ _ _ _ _ H2), Z.eqb_refl. done. }
    rewrite Hm. cbn [e0 placed_like set_place set_lfn attributes]. rewrite Hvl. cbn [Z.eqb negb].
    assert (entry_of type (ufat_pack_dirent e data, ent_block e, ent_pos e) s2 = e) as ->; [|done].
    unfold entry_of. rewrite Hok, (parse_pack type e data _ He Hd). destruct (pa_start _ _ _ _ _ _ _ H2) as [-> ->]. rewrite <- Hlb, <- Hlp. by destruct e.
Qed.
End ReadNew.

(** The buffer of the parser keeps its length. *)
Lemma parse_buf s data b pos s' : ufat_lfn_parse s data b pos = Some s' -> length (lfn_buf s) = 255%nat -> length (lfn_buf s') = 255%nat.
Proof.
  intros E Hs. unfold ufat_lfn_parse in E.
  set (n := byte_at 0 data) in E. set (fr_pos := (Z.land n 63 - 1) * 13) in E. set (fr_len := if _ <? _ then _ else _) in E.
  set (s0 := if negb (Z.land n 64 =? 0) then mkParser _ _ _ _ _ _ else s) in E.
  assert (length (lfn_buf s0) = 255%nat) as H0 by (unfold s0; by destruct (negb _)). destruct (negb (negb _) && _); [by injection E as <-|].
  destruct (put_fragment fr_pos fr_len (fragment_chars data) (lfn_buf s0)) as [a|] eqn:Ea; [|done]. injection E as <-. cbn [lfn_buf].
  assert (fr_len <= 13) as Hfl by (unfold fr_len, UFAT_LFN_MAX_CHARS; destruct (Z.ltb_spec 255 (fr_pos + 13)); lia).
  pose proof (put_fragment_alike fr_pos fr_len (fragment_chars data) (lfn_buf s0) (lfn_buf s0) H0 H0 eq_refl Hfl) as Hp. rewrite Ea in Hp. apply Hp.
Qed.

Lemma digest_buf type x s s' : digest type x s = Some (inl s') -> length (lfn_buf s) = 255%nat -> length (lfn_buf s') = 255%nat.
Proof.
  destruct x as [[data b] pos]. cbn [digest]. intros E Hs. destruct (is_fragment data).
  - destruct (ufat_lfn_parse s data b pos) eqn:Ep; [|done]. injection E as <-. by eapply parse_buf.
  - destruct (is_empty_entry data); [by injection E as <-|]. destruct (negb _); [|done]. injection E as <-. unfold matched. cbn [ufat_lfn_reset lfn_buf]. by destruct (_ =? _).
Qed.

Lemma read_all_buf type l : forall s es f, read_all type l s = Some (es, f) -> length (lfn_buf s) = 255%nat -> length (lfn_buf f) = 255%nat.
Proof.
  induction l as [|x l IH]; intros s es f H Hs; cbn [read_all] in H; [by injection H as _ <-|].
  destruct (digest type x s) as [[s'|e]|] eqn:Ed; [|destruct (read_all type l new_parser) as [[es' f']|] eqn:Er; [|done]|done].
  - eapply IH; [done|]. by eapply digest_buf.
  - injection H as _ <-. by eapply IH.
Qed.

Lemma overlay_snoc ds d : forall k l, overlay k (ds ++ [d]) l = alter (overwrite d) (k + length ds)%nat (overlay k ds l).
Proof.
  induction ds as [|x ds IH]; intros k l; cbn [app overlay length]; [by rewrite Nat.add_0_r|]. rewrite IH. f_equal. lia.
Qed.

Lemma overwrite_data d s : length d = 32%nat -> length (slot_data s) = 32%nat -> overwrite d s = (d, s.1.2, s.2).
Proof. intros H1 H2. unfold overwrite, put. cbn [take app]. rewrite drop_ge by lia. by rewrite app_nil_r. Qed.
