(* ===== verification/UfatMake.v ===== *)
(** Making a file: the new entry, with its name, is added to those of the directory, and is the
    one that is found by this name. *)

From S2P Require Import Prelude UfatDev UfatCache UfatView UfatFat UfatTable UfatChain UfatBpb UfatName UfatLong UfatFile UfatDir UfatRead UfatWrite UfatWalk UfatInsert.
#[local] Open Scope Z_scope.

Section Make.
Context {D : Type} {BD : BlockDevice D} {DS : DeviceSpec D}.
Implicit Types (V W : Z -> list Z) (w : @walk D) (b : Z).
Context (p : ufat_bpb) (start : Z) (bs : list Z).
Hypothesis Hvol : volume p.
Hypothesis Hstart : bs !! 0%nat = Some start.
Notation n_slots := (length bs * in_block)%nat.
Notation walking := (walking p start bs).
Notation opened_dir := (opened_dir p start bs).
Notation gone := (gone bs).
Notation dir_changed := (dir_changed bs).

Lemma slot_place w V i : walking w V i -> forall k, (k < n_slots)%nat -> exists d, length d = 32%nat /\ Forall is_byte d /\
  slots V bs !! k = Some (d, dir_block (at_index start bs k), dir_pos (at_index start bs k)).
Proof.
  intros Hw k Hk. destruct (index_inside V bs k Hk) as (b & Hb & Hs). destruct (split_index k) as [_ Hj]. destruct block_entries as [E _].
  destruct (block_lengths _ _ _ _ _ _ Hw b (list_elem_of_lookup_2 _ _ _ Hb)) as [L Y]. exists (raw V b (k mod in_block)). unfold raw. split; [apply length_sub; lia|].
  split; [by apply Forall_sub|]. rewrite Hs. unfold at_index. cbn [dir_block dir_pos]. by rewrite Hb.
Qed.

Lemma slots_bytes w V i : walking w V i -> Forall (fun x => Forall is_byte (slot_data x)) (slots V bs).
Proof.
  intros Hw. apply Forall_lookup. intros k x Hx. destruct (slot_place w V i Hw k) as (d & _ & Hd & E); [rewrite <- (length_slots V); by eapply lookup_lt_Some|].
  rewrite Hx in E. by injection E as ->.
Qed.

(** An entry without its names. *)
Definition storable_entry (ent : ufat_dirent) : Prop := dirent_ok (fat_type p) (set_short [] [] ent) /\ Z.land (attributes ent) UFAT_ATTR_VOLLABEL = 0.

Lemma entry_ok ent n x b q b' q' : storable_entry ent -> dos_name 8 n -> dos_name 3 x ->
  dirent_ok (fat_type p) (set_place b q (set_lfn b' q' (set_short n x ent))) /\ attributes ent <> 0x0f.
Proof.
  intros [[H1 H2 H3 H4 H5 H6 H7 H8 H9 H10] Ha] Hn Hx. split; [|intros E; by rewrite E in Ha]. split; try done; by apply dos_short.
Qed.

(** The entry that is made: the names and the places are new. *)
Definition made_from ent e : Prop := exists n x b q b' q', dos_name 8 n /\ e = set_place b q (set_lfn b' q' (set_short n x ent)).

(** What the directory gives is what it gave, and one entry more. *)
Definition added (es es' : list (ufat_dirent * ufat_lfn_parser)) (e : ufat_dirent) (name : list Z) : Prop :=
  exists es1 es2, named <$> es = es1 ++ es2 /\ named <$> es' = es1 ++ (e, inr name) :: es2.

(** New raw entries in the place of empty ones. *)
Lemma read_added A M B es f name (frs : list dslot) e data (nf : nat) blk pos :
  read_all (fat_type p) (A ++ M ++ B) new_parser = Some (es, f) -> M <> [] -> Forall (fun x => is_empty_entry (slot_data x) = true) M ->
  Forall (fun x => Forall is_byte (slot_data x)) B -> (1 <= nf)%nat /\ (13 * nf <= 255)%nat -> ascii name -> (length name <= 13 * nf)%nat ->
  fragments (padded name) nf true (ufat_short_checksum (short_name e) (short_ext e)) (slot_data <$> frs) -> (x ← head frs; Some (x.1.2, x.2)) = Some (blk, pos) ->
  length data = 32%nat -> dirent_ok (fat_type p) e -> dos_name 8 (short_name e) -> short_name e <> [] ->
  Z.land (attributes e) UFAT_ATTR_VOLLABEL = 0 -> attributes e <> 0x0f -> lfn_block e = blk -> lfn_pos e = pos ->
  exists es' f', read_all (fat_type p) (A ++ (frs ++ [(ufat_pack_dirent e data, ent_block e, ent_pos e)]) ++ B) new_parser = Some (es', f') /\ added es es' e name.
Proof.
  intros Hr HM Hem HB Hnf Hasc Hlen Hf Hhead Hd He Hn H0 Hvl Hat Hlb Hlp. rewrite read_all_app in Hr.
  destruct (read_all _ A new_parser) as [[esA fA]|] eqn:EA; [|done]. rewrite read_all_app in Hr.
  destruct (read_all _ M fA) as [[esM fM]|] eqn:EM; [|done]. destruct (read_empty _ _ _ _ _ Hem HM EM) as [-> ->].
  destruct (read_all _ B (ufat_lfn_reset fA)) as [[esB fB]|] eqn:EB; [|done]. injection Hr as <- <-. cbn [app].
  pose proof (read_all_buf _ _ _ _ _ EA eq_refl) as HfA.
  destruct (read_new (fat_type p) (padded name) nf _ blk pos (length_padded name ltac:(lia)) (padded_chars _ Hasc) Hnf name frs e data fA B Hasc Hlen eq_refl Hf Hhead HfA Hd He Hn H0 eq_refl Hvl Hat Hlb Hlp)
    as (lfn & Hname & Hread).
  pose proof (read_all_alike (fat_type p) B (ufat_lfn_reset fA) new_parser (alike_reset fA new_parser HfA eq_refl) HB) as Hal. rewrite EB in Hal.
  destruct (read_all _ B new_parser) as [[esB' fB']|]; [|done]. destruct Hal as [Hsame _].
  exists (esA ++ (e, lfn) :: esB'), fB'. split.
  - rewrite read_all_app, EA, <- app_assoc. cbn [app]. by rewrite Hread.
  - exists (named <$> esA), (named <$> esB). split; [by rewrite fmap_app|]. by rewrite fmap_app, fmap_cons, Hname, Hsame.
Qed.

(** What making an entry leaves: one entry more. *)
Definition inserted w V (es : list (ufat_dirent * ufat_lfn_parser)) ent (name : list Z) e w' : Prop :=
  kept w w' /\ made_from ent e /\ exists W es' f', opened_dir w' W /\ dir_changed V W /\
    read_all (fat_type p) (slots W bs) new_parser = Some (es', f') /\ added es es' e name.

(** The raw entries of the new entry are in their places. *)
Lemma placed_slots w V W i k (ds : list (list Z)) pk (nf : nat) :
  walking w V i -> (k + nf < n_slots)%nat -> length ds = nf -> Forall (fun d => length d = 32%nat) ds -> length pk = 32%nat ->
  (forall j, (k <= j < k + (nf + 1))%nat -> exists s, slots V bs !! j = Some s /\ is_empty_entry (slot_data s) = true) ->
  slots W bs = overlay k (ds ++ [pk]) (slots V bs) -> (1 <= nf)%nat ->
  exists A M B frs, slots V bs = A ++ M ++ B /\ M <> [] /\ Forall (fun x => is_empty_entry (slot_data x) = true) M /\
    slots W bs = A ++ (frs ++ [(pk, dir_block (at_index start bs (k + nf)), dir_pos (at_index start bs (k + nf)))]) ++ B /\
    slot_data <$> frs = ds /\ (x ← head frs; Some (x.1.2, x.2)) = Some (dir_block (at_index start bs k), dir_pos (at_index start bs k)).
Proof.
  intros Hw Hk Hds Hd32 Hpk Hem HW Hnf. pose proof (length_slots V bs) as Hlen. set (S := slots V bs) in *.
  set (M1 := sub k nf S). destruct (slot_place w V i Hw (k + nf) Hk) as (dm & Lm & _ & Em). fold S in Em.
  set (m := (dm, dir_block (at_index start bs (k + nf)), dir_pos (at_index start bs (k + nf)))) in *.
  assert (S = take k S ++ (M1 ++ [m]) ++ drop (k + nf + 1) S) as HS.
  { rewrite <- (take_drop k S) at 1. f_equal. rewrite <- (take_drop nf (drop k S)), <- app_assoc. unfold M1, sub. f_equal. rewrite drop_drop.
    rewrite (drop_S S m (k + nf) Em). cbn [app]. do 2 f_equal. lia. }
  assert (length M1 = nf) as LM by (unfold M1; rewrite length_sub; lia).
  assert (forall j, (j < nf)%nat -> exists d, M1 !! j = Some (d, dir_block (at_index start bs (k + j)), dir_pos (at_index start bs (k + j))) /\ length d = 32%nat) as HM1.
  { intros j Hj. unfold M1. rewrite lookup_sub by done. destruct (slot_place w V i Hw (k + j) ltac:(lia)) as (d & Ld & _ & Ed). by exists d. }
  exists (take k S), (M1 ++ [m]), (drop (k + nf + 1) S), (zip_with overwrite ds M1). split; [done|]. split; [by destruct M1|]. split; [|split; [|split]].
  - apply Forall_lookup. intros j x Hx. assert (j < nf + 1)%nat as Hj by (apply lookup_lt_Some in Hx; rewrite length_app in Hx; cbn in Hx; lia).
    destruct (Hem (k + j)%nat ltac:(lia)) as (s & Hs & He). enough (S !! (k + j)%nat = Some x) by congruence. rewrite HS. rewrite lookup_app_r by (rewrite length_take; lia).
    rewrite length_take, Nat.min_l by lia. replace (k + j - k)%nat with j by lia. rewrite lookup_app_l by (rewrite length_app; cbn; lia). done.
  - rewrite HW. rewrite HS at 1. rewrite <- (length_take_le S k) at 1 by lia. rewrite overlay_split by (rewrite !length_app; cbn; lia).
    do 2 f_equal. rewrite zip_with_app by lia. cbn [zip_with]. by rewrite (overwrite_data pk m Hpk Lm).
  - apply list_eq. intros j. rewrite list_lookup_fmap, lookup_zip_with. destruct (Nat.lt_ge_cases j nf) as [Hj|Hj].
    + destruct (HM1 j Hj) as (d & -> & Ld). destruct (lookup_lt_is_Some_2 ds j) as [x Hx]; [lia|]. rewrite Hx. cbn [mbind option_bind fmap option_fmap option_map].
      rewrite overwrite_data; [done|by apply (Forall_lookup_1 _ _ _ _ Hd32 Hx)|done].
    + rewrite (lookup_ge_None_2 ds) by lia. done.
  - destruct (HM1 0%nat ltac:(lia)) as (d & H0 & Ld). destruct ds as [|x ds]; [cbn in Hds; lia|]. destruct M1 as [|y M1']; [done|]. cbn in H0. injection H0 as ->.
    cbn [zip_with head mbind option_bind overwrite fst snd]. by rewrite Nat.add_0_r.
Qed.

(** The fragments and the entry are written from the raw entry [k] on. *)
Lemma write_entry_holds w V k (nf : nat) name ent (name8 ext : list Z) : walking w V k -> (k + nf < n_slots)%nat -> (13 * nf <= 255)%nat ->
  ascii name -> (length name <= 255)%nat -> storable_entry ent -> dos_name 8 name8 -> dos_name 3 ext ->
  returns (d ← gets wdir;
    let ent := set_lfn (dir_block d) (dir_pos d) (set_short name8 ext ent) in
    data ⇐ write_fragments nf true (padded name) (replicate (Z.to_nat UFAT_DIRENT_SIZE) 0) (ufat_short_checksum name8 ext);
    d ← gets wdir;
    let ent := set_place (dir_block d) (dir_pos d) ent in
    ufat_write_raw_dirent (ufat_pack_dirent ent data) ;? ok ent) w (gone w V)
  (fun e w' => kept w w' /\ exists W ds data, opened_dir w' W /\ dir_changed V W /\ length data = 32%nat /\ fragments (padded name) nf true (ufat_short_checksum name8 ext) ds /\
    e = set_place (dir_block (at_index start bs (k + nf))) (dir_pos (at_index start bs (k + nf)))
          (set_lfn (dir_block (at_index start bs k)) (dir_pos (at_index start bs k)) (set_short name8 ext ent)) /\
    slots W bs = overlay k (ds ++ [ufat_pack_dirent e data]) (slots V bs)).
Proof.
  intros Hw Hk Hnf Hasc Hlen Hent H8 H3. go_gets. rewrite (wk_at _ _ _ _ _ _ Hw).
  set (e1 := set_lfn _ _ (set_short name8 ext ent)). set (ck := ufat_short_checksum name8 ext).
  eapply returns_check; [apply (write_fragments_holds p start bs Hvol (padded name) ck nf true w V k (replicate (Z.to_nat UFAT_DIRENT_SIZE) 0))| |].
  { by apply length_padded. } { apply checksum_byte. } { done. } { done. } { done. } { done. } { apply Forall_replicate. unfold is_byte. lia. } { done. }
  intros data w1 (Ld & Yd & K1 & W1 & ds & Hw1 & Hc1 & Hf & Hs1). go_gets. rewrite (wk_at _ _ _ _ _ _ Hw1). set (e := set_place _ _ e1).
  destruct (entry_ok ent name8 ext (dir_block (at_index start bs (k + nf))) (dir_pos (at_index start bs (k + nf))) (dir_block (at_index start bs k)) (dir_pos (at_index start bs k)) Hent H8 H3) as [He _].
  fold e1 e in He. pose proof (length_pack e data _ He Ld) as Lp.
  eapply returns_check; [apply (write_raw_holds p start bs Hvol w1 W1 (k + nf) (ufat_pack_dirent e data) Hw1 Hk); [lia|by eapply pack_dirent_bytes]|intros e' t; by eapply failed_gone|].
  intros _ w2 (K2 & W & Hw2 & Hc2 & Hs2). apply returns_ok. split; [unfold kept in *; congruence|]. exists W, ds, data. split; [by eapply walking_opened|].
  split; [by eapply dir_changed_trans|]. split; [done|]. split; [done|]. split; [done|]. rewrite overlay_snoc, Hs2, Hs1. by rewrite (proj1 Hf).
Qed.

Lemma insert_dirent_holds w V es f ent name k : opened_dir w V -> read_all (fat_type p) (slots V bs) new_parser = Some (es, f) ->
  ascii name -> (1 <= length name <= 247)%nat -> storable_entry ent ->
  suffix_number (ufat_short_first name).1 + Z.of_nat (length es) < 10 ^ 7 ->
  find_run (slots V bs) 0 0 0 (S (Z.to_nat ((Z.of_nat (length name) + 12) / 13))) = Some k ->
  returns (insert_dirent ent name) w (gone w V) (inserted w V es ent name).
Proof.
  intros Ho Hr Hasc Hlen Hent Hsuf Hrun. pose proof (listing_read (fat_type p) (slots V bs) new_parser) as Hl. rewrite Hr in Hl.
  destruct (fragments_fit (length name) Hlen) as (F1 & F2 & F3). set (nf := Z.to_nat ((Z.of_nat (length name) + 12) / 13)) in *.
  assert (Z.of_nat nf = (Z.of_nat (length name) + 12) / 13) as Enf by (unfold nf; rewrite Z2Nat.id; [done|apply Z.div_pos; lia]).
  destruct (short_first_good name) as (G1 & G2 & G3); [apply (Forall_impl _ _ _ Hasc); unfold is_byte; lia|].
  destruct (find_run_empty (S nf) (slots V bs) ltac:(lia) (slots V bs) 0 0 0 k eq_refl ltac:(lia) ltac:(by left) ltac:(intros j Hj; lia) Hrun) as [Hin Hem].
  rewrite length_slots in Hin. unfold insert_dirent. rewrite (utf8_to_ucs2_ascii name Hasc) by lia.
  destruct (ufat_short_first name) as [n0 ext] eqn:Ef. cbn [fst snd] in *. go_gets. rewrite (od_bpb _ _ _ _ _ Ho).
  eapply returns_check; [by apply (choose_holds p start bs Hvol Hstart w V n0 ext es)|intros e t F; by eapply (failed_gone start bs w V V w)|].
  intros name8 w1 (K1 & Ho1 & G4 & G5 & _). rewrite <- Enf. replace (Z.of_nat nf + 1) with (Z.of_nat (S nf)) by lia.
  eapply returns_check; [by apply (allocate_holds p start bs Hvol Hstart w1 V (S nf) k Ho1 ltac:(lia))|intros e t F; by eapply (failed_gone start bs w V V w1)|].
  intros _ w2 [K2 Hw2]. rewrite Nat2Z.id. assert (kept w w2) as K by (unfold kept in *; congruence).
  eapply returns_mono; [apply (write_entry_holds w2 V k nf name ent name8 ext Hw2); (done || lia)|intros e t; by apply gone_from|].
  intros e w3 (K3 & W & ds & data & Ho3 & Hc & Ld & Hf & He & Hs).
  destruct (entry_ok ent name8 ext (dir_block (at_index start bs (k + nf))) (dir_pos (at_index start bs (k + nf))) (dir_block (at_index start bs k)) (dir_pos (at_index start bs k)) Hent G4 G3) as [Hok Hat].
  rewrite <- He in Hok. pose proof (length_pack e data _ Hok Ld) as Lp.
  destruct (placed_slots w2 V W k k ds (ufat_pack_dirent e data) nf Hw2 ltac:(lia) (proj1 Hf)) as (A & M & B & frs & HS & HM & HMe & HW & Hfrs & Hhead); try done.
  { apply Forall_lookup. intros j d Hd. by apply (fr_length _ _ _ _ _ (proj2 (proj2 Hf j d Hd))). } { intros j Hj. apply Hem. lia. }
  split; [unfold kept in *; congruence|]. split; [by eexists _, _, _, _, _, _; split|].
  assert (Forall (fun x => Forall is_byte (slot_data x)) B) as HB by (pose proof (slots_bytes w2 V k Hw2) as Hby; rewrite HS, !Forall_app in Hby; apply Hby).
  rewrite HS in Hr.
  assert (exists es' f', read_all (fat_type p) (A ++ (frs ++ [(ufat_pack_dirent e data, ent_block e, ent_pos e)]) ++ B) new_parser = Some (es', f') /\ added es es' e name) as (es' & f' & Hread & Hadd).
  { eapply (read_added A M B es f name frs e data nf _ _ Hr HM HMe HB (conj F1 F2) Hasc F3); [|exact Hhead|done|done|..]; rewrite ?Hfrs; rewrite He; (done || apply Hent). }
  exists W, es', f'. split; [done|]. split; [done|]. split; [|done]. rewrite HW, <- Hread. by rewrite He.
Qed.

(** * New files *)

Definition entries V (es : list (ufat_dirent * ufat_lfn_parser)) : Prop := exists f, read_all (fat_type p) (slots V bs) new_parser = Some (es, f).

Lemma entries_listing V es : entries V es -> listing (fat_type p) (slots V bs) new_parser = Some es.
Proof. intros [f Hf]. by rewrite listing_read, Hf. Qed.

(** The new name is legal, and not in use. *)
Lemma check_new_holds w V name es : opened_dir w V -> entries V es -> ufat_lfn_is_legal name = true -> search name (named <$> es) = inr None ->
  returns (check_new name) w (fun _ _ => False) (fun _ w' => kept w w' /\ opened_dir w' V).
Proof.
  intros Ho He Hl Hs. unfold check_new. rewrite Hl. cbn [negb]. apply returns_bind.
  eapply wp_mono; [by apply (dir_find_holds p start bs Hvol Hstart w V name es Ho), entries_listing|]. intros r w1 H1.
  assert (kept w w1 /\ opened_dir w1 V /\ match r with inr (Some _) => False | _ => True end) as (K1 & Ho1 & Hr).
  { destruct r as [e|r]; [destruct H1 as [((F1 & F2 & F3 & F4) & F5)|[_ H1]]|destruct H1 as [E H1]].
    - split_and!; [done| |done]. destruct Ho as [O1 O2 O3 O4]. pose proof F4 as [= _ Fb _ _]. split; (done || congruence).
    - split_and!; [apply H1|by eapply left_off_opened|done].
    - split_and!; [apply H1|by eapply left_off_opened|]. rewrite Hs in E. by injection E as <-. }
  destruct r as [e|[x|]]; [by apply returns_ok|done|by apply returns_ok].
Qed.

(** A name that is in use is refused. *)
Lemma check_used_holds w V name es e0 : opened_dir w V -> entries V es -> search name (named <$> es) = inr (Some e0) ->
  returns (check_new name) w (fun e w' => e = (if ufat_lfn_is_legal name then - UFAT_ERR_FILE_EXISTS else - UFAT_ERR_ILLEGAL_NAME) /\ kept w w' /\ opened_dir w' V) (fun _ _ => may_fail).
Proof.
  intros Ho He Hs. unfold check_new. destruct (ufat_lfn_is_legal name) eqn:Hl; cbn [negb]; [|apply returns_err; by split_and!].
  apply returns_bind. eapply wp_mono; [by apply (dir_find_holds p start bs Hvol Hstart w V name es Ho), entries_listing|]. intros [e|r] w1 H1.
  - destruct H1 as [((F1 & _) & _)|[E _]]; [by apply returns_ok|congruence].
  - destruct H1 as [E H1]. rewrite Hs in E. injection E as <-. apply returns_err. split_and!; [done|apply H1|by eapply left_off_opened].
Qed.

Lemma user_attributes a : 0 <= Z.land a UFAT_ATTR_USER < 256 /\ Z.land (Z.land a UFAT_ATTR_USER) UFAT_ATTR_VOLLABEL = 0.
Proof.
  unfold UFAT_ATTR_USER, UFAT_ATTR_VOLLABEL. rewrite <- Z.land_assoc. change (Z.land 0x27 0x08) with 0. rewrite Z.land_0_r. split; [|done].
  split; [apply Z.land_nonneg; lia|]. replace (Z.land a 0x27) with (Z.land (Z.land a 0x27) (Z.ones 8)) by (rewrite <- Z.land_assoc; done).
  rewrite Z.land_ones by lia. pose proof (Z.mod_pos_bound (Z.land a 0x27) (2 ^ 8) ltac:(lia)). lia.
Qed.

(** The dates that the caller gives fit their fields. *)
Definition dated (ent : ufat_dirent) : Prop :=
  Forall (fun x => 0 <= x < 2 ^ 16) [create_date ent; create_time ent; modify_date ent; modify_time ent; access_date ent].

(** The entry of a new file, but for its names and its place. *)
Definition file_entry (ent : ufat_dirent) : ufat_dirent := set_attributes (Z.land (attributes ent) UFAT_ATTR_USER) (set_first_cluster 0 (set_ent_size 0 ent)).

Lemma file_storable ent : dated ent -> storable_entry (file_entry ent).
Proof.
  intros Hd. unfold dated in Hd. rewrite !Forall_cons in Hd. destruct Hd as (D1 & D2 & D3 & D4 & D5 & _). destruct (user_attributes (attributes ent)) as [U1 U2].
  split; [|done]. split; cbn; try done; try (split; [cbn; lia|done]). destruct (fat_type p =? UFAT_TYPE_FAT32); lia.
Qed.

Lemma mkfile_holds w V es ent name k : opened_dir w V -> entries V es -> ufat_lfn_is_legal name = true -> Forall is_byte name -> (length name <= 247)%nat ->
  dated ent -> search name (named <$> es) = inr None -> suffix_number (ufat_short_first name).1 + Z.of_nat (length es) < 10 ^ 7 ->
  find_run (slots V bs) 0 0 0 (S (Z.to_nat ((Z.of_nat (length name) + 12) / 13))) = Some k ->
  returns (ufat_dir_mkfile ent name) w (gone w V) (inserted w V es (file_entry ent) name).
Proof.
  intros Ho [f Hf] Hl Hb Hlen Hd Hs Hsuf Hrun. unfold ufat_dir_mkfile. pose proof (legal_ascii name Hl Hb) as Hasc. destruct (legal_name name Hl Hb) as [Hne _].
  assert (1 <= length name)%nat as Hl1 by (destruct name; [done|cbn; lia]).
  eapply returns_check; [apply (check_new_holds w V name es Ho); [by exists f|done|done]|done|]. intros _ w1 [K1 Ho1].
  eapply returns_mono; [by apply (insert_dirent_holds w1 V es f (file_entry ent) name k Ho1 Hf Hasc (conj Hl1 Hlen) (file_storable ent Hd) Hsuf Hrun)| |].
  - intros e t. by apply gone_from.
  - intros e t (K2 & H2). split; [unfold kept in *; congruence|done].
Qed.

(** What is searched after an entry was added. *)
Lemma search_app target a : forall (b : list (ufat_dirent * (Z + list Z))), search target (a ++ b) = match search target a with inr None => search target b | r => r end.
Proof. induction a as [|[e [err|name]] a IH]; intros b; cbn [app search]; [done|done|]. destruct (0 <=? _); [done|apply IH]. Qed.

Lemma search_added es es' e name : added es es' e name -> search name (named <$> es) = inr None -> search name (named <$> es') = inr (Some e).
Proof.
  intros (es1 & es2 & E1 & E2) Hs. rewrite E1, search_app in Hs. rewrite E2, search_app. destruct (search name es1) as [|[|]]; try done.
  cbn [search]. rewrite compare_name_spec. by rewrite bool_decide_true.
Qed.
End Make.
