(* ===== verification/UfatMount.v ===== *)
(** Opening a file system, counting its free clusters, and opening a file in it. *)

From S2P Require Import Prelude UfatDev UfatCache UfatView UfatFat UfatTable UfatChain UfatBpb UfatFile UfatRead.
#[local] Open Scope Z_scope.

Section Mount.
Context {D : Type} {BD : BlockDevice D} {DS : DeviceSpec D}.
Notation ufat := (ufat D).
Implicit Types (u : ufat) (V : Z -> list Z) (p : ufat_bpb).

(** * The state after opening *)

(** The arrays of the cache have the size ufat.h gives them. *)
Definition arrays_ok u : Prop :=
  length (cache_desc u) = Z.to_nat UFAT_CACHE_MAX_BLOCKS /\ length (cache_data u) = Z.to_nat UFAT_CACHE_BYTES /\ Forall is_byte (cache_data u).

(** Nothing is cached. *)
Definition nothing_cached u : Prop := forall i, is_present (desc u i) = false.

Lemma fresh_holds u : arrays_ok u -> dev_ok (disk u) -> geometry (bpb u) -> 0 < cache_size u <= UFAT_CACHE_MAX_BLOCKS ->
  cache_size u * 2 ^ log2_block_size <= UFAT_CACHE_BYTES -> nothing_cached u -> holds u (dev_block (disk u)).
Proof.
  intros (A1 & A2 & A3) Hd Hg Hn Hfit Hno. pose proof block_size_Z. split; [split|done|..].
  - done.
  - done.
  - done.
  - done.
  - rewrite A2. nia.
  - intros i j _ _ Hi. by rewrite Hno in Hi.
  - intros i _ Hi. by rewrite Hno in Hi.
  - done.
Qed.

(** The number of slots. *)
Definition slots : Z :=
  let n := Z.shiftr UFAT_CACHE_BYTES log2_block_size in if UFAT_CACHE_MAX_BLOCKS <? n then UFAT_CACHE_MAX_BLOCKS else n.

Lemma slots_bound : 0 < slots <= UFAT_CACHE_MAX_BLOCKS /\ slots * 2 ^ log2_block_size <= UFAT_CACHE_BYTES.
Proof.
  pose proof log2_block_size_bound. unfold slots. rewrite Z.shiftr_div_pow2 by lia. unfold UFAT_CACHE_BYTES, UFAT_CACHE_MAX_BLOCKS.
  assert (log2_block_size = 5 \/ log2_block_size = 6 \/ log2_block_size = 7 \/ log2_block_size = 8 \/ log2_block_size = 9 \/
    log2_block_size = 10 \/ log2_block_size = 11 \/ log2_block_size = 12 \/ log2_block_size = 13) as Hc by lia.
  repeat (destruct Hc as [E|Hc]; [rewrite E; vm_compute; intuition congruence|]). rewrite Hc; vm_compute; intuition congruence.
Qed.

Lemma wp_conj {S A} (m : prog S A) s Q R : wp m s Q -> wp m s R -> wp m s (fun a t => Q a t /\ R a t).
Proof. unfold wp. by destruct (m s). Qed.

(** With nothing cached, the scan ends with the last slot free. *)
Lemma scan_nothing n u b : shape u -> nothing_cached u -> forall i o a f, 0 <= i -> i + Z.of_nat n = cache_size u ->
  exists o', cache_scan n i b o a f u = Ret (inr (o', match n with O => f | _ => cache_size u - 1 end)) u.
Proof.
  intros Hs Hno. induction n as [|n IH]; intros i o a f Hi Hn; cbn [cache_scan]; [by exists o|].
  rewrite (bind_Ret _ _ _ _ _ (desc_at_run u i Hs ltac:(lia))), bind_gets, (Hno i). cbn [andb].
  assert (forall o1 a1, exists o', cache_scan n (i + 1) b o1 a1 i u = Ret (inr (o', cache_size u - 1)) u) as Hgo.
  { intros o1 a1. destruct (IH (i + 1) o1 a1 i) as [o' E]; [lia..|]. exists o'. rewrite E. destruct n; [|done]. do 3 f_equal. lia. }
  destruct ((o <? 0) || _); apply Hgo.
Qed.

(** The descriptors after the first block is opened. *)
Lemma first_open u b : shape u -> dev_ok (disk u) -> dev_has b -> nothing_cached u ->
  returns (ufat_cache_open b false) u (fun _ _ => True) (fun i u' => 0 <= i < cache_size u' /\ forall j, 0 <= j < cache_size u' ->
    is_present (desc u' j) = true -> j = i /\ index (desc u' j) = b /\ is_dirty (desc u' j) = false).
Proof.
  intros Hs Hok Hb Hno. pose proof (shape_size u Hs) as Hz. pose proof (shape_descs u Hs) as Hl. unfold ufat_cache_open. go_gets.
  destruct (scan_nothing (Z.to_nat (cache_size u)) u b Hs Hno 0 (-1) 0 (-1)) as [o E]; [lia..|]. eapply returns_go; [exact E|].
  destruct (Z.to_nat (cache_size u)) eqn:En; [lia|]. cbv iota beta. rewrite (proj2 (Z.leb_le 0 (cache_size u - 1))) by lia. go_gets. set (i := cache_size u - 1).
  eapply (returns_check _ _ _ (fun _ _ => True) (fun _ u1 => shape u1 /\ meta u1 = meta u /\ cache_desc u1 = cache_desc u) _ _).
  - assert (0 <= i < cache_size u) as Hi by (unfold i; lia). unfold fill_slot. go cache_data_run; [done..|]. apply returns_bind.
    eapply wp_mono; [apply io_read_one; [done|done|by apply slot_ok]|]. intros [rc data] u1 (d & -> & Hd & Hk & _).
    assert (shape (set_disk d u)) as Hs1 by by apply (shape_alike u). go put_cache_data_run; [done..|]. destruct (rc <? 0).
    + go desc_at_run; [by apply shape_slot|done|]. go put_desc_run; [by apply shape_slot|done|]. by apply returns_err.
    + go_gets. apply returns_ok. split_and!; [by apply (shape_alike (upd_slot i data (set_disk d u))), shape_slot|done|done].
  - done.
  - intros [] u1 (Hs1 & Hm & Hd). pose proof Hm as [= M1 M2 M3 M4]. go_gets. go put_desc_run; [done|unfold i; rewrite M3; lia|]. go_gets. go_gets. apply returns_ok.
    cbn [cache_size set_stat set_next_seq upd_desc set_cache_desc]. split; [unfold i; lia|]. intros j Hj Pj. set (dn := mkDesc _ _ b) in *.
    assert (desc (upd_desc i dn u1) j = if decide (j = i) then dn else desc u j) as E'.
    { rewrite desc_upd; [|by rewrite Hd|unfold i; lia|lia]. case_decide; [done|]. unfold desc. by rewrite Hd. }
    change (is_present (desc (upd_desc i dn u1) j) = true) in Pj. rewrite E' in Pj. case_decide; [|by rewrite Hno in Pj].
    match goal with |- context [desc ?x j] => change (desc x j) with (desc (upd_desc i dn u1) j) end. rewrite E'. done.
Qed.

Lemma volume_first p : volume p -> shown p 0.
Proof.
  intros Hv. pose proof (volume_fat p Hv). pose proof (volume_root p Hv). pose proof (volume_clusters p Hv). pose proof (cluster_blocks_pos p Hv).
  pose proof (volume_table p Hv) as [Ht _]. pose proof bytes_pos as Hb.
  assert (0 < fat_size p) as Hs.
  { destruct (Z.eq_dec (fat_size p) 0) as [E|]; [|lia]. unfold fat_bytes in Ht. rewrite E, Z.shiftl_0_l in Ht. unfold table_bytes in Ht.
    pose proof (Z.div_pos (num_clusters p) 2). destruct (fat_type p =? UFAT_TYPE_FAT12), (fat_type p =? UFAT_TYPE_FAT16); lia. }
  split; [|unfold mirror; lia]. apply (volume_blocks p Hv). unfold end_block. nia.
Qed.

(** ufat_open of a sound volume: the parameters are those of the boot sector, and what is seen is what is on the device. *)
Lemma open_holds u p : arrays_ok u -> dev_ok (disk u) -> geometry (bpb u) -> dev_has 0 -> (forall b, ~ mirror (bpb u) b) ->
  parse_bpb log2_block_size (bpb u) (dev_block (disk u) 0) = Some (p, 0) -> volume p ->
  returns ufat_open u (fun e _ => may_fail /\ e < 0)
    (fun _ u' => bpb u' = p /\ dev u' = true /\ alloc_ok u' /\ holds u' (dev_block (disk u))).
Proof.
  intros (A1 & A2 & A3) Hd Hg H0 Hno Hparse Hv. destruct slots_bound as [Hsl Hfit]. unfold ufat_open. go_gets. go_gets. fold slots. go_gets.
  rewrite (proj2 (Z.eqb_neq slots 0)) by lia. go_gets. go_gets. go_gets. set (u0 := set_cache_desc _ _).
  assert (nothing_cached u0) as Hnc.
  { intros i. unfold desc, u0, zget. cbn [cache_desc set_cache_desc]. destruct (0 <=? i); [|done]. destruct (replicate _ _ !! _) eqn:E; [|done].
    apply lookup_replicate in E as [-> _]. done. }
  assert (holds u0 (dev_block (disk u))) as Hh by by apply (fresh_holds u0).
  assert (shown (bpb u0) 0) as Hs0 by (split; [done|apply Hno]). unfold read_bpb.
  apply (returns_check _ _ _ (fun e _ => may_fail /\ e < 0) (fun i u1 => (meta u1 = meta u0 /\ in_slot u1 i 0 /\ holds u1 (dev_block (disk u)) /\ slot u1 i = dev_block (disk u) 0) /\
    0 <= i < cache_size u1 /\ forall j, 0 <= j < cache_size u1 -> is_present (desc u1 j) = true -> j = i /\ index (desc u1 j) = 0 /\ is_dirty (desc u1 j) = false)).
  - eapply wp_mono; [apply (wp_conj _ _ _ _ (cache_open_holds u0 _ 0 Hh Hs0) (first_open u0 0 (holds_shape _ _ _ Hh) Hd H0 Hnc))|].
    intros [e|i] t [F1 F2]; [|done]. by destruct F1 as (? & ? & _).
  - done.
  - intros i u1 ((Hm & _ & H1 & Hs1) & Hi & Hd1). pose proof Hm as [= M1 M2 M3 M4]. pose proof (holds_shape _ _ _ H1) as Hsh1. go_gets. go cache_data_run; [done..|].
    rewrite Hs1, M2. cbn [bpb u0 set_cache_desc set_stat set_alloc_ptr set_cache_size set_next_seq set_dev]. rewrite Hparse. go_gets. cbv iota beta. go_gets. apply returns_ok.
    assert (bpb (set_bpb p u1) = p) as Hp by done. split_and!; [done|done| |].
    + split; [cbn [alloc_ptr set_bpb]; rewrite M4; cbn; lia|]. cbn [alloc_ptr set_bpb bpb]. rewrite M4. cbn [alloc_ptr u0 set_cache_desc set_stat set_alloc_ptr]. lia.
    + destruct H1 as [[S1 S2 S3 S4 S5 S6] B C E]. split; [split; try done; by apply volume_geometry|done|..].
      * intros j Hj Pj. change (desc (set_bpb p u1) j) with (desc u1 j) in *. destruct (Hd1 j Hj Pj) as (-> & Hix & _). rewrite Hix. rewrite Hp. split; [by apply volume_first|exact Hs1].
      * intros b [Hb _] _. apply E; [split; [done|rewrite M2; apply Hno]|]. intros j Hj Pj Hdj. destruct (Hd1 j Hj Pj) as (_ & _ & Hcl). rewrite Hcl in Hdj. destruct Hdj; [done|lia].
Qed.

(** * Counting free clusters *)

Definition free_clusters p V (from : Z) (n : nat) : list Z :=
  filter (fun c => fat p V c = UFAT_CLUSTER_FREE /\ ~ (fat_type p = UFAT_TYPE_FAT12 /\ c = 0xff0)) (seqZ from (Z.of_nat n)).

Lemma count_loop_holds u0 V n : forall u idx k, holds u V -> meta u = meta u0 -> volume (bpb u0) -> 0 <= idx -> idx + Z.of_nat n <= num_clusters (bpb u0) ->
  returns (count_loop n idx k) u (failed u0 V) (fun r u' => meta u' = meta u0 /\ holds u' V /\ r = k + Z.of_nat (length (free_clusters (bpb u0) V idx n))).
Proof.
  induction n as [|n IH]; intros u idx k H Hm Hv Hi Hn; cbn [count_loop]; pose proof Hm as [= M1 M2 M3 M4].
  { apply returns_ok. split_and!; [done..|]. unfold free_clusters. rewrite seqZ_nil by lia. cbn [filter list_filter length Z.of_nat]. lia. }
  assert (free_clusters (bpb u0) V idx (S n) = (if decide (fat (bpb u0) V idx = UFAT_CLUSTER_FREE /\ ~ (fat_type (bpb u0) = UFAT_TYPE_FAT12 /\ idx = 0xff0)) then [idx] else []) ++ free_clusters (bpb u0) V (idx + 1) n) as Hfree.
  { unfold free_clusters. rewrite seqZ_cons by lia. rewrite filter_cons. replace (Z.pred (Z.of_nat (S n))) with (Z.of_nat n) by lia.
    rewrite <- Z.add_1_r. by case_decide. }
  go_gets. rewrite M2. destruct (Z.eqb_spec idx 0xff0) as [E|E], (Z.eqb_spec (fat_type (bpb u0)) UFAT_TYPE_FAT12) as [Et|Et]; cbn [andb].
  1: { eapply returns_mono; [apply (IH u (idx + 1) k); (done || lia)|done|]. intros r u' (A & B & ->). split_and!; [done..|]. rewrite Hfree, decide_False by tauto. done. }
  all: eapply returns_check; [apply (read_fat_holds u V idx H); rewrite M2; (done || lia)|intros e t (F1 & F2 & F3 & F4); split_and!; [done..|congruence]|];
    intros c u1 (Hm1 & H1 & ->); rewrite M2;
    (eapply returns_mono; [apply (IH u1 (idx + 1)); (done || lia || congruence)|done|]); intros r u' (A & B & ->); split_and!; [done..|];
    rewrite Hfree, length_app; destruct (Z.eqb_spec (fat (bpb u0) V idx) UFAT_CLUSTER_FREE) as [Ef|Ef]; [rewrite decide_True by tauto|rewrite decide_False by tauto]; cbn [length]; lia.
Qed.

Lemma count_free_holds u V : holds u V -> volume (bpb u) ->
  returns ufat_count_free_clusters u (failed u V) (fun r u' => meta u' = meta u /\ holds u' V /\
    r = Z.of_nat (length (free_clusters (bpb u) V 2 (Z.to_nat (num_clusters (bpb u) - 2))))).
Proof. intros H Hv. pose proof (volume_clusters _ Hv). unfold ufat_count_free_clusters. go_gets. apply (count_loop_holds u V); (done || lia). Qed.

(** * A file at its beginning *)

Definition at_start (f : ufat_file) : Prop := prev_cluster f = 0 /\ cur_cluster f = file_start f /\ cur_pos f = 0.

Lemma file_at_start p V f l : volume p -> chain p V (file_start f) l -> NoDup l -> 0 <= file_size f < 2 ^ 32 ->
  file_size f <= Z.of_nat (length l) * cluster_bytes p -> at_start f -> file_at p V f l.
Proof.
  intros Hv Hc Hd Hs Hfit (E1 & E2 & E3). pose proof (cluster_bytes_pos p Hv) as Hcb.
  assert (cluster_index p 0 = 0%nat) as E0 by (unfold cluster_index; by rewrite Z.div_0_l by lia).
  split; rewrite ?E1, ?E2, ?E3, ?E0; (done || lia).
Qed.

Lemma rewind_at p V f l : volume p -> file_at p V f l -> file_at p V (set_position 0 (file_start f) 0 f) l.
Proof. intros Hv [H1 H2 H3 H4 H5 H6 H7 H8]. by apply file_at_start. Qed.
End Mount.
