(* ===== verification/UfatTruncate.v ===== *)
(** Truncating a file: the directory entry gets the position as the size, and the clusters behind
    the position are cut off the chain and freed. *)

From S2P Require Import Prelude UfatDev UfatCache UfatView UfatFat UfatTable UfatChain UfatBlock UfatBpb UfatName UfatLong UfatFile UfatRead UfatWrite.
#[local] Open Scope Z_scope.

Section Truncate.
Context {D : Type} {BD : BlockDevice D} {DS : DeviceSpec D}.
Implicit Types (V W : Z -> list Z) (o : @opened D).

(** * Cutting a chain *)

Lemma chain_tail p V a x b : forall c, chain p V c (a ++ x :: b) -> chain p V (fat p V x) b.
Proof. induction a as [|y a IH]; intros c H; destruct H as (-> & _ & _ & H); [done|by eapply IH]. Qed.

Lemma chain_cut p V W a x b : forall c, chain p V c (a ++ x :: b) -> (forall y, y ∈ a -> fat p W y = fat p V y) ->
  UFAT_CLUSTER_IS_PTR (fat p W x) = false -> chain p W c (a ++ [x]).
Proof.
  induction a as [|y a IH]; intros c H E Hx.
  - destruct H as (-> & Hp & Hn & _). cbn [app chain]. done.
  - destruct H as (-> & Hp & Hn & H). cbn [app chain]. split_and!; try done. rewrite E by by left. apply IH; [done| |done]. intros z Hz. apply E. by right.
Qed.

(** The table when the chain [a ++ x :: b] ends with [x] and [b] is free. *)
Record cut_off p V W (a : list Z) (x : Z) (b : list Z) : Prop := {
  cu_last : fat p W x = UFAT_CLUSTER_EOC;
  cu_kept y : y ∈ a -> fat p W y = fat p V y;
  cu_freed y : y ∈ b -> fat p W y = UFAT_CLUSTER_FREE;
  cu_others y : 0 <= y < num_clusters p -> y ∉ a ++ x :: b -> fat p W y = fat p V y;
  cu_blocks : off_fat p V W
}.

Lemma cut_table p V V1 W a x b : Forall (fun c => 2 <= c < num_clusters p) (a ++ x :: b) -> NoDup (a ++ x :: b) ->
  fat_upd p x UFAT_CLUSTER_EOC V V1 -> freed p b V1 W -> cut_off p V W a x b.
Proof.
  intros Hr Hd [U1 U2] [F1 F2]. rewrite Forall_forall in Hr. assert (forall y, y ∈ a ++ x :: b -> 0 <= y < num_clusters p) as Hr' by (intros y Hy; pose proof (Hr y Hy); lia).
  apply NoDup_app in Hd as (_ & Hab & [Hxb _]%NoDup_cons).
  split.
  - assert (x ∈ a ++ x :: b) as Hx by (rewrite elem_of_app, elem_of_cons; tauto). rewrite F1, decide_False by auto. by rewrite U1, decide_True by auto.
  - intros y Hy. assert (y ∈ a ++ x :: b) as Hy' by (rewrite elem_of_app; tauto). pose proof (Hab y Hy) as Hn. rewrite elem_of_cons in Hn.
    rewrite F1, decide_False by tauto || auto. by rewrite U1, decide_False by tauto || auto.
  - intros y Hy. assert (y ∈ a ++ x :: b) as Hy' by (rewrite elem_of_app, elem_of_cons; tauto). by rewrite F1, decide_True by auto.
  - intros y Hy Hn. rewrite elem_of_app, elem_of_cons in Hn. rewrite F1, decide_False by tauto || done. by rewrite U1, decide_False by tauto || done.
  - by eapply upd_trans_off.
Qed.

(** * The file afterwards *)

(** How many clusters hold the first [pos] bytes. *)
Definition clusters_for p (pos : Z) : nat := Z.to_nat ((pos + cluster_bytes p - 1) / cluster_bytes p).

Lemma clusters_for_part p pos : volume p -> 0 <= pos -> pos mod cluster_bytes p <> 0 -> clusters_for p pos = S (cluster_index p pos).
Proof.
  intros Hv Hp Hm. pose proof (cluster_bytes_pos p Hv) as Hc. unfold clusters_for, cluster_index. set (k := cluster_bytes p) in *.
  pose proof (Z.div_mod pos k ltac:(lia)) as E. pose proof (Z.mod_pos_bound pos k Hc). pose proof (Z.div_pos pos k Hp Hc).
  rewrite <- (Z.div_unique (pos + k - 1) k (pos / k + 1) (pos mod k - 1)) by lia. lia.
Qed.

Lemma clusters_for_whole p pos : volume p -> pos mod cluster_bytes p = 0 -> clusters_for p pos = cluster_index p pos.
Proof.
  intros Hv Hm. pose proof (cluster_bytes_pos p Hv) as Hc. unfold clusters_for, cluster_index. set (k := cluster_bytes p) in *.
  pose proof (Z.div_mod pos k ltac:(lia)) as E. by rewrite <- (Z.div_unique (pos + k - 1) k (pos / k) (k - 1)) by lia.
Qed.

Lemma clusters_for_enough p pos : volume p -> pos <= Z.of_nat (clusters_for p pos) * cluster_bytes p.
Proof.
  intros Hv. pose proof (cluster_bytes_pos p Hv) as Hc. unfold clusters_for. set (k := cluster_bytes p) in *.
  pose proof (Z.div_mod (pos + k - 1) k ltac:(lia)). pose proof (Z.mod_pos_bound (pos + k - 1) k Hc). nia.
Qed.

Lemma clusters_for_at_most p pos (n : nat) : volume p -> pos <= Z.of_nat n * cluster_bytes p -> (clusters_for p pos <= n)%nat.
Proof.
  intros Hv Hn. pose proof (cluster_bytes_pos p Hv) as Hc. unfold clusters_for. set (k := cluster_bytes p) in *.
  assert ((pos + k - 1) / k < Z.of_nat n + 1) by (apply Z.div_lt_upper_bound; lia). lia.
Qed.

(** The position at the start, as [ufat_file_rewind] leaves it. *)
Definition rewound f : ufat_file := set_position 0 (file_start f) 0 f.

Record truncated p V f l W f' : Prop := {
  tr_pos : cur_pos f' = cur_pos f;
  tr_size : file_size f' = cur_pos f;
  tr_file : writable p W (rewound f') (take (clusters_for p (cur_pos f)) l);
  tr_bytes : file_bytes p W f' (take (clusters_for p (cur_pos f)) l) = take (Z.to_nat (cur_pos f)) (file_bytes p V f l);
  tr_freed c : c ∈ drop (clusters_for p (cur_pos f)) l -> fat p W c = UFAT_CLUSTER_FREE;
  tr_table c : 0 <= c < num_clusters p -> c ∉ l -> fat p W c = fat p V c
}.

(** Nothing else than the table and the block of the directory entry was written. *)
Definition own_blocks p V f W : Prop := forall b, ~ in_fat p b -> b <> dirent_block f -> W b = V b.

Lemma truncated_intro (u : ufat D) p V f l W f' : holds u V -> bpb u = p -> volume p -> writable p V f l -> cur_pos f <= file_size f ->
  let k := clusters_for p (cur_pos f) in
  dirent_block f' = dirent_block f -> dirent_pos f' = dirent_pos f -> cur_pos f' = cur_pos f -> file_size f' = cur_pos f ->
  chain p W (file_start f') (take k l) -> (forall c, c ∈ take k l -> fat p W c <> UFAT_CLUSTER_FREE) ->
  (forall c, c ∈ drop k l -> fat p W c = UFAT_CLUSTER_FREE) -> (forall c, 0 <= c < num_clusters p -> c ∉ l -> fat p W c = fat p V c) ->
  own_blocks p V f W -> truncated p V f l W f'.
Proof.
  intros H Hb Hv Hw Hsz k E1 E2 E3 E4 Hc Hbusy Hfree Htab Hown. pose proof (writable_file _ _ _ _ Hw) as Hf. pose proof (writable_dirent _ _ _ _ Hw) as Hd.
  pose proof (chain_range _ _ _ _ (at_chain _ _ _ _ Hf)) as Hr. pose proof (at_pos _ _ _ _ Hf). pose proof (at_fits _ _ _ _ Hf).
  assert (k <= length l)%nat as Hk by (apply clusters_for_at_most; [done|lia]). pose proof (clusters_for_enough p (cur_pos f) Hv) as He. fold k in He.
  assert (length (take k l) = k) as Lk by (rewrite length_take; lia).
  assert (forall c, c ∈ take k l -> c ∈ l) as Hin by (intros c Hcl; rewrite <- (take_drop k l); apply elem_of_app; by left).
  pose proof (cluster_bytes_pos p Hv) as Hcb.
  split; try done.
  - split.
    + split; cbn [rewound set_position file_start cur_pos file_size cur_cluster prev_cluster]; rewrite ?Lk, ?E4; try done.
      * pose proof (at_nodup _ _ _ _ Hf) as Hnd. rewrite <- (take_drop k l) in Hnd. by apply NoDup_app in Hnd as [Hnd _].
      * lia.
      * fold k. by rewrite Lk.
    + destruct Hd as [D1 D2 D3 D4]. split; cbn [rewound set_position dirent_block dirent_pos]; rewrite ?E1, ?E2; try done.
      intros c j Hc' Hj Ec. destruct (D4 c j Hc' Hj Ec) as [N1 N2]. split; [by intros Hcl%Hin|]. by rewrite Htab by (done || lia).
    + done.
  - unfold file_bytes. rewrite E4, take_take, Nat.min_l by lia. fold k.
    assert (content p W (take k l) = content p V (take k l)) as ->.
    { apply content_ext. intros b Hbb. assert (b ∈ chain_blocks p l) as Hbl by (rewrite <- (take_drop k l), chain_blocks_app; apply elem_of_app; by left).
      apply Hown; [by eapply chain_not_fat|]. intros ->. by apply (dirent_not_in_chain p V f l Hv Hd Hr). }
    rewrite <- (take_drop k l) at 2. rewrite content_app. rewrite take_app_le; [done|].
    pose proof (length_content u V p (take k l) H Hb Hv ltac:(by apply Forall_take)) as L. rewrite Lk in L. lia.
Qed.

(** * The calls *)

Lemma set_start_holds o V c : holds (fs o) V -> shown (bpb (fs o)) (dirent_block (fd o)) -> (dirent_place (fd o) + 32 <= block_size)%nat ->
  returns (set_start c) o (stuck o V) (fun _ o' => meta (fs o') = meta (fs o) /\ fd o' = set_file_start c (fd o) /\
    holds (fs o') (vmod (dirent_block (fd o)) (store_start c (fd o)) V)).
Proof.
  intros H Hs Hfit. unfold set_start. set (g := fun (at_ : nat) (data : list Z) => w16 (at_ + 0x1a) (Z.land c 0xffff) (w16 (at_ + 0x14) (Z.shiftr c 16) data)).
  eapply returns_check; [apply (on_dirent_holds o V g); [done|done|]; intros data Hok; apply block_ok_w16, block_ok_w16, Hok; lia|done|].
  intros [] o1 [[Hm Hf] H1]. go_gets. apply returns_ok. cbn [fs fd set_fd]. rewrite Hf. done.
Qed.

(** A call on the table failed: the device did, and no other block has changed. *)
Definition table_failed p V (o' : @opened D) : Prop := may_fail /\ exists W, holds (fs o') W /\ off_fat p V W.

Lemma free_if_holds o V c l : holds (fs o) V -> volume (bpb (fs o)) -> chain (bpb (fs o)) V c l -> NoDup l ->
  returns (if UFAT_CLUSTER_IS_PTR c then on_fs (ufat_free_chain c) else ok tt) o (fun _ => table_failed (bpb (fs o)) V)
    (fun _ o' => stays o o' /\ exists W, holds (fs o') W /\ freed (bpb (fs o)) l V W).
Proof.
  intros H Hv Hc Hd. destruct (UFAT_CLUSTER_IS_PTR c) eqn:Ep.
  - eapply returns_mono; [by apply on_fs_returns, (free_chain_holds (fs o) V c l)| |].
    + intros e o' [(F1 & _ & _ & _ & W & HW) _]. split; [done|]. by exists W.
    + intros [] o' [(M & W & HW) F]. split; [by split|]. by exists W.
  - apply returns_ok. split; [apply stays_refl|]. exists V. split; [done|]. destruct l as [|x l]; [|destruct Hc as (-> & Hp & _); congruence]. done.
Qed.

Lemma write_eoc_holds o V x : holds (fs o) V -> volume (bpb (fs o)) -> 0 <= x < num_clusters (bpb (fs o)) ->
  returns (on_fs (ufat_write_fat x UFAT_CLUSTER_EOC)) o (fun _ => table_failed (bpb (fs o)) V)
    (fun _ o' => stays o o' /\ exists W, holds (fs o') W /\ fat_upd (bpb (fs o)) x UFAT_CLUSTER_EOC V W).
Proof.
  intros H Hv Hx. eapply returns_mono; [apply on_fs_returns, (write_fat_holds (fs o) V x UFAT_CLUSTER_EOC); (done || unfold UFAT_CLUSTER_EOC; lia)| |].
  - intros e o' [(F1 & _ & _ & W & HW & _ & Ho) _]. split; [done|]. by exists W.
  - intros [] o' [Hw F]. apply written_upd in Hw as (M & HW); [|done|by right; left]. split; [by split|done].
Qed.
Lemma stays_alloc o o' : meta (fs o') = meta (fs o) -> alloc_ok (fs o) -> vol (fs o') = vol (fs o) /\ alloc_ok (fs o').
Proof. intros M Ha. split; [by apply meta_vol|]. pose proof M as [= _ M2 _ M4]. unfold alloc_ok in *. by rewrite M2, M4. Qed.

(** The block of the directory entry was written: the table and the file are what they were. *)
Lemma dirent_written p V f l g : volume p -> writable p V f l ->
  let W := vmod (dirent_block f) g V in own_blocks p V f W /\ forall j, 0 <= j < num_clusters p -> fat p W j = fat p V j.
Proof.
  intros Hv Hw W. assert (forall b, b <> dirent_block f -> W b = V b) as E by (intros b Hb; by apply vset_other). split; [intros b _; apply E|].
  intros j Hj. apply fat_ext; [done| |done]. intros b Hb. apply E. intros ->. by apply (dirent_off_fat _ _ _ _ (writable_dirent _ _ _ _ Hw)).
Qed.

Lemma own_blocks_off p V f W X : own_blocks p V f W -> off_fat p W X -> own_blocks p V f X.
Proof. intros H1 H2 b Hb Hd. rewrite H2 by done. by apply H1. Qed.

(** The chain was cut after the cluster [x]. *)
Lemma cut_truncated (u : ufat D) p V f a x b W X f' : holds u V -> bpb u = p -> volume p -> writable p V f (a ++ x :: b) -> cur_pos f <= file_size f ->
  clusters_for p (cur_pos f) = S (length a) ->
  dirent_block f' = dirent_block f -> dirent_pos f' = dirent_pos f -> cur_pos f' = cur_pos f -> file_size f' = cur_pos f -> file_start f' = file_start f ->
  own_blocks p V f W -> (forall j, 0 <= j < num_clusters p -> fat p W j = fat p V j) -> cut_off p W X a x b -> truncated p V f (a ++ x :: b) X f'.
Proof.
  intros H Hb Hv Hw Hsz Ek E1 E2 E3 E4 E5 Hown Hf [C1 C2 C3 C4 C5]. pose proof (at_chain _ _ _ _ (writable_file _ _ _ _ Hw)) as Hc.
  pose proof (chain_range _ _ _ _ Hc) as Hr. rewrite Forall_forall in Hr.
  assert (forall y, y ∈ a ++ x :: b -> fat p W y = fat p V y) as Hl by (intros y Hy; pose proof (Hr y Hy); apply Hf; lia).
  assert (take (S (length a)) (a ++ x :: b) = a ++ [x]) as Et by (rewrite take_app_ge by lia; by replace (S (length a) - length a)%nat with 1%nat by lia).
  assert (drop (S (length a)) (a ++ x :: b) = b) as Ed by (rewrite drop_app_ge by lia; by replace (S (length a) - length a)%nat with 1%nat by lia).
  assert (forall y, y ∈ a -> fat p X y = fat p V y) as Ha by (intros y Hy; rewrite C2 by done; apply Hl; rewrite elem_of_app; by left).
  eapply truncated_intro; try done; rewrite ?Ek, ?Et, ?Ed, ?E5.
  - eapply chain_cut; [exact Hc|exact Ha|by rewrite C1].
  - intros c [Hin|Hin]%elem_of_app; [|apply list_elem_of_singleton in Hin as ->; by rewrite C1]. rewrite Ha by done. apply (writable_busy _ _ _ _ Hw), elem_of_app. by left.
  - done.
  - intros c Hcr Hn. rewrite C4 by done. by apply Hf.
  - by eapply own_blocks_off.
Qed.

Lemma land_cluster p x : volume p -> Z.land x (Z.shiftl 1 (log2_blocks_per_cluster p + log2_block_size) - 1) = x mod cluster_bytes p.
Proof.
  intros Hv. rewrite (cluster_bytes_pow p Hv), land_pred by (pose proof log2_block_size_bound; pose proof (volume_cluster_size p Hv); lia). do 2 f_equal. lia.
Qed.
(** The rest of the chain is one when the cluster in front of it has another entry. *)
Lemma rest_chain p W V1 c a x b v : chain p W c (a ++ x :: b) -> NoDup (a ++ x :: b) -> fat_upd p x v W V1 -> chain p V1 (fat p W x) b /\ NoDup b.
Proof.
  intros Hc Hd [Hu _]. pose proof (chain_range _ _ _ _ Hc) as Hr. rewrite Forall_forall in Hr. apply NoDup_app in Hd as (_ & _ & [Hxb Hb]%NoDup_cons). split; [|done].
  eapply chain_ext; [|by eapply chain_tail]. intros y Hy. assert (y ∈ a ++ x :: b) as Hy' by (rewrite elem_of_app, elem_of_cons; tauto). pose proof (Hr y Hy').
  rewrite Hu, decide_False by (lia || by intros ->). done.
Qed.

(** In the last cluster that is kept: what follows it is freed. *)
Lemma cut_tail_holds o W c a x b : let p := bpb (fs o) in holds (fs o) W -> volume p -> chain p W c (a ++ x :: b) -> NoDup (a ++ x :: b) ->
  returns (tail ⇐ on_fs (ufat_read_fat x); on_fs (ufat_write_fat x UFAT_CLUSTER_EOC) ;? (if UFAT_CLUSTER_IS_PTR tail then on_fs (ufat_free_chain tail) else ok tt)) o
    (fun _ => table_failed p W) (fun _ o' => stays o o' /\ exists X, holds (fs o') X /\ cut_off p W X a x b).
Proof.
  intros p H Hv Hc Hd. pose proof (chain_range _ _ _ _ Hc) as Hr. assert (2 <= x < num_clusters p) as Hx by (rewrite Forall_forall in Hr; apply Hr; rewrite elem_of_app, elem_of_cons; tauto).
  eapply returns_check; [apply on_fs_returns, (read_fat_holds (fs o) W x H Hv); fold p; lia| |].
  { intros e t [(F1 & _ & HW & _) _]. split; [done|]. by exists W. }
  intros tail o1 [(M1 & H1 & ->) F1]. pose proof M1 as [= _ B1 _ _]. fold p in B1.
  eapply returns_check; [apply (write_eoc_holds o1 W x H1); rewrite B1; (done || lia)|by rewrite B1|].
  intros [] o2 [[M2 F2] (V1 & H2 & Hu)]. pose proof M2 as [= _ B2 _ _]. rewrite B1 in B2, Hu.
  destruct (rest_chain _ _ _ _ _ _ _ _ Hc Hd Hu) as [Hcb Hb].
  eapply returns_mono; [apply (free_if_holds o2 V1 (fat p W x) b H2); rewrite ?B2; done| |].
  - rewrite B2. intros _ t (F & X & HX & Ho). split; [done|]. exists X. split; [done|]. eapply upd_trans_off; [apply Hu|done].
  - rewrite B2. intros [] o3 [[M3 F3] (X & HX & Hfr)]. split; [split; congruence|]. exists X. split; [done|]. by eapply cut_table.
Qed.

(** Behind the last cluster that is kept: an error of the freeing is not looked at. *)
Lemma cut_whole_holds o W c a x b : let p := bpb (fs o) in holds (fs o) W -> volume p -> alloc_ok (fs o) -> chain p W c (a ++ x :: b) -> NoDup (a ++ x :: b) ->
  returns (on_fs (ufat_write_fat x UFAT_CLUSTER_EOC) ;? (on_fs (ufat_free_chain (fat p W x));; upd_file (set_cur_cluster 0);; ok tt)) o
    (fun _ => table_failed p W) (fun _ o' => vol (fs o') = vol (fs o) /\ alloc_ok (fs o') /\ fd o' = set_cur_cluster 0 (fd o) /\
      exists X, holds (fs o') X /\ off_fat p W X /\ (cut_off p W X a x b \/ may_fail)).
Proof.
  intros p H Hv Ha Hc Hd. pose proof (chain_range _ _ _ _ Hc) as Hr. assert (2 <= x < num_clusters p) as Hx by (rewrite Forall_forall in Hr; apply Hr; rewrite elem_of_app, elem_of_cons; tauto).
  eapply returns_check; [apply (write_eoc_holds o W x H Hv); fold p; lia|done|].
  intros [] o2 [[M2 F2] (V1 & H2 & Hu)]. pose proof M2 as [= _ B2 _ _]. fold p in B2, Hu. destruct (stays_alloc _ _ M2 Ha) as [Hvol2 Ha2].
  destruct (rest_chain _ _ _ _ _ _ _ _ Hc Hd Hu) as [Hcb Hb].
  apply returns_bind. eapply wp_mono; [apply on_fs_wp, (free_chain_holds (fs o2) V1 (fat p W x) b H2); rewrite ?B2; done|].
  intros [e|[]] o3 [Hres F3]; unfold upd_file; go_gets; apply returns_ok; cbn [fs fd set_fd]; cbn beta in Hres.
  - destruct Hres as (Hm & _ & Hvol & Hap & X & HX & Ho). rewrite B2 in Ho. split; [congruence|]. split; [pose proof (vol_bpb _ _ Hvol) as Hb'; unfold alloc_ok in *; by rewrite Hap, Hb'|].
    split; [by rewrite F3, F2|]. exists X. split; [done|]. split; [eapply upd_trans_off; [apply Hu|done]|by right].
  - destruct Hres as (M3 & X & HX & Hfr). rewrite B2 in Hfr. destruct (stays_alloc _ _ M3 Ha2) as [Hvol3 Ha3]. split; [congruence|]. split; [done|].
    split; [by rewrite F3, F2|]. exists X. split; [done|]. pose proof (cut_table p W V1 X a x b Hr Hd Hu Hfr) as Hcut. split; [apply Hcut|by left].
Qed.
(** The whole file is freed. *)
Lemma emptied (u : ufat D) p V f l W X f' : holds u V -> bpb u = p -> volume p -> writable p V f l -> cur_pos f = 0 -> cur_pos f <= file_size f ->
  dirent_block f' = dirent_block f -> dirent_pos f' = dirent_pos f -> cur_pos f' = cur_pos f -> file_size f' = cur_pos f -> file_start f' = 0 ->
  own_blocks p V f W -> (forall j, 0 <= j < num_clusters p -> fat p W j = fat p V j) -> freed p l W X -> truncated p V f l X f'.
Proof.
  intros H Hb Hv Hw Hpos Hsz E1 E2 E3 E4 E5 Hown Hf [F1 F2]. pose proof (chain_range _ _ _ _ (at_chain _ _ _ _ (writable_file _ _ _ _ Hw))) as Hr. rewrite Forall_forall in Hr.
  pose proof (cluster_bytes_pos p Hv). assert (clusters_for p (cur_pos f) = 0%nat) as Ek.
  { rewrite Hpos, clusters_for_whole by (done || by rewrite Z.mod_0_l by lia). unfold cluster_index. by rewrite Z.div_0_l by lia. }
  eapply truncated_intro; try done; rewrite ?Ek, ?E5; cbn [take drop].
  - done.
  - by intros c Hc%elem_of_nil.
  - intros c Hc. pose proof (Hr c Hc). by rewrite F1, decide_True by (done || lia).
  - intros c Hc Hn. rewrite F1, decide_False by done. by apply Hf.
  - by eapply own_blocks_off.
Qed.

(** The clusters of a file around its position. *)
Lemma position_split_chain p V f l i x : file_at p V f l -> l !! i = Some x -> 
  exists a b, l = a ++ x :: b /\ length a = i /\ nth_next p V (file_start f) i = x /\ 2 <= x < num_clusters p.
Proof.
  intros Hf Hx. pose proof (chain_nth _ _ _ _ i (at_chain _ _ _ _ Hf)) as Hn. rewrite Hx in Hn. pose proof (chain_range _ _ _ _ (at_chain _ _ _ _ Hf)) as Hr.
  exists (take i l), (drop (S i) l). split; [symmetry; by apply take_drop_middle|]. split; [rewrite length_take; pose proof (lookup_lt_Some _ _ _ Hx); lia|].
  split; [done|]. rewrite Forall_forall in Hr. by eapply Hr, list_elem_of_lookup_2.
Qed.

(** The position is at the start: the directory entry loses its clusters, and all of them are freed. *)
Lemma empty_holds o W l : let p := bpb (fs o) in let f := fd o in holds (fs o) W -> volume p -> alloc_ok (fs o) -> writable p W f l ->
  returns (set_start 0 ;? (if UFAT_CLUSTER_IS_PTR (file_start f) then on_fs (ufat_free_chain (file_start f)) else ok tt) ;? (upd_file (set_cur_cluster 0);; ok tt)) o
    (fun _ t => may_fail /\ exists X, holds (fs t) X /\ own_blocks p W f X)
    (fun _ t => vol (fs t) = vol (fs o) /\ alloc_ok (fs t) /\ fd t = set_cur_cluster 0 (set_file_start 0 f) /\
      exists X Y, holds (fs t) X /\ own_blocks p W f Y /\ (forall j, 0 <= j < num_clusters p -> fat p Y j = fat p W j) /\ freed p l Y X).
Proof.
  intros p f H Hv Ha Hw. pose proof (writable_dirent _ _ _ _ Hw) as Hd. pose proof (writable_file _ _ _ _ Hw) as Hf.
  eapply returns_check; [apply (set_start_holds o W 0 H); [apply Hd|by apply (dirent_place_fits p W f l)]|intros e t (G1 & _ & HX & _); split; [done|]; by exists W|].
  intros [] o2 (M2 & F2 & H2). fold f in F2. set (V2 := vmod (dirent_block f) (store_start 0 f) W) in *. pose proof M2 as [= _ B2 _ _]. fold p in B2.
  destruct (dirent_written p W f l (store_start 0 f) Hv Hw) as [Hown2 Hf2]. fold V2 in Hown2, Hf2. destruct (stays_alloc _ _ M2 Ha) as [Hvol2 Ha2].
  eapply returns_check; [apply (free_if_holds o2 V2 (file_start f) l H2); rewrite ?B2; [done| |apply Hf]| |].
  - by eapply at_chain, file_at_ext.
  - rewrite B2. intros e t (G & X & HX & Ho). split; [done|]. exists X. split; [done|]. by eapply own_blocks_off.
  - rewrite B2. intros [] o3 [[M3 F3] (X & HX & Hfr)]. destruct (stays_alloc _ _ M3 Ha2) as [Hvol3 Ha3]. unfold upd_file. go_gets. apply returns_ok. cbn [fs fd set_fd].
    split; [congruence|]. split; [done|]. split; [by rewrite F3, F2|]. by exists X, V2.
Qed.

(** The position at the end of a cluster, and in one. *)
Lemma whole_index p V f l : volume p -> file_at p V f l -> 0 < cur_pos f -> cur_pos f mod cluster_bytes p = 0 ->
  exists i, (cluster_index p (cur_pos f) = S i /\ S i <= length l)%nat.
Proof.
  intros Hv Hf Hp Hm. pose proof (cluster_bytes_pos p Hv) as Hcb. pose proof (at_inside _ _ _ _ Hf). assert (cluster_bytes p <> 0) as Hne by lia.
  pose proof (Z.div_mod (cur_pos f) (cluster_bytes p) Hne) as E. pose proof (Z.div_pos (cur_pos f) _ ltac:(lia) Hcb). unfold cluster_index.
  assert (cur_pos f / cluster_bytes p <= Z.of_nat (length l)) by (apply (Z.mul_le_mono_pos_r _ _ (cluster_bytes p)); lia).
  assert (cur_pos f / cluster_bytes p <> 0) by (intros E0; rewrite E0 in *; lia). exists (Z.to_nat (cur_pos f / cluster_bytes p) - 1)%nat. lia.
Qed.

Lemma part_index p V f l : volume p -> file_at p V f l -> 0 < cur_pos f -> cur_pos f mod cluster_bytes p <> 0 -> (cluster_index p (cur_pos f) < length l)%nat.
Proof.
  intros Hv Hf Hp Hm. pose proof (cluster_bytes_pos p Hv) as Hcb. pose proof (at_inside _ _ _ _ Hf). assert (cluster_bytes p <> 0) as Hne by lia.
  pose proof (Z.div_mod (cur_pos f) (cluster_bytes p) Hne) as E. pose proof (Z.div_pos (cur_pos f) _ ltac:(lia) Hcb). pose proof (Z.mod_pos_bound (cur_pos f) _ Hcb). unfold cluster_index.
  assert (cur_pos f / cluster_bytes p < Z.of_nat (length l)) by (apply (Z.mul_lt_mono_pos_r (cluster_bytes p)); lia). lia.
Qed.

(** All clusters are needed: nothing is cut off. *)
Lemma kept_whole (u : ufat D) p V f l W f' : holds u V -> bpb u = p -> volume p -> writable p V f l -> cur_pos f <= file_size f -> clusters_for p (cur_pos f) = length l ->
  dirent_block f' = dirent_block f -> dirent_pos f' = dirent_pos f -> cur_pos f' = cur_pos f -> file_size f' = cur_pos f -> file_start f' = file_start f ->
  own_blocks p V f W -> (forall j, 0 <= j < num_clusters p -> fat p W j = fat p V j) -> truncated p V f l W f'.
Proof.
  intros H Hb Hv Hw Hsz Ek E1 E2 E3 E4 E5 Hown Hf. pose proof (at_chain _ _ _ _ (writable_file _ _ _ _ Hw)) as Hc. pose proof (chain_range _ _ _ _ Hc) as Hr. rewrite Forall_forall in Hr.
  assert (forall y, y ∈ l -> fat p W y = fat p V y) as Hl by (intros y Hy; pose proof (Hr y Hy); apply Hf; lia).
  eapply truncated_intro; try done; rewrite ?Ek, ?take_ge, ?drop_ge, ?E5 by lia; [by eapply chain_ext| |by intros c Hc'%elem_of_nil|by intros c Hc' _; apply Hf].
  intros c Hin. rewrite Hl by done. by apply (writable_busy _ _ _ _ Hw).
Qed.

Lemma file_truncate_holds o V l : let p := bpb (fs o) in let f := fd o in
  holds (fs o) V -> volume p -> alloc_ok (fs o) -> writable p V f l -> cur_pos f <= file_size f ->
  returns ufat_file_truncate o
    (fun _ o' => may_fail /\ exists W, holds (fs o') W /\ own_blocks p V f W)
    (fun _ o' => vol (fs o') = vol (fs o) /\ alloc_ok (fs o') /\ exists W, holds (fs o') W /\ own_blocks p V f W /\
      (truncated p V f l W (fd o') \/ may_fail /\ 0 < cur_pos f /\ cur_pos f mod cluster_bytes p = 0)).
Proof.
  intros p f H Hv Ha Hw Hsz. pose proof (writable_file _ _ _ _ Hw) as Hf. pose proof (at_pos _ _ _ _ Hf) as Hp. pose proof (at_fits _ _ _ _ Hf) as Hfit. pose proof (at_nodup _ _ _ _ Hf) as Hnd.
  pose proof (cluster_bytes_pos p Hv) as Hcb. unfold ufat_file_truncate. do 2 go_gets. fold p f. rewrite (land_cluster p _ Hv).
  eapply returns_check; [by apply (set_size_holds o V l)| |].
  { intros e t (F1 & _ & HV & _). split; [done|]. exists V. by split. }
  intros [] o1 (M1 & F1 & H1). fold f in F1. set (V1 := vmod (dirent_block f) (store_size (cur_pos f) f) V) in *.
  destruct (dirent_written p V f l (store_size (cur_pos f) f) Hv Hw) as [Hown1 Hf1]. fold V1 in Hown1, Hf1. pose proof M1 as [= _ B1 _ _]. fold p in B1.
  destruct (stays_alloc _ _ M1 Ha) as [Hvol1 Ha1].
  assert (chain p V1 (file_start f) l) as Hc1 by (apply (at_chain _ _ _ _ (file_at_ext p V V1 f l Hv Hf1 Hf))).
  assert (forall (e : Z) t, table_failed p V1 t -> may_fail /\ exists W, holds (fs t) W /\ own_blocks p V f W) as Hfail.
  { intros _ t (F & W & HW & Ho). split; [done|]. exists W. split; [done|]. by eapply own_blocks_off. }
  destruct (Z.eqb_spec (cur_pos f) 0) as [E0|E0].
  - pose proof (empty_holds o1 V1 l H1) as He. cbv zeta in He. rewrite B1, F1 in He.
    eapply returns_mono; [apply He; try done; apply writable_size; [lia|lia|by eapply writable_ext]| |].
    + intros _ t (G & X & HX & Ho). split; [done|]. exists X. split; [done|]. intros b N1 N2. rewrite Ho by done. by apply Hown1.
    + intros [] t (Hvol2 & Ha2 & F2 & X & Y & HX & Hown & HfY & Hfr).
      assert (own_blocks p V f Y) as Hown' by (intros b N1 N2; rewrite Hown by done; by apply Hown1).
      split; [congruence|]. split; [done|]. exists X. split; [done|]. split; [eapply own_blocks_off; [done|apply Hfr]|]. left.
      eapply (emptied (fs o) p V f l Y X); try done; try by rewrite F2. intros c Hc. rewrite HfY by done. by apply Hf1.
  - destruct (Z.eqb_spec (cur_pos f mod cluster_bytes p) 0) as [Em|Em]; cbn [negb].
    + destruct (whole_index p V f l Hv Hf ltac:(lia) Em) as (i & Ei & Hi).
      apply lookup_lt_is_Some_2 in Hi as [x Hx]. destruct (position_split_chain _ _ _ _ _ _ Hf Hx) as (a & b & El & La & Hn & Hxr).
      rewrite (at_cur _ _ _ _ Hf), (at_prev _ _ _ _ Hf), Ei, nth_next_S, Hn, <- Hf1 by lia. rewrite El in *.
      assert (clusters_for p (cur_pos f) = S (length a)) as Ek by (rewrite clusters_for_whole, Ei, La by done; done).
      destruct (UFAT_CLUSTER_IS_PTR (fat p V1 x)) eqn:Eptr.
      * pose proof (cut_whole_holds o1 V1 (file_start f) a x b H1) as Hcut. cbv zeta in Hcut. rewrite B1 in Hcut.
        eapply returns_mono; [by apply Hcut|exact Hfail|]. intros [] o2 (Hvol2 & Ha2 & F2 & X & HX & Ho & Hres). split; [congruence|]. split; [done|].
        exists X. split; [done|]. split; [by eapply own_blocks_off|]. destruct Hres as [Hres|Hm]; [left|right; split_and!; (done || lia)].
        eapply (cut_truncated (fs o) p V f a x b V1 X); try done; by rewrite F2, F1.
      * apply returns_ok. split; [done|]. split; [done|]. exists V1. split; [done|]. split; [done|]. left.
        assert (b = []) as -> by (pose proof (chain_tail _ _ _ _ _ _ Hc1) as Ht; destruct b as [|y b]; [done|destruct Ht as (_ & Ht & _); congruence]).
        eapply (kept_whole (fs o) p V f (a ++ [x]) V1); try done; rewrite ?F1, ?Ek, ?length_app by done; [cbn; lia|done..].
    + pose proof (part_index p V f l Hv Hf ltac:(lia) Em) as Hi.
      apply lookup_lt_is_Some_2 in Hi as [x Hx]. destruct (position_split_chain _ _ _ _ _ _ Hf Hx) as (a & b & El & La & Hn & Hxr). 
      rewrite (at_cur _ _ _ _ Hf), Hn. rewrite El in *.
      eapply returns_mono; [apply (cut_tail_holds o1 V1 (file_start f) a x b H1); rewrite ?B1; done|rewrite B1; exact Hfail|].
      rewrite B1. intros [] o2 [[M2 F2] (X & HX & Hcut)]. destruct (stays_alloc _ _ M2 Ha1) as [Hvol2 Ha2]. split; [congruence|]. split; [done|].
      exists X. split; [done|]. split; [eapply own_blocks_off; [done|apply Hcut]|]. left.
      eapply (cut_truncated (fs o) p V f a x b V1 X); try done; [|by rewrite F2, F1..].
      rewrite clusters_for_part by (done || lia). by rewrite La.
Qed.
End Truncate.
