(* ===== verification/UfatLayout.v ===== *)
(** The layout of a new volume: on a device of blocks of 512 bytes its parts fit each other and the
    device, whatever its size, and the boot sector that is written is read as the layout. *)

From stdpp Require Import strings.
From S2P Require Import Prelude UfatDev UfatBpb UfatName UfatLong UfatMkfs.
#[local] Open Scope Z_scope.

(** * The layout *)

Lemma spc_loop_spec n thr fuel : forall s0, 0 <= s0 <= 6 -> (Z.to_nat (6 - s0) <= fuel)%nat ->
  let s := spc_loop fuel 9 n thr s0 in s0 <= s <= 6 /\ (s = 6 \/ n / 2 ^ s <= thr) /\ (s = s0 \/ thr < n / 2 ^ (s - 1)).
Proof.
  induction fuel as [|fuel IH]; intros s0 Hs Hf; cbn [spc_loop]; [split; [lia|]; split; [left; lia|by left]|].
  destruct (Z.ltb_spec s0 7), (Z.ltb_spec (9 + s0) 15); cbn [andb]; try (split; [lia|]; split; [left; lia|by left]).
  rewrite Z.shiftr_div_pow2 by lia. destruct (Z.ltb_spec thr (n / 2 ^ s0)); [|split; [lia|]; split; [by right|by left]].
  destruct (IH (s0 + 1)) as (G1 & G2 & G3); [lia..|]. split; [lia|]. split; [done|]. right. destruct G3 as [->|G3]; [|done]. by replace (s0 + 1 - 1) with s0 by lia.
Qed.

(** What the layout of [n] blocks of 512 bytes is like. *)
Record layout_ok (n : Z) (fl : fs_layout) : Prop := {
  lo_kind : layout_type fl = if n <? 8400 then UFAT_TYPE_FAT12 else if n <? 1048576 then UFAT_TYPE_FAT16 else UFAT_TYPE_FAT32;
  lo_sector : log2_sector_size fl = 9;
  lo_cluster : 1 <= log2_bpc fl <= 6;
  lo_reserved : reserved_blocks fl = if layout_type fl =? UFAT_TYPE_FAT32 then 32 else 1;
  lo_fats : 1 <= fat_blocks fl;
  lo_total : reserved_blocks fl + 2 * fat_blocks fl + root_blocks fl + (clusters fl - 2) * 2 ^ log2_bpc fl = logical_blocks fl;
  lo_fits : logical_blocks fl <= n /\ n < 2 ^ 32;
  lo_type : layout_type fl = UFAT_TYPE_FAT12 /\ 2 <= clusters fl <= 0xff6 /\ clusters fl / 2 * 3 + 3 <= fat_blocks fl * 512 /\ 1 <= root_blocks fl <= 1000 /\ fat_blocks fl < 2 ^ 16 \/
            layout_type fl = UFAT_TYPE_FAT16 /\ 0xff6 < clusters fl <= 0xfff6 /\ clusters fl * 2 <= fat_blocks fl * 512 /\ 1 <= root_blocks fl <= 1000 /\ fat_blocks fl < 2 ^ 16 \/
            layout_type fl = UFAT_TYPE_FAT32 /\ 3 <= clusters fl <= 0xffffff0 /\ clusters fl * 4 <= fat_blocks fl * 512 /\ root_blocks fl = 0 /\ fat_blocks fl < 2 ^ 23
}.

(** Arithmetic with quotients by numbers. *)
Ltac division := Z.div_mod_to_equations; lia.

(** The size of a cluster in blocks, [first] or as much more as the number of clusters needs. *)
Definition cluster_choice (n thr first k : Z) : Prop :=
  (k = first \/ k = 4 /\ thr < n / 2 \/ k = 8 /\ thr < n / 4 \/ k = 16 /\ thr < n / 8 \/ k = 32 /\ thr < n / 16 \/ k = 64 /\ thr < n / 32) /\ (k = 64 \/ n / k <= thr).

Lemma layout_12 n k : 64 <= n < 8400 -> cluster_choice n 4096 2 k ->
  let est := (n - 1) / k + 2 in let fb := (((est * 3 + 1) / 2) + 511) / 512 in let ncl := (n - 1 - 32 - fb * 2) / k + 2 in
  2 <= ncl <= 0xff6 /\ 1 <= fb < 2 ^ 16 /\ ncl / 2 * 3 + 3 <= fb * 512 /\ 1 <= n - 1 - fb * 2 - (ncl - 2) * k <= 1000 /\ est < 2 ^ 20.
Proof.
  intros Hn [H1 H2]. cbv zeta. destruct H1 as [->|[[-> H1]|[[-> H1]|[[-> H1]|[[-> H1]|[-> H1]]]]]]; division.
Qed.

Lemma layout_16 n k : 8400 <= n < 1048576 -> cluster_choice n 65536 2 k ->
  let est := (n - 1) / k + 2 in let fb := (est * 2 + 511) / 512 in let ncl := (n - 1 - 32 - fb * 2) / k + 2 in
  0xff6 < ncl <= 0xfff6 /\ 1 <= fb < 2 ^ 16 /\ ncl * 2 <= fb * 512 /\ 1 <= n - 1 - fb * 2 - (ncl - 2) * k <= 1000 /\ est < 2 ^ 20.
Proof.
  intros Hn [H1 H2]. cbv zeta. destruct H1 as [->|[[-> H1]|[[-> H1]|[[-> H1]|[[-> H1]|[-> H1]]]]]]; division.
Qed.

Lemma layout_32 n k : 1048576 <= n < 2 ^ 32 -> cluster_choice n 2097152 8 k -> 8 <= k ->
  let est := (n - 32) / k + 2 in let fb := (est * 4 + 511) / 512 in let ncl := (n - 32 - 0 - fb * 2) / k + 2 in
  3 <= ncl <= 0xffffff0 /\ 1 <= fb < 2 ^ 23 /\ ncl * 4 <= fb * 512 /\ 0 <= n - 32 - fb * 2 - (ncl - 2) * k /\ est < 2 ^ 29.
Proof.
  intros Hn [H1 H2] Hk. cbv zeta. destruct H1 as [->|[[-> H1]|[[-> H1]|[[-> H1]|[[-> H1]|[-> H1]]]]]]; division.
Qed.

Lemma spc_choice n thr s0 : 0 <= n -> s0 = 1 \/ s0 = 3 -> let s := spc_loop 7 9 n thr s0 in s0 <= s <= 6 /\ cluster_choice n thr (2 ^ s0) (2 ^ s).
Proof.
  intros Hn H0. destruct (spc_loop_spec n thr 7 s0) as (H1 & H2 & H3); [lia..|]. cbv zeta in *. set (s := spc_loop 7 9 n thr s0) in *. clearbody s. split; [done|].
  assert (s = 1 \/ s = 2 \/ s = 3 \/ s = 4 \/ s = 5 \/ s = 6) as Hc by lia.
  destruct Hc as [->|[->|[->|[->|[->| ->]]]]]; unfold cluster_choice;
    cbv [Z.sub Z.add Z.opp Z.pos_sub Z.pow Z.pow_pos Pos.iter Z.mul Pos.mul Pos.pred_double Pos.succ] in H2, H3 |- *; try (exfalso; lia).
  all: destruct H0 as [-> | ->]; intuition lia.
Qed.

Lemma bytes_to_blocks_512 x : 0 <= x < 2 ^ 32 - 512 -> bytes_to_blocks 9 x = (x + 511) / 512.
Proof. intros Hx. unfold bytes_to_blocks. change (Z.shiftl 1 9) with 512. rewrite u32_id by lia. rewrite Z.shiftr_div_pow2 by lia. f_equal. lia. Qed.

(** The layout when the type is known: the quotients of the code, without the wrap-arounds. *)
Definition layout_of (n : Z) (ty s reserved fat_bytes root : Z) : fs_layout :=
  let fb := (fat_bytes + 511) / 512 in let ncl := (n - reserved - root - fb * 2) / 2 ^ s + 2 in
  let root' := if ty =? UFAT_TYPE_FAT32 then root else n - reserved - fb * 2 - (ncl - 2) * 2 ^ s in
  mkLayout 9 s reserved root' fb ((ncl - 2) * 2 ^ s + fb * 2 + reserved + root') ncl ty.

Definition fat_bytes_for (ty est : Z) : Z := if ty =? UFAT_TYPE_FAT32 then est * 4 else if ty =? UFAT_TYPE_FAT16 then est * 2 else (est * 3 + 1) / 2.

Lemma calculate_layout_512 n ty thr s0 : 64 <= n < 2 ^ 32 ->
  (if n <? 8400 then (UFAT_TYPE_FAT12, 4096, 1) else if n <? 1048576 then (UFAT_TYPE_FAT16, 65536, 1) else (UFAT_TYPE_FAT32, 2097152, 3)) = (ty, thr, s0) ->
  let s := spc_loop 7 9 n thr s0 in let reserved := if ty =? UFAT_TYPE_FAT32 then 32 else 1 in let root := if ty =? UFAT_TYPE_FAT32 then 0 else 32 in
  let est := (n - reserved) / 2 ^ s + 2 in let fl := layout_of n ty s reserved (fat_bytes_for ty est) root in
  1 <= s <= 6 -> 0 <= fat_bytes_for ty est < 2 ^ 31 -> est < 2 ^ 29 -> 0 <= n - reserved - root - fat_blocks fl * 2 -> 0 <= root_blocks fl ->
  calculate_layout n 9 = inr fl.
Proof.
  intros Hn Hty s reserved root est fl Hs Hfat Hest Hroom Hroot.
  assert (2 <= 2 ^ s) as Hk by (change 2 with (2 ^ 1) at 1; apply Z.pow_le_mono_r; lia). assert (1 <= reserved <= 32) as Hres by (unfold reserved; destruct (ty =? _); lia). assert (0 <= root <= 32) as Hroo by (unfold root; destruct (ty =? _); lia).
  unfold calculate_layout. change (12 <? 9) with false. change (9 <? 9) with false. cbv iota.
  assert ((UINT32_MAX <? n) = false) as Hmax by (apply Z.ltb_ge; unfold UINT32_MAX; lia).
  assert (bps_loop 12 9 n 0 = 0) as -> by (cbn [bps_loop]; by rewrite Z.shiftr_0_r, Hmax, andb_false_r).
  cbv zeta. rewrite !Z.shiftr_0_r, Hmax. rewrite (u32_id n) by lia.
  change (Z.shiftl 1 12) with 4096. change (Z.shiftl 1 16) with 65536. rewrite Hty. change (9 + 0) with 9. rewrite !Z.add_0_l, Z.shiftl_0_r. fold s. fold reserved.
  rewrite (u64_id (n - reserved)) by lia. rewrite !Z.shiftr_div_pow2 by lia.
  assert (0 <= est) as He by (unfold est; pose proof (Z.div_pos (n - reserved) (2 ^ s)); lia).
  rewrite (u32_id ((n - reserved) / 2 ^ s + 2)) by (fold est; lia). fold est.
  assert (u32 (if ty =? UFAT_TYPE_FAT32 then Z.shiftl est 2 else if ty =? UFAT_TYPE_FAT16 then Z.shiftl est 1 else u32 (est * 3 + 1) / 2 ^ 1) = fat_bytes_for ty est) as ->.
  { unfold fat_bytes_for in *. rewrite !Z.shiftl_mul_pow2, (u32_id (est * 3 + 1)) by lia. change (2 ^ 2) with 4. change (2 ^ 1) with 2. apply u32_id. lia. }
  rewrite (bytes_to_blocks_512 (fat_bytes_for ty est)) by lia. change (bytes_to_blocks 9 16384) with 32. fold root.
  change ((fat_bytes_for ty est + 511) / 512) with (fat_blocks fl). pose proof (Z.div_pos (fat_bytes_for ty est + 511) 512 ltac:(lia) ltac:(lia)) as Hfb. change ((fat_bytes_for ty est + 511) / 512) with (fat_blocks fl) in Hfb.
  rewrite (u64_id (n - reserved - root - fat_blocks fl * 2)) by lia. set (q := (n - reserved - root - fat_blocks fl * 2) / 2 ^ s) in *.
  assert (0 <= q) as Hq by (apply Z.div_pos; lia). assert (q * 2 ^ s <= n - reserved - root - fat_blocks fl * 2) as Hq2 by (unfold q; rewrite Z.mul_comm; apply Z.mul_div_le; lia).
  assert (clusters fl = q + 2) as Ecl by done. assert (q * 2 <= q * 2 ^ s) as Hq3 by nia.
  rewrite (u32_id (q + 2)) by lia. replace (q + 2 - 2) with q by lia. rewrite (u32_id q), Z.shiftl_mul_pow2, (u32_id (q * 2 ^ s)) by lia.
  assert (root_blocks fl = if ty =? UFAT_TYPE_FAT32 then root else n - reserved - fat_blocks fl * 2 - q * 2 ^ s) as Er.
  { unfold fl, layout_of. cbn [root_blocks]. unfold q, fl, layout_of. cbn [fat_blocks]. destruct (ty =? _); [done|]. f_equal. f_equal. lia. }
  assert ((if ty =? UFAT_TYPE_FAT32 then root else u64 (n - reserved - fat_blocks fl * 2 - q * 2 ^ s)) = root_blocks fl) as ->.
  { rewrite Er. destruct (ty =? _) eqn:E; [done|]. apply u64_id. rewrite Er in Hroot. lia. }
  rewrite u64_id by (destruct (ty =? _); lia).
  assert (logical_blocks fl = q * 2 ^ s + fat_blocks fl * 2 + reserved + root_blocks fl) as <-.
  { change (logical_blocks fl) with ((q + 2 - 2) * 2 ^ s + fat_blocks fl * 2 + reserved + root_blocks fl). lia. }
  rewrite <- Ecl. reflexivity.
Qed.

Lemma div_nonneg_inv a b : 0 < b -> 2 <= a / b + 2 -> 0 <= a.
Proof. intros Hb Ha. pose proof (Z.mul_div_le a b Hb). nia. Qed.

Lemma layout_512 n : 64 <= n < 2 ^ 32 -> exists fl, calculate_layout n 9 = inr fl /\ layout_ok n fl.
Proof.
  intros Hn. destruct (Z.lt_ge_cases n 8400) as [Ha|Ha]; [|destruct (Z.lt_ge_cases n 1048576) as [Hb|Hb]].
  - destruct (spc_choice n 4096 1 ltac:(lia) ltac:(by left)) as [Hs Hc]. set (s := spc_loop 7 9 n 4096 1) in *.
    assert (2 ^ 1 <= 2 ^ s) as Hk by (apply Z.pow_le_mono_r; lia). change (2 ^ 1) with 2 in Hk. pose proof (Z.div_pos (n - 1) (2 ^ s) ltac:(lia) ltac:(lia)) as Hq.
    pose proof (layout_12 n (2 ^ s) ltac:(lia) Hc) as HL. cbv zeta in HL.
    exists (layout_of n UFAT_TYPE_FAT12 s 1 ((((n - 1) / 2 ^ s + 2) * 3 + 1) / 2) 32). unfold layout_of. cbv zeta. change (UFAT_TYPE_FAT12 =? UFAT_TYPE_FAT32) with false. cbv iota.
    set (e := (n - 1) / 2 ^ s + 2) in *. assert (2 <= e) as He by (unfold e; lia). set (fb := ((e * 3 + 1) / 2 + 511) / 512) in *. set (c := (n - 1 - 32 - fb * 2) / 2 ^ s + 2) in *. 
    split.
    + apply (calculate_layout_512 n UFAT_TYPE_FAT12 4096 1 Hn).
      * by rewrite (proj2 (Z.ltb_lt n 8400)). * lia. * change (0 <= (e * 3 + 1) / 2 < 2 ^ 31). clearbody e. division. * change (e < 2 ^ 29). lia.
      * change (0 <= n - 1 - 32 - fb * 2). apply (div_nonneg_inv _ (2 ^ s)); [lia|]. fold c. lia.
      * change (0 <= n - 1 - fb * 2 - (c - 2) * 2 ^ s). lia.
    + clearbody c fb e s. split; cbn [log2_sector_size log2_bpc reserved_blocks fat_blocks root_blocks clusters logical_blocks layout_type]; [by rewrite (proj2 (Z.ltb_lt n 8400)) by lia|reflexivity|lia|reflexivity|lia|lia|lia|].
      destruct HL as (G1 & G2 & G3 & G4 & G5). left. split_and!; (reflexivity || lia).
  - destruct (spc_choice n 65536 1 ltac:(lia) ltac:(by left)) as [Hs Hc]. set (s := spc_loop 7 9 n 65536 1) in *.
    assert (2 ^ 1 <= 2 ^ s) as Hk by (apply Z.pow_le_mono_r; lia). change (2 ^ 1) with 2 in Hk. pose proof (Z.div_pos (n - 1) (2 ^ s) ltac:(lia) ltac:(lia)) as Hq.
    pose proof (layout_16 n (2 ^ s) ltac:(lia) Hc) as HL. cbv zeta in HL.
    exists (layout_of n UFAT_TYPE_FAT16 s 1 (((n - 1) / 2 ^ s + 2) * 2) 32). unfold layout_of. cbv zeta. change (UFAT_TYPE_FAT16 =? UFAT_TYPE_FAT32) with false. cbv iota.
    set (e := (n - 1) / 2 ^ s + 2) in *. assert (2 <= e) as He by (unfold e; lia). set (fb := (e * 2 + 511) / 512) in *. set (c := (n - 1 - 32 - fb * 2) / 2 ^ s + 2) in *. 
    split.
    + apply (calculate_layout_512 n UFAT_TYPE_FAT16 65536 1 Hn).
      * by rewrite (proj2 (Z.ltb_ge n 8400)), (proj2 (Z.ltb_lt n 1048576)). * lia. * change (0 <= e * 2 < 2 ^ 31). clearbody e. division. * change (e < 2 ^ 29). lia.
      * change (0 <= n - 1 - 32 - fb * 2). apply (div_nonneg_inv _ (2 ^ s)); [lia|]. fold c. lia.
      * change (0 <= n - 1 - fb * 2 - (c - 2) * 2 ^ s). lia.
    + clearbody c fb e s. split; cbn [log2_sector_size log2_bpc reserved_blocks fat_blocks root_blocks clusters logical_blocks layout_type]; [by rewrite (proj2 (Z.ltb_ge n 8400)), (proj2 (Z.ltb_lt n 1048576)) by lia|reflexivity|lia|reflexivity|lia|lia|lia|].
      destruct HL as (G1 & G2 & G3 & G4 & G5). right; left. split_and!; (reflexivity || lia).
  - destruct (spc_choice n 2097152 3 ltac:(lia) ltac:(by right)) as [Hs Hc]. set (s := spc_loop 7 9 n 2097152 3) in *.
    assert (2 ^ 3 <= 2 ^ s) as Hk by (apply Z.pow_le_mono_r; lia). change (2 ^ 3) with 8 in Hk. pose proof (Z.div_pos (n - 32) (2 ^ s) ltac:(lia) ltac:(lia)) as Hq.
    pose proof (layout_32 n (2 ^ s) ltac:(lia) Hc ltac:(lia)) as HL. cbv zeta in HL.
    exists (layout_of n UFAT_TYPE_FAT32 s 32 (((n - 32) / 2 ^ s + 2) * 4) 0). unfold layout_of. cbv zeta. change (UFAT_TYPE_FAT32 =? UFAT_TYPE_FAT32) with true. cbv iota.
    set (e := (n - 32) / 2 ^ s + 2) in *. assert (2 <= e) as He by (unfold e; lia). set (fb := (e * 4 + 511) / 512) in *. set (c := (n - 32 - 0 - fb * 2) / 2 ^ s + 2) in *. 
    split.
    + apply (calculate_layout_512 n UFAT_TYPE_FAT32 2097152 3 Hn).
      * by rewrite (proj2 (Z.ltb_ge n 8400)), (proj2 (Z.ltb_ge n 1048576)) by lia. * lia. * change (0 <= e * 4 < 2 ^ 31). clearbody e. division. * change (e < 2 ^ 29). lia.
      * change (0 <= n - 32 - 0 - fb * 2). apply (div_nonneg_inv _ (2 ^ s)); [lia|]. fold c. lia.
      * change (0 <= 0). lia.
    + clearbody c fb e s. split; cbn [log2_sector_size log2_bpc reserved_blocks fat_blocks root_blocks clusters logical_blocks layout_type]; [by rewrite (proj2 (Z.ltb_ge n 8400)), (proj2 (Z.ltb_ge n 1048576)) by lia|reflexivity|lia|reflexivity|lia|lia|lia|].
      destruct HL as (G1 & G2 & G3 & G4 & G5). right; right. split_and!; (reflexivity || lia).
Qed.

(** * The boot sector *)

(** Parts of a sector that is stored to.  The conditions are on numbers that are known. *)
Definition clear_of (o n o' m : nat) : bool := ((o + n <=? o') || (o' + m <=? o))%nat && (o' + m <=? 512)%nat.

Lemma clear_of_spec o n o' m : clear_of o n o' m = true -> (o + n <= o' \/ o' + m <= o)%nat /\ (o' + m <= 512)%nat.
Proof. unfold clear_of. rewrite andb_true_iff, orb_true_iff, !Nat.leb_le. done. Qed.

Lemma store_512 o new (l : list Z) : length l = 512%nat -> (o + length new <=? 512)%nat = true -> length (put o new l) = 512%nat.
Proof. intros Hl Ho%Nat.leb_le. rewrite length_put; lia. Qed.

Lemma r16_store o o' new (l : list Z) : clear_of o 2 o' (length new) = true -> length l = 512%nat -> r16 o (put o' new l) = r16 o l.
Proof. intros [Ho Hn]%clear_of_spec Hl. apply r16_put; lia. Qed.

Lemma r32_store o o' new (l : list Z) : clear_of o 4 o' (length new) = true -> length l = 512%nat -> r32 o (put o' new l) = r32 o l.
Proof. intros [Ho Hn]%clear_of_spec Hl. apply r32_put; lia. Qed.

Lemma byte_store (o o' : nat) new (l : list Z) : clear_of o 1 o' (length new) = true -> length l = 512%nat -> put o' new l !! o = l !! o.
Proof. intros [Ho Hn]%clear_of_spec Hl. rewrite lookup_put by lia. rewrite decide_False by lia. done. Qed.

Lemma r16_stored o v (l : list Z) : length l = 512%nat -> (o + 2 <=? 512)%nat = true -> r16 o (put o (le_encode 2 v) l) = v mod 2 ^ 16.
Proof. intros Hl Ho%Nat.leb_le. apply r16_here. lia. Qed.

Lemma r32_stored o v (l : list Z) : length l = 512%nat -> (o + 4 <=? 512)%nat = true -> r32 o (put o (le_encode 4 v) l) = v mod 2 ^ 32.
Proof. intros Hl Ho%Nat.leb_le. apply r32_here. lia. Qed.

Lemma byte_stored o x (l : list Z) : length l = 512%nat -> (o + 1 <=? 512)%nat = true -> put o [x] l !! o = Some x.
Proof. intros Hl Ho%Nat.leb_le. rewrite lookup_put by (cbn [length]; lia). rewrite decide_True by (cbn [length]; lia). by rewrite Nat.sub_diag. Qed.

Ltac sector := repeat (apply store_512; [|reflexivity]); apply length_replicate.
Ltac field := repeat first [rewrite r16_store; [|reflexivity|sector] | rewrite r32_store; [|reflexivity|sector] | rewrite byte_store; [|reflexivity|sector]];
  first [rewrite r16_stored; [|sector|reflexivity] | rewrite r32_stored; [|sector|reflexivity] | rewrite byte_stored; [|sector|reflexivity] | idtac].

Lemma boot_fields_12 n fl : layout_ok n fl -> layout_type fl <> UFAT_TYPE_FAT32 -> let b := boot_sector 9 fl in
  r16 0x00b b = 512 /\ b !! 0x00d%nat = Some (2 ^ log2_bpc fl) /\ r16 0x00e b = reserved_blocks fl /\ b !! 0x010%nat = Some 2 /\
  r16 0x011 b = root_blocks fl * 16 /\ (if r16 0x013 b =? 0 then r32 0x020 b else r16 0x013 b) = logical_blocks fl /\
  (if r16 0x016 b =? 0 then r32 0x024 b else r16 0x016 b) = fat_blocks fl /\ r16 0x1fe b = 0xaa55.
Proof.
  intros [L0 L1 L2 L3 L4 L5 L6 L7] Ht. rewrite (proj2 (Z.eqb_neq _ _) Ht) in L3. unfold boot_sector. rewrite (proj2 (Z.eqb_neq _ _) Ht), L1, L3. cbn [negb andb]. cbv zeta. change (9 - 9) with 0. rewrite !Z.shiftl_0_r.
  change (Z.to_nat (Z.shiftl 1 9)) with 512%nat. unfold store, w16, w32. set (name := chars _). assert (length name = 8%nat) as Hname by (subst name; by repeat case_match). clearbody name.
  do 8 (destruct name as [|? name]; [done|]). destruct name; [|done]. clear Hname.
  assert (log2_bpc fl = 1 \/ log2_bpc fl = 2 \/ log2_bpc fl = 3 \/ log2_bpc fl = 4 \/ log2_bpc fl = 5 \/ log2_bpc fl = 6) as Hbpc by lia.
  assert (0 < logical_blocks fl) as Hlog by (assert (0 <= (clusters fl - 2) * 2 ^ log2_bpc fl) by (apply Z.mul_nonneg_nonneg; lia); lia).
  destruct (Z.leb_spec (logical_blocks fl) 0xffff);
    (split_and!; [by field|field; by destruct Hbpc as [->|[->|[->|[->|[->| ->]]]]]|by field|by field|
      field; change (9 - 5) with 4; by rewrite Z.shiftl_mul_pow2, Z.mod_small by lia| |
      do 2 field; rewrite Z.mod_small by lia; by rewrite (proj2 (Z.eqb_neq _ _)) by lia|by field]).
  - do 2 field. rewrite Z.mod_small by lia. by rewrite (proj2 (Z.eqb_neq _ _)) by lia.
  - do 2 field. change (r16 19 _) with 0. by rewrite Z.mod_small by lia.
Qed.

Lemma boot_fields_32 n fl : layout_ok n fl -> layout_type fl = UFAT_TYPE_FAT32 -> let b := boot_sector 9 fl in
  r16 0x00b b = 512 /\ b !! 0x00d%nat = Some (2 ^ log2_bpc fl) /\ r16 0x00e b = reserved_blocks fl /\ b !! 0x010%nat = Some 2 /\
  r16 0x011 b = root_blocks fl * 16 /\ (if r16 0x013 b =? 0 then r32 0x020 b else r16 0x013 b) = logical_blocks fl /\
  (if r16 0x016 b =? 0 then r32 0x024 b else r16 0x016 b) = fat_blocks fl /\ r16 0x1fe b = 0xaa55 /\ r32 0x02c b = 2.
Proof.
  intros [L0 L1 L2 L3 L4 L5 L6 L7] Ht. rewrite Ht in L3. change (UFAT_TYPE_FAT32 =? UFAT_TYPE_FAT32) with true in L3. cbv iota in L3. unfold boot_sector. rewrite Ht, L1, L3.
  change (UFAT_TYPE_FAT32 =? UFAT_TYPE_FAT32) with true. change (UFAT_TYPE_FAT32 =? UFAT_TYPE_FAT16) with false. change (UFAT_TYPE_FAT32 =? UFAT_TYPE_FAT12) with false. cbn [negb andb]. cbv zeta iota.
  change (9 - 9) with 0. rewrite !Z.shiftl_0_r.
  assert (root_blocks fl = 0 /\ fat_blocks fl < 2 ^ 23) as [-> Hfb] by (rewrite Ht in L7; destruct L7 as [[? _]|[[? _]|L7]]; [done|done|tauto]).
  change (Z.to_nat (Z.shiftl 1 9)) with 512%nat. unfold store, w16, w32.
  assert (log2_bpc fl = 1 \/ log2_bpc fl = 2 \/ log2_bpc fl = 3 \/ log2_bpc fl = 4 \/ log2_bpc fl = 5 \/ log2_bpc fl = 6) as Hbpc by lia.
  assert (0 <= logical_blocks fl) as Hlog by (rewrite Ht in L7; destruct L7 as [[? _]|[[? _]|L7]]; [done|done|]; assert (0 <= (clusters fl - 2) * 2 ^ log2_bpc fl) by (apply Z.mul_nonneg_nonneg; lia); lia).
  split_and!; [by field|field; by destruct Hbpc as [->|[->|[->|[->|[->| ->]]]]]|by field|by field|by field| | |by field|by field].
  - do 2 field. change (r16 19 _) with 0. by rewrite Z.mod_small by lia.
  - do 2 field. change (r16 22 _) with 0. by rewrite Z.mod_small by lia.
Qed.

Definition layout_bpb (fl : fs_layout) : ufat_bpb :=
  mkBpb (layout_type fl) (log2_bpc fl) (reserved_blocks fl) (fat_blocks fl) 2 (reserved_blocks fl + fat_blocks fl * 2 + root_blocks fl) (clusters fl)
    (reserved_blocks fl + fat_blocks fl * 2) (root_blocks fl) (if layout_type fl =? UFAT_TYPE_FAT32 then 2 else 0).

Lemma log2_exact_pow s : 1 <= s <= 6 -> log2_exact (2 ^ s) = Some s.
Proof. intros Hs. assert (s = 1 \/ s = 2 \/ s = 3 \/ s = 4 \/ s = 5 \/ s = 6) as Hc by lia. by destruct Hc as [->|[->|[->|[->|[->| ->]]]]]. Qed.

(** What is written to the first block is read as the layout it was made of. *)
Lemma parse_boot n fl ufb : layout_ok n fl -> parse_bpb 9 ufb (boot_sector 9 fl) = Some (layout_bpb fl, 0).
Proof.
  intros Hl. pose proof Hl as [L0 L1 L2 L3 L4 L5 L6 L7].
  assert (let b := boot_sector 9 fl in r16 0x00b b = 512 /\ b !! 0x00d%nat = Some (2 ^ log2_bpc fl) /\ r16 0x00e b = reserved_blocks fl /\ b !! 0x010%nat = Some 2 /\
    r16 0x011 b = root_blocks fl * 16 /\ (if r16 0x013 b =? 0 then r32 0x020 b else r16 0x013 b) = logical_blocks fl /\
    (if r16 0x016 b =? 0 then r32 0x024 b else r16 0x016 b) = fat_blocks fl /\ r16 0x1fe b = 0xaa55 /\ (layout_type fl = UFAT_TYPE_FAT32 -> r32 0x02c b = 2)) as HB.
  { destruct (Z.eq_dec (layout_type fl) UFAT_TYPE_FAT32) as [E|E]; cbv zeta; [pose proof (boot_fields_32 n fl Hl E) as HB|pose proof (boot_fields_12 n fl Hl E) as HB]; cbv zeta in HB; tauto. }
  cbv zeta in HB. destruct HB as (B1 & B2 & B3 & B4 & B5 & B6 & B7 & B8 & B9). unfold parse_bpb. rewrite B1, B2, B3, B4, B5, B6, B7, B8.
  assert (0 <= root_blocks fl <= 1000) as Hr by lia. assert (0 < 2 ^ log2_bpc fl) as Hk by lia.
  assert (0 <= clusters fl - 2) as Hc by lia. assert (0 <= (clusters fl - 2) * 2 ^ log2_bpc fl) as Hcc by (apply Z.mul_nonneg_nonneg; lia).
  change (512 =? 0) with false. change (9 <? 9) with false. change (default 0 (Some ?x)) with x. change (log2_exact 512) with (Some 9). cbv iota zeta.
  assert ((root_blocks fl * 16 * UFAT_DIRENT_SIZE + 512 - 1) / 512 = root_blocks fl) as -> by (unfold UFAT_DIRENT_SIZE; division).
  rewrite log2_exact_pow by done. change (negb (0xaa55 =? 0xaa55)) with false. cbv iota. unfold to_blocks. change (9 <? 9) with false. change (9 - 9) with 0. cbv iota.
  rewrite !Z.shiftl_0_r. rewrite (u32_id (fat_blocks fl)), (u32_id (root_blocks fl)) by lia. change (2 =? 0) with false. cbv iota.
  replace (logical_blocks fl - reserved_blocks fl - fat_blocks fl * 2 - root_blocks fl) with ((clusters fl - 2) * 2 ^ log2_bpc fl) by lia.
  assert (1 <= reserved_blocks fl <= 32) as Hres by (rewrite L3; destruct (_ =? _); lia).
  rewrite (u32_id ((clusters fl - 2) * 2 ^ log2_bpc fl)) by lia. rewrite Z.shiftr_div_pow2, Z.div_mul by lia. replace (clusters fl - 2 + 2) with (clusters fl) by lia. rewrite (u32_id (clusters fl)) by lia.
  rewrite (u64_id (reserved_blocks fl + fat_blocks fl * 2)) by lia. rewrite (u64_id (reserved_blocks fl + fat_blocks fl * 2 + root_blocks fl)) by lia.
  unfold layout_bpb. rewrite Z.add_0_r. do 2 f_equal. destruct L7 as [(-> & C)|[(-> & C)|(E & C)]].
  - rewrite (proj2 (Z.eqb_neq (root_blocks fl) 0)), (proj2 (Z.leb_le (clusters fl) UFAT_MAX_FAT12)) by (unfold UFAT_MAX_FAT12; lia). done.
  - rewrite (proj2 (Z.eqb_neq (root_blocks fl) 0)), (proj2 (Z.leb_gt (clusters fl) UFAT_MAX_FAT12)) by (unfold UFAT_MAX_FAT12; lia). done.
  - rewrite (proj2 (Z.eqb_eq (root_blocks fl) 0)), B9, E by (done || lia). done.
Qed.
