(* ===== verification/UfatSpec.v ===== *)
(** What uFAT promises: stored blocks reach the device, the table gives back what was written,
    chains are freed and allocated exactly, and files read as what was written to them. *)

From S2P Require Import Prelude UfatDev UfatCache UfatView UfatFat UfatTable UfatChain UfatBlock UfatBpb UfatFile UfatRead UfatWrite UfatTruncate UfatMount.
#[local] Open Scope Z_scope.

(** * A small volume

    Eight blocks in a file: a boot sector, two copies of the table, a block of the root
    directory, and the clusters 2 to 5.  The file of 600 bytes is in the clusters 2 and 3. *)

Definition demo_bpb : ufat_bpb := mkBpb UFAT_TYPE_FAT12 0 1 1 2 4 6 3 1 0.
Definition demo_boot : list Z :=
  w16 0x1fe 0xaa55 (w16 0x16 1 (w16 0x13 8 (w16 0x11 16 (put 0x10 [2] (w16 0x0e 1 (put 0x0d [1] (w16 0x0b 512 (replicate 512 0)))))))).
Definition demo_table : list Z := [0xf8; 0x8f; 0xff; 0x03; 0xf0; 0xff].
Definition demo_data : list Z := (fun i => i mod 251) <$> seqZ 0 600.
Definition demo_disk_with (table : list Z) : list Z :=
  put (4 * 512) demo_data (put (2 * 512) table (put (1 * 512) table (put 0 demo_boot (replicate (8 * 512) 0)))).
Definition demo_disk : list Z := demo_disk_with demo_table.
(** A table where the clusters 2 and 3 are linked to each other. *)
Definition demo_loop : list Z := demo_disk_with [0xf8; 0x8f; 0xff; 0x03; 0x20; 0x00].
Definition demo_on (file : list Z) : ufat (list Z) :=
  mkUfat _ true file stat_zero demo_bpb 0 16 0 (replicate 16 no_desc) (replicate (16 * 512) 0).
Definition demo_ufat : ufat (list Z) := demo_on demo_disk.
Definition demo_closed : ufat (list Z) :=
  mkUfat _ false demo_disk stat_zero (mkBpb 0 0 0 0 0 0 0 0 0 0) 0 0 0 (replicate 16 no_desc) (replicate (16 * 512) 0).
Definition demo_file : ufat_file := mkFile 3 0 2 600 0 2 0.

Notation demo_spec := (file_spec 8).

Lemma demo_file_ok (file : list Z) : bool_decide (length file = 4096%nat /\ Forall is_byte file) = true -> file_ok 8 file.
Proof. intros [Hl Hy]%bool_decide_eq_true. done. Qed.

Lemma demo_volume : @volume _ _ demo_spec demo_bpb.
Proof.
  split.
  - by left.
  - vm_compute. intuition congruence.
  - vm_compute. intuition congruence.
  - vm_compute. intuition congruence.
  - vm_compute. intuition congruence.
  - vm_compute. reflexivity.
  - vm_compute. intuition congruence.
  - intros b Hb. change (end_block demo_bpb) with 8 in Hb. change (0 <= b < 8 /\ b < 2 ^ 32). lia.
Qed.

Lemma demo_nothing_cached (u : ufat (list Z)) : cache_desc u = replicate 16 no_desc -> nothing_cached u.
Proof.
  intros E i. unfold desc, zget. rewrite E. destruct (0 <=? i); [|done]. destruct (_ !! _) eqn:El; [|done]. by apply lookup_replicate in El as [-> _].
Qed.

Lemma demo_arrays (u : ufat (list Z)) : cache_desc u = replicate 16 no_desc -> cache_data u = replicate (16 * 512) 0 -> arrays_ok u.
Proof.
  intros E1 E2. unfold arrays_ok. rewrite E1, E2. split; [done|]. split; [by vm_compute|]. apply Forall_replicate. unfold is_byte. lia.
Qed.

Lemma demo_on_holds file : file_ok 8 file -> @holds _ _ demo_spec (demo_on file) (file_block file).
Proof.
  intros Hf. apply (@fresh_holds _ _ demo_spec (demo_on file)).
  - by apply demo_arrays.
  - done.
  - apply volume_geometry, demo_volume.
  - vm_compute. intuition congruence.
  - vm_compute. intuition congruence.
  - by apply demo_nothing_cached.
Qed.

Lemma demo_holds : @holds _ _ demo_spec demo_ufat (file_block demo_disk).
Proof. apply demo_on_holds, demo_file_ok. by vm_compute. Qed.

Lemma demo_alloc_ok : alloc_ok demo_ufat.
Proof. vm_compute. intuition congruence. Qed.

Lemma demo_chain : @chain _ _ demo_bpb (file_block demo_disk) 2 [2; 3].
Proof. cbn [chain]. split_and!; vm_compute; try done; intuition congruence. Qed.

Definition demo_at (pos prev cur : Z) : opened (D := list Z) := mkOpened demo_ufat (set_position prev cur pos demo_file).

Lemma demo_file_at : @file_at _ _ demo_bpb (file_block demo_disk) (set_position 0 2 500 demo_file) [2; 3].
Proof.
  split.
  - apply demo_chain.
  - apply (bool_decide_unpack _); vm_compute; exact I.
  - cbn. lia.
  - vm_compute. intuition congruence.
  - cbn. lia.
  - vm_compute. intuition congruence.
  - reflexivity.
  - reflexivity.
Qed.

Lemma demo_dirent pos : @dirent_at _ _ demo_spec demo_bpb (file_block demo_disk) (set_position 0 2 pos demo_file) [2; 3].
Proof.
  split.
  - split; [change (0 <= 3 < 8 /\ 3 < 2 ^ 32); lia|]. unfold mirror. cbn. lia.
  - cbn. lia.
  - unfold in_fat. cbn. lia.
  - intros c k Hc Hk E. exfalso. change (num_clusters demo_bpb) with 6 in Hc. change (3 = 4 + (c - 2) * 1 + k) in E. lia.
Qed.

Lemma demo_writable : @writable _ _ demo_spec demo_bpb (file_block demo_disk) (set_position 0 2 500 demo_file) [2; 3].
Proof.
  split; [apply demo_file_at|apply demo_dirent|]. intros c Hc. apply list_elem_of_In in Hc. destruct Hc as [<-|[<-|[]]]; by vm_compute.
Qed.

Lemma returns_never {S A} (m : result S A) s (E : Z -> S -> Prop) Q :
  returns m s E Q -> (forall e t, E e t -> False) -> exists a t, m s = Ret (inr a) t /\ Q a t.
Proof.
  unfold returns, wp. intros H HE. destruct (m s) as [[e|a] t|c t| |] eqn:Em; try done; [by destruct (HE e t)|]. by exists a, t.
Qed.

Lemma returns_cases {S A} (m : result S A) s (E : Z -> S -> Prop) Q :
  returns m s E Q -> exists t, (exists e, m s = Ret (inl e) t /\ E e t) \/ (exists a, m s = Ret (inr a) t /\ Q a t).
Proof. unfold returns, wp. intros H. destruct (m s) as [[e|a] t|c t| |]; try done; exists t; eauto. Qed.

Lemma wp_returns {S A} (m : prog S A) s Q : wp m s Q -> exists a t, m s = Ret a t /\ Q a t.
Proof. unfold wp. intros H. destruct (m s) as [a t|c t| |]; try done. eauto. Qed.

Section Claims.
Context {D : Type} {BD : BlockDevice D} {DS : DeviceSpec D}.
Notation ufat := (ufat D).
Implicit Types (u : ufat) (V W : Z -> list Z) (o : @opened D) (l : list Z).

Lemma sub_of_take {A} pos n size (c : list A) : sub pos (Nat.min n (size - pos)) c = take n (drop pos (take size c)).
Proof. unfold sub. rewrite skipn_firstn_comm, take_take. done. Qed.

(** What an error of the device leaves: the same view and the same file. *)
Definition unread o V (e : Z) o' : Prop := may_fail /\ e < 0 /\ holds (fs o') V /\ bpb (fs o') = bpb (fs o).

(** C10: Reading refines the file as a sequence of bytes: [ufat_file_read] gives the next [size]
    bytes of the file, or as many as there are, moves the position behind them and changes
    nothing that can be seen; it only fails when the device does. *)
Theorem file_read_refines o V l (buf : list Z) size :
  holds (fs o) V -> volume (bpb (fs o)) -> file_at (bpb (fs o)) V (fd o) l -> cur_pos (fd o) <= file_size (fd o) ->
  0 <= size <= Z.of_nat (length buf) -> Forall is_byte buf ->
  returns (ufat_file_read buf size) o (unread o V)
    (fun data o' => data = take (Z.to_nat size) (drop (Z.to_nat (cur_pos (fd o))) (file_bytes (bpb (fs o)) V (fd o) l)) /\
      cur_pos (fd o') = cur_pos (fd o) + Z.of_nat (length data) /\ file_size (fd o') = file_size (fd o) /\
      holds (fs o') V /\ bpb (fs o') = bpb (fs o) /\ file_at (bpb (fs o)) V (fd o') l).
Proof.
  intros H Hv Hf Hpos Hsz Hy. pose proof (at_pos _ _ _ _ Hf). pose proof (at_fits _ _ _ _ Hf).
  pose proof (length_content (fs o) V _ l H eq_refl Hv (chain_range _ _ _ _ (at_chain _ _ _ _ Hf))) as Hl.
  eapply returns_mono; [by apply (file_read_holds o V l buf size)| |].
  - intros e o' (F1 & F2 & F3 & F4). pose proof F4 as [= _ M2 _ _]. done.
  - intros data o' [Hm ->]. destruct (moved_facts _ _ _ _ _ Hm) as (A1 & A2 & A3 & A4 & A5). rewrite A2 in A3.
    unfold file_bytes. rewrite <- sub_of_take.
    replace (Z.to_nat (Z.min size (file_size (fd o) - cur_pos (fd o)))) with (Nat.min (Z.to_nat size) (Z.to_nat (file_size (fd o)) - Z.to_nat (cur_pos (fd o)))) by lia.
    split_and!; try done. rewrite length_sub by lia. lia.
Qed.

(** C17: Truncating refines the file as a sequence of bytes: [ufat_file_truncate] leaves the bytes up to
    the position, in the clusters that they need, and frees the others; no other entry of the
    table and no block of data is touched, also when the device fails on the way.  The file can be
    read and written as before once its position was set again.  Only where the position is at
    the end of a cluster, and not at the start, may the device fail without an error. *)
Theorem file_truncate_refines o V l :
  holds (fs o) V -> volume (bpb (fs o)) -> alloc_ok (fs o) -> writable (bpb (fs o)) V (fd o) l -> cur_pos (fd o) <= file_size (fd o) ->
  let p := bpb (fs o) in let pos := cur_pos (fd o) in let k := clusters_for p pos in
  returns ufat_file_truncate o
    (fun _ o' => may_fail /\ exists W, holds (fs o') W /\ own_blocks p V (fd o) W)
    (fun _ o' => bpb (fs o') = p /\ alloc_ok (fs o') /\ exists W, holds (fs o') W /\ own_blocks p V (fd o) W /\
      (may_fail /\ 0 < pos /\ pos mod cluster_bytes p = 0 \/
       cur_pos (fd o') = pos /\ file_size (fd o') = pos /\ writable p W (rewound (fd o')) (take k l) /\
       file_bytes p W (fd o') (take k l) = take (Z.to_nat pos) (file_bytes p V (fd o) l) /\
       (forall c, c ∈ drop k l -> fat p W c = UFAT_CLUSTER_FREE) /\
       (forall c, 0 <= c < num_clusters p -> c ∉ l -> fat p W c = fat p V c))).
Proof.
  intros H Hv Ha Hw Hsz p pos k. eapply returns_mono; [by apply (file_truncate_holds o V l)|done|].
  intros [] o' (Hvol & Ha' & W & HW & Hown & Hres). split; [by apply vol_bpb|]. split; [done|]. exists W. split; [done|]. split; [done|].
  destruct Hres as [[T1 T2 T3 T4 T5 T6]|Hm]; [right; by split_and!|by left].
Qed.

(** A block of another file: not in the table, not the one with the directory entry. *)
Definition apart V f l (other : list Z) p : Prop :=
  dirent_block f ∉ chain_blocks p other /\ forall c, c ∈ other -> c ∉ l /\ fat p V c <> UFAT_CLUSTER_FREE.

Lemma apart_foreign p V f l other b : volume p -> Forall (fun c => 2 <= c < num_clusters p) other -> apart V f l other p ->
  b ∈ chain_blocks p other -> foreign p V f l b.
Proof.
  intros Hv Hr [A1 A2] Hb. split; [by eapply chain_not_fat|]. split; [by intros ->|]. intros c k Hc Hk ->.
  apply elem_of_chain_blocks in Hb as (c' & k' & Hc' & Hk' & E). destruct (data_block_inj p c k c' k' Hv Hk Hk' E) as [-> _]. by apply A2.
Qed.


(** Reading a file after writing to it gives the bytes it had with the written ones in their place. *)
Theorem file_write_then_read o V l (data buf : list Z) len size :
  holds (fs o) V -> volume (bpb (fs o)) -> alloc_ok (fs o) -> writable (bpb (fs o)) V (fd o) l -> cur_pos (fd o) <= file_size (fd o) ->
  0 <= len <= Z.of_nat (length data) -> Forall is_byte data -> cur_pos (fd o) + len < 2 ^ 32 ->
  0 <= size <= Z.of_nat (length buf) -> Forall is_byte buf ->
  let old := file_bytes (bpb (fs o)) V (fd o) l in let pos := Z.to_nat (cur_pos (fd o)) in
  returns (ufat_file_write data len ;? (ufat_file_rewind;; ufat_file_read buf size)) o (fun e _ => may_fail \/ e = - UFAT_ERR_NO_CLUSTERS)
    (fun got _ => got = take (Z.to_nat size) (take pos old ++ take (Z.to_nat len) data ++ drop (pos + Z.to_nat len) old)).
Proof.
  intros H Hv Ha Hw Hpos Hlen Hy Hmax Hsz Hyb old pos. pose proof (writable_file _ _ _ _ Hw) as Hf. pose proof (at_pos _ _ _ _ Hf).
  eapply returns_check; [by apply (file_write_holds o V l data len)|intros e o' (_ & F & _); exact F|].
  intros r o1 (-> & W & m & Hwr). rewrite Z.min_l in * by lia. pose proof (written_bytes _ _ _ _ _ _ _ Hv H Hf Hpos Hwr) as Hb. fold old pos in Hb.
  destruct (written_facts _ _ _ _ _ _ _ Hv Hwr) as (A1 & A2 & A3 & A4 & A5 & A6 & _). pose proof (vol_bpb _ _ A2) as Hbp. pose proof (writable_file _ _ _ _ A4) as Hf1.
  rewrite length_take_le in A5, Hb by lia. go_gets. pose proof (at_size _ _ _ _ Hf1). pose proof (at_fits _ _ _ _ Hf1).
  set (f1 := set_position 0 (file_start (fd o1)) 0 (fd o1)).
  assert (file_at (bpb (fs o)) W f1 m) as Hf2 by by apply rewind_at.
  pose proof (length_content (fs o1) W _ m A1 Hbp Hv (chain_range _ _ _ _ (at_chain _ _ _ _ Hf1))) as Hl.
  eapply returns_mono; [apply (file_read_holds (set_fd f1 o1) W m buf size); cbn [fs fd set_fd]; rewrite ?Hbp; (done || (cbn; lia))| |].
  - intros e o2 (F & _). by left.
  - cbn [fs fd set_fd]. intros got o2 [_ ->]. rewrite Hbp, <- Hb. unfold file_bytes. cbn [cur_pos file_size f1 set_position].
    rewrite Z.sub_0_r. change (Z.to_nat 0) with 0%nat. unfold sub. rewrite drop_0, take_take. f_equal. lia.
Qed.
(** * The table *)

(** An entry that is written is the one that is read, in each of the three formats and whatever
    the cache has to write back for it; no other entry and no block outside of the table changes. *)
Theorem fat_entry_roundtrip u V c v :
  holds u V -> volume (bpb u) -> 0 <= c < num_clusters (bpb u) -> storable (bpb u) v ->
  returns (ufat_write_fat c v ;? ufat_read_fat c) u (fun e _ => may_fail /\ e < 0)
    (fun r u' => r = v /\ bpb u' = bpb u /\ exists W, holds u' W /\
      (forall j, 0 <= j < num_clusters (bpb u) -> j <> c -> fat (bpb u) W j = fat (bpb u) V j) /\
      (forall b, ~ in_fat (bpb u) b -> W b = V b)).
Proof.
  intros H Hv Hc Hs. eapply returns_check; [apply (write_fat_holds u V c v H Hv Hc), (storable_nonneg _ _ Hs)|intros e t (F1 & F2 & _); done|].
  intros [] u1 Hw. destruct (written_upd _ _ _ _ _ Hw Hv Hs) as (Hm & W & HW & Hf & Ho). pose proof Hm as [= M1 M2 M3 M4].
  eapply returns_mono; [apply (read_fat_holds u1 W c HW); rewrite M2; done|intros e t (F1 & F2 & _); done|].
  intros r u2 (Hm2 & H2 & ->). pose proof Hm2 as [= N1 N2 N3 N4]. rewrite M2. split; [by rewrite Hf, decide_True by done|]. split; [congruence|].
  exists W. split; [done|]. split; [|done]. intros j Hj Hne. by rewrite Hf, decide_False by done.
Qed.

(** C24: Freeing a chain ends, whatever the table holds - a loop, a link out of the volume, a free
    cluster in the middle -, and does nothing but free entries. *)
Theorem free_chain_terminates u V c :
  holds u V -> volume (bpb u) -> 0 <= c ->
  returns (ufat_free_chain c) u (fun e u' => may_fail \/ e = - UFAT_ERR_INVALID_CLUSTER)
    (fun _ u' => bpb u' = bpb u /\ exists W, holds u' W /\
      (forall j, 0 <= j < num_clusters (bpb u) -> fat (bpb u) W j = fat (bpb u) V j \/ fat (bpb u) W j = UFAT_CLUSTER_FREE) /\
      forall b, ~ in_fat (bpb u) b -> W b = V b).
Proof.
  intros H Hv Hc. eapply returns_mono; [by apply (free_chain_any u V c)|intros e t [F _]; exact F|].
  intros [] u' (Hm & W & HW & Hf & Ho). pose proof Hm as [= M1 M2 M3 M4]. split; [done|]. by exists W.
Qed.

(** Allocating [n] clusters links [n] different free ones into a chain that ends properly, and
    freeing that chain brings back every entry of the table; when there are fewer than [n] free
    clusters, the table is as it was, and the error says so. *)
Theorem alloc_then_free u V n :
  holds u V -> volume (bpb u) -> alloc_ok u ->
  returns (ufat_alloc_chain n) u
    (fun e u' => may_fail \/ e = - UFAT_ERR_NO_CLUSTERS /\ exists W, holds u' W /\
      (forall j, 0 <= j < num_clusters (bpb u) -> fat (bpb u) W j = fat (bpb u) V j) /\
      exists l, (length l < n)%nat /\ forall c, usable (bpb u) c -> fat (bpb u) V c = UFAT_CLUSTER_FREE -> c ∈ l \/ may_fail)
    (fun c u' => exists W l, holds u' W /\ bpb u' = bpb u /\ length l = n /\ NoDup l /\ chain (bpb u) W c l /\
      (forall x, x ∈ l -> usable (bpb u) x /\ fat (bpb u) V x = UFAT_CLUSTER_FREE) /\
      returns (ufat_free_chain c) u' (fun _ _ => may_fail) (fun _ u'' => exists X, holds u'' X /\
        forall j, 0 <= j < num_clusters (bpb u) -> fat (bpb u) X j = fat (bpb u) V j)).
Proof.
  intros H Hv Ha. eapply returns_mono; [by apply (alloc_chain_holds u V n)| |].
  - intros e u' (Hm & Hal & He & W & HW & Ho & [Hf|(-> & Hsame & Hl)]); [by left|]. right. split; [done|]. by exists W.
  - intros c u' (Hm & Hal & W & l & HW & Hl & Hk). pose proof (vol_bpb _ _ Hm) as Hb. pose proof Hk as (Hseg & Hd & Hfree & Hoth & Hoff). exists W, l.
    assert (chain (bpb u) W c l) as Hc by by apply (seg_chain _ _ _ UFAT_CLUSTER_EOC). split_and!; try done.
    eapply returns_mono; [apply (free_chain_holds u' W c l HW); rewrite ?Hb; done|intros e t [F _]; exact F|].
    intros [] u'' (Hm2 & X & HX & Hfr). rewrite Hb in Hfr. exists X. split; [done|]. intros j Hj. by apply (linked_freed _ _ _ _ _ _ Hk Hfr).
Qed.

(** * The cache *)

(** C23: What is stored in a block reaches the device with the next [ufat_sync] that reports no
    error, together with everything that was stored before, and nothing else changes there. *)
Theorem stored_block_durable u V b (g : list Z -> list Z) :
  holds u V -> shown (bpb u) b -> (block_ok (V b) -> block_ok (g (V b))) ->
  returns (i ⇐ ufat_cache_open b false; ufat_cache_write i;; update_data i g;; rc ← ufat_sync; ok rc) u (fun e _ => may_fail /\ e < 0)
    (fun rc u' => (rc <> 0 -> may_fail) /\
      (rc = 0 -> forall b', shown (bpb u) b' -> dev_block (disk u') b' = if decide (b' = b) then g (V b) else V b')).
Proof.
  intros H Hb Hg. eapply returns_check; [by apply cache_open_holds|intros e t (F1 & F2 & _); done|].
  intros i u1 (Hm & Hi & H1 & _). pose proof Hm as [= M1 M2 M3 M4].
  apply (write_block_holds u1 V i b g (fun _ => ufat_sync ≫= fun rc => ok rc) _ _ H1 Hi Hg).
  intros u2 Hm2 _ H2 _. pose proof Hm2 as [= N1 N2 N3 N4]. apply returns_bind. eapply wp_mono; [by apply (sync_holds u2 (vmod b g V))|].
  intros rc u3 (H3 & Hm3 & Hr & Hs). apply returns_ok. split; [done|]. intros E b' Hb'. rewrite Hs; [|done|by rewrite N2, M2]. done.
Qed.

(** * Calls in any order *)

Inductive ufat_call :=
  | call_read_fat (c : Z) | call_write_fat (c v : Z) | call_free_chain (c : Z) | call_alloc_chain (n : nat)
  | call_count | call_evict (start n : Z) | call_invalidate (start n : Z) | call_sync.

(** The arguments are of the types of the parameters. *)
Definition call_ok (k : ufat_call) : Prop :=
  match k with
  | call_read_fat c | call_free_chain c => 0 <= c
  | call_write_fat c v => 0 <= c /\ 0 <= v
  | call_evict start n | call_invalidate start n => 0 <= start /\ 0 <= n /\ start + n < 2 ^ 64
  | _ => True
  end.

(** The result of a call is dropped. *)
Definition drop_result {A} (m : prog ufat A) : prog ufat unit := m;; mret tt.
Definition run_call (k : ufat_call) : prog ufat unit :=
  match k with
  | call_read_fat c => drop_result (ufat_read_fat c)
  | call_write_fat c v => drop_result (ufat_write_fat c v)
  | call_free_chain c => drop_result (ufat_free_chain c)
  | call_alloc_chain n => drop_result (ufat_alloc_chain n)
  | call_count => drop_result ufat_count_free_clusters
  | call_evict start n => drop_result (ufat_cache_evict start n)
  | call_invalidate start n => ufat_cache_invalidate start n
  | call_sync => drop_result ufat_sync
  end.

Fixpoint run_calls (ks : list ufat_call) : prog ufat unit :=
  match ks with [] => mret tt | k :: ks => run_call k;; run_calls ks end.

(** The state is well formed: the cache has the shape of its arrays, holds no block twice and
    only blocks of the device, and its clean blocks are what the device has. *)
Definition well_formed u : Prop := (exists V, holds u V) /\ volume (bpb u) /\ alloc_ok u.

Lemma well_formed_vol u u' V : vol u' = vol u -> holds u' V -> alloc_ok u' -> volume (bpb u) -> well_formed u' /\ bpb u' = bpb u.
Proof. intros Hv H Ha Hvol. pose proof (vol_bpb _ _ Hv) as E. split; [|done]. split; [by exists V|]. by rewrite E. Qed.

Lemma well_formed_meta u u' V : meta u' = meta u -> holds u' V -> well_formed u -> well_formed u' /\ bpb u' = bpb u.
Proof.
  intros Hm H (_ & Hv & Ha). pose proof Hm as [= M1 M2 M3 M4]. apply (well_formed_vol u u' V); [by apply meta_vol|done| |done].
  unfold alloc_ok in *. by rewrite M2, M4.
Qed.

Lemma drop_runs {A} (m : prog ufat A) u Q : wp m u (fun _ u' => Q u') -> wp (drop_result m) u (fun _ u' => Q u').
Proof. intros H. unfold drop_result. apply wp_bind. eapply wp_mono; [exact H|]. intros a t Ht. by apply wp_ret. Qed.

Lemma run_call_wf k u : call_ok k -> well_formed u -> wp (run_call k) u (fun _ u' => well_formed u' /\ bpb u' = bpb u).
Proof.
  intros Hk Hwf. pose proof Hwf as ([V H] & Hv & Ha). destruct k as [c|c v|c|n| |start n|start n|]; cbn [run_call call_ok] in *.
  - apply drop_runs. destruct (Z.lt_ge_cases c (num_clusters (bpb u))).
    + eapply wp_mono; [apply (read_fat_holds u V c H Hv); lia|]. intros [e|r] t Ht; [destruct Ht as (_ & _ & Ht & Hm)|destruct Ht as (Hm & Ht & _)]; by apply (well_formed_meta u t V).
    + unfold ufat_read_fat. go_gets. rewrite (proj2 (Z.leb_le _ _)) by lia. by apply wp_ret.
  - apply drop_runs. destruct (Z.lt_ge_cases c (num_clusters (bpb u))).
    + eapply wp_mono; [apply (write_fat_holds u V c v H Hv); lia|]. intros [e|r] t Ht; [destruct Ht as (_ & _ & Hm & W & HW & _)|destruct Ht as (Hm & W & HW & _)]; by apply (well_formed_meta u t W).
    + unfold ufat_write_fat. go_gets. rewrite (proj2 (Z.leb_le _ _)) by lia. by apply wp_ret.
  - apply drop_runs. eapply wp_mono; [by apply (free_chain_any u V c)|]. intros [e|[]] t Ht.
    + destruct Ht as (_ & Hm & Hp & W & HW & _). apply (well_formed_vol u t W); try done. unfold alloc_ok. by rewrite (vol_bpb _ _ Hm), Hp.
    + destruct Ht as (Hm & W & HW & _). by apply (well_formed_meta u t W).
  - apply drop_runs. eapply wp_mono; [by apply (alloc_chain_holds u V n)|]. intros [e|c] t Ht.
    + destruct Ht as (Hm & Hal & _ & W & HW & _). by apply (well_formed_vol u t W).
    + destruct Ht as (Hm & Hal & W & l & HW & _). by apply (well_formed_vol u t W).
  - apply drop_runs. eapply wp_mono; [by apply (count_free_holds u V)|]. intros [e|r] t Ht; [destruct Ht as (_ & _ & Ht & Hm)|destruct Ht as (Hm & Ht & _)]; by apply (well_formed_meta u t V).
  - destruct Hk as (K1 & K2 & K3). apply drop_runs. eapply wp_mono; [by apply (evict_holds u V start n)|].
    intros [e|[]] t Ht; [destruct Ht as (_ & _ & Ht & Hm)|destruct Ht as (Ht & Hm & _)]; by apply (well_formed_meta u t V).
  - destruct Hk as (K1 & K2 & K3). eapply wp_mono; [by apply (invalidate_holds u V start n)|]. intros [] t (Ht & Hm & _). by eapply well_formed_meta.
  - apply drop_runs. eapply wp_mono; [by apply (sync_holds u V)|]. intros rc t (Ht & Hm & _). by apply (well_formed_meta u t V).
Qed.


(** Opening a volume and counting its free clusters counts the entries of the table on the
    device that are free, without those FAT12 can not use. *)
Theorem open_then_count u p :
  arrays_ok u -> dev_ok (disk u) -> geometry (bpb u) -> dev_has 0 -> (forall b, ~ mirror (bpb u) b) ->
  parse_bpb log2_block_size (bpb u) (dev_block (disk u) 0) = Some (p, 0) -> volume p ->
  returns (ufat_open ;? ufat_count_free_clusters) u (fun e _ => may_fail /\ e < 0)
    (fun n u' => well_formed u' /\ bpb u' = p /\
      n = Z.of_nat (length (free_clusters p (dev_block (disk u)) 2 (Z.to_nat (num_clusters p - 2))))).
Proof.
  intros Ha Hd Hg H0 Hno Hp Hv. eapply returns_check; [by apply (open_holds u p)|done|]. intros [] u1 (Hb & _ & Hal & H1).
  eapply returns_mono; [apply (count_free_holds u1 _ H1); by rewrite Hb|intros e t (F1 & F2 & _); done|].
  intros n u2 (Hm & H2 & ->). rewrite Hb. assert (well_formed u1) as Hwf by (split; [by eexists|]; by rewrite Hb).
  destruct (well_formed_meta u1 u2 _ Hm H2 Hwf) as [Hwf2 Hb2]. split; [done|]. split; [congruence|done].
Qed.

End Claims.


Lemma file_truncate_refines_witness : exists o' W, ufat_file_truncate (demo_at 500 0 2) = Ret (inr tt) o' /\ @holds _ _ demo_spec (fs o') W /\
  file_bytes demo_bpb W (fd o') [2] = take 500 demo_data /\ fat demo_bpb W 3 = UFAT_CLUSTER_FREE.
Proof.
  destruct (returns_never _ _ _ _ (@file_truncate_refines _ _ demo_spec (demo_at 500 0 2) (file_block demo_disk) [2; 3]
    demo_holds demo_volume demo_alloc_ok demo_writable ltac:(cbn; lia))) as ([] & o' & E & _ & _ & W & HW & _ & Hres); [by intros e t [[] _]|].
  exists o', W. split; [exact E|]. split; [exact HW|]. destruct Hres as [[[] _]|(_ & _ & _ & Hb & Hf & _)].
  split; [etransitivity; [exact Hb|vm_compute; reflexivity]|]. apply Hf. apply (bool_decide_unpack _). vm_compute. exact I.
Defined.


Lemma file_write_then_read_witness :
  returns (ufat_file_write [1; 2; 3] 3 ;? (ufat_file_rewind;; ufat_file_read (replicate 504 0) 504)) (demo_at 500 0 2) (fun e _ => False \/ e = - UFAT_ERR_NO_CLUSTERS)
    (fun got _ => got = take 500 demo_data ++ [1; 2; 3] ++ sub 503 1 demo_data).
Proof.
  eapply returns_mono; [apply (@file_write_then_read _ _ demo_spec (demo_at 500 0 2) (file_block demo_disk) [2; 3] [1; 2; 3] (replicate 504 0) 3 504
    demo_holds demo_volume demo_alloc_ok demo_writable ltac:(cbn; lia) ltac:(cbn; lia) ltac:(apply (bool_decide_unpack _); vm_compute; exact I) ltac:(cbn; lia)
    ltac:(rewrite length_replicate; lia) ltac:(apply Forall_replicate; unfold is_byte; lia))|done|].
  intros got _ ->. vm_compute. reflexivity.
Defined.

Lemma fat_entry_roundtrip_witness : exists u', (ufat_write_fat 4 5 ;? ufat_read_fat 4) demo_ufat = Ret (inr 5) u' /\ bpb u' = demo_bpb.
Proof.
  destruct (returns_never _ _ _ _ (@fat_entry_roundtrip _ _ demo_spec demo_ufat (file_block demo_disk) 4 5 demo_holds demo_volume ltac:(cbn; lia)
    ltac:(right; right; split; [cbn; lia|cbn; lia]))) as (r & u' & E & -> & Hb & _); [by intros e t [[] _]|]. exists u'. split; [exact E|exact Hb].
Defined.

Lemma free_chain_terminates_witness : exists u', ufat_free_chain 2 (demo_on demo_loop) = Ret (inr tt) u' \/ exists e, ufat_free_chain 2 (demo_on demo_loop) = Ret (inl e) u' /\ e = - UFAT_ERR_INVALID_CLUSTER.
Proof.
  assert (file_ok 8 demo_loop) as Hok by (apply demo_file_ok; by vm_compute).
  destruct (returns_cases _ _ _ _ (@free_chain_terminates _ _ demo_spec (demo_on demo_loop) (file_block demo_loop) 2 (demo_on_holds _ Hok) demo_volume ltac:(lia)))
    as (t & [(e & E & [[]|He])|([] & E & _)]); exists t; [right|left; exact E]. exists e. split; [exact E|exact He].
Defined.

Lemma alloc_then_free_witness : exists c u', ufat_alloc_chain 2 demo_ufat = Ret (inr c) u' /\ exists W l, @holds _ _ demo_spec u' W /\ length l = 2%nat /\ chain demo_bpb W c l.
Proof.
  destruct (returns_never _ _ _ _ (@alloc_then_free _ _ demo_spec demo_ufat (file_block demo_disk) 2 demo_holds demo_volume demo_alloc_ok)) as (c & u' & E & W & l & HW & Hb & Hl & _ & Hc & _).
  - intros e t [[]|(_ & W & _ & _ & l & Hl & Hin)].
    assert (4 ∈ l) as H4 by (destruct (Hin 4) as [?|[]]; [split; cbn; lia|by vm_compute|done]).
    assert (5 ∈ l) as H5 by (destruct (Hin 5) as [?|[]]; [split; cbn; lia|by vm_compute|done]).
    destruct l as [|x [|y l]]; [by apply not_elem_of_nil in H4| |cbn in Hl; lia]. apply list_elem_of_singleton in H4, H5. lia.
  - exists c, u'. split; [exact E|]. exists W, l. split; [exact HW|]. split; [exact Hl|exact Hc].
Defined.

Lemma stored_block_durable_witness : exists u', (i ⇐ ufat_cache_open 3 false; ufat_cache_write i;; update_data i (w16 0 0x1234);; rc ← ufat_sync; ok rc) demo_ufat = Ret (inr 0) u' /\
  r16 0 (file_block (disk u') 3) = 0x1234 /\ file_block (disk u') 4 = file_block demo_disk 4.
Proof.
  destruct (returns_never _ _ _ _ (@stored_block_durable _ _ demo_spec demo_ufat (file_block demo_disk) 3 (w16 0 0x1234) demo_holds
    ltac:(split; [change (0 <= 3 < 8 /\ 3 < 2 ^ 32); lia|unfold mirror; cbn; lia]) ltac:(apply block_ok_w16; rewrite block_size_512; lia))) as (rc & u' & E & Hr & Hs); [by intros e t [[] _]|].
  assert (rc = 0) as -> by (destruct (Z.eq_dec rc 0) as [|N]; [done|by destruct (Hr N)]). exists u'. split; [exact E|].
  assert (forall b', 3 <= b' <= 4 -> @shown _ _ demo_spec demo_bpb b') as Hsh by (intros b' Hb; split; [change (0 <= b' < 8 /\ b' < 2 ^ 32); lia|unfold mirror; cbn; lia]).
  assert (file_block (disk u') 3 = w16 0 0x1234 (file_block demo_disk 3)) as H3 by exact (Hs eq_refl 3 (Hsh 3 ltac:(lia))).
  assert (file_block (disk u') 4 = file_block demo_disk 4) as H4 by exact (Hs eq_refl 4 (Hsh 4 ltac:(lia))).
  split; [rewrite H3; vm_compute; reflexivity|exact H4].
Defined.


Lemma open_then_count_witness : exists u', (ufat_open ;? ufat_count_free_clusters) demo_closed = Ret (inr 2) u' /\ bpb u' = demo_bpb.
Proof.
  destruct (returns_never _ _ _ _ (@open_then_count _ _ demo_spec demo_closed demo_bpb ltac:(by apply demo_arrays) ltac:(apply demo_file_ok; by vm_compute)
    ltac:(split_and!; cbn; lia) ltac:(change (0 <= 0 < 8 /\ 0 < 2 ^ 32); lia) ltac:(intros b Hb; unfold mirror in Hb; cbn in Hb; lia)
    ltac:(vm_compute; reflexivity) demo_volume)) as (n & u' & E & _ & Hb & Hn); [by intros e t [[] _]|].
  exists u'. split; [|exact Hb]. rewrite E. do 2 f_equal. rewrite Hn. vm_compute. reflexivity.
Defined.

Lemma file_read_refines_witness : exists o', ufat_file_read (replicate 200 0) 200 (demo_at 500 0 2) = Ret (inr (sub 500 100 demo_data)) o' /\ cur_pos (fd o') = 600.
Proof.
  destruct (returns_never _ _ _ _ (@file_read_refines _ _ demo_spec (demo_at 500 0 2) (file_block demo_disk) [2; 3] (replicate 200 0) 200
    demo_holds demo_volume demo_file_at ltac:(cbn; lia) ltac:(rewrite length_replicate; lia) ltac:(apply Forall_replicate; unfold is_byte; lia)))
    as (data & o' & E & Hd & Hp & _); [by intros e t [[] _]|].
  exists o'. assert (data = sub 500 100 demo_data) as -> by (rewrite Hd; vm_compute; reflexivity). split; [exact E|]. rewrite Hp. vm_compute. reflexivity.
Defined.
