(* ===== verification/UfatDelete.v ===== *)
(** Deleting: the raw entries that make up an entry with its long name are found again and marked,
    and what is read from the directory is what was read, without this entry. *)

From S2P Require Import Prelude UfatDev UfatCache UfatView UfatFat UfatTable UfatChain UfatBpb UfatName UfatLong UfatFile UfatDir UfatRead UfatWrite UfatWalk UfatInsert UfatMake.
#[local] Open Scope Z_scope.

(** * The raw entries of an entry *)

Definition place (x : dslot) : Z * Z := (x.1.2, x.2).

(** A name that is being read has begun at one of the raw entries read so far. *)
Definition started (T : list dslot) (s : ufat_lfn_parser) : Prop :=
  lfn_seq s <> -1 -> exists T1 x T2, T = T1 ++ x :: T2 /\ place x = (start_block s, start_pos s).

Lemma parse_started T s data b pos s' : Forall is_byte data -> started T s -> ufat_lfn_parse s data b pos = Some s' ->
  started (T ++ [(data, b, pos)]) s'.
Proof.
  intros Hd Hs E Hq. pose proof (byte_at_byte 0 data Hd) as [H0 _]. unfold ufat_lfn_parse in E.
  set (fr_len := if UFAT_LFN_MAX_CHARS <? _ then _ else _) in E. destruct (negb (Z.land (byte_at 0 data) 64 =? 0)); cbn [negb andb] in E.
  - destruct (put_fragment _ _ _ _); [|done]. injection E as <-. by exists T, (data, b, pos), [].
  - destruct (Z.eqb_spec (byte_at 0 data) (lfn_seq s)) as [Eq|]; cbn [negb orb] in E; [|injection E as <-; by destruct Hq].
    destruct (short_checksum s =? _); cbn [negb] in E; [|injection E as <-; by destruct Hq]. destruct (put_fragment _ _ _ _); [|done]. injection E as <-.
    destruct Hs as (T1 & x & T2 & -> & Hx); [lia|]. exists T1, x, (T2 ++ [(data, b, pos)]). split; [by rewrite <- app_assoc|done].
Qed.

Lemma digest_started type T x s s' : Forall is_byte (slot_data x) -> started T s -> digest type x s = Some (inl s') -> started (T ++ [x]) s'.
Proof.
  destruct x as [[data b] pos]. cbn [slot_data fst digest]. intros Hd Hs E. destruct (is_fragment data).
  - destruct (ufat_lfn_parse s data b pos) eqn:Ep; [|done]. injection E as <-. by eapply parse_started.
  - destruct (is_empty_entry data); [injection E as <-; by intros []|]. destruct (negb _); [injection E as <-; by intros []|done].
Qed.

(** The entry knows where it is, and where its long name begins. *)
Lemma digest_placed type x s e lfn : digest type x s = Some (inr (e, lfn)) ->
  (ent_block e, ent_pos e) = place x /\
  if lfn_seq lfn =? 0 then lfn = s /\ (lfn_block e, lfn_pos e) = (start_block s, start_pos s) else lfn_block e = UFAT_BLOCK_NONE.
Proof.
  destruct x as [[data b] pos]. cbn [digest]. intros E. destruct (is_fragment data); [by destruct (ufat_lfn_parse s data b pos)|].
  destruct (is_empty_entry data); [done|]. destruct (negb _); [done|]. injection E as <- <-. set (m := matched _ s). unfold ufat_lfn_ok. split; [by destruct (lfn_seq m =? 0)|].
  destruct (lfn_seq m =? 0) eqn:Em; [|done]. assert (m = s) as ->; [|done]. revert Em. unfold m, matched. destruct (_ =? short_checksum s); [done|discriminate].
Qed.

(** Nothing was read from what comes before the parser. *)
Lemma read_nothing type T1 T2 s : read_all type (T1 ++ T2) new_parser = Some ([], s) -> exists s1, read_all type T1 new_parser = Some ([], s1).
Proof.
  rewrite read_all_app. destruct (read_all type T1 new_parser) as [[es1 s1]|]; [|done]. destruct (read_all type T2 s1) as [[es2 s2]|]; [|done].
  intros [= E _]. apply app_eq_nil in E as [-> _]. by exists s1.
Qed.

(** An entry that was read is made of a run of raw entries, the last one its own. *)
Lemma entry_run type e lfn es2 f l : forall T s es1, read_all type T new_parser = Some ([], s) -> started T s -> Forall (fun x => Forall is_byte (slot_data x)) l ->
  read_all type l s = Some (es1 ++ (e, lfn) :: es2, f) ->
  exists A M x B s', T ++ l = A ++ M ++ x :: B /\ read_all type A new_parser = Some (es1, s') /\ read_all type B new_parser = Some (es2, f) /\
    place x = (ent_block e, ent_pos e) /\
    (lfn_block e = UFAT_BLOCK_NONE /\ M = [] \/ exists y M', M = y :: M' /\ place y = (lfn_block e, lfn_pos e)).
Proof.
  induction l as [|x l IH]; intros T s es1 HT Hs Hb Hr; cbn [read_all] in Hr; [by destruct es1|]. inversion_clear Hb as [|? ? Hx Hl].
  destruct (digest type x s) as [[s'|[e0 lfn0]]|] eqn:Ed; [|destruct (read_all type l new_parser) as [[es f']|] eqn:El; [|done]|done].
  - destruct (IH (T ++ [x]) s' es1) as (A & M & x' & B & s2 & E & H); [|by eapply digest_started|done|done|].
    { rewrite read_all_app, HT. cbn [read_all]. by rewrite Ed. }
    exists A, M, x', B, s2. split; [|done]. by rewrite <- E, <- app_assoc.
  - injection Hr as Ees ->. destruct es1 as [|e1 es1]; cbn in Ees.
    + injection Ees as -> -> ->. destruct (digest_placed _ _ _ _ _ Ed) as [Hp Hn]. destruct (Z.eqb_spec (lfn_seq lfn) 0) as [E0|E0].
      * destruct Hn as [-> Hn]. destruct Hs as (T1 & y & T2 & -> & Hy); [lia|]. destruct (read_nothing _ _ _ _ HT) as [s1 H1].
        exists T1, (y :: T2), x, l, s1. split; [by rewrite <- app_assoc|]. split_and!; [done|done|done|]. right. exists y, T2. by rewrite Hn.
      * exists T, [], x, l, s. split_and!; [done..|]. by left.
    + injection Ees as <- ->. destruct (IH [] new_parser es1) as (A & M & x' & B & s2 & E & HA & H); [done|by intros []|done|done|].
      exists (T ++ x :: A), M, x', B, s2. split; [|split; [|done]].
      * cbn [app] in E. rewrite E, <- app_assoc. done.
      * rewrite read_all_app, HT. cbn [read_all]. by rewrite Ed, HA.
Qed.

(** * What is read when they are marked *)

Definition marked (x : dslot) : Prop := byte_at 0 (slot_data x) = 0xe5.

Lemma read_marked type N : forall s, Forall marked N -> N <> [] -> read_all type N s = Some ([], ufat_lfn_reset s).
Proof.
  induction N as [|x N IH]; intros s HN H0; [done|]. inversion_clear HN as [|? ? Hx HN']. cbn [read_all].
  assert (digest type x s = Some (inl (ufat_lfn_reset s))) as ->.
  { destruct x as [[data b] pos]. unfold marked in Hx. cbn [slot_data fst] in Hx. cbn [digest]. unfold is_fragment, is_empty_entry. rewrite Hx. cbn. by rewrite andb_false_r. }
  destruct N as [|y N]; [done|]. by rewrite IH.
Qed.

Lemma read_removed type A N B es1 es2 s f : read_all type A new_parser = Some (es1, s) -> read_all type B new_parser = Some (es2, f) ->
  Forall marked N -> N <> [] -> Forall (fun x => Forall is_byte (slot_data x)) B ->
  exists es2' f', read_all type (A ++ N ++ B) new_parser = Some (es1 ++ es2', f') /\ named <$> es2' = named <$> es2.
Proof.
  intros HA HB HN H0 Hb. pose proof (read_all_buf _ _ _ _ _ HA eq_refl) as Hs.
  pose proof (read_all_alike type B (ufat_lfn_reset s) new_parser (alike_reset s new_parser Hs eq_refl) Hb) as Hal. rewrite HB in Hal.
  destruct (read_all type B (ufat_lfn_reset s)) as [[es2' f']|] eqn:E; [|done]. destruct Hal as [Hn _]. exists es2', f'. split; [|done].
  rewrite read_all_app, HA, read_all_app, read_marked by done. by rewrite E.
Qed.

Lemma overwrite_marked s : marked (overwrite [0xe5] s).
Proof. done. Qed.

(** * Marking them *)

Section Delete.
Context {D : Type} {BD : BlockDevice D} {DS : DeviceSpec D}.
Implicit Types (V W : Z -> list Z) (w : @walk D) (b : Z).

Lemma with_dir_returns {A} d (m : result walk A) u E Q :
  returns m (mkWalk u d) (fun e w => E e (wfs w)) (fun a w => Q a (wfs w)) -> returns (with_dir d m) u E Q.
Proof. unfold returns, wp, with_dir. by destruct (m (mkWalk u d)). Qed.

Section Directory.
Context (p : ufat_bpb) (start : Z) (bs : list Z).
Hypothesis Hvol : volume p.
Notation n_slots := (length bs * in_block)%nat.
Notation walking := (walking p start bs).
Notation gone := (gone bs).
Notation dir_changed := (dir_changed bs).

(** Different raw entries are in different places. *)
Lemma same_place (i j : nat) : NoDup bs -> (i < n_slots)%nat -> (j < n_slots)%nat ->
  dir_block (at_index start bs i) = dir_block (at_index start bs j) -> dir_pos (at_index start bs i) = dir_pos (at_index start bs j) -> i = j.
Proof.
  intros Hnd Hi Hj. unfold at_index. cbn [dir_block dir_pos]. destruct (split_index i) as [Ei Hi'], (split_index j) as [Ej Hj'].
  destruct (lookup_lt_is_Some_2 bs (i / in_block)) as [a Ha]; [apply Nat.Div0.div_lt_upper_bound; by rewrite Nat.mul_comm|].
  destruct (lookup_lt_is_Some_2 bs (j / in_block)) as [b Hb]; [apply Nat.Div0.div_lt_upper_bound; by rewrite Nat.mul_comm|].
  rewrite Ha, Hb. cbn [from_option id]. unfold id. intros -> E. pose proof (NoDup_lookup _ _ _ _ Hnd Ha Hb). lia.
Qed.

Lemma delete_loop_holds ent n : forall fuel w V k, (n < fuel)%nat -> walking w V k -> (k + n < n_slots)%nat ->
  ent_block ent = dir_block (at_index start bs (k + n)) -> ent_pos ent = dir_pos (at_index start bs (k + n)) ->
  returns (delete_loop fuel ent) w (gone w V) (fun _ w' => kept w w' /\ exists W, walking w' W (k + n) /\ dir_changed V W /\
    slots W bs = overlay k (replicate (S n) [0xe5]) (slots V bs)).
Proof.
  induction n as [|n IH]; intros fuel w V k Hf Hw Hk He1 He2; (destruct fuel as [|fuel]; [lia|]); cbn [delete_loop];
    (eapply returns_check; [apply (write_raw_holds p start bs Hvol w V k [0xe5] Hw); [lia|cbn; lia|repeat constructor; unfold is_byte; lia]|intros e t; by apply failed_gone|]);
    intros _ w1 (K1 & W1 & Hw1 & Hc1 & Hs1); go_gets; rewrite (wk_at _ _ _ _ _ _ Hw1); unfold at_entry; rewrite He1, He2.
  - rewrite Nat.add_0_r, !Z.eqb_refl. apply returns_ok. split; [done|]. by exists W1.
  - assert ((dir_block (at_index start bs k) =? dir_block (at_index start bs (k + S n))) && (dir_pos (at_index start bs k) =? dir_pos (at_index start bs (k + S n))) = false) as ->.
    { apply not_true_is_false. intros [E1%Z.eqb_eq E2%Z.eqb_eq]%andb_true_iff.
      pose proof (same_place k (k + S n) (da_nodup _ _ _ (wk_dir _ _ _ _ _ _ Hw)) ltac:(lia) Hk E1 E2). lia. }
    eapply returns_check; [apply (advance_raw_holds p start bs Hvol w1 W1 k false Hw1); [lia|by left]|intros e t; by apply failed_gone|]. intros _ w2 [Hw2 K2].
    assert (kept w w2) as K by (unfold kept in *; congruence).
    eapply returns_mono; [apply (IH fuel w2 W1 (S k)); [lia|done|lia|by rewrite Nat.add_succ_l, <- Nat.add_succ_r..]|intros e t; by apply gone_from|].
    intros _ w3 (K3 & W & Hw3 & Hc3 & Hs3). split; [unfold kept in *; congruence|]. exists W. split; [by rewrite Nat.add_succ_r|].
    split; [by eapply dir_changed_trans|]. by rewrite Hs3, Hs1.
Qed.

Lemma slot_at V k x : slots V bs !! k = Some x -> (k < n_slots)%nat /\ place x = (dir_block (at_index start bs k), dir_pos (at_index start bs k)).
Proof.
  intros Hx. assert (k < n_slots)%nat as Hk by (rewrite <- (length_slots V); by eapply lookup_lt_Some). split; [done|].
  destruct (index_inside V bs k Hk) as (b & Hb & Hs). rewrite Hx in Hs. injection Hs as ->. unfold at_index, place. cbn [dir_block dir_pos]. by rewrite Hb.
Qed.
End Directory.

(** An entry that was read is in a block of the directory. *)
Lemma entry_inside_dir p V bs es1 e lfn es2 : Forall (fun x => Forall is_byte (slot_data x)) (slots V bs) ->
  entries p bs V (es1 ++ (e, lfn) :: es2) -> ent_block e ∈ bs.
Proof.
  intros Hb [f Hr]. destruct (entry_run (fat_type p) e lfn es2 f (slots V bs) [] new_parser es1 eq_refl ltac:(by intros []) Hb Hr)
    as (A & M & x & B & s & ES & _ & _ & Hx & _). cbn [app] in ES.
  assert (slots V bs !! (length A + length M)%nat = Some x) as Hk by (rewrite ES, lookup_app_r, lookup_app_r by lia; replace (length A + length M - length A - length M)%nat with 0%nat by lia; done).
  destruct (index_inside V bs (length A + length M)) as (b & Hbb & Hs); [rewrite <- (length_slots V); by eapply lookup_lt_Some|].
  rewrite Hk in Hs. injection Hs as ->. injection Hx as <- _. by eapply list_elem_of_lookup_2.
Qed.

(** The raw entries from the first of the long name to the entry are marked. *)
Lemma delete_entry_holds (u : ufat D) V bs es1 e lfn es2 : holds u V -> volume (bpb u) -> dir_at (bpb u) V bs ->
  Forall (fun x => Forall is_byte (slot_data x)) (slots V bs) ->
  entries (bpb u) bs V (es1 ++ (e, lfn) :: es2) ->
  returns (delete_entry e) u
    (fun err u' => may_fail /\ err < 0 /\ meta u' = meta u /\ exists W, holds u' W /\ dir_changed bs V W)
    (fun _ u' => meta u' = meta u /\ exists W es2', holds u' W /\ dir_changed bs V W /\ entries (bpb u) bs W (es1 ++ es2') /\ named <$> es2' = named <$> es2).
Proof.
  intros H Hv Hd Hb [f Hr]. set (p := bpb u) in *.
  destruct (entry_run (fat_type p) e lfn es2 f (slots V bs) [] new_parser es1 eq_refl ltac:(by intros []) Hb Hr)
    as (A & M & x & B & s & ES & HA & HB & Hx & HM). cbn [app] in ES. set (k := length A). set (n := length M).
  assert (slots V bs !! (k + n)%nat = Some x) as Hxn by (rewrite ES, lookup_app_r, lookup_app_r by lia; replace (k + n - length A - length M)%nat with 0%nat by lia; done).
  destruct (slot_at 0 bs V (k + n) x Hxn) as [Hkn Hpx].
  assert (mkDir (dir_pos (first_raw e)) (dir_block (first_raw e)) (dir_start (first_raw e)) = at_index 0 bs k) as Efirst.
  { unfold first_raw. destruct HM as [[-> ->]|(y & M' & -> & Hy)].
    - rewrite Z.eqb_refl. cbn [dir_pos dir_block dir_start]. subst n. cbn [length] in Hpx. rewrite Nat.add_0_r in Hpx. rewrite Hx in Hpx. injection Hpx as -> ->. done.
    - assert (slots V bs !! k = Some y) as Hyk by (rewrite ES, lookup_app_r by lia; subst k; by rewrite Nat.sub_diag).
      destruct (slot_at 0 bs V k y Hyk) as [Hk Hpy]. rewrite Hy in Hpy. pose proof (f_equal fst Hpy) as E1. pose proof (f_equal snd Hpy) as E2. cbn [fst snd] in E1, E2. rewrite E1, E2.
      destruct (index_inside V bs k Hk) as (b & Hbb & _). assert (dir_block (at_index 0 bs k) = b) as -> by (unfold at_index; cbn [dir_block]; by rewrite Hbb).
      rewrite (dir_block_some p V bs b Hd (list_elem_of_lookup_2 _ _ _ Hbb)). cbn [dir_pos dir_block dir_start]. unfold at_index. by rewrite Hbb. }
  unfold delete_entry. go_gets. fold p. apply with_dir_returns.
  assert (walking p 0 bs (mkWalk u (first_raw e)) V k) as Hw by (split; [done|done|done|rewrite <- Efirst; by destruct (first_raw e)|lia]).
  pose proof (da_fuel _ _ _ Hd). rewrite Hx in Hpx.
  eapply returns_mono; [apply (delete_loop_holds p 0 bs Hv e n (dir_fuel p) _ V k ltac:(lia) Hw Hkn (f_equal fst Hpx) (f_equal snd Hpx))|by intros err w (F1 & F2 & F3 & F4)|].
  intros _ w (K & W & Hw' & Hc & Hs). split; [exact K|].
  set (N := zip_with overwrite (replicate (S n) [0xe5]) (M ++ [x])).
  assert (slots W bs = A ++ N ++ B) as EN.
  { rewrite Hs, ES. change (A ++ M ++ x :: B) with (A ++ M ++ [x] ++ B). rewrite (app_assoc M). unfold k.
    apply overlay_split. rewrite length_replicate, length_app. subst n. cbn. lia. }
  assert (length N = S n) as LN by (unfold N; rewrite length_zip_with, length_replicate, length_app; cbn [length]; fold n; lia).
  destruct (read_removed (fat_type p) A N B es1 es2 s f HA HB) as (es2' & f' & Hr' & Hn).
  { apply Forall_lookup. intros j y Hy. unfold N in Hy. apply lookup_zip_with_Some in Hy as (d & z & -> & Hd' & _). apply lookup_replicate in Hd' as [-> _]. apply overwrite_marked. }
  { by destruct N. }
  { rewrite ES, !Forall_app, Forall_cons in Hb. apply Hb. }
  exists W, es2'. split; [apply Hw'|]. split; [done|]. split; [|done]. exists f'. by rewrite EN.
Qed.

(** * Deleting a file *)

Lemma slots_ext V W bs : (forall b, b ∈ bs -> W b = V b) -> slots W bs = slots V bs.
Proof.
  intros E. unfold slots. f_equal. apply list_fmap_ext. intros i b Hb. unfold block_slots, raw. by rewrite (E b (list_elem_of_lookup_2 _ _ _ Hb)).
Qed.

Lemma is_dir_ext p V W start bs : volume p -> (forall c, 2 <= c < num_clusters p -> cluster_to_block p c ∈ bs -> fat p W c = fat p V c) ->
  is_dir p V start bs -> is_dir p W start bs.
Proof.
  intros Hv E Hd. revert E. destruct Hd as [H0 He|c l Hc Hnd Hne]; intros E; [by apply is_root|]. apply is_chain; try done. eapply chain_ext; [|exact Hc].
  pose proof (chain_range _ _ _ _ Hc) as Hr. rewrite Forall_forall in Hr. pose proof (cluster_blocks_pos p Hv). intros x Hx. apply E; [by apply Hr|].
  apply elem_of_chain_blocks. exists x, 0. split; [done|]. split; [lia|]. apply cluster_block; [done|by apply Hr].
Qed.

Lemma dir_bytes (u : ufat D) V bs : holds u V -> dir_at (bpb u) V bs -> Forall (fun x => Forall is_byte (slot_data x)) (slots V bs).
Proof.
  intros H Hd. apply (slots_bytes (bpb u) 0 bs (mkWalk u (at_index 0 bs 0)) V 0). split; try done. lia.
Qed.

(** * Directories that are deleted have to be empty *)

Definition dotted (x : ufat_dirent * ufat_lfn_parser) : Prop := head (short_name x.1) = Some 46.

Lemma empty_loop_holds p start bs (Hv : volume p) es0 fuel : forall w V i es, walking p start bs w V i -> (length bs * in_block - i < fuel)%nat ->
  listing (fat_type p) (drop i (slots V bs)) new_parser = Some es -> (Forall dotted es0 <-> Forall dotted es) ->
  returns (empty_loop fuel) w (fun e w' => walk_failed start w V e w' \/ e = - UFAT_ERR_DIRECTORY_NOT_EMPTY /\ ~ Forall dotted es0 /\ left_off p start bs w V w')
    (fun _ w' => Forall dotted es0 /\ left_off p start bs w V w').
Proof.
  induction fuel as [|fuel IH]; intros w V i es Hw Hf Hl He; [lia|]. cbn [empty_loop]. destruct (listing_next p bs V i es Hl) as (r & Hr & Hes).
  eapply returns_check; [by apply (dir_next_holds p start bs Hv)|by left|]. intros a w1 (K & j & Hj & Hle & Ha). destruct r as [[[e l] rest]|].
  - destruct Ha as (-> & -> & Hlt). destruct Hes as (es' & -> & Hl'). pose proof (wk_inside _ _ _ _ _ _ Hj). case_bool_decide as Hd.
    + eapply returns_mono; [apply (IH w1 V j es' Hj); [lia|done|]|..].
      * rewrite He, Forall_cons. unfold dotted at 1. cbn [fst]. tauto.
      * intros e' t [F|(F1 & F2 & F3 & F4)]; [left; by eapply walk_failed_from|right]. split; [done|]. split; [done|]. split; [unfold kept in *; congruence|done].
      * intros [] t (F1 & F2 & F3). split; [done|]. split; [unfold kept in *; congruence|done].
    + apply returns_err. right. split; [done|]. split; [|split; [done|by exists j]]. rewrite He. by intros [Hx _]%Forall_cons.
  - subst a es. apply returns_ok. split; [by apply He|]. split; [done|]. by exists j.
Qed.

Lemma verify_empty_holds (u : ufat D) V start bs e es : holds u V -> volume (bpb u) -> is_dir (bpb u) V start bs -> entries (bpb u) bs V es ->
  ufat_open_subdir (bpb u) e = inr (mkDir 0 start start) ->
  returns (verify_empty_dir e) u (fun err u' => failed u V err u' \/ err = - UFAT_ERR_DIRECTORY_NOT_EMPTY /\ ~ Forall dotted es /\ meta u' = meta u /\ holds u' V)
    (fun _ u' => Forall dotted es /\ meta u' = meta u /\ holds u' V).
Proof.
  intros H Hv Hd He Eo. destruct (is_dir_at _ _ _ _ Hv Hd) as [Hat H0]. unfold verify_empty_dir. go_gets. rewrite Eo. apply with_dir_returns.
  assert (walking (bpb u) start bs (mkWalk u (mkDir 0 start start)) V 0) as Hw by (split; try done; [cbn [wdir]; unfold at_index; by rewrite Nat.Div0.mod_0_l, Nat.Div0.div_0_l, H0|lia]).
  pose proof (da_fuel _ _ _ Hat). eapply returns_mono; [apply (empty_loop_holds (bpb u) start bs Hv es (dir_fuel (bpb u)) _ V 0 es Hw); [lia|by apply entries_listing|done]|..].
  - intros err t [[F _]|(-> & F1 & F2 & j & Hj)]; [by left|right]. split_and!; try done. apply Hj.
  - intros [] t (F1 & F2 & j & Hj). split_and!; try done. apply Hj.
Qed.

(** The entry of a file, or of a directory that has nothing but "." and "..". *)
Definition removable p V e : Prop := Z.land (attributes e) UFAT_ATTR_DIRECTORY = 0 \/
  exists start bs es, ufat_open_subdir p e = inr (mkDir 0 start start) /\ is_dir p V start bs /\ entries p bs V es /\ Forall dotted es.

Lemma removable_holds (u : ufat D) V e : holds u V -> volume (bpb u) -> removable (bpb u) V e ->
  returns (if Z.land (attributes e) UFAT_ATTR_DIRECTORY =? 0 then ok tt else verify_empty_dir e) u (failed u V) (fun _ u' => meta u' = meta u /\ holds u' V).
Proof.
  intros H Hv Hr. destruct (Z.eqb_spec (Z.land (attributes e) UFAT_ATTR_DIRECTORY) 0) as [E|E]; [by apply returns_ok|].
  destruct Hr as [?|(start & bs & es & Eo & Hd & He & Hdots)]; [done|].
  eapply returns_mono; [by apply (verify_empty_holds u V start bs e es)|intros err t [F|(_ & F & _)]; done|by intros [] t (_ & ? & ?)].
Qed.

(** The blocks that are neither of the directory nor of the table. *)
Definition elsewhere p (bs : list Z) V W : Prop := forall b, b ∉ bs -> ~ in_fat p b -> W b = V b.

(** The entry is no longer in the directory, and its clusters are free. *)
Record deleted p start bs V (es1 es2 : list (ufat_dirent * ufat_lfn_parser)) (l : list Z) W : Prop := {
  del_dir : is_dir p W start bs;
  del_entries : exists es2', entries p bs W (es1 ++ es2') /\ named <$> es2' = named <$> es2;
  del_table c : 0 <= c < num_clusters p -> fat p W c = if decide (c ∈ l) then UFAT_CLUSTER_FREE else fat p V c;
  del_elsewhere : elsewhere p bs V W
}.

Lemma dir_delete_holds (u : ufat D) V start bs es1 e lfn es2 l : holds u V -> volume (bpb u) -> is_dir (bpb u) V start bs ->
  entries (bpb u) bs V (es1 ++ (e, lfn) :: es2) -> removable (bpb u) V e -> is_dot e = false ->
  chain (bpb u) V (first_cluster e) l -> NoDup l -> (forall c, c ∈ l -> cluster_to_block (bpb u) c ∉ bs) ->
  returns (ufat_dir_delete e) u
    (fun err u' => may_fail /\ exists W, holds u' W /\ elsewhere (bpb u) bs V W)
    (fun _ u' => meta u' = meta u /\ exists W, holds u' W /\ deleted (bpb u) start bs V es1 es2 l W).
Proof.
  intros H Hv Hdir He Hfile Hdot Hc Hnd Hapart. destruct (is_dir_at _ _ _ _ Hv Hdir) as [Hd _]. pose proof (dir_bytes u V bs H Hd) as Hb.
  assert (forall W, dir_changed bs V W -> forall j, 0 <= j < num_clusters (bpb u) -> fat (bpb u) W j = fat (bpb u) V j) as Hfat.
  { intros W Hch j Hj. apply fat_ext; [done| |done]. intros b Hin. apply Hch. intros Hbb. by apply (proj2 (da_shown _ _ _ Hd b Hbb)). }
  unfold ufat_dir_delete. rewrite (dir_block_some _ _ _ _ Hd (entry_inside_dir _ _ _ _ _ _ _ Hb He)), Hdot. cbn [orb].
  eapply returns_check; [by apply removable_holds|intros err t (F1 & _ & F2 & _); split; [done|]; by exists V|]. intros [] u0 [M0 H']. pose proof M0 as [= _ B0 _ _].
  eapply returns_check; [apply (delete_entry_holds u0 V bs es1 e lfn es2 H'); by rewrite ?B0|intros err t (F1 & _ & _ & W & HW & Hch); split; [done|]; exists W; split; [done|]; intros b Hbb _; by apply Hch|].
  intros [] u1 (M1 & V1 & es2' & H1 & Hch & He1 & Hn). pose proof M1 as [= _ Hbp _ _]. rewrite B0 in *.
  eapply returns_mono; [apply (free_chain_holds u1 V1 (first_cluster e) l H1); [by rewrite Hbp| |done]| |].
  - rewrite Hbp. eapply chain_ext; [|exact Hc]. intros x Hx. apply Hfat; [done|]. pose proof (chain_range _ _ _ _ Hc) as Hr. rewrite Forall_forall in Hr. specialize (Hr x Hx). lia.
  - intros err t (F1 & _ & _ & _ & W & HW & Ho). split; [done|]. exists W. split; [done|]. intros b Hbb Hin. rewrite Ho by (by rewrite Hbp). by apply Hch.
  - intros [] u2 (M2 & W & HW & [Hf Ho]). split; [congruence|]. exists W. split; [done|]. rewrite Hbp in Hf, Ho. split.
    + eapply is_dir_ext; [done| |exact Hdir]. intros c Hr Hin. rewrite Hf by lia. rewrite decide_False by (intros Hcl; by apply (Hapart c Hcl)). apply Hfat; [done|lia].
    + exists es2'. split; [|done]. destruct He1 as [f Hr]. exists f. rewrite <- Hr. f_equal. apply slots_ext. intros b Hbb. apply Ho. by apply (da_shown _ _ _ Hd b Hbb).
    + intros c Hr. rewrite Hf by done. case_decide; [done|]. by apply Hfat.
    + intros b Hbb Hin. rewrite Ho by done. by apply Hch.
Qed.
End Delete.
