(* ===== verification/UfatDirSpec.v ===== *)
(** What the directories of uFAT promise: finding is searching in the list of the entries, a new
    file is one entry more and the one that is found, and storing attributes keeps the rest. *)

From stdpp Require Import strings.
From S2P Require Import Prelude UfatDev UfatCache UfatView UfatFat UfatTable UfatChain UfatBlock UfatBpb UfatName UfatLong UfatFile UfatDir UfatRead UfatWrite UfatWalk UfatInsert UfatMake UfatDelete UfatSpec.
#[local] Open Scope Z_scope.

(** * Attributes *)

Lemma sn_copy_part n : forall data, Forall is_byte data -> short_part n (sn_copy n data).
Proof.
  induction n as [|n IH]; intros data Hd; [split; [cbn; lia|constructor]|]. destruct data as [|c data]; [split; [cbn; lia|constructor]|].
  inversion_clear Hd as [|? ? Hc Hd']. cbn. destruct (Z.ltb_spec 32 c); [|split; [cbn; lia|constructor]]. destruct (IH data Hd') as [H1 H2].
  split; [cbn; lia|]. constructor; [unfold is_byte in Hc; lia|done].
Qed.

Lemma r16_bound o data : Forall is_byte data -> 0 <= r16 o data < 2 ^ 16.
Proof.
  intros Hd. pose proof (le_decode_bound (sub o 2 data) (Forall_sub _ _ _ _ Hd)) as H. unfold r16. assert (length (sub o 2 data) <= 2)%nat by (unfold sub; rewrite length_take; lia).
  assert (256 ^ Z.of_nat (length (sub o 2 data)) <= 256 ^ 2) by (apply Z.pow_le_mono_r; lia). lia.
Qed.

Lemma r32_bound o data : Forall is_byte data -> 0 <= r32 o data < 2 ^ 32.
Proof.
  intros Hd. pose proof (le_decode_bound (sub o 4 data) (Forall_sub _ _ _ _ Hd)) as H. unfold r32. assert (length (sub o 4 data) <= 4)%nat by (unfold sub; rewrite length_take; lia).
  assert (256 ^ Z.of_nat (length (sub o 4 data)) <= 256 ^ 4) by (apply Z.pow_le_mono_r; lia). lia.
Qed.

(** Whatever the bytes are, they are parsed into an entry that can be packed again. *)
Lemma parse_ok type data inf : Forall is_byte data -> dirent_ok type (ufat_parse_dirent type data inf).
Proof.
  intros Hd. split; cbn [ufat_parse_dirent short_name short_ext attributes create_date create_time modify_date modify_time access_date first_cluster ent_size].
  - by apply sn_copy_part.
  - by apply sn_copy_part, Forall_drop.
  - unfold byte_at. destruct (data !! 11%nat) as [c|] eqn:E; [by apply (Forall_lookup_1 _ _ _ _ Hd E)|unfold is_byte; cbn; lia].
  - by apply r16_bound. - by apply r16_bound. - by apply r16_bound. - by apply r16_bound. - by apply r16_bound.
  - pose proof (r16_bound 26 data Hd) as Hl. pose proof (r16_bound 20 data Hd) as Hh. destruct (type =? UFAT_TYPE_FAT32); [|done].
    assert (0 <= Z.lor (r16 26 data) (Z.shiftl (r16 20 data) 16)) as H0 by (apply Z.lor_nonneg; split; [lia|apply Z.shiftl_nonneg; lia]). split; [done|].
    destruct (Z.lt_ge_cases (Z.lor (r16 26 data) (Z.shiftl (r16 20 data) 16)) (2 ^ 32)) as [|Hge]; [done|exfalso].
    set (y := Z.lor _ _) in *. assert (32 <= Z.log2 y) as Hl2 by (apply Z.log2_le_pow2; lia). assert (Z.testbit y (Z.log2 y) = true) as Ht by (apply Z.bit_log2; lia). unfold y in Ht at 1.
    rewrite Z.lor_spec, Z.shiftl_spec, (testbit_above (r16 26 data) 16), (testbit_above (r16 20 data) 16) in Ht by lia. done.
  - by apply r32_bound.
Qed.

Lemma merged_attributes a b : is_byte a -> is_byte (Z.lor (Z.land a (Z.lnot UFAT_ATTR_USER)) (Z.land b UFAT_ATTR_USER)).
Proof. intros Ha. apply (masked_byte a b UFAT_ATTR_USER Ha). unfold UFAT_ATTR_USER. lia. Qed.

Lemma merge_ok type old ent : dirent_ok type old -> dated ent -> dirent_ok type (merge_attributes old ent).
Proof.
  intros [H1 H2 H3 H4 H5 H6 H7 H8 H9 H10] Hd. unfold dated in Hd. rewrite !Forall_cons in Hd. destruct Hd as (D1 & D2 & D3 & D4 & D5 & _).
  split; cbn; try done. destruct (_ =? 0); [by apply merged_attributes|done].
Qed.

Lemma user_bits a b i : 0 <= i ->
  Z.testbit (Z.lor (Z.land a (Z.lnot UFAT_ATTR_USER)) (Z.land b UFAT_ATTR_USER)) i = if Z.testbit UFAT_ATTR_USER i then Z.testbit b i else Z.testbit a i.
Proof. intros Hi. rewrite Z.lor_spec, !Z.land_spec, Z.lnot_spec by done. by destruct (Z.testbit UFAT_ATTR_USER i), (Z.testbit a i), (Z.testbit b i). Qed.

Section Claims.
Context {D : Type} {BD : BlockDevice D} {DS : DeviceSpec D}.
Implicit Types (V W : Z -> list Z) (w : @walk D) (b : Z).

(** The raw entry at the place of [ent]. *)
Definition stored V (ent : ufat_dirent) : list Z := sub (entry_offset (ent_pos ent)) 32 (V (ent_block ent)).

(** An open directory, with its entries. *)
Record directory w V start (bs : list Z) (es : list (ufat_dirent * ufat_lfn_parser)) : Prop := {
  dy_holds : holds (wfs w) V;
  dy_volume : volume (bpb (wfs w));
  dy_dir : is_dir (bpb (wfs w)) V start bs;
  dy_start : dir_start (wdir w) = start;
  dy_entries : entries (bpb (wfs w)) bs V es
}.

Lemma directory_opened w V start bs es : directory w V start bs es -> opened_dir (bpb (wfs w)) start bs w V /\ bs !! 0%nat = Some start.
Proof. intros [H1 H2 H3 H4 H5]. destruct (is_dir_at _ _ _ _ H2 H3) as [Hd H0]. split; [by split|done]. Qed.

(** C12: Finding refines a search in the list of the entries of the directory: [ufat_dir_find] gives the
    first entry with the name, whatever the case of the letters, and changes nothing that can be
    seen; only a device that fails or a name that can not be decoded before it stop it. *)
Theorem dir_find_refines w V start bs es target :
  directory w V start bs es ->
  returns (ufat_dir_find target) w
    (fun e w' => (may_fail \/ search target (named <$> es) = inl e) /\ holds (wfs w') V /\ bpb (wfs w') = bpb (wfs w))
    (fun r w' => search target (named <$> es) = inr r /\ directory w' V start bs es /\ bpb (wfs w') = bpb (wfs w)).
Proof.
  intros Hd. destruct (directory_opened _ _ _ _ _ Hd) as [Ho H0]. pose proof (entries_listing _ _ _ _ (dy_entries _ _ _ _ _ Hd)) as Hl.
  assert (forall w', left_off (bpb (wfs w)) start bs w V w' -> directory w' V start bs es /\ bpb (wfs w') = bpb (wfs w)) as Hleft.
  { intros w' Hlo. pose proof (left_off_opened _ _ _ _ _ _ Hlo) as [O1 O2 O3 O4]. destruct Hd as [H1 H2 H3 H4 H5]. split; [|done]. split; rewrite ?O2; done. }
  eapply returns_mono; [by apply (dir_find_holds _ start bs (dy_volume _ _ _ _ _ Hd) H0 w V target es Ho Hl)| |].
  - intros e w' [((F1 & F2 & F3 & F4) & F5)|[E Hlo]]; [pose proof F4 as [= _ M2 _ _]; split; [by left|done]|].
    destruct (Hleft w' Hlo) as [Hd' Hb]. split; [by right|]. split; [apply Hd'|done].
  - intros r w' [E Hlo]. split; [done|]. by apply Hleft.
Qed.

(** There is room for the fragments of the name and the entry. *)
Definition room V (bs : list Z) (name : list Z) : Prop :=
  exists k, find_run (slots V bs) 0 0 0 (S (Z.to_nat ((Z.of_nat (length name) + 12) / 13))) = Some k.

(** A name that can be given to a new entry: legal, short enough, and not in use. *)
Definition new_name (es : list (ufat_dirent * ufat_lfn_parser)) (name : list Z) : Prop :=
  ufat_lfn_is_legal name = true /\ Forall is_byte name /\ (length name <= 247)%nat /\ search name (named <$> es) = inr None /\
  suffix_number (ufat_short_first name).1 + Z.of_nat (length es) < 10 ^ 7.


(** A file that was made is found by its name, at once and with what it was made of. *)
Theorem mkfile_then_find w V start bs es ent name :
  directory w V start bs es -> dated ent -> new_name es name -> room V bs name -> ~ may_fail ->
  returns (e ⇐ ufat_dir_mkfile ent name; r ⇐ ufat_dir_find name; ok (e, r)) w (fun _ _ => False)
    (fun r _ => made_from (file_entry ent) r.1 /\ r.2 = Some r.1).
Proof.
  intros Hd He (N1 & N2 & N3 & N4 & N5) [k Hk] Hnf. destruct (directory_opened _ _ _ _ _ Hd) as [Ho H0]. pose proof (dy_volume _ _ _ _ _ Hd) as Hv.
  eapply returns_check; [apply (mkfile_holds _ start bs Hv H0 w V es ent name k Ho (dy_entries _ _ _ _ _ Hd)); done|by intros e w' (F1 & _)|].
  intros e w1 (K & Hm & W & es' & f' & Ho' & Hc & Hr & Ha).
  assert (entries (bpb (wfs w)) bs W es') as He' by by exists f'.
  eapply returns_check; [by apply (dir_find_holds _ start bs Hv H0 w1 W name es' Ho'), (entries_listing _ _ _ _ He')| |].
  - intros e' w' [((F1 & _) & _)|[E _]]; [done|]. by rewrite (search_added _ _ _ _ Ha N4) in E.
  - intros r w2 [E _]. rewrite (search_added _ _ _ _ Ha N4) in E. injection E as <-. by apply returns_ok.
Qed.

(** What can be deleted: the entry [e] of a file or of an empty directory, whose clusters are a
    chain [l] of their own, apart from the directory that it is in. *)
Record deletable p V (bs : list Z) (e : ufat_dirent) (l : list Z) : Prop := {
  fo_removable : removable p V e;
  fo_dot : is_dot e = false;
  fo_chain : chain p V (first_cluster e) l;
  fo_nodup : NoDup l;
  fo_apart c : c ∈ l -> cluster_to_block p c ∉ bs
}.

(** C13: Deleting a file, or a directory that has nothing but "." and "..", takes its entry, with
    all the raw entries of its long name, out of the directory: the others are listed as before, in
    their order. Its clusters are free and no other entry of the table changes, and so does no
    block that is neither of the directory nor of the table, also when the device fails on the way. *)
Theorem delete_removes_entry (u : ufat D) V start bs es1 e lfn es2 l :
  holds u V -> volume (bpb u) -> is_dir (bpb u) V start bs -> entries (bpb u) bs V (es1 ++ (e, lfn) :: es2) -> deletable (bpb u) V bs e l ->
  returns (ufat_dir_delete e) u
    (fun err u' => may_fail /\ exists W, holds u' W /\ elsewhere (bpb u) bs V W)
    (fun _ u' => bpb u' = bpb u /\ exists W es', holds u' W /\ is_dir (bpb u) W start bs /\ entries (bpb u) bs W es' /\
      named <$> es' = (named <$> es1) ++ (named <$> es2) /\
      (forall c, 0 <= c < num_clusters (bpb u) -> fat (bpb u) W c = if decide (c ∈ l) then UFAT_CLUSTER_FREE else fat (bpb u) V c) /\
      elsewhere (bpb u) bs V W).
Proof.
  intros H Hv Hd He [F1 F2 F3 F4 F5]. eapply returns_mono; [by apply (dir_delete_holds u V start bs es1 e lfn es2 l)|done|].
  intros [] u' (M & W & HW & [D1 (es2' & D2 & D3) D4 D5]). split; [by injection M|]. exists W, (es1 ++ es2'). split_and!; try done. by rewrite fmap_app, D3.
Qed.

(** A directory that has any other entry is not deleted, and nothing that can be seen changes. *)
Theorem nonempty_refused (u : ufat D) V start bs e es :
  holds u V -> volume (bpb u) -> is_dir (bpb u) V start bs -> entries (bpb u) bs V es -> ufat_open_subdir (bpb u) e = inr (mkDir 0 start start) ->
  (ent_block e =? UFAT_BLOCK_NONE) || is_dot e = false -> ~ Forall dotted es ->
  returns (ufat_dir_delete e) u (fun err u' => (may_fail \/ err = - UFAT_ERR_DIRECTORY_NOT_EMPTY) /\ bpb u' = bpb u /\ holds u' V) (fun _ _ => False).
Proof.
  intros H Hv Hd He Eo Hb Hne. unfold ufat_dir_delete. rewrite Hb. destruct (Z.eqb_spec (Z.land (attributes e) UFAT_ATTR_DIRECTORY) 0) as [E|E].
  - unfold ufat_open_subdir in Eo. by rewrite E in Eo.
  - eapply returns_check; [by apply (verify_empty_holds u V start bs e es)| |by intros [] t (F & _)].
    intros err t [(F1 & _ & F2 & [= _ F3 _ _])|(-> & _ & [= _ F3 _ _] & F2)]; auto.
Qed.

(** A new entry can be deleted: it is that of a file without clusters. *)
Lemma made_file p V bs ent e : made_from (file_entry ent) e -> deletable p V bs e [].
Proof.
  intros (n & x & b & q & b' & q' & [_ Hn] & ->). split; cbn.
  - left. cbn. rewrite <- Z.land_assoc. change (Z.land UFAT_ATTR_USER UFAT_ATTR_DIRECTORY) with 0. apply Z.land_0_r.
  - unfold is_dot. cbn. apply bool_decide_eq_false. destruct n as [|c n]; [done|]. inversion_clear Hn as [|? ? [_ Hc] _]. cbn. congruence.
  - done. - constructor. - by intros c Hc%elem_of_nil.
Qed.

(** Making a directory's blocks hold something else leaves it a directory. *)
Lemma changed_is_dir p V W start bs : volume p -> is_dir p V start bs -> dir_changed bs V W ->
  is_dir p W start bs /\ forall c, 0 <= c < num_clusters p -> fat p W c = fat p V c.
Proof.
  intros Hv Hd Hc. destruct (is_dir_at _ _ _ _ Hv Hd) as [Hat _]. assert (forall c, 0 <= c < num_clusters p -> fat p W c = fat p V c) as Hf.
  { intros c Hr. apply fat_ext; [done| |done]. intros b Hin. apply Hc. intros Hbb. by apply (proj2 (da_shown _ _ _ Hat b Hbb)). }
  split; [|done]. eapply is_dir_ext; [done| |exact Hd]. intros c Hr _. apply Hf. lia.
Qed.

Lemma dir_found w V start bs es target : directory w V start bs es -> ~ may_fail ->
  returns (ufat_dir_find target) w (fun e w' => search target (named <$> es) = inl e)
    (fun r w' => search target (named <$> es) = inr r /\ directory w' V start bs es /\ bpb (wfs w') = bpb (wfs w)).
Proof.
  intros Hd Hnf. destruct (directory_opened _ _ _ _ _ Hd) as [Ho H0]. destruct Hd as [H1 H2 H3 H4 H5].
  eapply returns_mono; [by apply (dir_find_holds _ start bs H2 H0 w V target es Ho), (entries_listing _ _ _ _ H5)| |].
  - intros e w' [((F1 & _) & _)|[E _]]; done.
  - intros r w' [E Hlo]. split; [done|]. pose proof (left_off_opened _ _ _ _ _ _ Hlo) as [O1 O2 O3 O4]. split; [|done]. split; rewrite ?O2; done.
Qed.

(** C19: The life of a file: made, it is found by its name with what it was made of; what was found is
    deleted; and it is not found any more. What is left is the directory as it was, the same
    entries in the same order, the same table and the same data. *)
Theorem file_life w V start bs es ent name :
  directory w V start bs es -> dated ent -> new_name es name -> room V bs name -> ~ may_fail ->
  returns (e ⇐ ufat_dir_mkfile ent name; r ⇐ ufat_dir_find name; on_ufat (ufat_dir_delete (default no_entry r)) ;? r' ⇐ ufat_dir_find name; ok (e, r, r')) w
    (fun _ _ => False)
    (fun '(e, r, r') w' => made_from (file_entry ent) e /\ r = Some e /\ r' = None /\ exists W es', directory w' W start bs es' /\
      named <$> es' = named <$> es /\ (forall c, 0 <= c < num_clusters (bpb (wfs w)) -> fat (bpb (wfs w)) W c = fat (bpb (wfs w)) V c) /\
      elsewhere (bpb (wfs w)) bs V W).
Proof.
  intros Hd He (N1 & N2 & N3 & N4 & N5) [k Hk] Hnf. destruct (directory_opened _ _ _ _ _ Hd) as [Ho H0]. pose proof (dy_volume _ _ _ _ _ Hd) as Hv. set (p := bpb (wfs w)) in *.
  eapply returns_check; [apply (mkfile_holds _ start bs Hv H0 w V es ent name k Ho (dy_entries _ _ _ _ _ Hd)); done|by intros e w' (F1 & _)|].
  intros e w1 (K1 & Hm & W1 & es1 & f1 & [O1 O2 O3 O4] & Hc & Hr & Ha). destruct (changed_is_dir _ _ _ _ _ Hv (dy_dir _ _ _ _ _ Hd) Hc) as [Hd1 Hf1].
  assert (directory w1 W1 start bs es1) as Hdir1 by (split; rewrite ?O2; [done..|by exists f1]).
  eapply returns_check; [by apply dir_found|by intros e' w' E; rewrite (search_added _ _ _ _ Ha N4) in E|].
  intros r w2 (E & Hdir2 & B2). rewrite (search_added _ _ _ _ Ha N4) in E. injection E as <-. cbn [default].
  rewrite O2 in B2. pose proof Ha as (s1 & s2 & A1 & A2). apply fmap_app_inv in A2 as (t1 & t2' & -> & A2 & ->). symmetry in A2.
  apply fmap_cons_inv in A2 as ([e0 lfn] & t2 & A3 & -> & ->). injection A3 as <- _. destruct Hdir2 as [P1 P2 P3 P4 P5]. rewrite B2 in P2, P3, P5.
  eapply returns_check; [apply on_ufat_returns, (dir_delete_holds (wfs w2) W1 start bs t1 e lfn t2 []); rewrite ?B2; try done; apply (made_file p W1 bs ent e Hm)|by intros err w3 [[F1 _] _]|].
  intros [] w3 [(M3 & W & HW & Hdel) D3]. rewrite B2 in Hdel. destruct Hdel as [D4 (t2' & D5 & D6) D7 D8]. pose proof M3 as [= _ B3 _ _]. rewrite B2 in B3.
  assert (directory w3 W start bs (t1 ++ t2')) as Hdir3 by (split; rewrite ?B3, ?D3; done).
  assert (named <$> t1 ++ t2' = named <$> es) as En by (by rewrite fmap_app, D6, A1).
  eapply returns_check; [by apply dir_found|by intros e' w' E; rewrite En, N4 in E|].
  intros r w4 (E & Hdir4 & _). rewrite En, N4 in E. injection E as <-. apply returns_ok. split_and!; try done.
  exists W, (t1 ++ t2'). split_and!; try done.
  - intros c Hr'. rewrite D7, decide_False by (done || apply not_elem_of_nil). by apply Hf1.
  - intros b Hbb Hin. rewrite D8 by done. by apply Hc.
Qed.

(** A name that is in use, in capitals or not, is refused by both functions that make entries, and
    nothing that can be seen changes. *)
Theorem used_name_refused w V start bs es ent name e0 :
  directory w V start bs es -> search name (named <$> es) = inr (Some e0) -> ~ may_fail ->
  let refused (e : Z) w' := e = (if ufat_lfn_is_legal name then - UFAT_ERR_FILE_EXISTS else - UFAT_ERR_ILLEGAL_NAME) /\ directory w' V start bs es in
  returns (ufat_dir_mkfile ent name) w refused (fun _ _ => False) /\ returns (ufat_dir_create ent name) w refused (fun _ _ => False).
Proof.
  intros Hd Hs Hnf refused. destruct (directory_opened _ _ _ _ _ Hd) as [Ho H0]. pose proof (dy_volume _ _ _ _ _ Hd) as Hv.
  assert (returns (check_new name) w refused (fun _ _ => False)) as Hc; [|split; (eapply returns_check; [exact Hc|done|done])].
  eapply returns_mono; [by apply (check_used_holds _ start bs Hv H0 w V name es e0 Ho (dy_entries _ _ _ _ _ Hd))| |by intros a w' Hf].
  intros e w' (-> & K & [O1 O2 O3 O4]). split; [done|]. destruct Hd as [H1 H2 H3 H4 H5]. split; rewrite ?O2; done.
Qed.

(** Storing the attributes of an entry changes its 32 bytes only, and of these neither its names
    nor its clusters and its size: the dates are those that are given, and of the attributes the
    ones a user may set, unless it is a directory. *)
Theorem attributes_stored (u : ufat D) V ent :
  holds u V -> shown (bpb u) (ent_block ent) -> entry_inside (ent_pos ent) UFAT_DIRENT_SIZE = true -> dated ent ->
  let old := ufat_parse_dirent (fat_type (bpb u)) (stored V ent) ent in
  returns (ufat_update_attributes ent) u (failed u V)
    (fun _ u' => exists W, holds u' W /\ meta u' = meta u /\
      (forall b, b <> ent_block ent -> W b = V b) /\ (exists d, length d = 32%nat /\ W (ent_block ent) = put (entry_offset (ent_pos ent)) d (V (ent_block ent))) /\
      let new := ufat_parse_dirent (fat_type (bpb u)) (stored W ent) ent in
      short_name new = short_name old /\ short_ext new = short_ext old /\ first_cluster new = first_cluster old /\ ent_size new = ent_size old /\
      [create_date new; create_time new; modify_date new; modify_time new; access_date new] =
        [create_date ent; create_time ent; modify_date ent; modify_time ent; access_date ent] /\
      forall i, 0 <= i -> Z.testbit (attributes new) i =
        if (Z.land (attributes old) UFAT_ATTR_DIRECTORY =? 0) && Z.testbit UFAT_ATTR_USER i then Z.testbit (attributes ent) i else Z.testbit (attributes old) i).
Proof.
  intros H Hb Hin Hd old. unfold ufat_update_attributes. eapply returns_check; [by apply cache_open_holds|done|].
  intros idx u1 (M1 & I1 & H1 & S1). go_gets. pose proof M1 as [= _ Bp _ _]. rewrite Bp. apply returns_bind. apply wp_require; [done|].
  pose proof (holds_block _ _ _ _ H Hb) as [L1 L2]. set (o := entry_offset (ent_pos ent)). set (f := on_entry _ _).
  assert (o + 32 <= length (V (ent_block ent)))%nat as Ho by (unfold entry_inside, UFAT_DIRENT_SIZE in Hin; unfold o, entry_offset, UFAT_DIRENT_SIZE; lia).
  assert (length (stored V ent) = 32%nat) as Hs by (unfold stored, sub; rewrite length_take, length_drop; fold o; lia).
  assert (dirent_ok (fat_type (bpb u)) (merge_attributes old ent)) as Hok by (apply merge_ok; [by apply parse_ok, Forall_sub|done]).
  pose (d := ufat_pack_dirent (merge_attributes old ent) (stored V ent)).
  assert (f (V (ent_block ent)) = put o d (V (ent_block ent))) as Ef by done.
  assert (length d = 32%nat) as Hld by (unfold d; by rewrite (length_pack _ _ (fat_type (bpb u)) Hok Hs)).
  eapply (write_block_holds u1 V idx (ent_block ent) f); [done|done| |].
  - intros [B1 B2]. rewrite Ef. split; [rewrite length_put; lia|]. apply Forall_put; [|done]. unfold d. apply (pack_dirent_bytes _ _ _ Hok). by apply Forall_sub.
  - intros u2 M2 I2 H2 D2. apply returns_ok. exists (vmod (ent_block ent) f V).
    assert (ufat_parse_dirent (fat_type (bpb u)) (stored (vmod (ent_block ent) f V) ent) ent = merge_attributes old ent) as Hp.
    { unfold stored, vmod. rewrite vset_same, Ef. fold o. rewrite sub_put_inside, Nat.sub_diag by lia. fold o in Hs.
      assert (put 0 d (sub o 32 (V (ent_block ent))) = d) as -> by (unfold put; cbn [take app]; rewrite drop_ge, app_nil_r by (unfold stored in Hs; fold o in Hs; lia); done).
      unfold d. by rewrite (parse_pack _ _ _ _ Hok Hs). }
    split; [done|]. split; [congruence|]. split; [intros b Hne; by apply vset_other|]. split; [exists d; split; [done|by unfold vmod; rewrite vset_same]|].
    cbv zeta. rewrite Hp. cbn [merge_attributes set_dates set_attributes short_name short_ext first_cluster ent_size create_date create_time modify_date modify_time access_date attributes].
    split_and!; try done. intros i Hi. destruct (_ =? 0); [by apply user_bits|done].
Qed.

End Claims.

(** * The theorems on a small volume

    The root directory of the volume of [demo_bpb], the block 3: an empty one, and one with an
    entry that has no long name. *)

Definition demo_entry : ufat_dirent := set_short [72; 69; 76; 76; 79] [84; 88; 84] (set_dates 0x5a21 0x6000 0x5a22 0x6001 0x5a23 (set_attributes UFAT_ATTR_ARCHIVE no_entry)).
Definition demo_named_disk : list Z := put (3 * 512) (ufat_pack_dirent demo_entry (replicate 32 0)) demo_disk.
Definition demo_walk (file : list Z) : walk (D := list Z) := mkWalk (demo_on file) (ufat_open_root demo_bpb).
Definition demo_entries (file : list Z) : list (ufat_dirent * ufat_lfn_parser) :=
  default [] (listing (fat_type demo_bpb) (slots (file_block file) [3]) new_parser).

Lemma demo_directory file : bool_decide (length file = 4096%nat /\ Forall is_byte file) = true ->
  (if read_all (fat_type demo_bpb) (slots (file_block file) [3]) new_parser then true else false) = true ->
  @directory _ _ demo_spec (demo_walk file) (file_block file) 3 [3] (demo_entries file).
Proof.
  intros Hok He. split.
  - by apply demo_on_holds, demo_file_ok.
  - apply demo_volume.
  - apply (is_root demo_bpb (file_block file)); [done|reflexivity].
  - reflexivity.
  - unfold entries, demo_entries. rewrite listing_read. destruct (read_all _ _ _) as [[es f]|]; [|done]. by exists f.
Qed.

Definition demo_name : list Z := chars "Notes.txt".

Lemma dir_find_refines_witness : exists e w', ufat_dir_find (chars "hello.txt") (demo_walk demo_named_disk) = Ret (inr (Some e)) w' /\ attributes e = UFAT_ATTR_ARCHIVE.
Proof.
  destruct (returns_never _ _ _ _ (@dir_find_refines _ _ demo_spec (demo_walk demo_named_disk) (file_block demo_named_disk) 3 [3] (demo_entries demo_named_disk) (chars "hello.txt")
    ltac:(apply demo_directory; by vm_compute))) as (r & w' & E & Hs & _).
  - intros e t [[[]|Hs] _]. revert Hs. vm_compute. discriminate.
  - assert (search (chars "hello.txt") (named <$> demo_entries demo_named_disk) = inr (Some (set_place 3 0 (set_lfn UFAT_BLOCK_NONE 0 demo_entry)))) as Hs' by (vm_compute; reflexivity).
    rewrite Hs' in Hs. injection Hs as <-. eexists _, w'. split; [exact E|reflexivity].
Defined.

Lemma demo_new : new_name (demo_entries demo_disk) demo_name /\ room (file_block demo_disk) [3] demo_name /\ dated demo_entry.
Proof.
  split; [|split].
  - split_and!; [by vm_compute|apply (bool_decide_unpack _); vm_compute; exact I|vm_compute; lia|by vm_compute|by vm_compute].
  - exists 0%nat. by vm_compute.
  - unfold dated. repeat constructor; by vm_compute.
Qed.


Lemma mkfile_then_find_witness : exists r w', (e ⇐ ufat_dir_mkfile demo_entry demo_name; r ⇐ ufat_dir_find demo_name; ok (e, r)) (demo_walk demo_disk) = Ret (inr r) w' /\
  made_from (file_entry demo_entry) r.1 /\ r.2 = Some r.1.
Proof.
  destruct demo_new as (H1 & H2 & H3).
  destruct (returns_never _ _ _ _ (@mkfile_then_find _ _ demo_spec (demo_walk demo_disk) (file_block demo_disk) 3 [3] (demo_entries demo_disk) demo_entry demo_name
    ltac:(apply demo_directory; by vm_compute) H3 H1 H2 ltac:(intros []))) as (r & w' & E & Hr & Hs); [done|].
  exists r, w'. split; [exact E|]. split; [exact Hr|exact Hs].
Defined.

(** The file of [demo_entry] with the two clusters of the data of the volume. *)
Definition demo_full_entry : ufat_dirent := set_ent_size 600 (set_first_cluster 2 demo_entry).
Definition demo_full_disk : list Z := put (3 * 512) (ufat_pack_dirent demo_full_entry (replicate 32 0)) demo_disk.
Definition demo_read_entry : ufat_dirent := set_place 3 0 (set_lfn UFAT_BLOCK_NONE 0 demo_full_entry).

Lemma demo_full : directory (DS := demo_spec) (demo_walk demo_full_disk) (file_block demo_full_disk) 3 [3] (demo_entries demo_full_disk).
Proof. apply demo_directory; by vm_compute. Qed.

Lemma demo_file_of : @deletable _ _ demo_bpb (file_block demo_full_disk) [3] demo_read_entry [2; 3].
Proof.
  split.
  - left. reflexivity.
  - reflexivity.
  - change (first_cluster demo_read_entry) with 2. cbn [chain]. split_and!; vm_compute; try done; intuition congruence.
  - apply (bool_decide_unpack _); vm_compute; exact I.
  - intros c Hc. rewrite !elem_of_cons, elem_of_nil in Hc. destruct Hc as [->|[->|[]]]; apply (bool_decide_unpack _); vm_compute; exact I.
Qed.

Lemma delete_removes_entry_witness : exists u' W, ufat_dir_delete demo_read_entry (demo_on demo_full_disk) = Ret (inr tt) u' /\
  @holds _ _ demo_spec u' W /\ entries demo_bpb [3] W [] /\ fat demo_bpb W 2 = UFAT_CLUSTER_FREE /\ fat demo_bpb W 3 = UFAT_CLUSTER_FREE.
Proof.
  assert (exists lfn, demo_entries demo_full_disk = [] ++ (demo_read_entry, lfn) :: []) as [lfn El] by (eexists; vm_compute; reflexivity).
  destruct demo_full as [H1 H2 H3 _ H5]. rewrite El in H5.
  destruct (returns_never _ _ _ _ (@delete_removes_entry _ _ demo_spec (demo_on demo_full_disk) (file_block demo_full_disk) 3 [3] [] demo_read_entry lfn [] [2; 3] H1 H2 H3 H5
    demo_file_of))
    as ([] & u' & E & _ & W & es' & HW & _ & Hes & Hn & Hf & _); [by intros e t [[] _]|].
  change (named <$> es' = []) in Hn. apply fmap_nil_inv in Hn as ->. exists u', W. split; [exact E|]. split; [exact HW|]. split; [exact Hes|].
  split; (etransitivity; [apply Hf; vm_compute; split; [discriminate|reflexivity]|reflexivity]).
Defined.

Lemma file_life_witness : exists e r r' w', (e ⇐ ufat_dir_mkfile demo_entry demo_name; r ⇐ ufat_dir_find demo_name; on_ufat (ufat_dir_delete (default no_entry r)) ;? r' ⇐ ufat_dir_find demo_name; ok (e, r, r')) (demo_walk demo_disk)
    = Ret (inr (e, r, r')) w' /\ r = Some e /\ r' = None.
Proof.
  destruct demo_new as (H1 & H2 & H3).
  destruct (returns_never _ _ _ _ (@file_life _ _ demo_spec (demo_walk demo_disk) (file_block demo_disk) 3 [3] (demo_entries demo_disk) demo_entry demo_name
    ltac:(apply demo_directory; by vm_compute) H3 H1 H2 ltac:(intros []))) as ([[e r] r'] & w' & E & _ & Hr & Hr' & _); [done|].
  exists e, r, r', w'. split; [exact E|]. split; [exact Hr|exact Hr'].
Defined.

Lemma used_name_refused_witness : exists w', ufat_dir_create demo_entry (chars "Hello.TXT") (demo_walk demo_named_disk) = Ret (inl (- UFAT_ERR_FILE_EXISTS)) w'.
Proof.
  destruct (@used_name_refused _ _ demo_spec (demo_walk demo_named_disk) (file_block demo_named_disk) 3 [3] (demo_entries demo_named_disk) demo_entry (chars "Hello.TXT")
    (set_place 3 0 (set_lfn UFAT_BLOCK_NONE 0 demo_entry)) ltac:(apply demo_directory; by vm_compute) ltac:(vm_compute; reflexivity) ltac:(intros [])) as [_ H].
  destruct (returns_cases _ _ _ _ H) as (w' & [(e & E & He & _)|(a & _ & [])]). exists w'. rewrite He in E. exact E.
Defined.

Lemma attributes_stored_witness : exists u' W, ufat_update_attributes (set_place 3 0 (set_attributes (Z.lor UFAT_ATTR_HIDDEN UFAT_ATTR_VOLLABEL) demo_entry)) (demo_on demo_named_disk) = Ret (inr tt) u' /\
  @holds _ _ demo_spec u' W /\ short_name (ufat_parse_dirent UFAT_TYPE_FAT12 (stored W (set_place 3 0 demo_entry)) demo_entry) = [72; 69; 76; 76; 79].
Proof.
  destruct (returns_never _ _ _ _ (@attributes_stored _ _ demo_spec (demo_on demo_named_disk) (file_block demo_named_disk) (set_place 3 0 (set_attributes (Z.lor UFAT_ATTR_HIDDEN UFAT_ATTR_VOLLABEL) demo_entry))
    ltac:(apply demo_on_holds, demo_file_ok; by vm_compute) ltac:(split; [change (0 <= 3 < 8 /\ 3 < 2 ^ 32); lia|unfold mirror; cbn; lia]) ltac:(by vm_compute) ltac:(unfold dated; repeat constructor; by vm_compute)))
    as ([] & u' & E & W & HW & _ & _ & _ & Hn & _); [by intros e t [[] _]|].
  exists u', W. split; [exact E|]. split; [exact HW|]. etransitivity; [exact Hn|]. vm_compute. reflexivity.
Defined.

(** * Corners of names *)

(** A last fragment with the number 0 is stored in front of the buffer. *)
Example fragment_zero : ufat_lfn_parse new_parser ([0x40] ++ replicate 10 0 ++ [0x0f] ++ replicate 20 0) 3 0 = None.
Proof. vm_compute. reflexivity. Qed.

(** The letter é, two bytes in UTF-8: its bytes are negative as [char]s, and its second one does
    not pass the test for a second byte. *)
Example accents_refused : ufat_lfn_is_legal [0xc3; 0xa9] = false /\ ufat_utf8_to_ucs2 [0xc3; 0xa9] = inl (- UFAT_ERR_BAD_ENCODING).
Proof. vm_compute. split; reflexivity. Qed.
