(* ===== verification/UfatFormat.v ===== *)
(** Formatting and opening: what is written to a device of blocks of 512 bytes, block by block, is
    an empty volume for the rest of the library. *)

From stdpp Require Import strings.
From S2P Require Import Prelude UfatDev UfatCache UfatView UfatFat UfatTable UfatChain UfatBpb UfatName UfatLong UfatMkfs UfatLayout UfatFile UfatDir UfatRead UfatWrite UfatWalk UfatInsert UfatMake UfatBlock UfatMount UfatSpec UfatDirSpec.
#[local] Open Scope Z_scope.

(** * The bytes of the tables *)

(** The byte [g] of an empty FAT12 table of [n] clusters. *)
Definition byte12 (n g : Z) : Z :=
  let pair_data := if n <=? Z.shiftl (g / 3) 1 then 0xff7ff7 else if n <=? Z.shiftl (g / 3) 1 + 1 then 0xff7000 else 0 in
  u8 (Z.shiftr pair_data (Z.shiftl (g mod 3) 3)).

Lemma next_byte g : 0 <= g -> (if 3 <=? g mod 3 + 1 then (0, g / 3 + 1) else (g mod 3 + 1, g / 3)) = ((g + 1) mod 3, (g + 1) / 3).
Proof. intros Hg. destruct (Z.leb_spec 3 (g mod 3 + 1)); f_equal; Z.div_mod_to_equations; lia. Qed.

Lemma fat12_bytes_spec k n : forall g, 0 <= g ->
  fat12_bytes k n (g mod 3) (g / 3) = (byte12 n <$> seqZ g (Z.of_nat k), (g + Z.of_nat k) mod 3, (g + Z.of_nat k) / 3).
Proof.
  induction k as [|k IH]; intros g Hg; cbn [fat12_bytes]; [by rewrite Z.add_0_r|]. rewrite next_byte, IH by lia.
  rewrite (seqZ_cons g) by lia. cbn [fmap list_fmap]. replace (Z.pred (Z.of_nat (S k))) with (Z.of_nat k) by lia.
  replace (g + Z.of_nat (S k)) with (g + 1 + Z.of_nat k) by lia. by replace (Z.succ g) with (g + 1) by lia.
Qed.

Lemma fat_entries_spec k bad n per : forall c, fat_entries per k bad n c = concat ((fun c => le_encode k (if n <=? c then bad else 0)) <$> seqZ c (Z.of_nat per)).
Proof.
  induction per as [|per IH]; intros c; cbn [fat_entries]; [done|]. rewrite seqZ_cons by lia. cbn [fmap list_fmap concat]. rewrite IH.
  replace (Z.pred (Z.of_nat (S per))) with (Z.of_nat per) by lia. by replace (Z.succ c) with (c + 1) by lia.
Qed.

(** The block [k] of a table. *)
Definition block12 (n k : Z) : list Z :=
  let buf := byte12 n <$> seqZ (k * 512) 512 in if k =? 0 then put 0 [MEDIA_DISK; 0x8f; 0xff] buf else buf.
Definition wide_block_of (per w : nat) (bad : Z) (first : list Z) (n k : Z) : list Z :=
  let buf := concat ((fun c => le_encode w (if n <=? c then bad else 0)) <$> seqZ (k * Z.of_nat per) (Z.of_nat per)) in if k =? 0 then put 0 first buf else buf.

Section Format.
Context {D : Type} {BD : BlockDevice D} {DS : DeviceSpec D}.
Hypothesis H9 : log2_block_size = 9.
Implicit Types (V W : Z -> list Z) (d : D).

Lemma block_512 : block_size = 512%nat.
Proof. unfold block_size. by rewrite H9. Qed.

(** * Writing blocks *)

(** A sector's worth of bytes. *)
Definition sector_ok (data : list Z) : Prop := length data = 512%nat /\ Forall is_byte data.

(** The device holds [ds] from [start] on, and [V] elsewhere. *)
Definition laid (start : Z) (ds : list (list Z)) V (b : Z) : list Z :=
  if start <=? b then default (V b) (ds !! Z.to_nat (b - start)) else V b.

Record stores d V : Prop := { st_ok : dev_ok d; st_block b : dev_has b -> dev_block d b = V b }.

Definition has (start n : Z) : Prop := forall b, start <= b < start + n -> 0 <= b < 2 ^ 64 /\ dev_has b.

Lemma put_block_holds d V b data : stores d V -> dev_has b -> sector_ok data ->
  returns (put_block b data) d (fun _ _ => may_fail) (fun _ d' => stores d' (laid b [data] V)).
Proof.
  intros [Hd Hv] Hb [Hl Hy]. unfold put_block, dev_store, returns, wp. destruct (dev_write b 1 data d) as [rc d'] eqn:E.
  destruct (dev_write_ok b 1 data d rc d' Hd ltac:(lia)) as (G1 & G2 & G3); [intros i Hi; by replace (b + Z.of_nat i) with b by lia|by rewrite Hl, block_512|done|exact E|].
  unfold mbind, prog_bind. rewrite E. destruct (rc <? 0); [done|]. cbn. split; [done|]. intros b' Hb'. unfold laid.
  destruct (Z.eq_dec b' b) as [->|Hne].
  - rewrite Z.leb_refl, Z.sub_diag. change (default (V b) ([data] !! Z.to_nat 0)) with data. specialize (G3 0%nat ltac:(lia)). rewrite Z.add_0_r in G3. rewrite G3. unfold sub. rewrite Nat.mul_0_l, drop_0. apply take_ge. rewrite Hl, block_512. lia.
  - rewrite G2, Hv by (done || lia). destruct (Z.leb_spec b b'); [|done]. by rewrite lookup_ge_None_2 by (cbn; lia).
Qed.

Lemma laid_nil start V b : laid start [] V b = V b.
Proof. unfold laid. by case_match. Qed.

Lemma laid_cons start x ds V b : laid (start + 1) ds (laid start [x] V) b = laid start (x :: ds) V b.
Proof.
  unfold laid. destruct (Z.leb_spec (start + 1) b), (Z.leb_spec start b); try lia; try done.
  - replace (Z.to_nat (b - start)) with (S (Z.to_nat (b - (start + 1)))) by lia. cbn [lookup list_lookup]. by destruct (ds !! _).
  - by replace (Z.to_nat (b - start)) with 0%nat by lia.
Qed.

Lemma stores_ext d V W : (forall b, V b = W b) -> stores d V -> stores d W.
Proof. intros E [H1 H2]. split; [done|]. intros b Hb. by rewrite <- E, H2. Qed.

Lemma put_then {A} d V b data (k : unit -> result D A) Q : stores d V -> dev_has b -> sector_ok data ->
  (forall d', stores d' (laid b [data] V) -> returns (k tt) d' (fun _ _ => may_fail) Q) ->
  returns (check (put_block b data) k) d (fun _ _ => may_fail) Q.
Proof. intros H Hb Hs Hk. eapply returns_check; [by apply (put_block_holds d V)|done|]. intros [] d' H'. by apply Hk. Qed.

Lemma has_here start n : has start n -> 0 < n -> u64 start = start /\ dev_has start.
Proof. intros H Hn. destruct (H start ltac:(lia)). split; [|done]. apply u64_id. lia. Qed.

Lemma has_tail start n : has start n -> has (start + 1) (n - 1).
Proof. intros H b Hb. apply H. lia. Qed.

Lemma erase_holds n : forall d V start, stores d V -> has start (Z.of_nat n) ->
  returns (erase_blocks n start) d (fun _ _ => may_fail) (fun _ d' => stores d' (laid start (replicate n (replicate 512 0)) V)).
Proof.
  induction n as [|n IH]; intros d V start H Hh; cbn [erase_blocks].
  - apply returns_ok. eapply stores_ext; [|exact H]. intros b. by rewrite laid_nil.
  - destruct (has_here _ _ Hh ltac:(lia)) as [-> Hb]. rewrite block_512. eapply put_then; [done|done|split; [by rewrite length_replicate|apply Forall_replicate; done]|].
    intros d' H'. eapply returns_mono; [apply (IH d' _ (start + 1) H'); apply has_tail in Hh; by replace (Z.of_nat (S n) - 1) with (Z.of_nat n) in Hh by lia|done|].
    intros [] d2 H2. eapply stores_ext; [|exact H2]. intros b. by rewrite laid_cons.
Qed.
(** * The tables *)

(** [n] blocks, the [m]th and so on of a table of [fb] blocks, and its copy behind it. *)
Fixpoint copies (blk : Z -> list Z) (fb : Z) (n : nat) (m : Z) : list (list Z) :=
  match n with O => [] | S n => let m := if m =? fb then 0 else m in blk m :: copies blk fb n (m + 1) end.

Lemma length_copies blk fb n : forall m, length (copies blk fb n m) = n.
Proof. induction n as [|n IH]; intros m; [done|]. cbn [copies length]. by rewrite IH. Qed.

Lemma copies_first blk fb n : forall m (j : nat), 0 <= m -> (j < n)%nat -> m + Z.of_nat j < fb -> copies blk fb n m !! j = Some (blk (m + Z.of_nat j)).
Proof.
  induction n as [|n IH]; intros m j Hm Hj Hf; [lia|]. cbn [copies]. destruct (Z.eqb_spec m fb); [lia|]. destruct j as [|j]; [by rewrite Z.add_0_r|].
  cbn [lookup list_lookup]. change (list_lookup j ?l) with (l !! j). rewrite IH by lia. f_equal. f_equal. lia.
Qed.

Lemma byte12_byte n g : is_byte (byte12 n g).
Proof. unfold byte12, u8, is_byte. apply Z.mod_pos_bound. lia. Qed.

Lemma block12_ok n k : sector_ok (block12 n k).
Proof.
  assert (length (byte12 n <$> seqZ (k * 512) 512) = 512%nat) as Hl by by rewrite length_fmap, length_seqZ.
  assert (Forall is_byte (byte12 n <$> seqZ (k * 512) 512)) as Hy by (apply Forall_fmap, Forall_forall; intros; apply byte12_byte).
  unfold block12. destruct (k =? 0); [|done]. split; [rewrite length_put; [done|rewrite Hl; cbn; lia]|]. apply Forall_put; [|done]. repeat constructor; unfold is_byte, MEDIA_DISK; lia.
Qed.

Lemma fat12_loop_holds fl n : forall d V i m minor cpair, stores d V -> has (reserved_blocks fl + i) (Z.of_nat n) -> 0 <= m <= fat_blocks fl -> 0 < fat_blocks fl ->
  (m < fat_blocks fl -> minor = (m * 512) mod 3 /\ cpair = m * 512 / 3) ->
  returns (fat12_loop n fl i m minor cpair) d (fun _ _ => may_fail) (fun _ d' => stores d' (laid (reserved_blocks fl + i) (copies (block12 (clusters fl)) (fat_blocks fl) n m) V)).
Proof.
  induction n as [|n IH]; intros d V i m minor cpair H Hh Hm Hf Hg; cbn [fat12_loop].
  - apply returns_ok. eapply stores_ext; [|exact H]. intros b. by rewrite laid_nil.
  - destruct (has_here _ _ Hh ltac:(lia)) as [Eu Hb]. cbn [copies]. set (m' := if m =? fat_blocks fl then 0 else m).
    assert (0 <= m' < fat_blocks fl) as Hm' by (unfold m'; destruct (Z.eqb_spec m (fat_blocks fl)); lia).
    assert ((if m =? fat_blocks fl then (0, 0, 0) else (m, minor, cpair)) = (m', (m' * 512) mod 3, m' * 512 / 3)) as ->.
    { unfold m'. destruct (Z.eqb_spec m (fat_blocks fl)); [done|]. destruct Hg as [-> ->]; [lia|done]. }
    rewrite block_512, fat12_bytes_spec, Eu by lia. change (Z.of_nat 512) with 512. eapply put_then; [done|done|apply block12_ok|]. intros d' H'.
    eapply returns_mono; [apply (IH d' _ (i + 1) (m' + 1) _ _ H')|done|].
    + replace (reserved_blocks fl + (i + 1)) with (reserved_blocks fl + i + 1) by lia. apply has_tail in Hh. by replace (Z.of_nat (S n) - 1) with (Z.of_nat n) in Hh by lia.
    + lia. + done. + intros _. by replace ((m' + 1) * 512) with (m' * 512 + 512) by lia.
    + intros [] d2 H2. eapply stores_ext; [|exact H2]. intros b. rewrite Z.add_assoc. apply laid_cons.
Qed.

Lemma wide_block_ok per w bad first n k : (per * w = 512)%nat -> (length first <= 512)%nat -> Forall is_byte first -> sector_ok (wide_block_of per w bad first n k).
Proof.
  intros Hp Hf Hy. unfold wide_block_of. set (l := concat _).
  assert (length l = 512%nat) as Hl.
  { unfold l. rewrite (length_concat_uniform w); [rewrite length_fmap, length_seqZ; lia|]. apply Forall_fmap, Forall_forall. intros c _. apply length_le_encode. }
  assert (Forall is_byte l) as Hb.
  { unfold l. apply Forall_concat, Forall_fmap, Forall_forall. intros c _. apply le_encode_bytes. }
  destruct (k =? 0); [|done]. split; [rewrite length_put; lia|]. by apply Forall_put.
Qed.

Lemma fat_loop_holds fl per w bad first n : (per * w = 512)%nat -> (length first <= 512)%nat -> Forall is_byte first ->
  forall d V i m c, stores d V -> has (reserved_blocks fl + i) (Z.of_nat n) -> 0 <= m <= fat_blocks fl -> 0 < fat_blocks fl -> (m < fat_blocks fl -> c = m * Z.of_nat per) ->
  returns (fat_loop n per w bad first fl i m c) d (fun _ _ => may_fail)
    (fun _ d' => stores d' (laid (reserved_blocks fl + i) (copies (wide_block_of per w bad first (clusters fl)) (fat_blocks fl) n m) V)).
Proof.
  intros Hp Hl Hy. induction n as [|n IH]; intros d V i m c H Hh Hm Hf Hg; cbn [fat_loop].
  - apply returns_ok. eapply stores_ext; [|exact H]. intros b. by rewrite laid_nil.
  - destruct (has_here _ _ Hh ltac:(lia)) as [Eu Hb]. cbn [copies]. set (m' := if m =? fat_blocks fl then 0 else m).
    assert (0 <= m' < fat_blocks fl) as Hm' by (unfold m'; destruct (Z.eqb_spec m (fat_blocks fl)); lia).
    assert ((if m =? fat_blocks fl then (0, 0) else (m, c)) = (m', m' * Z.of_nat per)) as ->.
    { unfold m'. destruct (Z.eqb_spec m (fat_blocks fl)); [done|]. by rewrite Hg by lia. }
    rewrite fat_entries_spec, Eu. eapply put_then; [done|done|by apply wide_block_ok|]. intros d' H'.
    eapply returns_mono; [apply (IH d' _ (i + 1) (m' + 1) _ H')|done|].
    + replace (reserved_blocks fl + (i + 1)) with (reserved_blocks fl + i + 1) by lia. apply has_tail in Hh. by replace (Z.of_nat (S n) - 1) with (Z.of_nat n) in Hh by lia.
    + lia. + done. + intros _. lia.
    + intros [] d2 H2. eapply stores_ext; [|exact H2]. intros b. rewrite Z.add_assoc. apply laid_cons.
Qed.
End Format.

Section Reading.
Context {D : Type} {BD : BlockDevice D} {DS : DeviceSpec D}.
Hypothesis H9 : log2_block_size = 9.
Context (p : ufat_bpb) (V : Z -> list Z) (fb : Z).

Lemma fat_byte_12 off : (forall m, 0 <= m < fb -> V (fat_start p + m) = block12 (num_clusters p) m) -> 3 <= off < fb * 512 -> fat_byte p V off = byte12 (num_clusters p) off.
Proof.
  intros HV Ho. unfold fat_byte, fat_block. pose proof (fat_place_mod off) as Hp. rewrite H9 in *. change (2 ^ 9) with 512 in Hp. rewrite Z.shiftr_div_pow2 by lia. change (2 ^ 9) with 512.
  rewrite HV by (Z.div_mod_to_equations; lia). set (k := off / 512) in *.
  assert ((byte12 (num_clusters p) <$> seqZ (k * 512) 512) !! fat_place off = Some (byte12 (num_clusters p) off)) as E.
  { rewrite list_lookup_fmap, lookup_seqZ_lt by (Z.div_mod_to_equations; lia). cbn. do 2 f_equal. unfold k. Z.div_mod_to_equations; lia. }
  unfold block12. destruct (Z.eqb_spec k 0) as [E0|E0]; [|by rewrite E].
  rewrite lookup_put by (rewrite length_fmap, length_seqZ; cbn; lia). rewrite decide_False; [by rewrite E|]. cbn [length]. unfold k in E0. Z.div_mod_to_equations; lia.
Qed.

Lemma table_12 c : fat_type p = UFAT_TYPE_FAT12 -> (forall m, 0 <= m < fb -> V (fat_start p + m) = block12 (num_clusters p) m) ->
  num_clusters p / 2 * 3 + 3 <= fb * 512 -> 2 <= c < num_clusters p -> fat p V c = UFAT_CLUSTER_FREE.
Proof.
  intros Ht HV Hf Hc. unfold fat, entry, UfatTable.raw. rewrite Ht. change (UFAT_TYPE_FAT12 =? UFAT_TYPE_FAT12) with true. cbv iota.
  assert (forall j, 0 <= j <= 2 -> fat_byte p V (c / 2 * 3 + j) = u8 (Z.shiftr (if num_clusters p <=? c / 2 * 2 + 1 then 0xff7000 else 0) (j * 8))) as Hb.
  { intros j Hj. rewrite fat_byte_12 by (done || Z.div_mod_to_equations; lia). unfold byte12.
    replace ((c / 2 * 3 + j) / 3) with (c / 2) by (Z.div_mod_to_equations; lia). replace ((c / 2 * 3 + j) mod 3) with j by (Z.div_mod_to_equations; lia).
    rewrite !Z.shiftl_mul_pow2 by lia. change (2 ^ 1) with 2. change (2 ^ 3) with 8. by rewrite (proj2 (Z.leb_gt (num_clusters p) (c / 2 * 2))) by (Z.div_mod_to_equations; lia). }
  pose proof (Hb 0 ltac:(lia)) as Hb0. rewrite Z.add_0_r in Hb0. unfold raw12. cbv zeta. rewrite Hb0, !Hb by lia. destruct (Z.odd c) eqn:Eo.
  - rewrite (proj2 (Z.leb_gt _ _)); [done|]. rewrite Zodd_mod in Eo. apply Zeq_bool_eq in Eo. Z.div_mod_to_equations; lia.
  - by destruct (_ <=? _).
Qed.
(** The entry [c] of a table with entries of [2 ^ e] bytes. *)
Lemma entry_wide e bad first c : e = 1 \/ e = 2 -> let per := Z.to_nat (2 ^ (9 - e)) in let w := Z.to_nat (2 ^ e) in (length first <= 512)%nat -> Z.of_nat (length first) mod 2 ^ e = 0 ->
  (forall m, 0 <= m < fb -> V (fat_start p + m) = wide_block_of per w bad first (num_clusters p) m) -> 0 <= c -> c * 2 ^ e < fb * 512 ->
  wide_entry e p V c = if c * 2 ^ e + 2 ^ e <=? Z.of_nat (length first) then sub (Z.to_nat (c * 2 ^ e)) w first else le_encode w (if num_clusters p <=? c then bad else 0).
Proof.
  intros He per w Hfirst Hm HV Hc Hf.
  assert (0 < 2 ^ e /\ 0 < 2 ^ (9 - e) /\ 2 ^ e * 2 ^ (9 - e) = 512) as (Hw & Hp & Hpw) by (destruct He as [-> | ->]; done).
  assert (per * w = 512)%nat as Hpw' by (unfold per, w; destruct He as [-> | ->]; done). assert (Z.of_nat per = 2 ^ (9 - e)) as Eper by (unfold per; lia). assert (Z.of_nat w = 2 ^ e) as Ew by (unfold w; lia).
  assert (0 <= 9 - e) as He9 by lia. unfold wide_entry, wide_offset. rewrite (wide_place_mod e c) by lia. rewrite H9. unfold wide_block. rewrite Z.shiftr_div_pow2 by lia. fold w.
  pose proof (Z.div_mod c (2 ^ (9 - e)) ltac:(lia)) as Ec. pose proof (Z.mod_pos_bound c (2 ^ (9 - e)) Hp) as Hr. pose proof (Z.div_pos c (2 ^ (9 - e)) Hc Hp) as Hq.
  assert (c / 2 ^ (9 - e) < fb) as Hkf by (apply Z.div_lt_upper_bound; [lia|]; apply (Z.mul_lt_mono_pos_r (2 ^ e)); [lia|]; replace (2 ^ (9 - e) * fb * 2 ^ e) with (fb * 512) by (rewrite <- Hpw; ring); lia).
  clearbody per w. set (k := c / 2 ^ (9 - e)) in *. set (r := c mod 2 ^ (9 - e)) in *. rewrite HV by lia. unfold wide_block_of. rewrite Eper.
  set (ls := (fun c => le_encode w (if num_clusters p <=? c then bad else 0)) <$> seqZ (k * 2 ^ (9 - e)) (2 ^ (9 - e))).
  assert (Forall (fun x => length x = w) ls) as Hls by (apply Forall_fmap, Forall_forall; intros; apply length_le_encode).
  assert (ls !! Z.to_nat r = Some (le_encode w (if num_clusters p <=? c then bad else 0))) as Hlk.
  { unfold ls. rewrite list_lookup_fmap, lookup_seqZ_lt by lia. by replace (k * 2 ^ (9 - e) + Z.of_nat (Z.to_nat r)) with c by lia. }
  assert (sub (Z.to_nat (r * 2 ^ e)) w (concat ls) = le_encode w (if num_clusters p <=? c then bad else 0)) as Hsub.
  { replace (Z.to_nat (r * 2 ^ e)) with (Z.to_nat r * w + 0)%nat by nia. rewrite (sub_block w ls (Z.to_nat r) 0 w _ Hls Hlk) by lia. unfold sub. rewrite drop_0. apply take_ge. by rewrite length_le_encode. }
  assert (length (concat ls) = 512%nat) as Hl by (rewrite (length_concat_uniform w) by done; unfold ls; rewrite length_fmap, length_seqZ; nia).
  assert (0 <= c * 2 ^ e) as Hx by nia. destruct (Z.eqb_spec k 0) as [E0|E0].
  - assert (r = c) as Erc by nia. rewrite Erc in *. destruct (Z.leb_spec (c * 2 ^ e + 2 ^ e) (Z.of_nat (length first))).
    + change (put 0 first (concat ls)) with (first ++ drop (length first) (concat ls)). unfold sub. rewrite drop_app_le, take_app_le by (rewrite ?length_drop; lia). done.
    + rewrite sub_put_other; [exact Hsub| |lia]. right. apply Z.mod_divide in Hm as [z Hz]; [|lia]. rewrite Hz in *. assert (z < c + 1) by nia. nia.
  - rewrite Hsub. destruct (Z.leb_spec (c * 2 ^ e + 2 ^ e) (Z.of_nat (length first))); [|done]. exfalso. nia.
Qed.
Definition first_16 : list Z := le_encode 2 (Z.lor 0xff00 MEDIA_DISK) ++ le_encode 2 0xfff8.
Definition first_32 : list Z := le_encode 4 (Z.lor 0xffffff00 MEDIA_DISK) ++ le_encode 4 0xfffffff8 ++ le_encode 4 0xfffffff8.

Lemma table_16 c : fat_type p = UFAT_TYPE_FAT16 -> (forall m, 0 <= m < fb -> V (fat_start p + m) = wide_block_of 256 2 0xfff7 first_16 (num_clusters p) m) ->
  num_clusters p * 2 <= fb * 512 -> 2 <= c < num_clusters p -> fat p V c = UFAT_CLUSTER_FREE.
Proof.
  intros Ht HV Hf Hc. unfold fat, entry, UfatTable.raw. rewrite Ht. change (UFAT_TYPE_FAT16 =? UFAT_TYPE_FAT12) with false. change (UFAT_TYPE_FAT16 =? UFAT_TYPE_FAT16) with true. cbv iota.
  rewrite (entry_wide 1 0xfff7 first_16 c ltac:(by left) ltac:(by apply Nat.leb_le) eq_refl HV) by (change (2 ^ 1) with 2; lia). change (2 ^ 1) with 2. change (Z.of_nat (length first_16)) with 4.
  by rewrite (proj2 (Z.leb_gt (c * 2 + 2) 4)), (proj2 (Z.leb_gt (num_clusters p) c)) by lia.
Qed.

Lemma table_32 c : fat_type p = UFAT_TYPE_FAT32 -> (forall m, 0 <= m < fb -> V (fat_start p + m) = wide_block_of 128 4 0xfffffff7 first_32 (num_clusters p) m) ->
  num_clusters p * 4 <= fb * 512 -> 2 <= c < num_clusters p -> fat p V c = if c =? 2 then UFAT_CLUSTER_EOC else UFAT_CLUSTER_FREE.
Proof.
  intros Ht HV Hf Hc. unfold fat, entry, UfatTable.raw. rewrite Ht. change (UFAT_TYPE_FAT32 =? UFAT_TYPE_FAT12) with false. change (UFAT_TYPE_FAT32 =? UFAT_TYPE_FAT16) with false. cbv iota.
  rewrite (entry_wide 2 0xfffffff7 first_32 c ltac:(by right) ltac:(by apply Nat.leb_le) eq_refl HV) by (change (2 ^ 2) with 4; lia). change (2 ^ 2) with 4. change (Z.of_nat (length first_32)) with 12.
  destruct (Z.eqb_spec c 2) as [->|Hne]; [done|]. by rewrite (proj2 (Z.leb_gt (c * 4 + 4) 12)), (proj2 (Z.leb_gt (num_clusters p) c)) by lia.
Qed.

(** * An empty directory *)

Lemma read_nothing_in type (l : list dslot) : Forall (fun x => slot_data x = replicate 32 0) l -> forall s, exists f, read_all type l s = Some ([], f).
Proof.
  induction 1 as [|x l Hx Hl IH]; intros s; cbn [read_all]; [by exists s|].
  assert (digest type x s = Some (inl (ufat_lfn_reset s))) as -> by (destruct x as [[data b] pos]; cbn in Hx; subst data; done). apply IH.
Qed.

Lemma empty_entries bs : (forall b, b ∈ bs -> V b = replicate 512 0) -> entries p bs V [].
Proof.
  intros Hb. apply (read_nothing_in (fat_type p)). unfold slots. apply Forall_concat, Forall_fmap, Forall_forall. intros b Hin. unfold block_slots. apply Forall_fmap, Forall_forall.
  intros j Hj%elem_of_seq. cbn. unfold raw. rewrite Hb by done. unfold in_block in Hj. rewrite (block_512 H9) in Hj. change (512 / 32)%nat with 16%nat in Hj.
  unfold sub. rewrite drop_replicate, take_replicate. by replace (32 `min` (512 - j * 32))%nat with 32%nat by lia.
Qed.
End Reading.

(** * The volume *)

Definition table_block (fl : fs_layout) (m : Z) : list Z :=
  if layout_type fl =? UFAT_TYPE_FAT12 then block12 (clusters fl) m
  else if layout_type fl =? UFAT_TYPE_FAT16 then wide_block_of 256 2 0xfff7 first_16 (clusters fl) m
  else wide_block_of 128 4 0xfffffff7 first_32 (clusters fl) m.

Definition root_at (fl : fs_layout) : Z := fat_blocks fl * 2 + reserved_blocks fl.
Definition root_length (fl : fs_layout) : Z := if layout_type fl =? UFAT_TYPE_FAT32 then 2 ^ log2_bpc fl else root_blocks fl.

(** What a formatted device holds. *)
Record formatted (fl : fs_layout) (V : Z -> list Z) : Prop := {
  fm_boot : V 0 = boot_sector 9 fl;
  fm_table m : 0 <= m < fat_blocks fl -> V (reserved_blocks fl + m) = table_block fl m;
  fm_root b : root_at fl <= b < root_at fl + root_length fl -> V b = replicate 512 0
}.

Lemma laid_out start ds V b : b < start \/ start + Z.of_nat (length ds) <= b -> laid start ds V b = V b.
Proof. intros Hb. unfold laid. destruct (Z.leb_spec start b); [|done]. by rewrite lookup_ge_None_2 by lia. Qed.

Lemma laid_in start ds V b x : start <= b -> ds !! Z.to_nat (b - start) = Some x -> laid start ds V b = x.
Proof. intros Hb Hx. unfold laid. rewrite (proj2 (Z.leb_le _ _)) by done. by rewrite Hx. Qed.

(** The parts of the layout, in their order. *)
Lemma layout_parts n fl : layout_ok n fl ->
  1 <= reserved_blocks fl <= 32 /\ (layout_type fl = UFAT_TYPE_FAT32 -> reserved_blocks fl = 32) /\ 0 < fat_blocks fl /\ 0 < root_length fl /\
  root_at fl = reserved_blocks fl + fat_blocks fl * 2 /\ root_at fl + root_length fl <= logical_blocks fl /\ logical_blocks fl <= n /\ n < 2 ^ 32.
Proof.
  intros [L0 L1 L2 L3 L4 L5 L6 L7]. unfold root_at, root_length. assert (0 < 2 ^ log2_bpc fl) as Hk by lia.
  destruct L7 as [(E & C)|[(E & C)|(E & C)]]; rewrite E in *; cbn [Z.eqb] in *.
  - change (UFAT_TYPE_FAT12 =? UFAT_TYPE_FAT32) with false in *. cbv iota in *. assert (0 <= (clusters fl - 2) * 2 ^ log2_bpc fl) by (apply Z.mul_nonneg_nonneg; lia). split_and!; (lia || done).
  - change (UFAT_TYPE_FAT16 =? UFAT_TYPE_FAT32) with false in *. cbv iota in *. assert (0 <= (clusters fl - 2) * 2 ^ log2_bpc fl) by (apply Z.mul_nonneg_nonneg; lia). split_and!; (lia || done).
  - change (UFAT_TYPE_FAT32 =? UFAT_TYPE_FAT32) with true in *. cbv iota in *. assert (2 ^ log2_bpc fl <= (clusters fl - 2) * 2 ^ log2_bpc fl) by nia. split_and!; (lia || done).
Qed.

Section Volume.
Context {D : Type} {BD : BlockDevice D} {DS : DeviceSpec D}.
Hypothesis H9 : log2_block_size = 9.
Implicit Types (V W : Z -> list Z) (d : D).
Notation stores := (stores (D := D)).

Lemma tables_hold n fl d V : layout_ok n fl -> stores d V -> has 0 n ->
  returns (if layout_type fl =? UFAT_TYPE_FAT12 then init_fat12 fl else if layout_type fl =? UFAT_TYPE_FAT16 then init_fat16 fl else init_fat32 fl) d (fun _ _ => may_fail)
    (fun _ d' => stores d' (laid (reserved_blocks fl) (copies (table_block fl) (fat_blocks fl) (Z.to_nat (fat_blocks fl * 2)) 0) V)).
Proof.
  intros Hl H Hh. destruct (layout_parts n fl Hl) as (P1 & _ & P2 & P3 & P4 & P5 & P6 & P7).
  assert (has (reserved_blocks fl + 0) (Z.of_nat (Z.to_nat (fat_blocks fl * 2)))) as Hh' by (intros b Hb; apply Hh; lia).
  replace (laid (reserved_blocks fl)) with (laid (reserved_blocks fl + 0)) by (by rewrite Z.add_0_r). unfold table_block.
  destruct (layout_type fl =? UFAT_TYPE_FAT12); [|destruct (layout_type fl =? UFAT_TYPE_FAT16)].
  - apply (fat12_loop_holds H9); (done || lia).
  - unfold init_fat16. rewrite (block_512 H9). apply (fat_loop_holds H9); try (done || lia); [by apply Nat.leb_le|]. unfold first_16. apply Forall_app; split; apply le_encode_bytes.
  - unfold init_fat32. rewrite (block_512 H9). apply (fat_loop_holds H9); try (done || lia); [by apply Nat.leb_le|]. apply Forall_app; split; [apply le_encode_bytes|apply Forall_app; split; apply le_encode_bytes].
Qed.
Lemma sector_put o new (l : list Z) : sector_ok l -> (o + length new <=? 512)%nat = true -> Forall is_byte new -> sector_ok (put o new l).
Proof. intros [Hl Hy] Ho%Nat.leb_le Hn. split; [rewrite length_put; lia|by apply Forall_put]. Qed.

Lemma sector_zeros : sector_ok (replicate 512 0).
Proof. split; [apply length_replicate|by apply Forall_replicate]. Qed.

Lemma byte_const x : is_byte x -> Forall is_byte [x].
Proof. intros Hx. constructor; [done|constructor]. Qed.

Lemma boot_sector_ok fl : sector_ok (boot_sector 9 fl).
Proof.
  unfold boot_sector. change (Z.to_nat (Z.shiftl 1 9)) with 512%nat. unfold store, w16, w32.
  set (name := chars _). assert (length name = 8%nat /\ Forall is_byte name) as [Hn1 Hn2].
  { subst name. repeat case_match; (split; [done|]); apply (bool_decide_unpack _); vm_compute; exact I. }
  clearbody name. assert (forall x, Forall is_byte [u8 x]) as Hu by (intros x; apply byte_const; unfold u8, is_byte; apply Z.mod_pos_bound; lia).
  assert (forall x, x <? 256 = true -> 0 <=? x = true -> Forall is_byte [x]) as Hx by (intros x H1%Z.ltb_lt H2%Z.leb_le; apply byte_const; unfold is_byte; lia).
  assert (Forall is_byte boot_header) as Hh by (apply (bool_decide_unpack _); vm_compute; exact I).
  repeat case_match;
    repeat (apply sector_put; [|first [reflexivity|apply Nat.leb_le; rewrite Hn1; cbn; lia]|
      first [apply le_encode_bytes|apply Hu|exact Hn2|exact Hh|by apply Forall_replicate|by apply Hx]]); apply sector_zeros.
Qed.

Lemma fsinfo_ok fl : sector_ok (fsinfo fl).
Proof. unfold fsinfo, w32. rewrite (block_512 H9). repeat (apply sector_put; [|reflexivity|apply le_encode_bytes]). apply sector_zeros. Qed.

Lemma boot_holds n fl d V : layout_ok n fl -> stores d V -> has 0 n ->
  returns (write_bpb fl) d (fun _ _ => may_fail) (fun _ d' => exists W, stores d' W /\ W 0 = boot_sector 9 fl /\ forall b, reserved_blocks fl <= b -> W b = V b).
Proof.
  intros Hl H Hh. destruct (layout_parts n fl Hl) as (P1 & P0 & P2 & P3 & P4 & P5 & P6 & P7). pose proof (lo_sector _ _ Hl) as Hs. unfold write_bpb. rewrite H9, Hs.
  change (Z.shiftr BACKUP_SECTOR (9 - 9)) with 6. eapply put_then; [done|done|apply Hh; lia|apply boot_sector_ok|]. intros d' H'.
  destruct (Z.eqb_spec (layout_type fl) UFAT_TYPE_FAT32) as [E|E].
  - rewrite (P0 E) in *. eapply returns_mono; [apply (put_block_holds H9 d' _ 6 _ H'); [apply Hh; lia|apply boot_sector_ok]|done|].
    intros [] d2 H2. eexists. split; [exact H2|]. split; [done|]. intros b Hb. rewrite !laid_out by (cbn [length]; lia). done.
  - apply returns_ok. eexists. split; [exact H'|]. split; [done|]. intros b Hb. rewrite laid_out by (cbn [length]; lia). done.
Qed.

(** Formatting succeeds unless the device fails, and leaves a formatted volume. *)
Lemma mkfs_holds n d : 64 <= n < 2 ^ 32 -> dev_ok d -> has 0 n ->
  returns (ufat_mkfs n) d (fun _ _ => may_fail) (fun _ d' => exists fl V, layout_ok n fl /\ stores d' V /\ formatted fl V).
Proof.
  intros Hn Hd Hh. destruct (layout_512 n Hn) as (fl & El & Hl). unfold ufat_mkfs. rewrite H9, El. destruct (layout_parts n fl Hl) as (P1 & P0 & P2 & P3 & P4 & P5 & P6 & P7).
  assert (stores d (dev_block d)) as H0 by by split.
  eapply returns_check; [apply (erase_holds H9 _ d _ 0 H0); intros b Hb; apply Hh; lia|done|]. intros [] d1 H1.
  eapply returns_check; [by apply (tables_hold n fl d1 _ Hl H1)|done|]. intros [] d2 H2. set (V2 := laid (reserved_blocks fl) _ _) in H2.
  apply (returns_check _ _ _ (fun _ _ => may_fail) (fun _ d' => stores d' (laid (root_at fl) (replicate (Z.to_nat (root_length fl)) (replicate 512 0)) V2))).
  { assert (u64 (root_at fl) = root_at fl) as Eu by (apply u64_id; lia). assert (has (root_at fl) (Z.of_nat (Z.to_nat (root_length fl)))) as Hr by (intros b Hb; apply Hh; lia).
    unfold init_root_cluster, init_root_blocks. fold (root_at fl). unfold root_length in *. destruct (Z.eqb_spec (layout_type fl) UFAT_TYPE_FAT32) as [E|E].
    - assert (root_blocks fl = 0) as -> by (destruct (lo_type _ _ Hl) as [[Ht _]|[[Ht _]|Ht]]; [by rewrite E in Ht|by rewrite E in Ht|tauto]).
      rewrite Z.add_0_r, Eu, Z.shiftl_1_l. by apply (erase_holds H9).
    - rewrite Eu. by apply (erase_holds H9). }
  { done. }
  intros [] d3 H3. set (V3 := laid (root_at fl) _ _) in H3.
  apply (returns_check _ _ _ (fun _ _ => may_fail) (fun _ d' => exists V4, stores d' V4 /\ forall b, reserved_blocks fl <= b -> V4 b = V3 b)); [|done|].
  { destruct (Z.eqb_spec (layout_type fl) UFAT_TYPE_FAT32) as [E|E]; [|apply returns_ok; by exists V3]. unfold write_fsinfo. rewrite (lo_sector _ _ Hl), H9. rewrite (P0 E) in *.
    change (Z.shiftr FSINFO_SECTOR (9 - 9)) with 1. change (Z.shiftr (FSINFO_SECTOR + BACKUP_SECTOR) (9 - 9)) with 7.
    eapply put_then; [done|done|apply Hh; lia|apply fsinfo_ok|]. intros d4 H4. eapply returns_mono; [apply (put_block_holds H9 d4 _ 7 _ H4); [apply Hh; lia|apply fsinfo_ok]|done|].
    intros [] d5 H5. eexists. split; [exact H5|]. intros b Hb. rewrite !laid_out by (cbn [length]; lia). done. }
  intros [] d4 (V4 & H4 & E4). eapply returns_mono; [by apply (boot_holds n fl d4 V4)|done|]. intros [] d5 (W & H5 & Eb & Eo). exists fl, W. split; [done|]. split; [done|]. split; [done| |].
  - intros m Hm. rewrite Eo, E4 by lia. unfold V3. rewrite laid_out by lia. unfold V2. apply laid_in; [lia|].
    replace (Z.to_nat (reserved_blocks fl + m - reserved_blocks fl)) with (Z.to_nat m) by lia. rewrite copies_first by lia. f_equal. f_equal. lia.
  - intros b Hb. rewrite Eo, E4 by lia. unfold V3. apply laid_in; [lia|]. apply lookup_replicate_2. lia.
Qed.
(** * Opening it *)

Lemma formatted_volume n fl : layout_ok n fl -> has 0 n -> volume (layout_bpb fl).
Proof.
  intros Hl Hh. destruct (layout_parts n fl Hl) as (P1 & P0 & P2 & P3 & P4 & P5 & P6 & P7). pose proof Hl as [L0 L1 L2 L3 L4 L5 L6 L7].
  assert (0 < 2 ^ log2_bpc fl) as Hk by lia.
  split; unfold cluster_blocks, end_block, table_bytes, fat_bytes, max_clusters;
    cbn [layout_bpb fat_type fat_start fat_size fat_count num_clusters log2_blocks_per_cluster root_start root_size cluster_start]; rewrite ?H9.
  - destruct L7 as [[? _]|[[? _]|[? _]]]; auto.
  - lia.
  - destruct L7 as [(-> & C)|[(-> & C)|(-> & C)]]; cbn; lia.
  - rewrite Z.shiftl_mul_pow2 by lia. change (2 ^ 9) with 512. destruct L7 as [(-> & C)|[(-> & C)|(-> & C)]]; cbn [Z.eqb]; simpl; lia.
  - lia.
  - rewrite Z.shiftl_1_l. lia.
  - destruct L7 as [(E & C)|[(E & C)|(E & C)]]; lia.
  - intros b Hb. apply Hh. unfold cluster_blocks in Hb. cbn [layout_bpb log2_blocks_per_cluster] in Hb. rewrite Z.shiftl_1_l in Hb. lia.
Qed.

(** No cluster is in use but the one of the root directory, where it has one. *)
Lemma formatted_table n fl V c : layout_ok n fl -> formatted fl V -> 2 <= c < clusters fl ->
  fat (layout_bpb fl) V c = if (layout_type fl =? UFAT_TYPE_FAT32) && (c =? 2) then UFAT_CLUSTER_EOC else UFAT_CLUSTER_FREE.
Proof.
  intros Hl [_ Ht _] Hc. destruct (lo_type _ _ Hl) as [(E & C)|[(E & C)|(E & C)]]; unfold table_block in Ht; rewrite E in *.
  - change (UFAT_TYPE_FAT12 =? UFAT_TYPE_FAT32) with false. apply (table_12 H9 _ V (fat_blocks fl)); try done; change (num_clusters (layout_bpb fl)) with (clusters fl); lia.
  - change (UFAT_TYPE_FAT16 =? UFAT_TYPE_FAT32) with false. apply (table_16 H9 _ V (fat_blocks fl)); try done; change (num_clusters (layout_bpb fl)) with (clusters fl); lia.
  - change (UFAT_TYPE_FAT32 =? UFAT_TYPE_FAT32) with true. apply (table_32 H9 _ V (fat_blocks fl)); try done; change (num_clusters (layout_bpb fl)) with (clusters fl); lia.
Qed.
Lemma formatted_root n fl V : layout_ok n fl -> has 0 n -> formatted fl V -> let p := layout_bpb fl in
  exists bs, is_dir p V (dir_start (ufat_open_root p)) bs /\ entries p bs V [].
Proof.
  intros Hl Hh Hf p. pose proof (formatted_volume n fl Hl Hh) as Hv. destruct (layout_parts n fl Hl) as (P1 & P0 & P2 & P3 & P4 & P5 & P6 & P7). pose proof (fm_root _ _ Hf) as Hr. unfold root_length in *.
  destruct (Z.eqb_spec (layout_type fl) UFAT_TYPE_FAT32) as [E|E].
  - assert (3 <= clusters fl /\ root_blocks fl = 0) as [Hc Hr0] by (destruct (lo_type _ _ Hl) as [[Ht _]|[[Ht _]|Ht]]; [by rewrite E in Ht|by rewrite E in Ht|lia]).
    exists (chain_blocks p [2]). split.
    + unfold ufat_open_root, p. cbn [layout_bpb root_cluster dir_start]. rewrite E. change (UFAT_TYPE_FAT32 =? UFAT_TYPE_FAT32) with true. change (2 =? 0) with false. cbv iota. cbn [dir_start].
      apply is_chain; [|apply NoDup_singleton|done]. cbn [chain]. split_and!; [done|done|cbn; lia|]. rewrite (formatted_table n fl V 2) by (done || lia). by rewrite E.
    + apply (empty_entries H9). intros b (c & k & ->%list_elem_of_singleton & Hk & ->)%elem_of_chain_blocks. apply Hr. unfold root_at, data_block, cluster_blocks, p in *.
      cbn [layout_bpb cluster_start log2_blocks_per_cluster] in *. rewrite Z.shiftl_1_l in Hk. lia.
  - exists (seqZ (root_start p) (root_size p)). split.
    + assert (dir_start (ufat_open_root p) = root_start p) as ->.
      { unfold ufat_open_root, p. cbn [layout_bpb root_cluster]. by rewrite (proj2 (Z.eqb_neq _ _) E). }
      apply is_root; unfold p; cbn; lia.
    + apply (empty_entries H9). intros b Hb%elem_of_seqZ. apply Hr. unfold root_at, p in *. cbn [layout_bpb root_start root_size] in Hb. lia.
Qed.

Lemma formatted_ext n fl V W : layout_ok n fl -> (forall b, 0 <= b < n -> W b = V b) -> formatted fl V -> formatted fl W.
Proof.
  intros Hl E [F1 F2 F3]. destruct (layout_parts n fl Hl) as (P1 & P0 & P2 & P3 & P4 & P5 & P6 & P7).
  split; [rewrite E by lia; done|intros m Hm; rewrite E by lia; by apply F2|intros b Hb; rewrite E by lia; by apply F3].
Qed.

(** C20: A device of [n] blocks of 512 bytes, whatever it holds, is formatted and opened: the type of
    the volume goes by [n], the volume fits the device, its root directory is open and empty, and
    every cluster is free but the one that the root directory has on FAT32.  Both calls fail only
    when the device does. *)
Theorem format_then_open n d (u : ufat D) : 64 <= n < 2 ^ 32 -> dev_ok d -> (forall b, 0 <= b < n -> dev_has b) ->
  arrays_ok u -> geometry (bpb u) -> (forall b, ~ mirror (bpb u) b) ->
  returns (ufat_mkfs n) d (fun _ _ => may_fail) (fun _ d' =>
    returns ufat_open (set_disk d' u) (fun _ _ => may_fail) (fun _ u' => let p := bpb u' in
      fat_type p = (if n <? 8400 then UFAT_TYPE_FAT12 else if n <? 1048576 then UFAT_TYPE_FAT16 else UFAT_TYPE_FAT32) /\ end_block p <= n /\ alloc_ok u' /\
      exists V start bs, directory (mkWalk u' (ufat_open_root p)) V start bs [] /\
        forall c, 2 <= c < num_clusters p -> fat p V c = if (fat_type p =? UFAT_TYPE_FAT32) && (c =? 2) then UFAT_CLUSTER_EOC else UFAT_CLUSTER_FREE)).
Proof.
  intros Hn Hd Hhas Ha Hg Hm. assert (has 0 n) as Hh by (intros b Hb; split; [lia|apply Hhas; lia]).
  eapply returns_mono; [by apply mkfs_holds|done|]. intros [] d' (fl & V & Hl & [Hok Hst] & Hf). destruct (layout_parts n fl Hl) as (P1 & P0 & P2 & P3 & P4 & P5 & P6 & P7).
  apply (formatted_ext n fl V (dev_block d')) in Hf; [|done|intros b Hb; by apply Hst, Hhas].
  eapply returns_mono; [apply (open_holds (set_disk d' u) (layout_bpb fl))| |]; try done.
  - apply Hhas. lia. - cbn [bpb disk set_disk]. rewrite (fm_boot _ _ Hf), H9. by apply (parse_boot n). - by apply (formatted_volume n).
  - by intros e t [F _].
  - intros [] u' (Eb & _ & Hal & Hv). cbn [disk set_disk] in Hv. rewrite Eb. split; [apply (lo_kind _ _ Hl)|]. split; [|split; [done|]].
    + unfold end_block, cluster_blocks. cbn [layout_bpb cluster_start num_clusters log2_blocks_per_cluster]. rewrite Z.shiftl_1_l. pose proof (lo_total _ _ Hl). lia.
    + destruct (formatted_root n fl _ Hl Hh Hf) as (bs & Hdir & He). exists (dev_block d'), (dir_start (ufat_open_root (layout_bpb fl))), bs. split.
      * split; cbn [wfs wdir]; rewrite ?Eb; try done. by apply (formatted_volume n).
      * intros c Hc. by apply (formatted_table n).
Qed.
End Volume.

(** * A device of 64 blocks of junk *)

Definition blank_device : list Z := replicate (64 * 512) 0xa5.
Notation blank_spec := (file_spec 64).

Lemma blank_ok : file_ok 64 blank_device.
Proof. unfold blank_device. split_and!; [by rewrite length_replicate|apply Forall_replicate; unfold is_byte; lia|lia]. Qed.

Lemma format_then_open_witness : exists d' u', ufat_mkfs 64 blank_device = Ret (inr tt) d' /\ ufat_open (set_disk d' demo_closed) = Ret (inr tt) u' /\
  fat_type (bpb u') = UFAT_TYPE_FAT12 /\ exists V start bs, @directory _ _ blank_spec (mkWalk u' (ufat_open_root (bpb u'))) V start bs [].
Proof.
  destruct (returns_never _ _ _ _ (@format_then_open _ _ blank_spec eq_refl 64 blank_device demo_closed ltac:(lia) blank_ok ltac:(intros b Hb; split; lia)
    ltac:(by apply demo_arrays) ltac:(split_and!; cbn; lia) ltac:(intros b Hb; unfold mirror in Hb; cbn in Hb; lia))) as ([] & d' & E & Hopen); [by intros e t []|].
  destruct (returns_never _ _ _ _ Hopen) as ([] & u' & E' & Ht & _ & _ & V & start & bs & Hd & _); [by intros e t []|].
  exists d', u'. split; [exact E|]. split; [exact E'|]. split; [exact Ht|]. exists V, start, bs. exact Hd.
Defined.
