(* ===== verification/UfatMkdir.v ===== *)
(** Making a directory: the cluster it gets, what is stored there, and what is read of it. *)

From S2P Require Import Prelude UfatDev UfatCache UfatView UfatFat UfatTable UfatChain UfatBlock UfatBpb UfatName UfatLong UfatFile UfatDir UfatRead UfatWrite UfatWalk UfatInsert UfatMake UfatDelete UfatSpec UfatDirSpec UfatFormat.
#[local] Open Scope Z_scope.

(** * Entries without a long name *)

Definition short_entry (e : ufat_dirent) b pos : ufat_dirent := set_place b pos (set_lfn UFAT_BLOCK_NONE 0 e).

(** The first byte is a letter, and the attributes are those of an entry. *)
Definition plain (e : ufat_dirent) : Prop :=
  (exists c s, short_name e = c :: s /\ c <> 0 /\ c <> 0xe5) /\ attributes e <> 0x0f /\ Z.land (attributes e) UFAT_ATTR_VOLLABEL = 0.

Lemma read_short_entry type e data b pos rest : dirent_ok type e -> plain e -> length data = 32%nat ->
  exists lfn, ufat_lfn_ok lfn = false /\ read_all type ((ufat_pack_dirent e data, b, pos) :: rest) new_parser =
    match read_all type rest new_parser with Some (es, f) => Some ((short_entry e b pos, lfn) :: es, f) | None => None end.
Proof.
  intros He ((c & s & En & H0 & H5) & Hat & Hvl) Hd. exists (matched (placed_like no_entry e) new_parser).
  assert (ufat_lfn_ok (matched (placed_like no_entry e) new_parser) = false) as Hok by (unfold matched; by destruct (_ =? _)). split; [done|].
  cbn [read_all digest]. unfold is_fragment, is_empty_entry. rewrite (packed_attributes type e data He Hd), (packed_first type e data c s He Hd En).
  rewrite (proj2 (Z.eqb_neq _ _) Hat), (proj2 (Z.eqb_neq _ _) H0), (proj2 (Z.eqb_neq _ _) H5). cbn [andb orb].
  rewrite (parse_pack type e data no_entry He Hd). change (attributes (placed_like no_entry e)) with (attributes e). rewrite Hvl. cbn [Z.eqb negb].
  unfold entry_of. by rewrite Hok, (parse_pack type e data _ He Hd).
Qed.

Lemma named_short e lfn : ufat_lfn_ok lfn = false -> named (e, lfn) = (e, ufat_format_short (short_name e) (short_ext e) UFAT_LFN_MAX_UTF8).
Proof. intros H. unfold named, format_name. cbn [fst snd]. by rewrite H. Qed.

(** * The cluster of an empty directory *)

Section Cluster.
Context {D : Type} {BD : BlockDevice D} {DS : DeviceSpec D}.
Implicit Types (V W : Z -> list Z) (u : ufat D) (b c : Z).

Notation zeros := (replicate block_size 0).

(** The blocks of the cluster are cleared, whatever they held. *)
Definition cleared p c (n : nat) V W : Prop :=
  (forall k, 0 <= k < Z.of_nat n -> W (data_block p c k) = zeros) /\ (forall b, (forall k, 0 <= k < Z.of_nat n -> b <> data_block p c k) -> W b = V b).

Definition clear_failed u V (n : nat) c (e : Z) u' : Prop :=
  may_fail /\ e < 0 /\ meta u' = meta u /\ exists W, holds u' W /\ forall b, (forall k, 0 <= k < Z.of_nat n -> b <> data_block (bpb u) c k) -> W b = V b.

Lemma init_loop_holds c n : forall u V, holds u V -> volume (bpb u) -> 2 <= c < num_clusters (bpb u) -> Z.of_nat n <= cluster_blocks (bpb u) ->
  returns (init_loop n (cluster_to_block (bpb u) c)) u (clear_failed u V n c) (fun _ u' => meta u' = meta u /\ exists W, holds u' W /\ cleared (bpb u) c n V W).
Proof.
  induction n as [|n IH]; intros u V H Hv Hc Hn; cbn [init_loop].
  { apply returns_ok. split; [done|]. exists V. split; [done|]. split; [lia|done]. }
  set (p := bpb u) in *. pose proof (data_block_range p c (Z.of_nat n) Hv Hc ltac:(lia)) as Hr. pose proof (end_block_bound p Hv) as (E1 & E2 & E3).
  assert (u64 (cluster_to_block p c + Z.of_nat n) = data_block p c (Z.of_nat n)) as ->.
  { rewrite (cluster_block p c Hv Hc). unfold data_block in *. rewrite u64_id; lia. }
  apply (fresh_block_holds u V (data_block p c (Z.of_nat n)) zeros (fun _ => init_loop n _)); [done|apply data_shown; (done || lia)|apply zero_block_ok| |].
  - intros e u' (F1 & F2 & F3 & F4). split_and!; try done. by exists V.
  - intros u1 M1 H1. pose proof M1 as [= _ B1 _ _]. fold p in B1. assert (cluster_to_block p c = cluster_to_block (bpb u1) c) as -> by (by rewrite B1).
    eapply returns_mono; [apply (IH u1 _ H1); rewrite B1; (done || lia)|..].
    + intros e t (F1 & F2 & F3 & W & HW & F4). rewrite B1 in F4. split_and!; try done; [congruence|]. exists W. split; [done|]. intros b Hb.
      rewrite F4 by (intros k Hk; apply Hb; lia). apply vset_other. apply Hb. lia.
    + intros _ t (M2 & W & HW & C1 & C2). rewrite B1 in C1, C2. split; [congruence|]. exists W. split; [done|]. split.
      * intros k Hk. destruct (decide (k = Z.of_nat n)) as [->|Hne]; [|apply C1; lia]. rewrite C2; [by rewrite vset_same|].
        intros k' Hk' E. apply (data_block_inj p c _ c k' Hv) in E; lia.
      * intros b Hb. rewrite C2 by (intros k Hk; apply Hb; lia). apply vset_other. apply Hb. lia.
Qed.
Lemma init_cluster_holds c u V : holds u V -> volume (bpb u) -> 2 <= c < num_clusters (bpb u) ->
  returns (ufat_init_dirent_cluster c) u (clear_failed u V (Z.to_nat (cluster_blocks (bpb u))) c)
    (fun _ u' => meta u' = meta u /\ exists W, holds u' W /\ cleared (bpb u) c (Z.to_nat (cluster_blocks (bpb u))) V W).
Proof.
  intros H Hv Hc. pose proof (cluster_blocks_pos _ Hv). unfold ufat_init_dirent_cluster. go_gets. fold (cluster_blocks (bpb u)). apply init_loop_holds; (done || lia).
Qed.

End Cluster.

(** * What is read of it *)

Section Dots.
Context {D : Type} {BD : BlockDevice D} {DS : DeviceSpec D}.
Implicit Types (V W : Z -> list Z) (c : Z).
Context (p : ufat_bpb).
Hypothesis Hvol : volume p.

Notation zeros := (replicate block_size 0).

(** A cluster number that fits an entry. *)
Definition numbered c : Prop := 0 <= c < num_clusters p.

Lemma number_fits c : numbered c -> 0 <= c < (if fat_type p =? UFAT_TYPE_FAT32 then 2 ^ 32 else 2 ^ 16).
Proof. intros Hc. pose proof (volume_clusters p Hvol) as Hm. unfold numbered, max_clusters in *. destruct (volume_type p Hvol) as [E|[E|E]]; rewrite E in *; cbn in *; lia. Qed.

Lemma dot_ok ent name c : dated ent -> numbered c -> short_part 8 name -> dirent_ok (fat_type p) (dot_entry ent name c).
Proof.
  intros Hd Hc Hn. unfold dated in Hd. rewrite !Forall_cons in Hd. destruct Hd as (D1 & D2 & D3 & D4 & D5 & _). pose proof (number_fits c Hc).
  split; cbn; try done. split; [cbn; lia|constructor].
Qed.

Lemma dot_plain ent name c : head name = Some 46 -> plain (dot_entry ent name c).
Proof. intros Hn. destruct name as [|x s]; [done|]. injection Hn as ->. split; [by exists 46, s|]. done. Qed.

Lemma one_cluster c : chain_blocks p [c] = data_block p c 0 :: (data_block p c <$> seqZ 1 (cluster_blocks p - 1)).
Proof.
  pose proof (cluster_blocks_pos p Hvol). unfold chain_blocks. cbn [fmap list_fmap concat]. rewrite app_nil_r. rewrite (seqZ_cons 0 (cluster_blocks p)) by lia.
  rewrite fmap_cons. do 3 f_equal; lia.
Qed.

Hypothesis two_fit : (2 <= in_block)%nat.

(** The first block of an empty directory. *)
Definition dot_block (d dd : list Z) : list Z := put 32 dd (put 0 d zeros).

Lemma dot_raws d dd : length d = 32%nat -> length dd = 32%nat ->
  sub 0 32 (dot_block d dd) = d /\ sub 32 32 (dot_block d dd) = dd /\ forall j, (2 <= j < in_block)%nat -> sub (j * 32) 32 (dot_block d dd) = replicate 32 0.
Proof.
  intros L1 L2. destruct block_entries as [E _]. unfold dot_block. assert (length (put 0 d zeros) = block_size) as Lp by (rewrite length_put; rewrite length_replicate; lia). split_and!.
  - rewrite sub_put_other by lia. apply sub_put_same; rewrite ?length_replicate; lia.
  - apply sub_put_same; lia.
  - intros j Hj. rewrite !sub_put_other by (rewrite ?Lp, ?length_replicate; lia). unfold sub. rewrite drop_replicate, take_replicate. f_equal. nia.
Qed.

(** An empty directory has the two entries. *)
Lemma dots_read W c e1 e2 : dirent_ok (fat_type p) e1 -> plain e1 -> dirent_ok (fat_type p) e2 -> plain e2 ->
  W (data_block p c 0) = dot_block (ufat_pack_dirent e1 (replicate 32 0)) (ufat_pack_dirent e2 (replicate 32 0)) ->
  (forall k, 1 <= k < cluster_blocks p -> W (data_block p c k) = zeros) ->
  exists l1 l2, ufat_lfn_ok l1 = false /\ ufat_lfn_ok l2 = false /\
    entries p (chain_blocks p [c]) W [(short_entry e1 (data_block p c 0) 0, l1); (short_entry e2 (data_block p c 0) 1, l2)].
Proof.
  intros Ok1 P1 Ok2 P2 Hb Hz. set (b := data_block p c 0) in *. assert (length (replicate 32 0) = 32%nat) as L0 by done.
  destruct (dot_raws _ _ (length_pack e1 _ _ Ok1 L0) (length_pack e2 _ _ Ok2 L0)) as (R1 & R2 & R3). destruct block_entries as [Eb _].
  destruct in_block as [|[|m]] eqn:Em; [lia|lia|].
  set (tail := ((fun j => (raw W b j, b, Z.of_nat j)) <$> List.seq 2 m) ++ slots W (data_block p c <$> seqZ 1 (cluster_blocks p - 1))).
  assert (slots W (chain_blocks p [c]) = (ufat_pack_dirent e1 (replicate 32 0), b, 0) :: (ufat_pack_dirent e2 (replicate 32 0), b, 1) :: tail) as Hs.
  { rewrite one_cluster. fold b. unfold slots at 1. cbn [fmap list_fmap concat]. unfold block_slots at 1. rewrite Em. cbn [List.seq fmap list_fmap app]. unfold raw at 1 2. rewrite Hb.
    change (0 * 32)%nat with 0%nat. change (1 * 32)%nat with 32%nat. by rewrite R1, R2. }
  destruct (read_nothing_in (fat_type p) tail) with (s := new_parser) as [f Hf].
  { apply Forall_app. split.
    - apply Forall_fmap, Forall_forall. intros j Hj%elem_of_seq. cbn. unfold raw. rewrite Hb. apply R3. lia.
    - unfold slots. apply Forall_concat, Forall_fmap, Forall_forall. intros b' (k & -> & Hk%elem_of_seqZ)%list_elem_of_fmap. unfold block_slots. apply Forall_fmap, Forall_forall.
      intros j Hj%elem_of_seq. change (raw W (data_block p c k) j = replicate 32 0). unfold raw, sub. rewrite Hz by lia. rewrite drop_replicate, take_replicate. f_equal. rewrite Em in Hj. lia. }
  destruct (read_short_entry (fat_type p) e1 (replicate 32 0) b 0 ((ufat_pack_dirent e2 (replicate 32 0), b, 1) :: tail) Ok1 P1 L0) as (l1 & N1 & Hr1).
  destruct (read_short_entry (fat_type p) e2 (replicate 32 0) b 1 tail Ok2 P2 L0) as (l2 & N2 & Hr2).
  exists l1, l2. split; [done|]. split; [done|]. exists f. by rewrite Hs, Hr1, Hr2, Hf.
Qed.
End Dots.

(** * Making the cluster *)

Section Create.
Context {D : Type} {BD : BlockDevice D} {DS : DeviceSpec D}.
Implicit Types (V W : Z -> list Z) (u : ufat D) (b c : Z).

(** A block that is not one of the table, and in no cluster that is free. *)
Definition taken p V b : Prop := ~ in_fat p b /\ forall c, usable p c -> fat p V c = UFAT_CLUSTER_FREE -> b ∉ chain_blocks p [c].

(** Nothing is different but the table and the clusters that were free. *)
Definition untouched p V W : Prop := forall b, taken p V b -> W b = V b.

Lemma untouched_off p V W X : untouched p V W -> off_fat p W X -> untouched p V X.
Proof. intros H1 H2 b Hb. rewrite H2 by apply Hb. by apply H1. Qed.

(** The device has failed on the way. *)
Definition unmade u V (e : Z) u' : Prop := may_fail /\ e < 0 /\ vol u' = vol u /\ exists W, holds u' W /\ untouched (bpb u) V W.

Lemma or_free_returns {A} c (m : result (ufat D) A) u0 u V Q : 0 <= c -> volume (bpb u0) -> returns m u (unmade u0 V) Q -> returns (or_free c m) u (unmade u0 V) Q.
Proof.
  intros Hc Hv H. unfold or_free. apply returns_bind. eapply wp_mono; [exact H|]. intros [e|a] u1; [|intros Ha; by apply returns_ok].
  intros (F1 & F2 & F3 & W & HW & F4). pose proof (vol_bpb _ _ F3) as B. apply returns_bind. eapply wp_mono; [apply (free_chain_any u1 W c HW); [by rewrite B|done]|].
  intros [e'|[]] u2; [intros (_ & G2 & _ & X & HX & G3)|intros (G2 & X & HX & _ & G3)]; rewrite B in G3; apply returns_err; split_and!; try done.
  - congruence. - exists X. split; [done|]. by eapply untouched_off.
  - by rewrite (meta_vol _ _ G2). - exists X. split; [done|]. by eapply untouched_off.
Qed.

(** A cluster that was free is that of an empty directory. *)
Record new_cluster p V c ent pc W : Prop := {
  nc_usable : usable p c;
  nc_free : fat p V c = UFAT_CLUSTER_FREE;
  nc_table j : 0 <= j < num_clusters p -> fat p W j = if decide (j = c) then UFAT_CLUSTER_EOC else fat p V j;
  nc_else b : ~ in_fat p b -> b ∉ chain_blocks p [c] -> W b = V b;
  nc_first : W (data_block p c 0) = dot_block (ufat_pack_dirent (dot_entry ent [46] c) (replicate 32 0)) (ufat_pack_dirent (dot_entry ent [46; 46] pc) (replicate 32 0));
  nc_others k : 1 <= k < cluster_blocks p -> W (data_block p c k) = replicate block_size 0
}.

(** No cluster is free. *)
Definition full u V (e : Z) u' : Prop :=
  e = - UFAT_ERR_NO_CLUSTERS /\ (forall c, usable (bpb u) c -> fat (bpb u) V c <> UFAT_CLUSTER_FREE) /\
  vol u' = vol u /\ exists W, holds u' W /\ off_fat (bpb u) V W /\ forall j, 0 <= j < num_clusters (bpb u) -> fat (bpb u) W j = fat (bpb u) V j.

Lemma alloc_one_holds u V : holds u V -> volume (bpb u) -> alloc_ok u ->
  returns (ufat_alloc_chain 1) u (fun e u' => unmade u V e u' \/ full u V e u')
    (fun c u' => vol u' = vol u /\ alloc_ok u' /\ usable (bpb u) c /\ fat (bpb u) V c = UFAT_CLUSTER_FREE /\ exists W, holds u' W /\ off_fat (bpb u) V W /\
      forall j, 0 <= j < num_clusters (bpb u) -> fat (bpb u) W j = if decide (j = c) then UFAT_CLUSTER_EOC else fat (bpb u) V j).
Proof.
  intros H Hv Ha. eapply returns_mono; [by apply (alloc_chain_holds u V 1)|..].
  - intros e u' (E1 & E2 & E3 & W & HW & Ho & [F|(-> & Hf & l & Hl & Hall)]).
    + left. split_and!; try done. exists W. split; [done|]. intros b [Hb _]. by apply Ho.
    + destruct l; [|cbn in Hl; lia]. destruct (decide (Exists (fun c => usable (bpb u) c /\ fat (bpb u) V c = UFAT_CLUSTER_FREE) (seqZ 2 (num_clusters (bpb u))))) as [(c & _ & Hc & Hfree)%Exists_exists|Hno].
      * left. destruct (Hall c Hc Hfree) as [Hin%elem_of_nil|Hm]; [done|]. split_and!; try done. exists W. split; [done|]. intros b [Hb _]. by apply Ho.
      * right. split_and!; try done; [|by exists W]. intros c Hc Hfree. apply Hno, Exists_exists. exists c. split; [|done]. apply elem_of_seqZ. destruct Hc. lia.
  - intros c u' (E1 & E2 & W & l & HW & Hl & (Hs & _ & Hu & Hj & Ho)). destruct l as [|x [|]]; try (cbn in Hl; lia). destruct Hs as (-> & _ & _ & Hs). cbn in Hs.
    destruct (Hu x ltac:(by left)) as [Hx Hfree]. split_and!; try done. exists W. split_and!; try done. intros j Hr. case_decide as E; [by subst|]. apply Hj; [done|]. by rewrite list_elem_of_singleton.
Qed.

Lemma empty_raw o : (o + 32 <= block_size)%nat -> sub o 32 (replicate block_size 0) = replicate 32 0.
Proof. intros Ho. unfold sub. rewrite drop_replicate, take_replicate. f_equal. lia. Qed.

Lemma on_first e : (2 <= in_block)%nat -> on_entry 0 (ufat_pack_dirent e) (replicate block_size 0) = put 0 (ufat_pack_dirent e (replicate 32 0)) (replicate block_size 0).
Proof. intros H2. destruct block_entries as [E _]. unfold on_entry. change (entry_offset 0) with 0%nat. change (Z.to_nat UFAT_DIRENT_SIZE) with 32%nat. rewrite empty_raw; [done|lia]. Qed.

Lemma on_second e d : (2 <= in_block)%nat -> length d = 32%nat ->
  on_entry 1 (ufat_pack_dirent e) (put 0 d (replicate block_size 0)) = dot_block d (ufat_pack_dirent e (replicate 32 0)).
Proof.
  intros H2 L. destruct block_entries as [E _]. unfold on_entry, dot_block. change (entry_offset 1) with 32%nat. change (Z.to_nat UFAT_DIRENT_SIZE) with 32%nat.
  rewrite sub_put_other by (rewrite ?length_replicate; lia). by rewrite empty_raw by lia.
Qed.

Lemma put_block_ok o d data : block_ok data -> length d = 32%nat -> Forall is_byte d -> (o + 32 <= block_size)%nat -> block_ok (put o d data).
Proof. intros [H1 H2] Ld Yd Ho. split; [rewrite length_put; lia|by apply Forall_put]. Qed.

Lemma create_empty_dir_holds u V parent ent : holds u V -> volume (bpb u) -> alloc_ok u -> (2 <= in_block)%nat -> dated ent -> 0 <= parent_cluster (bpb u) parent < num_clusters (bpb u) ->
  returns (create_empty_dir parent ent) u (fun e u' => unmade u V e u' \/ full u V e u')
    (fun c u' => vol u' = vol u /\ alloc_ok u' /\ exists W, holds u' W /\ new_cluster (bpb u) V c ent (parent_cluster (bpb u) parent) W).
Proof.
  intros H Hv Ha H2 Hd Hp. set (p := bpb u) in *. unfold create_empty_dir. eapply returns_check; [by apply alloc_one_holds|done|].
  intros c u1 (V1 & A1 & Hu & Hfree & W1 & H1 & Ho1 & Hf1). fold p in Hu, Hfree, Ho1, Hf1. pose proof (vol_bpb _ _ V1) as B1. fold p in B1. destruct Hu as [Hc Hc'] eqn:Eu. clear Eu.
  pose proof (cluster_blocks_pos p Hv) as Hcb.
  assert (forall b, b ∉ chain_blocks p [c] -> forall k, 0 <= k < cluster_blocks p -> b <> data_block p c k) as Hoff.
  { intros b Hb k Hk ->. apply Hb, elem_of_chain_blocks. exists c, k. split; [by left|done]. }
  eapply returns_check; [apply (or_free_returns c _ u u1 V); [lia|done|]|by left|].
  { eapply returns_mono; [apply (init_cluster_holds c u1 W1 H1); rewrite B1; done| |intros a t Ht; exact Ht].
    intros e t (F1 & F2 & F3 & W & HW & F4). rewrite B1, Z2Nat.id in F4 by lia. split_and!; try done; [by rewrite (meta_vol _ _ F3)|]. exists W. split; [done|].
    intros b [Hb Hcl]. rewrite F4; [by apply Ho1|]. apply Hoff, Hcl; [by split|done]. }
  intros _ u2 (M2 & W2 & HW2 & C1 & C2). rewrite B1, Z2Nat.id in C1, C2 by lia. pose proof M2 as [= _ B2 _ A2]. rewrite B1 in B2. go_gets. rewrite B2.
  assert (untouched p V W2) as Hun2. { intros b [Hb Hcl]. rewrite C2; [by apply Ho1|]. apply Hoff. by apply Hcl. }
  rewrite (cluster_block p c Hv Hc). eapply returns_check; [apply (or_free_returns c _ u u2 V); [lia|done|]|by left|].
  { eapply returns_mono; [apply (cache_open_holds u2 W2 (data_block p c 0) HW2); rewrite B2; apply data_shown; (done || lia)| |intros a t Ht; exact Ht].
    intros e t (F1 & F2 & F3 & F4). split_and!; try done; [|by exists W2]. rewrite (meta_vol _ _ F4), (meta_vol _ _ M2). done. }
  intros idx u3 (M3 & I3 & HW3 & _).
  assert (dirent_ok (fat_type p) (dot_entry ent [46] c) /\ dirent_ok (fat_type p) (dot_entry ent [46; 46] (parent_cluster p parent))) as [Ok1 Ok2].
  { split; apply dot_ok; try done; unfold numbered; try lia; (split; [cbn; lia|repeat constructor; lia]). }
  destruct block_entries as [Eb _]. assert (Forall is_byte (replicate 32 0)) as Y0 by (apply Forall_replicate; unfold is_byte; lia).
  pose proof (length_pack _ (replicate 32 0) _ Ok1 eq_refl) as L1. pose proof (length_pack _ (replicate 32 0) _ Ok2 eq_refl) as L2.
  set (e1 := dot_entry ent [46] c) in *. set (e2 := dot_entry ent [46; 46] (parent_cluster p parent)) in *.
  apply (write_block_holds u3 W2 idx (data_block p c 0) _ (fun _ => update_data idx _ ;; ok c)); [done|done| |].
  { intros Hok. rewrite C1 in * by lia. rewrite on_first by done. apply put_block_ok; [done|done|by apply (pack_dirent_bytes (fat_type p))|lia]. }
  intros u4 M4 I4 H4 D4. apply returns_bind. eapply wp_mono; [eapply (update_data_holds u4 _ idx (data_block p c 0) _ H4 I4 D4)|].
  { unfold vmod. rewrite vset_same, C1, on_first, on_second by (done || lia). intros Hok. apply put_block_ok; [done|done|by apply (pack_dirent_bytes (fat_type p))|lia]. }
  intros [] u5 (M5 & I5 & H5 & D5). apply returns_ok. rewrite (meta_vol _ _ M5), (meta_vol _ _ M4), (meta_vol _ _ M3), (meta_vol _ _ M2). split; [done|].
  pose proof M5 as [= _ B5 _ A5]. pose proof M4 as [= _ B4 _ A4]. pose proof M3 as [= _ B3 _ A3].
  split; [unfold alloc_ok in *; by rewrite B5, B4, B3, B2, <- B1, A5, A4, A3, A2|].
  eexists. split; [exact H5|]. unfold vmod. rewrite vset_same, C1, on_first, on_second by (done || lia). split; try done.
  - intros j Hj. rewrite <- Hf1 by done. apply fat_ext; [done| |done]. intros b Hb. assert (forall k, 0 <= k < cluster_blocks p -> b <> data_block p c k) as Hne by (intros k Hk ->; by apply (data_not_fat p c k Hv Hc Hk)).
    rewrite !vset_other by (apply Hne; lia). by apply C2.
  - intros b Hb Hcl. rewrite !vset_other by (apply Hoff; (done || lia)). rewrite C2 by by apply Hoff. by apply Ho1.
  - by rewrite vset_same.
  - intros k Hk. assert (data_block p c k <> data_block p c 0) as Hne by (intros E; apply (data_block_inj p c k c 0 Hv) in E; lia). rewrite !vset_other by done. apply C1. lia.
Qed.
End Create.

(** * The directory it is made in *)

Section Claims.
Context {D : Type} {BD : BlockDevice D} {DS : DeviceSpec D}.
Implicit Types (V W : Z -> list Z) (w : @walk D) (b c : Z).

(** The entry of a new directory, but for its names and its place. *)
Definition dir_entry c (ent : ufat_dirent) : ufat_dirent :=
  set_attributes (Z.lor (Z.land (attributes ent) UFAT_ATTR_USER) UFAT_ATTR_DIRECTORY) (set_ent_size 0 (set_first_cluster c ent)).

(** None of the blocks is in a cluster that is free. *)
Definition in_use p V (bs : list Z) : Prop := forall c b, usable p c -> fat p V c = UFAT_CLUSTER_FREE -> b ∈ chain_blocks p [c] -> b ∉ bs.

(** What is opened at the block [b]. *)
Definition opened_at b : ufat_directory := mkDir 0 b b.

(** The cluster [c] is an empty directory, which can be deleted; its parent starts at the block [start]. *)
Definition empty_dir p W c start : Prop :=
  let b := cluster_to_block p c in
  is_dir p W b (chain_blocks p [c]) /\ exists es dot dotdot, entries p (chain_blocks p [c]) W es /\ named <$> es = [(dot, inr [46]); (dotdot, inr [46; 46])] /\ Forall dotted es /\
    ufat_open_subdir p dot = inr (opened_at b) /\ ufat_open_subdir p dotdot = inr (if start <? cluster_start p then ufat_open_root p else opened_at start).

Lemma parent_number p V start bs d : volume p -> is_dir p V start bs -> dir_start d = start ->
  if start <? cluster_start p then parent_cluster p d = 0 else 2 <= parent_cluster p d < num_clusters p /\ cluster_to_block p (parent_cluster p d) = start.
Proof.
  intros Hv Hd Es. unfold parent_cluster. rewrite Es. destruct Hd as [H0 He|c l Hc Hnd Hne].
  - rewrite (proj2 (Z.ltb_lt _ _)) by lia. by rewrite (proj2 (Z.leb_gt _ _)) by lia.
  - destruct l as [|x l]; [done|]. pose proof (chain_range p V _ c Hc) as Hr. apply Forall_cons in Hr as [Hr _]. destruct Hc as (-> & _).
    pose proof (cluster_blocks_pos p Hv). pose proof (data_block_range p x 0 Hv Hr ltac:(lia)). pose proof (end_block_bound p Hv) as (? & ? & ?).
    rewrite (cluster_block p x Hv Hr). rewrite (proj2 (Z.ltb_ge _ _)), (proj2 (Z.leb_le _ _)) by lia. rewrite (block_of_cluster p x 0 Hv) by lia. split; [done|]. by apply cluster_block.
Qed.

Lemma directory_byte x : is_byte x -> is_byte (Z.lor x UFAT_ATTR_DIRECTORY).
Proof.
  intros Hx. assert (Forall (fun x => is_byte (Z.lor x UFAT_ATTR_DIRECTORY)) (seqZ 0 256)) as H by (apply (bool_decide_unpack _); vm_compute; exact I).
  rewrite Forall_forall in H. apply H, elem_of_seqZ. unfold is_byte in Hx. lia.
Qed.

Lemma dir_storable p c ent : volume p -> dated ent -> 0 <= c < num_clusters p -> storable_entry p (dir_entry c ent).
Proof.
  intros Hv Hd Hc. unfold dated in Hd. rewrite !Forall_cons in Hd. destruct Hd as (D1 & D2 & D3 & D4 & D5 & _). destruct (user_attributes (attributes ent)) as [U1 U2].
  pose proof (number_fits p Hv c Hc). split.
  - split; cbn; try done; try (split; [cbn; lia|done]). by apply directory_byte.
  - cbn. rewrite Z.land_lor_distr_l, U2. done.
Qed.

(** Blocks of the directory and the table that are as they were keep it the same directory. *)
Lemma same_directory p V W start bs es : volume p -> is_dir p V start bs -> entries p bs V es -> (forall b, b ∈ bs -> W b = V b) ->
  (forall c, 2 <= c < num_clusters p -> cluster_to_block p c ∈ bs -> fat p W c = fat p V c) -> is_dir p W start bs /\ entries p bs W es.
Proof. intros Hv Hd He Hb Hf. split; [by apply (is_dir_ext p V)|]. unfold entries. by rewrite (slots_ext V W bs Hb). Qed.

Lemma cluster_in_blocks p c : volume p -> 2 <= c < num_clusters p -> cluster_to_block p c ∈ chain_blocks p [c].
Proof. intros Hv Hc. pose proof (cluster_blocks_pos p Hv). apply elem_of_chain_blocks. exists c, 0. split; [by left|]. split; [lia|]. by apply cluster_block. Qed.

(** What the new cluster holds is an empty directory, in every view that keeps its blocks and its entry of the table. *)
Lemma new_cluster_empty p V c ent d start bs W X : volume p -> (2 <= in_block)%nat -> dated ent -> is_dir p V start bs -> dir_start d = start -> new_cluster p V c ent (parent_cluster p d) W ->
  (forall b, b ∈ chain_blocks p [c] -> X b = W b) -> fat p X c = fat p W c -> empty_dir p X c start.
Proof.
  intros Hv H2 Hd Hdir Es [Hu Hfree Ht He Hf Ho] HX Hfat. pose proof (parent_number p V start bs d Hv Hdir Es) as Hn. pose proof Hu as [Hc _].
  pose proof (cluster_blocks_pos p Hv). pose proof (data_block_range p c 0 Hv Hc ltac:(lia)) as Hr. pose proof (end_block_bound p Hv) as (E1 & E2 & E3).
  assert (forall k, 0 <= k < cluster_blocks p -> data_block p c k ∈ chain_blocks p [c]) as Hin by (intros k Hk; apply elem_of_chain_blocks; exists c, k; split; [by left|done]).
  assert (0 <= parent_cluster p d < num_clusters p) as Hp by (destruct (start <? cluster_start p); lia).
  destruct (dots_read p Hv H2 X c (dot_entry ent [46] c) (dot_entry ent [46; 46] (parent_cluster p d))) as (l1 & l2 & N1 & N2 & Hes).
  { apply dot_ok; [done..|unfold numbered; lia|]. split; [cbn; lia|repeat constructor; lia]. } { by apply dot_plain. }
  { apply dot_ok; [done..|]. split; [cbn; lia|repeat constructor; lia]. } { by apply dot_plain. }
  { rewrite HX by (apply Hin; lia). exact Hf. } { intros k Hk. rewrite HX by (apply Hin; lia). by apply Ho. }
  unfold empty_dir. rewrite (cluster_block p c Hv Hc). split.
  - rewrite <- (cluster_block p c Hv Hc). apply is_chain; [|repeat constructor; by intros ?%elem_of_nil|done].
    split; [done|]. split; [by apply usable_ptr with p|]. split; [lia|]. cbn [chain]. by rewrite Hfat, Ht, decide_True by (done || lia).
  - eexists _, _, _. split; [exact Hes|]. split; [cbn [fmap list_fmap]; rewrite !named_short by done; reflexivity|]. split; [by repeat constructor|].
    unfold ufat_open_subdir, short_entry. cbn. assert ((data_block p c 0 =? UFAT_BLOCK_NONE) = false) as -> by (apply Z.eqb_neq; unfold UFAT_BLOCK_NONE; lia).
    rewrite (proj2 (Z.eqb_neq c 0)) by lia. cbn [orb]. split; [by rewrite (cluster_block p c Hv Hc)|]. destruct (start <? cluster_start p); [by rewrite Hn|]. destruct Hn as [Hn1 Hn2].
    rewrite (proj2 (Z.eqb_neq (parent_cluster p d) 0)) by lia. by rewrite Hn2.
Qed.

(** The directory is the same in a view that differs in free clusters and other entries of the table only. *)
Lemma still_directory p V W start bs es : volume p -> is_dir p V start bs -> entries p bs V es -> in_use p V bs ->
  (forall b, taken p V b -> W b = V b) -> (forall c, 2 <= c < num_clusters p -> cluster_to_block p c ∈ bs -> fat p W c = fat p V c) ->
  is_dir p W start bs /\ entries p bs W es.
Proof.
  intros Hv Hd He Hu Hb Hf. destruct (is_dir_at p V start bs Hv Hd) as [Hat _]. apply (same_directory p V); try done. intros b Hin. apply Hb. split; [by apply (da_shown _ _ _ Hat)|].
  intros c Hc Hfree Hbc. by apply (Hu c b Hc Hfree Hbc).
Qed.

Lemma new_cluster_directory p V c ent pc W start bs es : volume p -> is_dir p V start bs -> entries p bs V es -> in_use p V bs -> new_cluster p V c ent pc W ->
  is_dir p W start bs /\ entries p bs W es.
Proof.
  intros Hv Hd He Hu [N1 N2 N3 N4 N5 N6]. apply (still_directory p V); try done.
  - intros b [Hb Hc]. apply N4; [done|by apply Hc].
  - intros j Hj Hin. rewrite N3 by lia. case_decide as E; [|done]. subst j. exfalso. apply (Hu c (cluster_to_block p c) N1 N2); [by apply cluster_in_blocks|done].
Qed.

(** What is left when making a directory fails: with the device, or because no cluster is free. *)
Definition mkdir_error w V start bs es (e : Z) w' : Prop :=
  bpb (wfs w') = bpb (wfs w) /\ exists W, holds (wfs w') W /\ (forall b, b ∉ bs -> taken (bpb (wfs w)) V b -> W b = V b) /\
    (may_fail \/ e = - UFAT_ERR_NO_CLUSTERS /\ (forall c, usable (bpb (wfs w)) c -> fat (bpb (wfs w)) V c <> UFAT_CLUSTER_FREE) /\ directory w' W start bs es /\
      forall c, 0 <= c < num_clusters (bpb (wfs w)) -> fat (bpb (wfs w)) W c = fat (bpb (wfs w)) V c).

Lemma create_refused w w1 V start bs es e w' : directory w V start bs es -> in_use (bpb (wfs w)) V bs -> kept w w1 -> dir_start (wdir w') = start ->
  unmade (wfs w1) V e (wfs w') \/ full (wfs w1) V e (wfs w') -> mkdir_error w V start bs es e w'.
Proof.
  intros Hd Hu K DS0 H. pose proof K as [= _ B _ _]. unfold mkdir_error. destruct H as [(F1 & F2 & F3 & W & HW & F4)|(-> & F1 & F3 & W & HW & F4 & F5)]; rewrite B in *; pose proof (vol_bpb _ _ F3) as B'; rewrite B in B'.
  - split; [done|]. exists W. split; [done|]. split; [intros b _; apply F4|by left].
  - split; [done|]. exists W. split; [done|]. split; [intros b _ [Hb _]; by apply F4|]. right. split; [done|]. split; [done|]. split; [|done].
    destruct Hd as [H1 H2 H3 H4 H5]. destruct (still_directory _ V W start bs es H2 H3 H5 Hu) as [D1 D2]; [intros b [Hb _]; by apply F4|intros c Hc _; apply F5; lia|]. split; rewrite ?B'; done.
Qed.

(** Storing the entry of the new cluster, or giving the cluster back. *)
Lemma insert_or_free_holds w0 w V W es ent name c k start bs :
  directory w0 V start bs es -> dated ent -> new_name es name -> (2 <= in_block)%nat -> in_use (bpb (wfs w0)) V bs ->
  find_run (slots V bs) 0 0 0 (S (Z.to_nat ((Z.of_nat (length name) + 12) / 13))) = Some k ->
  vol (wfs w) = vol (wfs w0) -> alloc_ok (wfs w) -> dir_start (wdir w) = start -> holds (wfs w) W -> new_cluster (bpb (wfs w0)) V c ent (parent_cluster (bpb (wfs w0)) (wdir w)) W ->
  returns (r ← insert_dirent (dir_entry c ent) name; match r with inl e => on_ufat (ufat_free_chain c);; mret (inl e) | inr ent => ok ent end) w
    (mkdir_error w0 V start bs es)
    (fun e w' => bpb (wfs w') = bpb (wfs w0) /\ alloc_ok (wfs w') /\ exists X es', made_from (dir_entry c ent) e /\ directory w' X start bs es' /\ added es es' e name /\
      (forall b, b ∉ bs -> X b = W b)).
Proof.
  intros Hd He (N1 & N2 & N3 & N4 & N5) H2 Hu Hk Hvol Ha Es HW Hn. pose proof (vol_bpb _ _ Hvol) as B. set (p := bpb (wfs w0)) in *.
  pose proof (dy_volume _ _ _ _ _ Hd) as Hv. pose proof (dy_dir _ _ _ _ _ Hd) as Hdir. destruct (directory_opened _ _ _ _ _ Hd) as [_ H0]. fold p in Hv, Hdir.
  destruct (new_cluster_directory p V c ent _ W start bs es Hv Hdir (dy_entries _ _ _ _ _ Hd) Hu Hn) as [Hdir' [f Hes]]. destruct (is_dir_at p W start bs Hv Hdir') as [Hat _].
  pose proof (nc_usable _ _ _ _ _ _ Hn) as [Hc _]. destruct (legal_name name N1 N2) as [Hne _].
  assert (slots W bs = slots V bs) as Hs.
  { apply slots_ext. intros b Hb. apply (nc_else _ _ _ _ _ _ Hn); [by apply (da_shown _ _ _ Hat)|]. intros Hbc. by apply (Hu c b (nc_usable _ _ _ _ _ _ Hn) (nc_free _ _ _ _ _ _ Hn) Hbc). }
  apply returns_bind. eapply wp_mono; [apply (insert_dirent_holds p start bs Hv H0 w W es f (dir_entry c ent) name k); try done|].
  - by apply legal_ascii.
  - destruct name; [done|cbn [length] in *; lia].
  - apply dir_storable; (done || lia).
  - by rewrite Hs.
  - intros [e|e] w1.
    + intros (F1 & F2 & K & X & HX & Hch). pose proof K as [= _ B1 _ _]. rewrite B in B1. apply (on_ufat_step _ _ _ (fun _ u => bpb u = p /\ exists Y, holds u Y /\ off_fat p X Y)).
      { eapply wp_mono; [apply (free_chain_any (wfs w1) X c HX); [by rewrite B1|lia]|]. rewrite B1.
        intros [e'|[]] u2; [intros (_ & G2 & _ & Y & HY & G3)|intros (G2 & Y & HY & _ & G3)]; (split; [|by exists Y]); [rewrite (vol_bpb _ _ G2)|pose proof G2 as [= _ -> _ _]]; done. }
      intros _ w2 (B2 & Y & HY & Hoff) _. apply returns_err. split; [done|]. exists Y. split; [done|]. split; [|by left]. intros b Hb [Hbf Hbc]. fold p in Hbf, Hbc.
      rewrite Hoff, Hch by done. apply (nc_else _ _ _ _ _ _ Hn); [done|]. apply Hbc; apply Hn.
    + intros (K & Hm & X & es' & f' & [O1 O2 O3 O4] & Hch & Hr & Had). pose proof K as [= _ B1 _ A1]. apply returns_ok. split; [done|]. split; [unfold alloc_ok in *; by rewrite B1, A1|].
      exists X, es'. split; [done|]. split; [|done]. destruct (changed_is_dir p W X start bs Hv Hdir' Hch) as [Hd2 _]. split; rewrite ?O2; try done. by exists f'.
Qed.

(** The new entry opens the directory that starts with its cluster. *)
Lemma added_opens (u : ufat D) X start bs es es' ent c e name : holds u X -> volume (bpb u) -> is_dir (bpb u) X start bs -> entries (bpb u) bs X es' -> added es es' e name ->
  made_from (dir_entry c ent) e -> usable (bpb u) c -> ufat_open_subdir (bpb u) e = inr (opened_at (cluster_to_block (bpb u) c)).
Proof.
  intros H Hv Hdir He (s1 & s2 & _ & A2) (n & x & b & q & b' & q' & _ & E) [Hc _]. destruct (is_dir_at _ _ _ _ Hv Hdir) as [Hat _].
  apply fmap_app_inv in A2 as (t1 & t2' & -> & A2 & ->). symmetry in A2. apply fmap_cons_inv in A2 as ([e0 lfn] & t2 & A3 & -> & ->). injection A3 as <- _.
  pose proof (entry_inside_dir _ _ _ _ _ _ _ (dir_bytes u X bs H Hat) He) as Hin. unfold ufat_open_subdir. rewrite (dir_block_some _ _ _ _ Hat Hin). subst e. cbn.
  rewrite Z.land_lor_distr_l, (proj2 (Z.eqb_neq _ _)), (proj2 (Z.eqb_neq c 0)); [done|lia|]. intros [_ Hf]%Z.lor_eq_0_iff. discriminate Hf.
Qed.

(** C21: Making a directory where there is room and a free cluster is one entry more in the
    directory, with the long name, and a cluster that was free and is now an empty directory:
    opening the entry opens it, it lists the names "." and ".." and nothing that keeps it from
    being deleted, opening the first opens it again, and opening the second opens the directory it
    was made in. No other entry of the table and no other block differs. It fails only with the
    device, or when no cluster is free; then the directory and the table are as they were. *)
Theorem mkdir_makes_directory w V start bs es ent name :
  let p := bpb (wfs w) in
  directory w V start bs es -> dated ent -> new_name es name -> room V bs name -> alloc_ok (wfs w) -> (2 <= in_block)%nat -> in_use p V bs ->
  returns (ufat_dir_create ent name) w (mkdir_error w V start bs es)
    (fun e w' => bpb (wfs w') = p /\ alloc_ok (wfs w') /\ exists c W es', usable p c /\ fat p V c = UFAT_CLUSTER_FREE /\
      made_from (dir_entry c ent) e /\ directory w' W start bs es' /\ added es es' e name /\
      ufat_open_subdir p e = inr (opened_at (cluster_to_block p c)) /\ empty_dir p W c start /\
      (forall j, 0 <= j < num_clusters p -> fat p W j = if decide (j = c) then UFAT_CLUSTER_EOC else fat p V j) /\
      elsewhere p (bs ++ chain_blocks p [c]) V W).
Proof.
  intros p Hd He Hn [k Hk] Ha H2 Hu. pose proof Hn as (N1 & N2 & N3 & N4 & N5). destruct (directory_opened _ _ _ _ _ Hd) as [Ho H0]. pose proof (dy_volume _ _ _ _ _ Hd) as Hv. pose proof (dy_dir _ _ _ _ _ Hd) as Hdir.
  fold p in Hv, Hdir. unfold ufat_dir_create.
  eapply returns_check; [apply (check_new_holds p start bs Hv H0 w V name es Ho); [apply Hd|done|done]|done|]. intros _ w1 [K1 [O1 O2 O3 O4]]. go_gets.
  pose proof K1 as [= _ B1 _ A1]. pose proof (parent_number p V start bs (wdir w1) Hv Hdir O4) as Hpar.
  eapply returns_check; [apply on_ufat_returns, (create_empty_dir_holds (wfs w1) V (wdir w1) ent O1); rewrite ?O2; try done| |].
  { unfold alloc_ok in *. rewrite O2, A1. exact Ha. } { pose proof (volume_clusters p Hv). destruct (start <? cluster_start p); lia. }
  { intros e w2 [Hf D2]. apply (create_refused w w1); try done. congruence. }
  intros c w2 [(V2 & A2 & W & HW & Hnew) D2]. rewrite O2 in Hnew. rewrite <- D2 in Hnew.
  eapply returns_mono; [apply (insert_or_free_holds w w2 V W es ent name c k start bs); try done|done|].
  { rewrite V2. by apply meta_vol. } { congruence. }
  intros e w3 (B3 & A3 & X & es' & Hm & Hd3 & Had & HX). split; [done|]. split; [done|]. exists c, X, es'. pose proof (nc_usable _ _ _ _ _ _ Hnew) as Hus. pose proof Hus as [Hc _].
  destruct (new_cluster_directory p V c ent _ W start bs es Hv Hdir (dy_entries _ _ _ _ _ Hd) Hu Hnew) as [Hdir' _].
  destruct (changed_is_dir p W X start bs Hv Hdir' HX) as [_ Hfat].
  split; [done|]. split; [apply Hnew|]. split; [done|]. split; [done|]. split; [done|]. split.
  { destruct Hd3 as [P1 P2 P3 P4 P5]. pose proof (added_opens (wfs w3) X start bs es es' ent c e name P1 P2 P3 P5 Had Hm) as Hop. rewrite B3 in Hop. by apply Hop. }
  split.
  { apply (new_cluster_empty p V c ent (wdir w2) start bs W X); try done; [congruence| |by apply Hfat; lia]. intros b Hb. apply HX. by apply (Hu c b Hus (nc_free _ _ _ _ _ _ Hnew)). }
  split; [intros j Hj; rewrite Hfat by done; by apply Hnew|]. intros b [Hb Hbc]%not_elem_of_app Hbf. rewrite HX by done. by apply Hnew.
Qed.

(** No free cluster is in the root directory of FAT12 and FAT16. *)
Lemma root_in_use p V bs : volume p -> (forall b, b ∈ bs -> b < cluster_start p) -> in_use p V bs.
Proof.
  intros Hv Hb c b [Hc _] _ (x & k & ->%list_elem_of_singleton & Hk & ->)%elem_of_chain_blocks Hin%Hb. pose proof (data_block_range p c k Hv Hc Hk). lia.
Qed.
End Claims.

(** * On a small volume *)

Lemma mkdir_makes_directory_witness : exists e w' c W, ufat_dir_create demo_entry demo_name (demo_walk demo_disk) = Ret (inr e) w' /\
  @holds _ _ demo_spec (wfs w') W /\ ufat_open_subdir demo_bpb e = inr (opened_at (cluster_to_block demo_bpb c)) /\ empty_dir demo_bpb W c 3.
Proof.
  destruct demo_new as (H1 & H2 & H3).
  destruct (returns_never _ _ _ _ (@mkdir_makes_directory _ _ demo_spec (demo_walk demo_disk) (file_block demo_disk) 3 [3] (demo_entries demo_disk) demo_entry demo_name
    ltac:(apply demo_directory; by vm_compute) H3 H1 H2 demo_alloc_ok ltac:(vm_compute; lia)
    ltac:(apply (@root_in_use _ _ demo_spec); [apply demo_volume|intros b ->%list_elem_of_singleton; reflexivity]))) as (e & w' & E & _ & _ & c & W & es' & _ & _ & _ & Hd & _ & Ho & He & _).
  - intros e t (_ & W & _ & _ & [[]|(_ & Hfull & _)]). apply (Hfull 4); [|vm_compute; reflexivity]. split; [split; [discriminate|reflexivity]|intros [_ Hf]; discriminate Hf].
  - exists e, w', c, W. split; [exact E|]. split; [apply Hd|]. split; [exact Ho|exact He].
Defined.
