(* ===== verification/Vfat.v ===== *)
(** The commands on files of the shell, fs/vfat.c: ufat, touch, mkdir, sync, ls and cd, on the
    shell, the open file system, the current directory and its path. *)

From stdpp Require Import strings.
From S2P Require Import Prelude MyPrintf MyLine MyShell UfatDev UfatCache UfatFat UfatBpb UfatMkfs UfatName UfatDir.
#[local] Open Scope Z_scope.

Definition FULL_PATH_LEN : Z := 2048.

Section Commands.
Context {D : Type} {BD : BlockDevice D}.

(** [dir_uf] tells whether the pointer of the directory to the file system is set. *)
Record vfat := mkVfat { shell : Shell; uf : ufat D; dir_uf : bool; dir : ufat_directory; cur_dir_full : list Z }.

Definition set_shell x v := mkVfat x (uf v) (dir_uf v) (dir v) (cur_dir_full v).
Definition set_uf x v := mkVfat (shell v) x (dir_uf v) (dir v) (cur_dir_full v).
Definition set_dir x v := mkVfat (shell v) (uf v) true x (cur_dir_full v).
Definition set_walk (w : walk) v := mkVfat (shell v) (wfs w) (dir_uf v) (wdir w) (cur_dir_full v).
Definition set_cur_dir_full x v := mkVfat (shell v) (uf v) (dir_uf v) (dir v) x.

Definition on_shell {A} (m : prog Shell A) : prog vfat A := zoom shell set_shell m.
Definition on_uf {A} (m : prog (ufat D) A) : prog vfat A := zoom uf set_uf m.
Definition on_device {A} (m : prog D A) : prog vfat A := on_uf (zoom disk set_disk m).

(** A function that reads the directory: it follows the pointer to the file system. *)
Definition on_dir {A} (m : prog walk A) : prog vfat A :=
  b ← gets dir_uf; require b;; zoom (fun v => mkWalk (uf v) (dir v)) set_walk m.

(** A function that gives an illegal name back before it follows the pointer. *)
Definition on_dir_with {A} (name : list Z) (m : prog walk A) : prog vfat A :=
  b ← gets dir_uf; require (b || negb (ufat_lfn_is_legal name));; zoom (fun v => mkWalk (uf v) (dir v)) set_walk m.

Definition say (s : string) (va : list va_value) : prog vfat unit := on_shell (println s va).
Definition print (s : string) (va : list va_value) : prog vfat unit := on_shell (shell_printf (chars s) va).

(** The shell has [char]s, the file system bytes. *)
Definition as_array (name : list Z) : list Z := (as_char <$> name) ++ [0].
Definition arg_string (c : cmd_parsed_t) (k : Z) : option (list Z) := match arg c k ≫= c_string with Some s => Some (u8 <$> s) | None => None end.

Definition CHECK_FS_OPEN (k : prog vfat cli_status_t) : prog vfat cli_status_t :=
  u ← gets uf;
  if dev u then k else say "ufat has not open, you should open it first!" [];; mret CLI_EXE_ERROR.

(** The result of a command by the result of a function of the file system. *)
Definition with_status {A} (m : result vfat A) : prog vfat cli_status_t :=
  r ← m; mret (match r with inl _ => CLI_EXE_ERROR | inr _ => CLI_OK end).

(** What is done with every entry from the position of the directory on. *)
Fixpoint for_entries (fuel : nat) (f : ufat_dirent -> list Z -> prog vfat unit) : prog vfat cli_status_t :=
  match fuel with
  | O => nofuel
  | S fuel =>
      r ← on_dir (ufat_dir_read UFAT_LFN_MAX_UTF8);
      match r with
      | inl _ => mret CLI_EXE_ERROR
      | inr None => mret CLI_OK
      | inr (Some (inf, lfn)) => f inf lfn;; for_entries fuel f
      end
  end.

Definition each_entry (f : ufat_dirent -> list Z -> prog vfat unit) : prog vfat cli_status_t :=
  u ← gets uf; for_entries (dir_fuel (bpb u)) f.

Definition then_ok (m k : prog vfat cli_status_t) : prog vfat cli_status_t :=
  st ← m; if bool_decide (st = CLI_OK) then k else mret st.

Definition update_path (f : list Z -> option (list Z)) : prog vfat unit :=
  p ← gets cur_dir_full; p ← of_option (f p); modify (set_cur_dir_full p).
Definition show_path : prog vfat unit := p ← gets cur_dir_full; on_shell (shell_set_prompt p).

(** * [ufat] *)

Definition ufat_usage : prog vfat unit := say "usage: ufat <cmd>" [];; say "<cmd> can be 1.format 2.open 3.info" [].

Definition ufat_open_command : prog vfat cli_status_t :=
  r ← on_uf ufat_open;
  match r with
  | inl _ => mret CLI_EXE_ERROR
  | inr _ =>
      u ← gets uf;
      modify (set_dir (ufat_open_root (bpb u)));;
      update_path (fun p => p ← zset p 0 47; zset p 1 0);;
      show_path;;
      each_entry (fun _ lfn => on_shell (shell_add_keyword (as_array lfn)))
  end.

Definition ufat_info : prog vfat cli_status_t :=
  u ← gets uf;
  let b := bpb u in
  say "Type:                       FAT%d" [VInt (fat_type b)];;
  say "Blocks per cluster:         %u" [VInt (Z.shiftl 1 (log2_blocks_per_cluster b))];;
  say "FAT size (blocks):          %u" [VInt (fat_size b)];;
  say "FAT offset (block):         %u" [VInt (fat_start b)];;
  say "FAT count:                  %u" [VInt (fat_count b)];;
  say "Cluster starting block:     %u" [VInt (cluster_start b)];;
  say "Clusters:                   %u" [VInt (num_clusters b)];;
  say "Root directory block start: %u" [VInt (root_start b)];;
  say "Root directory block count: %u" [VInt (root_size b)];;
  say "Root directory cluster:     %u" [VInt (root_cluster b)];;
  mret CLI_OK.

Definition DISK_BLOCKS : Z := 2097152.

Definition ufat_func (c : cmd_parsed_t) : prog vfat cli_status_t :=
  if negb (argc c =? 2) then mret CLI_INVALID_ARGS
  else
    word ← of_option (arg c 1);
    format ← of_option (match_cmd (literal "format") word);
    open ← of_option (match_cmd (literal "open") word);
    info ← of_option (match_cmd (literal "info") word);
    if format : bool then with_status (on_device (ufat_mkfs DISK_BLOCKS))
    else if open : bool then ufat_open_command
    else if info : bool then CHECK_FS_OPEN ufat_info
    else mret CLI_INVALID_ARGS.

(** * [touch], [mkdir] and [sync] *)

Definition touch_usage : prog vfat unit := say "usage: touch <filname>" [];; say "create a empty file in current dir." [].
Definition mkdir_usage : prog vfat unit := say "usage: mkdir <dirname>" [];; say "create a empty dir in current dir." [].
Definition sync_usage : prog vfat unit := say "usage: sync" [];; say "sync ufat system." [].

(** [inf] is what the variable of that name happens to hold: it is not set by the command. *)
Definition make_entry (make : ufat_dirent -> list Z -> result walk ufat_dirent) (inf : ufat_dirent) (c : cmd_parsed_t) : prog vfat cli_status_t :=
  if negb (argc c =? 2) then mret CLI_INVALID_ARGS
  else CHECK_FS_OPEN (
    name ← of_option (arg_string c 1);
    with_status (on_dir_with name (make inf name))).

Definition touch_func (inf : ufat_dirent) (c : cmd_parsed_t) : prog vfat cli_status_t := make_entry ufat_dir_mkfile inf c.
Definition mkdir_func (inf : ufat_dirent) (c : cmd_parsed_t) : prog vfat cli_status_t := make_entry ufat_dir_create inf c.

Definition sync_func (c : cmd_parsed_t) : prog vfat cli_status_t :=
  if negb (argc c =? 1) then mret CLI_INVALID_ARGS
  else CHECK_FS_OPEN (
    rc ← on_uf ufat_sync;
    mret (if rc =? 0 then CLI_OK else CLI_EXE_ERROR)).

(** * [ls] *)

Definition ls_usage : prog vfat unit := say "usage: ls" [];; say "list all items in cur directory." [].

Definition attribute_char (inf : ufat_dirent) (a c : Z) : va_value := VInt (if Z.land (attributes inf) a =? 0 then 32 else c).

Definition print_entry (inf : ufat_dirent) (lfn : list Z) : prog vfat unit :=
  let d := modify_date inf in
  let t := modify_time inf in
  print "%04d-%02d-%02d " [VInt (UFAT_DATE_Y d); VInt (UFAT_DATE_M d); VInt (UFAT_DATE_D d)];;
  print "%2d:%02d:%02d " [VInt (UFAT_TIME_H t); VInt (UFAT_TIME_M t); VInt (UFAT_TIME_S t)];;
  print "%c%c%c%c%c " [attribute_char inf UFAT_ATTR_ARCHIVE 65; attribute_char inf UFAT_ATTR_SYSTEM 83;
    attribute_char inf UFAT_ATTR_HIDDEN 72; attribute_char inf UFAT_ATTR_READONLY 82; attribute_char inf UFAT_ATTR_DIRECTORY 68];;
  print "%9u " [VInt (ent_size inf)];;
  say "%s" [VStr (as_char <$> lfn)].

Definition ls_func (c : cmd_parsed_t) : prog vfat cli_status_t :=
  if negb (argc c =? 1) then mret CLI_INVALID_ARGS
  else CHECK_FS_OPEN (
    on_dir ufat_dir_rewind;;
    each_entry print_entry).

(** * [cd] *)

Definition cd_usage : prog vfat unit := say "usage: cd <dirname>" [];; say "enter a dir (which is in cur dir)." [].

(** From place [i] down to a '/', which is looked for in front of the array when there is none. *)
Fixpoint slash_from (count : nat) (path : list Z) : option nat :=
  c ← path !! count;
  if c =? 47 then Some count else match count with O => None | S count => slash_from count path end.

Definition path_up (path : list Z) : option (list Z) :=
  n ← sh_strlen path;
  i ← slash_from (Z.to_nat n) path;
  zset path (if Nat.eqb i 0 then 1 else Z.of_nat i) 0.

(** [size] elements of [src], to place [o] of [dst]. *)
Definition memcpy_at (dst : list Z) (o : Z) (src : list Z) (size : Z) : option (list Z) :=
  if (0 <=? o) && (o + size <=? Z.of_nat (length dst)) && (0 <=? size) && (size <=? Z.of_nat (length src))
  then Some (put (Z.to_nat o) (take (Z.to_nat size) src) dst) else None.

Definition path_down (orilen subdirlen : Z) (word path : list Z) : option (list Z) :=
  if negb (orilen =? 1) then
    path ← zset path orilen 47;
    path ← memcpy_at path (orilen + 1) word subdirlen;
    zset path (orilen + 1 + subdirlen) 0
  else
    path ← memcpy_at path orilen word subdirlen;
    zset path (orilen + subdirlen) 0.

Definition change_path (word : list Z) : prog vfat cli_status_t :=
  dot ← of_option (match_cmd (literal ".") word);
  dotdot ← of_option (match_cmd (literal "..") word);
  if dot : bool then mret CLI_OK
  else if dotdot : bool then update_path path_up;; show_path;; mret CLI_OK
  else
    path ← gets cur_dir_full;
    orilen ← of_option (sh_strlen path);
    subdirlen ← of_option (sh_strlen word);
    if FULL_PATH_LEN <? orilen + 1 + subdirlen then say "FULL_PATH_LEN limit!" [];; mret CLI_EXE_ERROR
    else update_path (path_down orilen subdirlen word);; show_path;; mret CLI_OK.

Definition announce (_ : ufat_dirent) (lfn : list Z) : prog vfat unit :=
  dot ← of_option (match_cmd (literal ".") (as_array lfn));
  dotdot ← of_option (match_cmd (literal "..") (as_array lfn));
  if (dot || dotdot : bool) then mret tt else say "adding %s" [VStr (as_char <$> lfn)].

Definition cd_func (c : cmd_parsed_t) : prog vfat cli_status_t :=
  if negb (argc c =? 2) then mret CLI_INVALID_ARGS
  else CHECK_FS_OPEN (
    word ← of_option (arg c 1);
    name ← of_option (arg_string c 1);
    r ← on_dir (ufat_dir_find name);
    match r with
    | inr (Some inf) =>
        then_ok (each_entry (fun _ lfn => say "removing %s" [VStr (as_char <$> lfn)])) (
          u ← gets uf;
          match ufat_open_subdir (bpb u) inf with
          | inl _ => mret CLI_EXE_ERROR
          | inr d => modify (set_dir d);; then_ok (each_entry announce) (change_path word)
          end)
    | _ => say "cannot find this dir." [];; mret CLI_EXE_ERROR
    end).

(** * The rows of the command table *)

Definition file_usage (i : Z) : prog vfat unit :=
  if i =? 4 then ufat_usage else if i =? 5 then touch_usage else if i =? 6 then mkdir_usage
  else if i =? 7 then sync_usage else if i =? 8 then ls_usage else cd_usage.

Definition file_func (inf : ufat_dirent) (i : Z) (c : cmd_parsed_t) : prog vfat cli_status_t :=
  if i =? 4 then ufat_func c else if i =? 5 then touch_func inf c else if i =? 6 then mkdir_func inf c
  else if i =? 7 then sync_func c else if i =? 8 then ls_func c else cd_func c.
End Commands.
