(* ===== verification/VfatSpec.v ===== *)
(** What the commands on files promise: [ls] prints the entries of the directory, the path of
    [cd] is the list of the directories that were entered, and nothing is done before a file
    system is open. *)

From stdpp Require Import strings.
From S2P Require Import Prelude MyPrintf MyLine MyEdit MyShell MyParse MySpec.
From S2P Require Import UfatDev UfatCache UfatView UfatFat UfatTable UfatChain UfatBlock UfatBpb UfatName UfatLong UfatFile UfatDir UfatRead UfatWrite UfatWalk UfatInsert UfatMake UfatSpec UfatDirSpec Vfat.
#[local] Open Scope Z_scope.

(** * Entries that are read *)

Lemma entry_of_ok type s lfn : Forall is_byte (slot_data s) -> dirent_ok type (entry_of type s lfn).
Proof.
  destruct s as [[data b] pos]. intros Hd. destruct (parse_ok type data (set_place b pos no_entry) Hd) as [H1 H2 H3 H4 H5 H6 H7 H8 H9 H10].
  unfold entry_of. destruct (ufat_lfn_ok lfn); by split.
Qed.

Lemma listing_ok type l : forall lfn es, Forall (fun s => Forall is_byte (slot_data s)) l -> listing type l lfn = Some es -> Forall (fun x => dirent_ok type x.1) es.
Proof.
  induction l as [|s l IH]; intros lfn es Hl E; cbn [listing] in E; [injection E as <-; constructor|]. apply Forall_cons in Hl as [Hs Hl].
  destruct (digest type s lfn) as [[lfn'|[e lfn']]|] eqn:Ed; [by apply (IH lfn')| |done].
  destruct (listing type l new_parser) as [es'|] eqn:El; [|done]. injection E as <-. constructor; [|by apply (IH new_parser)]. cbn [fst].
  destruct s as [[data b] pos]. unfold digest in Ed. destruct (is_fragment data); [by destruct (ufat_lfn_parse _ _ _ _)|]. destruct (is_empty_entry data); [done|].
  cbv zeta in Ed. destruct (negb _); [done|]. injection Ed as <- <-. exact (entry_of_ok type (data, b, pos) (matched (ufat_parse_dirent type data no_entry) lfn) Hs).
Qed.

(** * The line of an entry *)

Definition flag_char (e : ufat_dirent) (a c : Z) : Z := if Z.land (attributes e) a =? 0 then 32 else c.

(** The date, the time, the attributes, the size and the name. *)
Definition ls_line (e : ufat_dirent) (name : list Z) : list Z :=
  let d := modify_date e in let t := modify_time e in
  MyPrintf.padded 4 true (decimal (UFAT_DATE_Y d)) ++ [45] ++ MyPrintf.padded 2 true (decimal (UFAT_DATE_M d)) ++ [45] ++ MyPrintf.padded 2 true (decimal (UFAT_DATE_D d)) ++ [32] ++
  MyPrintf.padded 2 false (decimal (UFAT_TIME_H t)) ++ [58] ++ MyPrintf.padded 2 true (decimal (UFAT_TIME_M t)) ++ [58] ++ MyPrintf.padded 2 true (decimal (UFAT_TIME_S t)) ++ [32] ++
  [flag_char e UFAT_ATTR_ARCHIVE 65; flag_char e UFAT_ATTR_SYSTEM 83; flag_char e UFAT_ATTR_HIDDEN 72; flag_char e UFAT_ATTR_READONLY 82; flag_char e UFAT_ATTR_DIRECTORY 68; 32] ++
  MyPrintf.padded 9 false (decimal (ent_size e)) ++ [32] ++ (as_char <$> name) ++ crlf.

Lemma signed_decimal_nonneg n : 0 <= n -> signed_decimal n = decimal n.
Proof. intros H. unfold signed_decimal. by rewrite (proj2 (Z.ltb_ge _ _) H). Qed.

Lemma field_bound x k n : 0 <= x < 2 ^ 16 -> 0 <= n -> 0 <= Z.land (Z.shiftr x k) n <= n.
Proof.
  intros Hx Hn. split; [apply Z.land_nonneg; lia|]. rewrite Z.land_comm. apply Z.ldiff_le; [done|]. apply Z.bits_inj'. intros i Hi.
  rewrite Z.ldiff_spec, Z.land_spec, Z.bits_0. by destruct (Z.testbit n i), (Z.testbit (Z.shiftr x k) i).
Qed.

Lemma date_bounds d : 0 <= d < 2 ^ 16 -> 0 <= UFAT_DATE_Y d < 2 ^ 31 /\ 0 <= UFAT_DATE_M d < 2 ^ 31 /\ 0 <= UFAT_DATE_D d < 2 ^ 31.
Proof.
  intros H. unfold UFAT_DATE_Y, UFAT_DATE_M, UFAT_DATE_D. pose proof (field_bound d 5 0xf H ltac:(done)) as H1. pose proof (field_bound d 0 0x1f H ltac:(done)) as H2.
  rewrite Z.shiftr_0_r in H2. assert (0 <= Z.shiftr d 9 <= d) by (rewrite Z.shiftr_div_pow2 by lia; split; [apply Z.div_pos|apply Z.div_le_upper_bound]; lia). lia.
Qed.

Lemma time_bounds t : 0 <= t < 2 ^ 16 -> 0 <= UFAT_TIME_H t < 2 ^ 31 /\ 0 <= UFAT_TIME_M t < 2 ^ 31 /\ 0 <= UFAT_TIME_S t < 2 ^ 31.
Proof.
  intros H. unfold UFAT_TIME_H, UFAT_TIME_M, UFAT_TIME_S. pose proof (field_bound t 11 0x1f H ltac:(done)). pose proof (field_bound t 5 0x3f H ltac:(done)).
  pose proof (field_bound t 0 0x1f H ltac:(done)) as H2. rewrite Z.shiftr_0_r in H2. rewrite Z.shiftl_mul_pow2 by lia. lia.
Qed.

(** A format with its arguments is a list of pieces. *)
Lemma print_pieces fmt va ps s :
  fmt = concat (fmt_of <$> ps) -> va = concat (args_of <$> ps) -> Forall piece_ok ps ->
  shell_printf fmt va s = Ret tt (set_screen (screen s ++ concat (text_of <$> ps)) s).
Proof. intros -> ->. apply printf_run. Qed.

Section Commands.
Context {D : Type} {BD : BlockDevice D} {DS : DeviceSpec D}.
Implicit Types (V W : Z -> list Z) (v : @vfat D).

(** The text is on the screen, and nothing else has changed. *)
Definition showing (t : list Z) v : vfat := set_shell (set_screen (screen (shell v) ++ t) (shell v)) v.

Lemma showing_app a b v : showing b (showing a v) = showing (a ++ b) v.
Proof. unfold showing, set_shell, set_screen. cbn. by rewrite app_assoc. Qed.

Lemma print_shows fmt va ps v :
  chars fmt = concat (fmt_of <$> ps) -> va = concat (args_of <$> ps) -> Forall piece_ok ps -> print fmt va v = Ret tt (showing (concat (text_of <$> ps)) v).
Proof. intros E1 E2 F. unfold print, on_shell, zoom. by rewrite (print_pieces _ _ _ _ E1 E2 F). Qed.

Lemma say_name name v : say "%s" [VStr name] v = Ret tt (showing (name ++ crlf) v).
Proof. unfold say, on_shell, zoom. by rewrite println_s. Qed.

Ltac pieces := repeat (apply Forall_cons_2; [cbn [piece_ok conv_ok]; (lia || (split; [lia|match goal with H : forall a c : Z, _ -> _ |- _ => apply H; lia end]))|]); apply Forall_nil_2.

Lemma print_entry_shows e name type v : dirent_ok type e -> print_entry e name v = Ret tt (showing (ls_line e name) v).
Proof.
  intros [_ _ H3 _ _ H6 H7 _ _ H10]. unfold print_entry. destruct (date_bounds _ H6) as (Y & M & Dd), (time_bounds _ H7) as (Hh & Mi & S).
  assert (forall a c, 0 <= c < 128 -> -128 <= flag_char e a c < 128) as Hf by (intros a c Hc; unfold flag_char; destruct (_ =? 0); lia).
  erewrite bind_Ret; [|apply (print_shows _ _ [Conv true 4 (Cd (UFAT_DATE_Y (modify_date e))); Lit 45; Conv true 2 (Cd (UFAT_DATE_M (modify_date e))); Lit 45; Conv true 2 (Cd (UFAT_DATE_D (modify_date e))); Lit 32]); [reflexivity..|pieces]].
  erewrite bind_Ret; [|apply (print_shows _ _ [Conv false 2 (Cd (UFAT_TIME_H (modify_time e))); Lit 58; Conv true 2 (Cd (UFAT_TIME_M (modify_time e))); Lit 58; Conv true 2 (Cd (UFAT_TIME_S (modify_time e))); Lit 32]); [reflexivity..|pieces]].
  erewrite bind_Ret; [|apply (print_shows _ _ [Conv false 0 (Cc (flag_char e UFAT_ATTR_ARCHIVE 65)); Conv false 0 (Cc (flag_char e UFAT_ATTR_SYSTEM 83)); Conv false 0 (Cc (flag_char e UFAT_ATTR_HIDDEN 72));
    Conv false 0 (Cc (flag_char e UFAT_ATTR_READONLY 82)); Conv false 0 (Cc (flag_char e UFAT_ATTR_DIRECTORY 68)); Lit 32]); [reflexivity..|pieces]].
  erewrite bind_Ret; [|apply (print_shows _ _ [Conv false 9 (Cu (ent_size e)); Lit 32]); [reflexivity..|pieces]].
  rewrite say_name, !showing_app. do 2 f_equal. unfold ls_line. cbn [fmap list_fmap concat text_of app]. rewrite !signed_decimal_nonneg by lia. by repeat (progress (rewrite <- ?app_assoc; cbn [app])).
Qed.

(** * Listing a directory *)

(** The directory the commands work on, open. *)
Definition in_dir v V start bs es : Prop := dir_uf v = true /\ directory (mkWalk (uf v) (dir v)) V start bs es.

(** Only the screen has changed, and what is not seen of the file system. *)
Record showed v (t : list Z) v' : Prop := {
  sw_shell : shell v' = set_screen (screen (shell v) ++ t) (shell v);
  sw_meta : meta (uf v') = meta (uf v);
  sw_start : dir_start (dir v') = dir_start (dir v);
  sw_set : dir_uf v' = dir_uf v;
  sw_path : cur_dir_full v' = cur_dir_full v
}.

Lemma on_dir_returns {A} (m : result walk A) v E Q : dir_uf v = true ->
  returns m (mkWalk (uf v) (dir v)) E Q ->
  returns (on_dir m) v (fun e v' => exists w', v' = set_walk w' v /\ E e w') (fun a v' => exists w', v' = set_walk w' v /\ Q a w').
Proof.
  intros Hu H. unfold on_dir. go_gets. rewrite Hu. apply returns_bind, wp_require; [done|]. unfold returns, wp, zoom in *.
  destruct (m _) as [[e|a] w'|c w'| |]; try done; by exists w'.
Qed.

Section Listing.
Context (p : ufat_bpb) (start : Z) (bs : list Z).
Hypothesis Hvol : volume p.
Notation n_slots := (length bs * in_block)%nat.
Notation at_slot v V i := (dir_uf v = true /\ walking p start bs (mkWalk (uf v) (dir v)) V i).

(** What [f] prints of every entry is printed, up to the entry where the device fails. *)
Lemma for_entries_shows (f : ufat_dirent -> list Z -> prog vfat unit) (line : ufat_dirent * ufat_lfn_parser -> list Z) fuel : forall v V i es,
  at_slot v V i -> (n_slots - i < fuel)%nat -> listing (fat_type p) (drop i (slots V bs)) new_parser = Some es ->
  Forall (fun x => exists name, (named x).2 = inr name /\ forall v, f x.1 name v = Ret tt (showing (line x) v)) es ->
  wp (for_entries fuel f) v (fun st v' => exists k, showed v (concat (line <$> take k es)) v' /\ holds (uf v') V /\
    (st = CLI_OK /\ (length es <= k)%nat \/ may_fail /\ st = CLI_EXE_ERROR)).
Proof.
  induction fuel as [|fuel IH]; intros v V i es [Hu Hw] Hf Hl Hp; [lia|]. cbn [for_entries].
  assert (forall w', kept (mkWalk (uf v) (dir v)) w' -> dir_start (wdir w') = start -> showed v [] (set_walk w' v)) as Hnone.
  { intros w' K Hs. split; cbn; [by rewrite same_screen|done| |done|done]. pose proof (wk_at _ _ _ _ _ _ Hw) as E. cbn in E. by rewrite E. }
  eapply wp_step; [apply (on_dir_returns _ _ _ _ Hu (dir_read_holds p start bs Hvol _ V i es Hw Hl))|]. intros [e|a] v1 (w1 & -> & H1).
  - destruct H1 as [((F1 & F2 & F3 & F4) & F5)|[(x & es' & -> & E) _]].
    + apply wp_ret. exists 0%nat. split; [by apply Hnone|]. split; [exact F3|by right].
    + inversion_clear Hp as [|? ? (name & En & _) _]. congruence.
  - destruct H1 as (K & j & Hj & Ha). destruct es as [|x es].
    + subst a. apply wp_ret. exists 0%nat. split; [apply Hnone; [done|]; by rewrite (wk_at _ _ _ _ _ _ Hj)|]. split; [apply Hj|left; split; [done|cbn; lia]].
    + destruct Ha as (name & En & -> & Hl' & Hlt). inversion_clear Hp as [|? ? (name' & En' & Hline) Hp']. rewrite En in En'. injection En' as <-.
      apply (wp_go _ _ _ tt _ _ (Hline _)). pose proof (wk_inside _ _ _ _ _ _ Hj).
      eapply wp_mono; [apply (IH (showing (line x) (set_walk w1 v)) V j es); [by split; [|destruct w1]|lia|done|done]|].
      intros st v' (k & [S1 S2 S3 S4 S5] & Hh & Hst). exists (S k). split; [|split; [done|]].
      * destruct (Hnone w1 K ltac:(by rewrite (wk_at _ _ _ _ _ _ Hj))) as [N1 N2 N3 N4 N5]. split; [|rewrite S2; exact N2|rewrite S3; exact N3|by rewrite S4|by rewrite S5].
        rewrite S1. cbn. by rewrite app_assoc.
      * destruct Hst as [[-> Hk]|Hst]; [left; split; [done|cbn; lia]|by right].
Qed.
End Listing.

Definition listed (x : ufat_dirent * ufat_lfn_parser) : list Z := ls_line x.1 (match (named x).2 with inr name => name | inl _ => [] end).

(** Every name of the directory can be shown. *)
Definition readable (es : list (ufat_dirent * ufat_lfn_parser)) : Prop := Forall (fun x => exists name, (named x).2 = inr name) es.

Lemma listed_printed p bs V es : Forall (fun s => Forall is_byte (slot_data s)) (slots V bs) -> listing (fat_type p) (slots V bs) new_parser = Some es -> readable es ->
  Forall (fun x => exists name, (named x).2 = inr name /\ forall v, print_entry x.1 name v = Ret tt (showing (listed x) v)) es.
Proof.
  intros Hb Hl Hr. pose proof (listing_ok _ _ _ _ Hb Hl) as Hok. apply Forall_forall. intros x Hx. destruct (proj1 (Forall_forall _ _) Hr x Hx) as [name En].
  exists name. split; [done|]. intros v. unfold listed. rewrite En. apply (print_entry_shows _ _ (fat_type p)). by apply (proj1 (Forall_forall _ _) Hok).
Qed.

Lemma showed_dir v t v' V start bs es : in_dir v V start bs es -> showed v t v' -> holds (uf v') V -> in_dir v' V start bs es.
Proof.
  intros [Hu [H1 H2 H3 H4 H5]] [S1 [= S2a S2 S2c S2d] S3 S4 S5] Hh. split; [by rewrite S4|]. cbn [wfs wdir] in *. split; cbn [wfs wdir]; rewrite ?S2, ?S3; done.
Qed.

(** C14: [ls] prints a line for every entry of the directory, in its order, with its date, time,
    attributes, size and name, and changes nothing else that can be seen. *)
Theorem ls_lists v c V start bs es :
  dev (uf v) = true -> in_dir v V start bs es -> readable es -> argc c = 1 ->
  wp (ls_func c) v (fun st v' => exists k, showed v (concat (listed <$> take k es)) v' /\ in_dir v' V start bs es /\
    (st = CLI_OK /\ (length es <= k)%nat \/ may_fail /\ st = CLI_EXE_ERROR)).
Proof.
  intros Ho [Hu Hd] Hr Hc. destruct (directory_opened _ _ _ _ _ Hd) as [Hop H0]. pose proof (dy_volume _ _ _ _ _ Hd) as Hvol. pose proof (entries_listing _ _ _ _ (dy_entries _ _ _ _ _ Hd)) as Hl.
  unfold ls_func, CHECK_FS_OPEN. rewrite Hc. change (negb (1 =? 1)) with false. cbv iota. go_gets. rewrite Ho.
  set (p := bpb (uf v)) in *. destruct (wp_run _ _ _ (rewind_holds p start bs H0 _ V Hop)) as ([] & w1 & E1 & Hw1 & K1).
  assert (on_dir ufat_dir_rewind v = Ret tt (set_walk w1 v)) as E1' by (unfold on_dir; rewrite bind_gets, Hu, bind_require by done; unfold zoom; by rewrite E1).
  apply (wp_go _ _ _ _ _ _ E1'). unfold each_entry. go_gets.
  pose proof (da_fuel _ _ _ (wk_dir _ _ _ _ _ _ Hw1)). pose proof K1 as [= _ Kb _ _].
  eapply wp_mono; [apply (for_entries_shows p start bs Hvol _ listed _ (set_walk w1 v) V 0 es); [by split; [|destruct w1]| |by rewrite drop_0|]|].
  - change (bpb (uf (set_walk w1 v))) with (bpb (wfs w1)). rewrite Kb. fold p. lia.
  - apply (listed_printed p bs V); [|done|done]. by apply (slots_bytes p start bs w1 V 0).
  - intros st v' (k & [S1 S2 S3 S4 S5] & Hh & Hst). exists k.
    assert (showed v (concat (listed <$> take k es)) v') as Hs.
    { split; [done|rewrite S2; exact K1|rewrite S3|by rewrite S4|by rewrite S5]. cbn. rewrite (wk_at _ _ _ _ _ _ Hw1). cbn. pose proof (dy_start _ _ _ _ _ Hd) as E; cbn in E; by rewrite E. }
    split; [done|]. split; [by eapply showed_dir|done].
Qed.

(** * The path *)

(** The directories that were entered, as the text of a path. *)
Definition path_text (cs : list (list Z)) : list Z := match cs with [] => [47] | _ => concat ((fun c => 47 :: c) <$> cs) end.
Definition component (c : list Z) : Prop := c <> [] /\ Forall (fun x => x <> 0 /\ x <> 47) c.
Definition path_of (path : list Z) (cs : list (list Z)) : Prop :=
  Forall component cs /\ Z.of_nat (length path) = FULL_PATH_LEN /\ exists rest, path = path_text cs ++ 0 :: rest.

Definition enter (cs : list (list Z)) (w : list Z) : list (list Z) :=
  if bool_decide (w = [46]) then cs else if bool_decide (w = [46; 46]) then take (length cs - 1) cs else cs ++ [w].

Lemma no_nul_path cs : Forall component cs -> no_nul (path_text cs).
Proof.
  intros H. destruct cs as [|c cs]; [repeat constructor; lia|]. unfold path_text, no_nul. apply Forall_concat, Forall_fmap. eapply Forall_impl; [exact H|].
  intros x [_ Hx]. constructor; [lia|]. eapply Forall_impl; [exact Hx|]. cbn. lia.
Qed.

Lemma path_text_snoc cs w : cs <> [] -> path_text (cs ++ [w]) = path_text cs ++ 47 :: w.
Proof. intros H. destruct cs as [|c cs]; [done|]. change (path_text (c :: cs)) with (concat ((fun c => 47 :: c) <$> (c :: cs))). change (path_text ((c :: cs) ++ [w])) with (concat ((fun c => 47 :: c) <$> ((c :: cs) ++ [w]))). rewrite fmap_app, concat_app. f_equal. cbn. by rewrite app_nil_r. Qed.

Lemma path_strlen path cs : path_of path cs -> sh_strlen path = Some (Z.of_nat (length (path_text cs))).
Proof. intros (Hc & _ & rest & ->). apply sh_strlen_app. by apply no_nul_path. Qed.

(** The search finds the last '/'. *)
Lemma slash_from_spec a b rest : Forall (fun x => x <> 47) b -> rest <> [] -> head rest <> Some 47 ->
  slash_from (length (a ++ 47 :: b)) (a ++ 47 :: b ++ rest) = Some (length a).
Proof.
  intros Hb Hr Hh. assert (forall k, (k <= length b)%nat -> slash_from (length a + 1 + k) (a ++ 47 :: b ++ rest) = Some (length a)) as H.
  { induction k as [|k IH]; intros Hk.
    - rewrite Nat.add_0_r, Nat.add_1_r. cbn [slash_from]. rewrite lookup_app_r by lia. replace (S (length a) - length a)%nat with 1%nat by lia.
      change ((47 :: b ++ rest) !! 1%nat) with ((b ++ rest) !! 0%nat). destruct (lookup_lt_is_Some_2 (b ++ rest) 0) as [x Hx]; [rewrite length_app; destruct rest; [done|cbn; lia]|].
      rewrite Hx. cbn [mbind option_bind]. rewrite (proj2 (Z.eqb_neq x 47)).
      + destruct (length a) eqn:El; cbn [slash_from]; rewrite lookup_app_r, El, Nat.sub_diag by lia; done.
      + destruct b as [|y b]; cbn in Hx; [destruct rest; [done|]; cbn in Hx, Hh; congruence|]. injection Hx as <-. by inversion_clear Hb.
    - replace (length a + 1 + S k)%nat with (S (length a + 1 + k)) by lia. cbn [slash_from]. rewrite lookup_app_r by lia.
      replace (S (length a + 1 + k) - length a)%nat with (S (S k)) by lia. change ((47 :: b ++ rest) !! S (S k)) with ((b ++ rest) !! S k).
      destruct (lookup_lt_is_Some_2 (b ++ rest) (S k)) as [x Hx]; [rewrite length_app; destruct rest; [done|cbn; lia]|]. rewrite Hx. cbn [mbind option_bind].
      rewrite (proj2 (Z.eqb_neq x 47)); [by apply IH; lia|]. destruct (decide (S k < length b)%nat).
      + rewrite lookup_app_l in Hx by done. by apply (Forall_lookup_1 _ _ _ _ Hb Hx).
      + rewrite lookup_app_r in Hx by lia. replace (S k - length b)%nat with 0%nat in Hx by lia. destruct rest; [done|]. cbn in Hx, Hh. congruence. }
  rewrite length_app. cbn [length]. replace (length a + S (length b))%nat with (length a + 1 + length b)%nat by lia. by apply H.
Qed.

(** A text with a last component. *)
Lemma path_split cs : Forall component cs -> exists a b, path_text cs = a ++ 47 :: b /\ Forall (fun x => x <> 47) b /\
  path_text (take (length cs - 1) cs) = (if Nat.eqb (length a) 0 then [47] else a) /\ (length a = 0%nat -> (length cs <= 1)%nat).
Proof.
  intros Hc. destruct cs as [|c cs _] using rev_ind; [exists [], []; split_and!; try done; cbn; lia|]. rewrite length_app. cbn [length]. rewrite Nat.add_sub, take_app_length.
  apply Forall_app in Hc as [Hcs Hc]. inversion_clear Hc as [|? ? [_ Hc'] _]. assert (Forall (fun x => x <> 47) c) as Hc47 by (eapply Forall_impl; [exact Hc'|]; cbn; lia).
  destruct cs as [|d cs]; [exists [], c; split_and!; try done; unfold path_text; cbn; by rewrite app_nil_r|].
  exists (path_text (d :: cs)), c. rewrite path_text_snoc by done. split_and!; [done|done|by destruct d|by destruct d].
Qed.

Lemma path_up_spec path cs : path_of path cs -> exists path', path_up path = Some path' /\ path_of path' (take (length cs - 1) cs).
Proof.
  intros Hp. pose proof (path_strlen _ _ Hp) as Hs. destruct Hp as (Hc & Hl & rest & ->). destruct (path_split cs Hc) as (a & b & Et & Hb & Hup & _). unfold path_up.
  rewrite Hs. cbn [mbind option_bind]. rewrite Nat2Z.id, Et, <- app_assoc. cbn [app]. rewrite (slash_from_spec a b (0 :: rest)) by done. cbn [mbind option_bind].
  assert (Forall component (take (length cs - 1) cs)) as Hc' by by apply Forall_take.
  assert (length (a ++ 47 :: b ++ 0 :: rest) = length (path_text cs ++ 0 :: rest)) as Hlen by (rewrite Et, <- app_assoc; done).
  destruct (Nat.eqb_spec (length a) 0) as [Ha|Ha].
  - destruct a; [|done]. cbn [app length] in *. destruct (b ++ 0 :: rest) as [|y l] eqn:Ey; [by destruct b|].
    eexists. split; [apply (zset_mid [47] l y 0 1 eq_refl)|]. split; [done|]. split; [rewrite <- Hl, <- Hlen; done|]. exists l. by rewrite Hup.
  - eexists. split; [by apply (zset_mid a (b ++ 0 :: rest) 47 0)|]. split; [done|]. split; [rewrite <- Hl, <- Hlen, !length_app; cbn [length]; lia|].
    exists (b ++ 0 :: rest). by rewrite Hup.
Qed.

Lemma memcpy_mid a b c w x n : n = Z.of_nat (length w) -> length b = length w -> memcpy_at (a ++ b ++ c) (Z.of_nat (length a)) (w ++ x) n = Some (a ++ w ++ c).
Proof.
  intros -> Hb. unfold memcpy_at. rewrite !length_app, Hb. match goal with |- context [if ?b then _ else _] => assert (b = true) as -> by (rewrite !andb_true_iff, !Z.leb_le; lia) end. rewrite !Nat2Z.id, take_app_length. f_equal. unfold put.
  rewrite take_app_length. f_equal. f_equal. rewrite <- drop_drop, drop_app_length, <- Hb. by rewrite drop_app_length.
Qed.

Lemma split_at_n {A} (l : list A) n : (n <= length l)%nat -> exists a b, l = a ++ b /\ length a = n.
Proof. intros H. exists (take n l), (drop n l). rewrite take_drop, length_take. split; [done|lia]. Qed.

(** A name goes behind the path when there is room for it, a '/' and the NUL. *)
Lemma path_down_spec path cs w x : path_of path cs -> component w -> Z.of_nat (length (path_text (cs ++ [w]))) < FULL_PATH_LEN ->
  exists path', path_down (Z.of_nat (length (path_text cs))) (Z.of_nat (length w)) (w ++ x) path = Some path' /\ path_of path' (cs ++ [w]).
Proof.
  intros (Hc & Hl & rest & ->) Hw Hroom. assert (Forall component (cs ++ [w])) as Hc' by (apply Forall_app_2; [done|by constructor]).
  rewrite length_app in Hl. cbn [length] in Hl. unfold path_down. destruct (decide (cs = [])) as [->|Hne].
  - assert (path_text [w] = 47 :: w) as Ew by (unfold path_text; cbn; by rewrite app_nil_r). cbn [app] in Hc', Hroom |- *. rewrite Ew in Hroom. cbn [path_text length app] in Hroom, Hl |- *. change (negb (Z.of_nat 1 =? 1)) with false. cbv iota.
    destruct (split_at_n (0 :: rest) (length w)) as (b & c & E & Hb); [cbn [length]; lia|]. rewrite E. rewrite (memcpy_mid [47] b c w x) by done. cbn [mbind option_bind].
    assert (length b + length c = S (length rest))%nat as Hbc by (rewrite <- length_app, <- E; done). destruct c as [|y c]; [cbn in Hbc; lia|].
    eexists. split; [apply (zset_mid (47 :: w) c y 0); cbn [length]; lia|]. split; [done|]. split; [cbn [app length]; rewrite length_app; cbn [length] in *; lia|].
    exists c. by rewrite Ew.
  - rewrite (path_text_snoc _ _ Hne) in *. rewrite length_app in Hroom. cbn [length] in Hroom. set (t := path_text cs) in *.
    assert (1 < length t)%nat as Ht by (subst t; destruct cs as [|d cs]; [done|]; inversion_clear Hc as [|? ? [Hd _] _]; cbn; rewrite length_app; destruct d; [done|cbn; lia]).
    rewrite (proj2 (Z.eqb_neq _ _)) by lia. cbn [negb]. rewrite (zset_mid t rest 0 47) by done. cbn [mbind option_bind].
    destruct (split_at_n rest (length w)) as (b & c & -> & Hb); [lia|]. rewrite length_app in Hl.
    replace (t ++ 47 :: b ++ c) with ((t ++ [47]) ++ b ++ c) by by rewrite <- app_assoc. replace (Z.of_nat (length t) + 1) with (Z.of_nat (length (t ++ [47]))) by (rewrite length_app; cbn; lia).
    rewrite (memcpy_mid (t ++ [47]) b c w x) by done. cbn [mbind option_bind]. destruct c as [|y c]; [cbn in Hl; lia|]. rewrite app_assoc.
    eexists. split; [apply (zset_mid ((t ++ [47]) ++ w) c y 0); rewrite !length_app; cbn [length]; lia|]. split; [done|].
    split; [rewrite !length_app in *; cbn [length] in *; lia|]. exists c. by rewrite (path_text_snoc _ _ Hne), <- !app_assoc.
Qed.

(** The NUL does not fit when the test on the length just passes. *)
Lemma path_down_full path cs w x : path_of path cs -> component w -> cs <> [] -> Z.of_nat (length (path_text cs)) + 1 + Z.of_nat (length w) = FULL_PATH_LEN ->
  path_down (Z.of_nat (length (path_text cs))) (Z.of_nat (length w)) (w ++ x) path = None.
Proof.
  intros (Hc & Hl & rest & ->) Hw Hne Hfull. rewrite length_app in Hl. cbn [length] in Hl. unfold path_down. set (t := path_text cs) in *.
  assert (1 < length t)%nat as Ht by (subst t; destruct cs as [|d cs]; [done|]; inversion_clear Hc as [|? ? [Hd _] _]; cbn; rewrite length_app; destruct d; [done|cbn; lia]).
  rewrite (proj2 (Z.eqb_neq _ _)) by lia. cbn [negb]. rewrite (zset_mid t rest 0 47) by done. cbn [mbind option_bind].
  replace (t ++ 47 :: rest) with ((t ++ [47]) ++ rest ++ []) by (by rewrite app_nil_r, <- app_assoc). replace (Z.of_nat (length t) + 1) with (Z.of_nat (length (t ++ [47]))) by (rewrite length_app; cbn; lia).
  rewrite (memcpy_mid (t ++ [47]) rest [] w x) by (done || lia). cbn [mbind option_bind]. apply zset_none. rewrite !length_app. cbn [length]. lia.
Qed.

(** The prompt is the path, or its start, behind which there is room for two characters. *)
Lemma set_prompt_shows t rest s : no_nul t -> length (prompt s) = 255%nat ->
  exists msg p', shell_set_prompt (t ++ 0 :: rest) s = Ret tt (set_prompt p' (set_screen (screen s ++ msg) s)) /\
    length p' = 255%nat /\ c_string p' = Some (take 252 t ++ [62; 62]).
Proof.
  intros Hn Hl. set (n := length (take 252 t)). assert (n <= 252)%nat as Hn252 by (unfold n; rewrite length_take; lia).
  destruct (split_at_n (prompt s) n) as (a & b & Ep & Ha); [lia|]. assert (length b = 255 - n)%nat as Hb by (rewrite Ep, length_app in Hl; lia).
  destruct b as [|b1 [|b2 [|b3 b]]]; cbn [length] in Hb; try lia.
  assert (no_nul (take 252 t)) as Hn' by by apply Forall_take.
  assert (take n (t ++ 0 :: rest) = take 252 t) as Ht by (unfold n; rewrite length_take, take_app_le, <- take_take by lia; rewrite (take_ge t (length t)) by lia; done).
  assert (forall s', prompt s' = prompt s -> (old ← gets prompt; b ← of_option (sh_memcpy old (t ++ 0 :: rest) (Z.of_nat n)); b ← of_option (zset b (Z.of_nat n) 62); b ← of_option (zset b (Z.of_nat n + 1) 62);
      b ← of_option (zset b (Z.of_nat n + 2) 0); modify (set_prompt b)) s' = Ret tt (set_prompt ((take 252 t ++ [62; 62]) ++ 0 :: b) s')) as Hrun.
  { intros s' Es. rewrite bind_gets, Es, Ep. assert (sh_memcpy (a ++ b1 :: b2 :: b3 :: b) (t ++ 0 :: rest) (Z.of_nat n) = Some (take 252 t ++ b1 :: b2 :: b3 :: b)) as ->.
    { unfold sh_memcpy. rewrite !length_app, Ha. cbn [length]. match goal with |- context [if ?c then _ else _] => assert (c = true) as -> by (rewrite !andb_true_iff, !Z.leb_le; unfold n; rewrite length_take; lia) end.
      rewrite Nat2Z.id, Ht. f_equal. unfold put. cbn [take app]. rewrite Nat.add_0_l. fold n. rewrite <- Ha. by rewrite drop_app_length. }
    rewrite bind_Some, (zset_mid (take 252 t) (b2 :: b3 :: b) b1 62) by done. rewrite bind_Some.
    replace (take 252 t ++ 62 :: b2 :: b3 :: b) with ((take 252 t ++ [62]) ++ b2 :: b3 :: b) by by rewrite <- app_assoc.
    rewrite (zset_mid (take 252 t ++ [62]) (b3 :: b) b2 62) by (rewrite length_app; fold n; cbn; lia). rewrite bind_Some.
    replace ((take 252 t ++ [62]) ++ 62 :: b3 :: b) with ((take 252 t ++ [62; 62]) ++ b3 :: b) by by rewrite <- !app_assoc.
    rewrite (zset_mid (take 252 t ++ [62; 62]) b b3 0) by (rewrite length_app; fold n; cbn; lia). done. }
  assert (length ((take 252 t ++ [62; 62]) ++ 0 :: b) = 255%nat /\ c_string ((take 252 t ++ [62; 62]) ++ 0 :: b) = Some (take 252 t ++ [62; 62])) as [E1 E2].
  { split; [rewrite !length_app; fold n; cbn [length]; lia|]. apply c_string_app. apply Forall_app_2; [done|]. repeat constructor; lia. }
  unfold shell_set_prompt. rewrite sh_strlen_app by done. change (255 - 3) with 252. rewrite bind_Some. cbv beta. destruct (Z.ltb_spec 252 (Z.of_nat (length t))) as [Hlong|Hshort].
  - exists (MySpec.say "prompt is too long!"), ((take 252 t ++ [62; 62]) ++ 0 :: b). rewrite bind_assoc, (bind_Ret _ _ _ _ _ (println_lit "prompt is too long!" s ltac:(apply (bool_decide_unpack _); exact I))), bind_mret.
    assert (Z.of_nat n = 252) as En by (unfold n; rewrite length_take; lia). rewrite En in Hrun. split; [|done]. by apply Hrun.
  - exists [], ((take 252 t ++ [62; 62]) ++ 0 :: b). rewrite bind_mret, same_screen.
    assert (Z.of_nat n = Z.of_nat (length t)) as En by (unfold n; rewrite length_take; lia). rewrite En in Hrun. split; [|done]. by apply Hrun.
Qed.

Definition dots (w : list Z) : bool := bool_decide (w = [46]) || bool_decide (w = [46; 46]).

(** A new path is there; only the shell may differ otherwise, by its prompt and a message. *)
Definition path_changed v v' (cs : list (list Z)) : Prop :=
  path_of (cur_dir_full v') cs /\ uf v' = uf v /\ dir v' = dir v /\ dir_uf v' = dir_uf v /\
  exists msg p', shell v' = set_prompt p' (set_screen (screen (shell v) ++ msg) (shell v)) /\ length p' = 255%nat.

Lemma show_path_run v cs : path_of (cur_dir_full v) cs -> length (prompt (shell v)) = 255%nat ->
  exists v', show_path v = Ret tt v' /\ path_changed v v' cs /\ c_string (prompt (shell v')) = Some (take 252 (path_text cs) ++ [62; 62]).
Proof.
  intros Hp Hl. pose proof Hp as (Hc & _ & rest & E). destruct (set_prompt_shows (path_text cs) rest (shell v) (no_nul_path cs Hc) Hl) as (msg & p' & Er & Hl' & Hs).
  unfold show_path. eexists. rewrite bind_gets, E. unfold on_shell, zoom. rewrite Er. split; [done|]. split; [|done].
  split; [done|]. split; [done|]. split; [done|]. split; [done|]. by exists msg, p'.
Qed.

Lemma path_shown v path cs : path_of path cs -> length (prompt (shell v)) = 255%nat ->
  exists v', (modify (set_cur_dir_full path);; show_path;; mret CLI_OK) v = Ret CLI_OK v' /\ path_changed v v' cs /\
    c_string (prompt (shell v')) = Some (take 252 (path_text cs) ++ [62; 62]).
Proof.
  intros Hp Hl. rewrite bind_modify. destruct (show_path_run (set_cur_dir_full path v) cs Hp Hl) as (v' & E & Hv & Hs). exists v'. by step E.
Qed.

(** C16: The path of the shell is the list of the directories that were entered: "." keeps it, ".."
    takes the last one off, and another name is put behind it, also in the prompt.  A name that
    makes the path too long is refused; one with which the path and its '/' just fill the array
    passes the test, and its NUL is written behind the array. *)
Theorem cd_path_refines v cs w x :
  path_of (cur_dir_full v) cs -> component w -> length (prompt (shell v)) = 255%nat ->
  let len := Z.of_nat (length (path_text cs)) + 1 + Z.of_nat (length w) in
  (dots w = true \/ len < FULL_PATH_LEN \/ cs = [] /\ len = FULL_PATH_LEN ->
    exists v', change_path (w ++ 0 :: x) v = Ret CLI_OK v' /\ path_changed v v' (enter cs w) /\
      (w <> [46] -> c_string (prompt (shell v')) = Some (take 252 (path_text (enter cs w)) ++ [62; 62]))) /\
  (dots w = false -> FULL_PATH_LEN < len ->
    exists v', change_path (w ++ 0 :: x) v = Ret CLI_EXE_ERROR v' /\ path_changed v v' cs) /\
  (dots w = false -> cs <> [] -> len = FULL_PATH_LEN -> change_path (w ++ 0 :: x) v = Undef).
Proof.
  intros Hp Hw Hl len. assert (no_nul w) as Hn by (eapply Forall_impl; [apply Hw|]; cbn; lia).
  assert (match_cmd (literal ".") (w ++ 0 :: x) = Some (bool_decide (w = [46])) /\ match_cmd (literal "..") (w ++ 0 :: x) = Some (bool_decide (w = [46; 46]))) as [M1 M2].
  { assert (no_nul [46] /\ no_nul [46; 46]) as [N1 N2] by (split; repeat constructor; lia).
    split; [rewrite (match_cmd_spec [46] w [] x N1 Hn : match_cmd (literal ".") (w ++ 0 :: x) = _)|rewrite (match_cmd_spec [46; 46] w [] x N2 Hn : match_cmd (literal "..") (w ++ 0 :: x) = _)]; f_equal; by apply bool_decide_ext. }
  unfold change_path, dots, enter. rewrite M1, bind_Some, M2, bind_Some. destruct (bool_decide (w = [46])) eqn:E1; cbn [orb].
  { apply bool_decide_eq_true in E1. split; [intros _|done]. exists v. split; [done|]. split; [|done]. split; [done|]. split; [done|]. split; [done|]. split; [done|].
    exists [], (prompt (shell v)). split; [|done]. rewrite same_screen. by destruct (shell v). }
  destruct (bool_decide (w = [46; 46])).
  { split; [intros _|done]. destruct (path_up_spec _ _ Hp) as (path' & E & Hp'). unfold update_path. rewrite bind_assoc, bind_gets, bind_assoc, E, bind_Some.
    destruct (path_shown v path' _ Hp' Hl) as (v' & Er & H1 & H2). by exists v'. }
  rewrite bind_gets, (path_strlen _ _ Hp), bind_Some, sh_strlen_app, bind_Some by done.
  assert (forall c : bool, (if c then say "FULL_PATH_LEN limit!" [];; mret CLI_EXE_ERROR else update_path (path_down (Z.of_nat (length (path_text cs))) (Z.of_nat (length w)) (w ++ 0 :: x));; show_path;; mret CLI_OK) v =
    if c then Ret CLI_EXE_ERROR (showing (MySpec.say "FULL_PATH_LEN limit!") v)
    else (p ← of_option (path_down (Z.of_nat (length (path_text cs))) (Z.of_nat (length w)) (w ++ 0 :: x) (cur_dir_full v)); modify (set_cur_dir_full p);; show_path;; mret CLI_OK) v) as Hif.
  { intros []; [|unfold update_path; by rewrite bind_assoc, bind_gets, bind_assoc].
    assert (say "FULL_PATH_LEN limit!" [] v = Ret tt (showing (MySpec.say "FULL_PATH_LEN limit!") v)) as Es by (unfold say, on_shell, zoom; rewrite println_lit by (apply (bool_decide_unpack _); exact I); done).
    by step Es. }
  fold len. rewrite Hif. assert (cs <> [] -> path_text (cs ++ [w]) = path_text cs ++ 47 :: w) as Hsn by apply path_text_snoc. split; [|split].
  - intros Hfit. destruct (Z.ltb_spec FULL_PATH_LEN len) as [Hlt|Hle]; [destruct Hfit as [?|[?|[_ ?]]]; [done|lia..]|].
    destruct (path_down_spec _ _ w (0 :: x) Hp Hw) as (path' & E & Hp').
    { destruct (decide (cs = [])) as [->|Hne]; [unfold len in Hle; cbn in Hle |- *; rewrite app_nil_r; lia|]. rewrite (Hsn Hne), length_app. cbn [length]. destruct Hfit as [?|[?|[? _]]]; [done|unfold len in *; lia|done]. }
    rewrite E, bind_Some. destruct (path_shown v path' _ Hp' Hl) as (v' & Er & H1 & H2). by exists v'.
  - intros _ Hlt. rewrite (proj2 (Z.ltb_lt _ _) Hlt). eexists. split; [done|]. split; [done|]. split; [done|]. split; [done|]. split; [done|].
    exists (MySpec.say "FULL_PATH_LEN limit!"), (prompt (shell v)). split; [|done]. cbn. by destruct (shell v).
  - intros _ Hne Hfull. rewrite Hfull, Z.ltb_irrefl. by rewrite (path_down_full _ _ w (0 :: x) Hp Hw Hne Hfull).
Qed.

(** * Before a file system is open *)

Definition closed_text : list Z := MySpec.say "ufat has not open, you should open it first!".

Lemma check_fs_closed k v : dev (uf v) = false -> CHECK_FS_OPEN k v = Ret CLI_EXE_ERROR (showing closed_text v).
Proof.
  intros H. unfold CHECK_FS_OPEN. rewrite bind_gets, H. assert (say "ufat has not open, you should open it first!" [] v = Ret tt (showing closed_text v)) as Es
    by (unfold say, on_shell, zoom; rewrite println_lit by (apply (bool_decide_unpack _); exact I); done).
  by step Es.
Qed.

(** The number of words of a command: its own, and one argument if it has one. *)
Definition words_of (i : Z) : Z := if bool_decide (i ∈ [7; 8]) then 1 else 2.

(** Every command of the table on files with a wrong number of arguments, and every one but
    [ufat] before a file system was opened, is refused, and changes nothing but the screen. *)
Theorem file_commands_guarded (inf : ufat_dirent) i c v :
  4 <= i <= 9 ->
  (argc c <> words_of i -> file_func inf i c v = Ret CLI_INVALID_ARGS v) /\
  (argc c = words_of i -> i <> 4 -> dev (uf v) = false -> file_func inf i c v = Ret CLI_EXE_ERROR (showing closed_text v)).
Proof.
  intros Hi. assert (i = 4 \/ i = 5 \/ i = 6 \/ i = 7 \/ i = 8 \/ i = 9) as Hi' by lia. clear Hi.
  destruct Hi' as [->|[->|[->|[->|[->| ->]]]]]; unfold file_func, words_of; cbn [Z.eqb Pos.eqb]; rewrite ?bool_decide_true by set_solver; rewrite ?bool_decide_false by set_solver;
    unfold ufat_func, touch_func, mkdir_func, make_entry, sync_func, ls_func, cd_func;
    (split; [intros Hc; by rewrite (proj2 (Z.eqb_neq _ _) Hc)|intros Hc Hne Hd; rewrite Hc; cbn [Z.eqb Pos.eqb negb]; (done || by apply check_fs_closed)]).
Qed.

(** ** After an attempt to open one that failed *)

(** The pointer to the device stays set. *)
Definition opened_dev (u : ufat D) : Prop := dev u = true.

Ltac keep_dev :=
  unfold check, fail, ok; repeat first
    [ match goal with H : forall _, _ |- _ => simple apply H end | apply total_bind; [|intros] | apply total_ret | apply total_gets | apply total_undef | apply total_option | apply total_require
    | apply total_modify; intros ? HI; exact HI | case_match ].

Lemma io_read_dev start n old : Total opened_dev (io_read start n old : prog (ufat D) _).
Proof. intros u Hu. unfold io_read. by destruct (dev_read start n old (disk u)) as [[rc data] d]. Qed.

Lemma io_write_dev start n data : Total opened_dev (io_write start n data : prog (ufat D) _).
Proof. intros u Hu. unfold io_write. by destruct (dev_write start n data (disk u)) as [rc d]. Qed.

Lemma cache_scan_dev n : forall i b o a f, Total opened_dev (cache_scan n i b o a f : prog (ufat D) _).
Proof. induction n as [|n IH]; intros i b o a f; cbn [cache_scan]; unfold desc_at, put_desc, count; keep_dev. Qed.

Lemma mirror_loop_dev n : forall b data, Total opened_dev (mirror_loop n b data : prog (ufat D) _).
Proof. induction n as [|n IH]; intros b data; cbn [mirror_loop]; unfold count; keep_dev; apply io_write_dev. Qed.

Lemma cache_open_dev b skip : Total opened_dev (ufat_cache_open b skip : prog (ufat D) _).
Proof.
  pose proof mirror_loop_dev. pose proof cache_scan_dev. pose proof io_read_dev. pose proof io_write_dev.
  unfold ufat_cache_open, cache_flush, fill_slot, desc_at, put_desc, count, ufat_cache_data, put_cache_data. keep_dev.
Qed.

Lemma open_dev (u : ufat D) r u' : ufat_open u = Ret r u' -> dev u' = true.
Proof.
  intros E. assert (Total opened_dev (modify (set_next_seq 0);; (let n := Z.shiftr UFAT_CACHE_BYTES log2_block_size in
    let n := if UFAT_CACHE_MAX_BLOCKS <? n then UFAT_CACHE_MAX_BLOCKS else n in modify (set_cache_size n);;
    if n =? 0 then fail UFAT_ERR_BLOCK_SIZE else modify (set_alloc_ptr 0);; modify (set_stat stat_zero);;
      modify (set_cache_desc (replicate (Z.to_nat UFAT_CACHE_MAX_BLOCKS) (mkDesc 0 0 0)));; read_bpb) : prog (ufat D) _)) as H.
  { pose proof cache_open_dev. cbv zeta. unfold read_bpb, ufat_cache_data. keep_dev. }
  specialize (H (set_dev true u) eq_refl). unfold ufat_open in E. rewrite bind_modify in E. cbv beta zeta in E, H. rewrite E in H. exact H.
Qed.

(** When opening the file system failed at the first attempt, the test of the commands passes all
    the same, and the functions for directories follow a pointer that was never set. *)
Theorem failed_open_unguarded v e u1 (inf : ufat_dirent) c name :
  ufat_open (uf v) = Ret (inl e) u1 -> dir_uf v = false -> arg_string c 1 = Some name -> ufat_lfn_is_legal name = true ->
  (argc c = 2 -> touch_func inf c (set_uf u1 v) = Undef /\ mkdir_func inf c (set_uf u1 v) = Undef) /\
  (argc c = 1 -> ls_func c (set_uf u1 v) = Undef).
Proof.
  intros E Hu Hn Hl. pose proof (open_dev _ _ _ E) as Hd. split; [intros Hc|intros Hc].
  - unfold touch_func, mkdir_func, make_entry, CHECK_FS_OPEN, with_status, on_dir_with. rewrite Hc. change (negb (2 =? 2)) with false. cbv iota.
    rewrite !bind_gets. change (dev (uf (set_uf u1 v))) with (dev u1). rewrite Hd, Hn, !bind_Some, !bind_assoc, !bind_gets.
    change (dir_uf (set_uf u1 v)) with (dir_uf v). rewrite Hu, Hl. done.
  - unfold ls_func, CHECK_FS_OPEN, on_dir. rewrite Hc. change (negb (1 =? 1)) with false. cbv iota. rewrite bind_gets. change (dev (uf (set_uf u1 v))) with (dev u1).
    rewrite Hd, bind_assoc, bind_gets. change (dir_uf (set_uf u1 v)) with (dir_uf v). by rewrite Hu.
Qed.
End Commands.

(** * The theorems on a small volume *)

Definition demo_path : list Z := [47; 0] ++ zeros 2046.
Definition demo_vfat (file : list Z) : vfat (D := list Z) := mkVfat (shell_start []) (demo_on file) true (ufat_open_root demo_bpb) demo_path.
(** Before the first command; the boot sector has the size of a sector only. *)
Definition demo_unopened : vfat (D := list Z) := mkVfat (shell_start []) demo_closed false (mkDir 0 0 0) (zeros 2048).
Definition demo_blank : vfat (D := list Z) :=
  set_uf (mkUfat _ false (w16 0x0b 512 (replicate (8 * 512) 0)) stat_zero (mkBpb 0 0 0 0 0 0 0 0 0 0) 0 0 0 (replicate 16 no_desc) (replicate (16 * 512) 0)) demo_unopened.

Lemma ls_lists_witness : exists v', ls_func (parsed [chars "ls"]) (demo_vfat demo_named_disk) = Ret CLI_OK v' /\
  screen (shell v') = chars "2025-01-02 12:00:02 A             0 HELLO.TXT" ++ crlf.
Proof.
  assert (exists q, demo_entries demo_named_disk = [(set_place 3 0 (set_lfn UFAT_BLOCK_NONE 0 demo_entry), q)] /\ ufat_lfn_ok q = false) as (q & Ee & Hq) by (eexists; split; [vm_compute; reflexivity|reflexivity]).
  assert ((named (set_place 3 0 (set_lfn UFAT_BLOCK_NONE 0 demo_entry), q)).2 = inr (chars "HELLO.TXT")) as En by (unfold named, format_name; cbn [fst snd]; rewrite Hq; vm_compute; reflexivity).
  assert (directory (DS := demo_spec) (mkWalk (uf (demo_vfat demo_named_disk)) (dir (demo_vfat demo_named_disk))) (file_block demo_named_disk) 3 [3] (demo_entries demo_named_disk)) as Hd by (apply demo_directory; by vm_compute).
  rewrite Ee in Hd.
  destruct (wp_run _ _ _ (@ls_lists _ _ demo_spec (demo_vfat demo_named_disk) (parsed [chars "ls"]) (file_block demo_named_disk) 3 [3] _ eq_refl (conj eq_refl Hd)
    ltac:(constructor; [by eexists|constructor]) eq_refl)) as (st & v' & E & k & [Hs _ _ _ _] & _ & [[-> Hk]|[[] _]]).
  exists v'. split; [exact E|]. rewrite Hs. destruct k as [|k]; [cbn in Hk; lia|]. cbn [take]. rewrite take_nil.
  cbn [fmap list_fmap concat]. unfold listed. rewrite En. vm_compute. reflexivity.
Defined.

Lemma demo_path_of : path_of demo_path [].
Proof. split; [constructor|]. split; [by vm_compute|]. by exists (zeros 2046). Qed.

Lemma cd_path_refines_witness : exists v', change_path (literal "docs") (demo_vfat demo_disk) = Ret CLI_OK v' /\ path_of (cur_dir_full v') [chars "docs"] /\
  c_string (prompt (shell v')) = Some (chars "/docs>>").
Proof.
  destruct (cd_path_refines (demo_vfat demo_disk) [] (chars "docs") [] demo_path_of ltac:(split; [done|apply (bool_decide_unpack _); vm_compute; exact I]) eq_refl) as [H _].
  destruct (H ltac:(right; left; by vm_compute)) as (v' & E & Hp & Hc). exists v'. split; [exact E|]. split; [apply Hp|]. rewrite Hc by done. vm_compute. reflexivity.
Defined.

Lemma file_commands_guarded_witness : file_func no_entry 9 (parsed [chars "cd"; chars "docs"]) demo_unopened = Ret CLI_EXE_ERROR (showing closed_text demo_unopened).
Proof. apply (file_commands_guarded no_entry 9 (parsed [chars "cd"; chars "docs"]) demo_unopened); [lia|reflexivity|lia|reflexivity]. Defined.

Lemma failed_open_unguarded_witness : exists u1, ufat_open (uf demo_blank) = Ret (inl (- UFAT_ERR_INVALID_BPB)) u1 /\
  touch_func no_entry (parsed [chars "touch"; chars "a"]) (set_uf u1 demo_blank) = Undef.
Proof.
  assert (exists u1, ufat_open (uf demo_blank) = Ret (inl (- UFAT_ERR_INVALID_BPB)) u1) as [u1 E] by (eexists; vm_compute; reflexivity).
  exists u1. split; [exact E|]. apply (failed_open_unguarded demo_blank _ u1 no_entry (parsed [chars "touch"; chars "a"]) [97] E); [reflexivity|vm_compute; reflexivity|reflexivity|reflexivity].
Defined.
