(* ===== verification/VfatShell.v ===== *)
(** The whole program of mysh: the shell with the commands on files in its table.

    The functions of shell.c and shell_cmd_tbl.c again, on the state that the file commands
    work on as well.  What the shell does without them is what [MyShell] says, and a line with
    a file command runs the function of that command on the words of the line. *)

From stdpp Require Import strings.
From S2P Require Import Prelude MyPrintf MyLine MyEdit MyShell MyParse MySpec.
From S2P Require Import UfatDev UfatCache UfatFat UfatBlock UfatBpb UfatName UfatDir UfatSpec UfatDirSpec Vfat VfatSpec.
#[local] Open Scope Z_scope.

Section Program.
Context {D : Type} {BD : BlockDevice D}.

(** What the variable [inf] of touch and mkdir happens to hold. *)
Notation vfat := (@vfat D).
Context (inf : vfat -> ufat_dirent).
Implicit Types v : vfat.

(** Of the shell alone, the rows of the table from 4 on are never reached below. *)
Notation no_usage := (fun _ : Z => undef).
Notation no_func := (fun (_ : Z) (_ : cmd_parsed_t) => undef).

Definition program_usage (i : Z) : prog vfat unit := if i <? 4 then on_shell (cmd_usage no_usage i) else file_usage i.

Definition program_help (c : cmd_parsed_t) : prog vfat cli_status_t :=
  if negb (argc c =? 2) then mret CLI_INVALID_ARGS
  else
    n ← on_shell (gets cmd_tbl_items);
    word ← of_option (arg c 1);
    r ← of_option (find_cmd (Z.to_nat n) 0 word);
    match r with
    | Some i => program_usage i;; mret CLI_OK
    | None => on_shell (println "error! not match any cmd." []);; mret CLI_INVALID_ARGS
    end.

Definition program_func (i : Z) (c : cmd_parsed_t) : prog vfat cli_status_t :=
  if i =? 0 then program_help c
  else if i <? 4 then on_shell (cmd_func no_usage no_func i c)
  else v ← gets id; file_func (inf v) i c.

Definition program_execute (c : cmd_parsed_t) : prog vfat cli_status_t :=
  n ← on_shell (gets cmd_tbl_items);
  word ← of_option (arg c 0);
  r ← of_option (find_cmd (Z.to_nat n) 0 word);
  match r with
  | None => mret CLI_CMD_NOT_FOUND
  | Some i =>
      rc ← program_func i c;
      (if bool_decide (rc = CLI_INVALID_ARGS) then program_usage i else mret tt);;
      mret rc
  end.

(** What is printed when a command did not succeed. *)
Definition report (rc : cli_status_t) : prog vfat unit :=
  if bool_decide (rc = CLI_OK) then mret tt
  else on_shell (println dashes [];; println "error: %s" [VStr (status_to_str rc)];; println dashes []).

Definition program_line : prog vfat unit :=
  l ← on_shell the_line;
  let b := buf l in
  n ← of_option (sh_strlen b);
  blank ← of_option (is_blank b);
  if (0 <? n) && negb blank then
    r ← on_shell (parse_command b parsed_zero);
    match r with
    | None => on_shell (println "error! parse_command error" [])
    | Some c =>
        word ← of_option (arg c 0);
        h ← of_option (match_cmd (literal "history") word);
        on_shell (if h : bool then mret tt else add_record b);;
        rc ← program_execute c;
        report rc
    end
  else mret tt.

Fixpoint program_loop (fuel : nat) : prog vfat Z :=
  match fuel with
  | O => nofuel
  | S f =>
      e ← on_shell (gets shell_should_exit);
      if e : bool then mret 0
      else
        p ← on_shell (gets prompt);
        p ← of_option (c_string p);
        on_shell (shell_printf p []);;
        on_shell (upd_line (set_buf (zeros COMMAND_BUF_SIZE)));;
        rc ← on_shell read_input;
        if rc <? 0 then on_shell (println "error! read_input error" []);; program_loop f
        else if 0 <? rc then on_shell (println "read input_key_code %d" [VInt rc]);; mret (-1)
        else program_line;; program_loop f
  end.

(** One round for each of [fuel] lines, as in [MyShell]. *)
Definition program_main (fuel : nat) : prog vfat Z :=
  on_shell shell_init;; on_shell (shell_set_prompt [0]);; program_loop fuel.

(** * The shell in the program *)

(** What [m] does to the shell, [m'] does to the shell of the whole state. *)
Definition lifts {A} (m : prog Shell A) (m' : prog vfat A) : Prop := forall v, on_shell m v <> Undef -> m' v = on_shell m v.

Lemma lifts_shell {A} (m : prog Shell A) : lifts m (on_shell m).
Proof. by intros v. Qed.

Lemma lifts_ret {A} (a : A) : lifts (mret a) (mret a).
Proof. intros v _. by destruct v. Qed.

Lemma lifts_option {A} (o : option A) : lifts (of_option o) (of_option o).
Proof. destruct o; [apply lifts_ret|by intros v H]. Qed.

Lemma lifts_nofuel {A} : lifts (nofuel : prog Shell A) nofuel.
Proof. by intros v. Qed.

Lemma lifts_undef {A} (m : prog vfat A) : lifts undef m.
Proof. by intros v []. Qed.

Lemma lifts_bind {A B} (m : prog Shell A) m' (k : A -> prog Shell B) k' : lifts m m' -> (forall a, lifts (k a) (k' a)) -> lifts (m ≫= k) (m' ≫= k').
Proof.
  intros Hm Hk v H. specialize (Hm v). unfold on_shell, zoom, mbind, prog_bind in *. destruct (m (shell v)) as [a s| | |]; [|by rewrite Hm..].
  rewrite Hm by done. specialize (Hk a (set_shell s v)). unfold on_shell, zoom in Hk. cbn [shell set_shell] in Hk. by apply Hk.
Qed.

Ltac lift := repeat match goal with
  | |- lifts _ (on_shell _) => apply lifts_shell
  | |- lifts (mret _) (mret _) => apply lifts_ret
  | |- lifts (of_option _) _ => apply lifts_option
  | |- lifts nofuel nofuel => apply lifts_nofuel
  | |- lifts undef _ => apply lifts_undef
  | |- lifts (_ ≫= _) (_ ≫= _) => apply lifts_bind; [|intros]
  | |- lifts (match ?x with _ => _ end) (match ?x with _ => _ end) => destruct x
  | |- _ => progress cbv beta zeta
  end.

Lemma usage_lifts i : lifts (cmd_usage no_usage i) (program_usage i).
Proof.
  unfold program_usage. destruct (i <? 4) eqn:E; [apply lifts_shell|]. apply Z.ltb_ge in E. unfold cmd_usage.
  rewrite !(proj2 (Z.eqb_neq i _)) by lia. apply lifts_undef.
Qed.

Lemma func_lifts i c : lifts (cmd_func no_usage no_func i c) (program_func i c).
Proof.
  unfold program_func. destruct (Z.eqb_spec i 0) as [->|Hi].
  - change (cmd_func no_usage no_func 0 c) with (help_func no_usage c). unfold help_func, program_help. lift; apply usage_lifts.
  - destruct (i <? 4) eqn:E; [apply lifts_shell|]. apply Z.ltb_ge in E. unfold cmd_func. rewrite !(proj2 (Z.eqb_neq i _)) by lia. apply lifts_undef.
Qed.

Lemma execute_lifts c : lifts (execute_command no_usage no_func c) (program_execute c).
Proof. unfold execute_command, program_execute. lift; first [apply usage_lifts|apply func_lifts]. Qed.

Lemma line_lifts : lifts (run_line no_usage no_func) program_line.
Proof. unfold run_line, program_line, report. lift; apply execute_lifts. Qed.

Lemma loop_lifts fuel : lifts (shell_loop no_usage no_func fuel) (program_loop fuel).
Proof. induction fuel as [|f IH]; cbn [shell_loop program_loop]; lift; first [apply line_lifts|apply IH]. Qed.

Lemma main_lifts fuel : lifts (main no_usage no_func fuel) (program_main fuel).
Proof. unfold main, shell_execute, program_main. lift. apply loop_lifts. Qed.

Lemma on_shell_run {A} (m : prog Shell A) a s v : m (shell v) = Ret a s -> on_shell m v = Ret a (set_shell s v).
Proof. unfold on_shell, zoom. by intros ->. Qed.

Lemma on_shell_gets {A} (f : Shell -> A) v : on_shell (gets f) v = Ret (f (shell v)) v.
Proof. by destruct v. Qed.

(** C7: A session of commands that are not on files runs in the whole program as in the shell alone:
    the program prints the banner and the text of the session and ends, and the file system,
    the directory and the path are not touched. *)
Theorem program_session lines rest text fuel v :
  shell v = shell_start (typed lines ++ rest) -> Forall line_ok lines -> session (mkHistory [] 0) lines = Some text -> (length lines < fuel)%nat ->
  exists s, program_main fuel v = Ret 0 (set_shell s v) /\ screen s = banner ++ text /\ stdin s = rest.
Proof.
  intros Hs F E Hf. destruct (shell_session no_usage no_func lines rest text fuel F E Hf) as (s & Em & Es & Ei). exists s. split; [|exact (conj Es Ei)].
  assert (on_shell (main no_usage no_func fuel) v = Ret 0 (set_shell s v)) as E1 by (apply on_shell_run; rewrite Hs; exact Em).
  rewrite (main_lifts fuel v); [exact E1|rewrite E1; discriminate].
Qed.

(** * Lines with a file command *)

(** The command, its usage when its arguments were wrong, and its error. *)
Definition file_command (i : Z) (ts : list (list Z)) : prog vfat unit :=
  v ← gets id;
  rc ← file_func (inf v) i (parsed ts);
  (if bool_decide (rc = CLI_INVALID_ARGS) then file_usage i else mret tt);;
  report rc.

Lemma program_line_runs v h h' w c args i :
  stored_line (buf (line (shell v))) w -> cmd_tbl_items (shell v) = 10 -> at_history (cmd_records (shell v)) h ->
  words w = c :: args -> (length (c :: args) < 10)%nat -> place c 0 cmd_tbl = Some i -> 4 <= i -> recorded h w = Some h' ->
  exists r', at_history r' h' /\ program_line v = file_command i (c :: args) (set_shell (set_records r' (shell v)) v).
Proof.
  intros Hb Hi Hh Hw Hlen Hpl H4 Hrec. pose proof Hb as (rest & Eb & Hlb & Hlw & Hn). unfold program_line.
  assert (Forall word_ok (c :: args)) as Fw by (rewrite <- Hw; apply tokens_ok; [constructor|done|cbn [length]; lia]).
  apply Forall_cons in Fw as Fc. destruct Fc as [[Hcl Hcn] _]. destruct (pad_word c Hcl) as [x Ex].
  assert (on_shell the_line v = Ret (line (shell v)) v) as E0 by apply on_shell_gets. step E0. clear E0. cbv zeta.
  rewrite Eb, (sh_strlen_app w rest Hn), bind_Some, (is_blank_spec no_usage no_func w rest Hn), bind_Some.
  assert (bool_decide (Forall (fun ch => ch = 32) w) = false) as Hbl.
  { apply bool_decide_eq_false. intros Hbl. assert (words w = []) as E; [|congruence].
    assert (forall l, Forall (fun ch => ch = 32) l -> words l = []) as Hblank; [|by apply Hblank]. clear. induction 1 as [|ch l -> _ IH]; [done|exact IH]. }
  rewrite Hbl. assert (0 < length w)%nat as Hw0 by (destruct w; [done|cbn; lia]). destruct (Z.ltb_spec 0 (Z.of_nat (length w))); [|lia]. cbn [negb andb].
  pose proof (parse_command_words (w ++ 0 :: rest) w (shell v) ltac:(by rewrite <- Eb)) as Ep. cbv zeta in Ep. rewrite Hw in Ep.
  destruct (Nat.ltb_spec (length (c :: args)) 10) as [_|]; [|lia]. step (on_shell_run _ _ _ v Ep).
  pose proof (arg_parsed (c :: args) 0 c Hlen eq_refl) as Ha. change (Z.of_nat 0) with 0 in Ha. rewrite Ex in Ha. rewrite Ha, bind_Some.
  assert (no_nul (chars "history")) as N1 by (unfold no_nul; apply (bool_decide_unpack _); exact I).
  assert (match_cmd (literal "history") (c ++ 0 :: x) = Some (bool_decide (chars "history" = c))) as -> by (by apply (match_cmd_spec (chars "history") c [] x)).
  assert (bool_decide (chars "history" = c) = false) as ->.
  { apply bool_decide_eq_false. intros <-. assert (place (chars "history") 0 cmd_tbl = Some 2) as E2 by (vm_compute; reflexivity). rewrite E2 in Hpl. injection Hpl as <-. lia. }
  rewrite bind_Some. destruct (add_record_run (shell v) h h' (w ++ 0 :: rest) w Hh ltac:(by rewrite <- Eb) Hrec) as (r' & Er & Hr).
  exists r'. split; [done|]. replace (set_shell (shell v) v) with v by by destruct v. step (on_shell_run _ _ _ v Er). set (v1 := set_shell _ v).
  unfold program_execute, file_command. rewrite bind_assoc. assert (on_shell (gets cmd_tbl_items) v1 = Ret (cmd_tbl_items (shell v1)) v1) as En by apply on_shell_gets. step En.
  change (cmd_tbl_items (shell v1)) with (cmd_tbl_items (shell v)). rewrite Hi, Ha. rewrite bind_assoc, bind_Some, bind_assoc. change (Z.to_nat 10) with 10%nat.
  rewrite (find_cmd_table c x Hcn), bind_Some, Hpl. unfold program_func. rewrite (proj2 (Z.eqb_neq i 0)), (proj2 (Z.ltb_ge i 4)) by lia.
  rewrite !bind_assoc, !bind_gets. cbv beta. change (id v1) with v1. rewrite ?bind_assoc. apply bind_cong. intros rc t. rewrite bind_assoc.
  unfold program_usage. rewrite (proj2 (Z.ltb_ge i 4)) by lia. done.
Qed.

(** C15: One round of the main loop with a file command: behind the prompt the line is read and
    recorded, and then the function of the command runs on the words of the line, with its usage
    when they were wrong, and its error when it failed. *)
Theorem file_line_runs v h h' w pr c args i rest f :
  shell_should_exit (shell v) = false -> cmd_tbl_items (shell v) = 10 -> at_history (cmd_records (shell v)) h ->
  c_string (prompt (shell v)) = Some pr -> plain pr -> stdin (shell v) = w ++ 10 :: rest -> line_ok w ->
  words w = c :: args -> (length (c :: args) < 10)%nat -> place c 0 cmd_tbl = Some i -> 4 <= i -> recorded h w = Some h' ->
  exists s, screen s = screen (shell v) ++ pr ++ w ++ crlf /\ stdin s = rest /\ at_history (cmd_records s) h' /\
    shell_should_exit s = false /\ cmd_tbl_items s = 10 /\ prompt s = prompt (shell v) /\ shell_keywords s = shell_keywords (shell v) /\
    program_loop (S f) v = (file_command i (c :: args);; program_loop f) (set_shell s v).
Proof.
  intros He Hi Hh Hpr Hpl Es Hw Hws Hlen Hp H4 Hrec. cbn [program_loop].
  assert (on_shell (gets shell_should_exit) v = Ret (shell_should_exit (shell v)) v) as E1 by apply on_shell_gets.
  assert (on_shell (gets prompt) v = Ret (prompt (shell v)) v) as E2 by apply on_shell_gets.
  step E1. rewrite He. step E2. rewrite Hpr, bind_Some. clear E1 E2. step (on_shell_run _ _ _ v (printf_lit pr (shell v) Hpl)). set (v1 := set_shell _ v).
  step (on_shell_run _ _ _ v1 (upd_line_run (set_buf (zeros COMMAND_BUF_SIZE)) (shell v1))). set (v2 := set_shell _ v1).
  destruct (line_read (shell v1) w rest Es Hw) as (L & EL & HL). step (on_shell_run _ _ _ v2 EL). change (0 <? 0) with false. cbv iota. set (v3 := set_shell _ v2).
  destruct (program_line_runs v3 h h' w c args i HL Hi Hh Hws Hlen Hp H4 Hrec) as (r' & Hr & Er).
  eexists. split_and!; [| | | | | | |unfold mbind at 1, prog_bind at 1; rewrite Er; reflexivity]; try done. cbn. by rewrite <- !app_assoc.
Qed.
End Program.

(** * Sessions on a small volume *)

Definition demo_start (lines : list (list Z)) : vfat (D := list Z) := mkVfat (shell_start (typed lines)) demo_closed false (mkDir 0 0 0) (zeros 2048).
(** In front of a prompt, with the root directory open. *)
Definition demo_prompt (lines : list (list Z)) : vfat (D := list Z) :=
  set_shell (set_prompt (chars "/>>" ++ zeros 252) (set_items 10 (shell_start (typed lines)))) (demo_vfat demo_disk).

(** What a session on the volume shows. *)
Example demo_session :
  match program_main (fun _ => demo_entry) 20 (demo_start [chars "ufat open"; chars "touch Notes.txt"; chars "mkdir sub"; chars "cd sub"; chars "ls"; chars "cd .."; chars "ls"; chars "exit"]) with
  | Ret rc v => rc = 0 /\ drop (length banner) (screen (shell v)) =
      chars ">>ufat open" ++ crlf ++ chars "/>>touch Notes.txt" ++ crlf ++ chars "/>>mkdir sub" ++ crlf ++ chars "/>>cd sub" ++ crlf ++
      chars "/sub>>ls" ++ crlf ++
      chars "2025-01-02 12:00:02     D         0 ." ++ crlf ++ chars "2025-01-02 12:00:02     D         0 .." ++ crlf ++
      chars "/sub>>cd .." ++ crlf ++ chars "adding Notes.txt" ++ crlf ++ chars "adding sub" ++ crlf ++
      chars "/>>ls" ++ crlf ++
      chars "2025-01-02 12:00:02 A             0 Notes.txt" ++ crlf ++ chars "2025-01-02 12:00:02 A   D         0 sub" ++ crlf ++
      chars "/>>exit" ++ crlf ++ chars "Bye." ++ crlf
  | _ => False
  end.
Proof. vm_compute. split; reflexivity. Qed.

(** The prompt is a format: after a directory with a percent sign was entered, it is printed
    with arguments that were not given. *)
Example percent_prompt : program_main (fun _ => demo_entry) 20 (demo_start [chars "ufat open"; chars "mkdir %s"; chars "cd %s"; chars "exit"]) = Undef.
Proof. vm_compute. reflexivity. Qed.

(** A name of 248 characters has 20 fragments; the first one that is written takes the characters
    247 to 259 of an array of 255. *)
Example long_name_undefined {D : Type} {BD : BlockDevice D} (w : walk (D := D)) ucs2_name data checksum :
  length ucs2_name = 255%nat -> write_fragments 20 true ucs2_name data checksum w = Undef.
Proof. intros H. cbn [write_fragments]. unfold ucs2_fragment. by rewrite H. Qed.

Lemma program_session_witness :
  exists s, program_main (fun _ => demo_entry) 5 (demo_start sample_lines) = Ret 0 (set_shell s (demo_start sample_lines)) /\ stdin s = [].
Proof.
  destruct (session (mkHistory [] 0) sample_lines) as [text|] eqn:E; [|vm_compute in E; discriminate].
  destruct (program_session (fun _ => demo_entry) sample_lines [] text 5 (demo_start sample_lines)) as (s & E1 & _ & E3).
  - unfold demo_start. cbn [shell]. by rewrite app_nil_r.
  - apply (bool_decide_unpack _). vm_compute. exact I.
  - exact E.
  - cbn. lia.
  - exists s. split; [exact E1|exact E3].
Defined.

Lemma file_line_runs_witness : exists s, program_loop (fun _ => demo_entry) 2 (demo_prompt [chars "ls"]) =
  (file_command (fun _ => demo_entry) 8 [chars "ls"];; program_loop (fun _ => demo_entry) 1) (set_shell s (demo_prompt [chars "ls"])) /\ stdin s = [].
Proof.
  destruct (file_line_runs (fun _ => demo_entry) (demo_prompt [chars "ls"]) (mkHistory [] 0) (mkHistory [chars "ls"] 1) (chars "ls") (chars "/>>") (chars "ls") [] 8 [] 1
    eq_refl eq_refl start_history ltac:(vm_compute; reflexivity) ltac:(apply (bool_decide_unpack _); vm_compute; exact I) eq_refl
    ltac:(apply (bool_decide_unpack _); vm_compute; exact I) ltac:(vm_compute; reflexivity) ltac:(cbn; lia) ltac:(vm_compute; reflexivity) ltac:(lia) ltac:(vm_compute; reflexivity))
    as (s & _ & Hs & _ & _ & _ & _ & _ & E).
  exists s. split; [exact E|exact Hs].
Defined.
