(* ===== verification/EchoSock.v ===== *)
(** What the echo servers of [src/socket/socket_server] share: the system calls
    they make and [util/utils.c].

    The operating system is a parameter, class [Kernel]: the result of each call
    and what is left of the system behind it.  What a call promises in its
    documentation is class [KernelSpec].  A process has its open descriptors
    and the history of what it did on them. *)

From stdpp Require Export strings.
From S2P Require Import Prelude SdbRow.
#[local] Open Scope Z_scope.

Definition EAGAIN : Z := 11.
Definition EWOULDBLOCK : Z := 11.
Definition EXIT_FAILURE : Z := 1.
Definition FD_SETSIZE : Z := 1024.
Definition N_BACKLOG : Z := 64.
Definition O_NONBLOCK : Z := 2048.

(** The status of a process that [abort] ends: [assert] does so. *)
Definition ABORTED : Z := 134.

(** A call that fails gives [inl] of [errno]. *)
Class Kernel (K : Type) := {
  sys_socket : K -> gset Z -> (Z + Z) * K;
  sys_setsockopt : K -> Z -> (Z + unit) * K;
  sys_bind : K -> Z -> Z -> (Z + unit) * K;
  sys_listen : K -> Z -> Z -> (Z + unit) * K;
  sys_getfl : K -> Z -> (Z + Z) * K;
  sys_setfl : K -> Z -> Z -> (Z + unit) * K;
  sys_select : K -> Z -> gset Z -> gset Z -> (Z + gset Z * gset Z) * K;
  sys_accept : K -> Z -> gset Z -> (Z + Z) * K;
  sys_getnameinfo : K -> option (list Z * list Z);
  sys_recv : K -> Z -> Z -> (Z + list Z) * K;
  sys_send : K -> Z -> list Z -> (Z + Z) * K
}.

(** A new descriptor is none of the open ones; [select] picks from the sets it is given;
    [recv] gives no more bytes than there is room for, [send] takes no more than there are. *)
Class KernelSpec (K : Type) `{Kernel K} := {
  socket_fresh k o fd k' : sys_socket k o = (inr fd, k') -> 0 <= fd /\ fd ∉ o;
  accept_fresh k l o fd k' : sys_accept k l o = (inr fd, k') -> 0 <= fd /\ fd ∉ o;
  select_picks k n r w r' w' k' : sys_select k n r w = (inr (r', w'), k') -> r' ⊆ r /\ w' ⊆ w;
  recv_fits k fd n bs k' : 0 <= n -> sys_recv k fd n = (inr bs, k') -> Z.of_nat (length bs) <= n /\ Forall is_byte bs;
  send_part k fd bs n k' : sys_send k fd bs = (inr n, k') -> 0 <= n <= Z.of_nat (length bs)
}.

Inductive event :=
| Connected (fd : Z)                       (* a connection was accepted *)
| Received (fd : Z) (bs : list Z)
| Sent (fd : Z) (bs : list Z)
| Closed (fd : Z)
| Reported (peer : option (list Z * list Z)) (* the name of a peer was printed *)
| Printed (fmt : string) (args : list Z)
| Complained (fmt : string) (args : list Z). (* on the standard error *)

(** A process: the system it runs on, its open descriptors, its history with the latest event first. *)
Record Net (K : Type) := mkNet { kernel : K; opened : gset Z; events : list event }.
Arguments mkNet {K} kernel opened events.
Arguments kernel {K} n.
Arguments opened {K} n.
Arguments events {K} n.

(** * [utils.c] and the calls *)

Section Calls.
Context {K : Type} `{Kernel K}.

Definition emit (e : event) : prog (Net K) unit :=
  modify (fun n => mkNet (kernel n) (opened n) (e :: events n)).

Definition printf (fmt : string) (args : list Z) : prog (Net K) unit := emit (Printed fmt args).

Definition die {A} (fmt : string) (args : list Z) : prog (Net K) A :=
  emit (Complained fmt args);; exit_with EXIT_FAILURE.

Definition perror_die {A} (msg : string) : prog (Net K) A :=
  emit (Complained msg []);; exit_with EXIT_FAILURE.

(** [assert (b)]. *)
Definition assert_true {S} (b : bool) : prog S unit := if b then mret tt else exit_with ABORTED.

(** A call that does not change the descriptors. *)
Definition call {A} (f : K -> (Z + A) * K) : prog (Net K) (Z + A) := fun n =>
  let '(r, k) := f (kernel n) in Ret r (mkNet k (opened n) (events n)).

Definition socket : prog (Net K) (Z + Z) := fun n =>
  match sys_socket (kernel n) (opened n) with
  | (inr fd, k) => Ret (inr fd) (mkNet k ({[fd]} ∪ opened n) (events n))
  | (inl e, k) => Ret (inl e) (mkNet k (opened n) (events n))
  end.

Definition accept (listener : Z) : prog (Net K) (Z + Z) := fun n =>
  match sys_accept (kernel n) listener (opened n) with
  | (inr fd, k) => Ret (inr fd) (mkNet k ({[fd]} ∪ opened n) (Connected fd :: events n))
  | (inl e, k) => Ret (inl e) (mkNet k (opened n) (events n))
  end.

Definition recv (fd len : Z) : prog (Net K) (Z + list Z) := fun n =>
  match sys_recv (kernel n) fd len with
  | (inr bs, k) => Ret (inr bs) (mkNet k (opened n) (Received fd bs :: events n))
  | (inl e, k) => Ret (inl e) (mkNet k (opened n) (events n))
  end.

Definition send (fd : Z) (bs : list Z) : prog (Net K) (Z + Z) := fun n =>
  match sys_send (kernel n) fd bs with
  | (inr m, k) => Ret (inr m) (mkNet k (opened n) (Sent fd (take (Z.to_nat m) bs) :: events n))
  | (inl e, k) => Ret (inl e) (mkNet k (opened n) (events n))
  end.

Definition close (fd : Z) : prog (Net K) unit :=
  modify (fun n => mkNet (kernel n) (opened n ∖ {[fd]}) (Closed fd :: events n)).

Definition report_peer_connected : prog (Net K) unit := fun n =>
  emit (Reported (sys_getnameinfo (kernel n))) n.

(** The value of a call whose failure ends the process. *)
Definition or_die {A} (m : prog (Net K) (Z + A)) (msg : string) : prog (Net K) A :=
  r ← m;
  match r with inl _ => perror_die msg | inr a => mret a end.

Definition listen_inet_socket (portnum : Z) : prog (Net K) Z :=
  sockfd ← or_die socket "ERROR opening socket";
  or_die (call (fun k => sys_setsockopt k sockfd)) "setsockopt";;
  let sin_port := u16 portnum in
  or_die (call (fun k => sys_bind k sockfd sin_port)) "ERROR on binding";;
  or_die (call (fun k => sys_listen k sockfd N_BACKLOG)) "ERROR on listen";;
  mret sockfd.

Definition make_socket_non_blocking (sockfd : Z) : prog (Net K) unit :=
  flags ← or_die (call (fun k => sys_getfl k sockfd)) "fcntl F_GETFL";
  or_die (call (fun k => sys_setfl k sockfd (Z.lor flags O_NONBLOCK))) "fcntl F_SETFL O_NONBLOCK".

(** The start of each [main]: the port is the first argument. *)
Definition port_of (argv : list (list Z)) : Z :=
  match argv with _ :: a :: _ => atoi a | _ => 9090 end.
End Calls.
