(* ===== verification/EchoSelect.v ===== *)
(** The echo server over [select]: [src/socket/socket_server/select-server.c].

    A peer is served by callbacks on its slot of [global_state]; the loop of
    [main] calls them for the descriptors that [select] reports, and keeps those
    it waits for in two sets. *)

From S2P Require Import Prelude SdbRow EchoSock.
#[local] Open Scope Z_scope.

Definition MAXFDS : Z := 1000.
Definition SENDBUF_SIZE : Z := 1024.

Inductive ProcessingState := INITIAL_ACK | WAIT_FOR_MSG | IN_MSG.
#[global] Instance ProcessingState_eq_dec : EqDecision ProcessingState.
Proof. solve_decision. Defined.

Record peer_state_t := mkPeer {
  state : ProcessingState;
  sendbuf : list Z;
  sendbuf_end : Z;
  sendptr : Z
}.

(** [global_state] is in static storage. *)
Definition peer_zero : peer_state_t := mkPeer INITIAL_ACK (replicate 1024 0) 0 0.
Definition global_state_init : list peer_state_t := replicate 1000 peer_zero.

Record fd_status_t := mkStatus { want_read : bool; want_write : bool }.
Definition fd_status_R : fd_status_t := mkStatus true false.
Definition fd_status_W : fd_status_t := mkStatus false true.
Definition fd_status_RW : fd_status_t := mkStatus true true.
Definition fd_status_NORW : fd_status_t := mkStatus false false.

(** The process, [global_state] and the variables of [main]. *)
Record Server (K : Type) := mkServer {
  net : Net K;
  global_state : list peer_state_t;
  listener_sockfd : Z;
  readfds_master : gset Z;
  writefds_master : gset Z;
  fdset_max : Z
}.
Arguments mkServer {K}.
Arguments net {K}.
Arguments global_state {K}.
Arguments listener_sockfd {K}.
Arguments readfds_master {K}.
Arguments writefds_master {K}.
Arguments fdset_max {K}.

Section Select.
Context {K : Type} `{Kernel K}.

Definition set_net (n : Net K) (s : Server K) : Server K :=
  mkServer n (global_state s) (listener_sockfd s) (readfds_master s) (writefds_master s) (fdset_max s).
Definition set_global (g : list peer_state_t) (s : Server K) : Server K :=
  mkServer (net s) g (listener_sockfd s) (readfds_master s) (writefds_master s) (fdset_max s).
Definition set_reads (r : gset Z) (s : Server K) : Server K :=
  mkServer (net s) (global_state s) (listener_sockfd s) r (writefds_master s) (fdset_max s).
Definition set_writes (w : gset Z) (s : Server K) : Server K :=
  mkServer (net s) (global_state s) (listener_sockfd s) (readfds_master s) w (fdset_max s).
Definition set_max (m : Z) (s : Server K) : Server K :=
  mkServer (net s) (global_state s) (listener_sockfd s) (readfds_master s) (writefds_master s) m.

Definition sys {A} (m : prog (Net K) A) : prog (Server K) A := zoom net set_net m.

(** What a callback does on [global_state[sockfd]]; an access outside of the array is undefined. *)
Definition on_peer {A} (sockfd : Z) (m : prog peer_state_t A) : prog (Server K) A := fun s =>
  match zget (global_state s) sockfd with
  | None => Undef
  | Some p =>
      let store p' := set_global (<[Z.to_nat sockfd := p']> (global_state s)) s in
      match m p with
      | Ret a p' => Ret a (store p')
      | Exit c p' => Exit c (store p')
      | Undef => Undef
      | NoFuel => NoFuel
      end
  end.

Definition set_state (x : ProcessingState) (p : peer_state_t) : peer_state_t :=
  mkPeer x (sendbuf p) (sendbuf_end p) (sendptr p).
Definition set_ptr (x : Z) (p : peer_state_t) : peer_state_t :=
  mkPeer (state p) (sendbuf p) (sendbuf_end p) x.
Definition set_end (x : Z) (p : peer_state_t) : peer_state_t :=
  mkPeer (state p) (sendbuf p) x (sendptr p).

(** [sendbuf[i] = c]. *)
Definition buf_set (i c : Z) : prog peer_state_t unit := fun p =>
  match zset (sendbuf p) i c with
  | Some b => Ret tt (mkPeer (state p) b (sendbuf_end p) (sendptr p))
  | None => Undef
  end.

Definition on_peer_connected (sockfd : Z) : prog (Server K) fd_status_t :=
  assert_true (sockfd <? MAXFDS);;
  sys report_peer_connected;;
  on_peer sockfd (
    modify (set_state INITIAL_ACK);;
    buf_set 0 42;;
    modify (set_ptr 0);;
    modify (set_end 1));;
  mret fd_status_W.

(** The body of the loop of [on_peer_ready_recv] for one byte; the result is [ready_to_send]. *)
Definition recv_byte (c : Z) (ready_to_send : bool) : prog peer_state_t bool :=
  st ← gets state;
  match st with
  | INITIAL_ACK => assert_true false;; mret ready_to_send
  | WAIT_FOR_MSG =>
      if c =? 94 then modify (set_state IN_MSG);; mret ready_to_send else mret ready_to_send
  | IN_MSG =>
      if c =? 36 then modify (set_state WAIT_FOR_MSG);; mret ready_to_send
      else
        e ← gets sendbuf_end;
        assert_true (e <? SENDBUF_SIZE);;
        buf_set e (u8 (c + 1));;
        modify (set_end (e + 1));;
        mret true
  end.

Fixpoint recv_bytes (buf : list Z) (ready_to_send : bool) : prog peer_state_t bool :=
  match buf with
  | [] => mret ready_to_send
  | c :: t => r ← recv_byte c ready_to_send; recv_bytes t r
  end.

Definition on_peer_ready_recv (sockfd : Z) : prog (Server K) fd_status_t :=
  assert_true (sockfd <? MAXFDS);;
  p ← on_peer sockfd (gets (fun p => p));
  if bool_decide (state p = INITIAL_ACK) || (sendptr p <? sendbuf_end p) then mret fd_status_W
  else
    r ← sys (recv sockfd 1024);
    match r with
    | inr [] => mret fd_status_NORW
    | inl errno =>
        if (errno =? EAGAIN) || (errno =? EWOULDBLOCK) then mret fd_status_R
        else sys (perror_die "recv")
    | inr buf =>
        ready_to_send ← on_peer sockfd (recv_bytes buf false);
        mret (mkStatus (negb ready_to_send) ready_to_send)
    end.

Definition on_peer_ready_send (sockfd : Z) : prog (Server K) fd_status_t :=
  assert_true (sockfd <? MAXFDS);;
  p ← on_peer sockfd (gets (fun p => p));
  if sendbuf_end p <=? sendptr p then mret fd_status_RW
  else
    let sendlen := sendbuf_end p - sendptr p in
    r ← sys (send sockfd (sub (Z.to_nat (sendptr p)) (Z.to_nat sendlen) (sendbuf p)));
    match r with
    | inl errno =>
        if (errno =? EAGAIN) || (errno =? EWOULDBLOCK) then mret fd_status_W
        else sys (perror_die "send")
    | inr nsent =>
        if nsent <? sendlen then
          on_peer sockfd (modify (set_ptr (sendptr p + nsent)));;
          mret fd_status_W
        else
          on_peer sockfd (
            modify (set_ptr 0);;
            modify (set_end 0);;
            modify (fun p => if decide (state p = INITIAL_ACK) then set_state WAIT_FOR_MSG p else p));;
          mret fd_status_R
    end.

(** ** The loop of [main] *)

(** [FD_SET] and [FD_CLR]; a descriptor outside of the set is undefined. *)
Definition fd_put (fd : Z) (b : bool) (fds : gset Z) : gset Z :=
  if b then {[fd]} ∪ fds else fds ∖ {[fd]}.
Definition in_fd_set (fd : Z) : bool := (0 <=? fd) && (fd <? FD_SETSIZE).

Definition update_masters (fd : Z) (status : fd_status_t) : prog (Server K) unit :=
  require (in_fd_set fd);;
  modify (fun s => set_reads (fd_put fd (want_read status) (readfds_master s)) s);;
  modify (fun s => set_writes (fd_put fd (want_write status) (writefds_master s)) s).

Definition close_unwanted (fd : Z) (status : fd_status_t) : prog (Server K) unit :=
  if negb (want_read status) && negb (want_write status) then
    sys (printf "socket %d closing" [fd]);;
    sys (close fd)
  else mret tt.

(** The listening socket is ready. *)
Definition accept_peer (listener : Z) : prog (Server K) unit :=
  r ← sys (accept listener);
  match r with
  | inl errno =>
      if (errno =? EAGAIN) || (errno =? EWOULDBLOCK)
      then sys (printf "accept returned EAGAIN or EWOULDBLOCK" [])
      else sys (perror_die "accept")
  | inr newsockfd =>
      sys (make_socket_non_blocking newsockfd);;
      m ← gets fdset_max;
      (if m <? newsockfd then
         (if FD_SETSIZE <=? newsockfd
          then sys (die "socket fd (%d) >= FD_SETSIZE (%d)" [newsockfd; FD_SETSIZE])
          else mret tt);;
         modify (set_max newsockfd)
       else mret tt);;
      status ← on_peer_connected newsockfd;
      update_masters newsockfd status
  end.

(** The body of the loop over the descriptors; the result is [nready]. *)
Definition serve_fd (fd nready : Z) (readfds writefds : gset Z) : prog (Server K) Z :=
  nready ← (if bool_decide (fd ∈ readfds) then
      listener ← gets listener_sockfd;
      (if fd =? listener then accept_peer listener
       else
         status ← on_peer_ready_recv fd;
         update_masters fd status;;
         close_unwanted fd status);;
      mret (nready - 1)
    else mret nready);
  if bool_decide (fd ∈ writefds) then
    status ← on_peer_ready_send fd;
    update_masters fd status;;
    close_unwanted fd status;;
    mret (nready - 1)
  else mret nready.

(** [for (fd = 0; fd <= fdset_max && nready > 0; fd++)], in at most a round for every
    descriptor of a set. *)
Fixpoint serve_ready (fuel : nat) (fd nready : Z) (readfds writefds : gset Z) : prog (Server K) unit :=
  m ← gets fdset_max;
  if (fd <=? m) && (0 <? nready) then
    match fuel with
    | O => nofuel
    | S f =>
        nready ← serve_fd fd nready readfds writefds;
        serve_ready f (fd + 1) nready readfds writefds
    end
  else mret tt.

(** One round of [while (1)]. *)
Definition select_round : prog (Server K) unit :=
  s ← gets (fun s => s);
  r ← sys (call (fun k => sys_select k (fdset_max s + 1) (readfds_master s) (writefds_master s)));
  match r with
  | inl _ => sys (perror_die "select")
  | inr (readfds, writefds) =>
      let nready := Z.of_nat (size readfds + size writefds) in
      serve_ready (Z.to_nat FD_SETSIZE) 0 nready readfds writefds
  end.

(** The first [n] rounds. *)
Fixpoint select_rounds (n : nat) : prog (Server K) unit :=
  match n with O => mret tt | S n => select_round;; select_rounds n end.

(** [main] up to its loop. *)
Definition main_start (argv : list (list Z)) : prog (Net K) Z :=
  let portnum := port_of argv in
  printf "Serving on port %d" [portnum];;
  listener_sockfd ← listen_inet_socket portnum;
  make_socket_non_blocking listener_sockfd;;
  (if FD_SETSIZE <=? listener_sockfd
   then die "listener socket fd (%d) >= FD_SETSIZE (%d)" [listener_sockfd; FD_SETSIZE]
   else mret tt);;
  mret listener_sockfd.

(** [main] with the first [n] rounds of its loop. *)
Definition main (argv : list (list Z)) (n : nat) (start : Net K) : outcome (Server K) unit :=
  let server l t := mkServer t global_state_init l {[l]} ∅ l in
  match main_start argv start with
  | Ret listener t => select_rounds n (server listener t)
  | Exit c t => Exit c (server 0 t)
  | Undef => Undef
  | NoFuel => NoFuel
  end.
End Select.
