(* ===== verification/EchoSpec.v ===== *)
(** What the echo servers promise: what a peer is sent is a function of what it sent.

    A connection is answered by [reply]: an acknowledgement, then the bytes of
    each message between a caret and a dollar sign, every byte increased by one.
    The server over [select] keeps to this on all connections at once, whatever
    the order of the events ([EchoSelect]). *)

From S2P Require Import Prelude SdbRow EchoSock EchoSelect.
#[local] Open Scope Z_scope.

(** * The specification *)

(** The answer to bytes that arrive inside or outside of a message. *)
Fixpoint echo_from (inside : bool) (bs : list Z) : list Z :=
  match bs with
  | [] => []
  | c :: t =>
      if inside then (if c =? 36 then echo_from false t else u8 (c + 1) :: echo_from true t)
      else echo_from (c =? 94) t
  end.

Fixpoint inside_after (inside : bool) (bs : list Z) : bool :=
  match bs with
  | [] => inside
  | c :: t => inside_after (if inside then negb (c =? 36) else c =? 94) t
  end.

Definition reply (bs : list Z) : list Z := 42 :: echo_from false bs.

(** The answer to a byte, and whether the next one is inside of a message. *)
Definition echo_byte (inside : bool) (c : Z) : list Z := if inside && negb (c =? 36) then [u8 (c + 1)] else [].
Definition next_inside (inside : bool) (c : Z) : bool := if inside then negb (c =? 36) else c =? 94.

Lemma echo_from_cons i c t : echo_from i (c :: t) = echo_byte i c ++ echo_from (next_inside i c) t.
Proof. destruct i; [|done]. unfold echo_byte, next_inside. simpl. by destruct (c =? 36). Qed.

Lemma echo_from_app i a b : echo_from i (a ++ b) = echo_from i a ++ echo_from (inside_after i a) b.
Proof.
  revert i. induction a as [|c a IH]; intros i; [done|].
  rewrite <- app_comm_cons, !echo_from_cons, IH, app_assoc. done.
Qed.

Lemma inside_after_app i a b : inside_after i (a ++ b) = inside_after (inside_after i a) b.
Proof. revert i. induction a as [|c a IH]; intros i; [done|]. apply IH. Qed.

Lemma reply_app a b : reply (a ++ b) = reply a ++ echo_from (inside_after false a) b.
Proof. unfold reply. by rewrite echo_from_app. Qed.

Lemma length_echo_from i bs : (length (echo_from i bs) <= length bs)%nat.
Proof.
  revert i. induction bs as [|c t IH]; intros i; [done|]. rewrite echo_from_cons, length_app.
  specialize (IH (next_inside i c)).
  unfold echo_byte. destruct (i && negb (c =? 36)); simpl in *; lia.
Qed.

(** What arrived and what was sent on a descriptor since it was connected. *)
Fixpoint got_from (fd : Z) (evs : list event) : list Z :=
  match evs with
  | [] => []
  | Connected d :: t => if decide (d = fd) then [] else got_from fd t
  | Received d bs :: t => got_from fd t ++ (if decide (d = fd) then bs else [])
  | _ :: t => got_from fd t
  end.

Fixpoint sent_to (fd : Z) (evs : list event) : list Z :=
  match evs with
  | [] => []
  | Connected d :: t => if decide (d = fd) then [] else sent_to fd t
  | Sent d bs :: t => sent_to fd t ++ (if decide (d = fd) then bs else [])
  | _ :: t => sent_to fd t
  end.

(** At every moment of the history, what was sent on a connection is a part of the reply. *)
Definition echoes (evs : list event) : Prop :=
  forall after before fd, evs = after ++ before -> sent_to fd before `prefix_of` reply (got_from fd before).

(** A connection that is closed has its whole reply. *)
Definition closes_answered (evs : list event) : Prop :=
  forall after before fd, evs = after ++ Closed fd :: before -> sent_to fd before = reply (got_from fd before).

Definition lawful (evs : list event) : Prop := echoes evs /\ closes_answered evs.

Lemma echoes_nil : echoes [].
Proof. intros [|] [|] fd E; simplify_eq/=. apply prefix_nil. Qed.

Lemma lawful_nil : lawful [].
Proof. split; [apply echoes_nil|]. by intros [|] before fd E. Qed.

Lemma echoes_now evs fd : echoes evs -> sent_to fd evs `prefix_of` reply (got_from fd evs).
Proof. intros H. by apply (H [] evs). Qed.

Lemma echoes_cons e evs :
  echoes evs -> (forall fd, sent_to fd (e :: evs) `prefix_of` reply (got_from fd (e :: evs))) -> echoes (e :: evs).
Proof. intros H He [|x after] before fd E; simplify_eq/=; [apply He|by apply (H after)]. Qed.

Lemma closes_cons e evs :
  closes_answered evs ->
  (forall fd, e = Closed fd -> sent_to fd evs = reply (got_from fd evs)) -> closes_answered (e :: evs).
Proof. intros H He [|x after] before fd E; simplify_eq/=; [by apply He|by apply (H after)]. Qed.

(** Events that are not a connection, bytes or an end. *)
Definition quiet (e : event) : Prop :=
  match e with Reported _ | Printed _ _ | Complained _ _ => True | _ => False end.

Lemma quiet_got e fd evs : quiet e -> got_from fd (e :: evs) = got_from fd evs.
Proof. by destruct e. Qed.
Lemma quiet_sent e fd evs : quiet e -> sent_to fd (e :: evs) = sent_to fd evs.
Proof. by destruct e. Qed.

Lemma prefix_reply l a b : l `prefix_of` reply a -> l `prefix_of` reply (a ++ b).
Proof. intros H. rewrite reply_app. by apply prefix_app_r. Qed.

(** ** Events that keep a history in order *)

Lemma echoes_quiet e evs : quiet e -> echoes evs -> echoes (e :: evs).
Proof.
  intros Q He. apply echoes_cons; [done|]. intros fd. rewrite quiet_got, quiet_sent by done. by apply echoes_now.
Qed.

Lemma echoes_connected fd evs : echoes evs -> echoes (Connected fd :: evs).
Proof.
  intros He. apply echoes_cons; [done|]. intros d. simpl. case_decide; [apply prefix_nil|by apply echoes_now].
Qed.

Lemma echoes_received fd bs evs : echoes evs -> echoes (Received fd bs :: evs).
Proof.
  intros He. apply echoes_cons; [done|]. intros d. simpl. apply prefix_reply. by apply echoes_now.
Qed.

Lemma echoes_sent fd bs evs :
  sent_to fd evs ++ bs `prefix_of` reply (got_from fd evs) -> echoes evs -> echoes (Sent fd bs :: evs).
Proof.
  intros H He. apply echoes_cons; [done|]. intros d. simpl. case_decide as D; [by rewrite <- D|].
  rewrite app_nil_r. by apply echoes_now.
Qed.

Lemma echoes_closed fd evs : echoes evs -> echoes (Closed fd :: evs).
Proof. intros He. apply echoes_cons; [done|]. intros d. simpl. by apply echoes_now. Qed.

Lemma lawful_quiet e evs : quiet e -> lawful evs -> lawful (e :: evs).
Proof. intros Q [He Hc]. split; [by apply echoes_quiet|]. apply closes_cons; [done|]. by intros fd ->. Qed.

Lemma lawful_connected fd evs : lawful evs -> lawful (Connected fd :: evs).
Proof. intros [He Hc]. split; [by apply echoes_connected|by apply closes_cons]. Qed.

Lemma lawful_received fd bs evs : lawful evs -> lawful (Received fd bs :: evs).
Proof. intros [He Hc]. split; [by apply echoes_received|by apply closes_cons]. Qed.

Lemma lawful_sent fd bs evs :
  sent_to fd evs ++ bs `prefix_of` reply (got_from fd evs) -> lawful evs -> lawful (Sent fd bs :: evs).
Proof. intros H [He Hc]. split; [by apply echoes_sent|by apply closes_cons]. Qed.

Lemma lawful_closed fd evs :
  sent_to fd evs = reply (got_from fd evs) -> lawful evs -> lawful (Closed fd :: evs).
Proof.
  intros H [He Hc]. split; [by apply echoes_closed|]. apply closes_cons; [done|]. intros d E. by simplify_eq.
Qed.

(** * Programs that return or leave in good order *)

(** [m] returns with [Q], or leaves the process with [E]. *)
Definition safe {S A} (E : Z -> S -> Prop) (m : prog S A) (s : S) (Q : A -> S -> Prop) : Prop :=
  match m s with Ret a t => Q a t | Exit c t => E c t | Undef | NoFuel => False end.

Section Safe.
Context {S : Type} (E : Z -> S -> Prop).

Lemma safe_bind {A B} (m : prog S A) (k : A -> prog S B) s Q :
  safe E m s (fun a t => safe E (k a) t Q) -> safe E (m ≫= k) s Q.
Proof. unfold safe, mbind, prog_bind. by destruct (m s). Qed.

Lemma safe_mono {A} (m : prog S A) s (Q R : A -> S -> Prop) :
  safe E m s Q -> (forall a t, Q a t -> R a t) -> safe E m s R.
Proof. unfold safe. destruct (m s); eauto. Qed.

Lemma safe_step {A B} (m : prog S A) (k : A -> prog S B) s Q R :
  safe E m s Q -> (forall a t, Q a t -> safe E (k a) t R) -> safe E (m ≫= k) s R.
Proof. intros H HK. apply safe_bind. by eapply safe_mono. Qed.

Lemma safe_ret {A} (a : A) s (Q : A -> S -> Prop) : Q a s -> safe E (mret a) s Q.
Proof. done. Qed.
End Safe.

(** * The calls, by the events they add *)

Section Calls.
Context {K : Type} `{KernelSpec K}.
Implicit Types (n : Net K) (s : Server K).

(** When the process leaves: by [exit], or because a peer got a descriptor that
    [global_state] has no slot for. *)
Definition leaves (c : Z) (s : Server K) : Prop :=
  lawful (events (net s)) /\
  (c = EXIT_FAILURE \/ c = ABORTED /\ exists fd, MAXFDS <= fd < FD_SETSIZE /\ fd ∈ opened (net s)).

(** A step of the system that tells nothing and opens nothing. *)
Definition hushed (s t : Server K) : Prop :=
  exists k evs, Forall quiet evs /\ t = set_net (mkNet k (opened (net s)) (evs ++ events (net s))) s.

Lemma hushed_refl s : hushed s s.
Proof. exists (kernel (net s)), []. split; [done|]. by destruct s as [[] ]. Qed.

Lemma hushed_lawful s t : hushed s t -> lawful (events (net s)) -> lawful (events (net t)).
Proof.
  intros (k & evs & HF & ->) HL. simpl. induction HF; [done|]. by apply lawful_quiet.
Qed.

Lemma hushed_step s t k e o :
  hushed s t -> quiet e -> o = opened (net s) -> hushed s (set_net (mkNet k o (e :: events (net t))) t).
Proof.
  intros (k0 & evs & HF & ->) Hq ->. exists k, (e :: evs). split; [by constructor|done].
Qed.

Lemma safe_die {A} fmt args s (Q : A -> Server K -> Prop) :
  lawful (events (net s)) -> safe leaves (sys (die fmt args)) s Q.
Proof. intros HL. unfold safe. simpl. split; [by apply lawful_quiet|by left]. Qed.

Lemma safe_perror_die {A} msg s (Q : A -> Server K -> Prop) :
  lawful (events (net s)) -> safe leaves (sys (perror_die msg)) s Q.
Proof. intros HL. unfold safe. simpl. split; [by apply lawful_quiet|by left]. Qed.

Lemma safe_printf fmt args s (Q : unit -> Server K -> Prop) :
  Q tt (set_net (mkNet (kernel (net s)) (opened (net s)) (Printed fmt args :: events (net s))) s) ->
  safe leaves (sys (printf fmt args)) s Q.
Proof. done. Qed.

Lemma safe_non_blocking fd s (Q : unit -> Server K -> Prop) :
  lawful (events (net s)) -> (forall t, hushed s t -> Q tt t) ->
  safe leaves (sys (make_socket_non_blocking fd)) s Q.
Proof.
  intros HL HQ. unfold safe, sys, zoom, make_socket_non_blocking, or_die, call, mbind, prog_bind. simpl.
  destruct (sys_getfl _ _) as [[e|flags] k] eqn:E1; simpl.
  { split; [by apply lawful_quiet|by left]. }
  destruct (sys_setfl _ _ _) as [[e|[]] k'] eqn:E2; simpl.
  { split; [by apply lawful_quiet|by left]. }
  apply HQ. exists k', []. by split.
Qed.
End Calls.
