(* ===== verification/EchoServer.v ===== *)
(** The echo server over [select] keeps every connection in step with its reply.

    [Inv] relates the sets of the loop, the slots of the peers and the history:
    the server waits to read from a peer that has its whole reply, and waits to
    write to a peer for which bytes are staged.  Every round of the loop keeps
    it, so that no assertion on the buffer fails and no descriptor is lost. *)

From S2P Require Import Prelude SdbRow EchoSock EchoSelect EchoSpec.
#[local] Open Scope Z_scope.

(** * A peer *)

Definition state_of (inside : bool) : ProcessingState := if inside then IN_MSG else WAIT_FOR_MSG.

(** The bytes that are staged and not yet sent. *)
Definition staged (p : peer_state_t) : list Z :=
  sub (Z.to_nat (sendptr p)) (Z.to_nat (sendbuf_end p - sendptr p)) (sendbuf p).

Record answering (p : peer_state_t) (fd : Z) (evs : list event) : Prop := {
  ans_len : length (sendbuf p) = 1024%nat;
  ans_range : 0 <= sendptr p <= sendbuf_end p /\ sendbuf_end p <= 1024;
  ans_reply : sent_to fd evs ++ staged p = reply (got_from fd evs);
  ans_state : if decide (state p = INITIAL_ACK) then got_from fd evs = []
              else state p = state_of (inside_after false (got_from fd evs))
}.

Definition idle (p : peer_state_t) : Prop := state p <> INITIAL_ACK /\ sendptr p = 0 /\ sendbuf_end p = 0.
Definition busy (p : peer_state_t) : Prop := sendptr p < sendbuf_end p.

Lemma idle_answered p fd evs : answering p fd evs -> idle p -> sent_to fd evs = reply (got_from fd evs).
Proof.
  intros Ha (_ & E1 & E2). rewrite <- (ans_reply _ _ _ Ha). unfold staged. rewrite E1, E2. by rewrite app_nil_r.
Qed.

(** An event of another descriptor, or none. *)
Definition concerns (fd : Z) (e : event) : Prop :=
  match e with Connected d | Received d _ | Sent d _ | Closed d => d = fd | _ => True end.

Lemma other_history fd d new evs :
  Forall (concerns fd) new -> d <> fd ->
  got_from d (new ++ evs) = got_from d evs /\ sent_to d (new ++ evs) = sent_to d evs.
Proof.
  intros HF Hd. induction HF as [|e new He _ [IH1 IH2]]; [done|].
  destruct e; simpl in *; subst; rewrite ?decide_False by done; by rewrite ?app_nil_r.
Qed.

Lemma answering_other p fd d new evs :
  Forall (concerns fd) new -> d <> fd -> answering p d evs -> answering p d (new ++ evs).
Proof.
  intros HF Hd [? ? ? ?]. destruct (other_history _ _ _ evs HF Hd) as [Eg Es].
  by split; rewrite ?Eg, ?Es.
Qed.

(** ** The bytes of one [recv] *)

Lemma buf_set_runs i c p :
  0 <= i < Z.of_nat (length (sendbuf p)) ->
  buf_set i c p = Ret tt (mkPeer (state p) (<[Z.to_nat i := c]> (sendbuf p)) (sendbuf_end p) (sendptr p)).
Proof. intros Hi. unfold buf_set, zset. by rewrite (proj2 (Z.leb_le _ _)), (proj2 (Z.ltb_lt _ _)) by lia. Qed.

Lemma recv_byte_runs c p i r :
  length (sendbuf p) = 1024%nat -> state p = state_of i -> 0 <= sendbuf_end p < 1024 ->
  exists p', recv_byte c r p = Ret (r || (i && negb (c =? 36))) p' /\
    length (sendbuf p') = 1024%nat /\ state p' = state_of (next_inside i c) /\
    sendptr p' = sendptr p /\
    sendbuf_end p' = sendbuf_end p + Z.of_nat (length (echo_byte i c)) /\
    take (Z.to_nat (sendbuf_end p')) (sendbuf p') =
      take (Z.to_nat (sendbuf_end p)) (sendbuf p) ++ echo_byte i c.
Proof.
  intros Hl Hs He. unfold recv_byte, echo_byte, next_inside. rewrite bind_gets, Hs. destruct i; simpl.
  - destruct (c =? 36) eqn:Ec; simpl.
    { eexists. rewrite orb_false_r. split_and!; try done; simpl; [lia|by rewrite app_nil_r]. }
    rewrite bind_gets. unfold assert_true, SENDBUF_SIZE.
    rewrite (proj2 (Z.ltb_lt _ _)) by lia. rewrite bind_mret.
    step (buf_set_runs (sendbuf_end p) (u8 (c + 1)) p ltac:(lia)).
    eexists. rewrite orb_true_r. split_and!; [done|..]; simpl; [by rewrite length_insert|done|done|done|].
    replace (Z.to_nat (sendbuf_end p + 1)) with (S (Z.to_nat (sendbuf_end p))) by lia.
    rewrite (take_S_r _ _ (u8 (c + 1))) by (apply list_lookup_insert_eq; lia).
    by rewrite take_insert_ge by lia.
  - rewrite orb_false_r. destruct (c =? 94); simpl;
      eexists; split_and!; try done; simpl; try lia; by rewrite app_nil_r.
Qed.

Lemma recv_bytes_runs buf : forall p i r,
  length (sendbuf p) = 1024%nat -> state p = state_of i ->
  0 <= sendbuf_end p -> sendbuf_end p + Z.of_nat (length buf) <= 1024 ->
  exists p', recv_bytes buf r p = Ret (r || negb (bool_decide (echo_from i buf = []))) p' /\
    length (sendbuf p') = 1024%nat /\ state p' = state_of (inside_after i buf) /\
    sendptr p' = sendptr p /\
    sendbuf_end p' = sendbuf_end p + Z.of_nat (length (echo_from i buf)) /\
    take (Z.to_nat (sendbuf_end p')) (sendbuf p') =
      take (Z.to_nat (sendbuf_end p)) (sendbuf p) ++ echo_from i buf.
Proof.
  induction buf as [|c buf IH]; intros p i r Hl Hs He Hb.
  { exists p. simpl. rewrite orb_false_r, app_nil_r, Z.add_0_r. done. }
  simpl in Hb. destruct (recv_byte_runs c p i r) as (p1 & E1 & L1 & S1 & P1 & N1 & T1); [done|done|lia|].
  assert (length (echo_byte i c) <= 1)%nat by (unfold echo_byte; case_match; simpl; lia).
  destruct (IH p1 _ (r || (i && negb (c =? 36))) L1 S1) as (p2 & E2 & L2 & S2 & P2 & N2 & T2); [lia|lia|].
  exists p2. cbn [recv_bytes]. step E1. rewrite E2. cbn [inside_after].
  rewrite echo_from_cons.
  split_and!; [|done|done|congruence|rewrite N2, N1, length_app; lia|by rewrite T2, T1, app_assoc].
  f_equal. unfold echo_byte. destruct r, (i && negb (c =? 36)); simpl; try done.
Qed.

Lemma state_of_ack i : state_of i <> INITIAL_ACK.
Proof. by destruct i. Qed.

(** Bytes that arrive at an idle peer stage their part of the reply. *)
Lemma peer_receives p fd evs bs :
  answering p fd evs -> idle p -> Z.of_nat (length bs) <= 1024 ->
  exists r p', recv_bytes bs false p = Ret r p' /\ answering p' fd (Received fd bs :: evs) /\
    if r then busy p' else idle p'.
Proof.
  intros Ha Hi Hbs. pose proof (idle_answered _ _ _ Ha Hi) as Hr.
  destruct Ha as [Hl _ _ Hst], Hi as (Hs & Hp & He). rewrite decide_False in Hst by done.
  destruct (recv_bytes_runs bs p _ false Hl Hst) as (p' & E & L' & S' & P' & N' & T'); [lia|lia|].
  rewrite He in T', N'. rewrite Z.add_0_l in N'. simpl in E, T'.
  pose proof (length_echo_from (inside_after false (got_from fd evs)) bs) as Hlen.
  exists (negb (bool_decide (echo_from (inside_after false (got_from fd evs)) bs = []))), p'. split; [exact E|]. split.
  - split; simpl; rewrite ?(decide_True (P := fd = fd)) by done; [done|lia| |].
    + rewrite reply_app, Hr. f_equal. unfold staged, sub.
      rewrite P', Hp, Z.sub_0_r. exact T'.
    + rewrite S', decide_False by apply state_of_ack. by rewrite inside_after_app.
  - destruct (echo_from _ bs) eqn:Eb; simpl in N' |- *.
    + split_and!; [rewrite S'; apply state_of_ack|congruence|done].
    + unfold busy. lia.
Qed.

(** A part of the staged bytes is sent. *)
Lemma peer_sends_part p fd evs n :
  answering p fd evs -> 0 <= n < sendbuf_end p - sendptr p ->
  answering (set_ptr (sendptr p + n) p) fd (Sent fd (take (Z.to_nat n) (staged p)) :: evs) /\
  busy (set_ptr (sendptr p + n) p).
Proof.
  intros [Hl Hr He Hs] Hn. split; [|unfold busy; simpl; lia].
  split; simpl; [done|lia| |done]. rewrite decide_True by done. rewrite <- He, <- app_assoc. f_equal.
  rewrite <- (take_drop (Z.to_nat n) (staged p)) at 2. f_equal.
  unfold staged, sub. simpl. rewrite skipn_firstn_comm, drop_drop. f_equal; [lia|f_equal; lia].
Qed.

Definition send_done (p : peer_state_t) : peer_state_t :=
  mkPeer (if decide (state p = INITIAL_ACK) then WAIT_FOR_MSG else state p) (sendbuf p) 0 0.

Lemma length_staged p fd evs :
  answering p fd evs -> length (staged p) = Z.to_nat (sendbuf_end p - sendptr p).
Proof. intros [Hl Hr _ _]. unfold staged. apply length_sub. lia. Qed.

Lemma peer_sends_all p fd evs n :
  answering p fd evs -> sendbuf_end p - sendptr p <= n ->
  answering (send_done p) fd (Sent fd (take (Z.to_nat n) (staged p)) :: evs) /\ idle (send_done p).
Proof.
  intros Ha Hn. pose proof (length_staged _ _ _ Ha) as Hls. destruct Ha as [Hl Hr He Hs].
  split; [|split; [simpl; by case_decide|done] ].
  split; simpl; [done|lia| |].
  - rewrite decide_True by done. rewrite take_ge by lia. rewrite He. apply app_nil_r.
  - case_decide as Hst; [by rewrite Hs|by rewrite decide_False].
Qed.

(** The slot of a peer that was connected just now. *)
Definition peer_fresh (p : peer_state_t) : peer_state_t := mkPeer INITIAL_ACK (<[0%nat := 42]> (sendbuf p)) 1 0.

Lemma peer_fresh_ok p fd evs :
  length (sendbuf p) = 1024%nat -> got_from fd evs = [] -> sent_to fd evs = [] ->
  answering (peer_fresh p) fd evs /\ busy (peer_fresh p).
Proof.
  intros Hl Hg Hs. split; [|done]. split; simpl; [by rewrite length_insert|lia| |done].
  rewrite Hg, Hs. unfold staged, sub. simpl. destruct (sendbuf p); done.
Qed.

(** * The invariant of the loop *)

Section Loop.
Context {K : Type} `{KernelSpec K}.
Implicit Types (s t : Server K).

Definition slot s (fd : Z) : option peer_state_t := global_state s !! Z.to_nat fd.

Record Inv (base : gset Z) s : Prop := {
  inv_lawful : lawful (events (net s));
  inv_global : length (global_state s) = 1000%nat;
  inv_bufs : Forall (fun p => length (sendbuf p) = 1024%nat) (global_state s);
  inv_listener : 0 <= listener_sockfd s <= fdset_max s;
  inv_max : fdset_max s < FD_SETSIZE;
  inv_listens : listener_sockfd s ∈ readfds_master s;
  inv_no_write : listener_sockfd s ∉ writefds_master s;
  inv_apart : readfds_master s ## writefds_master s;
  inv_open fd : fd ∈ readfds_master s ∪ writefds_master s -> fd ∈ opened (net s) /\ 0 <= fd <= fdset_max s;
  inv_kept : opened (net s) ⊆ base ∪ readfds_master s ∪ writefds_master s;
  inv_reading fd : fd ∈ readfds_master s -> fd <> listener_sockfd s ->
    exists p, slot s fd = Some p /\ answering p fd (events (net s)) /\ idle p;
  inv_writing fd : fd ∈ writefds_master s ->
    exists p, slot s fd = Some p /\ answering p fd (events (net s)) /\ busy p
}.

(** A callback that returned [status] for a descriptor, before the sets are updated. *)
Record served (fd : Z) s t (p : peer_state_t) : Prop := {
  sv_global : global_state t = <[Z.to_nat fd := p]> (global_state s);
  sv_listener : listener_sockfd t = listener_sockfd s;
  sv_reads : readfds_master t = readfds_master s;
  sv_writes : writefds_master t = writefds_master s;
  sv_max : fdset_max s <= fdset_max t < FD_SETSIZE;
  sv_range : 0 <= fd <= fdset_max t /\ fd < MAXFDS /\ fd <> listener_sockfd s;
  sv_opened : opened (net t) = {[fd]} ∪ opened (net s);
  sv_events : exists new, events (net t) = new ++ events (net s) /\ Forall (concerns fd) new;
  sv_lawful : lawful (events (net t));
  sv_peer : answering p fd (events (net t))
}.

(** The sets agree with the slot. *)
Definition fits (status : fd_status_t) (p : peer_state_t) : Prop :=
  want_write status = negb (want_read status) /\ if want_read status then idle p else busy p.

Definition updated (fd : Z) (status : fd_status_t) t : Server K :=
  set_writes (fd_put fd (want_write status) (writefds_master t))
    (set_reads (fd_put fd (want_read status) (readfds_master t)) t).

Lemma elem_of_fd_put d fd b fds : d ∈ fd_put fd b fds <-> if decide (d = fd) then b = true else d ∈ fds.
Proof. unfold fd_put. case_decide; destruct b; set_solver. Qed.

(** The slot and the history of another descriptor are as before. *)
Lemma served_other fd s t p d q (Q : peer_state_t -> Prop) :
  served fd s t p -> 0 <= d -> d <> fd ->
  slot s d = Some q /\ answering q d (events (net s)) /\ Q q ->
  slot t d = Some q /\ answering q d (events (net t)) /\ Q q.
Proof.
  intros [Eg _ _ _ _ Hr _ (new & -> & HF) _ _] Hd Hne (Hs & Ha & HQ). unfold slot. rewrite Eg.
  split_and!; [|by eapply answering_other|done]. rewrite list_lookup_insert_ne by lia. done.
Qed.

Lemma served_slot base fd s t p : Inv base s -> served fd s t p -> slot t fd = Some p.
Proof.
  intros HI Hs. unfold slot. rewrite (sv_global _ _ _ _ Hs). apply list_lookup_insert_eq.
  rewrite (inv_global _ _ HI). pose proof (sv_range _ _ _ _ Hs). unfold MAXFDS in *. lia.
Qed.

Lemma inv_updated base fd s t p status :
  Inv base s -> served fd s t p -> fits status p -> Inv base (updated fd status t).
Proof.
  intros HI Hs [Hw Hf]. pose proof (served_slot _ _ _ _ _ HI Hs) as Hslot.
  pose proof (fun d q Q => served_other fd s t p d q Q Hs) as Hother.
  destruct HI as [_ Ig Ib Il Im Ils Inw Ia Io Ik Ir Iw], Hs as [Eg El Er Ew Hm Hr Eo _ Hlaw Hp].
  assert (forall d, d ∈ readfds_master s ∪ writefds_master s -> 0 <= d) as Hpos by (intros d Hd; apply Io in Hd; lia).
  split; simpl; rewrite ?Eg, ?El, ?Er, ?Ew.
  - done.
  - by rewrite length_insert.
  - apply Forall_insert; [done|apply (ans_len _ _ _ Hp)].
  - lia.
  - lia.
  - apply elem_of_fd_put. rewrite decide_False by naive_solver. done.
  - intros Hin. apply elem_of_fd_put in Hin. rewrite decide_False in Hin by naive_solver. done.
  - intros d. rewrite !elem_of_fd_put. case_decide; [by destruct (want_read status), (want_write status)|apply Ia].
  - intros d. rewrite elem_of_union, !elem_of_fd_put, Eo. case_decide as Hd; [subst; intros _; set_solver by lia|].
    intros Hin%elem_of_union. apply Io in Hin. set_solver by lia.
  - intros d. rewrite Eo. rewrite !elem_of_union, !elem_of_fd_put, elem_of_singleton. case_decide as Hd.
    + intros _. rewrite Hw. destruct (want_read status); auto.
    + intros [?|Hd']; [done|]. apply Ik in Hd'. set_solver.
  - intros d. rewrite elem_of_fd_put. case_decide as Hd; intros Hin Hne.
    + subst d. exists p. rewrite Hin in Hf. done.
    + destruct (Ir d Hin Hne) as (q & Hq). exists q. apply Hother; [apply Hpos; set_solver|done|done].
  - intros d. rewrite elem_of_fd_put. case_decide as Hd; intros Hin.
    + subst d. exists p. rewrite Hin in Hw. destruct (want_read status); [done|]. done.
    + destruct (Iw d Hin) as (q & Hq). exists q. apply Hother; [apply Hpos; set_solver|done|done].
Qed.

Lemma safe_call {A} (m : prog (Net K) A) s (Q : A -> Server K -> Prop) a n :
  m (net s) = Ret a n -> Q a (set_net n s) -> safe leaves (sys m) s Q.
Proof. intros E HQ. unfold safe, sys, zoom. by rewrite E. Qed.

Lemma on_peer_runs {A} fd (m : prog peer_state_t A) s p a p' :
  0 <= fd -> slot s fd = Some p -> m p = Ret a p' ->
  on_peer fd m s = Ret a (set_global (<[Z.to_nat fd := p']> (global_state s)) s).
Proof. intros Hf Hs Hm. unfold slot in Hs. unfold on_peer, zget. rewrite (proj2 (Z.leb_le _ _)) by lia. by rewrite Hs, Hm. Qed.

Lemma on_peer_reads fd s p :
  0 <= fd -> slot s fd = Some p -> on_peer fd (gets (fun p => p)) s = Ret p s.
Proof.
  intros Hf Hs. rewrite (on_peer_runs _ _ _ _ p p Hf Hs) by done.
  rewrite list_insert_id by done. by destruct s.
Qed.

Lemma set_global_id s : set_global (global_state s) s = s.
Proof. by destruct s. Qed.

Lemma sys_recv_runs s fd len r k :
  sys_recv (kernel (net s)) fd len = (r, k) ->
  sys (recv fd len) s =
    Ret r (set_net (mkNet k (opened (net s))
                     (match r with inr bs => [Received fd bs] | inl _ => [] end ++ events (net s))) s).
Proof. intros E. unfold sys, zoom, recv. rewrite E. by destruct r. Qed.

Lemma sys_send_runs s fd bs r k :
  sys_send (kernel (net s)) fd bs = (r, k) ->
  sys (send fd bs) s =
    Ret r (set_net (mkNet k (opened (net s))
                     (match r with inr n => [Sent fd (take (Z.to_nat n) bs)] | inl _ => [] end ++ events (net s))) s).
Proof. intros E. unfold sys, zoom, send. rewrite E. by destruct r. Qed.

(** A descriptor of the sets has a slot. *)
Lemma inv_slot base s fd :
  Inv base s -> fd ∈ readfds_master s ∪ writefds_master s -> fd <> listener_sockfd s ->
  0 <= fd <= fdset_max s /\ fd < MAXFDS /\ fd ∈ opened (net s) /\
  exists p, slot s fd = Some p /\ answering p fd (events (net s)) /\
    (fd ∈ readfds_master s /\ idle p \/ fd ∈ writefds_master s /\ busy p).
Proof.
  intros HI Hin Hne. destruct (inv_open _ _ HI fd Hin) as [Ho Hb]. pose proof (inv_global _ _ HI) as Hg.
  assert (exists p, slot s fd = Some p /\ answering p fd (events (net s)) /\
    (fd ∈ readfds_master s /\ idle p \/ fd ∈ writefds_master s /\ busy p)) as (p & Hp & Ha & Hm).
  { apply elem_of_union in Hin as [Hin|Hin];
      [destruct (inv_reading _ _ HI fd Hin Hne) as (p & ? & ? & ?)
      |destruct (inv_writing _ _ HI fd Hin) as (p & ? & ? & ?)]; exists p; tauto. }
  split_and!; [lia..| |done|by exists p]. apply lookup_lt_Some in Hp. unfold MAXFDS. lia.
Qed.

(** What a callback leaves when it adds events of its descriptor and changes its slot. *)
Lemma served_intro base fd s p k new :
  Inv base s -> fd ∈ readfds_master s ∪ writefds_master s -> fd <> listener_sockfd s ->
  Forall (concerns fd) new -> lawful (new ++ events (net s)) -> answering p fd (new ++ events (net s)) ->
  served fd s (set_global (<[Z.to_nat fd := p]> (global_state s))
                 (set_net (mkNet k (opened (net s)) (new ++ events (net s))) s)) p.
Proof.
  intros HI Hin Hne HF HL HA. destruct (inv_slot _ _ _ HI Hin Hne) as (Hb & Hlt & Ho & _).
  pose proof (inv_max _ _ HI). split; simpl; try done; [set_solver|by exists new].
Qed.

(** Nothing but the system changed. *)
Lemma served_still base fd s p k :
  Inv base s -> fd ∈ readfds_master s ∪ writefds_master s -> fd <> listener_sockfd s ->
  slot s fd = Some p -> answering p fd (events (net s)) ->
  served fd s (set_net (mkNet k (opened (net s)) (events (net s))) s) p.
Proof.
  intros HI Hin Hne Hp Ha. pose proof (served_intro base fd s p k [] HI Hin Hne (Forall_nil_2 _) (inv_lawful _ _ HI) Ha) as Hs.
  rewrite list_insert_id in Hs by done. exact Hs.
Qed.

(** The outcome of a callback: the sets will fit the slot, or the peer has gone. *)
Definition outcome_ok (fd : Z) s (status : fd_status_t) t : Prop :=
  exists p, served fd s t p /\ (fits status p \/ status = fd_status_NORW /\ fd ∈ readfds_master s /\ idle p).

Lemma recv_runs base s fd :
  Inv base s -> fd ∈ readfds_master s -> fd <> listener_sockfd s ->
  safe leaves (on_peer_ready_recv fd) s (outcome_ok fd s).
Proof.
  intros HI Hin Hne. assert (fd ∈ readfds_master s ∪ writefds_master s) as Hin' by set_solver.
  destruct (inv_slot _ _ _ HI Hin' Hne) as (Hb & Hlt & Ho & _).
  destruct (inv_reading _ _ HI fd Hin Hne) as (p & Hp & Ha & Hi). pose proof (inv_lawful _ _ HI) as HL.
  unfold on_peer_ready_recv, assert_true. rewrite (proj2 (Z.ltb_lt _ _)) by done.
  unfold safe. rewrite bind_mret. step (on_peer_reads fd s p ltac:(lia) Hp).
  destruct Hi as (Hst & Hsp & Hse). rewrite bool_decide_eq_false_2, Hsp, Hse by done. cbn [orb Z.ltb Z.compare].
  destruct (sys_recv (kernel (net s)) fd 1024) as [r k] eqn:Er. step (sys_recv_runs _ _ _ _ _ Er).
  destruct r as [e|bs].
  - destruct ((e =? EAGAIN) || (e =? EWOULDBLOCK)); [|by apply safe_perror_die].
    exists p. split; [by apply (served_still base)|]. by left.
  - pose proof (recv_fits (kernel (net s)) fd 1024 bs k ltac:(lia) Er) as [Hlen _].
    destruct (peer_receives p fd (events (net s)) bs Ha ltac:(done) Hlen) as (r & p' & E & Ha' & Hm).
    assert (lawful (Received fd bs :: events (net s))) as HL' by by apply lawful_received.
    assert (Forall (concerns fd) [Received fd bs]) as HF by by repeat constructor.
    destruct bs as [|b bs].
    + injection E as <- <-. exists p. split; [|right; by split_and!].
      pose proof (served_intro base fd s p k _ HI Hin' Hne HF HL' Ha') as Hs.
      rewrite list_insert_id in Hs by done. exact Hs.
    + step (on_peer_runs fd (recv_bytes (b :: bs) false)
        (set_net (mkNet k (opened (net s)) ([Received fd (b :: bs)] ++ events (net s))) s) p r p' ltac:(lia) Hp E).
      exists p'. split; [by apply (served_intro base fd s p' k _ HI Hin' Hne HF HL' Ha')|]. left. by destruct r.
Qed.

Lemma send_runs base s fd :
  Inv base s -> fd ∈ writefds_master s ->
  safe leaves (on_peer_ready_send fd) s (outcome_ok fd s).
Proof.
  intros HI Hin. assert (fd ∈ readfds_master s ∪ writefds_master s) as Hin' by set_solver.
  assert (fd <> listener_sockfd s) as Hne by (intros ->; by apply (inv_no_write _ _ HI)).
  destruct (inv_slot _ _ _ HI Hin' Hne) as (Hb & Hlt & Ho & _).
  destruct (inv_writing _ _ HI fd Hin) as (p & Hp & Ha & Hbusy). pose proof (inv_lawful _ _ HI) as HL.
  unfold on_peer_ready_send, assert_true. rewrite (proj2 (Z.ltb_lt _ _)) by done.
  unfold safe. rewrite bind_mret. step (on_peer_reads fd s p ltac:(lia) Hp).
  pose proof Hbusy as Hlt'. unfold busy in Hlt'. rewrite (proj2 (Z.leb_gt _ _)) by done.
  fold (staged p). destruct (sys_send (kernel (net s)) fd (staged p)) as [r k] eqn:Er.
  step (sys_send_runs _ _ _ _ _ Er). destruct r as [e|n].
  - destruct ((e =? EAGAIN) || (e =? EWOULDBLOCK)); [|by apply safe_perror_die].
    exists p. split; [by apply (served_still base)|]. by left.
  - pose proof (send_part (kernel (net s)) fd (staged p) n k Er) as Hn.
    assert (lawful (Sent fd (take (Z.to_nat n) (staged p)) :: events (net s))) as HL'.
    { apply lawful_sent; [|done]. rewrite <- (ans_reply _ _ _ Ha). apply prefix_app, prefix_take. }
    assert (Forall (concerns fd) [Sent fd (take (Z.to_nat n) (staged p))]) as HF by by repeat constructor.
    pose proof (fun q Hq => served_intro base fd s q k _ HI Hin' Hne HF HL' Hq) as Hserved.
    set (s1 := set_net _ s).
    destruct (Z.ltb_spec n (sendbuf_end p - sendptr p)) as [Hpart|Hall].
    + destruct (peer_sends_part p fd (events (net s)) n Ha ltac:(lia)) as [Ha' Hb'].
      step (on_peer_runs fd (modify (set_ptr (sendptr p + n))) s1 p tt _ ltac:(lia) Hp eq_refl).
      exists (set_ptr (sendptr p + n) p). split; [by apply Hserved|]. by left.
    + destruct (peer_sends_all p fd (events (net s)) n Ha ltac:(lia)) as [Ha' Hi'].
      assert ((modify (set_ptr 0);; modify (set_end 0);;
        modify (fun p => if decide (state p = INITIAL_ACK) then set_state WAIT_FOR_MSG p else p)) p
        = Ret tt (send_done p)) as E.
      { rewrite !bind_modify. unfold modify, send_done, set_state, set_end, set_ptr. simpl. by case_decide. }
      step (on_peer_runs fd _ s1 p tt _ ltac:(lia) Hp E).
      exists (send_done p). split; [by apply Hserved|]. by left.
Qed.

(** The sets of [s] for other descriptors are in [t], too. *)
Record kept (fd : Z) s t : Prop := {
  kept_listener : listener_sockfd t = listener_sockfd s;
  kept_reads d : d <> fd -> d ∈ readfds_master s -> d ∈ readfds_master t;
  kept_writes d : d <> fd -> d ∈ writefds_master s -> d ∈ writefds_master t
}.

Lemma kept_refl fd s : kept fd s s.
Proof. by split. Qed.

Lemma kept_updated fd s t p status : served fd s t p -> kept fd s (updated fd status t).
Proof.
  intros Hs. split; simpl; [by rewrite (sv_listener _ _ _ _ Hs)|..]; intros d Hd Hin; apply elem_of_fd_put;
    rewrite decide_False by done; by rewrite ?(sv_reads _ _ _ _ Hs), ?(sv_writes _ _ _ _ Hs).
Qed.

Lemma update_runs fd status t :
  0 <= fd <= fdset_max t -> fdset_max t < FD_SETSIZE -> update_masters fd status t = Ret tt (updated fd status t).
Proof.
  intros Hb Hm. unfold update_masters, in_fd_set. rewrite bind_require; [done|].
  by rewrite (proj2 (Z.leb_le _ _)), (proj2 (Z.ltb_lt _ _)) by lia.
Qed.

(** Closing the connection of a peer that has its reply. *)
Definition dropped (fd : Z) s t : Prop :=
  exists k, t = set_reads (readfds_master s ∖ {[fd]})
    (set_net (mkNet k (opened (net s) ∖ {[fd]}) (Closed fd :: Printed "socket %d closing" [fd] :: events (net s))) s).

Lemma got_closed d e fd evs : quiet e -> got_from d (Closed fd :: e :: evs) = got_from d evs.
Proof. by destruct e. Qed.
Lemma sent_closed d e fd evs : quiet e -> sent_to d (Closed fd :: e :: evs) = sent_to d evs.
Proof. by destruct e. Qed.

Lemma answering_closed p d e fd evs : quiet e -> answering p d evs -> answering p d (Closed fd :: e :: evs).
Proof. intros Q [? ? ? ?]. split; by rewrite ?(got_closed d e fd evs), ?(sent_closed d e fd evs). Qed.

Lemma inv_dropped base fd s t :
  Inv base s -> fd ∈ readfds_master s -> fd <> listener_sockfd s -> dropped fd s t -> Inv base t.
Proof.
  intros HI Hin Hne (k & ->). destruct (inv_reading _ _ HI fd Hin Hne) as (p & Hp & Ha & Hi).
  pose proof (idle_answered _ _ _ Ha Hi) as Hr.
  destruct HI as [Hlaw Ig Ib Il Im Ils Inw Ia Io Ik Ir Iw]. split; simpl; try done.
  - apply lawful_closed; [|by apply lawful_quiet]. by rewrite quiet_got, quiet_sent by done.
  - set_solver.
  - set_solver.
  - intros d Hd. assert (d <> fd) by set_solver.
    destruct (Io d) as [? ?]; [set_solver|]. set_solver.
  - set_solver.
  - intros d Hd Hdl. destruct (Ir d) as (q & Hq & Hqa & Hqi); [set_solver|done|].
    exists q. split_and!; [done|by apply answering_closed|done].
  - intros d Hd. destruct (Iw d Hd) as (q & Hq & Hqa & Hqi).
    exists q. split_and!; [done|by apply answering_closed|done].
Qed.

(** The end of every call of a callback. *)
Lemma after_runs base fd s t status :
  Inv base s -> outcome_ok fd s status t ->
  exists u, (update_masters fd status;; close_unwanted fd status) t = Ret tt u /\ Inv base u /\ kept fd s u.
Proof.
  intros HI (p & Hs & Hst). pose proof (sv_max _ _ _ _ Hs). pose proof (sv_range _ _ _ _ Hs) as (Hr & _ & Hne).
  rewrite (bind_Ret _ _ _ _ _ (update_runs fd status t Hr ltac:(lia))).
  destruct Hst as [Hf|(-> & Hin & Hi)].
  - exists (updated fd status t). split_and!; [|by eapply inv_updated|by eapply kept_updated].
    destruct Hf as [Hw _]. unfold close_unwanted. rewrite Hw. by destruct (want_read status).
  - assert (fits fd_status_R p) as Hf by done.
    pose proof (inv_updated _ _ _ _ _ _ HI Hs Hf) as HIu.
    set (u := updated fd fd_status_R t) in *. eexists. split; [reflexivity|].
    pose proof (kept_updated fd s t p fd_status_NORW Hs) as [? ? ?]. split; [|by split].
    apply (inv_dropped base fd u); [done| | |].
    + change (fd ∈ {[fd]} ∪ readfds_master t). set_solver.
    + simpl. by rewrite (sv_listener _ _ _ _ Hs).
    + exists (kernel (net t)). unfold u, updated, set_writes, set_reads, set_net. simpl. f_equal.
      unfold fd_put. simpl. set_solver.
Qed.

Lemma quiet_history new d evs :
  Forall quiet new -> got_from d (new ++ evs) = got_from d evs /\ sent_to d (new ++ evs) = sent_to d evs.
Proof.
  induction 1 as [|e new He _ [IH1 IH2]]; [done|]. rewrite <- app_comm_cons.
  by rewrite (quiet_got e), (quiet_sent e).
Qed.

Lemma answering_quiet p new d evs : Forall quiet new -> answering p d evs -> answering p d (new ++ evs).
Proof. intros HF [? ? ? ?]. destruct (quiet_history new d evs HF) as [Eg Es]. by split; rewrite ?Eg, ?Es. Qed.

Lemma inv_hushed base s t : Inv base s -> hushed s t -> Inv base t.
Proof.
  intros HI Hh. pose proof (hushed_lawful s t Hh (inv_lawful _ _ HI)) as HL. destruct Hh as (k & new & HF & ->).
  destruct HI as [_ Ig Ib Il Im Ils Inw Ia Io Ik Ir Iw]. split; simpl; try done.
  - intros d Hd Hdl. destruct (Ir d Hd Hdl) as (q & Hq & Hqa & Hqi).
    exists q. split_and!; [done|by apply answering_quiet|done].
  - intros d Hd. destruct (Iw d Hd) as (q & Hq & Hqa & Hqi).
    exists q. split_and!; [done|by apply answering_quiet|done].
Qed.

Lemma quiet_concerns fd new : Forall quiet new -> Forall (concerns fd) new.
Proof. intros HF. eapply Forall_impl; [exact HF|]. by intros []. Qed.

(** The state when the new connection has its place in [fdset_max]. *)
Definition admitted (fd : Z) s t : Prop :=
  exists k new, Forall quiet new /\
    t = set_max (Z.max (fdset_max s) fd)
      (set_net (mkNet k ({[fd]} ∪ opened (net s)) (new ++ Connected fd :: events (net s))) s).

Lemma connected_runs base s t fd :
  Inv base s -> 0 <= fd -> fd < FD_SETSIZE -> fd ∉ opened (net s) -> admitted fd s t ->
  safe leaves (on_peer_connected fd) t (fun status u => status = fd_status_W /\ outcome_ok fd s status u).
Proof.
  intros HI H0f Hmax Hfresh (k & new & HF & ->). pose proof (inv_lawful _ _ HI) as HL. pose proof (inv_max _ _ HI).
  set (evs := new ++ Connected fd :: events (net s)).
  assert (lawful evs) as HLe.
  { unfold evs. clear -HL HF. induction HF; [by apply lawful_connected|by apply lawful_quiet]. }
  unfold on_peer_connected, assert_true. destruct (Z.ltb_spec fd MAXFDS) as [Hlt|Hge].
  2: { split; [done|]. right. split; [done|]. exists fd. split; [done|]. simpl. set_solver. }
  unfold MAXFDS in Hlt.
  destruct (lookup_lt_is_Some_2 (global_state s) (Z.to_nat fd)) as [q Hq]; [rewrite (inv_global _ _ HI); lia|].
  pose proof (Forall_lookup_1 _ _ _ _ (inv_bufs _ _ HI) Hq) as Hql. cbv beta in Hql.
  unfold safe. rewrite bind_mret.
  assert (forall A (g : unit -> prog (Server K) A) u, (sys report_peer_connected ≫= g) u =
    g tt (set_net (mkNet (kernel (net u)) (opened (net u)) (Reported (sys_getnameinfo (kernel (net u))) :: events (net u))) u)) as Erep by done.
  rewrite Erep. match goal with |- context [(on_peer _ _ ≫= _) ?w] => set (u := w) end.
  assert ((modify (set_state INITIAL_ACK);; buf_set 0 42;; modify (set_ptr 0);; modify (set_end 1)) q = Ret tt (peer_fresh q)) as Em.
  { rewrite bind_modify. rewrite (bind_Ret _ _ _ _ _ (buf_set_runs 0 42 (set_state INITIAL_ACK q) ltac:(simpl; lia))). done. }
  step (on_peer_runs fd _ u q tt _ H0f Hq Em). split; [done|]. exists (peer_fresh q).
  assert (fd ∉ readfds_master s ∪ writefds_master s) as Hnin.
  { intros Hin. apply Hfresh. by apply (inv_open _ _ HI fd Hin). }
  assert (Forall quiet (Reported (sys_getnameinfo k) :: new)) as HF' by by constructor.
  destruct (quiet_history _ fd (Connected fd :: events (net s)) HF') as [Eg Es]. simpl in Eg, Es.
  rewrite decide_True in Eg, Es by done.
  destruct (peer_fresh_ok q fd (Reported (sys_getnameinfo k) :: evs) Hql Eg Es) as [Ha Hb].
  split; [|by left]. split; simpl; try done; [lia| | |by apply lawful_quiet].
  - split_and!; [lia|lia|unfold MAXFDS; lia|]. intros ->. apply Hnin. pose proof (inv_listens _ _ HI). set_solver.
  - exists (Reported (sys_getnameinfo k) :: new ++ [Connected fd]). unfold evs. split; [simpl; by rewrite <- app_assoc|].
    constructor; [done|]. apply Forall_app. split; [by apply quiet_concerns|by repeat constructor].
Qed.

Lemma kept_fresh fd s t :
  fd ∉ readfds_master s ∪ writefds_master s -> kept fd s t ->
  listener_sockfd t = listener_sockfd s /\ readfds_master s ⊆ readfds_master t /\ writefds_master s ⊆ writefds_master t.
Proof.
  intros Hf [El Hr Hw]. split; [done|]. split; intros d Hd; [apply Hr|apply Hw]; set_solver.
Qed.

(** Accepting a peer leaves all that is there as it is. *)
Definition grown base s t : Prop :=
  Inv base t /\ listener_sockfd t = listener_sockfd s /\
  readfds_master s ⊆ readfds_master t /\ writefds_master s ⊆ writefds_master t.

Lemma accept_runs base s :
  Inv base s -> safe leaves (accept_peer (listener_sockfd s)) s (fun _ t => grown base s t).
Proof.
  intros HI. pose proof (inv_lawful _ _ HI) as HL. unfold accept_peer.
  destruct (sys_accept (kernel (net s)) (listener_sockfd s) (opened (net s))) as [r k] eqn:Ea.
  destruct r as [e|fd].
  - assert (sys (accept (listener_sockfd s)) s = Ret (inl e) (set_net (mkNet k (opened (net s)) (events (net s))) s)) as E.
    { unfold sys, zoom, accept. by rewrite Ea. }
    unfold safe. step E. destruct ((e =? EAGAIN) || (e =? EWOULDBLOCK)); [|by apply safe_perror_die].
    split; [|done]. eapply inv_hushed; [exact HI|]. eapply hushed_step; [|done|done].
    exists k, []. by split.
  - assert (sys (accept (listener_sockfd s)) s =
      Ret (inr fd) (set_net (mkNet k ({[fd]} ∪ opened (net s)) (Connected fd :: events (net s))) s)) as E.
    { unfold sys, zoom, accept. by rewrite Ea. }
    destruct (accept_fresh (kernel (net s)) _ _ _ _ Ea) as [H0f Hfresh].
    unfold safe. step E. set (t := set_net _ s).
    assert (lawful (events (net t))) as HLt by by apply lawful_connected.
    apply (safe_step leaves _ _ _ (fun _ u => hushed t u)); [by apply safe_non_blocking|]. intros [] u Hu.
    pose proof (hushed_lawful _ _ Hu HLt) as HLu.
    unfold safe. rewrite bind_gets.
    apply (safe_step leaves _ _ _ (fun _ v => fd < FD_SETSIZE /\ admitted fd s v)).
    { destruct Hu as (k1 & new & HF & ->). pose proof (inv_max _ _ HI).
      cbn [t set_net fdset_max]. destruct (Z.ltb_spec (fdset_max s) fd) as [Hlt|Hge].
      - destruct (Z.leb_spec FD_SETSIZE fd) as [Hbig|Hsmall]; [by apply safe_bind, safe_die|].
        split; [done|]. exists k1, new. split; [done|]. by rewrite Z.max_r by lia.
      - split; [lia|]. exists k1, new. split; [done|]. rewrite Z.max_l by lia. by destruct s. }
    intros [] v [Hsmall Hadm]. eapply safe_step; [by eapply connected_runs|]. intros status w [-> Hok].
    destruct Hok as (p & Hs & Hf). destruct Hf as [Hf|(? & _)]; [|done].
    pose proof (sv_max _ _ _ _ Hs). pose proof (sv_range _ _ _ _ Hs) as (Hr & _ & Hne).
    unfold safe. rewrite (update_runs fd fd_status_W w Hr ltac:(lia)).
    split; [by eapply inv_updated|]. apply (kept_fresh fd); [|by eapply kept_updated].
    intros Hin. apply Hfresh. by apply (inv_open _ _ HI fd Hin).
Qed.

(** The sets that [select] reported, for the descriptors from [fd] on. *)
Definition reported (fd : Z) (r w : gset Z) s : Prop :=
  forall d, fd <= d -> (d ∈ r -> d ∈ readfds_master s) /\ (d ∈ w -> d ∈ writefds_master s).

Lemma serve_runs base s fd nready r w :
  Inv base s -> reported fd r w s ->
  safe leaves (serve_fd fd nready r w) s (fun _ t => Inv base t /\ reported (fd + 1) r w t).
Proof.
  intros HI Hrep. destruct (Hrep fd ltac:(lia)) as [Hr Hw]. unfold serve_fd.
  assert (forall t, kept fd s t -> reported (fd + 1) r w t) as Hkept.
  { intros t [_ Kr Kw] d Hd. destruct (Hrep d ltac:(lia)). split; intros; [apply Kr|apply Kw]; auto; lia. }
  destruct (bool_decide_reflect (fd ∈ r)) as [Hin|Hnin].
  - specialize (Hr Hin). assert (fd ∉ w) as Hnw by (intros Hw'; by apply (inv_apart _ _ HI fd), Hw).
    rewrite (bool_decide_eq_false_2 _ Hnw).
    apply (safe_step leaves _ _ _ (fun _ t => Inv base t /\ reported (fd + 1) r w t)); [|by intros a t Ht].
    unfold safe. rewrite bind_gets.
    apply (safe_step leaves _ _ _ (fun _ t => Inv base t /\ reported (fd + 1) r w t)); [|by intros a t Ht].
    destruct (Z.eqb_spec fd (listener_sockfd s)) as [->|Hne].
    + eapply safe_mono; [by apply accept_runs|]. intros [] t (HIt & _ & Hsr & Hsw). split; [done|].
      intros d Hd. destruct (Hrep d ltac:(lia)). auto.
    + eapply safe_step; [by eapply recv_runs|]. intros status t Hok.
      destruct (after_runs _ _ _ _ _ HI Hok) as (u & E & HIu & Hk). unfold safe. rewrite E. auto.
  - unfold safe. rewrite bind_mret. destruct (bool_decide_reflect (fd ∈ w)) as [Hin|Hnw].
    + eapply safe_step; [by eapply send_runs; eauto|]. intros status t Hok.
      destruct (after_runs _ _ _ _ _ HI Hok) as (u & E & HIu & Hk).
      unfold safe. rewrite <- bind_assoc. rewrite (bind_Ret _ _ _ _ _ E). split; [done|by apply Hkept].
    + split; [done|]. apply Hkept, kept_refl.
Qed.

Lemma ready_runs base r w fuel : forall s fd nready,
  Inv base s -> reported fd r w s -> FD_SETSIZE <= fd + Z.of_nat fuel ->
  safe leaves (serve_ready fuel fd nready r w) s (fun _ t => Inv base t).
Proof.
  induction fuel as [|fuel IH]; intros s fd nready HI Hrep Hfuel; pose proof (inv_max _ _ HI);
    cbn [serve_ready]; unfold safe; rewrite bind_gets.
  - rewrite (proj2 (Z.leb_gt _ _)) by lia. done.
  - destruct ((fd <=? fdset_max s) && (0 <? nready)); [|done].
    eapply safe_step; [by apply serve_runs|]. intros n t [HIt Hrt]. apply IH; [done|done|lia].
Qed.

Lemma round_runs base s : Inv base s -> safe leaves select_round s (fun _ t => Inv base t).
Proof.
  intros HI. pose proof (inv_lawful _ _ HI) as HL. unfold select_round, safe. rewrite bind_gets.
  destruct (sys_select (kernel (net s)) (fdset_max s + 1) (readfds_master s) (writefds_master s)) as [x k] eqn:Es.
  assert (sys (call (fun k => sys_select k (fdset_max s + 1) (readfds_master s) (writefds_master s))) s =
    Ret x (set_net (mkNet k (opened (net s)) (events (net s))) s)) as E.
  { unfold sys, zoom, call. by rewrite Es. }
  step E. destruct x as [e|[r w] ]; [by apply safe_perror_die|].
  destruct (select_picks (kernel (net s)) _ _ _ _ _ _ Es) as [Hr Hw].
  apply ready_runs; [|by intros d _; split; [apply Hr|apply Hw]|done].
  eapply inv_hushed; [exact HI|]. by exists k, [].
Qed.

Lemma rounds_run base n : forall s, Inv base s -> safe leaves (select_rounds n) s (fun _ t => Inv base t).
Proof.
  induction n as [|n IH]; intros s HI; [done|]. eapply safe_step; [by eapply round_runs|]. intros [] t. apply IH.
Qed.

(** * The process *)

(** What every run keeps to, and why a process ends. *)
Definition run_ok (base : gset Z) (o : outcome (Server K) unit) : Prop :=
  match o with
  | Ret _ s =>
      lawful (events (net s)) /\
      forall fd, fd ∈ opened (net s) -> fd ∉ base -> fd <> listener_sockfd s ->
        if decide (fd ∈ writefds_master s) then
          sent_to fd (events (net s)) <> reply (got_from fd (events (net s)))
        else fd ∈ readfds_master s /\ sent_to fd (events (net s)) = reply (got_from fd (events (net s)))
  | Exit c s => leaves c s
  | Undef | NoFuel => False
  end.

Lemma busy_owes p fd evs : answering p fd evs -> busy p -> sent_to fd evs <> reply (got_from fd evs).
Proof.
  intros Ha Hb E. pose proof (length_staged _ _ _ Ha) as Hl. pose proof (ans_reply _ _ _ Ha) as Hr.
  rewrite <- E in Hr. rewrite <- (app_nil_r (sent_to fd evs)) in Hr at 2. apply app_inv_head in Hr.
  rewrite Hr in Hl. unfold busy in Hb. simpl in Hl. lia.
Qed.

Lemma inv_run_ok base s : Inv base s -> run_ok base (Ret tt s).
Proof.
  intros HI. split; [apply (inv_lawful _ _ HI)|]. intros fd Ho Hnb Hnl. case_decide as Hw.
  - destruct (inv_writing _ _ HI fd Hw) as (p & _ & Ha & Hb). by eapply busy_owes.
  - apply (inv_kept _ _ HI) in Ho. assert (fd ∈ readfds_master s) as Hr by set_solver. split; [done|].
    destruct (inv_reading _ _ HI fd Hr Hnl) as (p & _ & Ha & Hi). by eapply idle_answered.
Qed.
End Loop.

(** ** The start *)

Section Start.
Context {K : Type} `{KernelSpec K}.

(** The process ended before a peer came. *)
Definition gave_up (c : Z) (n : Net K) : Prop := Forall quiet (events n) /\ c = EXIT_FAILURE.

Lemma or_die_runs {A} (m : prog (Net K) (Z + A)) msg n r t (Q : A -> Net K -> Prop) :
  m n = Ret r t -> Forall quiet (events t) -> (forall a, r = inr a -> Q a t) -> safe gave_up (or_die m msg) n Q.
Proof.
  intros E HF HQ. unfold safe, or_die. step E. destruct r as [e|a]; [|by apply HQ].
  split; [by constructor|done].
Qed.

Lemma call_safe {A} (f : K -> (Z + A) * K) msg n (Q : A -> Net K -> Prop) :
  Forall quiet (events n) -> (forall a k, Q a (mkNet k (opened n) (events n))) -> safe gave_up (or_die (call f) msg) n Q.
Proof.
  intros HF HQ. destruct (f (kernel n)) as [r k] eqn:E.
  apply (or_die_runs _ _ _ r (mkNet k (opened n) (events n))); [by unfold call; rewrite E|done|auto].
Qed.

Definition started (base : gset Z) (l : Z) (t : Net K) : Prop :=
  0 <= l /\ opened t = {[l]} ∪ base /\ Forall quiet (events t).

Lemma start_runs argv n :
  events n = [] -> safe gave_up (main_start argv) n (fun l t => l < FD_SETSIZE /\ started (opened n) l t).
Proof.
  intros En. unfold main_start, listen_inet_socket, make_socket_non_blocking.
  apply (safe_step gave_up _ _ _ (fun _ t => opened t = opened n /\ Forall quiet (events t))).
  { split; [done|]. simpl. rewrite En. by repeat constructor. }
  intros [] t [Eo HF]. apply (safe_step gave_up _ _ _ (started (opened n))).
  { apply (safe_step gave_up _ _ _ (started (opened n))).
    { destruct (sys_socket (kernel t) (opened t)) as [[e|fd] k] eqn:Es.
      - apply (or_die_runs _ _ _ (inl e) (mkNet k (opened t) (events t))); [by unfold socket; rewrite Es|done|done].
      - destruct (socket_fresh (kernel t) _ _ _ Es) as [H0f _].
        apply (or_die_runs _ _ _ (inr fd) (mkNet k ({[fd]} ∪ opened t) (events t))); [by unfold socket; rewrite Es|done|].
        intros a [= <-]. split; [done|]. simpl. by rewrite Eo. }
    intros l u Hu. do 3 (eapply safe_step; [apply (call_safe _ _ _ (fun _ => started (opened n) l)); [apply Hu|intros ? ?; exact Hu]|];
      clear dependent u; intros ? u Hu). done. }
  intros l u Hu. apply (safe_step gave_up _ _ _ (fun _ => started (opened n) l)).
  { eapply safe_step; [apply (call_safe _ _ _ (fun _ => started (opened n) l)); [apply Hu|intros ? ?; exact Hu]|].
    clear dependent u; intros flags u Hu. apply (call_safe _ _ _ (fun _ => started (opened n) l)); [apply Hu|intros ? ?; exact Hu]. }
  clear dependent u. intros [] u Hu. destruct (Z.leb_spec FD_SETSIZE l) as [Hbig|Hsmall].
  - split; [constructor; [done|apply Hu]|done].
  - by split.
Qed.
End Start.

Lemma inv_start `{KernelSpec K} base l (t : Net K) :
  l < FD_SETSIZE -> started base l t -> Inv base (mkServer t global_state_init l {[l]} ∅ l).
Proof.
  intros Hsmall (H0l & Eo & HF). split; cbn [net global_state listener_sockfd readfds_master writefds_master fdset_max].
  - clear -HF. induction HF; [apply lawful_nil|by apply lawful_quiet].
  - done.
  - by apply Forall_replicate.
  - lia.
  - done.
  - set_solver.
  - set_solver.
  - set_solver.
  - intros fd Hfd. assert (fd = l) as -> by set_solver. rewrite Eo. split; [set_solver|lia].
  - rewrite Eo. set_solver.
  - set_solver.
  - set_solver.
Qed.

(** Every run of the program, on any system, for any number of rounds. *)
Lemma main_runs `{KernelSpec K} argv n (start : Net K) :
  events start = [] -> run_ok (opened start) (main argv n start).
Proof.
  intros En. pose proof (start_runs argv start En) as Hs. unfold main, safe in *.
  destruct (main_start argv start) as [l t|c t| |]; [|..|done|done].
  - destruct Hs as [Hsmall Hst]. pose proof (rounds_run (opened start) n _ (inv_start _ _ _ Hsmall Hst)) as Hr.
    unfold safe in Hr. destruct (select_rounds n _) as [[] s|c s| |]; [by apply inv_run_ok|exact Hr|done|done].
  - destruct Hs as [HF ->]. split; [|by left]. simpl. clear -HF. induction HF; [apply lawful_nil|by apply lawful_quiet].
Qed.
