(* ===== verification/EchoSeq.v ===== *)
(** The echo server that serves one connection after the other:
    [src/socket/socket_server/sequential-server.c].

    Its sockets block.  A connection that ends has its reply, unless a byte
    could not be sent. *)

From S2P Require Import Prelude SdbRow EchoSock EchoSpec.
#[local] Open Scope Z_scope.

Module Sequential.

Inductive ProcessingState := WAIT_FOR_MSG | IN_MSG.

Section Server.
Context {K : Type} `{Kernel K}.

(** [send (..) < 1]. *)
Definition sent_none (r : Z + Z) : bool := match r with inl _ => true | inr n => n <? 1 end.

(** The loop over the bytes of [buf]; [None] when [serve_connection] returned. *)
Fixpoint serve_bytes (sockfd : Z) (buf : list Z) (state : ProcessingState) : prog (Net K) (option ProcessingState) :=
  match buf with
  | [] => mret (Some state)
  | c :: t =>
      match state with
      | WAIT_FOR_MSG => serve_bytes sockfd t (if c =? 94 then IN_MSG else state)
      | IN_MSG =>
          if c =? 36 then serve_bytes sockfd t WAIT_FOR_MSG
          else
            r ← send sockfd [u8 (c + 1)];
            if sent_none r then
              emit (Complained "send error" []);;
              close sockfd;;
              mret None
            else serve_bytes sockfd t state
      end
  end.

(** [while (1)]: every round consumes bytes of the connection. *)
Fixpoint serve_loop (fuel : nat) (sockfd : Z) (state : ProcessingState) : prog (Net K) unit :=
  match fuel with
  | O => nofuel
  | S f =>
      r ← recv sockfd 1024;
      match r with
      | inl _ => perror_die "recv"
      | inr [] => close sockfd
      | inr buf =>
          o ← serve_bytes sockfd buf state;
          match o with None => mret tt | Some state => serve_loop f sockfd state end
      end
  end.

Definition serve_connection (fuel : nat) (sockfd : Z) : prog (Net K) unit :=
  r ← send sockfd [42];
  (if sent_none r then perror_die "send" else mret tt);;
  serve_loop fuel sockfd WAIT_FOR_MSG.

(** One round of the loop of [main]. *)
Definition serve_next (fuel : nat) (sockfd : Z) : prog (Net K) unit :=
  r ← accept sockfd;
  match r with
  | inl _ => perror_die "ERROR on accept"
  | inr newsockfd =>
      report_peer_connected;;
      serve_connection fuel newsockfd;;
      printf "peer done" []
  end.

Fixpoint serve_rounds (n fuel : nat) (sockfd : Z) : prog (Net K) unit :=
  match n with O => mret tt | S n => serve_next fuel sockfd;; serve_rounds n fuel sockfd end.

(** [main] with the first [n] connections. *)
Definition main (argv : list (list Z)) (n fuel : nat) : prog (Net K) unit :=
  let portnum := port_of argv in
  printf "Serving on port %d" [portnum];;
  sockfd ← listen_inet_socket portnum;
  serve_rounds n fuel sockfd.
End Server.

(** * One connection *)

(** Bytes stop arriving: [input_left] of them at most are to come, on all connections. *)
Class Finite (K : Type) `{Kernel K} := {
  input_left : K -> nat;
  recv_uses k fd n c bs k' : sys_recv k fd n = (inr (c :: bs), k') -> (input_left k' < input_left k)%nat;
  recv_keeps k fd n r k' : sys_recv k fd n = (r, k') -> (input_left k' <= input_left k)%nat;
  accept_keeps k l o r k' : sys_accept k l o = (r, k') -> (input_left k' <= input_left k)%nat;
  send_keeps k fd bs r k' : sys_send k fd bs = (r, k') -> (input_left k' <= input_left k)%nat
}.

Definition state_of (inside : bool) : ProcessingState := if inside then IN_MSG else WAIT_FOR_MSG.

Section Proofs.
Context {K : Type} `{KernelSpec K} {HF : Finite K}.
Implicit Types (n t : Net K).

(** The process ends with [perror]. *)
Definition leaves (c : Z) n : Prop := echoes (events n) /\ c = EXIT_FAILURE.

(** The connection was given up because a byte could not be sent. *)
Definition send_failed (fd : Z) (evs : list event) : Prop :=
  exists rest, evs = Closed fd :: Complained "send error" [] :: rest.

Lemma safe_perror_exit {A} msg n (Q : A -> Net K -> Prop) : echoes (events n) -> safe leaves (perror_die msg) n Q.
Proof. intros HE. split; [by apply echoes_quiet|done]. Qed.

(** A byte of the reply is sent, or none. *)
Lemma send_byte fd b n :
  sent_to fd (events n) ++ [b] `prefix_of` reply (got_from fd (events n)) -> echoes (events n) ->
  exists r t, send fd [b] n = Ret r t /\ (input_left (kernel t) <= input_left (kernel n))%nat /\
    opened t = opened n /\ echoes (events t) /\ got_from fd (events t) = got_from fd (events n) /\
    (sent_none r = false -> sent_to fd (events t) = sent_to fd (events n) ++ [b]).
Proof.
  intros Hp HE. unfold send. destruct (sys_send (kernel n) fd [b]) as [r k] eqn:Es.
  pose proof (send_keeps _ _ _ _ _ Es) as Hk.
  destruct r as [e|m]; eexists _, _; (split; [reflexivity|]); simpl; [done|].
  pose proof (send_part _ _ _ _ _ Es) as Hm. simpl in Hm. split_and!; [done|done| |done|].
  - apply echoes_sent; [|done]. etrans; [apply prefix_app, prefix_take|done].
  - intros Hs%Z.ltb_ge. assert (m = 1) as -> by lia. by rewrite decide_True.
Qed.

Lemma serve_bytes_runs fd buf : forall n g,
  got_from fd (events n) = g ++ buf -> sent_to fd (events n) = reply g -> echoes (events n) ->
  safe leaves (serve_bytes fd buf (state_of (inside_after false g))) n (fun o t =>
    (input_left (kernel t) <= input_left (kernel n))%nat /\ echoes (events t) /\
    match o with
    | None => send_failed fd (events t) /\ opened t = opened n ∖ {[fd]}
    | Some st => opened t = opened n /\ got_from fd (events t) = g ++ buf /\ sent_to fd (events t) = reply (g ++ buf) /\
        st = state_of (inside_after false (g ++ buf))
    end).
Proof.
  induction buf as [|c buf IH]; intros n g Hg Hs HE.
  { rewrite app_nil_r in *. by repeat split. }
  assert (reply (g ++ [c]) = reply g ++ echo_byte (inside_after false g) c) as Hr.
  { rewrite reply_app, echo_from_cons. by rewrite app_nil_r. }
  assert (inside_after false (g ++ [c]) = next_inside (inside_after false g) c) as Hi by apply inside_after_app.
  rewrite cons_middle, app_assoc in Hg |- *.
  cbn [serve_bytes]. destruct (inside_after false g) eqn:Eg; cbn [state_of].
  - destruct (c =? 36) eqn:Ec.
    + replace WAIT_FOR_MSG with (state_of (inside_after false (g ++ [c]))) by (rewrite Hi; unfold next_inside; by rewrite Ec).
      apply IH; [done| |done]. rewrite Hr, Hs. unfold echo_byte. rewrite Ec. by rewrite app_nil_r.
    + unfold echo_byte in Hr. rewrite Ec in Hr. cbn [andb negb] in Hr.
      destruct (send_byte fd (u8 (c + 1)) n) as (r & t & E & Hk & Ho & HEt & Hgt & Hst); [|done|].
      { rewrite Hs, Hg, <- Hr. apply prefix_reply. reflexivity. }
      unfold safe. step E. destruct (sent_none r) eqn:En.
      { split; [done|]. split; [by apply echoes_closed, echoes_quiet|]. split; [by eexists|]. simpl. by rewrite Ho. }
      replace IN_MSG with (state_of (inside_after false (g ++ [c]))) by (rewrite Hi; unfold next_inside; by rewrite Ec).
      eapply safe_mono; [apply (IH t (g ++ [c]))|].
      * by rewrite Hgt.
      * by rewrite (Hst eq_refl), Hs, Hr.
      * done.
      * intros o u (Hku & HEu & Hou). split; [lia|]. split; [done|]. destruct o; rewrite <- ?Ho; done.
  - replace (if c =? 94 then IN_MSG else WAIT_FOR_MSG) with (state_of (inside_after false (g ++ [c])))
      by (rewrite Hi; unfold next_inside; by destruct (c =? 94)).
    apply IH; [done| |done]. rewrite Hr, Hs. by rewrite app_nil_r.
Qed.

(** How a connection ends. *)
Definition finished (fd : Z) (o : gset Z) t : Prop :=
  echoes (events t) /\ opened t = o ∖ {[fd]} /\
  (sent_to fd (events t) = reply (got_from fd (events t)) \/ send_failed fd (events t)).

Lemma serve_loop_runs fd fuel : forall n,
  (input_left (kernel n) < fuel)%nat ->
  sent_to fd (events n) = reply (got_from fd (events n)) -> echoes (events n) ->
  safe leaves (serve_loop fuel fd (state_of (inside_after false (got_from fd (events n))))) n
    (fun _ t => finished fd (opened n) t /\ (input_left (kernel t) <= input_left (kernel n))%nat).
Proof.
  induction fuel as [|fuel IH]; intros n Hf Hs HE; [lia|]. cbn [serve_loop].
  destruct (sys_recv (kernel n) fd 1024) as [r k] eqn:Er. pose proof (recv_keeps _ _ _ _ _ Er) as Hk.
  set (t := mkNet k (opened n) (match r with inr bs => [Received fd bs] | inl _ => [] end ++ events n)).
  assert (recv fd 1024 n = Ret r t) as E by (unfold recv; rewrite Er; by destruct r).
  unfold safe. step E. destruct r as [e|buf]; [by apply safe_perror_exit|].
  assert (echoes (events t)) as HEt by by apply echoes_received.
  destruct buf as [|c buf].
  { split; [|done]. split; [by apply echoes_closed|]. split; [done|]. left. simpl. rewrite decide_True, app_nil_r by done. done. }
  pose proof (recv_uses _ _ _ _ _ _ Er) as Hu.
  eapply safe_step; [apply (serve_bytes_runs fd (c :: buf) t (got_from fd (events n)))|].
  - simpl. by rewrite decide_True.
  - done.
  - done.
  - intros [st|] u (Hku & HEu & Hou); simpl in Hku.
    + destruct Hou as (Ho & Hgu & Hsu & ->). rewrite <- Hgu. eapply safe_mono; [apply IH|].
      * lia.
      * by rewrite Hgu.
      * done.
      * intros [] w [Hw Hkw]. rewrite Ho in Hw. split; [done|]. lia.
    + destruct Hou as [Hfail Ho]. split; [|lia]. split; [done|]. split; [done|by right].
Qed.

Lemma serve_connection_runs fd fuel n :
  (input_left (kernel n) < fuel)%nat ->
  got_from fd (events n) = [] -> sent_to fd (events n) = [] -> echoes (events n) ->
  safe leaves (serve_connection fuel fd) n
    (fun _ t => finished fd (opened n) t /\ (input_left (kernel t) <= input_left (kernel n))%nat).
Proof.
  intros Hf Hg Hs HE. unfold serve_connection.
  destruct (send_byte fd 42 n) as (r & t & E & Hk & Ho & HEt & Hgt & Hst); [|done|].
  { rewrite Hg, Hs. reflexivity. }
  unfold safe. step E. destruct (sent_none r); [by apply safe_bind, safe_perror_exit|].
  rewrite bind_mret. specialize (Hst eq_refl). rewrite Hs in Hst. rewrite Hg in Hgt.
  pose proof (serve_loop_runs fd fuel t) as Hl. rewrite Hgt, Ho in Hl. eapply safe_mono; [apply Hl|].
  - lia.
  - done.
  - done.
  - intros [] u [Hu Hku]. split; [done|lia].
Qed.

(** Connections are served one by one. *)
Lemma serve_rounds_run l fuel m : forall n,
  (input_left (kernel n) < fuel)%nat -> echoes (events n) ->
  safe leaves (serve_rounds m fuel l) n (fun _ t => echoes (events t) /\ opened t ⊆ opened n).
Proof.
  induction m as [|m IH]; intros n Hf HE; [by split|]. cbn [serve_rounds].
  apply (safe_step leaves _ _ _ (fun _ t =>
    echoes (events t) /\ opened t ⊆ opened n /\ (input_left (kernel t) < fuel)%nat)).
  - unfold serve_next. destruct (sys_accept (kernel n) l (opened n)) as [r k] eqn:Ea.
    pose proof (accept_keeps _ _ _ _ _ Ea) as Hk. destruct r as [e|fd].
    + assert (accept l n = Ret (inl e) (mkNet k (opened n) (events n))) as E by (unfold accept; by rewrite Ea).
      unfold safe. step E. by apply safe_perror_exit.
    + set (t := mkNet k ({[fd]} ∪ opened n) (Connected fd :: events n)).
      assert (accept l n = Ret (inr fd) t) as E by (unfold accept; by rewrite Ea).
      destruct (accept_fresh _ _ _ _ _ Ea) as [_ Hfresh].
      unfold safe. step E. set (t' := mkNet k (opened t) (Reported (sys_getnameinfo k) :: events t)).
      assert (report_peer_connected t = Ret tt t') as Er by done. step Er.
      eapply safe_step; [apply (serve_connection_runs fd fuel t')|].
      * simpl. lia.
      * simpl. by rewrite decide_True.
      * simpl. by rewrite decide_True.
      * by apply echoes_quiet, echoes_connected.
      * intros [] u [(HEu & Ho & _) Hku]. simpl in Ho, Hku.
        split; [by apply echoes_quiet|]. split; [simpl; rewrite Ho; set_solver|simpl; lia].
  - intros [] t (HEt & Ho & Hl). eapply safe_mono; [by apply IH|]. intros [] u [? ?]. split; [done|set_solver].
Qed.
End Proofs.
End Sequential.
