(* ===== verification/Echo.v ===== *)
(** The echo servers: what is promised for every system, and a system on which
    it is seen.

    The system of the examples answers from a script; it is an instance of
    [KernelSpec] and of [Finite]. *)

From S2P Require Import Prelude SdbRow EchoSock EchoSelect EchoSpec EchoServer EchoSeq.
#[local] Open Scope Z_scope.

(** * A system with a script *)

Inductive answer :=
| A_select (r w : list Z)
| A_accept (fd : Z)
| A_recv (bs : list Z)
| A_send (n : Z).

Definition ECONNRESET : Z := 104.
Definition EINTR : Z := 4.

(** A call that the script has no answer for fails, and an answer that breaks a promise is left out. *)
#[global] Instance scripted : Kernel (list answer) := {
  sys_socket k o := (if bool_decide (3 ∈ o) then inl EAGAIN else inr 3, k);
  sys_setsockopt k _ := (inr tt, k);
  sys_bind k _ _ := (inr tt, k);
  sys_listen k _ _ := (inr tt, k);
  sys_getfl k _ := (inr 2, k);
  sys_setfl k _ _ := (inr tt, k);
  sys_select k _ r w :=
    match k with
    | A_select r' w' :: k' => (inr (list_to_set r' ∩ r, list_to_set w' ∩ w), k')
    | _ => (inl EINTR, k)
    end;
  sys_accept k _ o :=
    match k with
    | A_accept fd :: k' => if bool_decide (0 <= fd /\ fd ∉ o) then (inr fd, k') else (inl EAGAIN, k')
    | _ => (inl EAGAIN, k)
    end;
  sys_getnameinfo _ := None;
  sys_recv k _ n :=
    match k with
    | A_recv bs :: k' =>
        if bool_decide (Z.of_nat (length bs) <= n /\ Forall is_byte bs) then (inr bs, k') else (inl EAGAIN, k')
    | _ => (inl ECONNRESET, k)
    end;
  sys_send k _ bs :=
    match k with
    | A_send n :: k' => (inr (Z.max 0 (Z.min n (Z.of_nat (length bs)))), k')
    | _ => (inl EAGAIN, k)
    end
}.

#[global] Instance scripted_spec : KernelSpec (list answer).
Proof.
  split; simpl.
  - intros k o fd k'. destruct (bool_decide_reflect (3 ∈ o)); intros; simplify_eq. done.
  - intros k l o fd k'. destruct k as [|[] k]; try done. case_bool_decide; intros; simplify_eq. tauto.
  - intros k n r w r' w' k'. destruct k as [|[] k]; try done. intros. simplify_eq. set_solver.
  - intros k fd n bs k' Hn. destruct k as [|[] k]; try done. case_bool_decide; intros; simplify_eq. tauto.
  - intros k fd bs n k'. destruct k as [|[] k]; try done. intros. simplify_eq. lia.
Qed.

#[global] Instance scripted_finite : Sequential.Finite (list answer).
Proof.
  refine {| Sequential.input_left := length |}; simpl.
  - intros k fd n c bs k'. destruct k as [|[] k]; try done. case_bool_decide; intros; simplify_eq/=. lia.
  - intros k fd n r k'. destruct k as [|[] k]; try (intros; simplify_eq/=; lia). case_bool_decide; intros; simplify_eq/=; lia.
  - intros k l o r k'. destruct k as [|[] k]; try (intros; simplify_eq/=; lia). case_bool_decide; intros; simplify_eq/=; lia.
  - intros k fd bs r k'. destruct k as [|[] k]; intros; simplify_eq/=; lia.
Defined.

(** * The server over [select] *)

Definition start_of (script : list answer) : Net (list answer) := mkNet script {[0; 1; 2]} [].

(** Two peers: the first sends a message in two parts, the second comes in between; the answers
    go out in parts. *)
Definition two_peers : list answer :=
  [A_select [3] []; A_accept 4;
   A_select [3] [4]; A_accept 5; A_send 1;
   A_select [4] [5]; A_recv (chars "x^ab"); A_send 1;
   A_select [5] [4]; A_send 1; A_recv (chars "^z$");
   A_select [] [4; 5]; A_send 5; A_send 5;
   A_select [4] []; A_recv (chars "c$d");
   A_select [] [4]; A_send 1;
   A_select [4; 5] []; A_recv []; A_recv (chars "^")].

(** A run of the server prints this history, with the latest event first. *)
Example two_peers_run :
  match main [] 8 (start_of two_peers) with
  | Ret _ s =>
      omap (fun e => match e with Sent fd bs => Some (fd, bs) | Closed fd => Some (fd, []) | _ => None end)
        (rev (events (net s))) =
      [(4, chars "*"); (5, chars "*"); (4, chars "b"); (4, chars "c"); (5, chars "{"); (4, chars "d"); (4, [])] /\
      elements (readfds_master s) = [5; 3] /\ elements (writefds_master s) = []
  | _ => False
  end.
Proof. vm_compute. by repeat split. Qed.



(** * The server without [select] *)

Lemma new_connection fd o (k : list answer) :
  let n := mkNet k o [Connected fd] in
  got_from fd (events n) = [] /\ sent_to fd (events n) = [] /\ echoes (events n).
Proof. simpl. rewrite !decide_True by done. split_and!; [done|done|]. apply echoes_connected, echoes_nil. Qed.

(** C26: Serving a connection ends when its input does: the function returns or the process ends, a
    round for every byte that is to come is enough; the connection is closed, and has its whole
    reply unless a byte could not be sent. *)
Theorem serve_connection_ends {K} `{Sequential.Finite K, !KernelSpec K} fd fuel (n : Net K) :
  (Sequential.input_left (kernel n) < fuel)%nat ->
  got_from fd (events n) = [] -> sent_to fd (events n) = [] -> echoes (events n) ->
  match Sequential.serve_connection fuel fd n with
  | Ret _ t => Sequential.finished fd (opened n) t
  | Exit c t => echoes (events t) /\ c = EXIT_FAILURE
  | Undef | NoFuel => False
  end.
Proof.
  intros Hf Hg Hs HE. pose proof (Sequential.serve_connection_runs fd fuel n Hf Hg Hs HE) as Hr.
  unfold safe in Hr. destruct (Sequential.serve_connection fuel fd n); [apply Hr|exact Hr|done|done].
Qed.

Definition one_peer : list answer :=
  [A_send 1; A_recv (chars "a^b"); A_send 1; A_recv (chars "c$"); A_send 1; A_recv []].

Lemma serve_connection_ends_witness :
  match Sequential.serve_connection 7 4 (mkNet one_peer {[4]} [Connected 4]) with
  | Ret _ t => Sequential.finished 4 {[4]} t
  | Exit c t => echoes (events t) /\ c = EXIT_FAILURE
  | Undef | NoFuel => False
  end.
Proof.
  destruct (new_connection 4 {[4]} one_peer) as (Hg & Hs & HE).
  assert (Nat.lt (Sequential.input_left (kernel (mkNet one_peer {[4]} [Connected 4]))) 7) as Hl by (simpl; lia).
  exact (serve_connection_ends 4 7 (mkNet one_peer {[4]} [Connected 4]) Hl Hg Hs HE).
Defined.

(** C25: Both servers give a peer the same bytes: when a connection is closed by the server over
    [select], and another, to which the same bytes arrived, ends on the sequential server with no
    byte refused, the same bytes were sent on both, whatever the systems, the peers besides and
    the way the bytes were divided. *)
Theorem servers_agree {K K'} `{KernelSpec K, Sequential.Finite K', !KernelSpec K'}
    argv rounds (start : Net K) s after before fd d fuel (n t : Net K') :
  events start = [] -> main argv rounds start = Ret tt s -> events (net s) = after ++ Closed fd :: before ->
  (Sequential.input_left (kernel n) < fuel)%nat ->
  got_from d (events n) = [] -> sent_to d (events n) = [] -> echoes (events n) ->
  Sequential.serve_connection fuel d n = Ret tt t -> ~ Sequential.send_failed d (events t) ->
  got_from d (events t) = got_from fd before ->
  sent_to d (events t) = sent_to fd before.
Proof.
  intros En Em Ea Hf Hg Hs HE Et Hok Hsame.
  pose proof (main_runs argv rounds start En) as Hr. rewrite Em in Hr. destruct Hr as [[_ Hc] _].
  pose proof (Sequential.serve_connection_runs d fuel n Hf Hg Hs HE) as Hq. unfold safe in Hq. rewrite Et in Hq.
  destruct Hq as [(_ & _ & [Hfin|Hfail]) _]; [|done].
  by rewrite Hfin, Hsame, (Hc after before fd Ea).
Qed.

(** The script of [one_peer] for the server over [select]. *)
Definition one_peer_select : list answer :=
  [A_select [3] []; A_accept 4; A_select [] [4]; A_send 1;
   A_select [4] []; A_recv (chars "a^"); A_select [4] []; A_recv (chars "bc$"); A_select [] [4]; A_send 2;
   A_select [4] []; A_recv []].

Lemma one_peer_runs :
  exists s before, main [] 6 (start_of one_peer_select) = Ret tt s /\ events (net s) = [] ++ Closed 4 :: before /\
    got_from 4 before = chars "a^bc$".
Proof. eexists _, _. split; [vm_compute; reflexivity|]. split; reflexivity. Qed.

Lemma one_peer_served :
  exists t, Sequential.serve_connection 7 4 (mkNet one_peer {[4]} [Connected 4]) = Ret tt t /\
    got_from 4 (events t) = chars "a^bc$" /\ ~ Sequential.send_failed 4 (events t).
Proof. eexists. split; [vm_compute; reflexivity|]. split; [reflexivity|]. intros [rest E]. discriminate. Qed.

Lemma servers_agree_witness :
  exists before (t : Net (list answer)), got_from 4 before = chars "a^bc$" /\ sent_to 4 (events t) = sent_to 4 before.
Proof.
  destruct (new_connection 4 {[4]} one_peer) as (Hg & Hs & HE).
  assert (Nat.lt (Sequential.input_left (kernel (mkNet one_peer {[4]} [Connected 4]))) 7) as Hl by (simpl; lia).
  destruct one_peer_runs as (s & before & Em & Ea & Eb). destruct one_peer_served as (t & Et & Ec & Hok).
  exists before, t. split; [exact Eb|].
  exact (servers_agree [] 6 (start_of one_peer_select) s [] before 4 4 7 (mkNet one_peer {[4]} [Connected 4]) t
    eq_refl Em Ea Hl Hg Hs HE Et Hok (eq_trans Ec (eq_sym Eb))).
Defined.
